(* ===== verification/_CoqProject ===== *)
-Q . S2P
Prelude.v
Struct.v
ResultServer.v
GuestNetlog.v
Compressor.v
Aplib.v
Quarantine.v
PrettyTables.v
Pretty.v
ProcessLog.v
Behavior.v
Signature.v
RunSignatures.v
CapeSignatures.v
Plugins.v
Feeds.v
Database.v
TaskQueue.v
Submission.v
Dist.v
Machinery.v
Hypervisors.v
Qemu.v
PcapSort.v
Network.v
Analysis.v
Scheduler.v
Rooter.v
Agent.v
Guest.v
Analyzer.v
AnalyzerRun.v
WinPipe.v
WinProcess.v
PackageBase.v
Packages.v
GuestConfig.v
Launch.v
AutoProcess.v
