(* ===== verification/Prelude.v ===== *)
(** * CAPE sandbox: a verification library of its host, its guest agent and its log processing

    CAPE runs a sample in a virtual machine and reports what it did. This
    library models the parts of the program that carry its own logic and
    proves what makes them correct, or what they do instead. Paths are
    relative to src/.

    ** The program and its parts

    A task enters the database when a file, a URL or a capture is submitted.
    The scheduler takes pending tasks, locks a machine for each and starts an
    analysis thread, which starts the machine, sets up its network through the
    rooter, prepares the guest through its agent and waits for the end. The
    guest uploads files and logs to the result server. Afterwards the
    processing modules read the logs of the guest's monitor and the uploaded
    files, and summarise the behaviour.

<<
      Submission --> Database, TaskQueue <-- Scheduler --> Analysis --> Machinery, Rooter
                                                             |
                                           Guest (manager) --HTTP--> Agent (in the guest)
                                                             |
     GuestConfig --> Launch --> Packages --> WinProcess;  Analyzer, AnalyzerRun, WinPipe  (in the guest)
                                                             |
                                 GuestNetlog (in the guest) --> ResultServer --> files and logs
                                                                                   |
         AutoProcess --> Plugins --> Network, RunSignatures, Feeds                  |
                         Compressor --> ProcessLog --> Behavior;   Quarantine, Aplib (file decoders)
>>

    ** Files and what they model

    - Prelude.v: this text, the exceptions, the error and the state monad
      ([res], [st]), text and path operations of Python, the lemmas and
      tactics all files share.
    - Struct.v: byte strings as lists of [Z], slices, struct.pack and
      struct.unpack, exclusive or, the printed form of bytes.
    - ResultServer.v: lib/cuckoo/core/resultserver.py and open_exclusive of
      lib/cuckoo/common/files.py. A connection is a stream of chunks; the
      worker's tables change by the step relation [wstep].
    - GuestNetlog.v: the uploads of analyzer/windows/lib/common/results.py and
      analyzer/linux/lib/common/results.py, against the handlers of the host.
    - Compressor.v: lib/cuckoo/common/compressor.py (n-grams, cascade, log).
    - Aplib.v: lib/cuckoo/common/aplib.py, against a language of LZ tokens.
    - Quarantine.v: lib/cuckoo/common/quarantine.py, a Definition per format.
    - PrettyTables.v, Pretty.v: lib/cuckoo/common/utils_dicts.py,
      utils_pretty_print_funcs.py and the printing functions of utils.py; a
      function that tests flags is data ([printer]) that one interpreter runs.
    - ProcessLog.v: BsonParser of lib/cuckoo/common/netlog.py, the table of
      lib/cuckoo/common/logtbl.py, ParseProcessLog and Processes of
      modules/processing/behavior.py.
    - Behavior.v: the partial analyses and BehaviorAnalysis of
      modules/processing/behavior.py; the class [partial_behavior] is the
      interface between them.
    - Database.v, TaskQueue.v, Submission.v: lib/cuckoo/core/database.py. The
      tables are [gmap]s of records; [SqlBackend] is the interface of the SQL
      backend, with the order of rows, fresh keys and faults at any statement.
    - Machinery.v: class Machinery of lib/cuckoo/common/abstracts.py, the
      state of an analysis thread, and the client of the rooter
      (lib/cuckoo/core/rooter.py). [Outside] is the interface of everything an
      analysis thread calls and of the other threads.
    - Analysis.v, Scheduler.v: AnalysisManager and Scheduler of
      lib/cuckoo/core/scheduler.py.
    - Rooter.v: utils/rooter.py on the rules of a packet filter.
    - Agent.v: agent/agent.py on the operating system of the guest, the
      interface [guest_os].
    - Guest.v: GuestManager of lib/cuckoo/core/guest.py against the interface
      [host] of network, database and clock, and its instance [system_host],
      in which the network is the agent of Agent.v.
    - Hypervisors.v, Qemu.v: LibVirtMachinery of lib/cuckoo/common/abstracts.py
      and the managers KVM, VirtualBox, VMware, Proxmox, QEMU and several at
      once (multi.py) of modules/machinery/, on hypervisors that are interfaces.
    - Analyzer.v, AnalyzerRun.v, WinPipe.v: the analyzer in a Windows guest,
      analyzer/windows/analyzer.py with lib/core/pipe.py and lib/core/log.py: the
      commands of the monitor, the list of processes, the loop that watches
      them, the dump of the files, the pipes. [windows] is the interface of
      the system.
    - WinProcess.v: Process of analyzer/windows/lib/api/process.py (start,
      inject, resume, dumps), on the calls of Windows as the interface [winapi].
    - PackageBase.v, Packages.v: lib/common/abstracts.py of the analyzer, the
      packages of modules/packages/ and the choice of a package
      (lib/core/packages.py). A package is data ([package]) with its programs
      of steps; the [guest_laws] are what its proofs need of the guest.
    - GuestConfig.v: analysis.conf, as add_config of lib/cuckoo/core/guest.py
      writes it and class Config of the analyzer's lib/core/config.py reads it, on
      the reader of configparser.
    - Launch.v: the analyzer from its start to the running sample (prepare and
      the first part of run in analyzer.py), and what it reports.
    - Signature.v, RunSignatures.v: class Signature of
      lib/cuckoo/common/abstracts.py and RunSignatures of
      lib/cuckoo/core/plugins.py, on the code of the signatures as an interface.
    - CapeSignatures.v: the signatures of modules/signatures/CAPE.py, an instance
      of the interface of RunSignatures.v, with IsPEImage of
      lib/cuckoo/common/integrations/parse_pe.py.
    - Plugins.v, Feeds.v: the other managers of lib/cuckoo/core/plugins.py,
      process of utils/process.py, and class Feed.
    - AutoProcess.v: autoprocess of utils/process.py, the loop that gives
      finished tasks to a pool of workers, as the steps of the loop, the
      workers and the scheduler.
    - Dist.v: utils/dist.py with lib/cuckoo/common/dist_db.py, the tasks that are
      spread over nodes.
    - PcapSort.v, Network.v: modules/processing/network.py with
      lib/cuckoo/common/irc.py: sorting a capture, the packets of a stream, and
      what class Pcap collects. What dpkt finds in the bytes is a parameter.

    An operation is a Definition or Fixpoint under its Python name. An
    exception is [Raise e]; a method that changes its object is a function of
    the state that returns the state as it is when the exception leaves it.
    A dict is an association list where its order shows and a [gmap] else.

    ** What the theorems show

    - Transport: an uploaded file arrives byte for byte up to the limit, for
      every chunking of the stream and with the backslashes of Windows in its
      path (GuestNetlog, ResultServer); lines are
      reassembled; a file stays below its folder; the limit is exact; deleting
      a task cancels all its connections, in every interleaving.
    - Guest: preparing the guest over the network refines the script of
      operations on the guest (Guest); a pinned agent lets no other address
      change the guest, and answers others to a HEAD only (Agent); both waits end; the status the analyzer posts decides
      how the host's wait ends.
    - Queue and machines: fetch hands out exactly the first fitting task, once;
      a locked machine is not handed out again until its label is unlocked, its
      row deleted or the table cleaned; the invariant of the rows
      holds under every operation, fault and submission (Database, TaskQueue,
      Submission); whatever fails, an analysis thread returns without the
      machine lock and undoes its routes (Analysis); the number of analyses
      is bounded (Scheduler); the rules of the filter are those from before and
      of the routes that are on, but for two rules against invalid packets that
      each proxy route takes with it when it is switched off (Rooter).
    - Logs: iterating over a log, even one cut off in the middle of a message,
      gives the calls of its messages with equal neighbours merged; no bytes
      make a loop run on; the compressor keeps every text of a call as often as
      it was logged, when the CRC tells the texts apart (ProcessLog,
      Compressor). The summary keeps its invariant, and the process tree is
      complete (Behavior).
    - Values and files: printed flags determine the value (Pretty); the
      quarantine dispatcher gives back what was quarantined in the formats that
      work, and nothing only where McAfee's decoder finds nothing or the name
      cannot be used (Quarantine); the decompressor
      computes the meaning of the tokens and always ends (Aplib).
    - Analyzer: the commands of the monitor keep the invariant of the list of
      processes, the watch loop returns, pending files are uploaded, messages of a
      pipe are read whole (Analyzer, AnalyzerRun, WinPipe).
    - Launch: the clock and the options arrive in the guest as the host wrote them,
      in values of one line without percent signs, and a plain name of the sample
      is where it was stored (GuestConfig, Launch); a name that the analyzer
      chooses is that of a package, but for style sheets; whichever package
      runs, the tools are copied before a process exists, processes begin
      suspended unless the task is free (or they are calculators), and before a
      thread is resumed the loader was run on it, unless a tool was gone; the
      answer of the loader is not looked at; a package that
      does not exist is reported and starts nothing (Packages, Launch).
    - Machine managers: a started machine runs the state of its snapshot, every
      connection to libvirt is closed unless a start raises, the command line of QEMU (Hypervisors,
      Qemu).
    - Signatures: in a run with any of the signatures of CAPE, the automaton for
      process hollowing is sound for a pattern of calls, and exact when nothing
      is skipped; the signatures on buffers never match (CapeSignatures, on the
      results of ProcessLog and RunSignatures).
    - Plugins: a run of the signatures raises nothing whatever they do, but the
      exception of a log that cannot be read to its end, and has one match for
      each instance and class (RunSignatures); a log without the message of its
      process fails the task (Plugins); auxiliary modules are stopped in every case. The loop of
      the workers keeps its invariant in every interleaving and begins the
      oldest waiting task (AutoProcess); tasks that always fail starve the rest.
    - Distribution: the rows of the distributed tasks keep their invariant, a
      round submits a bounded number of tasks, and what is lost (Dist).
    - Network: sorting permutes a capture and keeps connections together, the
      offset of a TCP connection leads to its first packet with data, hosts and connections are
      listed once (PcapSort, Network).
    - Errors: the theorems of kind error state what the program does where it
      fails; the manifest's findings list the places in the source.

    ** Fuel and bounds

    Every recursion that is not structural has fuel, and a theorem that the
    fuel given is enough ([OutOfFuel] is no result): the bytes left in a log
    or stream ([file_fuel], [S (length buf)]), the bits left of compressed
    data, the number of rules of a chain, and for waits the seconds of the
    timeout plus two rounds ([rounds_of]). Loops that only the outside ends (the
    rounds of the analyzer, waiting for a machine, the stop of QEMU) take the
    number of rounds as an argument of their theorems. Sorting a capture has
    one round for every packet. Integers of 8, 16 and 32 bits are
    [Z] with the masks of the source; Python integers are unbounded [Z].

    ** What is not modelled, and why

    - Library code is a parameter with its documented behaviour: SQLAlchemy and
      the SQL backend, bson, olefile, requests, the HTTP server and the form
      parser, iptables and ip, the hypervisors, CRC32 and MD5.
    - Logging, timing statistics, the printed progress and memory debugging
      have no effect on results and are left out.
    - ParseProcessLog with ram_boost; the endless debugging loop of CAPE_DBG;
      empty argument arrays and dates out of range in logs.
    - Text is ASCII where the code changes it (file names, argument values
      after convert_to_printable), UTF-8 bytes elsewhere.
    - The Linux analyzer, the auxiliary modules of the guest, the web interface,
      the processing modules that wrap external tools, the reporting modules, the
      malware configuration parsers and the vendored PDF tools: see the
      components of the manifest.

    ** Plan

    What is left: the remaining machine managers, the decoders of
    modules/processing that need the formats of third-party libraries, and the
    Linux analyzer. *)

From Stdlib Require Export ZArith Lia Ascii String.
From stdpp Require Export base gmap sets strings sorting list.

#[global] Set Default Goal Selector "!".

(** ** Errors and the error monad *)

(** The exceptions the modelled code raises or lets escape, by Python class.
    [CuckooMachineError], [CuckooGuestError] and [CuckooNetworkError] are
    subclasses of [CuckooOperationalError] (lib/cuckoo/common/exceptions.py). *)
Inductive exn :=
| CuckooCriticalError
| CuckooOperationalError
| CuckooMachineError
| CuckooGuestError
| CuckooNetworkError
| CuckooDeadMachine
| CuckooDisableModule
| CuckooError
| CuckooPackageError
| EOFError
| TypeError
| ValueError
| AttributeError
| IndexError
| KeyError
| NameError
| NotImplementedError
| OSError
| ImportError
| RuntimeError
| AssertionError
| UnicodeDecodeError
| StructError   (** struct.error *)
| SQLAlchemyError
| IntegrityError
| OutOfFuel   (** not a Python exception: a loop bound was too small *)
| Blocked   (** not a Python exception: the thread waits for a lock forever *)
| ExternalError   (** an exception class of a library that the code names *)
| OtherException.

#[global] Instance exn_eq_dec : EqDecision exn.
Proof. solve_decision. Defined.

(** [sqlalchemy.exc.IntegrityError] is a subclass of [SQLAlchemyError]. *)
Definition is_sqlalchemy (e : exn) : bool :=
  match e with SQLAlchemyError | IntegrityError => true | _ => false end.

(** [except CuckooOperationalError] also catches its subclasses. *)
Definition is_operational (e : exn) : bool :=
  match e with
  | CuckooOperationalError | CuckooMachineError | CuckooGuestError | CuckooNetworkError => true
  | _ => false
  end.

Inductive res (A : Type) : Type :=
| Ok (a : A)
| Raise (e : exn).
Arguments Ok {A} _.
Arguments Raise {A} _.

#[global] Instance res_eq_dec A `{EqDecision A} : EqDecision (res A).
Proof. solve_decision. Defined.

Definition rbind {A B} (r : res A) (f : A -> res B) : res B :=
  match r with Ok a => f a | Raise e => Raise e end.

Definition of_option {A} (e : exn) (o : option A) : res A :=
  match o with Some a => Ok a | None => Raise e end.

(** State and exceptions: the state survives a raise, as Python's does. *)
Definition st (S A : Type) : Type := S -> res A * S.

Definition sret {S A} (a : A) : st S A := fun s => (Ok a, s).
Definition sraise {S A} (e : exn) : st S A := fun s => (Raise e, s).
Definition sbind {S A B} (m : st S A) (f : A -> st S B) : st S B := fun s =>
  match m s with
  | (Ok a, s') => f a s'
  | (Raise e, s') => (Raise e, s')
  end.
Definition sget {S} : st S S := fun s => (Ok s, s).
Definition smodify {S} (f : S -> S) : st S unit := fun s => (Ok tt, f s).
Definition slift {S A} (r : res A) : st S A := fun s => (r, s).

(** [try: m finally: k]: an exception of [k] replaces the one of [m]. *)
Definition sfinally {S A} (m : st S A) (k : st S unit) : st S A := fun s =>
  let '(r, s1) := m s in
  match k s1 with
  | (Ok _, s2) => (r, s2)
  | (Raise e, s2) => (Raise e, s2)
  end.

(** [try: m except ...: h e]: [h e = None] is a class that is not caught. *)
Definition scatch {S A} (m : st S A) (h : exn -> option (st S A)) : st S A := fun s =>
  match m s with
  | (Ok a, s1) => (Ok a, s1)
  | (Raise e, s1) =>
      match h e with Some k => k s1 | None => (Raise e, s1) end
  end.

Declare Scope cape_scope.
Delimit Scope cape_scope with cape.
Notation "'let!' x ':=' r 'in' k" := (rbind r (fun x => k))
  (at level 10, x pattern, r at level 100, k at level 200) : cape_scope.
Notation "'let*' x ':=' m 'in' k" := (sbind m (fun x => k))
  (at level 10, x pattern, m at level 100, k at level 200) : cape_scope.
Notation "'do*' m 'in' k" := (sbind m (fun _ => k))
  (at level 10, m at level 100, k at level 200) : cape_scope.
#[global] Open Scope cape_scope.

(** ** Byte strings and Python's operations on them *)

Abbreviation bytes := (list ascii).
Definition B (s : string) : bytes := list_ascii_of_string s.

Definition NL : ascii := "010"%char.
Definition NUL : ascii := "000"%char.
Definition SLASH : ascii := "/"%char.
Definition BACKSLASH : ascii := "\"%char.
Definition COLON : ascii := ":"%char.

(** [buf.find(c)] for a single byte: [None] is the [-1] of Python. *)
Fixpoint find_byte (c : ascii) (l : bytes) : option nat :=
  match l with
  | [] => None
  | x :: l' => if decide (x = c) then Some 0 else S <$> find_byte c l'
  end.

(** [path.replace(a, c)] for single bytes. *)
Definition replace_byte (a c : ascii) (l : bytes) : bytes :=
  (fun x => if decide (x = a) then c else x) <$> l.

Fixpoint has_prefix (p l : bytes) : bool :=
  match p, l with
  | [], _ => true
  | x :: p', y :: l' => bool_decide (x = y) && has_prefix p' l'
  | _ :: _, [] => false
  end.

(** [sub in l]. *)
Fixpoint contains_sub (sub l : bytes) : bool :=
  has_prefix sub l ||
  match l with [] => false | _ :: l' => contains_sub sub l' end.

Definition str_contains (sub s : string) : bool := contains_sub (B sub) (B s).

(** The whitespace [bytes.split()] and [int()] strip. *)
Definition is_ws (c : ascii) : bool :=
  bool_decide (c = " "%char \/ c = "009"%char \/ c = "010"%char
               \/ c = "011"%char \/ c = "012"%char \/ c = "013"%char).

(** [l.split()]: maximal runs of non-whitespace bytes. *)
Fixpoint split_ws_aux (cur : bytes) (l : bytes) : list bytes :=
  match l with
  | [] => match cur with [] => [] | _ => [reverse cur] end
  | c :: l' =>
      if is_ws c then
        match cur with [] => split_ws_aux [] l' | _ => reverse cur :: split_ws_aux [] l' end
      else split_ws_aux (c :: cur) l'
  end.
Definition split_ws (l : bytes) : list bytes := split_ws_aux [] l.

(** [l.split(c)] for one separator byte: always at least one piece. *)
Fixpoint split_byte_aux (c : ascii) (cur : bytes) (l : bytes) : list bytes :=
  match l with
  | [] => [reverse cur]
  | x :: l' =>
      if decide (x = c) then reverse cur :: split_byte_aux c [] l'
      else split_byte_aux c (x :: cur) l'
  end.
Definition split_byte (c : ascii) (l : bytes) : list bytes := split_byte_aux c [] l.

Definition digit_val (c : ascii) : option Z :=
  let n := Z.of_nat (nat_of_ascii c) in
  if bool_decide (48 <= n <= 57)%Z then Some (n - 48)%Z else None.

(** Digits with single underscores between them, as [int()] accepts. *)
Fixpoint int_digits (acc : Z) (last_digit : bool) (l : bytes) : option Z :=
  match l with
  | [] => if last_digit then Some acc else None
  | c :: l' =>
      match digit_val c with
      | Some d => int_digits (acc * 10 + d)%Z true l'
      | None =>
          if bool_decide (c = "_"%char) && last_digit then int_digits acc false l' else None
      end
  end.

Fixpoint drop_ws (l : bytes) : bytes :=
  match l with
  | c :: l' => if is_ws c then drop_ws l' else l
  | [] => []
  end.

Definition strip_ws (l : bytes) : bytes := reverse (drop_ws (reverse (drop_ws l))).

(** [int(l)]: surrounding whitespace, one sign, then digits. *)
Definition py_int (l : bytes) : option Z :=
  match strip_ws l with
  | c :: l' =>
      if bool_decide (c = "-"%char) then Z.opp <$> int_digits 0 false l'
      else if bool_decide (c = "+"%char) then int_digits 0 false l'
      else int_digits 0 false (c :: l')
  | [] => None
  end.

(** [l[:n]] with Python's reading of a negative bound. *)
Definition slice_to {A} (n : Z) (l : list A) : list A :=
  if bool_decide (0 <= n)%Z then take (Z.to_nat n) l
  else take (Z.to_nat (Z.of_nat (length l) + n)) l.

Definition zlen {A} (l : list A) : Z := Z.of_nat (length l).

(** Strict UTF-8 decoding succeeds: the well-formed sequences of the Unicode
    standard (no overlong forms, no surrogates, nothing above U+10FFFF). *)
Definition byte_in (lo hi : nat) (c : ascii) : bool :=
  Nat.leb lo (nat_of_ascii c) && Nat.leb (nat_of_ascii c) hi.
Definition cont : ascii -> bool := byte_in 128 191.
Fixpoint utf8_valid (l : bytes) : bool :=
  match l with
  | [] => true
  | a :: l1 =>
      if byte_in 0 127 a then utf8_valid l1 else
      match l1 with
      | [] => false
      | b :: l2 =>
          if byte_in 194 223 a then cont b && utf8_valid l2 else
          match l2 with
          | [] => false
          | c :: l3 =>
              let ok3 := (byte_in 224 224 a && byte_in 160 191 b)
                         || ((byte_in 225 236 a || byte_in 238 239 a) && cont b)
                         || (byte_in 237 237 a && byte_in 128 159 b) in
              if ok3 then cont c && utf8_valid l3 else
              match l3 with
              | [] => false
              | d :: l4 =>
                  let ok4 := (byte_in 240 240 a && byte_in 144 191 b)
                             || (byte_in 241 243 a && cont b)
                             || (byte_in 244 244 a && byte_in 128 143 b) in
                  ok4 && cont c && cont d && utf8_valid l4
              end
          end
      end
  end.

(** The same operations on text. *)
Definition text (l : bytes) : string := string_of_list_ascii l.
Definition split_on (c : ascii) (s : string) : list string := text <$> split_byte c (B s).

(** [s.lower()] on ASCII text. *)
Definition lower_ascii (c : ascii) : ascii :=
  let n := nat_of_ascii c in
  if Nat.leb 65 n && Nat.leb n 90 then ascii_of_nat (n + 32) else c.
Definition lower (s : string) : string := text (lower_ascii <$> B s).

Definition starts_with (p s : string) : bool := has_prefix (B p) (B s).
Definition ends_with (p s : string) : bool := has_prefix (reverse (B p)) (reverse (B s)).

(** The truth value of a string that may be [None]. *)
Definition truthy (o : option string) : bool :=
  match o with Some s => bool_decide (s <> EmptyString) | None => false end.

(** A comparison function as a relation. *)
Definition holds2 {A} (f : A -> A -> bool) : relation A := fun a b => f a b = true.
#[global] Instance holds2_dec {A} (f : A -> A -> bool) a b : Decision (holds2 f a b).
Proof. unfold holds2. solve_decision. Defined.

(** ** POSIX paths *)

(** [p.rfind('/') + 1]: the length of the part up to the last slash. *)
Fixpoint last_slash (p : bytes) : nat :=
  match p with
  | [] => 0
  | c :: p' =>
      match last_slash p' with
      | S n => S (S n)
      | 0 => if decide (c = SLASH) then 1 else 0
      end
  end.

Fixpoint drop_slashes (l : bytes) : bytes :=
  match l with
  | c :: l' => if decide (c = SLASH) then drop_slashes l' else l
  | [] => []
  end.
Definition rstrip_slash (l : bytes) : bytes := reverse (drop_slashes (reverse l)).

(** [posixpath.split]: the head loses its trailing slashes unless it is
    nothing but slashes. *)
Definition os_path_split (p : bytes) : bytes * bytes :=
  let i := last_slash p in
  let head := take i p in
  let tail := drop i p in
  match rstrip_slash head with
  | [] => (head, tail)
  | h => (h, tail)
  end.

(** [os.path.join(a, b)]: an absolute [b] replaces [a]. *)
Definition os_path_join (a b : bytes) : bytes :=
  if has_prefix [SLASH] b then b
  else match reverse a with
       | [] => b
       | c :: _ => if decide (c = SLASH) then a ++ b else a ++ SLASH :: b
       end.

(** ** Tactics *)


(** Case analysis on what the goal or a hypothesis is stuck on. *)
Ltac split_match :=
  match goal with
  | |- context [match ?x with _ => _ end] => destruct x eqn:?
  | H : context [match ?x with _ => _ end] |- _ => destruct x eqn:?
  end.
Ltac crush_match := repeat (simplify_eq/=; try split_match); try done.

(** Congruence down to arithmetic. *)
Ltac feq := repeat first [reflexivity | lia | f_equal].

(** ** Shared lemmas *)

Create HintDb cape.
Create Rewrite HintDb cape.

Lemma find_byte_None c l : find_byte c l = None <-> c ∉ l.
Proof.
  induction l as [|x l IH]; simpl; [set_solver|].
  case_decide; subst; [set_solver|].
  rewrite fmap_None, IH. set_solver.
Qed.

Lemma find_byte_app c l1 l2 :
  c ∉ l1 -> find_byte c (l1 ++ c :: l2) = Some (length l1).
Proof.
  induction l1 as [|x l1 IH]; simpl; intros H.
  - by rewrite decide_True.
  - rewrite decide_False by set_solver. rewrite IH by set_solver. done.
Qed.

Lemma find_byte_Some c l n :
  find_byte c l = Some n ->
  l = take n l ++ c :: drop (S n) l /\ c ∉ take n l.
Proof.
  revert n. induction l as [|x l IH]; simpl; intros n H; [done|].
  case_decide; simplify_eq/=; [set_solver|].
  apply fmap_Some in H as (m & Hm & ->). destruct (IH _ Hm) as [E N]. simpl.
  split; [by rewrite <- E|set_solver].
Qed.

Lemma replace_byte_notin a c l : a <> c -> a ∉ replace_byte a c l.
Proof.
  intros Hne. unfold replace_byte. rewrite list_elem_of_fmap.
  intros (x & E & _). case_decide; congruence.
Qed.

Lemma replace_byte_id a c l : a ∉ l -> replace_byte a c l = l.
Proof.
  unfold replace_byte. induction l as [|x l IH]; [done|]. csimpl. intros H.
  rewrite decide_False by set_solver. rewrite IH by set_solver. done.
Qed.

Lemma replace_byte_length a c l : length (replace_byte a c l) = length l.
Proof. apply length_fmap. Qed.

Lemma last_slash_le p : last_slash p <= length p.
Proof.
  induction p as [|c p IH]; simpl; [lia|].
  destruct (last_slash p); [case_decide|]; lia.
Qed.

Lemma last_slash_drop p : SLASH ∉ drop (last_slash p) p.
Proof.
  induction p as [|c p IH]; simpl; [set_solver|].
  destruct (last_slash p) as [|n] eqn:E; [|done].
  case_decide; simpl in *; set_solver.
Qed.

Lemma has_prefix_app p l : has_prefix p (p ++ l) = true.
Proof. induction p; simpl; [done|]. by rewrite bool_decide_true. Qed.

Lemma has_prefix_spec p l : has_prefix p l = true <-> exists k, l = p ++ k.
Proof.
  revert l. induction p as [|x p IH]; intros l; simpl; [naive_solver|].
  destruct l as [|y l]; [naive_solver|].
  rewrite andb_true_iff, bool_decide_eq_true, IH. naive_solver.
Qed.

Lemma contains_sub_spec sub l :
  contains_sub sub l = true <-> exists a b, l = a ++ sub ++ b.
Proof.
  induction l as [|x l IH]; simpl.
  - rewrite orb_true_iff, has_prefix_spec. split.
    + intros [[k Hk]|?]; [|done]. exists [], k. done.
    + intros (a & b & H). left. destruct a; [|done]. by exists b.
  - rewrite orb_true_iff, has_prefix_spec, IH. split.
    + intros [[k ->]|(a & b & ->)]; [by exists [], k|]. by exists (x :: a), b.
    + intros ([|y a] & b & H); [left; by exists b|]. right. exists a, b. naive_solver.
Qed.

Lemma zlen_app {A} (l1 l2 : list A) : zlen (l1 ++ l2) = (zlen l1 + zlen l2)%Z.
Proof. unfold zlen. rewrite length_app. lia. Qed.

Lemma zlen_nonneg {A} (l : list A) : (0 <= zlen l)%Z.
Proof. unfold zlen. lia. Qed.

#[export] Hint Rewrite @zlen_app : cape.
#[export] Hint Resolve find_byte_app last_slash_drop replace_byte_notin has_prefix_app zlen_nonneg : cape.

(** *** Paths *)

Lemma last_slash_app_notin p t : SLASH ∉ t -> last_slash (p ++ SLASH :: t) = S (length p).
Proof.
  intros Ht. induction p as [|c p IH]; simpl.
  - assert (last_slash t = 0) as ->; [|done].
    induction t as [|x t IHt]; simpl; [done|].
    rewrite IHt by set_solver. rewrite decide_False by set_solver. done.
  - rewrite IH. done.
Qed.

Lemma last_slash_take p n : last_slash p = S n -> take (S n) p = take n p ++ [SLASH].
Proof.
  revert n. induction p as [|c p IH]; simpl; intros n H; [done|].
  destruct (last_slash p) as [|m] eqn:E.
  - case_decide; simplify_eq/=. done.
  - simplify_eq/=. f_equal. by apply IH.
Qed.

Lemma drop_slashes_spec l : exists k, l = replicate k SLASH ++ drop_slashes l.
Proof.
  induction l as [|c l [k IH]]; simpl; [by exists 0|].
  case_decide as E; [|by exists 0]. exists (S k). simpl. rewrite E. f_equal. exact IH.
Qed.

Lemma rstrip_slash_spec l : exists k, l = rstrip_slash l ++ replicate k SLASH.
Proof.
  unfold rstrip_slash. destruct (drop_slashes_spec (reverse l)) as [k Hk].
  exists k. apply (inj reverse). rewrite reverse_app, reverse_involutive, reverse_replicate.
  exact Hk.
Qed.

Lemma rstrip_slash_snoc l : rstrip_slash (l ++ [SLASH]) = rstrip_slash l.
Proof. unfold rstrip_slash. by rewrite reverse_snoc. Qed.

Lemma rstrip_slash_id l c : c <> SLASH -> rstrip_slash (l ++ [c]) = l ++ [c].
Proof.
  intros Hc. unfold rstrip_slash. rewrite reverse_snoc. simpl.
  rewrite decide_False by done. by rewrite reverse_cons, reverse_involutive.
Qed.

(** The pieces of [os.path.split], for a head that is not all slashes. *)
Lemma os_path_split_spec p h t :
  os_path_split p = (h, t) -> has_prefix [SLASH] h = false ->
  SLASH ∉ t /\ ((h = [] /\ p = t) \/ exists k, p = h ++ replicate (S k) SLASH ++ t).
Proof.
  unfold os_path_split. intros H Hh.
  pose proof (last_slash_drop p) as Hd.
  destruct (last_slash p) as [|n] eqn:E.
  - simpl in H. simplify_eq/=. auto.
  - rewrite (last_slash_take _ _ E), rstrip_slash_snoc in H.
    destruct (rstrip_slash_spec (take n p)) as [k Hk].
    assert (t = drop (S n) p) as -> by (destruct (rstrip_slash (take n p)); congruence).
    split; [done|].
    destruct (rstrip_slash (take n p)) as [|x l] eqn:Er; simplify_eq/=.
    + rewrite Hk in Hh. destruct k; done.
    + right. exists k.
      rewrite <- (take_drop (S n) p) at 1. rewrite (last_slash_take _ _ E), Hk.
      rewrite (app_comm_cons (replicate k SLASH)), replicate_cons_app.
      by list_simplifier.
Qed.

Lemma os_path_split_app d c t :
  c <> SLASH -> SLASH ∉ t -> os_path_split ((d ++ [c]) ++ SLASH :: t) = (d ++ [c], t).
Proof.
  intros Hc Ht. unfold os_path_split. rewrite last_slash_app_notin by done.
  change (SLASH :: t) with ([SLASH] ++ t). rewrite app_assoc.
  rewrite take_app_length' by (rewrite !length_app; simpl; lia).
  rewrite drop_app_length' by (rewrite !length_app; simpl; lia).
  rewrite rstrip_slash_snoc, rstrip_slash_id by done.
  by destruct (d ++ [c]) eqn:E; [destruct d|].
Qed.

Lemma os_path_join_rel a c b :
  c <> SLASH -> has_prefix [SLASH] b = false -> os_path_join (a ++ [c]) b = (a ++ [c]) ++ SLASH :: b.
Proof.
  intros Hc Hb. unfold os_path_join. rewrite Hb, reverse_snoc. by rewrite decide_False.
Qed.

(** *** The state-and-exception monad *)

Lemma sbind_inv {S A B} (m : st S A) (f : A -> st S B) s r s' :
  sbind m f s = (r, s') ->
  (exists a s1, m s = (Ok a, s1) /\ f a s1 = (r, s')) \/ (exists e, m s = (Raise e, s') /\ r = Raise e).
Proof. unfold sbind. destruct (m s) as [[a|e] s1]; naive_solver. Qed.

Lemma sbind_ok_inv {S A B} (m : st S A) (f : A -> st S B) s b s' :
  sbind m f s = (Ok b, s') -> exists a s1, m s = (Ok a, s1) /\ f a s1 = (Ok b, s').
Proof. intros [(a & s1 & H1 & H2)|(e & _ & ?)]%sbind_inv; [by exists a, s1|done]. Qed.

Lemma scatch_inv {S A} (m : st S A) h s r s' :
  scatch m h s = (r, s') ->
  (exists a, m s = (Ok a, s') /\ r = Ok a) \/
  (exists e s1, m s = (Raise e, s1) /\
     ((exists k, h e = Some k /\ k s1 = (r, s')) \/ (h e = None /\ r = Raise e /\ s' = s1))).
Proof.
  unfold scatch. destruct (m s) as [[a|e] s1]; [naive_solver|]. destruct (h e) eqn:E; [|naive_solver].
  intros Hk. right. exists e, s1. split; [done|]. left. eauto.
Qed.

Lemma sbind_ok {S A B} (m : st S A) (f : A -> st S B) s a s1 :
  m s = (Ok a, s1) -> sbind m f s = f a s1.
Proof. unfold sbind. by intros ->. Qed.

(** [within R m]: running [m] from any state moves only along [R], whether it
    returns or raises. *)
Definition within {S A} (R : relation S) (m : st S A) : Prop := forall s, R s (snd (m s)).

Section within.
Context {S : Type} (R : relation S) `{!PreOrder R}.

Lemma within_ret {A} (a : A) : within R (sret a).
Proof using PreOrder0. intros s. by simpl. Qed.

Lemma within_raise {A} e : within R (@sraise S A e).
Proof using PreOrder0. intros s. by simpl. Qed.

Lemma within_lift {A} (r : res A) : within R (slift r).
Proof using PreOrder0. intros s. by simpl. Qed.

Lemma within_bind {A B} (m : st S A) (f : A -> st S B) :
  within R m -> (forall a, within R (f a)) -> within R (sbind m f).
Proof using PreOrder0.
  intros Hm Hf s. specialize (Hm s). unfold sbind.
  destruct (m s) as [[a|e] s1]; simpl in *; [|done]. etrans; [done|apply Hf].
Qed.

Lemma within_finally {A} (m : st S A) k :
  within R m -> within R k -> within R (sfinally m k).
Proof using PreOrder0.
  intros Hm Hk s. specialize (Hm s). unfold sfinally.
  destruct (m s) as [r s1]. specialize (Hk s1). simpl in *.
  destruct (k s1) as [[]]; simpl in *; by etrans.
Qed.

Lemma within_catch {A} (m : st S A) h :
  within R m -> (forall e k, h e = Some k -> within R k) -> within R (scatch m h).
Proof using PreOrder0.
  intros Hm Hh s. specialize (Hm s). unfold scatch.
  destruct (m s) as [[a|e] s1]; simpl in *; [done|].
  destruct (h e) eqn:E; [|done]. etrans; [done|]. by apply (Hh e).
Qed.
End within.

#[export] Hint Resolve within_ret within_raise within_lift within_bind within_finally within_catch : cape.

(** [never e m]: [m] does not raise [e] from any state. *)
Definition never (e : exn) {S A} (m : st S A) : Prop := forall s, (m s).1 <> Raise e.

Section never.
Context {S : Type} (e : exn).

Lemma never_ret {A} (a : A) : never e (@sret S A a).
Proof. by intros s. Qed.
Lemma never_raise {A} e' : e' <> e -> never e (@sraise S A e').
Proof. intros Hne s. simpl. congruence. Qed.
Lemma never_bind {A B} (m : st S A) (f : A -> st S B) :
  never e m -> (forall a, never e (f a)) -> never e (sbind m f).
Proof.
  intros Hm Hf s. specialize (Hm s). unfold sbind. destruct (m s) as [[a|x] s1]; [apply Hf|simpl in *; congruence].
Qed.
Lemma never_catch {A} (m : st S A) h :
  never e m -> (forall x k, x <> e -> h x = Some k -> never e k) -> never e (scatch m h).
Proof.
  intros Hm Hh s. specialize (Hm s). unfold scatch. destruct (m s) as [[a|x] s1]; [done|].
  destruct (h x) eqn:E; [|done]. apply (Hh x _); [|done]. simpl in Hm. congruence.
Qed.
Lemma never_get : never e (@sget S).
Proof. by intros s. Qed.
Lemma never_modify (f : S -> S) : never e (smodify f).
Proof. by intros s. Qed.
End never.

(** Splits a goal [within R m] along the structure of [m]. *)
Ltac within_step :=
  first [ assumption
        | lazymatch goal with
          | |- within _ (sbind _ _) => apply within_bind; [typeclasses eauto| |intros]
          | |- within _ (sfinally _ _) => apply within_finally; [typeclasses eauto| |]
          | |- within _ (sret _) => apply within_ret; typeclasses eauto
          | |- within _ (sraise _) => apply within_raise; typeclasses eauto
          | |- within _ (slift _) => apply within_lift; typeclasses eauto
          | |- within _ (match ?x with _ => _ end) => destruct x eqn:?
          | |- PreOrder _ => typeclasses eauto
          end ].
Ltac within_tac := repeat within_step.

(** Rule induction on reachability. *)
Lemma rtc_invariant {A} (R : relation A) (I : A -> Prop) x y :
  rtc R x y -> I x -> (forall a b, R a b -> I a -> I b) -> I y.
Proof. intros H Hx HR. induction H; eauto. Qed.

Lemma take_pos_nil {A} n (l : list A) : 0 < n -> take n l = [] -> l = [].
Proof. destruct n, l; simpl; [lia|lia|done|done]. Qed.

(** *** Sorting *)

Lemma merge_sort_head {A} (R : relation A) `{!forall x y, Decision (R x y), !Total R, !Transitive R} l x :
  head (merge_sort R l) = Some x -> x ∈ l /\ forall y, y ∈ l -> x = y \/ R x y.
Proof.
  intros Hh. pose proof (merge_sort_Permutation R l) as Hp.
  pose proof (StronglySorted_merge_sort R l) as Hs.
  destruct (merge_sort R l) as [|z k]; simplify_eq/=. apply StronglySorted_inv in Hs as [_ Hs].
  rewrite Forall_forall in Hs. setoid_rewrite <- Hp. split; [apply list_elem_of_here|].
  intros y Hy. apply elem_of_cons in Hy as [->|Hy]; auto.
Qed.

Lemma merge_sort_nil {A} (R : relation A) `{!forall x y, Decision (R x y)} l :
  head (merge_sort R l) = None -> l = [].
Proof.
  intros Hh. pose proof (merge_sort_Permutation R l) as Hp.
  destruct (merge_sort R l); [|done]. by apply Permutation_nil.
Qed.

Lemma filter_all {A} (P : A -> Prop) `{!forall x, Decision (P x)} (l : list A) : (forall x, x ∈ l -> P x) -> filter P l = l.
Proof.
  induction l as [|x l IH]; intros Hl; [done|]. rewrite filter_cons_True by set_solver. rewrite IH; set_solver.
Qed.

(** *** Rows of a table *)

Lemma alter_present {A} (f : A -> A) (i : Z) (t : gmap Z A) x : t !! i = Some x -> alter f i t = <[i := f x]> t.
Proof. intros Hx. apply map_eq. intros j. destruct (decide (i = j)) as [->|]; by simplify_map_eq. Qed.

Lemma alter_absent {A} (f : A -> A) (i : Z) (t : gmap Z A) : t !! i = None -> alter f i t = t.
Proof. intros Hx. apply map_eq. intros j. destruct (decide (i = j)) as [->|]; by simplify_map_eq. Qed.

(** *** Text *)

Lemma text_B s : text (B s) = s.
Proof. apply string_of_list_ascii_of_string. Qed.
Lemma B_text l : B (text l) = l.
Proof. apply list_ascii_of_string_of_list_ascii. Qed.

Lemma B_app s1 s2 : B (s1 +:+ s2) = B s1 ++ B s2.
Proof. unfold B. induction s1 as [|c s1 IH]; simpl; [done|]. by rewrite IH. Qed.

Lemma split_byte_app c a b : split_byte c (a ++ c :: b) = split_byte c a ++ split_byte c b.
Proof.
  unfold split_byte. generalize (@nil ascii) at 1 2. induction a as [|x a IH]; intros cur; simpl.
  - by rewrite decide_True.
  - case_decide; [by rewrite IH|apply IH].
Qed.

Lemma split_byte_single c b : c ∉ b -> split_byte c b = [b].
Proof.
  intros Hb. unfold split_byte. assert (forall cur, split_byte_aux c cur b = [reverse cur ++ b]) as ->; [|done].
  induction b as [|x b IH]; intros cur; simpl; [by rewrite app_nil_r|].
  rewrite decide_False by set_solver. rewrite IH by set_solver. by rewrite reverse_cons, <- app_assoc.
Qed.

Lemma split_on_app c s1 s2 :
  split_on c (s1 +:+ text [c] +:+ s2) = split_on c s1 ++ split_on c s2.
Proof. unfold split_on. rewrite !B_app, B_text. simpl. by rewrite split_byte_app, fmap_app. Qed.

Lemma lower_ascii_not_upper c : ~ (65 <= nat_of_ascii (lower_ascii c) <= 90)%nat.
Proof. destruct c as [[] [] [] [] [] [] [] []]; vm_compute; lia. Qed.

(** Lower-case text does not begin with a capital. *)
Lemma lower_starts_with c p s :
  (65 <= nat_of_ascii c <= 90)%nat -> starts_with (String c p) (lower s) = false.
Proof.
  intros Hc. unfold starts_with, lower. rewrite B_text. destruct (B s) as [|x l]; [done|].
  change (B (String c p)) with (c :: B p). csimpl.
  rewrite bool_decide_false; [done|]. intros ->. by apply (lower_ascii_not_upper x).
Qed.
