(* ===== verification/Struct.v ===== *)
(** Byte strings as lists of integers: the slices, the [struct] formats and the
    printed forms that the decoders of lib/cuckoo/common use. *)
From S2P Require Import Prelude.
Open Scope Z_scope.

(** A byte of a Python [bytearray]. *)
Definition is_byte (b : Z) : Prop := 0 <= b < 256.

(** The bound of a slice: negative ones count from the end, all are clipped. *)
Definition slice_bound {A} (l : list A) (i : Z) : nat :=
  if i <? 0 then Z.to_nat (zlen l + i) else Nat.min (Z.to_nat (Z.min i (zlen l))) (length l).

(** [l[a:b]] and [l[a:]]. *)
Definition slice {A} (l : list A) (a b : Z) : list A :=
  take (slice_bound l b - slice_bound l a)%nat (drop (slice_bound l a) l).
Definition slice_from {A} (l : list A) (a : Z) : list A := drop (slice_bound l a) l.

(** Little-endian values of any number of bytes. *)
Fixpoint le_val (l : list Z) : Z :=
  match l with [] => 0 | b :: l' => b + 256 * le_val l' end.
Fixpoint le_bytes (n : nat) (v : Z) : list Z :=
  match n with O => [] | S n' => v mod 256 :: le_bytes n' (v / 256) end.

(** [struct.unpack] of one unsigned field of [n] bytes ("B", "<H", "<I",
    "<Q"): the argument has exactly that length. *)
Definition unpack (n : nat) (l : list Z) : res Z :=
  if decide (length l = n) then Ok (le_val l) else Raise StructError.

(** [struct.unpack_from]: the argument has at least that length. *)
Definition unpack_from (n : nat) (l : list Z) : res Z :=
  if decide (n <= length l)%nat then Ok (le_val (take n l)) else Raise StructError.

(** [struct.pack]: the value fits the field. *)
Definition pack (n : nat) (v : Z) : res (list Z) :=
  if decide (0 <= v < 256 ^ Z.of_nat n) then Ok (le_bytes n v) else Raise StructError.

(** [data[i] ^= k] on a [bytearray], for an index that is not negative. *)
Definition xor_at (data : list Z) (i : nat) (k : Z) : res (list Z) :=
  match data !! i with
  | Some b => Ok (<[i := Z.lxor b k]> data)
  | None => Raise IndexError
  end.

(** [for i in range(n): data[start + i] ^= key(i)]. *)
Fixpoint xor_loop (key : nat -> Z) (i n start : nat) (data : list Z) : res (list Z) :=
  match n with
  | O => Ok data
  | S n' => let! data' := xor_at data (start + i) (key i) in xor_loop key (S i) n' start data'
  end.

(** [repr(bytes)]: quotes, the escapes of Python and [\xhh]. *)
Definition byte_char (b : Z) : ascii := ascii_of_nat (Z.to_nat b).
Definition hex_digit (d : Z) : ascii := byte_char (if d <? 10 then 48 + d else 87 + d).
Definition repr_byte (quote : ascii) (b : Z) : bytes :=
  let c := byte_char b in
  if bool_decide (c = quote \/ c = BACKSLASH) then [BACKSLASH; c]
  else if b =? 9 then B "\t" else if b =? 10 then B "\n" else if b =? 13 then B "\r"
  else if (32 <=? b) && (b <? 127) then [c]
  else B "\x" ++ [hex_digit (b / 16); hex_digit (b mod 16)].
Definition repr_bytes (l : list Z) : bytes :=
  let quote := if bool_decide (39 ∈ l /\ 34 ∉ l) then byte_char 34 else byte_char 39 in
  B "b" ++ quote :: mjoin (repr_byte quote <$> l) ++ [quote].

(** [str(bytes)] and [str(bytearray)]. *)
Definition str_bytes : list Z -> bytes := repr_bytes.
Definition str_bytearray (l : list Z) : bytes := B "bytearray(" ++ repr_bytes l ++ B ")".

(** [s.rstrip('\0')]. *)
Fixpoint drop_nuls (l : bytes) : bytes :=
  match l with c :: l' => if decide (c = NUL) then drop_nuls l' else l | [] => [] end.
Definition rstrip_nul (l : bytes) : bytes := reverse (drop_nuls (reverse l)).

(** ** Bytes *)

Lemma lxor_byte a b : is_byte a -> is_byte b -> is_byte (Z.lxor a b).
Proof.
  unfold is_byte. intros Ha Hb. change 256 with (2 ^ 8) in *.
  assert (Hlow : forall x, 0 <= x < 2 ^ 8 -> forall i, 8 <= i -> Z.testbit x i = false).
  { intros x Hx i Hi. destruct (decide (x = 0)) as [->|]; [apply Z.bits_0|].
    apply Z.bits_above_log2; [lia|]. apply Z.log2_lt_pow2; [lia|].
    eapply Z.lt_le_trans; [apply Hx|]. apply Z.pow_le_mono_r; lia. }
  assert (0 <= Z.lxor a b) by (apply Z.lxor_nonneg; lia). split; [done|].
  destruct (decide (Z.lxor a b = 0)) as [->|]; [lia|]. apply Z.log2_lt_pow2; [lia|].
  apply Z.nle_gt. intros Hle. pose proof (Z.bit_log2 (Z.lxor a b) ltac:(lia)) as Hbit.
  rewrite Z.lxor_spec, (Hlow a), (Hlow b) in Hbit by (done || lia). done.
Qed.

Lemma lxor_twice a k : Z.lxor (Z.lxor a k) k = a.
Proof. by rewrite Z.lxor_assoc, Z.lxor_nilpotent, Z.lxor_0_r. Qed.

Lemma mod_byte v : is_byte (v mod 256).
Proof. apply Z.mod_pos_bound. lia. Qed.
#[export] Hint Resolve lxor_byte mod_byte : cape.

Lemma le_bytes_length n v : length (le_bytes n v) = n.
Proof. revert v. induction n; intros v; simpl; auto. Qed.

Lemma le_bytes_byte n v : Forall is_byte (le_bytes n v).
Proof. revert v. induction n; intros v; simpl; constructor; auto with cape. Qed.

(** Reading back what was packed. *)
Lemma le_val_bytes n v : 0 <= v < 256 ^ Z.of_nat n -> le_val (le_bytes n v) = v.
Proof.
  revert v. induction n as [|n IH]; intros v Hv; simpl; [simpl in Hv; lia|].
  rewrite Nat2Z.inj_succ, Z.pow_succ_r in Hv by lia.
  rewrite IH; [pose proof (Z.div_mod v 256); lia|]. split; [apply Z.div_pos; lia|]. apply Z.div_lt_upper_bound; lia.
Qed.

Lemma le_val_bound l : Forall is_byte l -> 0 <= le_val l < 256 ^ zlen l.
Proof.
  unfold zlen. induction 1 as [|b l Hb Hl IH]; [simpl; lia|].
  cbn [le_val length]. rewrite Nat2Z.inj_succ, Z.pow_succ_r by lia. unfold is_byte in Hb. nia.
Qed.

Lemma unpack_pack n v : 0 <= v < 256 ^ Z.of_nat n -> unpack n (le_bytes n v) = Ok v.
Proof. intros Hv. unfold unpack. rewrite decide_True, le_val_bytes; auto using le_bytes_length. Qed.

Lemma unpack_bound n l v : Forall is_byte l -> unpack n l = Ok v -> 0 <= v < 256 ^ Z.of_nat n.
Proof. unfold unpack. intros Hl Hu. case_decide; simplify_eq. by apply le_val_bound. Qed.

(** ** Slices *)

Lemma slice_bound_in {A} (l : list A) i : 0 <= i <= zlen l -> slice_bound l i = Z.to_nat i.
Proof. unfold slice_bound, zlen. intros Hi. rewrite (proj2 (Z.ltb_ge _ _)) by lia. lia. Qed.

Lemma slice_app {A} (p m q : list A) : slice (p ++ m ++ q) (zlen p) (zlen p + zlen m) = m.
Proof.
  unfold slice. rewrite !slice_bound_in by (rewrite !zlen_app; unfold zlen; lia).
  replace (Z.to_nat (zlen p)) with (length p) by (unfold zlen; lia). rewrite drop_app_length.
  replace (_ - _)%nat with (length m) by (unfold zlen; lia). apply take_app_length.
Qed.

Lemma slice_from_app {A} (p q : list A) : slice_from (p ++ q) (zlen p) = q.
Proof.
  unfold slice_from. rewrite slice_bound_in by (rewrite zlen_app; unfold zlen; lia).
  replace (Z.to_nat (zlen p)) with (length p) by (unfold zlen; lia). apply drop_app_length.
Qed.

(** The forms that rewriting needs: the bounds are equal to lengths. *)
Lemma slice_at {A} (l p m q : list A) a b :
  l = p ++ m ++ q -> a = zlen p -> b = zlen p + zlen m -> slice l a b = m.
Proof. intros -> -> ->. apply slice_app. Qed.

Lemma slice_from_at {A} (l p q : list A) a : l = p ++ q -> a = zlen p -> slice_from l a = q.
Proof. intros -> ->. apply slice_from_app. Qed.

Lemma slice_Forall {A} (P : A -> Prop) l a b : Forall P l -> Forall P (slice l a b).
Proof. intros Hl. unfold slice. auto using Forall_take, Forall_drop. Qed.

Lemma slice_from_Forall {A} (P : A -> Prop) l a : Forall P l -> Forall P (slice_from l a).
Proof. intros Hl. unfold slice_from. auto using Forall_drop. Qed.
#[export] Hint Resolve slice_Forall slice_from_Forall le_bytes_byte : cape.

Lemma slice_bound_le {A} (l : list A) i : 0 <= i -> (slice_bound l i <= Z.to_nat i)%nat.
Proof. unfold slice_bound. intros Hi. rewrite (proj2 (Z.ltb_ge _ _)) by lia. lia. Qed.

Lemma slice_length_le {A} (l : list A) a b : 0 <= a <= b -> zlen (slice l a b) <= b - a.
Proof.
  intros Hab. unfold slice, zlen. rewrite length_take, length_drop.
  unfold slice_bound. rewrite !(proj2 (Z.ltb_ge _ _)) by lia. unfold zlen. lia.
Qed.

(** What a slice covers lies in the string. *)
Lemma slice_length_in {A} (l : list A) a b : 0 <= a -> slice l a b <> [] -> a + zlen (slice l a b) <= zlen l.
Proof.
  intros Ha Hne. assert (Hpos : (0 < length (slice l a b))%nat) by (destruct (slice l a b); [done|simpl; lia]).
  revert Hpos. unfold slice, zlen. rewrite length_take, length_drop. generalize (slice_bound l b). intros sb.
  unfold slice_bound. rewrite !(proj2 (Z.ltb_ge a _)) by lia. unfold zlen. lia.
Qed.

(** ** The loops that decode in place *)

Lemma xor_at_Forall data i k data' :
  Forall is_byte data -> is_byte k -> xor_at data i k = Ok data' -> Forall is_byte data' /\ length data' = length data.
Proof.
  unfold xor_at. intros Hd Hk Hx. destruct (data !! i) as [b|] eqn:E; simplify_eq.
  split; [|apply length_insert]. apply Forall_insert; [done|]. apply lxor_byte; [|done].
  by eapply Forall_lookup_1 in E.
Qed.

Lemma xor_loop_Forall key i n start data data' :
  Forall is_byte data -> (forall j, is_byte (key j)) -> xor_loop key i n start data = Ok data' ->
  Forall is_byte data' /\ length data' = length data.
Proof.
  revert i data. induction n as [|n IH]; intros i data Hd Hk Hx; simpl in Hx; [by simplify_eq|].
  destruct (xor_at data (start + i) (key i)) as [d|] eqn:E; [|done].
  apply xor_at_Forall in E as [Hd1 Hl1]; auto. apply IH in Hx as [Hd2 Hl2]; auto. split; [done|congruence].
Qed.

(** The keyed bytes of a block. *)
Definition xor_block (key : nat -> Z) (l : list Z) : list Z := imap (fun i b => Z.lxor b (key i)) l.

Lemma xor_at_app p b q k i : i = length p -> xor_at (p ++ b :: q) i k = Ok (p ++ Z.lxor b k :: q).
Proof.
  intros ->. unfold xor_at. rewrite list_lookup_middle by done. f_equal.
  rewrite insert_app_r_alt by lia. by rewrite Nat.sub_diag.
Qed.

(** The loop rewrites exactly the block it runs over. *)
Lemma xor_loop_from key p d m q :
  xor_loop key (length d) (length m) (length p) (p ++ d ++ m ++ q) =
  Ok (p ++ d ++ imap (fun i b => Z.lxor b (key (length d + i)%nat)) m ++ q).
Proof.
  revert d. induction m as [|b m IH]; intros d; [done|]. simpl.
  rewrite (app_assoc p d).
  rewrite xor_at_app by (rewrite length_app; lia). simpl.
  specialize (IH (d ++ [Z.lxor b (key (length d))])). rewrite length_app in IH. simpl in IH.
  rewrite Nat.add_1_r in IH. rewrite <- !app_assoc in IH |- *. simpl in IH |- *. rewrite IH.
  rewrite Nat.add_0_r. rewrite <- !app_assoc. simpl. do 5 f_equal.
  apply imap_ext. intros j x _. simpl. do 2 f_equal. lia.
Qed.

Lemma xor_loop_spec key p m q n s :
  n = length m -> s = length p -> xor_loop key 0 n s (p ++ m ++ q) = Ok (p ++ xor_block key m ++ q).
Proof. intros -> ->. apply (xor_loop_from key p [] m q). Qed.

(** Beyond the end of the data it raises. *)
Lemma xor_loop_beyond key i n start data :
  (length data < start + i + n)%nat -> (0 < n)%nat -> xor_loop key i n start data = Raise IndexError.
Proof.
  revert i data. induction n as [|n IH]; intros i data Hn Hpos; [lia|]. simpl. unfold xor_at.
  destruct (data !! (start + i)%nat) as [b|] eqn:E; [|done]. simpl. apply lookup_lt_Some in E.
  apply IH; [rewrite length_insert|]; lia.
Qed.

Lemma xor_block_length key l : length (xor_block key l) = length l.
Proof. apply length_imap. Qed.

Lemma xor_block_twice key l : xor_block key (xor_block key l) = l.
Proof.
  unfold xor_block. apply list_eq. intros i. rewrite !list_lookup_imap.
  destruct (l !! i); [|done]. simpl. by rewrite lxor_twice.
Qed.

Lemma xor_block_app key l1 l2 :
  xor_block key (l1 ++ l2) = xor_block key l1 ++ xor_block (fun i => key (length l1 + i)%nat) l2.
Proof. unfold xor_block. by rewrite imap_app. Qed.

Lemma xor_block_ext key1 key2 l :
  (forall i, (i < length l)%nat -> key1 i = key2 i) -> xor_block key1 l = xor_block key2 l.
Proof.
  intros Hk. unfold xor_block. apply imap_ext. intros i b Hi. apply lookup_lt_Some in Hi. by rewrite Hk.
Qed.

Lemma xor_block_byte key l : Forall is_byte l -> (forall i, is_byte (key i)) -> Forall is_byte (xor_block key l).
Proof.
  intros Hl Hk. unfold xor_block. apply Forall_lookup_2. intros i b Hb.
  rewrite list_lookup_imap in Hb. apply fmap_Some in Hb as (x & Hx & ->).
  apply lxor_byte; [|done]. by eapply Forall_lookup_1 in Hx.
Qed.

(** ** Fields of a layout *)

Lemma zlen_le_bytes n v : zlen (le_bytes n v) = Z.of_nat n.
Proof. unfold zlen. by rewrite le_bytes_length. Qed.
#[export] Hint Rewrite zlen_le_bytes : cape.

(** A field of [n] bytes, wherever it stands. *)
Lemma unpack_field n l p v q a b :
  l = p ++ le_bytes n v ++ q -> a = zlen p -> b = a + Z.of_nat n -> 0 <= v < 256 ^ Z.of_nat n ->
  unpack n (slice l a b) = Ok v.
Proof.
  intros Hl Ha Hb Hv. rewrite (slice_at l p (le_bytes n v) q); [by apply unpack_pack|done|done|].
  by rewrite zlen_le_bytes, <- Ha.
Qed.

(** Any bytes of the right length are some value. *)
Lemma unpack_some n l : length l = n -> unpack n l = Ok (le_val l).
Proof. intros Hl. unfold unpack. by rewrite decide_True. Qed.

Lemma unpack_from_field n l p v q a b :
  l = p ++ le_bytes n v ++ q -> a = zlen p -> b = a + Z.of_nat n -> 0 <= v < 256 ^ Z.of_nat n ->
  unpack_from n (slice l a b) = Ok v.
Proof.
  intros Hl Ha Hb Hv. rewrite (slice_at l p (le_bytes n v) q); [|done|done|by rewrite zlen_le_bytes, <- Ha].
  unfold unpack_from. rewrite decide_True by (rewrite le_bytes_length; done).
  rewrite take_ge by (rewrite le_bytes_length; done). by rewrite le_val_bytes.
Qed.

(** A slice that begins after [p] and may even end before it. *)
Lemma slice_take {A} (p m q : list A) a b n :
  a = zlen p -> b = a + n -> - zlen p <= n <= zlen m -> slice (p ++ m ++ q) a b = take (Z.to_nat n) m.
Proof.
  intros -> -> Hn. pose proof (zlen_nonneg p). pose proof (zlen_nonneg q). pose proof (zlen_nonneg m). unfold slice.
  rewrite (slice_bound_in _ (zlen p)), (slice_bound_in _ (zlen p + n)) by (rewrite !zlen_app; lia).
  replace (Z.to_nat (zlen p)) with (length p) by (unfold zlen; lia). rewrite drop_app_length.
  rewrite take_app_le by (unfold zlen in *; lia). f_equal. unfold zlen in *. lia.
Qed.

(** ** Results *)

Lemma rbind_ok {A C} (r : res A) (f : A -> res C) c : rbind r f = Ok c -> exists a, r = Ok a /\ f a = Ok c.
Proof. destruct r as [a|e]; [by exists a|done]. Qed.

(** Follows a computation that succeeds, one bind at a time. *)
Ltac ok_bind H x Hx := apply rbind_ok in H as (x & Hx & H).
