(* ===== verification/ResultServer.v ===== *)
(** The result server of lib/cuckoo/core/resultserver.py: the buffered reader of a
    guest connection ([HandlerContext]), the upload limiter, the three protocol
    handlers and the worker's task and handler tables. *)
From stdpp Require Import pretty.
From S2P Require Import Prelude.

(** ** Constants and the path filter *)

Definition MAX_NETLOG_LINE : Z := 4 * 1024.
Definition BANNED_PATH_CHARS : bytes := [NUL; COLON].

Definition RESULT_UPLOADABLE : list bytes :=
  B <$> ["CAPE"; "aux"; "buffer"; "curtain"; "debugger"; "tlsdump"; "extracted"; "files";
         "memory"; "procdump"; "shots"; "sysmon"; "stap"; "evtx"]%string.
Definition RESULT_DIRECTORIES : list bytes := RESULT_UPLOADABLE ++ [B "reports"; B "logs"].

(** The loop over the banned characters computes the replaced path and drops it:
    [path.replace] returns a new object. *)
Definition netlog_sanitize_fname (path0 : bytes) : res bytes :=
  let path := replace_byte BACKSLASH SLASH path0 in
  let '(dir_part, name) := os_path_split path in
  if negb (bool_decide (dir_part ∈ RESULT_DIRECTORIES)) then Raise CuckooOperationalError
  else
    if existsb (fun c => bool_decide (c ∈ BANNED_PATH_CHARS)) name then
      let _ := (fun c => replace_byte c "X"%char path) <$> BANNED_PATH_CHARS in
      Ok path
    else Ok path.

(** ** The connection *)

(** What one [sock.recv] call does; after the last event the peer has closed
    the connection and [recv] returns the empty string. *)
Inductive errno := EBADF | ECONNRESET | EOTHER.
Inductive recv_event :=
| RData (d : bytes)
| RTimeout
| RErrno (e : errno)
| RException.

(** [HandlerContext.read] on one event; [None] is Python's [None], which the
    last [except] clause falls through to. *)
Definition recv_result (ev : recv_event) : res (option bytes) :=
  match ev with
  | RData d => Ok (Some d)
  | RTimeout => Ok (Some [])
  | RErrno EBADF => Ok (Some [])
  | RErrno ECONNRESET => Ok (Some [])
  | RErrno EOTHER => Raise OSError
  | RException => Ok None
  end.

Definition read (sock : list recv_event) : res (option bytes) * list recv_event :=
  match sock with
  | [] => (Ok (Some []), [])
  | ev :: sock' => (recv_result ev, sock')
  end.

(** The loop of [read_newline], on the events left and the buffer. *)
Fixpoint read_newline_loop (sock : list recv_event) (buf : bytes)
  : res bytes * (list recv_event * bytes) :=
  match find_byte NL buf with
  | Some pos => (Ok (take pos buf), (sock, drop (pos + 1) buf))
  | None =>
      if bool_decide (MAX_NETLOG_LINE <= zlen buf)%Z then
        (Raise CuckooOperationalError, (sock, buf))
      else
        match sock with
        | [] => (Raise EOFError, ([], buf))
        | ev :: sock' =>
            match recv_result ev with
            | Raise e => (Raise e, (sock', buf))
            | Ok None => (Raise TypeError, (sock', buf))
            | Ok (Some []) => (Raise EOFError, (sock', buf))
            | Ok (Some d) => read_newline_loop sock' (buf ++ d)
            end
        end
  end.

(** ** The files of one analysis *)

(** A line of files.json; text fields are kept as the bytes received, the
    decoding with replacement happens when the line is printed. *)
Record log_entry := {
  le_path : bytes; le_filepath : bytes; le_pids : list Z; le_ppids : list Z;
  le_metadata : bytes; le_category : bytes }.

(** Regular files by (directory, name) as the kernel resolves them, and the
    paths of the directories that exist. *)
Record fsys := {
  fs_files : gmap (bytes * bytes) bytes;
  fs_dirs : gset bytes;
  fs_log : list log_entry }.

Definition dir_names : list bytes := [[]; B "."; B ".."].

Definition path_exists (p : bytes) (fs : fsys) : bool :=
  let '(d, n) := os_path_split p in
  if bool_decide (NUL ∈ p) then false
  else if bool_decide (n ∈ dir_names) then bool_decide (d ∈ fs_dirs fs)
  else bool_decide (is_Some (fs_files fs !! (d, n))) || bool_decide (os_path_join d n ∈ fs_dirs fs).

Inductive open_error := EEXIST | ENOENT | EmbeddedNul.

Definition fs_put (k : bytes * bytes) (c : bytes) (fs : fsys) : fsys :=
  {| fs_files := <[k := c]> (fs_files fs); fs_dirs := fs_dirs fs; fs_log := fs_log fs |}.

Definition fs_add_log (e : log_entry) (fs : fsys) : fsys :=
  {| fs_files := fs_files fs; fs_dirs := fs_dirs fs; fs_log := fs_log fs ++ [e] |}.

(** [open_exclusive]: O_CREAT | O_EXCL | O_WRONLY (lib/cuckoo/common/files.py). *)
Definition open_exclusive (p : bytes) (fs : fsys) : (open_error + (bytes * bytes)) * fsys :=
  let k := os_path_split p in
  if bool_decide (NUL ∈ p) then (inl EmbeddedNul, fs)
  else if bool_decide (k.1 ∉ fs_dirs fs) then (inl ENOENT, fs)
  else if path_exists p fs then (inl EEXIST, fs)
  else (inr k, fs_put k [] fs).

(** [open(p, "wb")]: creates or truncates. *)
Definition open_wb (p : bytes) (fs : fsys) : (open_error + (bytes * bytes)) * fsys :=
  let k := os_path_split p in
  if bool_decide (NUL ∈ p) then (inl EmbeddedNul, fs)
  else if bool_decide (k.1 ∉ fs_dirs fs) then (inl ENOENT, fs)
  else (inr k, fs_put k [] fs).

(** The context of one connection together with the analysis folder. *)
Record hst := {
  h_sock : list recv_event;
  h_buf : option bytes;              (** [None] once buffering has ended *)
  h_fs : fsys }.

Definition set_conn (sock : list recv_event) (buf : option bytes) (h : hst) : hst :=
  {| h_sock := sock; h_buf := buf; h_fs := h_fs h |}.
Definition set_fs (fs : fsys) (h : hst) : hst :=
  {| h_sock := h_sock h; h_buf := h_buf h; h_fs := fs |}.

Definition read_newline : st hst bytes := fun h =>
  match h_buf h with
  | None => (Raise AttributeError, h)
  | Some buf =>
      let '(r, (sock, buf')) := read_newline_loop (h_sock h) buf in
      (r, set_conn sock (Some buf') h)
  end.

Definition drain_buffer (h : hst) : option bytes * hst :=
  (h_buf h, set_conn (h_sock h) None h).

(** ** Writing an upload *)

(** The open file being written, or Python's [None]. *)
Definition sink : Type := option bytes.
Definition sink_write (s : sink) (d : bytes) : res sink :=
  match s with None => Raise AttributeError | Some out => Ok (Some (out ++ d)) end.

Record WriteLimiter := { remain : Z; warned : bool }.
Definition truncated_mark : bytes := B "... (truncated)".

Definition WriteLimiter_write (w : WriteLimiter) (s : sink) (buf : bytes)
  : res (WriteLimiter * sink) :=
  let size := zlen buf in
  let write := Z.min size (remain w) in
  let! (w1, s1) :=
    if bool_decide (write <> 0)%Z then
      let! s1 := sink_write s (slice_to write buf) in
      Ok ({| remain := remain w - write; warned := warned w |}, s1)
    else Ok (w, s) in
  if bool_decide (size <> 0)%Z && bool_decide (size <> write)%Z then
    if negb (warned w1) then
      let! s2 := sink_write s1 truncated_mark in
      Ok ({| remain := remain w1; warned := true |}, s2)
    else Ok (w1, s1)
  else Ok (w1, s1).

(** [fd] in [copy_to_fd]: the file itself, or the limiter around it. *)
Inductive writer := Plain (s : sink) | Limited (w : WriteLimiter) (s : sink).
Definition writer_sink (w : writer) : sink :=
  match w with Plain s => s | Limited _ s => s end.

Definition writer_write (w : writer) (d : option bytes) : res writer :=
  match w, d with
  | Plain None, _ => Raise AttributeError
  | _, None => Raise TypeError
  | Plain s, Some d => let! s' := sink_write s d in Ok (Plain s')
  | Limited l s, Some d => let! (l', s') := WriteLimiter_write l s d in Ok (Limited l' s')
  end.

Definition writer_flush (w : writer) : res unit :=
  match writer_sink w with None => Raise AttributeError | Some _ => Ok tt end.

(** The [while True] of [copy_to_fd]. *)
Fixpoint copy_loop (sock : list recv_event) (w : writer)
  : res unit * (list recv_event * writer) :=
  match sock with
  | [] => (writer_flush w, ([], w))
  | ev :: sock' =>
      match recv_result ev with
      | Raise e => (Raise e, (sock', w))
      | Ok (Some []) => (writer_flush w, (sock', w))
      | Ok d =>
          match writer_write w d with
          | Raise e => (Raise e, (sock', w))
          | Ok w' => copy_loop sock' w'
          end
      end
  end.

Definition make_writer (s : sink) (max_size : option Z) : writer :=
  match max_size with
  | Some m => if bool_decide (m <> 0)%Z then Limited {| remain := m; warned := false |} s else Plain s
  | None => Plain s
  end.

Definition copy_to_fd (fd : option (bytes * bytes)) (max_size : option Z) : st hst unit := fun h =>
  let '(buf, h1) := drain_buffer h in
  let s0 := (fun k => default [] (fs_files (h_fs h1) !! k)) <$> fd in
  let w0 := make_writer s0 max_size in
  let '(r, (sock, w)) :=
    match writer_write w0 buf with
    | Raise e => (Raise e, (h_sock h1, w0))
    | Ok w1 => copy_loop (h_sock h1) w1
    end in
  let fs := match fd, writer_sink w with
            | Some k, Some out => fs_put k out (h_fs h1)
            | _, _ => h_fs h1
            end in
  (r, {| h_sock := sock; h_buf := None; h_fs := fs |}).

(** ** The protocol handlers *)

Record upload_header := {
  uh_path : bytes; uh_filepath : option bytes; uh_pids : list Z; uh_ppids : list Z;
  uh_metadata : bytes; uh_category : bytes; uh_duplicated : Z }.

Definition parse_ints (l : bytes) : res (list Z) := of_option ValueError (mapM py_int (split_ws l)).

(** The part of [FileUpload.handle] that reads the request lines. *)
Definition read_upload_header (version : option Z) : st hst upload_header :=
  let* line := read_newline in
  let* dump_path := slift (netlog_sanitize_fname line) in
  if (match version with Some v => bool_decide (v <> 0 /\ 2 <= v)%Z | None => false end) then
    let* filepath := read_newline in
    let* l := read_newline in
    let* pids := slift (parse_ints l) in
    let* l := read_newline in
    let* ppids := slift (parse_ints l) in
    let* metadata := read_newline in
    let* category := read_newline in
    let* l := read_newline in
    let* duplicated := slift (of_option ValueError (py_int l)) in
    sret {| uh_path := dump_path; uh_filepath := Some filepath; uh_pids := pids;
            uh_ppids := ppids; uh_metadata := metadata; uh_category := category;
            uh_duplicated := duplicated |}
  else
    sret {| uh_path := dump_path; uh_filepath := None; uh_pids := []; uh_ppids := [];
            uh_metadata := []; uh_category := []; uh_duplicated := 0 |}.

Definition unlogged_prefixes : list bytes :=
  B <$> ["shots/"; "curtain/"; "aux/"; "sysmon/"; "debugger/"; "tlsdump/"; "evtx"]%string.
Definition logged_categories : list bytes := B <$> ["CAPE"; "files"; "memory"; "procdump"]%string.

Definition header_entry (hd : upload_header) : log_entry :=
  {| le_path := uh_path hd;
     le_filepath := default [] (uh_filepath hd);
     le_pids := uh_pids hd; le_ppids := uh_ppids hd; le_metadata := uh_metadata hd;
     le_category := if bool_decide (uh_category hd ∈ logged_categories)
                    then uh_category hd else [] |}.

(** Opening the target: an existing path is left alone and [self.fd] stays
    [None]. *)
Definition open_upload (storage : bytes) (dump_path : bytes) : st hst (option (bytes * bytes)) := fun h =>
  if negb (utf8_valid dump_path) then (Raise UnicodeDecodeError, h) else
  let file_path := os_path_join storage dump_path in
  if path_exists file_path (h_fs h) then (Ok None, h)
  else
    let '(r, fs) := open_exclusive file_path (h_fs h) in
    let r' := match r with
              | inr k => Ok (Some k)
              | inl EEXIST => Raise CuckooOperationalError
              | inl ENOENT => Raise OSError
              | inl EmbeddedNul => Raise ValueError
              end in
    (r', set_fs fs h).

Definition log_upload (hd : upload_header) : st hst unit :=
  if existsb (fun p => has_prefix p (uh_path hd)) unlogged_prefixes then sret tt
  else smodify (fun h => set_fs (fs_add_log (header_entry hd) (h_fs h)) h).

Definition FileUpload_handle (storage : bytes) (upload_max_size : Z) (version : option Z)
  : st hst unit :=
  let* hd := read_upload_header version in
  let* fd := (if bool_decide (uh_duplicated hd = 0)%Z
              then open_upload storage (uh_path hd) else sret None) in
  do* log_upload hd in
  if bool_decide (uh_duplicated hd = 0)%Z then
    sfinally (copy_to_fd fd (Some upload_max_size))
      (match fd with Some _ => sret tt | None => sraise AttributeError end)  (* self.fd.tell() *)
  else sret tt.

(** [LogHandler]: [init] opens analysis.log once, [handle] streams into it. *)
Definition LogHandler_run (storage : bytes) : st hst unit := fun h =>
  let '(r, fs) := open_exclusive (os_path_join storage (B "analysis.log")) (h_fs h) in
  match r with
  | inr k => copy_to_fd (Some k) None (set_fs fs h)
  | inl EmbeddedNul => (Raise ValueError, h)
  | inl _ => (Ok tt, h)
  end.

Definition bson_path (storage : bytes) (pid : Z) : bytes :=
  os_path_join (os_path_join storage (B "logs")) (B (pretty pid) ++ B ".bson").

(** [BsonStore]: the version of the header is the pid the log belongs to. *)
Definition BsonStore_run (storage : bytes) (version : option Z) : st hst unit := fun h =>
  match version with
  | None => (Ok tt, h)
  | Some pid =>
      match open_wb (bson_path storage pid) (h_fs h) with
      | (inr k, fs) => copy_to_fd (Some k) None (set_fs fs h)
      | (inl ENOENT, fs) => (Raise OSError, h)
      | (inl _, fs) => (Raise ValueError, h)
      end
  end.

(** ** The worker *)

Inductive command := BSON | FILE | LOG.
#[global] Instance command_eq_dec : EqDecision command.
Proof. solve_decision. Defined.

Definition commands (c : bytes) : option command :=
  if decide (c = B "BSON") then Some BSON
  else if decide (c = B "FILE") then Some FILE
  else if decide (c = B "LOG") then Some LOG
  else None.

(** [negotiate_protocol]; [None] is the unknown command. *)
Definition negotiate_protocol : st hst (option (command * option Z)) :=
  let* header := read_newline in
  if bool_decide (" "%char ∈ header) then
    match split_ws header with
    | [cmd; v] =>
        let* version := slift (of_option ValueError (py_int v)) in
        sret ((fun k => (k, Some version)) <$> commands cmd)
    | _ => sraise ValueError
    end
  else sret ((fun k => (k, None)) <$> commands header).

(** [with protocol: protocol.handle()] and the [except] around it. *)
Definition protocol_session (storage : bytes) (upload_max_size : Z)
  (protocol : option (command * option Z)) : st hst unit :=
  scatch
    (match protocol with
     | None => sraise AttributeError
     | Some (FILE, v) => FileUpload_handle storage upload_max_size v
     | Some (LOG, _) => LogHandler_run storage
     | Some (BSON, v) => BsonStore_run storage v
     end)
    (fun e => if is_operational e then Some (sret tt) else None).

Definition result_folders : list bytes :=
  B <$> ["CAPE"; "aux"; "curtain"; "files"; "logs"; "memory"; "shots"; "sysmon"; "stap";
         "procdump"; "debugger"; "tlsdump"; "evtx"]%string.

Definition create_folders (storage : bytes) (fs : fsys) : fsys :=
  {| fs_files := fs_files fs;
     fs_dirs := list_to_set (os_path_join storage <$> result_folders) ∪ fs_dirs fs;
     fs_log := fs_log fs |}.

(** Connections, by the point [GeventResultServerWorker.handle] has reached. *)
Inductive phase :=
| Negotiating (task : Z) (ip : bytes)
| Handling (task : Z) (ip : bytes) (s : nat)
| Closed.

(** [handlers] maps a task to a set object; the handler keeps its own reference
    [s] to that object after [del_task] has removed it from the table. *)
Record worker := {
  w_tasks : gmap bytes Z;
  w_handlers : gmap Z nat;
  w_sets : gmap nat (gset nat);
  w_next : nat;
  w_conns : gmap nat phase;
  w_cancelled : gset nat }.

Definition worker_init : worker :=
  {| w_tasks := ∅; w_handlers := ∅; w_sets := ∅; w_next := 0; w_conns := ∅; w_cancelled := ∅ |}.

Definition set_conn_phase (c : nat) (p : phase) (w : worker) : worker :=
  {| w_tasks := w_tasks w; w_handlers := w_handlers w; w_sets := w_sets w; w_next := w_next w;
     w_conns := <[c := p]> (w_conns w); w_cancelled := w_cancelled w |}.

Definition add_task (task : Z) (ip : bytes) (w : worker) : worker :=
  {| w_tasks := <[ip := task]> (w_tasks w); w_handlers := w_handlers w; w_sets := w_sets w;
     w_next := w_next w; w_conns := w_conns w; w_cancelled := w_cancelled w |}.

Definition del_task (task : Z) (ip : bytes) (w : worker) : worker :=
  let ctxs := match w_handlers w !! task with
              | Some s => default ∅ (w_sets w !! s)
              | None => ∅
              end in
  {| w_tasks := delete ip (w_tasks w); w_handlers := delete task (w_handlers w);
     w_sets := w_sets w; w_next := w_next w; w_conns := w_conns w;
     w_cancelled := ctxs ∪ w_cancelled w |}.

(** The start of [handle]: task id 0 is as good as no task. *)
Definition handle_begin (c : nat) (ip : bytes) (w : worker) : worker :=
  match w_tasks w !! ip with
  | Some t => if bool_decide (t = 0)%Z then set_conn_phase c Closed w
              else set_conn_phase c (Negotiating t ip) w
  | None => set_conn_phase c Closed w
  end.

(** The registration under the lock, once the protocol is negotiated. *)
Definition handle_register (c : nat) (t : Z) (ip : bytes) (w : worker) : worker :=
  if bool_decide (w_tasks w !! ip = Some t) then
    match w_handlers w !! t with
    | Some s =>
        {| w_tasks := w_tasks w; w_handlers := w_handlers w;
           w_sets := <[s := {[c]} ∪ default ∅ (w_sets w !! s)]> (w_sets w);
           w_next := w_next w;
           w_conns := <[c := Handling t ip s]> (w_conns w); w_cancelled := w_cancelled w |}
    | None =>
        let s := w_next w in
        {| w_tasks := w_tasks w; w_handlers := <[t := s]> (w_handlers w);
           w_sets := <[s := {[c]}]> (w_sets w); w_next := S s;
           w_conns := <[c := Handling t ip s]> (w_conns w); w_cancelled := w_cancelled w |}
    end
  else set_conn_phase c Closed w.

(** The [finally] of [handle]: [s.discard(ctx)] and [ctx.cancel()]. *)
Definition handle_end (c : nat) (s : nat) (w : worker) : worker :=
  {| w_tasks := w_tasks w; w_handlers := w_handlers w;
     w_sets := alter (fun x => x ∖ {[c]}) s (w_sets w);
     w_next := w_next w; w_conns := <[c := Closed]> (w_conns w);
     w_cancelled := {[c]} ∪ w_cancelled w |}.

(** The worker's threads interleave between these atomic sections. *)
Inductive wstep : worker -> worker -> Prop :=
| step_add_task t ip w : wstep w (add_task t ip w)
| step_del_task t ip w : wstep w (del_task t ip w)
| step_accept c ip w : w_conns w !! c = None -> wstep w (handle_begin c ip w)
| step_abort c t ip w : w_conns w !! c = Some (Negotiating t ip) ->
    wstep w (set_conn_phase c Closed w)
| step_register c t ip w : w_conns w !! c = Some (Negotiating t ip) ->
    wstep w (handle_register c t ip w)
| step_end c t ip s w : w_conns w !! c = Some (Handling t ip s) ->
    wstep w (handle_end c s w).

Definition worker_reachable (w : worker) : Prop := rtc wstep worker_init w.

(** Every connection still being handled is in the set its task's entry of
    [handlers] refers to, unless it has been cancelled. *)
Record worker_inv (w : worker) : Prop := {
  wi_tracked c t ip s : w_conns w !! c = Some (Handling t ip s) -> c ∉ w_cancelled w ->
    w_handlers w !! t = Some s /\ c ∈ (default ∅ (w_sets w !! s) : gset nat);
  wi_fresh t s : w_handlers w !! t = Some s -> s < w_next w;
  wi_inj t1 t2 s : w_handlers w !! t1 = Some s -> w_handlers w !! t2 = Some s -> t1 = t2;
  wi_cancelled c : c ∈ w_cancelled w ->
    exists p, w_conns w !! c = Some p /\ forall t ip, p <> Negotiating t ip;
  wi_members c s : c ∈ (default ∅ (w_sets w !! s) : gset nat) ->
    exists t ip, w_conns w !! c = Some (Handling t ip s) }.

(** ** What the theorems speak about *)

(** The sink after the stream [data] went through a limiter of [limit] bytes. *)
Definition limited (limit : Z) (data : bytes) : bytes :=
  take (Z.to_nat limit) data ++ (if bool_decide (limit < zlen data)%Z then truncated_mark else []).

(** The limiter's state and sink after the bytes [data]. *)
Definition limiter_after (limit : Z) (data : bytes) : WriteLimiter :=
  {| remain := limit - Z.min limit (zlen data);
     warned := bool_decide (limit < zlen data)%Z |}.

(** Every file that exists keeps its contents. *)
Definition keeps_files (h h' : hst) : Prop :=
  forall k v, fs_files (h_fs h) !! k = Some v -> fs_files (h_fs h') !! k = Some v.

Definition sample_worker : worker :=
  handle_register 0 7 (B "10.0.0.2") (handle_begin 0 (B "10.0.0.2") (add_task 7 (B "10.0.0.2") worker_init)).

(** ** The buffered reader *)

Lemma read_newline_loop_line sock buf line rest :
  buf = line ++ NL :: rest -> NL ∉ line ->
  read_newline_loop sock buf = (Ok line, (sock, rest)).
Proof.
  intros -> Hn. destruct sock; simpl; rewrite find_byte_app by done;
    rewrite take_app_length, Nat.add_1_r, drop_app_ge by lia;
    by replace (S (length line) - length line) with 1 by lia.
Qed.

(** A line of the stream comes out the same for every way the network cuts the
    stream into chunks. *)
Lemma read_newline_chunks ds buf line rest tail :
  Forall (fun d => d <> []) ds ->
  buf ++ concat ds = line ++ NL :: rest -> NL ∉ line -> (zlen line < MAX_NETLOG_LINE)%Z ->
  exists ds' buf',
    read_newline_loop ((RData <$> ds) ++ tail) buf = (Ok line, ((RData <$> ds') ++ tail, buf')) /\
    buf' ++ concat ds' = rest /\ Forall (fun d => d <> []) ds'.
Proof.
  revert buf. induction ds as [|d ds IH]; intros buf Hne E Hn Hlen; csimpl in *.
  - rewrite app_nil_r in E. exists [], rest. csimpl.
    rewrite (read_newline_loop_line _ _ _ _ E Hn), app_nil_r. auto.
  - inv Hne. destruct (find_byte NL buf) as [pos|] eqn:F.
    + destruct (find_byte_Some _ _ _ F) as [Hb Hnt].
      assert (take pos buf = line /\ drop (S pos) buf ++ d ++ concat ds = rest) as [E1 E2].
      { rewrite Hb, <- app_assoc in E. simpl in E.
        pose proof (f_equal (find_byte NL) E) as Ef.
        rewrite !find_byte_app in Ef by done. injection Ef as Ef.
        apply app_inj_1 in E as [E1 E2]; [|done]. by injection E2. }
      exists (d :: ds), (drop (S pos) buf). csimpl. rewrite Nat.add_1_r, E1. auto.
    + assert (zlen buf < MAX_NETLOG_LINE)%Z as Hb.
      { apply find_byte_None in F. enough (zlen buf <= zlen line)%Z by lia.
        unfold zlen. enough (length buf <= length line) by lia.
        destruct (decide (length buf <= length line)) as [|Hlt]; [done|]. exfalso. apply F.
        apply (f_equal (take (length buf))) in E. rewrite take_app_length in E. rewrite E.
        rewrite take_app_ge by lia. destruct (length buf - length line) eqn:El; [lia|].
        simpl. set_solver. }
      rewrite bool_decide_false by lia. destruct d as [|x d]; [done|]. simpl.
      apply IH; [done| |done|done]. by rewrite <- app_assoc.
Qed.

Lemma read_newline_stream ds tail h buf line rest :
  h_sock h = (RData <$> ds) ++ tail -> h_buf h = Some buf ->
  Forall (fun d => d <> []) ds ->
  buf ++ concat ds = line ++ NL :: rest -> NL ∉ line -> (zlen line < MAX_NETLOG_LINE)%Z ->
  exists ds' buf',
    read_newline h = (Ok line, set_conn ((RData <$> ds') ++ tail) (Some buf') h) /\
    buf' ++ concat ds' = rest /\ Forall (fun d => d <> []) ds'.
Proof.
  intros Hs Hb Hne E Hn Hlen. unfold read_newline. rewrite Hb, Hs.
  destruct (read_newline_chunks ds buf line rest tail) as (ds' & buf' & -> & ?); eauto.
Qed.

(** [read_newline] is independent of chunking: when the data still to come is
    the line, a newline and [rest], it returns exactly the line and leaves [rest]
    to be read, for every division of the stream into non-empty chunks. *)
Theorem read_newline_reassembles ds tail h buf line rest :
  h_sock h = (RData <$> ds) ++ tail -> h_buf h = Some buf ->
  Forall (fun d => d <> []) ds ->
  buf ++ concat ds = line ++ NL :: rest -> NL ∉ line -> (zlen line < MAX_NETLOG_LINE)%Z ->
  exists ds' buf',
    read_newline h = (Ok line, set_conn ((RData <$> ds') ++ tail) (Some buf') h) /\
    buf' ++ concat ds' = rest /\ Forall (fun d => d <> []) ds'.
Proof. apply read_newline_stream. Qed.

Lemma read_newline_reassembles_witness :
  exists ds' buf',
    read_newline {| h_sock := RData <$> [B "ab"; B ("c" ++ String NL "de")];
                    h_buf := Some []; h_fs := {| fs_files := ∅; fs_dirs := ∅; fs_log := [] |} |}
    = (Ok (B "abc"), set_conn ((RData <$> ds') ++ []) (Some buf')
        {| h_sock := RData <$> [B "ab"; B ("c" ++ String NL "de")];
           h_buf := Some []; h_fs := {| fs_files := ∅; fs_dirs := ∅; fs_log := [] |} |}) /\
    buf' ++ concat ds' = B "de" /\ Forall (fun d => d <> []) ds'.
Proof.
  apply (read_newline_reassembles [B "ab"; B ("c" ++ String NL "de")] []
           {| h_sock := RData <$> [B "ab"; B ("c" ++ String NL "de")];
              h_buf := Some []; h_fs := {| fs_files := ∅; fs_dirs := ∅; fs_log := [] |} |}
           [] (B "abc") (B "de")).
  - reflexivity.
  - reflexivity.
  - repeat constructor; discriminate.
  - reflexivity.
  - apply (bool_decide_unpack _). vm_compute. exact I.
  - reflexivity.
Defined.

(** Memory bound: when [recv] yields at most [n] bytes at a time the buffer never
    passes [MAX_NETLOG_LINE - 1 + n] bytes, and a returned line is no longer than that
    (so a line can be longer than [MAX_NETLOG_LINE]). *)
Theorem read_newline_bounded n sock buf r sock' buf' :
  (0 <= n)%Z ->
  Forall (fun ev => match ev with RData d => (zlen d <= n)%Z | _ => True end) sock ->
  read_newline_loop sock buf = (r, (sock', buf')) ->
  let bound := Z.max (zlen buf) (MAX_NETLOG_LINE - 1 + n) in
  (zlen buf' <= bound)%Z /\ (forall line, r = Ok line -> (zlen line <= bound)%Z).
Proof.
  intros Hn. revert buf. induction sock as [|ev sock IH]; intros buf Hs E; simpl in *;
    destruct (find_byte NL buf) as [pos|] eqn:F;
    try (simplify_eq/=; unfold zlen; rewrite length_drop;
         split; [lia|intros ? [= <-]; rewrite length_take; lia]).
  - case_bool_decide; simplify_eq/=; split; [lia|done|lia|done].
  - case_bool_decide; [simplify_eq/=; split; [lia|done]|]. inv Hs.
    destruct ev as [[|x d]| |[]|]; simplify_eq/=; try (split; [lia|done]).
    destruct (IH (buf ++ x :: d)) as [Hb1 Hb2]; [done|done|].
    rewrite zlen_app in *. split; [lia|]. intros line Hl. specialize (Hb2 _ Hl). lia.
Qed.

Lemma read_newline_bounded_witness :
  (zlen (B "rest") <= Z.max (zlen (B "")) (MAX_NETLOG_LINE - 1 + 16384))%Z /\
  (forall line, Ok (B "FILE 2") = Ok line ->
     (zlen line <= Z.max (zlen (B "")) (MAX_NETLOG_LINE - 1 + 16384))%Z).
Proof.
  apply (read_newline_bounded 16384 [RData (B ("FILE 2" ++ String NL "rest"))] [] (Ok (B "FILE 2")) []).
  - lia.
  - repeat constructor; discriminate.
  - reflexivity.
Defined.

(** ** The upload limiter *)

Lemma slice_to_nonneg {A} z (l : list A) : (0 <= z)%Z -> slice_to z l = take (Z.to_nat z) l.
Proof. intros. unfold slice_to. by rewrite bool_decide_true. Qed.

Lemma WriteLimiter_write_step limit data buf out :
  (0 <= limit)%Z -> out = limited limit data ->
  WriteLimiter_write (limiter_after limit data) (Some out) buf
  = Ok (limiter_after limit (data ++ buf), Some (limited limit (data ++ buf))).
Proof.
  intros Hl ->. unfold WriteLimiter_write, limiter_after, limited. simpl. rewrite zlen_app.
  pose proof (zlen_nonneg data). pose proof (zlen_nonneg buf).
  destruct (decide (limit < zlen data)%Z) as [Hov|Hov].
  - (* already truncated *)
    rewrite (bool_decide_true (limit < zlen data)%Z), (bool_decide_true (limit < _ + _)%Z) by lia.
    rewrite !(Z.min_l limit) by lia. rewrite Z.sub_diag, Z.min_r by lia.
    rewrite take_app_le by (unfold zlen in *; lia).
    rewrite bool_decide_false by lia. simpl. by destruct (bool_decide _ && _).
  - rewrite (bool_decide_false (limit < zlen data)%Z), app_nil_r by lia.
    rewrite (Z.min_r limit (zlen data)) by lia.
    rewrite (take_ge data) by (unfold zlen in *; lia).
    rewrite take_app_ge by (unfold zlen in *; lia).
    assert (Z.to_nat limit - length data = Z.to_nat (limit - zlen data)) as -> by (unfold zlen in *; lia).
    destruct (decide (limit < zlen data + zlen buf)%Z) as [Hx|Hx].
    + (* this write crosses the limit *)
      rewrite (bool_decide_true (limit < _)%Z), (Z.min_l limit), (Z.min_r (zlen buf)) by lia.
      rewrite (bool_decide_true (zlen buf <> 0)%Z), (bool_decide_true (zlen buf <> _)%Z) by lia.
      case_bool_decide as Hz; simpl.
      * rewrite slice_to_nonneg by lia. rewrite <- app_assoc.
        feq.
      * assert (limit - zlen data = 0)%Z as -> by lia. simpl. rewrite app_nil_r.
        feq.
    + rewrite (bool_decide_false (limit < _)%Z), (Z.min_r limit), (Z.min_l (zlen buf)) by lia.
      rewrite (take_ge buf) by (unfold zlen in *; lia). rewrite app_nil_r.
      rewrite (bool_decide_false (zlen buf <> zlen buf)%Z), andb_false_r by lia.
      case_bool_decide as Hz; simpl.
      * rewrite slice_to_nonneg, take_ge by (unfold zlen in *; lia). feq.
      * assert (buf = []) as -> by (destruct buf; [done|unfold zlen in Hz; simpl in Hz; lia]).
        rewrite app_nil_r. unfold zlen. simpl. feq.
Qed.

Lemma copy_loop_limited limit data ds :
  (0 <= limit)%Z -> Forall (fun d => d <> []) ds ->
  copy_loop (RData <$> ds) (Limited (limiter_after limit data) (Some (limited limit data)))
  = (Ok tt, ([], Limited (limiter_after limit (data ++ concat ds))
                         (Some (limited limit (data ++ concat ds))))).
Proof.
  intros Hl. revert data. induction ds as [|d ds IH]; intros data Hne; csimpl.
  - by rewrite app_nil_r.
  - inv Hne. destruct d as [|x d]; [done|].
    rewrite WriteLimiter_write_step by done. cbn [rbind].
    rewrite IH by done. by rewrite <- app_assoc.
Qed.

Lemma copy_loop_plain out ds :
  Forall (fun d => d <> []) ds ->
  copy_loop (RData <$> ds) (Plain (Some out)) = (Ok tt, ([], Plain (Some (out ++ concat ds)))).
Proof.
  revert out. induction ds as [|d ds IH]; intros out Hne; csimpl.
  - by rewrite app_nil_r.
  - inv Hne. destruct d as [|x d]; [done|]. rewrite IH by done. by rewrite <- app_assoc.
Qed.

Lemma limiter_start limit :
  (0 < limit)%Z -> Limited {| remain := limit; warned := false |} (Some [])
                   = Limited (limiter_after limit []) (Some (limited limit [])).
Proof.
  intros. unfold limiter_after, limited. rewrite take_nil.
  rewrite bool_decide_false by (unfold zlen; simpl; lia).
  unfold zlen. simpl. feq.
Qed.

Lemma copy_to_fd_spec k m ds h buf :
  h_sock h = RData <$> ds -> h_buf h = Some buf -> Forall (fun d => d <> []) ds ->
  fs_files (h_fs h) !! k = Some [] -> (forall l, m = Some l -> 0 <= l)%Z ->
  let data := buf ++ concat ds in
  copy_to_fd (Some k) m h
  = (Ok tt, {| h_sock := []; h_buf := None;
               h_fs := fs_put k (match m with
                                 | Some l => if bool_decide (l <> 0)%Z then limited l data else data
                                 | None => data
                                 end) (h_fs h) |}).
Proof.
  intros Hs Hb Hne Hk Hm data. unfold copy_to_fd, drain_buffer. simpl.
  rewrite Hk, Hb, Hs. simpl.
  assert (Plain (Some ([] ++ buf)) = Plain (Some buf)) as Hp by done.
  destruct m as [l|]; simpl.
  - specialize (Hm l eq_refl). case_bool_decide.
    + rewrite limiter_start by lia. unfold writer_write.
      rewrite WriteLimiter_write_step by (done || lia). cbn [rbind].
      rewrite copy_loop_limited by (done || lia). done.
    + simpl. rewrite copy_loop_plain by done. done.
  - rewrite copy_loop_plain by done. done.
Qed.

(** The upload limiter is exact: whatever the chunks, the file receives the first
    [limit] bytes of the stream, followed by one truncation mark when (and only when)
    the stream is longer than the limit. *)
Theorem upload_limited k limit ds h buf :
  h_sock h = RData <$> ds -> h_buf h = Some buf -> Forall (fun d => d <> []) ds ->
  fs_files (h_fs h) !! k = Some [] -> (0 < limit)%Z ->
  exists h', copy_to_fd (Some k) (Some limit) h = (Ok tt, h') /\
    fs_files (h_fs h') !! k
    = Some (take (Z.to_nat limit) (buf ++ concat ds) ++
            (if bool_decide (limit < zlen (buf ++ concat ds))%Z then B "... (truncated)" else [])) /\
    (forall k', k' <> k -> fs_files (h_fs h') !! k' = fs_files (h_fs h) !! k').
Proof.
  intros Hs Hb Hne Hk Hl.
  rewrite (copy_to_fd_spec k (Some limit) ds h buf) by (done || naive_solver lia).
  rewrite bool_decide_true by lia. eexists. split; [done|]. simpl. split.
  - by rewrite lookup_insert_eq.
  - intros k' Hk'. by rewrite lookup_insert_ne.
Qed.

Lemma upload_limited_witness :
  let fs := {| fs_files := {[ (B "s/files", B "a") := [] ]}; fs_dirs := ∅; fs_log := [] |} in
  let h := {| h_sock := RData <$> [B "cd"; B "ef"]; h_buf := Some (B "ab"); h_fs := fs |} in
  exists h', copy_to_fd (Some (B "s/files", B "a")) (Some 3%Z) h = (Ok tt, h') /\
    fs_files (h_fs h') !! (B "s/files", B "a")
    = Some (take (Z.to_nat 3) (B "ab" ++ concat [B "cd"; B "ef"]) ++
            (if bool_decide (3 < zlen (B "ab" ++ concat [B "cd"; B "ef"]))%Z
             then B "... (truncated)" else [])) /\
    (forall k', k' <> (B "s/files", B "a") -> fs_files (h_fs h') !! k' = fs_files (h_fs h) !! k').
Proof.
  apply (upload_limited (B "s/files", B "a") 3 [B "cd"; B "ef"]); try reflexivity.
  repeat constructor; discriminate.
Defined.

(** ** Where uploads can go *)

Lemma result_directory_shape d :
  d ∈ RESULT_DIRECTORIES ->
  exists d' c, d = d' ++ [c] /\ c <> SLASH /\ has_prefix [SLASH] d = false /\ BACKSLASH ∉ d /\ d' <> [] /\ NUL ∉ d.
Proof.
  intros H.
  assert (forallb (fun d => match reverse d with
     | c :: (_ :: _) as r => bool_decide (c <> SLASH) && negb (has_prefix [SLASH] d)
                       && bool_decide (BACKSLASH ∉ d) && bool_decide (NUL ∉ d)
     | _ => false end) RESULT_DIRECTORIES = true) as F by (vm_compute; reflexivity).
  rewrite forallb_forall in F. specialize (F d (proj1 (list_elem_of_In _ _) H)).
  destruct (reverse d) as [|c [|x l]] eqn:E; [done|done|].
  apply andb_true_iff in F as [F H4]. apply andb_true_iff in F as [F H3].
  apply andb_true_iff in F as [H1 H2].
  apply bool_decide_eq_true in H1, H3, H4. apply negb_true_iff in H2.
  exists (reverse (x :: l)), c.
  assert (d = reverse (x :: l) ++ [c]) as Ed by (by rewrite <- reverse_cons, <- E, reverse_involutive).
  repeat split; try done. intros Hn. apply (f_equal length) in Hn.
  rewrite length_reverse in Hn. done.
Qed.

(** C12. Containment: an accepted upload path is one of the result directories, one or
    more slashes and a name without slashes or backslashes; joined to the analysis
    folder it stays below it. *)
Theorem sanitized_path_contained storage c p q :
  c <> SLASH -> netlog_sanitize_fname p = Ok q ->
  exists dir k name, dir ∈ RESULT_DIRECTORIES /\ SLASH ∉ name /\ BACKSLASH ∉ name /\
    q = dir ++ replicate (S k) SLASH ++ name /\
    os_path_join (storage ++ [c]) q
    = (storage ++ [c]) ++ SLASH :: dir ++ replicate (S k) SLASH ++ name.
Proof.
  intros Hc H. unfold netlog_sanitize_fname in H.
  set (path := replace_byte BACKSLASH SLASH p) in *.
  assert (BACKSLASH ∉ path) as Hbs by (by apply replace_byte_notin).
  destruct (os_path_split path) as [dir name] eqn:E.
  case_bool_decide as Hd; simpl in H; [|done].
  assert (q = path) as -> by (destruct (existsb _ _); congruence).
  destruct (result_directory_shape _ Hd) as (d' & c' & -> & Hc' & Hp & _ & Hd' & _).
  destruct (os_path_split_spec _ _ _ E Hp) as [Hn [[Hnil _]|[k Hk]]]; [by destruct d'|].
  exists (d' ++ [c']), k, name. split_and!; [done|done| |done|].
  - rewrite Hk in Hbs. set_solver.
  - rewrite os_path_join_rel, Hk; [done|done|]. rewrite Hk.
    destruct d'; [done|]. simpl in *. done.
Qed.

Lemma sanitized_path_contained_witness :
  exists dir k name, dir ∈ RESULT_DIRECTORIES /\ SLASH ∉ name /\ BACKSLASH ∉ name /\
    B "files/a.bin" = dir ++ replicate (S k) SLASH ++ name /\
    os_path_join (B "/storag" ++ ["e"%char]) (B "files/a.bin")
    = (B "/storag" ++ ["e"%char]) ++ SLASH :: dir ++ replicate (S k) SLASH ++ name.
Proof.
  apply (sanitized_path_contained (B "/storag") "e"%char (B "files\a.bin")).
  - discriminate.
  - vm_compute. reflexivity.
Defined.

Lemma banned_chars_pass dir name :
  dir ∈ RESULT_DIRECTORIES -> SLASH ∉ name -> BACKSLASH ∉ name ->
  netlog_sanitize_fname (dir ++ SLASH :: name) = Ok (dir ++ SLASH :: name).
Proof.
  intros Hd Hs Hb. destruct (result_directory_shape _ Hd) as (d' & c & -> & Hc & Hp & Hbs & _ & _).
  unfold netlog_sanitize_fname.
  rewrite replace_byte_id by set_solver.
  rewrite os_path_split_app, bool_decide_true by done. simpl. by destruct (existsb _ _).
Qed.

(** The filter on banned characters has no effect: a name in a result directory is
    accepted as it is, NUL bytes and colons included. *)
Theorem banned_chars_pass_unchanged dir name :
  dir ∈ RESULT_DIRECTORIES -> SLASH ∉ name -> BACKSLASH ∉ name ->
  netlog_sanitize_fname (dir ++ SLASH :: name) = Ok (dir ++ SLASH :: name).
Proof. apply banned_chars_pass. Qed.

Lemma banned_chars_pass_unchanged_witness :
  netlog_sanitize_fname (B "files" ++ SLASH :: B "a:b") = Ok (B "files" ++ SLASH :: B "a:b").
Proof.
  apply (banned_chars_pass_unchanged (B "files") (B "a:b"));
    apply (bool_decide_unpack _); vm_compute; exact I.
Defined.

(** ** Uploads never touch an existing file *)

#[global] Instance keeps_files_preorder : PreOrder keeps_files.
Proof. split; [by intros h k v|]. intros h1 h2 h3 H12 H23 k v H. by apply H23, H12. Qed.

Lemma keeps_files_same h h' : h_fs h = h_fs h' -> keeps_files h h'.
Proof. intros E k v. by rewrite E. Qed.

Lemma within_read_newline : within keeps_files read_newline.
Proof.
  intros h. apply keeps_files_same. unfold read_newline. destruct (h_buf h); [|done].
  by destruct (read_newline_loop _ _) as [r [sock buf]].
Qed.

Lemma within_read_upload_header v : within keeps_files (read_upload_header v).
Proof.
  unfold read_upload_header. within_tac; apply within_read_newline.
Qed.

Lemma open_exclusive_fresh p fs k fs' :
  open_exclusive p fs = (inr k, fs') -> fs_files fs !! k = None /\ fs' = fs_put k [] fs.
Proof.
  unfold open_exclusive, path_exists. destruct (os_path_split p) as [d n] eqn:E. simpl.
  case_bool_decide; [done|]. case_bool_decide; [done|].
  case_bool_decide.
  - by rewrite bool_decide_true.
  - destruct (_ || _) eqn:Hs; [done|]. intros [= <- <-]. split; [|done].
    apply orb_false_iff in Hs as [Hs%bool_decide_eq_false _]. by apply eq_None_not_Some.
Qed.

Lemma open_exclusive_fail p fs e fs' : open_exclusive p fs = (inl e, fs') -> fs' = fs.
Proof. unfold open_exclusive. repeat case_bool_decide; repeat case_match; by intros [= <- <-]. Qed.

(** What [copy_to_fd] can change is the one file it was given. *)
Lemma copy_to_fd_frame fd m h k' :
  fd <> Some k' ->
  fs_files (h_fs (snd (copy_to_fd fd m h))) !! k' = fs_files (h_fs h) !! k'.
Proof.
  intros Hne. unfold copy_to_fd, drain_buffer. simpl.
  destruct (writer_write _ _) as [w1|e]; simpl.
  - destruct (copy_loop (h_sock h) w1) as [r [sock w]]; simpl.
    destruct fd as [k|]; [|done]. destruct (writer_sink w); [|done].
    simpl. rewrite lookup_insert_ne by congruence. done.
  - destruct fd as [k|]; [|done]. destruct (writer_sink _); [|done].
    simpl. rewrite lookup_insert_ne by congruence. done.
Qed.

(** The handler after its header, on the state [h] it starts from. *)
Lemma open_then_copy_keeps storage path m h0 (rest : st hst unit) :
  within (fun a b => h_fs a = h_fs b \/ exists e, h_fs b = fs_add_log e (h_fs a)) rest ->
  keeps_files h0
    (snd (sbind (open_upload storage path)
       (fun fd => sbind rest (fun _ =>
          sfinally (copy_to_fd fd (Some m))
            (match fd with Some _ => sret tt | None => sraise AttributeError end))) h0)).
Proof.
  intros Hrest k v Hk. unfold sbind.
  destruct (open_upload storage path h0) as [[fd|e] h1] eqn:Eo.
  - assert (fs_files (h_fs h1) !! k = Some v /\ fd <> Some k) as [H1 Hne].
    { unfold open_upload in Eo. destruct (utf8_valid path); simpl in Eo; [|done].
      destruct (path_exists _ _); [by simplify_eq/=|].
      destruct (open_exclusive _ _) as [[[]|k'] fs'] eqn:Ex; simplify_eq/=.
      destruct (open_exclusive_fresh _ _ _ _ Ex) as [Hf ->]. simpl.
      rewrite lookup_insert_ne by congruence. split; [done|congruence]. }
    specialize (Hrest h1). destruct (rest h1) as [[[]|e] h2]; simpl in *.
    + assert (fs_files (h_fs h2) !! k = Some v) as H2 by (destruct Hrest as [<-|[? ->]]; done).
      unfold sfinally. pose proof (copy_to_fd_frame fd (Some m) h2 k Hne) as Hf.
      destruct (copy_to_fd fd (Some m) h2) as [r h3]; simpl in *.
      destruct fd; simpl; by rewrite Hf.
    + destruct Hrest as [<-|[? ->]]; done.
  - unfold open_upload in Eo. destruct (utf8_valid path); simpl in Eo; [|by simplify_eq/=].
    destruct (path_exists _ _); [done|].
    destruct (open_exclusive _ _) as [[er|k'] fs'] eqn:Ex; simplify_eq/=.
    apply open_exclusive_fail in Ex as ->. destruct er; simplify_eq/=; done.
Qed.

Lemma within_log_upload hd :
  within (fun a b => h_fs a = h_fs b \/ exists e, h_fs b = fs_add_log e (h_fs a)) (log_upload hd).
Proof. intros h. unfold log_upload. destruct (existsb _ _); simpl; eauto. Qed.

(** An upload never changes a file that already exists, whatever the guest sends and
    however the handler ends. *)
Theorem upload_keeps_existing_files storage m version h :
  keeps_files h (snd (FileUpload_handle storage m version h)).
Proof.
  unfold FileUpload_handle. unfold sbind at 1.
  pose proof (within_read_upload_header version h) as Hh.
  destruct (read_upload_header version h) as [[hd|e] h1]; simpl in *; [|done].
  etrans; [exact Hh|]. case_bool_decide.
  - by apply open_then_copy_keeps, within_log_upload.
  - unfold sbind, sret. pose proof (within_log_upload hd h1) as Hl.
    destruct (log_upload hd h1) as [[] h2]; simpl in *;
      intros k v Hk; destruct Hl as [<-|[? ->]]; done.
Qed.

(** Uploading to a path that exists ends in an [AttributeError] of the handler, which
    is not among the errors the worker catches; the overwrite error of the source is not
    reached. *)
Theorem upload_existing_path_crashes storage m version h hd h1 :
  read_upload_header version h = (Ok hd, h1) -> uh_duplicated hd = 0%Z ->
  utf8_valid (uh_path hd) = true ->
  path_exists (os_path_join storage (uh_path hd)) (h_fs h1) = true ->
  fst (FileUpload_handle storage m version h) = Raise AttributeError /\
  fst (protocol_session storage m (Some (FILE, version)) h) = Raise AttributeError.
Proof.
  intros Hh Hd Hu Hp.
  assert (fst (FileUpload_handle storage m version h) = Raise AttributeError) as H.
  { unfold FileUpload_handle. rewrite (sbind_ok _ _ _ _ _ Hh).
    rewrite !bool_decide_true by done. unfold sbind at 1, open_upload. rewrite Hu, Hp. simpl.
    unfold sbind. destruct (log_upload hd h1) as [[[]|e] h2] eqn:El.
    - unfold sfinally. by destruct (copy_to_fd None (Some m) h2).
    - unfold log_upload in El. by destruct (existsb _ _). }
  split; [done|]. unfold protocol_session, scatch.
  destruct (FileUpload_handle storage m version h) as [[]]; simpl in *; simplify_eq/=; done.
Qed.

Lemma upload_existing_path_crashes_witness :
  let fs := {| fs_files := {[ (B "s/files", B "a") := B "old" ]}; fs_dirs := {[ B "s/files" ]};
               fs_log := [] |} in
  let h := {| h_sock := []; h_buf := Some (B ("files/a" ++ String NL "new")); h_fs := fs |} in
  fst (FileUpload_handle (B "s") 100 None h) = Raise AttributeError /\
  fst (protocol_session (B "s") 100 (Some (FILE, None)) h) = Raise AttributeError.
Proof.
  intros fs h.
  apply (upload_existing_path_crashes (B "s") 100 None h
           {| uh_path := B "files/a"; uh_filepath := None; uh_pids := []; uh_ppids := [];
              uh_metadata := []; uh_category := []; uh_duplicated := 0 |}
           (set_conn [] (Some (B "new")) h)); vm_compute; reflexivity.
Defined.

(** ** The worker's tables *)

Lemma worker_inv_init : worker_inv worker_init.
Proof. split; simpl; intros *; rewrite ?lookup_empty; simpl; try done; set_solver. Qed.

Lemma inv_add_task t ip w : worker_inv w -> worker_inv (add_task t ip w).
Proof. intros []; by split. Qed.

Lemma inv_del_task t ip w : worker_inv w -> worker_inv (del_task t ip w).
Proof.
  intros [Htr Hfr Hinj Hca Hme]. split; simpl.
  - intros c t' ip' s Hc Hnc. destruct (Htr c t' ip' s Hc) as [Hh Hs]; [set_solver|].
    destruct (decide (t' = t)) as [->|Hne].
    + rewrite Hh in Hnc. set_solver.
    + by rewrite lookup_delete_ne.
  - intros t' s Hs. apply lookup_delete_Some in Hs as [_ Hs]. eauto.
  - intros t1 t2 s H1 H2. apply lookup_delete_Some in H1 as [_ H1], H2 as [_ H2]. eauto.
  - intros c [Hc|Hc]%elem_of_union; [|eauto].
    destruct (w_handlers w !! t) as [s|]; [|set_solver].
    destruct (Hme _ _ Hc) as (t' & ip' & ->). by eexists.
  - done.
Qed.

(** A connection that is in no set can move to a phase other than [Handling]. *)
Lemma inv_set_phase c p w :
  worker_inv w -> (forall t ip s, p <> Handling t ip s) ->
  (forall t ip, p = Negotiating t ip -> w_conns w !! c = None) ->
  (forall t ip s, w_conns w !! c <> Some (Handling t ip s)) ->
  worker_inv (set_conn_phase c p w).
Proof.
  intros [Htr Hfr Hinj Hca Hme] Hp Hneg Hc. split; simpl; [|done|done| |].
  - intros c' t ip s H Hn. apply lookup_insert_Some in H as [[_ ->]|[_ H]]; [naive_solver|eauto].
  - intros c' H. destruct (Hca _ H) as (p' & Hp' & Hn'). rewrite lookup_insert.
    case_decide; [|eauto]. subst. exists p. split; [done|]. intros t ip ->.
    rewrite (Hneg t ip) in Hp'; done.
  - intros c' s H. destruct (Hme _ _ H) as (t & ip & E). exists t, ip.
    rewrite lookup_insert_ne; [done|]. intros <-. by eapply Hc.
Qed.

Lemma inv_handle_begin c ip w :
  worker_inv w -> w_conns w !! c = None -> worker_inv (handle_begin c ip w).
Proof.
  intros Hi Hc. unfold handle_begin.
  repeat case_match; apply inv_set_phase; done || congruence.
Qed.

Lemma inv_handle_register c t ip w :
  worker_inv w -> w_conns w !! c = Some (Negotiating t ip) -> worker_inv (handle_register c t ip w).
Proof.
  intros Hi Hc. unfold handle_register.
  case_bool_decide; [|apply inv_set_phase; done || congruence].
  destruct Hi as [Htr Hfr Hinj Hca Hme].
  destruct (w_handlers w !! t) as [s|] eqn:Hh; split; simpl.
  - intros c' t' ip' s' H' Hn. apply lookup_insert_Some in H' as [[<- ?]|[Hne H']]; simplify_eq/=.
    + rewrite lookup_insert_eq. split; [done|set_solver].
    + destruct (Htr _ _ _ _ H' Hn) as [H1 H2]. split; [done|].
      rewrite lookup_insert. case_decide; subst; simpl; set_solver.
  - eauto.
  - eauto.
  - intros c' H'. destruct (Hca _ H') as (p' & Hp' & Hn').
    rewrite lookup_insert. case_decide; [by eexists|eauto].
  - intros c' s'. rewrite lookup_insert. case_decide as E; simpl.
    + subst s'. rewrite elem_of_union, elem_of_singleton.
      intros [->|H']; [exists t, ip; by rewrite lookup_insert_eq|].
      destruct (Hme _ _ H') as (t' & ip' & E). exists t', ip'. rewrite lookup_insert_ne; congruence.
    + intros H'. destruct (Hme _ _ H') as (t' & ip' & E'). exists t', ip'.
      rewrite lookup_insert_ne; congruence.
  - intros c' t' ip' s' H' Hn. apply lookup_insert_Some in H' as [[<- ?]|[Hne H']]; simplify_eq/=.
    + rewrite !lookup_insert_eq. split; [done|set_solver].
    + destruct (Htr _ _ _ _ H' Hn) as [H1 H2]. pose proof (Hfr _ _ H1).
      rewrite !lookup_insert_ne by (lia || congruence). done.
  - intros t' s'. rewrite lookup_insert. case_decide; [intros [= <-]; lia|].
    intros H'. specialize (Hfr _ _ H'). lia.
  - intros t1 t2 s'. rewrite !lookup_insert. repeat case_decide; subst; try done.
    + intros [= <-] H'. specialize (Hfr _ _ H'). lia.
    + intros H' [= <-]. specialize (Hfr _ _ H'). lia.
    + eauto.
  - intros c' H'. destruct (Hca _ H') as (p' & Hp' & Hn').
    rewrite lookup_insert. case_decide; [by eexists|eauto].
  - intros c' s'. rewrite lookup_insert. case_decide as E; simpl.
    + subst s'. rewrite elem_of_singleton. intros ->. exists t, ip. by rewrite lookup_insert_eq.
    + intros H'. destruct (Hme _ _ H') as (t' & ip' & E'). exists t', ip'.
      rewrite lookup_insert_ne; congruence.
Qed.

Lemma inv_handle_end c t ip s w :
  worker_inv w -> w_conns w !! c = Some (Handling t ip s) -> worker_inv (handle_end c s w).
Proof.
  intros [Htr Hfr Hinj Hca Hme] Hc. split; simpl; [|done|done| |].
  - intros c' t' ip' s' H' Hn. apply lookup_insert_Some in H' as [[_ ?]|[Hne H']]; [done|].
    destruct (Htr _ _ _ _ H') as [H1 H2]; [set_solver|]. split; [done|].
    rewrite lookup_alter. case_decide; [|done]. subst. destruct (w_sets w !! s'); set_solver.
  - intros c' H'. rewrite lookup_insert. case_decide; [by eexists|].
    apply Hca. set_solver.
  - intros c' s' H'.
    assert (c' <> c /\ c' ∈ (default ∅ (w_sets w !! s') : gset nat)) as [Hne Hm].
    { rewrite lookup_alter in H'. case_decide as E; [|split; [|done]].
      - subst s'. destruct (w_sets w !! s); set_solver.
      - intros ->. destruct (Hme _ _ H') as (? & ? & ?). simplify_eq. }
    destruct (Hme _ _ Hm) as (t' & ip' & E'). exists t', ip'. rewrite lookup_insert_ne; congruence.
Qed.

Lemma wstep_inv w w' : wstep w w' -> worker_inv w -> worker_inv w'.
Proof.
  intros [] Hi; eauto using inv_add_task, inv_del_task, inv_handle_begin, inv_handle_register, inv_handle_end.
  apply inv_set_phase; done || congruence.
Qed.

Lemma worker_reachable_inv w : worker_reachable w -> worker_inv w.
Proof.
  intros H. eapply rtc_invariant; eauto using worker_inv_init, wstep_inv.
Qed.

(** No lingering connection: in every reachable state of the worker, for every
    interleaving of task registrations, removals and connections, deleting a task cancels
    each connection that is being handled for it. *)
Theorem del_task_cancels_all w t ip c ip' s :
  worker_reachable w -> w_conns (del_task t ip w) !! c = Some (Handling t ip' s) ->
  c ∈ w_cancelled (del_task t ip w).
Proof.
  intros Hr%worker_reachable_inv Hc. simpl in *.
  destruct (decide (c ∈ w_cancelled w)); [set_solver|].
  destruct (wi_tracked _ Hr _ _ _ _ Hc) as [-> ?]; [done|set_solver].
Qed.

Lemma del_task_cancels_all_witness :
  0 ∈ w_cancelled (del_task 7 (B "10.0.0.2") sample_worker).
Proof.
  apply (del_task_cancels_all _ _ _ _ (B "10.0.0.2") 0).
  - eapply rtc_l; [apply (step_add_task 7 (B "10.0.0.2"))|].
    eapply rtc_l; [apply (step_accept 0 (B "10.0.0.2")); reflexivity|].
    eapply rtc_l; [apply (step_register 0 7 (B "10.0.0.2")); reflexivity|]. apply rtc_refl.
  - vm_compute. reflexivity.
Defined.

(** A connection is accepted for a task only while its address belongs to it: a
    registration that succeeds names the task the address has at that moment, and it
    leaves the connection tracked by that task's entry. *)
Theorem register_only_current_task w c t ip t' ip' s :
  worker_reachable w -> w_conns w !! c = Some (Negotiating t ip) ->
  w_conns (handle_register c t ip w) !! c = Some (Handling t' ip' s) ->
  t' = t /\ ip' = ip /\ w_tasks w !! ip = Some t /\ c ∉ w_cancelled w /\
  w_handlers (handle_register c t ip w) !! t = Some s.
Proof.
  intros Hr%worker_reachable_inv Hc H.
  assert (c ∉ w_cancelled w) as Hd.
  { intros Hx. destruct (wi_cancelled _ Hr _ Hx) as (p & Hp & Hn). rewrite Hc in Hp.
    simplify_eq/=. by eapply Hn. }
  unfold handle_register in *. case_bool_decide as Ht; simpl in *; [|by rewrite lookup_insert_eq in H].
  destruct (w_handlers w !! t) as [s0|] eqn:Hh; simpl in *;
    rewrite lookup_insert_eq in H; simplify_eq/=; rewrite ?lookup_insert_eq; split_and!; try done.
Qed.

Lemma register_only_current_task_witness :
  let w := handle_begin 0 (B "10.0.0.2") (add_task 7 (B "10.0.0.2") worker_init) in
  7%Z = 7%Z /\ B "10.0.0.2" = B "10.0.0.2" /\ w_tasks w !! B "10.0.0.2" = Some 7%Z /\
  0 ∉ w_cancelled w /\ w_handlers (handle_register 0 7 (B "10.0.0.2") w) !! 7%Z = Some 0.
Proof.
  intros w. apply (register_only_current_task w 0 7 (B "10.0.0.2")).
  - eapply rtc_l; [apply (step_add_task 7 (B "10.0.0.2"))|].
    eapply rtc_l; [apply (step_accept 0 (B "10.0.0.2")); reflexivity|]. apply rtc_refl.
  - vm_compute. reflexivity.
  - vm_compute. reflexivity.
Defined.
