(* ===== verification/GuestNetlog.v ===== *)
(** The guest side of the upload protocol: [upload_to_host] and [NetlogFile.init] of
    analyzer/windows/lib/common/results.py and analyzer/linux/lib/common/results.py,
    and their agreement with the host's [FileUpload] handler. *)
From S2P Require Import Prelude ResultServer.

Definition BUFSIZE : Z := 1024 * 1024.
Definition bufsize : nat := Z.to_nat BUFSIZE.

Definition SP : ascii := " "%char.

(** [" ".join(l)]. *)
Fixpoint join_sp (l : list bytes) : bytes :=
  match l with
  | [] => []
  | [x] => x
  | x :: l' => x ++ SP :: join_sp l'
  end.

(** [pids] is a string, or a list of strings that [init] joins. *)
Inductive pids_arg := PidsStr (s : bytes) | PidsList (l : list bytes).

Definition lines (ls : list bytes) : bytes := concat ((fun l => l ++ [NL]) <$> ls).

(** [NetlogFile.init] of the Windows analyzer: the bytes of [self.proto]. *)
Definition NetlogFile_init (dump_path filepath : bytes) (pids ppids : pids_arg)
  (metadata category : bytes) (duplicated : bool) : bytes :=
  let str p := match p with PidsStr s => s | PidsList l => join_sp l end in
  match filepath with
  | _ :: _ =>
      lines [B "FILE 2"; dump_path; filepath; str pids; str ppids; metadata; category;
             if duplicated then B "1" else B "0"]
  | [] => lines [B "FILE"; dump_path]
  end.

(** [init] of the Linux analyzer: an empty list is left as it is and has no
    [encode]. *)
Definition NetlogFile_init_linux (dump_path filepath : bytes) (pids : pids_arg)
  (metadata category : bytes) : res bytes :=
  let! pids := match pids with
               | PidsStr s => Ok (PidsStr s)
               | PidsList [] => Ok (PidsList [])
               | PidsList l => Ok (PidsStr (join_sp l))
               end in
  match filepath with
  | _ :: _ =>
      match pids with
      | PidsStr s => Ok (lines [B "FILE 2"; dump_path; filepath; s; metadata; category])
      | PidsList _ => Raise AttributeError
      end
  | [] => Ok (lines [B "FILE"; dump_path])
  end.

(** The [while buf] loop: reads of [BUFSIZE] bytes until one is empty. One read
    takes at least a byte, so the length of the file bounds the iterations. *)
Fixpoint read_chunks (fuel : nat) (content : bytes) : list bytes :=
  match fuel with
  | 0 => []
  | S fuel' =>
      match take bufsize content with
      | [] => []
      | buf => buf :: read_chunks fuel' (drop bufsize content)
      end
  end.

Record upload_config := { upload_max_size : Z; do_upload_max_size : bool }.

(** [upload_to_host] of the Windows analyzer: the messages sent on the
    connection, for a file that exists with the given contents, or [None] when
    nothing is sent. *)
Definition upload_to_host (cfg : upload_config) (content : option bytes)
  (file_path dump_path : bytes) (pids ppids : pids_arg) (metadata category : bytes)
  (duplicated : bool) : option (list bytes) :=
  match content with
  | None => None
  | Some content =>
      if bool_decide (upload_max_size cfg < zlen content)%Z && negb (do_upload_max_size cfg)
      then None
      else
        let proto := NetlogFile_init dump_path file_path pids ppids metadata category duplicated in
        match file_path with
        | _ :: _ => Some (proto :: if duplicated then [] else read_chunks (S (length content)) content)
        | [] => Some [proto]
        end
  end.

(** What the host does with a connection: the negotiation and the session. *)
Definition serve (storage : bytes) (max : Z) : st hst unit :=
  let* protocol := negotiate_protocol in protocol_session storage max protocol.

(** [data] is what the guest has still to deliver, cut in any way into chunks. *)
Definition pending (data : bytes) (h : hst) : Prop :=
  exists ds buf, h_sock h = RData <$> ds /\ h_buf h = Some buf /\
    Forall (fun d => d <> []) ds /\ buf ++ concat ds = data.

(** A request line the reader accepts. *)
Definition good_line (l : bytes) : Prop := NL ∉ l /\ (zlen l < MAX_NETLOG_LINE)%Z.

(** A list of process ids as the guest writes it. *)
Definition pid_tokens (l : list bytes) (zs : list Z) : Prop :=
  Forall2 (fun t z => t <> [] /\ forallb (fun c => negb (is_ws c)) t = true /\ py_int t = Some z) l zs.
(** The fields of an upload the guest can send. *)
Record upload_ok (dump_path filepath : bytes) (pids ppids : list bytes) (zs pzs : list Z)
  (metadata category : bytes) : Prop := {
  uo_lines : Forall good_line [dump_path; filepath; join_sp pids; join_sp ppids; metadata; category];
  uo_file : filepath <> [];
  uo_pids : pid_tokens pids zs;
  uo_ppids : pid_tokens ppids pzs }.

(** A place the host can create: [dir/name] below the analysis folder [storage]. *)
Record target_ok (storage dir name : bytes) (fs : fsys) : Prop := {
  to_dir : dir ∈ RESULT_DIRECTORIES;
  to_name : SLASH ∉ name /\ BACKSLASH ∉ name /\ NUL ∉ name /\ name ∉ dir_names;
  to_storage : exists s c, storage = s ++ [c] /\ c <> SLASH /\ NUL ∉ storage;
  to_folder : storage ++ SLASH :: dir ∈ fs_dirs fs;
  to_new : fs_files fs !! (storage ++ SLASH :: dir, name) = None /\ os_path_join (storage ++ SLASH :: dir) name ∉ fs_dirs fs;
  to_utf8 : utf8_valid (dir ++ SLASH :: name) = true }.

#[global] Instance good_line_dec l : Decision (good_line l).
Proof. unfold good_line. apply _. Defined.

(** A sample connection for the witnesses. *)
Definition sample_stream : bytes :=
  NetlogFile_init (B "files\a.bin") (B "C:\a") (PidsList [B "12"; B "34"]) (PidsList []) [] (B "files") false
  ++ B "MZ".
Definition sample_conn : hst :=
  {| h_sock := RData <$> [take 10 sample_stream; drop 10 sample_stream]; h_buf := Some [];
     h_fs := create_folders (B "/st") {| fs_files := ∅; fs_dirs := ∅; fs_log := [] |} |}.

(** ** The sender *)

Lemma bufsize_pos : 0 < bufsize.
Proof. unfold bufsize, BUFSIZE. lia. Qed.
#[global] Opaque bufsize.

Lemma read_chunks_concat fuel content :
  length content < fuel -> concat (read_chunks fuel content) = content.
Proof.
  revert content. induction fuel as [|fuel IH]; intros content Hl; [lia|]. simpl.
  destruct (take bufsize content) as [|x l] eqn:E.
  - by rewrite (take_pos_nil _ _ bufsize_pos E).
  - cbn [concat]. rewrite IH; [by rewrite <- E, take_drop|].
    pose proof bufsize_pos. rewrite length_drop.
    destruct content; [by rewrite take_nil in E|]. cbn [length] in *. lia.
Qed.

Lemma upload_to_host_messages cfg content file_path dump_path pids ppids metadata category dup :
  (zlen content <= upload_max_size cfg)%Z \/ do_upload_max_size cfg = true -> file_path <> [] ->
  exists msgs, upload_to_host cfg (Some content) file_path dump_path pids ppids metadata category dup = Some msgs /\
    concat msgs = NetlogFile_init dump_path file_path pids ppids metadata category dup ++
                  (if dup then [] else content).
Proof.
  intros Hc Hf. unfold upload_to_host.
  assert (bool_decide (upload_max_size cfg < zlen content)%Z && negb (do_upload_max_size cfg) = false) as ->.
  { destruct Hc as [Hc| ->]; [by rewrite bool_decide_false by lia|apply andb_false_r]. }
  destruct file_path; [done|]. eexists. split; [done|]. cbn [concat]. f_equal.
  destruct dup; [done|]. apply read_chunks_concat. lia.
Qed.

(** The Windows guest sends the header followed by exactly the file, for files of
    any size, and nothing but the header for a duplicate. *)
Theorem upload_to_host_stream cfg content file_path dump_path pids ppids metadata category dup :
  (zlen content <= upload_max_size cfg)%Z \/ do_upload_max_size cfg = true -> file_path <> [] ->
  exists msgs, upload_to_host cfg (Some content) file_path dump_path pids ppids metadata category dup = Some msgs /\
    concat msgs = NetlogFile_init dump_path file_path pids ppids metadata category dup ++
                  (if dup then [] else content).
Proof. apply upload_to_host_messages. Qed.

Lemma upload_to_host_stream_witness :
  exists msgs, upload_to_host {| upload_max_size := 100; do_upload_max_size := false |} (Some (B "data"))
      (B "C:\x") (B "files/x") (PidsStr []) (PidsStr []) [] (B "files") false = Some msgs /\
    concat msgs = NetlogFile_init (B "files/x") (B "C:\x") (PidsStr []) (PidsStr []) [] (B "files") false ++ B "data".
Proof.
  apply (upload_to_host_stream {| upload_max_size := 100; do_upload_max_size := false |} (B "data")
           (B "C:\x") (B "files/x") (PidsStr []) (PidsStr []) [] (B "files") false).
  - left. vm_compute. discriminate.
  - discriminate.
Defined.

(** ** Reading the request back *)

Lemma read_line_pending h line rest :
  pending (line ++ NL :: rest) h -> good_line line ->
  exists h', read_newline h = (Ok line, h') /\ pending rest h' /\ h_fs h' = h_fs h.
Proof.
  intros (ds & buf & Hs & Hb & Hne & E) [Hn Hl].
  destruct (read_newline_stream ds [] h buf line rest) as (ds' & buf' & Hr & E' & Hne');
    [by rewrite app_nil_r|done..|].
  eexists. split; [exact Hr|]. split; [|done].
  exists ds', buf'. simpl. by rewrite app_nil_r.
Qed.

Lemma split_ws_word w c l :
  forallb (fun c => negb (is_ws c)) w = true -> is_ws c = true -> w <> [] ->
  split_ws (w ++ c :: l) = w :: split_ws l.
Proof.
  intros Hw Hc Hne. unfold split_ws.
  assert (forall cur, cur <> [] \/ w <> [] ->
    split_ws_aux cur (w ++ c :: l) = (reverse cur ++ w) :: split_ws_aux [] l) as H.
  { clear Hne. induction w as [|x w IH]; intros cur Hcur; simpl.
    - rewrite Hc, app_nil_r. by destruct cur, Hcur.
    - simpl in Hw. apply andb_true_iff in Hw as [Hx Hw]. apply negb_true_iff in Hx. rewrite Hx.
      rewrite IH by (done || by left). by rewrite reverse_cons, <- app_assoc. }
  rewrite H by auto. done.
Qed.

Lemma split_ws_last w :
  forallb (fun c => negb (is_ws c)) w = true -> w <> [] -> split_ws w = [w].
Proof.
  intros Hw Hne. unfold split_ws.
  assert (forall cur, cur <> [] \/ w <> [] -> split_ws_aux cur w = [reverse cur ++ w]) as H.
  { clear Hne. induction w as [|x w IH]; intros cur Hcur; simpl.
    - rewrite app_nil_r. by destruct cur, Hcur.
    - simpl in Hw. apply andb_true_iff in Hw as [Hx Hw]. apply negb_true_iff in Hx. rewrite Hx.
      rewrite IH by (done || by left). by rewrite reverse_cons, <- app_assoc. }
  rewrite H by auto. done.
Qed.

Lemma split_ws_join_sp l :
  Forall (fun t => t <> [] /\ forallb (fun c => negb (is_ws c)) t = true) l ->
  split_ws (join_sp l) = l.
Proof.
  induction l as [|x [|y l] IH]; intros H; [done| |]; inv H.
  - by apply split_ws_last; naive_solver.
  - change (join_sp (x :: y :: l)) with (x ++ SP :: join_sp (y :: l)).
    rewrite split_ws_word by naive_solver. by rewrite IH.
Qed.

Lemma parse_ints_join l zs : pid_tokens l zs -> parse_ints (join_sp l) = Ok zs.
Proof.
  intros H. unfold parse_ints. rewrite split_ws_join_sp.
  - enough (mapM py_int l = Some zs) as -> by done.
    apply mapM_Some. eapply Forall2_impl; [exact H|]. naive_solver.
  - eapply Forall2_Forall_l; [exact H|]. apply Forall_true. naive_solver.
Qed.

Lemma lines_cons l ls rest : lines (l :: ls) ++ rest = l ++ NL :: (lines ls ++ rest).
Proof. unfold lines. csimpl. by rewrite <- !app_assoc. Qed.

(** One step of a parse: the next line of what is pending. *)
Ltac next_line h :=
  match goal with
  | H : pending (lines (?l :: _) ++ _) _ |- _ =>
      rewrite lines_cons in H;
      apply read_line_pending in H as (h & ? & H & ?); [|assumption]
  end.

Lemma negotiate_FILE2 ls rest h :
  pending (lines (B "FILE 2" :: ls) ++ rest) h ->
  exists h', negotiate_protocol h = (Ok (Some (FILE, Some 2%Z)), h') /\
    pending (lines ls ++ rest) h' /\ h_fs h' = h_fs h.
Proof.
  intros H. assert (good_line (B "FILE 2")) by (apply (bool_decide_unpack _); vm_compute; exact I).
  next_line h1. exists h1. split; [|done].
  unfold negotiate_protocol. by rewrite (sbind_ok _ _ _ _ _ H1).
Qed.

Lemma read_header_windows dump_path filepath pids ppids zs pzs metadata category dup path rest h :
  upload_ok dump_path filepath pids ppids zs pzs metadata category ->
  netlog_sanitize_fname dump_path = Ok path ->
  pending (lines [dump_path; filepath; join_sp pids; join_sp ppids; metadata; category;
                  if dup : bool then B "1" else B "0"] ++ rest) h ->
  exists h', read_upload_header (Some 2%Z) h
    = (Ok {| uh_path := path; uh_filepath := Some filepath; uh_pids := zs; uh_ppids := pzs;
             uh_metadata := metadata; uh_category := category;
             uh_duplicated := if dup then 1 else 0 |}, h') /\
    pending rest h' /\ h_fs h' = h_fs h.
Proof.
  intros [Hl _ Hp Hpp] Hs H.
  rewrite !Forall_cons in Hl. destruct Hl as (? & ? & ? & ? & ? & ? & _).
  assert (good_line (if dup then B "1" else B "0"))
    by (destruct dup; apply (bool_decide_unpack _); vm_compute; exact I).
  next_line h1. next_line h2. next_line h3. next_line h4. next_line h5. next_line h6. next_line h7.
  exists h7. split; [|split; [exact H|congruence]].
  unfold read_upload_header.
  repeat match goal with
  | E : ?m ?h = (Ok _, _) |- sbind ?m _ ?h = _ => rewrite (sbind_ok _ _ _ _ _ E)
  | |- sbind (slift _) _ _ = _ => unfold sbind at 1, slift at 1
  | |- context [netlog_sanitize_fname dump_path] => rewrite Hs
  | |- context [parse_ints (join_sp pids)] => rewrite (parse_ints_join _ _ Hp)
  | |- context [parse_ints (join_sp ppids)] => rewrite (parse_ints_join _ _ Hpp)
  | |- context [if bool_decide _ then _ else _] => rewrite bool_decide_true by lia
  end.
  destruct dup; reflexivity.
Qed.

(** ** From the guest's file to the host's file *)

Lemma open_upload_new storage dir name h :
  target_ok storage dir name (h_fs h) ->
  open_upload storage (dir ++ SLASH :: name) h
  = (Ok (Some (storage ++ SLASH :: dir, name)),
     set_fs (fs_put (storage ++ SLASH :: dir, name) [] (h_fs h)) h).
Proof.
  intros [Hd (Hs & Hb & Hnul & Hdn) (s & c & -> & Hc & Hns) Hf [Hnew Hnd] Hu].
  unfold open_upload. rewrite Hu. simpl.
  destruct (result_directory_shape _ Hd) as (d' & c' & -> & Hc' & Hp & Hbs & Hd' & Hdnul).
  rewrite os_path_join_rel; [|done|by destruct d'].
  replace ((s ++ [c]) ++ SLASH :: (d' ++ [c']) ++ SLASH :: name)
    with ((((s ++ [c]) ++ SLASH :: d') ++ [c']) ++ SLASH :: name) by by list_simplifier.
  replace ((s ++ [c]) ++ SLASH :: d' ++ [c']) with (((s ++ [c]) ++ SLASH :: d') ++ [c']) in *
    by by list_simplifier.
  unfold open_exclusive, path_exists. rewrite os_path_split_app by done.
  assert (NUL ∉ (((s ++ [c]) ++ SLASH :: d') ++ [c']) ++ SLASH :: name) by set_solver.
  rewrite (bool_decide_false (NUL ∈ _)), (bool_decide_false (name ∈ _)) by done.
  simpl fst. rewrite Hnew. rewrite (bool_decide_false (is_Some None)) by (by intros [? ?]). rewrite (bool_decide_false (os_path_join _ _ ∈ _)) by done.
  rewrite bool_decide_false by (by intros ?). done.
Qed.

Lemma replaced_twice l : replace_byte BACKSLASH SLASH (replace_byte BACKSLASH SLASH l) = replace_byte BACKSLASH SLASH l.
Proof.
  apply replace_byte_id. unfold replace_byte. intros (x & E & _)%list_elem_of_fmap. by destruct (decide (x = BACKSLASH)).
Qed.
Lemma sanitize_replaced p : netlog_sanitize_fname (replace_byte BACKSLASH SLASH p) = netlog_sanitize_fname p.
Proof. unfold netlog_sanitize_fname. by rewrite replaced_twice. Qed.

(** C1. End to end: a file the Windows analyzer uploads arrives on the host as it was,
    cut at [max] bytes with the truncation mark, for every division of the connection's
    stream into chunks. The path it sends may separate the folder from the name by a
    backslash, as [os.path.join] does on Windows, or by a slash; the host logs the
    metadata as the guest gave it, under the path with a slash, and no other file
    changes. *)
Theorem upload_end_to_end cfg (content : bytes) storage max dump_path dir name filepath pids ppids zs pzs metadata category (ds : list bytes) h :
  (zlen content <= upload_max_size cfg)%Z \/ do_upload_max_size cfg = true ->
  replace_byte BACKSLASH SLASH dump_path = dir ++ SLASH :: name ->
  upload_ok dump_path filepath pids ppids zs pzs metadata category ->
  target_ok storage dir name (h_fs h) -> (0 < max)%Z ->
  Some (concat ds) = (fun m => concat m) <$> upload_to_host cfg (Some content) filepath dump_path
                         (PidsList pids) (PidsList ppids) metadata category false ->
  h_sock h = RData <$> ds -> h_buf h = Some [] -> Forall (fun d => d <> []) ds ->
  exists h', serve storage max h = (Ok tt, h') /\
    fs_files (h_fs h') !! (storage ++ SLASH :: dir, name) = Some (limited max content) /\
    (forall k, k <> (storage ++ SLASH :: dir, name) -> fs_files (h_fs h') !! k = fs_files (h_fs h) !! k) /\
    fs_log (h_fs h') = fs_log (h_fs h) ++
      (if existsb (fun p => has_prefix p (dir ++ SLASH :: name)) unlogged_prefixes then []
       else [{| le_path := dir ++ SLASH :: name; le_filepath := filepath; le_pids := zs;
                le_ppids := pzs; le_metadata := metadata;
                le_category := if bool_decide (category ∈ logged_categories) then category else [] |}]).
Proof.
  intros Hc Hpath Hok Ht Hmax Hsent Hs Hb Hne. pose proof (uo_file _ _ _ _ _ _ _ _ Hok) as Hfile.
  destruct (upload_to_host_messages cfg content filepath dump_path (PidsList pids)
              (PidsList ppids) metadata category false Hc Hfile) as (msgs & Hm & Hcat).
  rewrite Hm in Hsent. simpl in Hsent. injection Hsent as Hds.
  assert (pending (concat ds) h) as Hp by (by exists ds, []).
  rewrite Hds, Hcat in Hp. unfold NetlogFile_init in Hp. destruct filepath as [|f0 filepath]; [done|].
  apply negotiate_FILE2 in Hp as (h1 & Hn & Hp & Hfs1).
  assert (netlog_sanitize_fname dump_path = Ok (dir ++ SLASH :: name)) as Hsan
    by (rewrite <-sanitize_replaced, Hpath; apply banned_chars_pass; destruct Ht as [? (?&?&?&?)]; done).
  destruct (read_header_windows _ _ _ _ _ _ _ _ false _ _ _ Hok Hsan Hp) as (h2 & Hh & Hp2 & Hfs2).
  destruct Hp2 as (ds2 & buf2 & Hs2 & Hb2 & Hne2 & Hdata).
  unfold serve. rewrite (sbind_ok _ _ _ _ _ Hn).
  unfold protocol_session, FileUpload_handle.
  unfold scatch. rewrite (sbind_ok _ _ _ _ _ Hh). simpl uh_duplicated. simpl uh_path.
  rewrite !bool_decide_true by done.
  rewrite (sbind_ok _ _ _ _ _ (open_upload_new storage dir name h2 ltac:(by rewrite Hfs2, Hfs1))).
  set (key := (storage ++ SLASH :: dir, name)) in *.
  set (hd := {| uh_path := _ |}).
  assert (exists h3, log_upload hd (set_fs (fs_put key [] (h_fs h2)) h2) = (Ok tt, h3) /\
     h_sock h3 = h_sock h2 /\ h_buf h3 = h_buf h2 /\
     fs_files (h_fs h3) = <[key := []]> (fs_files (h_fs h)) /\
     fs_log (h_fs h3) = fs_log (h_fs h) ++
      (if existsb (fun p => has_prefix p (dir ++ SLASH :: name)) unlogged_prefixes then []
       else [header_entry hd])) as (h3 & Hlog & Hs3 & Hb3 & Hf3 & Hl3).
  { unfold log_upload. simpl uh_path.
    destruct (existsb _ _); eexists; (split; [reflexivity|]); simpl;
      rewrite ?app_nil_r, Hfs2, Hfs1; done. }
  rewrite (sbind_ok _ _ _ _ _ Hlog). unfold sfinally.
  rewrite (copy_to_fd_spec key (Some max) ds2 h3 buf2);
    [|congruence|congruence|done|by rewrite Hf3, lookup_insert_eq|naive_solver lia].
  rewrite bool_decide_true by lia. simpl. eexists. split; [reflexivity|]. simpl.
  rewrite Hf3, Hl3, Hdata. split_and!; [by rewrite lookup_insert_eq| |done].
  intros k Hk. by rewrite !lookup_insert_ne.
Qed.

Lemma upload_end_to_end_witness :
  exists h', serve (B "/st") 100 sample_conn = (Ok tt, h') /\
    fs_files (h_fs h') !! (B "/st" ++ SLASH :: B "files", B "a.bin") = Some (limited 100 (B "MZ")) /\
    (forall k, k <> (B "/st" ++ SLASH :: B "files", B "a.bin") ->
       fs_files (h_fs h') !! k = fs_files (h_fs sample_conn) !! k) /\
    fs_log (h_fs h') = fs_log (h_fs sample_conn) ++
      (if existsb (fun p => has_prefix p (B "files" ++ SLASH :: B "a.bin")) unlogged_prefixes then []
       else [{| le_path := B "files" ++ SLASH :: B "a.bin"; le_filepath := B "C:\a"; le_pids := [12; 34]%Z;
                le_ppids := []; le_metadata := [];
                le_category := if bool_decide (B "files" ∈ logged_categories) then B "files" else [] |}]).
Proof.
  apply (upload_end_to_end {| upload_max_size := 100; do_upload_max_size := false |} (B "MZ") (B "/st") 100
           (B "files\a.bin") (B "files") (B "a.bin") (B "C:\a") [B "12"; B "34"] [] [12; 34]%Z [] [] (B "files")
           [take 10 sample_stream; drop 10 sample_stream]).
  - left. vm_compute. discriminate.
  - reflexivity.
  - split.
    + apply (bool_decide_unpack _). vm_compute. exact I.
    + discriminate.
    + repeat constructor; discriminate.
    + constructor.
  - split.
    + apply (bool_decide_unpack _). vm_compute. exact I.
    + split_and!; apply (bool_decide_unpack _); vm_compute; exact I.
    + exists (B "/s"), "t"%char. split_and!; apply (bool_decide_unpack _); vm_compute; exact I.
    + apply (bool_decide_unpack _). vm_compute. exact I.
    + split; [reflexivity|]. apply (bool_decide_unpack _). vm_compute. exact I.
    + reflexivity.
  - lia.
  - reflexivity.
  - reflexivity.
  - reflexivity.
  - repeat constructor; discriminate.
Defined.

(** ** The Linux header *)

Lemma read_newline_eof data h :
  pending data h -> good_line data ->
  exists h', read_newline h = (Raise EOFError, h') /\ h_fs h' = h_fs h.
Proof.
  intros (ds & buf & Hs & Hb & Hne & E) [Hn Hl]. unfold read_newline. rewrite Hb, Hs. clear Hs Hb.
  assert (forall buf, buf ++ concat ds = data ->
     exists x, read_newline_loop (RData <$> ds) buf = (Raise EOFError, x)) as H.
  { clear buf E. induction ds as [|d ds IH]; intros buf E; csimpl.
    - rewrite app_nil_r in E. subst. rewrite (proj2 (find_byte_None _ _) Hn).
      rewrite bool_decide_false by lia. eauto.
    - inv Hne. rewrite (proj2 (find_byte_None NL buf)) by set_solver.
      rewrite !zlen_app in Hl. pose proof (zlen_nonneg (concat (d :: ds))).
      rewrite bool_decide_false by lia.
      destruct d as [|x d]; [done|]. apply IH; [done|]. by rewrite <- app_assoc. }
  destruct (H buf E) as [[sock buf'] ->]. by eexists.
Qed.

(** The header of the Linux analyzer is two lines short of what the host reads: a
    Linux upload whose contents have no newline stores no file and logs nothing, and ends
    the connection with an uncaught error. *)
Theorem linux_upload_lost storage max dump_path path filepath pids metadata category content msg ds h :
  Forall good_line [dump_path; filepath; pids; metadata; category; content] -> filepath <> [] ->
  netlog_sanitize_fname dump_path = Ok path ->
  NetlogFile_init_linux dump_path filepath (PidsStr pids) metadata category = Ok msg ->
  concat ds = msg ++ content -> h_sock h = RData <$> ds -> h_buf h = Some [] ->
  Forall (fun d => d <> []) ds ->
  exists e h', serve storage max h = (Raise e, h') /\ (e = ValueError \/ e = EOFError) /\
    h_fs h' = h_fs h.
Proof.
  intros Hl Hfile Hsan Hm Hds Hs Hb Hne.
  rewrite !Forall_cons in Hl. destruct Hl as (? & ? & ? & ? & ? & Hcont & _).
  destruct filepath as [|f0 fp]; [done|]. simpl in Hm. injection Hm as <-.
  assert (pending (concat ds) h) as Hp by (by exists ds, []). rewrite Hds in Hp.
  apply negotiate_FILE2 in Hp as (h0 & Hn & Hp & Hfs0).
  next_line h1. next_line h2. next_line h3. next_line h4. next_line h5.
  unfold lines in Hp. csimpl in Hp.
  destruct (read_newline_eof _ _ Hp Hcont) as (h6 & He & Hfs6).
  assert (exists e h', read_upload_header (Some 2%Z) h0 = (Raise e, h') /\
            (e = ValueError \/ e = EOFError) /\ h_fs h' = h_fs h) as (e & h' & Hh & Hee & Hfs').
  { unfold read_upload_header.
    repeat match goal with
    | E : ?m ?h = (Ok _, _) |- context [sbind ?m ?f ?h] => rewrite (sbind_ok m f _ _ _ E)
    | |- context [sbind (slift ?r) ?f ?h] =>
        change (sbind (slift r) f h) with (match r with Ok a => f a h | Raise e => (Raise e, h) end)
    | |- context [netlog_sanitize_fname dump_path] => rewrite Hsan
    | |- context [if bool_decide _ then _ else _] => rewrite bool_decide_true by lia
    | |- context [parse_ints ?l] =>
        let E := fresh "E" in
        assert ((exists z, parse_ints l = Ok z) \/ parse_ints l = Raise ValueError) as [[? E]|E]
          by (unfold parse_ints, of_option; destruct (mapM py_int (split_ws l)); eauto);
        rewrite E
    end; try (do 2 eexists; split; [reflexivity|]; split; [by left|congruence]).
    unfold sbind at 1. rewrite He. do 2 eexists. split; [reflexivity|]. split; [by right|congruence]. }
  exists e, h'. split; [|done]. unfold serve. rewrite (sbind_ok _ _ _ _ _ Hn).
  unfold protocol_session, scatch, FileUpload_handle, sbind at 1. rewrite Hh.
  destruct Hee as [-> | ->]; reflexivity.
Qed.

Lemma linux_upload_lost_witness :
  let stream := B "FILE 2" ++ NL :: B "files/a" ++ NL :: B "/tmp/a" ++ NL :: B "7" ++ NL :: NL :: NL :: B "ELF" in
  exists e h', serve (B "/st") 100
      {| h_sock := RData <$> [stream]; h_buf := Some [];
         h_fs := {| fs_files := ∅; fs_dirs := ∅; fs_log := [] |} |} = (Raise e, h') /\
    (e = ValueError \/ e = EOFError) /\ h_fs h' = {| fs_files := ∅; fs_dirs := ∅; fs_log := [] |}.
Proof.
  intros stream.
  apply (linux_upload_lost (B "/st") 100 (B "files/a") (B "files/a") (B "/tmp/a") (B "7") [] [] (B "ELF")
           (lines [B "FILE 2"; B "files/a"; B "/tmp/a"; B "7"; []; []]) [stream]); try reflexivity.
  - apply (bool_decide_unpack _). vm_compute. exact I.
  - discriminate.
  - repeat constructor; discriminate.
Defined.
