(* ===== verification/Compressor.v ===== *)
(** The behaviour log compressor of lib/cuckoo/common/compressor.py: the n-gram
    buffers ([NGram]), the cascade of them ([Compressor]) and the per-thread
    compression of a log ([CuckooBsonCompressor]). *)
From stdpp Require Import pretty.
From S2P Require Import Prelude.

(** [(csum, ccounter, time)]: the checksum of the call, its place in the log and
    its time. *)
Record element := { csum : Z; ccounter : Z; time : Z }.
#[global] Instance element_eq_dec : EqDecision element.
Proof. solve_decision. Defined.

(** [[element, count]], the list an n-gram buffer holds. *)
Definition entry : Type := element * Z.

(** What [NGram.add] is given: nothing, a bare element, or an entry that left the
    previous buffer. *)
Inductive ngram_input := NoInput | Bare (e : element) | Counted (c : entry).

Record NGram := { order : nat; buffer : list entry }.

(** [NGram.analyse]: when the two halves have the same checksums, the counts of
    the second half are added to the first, which alone is kept. *)
Definition analyse (g : NGram) : NGram :=
  let tmp := (fun c : entry => csum c.1) <$> buffer g in
  if decide (take (order g) tmp = drop (order g) tmp) then
    {| order := order g;
       buffer := zip_with (fun a b : entry => (a.1, a.2 + b.2)%Z)
                   (take (order g) (buffer g)) (drop (order g) (buffer g)) |}
  else g.

Definition NGram_add (g : NGram) (i : ngram_input) : NGram * ngram_input :=
  match i with
  | NoInput => (g, NoInput)
  | Bare _ | Counted _ =>
      let c := match i with Bare e => (e, 1%Z) | Counted c => c | NoInput => (Build_element 0 0 0, 0%Z) end in
      let '(tmp, buf) :=
        if decide (length (buffer g) = order g * 2) then
          match buffer g with
          | c0 :: rest => (Counted c0, rest)
          | [] => (NoInput, [])
          end
        else (NoInput, buffer g) in
      (analyse {| order := order g; buffer := buf ++ [c] |}, tmp)
  end.

(** An input through the buffers one after the other, nearest first. *)
Fixpoint cascade (gs : list NGram) (i : ngram_input) : list NGram * ngram_input :=
  match gs with
  | [] => ([], i)
  | g :: gs' =>
      let '(g', out) := NGram_add g i in
      let '(gs'', out') := cascade gs' out in
      (g' :: gs'', out')
  end.

Record Compressor := { ngrams : list NGram; final : list entry }.

Definition Compressor_init (level : nat) : Compressor :=
  {| ngrams := (fun i => {| order := i; buffer := [] |}) <$> seq 1 level; final := [] |}.

Definition append_out (fin : list entry) (out : ngram_input) : list entry :=
  match out with
  | Counted c => fin ++ [c]
  | Bare e => fin ++ [(e, 1%Z)]
  | NoInput => fin
  end.

(** [Compressor.add]. *)
Definition Compressor_add (c : Compressor) (e : element) : Compressor :=
  let '(gs, out) := cascade (ngrams c) (Bare e) in
  {| ngrams := gs; final := append_out (final c) out |}.

(** The inner loop of [Compressor.flush]: the entries of one buffer through the
    buffers after it. The entries stay in their own buffer as well; nothing
    reads it again. *)
Definition push_all (cs : list entry) (gs : list NGram) (fin : list entry) : list NGram * list entry :=
  fold_left (fun '(gs, fin) c =>
    let '(gs', out) := cascade gs (Counted c) in (gs', append_out fin out)) cs (gs, fin).

(** The loop over the buffers; [n] is the number of them still to flush. *)
Fixpoint flush_loop (n : nat) (gs : list NGram) (fin : list entry) : list NGram * list entry :=
  match n, gs with
  | S n', g :: gs' =>
      let '(gs1, fin1) := push_all (buffer g) gs' fin in
      let '(gs2, fin2) := flush_loop n' gs1 fin1 in
      (g :: gs2, fin2)
  | _, _ => (gs, fin)
  end.

Definition Compressor_flush (c : Compressor) : Compressor :=
  let '(gs, fin) := flush_loop (length (ngrams c)) (ngrams c) (final c) in
  {| ngrams := gs; final := fin |}.

(** ** The log compressor *)

(** A decoded message: the fields the compressor reads, [None] when absent, and
    values it only prints already printed. *)
Record message := {
  mg_raw : bytes;
  mg_type : option string;
  mg_category : option string;
  mg_I : option Z; mg_T : option Z; mg_t : option Z; mg_r : option Z;
  mg_args : option (list bytes); mg_R : option bytes; mg_P : option bytes }.

Record log_state := {
  ls_category : option string;               (** unset until an info message *)
  ls_threads : list (Z * Compressor);        (** a dict, in insertion order *)
  ls_callmap : gmap Z message;
  ls_head : list bytes;
  ls_ccounter : Z }.

Definition log_init : log_state :=
  {| ls_category := None; ls_threads := []; ls_callmap := ∅; ls_head := []; ls_ccounter := 0 |}.

(** [self.threads[tid].add(v)] after [self.threads[tid] = Compressor(100)] for a
    thread not seen before. *)
Fixpoint thread_add (level : nat) (tid : Z) (v : element) (ts : list (Z * Compressor))
  : list (Z * Compressor) :=
  match ts with
  | [] => [(tid, Compressor_add (Compressor_init level) v)]
  | (t, c) :: ts' =>
      if decide (t = tid) then (t, Compressor_add c v) :: ts'
      else (t, c) :: thread_add level tid v ts'
  end.

(** The text [CuckooBsonCompressor.checksum] joins for a call. *)
Definition call_text (category : string) (m : message) : res bytes :=
  let! args := of_option KeyError (mg_args m) in
  let! t := of_option KeyError (mg_T m) in
  let! r := of_option KeyError (mg_R m) in
  let! p := of_option KeyError (mg_P m) in
  Ok (B (pretty (default (-1)%Z (mg_I m))) ++ B (pretty t) ++ r ++ concat args
        ++ B category ++ p).

Section log_compressor.
(** [binascii.crc32] of the printed call. *)
Variable crc32 : bytes -> Z.

Definition checksum (category : string) (m : message) : res Z :=
  let! content := call_text category m in Ok (crc32 content).

Definition meta_types : list string := ["debug"; "new_process"; "info"]%string.

Definition is_meta (m : message) : bool :=
  match mg_type m with Some t => bool_decide (t ∈ meta_types) | None => false end.

(** One round of the loop of [CuckooBsonCompressor.run]. *)
Definition log_step (s : log_state) (m : message) : res log_state :=
  if is_meta m then
      Ok {| ls_category := Some (default "None"%string (mg_category m));
            ls_threads := ls_threads s; ls_callmap := ls_callmap s;
            ls_head := ls_head s ++ [mg_raw m]; ls_ccounter := ls_ccounter s |}
  else
      let! category := of_option AttributeError (ls_category s) in
      if has_prefix (B "__") (B category) then
        Ok {| ls_category := ls_category s; ls_threads := ls_threads s;
              ls_callmap := ls_callmap s; ls_head := ls_head s ++ [mg_raw m];
              ls_ccounter := ls_ccounter s |}
      else
        let! sum := checksum category m in
        let n := (ls_ccounter s + 1)%Z in
        let v := {| csum := sum; ccounter := n; time := default 0%Z (mg_t m) |} in
        Ok {| ls_category := ls_category s;
              ls_threads := thread_add 100 (default (-1)%Z (mg_T m)) v (ls_threads s);
              ls_callmap := match ls_callmap s !! sum with
                            | Some _ => ls_callmap s
                            | None => <[sum := m]> (ls_callmap s)
                            end;
              ls_head := ls_head s; ls_ccounter := n |}.

Fixpoint log_run (s : log_state) (ms : list message) : res log_state :=
  match ms with
  | [] => Ok s
  | m :: ms' => let! s' := log_step s m in log_run s' ms'
  end.
End log_compressor.

(** A call of the compressed log: the stored message with its repetitions, its
    time and its place. *)
Record out_call := { oc_msg : message; oc_r : Z; oc_t : Z; oc_order : Z }.

Definition emit (callmap : gmap Z message) (c : entry) : res out_call :=
  let! m := of_option AttributeError (callmap !! csum c.1) in
  let! r := of_option KeyError (mg_r m) in
  Ok {| oc_msg := m; oc_r := (r + c.2)%Z; oc_t := time c.1; oc_order := ccounter c.1 |}.

Fixpoint rmap {A C} (f : A -> res C) (l : list A) : res (list C) :=
  match l with
  | [] => Ok []
  | x :: l' => let! y := f x in let! ys := rmap f l' in Ok (y :: ys)
  end.

Definition order_le (a b : out_call) : Prop := (oc_order a <= oc_order b)%Z.
#[global] Instance order_le_dec a b : Decision (order_le a b).
Proof. unfold order_le. apply _. Defined.

(** [CuckooBsonCompressor.flush]: the entries of all threads, sorted by their
    place in the log. *)
Definition log_flush (s : log_state) : res (list bytes * list out_call) :=
  let entries := concat ((fun tc : Z * Compressor => final (Compressor_flush tc.2)) <$> ls_threads s) in
  let! calls := rmap (emit (ls_callmap s)) entries in
  Ok (ls_head s, merge_sort order_le calls).

(** ** Specification *)

(** How many calls whose checksum is in [P] a list of entries stands for. *)
Definition weight (P : Z -> bool) (l : list entry) : Z :=
  foldr (fun c acc => if P (csum c.1) then c.2 + acc else acc)%Z 0%Z l.

(** [l'] is a compression of [l]: a subsequence of its elements, with the same
    number of calls for every set of checksums. *)
Definition compresses (l l' : list entry) : Prop :=
  sublist (l'.*1) (l.*1) /\ forall P, weight P l' = weight P l.

Definition input_entries (i : ngram_input) : list entry :=
  match i with NoInput => [] | Bare e => [(e, 1%Z)] | Counted c => [c] end.

(** Everything a cascade of buffers holds, oldest entry first. *)
Fixpoint contents (gs : list NGram) : list entry :=
  match gs with [] => [] | g :: gs' => contents gs' ++ buffer g end.

(** The calls a compressed log stands for beyond the repetitions each stored
    message already had. *)
Definition extra_calls (l : list out_call) : Z :=
  foldr (fun c acc => oc_r c - default 0 (mg_r (oc_msg c)) + acc)%Z 0%Z l.

Definition bounded (gs : list NGram) : Prop := Forall (fun g => 0 < order g /\ length (buffer g) <= order g * 2) gs.

(** What there is to compress in a log whose category is [category] when it starts: the
    calls in the order of the log, each with the text that identifies it, and the messages
    that are kept as they are. An exception is the one of the first message that
    cannot be taken. *)
Fixpoint logged (category : option string) (ms : list message)
  : res (list (bytes * message) * list bytes) :=
  match ms with
  | [] => Ok ([], [])
  | m :: ms' =>
      if is_meta m then
        let! r := logged (Some (default "None"%string (mg_category m))) ms' in
        Ok (r.1, mg_raw m :: r.2)
      else
        let! cat := of_option AttributeError category in
        if has_prefix (B "__") (B cat) then
          let! r := logged category ms' in Ok (r.1, mg_raw m :: r.2)
        else
          let! x := call_text cat m in
          let! r := logged category ms' in Ok ((x, m) :: r.1, r.2)
  end.

(** The call a stored call is placed at. *)
Definition placed_at (cs : list (bytes * message)) (c : out_call) : option (bytes * message) :=
  cs !! Z.to_nat (oc_order c - 1).

Definition has_text (cs : list (bytes * message)) (x : bytes) (c : out_call) : Prop :=
  fst <$> placed_at cs c = Some x.
#[global] Instance has_text_dec cs x c : Decision (has_text cs x c).
Proof. unfold has_text. apply _. Defined.

(** How often a text was logged. *)
Definition times_logged (x : bytes) (cs : list (bytes * message)) : Z :=
  zlen (filter (fun xm => xm.1 = x) cs).

(** The elements the calls are added to the compressors as. *)
Definition elements_of (crc32 : bytes -> Z) (cs : list (bytes * message)) : list element :=
  imap (fun i xm => {| csum := crc32 xm.1; ccounter := Z.of_nat i + 1;
                       time := default 0%Z (mg_t xm.2) |}) cs.

(** The state of the log compressor after the calls [cs]: every thread's compressor got
    a list of calls, together they got the calls of [cs], and a stored message is one with
    the text of its checksum. *)
Definition log_inv (crc32 : bytes -> Z) (cs : list (bytes * message)) (s : log_state) : Prop :=
  ls_ccounter s = zlen cs
  /\ (forall k m, ls_callmap s !! k = Some m -> exists x, (x, m) ∈ cs /\ crc32 x = k)
  /\ (forall x m, (x, m) ∈ cs -> is_Some (ls_callmap s !! crc32 x))
  /\ exists ess,
       Forall2 (fun es (tc : Z * Compressor) =>
                  tc.2 = fold_left Compressor_add es (Compressor_init 100)) ess (ls_threads s)
       /\ concat ess ≡ₚ elements_of crc32 cs.

(** A sample log for the witnesses: an info message, a call logged twice and another one. *)
Definition sample_call (n : Z) : message :=
  {| mg_raw := []; mg_type := None; mg_category := None;
     mg_I := Some n; mg_T := Some 4%Z; mg_t := Some 0%Z; mg_r := Some 0%Z;
     mg_args := Some []; mg_R := Some []; mg_P := Some [] |}.

Definition sample_log : list message :=
  [{| mg_raw := B "i"; mg_type := Some "info"%string; mg_category := Some "file"%string;
      mg_I := Some 1%Z; mg_T := None; mg_t := None; mg_r := None;
      mg_args := None; mg_R := None; mg_P := None |};
   sample_call 1; sample_call 1; sample_call 22].

Definition sample_calls : list (bytes * message) :=
  [(B "14file", sample_call 1); (B "14file", sample_call 1); (B "224file", sample_call 22)].

(** ** Conservation *)

Lemma weight_app P l1 l2 : weight P (l1 ++ l2) = (weight P l1 + weight P l2)%Z.
Proof. induction l1 as [|c l1 IH]; simpl; [done|]. destruct (P _); lia. Qed.

#[global] Instance compresses_preorder : PreOrder compresses.
Proof.
  split; [by intros l|]. intros l1 l2 l3 [H1 W1] [H2 W2].
  split; [by etrans|]. intros P. by rewrite W2.
Qed.

#[global] Instance compresses_app : Proper (compresses ==> compresses ==> compresses) app.
Proof.
  intros l1 l1' [H1 W1] l2 l2' [H2 W2]. split.
  - rewrite !fmap_app. by apply sublist_app.
  - intros P. by rewrite !weight_app, W1, W2.
Qed.

Lemma weight_zip P (a b : list entry) :
  (fun c : entry => csum c.1) <$> a = (fun c : entry => csum c.1) <$> b ->
  weight P (zip_with (fun a b : entry => (a.1, a.2 + b.2)%Z) a b) = (weight P a + weight P b)%Z.
Proof.
  revert b. induction a as [|x a IH]; intros [|y b] H; csimpl in *; simplify_eq/=; [done|].
  rewrite IH by done. rewrite H. destruct (P _); lia.
Qed.

Lemma zip_fst (a b : list entry) :
  length a = length b -> (zip_with (fun a b : entry => (a.1, a.2 + b.2)%Z) a b).*1 = a.*1.
Proof.
  revert b. induction a as [|x a IH]; intros [|y b] H; csimpl in *; try done.
  f_equal. apply IH. lia.
Qed.

Lemma analyse_compresses g : compresses (buffer g) (buffer (analyse g)).
Proof.
  unfold analyse. case_decide as E; [|done]. rewrite <- fmap_take, <- fmap_drop in E.
  set (a := take (order g) (buffer g)) in *. set (b := drop (order g) (buffer g)) in *.
  assert (buffer g = a ++ b) as Hg by (symmetry; apply take_drop).
  assert (length a = length b) as Hl by (by apply (f_equal length) in E; rewrite !length_fmap in E).
  simpl. rewrite Hg. split.
  - rewrite zip_fst by done. rewrite fmap_app. by apply sublist_inserts_r.
  - intros P. by rewrite weight_zip, weight_app.
Qed.

Lemma NGram_add_compresses g i g' out :
  NGram_add g i = (g', out) ->
  compresses (buffer g ++ input_entries i) (input_entries out ++ buffer g').
Proof.
  unfold NGram_add. intros H.
  destruct i as [|e|c]; [by simplify_eq/=; rewrite app_nil_r| |];
    (case_decide; [destruct (buffer g) as [|c0 rest] eqn:Eb|]); simplify_eq/=;
    rewrite ?app_comm_cons; try (apply (analyse_compresses {| order := _; buffer := _ |}));
    apply (compresses_app [c0] [c0]); try done;
    apply (analyse_compresses {| order := order g; buffer := rest ++ [_] |}).
Qed.

Lemma cascade_compresses gs i gs' out :
  cascade gs i = (gs', out) ->
  compresses (contents gs ++ input_entries i) (input_entries out ++ contents gs').
Proof.
  revert i gs' out. induction gs as [|g gs IH]; intros i gs' out H; simpl in H.
  - simplify_eq/=. by rewrite app_nil_r.
  - destruct (NGram_add g i) as [g1 o1] eqn:E1. destruct (cascade gs o1) as [gs1 o2] eqn:E2.
    simplify_eq/=. apply IH in E2. apply NGram_add_compresses in E1.
    rewrite <- app_assoc, E1, app_assoc, E2, <- app_assoc. done.
Qed.

Lemma append_out_eq fin out : append_out fin out = fin ++ input_entries out.
Proof. destruct out; simpl; by rewrite ?app_nil_r. Qed.

Lemma push_all_compresses cs gs fin gs' fin' :
  push_all cs gs fin = (gs', fin') ->
  compresses (fin ++ contents gs ++ cs) (fin' ++ contents gs').
Proof.
  unfold push_all. revert gs fin. induction cs as [|c cs IH]; intros gs fin H; simpl in H.
  - simplify_eq/=. by rewrite app_nil_r.
  - destruct (cascade gs (Counted c)) as [gs1 out] eqn:E. apply IH in H.
    apply cascade_compresses in E. simpl in E. rewrite <- H, append_out_eq.
    change (c :: cs) with ([c] ++ cs).
    rewrite (app_assoc (contents gs) [c]), E. by rewrite <- !app_assoc.
Qed.

Lemma cascade_length gs i : length (cascade gs i).1 = length gs.
Proof.
  revert i. induction gs as [|g gs IH]; intros i; simpl; [done|].
  destruct (NGram_add g i) as [g1 o1]. specialize (IH o1).
  destruct (cascade gs o1). simpl in *. by rewrite IH.
Qed.

Lemma push_all_length cs gs fin : length (push_all cs gs fin).1 = length gs.
Proof.
  unfold push_all. revert gs fin. induction cs as [|c cs IH]; intros gs fin; simpl; [done|].
  pose proof (cascade_length gs (Counted c)) as Hl.
  destruct (cascade gs (Counted c)) as [gs1 out]. by rewrite IH.
Qed.

(** Flushing empties the cascade into [final]. *)
Lemma flush_loop_compresses n gs fin :
  length gs = n -> compresses (fin ++ contents gs) (flush_loop n gs fin).2.
Proof.
  revert gs fin. induction n as [|n IH]; intros [|g gs] fin Hl; simplify_eq/=;
    [by rewrite app_nil_r|].
  destruct (push_all (buffer g) gs fin) as [gs1 fin1] eqn:E.
  pose proof (push_all_length (buffer g) gs fin) as Hl1. rewrite E in Hl1. simpl in Hl1.
  apply push_all_compresses in E. specialize (IH gs1 fin1 Hl1).
  destruct (flush_loop (length gs) gs1 fin1) as [gs2 fin2]. simpl in *. by rewrite E, IH.
Qed.

Lemma contents_init level k : contents ((fun i => {| order := i; buffer := [] |}) <$> seq k level) = [].
Proof. revert k. induction level; intros k; csimpl; [done|]. by rewrite IHlevel. Qed.

Lemma adds_compress c es :
  compresses (final c ++ contents (ngrams c) ++ ((fun e => (e, 1%Z)) <$> es))
    (let c' := fold_left Compressor_add es c in final c' ++ contents (ngrams c')).
Proof.
  revert c. induction es as [|e es IH]; intros c; csimpl; [by rewrite app_nil_r|].
  rewrite <- IH. unfold Compressor_add. destruct (cascade (ngrams c) (Bare e)) as [gs out] eqn:E.
  apply cascade_compresses in E. simpl in *. rewrite append_out_eq.
  change ((e, 1%Z) :: ?l) with ([(e, 1%Z)] ++ l).
  rewrite (app_assoc (contents (ngrams c)) [(e, 1%Z)]), E. by rewrite <- !app_assoc.
Qed.

Lemma compress_run level es :
  compresses ((fun e => (e, 1%Z)) <$> es)
    (final (Compressor_flush (fold_left Compressor_add es (Compressor_init level)))).
Proof.
  pose proof (adds_compress (Compressor_init level) es) as H. simpl in H.
  rewrite contents_init in H. simpl in H. rewrite H. unfold Compressor_flush.
  set (c := fold_left Compressor_add es (Compressor_init level)).
  pose proof (flush_loop_compresses _ (ngrams c) (final c) eq_refl) as Hf.
  by destruct (flush_loop _ (ngrams c) (final c)).
Qed.

(** Compression conserves calls: for every sequence of calls and every level, the
    flushed output stands for exactly as many calls of each checksum (of each set [P] of
    checksums) as were added. *)
Theorem compressor_conserves level es P :
  weight P (final (Compressor_flush (fold_left Compressor_add es (Compressor_init level))))
  = Z.of_nat (length (filter (fun e => P (csum e) = true) es)).
Proof.
  destruct (compress_run level es) as [_ W]. rewrite W. clear W.
  induction es as [|e es IH]; csimpl; [done|]. rewrite filter_cons.
  case_decide as E; [rewrite E|apply not_true_is_false in E; rewrite E]; simpl; lia.
Qed.

(** Compression keeps order: the flushed output is a subsequence of the calls that
    were added, so it lists calls in the order they were logged and invents none. *)
Theorem compressor_subsequence level es :
  sublist ((final (Compressor_flush (fold_left Compressor_add es (Compressor_init level)))).*1) es.
Proof.
  destruct (compress_run level es) as [H _].
  assert (((fun e => (e, 1%Z)) <$> es).*1 = es) as E
    by (rewrite <- list_fmap_compose; apply list_fmap_id).
  by rewrite E in H.
Qed.

(** ** Memory *)

Lemma analyse_bounded g :
  0 < order g -> length (buffer g) <= order g * 2 ->
  order (analyse g) = order g /\ length (buffer (analyse g)) <= order g * 2.
Proof.
  intros Ho Hl. unfold analyse. case_decide; [|done]. simpl. split; [done|].
  rewrite length_zip_with, length_take. lia.
Qed.

Lemma cascade_bounded gs i : bounded gs -> bounded (cascade gs i).1.
Proof.
  revert i. induction gs as [|g gs IH]; intros i Hb; simpl; [done|].
  inv Hb. destruct (NGram_add g i) as [g1 o1] eqn:E. specialize (IH o1).
  destruct (cascade gs o1) as [gs1 o2]. simpl in *. constructor; [|by apply IH].
  destruct H1 as [Ho Hl]. unfold NGram_add in E.
  assert (forall buf, length buf <= order g * 2 -> 
    0 < order (analyse {| order := order g; buffer := buf |}) /\
    length (buffer (analyse {| order := order g; buffer := buf |}))
      <= order (analyse {| order := order g; buffer := buf |}) * 2) as Ha.
  { intros buf Hbuf. destruct (analyse_bounded {| order := order g; buffer := buf |}) as [Ea La]; [done..|].
    by rewrite Ea. }
  destruct i as [|e|c]; [by simplify_eq/=| |];
    (case_decide; [destruct (buffer g) as [|c0 rest] eqn:Eb|]); simplify_eq/=;
    apply Ha; rewrite ?length_app; simpl in *; lia.
Qed.

(** Bounded memory: however many calls are added, the n-gram buffer of order [i]
    never holds more than [2 * i] entries. *)
Theorem compressor_buffers_bounded level es g :
  g ∈ ngrams (fold_left Compressor_add es (Compressor_init level)) ->
  length (buffer g) <= order g * 2.
Proof.
  assert (forall c, bounded (ngrams c) -> bounded (ngrams (fold_left Compressor_add es c))) as H.
  { induction es as [|e es IH]; intros c Hc; simpl; [done|]. apply IH.
    unfold Compressor_add. pose proof (cascade_bounded (ngrams c) (Bare e) Hc).
    by destruct (cascade (ngrams c) (Bare e)). }
  intros Hg. specialize (H (Compressor_init level)).
  assert (bounded (ngrams (Compressor_init level))) as Hi.
  { unfold bounded, Compressor_init. simpl. rewrite Forall_fmap. apply Forall_forall.
    intros i Hi. apply elem_of_seq in Hi. simpl. lia. }
  specialize (H Hi). unfold bounded in H. rewrite Forall_forall in H. by apply H.
Qed.

Lemma compressor_buffers_bounded_witness :
  length (buffer {| order := 1; buffer := [(Build_element 5 1 0, 2%Z)] |}) <= 1 * 2.
Proof.
  apply (compressor_buffers_bounded 1 [Build_element 5 1 0; Build_element 5 2 0]).
  vm_compute. constructor.
Defined.

(** ** The whole log *)

Lemma rmap_ok {A C} (f : A -> res C) l l' :
  rmap f l = Ok l' -> Forall2 (fun x y => f x = Ok y) l l'.
Proof.
  revert l'. induction l as [|x l IH]; intros l' H; simpl in H; [by simplify_eq/=|].
  destruct (f x) as [y|e] eqn:E; [|done]. simpl in H.
  destruct (rmap f l) as [ys|e]; [|done]. simpl in H. simplify_eq/=. constructor; eauto.
Qed.

Lemma rmap_total {A C} (f : A -> res C) l :
  Forall (fun x => exists y, f x = Ok y) l -> exists l', rmap f l = Ok l'.
Proof.
  induction 1 as [|x l (y & E) _ (l' & E')]; simpl; [by eexists|].
  rewrite E, E'. simpl. by eexists.
Qed.

Lemma elements_snoc crc32 cs x m :
  elements_of crc32 (cs ++ [(x, m)])
  = elements_of crc32 cs ++ [{| csum := crc32 x; ccounter := zlen cs + 1; time := default 0%Z (mg_t m) |}].
Proof.
  unfold elements_of. rewrite imap_app. simpl. unfold compose. by rewrite Nat.add_0_r.
Qed.

Lemma elements_lookup crc32 cs e :
  e ∈ elements_of crc32 cs ->
  exists x m, cs !! Z.to_nat (ccounter e - 1) = Some (x, m) /\ csum e = crc32 x
    /\ time e = default 0%Z (mg_t m) /\ (1 <= ccounter e)%Z.
Proof.
  intros (i & Hi)%list_elem_of_lookup. unfold elements_of in Hi. rewrite list_lookup_imap in Hi.
  destruct (cs !! i) as [[x m]|] eqn:E; [|done]. simplify_eq/=. exists x, m.
  replace (Z.to_nat (Z.of_nat i + 1 - 1)) with i by lia. split_and!; [done..|lia].
Qed.

Lemma elements_places crc32 cs : NoDup (ccounter <$> elements_of crc32 cs).
Proof.
  apply NoDup_alt. intros i j k. unfold elements_of. rewrite !list_lookup_fmap, !list_lookup_imap.
  destruct (cs !! i), (cs !! j); intros; simplify_eq/=; lia.
Qed.

Lemma weight_elements crc32 P cs :
  weight P ((fun e => (e, 1%Z)) <$> elements_of crc32 cs)
  = zlen (filter (fun xm => P (crc32 xm.1) = true) cs).
Proof.
  unfold zlen. induction cs as [|[x m] cs IH] using rev_ind; [done|].
  rewrite elements_snoc, fmap_app, weight_app, IH, filter_app, length_app. simpl.
  rewrite filter_cons, filter_nil. simpl.
  case_decide as E; [rewrite E|apply not_true_is_false in E; rewrite E]; simpl; lia.
Qed.

(** A call added to its thread's compressor. *)
Lemma thread_add_elements tid v ts ess :
  Forall2 (fun es (tc : Z * Compressor) => tc.2 = fold_left Compressor_add es (Compressor_init 100)) ess ts ->
  exists ess',
    Forall2 (fun es (tc : Z * Compressor) => tc.2 = fold_left Compressor_add es (Compressor_init 100))
      ess' (thread_add 100 tid v ts)
    /\ concat ess' ≡ₚ concat ess ++ [v].
Proof.
  induction 1 as [|es [t c] ess ts Hc H (ess' & IH & P)]; cbn [thread_add].
  - exists [[v]]. split; [|done]. by repeat constructor.
  - case_decide.
    + exists ((es ++ [v]) :: ess). split.
      * constructor; [|done]. simpl in *. by rewrite fold_left_app, <- Hc.
      * simpl. rewrite <- !app_assoc. f_equiv. apply Permutation_app_comm.
    + exists (es :: ess'). split; [by constructor|]. simpl. by rewrite P, app_assoc.
Qed.

(** A call taken by the log compressor. *)
Lemma log_inv_call crc32 cs s cat x m :
  log_inv crc32 cs s -> is_meta m = false -> ls_category s = Some cat ->
  has_prefix (B "__") (B cat) = false -> call_text cat m = Ok x ->
  exists s', log_step crc32 s m = Ok s' /\ log_inv crc32 (cs ++ [(x, m)]) s'
    /\ ls_category s' = ls_category s /\ ls_head s' = ls_head s.
Proof.
  intros (Hn & Hm & Hi & ess & Ht & Hp) Em Ec Ep Ex. unfold log_step, checksum.
  rewrite Em, Ec. cbn [of_option rbind]. rewrite Ep, Ex. cbn [rbind]. eexists. split; [done|].
  split; [|done]. unfold log_inv. simpl. split_and!.
  - rewrite Hn. by rewrite zlen_app.
  - intros k m'. destruct (ls_callmap s !! crc32 x) as [m0|] eqn:E.
    + intros (y & Hy & Ey)%Hm. exists y. set_solver.
    + intros [[<- <-]|[_ (y & Hy & Ey)%Hm]]%lookup_insert_Some; [exists x|exists y]; set_solver.
  - intros y m' [Hy|Hy%list_elem_of_singleton]%elem_of_app.
    + apply Hi in Hy as [m0 E0]. destruct (ls_callmap s !! crc32 x) eqn:E; [by eexists|].
      rewrite lookup_insert_ne by congruence. by eexists.
    + simplify_eq. destruct (ls_callmap s !! crc32 x) eqn:E; [by eexists|].
      rewrite lookup_insert_eq. by eexists.
  - destruct (thread_add_elements (default (-1)%Z (mg_T m))
      {| csum := crc32 x; ccounter := ls_ccounter s + 1; time := default 0%Z (mg_t m) |}
      _ _ Ht) as (ess' & H' & P'). exists ess'. split; [done|].
    by rewrite P', Hp, elements_snoc, Hn.
Qed.

Lemma log_run_inv crc32 ms s cs cs' hd :
  log_inv crc32 cs s -> logged (ls_category s) ms = Ok (cs', hd) ->
  exists s', log_run crc32 s ms = Ok s' /\ log_inv crc32 (cs ++ cs') s'
    /\ ls_head s' = ls_head s ++ hd.
Proof.
  revert s cs cs' hd. induction ms as [|m ms IH]; intros s cs cs' hd Hs H; cbn [logged log_run] in *.
  { simplify_eq. rewrite !app_nil_r. by eexists. }
  destruct (is_meta m) eqn:Em.
  { destruct (logged _ ms) as [[cs1 hd1]|] eqn:El; [|done]. simpl in H. simplify_eq.
    unfold log_step at 1. rewrite Em. cbn [rbind].
    match goal with |- context [log_run _ ?s1 _] => destruct (IH s1 cs _ _ Hs El) as (s' & H1 & H2 & H3) end.
    exists s'. rewrite H1, H3. simpl. by rewrite <- app_assoc. }
  destruct (ls_category s) as [cat|] eqn:Ec; [|done]. cbn [of_option rbind] in H.
  destruct (has_prefix _ _) eqn:Ep.
  { destruct (logged _ ms) as [[cs1 hd1]|] eqn:El; [|done]. simpl in H. simplify_eq.
    unfold log_step at 1. rewrite Em, Ec. cbn [of_option rbind]. rewrite Ep. cbn [rbind].
    match goal with |- context [log_run _ ?s1 _] => destruct (IH s1 cs _ _ Hs El) as (s' & H1 & H2 & H3) end.
    exists s'. rewrite H1, H3. simpl. by rewrite <- app_assoc. }
  destruct (call_text cat m) as [x|] eqn:Ex; [|done]. cbn [rbind] in H.
  destruct (logged _ ms) as [[cs1 hd1]|] eqn:El; [|done]. simpl in H. simplify_eq.
  destruct (log_inv_call crc32 cs s cat x m) as (s1 & E1 & H1 & Ec1 & Eh1); [done..|].
  rewrite E1. cbn [rbind]. rewrite <- Ec, <- Ec1 in El.
  destruct (IH _ _ _ _ H1 El) as (s' & H' & I' & Hh). exists s'.
  rewrite <- app_assoc in I'. by rewrite Hh, Eh1.
Qed.

(** What the threads' compressors hold after they were flushed. *)
Definition flushed (ts : list (Z * Compressor)) : list entry :=
  concat ((fun tc : Z * Compressor => final (Compressor_flush tc.2)) <$> ts).

Lemma flushed_compresses ess ts :
  Forall2 (fun es (tc : Z * Compressor) => tc.2 = fold_left Compressor_add es (Compressor_init 100)) ess ts ->
  compresses ((fun e => (e, 1%Z)) <$> concat ess) (flushed ts).
Proof.
  induction 1 as [|es [t c] ess ts Hc _ IH]; [done|]. unfold flushed in *. csimpl.
  rewrite fmap_app. simpl in Hc. rewrite Hc. apply compresses_app; [apply compress_run|done].
Qed.

(** What the flushed threads of a log hold: some of its calls, in no order, none twice,
    and for every set of checksums as many calls as were logged. *)
Lemma flushed_spec crc32 cs s :
  log_inv crc32 cs s ->
  (flushed (ls_threads s)).*1 ⊆+ elements_of crc32 cs
  /\ forall P, weight P (flushed (ls_threads s)) = zlen (filter (fun xm => P (crc32 xm.1) = true) cs).
Proof.
  intros (_ & _ & _ & ess & Ht & Hp). apply flushed_compresses in Ht as [Hs Hw].
  rewrite <- list_fmap_compose in Hs. unfold compose in Hs. simpl in Hs. rewrite list_fmap_id in Hs.
  split.
  - etrans; [by apply sublist_submseteq|]. by apply Permutation_submseteq.
  - intros P. rewrite Hw, <- weight_elements.
    clear -Hp. induction Hp; csimpl; [done|by rewrite IHHp| |by etrans].
    repeat destruct (P _); lia.
Qed.

(** A stored call made from an entry. *)
Definition emitted (cs : list (bytes * message)) (c : entry) (o : out_call) : Prop :=
  oc_order o = ccounter c.1 /\ oc_r o = (default 0 (mg_r (oc_msg o)) + c.2)%Z
  /\ exists x m', placed_at cs o = Some (x, m') /\ (x, oc_msg o) ∈ cs
       /\ oc_t o = default 0%Z (mg_t m') /\ (1 <= oc_order o)%Z.

Section flush.
Context (crc32 : bytes -> Z) (cs : list (bytes * message)).
Hypothesis no_collision : forall x y, x ∈ cs.*1 -> y ∈ cs.*1 -> crc32 x = crc32 y -> x = y.
Hypothesis counted : forall x m, (x, m) ∈ cs -> is_Some (mg_r m).

Lemma emit_entry s c :
  log_inv crc32 cs s -> c.1 ∈ elements_of crc32 cs ->
  exists o, emit (ls_callmap s) c = Ok o /\ emitted cs c o.
Proof using no_collision counted.
  intros (_ & Hm & Hi & _) (x & m & Hx & Es & Et & Hl)%elements_lookup.
  pose proof (list_elem_of_lookup_2 _ _ _ Hx) as Hin.
  destruct (Hi _ _ Hin) as [m0 E0]. destruct (Hm _ _ E0) as (y & Hy & Ey).
  assert (y = x) as ->
    by (apply no_collision; [by apply (list_elem_of_fmap_2 fst _ _ Hy)|by apply (list_elem_of_fmap_2 fst _ _ Hin)|done]).
  destruct (counted _ _ Hy) as [r Er]. unfold emit. rewrite Es, E0. cbn [of_option rbind].
  rewrite Er. eexists. split; [done|]. split; [done|]. split; [simpl; by rewrite Er|].
  exists x, m. unfold placed_at. simpl. by split_and!.
Qed.

(** The calls stored for one text. *)
Lemma text_weight l os x :
  Forall2 (emitted cs) l os -> l.*1 ⊆+ elements_of crc32 cs -> x ∈ cs.*1 ->
  extra_calls (filter (has_text cs x) os) = weight (fun k => bool_decide (k = crc32 x)) l.
Proof using no_collision counted.
  intros H Hl Hx. assert (forall c, c ∈ l -> c.1 ∈ elements_of crc32 cs) as Hin.
  { intros c Hc. eapply elem_of_submseteq; [|exact Hl]. by apply list_elem_of_fmap_2. }
  clear Hl. induction H as [|c o l os (Eo & Er & y & m' & Hp & _) _ IH]; [done|].
  rewrite filter_cons. simpl. rewrite <- IH by set_solver. clear IH.
  destruct (elements_lookup _ _ _ (Hin c (list_elem_of_here _ _))) as (z & m1 & Hz & Es & _).
  unfold placed_at in Hp. rewrite Eo, Hz in Hp. simplify_eq.
  assert (has_text cs x o <-> csum c.1 = crc32 x) as Ht.
  { unfold has_text, placed_at. rewrite Eo, Hz. simpl. rewrite Es. split; [by intros [= ->]|].
    intros E. f_equal. apply no_collision; [|done..].
    by apply (list_elem_of_fmap_2 fst _ _ (list_elem_of_lookup_2 _ _ _ Hz)). }
  case_decide as D; case_bool_decide as D'; [|tauto|tauto|done]. simpl. lia.
Qed.

Lemma flush_emitted s :
  log_inv crc32 cs s ->
  exists os, rmap (emit (ls_callmap s)) (flushed (ls_threads s)) = Ok os
    /\ Forall2 (emitted cs) (flushed (ls_threads s)) os.
Proof using no_collision counted.
  intros Hs. destruct (flushed_spec crc32 cs s Hs) as [Hsub _].
  assert (forall c, c ∈ flushed (ls_threads s) -> c.1 ∈ elements_of crc32 cs) as Hin.
  { intros c Hc. eapply elem_of_submseteq; [|exact Hsub]. by apply list_elem_of_fmap_2. }
  clear Hsub. induction (flushed (ls_threads s)) as [|c l IH]; [by exists []|].
  destruct (emit_entry s c Hs (Hin c (list_elem_of_here _ _))) as (o & Eo & He).
  destruct IH as (os & Er & Hos); [intros c' Hc; apply Hin; by right|].
  exists (o :: os). simpl. rewrite Eo, Er. split; [done|by constructor].
Qed.

End flush.

Lemma filter_same (P Q : bytes * message -> Prop) `{!forall x, Decision (P x), !forall x, Decision (Q x)} l :
  (forall x, x ∈ l -> P x <-> Q x) -> zlen (filter P l) = zlen (filter Q l).
Proof.
  intros HPQ. unfold zlen. do 2 f_equal. induction l as [|x l IH]; [done|].
  rewrite !filter_cons, IH by set_solver. specialize (HPQ x (list_elem_of_here _ _)).
  repeat case_decide; tauto.
Qed.

Lemma emitted_places cs l os : Forall2 (emitted cs) l os -> oc_order <$> os = ccounter <$> l.*1.
Proof. induction 1 as [|c o l os (E & _) _ IH]; [done|]. csimpl. by rewrite E, IH. Qed.

Lemma extra_calls_permutation l l' : l ≡ₚ l' -> extra_calls l = extra_calls l'.
Proof. induction 1; simpl; lia. Qed.

(** C5. A log whose messages can all be taken is compressed without a loss, when no two
    different texts of its calls have the same CRC: the messages that are not calls are
    kept, the stored calls are in the order of the log and none is at the place of another,
    each has the time of the call at its place and a message with the same text, and for
    every text of a call the repetitions added to the stored calls of that text are as
    many as it was logged, over all the threads. *)
Theorem compressed_log_complete crc32 ms cs head :
  logged None ms = Ok (cs, head) ->
  (forall x m, (x, m) ∈ cs -> is_Some (mg_r m)) ->
  (forall x y, x ∈ cs.*1 -> y ∈ cs.*1 -> crc32 x = crc32 y -> x = y) ->
  exists s calls, log_run crc32 log_init ms = Ok s /\ log_flush s = Ok (head, calls)
    /\ Sorted order_le calls /\ NoDup (oc_order <$> calls)
    /\ (forall c, c ∈ calls -> exists x m', placed_at cs c = Some (x, m') /\ (x, oc_msg c) ∈ cs
          /\ oc_t c = default 0%Z (mg_t m'))
    /\ forall x, x ∈ cs.*1 -> extra_calls (filter (has_text cs x) calls) = times_logged x cs.
Proof.
  intros Hl Hr Hc.
  destruct (log_run_inv crc32 ms log_init [] cs head) as (s & Es & Hs & Hh); [|done|].
  { split; [done|]. split; [done|]. split; [set_solver|]. by exists []. }
  destruct (flushed_spec crc32 cs s Hs) as [Hsub Hw]. simpl in Hs.
  destruct (flush_emitted crc32 cs Hc Hr s Hs) as (os & Eo & He).
  pose proof (merge_sort_Permutation order_le os) as Hp.
  exists s, (merge_sort order_le os). split; [done|]. unfold log_flush. fold (flushed (ls_threads s)).
  rewrite Eo, Hh. split; [done|]. split; [apply Sorted_merge_sort; intros a b; unfold order_le; lia|].
  split; [|split].
  - rewrite Hp, (emitted_places _ _ _ He).
    destruct (submseteq_Permutation _ _ Hsub) as [k Hk].
    pose proof (elements_places crc32 cs) as Hd. rewrite Hk, fmap_app in Hd.
    by apply NoDup_app in Hd as [Hd _].
  - intros c Hin. rewrite Hp in Hin. apply list_elem_of_lookup in Hin as [i Hi].
    destruct (Forall2_lookup_r _ _ _ _ _ He Hi) as (e & _ & He'). destruct He' as (_ & _ & x & m' & ? & ? & ? & _). by exists x, m'.
  - intros x Hx. rewrite (extra_calls_permutation _ (filter (has_text cs x) os)) by (by rewrite Hp).
    rewrite (text_weight crc32 cs Hc Hr _ _ _ He Hsub Hx), Hw. unfold times_logged.
    apply filter_same. intros [y m] Hy. rewrite bool_decide_eq_true. simpl.
    split; [|by intros ->]. intros E. apply Hc; [|done..]. by apply (list_elem_of_fmap_2 fst _ _ Hy).
Qed.

Lemma compressed_log_complete_witness :
  exists s calls, log_run (fun b => zlen b) log_init sample_log = Ok s
    /\ log_flush s = Ok ([B "i"], calls)
    /\ extra_calls (filter (has_text sample_calls (B "14file")) calls) = 2%Z.
Proof.
  destruct (compressed_log_complete (fun b => zlen b) sample_log sample_calls [B "i"])
    as (s & calls & Hr & Hf & _ & _ & _ & Hx).
  - vm_compute. reflexivity.
  - intros x m. unfold sample_calls. rewrite !elem_of_cons. intros Hm.
    destruct_or! Hm; simplify_eq; [by eexists..|]. by apply not_elem_of_nil in Hm.
  - intros x y. change (sample_calls.*1) with [B "14file"; B "14file"; B "224file"].
    rewrite !elem_of_cons. intros Hm Hn.
    destruct_or! Hm; destruct_or! Hn; subst; try done; by first [apply not_elem_of_nil in Hm|apply not_elem_of_nil in Hn].
  - exists s, calls. split; [exact Hr|]. split; [exact Hf|].
    rewrite (Hx (B "14file")); [reflexivity|]. by left.
Defined.

(** The texts are joined without separators: call 1 of thread 14 and call 11 of thread 4
    are one call to the compressor. *)
Lemma joined_texts_collide :
  let m i t := {| mg_raw := []; mg_type := None; mg_category := None; mg_I := Some i;
                  mg_T := Some t; mg_t := Some 0%Z; mg_r := Some 0%Z;
                  mg_args := Some []; mg_R := Some []; mg_P := Some [] |} in
  call_text "file" (m 1 14)%Z = call_text "file" (m 11 4)%Z.
Proof. reflexivity. Qed.
