(* ===== verification/Aplib.v ===== *)
(** The aPLib decompressor of lib/cuckoo/common/aplib.py, and its refinement of the
    LZ token language it decodes. *)
From S2P Require Import Prelude.
Open Scope Z_scope.

(** ** The decompressor *)

(** Bytes are integers between 0 and 255; [tag] is a Python integer that is
    shifted left without a mask. *)
Record APDSTATE := {
  source : list Z; destination : list Z; tag : Z; bitcount : Z }.

Definition APDSTATE_init (src : list Z) : APDSTATE :=
  {| source := src; destination := []; tag := 0; bitcount := 0 |}.

Definition set_dest (d : list Z) (ud : APDSTATE) : APDSTATE :=
  {| source := source ud; destination := d; tag := tag ud; bitcount := bitcount ud |}.

(** [ord(ud.source.read(1))]: [ord] of an empty string is a [TypeError]. *)
Definition read_ord : st APDSTATE Z := fun ud =>
  match source ud with
  | [] => (Raise TypeError, ud)
  | b :: src => (Ok b, {| source := src; destination := destination ud; tag := tag ud; bitcount := bitcount ud |})
  end.

(** [ud.destination += ud.source.read(1)]: at the end of the source nothing is
    added and nothing is raised. *)
Definition read_verbatim : st APDSTATE unit := fun ud =>
  match source ud with
  | [] => (Ok tt, ud)
  | b :: src => (Ok tt, {| source := src; destination := destination ud ++ [b]; tag := tag ud; bitcount := bitcount ud |})
  end.

Definition ap_getbit : st APDSTATE Z := fun ud =>
  let '(r, ud1) :=
    (if bitcount ud - 1 <? 0 then
       match source ud with
       | [] => (Raise TypeError, {| source := []; destination := destination ud; tag := tag ud;
                                    bitcount := bitcount ud - 1 |})
       | b :: src => (Ok tt, {| source := src; destination := destination ud; tag := b; bitcount := 7 |})
       end
     else (Ok tt, {| source := source ud; destination := destination ud; tag := tag ud;
                     bitcount := bitcount ud - 1 |})) in
  match r with
  | Raise e => (Raise e, ud1)
  | Ok _ =>
      (Ok (Z.land (Z.shiftr (tag ud1) 7) 1),
       {| source := source ud1; destination := destination ud1; tag := Z.shiftl (tag ud1) 1;
          bitcount := bitcount ud1 |})
  end.

(** The loop of [ap_getgamma]; every round takes two bits from the source. *)
Fixpoint ap_getgamma_loop (fuel : nat) (result : Z) : st APDSTATE Z :=
  match fuel with
  | O => sraise OutOfFuel
  | S fuel' =>
      let* b := ap_getbit in
      let result := Z.shiftl result 1 + b in
      let* c := ap_getbit in
      if c =? 0 then sret result else ap_getgamma_loop fuel' result
  end.

(** Bits the source can still yield: more than any loop can take. *)
Definition bits_left (ud : APDSTATE) : nat := (8 * length (source ud) + Z.to_nat (bitcount ud))%nat.

Definition ap_getgamma : st APDSTATE Z := fun ud => ap_getgamma_loop (S (bits_left ud)) 1 ud.

(** [l[i]] with Python's negative indices. *)
Definition py_nth {A} (l : list A) (i : Z) : option A :=
  if i <? 0 then
    if zlen l + i <? 0 then None else l !! Z.to_nat (zlen l + i)
  else l !! Z.to_nat i.

(** [ud.destination.append(ud.destination[-offs])], [n] times. *)
Fixpoint copy_back (n : nat) (offs : Z) (d : list Z) : res (list Z) :=
  match n with
  | O => Ok d
  | S n' =>
      let! b := of_option IndexError (py_nth d (- offs)) in
      copy_back n' offs (d ++ [b])
  end.

Definition append_copies (len offs : Z) : st APDSTATE unit := fun ud =>
  match copy_back (Z.to_nat len) offs (destination ud) with
  | Ok d => (Ok tt, set_dest d ud)
  | Raise e => (Raise e, ud)
  end.

(** Four bits, most significant first. *)
Definition get_offs4 : st APDSTATE Z :=
  let* b3 := ap_getbit in
  let offs := Z.shiftl 0 1 + b3 in
  let* b2 := ap_getbit in
  let offs := Z.shiftl offs 1 + b2 in
  let* b1 := ap_getbit in
  let offs := Z.shiftl offs 1 + b1 in
  let* b0 := ap_getbit in
  sret (Z.shiftl offs 1 + b0).

Definition length_bonus (offs : Z) : Z :=
  (if 32000 <=? offs then 1 else 0) + (if 1280 <=? offs then 1 else 0) + (if offs <? 128 then 2 else 0).

(** The state of the main loop besides the source: [r0], [lwm], [done]. *)
Record apd_loop := { r0 : Z; lwm : Z; done_ : bool }.

(** One round of the main decompression loop. *)
Definition ap_depack_step (l : apd_loop) : st APDSTATE apd_loop :=
  let* b1 := ap_getbit in
  if b1 =? 0 then
    do* read_verbatim in
    sret {| r0 := r0 l; lwm := 0; done_ := false |}
  else
  let* b2 := ap_getbit in
  if b2 =? 0 then
    let* offs := ap_getgamma in
    if (lwm l =? 0) && (offs =? 2) then
      let offs := r0 l in
      let* len := ap_getgamma in
      do* append_copies len offs in
      sret {| r0 := r0 l; lwm := 1; done_ := false |}
    else
      let offs := if lwm l =? 0 then offs - 3 else offs - 2 in
      let offs := Z.shiftl offs 8 in
      let* b := read_ord in
      let offs := offs + b in
      let* len := ap_getgamma in
      do* append_copies (len + length_bonus offs) offs in
      sret {| r0 := offs; lwm := 1; done_ := false |}
  else
  let* b3 := ap_getbit in
  if b3 =? 0 then
    let* b := read_ord in
    let len := 2 + Z.land b 1 in
    let offs := Z.shiftr b 1 in
    if offs =? 0 then sret {| r0 := offs; lwm := 1; done_ := true |}
    else
      do* append_copies len offs in
      sret {| r0 := offs; lwm := 1; done_ := false |}
  else
    let* offs := get_offs4 in
    do* (if offs =? 0 then fun ud => (Ok tt, set_dest (destination ud ++ [0]) ud)
         else append_copies 1 offs) in
    sret {| r0 := r0 l; lwm := 0; done_ := false |}.

Fixpoint ap_depack_loop (fuel : nat) (l : apd_loop) : st APDSTATE unit :=
  if done_ l then sret tt else
  match fuel with
  | O => sraise OutOfFuel
  | S fuel' => let* l' := ap_depack_step l in ap_depack_loop fuel' l'
  end.

Definition ap_depack (src : list Z) : res (list Z) :=
  let m := do* read_verbatim in
           fun ud => ap_depack_loop (S (bits_left ud)) {| r0 := -1; lwm := 0; done_ := false |} ud in
  match m (APDSTATE_init src) with
  | (Ok _, ud) => Ok (destination ud)
  | (Raise e, _) => Raise e
  end.

(** [except Exception: raise Exception("aPLib decompression error")]. *)
Definition decompress (data : list Z) : res (list Z) :=
  match ap_depack data with Ok d => Ok d | Raise _ => Raise OtherException end.

(** [struct.unpack("I", b)]: exactly four bytes, little endian. *)
Definition unpack_I (b : list Z) : res Z :=
  match b with
  | [a; b; c; d] => Ok (a + Z.shiftl b 8 + Z.shiftl c 16 + Z.shiftl d 24)
  | _ => Raise OtherException
  end.

(** [l[a:b]] for [0 <= a], [0 <= b]. *)
Definition slice {A} (a b : Z) (l : list A) : list A := drop (Z.to_nat a) (take (Z.to_nat b) l).

Definition AP32 : list Z := [65; 80; 51; 50].

Definition strip_header (data : list Z) : res (list Z) :=
  let! (start_offset, len) :=
    (if decide (slice 0 4 data = AP32) then
       let! s := unpack_I (slice 4 8 data) in
       let! n := unpack_I (slice 8 12 data) in
       Ok (s, n)
     else Ok (0, zlen data)) in
  Ok (slice start_offset (len + start_offset) data).

Definition aplib_decompress (data_in : list Z) : res (list Z) :=
  let! enc := strip_header data_in in decompress enc.

(** ** Specification: tokens and their encoding *)

Inductive token :=
| TLit (b : Z)                (** a literal byte *)
| TTiny (offs : Z)            (** one byte from 1 to 15 back, or a zero byte *)
| TNear (offs len : Z)        (** two or three bytes from 1 to 127 back *)
| TRepeat (len : Z)           (** from the last offset again *)
| TMatch (offs len : Z).      (** any offset and length *)

(** A stream is made of bits, which live in tag bytes, and of whole bytes. *)
Inductive item := Bit (b : bool) | Byte (v : Z).

Definition bit_of (b : bool) : Z := if b then 1 else 0.

(** Elias-like gamma code of [p >= 2]: the bits after the leading one, each
    followed by a continuation bit. [cont] is the one after the last bit. *)
Fixpoint gamma_pos (p : positive) (last_cont : bool) : list item :=
  match p with
  | xH => []
  | xO p' => gamma_pos p' true ++ [Bit false; Bit last_cont]
  | xI p' => gamma_pos p' true ++ [Bit true; Bit last_cont]
  end.
Definition gamma (n : Z) : list item := gamma_pos (Z.to_pos n) false.

Definition bit_at (n i : Z) : item := Bit (Z.testbit n i).

(** What the decoder has to know between tokens. *)
Record lz_state := { lz_out : list Z; lz_r0 : Z; lz_lwm : Z }.

Definition encode_token (s : lz_state) (t : token) : list item :=
  match t with
  | TLit b => [Bit false; Byte b]
  | TTiny offs => [Bit true; Bit true; Bit true; bit_at offs 3; bit_at offs 2; bit_at offs 1; bit_at offs 0]
  | TNear offs len => [Bit true; Bit true; Bit false; Byte (2 * offs + (len - 2))]
  | TRepeat len => [Bit true; Bit false] ++ gamma 2 ++ gamma len
  | TMatch offs len =>
      [Bit true; Bit false] ++ gamma (offs / 256 + (if lz_lwm s =? 0 then 3 else 2))
      ++ [Byte (offs mod 256)] ++ gamma (len - length_bonus offs)
  end.

Definition encode_end : list item := [Bit true; Bit true; Bit false; Byte 0].

Definition token_ok (s : lz_state) (t : token) : Prop :=
  match t with
  | TLit b => 0 <= b < 256
  | TTiny offs => 0 <= offs < 16
  | TNear offs len => 0 < offs < 128 /\ (len = 2 \/ len = 3)
  | TRepeat len => lz_lwm s = 0 /\ 2 <= len
  | TMatch offs len => 0 <= offs /\ 2 <= len - length_bonus offs
  end.

Definition lz_copy (len offs : Z) (s : lz_state) (r : Z) : res lz_state :=
  let! d := copy_back (Z.to_nat len) offs (lz_out s) in
  Ok {| lz_out := d; lz_r0 := r; lz_lwm := 1 |}.

(** The meaning of a token. *)
Definition lz_step (s : lz_state) (t : token) : res lz_state :=
  match t with
  | TLit b => Ok {| lz_out := lz_out s ++ [b]; lz_r0 := lz_r0 s; lz_lwm := 0 |}
  | TTiny offs =>
      let! d := (if offs =? 0 then Ok (lz_out s ++ [0]) else copy_back 1 offs (lz_out s)) in
      Ok {| lz_out := d; lz_r0 := lz_r0 s; lz_lwm := 0 |}
  | TNear offs len => lz_copy len offs s offs
  | TRepeat len => lz_copy len (lz_r0 s) s (lz_r0 s)
  | TMatch offs len => lz_copy len offs s offs
  end.

(** A token sequence that can be encoded, its encoding and its output. *)
Inductive lz_run : lz_state -> list token -> list item -> list Z -> Prop :=
| lz_end s : lz_run s [] encode_end (lz_out s)
| lz_token s t ts s' its out :
    token_ok s t -> lz_step s t = Ok s' -> lz_run s' ts its out ->
    lz_run s (t :: ts) (encode_token s t ++ its) out.

(** The encoding and the output of a sequence of tokens, computed. *)
Fixpoint encode_run (s : lz_state) (ts : list token) : list item * list Z :=
  match ts with
  | [] => (encode_end, lz_out s)
  | t :: ts' =>
      match lz_step s t with
      | Ok s' => let '(its, out) := encode_run s' ts' in (encode_token s t ++ its, out)
      | Raise _ => ([], [])
      end
  end.

(** One token of every kind. *)
Definition example_tokens : list token :=
  [TLit 98; TNear 2 3; TLit 99; TRepeat 4; TTiny 0; TMatch 3 6; TTiny 9].
Definition example_output : list Z :=
  [97; 98; 97; 98; 97; 99; 97; 99; 97; 99; 0; 97; 99; 0; 97; 99; 0; 97].

(** The next eight bits of a stream as a tag byte. *)
Fixpoint tag_byte (n : nat) (its : list item) : Z :=
  match n with
  | O => 0
  | S n' =>
      match its with
      | [] => 0
      | Bit b :: its' => Z.shiftl (bit_of b) (Z.of_nat n') + tag_byte n' its'
      | Byte _ :: its' => tag_byte n its'
      end
  end.

(** The bytes of a stream; [k] is how many bits of the current tag are left. A
    tag byte sits where its first bit is needed. *)
Fixpoint pack (k : nat) (its : list item) : list Z :=
  match its with
  | [] => []
  | Byte v :: its' => v :: pack k its'
  | Bit b :: its' =>
      match k with
      | S k' => pack k' its'
      | O => tag_byte 8 its :: pack 7 its'
      end
  end.

(** The bits of a stream, in order. *)
Fixpoint bits (its : list item) : list bool :=
  match its with
  | [] => []
  | Bit b :: its' => b :: bits its'
  | Byte _ :: its' => bits its'
  end.

(** The decoder stands before the items [its], with [rest] after them and [d]
    written so far. *)
Definition reads (its : list item) (rest d : list Z) (ud : APDSTATE) : Prop :=
  exists k : nat, (k <= 7)%nat /\ bitcount ud = Z.of_nat k /\
    source ud = pack k its ++ rest /\ destination ud = d /\
    forall i : nat, (i < k)%nat -> Z.testbit (tag ud) (7 - Z.of_nat i) = nth i (bits its) false.

(** [m] takes at least [k] bits, and the only errors it raises are those of the
    reads and of the index. *)
Definition eats {A} (k : nat) (m : st APDSTATE A) : Prop :=
  forall ud r ud', 0 <= bitcount ud -> m ud = (r, ud') ->
    match r with
    | Ok _ => 0 <= bitcount ud' /\ (bits_left ud' + k <= bits_left ud)%nat
    | Raise e => e = TypeError \/ e = IndexError
    end.

(** ** Termination *)

Lemma eats_weaken {A} j k (m : st APDSTATE A) : (j <= k)%nat -> eats k m -> eats j m.
Proof. intros Hj Hm ud r ud' Hb E. specialize (Hm _ _ _ Hb E). destruct r; [lia|done]. Qed.

Lemma eats_ret {A} (a : A) : eats 0 (sret a).
Proof. intros ud r ud' Hb [= <- <-]. lia. Qed.

Lemma eats_bind {A C} j k (m : st APDSTATE A) (f : A -> st APDSTATE C) :
  eats j m -> (forall a, eats k (f a)) -> eats (j + k) (sbind m f).
Proof.
  intros Hm Hf ud r ud' Hb E.
  apply sbind_inv in E as [(a & ud1 & E1 & E2)|(e & E1 & ->)].
  - destruct (Hm _ _ _ Hb E1) as [Hb1 H1]. specialize (Hf a _ _ _ Hb1 E2).
    destruct r; [lia|done].
  - exact (Hm _ _ _ Hb E1).
Qed.

Lemma eats_getbit : eats 1 ap_getbit.
Proof.
  intros ud r ud' Hb E. unfold ap_getbit in E.
  destruct (bitcount ud - 1 <? 0) eqn:Eb.
  - destruct (source ud) as [|b src] eqn:Es; simplify_eq/=; [by left|].
    unfold bits_left. simpl. rewrite Es. simpl. lia.
  - simplify_eq/=. unfold bits_left. simpl. lia.
Qed.

Lemma eats_read_ord : eats 0 read_ord.
Proof.
  intros ud r ud' Hb E. unfold read_ord in E.
  destruct (source ud) as [|b src] eqn:Es; simplify_eq/=; [by left|].
  unfold bits_left. simpl. rewrite Es. simpl. lia.
Qed.

Lemma eats_read_verbatim : eats 0 read_verbatim.
Proof.
  intros ud r ud' Hb E. unfold read_verbatim in E.
  destruct (source ud) as [|b src] eqn:Es; simplify_eq/=; [lia|].
  unfold bits_left. simpl. rewrite Es. simpl. lia.
Qed.

Lemma copy_back_error n offs d e : copy_back n offs d = Raise e -> e = IndexError.
Proof.
  revert d. induction n as [|n IH]; intros d; simpl; [done|].
  destruct (py_nth d (- offs)); simpl; [apply IH|congruence].
Qed.

Lemma eats_append_copies len offs : eats 0 (append_copies len offs).
Proof.
  intros ud r ud' Hb E. unfold append_copies in E.
  destruct (copy_back _ _ _) eqn:Ec; simplify_eq/=; [unfold bits_left; simpl; lia|].
  right. by eapply copy_back_error.
Qed.

Lemma eats_getgamma : eats 2 ap_getgamma.
Proof.
  assert (forall fuel ud r ud' result, (bits_left ud < fuel)%nat -> 0 <= bitcount ud ->
    ap_getgamma_loop fuel result ud = (r, ud') ->
    match r with
    | Ok _ => 0 <= bitcount ud' /\ (bits_left ud' + 2 <= bits_left ud)%nat
    | Raise e => e = TypeError \/ e = IndexError
    end) as H.
  { induction fuel as [|fuel IH]; intros ud r ud' result Hf Hb E; [lia|]. cbn [ap_getgamma_loop] in E.
    apply sbind_inv in E as [(b & ud1 & E1 & E)|(e & E1 & ->)]; [|exact (eats_getbit _ _ _ Hb E1)].
    destruct (eats_getbit _ _ _ Hb E1) as [Hb1 H1].
    apply sbind_inv in E as [(c & ud2 & E2 & E)|(e & E2 & ->)]; [|exact (eats_getbit _ _ _ Hb1 E2)].
    destruct (eats_getbit _ _ _ Hb1 E2) as [Hb2 H2].
    destruct (c =? 0); [unfold sret in E; simplify_eq; lia|].
    apply IH in E; [|lia|done]. destruct r; [lia|done]. }
  intros ud r ud' Hb E. eapply H; [|done|exact E]. lia.
Qed.

(** Splits a goal [eats k m] along the binds of [m]; the bits taken by the parts
    that take none of their own are zero. *)
Ltac eats_step :=
  first [ apply eats_getbit | apply eats_getgamma | apply eats_read_ord | apply eats_read_verbatim
        | apply eats_append_copies | apply eats_ret
        | match goal with
          | |- eats _ (if ?b then _ else _) => destruct b
          end ].

Lemma eats_get_offs4 : eats 0 get_offs4.
Proof.
  unfold get_offs4.
  apply (eats_weaken _ (1 + (1 + (1 + (1 + 0))))); [lia|].
  repeat (apply eats_bind; [apply eats_getbit|intros ?]). apply eats_ret.
Qed.

Lemma eats_step_loop l : eats 1 (ap_depack_step l).
Proof.
  unfold ap_depack_step.
  apply (eats_bind 1 0); [apply eats_getbit|intros b1]. destruct (b1 =? 0).
  { apply (eats_bind 0 0); [apply eats_read_verbatim|intros _; apply eats_ret]. }
  apply (eats_weaken _ (1 + 0)); [lia|]. apply eats_bind; [apply eats_getbit|intros b2].
  destruct (b2 =? 0).
  { apply (eats_weaken _ (2 + 0)); [lia|]. apply eats_bind; [apply eats_getgamma|intros offs].
    destruct (_ && _).
    - apply (eats_weaken _ (2 + 0)); [lia|]. apply eats_bind; [apply eats_getgamma|intros len].
      apply (eats_bind 0 0); [apply eats_append_copies|intros _; apply eats_ret].
    - apply (eats_bind 0 0); [apply eats_read_ord|intros b].
      apply (eats_weaken _ (2 + 0)); [lia|]. apply eats_bind; [apply eats_getgamma|intros len].
      apply (eats_bind 0 0); [apply eats_append_copies|intros _; apply eats_ret]. }
  apply (eats_weaken _ (1 + 0)); [lia|]. apply eats_bind; [apply eats_getbit|intros b3].
  destruct (b3 =? 0).
  - apply (eats_bind 0 0); [apply eats_read_ord|intros b]. destruct (_ =? 0); [apply eats_ret|].
    apply (eats_bind 0 0); [apply eats_append_copies|intros _; apply eats_ret].
  - apply (eats_bind 0 0); [apply eats_get_offs4|intros offs].
    apply (eats_bind 0 0); [|intros _; apply eats_ret]. destruct (offs =? 0); [|apply eats_append_copies].
    intros ud r ud' Hb [= <- <-]. unfold bits_left. simpl. lia.
Qed.

Lemma ap_depack_loop_total fuel l ud r ud' :
  (bits_left ud < fuel)%nat -> 0 <= bitcount ud -> ap_depack_loop fuel l ud = (r, ud') ->
  match r with Ok _ => True | Raise e => e = TypeError \/ e = IndexError end.
Proof.
  revert l ud. induction fuel as [|fuel IH]; intros l ud Hf Hb E; [lia|].
  cbn [ap_depack_loop] in E. destruct (done_ l); [by unfold sret in E; simplify_eq|].
  apply sbind_inv in E as [(l' & ud1 & E1 & E)|(e & E1 & ->)].
  - destruct (eats_step_loop l _ _ _ Hb E1) as [Hb1 H1]. apply IH in E; [done|lia|done].
  - exact (eats_step_loop l _ _ _ Hb E1).
Qed.

(** The decompressor terminates on every input: its loops end within the bits the
    source can yield, with a result or with the error of a read past the end
    ([TypeError]) or of an offset outside the output ([IndexError]). *)
Theorem ap_depack_terminates src :
  match ap_depack src with Ok _ => True | Raise e => e = TypeError \/ e = IndexError end.
Proof.
  unfold ap_depack.
  destruct (sbind _ _ _) as [r ud'] eqn:E.
  apply sbind_inv in E as [(a & ud1 & E1 & E)|(e & E1 & ->)].
  - apply ap_depack_loop_total in E; [destruct r; done|lia|].
    assert (0 <= bitcount (APDSTATE_init src)) as Hb by done.
    apply (eats_read_verbatim _ _ _ Hb E1).
  - assert (0 <= bitcount (APDSTATE_init src)) as Hb by done.
    exact (eats_read_verbatim _ _ _ Hb E1).
Qed.

(** ** The bit reader *)

Lemma tag_byte_range n its : 0 <= tag_byte n its < 2 ^ Z.of_nat n.
Proof.
  revert n. induction its as [|[b|v] its IH]; intros [|n]; cbn [tag_byte]; try lia.
  - specialize (IH n). rewrite Z.shiftl_mul_pow2 by lia.
    rewrite Nat2Z.inj_succ, Z.pow_succ_r by lia. destruct b; simpl; lia.
  - specialize (IH (S n)). lia.
Qed.

Lemma tag_byte_testbit n its (i : nat) :
  (i < n)%nat -> Z.testbit (tag_byte n its) (Z.of_nat n - 1 - Z.of_nat i) = nth i (bits its) false.
Proof.
  revert n i. induction its as [|[b|v] its IH]; intros [|n] i Hi; try lia.
  - simpl. rewrite Z.testbit_0_l. by destruct i.
  - cbn [tag_byte bits]. pose proof (tag_byte_range n its) as Hr.
    replace (Z.of_nat (S n) - 1) with (Z.of_nat n) by lia.
    rewrite Z.shiftl_mul_pow2 by lia.
    destruct i as [|i].
    + rewrite Z.sub_0_r, <- (Z.mul_1_l (2 ^ Z.of_nat n)) at 1. simpl nth.
      rewrite Z.testbit_eqb by lia. rewrite Z.add_comm, Z.mul_1_l, Z.div_add by lia.
      rewrite Z.div_small by lia. by destruct b.
    + cbn [nth]. rewrite <- IH with (n := n) by lia.
      rewrite <- (Z.mod_pow2_bits_low _ (Z.of_nat n)) by lia.
      rewrite Z.add_comm, Z.mod_add by lia. rewrite Z.mod_small by lia. f_equal. lia.
  - cbn [tag_byte bits]. by apply IH.
Qed.

Lemma land_shiftr_7 t : Z.land (Z.shiftr t 7) 1 = bit_of (Z.testbit t 7).
Proof.
  change 1 with (Z.ones 1) at 1. rewrite Z.land_ones by lia. change (2 ^ 1) with 2.
  rewrite <- Z.bit0_mod, Z.shiftr_spec by lia. by destruct (Z.testbit _ _).
Qed.

Lemma getbit_reads b its rest d ud :
  reads (Bit b :: its) rest d ud ->
  exists ud', ap_getbit ud = (Ok (bit_of b), ud') /\ reads its rest d ud'.
Proof.
  intros (k & Hk & Hc & Hs & Hd & Ht). unfold ap_getbit. rewrite Hc. cbn [pack] in Hs.
  destruct k as [|k].
  - change (Z.of_nat 0 - 1 <? 0) with true. cbn [app] in Hs. rewrite Hs.
    eexists. split.
    + rewrite land_shiftr_7. cbn [tag].
      pose proof (tag_byte_testbit 8 (Bit b :: its) 0 ltac:(lia)) as H0.
      change (Z.of_nat 8 - 1 - Z.of_nat 0) with 7 in H0. by rewrite H0.
    + exists 7%nat. cbn [source destination bitcount tag]. split_and!; try done.
      intros i Hi. rewrite Z.shiftl_spec by lia.
      replace (7 - Z.of_nat i - 1) with (Z.of_nat 8 - 1 - Z.of_nat (S i)) by lia.
      by rewrite tag_byte_testbit by lia.
  - rewrite (proj2 (Z.ltb_ge (Z.of_nat (S k) - 1) 0)) by lia. rewrite Hs.
    eexists. split.
    + rewrite land_shiftr_7. cbn [tag]. specialize (Ht 0%nat). change (7 - Z.of_nat 0) with 7 in Ht.
      by rewrite Ht by lia.
    + exists k. cbn [source destination bitcount tag]. split_and!; [lia|lia|done|done|].
      intros i Hi. rewrite Z.shiftl_spec by lia.
      replace (7 - Z.of_nat i - 1) with (7 - Z.of_nat (S i)) by lia. by rewrite Ht by lia.
Qed.

Lemma read_ord_reads v its rest d ud :
  reads (Byte v :: its) rest d ud ->
  exists ud', read_ord ud = (Ok v, ud') /\ reads its rest d ud'.
Proof.
  intros (k & Hk & Hc & Hs & Hd & Ht). unfold read_ord. rewrite Hs. simpl.
  eexists. split; [done|]. by exists k.
Qed.

Lemma read_verbatim_reads v its rest d ud :
  reads (Byte v :: its) rest d ud ->
  exists ud', read_verbatim ud = (Ok tt, ud') /\ reads its rest (d ++ [v]) ud'.
Proof.
  intros (k & Hk & Hc & Hs & Hd & Ht). unfold read_verbatim. rewrite Hs. simpl.
  eexists. split; [done|]. exists k. by rewrite <- Hd.
Qed.

Lemma append_copies_reads len offs its rest d d' ud :
  reads its rest d ud -> copy_back (Z.to_nat len) offs d = Ok d' ->
  exists ud', append_copies len offs ud = (Ok tt, ud') /\ reads its rest d' ud'.
Proof.
  intros (k & Hk & Hc & Hs & Hd & Ht) E. unfold append_copies. rewrite Hd, E.
  eexists. split; [done|]. by exists k.
Qed.

(** *** Gamma codes *)

Lemma getgamma_loop_more fuel k r ud x ud' :
  ap_getgamma_loop fuel r ud = (x, ud') -> x <> Raise OutOfFuel ->
  ap_getgamma_loop (fuel + k) r ud = (x, ud').
Proof.
  revert r ud. induction fuel as [|fuel IH]; intros r ud E Hx; [cbn in E; unfold sraise in E; congruence|].
  change (S fuel + k)%nat with (S (fuel + k)). cbn [ap_getgamma_loop] in *.
  apply sbind_inv in E as [(b & ud1 & E1 & E)|(e & E1 & ->)].
  - rewrite (sbind_ok _ _ _ _ _ E1).
    apply sbind_inv in E as [(c & ud2 & E2 & E)|(e & E2 & ->)].
    + rewrite (sbind_ok _ _ _ _ _ E2). destruct (c =? 0); [done|by apply IH].
    + unfold sbind. by rewrite E2.
  - unfold sbind. by rewrite E1.
Qed.

Lemma gamma_loop_prefix p fuel its rest d ud :
  reads (gamma_pos p true ++ its) rest d ud ->
  exists n ud', ap_getgamma_loop (n + fuel) 1 ud = ap_getgamma_loop fuel (Zpos p) ud' /\
    reads its rest d ud'.
Proof.
  revert fuel its ud. induction p as [p IH|p IH|]; intros fuel its ud H; cbn [gamma_pos] in H.
  3: by exists 0%nat, ud.
  all: rewrite <- app_assoc in H;
    destruct (IH (S fuel) _ _ H) as (n & ud1 & E & H1); cbn [app] in H1;
    apply getbit_reads in H1 as (ud2 & E1 & H1);
    apply getbit_reads in H1 as (ud3 & E2 & H1);
    exists (S n), ud3; split; [|exact H1];
    replace (S n + fuel)%nat with (n + S fuel)%nat by lia; rewrite E;
    cbn [ap_getgamma_loop]; rewrite (sbind_ok _ _ _ _ _ E1), (sbind_ok _ _ _ _ _ E2);
    cbn [bit_of]; rewrite Z.shiftl_mul_pow2 by lia; f_equal; lia.
Qed.

Lemma getgamma_reads n its rest d ud :
  2 <= n -> reads (gamma n ++ its) rest d ud ->
  exists ud', ap_getgamma ud = (Ok n, ud') /\ reads its rest d ud'.
Proof.
  intros Hn H. pose proof H as Hreads.
  assert (exists fuel ud', ap_getgamma_loop fuel 1 ud = (Ok n, ud') /\ reads its rest d ud') as (fuel & ud' & E & H').
  { unfold gamma in H. destruct n as [|[p|p|]|]; try lia; cbn [Z.to_pos gamma_pos] in H;
      rewrite <- app_assoc in H;
      destruct (gamma_loop_prefix p 1 _ _ _ _ H) as (m & ud1 & E & H1); cbn [app] in H1;
      apply getbit_reads in H1 as (ud2 & E1 & H1);
      apply getbit_reads in H1 as (ud3 & E2 & H1);
      exists (m + 1)%nat, ud3; (split; [|exact H1]); rewrite E;
      cbn [ap_getgamma_loop]; rewrite (sbind_ok _ _ _ _ _ E1), (sbind_ok _ _ _ _ _ E2);
      cbn [bit_of]; rewrite Z.shiftl_mul_pow2 by lia; unfold sret; simpl Z.eqb; cbn iota; f_equal; f_equal; lia. }
  exists ud'. split; [|done]. unfold ap_getgamma.
  destruct (ap_getgamma_loop (S (bits_left ud)) 1 ud) as [x ud1] eqn:E1.
  assert (0 <= bitcount ud) as Hb by (destruct Hreads as (k & _ & -> & _); lia).
  pose proof (eats_getgamma ud x ud1 Hb E1) as Hx.
  assert (x <> Raise OutOfFuel) as Hx' by (destruct x; [done|destruct Hx; congruence]).
  apply (getgamma_loop_more _ fuel) in E1; [|done].
  apply (getgamma_loop_more _ (S (bits_left ud))) in E; [|done].
  rewrite Nat.add_comm in E. congruence.
Qed.

(** *** Tokens *)

Definition loop_of (s : lz_state) : apd_loop := {| r0 := lz_r0 s; lwm := lz_lwm s; done_ := false |}.

(** Runs the next read of the decoder on what stands before it. *)
Ltac next_bit H :=
  let u := fresh "ud" in let E := fresh "E" in
  apply getbit_reads in H as (u & E & H);
  rewrite (sbind_ok _ _ _ _ _ E); clear E; cbn [bit_of]; change (0 =? 0) with true; change (1 =? 0) with false;
  cbn iota.

Lemma copy_back_out len offs s r s' :
  lz_copy len offs s r = Ok s' ->
  copy_back (Z.to_nat len) offs (lz_out s) = Ok (lz_out s') /\ lz_r0 s' = r /\ lz_lwm s' = 1.
Proof.
  unfold lz_copy. destruct (copy_back _ _ _); [|done]. cbn [rbind]. intros [= <-]. done.
Qed.

Lemma loop_of_eq s r w : lz_r0 s = r -> lz_lwm s = w -> loop_of s = {| r0 := r; lwm := w; done_ := false |}.
Proof. by intros <- <-. Qed.

Lemma get_offs4_reads offs its rest d ud :
  0 <= offs < 16 ->
  reads ([bit_at offs 3; bit_at offs 2; bit_at offs 1; bit_at offs 0] ++ its) rest d ud ->
  exists ud', get_offs4 ud = (Ok offs, ud') /\ reads its rest d ud'.
Proof.
  intros Ho H. unfold bit_at in H. cbn [app] in H. unfold get_offs4.
  do 4 (let E := fresh "E" in apply getbit_reads in H as (? & E & H); rewrite (sbind_ok _ _ _ _ _ E); clear E).
  eexists. split; [|exact H]. unfold sret. do 2 f_equal.
  assert (offs = 0 \/ offs = 1 \/ offs = 2 \/ offs = 3 \/ offs = 4 \/ offs = 5 \/ offs = 6 \/ offs = 7 \/
          offs = 8 \/ offs = 9 \/ offs = 10 \/ offs = 11 \/ offs = 12 \/ offs = 13 \/ offs = 14 \/ offs = 15)
    as Hc by lia.
  repeat (destruct Hc as [->|Hc]; [reflexivity|]). by subst.
Qed.

Lemma near_byte offs len :
  0 < offs -> len = 2 \/ len = 3 ->
  2 + Z.land (2 * offs + (len - 2)) 1 = len /\ Z.shiftr (2 * offs + (len - 2)) 1 = offs.
Proof.
  intros Ho Hl. change 1 with (Z.ones 1) at 1. rewrite Z.land_ones, Z.shiftr_div_pow2 by lia.
  change (2 ^ 1) with 2. destruct Hl as [-> | ->]; split; Z.div_mod_to_equations; lia.
Qed.

Lemma step_token s t s' its rest ud :
  token_ok s t -> lz_step s t = Ok s' ->
  reads (encode_token s t ++ its) rest (lz_out s) ud ->
  exists ud', ap_depack_step (loop_of s) ud = (Ok (loop_of s'), ud') /\ reads its rest (lz_out s') ud'.
Proof.
  intros Hok Hs H. unfold ap_depack_step.
  destruct t as [b|offs|offs len|len|offs len]; cbn [encode_token app] in H; cbn [lz_step] in Hs; cbn [token_ok] in Hok.
  - next_bit H. apply read_verbatim_reads in H as (ud2 & E & H).
    rewrite (sbind_ok _ _ _ _ _ E). simplify_eq/=. by exists ud2.
  - do 3 next_bit H. apply (get_offs4_reads offs its) in H as (ud4 & E & H); [|done].
    rewrite (sbind_ok _ _ _ _ _ E). destruct (offs =? 0).
    + simplify_eq/=. eexists. split; [reflexivity|].
      destruct H as (k & ? & ? & ? & Hd & ?). exists k. cbn. by rewrite <- Hd.
    + destruct (copy_back 1 offs (lz_out s)) as [d|] eqn:Ec; [|done]. simplify_eq/=.
      destruct (append_copies_reads 1 offs _ _ _ _ _ H Ec) as (ud5 & E5 & H5).
      rewrite (sbind_ok _ _ _ _ _ E5). by exists ud5.
  - do 3 next_bit H. apply read_ord_reads in H as (ud4 & E & H). rewrite (sbind_ok _ _ _ _ _ E).
    destruct (near_byte offs len) as [E1 E2]; [lia|lia|]. cbn zeta. rewrite E1, E2.
    rewrite (proj2 (Z.eqb_neq offs 0)) by lia.
    apply copy_back_out in Hs as (Ec & Er & Ew).
    destruct (append_copies_reads len offs _ _ _ _ _ H Ec) as (ud5 & E5 & H5).
    rewrite (sbind_ok _ _ _ _ _ E5). exists ud5. split; [|done]. by rewrite (loop_of_eq _ _ _ Er Ew).
  - do 2 next_bit H. rewrite <- app_assoc in H. destruct Hok as [Hw Hl].
    apply getgamma_reads in H as (ud4 & E & H); [|lia]. rewrite (sbind_ok _ _ _ _ _ E).
    cbn [lwm loop_of]. rewrite Hw. change ((0 =? 0) && (2 =? 2)) with true. cbn iota zeta.
    apply getgamma_reads in H as (ud5 & E5 & H); [|lia]. rewrite (sbind_ok _ _ _ _ _ E5).
    apply copy_back_out in Hs as (Ec & Er & Ew).
    destruct (append_copies_reads len (lz_r0 s) _ _ _ _ _ H Ec) as (ud6 & E6 & H6).
    cbn [r0 loop_of]. rewrite (sbind_ok _ _ _ _ _ E6). exists ud6. split; [|done].
    by rewrite (loop_of_eq _ _ _ Er Ew).
  - do 2 next_bit H. rewrite <- !app_assoc in H. destruct Hok as [Ho Hl].
    set (n := offs / 256 + (if lz_lwm s =? 0 then 3 else 2)) in *.
    assert (0 <= offs / 256) by (apply Z.div_pos; lia).
    apply getgamma_reads in H as (ud4 & E & H); [|unfold n; destruct (lz_lwm s =? 0); lia].
    rewrite (sbind_ok _ _ _ _ _ E). cbn [lwm loop_of].
    assert ((lz_lwm s =? 0) && (n =? 2) = false) as ->.
    { unfold n. destruct (lz_lwm s =? 0); [|done]. apply Z.eqb_neq. lia. }
    apply read_ord_reads in H as (ud5 & E5 & H). cbn zeta. rewrite (sbind_ok _ _ _ _ _ E5).
    assert (Z.shiftl (if lz_lwm s =? 0 then n - 3 else n - 2) 8 + offs mod 256 = offs) as ->.
    { rewrite Z.shiftl_mul_pow2 by lia. change (2 ^ 8) with 256. unfold n.
      destruct (lz_lwm s =? 0); pose proof (Z.div_mod offs 256); lia. }
    apply getgamma_reads in H as (ud6 & E6 & H); [|lia]. rewrite (sbind_ok _ _ _ _ _ E6).
    replace (len - length_bonus offs + length_bonus offs) with len by lia.
    apply copy_back_out in Hs as (Ec & Er & Ew).
    destruct (append_copies_reads len offs _ _ _ _ _ H Ec) as (ud7 & E7 & H7).
    rewrite (sbind_ok _ _ _ _ _ E7). exists ud7. split; [|done]. by rewrite (loop_of_eq _ _ _ Er Ew).
Qed.

Lemma depack_loop_more fuel k l ud x ud' :
  ap_depack_loop fuel l ud = (x, ud') -> x <> Raise OutOfFuel ->
  ap_depack_loop (fuel + k) l ud = (x, ud').
Proof.
  revert l ud. induction fuel as [|fuel IH]; intros l ud E Hx.
  - destruct k; cbn [Nat.add ap_depack_loop] in *; destruct (done_ l); try done; unfold sraise in E; congruence.
  - change (S fuel + k)%nat with (S (fuel + k)). cbn [ap_depack_loop] in *. destruct (done_ l); [done|].
    apply sbind_inv in E as [(l' & ud1 & E1 & E)|(e & E1 & ->)].
    + rewrite (sbind_ok _ _ _ _ _ E1). by apply IH.
    + unfold sbind. by rewrite E1.
Qed.

Lemma loop_tokens s ts its out rest ud :
  lz_run s ts its out -> reads its rest (lz_out s) ud ->
  exists fuel ud', ap_depack_loop fuel (loop_of s) ud = (Ok tt, ud') /\ destination ud' = out.
Proof.
  intros Hrun. revert ud. induction Hrun as [s|s t ts s' its out Hok Hs _ IH]; intros ud H.
  - rewrite <- (app_nil_r encode_end) in H. cbn [encode_end app] in H.
    exists 2%nat. cbn [ap_depack_loop loop_of done_]. unfold ap_depack_step.
    do 3 (apply getbit_reads in H as (? & ?E & H)). apply read_ord_reads in H as (ud4 & E4 & H).
    exists ud4. destruct H as (k & ? & ? & ? & Hd & ?). split; [|done].
    unfold sbind at 1. rewrite (sbind_ok _ _ _ _ _ E). cbn [bit_of]. change (1 =? 0) with false. cbn iota.
    rewrite (sbind_ok _ _ _ _ _ E0). cbn [bit_of]. change (1 =? 0) with false. cbn iota.
    rewrite (sbind_ok _ _ _ _ _ E1). cbn [bit_of]. change (0 =? 0) with true. cbn iota.
    rewrite (sbind_ok _ _ _ _ _ E4). reflexivity.
  - destruct (step_token s t s' its rest ud Hok Hs H) as (ud1 & E & H1).
    destruct (IH ud1 H1) as (fuel & ud' & E' & Hd).
    exists (S fuel), ud'. split; [|done]. cbn [ap_depack_loop]. cbn [loop_of done_].
    unfold sbind. by rewrite E.
Qed.

Lemma lz_token_eq s t ts s' its its' out :
  token_ok s t -> lz_step s t = Ok s' -> its = encode_token s t ++ its' -> lz_run s' ts its' out ->
  lz_run s (t :: ts) its out.
Proof. intros ? ? -> ?. by apply (lz_token s t ts s'). Qed.

(** C10. Refinement: on the encoding of any token sequence, followed by anything, the
    decompressor returns exactly what the tokens mean: literals, short and near copies,
    repeated offsets and long matches, with the offset and length adjustments of the
    format. *)
Theorem ap_depack_refines b ts its out rest :
  lz_run {| lz_out := [b]; lz_r0 := -1; lz_lwm := 0 |} ts its out ->
  ap_depack (b :: pack 0 its ++ rest) = Ok out /\ decompress (b :: pack 0 its ++ rest) = Ok out.
Proof.
  intros Hrun.
  assert (ap_depack (b :: pack 0 its ++ rest) = Ok out) as E.
  { set (ud := {| source := pack 0 its ++ rest; destination := [b]; tag := 0; bitcount := 0 |}).
    assert (reads its rest [b] ud) as H by (exists 0%nat; split_and!; [lia|done..|lia]).
    destruct (loop_tokens _ ts its out rest ud Hrun H) as (fuel & ud' & E & Hd).
    unfold ap_depack, sbind, APDSTATE_init, read_verbatim. cbn [source destination tag bitcount app].
    fold ud. change {| r0 := -1; lwm := 0; done_ := false |}
      with (loop_of {| lz_out := [b]; lz_r0 := -1; lz_lwm := 0 |}).
    destruct (ap_depack_loop (S (bits_left ud)) _ ud) as [x ud1] eqn:E1.
    assert (x <> Raise OutOfFuel) as Hx.
    { pose proof (ap_depack_loop_total (S (bits_left ud)) (loop_of {| lz_out := [b]; lz_r0 := -1; lz_lwm := 0 |}) ud x ud1) as Ht.
      assert (0 <= bitcount ud) as Hb by done.
      specialize (Ht (Nat.lt_succ_diag_r _) Hb E1). destruct x; [done|destruct Ht; congruence]. }
    apply (depack_loop_more _ fuel) in E1; [|done].
    apply (depack_loop_more _ (S (bits_left ud))) in E; [|done].
    rewrite Nat.add_comm in E. rewrite E in E1. simplify_eq/=. done. }
  split; [done|]. unfold decompress. by rewrite E.
Qed.

Lemma ap_depack_refines_witness :
  let its := fst (encode_run {| lz_out := [97]; lz_r0 := -1; lz_lwm := 0 |} example_tokens) in
  ap_depack (97 :: pack 0 its ++ [1; 2; 3]) = Ok example_output /\
  decompress (97 :: pack 0 its ++ [1; 2; 3]) = Ok example_output.
Proof.
  apply (ap_depack_refines 97 example_tokens).
  vm_compute fst.
  repeat (eapply lz_token_eq; [cbn; repeat split; first [lia | by auto | by vm_compute]|vm_compute; reflexivity|vm_compute; reflexivity|]).
  apply (lz_end {| lz_out := example_output; lz_r0 := 3; lz_lwm := 0 |}).
Defined.
