(* ===== verification/Quarantine.v ===== *)
(** The quarantine decoders of lib/cuckoo/common/quarantine.py: one Definition
    per antivirus format, and the dispatcher [unquarantine]. *)
From S2P Require Import Prelude Struct.
Open Scope Z_scope.

(** ** The stored result (lib/cuckoo/common/utils.py)

    Names are ASCII. *)

Definition is_sep (c : ascii) : bool := bool_decide (c = SLASH \/ c = BACKSLASH).
Definition norm_seps : bytes -> bytes := replace_byte SLASH BACKSLASH.

(** [ntpath.splitdrive]: a drive letter or a UNC share. *)
Definition splitdrive (p : bytes) : bytes * bytes :=
  match norm_seps p with
  | a :: b :: rest =>
      if bool_decide (a = BACKSLASH /\ b = BACKSLASH /\ head rest <> Some BACKSLASH) then
        match find_byte BACKSLASH rest with
        | None => ([], p)
        | Some i =>
            match find_byte BACKSLASH (drop (S i) rest) with
            | Some O => ([], p)
            | Some j => (take (3 + i + j) p, drop (3 + i + j) p)
            | None => (p, [])
            end
        end
      else if bool_decide (b = COLON) then (take 2 p, drop 2 p)
      else ([], p)
  | _ => ([], p)
  end.

(** [ntpath.split]. *)
Fixpoint drop_seps (l : bytes) : bytes :=
  match l with c :: l' => if is_sep c then drop_seps l' else l | [] => [] end.
Definition rstrip_seps (l : bytes) : bytes := reverse (drop_seps (reverse l)).
Definition nt_split (p : bytes) : bytes * bytes :=
  let '(d, p) := splitdrive p in
  let i := last_slash (replace_byte BACKSLASH SLASH p) in
  let head := take i p in
  let head := match rstrip_seps head with [] => head | h => h end in
  (d ++ head, drop i p).

Definition get_filename_from_path (path : bytes) : bytes :=
  let '(dirpath, filename) := nt_split path in
  match filename with [] => (nt_split dirpath).2 | _ => filename end.

(** What [store_temp_file] writes below a directory of its own: the bytes and
    the name. *)
Record stored := { filedata : list Z; filename : bytes }.
Definition temp_name (name : bytes) : bytes := take 100 (get_filename_from_path name).

(** A name that a file can be opened under: not the directory itself or the one above,
    and without a NUL. *)
Definition valid_name (name : bytes) : bool :=
  bool_decide (name <> [] /\ name <> B "." /\ name <> B ".." /\ NUL ∉ name).

(** ** Code that is not part of the repository

    The digest of [hashlib] and the [olefile] package: whether it is
    installed, whether it takes a file for an OLE file, and the directory and
    the streams of such a file; and what [mkdtemp], [open] and [write] raise when a
    file is stored below the temporary directory under a valid name. *)
Record ole := { listdir : list (list bytes); openstream : bytes -> res (list Z) }.
Class outside := {
  md5 : list Z -> list Z;
  HAVE_OLEFILE : bool;
  isOleFile : list Z -> bool;
  OleFileIO : list Z -> res ole;
  store_raises : bytes -> list Z -> option exn }.

(** ** Byte-wise decoding *)

Definition bytearray_xor (data : list Z) (key : Z) : list Z := (fun b => Z.lxor b key) <$> data.

(** ** Python sequences: a [range] cannot be assigned to *)
Inductive pyseq := PyList (l : list Z) | PyRange (n : nat).

Definition getitem (s : pyseq) (i : Z) : res Z :=
  match s with
  | PyList l => of_option IndexError (l !! Z.to_nat i)
  | PyRange n => if decide (Z.to_nat i < n)%nat then Ok i else Raise IndexError
  end.
Definition setitem (s : pyseq) (i v : Z) : res pyseq :=
  match s with
  | PyList l => if decide (Z.to_nat i < length l)%nat then Ok (PyList (<[Z.to_nat i := v]> l)) else Raise IndexError
  | PyRange _ => Raise TypeError
  end.

(** [tmp = sbox[i]; sbox[i] = sbox[j]; sbox[j] = tmp]. *)
Definition swap (s : pyseq) (i j : Z) : res pyseq :=
  let! tmp := getitem s i in
  let! b := getitem s j in
  let! s1 := setitem s i b in
  setitem s1 j tmp.

(** The rounds of a key schedule; [key_at i] is the byte of the key it uses. *)
Fixpoint ksa_loop (key_at : Z -> res Z) (n : nat) (i j : Z) (sbox : pyseq) : res pyseq :=
  match n with
  | O => Ok sbox
  | S n' =>
      let! b := getitem sbox i in
      let! k := key_at i in
      let j := (j + b + k) mod 256 in
      let! sbox := swap sbox i j in
      ksa_loop key_at n' (i + 1) j sbox
  end.

(** The numbers [range(256)] as a list. *)
Definition identity_box : list Z := Z.of_nat <$> seq 0 256.

Definition mse_key : list Z :=
  [30; 135; 120; 27; 141; 186; 168; 68; 206; 105; 112; 44; 12; 120; 183; 134; 163; 246; 35; 183;
   56; 245; 237; 249; 175; 131; 83; 15; 179; 252; 84; 250; 162; 30; 185; 207; 19; 49; 253; 15;
   13; 169; 84; 246; 135; 203; 158; 24; 39; 150; 151; 144; 14; 83; 251; 49; 124; 156; 188; 228;
   142; 35; 208; 83; 113; 236; 193; 89; 81; 184; 243; 100; 157; 124; 163; 62; 214; 141; 201; 4;
   126; 130; 201; 186; 173; 151; 153; 208; 212; 88; 203; 132; 124; 169; 255; 190; 60; 138; 119; 82;
   51; 85; 125; 222; 19; 168; 177; 64; 135; 204; 27; 200; 241; 15; 110; 205; 208; 131; 169; 89;
   207; 248; 74; 157; 29; 80; 117; 94; 62; 25; 24; 24; 175; 35; 226; 41; 53; 88; 118; 109;
   44; 7; 226; 87; 18; 178; 202; 11; 83; 94; 216; 246; 197; 108; 231; 61; 36; 189; 208; 41;
   23; 113; 134; 26; 84; 180; 194; 133; 169; 163; 219; 122; 202; 109; 34; 74; 234; 205; 98; 29;
   185; 242; 162; 46; 209; 233; 225; 29; 117; 190; 215; 220; 14; 203; 10; 142; 104; 162; 255; 18;
   99; 64; 141; 200; 8; 223; 253; 22; 75; 17; 103; 116; 205; 11; 155; 141; 5; 65; 30; 214;
   38; 46; 66; 155; 164; 149; 103; 107; 131; 152; 219; 47; 53; 211; 193; 185; 206; 213; 38; 54;
   242; 118; 94; 26; 149; 203; 124; 164; 195; 221; 171; 221; 191; 243; 130; 83].

(** [sbox = range(256)] is no list. *)
Definition mse_ksa : res pyseq :=
  ksa_loop (fun i => of_option IndexError (mse_key !! Z.to_nat i)) 256 0 0 (PyRange 256).

Section outside_ops.
Context `{outside}.

Definition store_temp_file (data : list Z) (name : bytes) : res stored :=
  let filename := temp_name name in
  match store_raises filename data with
  | Some e => Raise e
  | None =>
      if valid_name filename then Ok {| filedata := data; filename := filename |}
      else Raise (if bool_decide (NUL ∈ filename) then ValueError else OSError)
  end.

(** [return store_temp_file(...)]. *)
Definition quarfile (r : res stored) : res (option stored) := let! q := r in Ok (Some q).

Definition mbam_secret : bytes := B "XBXM8362QIXD9+637HCB02/VN0JF6Z3)cB9UFZMdF3I.*c.,c5SbO7)WNZ8CY1(XMUDb".
Definition byte_val (c : ascii) : Z := Z.of_nat (nat_of_ascii c).

(** [key[i % len(key)]]: no digest is empty. *)
Definition mbam_key_at (key : list Z) (i : Z) : res Z :=
  of_option IndexError (key !! Z.to_nat (i mod zlen key)).
Definition mbam_ksa : res pyseq :=
  ksa_loop (mbam_key_at (md5 (byte_val <$> mbam_secret))) 256 0 0 (PyList identity_box).

(** The loop of [rc4_decrypt]. *)
Fixpoint rc4_loop (sbox : pyseq) (i j : Z) (data : list Z) : res (list Z) :=
  match data with
  | [] => Ok []
  | char :: data' =>
      let i := (i + 1) mod 256 in
      let! b := getitem sbox i in
      let j := (j + b) mod 256 in
      let! sbox := swap sbox i j in
      let! x := getitem sbox i in
      let! y := getitem sbox j in
      let! val := getitem sbox ((x + y) mod 256) in
      let! out := rc4_loop sbox i j data' in
      Ok (Z.lxor val char :: out)
  end.
Definition rc4_decrypt (sbox : pyseq) (data : list Z) : res (list Z) := rc4_loop sbox 0 0 data.

(** ** Malwarebytes and Microsoft Security Essentials *)

Definition mbam_unquarantine (data : list Z) : res (option stored) :=
  let! sbox := mbam_ksa in
  let! outdata := rc4_decrypt sbox data in
  quarfile (store_temp_file outdata (B "MBAMDequarantineFile")).

Definition mse_unquarantine (data : list Z) : res (option stored) :=
  let fsize := zlen data in
  if (fsize <? 12) || negb (bool_decide (take 3 data = [11; 173; 0])) then Ok None else
  let! sbox := mse_ksa in
  let! outdata := rc4_decrypt sbox data in
  let! n := unpack 4 (slice outdata 8 12) in
  let headerlen := 40 + n in
  let! origlen := unpack 4 (slice outdata (headerlen - 12) (headerlen - 8)) in
  if negb (origlen + headerlen =? fsize) then Ok None
  else quarfile (store_temp_file (slice_from outdata headerlen) (B "MSEDequarantineFile")).

(** ** Kaspersky *)

Definition kav_key : list Z := [226; 69; 72; 236; 105; 14; 92; 172].
Definition kav_key_at (i : nat) : Z := nth (i mod 8) kav_key 0.

(** [s.encode("utf-16").decode(errors="ignore").rstrip("\0")] of ASCII text:
    the byte-order mark is no UTF-8 and every letter is followed by a NUL. *)
Definition utf16_reread (s : bytes) : bytes := rstrip_nul (mjoin ((fun c => [c; NUL]) <$> s)).

(** The loop over the metadata. *)
Fixpoint kav_loop (fuel : nat) (metaend : Z) (data : list Z) (curoffset length : Z) (origname : bytes) :
    res (list Z * bytes) :=
  if length =? 0 then Ok (data, origname) else
  match fuel with
  | O => Raise OutOfFuel
  | S fuel' =>
      let! data := xor_loop kav_key_at 0 (Z.to_nat length) (Z.to_nat (curoffset + 4)) data in
      let! idlen := unpack 4 (slice data (curoffset + 4) (curoffset + 8)) in
      let idname := rstrip_nul (str_bytearray (slice data (curoffset + 8) (curoffset + 8 + idlen))) in
      let origname :=
        if bool_decide (idname = B "cNP_QB_FULLNAME") then
          utf16_reread (str_bytearray (slice data (curoffset + 8 + idlen) (curoffset + 4 + length)))
        else origname in
      let curoffset := curoffset + (4 + length) in
      if metaend <=? curoffset then Ok (data, origname) else
      let! length := unpack 4 (slice data curoffset (curoffset + 4)) in
      kav_loop fuel' metaend data curoffset length origname
  end.

Definition kav_unquarantine (data : list Z) : res (option stored) :=
  let! magic := unpack 4 (slice data 0 4) in
  if negb (magic =? 0x42514C4B) then Ok None else
  let fsize := zlen data in
  let! headerlen := unpack 4 (slice data 8 12) in
  let! metaoffset := unpack 4 (slice data 0x10 0x14) in
  let! metalen := unpack 4 (slice data 0x20 0x24) in
  let! origlen := unpack 4 (slice data 0x30 0x34) in
  if fsize <? headerlen + origlen + metalen then Ok None else
  if metaoffset <? headerlen + origlen then Ok None else
  let! length := unpack 4 (slice data metaoffset (metaoffset + 4)) in
  let! r := kav_loop (S (List.length data)) (metaoffset + metalen) data metaoffset length (B "KAVDequarantineFile") in
  let '(data, origname) := r in
  let! data := xor_loop kav_key_at 0 (Z.to_nat origlen) (Z.to_nat headerlen) data in
  quarfile (store_temp_file (slice data headerlen (headerlen + origlen)) origname).

(** ** Trend Micro *)

(** [binascii.crc32]: the reflected polynomial, bit by bit. *)
Fixpoint crc32_bits (n : nat) (c : Z) : Z :=
  match n with
  | O => c
  | S n' => crc32_bits n' (if Z.testbit c 0 then Z.lxor (Z.shiftr c 1) 0xEDB88320 else Z.shiftr c 1)
  end.
Definition crc32_update (c b : Z) : Z := crc32_bits 8 (Z.lxor c b).
Definition crc32 (l : list Z) : Z := Z.lxor (fold_left crc32_update l 0xFFFFFFFF) 0xFFFFFFFF.

Definition read_trend_tag (data : list Z) (offset : Z) : res (Z * list Z) :=
  let head := slice data offset (offset + 3) in
  if decide (List.length head = 3%nat) then
    let code := le_val (slice head 0 1) in
    let length := le_val (slice head 1 3) in
    Ok (code, slice data (offset + 3) (offset + 3 + length))
  else Raise StructError.

Record trend_info := {
  ti_platform : bytes; ti_attributes : Z; ti_unknownval : Z; ti_basekey : Z; ti_encmethod : Z }.

(** What one tag sets. The names of tags 1 and 2 are decoded with an argument
    [error] that [bytes.decode] does not have. *)
Definition trend_tag (code : Z) (tagdata : list Z) (t : trend_info) : res trend_info :=
  if (code =? 1) || (code =? 2) then Raise TypeError
  else if code =? 3 then
    Ok {| ti_platform := str_bytes tagdata; ti_attributes := ti_attributes t; ti_unknownval := ti_unknownval t;
          ti_basekey := ti_basekey t; ti_encmethod := ti_encmethod t |}
  else if code =? 4 then
    let! v := unpack 4 tagdata in
    Ok {| ti_platform := ti_platform t; ti_attributes := v; ti_unknownval := ti_unknownval t;
          ti_basekey := ti_basekey t; ti_encmethod := ti_encmethod t |}
  else if code =? 5 then
    let! v := unpack 4 tagdata in
    Ok {| ti_platform := ti_platform t; ti_attributes := ti_attributes t; ti_unknownval := v;
          ti_basekey := ti_basekey t; ti_encmethod := ti_encmethod t |}
  else if code =? 6 then
    let! v := unpack 4 tagdata in
    Ok {| ti_platform := ti_platform t; ti_attributes := ti_attributes t; ti_unknownval := ti_unknownval t;
          ti_basekey := v; ti_encmethod := ti_encmethod t |}
  else if code =? 7 then
    let! v := unpack 4 tagdata in
    Ok {| ti_platform := ti_platform t; ti_attributes := ti_attributes t; ti_unknownval := ti_unknownval t;
          ti_basekey := ti_basekey t; ti_encmethod := v |}
  else Ok t.

Fixpoint trend_tags (n : nat) (data : list Z) (offset : Z) (t : trend_info) : res trend_info :=
  match n with
  | O => Ok t
  | S n' =>
      let! r := read_trend_tag data offset in
      let '(code, tagdata) := r in
      let! t := trend_tag code tagdata t in
      trend_tags n' data (offset + (3 + zlen tagdata)) t
  end.

Definition trend_init : trend_info :=
  {| ti_platform := B "Unknown"; ti_attributes := 0; ti_unknownval := 0; ti_basekey := 0; ti_encmethod := 0 |}.

(** The four key bytes of the word at [off]. *)
Definition trend_crcbuf (keyval : Z) : res (list Z) :=
  let! buf := pack 4 keyval in
  pack 4 (Z.land (crc32 buf) 0xFFFFFFFF).

(** [for i in range(unaligned, 4)]. *)
Fixpoint trend_word (crcbuf : list Z) (idx : list nat) (data : list Z) (curoffset bytesleft : Z) :
    res (list Z * Z * Z) :=
  match idx with
  | [] => Ok (data, curoffset, bytesleft)
  | i :: idx' =>
      if bytesleft =? 0 then Ok (data, curoffset, bytesleft) else
      let! k := of_option IndexError (crcbuf !! i) in
      let! data := xor_at data (Z.to_nat curoffset) k in
      trend_word crcbuf idx' data (curoffset + 1) (bytesleft - 1)
  end.

Fixpoint trend_loop (fuel : nat) (basekey : Z) (unaligned : nat) (firstiter : bool)
    (data : list Z) (curoffset bytesleft : Z) : res (list Z) :=
  if bytesleft =? 0 then Ok data else
  match fuel with
  | O => Raise OutOfFuel
  | S fuel' =>
      let off := if firstiter then curoffset - Z.of_nat unaligned else curoffset in
      let! crcbuf := trend_crcbuf (basekey + off) in
      let! r := trend_word crcbuf (seq unaligned (4 - unaligned)) data curoffset bytesleft in
      let '(data, curoffset, bytesleft) := r in
      trend_loop fuel' basekey 0 false data curoffset bytesleft
  end.

Definition trend_unquarantine (qdata : list Z) : res (option stored) :=
  let data := bytearray_xor qdata 0xFF in
  let head := slice data 0 10 in
  if decide (List.length head <> 10%nat) then Raise StructError else
  let magic := le_val (slice head 0 4) in
  let dataoffset := le_val (slice head 4 8) in
  let numtags := le_val (slice head 8 10) in
  if negb (magic =? 0x58425356) then Ok None else
  if 15 <? numtags then Ok None else
  let dataoffset := dataoffset + 10 in
  let! t := trend_tags (Z.to_nat numtags) data 10 trend_init in
  let origname := B "UnknownTrendFile.bin" in
  if negb (ti_encmethod t =? 2) then quarfile (store_temp_file (slice_from data dataoffset) origname) else
  let! data := trend_loop (S (List.length data)) (ti_basekey t) (Z.to_nat (dataoffset mod 4)) true
                 data dataoffset (zlen data - dataoffset) in
  quarfile (store_temp_file (slice_from data dataoffset) origname).

(** ** Symantec *)

Definition read_sep_tag (data : list Z) (offset : Z) : res (Z * Z * Z * list Z) :=
  let! code := unpack 1 (slice data offset (offset + 1)) in
  if (code =? 1) || (code =? 10) then
    let! codeval := unpack 1 (slice data (offset + 1) (offset + 2)) in
    Ok (code, 2, codeval, [])
  else if (code =? 3) || (code =? 6) then
    let! codeval := unpack 4 (slice data (offset + 1) (offset + 5)) in
    Ok (code, 5, codeval, [])
  else if code =? 4 then
    let! codeval := unpack 8 (slice data (offset + 1) (offset + 9)) in
    Ok (code, 9, codeval, [])
  else
    let! codeval := unpack 4 (slice data (offset + 1) (offset + 5)) in
    Ok (code, 5, codeval, slice data (offset + 5) (offset + 5 + codeval)).

(** The variables of the loop of [sep_unquarantine]. *)
Record sep_state := {
  ss_data : list Z; ss_offset : Z; decode_next_container : bool; xor_next_container : bool;
  has_header : bool; binsize : Z; collectedsize : Z; bindata : list Z; lastlen : Z }.

(** The branch of a container that holds a piece of the original file. *)
Definition sep_piece (tagdata : list Z) (s : sep_state) : res sep_state :=
  let offset := ss_offset s in
  let! data := xor_loop (fun _ => 0xFF) 0 (length tagdata) (Z.to_nat (offset + 5)) (ss_data s) in
  if has_header s then
    let! n := unpack_from 4 (slice data (offset + 5 + 8) (offset + 5 + 12)) in
    let headerlen := 12 + n + 28 in
    let! size := unpack_from 4 (slice data (offset + 5 + headerlen - 12) (offset + 5 + headerlen - 8)) in
    let collected := collectedsize s + (zlen tagdata - headerlen) in
    let binlen := if size <? collected then size else collected in
    Ok {| ss_data := data; ss_offset := offset; decode_next_container := decode_next_container s;
          xor_next_container := xor_next_container s; has_header := false; binsize := size;
          collectedsize := collected;
          bindata := bindata s ++ slice data (offset + 5 + headerlen) (offset + 5 + headerlen + binlen);
          lastlen := lastlen s |}
  else
    let binlen := zlen tagdata in
    let collected := collectedsize s + binlen in
    let binlen := if binsize s <? collected then binlen - (collected - binsize s) else binlen in
    Ok {| ss_data := data; ss_offset := offset; decode_next_container := decode_next_container s;
          xor_next_container := xor_next_container s; has_header := false; binsize := binsize s;
          collectedsize := collected;
          bindata := bindata s ++ slice data (offset + 5) (offset + 5 + binlen);
          lastlen := lastlen s |}.

(** The branch of any other container, with the length of what is skipped. *)
Definition sep_container (codeval : Z) (tagdata : list Z) (s : sep_state) : res (Z * sep_state) :=
  let flags d x l :=
    {| ss_data := ss_data s; ss_offset := ss_offset s; decode_next_container := d; xor_next_container := x;
       has_header := has_header s; binsize := binsize s; collectedsize := collectedsize s;
       bindata := bindata s; lastlen := l |} in
  if decode_next_container s then Ok (0, flags false (xor_next_container s) (lastlen s))
  else if codeval =? 0x8 then
    let! l := unpack_from 8 (slice (ss_data s) (ss_offset s + 5) (ss_offset s + 5 + 8)) in
    Ok (zlen tagdata, flags true true l)
  else if codeval =? 0x10 then Ok (zlen tagdata, flags true false (lastlen s))
  else Ok (zlen tagdata, s).

Definition sep_advance (n : Z) (s : sep_state) : sep_state :=
  {| ss_data := ss_data s; ss_offset := ss_offset s + n; decode_next_container := decode_next_container s;
     xor_next_container := xor_next_container s; has_header := has_header s; binsize := binsize s;
     collectedsize := collectedsize s; bindata := bindata s; lastlen := lastlen s |}.

(** One iteration. *)
Definition sep_step (s : sep_state) : res sep_state :=
  let! tag := read_sep_tag (ss_data s) (ss_offset s) in
  let '(code, length, codeval, tagdata) := tag in
  if code =? 9 then
    if xor_next_container s then
      let! s := sep_piece tagdata s in
      Ok (sep_advance (length + zlen tagdata) s)
    else
      let! r := sep_container codeval tagdata s in
      let '(extralen, s) := r in
      Ok (sep_advance (length + extralen) s)
  else if (code =? 4) && xor_next_container s && (lastlen s =? codeval) then
    Ok (sep_advance (length + zlen tagdata)
          {| ss_data := ss_data s; ss_offset := ss_offset s; decode_next_container := decode_next_container s;
             xor_next_container := xor_next_container s; has_header := false; binsize := codeval;
             collectedsize := collectedsize s; bindata := bindata s; lastlen := lastlen s |})
  else Ok (sep_advance (length + zlen tagdata) s).

(** [while iters < 20000], left when the offset is the size of the file. *)
Fixpoint sep_loop (iters : nat) (filesize : Z) (s : sep_state) : res sep_state :=
  match iters with
  | O => Ok s
  | S iters' =>
      let! s := sep_step s in
      if ss_offset s =? filesize then Ok s else sep_loop iters' filesize s
  end.

Definition sep_init (data : list Z) (offset : Z) : sep_state :=
  {| ss_data := data; ss_offset := offset; decode_next_container := false; xor_next_container := false;
     has_header := true; binsize := 0; collectedsize := 0; bindata := []; lastlen := 0 |}.

Definition sep_limit : nat := Z.to_nat 20000.

Definition sep_unquarantine (qdata : list Z) : res (option stored) :=
  let! dataoffset := unpack 4 (slice qdata 0 4) in
  if negb (dataoffset =? 0x1290) then Ok None else
  let origname := (os_path_split (rstrip_nul (str_bytes (slice qdata 4 388)))).2 in
  let data := bytearray_xor qdata 0x5A in
  let! s := sep_loop sep_limit (zlen qdata) (sep_init data (dataoffset + 0x28)) in
  quarfile (store_temp_file (bindata s) origname).

(** ** McAfee *)

(** [bytearray.splitlines]. *)
Fixpoint splitlines_aux (cur l : list Z) : list (list Z) :=
  match l with
  | [] => match cur with [] => [] | _ => [reverse cur] end
  | c :: l' =>
      if c =? 13 then
        reverse cur :: match l' with
                       | d :: l'' => if d =? 10 then splitlines_aux [] l'' else splitlines_aux [] l'
                       | [] => []
                       end
      else if c =? 10 then reverse cur :: splitlines_aux [] l'
      else splitlines_aux (c :: cur) l'
  end.
Definition splitlines (l : list Z) : list (list Z) := splitlines_aux [] l.

(** The streams that can be read, decoded, in the order of the names. *)
Definition decode_quarfiles (io : ole) (quarfiles : list bytes) : list (bytes * list Z) :=
  omap (fun item => match openstream io item with
                    | Ok s => Some (item, bytearray_xor s 0x6A)
                    | Raise _ => None
                    end) quarfiles.

(** The search for the original name: [check.startswith("[")] compares bytes
    with text and raises on the first line. *)
Definition original_name (config : list (list Z)) : res bytes :=
  match config with
  | [] => Ok (B "McAfeeDequarantineFile")
  | _ :: _ => Raise TypeError
  end.

Fixpoint mcafee_items (io : ole) (details : option (list Z)) (quarfiles : list bytes)
    (items : list (list bytes)) : res (option stored) :=
  match items with
  | [] => Ok None
  | item :: items' =>
      if bool_decide (B "Details" ∈ item) then
        let! d := openstream io (B "Details") in
        mcafee_items io (Some (bytearray_xor d 0x6A)) quarfiles items'
      else
        let quarfiles := quarfiles ++ filter (fun o => contains_sub (B "File_") o = true) item in
        match decode_quarfiles io quarfiles with
        | [] => mcafee_items io details quarfiles items'
        | (_, body) :: _ =>
            let! d := of_option NameError details in
            let! malname := original_name (splitlines d) in
            quarfile (store_temp_file body malname)
        end
  end.

Definition mcafee_unquarantine (data : list Z) : res (option stored) :=
  if negb HAVE_OLEFILE then Ok None else
  if negb (isOleFile data) then Ok None else
  let! io := OleFileIO data in
  mcafee_items io None [] (listdir io).

(** ** SentinelOne and Forefront *)

Definition basename (p : bytes) : bytes := (os_path_split p).2.

Definition xorff_unquarantine (f : bytes) (data : list Z) : res (option stored) :=
  quarfile (store_temp_file (bytearray_xor data 0xFF) (basename f)).

(** ** The dispatcher *)

(** The extension of [os.path.splitext]: from the last dot, unless only dots
    stand before it. *)
Definition extension (p : bytes) : bytes :=
  match find_byte "."%char (reverse p) with
  | None => []
  | Some n =>
      let i := (length p - S n)%nat in
      if forallb (fun c => bool_decide (c = "."%char)) (take i p) then [] else drop i p
  end.

Definition func_map (ext : bytes) : option (bytes -> list Z -> res (option stored)) :=
  if bool_decide (ext = B ".quar") then Some (fun _ => mbam_unquarantine)
  else if bool_decide (ext = B ".mal") then Some xorff_unquarantine
  else if bool_decide (ext = B ".but") then Some (fun _ => mcafee_unquarantine)
  else None.

(** The decoders tried in turn until one gives a file. *)
Fixpoint first_file (l : list (res (option stored))) : option stored :=
  match l with
  | [] => None
  | Ok (Some x) :: _ => Some x
  | _ :: l' => first_file l'
  end.

Definition unquarantine (f : bytes) (data : list Z) : option stored :=
  let ext := lower_ascii <$> extension (basename f) in
  let all := first_file [kav_unquarantine data; trend_unquarantine data; sep_unquarantine data;
                         mse_unquarantine data; xorff_unquarantine f data] in
  let by_name :=
    match func_map ext with
    | Some g => match g f data with Ok r => r | Raise _ => all end
    | None => all
    end in
  if bool_decide (ext = B ".bup") || (HAVE_OLEFILE && isOleFile data) then
    match mcafee_unquarantine data with Ok r => r | Raise _ => by_name end
  else by_name.
End outside_ops.

(** ** RC4 *)

(** The generator of RC4 as it is usually given: it depends on the box alone. *)
Fixpoint prga (box : list Z) (i j : Z) (n : nat) : list Z :=
  match n with
  | O => []
  | S n' =>
      let i := (i + 1) mod 256 in
      let a := box !!! Z.to_nat i in
      let j := (j + a) mod 256 in
      let b := box !!! Z.to_nat j in
      let box := <[Z.to_nat j := a]> (<[Z.to_nat i := b]> box) in
      box !!! Z.to_nat ((a + b) mod 256) :: prga box i j n'
  end.

(** A box that the loops can use: 256 entries, all of them bytes. *)
Definition sbox_ok (l : list Z) : Prop := length l = 256%nat /\ Forall is_byte l.

Lemma sbox_lookup l i : sbox_ok l -> is_byte i -> l !! Z.to_nat i = Some (l !!! Z.to_nat i) /\ is_byte (l !!! Z.to_nat i).
Proof.
  intros [Hl Hb] Hi. unfold is_byte in Hi.
  destruct (lookup_lt_is_Some_2 l (Z.to_nat i)) as [x Hx]; [lia|].
  rewrite (list_lookup_total_correct _ _ _ Hx). split; [done|]. by eapply Forall_lookup_1 in Hx.
Qed.

Lemma sbox_insert l i v : sbox_ok l -> is_byte v -> sbox_ok (<[i := v]> l).
Proof. intros [Hl Hb] Hv. split; [by rewrite length_insert|by apply Forall_insert]. Qed.

Lemma getitem_box l i : sbox_ok l -> is_byte i -> getitem (PyList l) i = Ok (l !!! Z.to_nat i).
Proof. intros Hl Hi. simpl. by rewrite (proj1 (sbox_lookup _ _ Hl Hi)). Qed.

Lemma setitem_box l i v : sbox_ok l -> is_byte i -> setitem (PyList l) i v = Ok (PyList (<[Z.to_nat i := v]> l)).
Proof. intros [Hl _] Hi. simpl. rewrite decide_True; [done|]. unfold is_byte in Hi. lia. Qed.

Lemma swap_box l i j :
  sbox_ok l -> is_byte i -> is_byte j ->
  let l' := <[Z.to_nat j := l !!! Z.to_nat i]> (<[Z.to_nat i := l !!! Z.to_nat j]> l) in
  swap (PyList l) i j = Ok (PyList l') /\ sbox_ok l' /\
  l' !!! Z.to_nat i = l !!! Z.to_nat j /\ l' !!! Z.to_nat j = l !!! Z.to_nat i.
Proof.
  intros Hl Hi Hj l'. pose proof (sbox_lookup _ _ Hl Hi) as [_ Ha]. pose proof (sbox_lookup _ _ Hl Hj) as [_ Hb].
  assert (Hl1 : sbox_ok (<[Z.to_nat i := l !!! Z.to_nat j]> l)) by by apply sbox_insert.
  unfold swap. rewrite !getitem_box by done. cbn [rbind]. rewrite setitem_box by done. cbn [rbind].
  rewrite setitem_box by done. destruct Hl as [Hlen _]. unfold is_byte in Hi, Hj.
  split_and!; [done|by apply sbox_insert| |].
  - unfold l'. destruct (decide (Z.to_nat i = Z.to_nat j)) as [E|E].
    + rewrite E. rewrite list_lookup_total_insert_eq; [done|rewrite length_insert; lia].
    + rewrite list_lookup_total_insert_ne by done. rewrite list_lookup_total_insert_eq; [done|lia].
  - unfold l'. rewrite list_lookup_total_insert_eq; [done|rewrite length_insert; lia].
Qed.

Lemma rc4_loop_prga data : forall box i j,
  sbox_ok box -> rc4_loop (PyList box) i j data = Ok (zip_with Z.lxor (prga box i j (length data)) data).
Proof.
  induction data as [|c data IH]; intros box i j Hbox; [done|].
  cbn [rc4_loop length prga]. cbv zeta. set (i' := (i + 1) mod 256).
  assert (Hi : is_byte i') by apply mod_byte.
  rewrite getitem_box by done. cbn [rbind]. set (j' := (j + box !!! Z.to_nat i') mod 256).
  assert (Hj : is_byte j') by apply mod_byte.
  destruct (swap_box box i' j' Hbox Hi Hj) as (-> & Hbox' & Ea & Eb). cbn [rbind].
  rewrite (getitem_box _ i'), (getitem_box _ j') by done. cbn [rbind]. rewrite Ea, Eb.
  rewrite (Z.add_comm (box !!! Z.to_nat j')). rewrite getitem_box by (done || apply mod_byte). cbn [rbind].
  rewrite IH by done. done.
Qed.

Lemma prga_byte n : forall box i j, sbox_ok box -> Forall is_byte (prga box i j n).
Proof.
  induction n as [|n IH]; intros box i j Hbox; [constructor|]. cbn [prga]. cbv zeta.
  destruct (swap_box box ((i + 1) mod 256) ((j + box !!! Z.to_nat ((i + 1) mod 256)) mod 256) Hbox) as (_ & Hb & _);
    [apply mod_byte..|]. constructor; [|by apply IH]. apply sbox_lookup; [done|apply mod_byte].
Qed.

Lemma prga_length n : forall box i j, length (prga box i j n) = n.
Proof. induction n as [|n IH]; intros; simpl; [done|]. by rewrite IH. Qed.

Lemma zip_lxor_twice ks l : length ks = length l -> zip_with Z.lxor ks (zip_with Z.lxor ks l) = l.
Proof.
  revert l. induction ks as [|k ks IH]; intros [|b l] Hl; simplify_eq/=; [done|].
  rewrite IH by done. f_equal. by rewrite <- Z.lxor_assoc, Z.lxor_nilpotent, Z.lxor_0_l.
Qed.

Lemma ksa_box key_at n : forall i j box,
  (forall x, 0 <= x < 256 -> exists k, key_at x = Ok k) -> 0 <= i -> i + Z.of_nat n <= 256 -> sbox_ok box ->
  exists box', ksa_loop key_at n i j (PyList box) = Ok (PyList box') /\ sbox_ok box'.
Proof.
  induction n as [|n IH]; intros i j box Hk Hi Hn Hbox; [by exists box|]. cbn [ksa_loop].
  assert (Hib : is_byte i) by (unfold is_byte; lia).
  rewrite getitem_box by done. cbn [rbind]. destruct (Hk i) as [k ->]; [lia|]. cbn [rbind].
  destruct (swap_box box i ((j + box !!! Z.to_nat i + k) mod 256) Hbox Hib) as (-> & Hb & _); [apply mod_byte|].
  cbn [rbind]. apply IH; auto; lia.
Qed.

Lemma identity_box_ok : sbox_ok identity_box.
Proof.
  split; [done|]. unfold identity_box. rewrite Forall_fmap. apply Forall_forall. intros x Hx.
  apply elem_of_seq in Hx. unfold is_byte. simpl. lia.
Qed.

Section outside_thms.
Context `{Hout : outside}.

(** What the digest promises. *)
Class digest_fine : Prop := md5_fine m : length (md5 m) = 16%nat.

(** The temporary directory can be written. *)
Class disk_fine : Prop := disk_writes name data : store_raises name data = None.

Lemma store_fine (Hdisk : disk_fine) data name :
  valid_name (temp_name name) = true -> quarfile (store_temp_file data name) = Ok (Some {| filedata := data; filename := temp_name name |}).
Proof. intros Hn. unfold store_temp_file. by rewrite disk_writes, Hn. Qed.

Lemma mbam_ksa_box : digest_fine -> exists box, mbam_ksa = Ok (PyList box) /\ sbox_ok box.
Proof.
  intros Hmd. apply ksa_box; [|lia|done|apply identity_box_ok]. intros x _. unfold mbam_key_at.
  set (key := md5 (byte_val <$> mbam_secret)). assert (Hlen : zlen key = 16) by (unfold zlen, key; by rewrite md5_fine).
  pose proof (Z.mod_pos_bound x (zlen key)).
  destruct (lookup_lt_is_Some_2 key (Z.to_nat (x mod zlen key))) as [k Hk]; [unfold zlen in *; lia|].
  exists k. by rewrite Hk.
Qed.

Lemma mbam_stream : digest_fine -> exists box, sbox_ok box /\ forall data,
  mbam_unquarantine data =
    quarfile (store_temp_file (zip_with Z.lxor (prga box 0 0 (length data)) data) (B "MBAMDequarantineFile")).
Proof.
  intros Hmd. destruct (mbam_ksa_box Hmd) as (box & Hk & Hb). exists box. split; [done|]. intros data.
  unfold mbam_unquarantine. rewrite Hk. cbn [rbind]. unfold rc4_decrypt. by rewrite rc4_loop_prga.
Qed.

(** For any box of 256 bytes, [rc4_decrypt] is the exclusive or of the data
    with the output of the RC4 generator, which does not depend on the data; it
    never raises. *)
Theorem rc4_decrypt_prga box data :
  sbox_ok box -> rc4_decrypt (PyList box) data = Ok (zip_with Z.lxor (prga box 0 0 (length data)) data).
Proof. intros Hb. by apply rc4_loop_prga. Qed.

(** Whatever bytes a file has, the Malwarebytes decoder gives a file of the
    same length, and decoding that file gives the original back: the decoder is
    its own encoder. *)
Theorem mbam_roundtrip (Hmd : digest_fine) (Hdisk : disk_fine) data :
  exists q, mbam_unquarantine data = Ok (Some q) /\ length (filedata q) = length data /\
    mbam_unquarantine (filedata q) = Ok (Some {| filedata := data; filename := B "MBAMDequarantineFile" |}).
Proof.
  destruct (mbam_stream Hmd) as (box & Hb & Hs). eexists.
  split; [rewrite Hs; by apply (store_fine Hdisk)|].
  assert (Hl : length (zip_with Z.lxor (prga box 0 0 (length data)) data) = length data).
  { rewrite length_zip_with, prga_length. lia. }
  split; [exact Hl|]. rewrite Hs. cbn [filedata]. rewrite Hl.
  rewrite zip_lxor_twice by apply prga_length. by apply (store_fine Hdisk).
Qed.

(** [range(256)] does not support the exchange: the schedule of Microsoft
    Security Essentials raises in its first round. *)
Lemma mse_ksa_raises : mse_ksa = Raise TypeError.
Proof. done. Qed.

(** The Microsoft Security Essentials decoder never gives a file: it
    declines what lacks the header and raises [TypeError] on what has it. *)
Theorem mse_never data :
  mse_unquarantine data = Ok None \/
  (mse_unquarantine data = Raise TypeError /\ take 3 data = [11; 173; 0] /\ 12 <= zlen data).
Proof.
  unfold mse_unquarantine. destruct ((zlen data <? 12) || _) eqn:E; [by left|]. right.
  apply orb_false_elim in E as [E1 E2%negb_false_iff%bool_decide_eq_true]. apply Z.ltb_ge in E1.
  by rewrite mse_ksa_raises.
Qed.
End outside_thms.

(** ** The Kaspersky format *)

Section formats.
Context `{Hout : outside}.

(** A file of the format: the header with its four fields, the content and
    the metadata entries, each with its length, both encrypted. *)
Record kav_file := {
  kf_a : list Z; kf_b : list Z; kf_c : list Z; kf_d : list Z; kf_e : list Z;
  kf_body : list Z; kf_gap : list Z; kf_metas : list (list Z); kf_tail : list Z }.

Definition kav_entry (m : list Z) : list Z := le_bytes 4 (zlen m) ++ xor_block kav_key_at m.
Definition kav_entries (ms : list (list Z)) : list Z := concat (map kav_entry ms).
Definition kav_headerlen (f : kav_file) : Z := 52 + zlen (kf_e f).
Definition kav_metaoffset (f : kav_file) : Z := kav_headerlen f + zlen (kf_body f) + zlen (kf_gap f).
Definition kav_head (f : kav_file) : list Z :=
  le_bytes 4 0x42514C4B ++ kf_a f ++ le_bytes 4 (kav_headerlen f) ++ kf_b f ++
  le_bytes 4 (kav_metaoffset f) ++ kf_c f ++ le_bytes 4 (zlen (kav_entries (kf_metas f))) ++
  kf_d f ++ le_bytes 4 (zlen (kf_body f)) ++ kf_e f.
Definition kav_encode (f : kav_file) : list Z :=
  kav_head f ++ xor_block kav_key_at (kf_body f) ++ kf_gap f ++ kav_entries (kf_metas f) ++ kf_tail f.
Definition kav_wf (f : kav_file) : Prop :=
  length (kf_a f) = 4%nat /\ length (kf_b f) = 4%nat /\ length (kf_c f) = 12%nat /\ length (kf_d f) = 12%nat /\
  kf_metas f <> [] /\ Forall (fun m => 4 <= zlen m) (kf_metas f) /\ zlen (kav_encode f) < 2 ^ 32.

(** The printed form of a [bytearray] is no name of a metadata field. *)
Lemma kav_name_unknown l : rstrip_nul (str_bytearray l) <> B "cNP_QB_FULLNAME".
Proof.
  unfold rstrip_nul, str_bytearray. rewrite (app_assoc (B "bytearray(")), reverse_app.
  change (drop_nuls (reverse (B ")") ++ ?x)) with (")"%char :: x).
  rewrite reverse_cons, reverse_involutive. done.
Qed.

(** The prefix of the file up to the end of a decoded entry. *)
Definition kav_clear (m : list Z) : list Z := le_bytes 4 (zlen m) ++ m.

(** One round: the entry is decoded and its name is not recognised. *)
Lemma kav_loop_step fuel metaend p m r name :
  4 <= zlen m < 2 ^ 32 ->
  kav_loop (S fuel) metaend (p ++ kav_entry m ++ r) (zlen p) (zlen m) name =
  let p' := p ++ kav_clear m in
  if metaend <=? zlen p' then Ok (p' ++ r, name) else
  let! length := unpack 4 (slice (p' ++ r) (zlen p') (zlen p' + 4)) in
  kav_loop fuel metaend (p' ++ r) (zlen p') length name.
Proof.
  intros Hm. cbn [kav_loop]. rewrite (proj2 (Z.eqb_neq _ _)) by lia. unfold kav_entry, kav_clear.
  rewrite <- app_assoc, (app_assoc p), (xor_loop_spec kav_key_at (p ++ le_bytes 4 (zlen m)));
    [|rewrite xor_block_length; unfold zlen; lia|rewrite length_app, le_bytes_length; unfold zlen; lia].
  rewrite xor_block_twice. cbn [rbind]. cbv zeta.
  assert (E : zlen p + (4 + zlen m) = zlen (p ++ le_bytes 4 (zlen m) ++ m)).
  { rewrite !zlen_app, zlen_le_bytes. lia. }
  rewrite <- (app_assoc p), <- (app_assoc p), <- app_assoc, E.
  rewrite unpack_some.
  - cbn [rbind]. rewrite bool_decide_false by apply kav_name_unknown. done.
  - rewrite (slice_at _ (p ++ le_bytes 4 (zlen m)) (take 4 m) (drop 4 m ++ r)).
    + rewrite length_take. unfold zlen in Hm. lia.
    + rewrite (app_assoc (take 4 m)), take_drop. by rewrite <- app_assoc.
    + rewrite zlen_app, zlen_le_bytes. lia.
    + unfold zlen in *. rewrite length_app, le_bytes_length, length_take. lia.
Qed.

Lemma kav_loop_entries ms : forall fuel metaend p m q name,
  Forall (fun m => 4 <= zlen m < 2 ^ 32) (m :: ms) -> (length ms < fuel)%nat ->
  metaend = zlen p + zlen (kav_entries (m :: ms)) ->
  exists p', kav_loop fuel metaend (p ++ kav_entries (m :: ms) ++ q) (zlen p) (zlen m) name = Ok (p ++ p', name).
Proof.
  induction ms as [|m2 ms IH]; intros fuel metaend p m q name Hms Hfuel Hend;
    (destruct fuel as [|fuel]; [simpl in Hfuel; lia|]); apply Forall_cons in Hms as [Hm Hms];
    unfold kav_entries in *; cbn [concat map] in *;
    rewrite <- app_assoc, kav_loop_step by done; cbv zeta; rewrite zlen_app in Hend;
    assert (Hlen : zlen (kav_clear m) = zlen (kav_entry m))
      by (unfold kav_clear, kav_entry, zlen; rewrite !length_app, xor_block_length; done).
  - assert (metaend <=? zlen (p ++ kav_clear m) = true) as ->.
    { apply Z.leb_le. rewrite zlen_app, Hend, Hlen. change (zlen []) with 0. lia. }
    eexists. by rewrite <- app_assoc.
  - apply Forall_cons in Hms as Hms2. destruct Hms2 as [Hm2 _].
    assert (metaend <=? zlen (p ++ kav_clear m) = false) as ->.
    { apply Z.leb_gt. assert (4 <= zlen (kav_entry m2)).
        { unfold kav_entry. rewrite zlen_app, zlen_le_bytes. pose proof (zlen_nonneg (xor_block kav_key_at m2)). lia. }
        rewrite zlen_app, Hend, Hlen, zlen_app.
        unfold zlen in *. lia. }
    rewrite (unpack_field 4 _ (p ++ kav_clear m) (zlen m2) (xor_block kav_key_at m2 ++ concat (map kav_entry ms) ++ q));
      [|unfold kav_entry at 1; by rewrite <- !app_assoc|done|done|simpl; lia].
    cbn [rbind]. edestruct (IH fuel metaend (p ++ kav_clear m) m2 q name) as [p' Hp']; [done|simpl in Hfuel; lia| |].
    + rewrite Hend, !zlen_app, Hlen. apply Z.add_assoc.
    + exists (kav_clear m ++ p'). rewrite (app_assoc p (kav_clear m) p'). etrans; [|exact Hp']. f_equal; unfold kav_entry; simpl; by rewrite <- ?app_assoc.
Qed.

Lemma kav_entries_length ms : Forall (fun m => 4 <= zlen m) ms -> (length ms <= length (kav_entries ms))%nat.
Proof.
  unfold kav_entries. induction 1 as [|m ms Hm Hms IH]; [simpl; lia|].
  assert (4 <= length (kav_entry m))%nat by (unfold kav_entry; rewrite length_app, le_bytes_length; lia).
  cbn [concat map length]. rewrite length_app. apply (Nat.add_le_mono 1); [lia|exact IH].
Qed.

Lemma kav_entry_le ms x : x ∈ ms -> zlen x + 4 <= zlen (kav_entries ms).
Proof.
  unfold kav_entries, zlen. induction 1 as [x ms|x y ms Hx IH]; cbn [concat map];
    rewrite length_app; [|lia].
  unfold kav_entry. rewrite length_app, xor_block_length, le_bytes_length. lia.
Qed.

Lemma kav_head_length f : kav_wf f -> zlen (kav_head f) = kav_headerlen f.
Proof.
  intros (Ha & Hb & Hc & Hd & _). unfold kav_head, kav_headerlen.
  rewrite !zlen_app, !zlen_le_bytes. unfold zlen. rewrite Ha, Hb, Hc, Hd. lia.
Qed.

(** The fields the decoder reads, by what stands before them. *)
Lemma kav_field f p v q b :
  kav_head f = p ++ le_bytes 4 v ++ q -> b = zlen p + 4 -> 0 <= v < 2 ^ 32 ->
  unpack 4 (slice (kav_encode f) (zlen p) b) = Ok v.
Proof.
  intros Hp -> Hv. eapply unpack_field; [|done|done|done]. unfold kav_encode. by rewrite Hp, <- !app_assoc.
Qed.

Lemma kav_fields f :
  kav_wf f ->
  unpack 4 (slice (kav_encode f) 0 4) = Ok 0x42514C4B /\
  unpack 4 (slice (kav_encode f) 8 12) = Ok (kav_headerlen f) /\
  unpack 4 (slice (kav_encode f) 16 20) = Ok (kav_metaoffset f) /\
  unpack 4 (slice (kav_encode f) 32 36) = Ok (zlen (kav_entries (kf_metas f))) /\
  unpack 4 (slice (kav_encode f) 48 52) = Ok (zlen (kf_body f)).
Proof.
  intros Hwf. pose proof (kav_head_length f Hwf) as Hh. destruct Hwf as (Ha & Hb & Hc & Hd & _ & _ & Hsize).
  unfold kav_encode in Hsize. rewrite !zlen_app in Hsize. rewrite Hh in Hsize.
  assert (Hx : zlen (xor_block kav_key_at (kf_body f)) = zlen (kf_body f)) by (unfold zlen; by rewrite xor_block_length).
  rewrite Hx in Hsize. unfold kav_metaoffset, kav_headerlen in *.
  pose proof (zlen_nonneg (kf_e f)). pose proof (zlen_nonneg (kf_body f)). pose proof (zlen_nonneg (kf_gap f)).
  pose proof (zlen_nonneg (kav_entries (kf_metas f))). pose proof (zlen_nonneg (kf_tail f)).
  set (m := le_bytes 4 0x42514C4B). set (h := le_bytes 4 (52 + zlen (kf_e f))).
  set (o := le_bytes 4 (52 + zlen (kf_e f) + zlen (kf_body f) + zlen (kf_gap f))).
  set (l := le_bytes 4 (zlen (kav_entries (kf_metas f)))).
  assert (Hlen : zlen (m ++ kf_a f) = 8 /\ zlen (m ++ kf_a f ++ h ++ kf_b f) = 16 /\
  zlen (m ++ kf_a f ++ h ++ kf_b f ++ o ++ kf_c f) = 32 /\
  zlen (m ++ kf_a f ++ h ++ kf_b f ++ o ++ kf_c f ++ l ++ kf_d f) = 48).
  { unfold m, h, o, l. rewrite !zlen_app, !zlen_le_bytes. unfold zlen. rewrite Ha, Hb, Hc, Hd. lia. }
  destruct Hlen as (H8 & H16 & H32 & H48). unfold kav_metaoffset, kav_headerlen. split_and!.
  - eapply (kav_field f []); [reflexivity|done|lia].
  - rewrite <- H8. eapply kav_field; [unfold kav_head; rewrite <- !app_assoc; reflexivity|lia|lia].
  - rewrite <- H16. eapply kav_field; [unfold kav_head; rewrite <- !app_assoc; reflexivity|lia|lia].
  - rewrite <- H32. eapply kav_field; [unfold kav_head; rewrite <- !app_assoc; reflexivity|lia|lia].
  - rewrite <- H48. eapply kav_field; [unfold kav_head; rewrite <- !app_assoc; reflexivity|lia|lia].
Qed.

(** A quarantine file of Kaspersky is decoded to the content it was made
    of, for every content, header filling and list of metadata entries, but
    under the fixed name: the original name in the metadata is never found. *)
Theorem kav_roundtrip f :
  kav_wf f -> kav_unquarantine (kav_encode f) = quarfile (store_temp_file (kf_body f) (B "KAVDequarantineFile")).
Proof.
  intros Hwf. pose proof (kav_head_length f Hwf) as Hh. destruct (kav_fields f Hwf) as (E1 & E2 & E3 & E4 & E5).
  destruct Hwf as (_ & _ & _ & _ & Hne & Hms & Hsize).
  assert (Hx : zlen (xor_block kav_key_at (kf_body f)) = zlen (kf_body f)) by (unfold zlen; by rewrite xor_block_length).
  set (P := kav_head f ++ xor_block kav_key_at (kf_body f) ++ kf_gap f).
  assert (HP : zlen P = kav_metaoffset f) by (unfold P, kav_metaoffset; rewrite !zlen_app; lia).
  assert (HE : kav_encode f = P ++ kav_entries (kf_metas f) ++ kf_tail f) by (unfold P, kav_encode; by rewrite <- !app_assoc).
  assert (Hz : zlen (kav_encode f) = kav_metaoffset f + zlen (kav_entries (kf_metas f)) + zlen (kf_tail f))
    by (rewrite HE, !zlen_app, HP; lia).
  pose proof (zlen_nonneg (kf_tail f)). pose proof (zlen_nonneg (kf_gap f)).
  unfold kav_unquarantine. rewrite E1, E2, E3, E4, E5. cbn [rbind]. change (negb _) with false. cbv iota.
  rewrite !(proj2 (Z.ltb_ge _ _)) by (unfold kav_metaoffset in *; lia).
  pose proof (kav_entries_length _ Hms) as Hfuel.
  destruct (kf_metas f) as [|m ms] eqn:Em; [done|].
  assert (Hms' : Forall (fun m => 4 <= zlen m < 2 ^ 32) (m :: ms)).
  { rewrite Forall_forall in Hms |- *. intros x Hx'. split; [by apply Hms|].
    apply kav_entry_le in Hx'. rewrite Hz in Hsize. unfold kav_metaoffset, kav_headerlen, zlen in *. lia. }
  rewrite (unpack_field 4 _ P (zlen m) (xor_block kav_key_at m ++ kav_entries ms ++ kf_tail f)).
  2:{ rewrite HE. unfold kav_entries. cbn [concat map]. unfold kav_entry at 1. by rewrite <- !app_assoc. }
  2: done. 2: done. 2:{ apply Forall_inv in Hms'. simpl. lia. }
  cbn [rbind]. rewrite HE, <- HP.
  destruct (kav_loop_entries ms (S (length (P ++ kav_entries (m :: ms) ++ kf_tail f))) (zlen P + zlen (kav_entries (m :: ms)))
              P m (kf_tail f) (B "KAVDequarantineFile")) as [p' ->]; [done| |done|].
  { rewrite !length_app. change (length (m :: ms)) with (S (length ms)) in Hfuel. lia. }
  cbn [rbind]. unfold P. rewrite <- !app_assoc. rewrite (xor_loop_spec kav_key_at (kav_head f)).
  2:{ rewrite xor_block_length. unfold zlen. lia. } 2:{ rewrite <- Hh. unfold zlen. lia. }
  rewrite xor_block_twice. cbn [rbind]. do 3 f_equal. eapply slice_at; [reflexivity|done|lia].
Qed.

(** ** The Trend Micro format *)

(** The key byte of the position [a] of the file: a byte of the checksum of
    the word that [a] belongs to. *)
Definition trend_stream (basekey a : Z) : Z :=
  le_bytes 4 (crc32 (le_bytes 4 (basekey + (a - a mod 4))) mod 2 ^ 32) !!! Z.to_nat (a mod 4).
Definition trend_cipher (basekey o : Z) (l : list Z) : list Z :=
  xor_block (fun i => trend_stream basekey (o + Z.of_nat i)) l.

Lemma trend_crcbuf_spec k :
  0 <= k < 2 ^ 32 -> trend_crcbuf k = Ok (le_bytes 4 (crc32 (le_bytes 4 k) mod 2 ^ 32)).
Proof.
  intros Hk. unfold trend_crcbuf, pack. rewrite decide_True by (simpl; lia). cbn [rbind].
  change 0xFFFFFFFF with (Z.ones 32). rewrite Z.land_ones by lia.
  rewrite decide_True; [done|]. pose proof (Z.mod_pos_bound (crc32 (le_bytes 4 k)) (2 ^ 32)). simpl in *. lia.
Qed.

(** The inner loop decodes up to the end of a word or of the data. *)
Lemma trend_word_spec crcbuf k : forall u p m,
  (u + k <= length crcbuf)%nat ->
  trend_word crcbuf (seq u k) (p ++ m) (zlen p) (zlen m) =
    Ok (p ++ xor_block (fun i => crcbuf !!! (u + i)%nat) (take k m) ++ drop k m,
        zlen p + zlen (take k m), zlen (drop k m)).
Proof.
  induction k as [|k IH]; intros u p m Hk.
  - change (seq u 0) with (@nil nat). cbn [trend_word]. rewrite take_0, drop_0. change (zlen []) with 0.
    by rewrite Z.add_0_r.
  - cbn [seq trend_word]. destruct m as [|b m].
    + simpl. change (zlen []) with 0. by rewrite Z.add_0_r.
    + rewrite (proj2 (Z.eqb_neq _ _)) by (unfold zlen; simpl; lia).
      destruct (lookup_lt_is_Some_2 crcbuf u) as [x Hx]; [lia|]. rewrite Hx. cbn [of_option rbind].
      rewrite xor_at_app by (unfold zlen; lia). cbn [rbind].
      change (Z.lxor b x :: m) with ([Z.lxor b x] ++ m). rewrite app_assoc.
      replace (zlen p + 1) with (zlen (p ++ [Z.lxor b x])) by (rewrite zlen_app; done).
      replace (zlen (b :: m) - 1) with (zlen m) by (unfold zlen; simpl; lia).
      rewrite IH by lia. cbn [take drop]. unfold xor_block. cbn [imap]. rewrite Nat.add_0_r.
      rewrite (list_lookup_total_correct _ _ _ Hx), <- !app_assoc. rewrite zlen_app.
      simpl app. replace (zlen p + zlen [Z.lxor b x] + zlen (take k m)) with (zlen p + zlen (b :: take k m))
        by (unfold zlen; simpl; lia).
      do 6 f_equal. apply imap_ext. intros i y _. simpl. do 2 f_equal. lia.
Qed.

Lemma trend_cipher_app basekey o l1 l2 :
  trend_cipher basekey o (l1 ++ l2) = trend_cipher basekey o l1 ++ trend_cipher basekey (o + zlen l1) l2.
Proof.
  unfold trend_cipher. rewrite xor_block_app. f_equal. apply xor_block_ext. intros i _. f_equal. unfold zlen. lia.
Qed.

Lemma trend_cipher_length basekey o l : zlen (trend_cipher basekey o l) = zlen l.
Proof. unfold zlen, trend_cipher. by rewrite xor_block_length. Qed.

(** Within one word the stream is the checksum of that word. *)
Lemma trend_cipher_word basekey o l :
  0 <= o -> o mod 4 + zlen l <= 4 ->
  trend_cipher basekey o l =
  xor_block (fun i => le_bytes 4 (crc32 (le_bytes 4 (basekey + (o - o mod 4))) mod 2 ^ 32) !!!
                        (Z.to_nat (o mod 4) + i)%nat) l.
Proof.
  intros Ho Hl. unfold trend_cipher, trend_stream. apply xor_block_ext. intros i Hi.
  pose proof (Z.mod_pos_bound o 4). pose proof (Z.div_mod o 4). unfold zlen in Hl.
  assert (E : (o + Z.of_nat i) mod 4 = o mod 4 + Z.of_nat i).
  { symmetry. apply (Z.mod_unique _ _ (o / 4)); [left; lia|lia]. }
  rewrite E. replace (o + Z.of_nat i - (o mod 4 + Z.of_nat i)) with (o - o mod 4) by lia.
  replace (Z.to_nat (o mod 4 + Z.of_nat i)) with (Z.to_nat (o mod 4) + i)%nat by lia. reflexivity.
Qed.

(** The loop computes the closed form from any position on. *)
Lemma trend_loop_spec basekey fuel : forall first p m,
  (length m < fuel)%nat -> (first = true \/ zlen p mod 4 = 0 \/ m = []) ->
  0 <= basekey -> basekey + zlen p + zlen m < 2 ^ 32 ->
  trend_loop fuel basekey (if first then Z.to_nat (zlen p mod 4) else 0) first (p ++ m) (zlen p) (zlen m) =
    Ok (p ++ trend_cipher basekey (zlen p) m).
Proof.
  induction fuel as [|fuel IH]; intros first p m Hf Hal Hk Hb; [lia|]. cbn [trend_loop].
  destruct (decide (m = [])) as [->|Hm]; [done|].
  assert (Hpos : 0 < zlen m) by (unfold zlen; destruct m; [done|simpl; lia]).
  rewrite (proj2 (Z.eqb_neq _ _)) by lia. pose proof (Z.mod_pos_bound (zlen p) 4) as Hmod.
  pose proof (zlen_nonneg p) as Hp.
  assert (Hu : (if first then Z.to_nat (zlen p mod 4) else 0%nat) = Z.to_nat (zlen p mod 4)).
  { destruct first; [done|]. destruct Hal as [?|[->|?]]; done. }
  assert (Hoff : (if first then zlen p - Z.of_nat (if first then Z.to_nat (zlen p mod 4) else 0%nat) else zlen p)
                 = zlen p - zlen p mod 4).
  { destruct first; [lia|]. destruct Hal as [?|[->|?]]; [done|lia|done]. }
  rewrite Hoff, Hu. pose proof (Z.mod_le (zlen p) 4). rewrite trend_crcbuf_spec by lia. cbn [rbind].
  set (u := Z.to_nat (zlen p mod 4)) in *. rewrite trend_word_spec by (rewrite le_bytes_length; lia). cbn [rbind].
  set (t := take (4 - u) m). set (d := drop (4 - u) m).
  assert (Ht : zlen p mod 4 + zlen t <= 4) by (unfold t, zlen, u; rewrite length_take; unfold zlen in *; lia).
  unfold u at 1. rewrite <- (trend_cipher_word basekey (zlen p) t) by done. rewrite app_assoc.
  replace (zlen p + zlen t) with (zlen (p ++ trend_cipher basekey (zlen p) t)) by by rewrite zlen_app, trend_cipher_length.
  assert (Hsplit : m = t ++ d) by (symmetry; apply take_drop).
  assert (Hl : zlen m = zlen t + zlen d) by (rewrite Hsplit; apply zlen_app).
  rewrite (IH false).
  - rewrite Hsplit, trend_cipher_app, zlen_app, trend_cipher_length, <- app_assoc. done.
  - assert (0 < length t)%nat by (unfold t, u; rewrite length_take; unfold zlen in *; lia). unfold zlen in *. lia.
  - right. rewrite zlen_app, trend_cipher_length. destruct (decide (d = [])) as [|Hd]; [by right|]. left.
    assert (zlen t = 4 - zlen p mod 4) as ->.
    { assert (0 < length d)%nat by (destruct d; [done|simpl; lia]). unfold t, d, u, zlen in *.
      rewrite length_drop in *. rewrite length_take. lia. }
    pose proof (Z.div_mod (zlen p) 4). symmetry. apply (Z.mod_unique _ _ (zlen p / 4 + 1)); lia.
  - done.
  - rewrite zlen_app, trend_cipher_length. lia.
Qed.

Lemma bytearray_xor_twice l k : bytearray_xor (bytearray_xor l k) k = l.
Proof. unfold bytearray_xor. induction l as [|b l IH]; csimpl; [done|]. by rewrite lxor_twice, IH. Qed.

Lemma bytearray_xor_length l k : zlen (bytearray_xor l k) = zlen l.
Proof. unfold zlen, bytearray_xor. by rewrite length_fmap. Qed.

(** A file of the format, before its last step, the exclusive or with 255:
    tags with their codes, padding, and the content; [tf_key] is the base key
    of a content that is encrypted with the checksums. *)
Record trend_file := { tf_tags : list (Z * list Z); tf_pad : list Z; tf_body : list Z; tf_key : option Z }.

Definition trend_entry (t : Z * list Z) : list Z := t.1 :: le_bytes 2 (zlen t.2) ++ t.2.
Definition trend_entries (tags : list (Z * list Z)) : list Z := concat (map trend_entry tags).
Definition trend_start (f : trend_file) : Z := 10 + zlen (trend_entries (tf_tags f)) + zlen (tf_pad f).
Definition trend_payload (f : trend_file) : list Z :=
  match tf_key f with Some k => trend_cipher k (trend_start f) (tf_body f) | None => tf_body f end.
Definition trend_clear (f : trend_file) : list Z :=
  (le_bytes 4 0x58425356 ++ le_bytes 4 (trend_start f - 10) ++ le_bytes 2 (zlen (tf_tags f))) ++
  trend_entries (tf_tags f) ++ tf_pad f ++ trend_payload f.
Definition trend_encode (f : trend_file) : list Z := bytearray_xor (trend_clear f) 0xFF.

(** What the tags mean, one after the other. *)
Fixpoint trend_fold (tags : list (Z * list Z)) (t : trend_info) : res trend_info :=
  match tags with
  | [] => Ok t
  | (code, payload) :: tags' => let! t' := trend_tag code payload t in trend_fold tags' t'
  end.

Definition trend_wf (f : trend_file) : Prop :=
  zlen (tf_tags f) <= 15 /\ Forall (fun t => is_byte t.1 /\ zlen t.2 < 65536) (tf_tags f) /\
  zlen (trend_clear f) + default 0 (tf_key f) < 2 ^ 32 /\ 0 <= default 0 (tf_key f) /\
  forall t, trend_fold (tf_tags f) trend_init = Ok t ->
    match tf_key f with
    | Some k => ti_encmethod t = 2 /\ ti_basekey t = k
    | None => ti_encmethod t <> 2
    end.

Lemma read_trend_tag_entry p code payload q :
  is_byte code -> zlen payload < 65536 ->
  read_trend_tag (p ++ trend_entry (code, payload) ++ q) (zlen p) = Ok (code, payload).
Proof.
  intros Hc Hp. unfold read_trend_tag, trend_entry. cbn [fst snd].
  rewrite (slice_at _ p (code :: le_bytes 2 (zlen payload)) (payload ++ q));
    [|cbn [app]; by rewrite <- app_assoc|done|done]. rewrite decide_True by done.
  assert (Hv : le_val (le_bytes 2 (zlen payload)) = zlen payload)
    by (apply le_val_bytes; pose proof (zlen_nonneg payload); simpl; lia).
  change (slice (code :: le_bytes 2 (zlen payload)) 1 3) with (le_bytes 2 (zlen payload)).
  change (slice (code :: le_bytes 2 (zlen payload)) 0 1) with [code]. rewrite Hv.
  f_equal. f_equal; [simpl; lia|]. eapply (slice_at _ (p ++ code :: le_bytes 2 (zlen payload)) payload q).
  - rewrite <- app_assoc. cbn [app]. by rewrite <- app_assoc.
  - rewrite zlen_app. done.
  - rewrite zlen_app. done.
Qed.

Lemma trend_tags_entries tags : forall p q t,
  Forall (fun t => is_byte t.1 /\ zlen t.2 < 65536) tags ->
  trend_tags (length tags) (p ++ trend_entries tags ++ q) (zlen p) t = trend_fold tags t.
Proof.
  induction tags as [|[code payload] tags IH]; intros p q t Ht; [done|].
  apply Forall_cons in Ht as [[Hc Hp] Ht]. cbn [length trend_tags trend_entries concat map trend_fold].
  rewrite <- app_assoc, read_trend_tag_entry by done. cbn [rbind].
  destruct (trend_tag code payload t) as [t'|e]; [|done]. cbn [rbind].
  rewrite (app_assoc p). replace (zlen p + (3 + zlen payload)) with (zlen (p ++ trend_entry (code, payload))).
  - by apply IH.
  - unfold trend_entry. rewrite zlen_app. cbn [fst snd]. rewrite app_comm_cons, zlen_app. f_equal.
Qed.

(** The Trend Micro decoder on a file of its format: it raises what a tag
    raises, always for the tags of the original name, and else gives back the
    content, whether or not it is encrypted, under a fixed name. *)
Theorem trend_roundtrip f :
  trend_wf f ->
  trend_unquarantine (trend_encode f) =
  let! t := trend_fold (tf_tags f) trend_init in
  quarfile (store_temp_file (tf_body f) (B "UnknownTrendFile.bin")).
Proof.
  intros (Hn & Htags & Hsize & Hk & Henc). unfold trend_unquarantine, trend_encode. rewrite bytearray_xor_twice.
  assert (Hlen : zlen (trend_payload f) = zlen (tf_body f))
    by (unfold trend_payload; destruct (tf_key f); [apply trend_cipher_length|done]).
  unfold trend_clear in *. rewrite !zlen_app, !zlen_le_bytes, Hlen in Hsize.
  set (head := le_bytes 4 0x58425356 ++ le_bytes 4 (trend_start f - 10) ++ le_bytes 2 (zlen (tf_tags f))) in *.
  assert (Hhead : zlen head = 10) by (unfold head; rewrite !zlen_app, !zlen_le_bytes; done).
  pose proof (zlen_nonneg (trend_entries (tf_tags f))). pose proof (zlen_nonneg (tf_pad f)).
  pose proof (zlen_nonneg (tf_body f)). pose proof (zlen_nonneg (tf_tags f)).
  assert (Hs : slice (head ++ trend_entries (tf_tags f) ++ tf_pad f ++ trend_payload f) 0 10 = head).
  { apply (slice_at _ [] head (trend_entries (tf_tags f) ++ tf_pad f ++ trend_payload f)); done. }
  rewrite Hs. rewrite decide_False by (unfold zlen in Hhead; intros Hc; apply Hc; lia).
  change (slice head 0 4) with (le_bytes 4 0x58425356).
  change (slice head 4 8) with (le_bytes 4 (trend_start f - 10)).
  change (slice head 8 10) with (le_bytes 2 (zlen (tf_tags f))).
  rewrite !le_val_bytes by (unfold trend_start; simpl; lia). rewrite Z.eqb_refl. cbn [negb].
  rewrite (proj2 (Z.ltb_ge _ _)) by lia.
  replace (Z.to_nat (zlen (tf_tags f))) with (length (tf_tags f)) by (unfold zlen; lia).
  pose proof (trend_tags_entries (tf_tags f) head (tf_pad f ++ trend_payload f) trend_init Htags) as Ht.
  rewrite Hhead in Ht. rewrite Ht.
  destruct (trend_fold (tf_tags f) trend_init) as [t|e] eqn:Et; [|done]. cbn [rbind].
  specialize (Henc t eq_refl). rewrite app_assoc, app_assoc, <- (app_assoc head).
  set (pre := head ++ trend_entries (tf_tags f) ++ tf_pad f).
  assert (Hpre : zlen pre = trend_start f) by (unfold pre, trend_start; rewrite !zlen_app; lia).
  replace (trend_start f - 10 + 10) with (zlen pre) by lia.
  destruct (tf_key f) as [k|] eqn:Ek; unfold trend_payload; rewrite Ek.
  - destruct Henc as [-> ->]. rewrite Z.eqb_refl. cbn [negb].
    replace (zlen (pre ++ _) - zlen pre) with (zlen (trend_cipher k (trend_start f) (tf_body f)))
      by (rewrite zlen_app; lia).
    rewrite (trend_loop_spec k _ true); [|rewrite length_app; lia|by left|exact Hk|].
    + cbn [rbind]. rewrite slice_from_app. unfold trend_cipher at 1. rewrite Hpre. unfold trend_cipher.
      by rewrite xor_block_twice.
    + rewrite trend_cipher_length, Hpre. unfold trend_start, default in *. simpl in *. lia.
  - rewrite (proj2 (Z.eqb_neq _ _)) by done. cbn [negb]. by rewrite slice_from_app.
Qed.

(** ** The Symantec format *)

(** Tags with a value of fixed width, and tags with data. *)
Definition sep_width (code : Z) : nat :=
  if (code =? 1) || (code =? 10) then 1%nat else if (code =? 3) || (code =? 6) then 4%nat else 8%nat.
Definition sep_small_code (code : Z) : Prop := code = 1 \/ code = 10 \/ code = 3 \/ code = 6 \/ code = 4.
Definition sep_small (code v : Z) : list Z := code :: le_bytes (sep_width code) v.
Definition sep_opening (code n : Z) : list Z := code :: le_bytes 4 n.
Definition sep_blob (code : Z) (payload : list Z) : list Z := sep_opening code (zlen payload) ++ payload.

Lemma read_sep_small p code v q :
  sep_small_code code -> 0 <= v < 256 ^ Z.of_nat (sep_width code) ->
  read_sep_tag (p ++ sep_small code v ++ q) (zlen p) = Ok (code, 1 + Z.of_nat (sep_width code), v, []).
Proof.
  intros Hc Hv. unfold read_sep_tag, sep_small.
  assert (Hcode : unpack 1 (slice (p ++ (code :: le_bytes (sep_width code) v) ++ q) (zlen p) (zlen p + 1)) = Ok code).
  { rewrite (slice_at _ p [code] (le_bytes (sep_width code) v ++ q)); [|done|done|done].
    rewrite unpack_some by done. f_equal. simpl. lia. }
  rewrite Hcode. cbn [rbind].
  assert (Hval : forall b, b = zlen p + 1 + Z.of_nat (sep_width code) ->
    unpack (sep_width code) (slice (p ++ (code :: le_bytes (sep_width code) v) ++ q) (zlen p + 1) b) = Ok v).
  { intros b ->. apply (unpack_field _ _ (p ++ [code]) v q); [by rewrite <- app_assoc| |done|done].
    by rewrite zlen_app. }
  destruct Hc as [->|[->|[->|[->| ->]]]]; cbn in Hval |- *; rewrite Hval by lia; done.
Qed.

Lemma read_sep_opening p code n q :
  is_byte code -> ~ sep_small_code code -> 0 <= n < 2 ^ 32 ->
  read_sep_tag (p ++ sep_opening code n ++ q) (zlen p) =
  Ok (code, 5, n, slice (p ++ sep_opening code n ++ q) (zlen p + 5) (zlen p + 5 + n)).
Proof.
  intros Hb Hc Hn. unfold read_sep_tag, sep_opening.
  rewrite (slice_at _ p [code] (le_bytes 4 n ++ q)); [|done|done|done].
  rewrite unpack_some by done. replace (le_val [code]) with code by (simpl; lia). cbn [rbind].
  unfold sep_small_code in Hc.
  rewrite !(proj2 (Z.eqb_neq _ _)) by (intros ->; apply Hc; auto). cbn [orb].
  rewrite (unpack_field 4 _ (p ++ [code]) n q); [done|by rewrite <- app_assoc|by rewrite zlen_app|lia|simpl; lia].
Qed.

Lemma read_sep_blob p code payload q :
  is_byte code -> ~ sep_small_code code -> zlen payload < 2 ^ 32 ->
  read_sep_tag (p ++ sep_blob code payload ++ q) (zlen p) = Ok (code, 5, zlen payload, payload).
Proof.
  intros Hb Hc Hn. unfold sep_blob. rewrite <- app_assoc.
  rewrite read_sep_opening by (done || pose proof (zlen_nonneg payload); lia). f_equal. f_equal.
  apply (slice_at _ (p ++ sep_opening code (zlen payload)) payload q); rewrite ?zlen_app; [by rewrite <- app_assoc|done|done].
Qed.

(** A state that has read [p] and faces [q]. *)
Definition sep_at (p q : list Z) (d x h : bool) (b c : Z) (bin : list Z) (l : Z) : sep_state :=
  {| ss_data := p ++ q; ss_offset := zlen p; decode_next_container := d; xor_next_container := x;
     has_header := h; binsize := b; collectedsize := c; bindata := bin; lastlen := l |}.

Lemma sep_advance_at p m q n d x h b c bin l :
  n = zlen m ->
  sep_advance n {| ss_data := p ++ m ++ q; ss_offset := zlen p; decode_next_container := d; xor_next_container := x;
                   has_header := h; binsize := b; collectedsize := c; bindata := bin; lastlen := l |} =
  sep_at (p ++ m) q d x h b c bin l.
Proof. intros ->. unfold sep_advance, sep_at. simpl. by rewrite zlen_app, <- app_assoc. Qed.

(** A later piece of the content. *)
Lemma sep_step_piece p part q d b c bin l :
  zlen part < 2 ^ 32 -> 0 <= c <= zlen p -> 0 <= b ->
  exists p', sep_step (sep_at p (sep_blob 9 (xor_block (fun _ => 0xFF) part) ++ q) d true false b c bin l) =
    Ok (sep_at p' q d true false b (c + zlen part) (bin ++ take (Z.to_nat (b - c)) part) l) /\
    zlen p' = zlen p + 5 + zlen part.
Proof.
  intros Hn Hc Hb. set (enc := xor_block (fun _ => 0xFF) part).
  assert (Hl : zlen enc = zlen part) by (unfold zlen, enc; by rewrite xor_block_length).
  exists (p ++ sep_blob 9 part). split.
  2:{ rewrite zlen_app. unfold sep_blob, sep_opening. rewrite zlen_app. change (zlen (9 :: _)) with 5. lia. }
  unfold sep_at at 1. unfold sep_step. cbn [ss_data ss_offset]. rewrite read_sep_blob; [|done| |lia].
  2:{ unfold sep_small_code. lia. }
  cbn [rbind]. change (9 =? 9) with true. unfold sep_piece.
  cbn [xor_next_container ss_offset ss_data has_header collectedsize binsize bindata decode_next_container lastlen].
  unfold sep_blob at 1. rewrite <- !app_assoc, (app_assoc p).
  assert (Hpre : zlen (p ++ sep_opening 9 (zlen enc)) = zlen p + 5) by (rewrite zlen_app; done).
  rewrite (xor_loop_spec (fun _ => 0xFF) (p ++ sep_opening 9 (zlen enc)) enc q); [|done|unfold zlen in *; lia].
  replace (xor_block (fun _ => 255) enc) with part by (unfold enc; by rewrite xor_block_twice). cbn [rbind].
  rewrite (slice_take (p ++ sep_opening 9 (zlen enc)) part q _ _
             (if b <? c + zlen enc then zlen enc - (c + zlen enc - b) else zlen enc));
    [|done|done|destruct (Z.ltb_spec b (c + zlen enc)); pose proof (zlen_nonneg part); lia].
  rewrite Hl. unfold sep_blob. rewrite <- (app_assoc p).
  rewrite (app_assoc (sep_opening 9 (zlen part))), sep_advance_at by by rewrite zlen_app.
  do 3 f_equal. destruct (Z.ltb_spec b (c + zlen part)); [f_equal; lia|].
  rewrite !take_ge by (unfold zlen in *; lia). done.
Qed.

Lemma sep_loop_last n fs s s' : sep_step s = Ok s' -> ss_offset s' = fs -> sep_loop (S n) fs s = Ok s'.
Proof. intros Hs Ho. cbn [sep_loop]. rewrite Hs. cbn [rbind]. by rewrite Ho, Z.eqb_refl. Qed.

Lemma sep_loop_next n fs s s' :
  sep_step s = Ok s' -> ss_offset s' <> fs -> sep_loop (S n) fs s = sep_loop n fs s'.
Proof. intros Hs Ho. cbn [sep_loop]. rewrite Hs. cbn [rbind]. by rewrite (proj2 (Z.eqb_neq _ _)). Qed.

Definition sep_pieces (parts : list (list Z)) : list Z :=
  concat (map (fun part => sep_blob 9 (xor_block (fun _ => 0xFF) part)) parts).

Lemma sep_blob_length code l : zlen (sep_blob code l) = 5 + zlen l.
Proof. unfold sep_blob, sep_opening. rewrite zlen_app. done. Qed.

Lemma xor_block_zlen key l : zlen (xor_block key l) = zlen l.
Proof. unfold zlen. by rewrite xor_block_length. Qed.

(** All the pieces up to the end of the file. *)
Lemma sep_loop_pieces parts : forall n fs p d b c bin l part,
  Forall (fun part => zlen part < 2 ^ 32) (part :: parts) -> (length parts < n)%nat ->
  0 <= c <= zlen p -> 0 <= b -> fs = zlen p + zlen (sep_pieces (part :: parts)) ->
  exists s, sep_loop n fs (sep_at p (sep_pieces (part :: parts)) d true false b c bin l) = Ok s /\
    bindata s = bin ++ take (Z.to_nat (b - c)) (concat (part :: parts)).
Proof.
  induction parts as [|part2 parts IH]; intros n fs p d b c bin l part Hparts Hn Hc Hb Hfs;
    (destruct n as [|n]; [simpl in Hn; lia|]); apply Forall_cons in Hparts as [Hpart Hparts];
    pose proof (zlen_nonneg part) as Hlen; unfold sep_pieces in *; cbn [map concat] in *;
    rewrite zlen_app, sep_blob_length, xor_block_zlen in Hfs.
  - destruct (sep_step_piece p part [] d b c bin l Hpart Hc Hb) as (p' & Hs & Hp').
    erewrite sep_loop_last; [|exact Hs|simpl; change (zlen []) with 0 in Hfs; lia].
    eexists. split; [done|]. cbn [bindata sep_at]. by rewrite app_nil_r.
  - destruct (sep_step_piece p part (concat (map (fun part => sep_blob 9 (xor_block (fun _ => 0xFF) part)) (part2 :: parts)))
                d b c bin l Hpart Hc Hb) as (p' & Hs & Hp').
    cbn [map concat] in Hs. pose proof (sep_blob_length 9 (xor_block (fun _ => 0xFF) part2)) as Hl2.
    rewrite zlen_app in Hfs. pose proof (zlen_nonneg part2). rewrite xor_block_zlen in Hl2.
    erewrite sep_loop_next; [|exact Hs|cbn [ss_offset sep_at]; unfold zlen in *; lia].
    edestruct (IH n fs p' d b (c + zlen part) (bin ++ take (Z.to_nat (b - c)) part) l part2) as (s & Hr & Hbin);
      [done|simpl in Hn; lia|lia|done|rewrite zlen_app; lia|].
    exists s. split; [exact Hr|]. rewrite Hbin, <- app_assoc.
    change (part ++ part2 ++ concat parts) with (part ++ concat (part2 :: parts)). 
    rewrite (take_app part).
    replace (Z.to_nat (b - (c + zlen part))) with (Z.to_nat (b - c) - length part)%nat by (unfold zlen; lia). done.
Qed.

(** The header of the original file: two fields and what is between them. *)
Record sep_header := { sh_a : list Z; sh_n : Z; sh_b : list Z; sh_size : Z; sh_c : list Z }.
Definition sep_header_bytes (h : sep_header) : list Z :=
  sh_a h ++ le_bytes 4 (sh_n h) ++ sh_b h ++ le_bytes 4 (sh_size h) ++ sh_c h.
Definition sep_header_ok (h : sep_header) : Prop :=
  zlen (sh_a h) = 8 /\ 0 <= sh_n h /\ zlen (sh_b h) = sh_n h + 16 /\ 0 <= sh_size h < 2 ^ 32 /\ zlen (sh_c h) = 8.

Lemma sep_header_length h : sep_header_ok h -> zlen (sep_header_bytes h) = sh_n h + 40.
Proof.
  intros (Ha & _ & Hb & _ & Hc). unfold sep_header_bytes. rewrite !zlen_app, !zlen_le_bytes, Ha, Hb, Hc. lia.
Qed.

(** The first piece, with the header. *)
Lemma sep_step_first p h part q d b l :
  sep_header_ok h -> zlen (sep_header_bytes h ++ part) < 2 ^ 32 ->
  exists p', sep_step (sep_at p (sep_blob 9 (xor_block (fun _ => 0xFF) (sep_header_bytes h ++ part)) ++ q)
                              d true true b 0 [] l) =
    Ok (sep_at p' q d true false (sh_size h) (zlen part) (take (Z.to_nat (sh_size h)) part) l) /\
    zlen p' = zlen p + 5 + zlen (sep_header_bytes h ++ part).
Proof.
  intros Hh Hn. set (pay := sep_header_bytes h ++ part) in *. set (enc := xor_block (fun _ => 0xFF) pay).
  assert (Hl : zlen enc = zlen pay) by apply xor_block_zlen.
  exists (p ++ sep_blob 9 pay). split; [|rewrite zlen_app, sep_blob_length; lia].
  pose proof (sep_header_length h Hh) as Hhl. destruct Hh as (Ha & Hnn & Hb & Hs & Hc).
  assert (Hpay : zlen pay = sh_n h + 40 + zlen part) by (unfold pay; rewrite zlen_app; lia).
  pose proof (zlen_nonneg part) as Hpart.
  unfold sep_at at 1. unfold sep_step. cbn [ss_data ss_offset]. rewrite read_sep_blob; [|done| |lia].
  2:{ unfold sep_small_code. lia. }
  cbn [rbind]. change (9 =? 9) with true. unfold sep_piece.
  cbn [xor_next_container ss_offset ss_data has_header collectedsize binsize bindata decode_next_container lastlen].
  unfold sep_blob at 1. rewrite <- !app_assoc, (app_assoc p). set (o := p ++ sep_opening 9 (zlen enc)).
  assert (Ho : zlen o = zlen p + 5) by (unfold o; rewrite zlen_app; done).
  rewrite (xor_loop_spec (fun _ => 0xFF) o enc q); [|done|unfold zlen in *; lia].
  replace (xor_block (fun _ => 255) enc) with pay by (unfold enc; by rewrite xor_block_twice). cbn [rbind].
  rewrite (unpack_from_field 4 _ (o ++ sh_a h) (sh_n h) (sh_b h ++ le_bytes 4 (sh_size h) ++ sh_c h ++ part ++ q));
    [|unfold pay, sep_header_bytes; by rewrite <- !app_assoc|rewrite zlen_app; lia|lia|simpl; lia].
  cbn [rbind].
  rewrite (unpack_from_field 4 _ (o ++ sh_a h ++ le_bytes 4 (sh_n h) ++ sh_b h) (sh_size h) (sh_c h ++ part ++ q));
    [|unfold pay, sep_header_bytes; by rewrite <- !app_assoc|rewrite !zlen_app, zlen_le_bytes; lia|lia|simpl; lia].
  cbn [rbind]. rewrite Hl. replace (0 + (zlen pay - (12 + sh_n h + 28))) with (zlen part) by lia.
  replace (o ++ pay ++ q) with ((o ++ sep_header_bytes h) ++ part ++ q) at 2 by (unfold pay; by rewrite <- !app_assoc).
  rewrite (slice_take (o ++ sep_header_bytes h) part q _ _ (if sh_size h <? zlen part then sh_size h else zlen part));
    [|rewrite zlen_app; lia|done
    |pose proof (zlen_nonneg (o ++ sep_header_bytes h)); destruct (Z.ltb_spec (sh_size h) (zlen part)); lia].
  unfold o, sep_blob. rewrite <- (app_assoc p), (app_assoc (sep_opening 9 (zlen enc))), Hl.
  rewrite sep_advance_at by by rewrite zlen_app. do 2 f_equal.
  destruct (Z.ltb_spec (sh_size h) (zlen part)); [done|]. rewrite !take_ge by (unfold zlen in *; lia). done.
Qed.

(** Reduces the fields of a given state. *)
Ltac sep_simpl := cbn [rbind ss_data ss_offset decode_next_container xor_next_container has_header binsize
                       collectedsize bindata lastlen].

(** The container that announces the original file, and the tag that
    announces a file without a header. *)
Lemma sep_step_size p q h b c bin l n :
  0 <= n < 2 ^ 64 ->
  sep_step (sep_at p (sep_blob 9 (le_bytes 8 n) ++ q) false false h b c bin l) =
  Ok (sep_at (p ++ sep_blob 9 (le_bytes 8 n)) q true true h b c bin n).
Proof.
  intros Hn. unfold sep_at at 1. unfold sep_step. cbn [ss_data ss_offset].
  rewrite read_sep_blob; [|done|unfold sep_small_code; lia|done].
  cbn [rbind]. change (9 =? 9) with true. unfold sep_container.
  cbn [xor_next_container ss_offset ss_data decode_next_container].
  change (zlen (le_bytes 8 n) =? 8) with true. cbn [rbind].
  rewrite (unpack_from_field 8 _ (p ++ sep_opening 9 8) n q); [|by rewrite <- app_assoc|by rewrite zlen_app|lia|simpl; lia].
  cbn [rbind]. by rewrite sep_advance_at.
Qed.

Lemma sep_step_plain p q h b c bin n :
  0 <= n < 2 ^ 64 ->
  sep_step (sep_at p (sep_small 4 n ++ q) true true h b c bin n) =
  Ok (sep_at (p ++ sep_small 4 n) q true true false n c bin n).
Proof.
  intros Hn. unfold sep_at at 1. unfold sep_step. cbn [ss_data ss_offset].
  rewrite read_sep_small; [|unfold sep_small_code; auto|change (256 ^ Z.of_nat (sep_width 4)) with (2 ^ 64); lia]. cbn [rbind].
  change (4 =? 9) with false. change (4 =? 4) with true. cbn [andb xor_next_container lastlen].
  rewrite Z.eqb_refl. by rewrite sep_advance_at.
Qed.

(** What may stand before: small tags, tags with data, and containers of 16
    bytes, each followed by a container whose contents are tags again. *)
Inductive sep_pre :=
| PreSmall (code v : Z)
| PreBlob (code : Z) (payload : list Z)
| PreHash (payload : list Z)
| PreOpen (n : Z).

Definition sep_pre_bytes (t : sep_pre) : list Z :=
  match t with
  | PreSmall code v => sep_small code v
  | PreBlob code payload => sep_blob code payload
  | PreHash payload => sep_blob 9 payload
  | PreOpen n => sep_opening 9 n
  end.
Definition sep_pre_ok (t : sep_pre) : Prop :=
  match t with
  | PreSmall code v => sep_small_code code /\ 0 <= v < 256 ^ Z.of_nat (sep_width code)
  | PreBlob code payload => is_byte code /\ ~ sep_small_code code /\ code <> 9 /\ zlen payload < 2 ^ 32
  | PreHash payload => zlen payload = 16
  | PreOpen n => 0 <= n < 2 ^ 32
  end.
(** A container is opened exactly after its hash. *)
Definition sep_pre_next (d : bool) (t : sep_pre) : option bool :=
  match t with
  | PreSmall _ _ | PreBlob _ _ => Some d
  | PreHash _ => if d then None else Some true
  | PreOpen _ => if d then Some false else None
  end.
Fixpoint sep_pres_end (d : bool) (ts : list sep_pre) : option bool :=
  match ts with [] => Some d | t :: ts' => sep_pre_next d t ≫= fun d' => sep_pres_end d' ts' end.

Lemma sep_step_pre p q d d' t h b c bin l :
  sep_pre_ok t -> sep_pre_next d t = Some d' ->
  sep_step (sep_at p (sep_pre_bytes t ++ q) d false h b c bin l) =
  Ok (sep_at (p ++ sep_pre_bytes t) q d' false h b c bin l).
Proof.
  intros Ht Hd. unfold sep_at at 1. unfold sep_step. cbn [ss_data ss_offset].
  destruct t as [code v|code payload|payload|n]; simpl in Ht, Hd; cbn [sep_pre_bytes].
  - destruct Ht as [Hc Hv]. rewrite read_sep_small by done. cbn [rbind].
    rewrite (proj2 (Z.eqb_neq code 9)) by (unfold sep_small_code in Hc; lia).
    cbn [xor_next_container]. rewrite andb_false_r. cbn [andb]. simplify_eq. rewrite sep_advance_at; [done|].
    change (zlen []) with 0. unfold sep_small, zlen. cbn [length]. rewrite le_bytes_length. lia.
  - destruct Ht as (Hb & Hc & H9 & Hl). rewrite read_sep_blob by done. cbn [rbind].
    rewrite (proj2 (Z.eqb_neq code 9)) by done. cbn [xor_next_container]. rewrite andb_false_r. cbn [andb].
    simplify_eq. rewrite sep_advance_at; [done|]. by rewrite sep_blob_length.
  - destruct d; [done|]. injection Hd as <-. rewrite read_sep_blob; [|done|unfold sep_small_code; lia|lia]. cbn [rbind].
    change (9 =? 9) with true. unfold sep_container. cbn [xor_next_container decode_next_container]. rewrite Ht.
    change (16 =? 8) with false. change (16 =? 16) with true. sep_simpl. rewrite sep_advance_at; [done|]. by rewrite sep_blob_length, Ht.
  - destruct d; [|done]. injection Hd as <-. rewrite read_sep_opening; [|done|unfold sep_small_code; lia|done]. cbn [rbind].
    change (9 =? 9) with true. unfold sep_container. sep_simpl.
    by rewrite sep_advance_at.
Qed.

Definition sep_pres (ts : list sep_pre) : list Z := concat (map sep_pre_bytes ts).

Lemma sep_loop_pres ts : forall n fs p q d d' h b c bin l,
  Forall sep_pre_ok ts -> sep_pres_end d ts = Some d' -> zlen p + zlen (sep_pres ts) < fs ->
  sep_loop (length ts + n) fs (sep_at p (sep_pres ts ++ q) d false h b c bin l) =
  sep_loop n fs (sep_at (p ++ sep_pres ts) q d' false h b c bin l).
Proof.
  unfold sep_pres. induction ts as [|t ts IH]; intros n fs p q d d' h b c bin l Hok Hd Hfs; simpl in Hd.
  - simplify_eq. cbn [length map concat app Nat.add]. by rewrite app_nil_r.
  - apply Forall_cons in Hok as [Ht Hok]. destruct (sep_pre_next d t) as [d1|] eqn:Ed; [|done].
    cbn [map concat length Nat.add] in *. rewrite zlen_app in Hfs. rewrite <- app_assoc.
    pose proof (zlen_nonneg (concat (map sep_pre_bytes ts))).
    erewrite sep_loop_next; [|by apply sep_step_pre|cbn [ss_offset sep_at]; rewrite zlen_app; lia].
    rewrite (IH _ _ _ _ _ d') by (done || rewrite zlen_app; lia). by rewrite <- app_assoc.
Qed.

(** A quarantine file: the first 4792 bytes, the tags before the original
    file, its announced length, its header when it has one, and its pieces. *)
Record sep_file := {
  sf_junk : list Z; sf_pres : list sep_pre; sf_total : Z; sf_header : option sep_header;
  sf_first : list Z; sf_parts : list (list Z) }.

Definition sep_content_tags (f : sep_file) : list Z :=
  match sf_header f with
  | Some h => sep_blob 9 (xor_block (fun _ => 0xFF) (sep_header_bytes h ++ sf_first f)) ++ sep_pieces (sf_parts f)
  | None => sep_small 4 (sf_total f) ++ sep_pieces (sf_first f :: sf_parts f)
  end.
Definition sep_tags (f : sep_file) : list Z :=
  sep_pres (sf_pres f) ++ sep_blob 9 (le_bytes 8 (sf_total f)) ++ sep_content_tags f.
Definition sep_encode (f : sep_file) : list Z :=
  le_bytes 4 0x1290 ++ sf_junk f ++ bytearray_xor (sep_tags f) 0x5A.
Definition sep_size (f : sep_file) : Z :=
  match sf_header f with Some h => sh_size h | None => sf_total f end.
Definition sep_origname (f : sep_file) : bytes :=
  (os_path_split (rstrip_nul (str_bytes (slice (sep_encode f) 4 388)))).2.
Definition sep_wf (f : sep_file) : Prop :=
  zlen (sf_junk f) = 4788 /\ Forall sep_pre_ok (sf_pres f) /\ sep_pres_end false (sf_pres f) = Some false /\
  0 <= sf_total f < 2 ^ 64 /\ from_option sep_header_ok True (sf_header f) /\
  Forall (fun part => zlen part < 2 ^ 32) (sf_first f :: sf_parts f) /\
  zlen (from_option sep_header_bytes [] (sf_header f) ++ sf_first f) < 2 ^ 32 /\
  (length (sf_pres f) + length (sf_parts f) + 3 <= sep_limit)%nat.

(** From the announcement of the original file on. *)
Lemma sep_loop_content f p fs n :
  sep_wf f -> fs = zlen p + zlen (sep_content_tags f) -> (length (sf_parts f) + 2 <= n)%nat ->
  exists s, sep_loop n fs (sep_at p (sep_content_tags f) true true true 0 0 [] (sf_total f)) = Ok s /\
    bindata s = take (Z.to_nat (sep_size f)) (concat (sf_first f :: sf_parts f)).
Proof.
  intros (_ & _ & _ & Htot & Hh & Hparts & Hfirst & _) Hfs Hn. unfold sep_content_tags, sep_size in *.
  pose proof (zlen_nonneg p) as Hp0. destruct (sf_header f) as [h|].
  - simpl in Hh, Hfirst. destruct n as [|n]; [lia|].
    destruct (sep_step_first p h (sf_first f) (sep_pieces (sf_parts f)) true 0 (sf_total f) Hh Hfirst)
      as (p' & Hs & Hp'). rewrite zlen_app, sep_blob_length, xor_block_zlen in Hfs.
    destruct Hh as (_ & _ & _ & Hsz & _). pose proof (zlen_nonneg (sf_first f)).
    destruct (sf_parts f) as [|part parts].
    + erewrite sep_loop_last; [|exact Hs|]; [|cbn [ss_offset sep_at]; change (zlen (sep_pieces [])) with 0 in Hfs; lia].
      eexists. split; [done|]. cbn [bindata sep_at concat]. by rewrite app_nil_r.
    + assert (zlen (sep_pieces (part :: parts)) >= 5).
      { unfold sep_pieces. cbn [map concat]. rewrite zlen_app, sep_blob_length, xor_block_zlen. unfold zlen. lia. }
      erewrite sep_loop_next; [|exact Hs|cbn [ss_offset sep_at]; lia].
      apply Forall_cons in Hparts as [_ Hparts].
      rewrite zlen_app in Hp'. pose proof (zlen_nonneg (sep_header_bytes h)).
      edestruct (sep_loop_pieces parts n fs p' true (sh_size h) (zlen (sf_first f))) as (s & Hr & Hb);
        [done|simpl in Hn; lia|lia|lia|rewrite zlen_app in Hfs; lia|].
      exists s. split; [exact Hr|]. rewrite Hb. change (concat (sf_first f :: part :: parts)) with (sf_first f ++ concat (part :: parts)).
      rewrite (take_app (sf_first f)). do 2 f_equal. unfold zlen. lia.
  - destruct n as [|n]; [lia|]. rewrite zlen_app in Hfs. unfold sep_small in Hfs at 1.
    assert (zlen (sep_pieces (sf_first f :: sf_parts f)) >= 5).
    { unfold sep_pieces. cbn [map concat]. rewrite zlen_app, sep_blob_length, xor_block_zlen. unfold zlen. lia. }
    erewrite sep_loop_next; [|by apply sep_step_plain|cbn [ss_offset sep_at]; rewrite zlen_app; unfold sep_small; lia].
    edestruct (sep_loop_pieces (sf_parts f) n fs (p ++ sep_small 4 (sf_total f)) true (sf_total f) 0) as (s & Hr & Hb);
      [done|lia|rewrite zlen_app; pose proof (zlen_nonneg (sep_small 4 (sf_total f))); lia|lia
      |rewrite zlen_app; unfold sep_small; lia|].
    exists s. split; [exact Hr|]. rewrite Hb. rewrite Z.sub_0_r. done.
Qed.

(** A quarantine file of Symantec is decoded to the original file, cut off
    at its announced length, whatever tags stand before it, in one piece or in
    many, with a header or without, as long as the file has fewer than 20000
    tags; the name is the printed form of the bytes of the name. *)
Theorem sep_roundtrip f :
  sep_wf f ->
  sep_unquarantine (sep_encode f) =
  quarfile (store_temp_file (take (Z.to_nat (sep_size f)) (concat (sf_first f :: sf_parts f))) (sep_origname f)).
Proof.
  intros Hwf. pose proof Hwf as (Hj & Hpres & Hend & Htot & _ & _ & _ & Hlim). unfold sep_unquarantine.
  rewrite (unpack_field 4 _ [] 0x1290 (sf_junk f ++ bytearray_xor (sep_tags f) 0x5A)); [|done|done|done|simpl; lia].
  cbn [rbind]. change (negb (0x1290 =? 0x1290)) with false. cbv iota.
  set (head := bytearray_xor (le_bytes 4 0x1290 ++ sf_junk f) 0x5A).
  assert (Hdata : bytearray_xor (sep_encode f) 0x5A = head ++ sep_tags f).
  { unfold head, sep_encode. rewrite app_assoc. unfold bytearray_xor at 1 2. rewrite fmap_app. f_equal.
    apply bytearray_xor_twice. }
  assert (Hhead : zlen head = 0x1290 + 0x28) by (unfold head; rewrite bytearray_xor_length, zlen_app, Hj; done).
  assert (Hfs : zlen (sep_encode f) = zlen head + zlen (sep_tags f))
    by (rewrite <- (bytearray_xor_length _ 0x5A), Hdata; apply zlen_app).
  rewrite Hdata, <- Hhead. change (sep_init (head ++ sep_tags f) (zlen head)) with (sep_at head (sep_tags f) false false true 0 0 [] 0).
  unfold sep_tags in *. rewrite !zlen_app, sep_blob_length, zlen_le_bytes in Hfs.
  pose proof (zlen_nonneg (sep_content_tags f)) as Hc.
  assert (Hct : zlen (sep_content_tags f) >= 1).
  { unfold sep_content_tags. destruct (sf_header f); unfold zlen; simpl; lia. }
  replace sep_limit with (length (sf_pres f) + S (sep_limit - S (length (sf_pres f))))%nat by lia.
  rewrite (sep_loop_pres (sf_pres f) _ _ _ _ _ false) by (done || lia).
  erewrite sep_loop_next; [|by apply sep_step_size|cbn [ss_offset sep_at]; rewrite !zlen_app, sep_blob_length, zlen_le_bytes; lia].
  edestruct (sep_loop_content f) as (s & -> & Hb); [done| |lia|].
  { rewrite Hfs, !zlen_app, sep_blob_length, zlen_le_bytes. lia. }
  cbn [rbind]. by rewrite Hb.
Qed.

(** ** What a decoder does with a file of another format *)

Lemma kav_declines p rest : length p = 4%nat -> le_val p <> 0x42514C4B -> kav_unquarantine (p ++ rest) = Ok None.
Proof using Type.
  intros Hl Hm. unfold kav_unquarantine. rewrite (slice_at _ [] p rest) by (unfold zlen; rewrite ?Hl; done).
  unfold unpack. rewrite decide_True by done. cbn [rbind]. by rewrite (proj2 (Z.eqb_neq _ _) Hm).
Qed.

Lemma trend_declines p rest :
  length p = 4%nat -> (6 <= length rest)%nat -> le_val (bytearray_xor p 0xFF) <> 0x58425356 ->
  trend_unquarantine (p ++ rest) = Ok None.
Proof using Type.
  intros Hl Hr Hm. unfold trend_unquarantine. set (d := bytearray_xor (p ++ rest) 0xFF).
  assert (Hd : d = (bytearray_xor p 0xFF ++ bytearray_xor (take 6 rest) 0xFF) ++ bytearray_xor (drop 6 rest) 0xFF).
  { unfold d, bytearray_xor. by rewrite <- !fmap_app, <- app_assoc, take_drop. }
  assert (Hlen : length (bytearray_xor p 0xFF ++ bytearray_xor (take 6 rest) 0xFF) = 10%nat)
    by (unfold bytearray_xor; rewrite length_app, !length_fmap, length_take; lia).
  rewrite (slice_at d [] _ _ 0 10 Hd) by (unfold zlen; rewrite ?Hlen; done).
  rewrite decide_False by (rewrite Hlen; lia).
  rewrite (slice_at _ [] (bytearray_xor p 0xFF) (bytearray_xor (take 6 rest) 0xFF) 0 4)
    by (unfold zlen, bytearray_xor; rewrite ?length_fmap, ?Hl; done).
  by rewrite (proj2 (Z.eqb_neq _ _) Hm).
Qed.

(** ** Every decoder gives bytes, and a name without a separator *)

Definition good_file (q : stored) : Prop :=
  Forall is_byte (filedata q) /\ SLASH ∉ filename q /\ BACKSLASH ∉ filename q.
Definition good (r : res (option stored)) : Prop := forall q, r = Ok (Some q) -> good_file q.

Lemma nt_split_tail p : SLASH ∉ (nt_split p).2 /\ BACKSLASH ∉ (nt_split p).2.
Proof.
  unfold nt_split. destruct (splitdrive p) as [d t]. cbn [snd]. set (t' := replace_byte BACKSLASH SLASH t).
  assert (Hd : drop (last_slash t') t' = replace_byte BACKSLASH SLASH (drop (last_slash t') t))
    by (unfold t' at 2, replace_byte; by rewrite fmap_drop).
  pose proof (last_slash_drop t') as Hn. rewrite Hd in Hn. unfold replace_byte in Hn.
  rewrite list_elem_of_fmap in Hn. split; intros Hx; apply Hn; eexists; (split; [|exact Hx]); done.
Qed.

Lemma temp_name_safe name : SLASH ∉ temp_name name /\ BACKSLASH ∉ temp_name name.
Proof.
  assert (Hg : SLASH ∉ get_filename_from_path name /\ BACKSLASH ∉ get_filename_from_path name).
  { unfold get_filename_from_path. destruct (nt_split name) as [d t] eqn:E.
    destruct t as [|c t]; [apply nt_split_tail|]. pose proof (nt_split_tail name) as Ht. by rewrite E in Ht. }
  unfold temp_name.
  assert (Hincl : forall x, x ∈ take 100 (get_filename_from_path name) -> x ∈ get_filename_from_path name).
  { intros x Hx. rewrite <- (take_drop 100 (get_filename_from_path name)). apply elem_of_app. by left. }
  destruct Hg as [H1 H2]. split; intros Hx%Hincl; [exact (H1 Hx)|exact (H2 Hx)].
Qed.

Lemma store_good data name q : Forall is_byte data -> store_temp_file data name = Ok q -> good_file q.
Proof using Type.
  intros Hd Hq. unfold store_temp_file in Hq. destruct (store_raises _ _); [done|].
  destruct (valid_name _); [|done]. injection Hq as <-. split; [done|apply temp_name_safe].
Qed.

Lemma good_store data name : Forall is_byte data -> good (quarfile (store_temp_file data name)).
Proof using Type.
  intros Hd q Hq. unfold quarfile in Hq. destruct (store_temp_file data name) eqn:E; [|done]. injection Hq as <-. by eapply store_good.
Qed.

Lemma bytearray_xor_byte l k : Forall is_byte l -> is_byte k -> Forall is_byte (bytearray_xor l k).
Proof. intros Hl Hk. unfold bytearray_xor. rewrite Forall_fmap. eapply Forall_impl; [done|]. intros b Hb. by apply lxor_byte. Qed.

Lemma kav_key_byte i : is_byte (kav_key_at i).
Proof.
  unfold kav_key_at. assert (Hk : Forall is_byte kav_key) by (unfold kav_key, is_byte; repeat constructor; lia).
  rewrite List.Forall_forall in Hk. destruct (nth_in_or_default (i mod 8) kav_key 0) as [Hin| ->]; [by apply Hk|done].
Qed.

Lemma kav_loop_byte fuel : forall metaend data cur len name r,
  Forall is_byte data -> kav_loop fuel metaend data cur len name = Ok r -> Forall is_byte r.1.
Proof.
  induction fuel as [|fuel IH]; intros metaend data cur len name r Hd Hr; cbn [kav_loop] in Hr;
    (destruct (len =? 0); [by simplify_eq|]); [done|].
  ok_bind Hr data' Hx. apply xor_loop_Forall in Hx as [Hd' _]; [|done|apply kav_key_byte].
  ok_bind Hr idlen Hi. cbv zeta in Hr. destruct (_ <=? _); [by simplify_eq|]. ok_bind Hr len' Hl. by eapply IH.
Qed.

Lemma kav_good data : Forall is_byte data -> good (kav_unquarantine data).
Proof.
  intros Hd q Hq. unfold kav_unquarantine in Hq. ok_bind Hq m Hm. destruct (negb _); [done|].
  ok_bind Hq hl Hhl. ok_bind Hq mo Hmo. ok_bind Hq ml Hml. ok_bind Hq ol Hol.
  destruct (_ <? _); [done|]. destruct (_ <? _); [done|]. ok_bind Hq len Hlen. ok_bind Hq r Hr.
  apply kav_loop_byte in Hr; [|done]. destruct r as [d name]. ok_bind Hq d' Hd'.
  apply xor_loop_Forall in Hd' as [Hb _]; [|done|apply kav_key_byte]. eapply good_store; [|exact Hq]. auto with cape.
Qed.

Lemma trend_word_byte crcbuf idx : forall data cur left r,
  Forall is_byte crcbuf -> Forall is_byte data -> trend_word crcbuf idx data cur left = Ok r -> Forall is_byte r.1.1.
Proof.
  induction idx as [|i idx IH]; intros data cur left r Hc Hd Hr; cbn [trend_word] in Hr; [by simplify_eq|].
  destruct (left =? 0); [by simplify_eq|]. ok_bind Hr k Hk. ok_bind Hr data' Hx.
  destruct (crcbuf !! i) as [b|] eqn:E; simplify_eq/=.
  apply xor_at_Forall in Hx as [Hd' _]; [by eapply IH|done|]. by eapply Forall_lookup_1 in E.
Qed.

Lemma trend_loop_byte fuel : forall basekey u first data cur left r,
  Forall is_byte data -> trend_loop fuel basekey u first data cur left = Ok r -> Forall is_byte r.
Proof.
  induction fuel as [|fuel IH]; intros basekey u first data cur left r Hd Hr; cbn [trend_loop] in Hr;
    (destruct (left =? 0); [by simplify_eq|]); [done|].
  ok_bind Hr crcbuf Hc. ok_bind Hr w Hw. destruct w as [[d c] l]. unfold trend_crcbuf in Hc. ok_bind Hc buf Hbuf.
  unfold pack in Hc. destruct (decide _); simplify_eq. apply trend_word_byte in Hw; [|exact (le_bytes_byte 4 _)|done].
  by eapply IH.
Qed.

Lemma trend_good data : Forall is_byte data -> good (trend_unquarantine data).
Proof.
  intros Hd q Hq. unfold trend_unquarantine in Hq. apply (bytearray_xor_byte _ 255) in Hd; [|done].
  destruct (decide _); [done|]. destruct (negb _); [done|]. destruct (_ <? _); [done|]. ok_bind Hq t Ht.
  destruct (negb _); [eapply good_store; [|exact Hq]; auto with cape|].
  ok_bind Hq d Hl. apply trend_loop_byte in Hl; [|done]. eapply good_store; [|exact Hq]. auto with cape.
Qed.

Lemma read_sep_tag_byte data o r : Forall is_byte data -> read_sep_tag data o = Ok r -> Forall is_byte r.2.
Proof.
  intros Hd Hr. unfold read_sep_tag in Hr. ok_bind Hr c Hc.
  destruct (_ || _); [|destruct (_ || _); [|destruct (_ =? _)]]; ok_bind Hr v Hv; simplify_eq/=; auto with cape.
Qed.

Definition sep_bytes (s : sep_state) : Prop := Forall is_byte (ss_data s) /\ Forall is_byte (bindata s).

Lemma sep_piece_byte tagdata s s' : sep_bytes s -> sep_piece tagdata s = Ok s' -> sep_bytes s'.
Proof.
  intros [Hd Hb] Hs. unfold sep_piece in Hs. ok_bind Hs data Hx.
  apply xor_loop_Forall in Hx as [Hd' _]; [|done|done].
  destruct (has_header s); [ok_bind Hs n Hn; ok_bind Hs z Hz|]; simplify_eq; (split; [done|]); cbn [bindata];
    rewrite Forall_app; auto with cape.
Qed.

Lemma sep_step_byte s s' : sep_bytes s -> sep_step s = Ok s' -> sep_bytes s'.
Proof.
  intros Hb Hs. unfold sep_step in Hs. ok_bind Hs tag Ht. destruct tag as [[[code len] v] d].
  destruct (code =? 9); [destruct (xor_next_container s)|destruct (_ && _)].
  - ok_bind Hs s1 H1. apply sep_piece_byte in H1; [|done]. by simplify_eq.
  - ok_bind Hs r Hr. unfold sep_container in Hr.
    destruct (decode_next_container s); [|destruct (_ =? _); [ok_bind Hr l Hl|destruct (_ =? _)]]; by simplify_eq.
  - by simplify_eq.
  - by simplify_eq.
Qed.

Lemma sep_loop_byte n : forall fs s s', sep_bytes s -> sep_loop n fs s = Ok s' -> sep_bytes s'.
Proof.
  induction n as [|n IH]; intros fs s s' Hb Hs; cbn [sep_loop] in Hs; [by simplify_eq|].
  ok_bind Hs s1 H1. apply sep_step_byte in H1; [|done]. destruct (_ =? _); [by simplify_eq|]. by eapply IH.
Qed.

Lemma sep_good data : Forall is_byte data -> good (sep_unquarantine data).
Proof.
  intros Hd q Hq. unfold sep_unquarantine in Hq. ok_bind Hq o Ho. destruct (negb _); [done|]. ok_bind Hq s Hs.
  apply sep_loop_byte in Hs as [_ Hb]; [|split; [by apply bytearray_xor_byte|constructor]].
  by eapply good_store; [|exact Hq].
Qed.

(** A text that is not empty has a line. *)
Lemma splitlines_aux_nonempty l : forall cur, cur <> [] \/ l <> [] -> splitlines_aux cur l <> [].
Proof.
  induction l as [|c l IH]; intros cur Hne; simpl; [destruct cur; naive_solver|].
  destruct (c =? 13); [done|]. destruct (c =? 10); [done|]. apply IH. by left.
Qed.


(** What the OLE package promises: the streams it reads are bytes. *)
Class streams_fine : Prop := stream_bytes data io name s :
  OleFileIO data = Ok io -> openstream io name = Ok s -> Forall is_byte s.

Lemma zip_lxor_byte ks : forall l, Forall is_byte ks -> Forall is_byte l -> Forall is_byte (zip_with Z.lxor ks l).
Proof.
  induction ks as [|k ks IH]; intros [|b l] Hk Hl; simpl; try constructor.
  - apply Forall_inv in Hk, Hl. auto with cape.
  - apply Forall_inv_tail in Hk, Hl. auto.
Qed.

Lemma mbam_good (Hmd : digest_fine) data : Forall is_byte data -> good (mbam_unquarantine data).
Proof.
  intros Hd. destruct (mbam_stream Hmd) as (box & Hb & ->). apply good_store.
  apply zip_lxor_byte; [by apply prga_byte|done].
Qed.

Lemma mse_good data : good (mse_unquarantine data).
Proof.
  intros q Hq. unfold mse_unquarantine in Hq. destruct (_ || _); [done|]. by rewrite mse_ksa_raises in Hq.
Qed.

Lemma xorff_good f data : Forall is_byte data -> good (xorff_unquarantine f data).
Proof. intros Hd. apply good_store. by apply bytearray_xor_byte. Qed.

Lemma decode_quarfiles_some io qs item body :
  (item, body) ∈ decode_quarfiles io qs -> exists s, openstream io item = Ok s /\ body = bytearray_xor s 0x6A.
Proof.
  unfold decode_quarfiles. rewrite list_elem_of_omap. intros (x & _ & Hx).
  destruct (openstream io x) as [s|] eqn:E; simplify_eq. by exists s.
Qed.

(** A file comes out only with the details of an empty stream. *)
Lemma mcafee_items_some io items : forall details qs q,
  (forall d, details = Some d -> exists raw, openstream io (B "Details") = Ok raw /\ d = bytearray_xor raw 0x6A) ->
  mcafee_items io details qs items = Ok (Some q) ->
  openstream io (B "Details") = Ok [] /\
  exists item s, openstream io item = Ok s /\ store_temp_file (bytearray_xor s 0x6A) (B "McAfeeDequarantineFile") = Ok q.
Proof.
  induction items as [|item items IH]; intros details qs q Hdet Hq; cbn [mcafee_items] in Hq; [done|].
  destruct (bool_decide _).
  - ok_bind Hq d Hd. apply IH in Hq; [done|]. intros d' E. injection E as <-. by exists d.
  - cbv zeta in Hq. set (qs' := qs ++ _) in Hq.
    destruct (decode_quarfiles io qs') as [|[i body] r] eqn:Er; [by apply IH in Hq|].
    ok_bind Hq d Hd. ok_bind Hq name Hname. destruct details as [d'|]; [|done].
    cbn [of_option] in Hd. injection Hd as <-. destruct (Hdet d' eq_refl) as (raw & Hraw & ->). destruct raw as [|b raw].
    + split; [done|]. destruct (decode_quarfiles_some io qs' i body) as (s & Hs & ->); [rewrite Er; apply list_elem_of_here|].
      exists i, s. split; [done|]. injection Hname as <-. unfold quarfile in Hq.
      destruct (store_temp_file _ _); [by injection Hq as <-|done].
    + exfalso. assert (Hne : splitlines (bytearray_xor (b :: raw) 0x6A) <> []) by (apply splitlines_aux_nonempty; by right).
      unfold original_name in Hname. by destruct (splitlines _).
Qed.

(** The McAfee decoder gives a file only when the stream with its details is
    empty, and then under a fixed name: with details, the search for the
    original name compares bytes with text and raises. *)
Theorem mcafee_needs_no_details data q :
  mcafee_unquarantine data = Ok (Some q) ->
  exists io item s, OleFileIO data = Ok io /\ openstream io (B "Details") = Ok [] /\ openstream io item = Ok s /\
    store_temp_file (bytearray_xor s 0x6A) (B "McAfeeDequarantineFile") = Ok q.
Proof.
  intros Hq. unfold mcafee_unquarantine in Hq. destruct (negb HAVE_OLEFILE); [done|]. destruct (negb _); [done|].
  ok_bind Hq io Hio. apply mcafee_items_some in Hq as (Hd & item & s & Hs & Hq); [|done]. by exists io, item, s.
Qed.

Lemma mcafee_good (Hst : streams_fine) data : good (mcafee_unquarantine data).
Proof.
  intros q Hq. unfold mcafee_unquarantine in Hq. destruct (negb HAVE_OLEFILE); [done|]. destruct (negb _); [done|].
  ok_bind Hq io Hio. apply mcafee_items_some in Hq as (Hd & item & s & Hs & Hq); [|done].
  eapply store_good; [|exact Hq]. apply bytearray_xor_byte; [by eapply stream_bytes|done].
Qed.

Lemma first_file_good l : Forall good l -> forall q, first_file l = Some q -> good_file q.
Proof.
  induction 1 as [|r l Hr Hl IH]; intros q Hq; simpl in Hq; [done|].
  destruct r as [[x|]|e]; [|by apply IH..]. injection Hq as <-. by apply Hr.
Qed.

Lemma first_file_last l r q : r = Ok (Some q) -> first_file (l ++ [r]) <> None.
Proof. intros ->. induction l as [|[[x|]|e] l IH]; done. Qed.

(** The decoders that are tried on a file whose name says nothing. *)
Definition tried (f : bytes) (data : list Z) : list (res (option stored)) :=
  [kav_unquarantine data; trend_unquarantine data; sep_unquarantine data; mse_unquarantine data; xorff_unquarantine f data].
Definition ext_of (f : bytes) : bytes := lower_ascii <$> extension (basename f).

Lemma xorff_fine (Hdisk : disk_fine) f data :
  valid_name (temp_name (basename f)) = true ->
  xorff_unquarantine f data = Ok (Some {| filedata := bytearray_xor data 0xFF; filename := temp_name (basename f) |}).
Proof. intros Hv. by apply (store_fine Hdisk). Qed.

Lemma unquarantine_good (Hmd : digest_fine) (Hst : streams_fine) f data q :
  Forall is_byte data -> unquarantine f data = Some q -> good_file q.
Proof.
  intros Hd. unfold unquarantine. fold (tried f data) (ext_of f).
  assert (Ha : forall q, first_file (tried f data) = Some q -> good_file q).
  { apply first_file_good. unfold tried.
    rewrite !Forall_cons; split_and!; auto using Forall_nil_2, kav_good, trend_good, sep_good, mse_good, xorff_good. }
  assert (Hn : forall q, match func_map (ext_of f) with
    | Some g => match g f data with Ok r => r | Raise _ => first_file (tried f data) end
    | None => first_file (tried f data) end = Some q -> good_file q).
  { intros x. unfold func_map. repeat case_bool_decide; [..|apply Ha].
    - pose proof (mbam_good Hmd data Hd x) as Hg. destruct (mbam_unquarantine data) as [r|e]; [|apply Ha]. intros ->. by apply Hg.
    - pose proof (xorff_good f data Hd x) as Hg. destruct (xorff_unquarantine f data) as [r|e]; [|apply Ha]. intros ->. by apply Hg.
    - pose proof (mcafee_good Hst data x) as Hg. destruct (mcafee_unquarantine data) as [r|e]; [|apply Ha]. intros ->. by apply Hg. }
  destruct (_ || _); [|apply Hn]. pose proof (mcafee_good Hst data q) as Hg.
  destruct (mcafee_unquarantine data) as [r|e]; [|apply Hn]. intros ->. by apply Hg.
Qed.

(** When no file comes out. *)
Lemma unquarantine_none (Hmd : digest_fine) (Hdisk : disk_fine) f data :
  unquarantine f data = None ->
  (mcafee_unquarantine data = Ok None /\ (ext_of f = B ".bup" \/ ext_of f = B ".but" \/ isOleFile data = true))
  \/ valid_name (temp_name (basename f)) = false.
Proof.
  intros H. destruct (valid_name _) eqn:Ev; [left|by right]. revert H.
  unfold unquarantine. fold (tried f data) (ext_of f).
  assert (Ha : first_file (tried f data) <> None)
    by (apply (first_file_last [_; _; _; _] (xorff_unquarantine f data) _ (xorff_fine Hdisk f data Ev))).
  destruct (bool_decide (ext_of f = B ".bup") || _) eqn:Eo.
  - assert (ext_of f = B ".bup" \/ isOleFile data = true) as Ho.
    { apply orb_true_elim in Eo as [E|[_ E]%andb_true_iff]; [left; by apply bool_decide_eq_true in E|by right]. }
    destruct (mcafee_unquarantine data) as [r|e] eqn:Em; [intros ->; split; [done|tauto]|].
    unfold func_map. destruct (bool_decide (ext_of f = B ".quar")); [|destruct (bool_decide (ext_of f = B ".mal"));
      [|destruct (bool_decide (ext_of f = B ".but")) eqn:Eb; [|done]]].
    + destruct (mbam_stream Hmd) as (box & _ & ->). by rewrite (store_fine Hdisk).
    + by rewrite (xorff_fine Hdisk).
    + by rewrite Em.
  - unfold func_map. destruct (bool_decide (ext_of f = B ".quar")); [|destruct (bool_decide (ext_of f = B ".mal"));
      [|destruct (bool_decide (ext_of f = B ".but")) eqn:Eb; [|done]]].
    + destruct (mbam_stream Hmd) as (box & _ & ->). by rewrite (store_fine Hdisk).
    + by rewrite (xorff_fine Hdisk).
    + apply bool_decide_eq_true in Eb. destruct (mcafee_unquarantine data) as [r|e] eqn:Em; [intros ->; split; [done|tauto]|done].
Qed.

Lemma unquarantine_plain f data :
  isOleFile data = false -> ext_of f ∉ [B ".bup"; B ".quar"; B ".mal"; B ".but"] ->
  unquarantine f data = first_file (tried f data).
Proof using Type.
  rewrite !not_elem_of_cons. intros Ho (E1 & E2 & E3 & E4 & _). unfold unquarantine. fold (tried f data) (ext_of f).
  rewrite Ho, andb_false_r, bool_decide_false by done. cbn [orb]. unfold func_map. by rewrite !bool_decide_false.
Qed.

Lemma trend_encode_first t : exists rest, (6 <= length rest)%nat /\
  trend_encode t = bytearray_xor (le_bytes 4 0x58425356) 0xFF ++ rest.
Proof.
  unfold trend_encode, trend_clear. rewrite <- !app_assoc. unfold bytearray_xor at 1. rewrite fmap_app. eexists. split; [|reflexivity].
  rewrite length_fmap, !length_app, !le_bytes_length. lia.
Qed.

End formats.

(** ** Witnesses *)

Module QuarantineExamples.
(** A digest of sixteen bytes and an OLE package that knows one file. *)
Definition one_ole : ole :=
  {| listdir := [[B "Details"]; [B "File_0"]];
     openstream n := if bool_decide (n = B "Details") then Ok [] else Ok [1; 2; 3] |}.
Instance some_outside : outside :=
  {| md5 m := le_bytes 16 (zlen m); HAVE_OLEFILE := true; isOleFile d := bool_decide (head d = Some 208);
     OleFileIO _ := Ok one_ole; store_raises _ _ := None |}.
Lemma some_disk : disk_fine.
Proof. intros n d. done. Qed.
Lemma some_digest : digest_fine.
Proof. intros m. done. Qed.
Lemma some_streams : streams_fine.
Proof.
  intros d io n s Hio Hs. injection Hio as <-. simpl in Hs. unfold is_byte. case_bool_decide; simplify_eq; repeat constructor; lia.
Qed.

Definition kav_example : kav_file :=
  {| kf_a := [1; 2; 3; 4]; kf_b := [0; 0; 0; 0]; kf_c := replicate 12 7; kf_d := replicate 12 9; kf_e := [5; 5];
     kf_body := [77; 90; 144; 0; 3; 0; 0; 0; 4; 0]; kf_gap := [1];
     kf_metas := [[2; 0; 0; 0; 65; 66]; le_bytes 4 15 ++ (byte_val <$> B "cNP_QB_FULLNAME") ++ [67; 58]]; kf_tail := [0] |}.
Definition trend_example : trend_file :=
  {| tf_tags := [(6, [1; 2; 3; 4]); (7, [2; 0; 0; 0])]; tf_pad := [9]; tf_body := [77; 90; 144; 0; 3; 0; 0];
     tf_key := Some 0x04030201 |}.
Definition sep_example : sep_file :=
  {| sf_junk := replicate 4788 65; sf_pres := [PreSmall 6 1; PreHash (replicate 16 3); PreOpen 40; PreBlob 8 [88]];
     sf_total := 100; sf_header := Some {| sh_a := replicate 8 1; sh_n := 0; sh_b := replicate 16 2; sh_size := 5; sh_c := replicate 8 0 |};
     sf_first := [77; 90; 144]; sf_parts := [[1; 2]; [3; 4]] |}.
End QuarantineExamples.
Import QuarantineExamples.

Lemma rc4_decrypt_prga_witness :
  rc4_decrypt (PyList identity_box) [1; 2; 3] = Ok (zip_with Z.lxor (prga identity_box 0 0 3) [1; 2; 3]).
Proof. apply (rc4_decrypt_prga identity_box [1; 2; 3] identity_box_ok). Defined.

Lemma mbam_roundtrip_witness :
  exists q, mbam_unquarantine [77; 90; 144] = Ok (Some q) /\ length (filedata q) = 3%nat /\
    mbam_unquarantine (filedata q) = Ok (Some {| filedata := [77; 90; 144]; filename := B "MBAMDequarantineFile" |}).
Proof. apply (mbam_roundtrip some_digest some_disk [77; 90; 144]). Defined.

Lemma kav_roundtrip_witness :
  kav_unquarantine (kav_encode kav_example) =
  quarfile (store_temp_file [77; 90; 144; 0; 3; 0; 0; 0; 4; 0] (B "KAVDequarantineFile")).
Proof.
  apply (kav_roundtrip kav_example). unfold kav_wf. split_and!; try done.
  repeat constructor; done.
Defined.

Lemma trend_roundtrip_witness :
  trend_unquarantine (trend_encode trend_example) =
  quarfile (store_temp_file [77; 90; 144; 0; 3; 0; 0] (B "UnknownTrendFile.bin")).
Proof.
  apply (trend_roundtrip trend_example). unfold trend_wf. split_and!; try done.
  - repeat constructor; done.
  - intros t Ht. vm_compute in Ht. injection Ht as <-. done.
Defined.

Lemma sep_roundtrip_witness :
  sep_unquarantine (sep_encode sep_example) =
  quarfile (store_temp_file [77; 90; 144; 1; 2] (sep_origname sep_example)).
Proof.
  apply (sep_roundtrip sep_example). unfold sep_wf. split_and!; try done.
  - repeat apply Forall_cons_2; [..|apply Forall_nil_2]; simpl; unfold sep_small_code, is_byte; split_and?; try done; lia.
  - repeat constructor; done.
  - unfold sep_limit. simpl. lia.
Defined.

Lemma mcafee_needs_no_details_witness :
  exists io item s, OleFileIO [208; 207] = Ok io /\ openstream io (B "Details") = Ok [] /\ openstream io item = Ok s /\
    store_temp_file (bytearray_xor s 0x6A) (B "McAfeeDequarantineFile") =
    Ok {| filedata := [107; 104; 105]; filename := B "McAfeeDequarantineFile" |}.
Proof.
  apply (mcafee_needs_no_details [208; 207] {| filedata := [107; 104; 105]; filename := B "McAfeeDequarantineFile" |}). vm_compute. done.
Defined.

Lemma kav_example_wf : kav_wf kav_example.
Proof. unfold kav_wf. split_and!; try done. repeat constructor; done. Qed.

