(* ===== verification/PrettyTables.v ===== *)
(** The tables of lib/cuckoo/common/utils_dicts.py: values of Windows constants
    with their names, in the order of the source. *)
From S2P Require Import Prelude.
Open Scope string_scope.
Open Scope Z_scope.

Definition DispositionDict : list (Z * string) :=
  [(1, "REG_CREATED_NEW_KEY"); (2, "REG_OPENED_EXISTING_KEY")].

Definition ClsContextDict : list (string * Z) :=
  [("CLSCTX_INPROC_SERVER", 1); ("CLSCTX_INPROC_HANDLER", 2); ("CLSCTX_LOCAL_SERVER", 4);
   ("CLSCTX_INPROC_SERVER16", 8); ("CLSCTX_REMOTE_SERVER", 0x10); ("CLSCTX_INPROC_HANDLER16", 0x20);
   ("CLSCTX_NO_CODE_DOWNLOAD", 0x400); ("CLSCTX_NO_CUSTOM_MARSHAL", 0x1000);
   ("CLSCTX_ENABLE_CODE_DOWNLOAD", 0x2000); ("CLSCTX_NO_FAILURE_LOG", 0x4000); ("CLSCTX_DISABLE_AAA", 0x8000);
   ("CLSCTX_ENABLE_AAA", 0x10000); ("CLSCTX_FROM_DEFAULT_CONTEXT", 0x20000);
   ("CLSCTX_ACTIVATE_32_BIT_SERVER", 0x40000); ("CLSCTX_ACTIVATE_64_BIT_SERVER", 0x80000);
   ("CLSCTX_ENABLE_CLOAKING", 0x100000); ("CLSCTX_APPCONTAINER", 0x400000);
   ("CLSCTX_ACTIVATE_AAA_AS_IU", 0x800000); ("CLSCTX_PS_DLL", 0x80000000)].

Definition BlobTypeDict : list (Z * string) :=
  [(1, "SIMPLEBLOB"); (6, "PUBLICKEYBLOB"); (7, "PRIVATEKEYBLOB"); (8, "PLAINTEXTKEYBLOB");
   (9, "OPAQUEKEYBLOB"); (0xa, "PUBLICKEYBLOBEX"); (0xb, "SYMMETRICWRAPKEYBLOB"); (0xc, "KEYSTATEBLOB")].

Definition AlgidDict : list (Z * string) :=
  [(1, "AT_KEYEXCHANGE"); (2, "AT_SIGNATURE"); (0x8001, "MD2"); (0x8002, "MD4"); (0x8003, "MD5");
   (0x8004, "SHA1"); (0x800c, "SHA_256"); (0x800d, "SHA_384"); (0x800e, "SHA_512"); (0x8005, "MAC");
   (0x8009, "HMAC"); (0x2400, "RSA Public Key Signature"); (0x2200, "DSA Public Key Signature");
   (0xa400, "RSA Public Key Exchange"); (0x6602, "RC2"); (0x6801, "RC4"); (0x660d, "RC5"); (0x6601, "DES");
   (0x6603, "3DES"); (0x6604, "DESX"); (0x6609, "Two-key 3DES"); (0x6611, "AES"); (0x660e, "AES_128");
   (0x660f, "AES_192"); (0x6610, "AES_256"); (0xaa03, "AGREEDKEY_ANY"); (0x660c, "CYLINK_MEK");
   (0xaa02, "DH_EPHEM"); (0xaa01, "DH_SF"); (0xaa05, "ECDH"); (0x2203, "ECDSA"); (0xa001, "ECMQV");
   (0x800b, "HASH_REPLACE_OWF"); (0xa003, "HUGHES_MD5"); (0x2000, "NO_SIGN")].

Definition FolderDict : list (Z * string) :=
  [(0, "CSIDL_DESKTOP"); (1, "CSIDL_INTERNET"); (2, "CSIDL_PROGRAMS"); (3, "CSIDL_CONTROLS");
   (4, "CSIDL_PRINTERS"); (5, "CSIDL_MYDOCUMENTS"); (6, "CSIDL_FAVORITES"); (7, "CSIDL_STARTUP");
   (8, "CSIDL_RECENT"); (9, "CSIDL_SENDTO"); (0xa, "CSIDL_BITBUCKET"); (0xb, "CSIDL_STARTMENU");
   (0xd, "CSIDL_MYMUSIC"); (0xe, "CSIDL_MYVIDEO"); (0x10, "CSIDL_DESKTOPDIRECTORY"); (0x11, "CSIDL_DRIVES");
   (0x12, "CSIDL_NETWORK"); (0x13, "CSIDL_NETHOOD"); (0x14, "CSIDL_FONTS"); (0x15, "CSIDL_TEMPLATES");
   (0x16, "CSIDL_COMMON_STARTMENU"); (0x17, "CSIDL_COMMON_PROGRAMS"); (0x18, "CSIDL_COMMON_STARTUP");
   (0x19, "CSIDL_COMMON_DESKTOPDIRECTORY"); (0x1a, "CSIDL_APPDATA"); (0x1b, "CSIDL_PRINTHOOD");
   (0x1c, "CSIDL_LOCAL_APPDATA"); (0x1d, "CSIDL_ALTSTARTUP"); (0x1e, "CSIDL_COMMON_ALTSTARTUP");
   (0x1f, "CSIDL_COMMON_FAVORITES"); (0x20, "CSIDL_INTERNET_CACHE"); (0x21, "CSIDL_COOKIES");
   (0x22, "CSIDL_HISTORY"); (0x23, "CSIDL_COMMON_APPDATA"); (0x24, "CSIDL_WINDOWS"); (0x25, "CSIDL_SYSTEM");
   (0x26, "CSIDL_PROGRAM_FILES"); (0x27, "CSIDL_MYPICTURES"); (0x28, "CSIDL_PROFILE");
   (0x29, "CSIDL_SYSTEMX86"); (0x2a, "CSIDL_PROGRAM_FILESX86"); (0x2b, "CSIDL_PROGRAM_FILES_COMMON");
   (0x2c, "CSIDL_PROGRAM_FILES_COMMONX86"); (0x2d, "CSIDL_COMMON_TEMPLATES"); (0x2e, "CSIDL_COMMON_DOCUMENTS");
   (0x2f, "CSIDL_COMMON_ADMINTOOLS"); (0x30, "CSIDL_ADMINTOOLS"); (0x31, "CSIDL_CONNECTIONS");
   (0x35, "CSIDL_COMMON_MUSIC"); (0x36, "CSIDL_COMMON_PICTURES"); (0x37, "CSIDL_COMMON_VIDEO");
   (0x38, "CSIDL_RESOURCES"); (0x39, "CSIDL_RESOURCES_LOCALIZED"); (0x3a, "CSIDL_COMMON_OEM_LINKS");
   (0x3b, "CSIDL_CDBURN_AREA"); (0x3d, "CSIDL_COMPUTERSNEARME")].

Definition HookIdentifierDict : list (Z * string) :=
  [(0xffffffff, "WH_MSGFILTER"); (0, "WH_JOURNALRECORD"); (1, "WH_JOURNALPLAYBACK"); (2, "WH_KEYBOARD");
   (3, "WH_GETMESSAGE"); (4, "WH_CALLWNDPROC"); (5, "WH_CBT"); (6, "WH_SYSMSGFILTER"); (7, "WH_MOUSE");
   (8, "WH_HARDWARE"); (9, "WH_DEBUG"); (0xa, "WH_SHELL"); (0xb, "WH_FOREGROUNDIDLE");
   (0xc, "WH_CALLWNDPROCRET"); (0xd, "WH_KEYBOARD_LL"); (0xe, "WH_MOUSE_LL")].

Definition InfoLevelDict : list (Z * string) :=
  [(1, "HTTP_QUERY_CONTENT_TYPE"); (5, "HTTP_QUERY_CONTENT_LENGTH"); (6, "HTTP_QUERY_CONTENT_LANGUAGE");
   (9, "HTTP_QUERY_DATE"); (0xa, "HTTP_QUERY_EXPIRES"); (0x12, "HTTP_QUERY_VERSION");
   (0x15, "HTTP_QUERY_RAW_HEADERS")].

Definition CreateDispositionDict : list (Z * string) :=
  [(0, "FILE_SUPERSEDE"); (1, "FILE_OPEN"); (2, "FILE_CREATE"); (3, "FILE_OPEN_IF"); (4, "FILE_OVERWRITE");
   (5, "FILE_OVERWRITE_IF")].

Definition SystemInformationClassDict : list (Z * string) :=
  [(0, "FILE_SUPERSEDE"); (1, "FILE_OPEN"); (2, "FILE_CREATE"); (3, "FILE_OPEN_IF"); (4, "FILE_OVERWRITE");
   (5, "FILE_OVERWRITE_IF")].

Definition RegistryTypeDict : list (Z * string) :=
  [(0, "REG_NONE"); (1, "REG_SZ"); (2, "REG_EXPAND_SZ"); (3, "REG_BINARY"); (4, "REG_DWORD");
   (5, "REG_DWORD_BIG_ENDIAN"); (6, "REG_LINK"); (7, "REG_MULTI_SZ"); (8, "REG_RESOURCE_LIST");
   (9, "REG_FULL_RESOURCE_DESCRIPTOR"); (0xa, "REG_RESOURCE_REQUIREMENTS_LIST"); (0xb, "REG_QWORD")].

Definition ServicesControlCodeDict : list (Z * string) :=
  [(1, "SERVICE_CONTROL_STOP"); (2, "SERVICE_CONTROL_PAUSE"); (3, "SERVICE_CONTROL_CONTINUE");
   (4, "SERVICE_CONTROL_INTERROGATE"); (6, "SERVICE_CONTROL_PARAMCHANGE"); (7, "SERVICE_CONTROL_NETBINDADD");
   (8, "SERVICE_CONTROL_NETBINDREMOVE"); (9, "SERVICE_CONTROL_NETBINDENABLE");
   (0xa, "SERVICE_CONTROL_NETBINDDISABLE")].

Definition ServicesErrorControlDict : list (Z * string) :=
  [(0, "SERVICE_ERROR_IGNORE"); (1, "SERVICE_ERROR_NORMAL"); (2, "SERVICE_ERROR_SEVERE");
   (3, "SERVICE_ERROR_CRITICAL")].

Definition ServicesStartTypeDict : list (Z * string) :=
  [(0, "SERVICE_BOOT_START"); (1, "SERVICE_SYSTEM_START"); (2, "SERVICE_AUTO_START");
   (3, "SERVICE_DEMAND_START"); (4, "SERVICE_DISABLED")].

Definition ServicesServiceTypeDict : list (Z * string) :=
  [(1, "SERVICE_KERNEL_DRIVER"); (2, "SERVICE_FILE_SYSTEM_DRIVER"); (4, "SERVICE_ADAPTER");
   (8, "SERVICE_RECOGNIZED_DRIVER"); (0x10, "SERVICE_WIN32_OWN_PROCESS");
   (0x20, "SERVICE_WIN32_SHARE_PROCESS")].

Definition IoControlCodeDict : list (Z * string) :=
  [(0x1200b, "IOCTL_AFD_START_LISTEN"); (0x12010, "IOCTL_AFD_ACCEPT"); (0x1201b, "IOCTL_AFD_RECV_DATAGRAM");
   (0x12024, "IOCTL_AFD_SELECT"); (0x12023, "IOCTL_AFD_SEND_DATAGRAM"); (0x1207b, "IOCTL_AFD_GET_INFO");
   (0x1203b, "IOCTL_AFD_SET_INFO"); (0x12047, "IOCTL_AFD_SET_CONTEXT"); (0x12003, "IOCTL_AFD_BIND");
   (0x12007, "IOCTL_AFD_CONNECT"); (0x1202b, "IOCTL_AFD_DISCONNECT"); (0x120bf, "IOCTL_AFD_DEFER_ACCEPT");
   (0x12017, "IOCTL_AFD_RECV"); (0x1201f, "IOCTL_AFD_SEND"); (0x1202f, "IOCTL_AFD_GET_SOCK_NAME");
   (0x12087, "IOCTL_AFD_EVENT_SELECT"); (0x1208b, "IOCTL_AFD_ENUM_NETWORK_EVENTS");
   (0x4d008, "IOCTL_SCSI_MINIPORT"); (0x4d014, "IOCTL_SCSI_PASS_THROUGH_DIRECT");
   (0x70000, "IOCTL_DISK_GET_DRIVE_GEOMETRY"); (0x700a0, "IOCTL_DISK_GET_DRIVE_GEOMETRY_EX");
   (0x7405c, "IOCTL_DISK_GET_LENGTH_INFO"); (0x90018, "FSCTL_LOCK_VOLUME"); (0x9001c, "FSCTL_UNLOCK_VOLUME");
   (0x900a8, "FSCTL_GET_REPARSE_POINT"); (0x2d0c10, "IOCTL_STORAGE_GET_MEDIA_SERIAL_NUMBER");
   (0x2d1080, "IOCTL_STORAGE_GET_DEVICE_NUMBER"); (0x2d1400, "IOCTL_STORAGE_QUERY_PROPERTY");
   (0x398000, "IOCTL_KSEC_REGISTER_LSA_PROCESS"); (0x390004, "IOCTL_KSEC_1");
   (0x390008, "IOCTL_KSEC_RANDOM_FILL_BUFFER"); (0x39000e, "IOCTL_KSEC_ENCRYPT_PROCESS");
   (0x390012, "IOCTL_KSEC_DECRYPT_PROCESS"); (0x390016, "IOCTL_KSEC_ENCRYPT_CROSS_PROCESS");
   (0x39001a, "IOCTL_KSEC_DECRYPT_CROSS_PROCESS"); (0x39001e, "IOCTL_KSEC_ENCRYPT_SAME_LOGON");
   (0x390022, "IOCTL_KSEC_DECRYPT_SAME_LOGON"); (0x390038, "IOCTL_KSEC_REGISTER_EXTENSION");
   (0x4d0008, "IOCTL_MOUNTDEV_QUERY_DEVICE_NAME"); (0x560000, "IOCTL_VOLUME_GET_VOLUME_DISK_EXTENTS");
   (0x6d0008, "IOCTL_MOUNTMGR_QUERY_POINTS"); (0x6d0030, "IOCTL_MOUNTMGR_QUERY_DOS_VOLUME_PATH");
   (0x6d0034, "IOCTL_MOUNTMGR_QUERY_DOS_VOLUME_PATHS")].

Definition CoInternetSetFeatureEnabledDict : list (Z * string) :=
  [(0, "FEATURE_OBJECT_CACHING"); (1, "FEATURE_ZONE_ELEVATION"); (2, "FEATURE_MIME_HANDLING");
   (3, "FEATURE_MIME_SNIFFING"); (4, "FEATURE_WINDOW_RESTRICTIONS"); (5, "FEATURE_WEBOC_POPUPMANAGEMENT");
   (6, "FEATURE_BEHAVIORS"); (7, "FEATURE_DISABLE_MK_PROTOCOL"); (8, "FEATURE_LOCALMACHINE_LOCKDOWN");
   (9, "FEATURE_SECURITYBAND"); (0xa, "FEATURE_RESTRICT_ACTIVEXINSTALL");
   (0xb, "FEATURE_VALIDATE_NAVIGATE_URL"); (0xc, "FEATURE_RESTRICT_FILEDOWNLOAD");
   (0xd, "FEATURE_ADDON_MANAGEMENT"); (0xe, "FEATURE_PROTOCOL_LOCKDOWN");
   (0xf, "FEATURE_HTTP_USERNAME_PASSWORD_DISABLE"); (0x10, "FEATURE_SAFE_BINDTOOBJECT");
   (0x11, "FEATURE_UNC_SAVEDFILECHECK"); (0x12, "FEATURE_GET_URL_DOM_FILEPATH_UNENCODED");
   (0x13, "FEATURE_TABBED_BROWSING"); (0x14, "FEATURE_SSLUX"); (0x15, "FEATURE_DISABLE_NAVIGATION_SOUNDS");
   (0x16, "FEATURE_DISABLE_LEGACY_COMPRESSION"); (0x17, "FEATURE_FORCE_ADDR_AND_STATUS");
   (0x18, "FEATURE_XMLHTTP"); (0x19, "FEATURE_DISABLE_TELNET_PROTOCOL"); (0x1a, "FEATURE_FEEDS");
   (0x1b, "FEATURE_BLOCK_INPUT_PROMPTS")].

Definition InternetSetOptionADict : list (Z * string) :=
  [(1, "INTERNET_OPTION_CALLBACK"); (2, "INTERNET_OPTION_CONNECT_TIMEOUT");
   (3, "INTERNET_OPTION_CONNECT_RETRIES"); (4, "INTERNET_OPTION_CONNECT_BACKOFF");
   (5, "INTERNET_OPTION_SEND_TIMEOUT"); (6, "INTERNET_OPTION_RECEIVE_TIMEOUT");
   (7, "INTERNET_OPTION_DATA_SEND_TIMEOUT"); (8, "INTERNET_OPTION_DATA_RECEIVE_TIMEOUT");
   (9, "INTERNET_OPTION_HANDLE_TYPE"); (0xb, "INTERNET_OPTION_LISTEN_TIMEOUT");
   (0xc, "INTERNET_OPTION_READ_BUFFER_SIZE"); (0xd, "INTERNET_OPTION_WRITE_BUFFER_SIZE");
   (0xf, "INTERNET_OPTION_ASYNC_ID"); (0x10, "INTERNET_OPTION_ASYNC_PRIORITY");
   (0x15, "INTERNET_OPTION_PARENT_HANDLE"); (0x16, "INTERNET_OPTION_KEEP_CONNECTION");
   (0x17, "INTERNET_OPTION_REQUEST_FLAGS"); (0x18, "INTERNET_OPTION_EXTENDED_ERROR");
   (0x1a, "INTERNET_OPTION_OFFLINE_MODE"); (0x1b, "INTERNET_OPTION_CACHE_STREAM_HANDLE");
   (0x1c, "INTERNET_OPTION_USERNAME"); (0x1d, "INTERNET_OPTION_PASSWORD"); (0x1e, "INTERNET_OPTION_ASYNC");
   (0x1f, "INTERNET_OPTION_SECURITY_FLAGS"); (0x20, "INTERNET_OPTION_SECURITY_CERTIFICATE_STRUCT");
   (0x21, "INTERNET_OPTION_DATAFILE_NAME"); (0x22, "INTERNET_OPTION_URL");
   (0x23, "INTERNET_OPTION_SECURITY_CERTIFICATE"); (0x24, "INTERNET_OPTION_SECURITY_KEY_BITNESS");
   (0x25, "INTERNET_OPTION_REFRESH"); (0x26, "INTERNET_OPTION_PROXY");
   (0x27, "INTERNET_OPTION_SETTINGS_CHANGED"); (0x28, "INTERNET_OPTION_VERSION");
   (0x29, "INTERNET_OPTION_USER_AGENT"); (0x2a, "INTERNET_OPTION_END_BROWSER_SESSION");
   (0x2b, "INTERNET_OPTION_PROXY_USERNAME"); (0x2c, "INTERNET_OPTION_PROXY_PASSWORD");
   (0x2d, "INTERNET_OPTION_CONTEXT_VALUE"); (0x2e, "INTERNET_OPTION_CONNECT_LIMIT");
   (0x2f, "INTERNET_OPTION_SECURITY_SELECT_CLIENT_CERT"); (0x30, "INTERNET_OPTION_POLICY");
   (0x31, "INTERNET_OPTION_DISCONNECTED_TIMEOUT"); (0x32, "INTERNET_OPTION_CONNECTED_STATE");
   (0x33, "INTERNET_OPTION_IDLE_STATE"); (0x34, "INTERNET_OPTION_OFFLINE_SEMANTICS");
   (0x35, "INTERNET_OPTION_SECONDARY_CACHE_KEY"); (0x36, "INTERNET_OPTION_CALLBACK_FILTER");
   (0x37, "INTERNET_OPTION_CONNECT_TIME"); (0x38, "INTERNET_OPTION_SEND_THROUGHPUT");
   (0x39, "INTERNET_OPTION_RECEIVE_THROUGHPUT"); (0x3a, "INTERNET_OPTION_REQUEST_PRIORITY");
   (0x3b, "INTERNET_OPTION_HTTP_VERSION"); (0x3c, "INTERNET_OPTION_RESET_URLCACHE_SESSION");
   (0x3e, "INTERNET_OPTION_ERROR_MASK"); (0x3f, "INTERNET_OPTION_FROM_CACHE_TIMEOUT");
   (0x40, "INTERNET_OPTION_BYPASS_EDITED_ENTRY"); (0x41, "INTERNET_OPTION_HTTP_DECODING");
   (0x43, "INTERNET_OPTION_DIAGNOSTIC_SOCKET_INFO"); (0x44, "INTERNET_OPTION_CODEPAGE");
   (0x45, "INTERNET_OPTION_CACHE_TIMESTAMPS"); (0x46, "INTERNET_OPTION_DISABLE_AUTODIAL");
   (0x49, "INTERNET_OPTION_MAX_CONNS_PER_SERVER"); (0x4a, "INTERNET_OPTION_MAX_CONNS_PER_1_0_SERVER");
   (0x4b, "INTERNET_OPTION_PER_CONNECTION_OPTION"); (0x4c, "INTERNET_OPTION_DIGEST_AUTH_UNLOAD");
   (0x4d, "INTERNET_OPTION_IGNORE_OFFLINE"); (0x4e, "INTERNET_OPTION_IDENTITY");
   (0x4f, "INTERNET_OPTION_REMOVE_IDENTITY"); (0x50, "INTERNET_OPTION_ALTER_IDENTITY");
   (0x51, "INTERNET_OPTION_SUPPRESS_BEHAVIOR"); (0x52, "INTERNET_OPTION_AUTODIAL_MODE");
   (0x53, "INTERNET_OPTION_AUTODIAL_CONNECTION"); (0x54, "INTERNET_OPTION_CLIENT_CERT_CONTEXT");
   (0x55, "INTERNET_OPTION_AUTH_FLAGS"); (0x56, "INTERNET_OPTION_COOKIES_3RD_PARTY");
   (0x57, "INTERNET_OPTION_DISABLE_PASSPORT_AUTH"); (0x58, "INTERNET_OPTION_SEND_UTF8_SERVERNAME_TO_PROXY");
   (0x59, "INTERNET_OPTION_EXEMPT_CONNECTION_LIMIT"); (0x5a, "INTERNET_OPTION_ENABLE_PASSPORT_AUTH");
   (0x5b, "INTERNET_OPTION_HIBERNATE_INACTIVE_WORKER_THREADS");
   (0x5c, "INTERNET_OPTION_ACTIVATE_WORKER_THREADS"); (0x5d, "INTERNET_OPTION_RESTORE_WORKER_THREAD_DEFAULTS");
   (0x5e, "INTERNET_OPTION_SOCKET_SEND_BUFFER_LENGTH"); (0x5f, "INTERNET_OPTION_PROXY_SETTINGS_CHANGED");
   (0x60, "INTERNET_OPTION_DATAFILE_EXT"); (0x64, "INTERNET_OPTION_CODEPAGE_PATH");
   (0x65, "INTERNET_OPTION_CODEPAGE_EXTRA"); (0x66, "INTERNET_OPTION_IDN");
   (0x67, "INTERNET_OPTION_MAX_CONNS_PER_PROXY"); (0x68, "INTERNET_OPTION_SUPPRESS_SERVER_AUTH");
   (0x69, "INTERNET_OPTION_SERVER_CERT_CHAIN_CONTEXT")].

Definition afWSASocketDict : list (Z * string) :=
  [(0, "AF_UNSPEC"); (2, "AF_INET"); (6, "AF_IPX"); (0x10, "AF_APPLETALK"); (0x11, "AF_NETBIOS");
   (0x17, "AF_INET6"); (0x1a, "AF_IRDA"); (0x20, "AF_BTH")].

Definition protocolWSASocketDict : list (Z * string) :=
  [(1, "IPPROTO_ICMP"); (2, "IPPROTO_IGMP"); (3, "BTHPROTO_RFCOMM"); (6, "IPPROTO_TCP"); (0x11, "IPPROTO_UDP");
   (0x3a, "IPPROTO_ICMPV6"); (0x71, "IPPROTO_RM")].

Definition FileInformationClassDict : list (Z * string) :=
  [(1, "FileDirectoryInformation"); (2, "FileFullDirectoryInformation"); (3, "FileBothDirectoryInformation");
   (4, "FileBasicInformation"); (5, "FileStandardInformation"); (6, "FileInternalInformation");
   (7, "FileEaInformation"); (8, "FileAccessInformation"); (9, "FileNameInformation");
   (0xa, "FileRenameInformation"); (0xb, "FileLinkInformation"); (0xc, "FileNamesInformation");
   (0xd, "FileDispositionInformation"); (0xe, "FilePositionInformation"); (0xf, "FileFullEaInformation");
   (0x10, "FileModeInformation"); (0x11, "FileAlignmentInformation"); (0x12, "FileAllInformation");
   (0x13, "FileAllocationInformation"); (0x14, "FileEndOfFileInformation");
   (0x15, "FileAlternativeNameInformation"); (0x16, "FileStreamInformation"); (0x17, "FilePipeInformation");
   (0x18, "FilePipeLocalInformation"); (0x19, "FilePipeRemoteInformation");
   (0x1a, "FileMailslotQueryInformation"); (0x1b, "FileMailslotSetInformation");
   (0x1c, "FileCompressionInformation"); (0x1d, "FileObjectIdInformation");
   (0x1e, "FileCompletionInformation"); (0x1f, "FileMoveClusterInformation"); (0x20, "FileQuotaInformation");
   (0x21, "FileReparsePointInformation"); (0x22, "FileNetworkOpenInformation");
   (0x23, "FileAttributeTagInformation"); (0x24, "FileTrackingInformation");
   (0x25, "FileIdBothDirectoryInformation"); (0x26, "FileIdFullDirectoryInformation");
   (0x27, "FileShortNameInformation"); (0x28, "FileIoCompletionNotificationInformation");
   (0x29, "FileIoStatusBlockRangeInformation"); (0x2a, "FileIoPriorityHintInformation");
   (0x2b, "FileSfioReserveInformation"); (0x2c, "FileSfioVolumeInformation");
   (0x2d, "FileHardLinkInformation"); (0x2e, "FileProcessIdsUsingFileInformation");
   (0x2f, "FileNormalizedNameInformation"); (0x30, "FileNetworkPhysicalNameInformation");
   (0x31, "FileIdGlobalTxDirectoryInformation"); (0x32, "FileIsRemoteDeviceInformation");
   (0x33, "FileAttributeCacheInformation"); (0x34, "FileNumaNodeInformation");
   (0x35, "FileStandardLinkInformation"); (0x36, "FileRemoteProtocolInformation");
   (0x37, "FileReplaceCompletionInformation"); (0x38, "FileMaximumInformation")].

Definition ProcessInformationClassDict : list (Z * string) :=
  [(0, "ProcessBasicInformation"); (7, "ProcessDebugPort"); (0x1d, "ProcessBreakOnTermination");
   (0x1e, "ProcessDebugObjectHandle"); (0x1f, "ProcessDebugFlags"); (0x22, "ProcessExecuteFlags")].

Definition ThreadInformationClassDict : list (Z * string) :=
  [(0, "ThreadBasicInformation"); (0x11, "ThreadHideFromDebugger")].

Definition MemTypeDict : list (Z * string) :=
  [(0x20000, "MEM_PRIVATE"); (0x40000, "MEM_MAPPED"); (0x1000000, "MEM_IMAGE")].

Definition ShowDict : list (Z * string) :=
  [(0, "SW_HIDE"); (1, "SW_SHOWNORMAL"); (2, "SW_SHOWMINIMIZED"); (3, "SW_SHOWMAXIMIZED");
   (4, "SW_SHOWNOACTIVATE"); (5, "SW_SHOW"); (6, "SW_MINIMIZE"); (7, "SW_SHOWMINNOACTIVE"); (8, "SW_SHOWNA");
   (9, "SW_RESTORE"); (0xa, "SW_SHOWDEFAULT"); (0xb, "SW_FORCEMINIMIZE")].

Definition RegistryDict : list (Z * string) :=
  [(0x80000000, "HKEY_CLASSES_ROOT"); (0x80000001, "HKEY_CURRENT_USER"); (0x80000002, "HKEY_LOCAL_MACHINE");
   (0x80000003, "HKEY_USERS"); (0x80000004, "HKEY_PERFORMANCE_DATA"); (0x80000005, "HKEY_CURRENT_CONFIG");
   (0x80000006, "HKEY_DYN_DATA")].

Definition afWSASocketTypeDict : list (Z * string) :=
  [(1, "SOCK_STREAM"); (2, "SOCK_DGRAM"); (3, "SOCK_RAW"); (4, "SOCK_RDM"); (5, "SOCK_SEQPACKET")].
