(* ===== verification/Pretty.v ===== *)
(** The readable forms of API arguments and return values
    (lib/cuckoo/common/utils_pretty_print_funcs.py and utils.py). *)
From S2P Require Import Prelude Struct PrettyTables.
Open Scope string_scope.
Open Scope Z_scope.

(** ** Numbers *)

Definition hex_val (c : ascii) : option Z :=
  let n := Z.of_nat (nat_of_ascii c) in
  if (48 <=? n) && (n <=? 57) then Some (n - 48)
  else if (97 <=? n) && (n <=? 102) then Some (n - 87)
  else if (65 <=? n) && (n <=? 70) then Some (n - 55)
  else None.

(** Digits with single underscores between them. *)
Fixpoint hex_digits_val (acc : Z) (last_digit : bool) (l : bytes) : option Z :=
  match l with
  | [] => if last_digit then Some acc else None
  | c :: l' =>
      match hex_val c with
      | Some d => hex_digits_val (acc * 16 + d) true l'
      | None => if bool_decide (c = "_"%char) && last_digit then hex_digits_val acc false l' else None
      end
  end.

(** An optional prefix [0x], after which an underscore may stand. *)
Definition hex_unsigned (l : bytes) : option Z :=
  match l with
  | z :: x :: l' =>
      if bool_decide (z = "0"%char /\ (x = "x"%char \/ x = "X"%char)) then
        match l' with
        | u :: l'' => if bool_decide (u = "_"%char) then hex_digits_val 0 false l'' else hex_digits_val 0 false l'
        | [] => None
        end
      else hex_digits_val 0 false l
  | _ => hex_digits_val 0 false l
  end.

(** [int(s, 16)] and [int(s)] of a text. *)
Definition int16 (s : string) : res Z :=
  of_option ValueError
    match strip_ws (B s) with
    | c :: l' =>
        if bool_decide (c = "-"%char) then Z.opp <$> hex_unsigned l'
        else if bool_decide (c = "+"%char) then hex_unsigned l'
        else hex_unsigned (c :: l')
    | [] => None
    end.
Definition py_int_text (s : string) : res Z := of_option ValueError (py_int (B s)).

(** The last [n] hexadecimal digits. *)
Fixpoint hex_rep (n : nat) (v : Z) : bytes :=
  match n with O => [] | S n' => (hex_rep n' (v / 16) ++ [hex_digit (v mod 16)])%list end.
Definition hex_width (v : Z) : nat := S (Z.to_nat (Z.log2 v / 4)).

(** [f"0x{v:08x}"]: eight places, the sign among them. *)
Definition hex08 (v : Z) : string :=
  if v <? 0 then "0x-" +:+ text (hex_rep (Nat.max 7 (hex_width (- v))) (- v))
  else "0x" +:+ text (hex_rep (Nat.max 8 (hex_width v)) v).

(** [sep.join(l)]. *)
Fixpoint join (sep : string) (l : list string) : string :=
  match l with
  | [] => ""
  | [s] => s
  | s :: l' => s +:+ sep +:+ join sep l'
  end.

(** ** Tables and flags *)

(** [d.get(k)]: of equal keys the last counts. *)
Fixpoint dict_get {A} (d : list (Z * A)) (k : Z) : option A :=
  match d with
  | [] => None
  | (k', a) :: d' => match dict_get d' k with Some b => Some b | None => if k =? k' then Some a else None end
  end.

(** The statements the functions are made of:
    [if val & test: res.append(name); val &= ~clear],
    [if (val & test) == test: res.append(name); val &= ~clear],
    the same two with [remove |= mask] instead, and [val &= ~remove]. *)
Inductive step :=
| Flag (test : Z) (name : string) (clear : Z)
| FlagAll (test : Z) (name : string) (clear : Z)
| Mark (test : Z) (name : string) (mask : Z)
| MarkAll (test : Z) (name : string) (mask : Z)
| Clear.

Record pp_state := { pp_val : Z; pp_remove : Z; pp_res : list string }.

Definition and_not (v m : Z) : Z := Z.land v (Z.lnot m).
Definition run_step (s : pp_state) (t : step) : pp_state :=
  let val := pp_val s in
  match t with
  | Flag test name clear =>
      if negb (Z.land val test =? 0) then
        {| pp_val := and_not val clear; pp_remove := pp_remove s; pp_res := pp_res s ++ [name] |}
      else s
  | FlagAll test name clear =>
      if Z.land val test =? test then
        {| pp_val := and_not val clear; pp_remove := pp_remove s; pp_res := pp_res s ++ [name] |}
      else s
  | Mark test name mask =>
      if negb (Z.land val test =? 0) then
        {| pp_val := val; pp_remove := Z.lor (pp_remove s) mask; pp_res := pp_res s ++ [name] |}
      else s
  | MarkAll test name mask =>
      if Z.land val test =? test then
        {| pp_val := val; pp_remove := Z.lor (pp_remove s) mask; pp_res := pp_res s ++ [name] |}
      else s
  | Clear => {| pp_val := and_not val (pp_remove s); pp_remove := pp_remove s; pp_res := pp_res s |}
  end.

Definition run_steps (steps : list step) (val : Z) : pp_state :=
  fold_left run_step steps {| pp_val := val; pp_remove := 0; pp_res := [] |}.

(** [if val: res.append(f"0x{val:08x}"); return "|".join(res)]. *)
Definition with_leftover (val : Z) (res : list string) : list string :=
  if negb (val =? 0) then res ++ [hex08 val] else res.
Definition flags_text (steps : list step) (val : Z) : string :=
  let s := run_steps steps val in join "|" (with_leftover (pp_val s) (pp_res s)).

(** A function of this kind: how it reads its argument, the values it prints
    as a whole, and its statements. *)
Record printer := { p_int : string -> res Z; p_whole : list (Z * string); p_steps : list step }.
Fixpoint whole_name (l : list (Z * string)) (val : Z) : option string :=
  match l with [] => None | (k, n) :: l' => if val =? k then Some n else whole_name l' val end.
Definition print_value (p : printer) (val : Z) : string :=
  match whole_name (p_whole p) val with Some n => n | None => flags_text (p_steps p) val end.
Definition print_flags (p : printer) (arg_val : string) : res (option string) :=
  let! val := p_int p arg_val in Ok (Some (print_value p val)).

(** ** The functions of utils_pretty_print_funcs.py *)

Definition api_name_ntcreatesection_arg_name_desiredaccess_printer : printer :=
  {| p_int := int16; p_whole := [(0xf001f, "SECTION_ALL_ACCESS")];
     p_steps :=
       [Flag 0xf0000 "STANDARD_RIGHTS_REQUIRED" 0xf0000; Flag 1 "SECTION_QUERY" 1; Flag 4 "SECTION_MAP_READ" 4;
        Flag 2 "SECTION_MAP_WRITE" 2; Flag 8 "SECTION_MAP_EXECUTE" 8; Flag 0x10 "SECTION_EXTEND_SIZE" 0x10;
        Flag 0x20 "SECTION_MAP_EXECUTE_EXPLICIT" 0x20] |}.
Definition api_name_ntcreatesection_arg_name_desiredaccess : string -> res (option string) :=
  print_flags api_name_ntcreatesection_arg_name_desiredaccess_printer.

Definition api_name_createtoolhelp32snapshot_arg_name_flags_printer : printer :=
  {| p_int := int16; p_whole := [(0xf, "TH32CS_SNAPALL")];
     p_steps :=
       [Flag 1 "TH32CS_SNAPHEAPLIST" 1; Flag 2 "TH32CS_SNAPPROCESS" 2; Flag 4 "TH32CS_SNAPTHREAD" 4;
        Flag 8 "TH32CS_SNAPMODULE" 8; Flag 0x10 "TH32CS_SNAPMODULE32" 0x10;
        Flag 0x80000000 "TH32CS_INHERIT" 0x80000000] |}.
Definition api_name_createtoolhelp32snapshot_arg_name_flags : string -> res (option string) :=
  print_flags api_name_createtoolhelp32snapshot_arg_name_flags_printer.

Definition blobtype (arg_val : string) : res (option string) :=
  let! val := py_int_text arg_val in Ok (dict_get BlobTypeDict val).

Definition algid (arg_val : string) : res (option string) :=
  let! val := int16 arg_val in Ok (dict_get AlgidDict val).

Definition hookidentifer (arg_val : string) : res (option string) :=
  let! val := py_int_text arg_val in Ok (dict_get HookIdentifierDict val).

Definition disposition (arg_val : string) : res (option string) :=
  let! val := py_int_text arg_val in Ok (dict_get DispositionDict val).

Definition createdisposition (arg_val : string) : res (option string) :=
  let! val := int16 arg_val in Ok (dict_get CreateDispositionDict val).

Definition shareaccess_printer : printer :=
  {| p_int := py_int_text; p_whole := [];
     p_steps :=
       [Flag 1 "FILE_SHARE_READ" 1; Flag 2 "FILE_SHARE_WRITE" 2; Flag 4 "FILE_SHARE_DELETE" 4] |}.
Definition shareaccess : string -> res (option string) :=
  print_flags shareaccess_printer.

Definition systeminformationclass (arg_val : string) : res (option string) :=
  let! val := py_int_text arg_val in Ok (dict_get SystemInformationClassDict val).

Definition category_registry_arg_name_type (arg_val : string) : res (option string) :=
  let! val := int16 arg_val in Ok (dict_get RegistryTypeDict val).

Definition api_name_opensc_arg_name_desiredaccess_printer : printer :=
  {| p_int := int16; p_whole := [(0x2000000, "MAXIMUM_ALLOWED"); (0xf003f, "SC_MANAGER_ALL_ACCESS")];
     p_steps :=
       [Flag 1 "SC_MANAGER_CONNECT" 1; Flag 2 "SC_MANAGER_CREATE_SERVICE" 2;
        Flag 4 "SC_MANAGER_ENUMERATE_SERVICE" 4; Flag 8 "SC_MANAGER_LOCK" 8;
        Flag 0x10 "SC_MANAGER_QUERY_LOCK_STATUS" 0x10; Flag 0x20 "SC_MANAGER_MODIFY_BOOT_CONFIG" 0x20] |}.
Definition api_name_opensc_arg_name_desiredaccess : string -> res (option string) :=
  print_flags api_name_opensc_arg_name_desiredaccess_printer.

Definition category_services_arg_name_controlcode (arg_val : string) : res (option string) :=
  let! val := py_int_text arg_val in Ok (dict_get ServicesControlCodeDict val).

Definition category_services_arg_name_errorcontrol (arg_val : string) : res (option string) :=
  let! val := py_int_text arg_val in Ok (dict_get ServicesErrorControlDict val).

Definition category_services_arg_name_starttype (arg_val : string) : res (option string) :=
  let! val := py_int_text arg_val in Ok (dict_get ServicesStartTypeDict val).

Definition category_services_arg_name_desiredaccess_printer : printer :=
  {| p_int := int16; p_whole := [(0x2000000, "MAXIMUM_ALLOWED"); (0xf01ff, "SERVICE_ALL_ACCESS")];
     p_steps :=
       [Flag 1 "SERVICE_QUERY_CONFIG" 1; Flag 2 "SERVICE_CHANGE_CONFIG" 2; Flag 4 "SERVICE_QUERY_STATUS" 4;
        Flag 8 "SERVICE_ENUMERATE_DEPENDENTS" 8; Flag 0x10 "SERVICE_START" 0x10; Flag 0x20 "SERVICE_STOP" 0x20;
        Flag 0x40 "SERVICE_PAUSE_CONTINUE" 0x40; Flag 0x80 "SERVICE_INTERROGATE" 0x80;
        Flag 0x100 "SERVICE_USER_DEFINED_CONTROL" 0x100] |}.
Definition category_services_arg_name_desiredaccess : string -> res (option string) :=
  print_flags category_services_arg_name_desiredaccess_printer.

Definition category_registry_arg_name_access_desired_access_printer : printer :=
  {| p_int := int16; p_whole := [(0x2000000, "MAXIMUM_ALLOWED"); (0xf003f, "KEY_ALL_ACCESS"); (0x20019, "KEY_READ"); (0x20006, "KEY_WRITE"); (0x2001f, "KEY_READ|KEY_WRITE")];
     p_steps :=
       [Flag 1 "KEY_QUERY_VALUE" 1; Flag 2 "KEY_SET_VALUE" 2; Flag 4 "KEY_CREATE_SUB_KEY" 4;
        Flag 8 "KEY_ENUMERATE_SUB_KEYS" 8; Flag 0x10 "KEY_NOTIFY" 0x10; Flag 0x20 "KEY_CREATE_LINK" 0x20;
        Flag 0x100 "KEY_WOW64_64KEY" 0x100; Flag 0xf0000 "STANDARD_RIGHTS_REQUIRED" 0xf0000] |}.
Definition category_registry_arg_name_access_desired_access : string -> res (option string) :=
  print_flags category_registry_arg_name_access_desired_access_printer.

Definition arg_name_protection_and_others_printer : printer :=
  {| p_int := int16; p_whole := [];
     p_steps :=
       [Flag 1 "PAGE_NOACCESS" 1; Flag 2 "PAGE_READONLY" 2; Flag 4 "PAGE_READWRITE" 4; Flag 8 "PAGE_WRITECOPY" 8;
        Flag 0x10 "PAGE_EXECUTE" 0x10; Flag 0x20 "PAGE_EXECUTE_READ" 0x20; Flag 0x40 "PAGE_EXECUTE_READWRITE" 0x40;
        Flag 0x80 "PAGE_EXECUTE_WRITECOPY" 0x80; Flag 0x100 "PAGE_GUARD" 0x100; Flag 0x200 "PAGE_NOCACHE" 0x200;
        Flag 0x400 "PAGE_WRITECOMBINE" 0x400] |}.
Definition arg_name_protection_and_others : string -> res (option string) :=
  print_flags arg_name_protection_and_others_printer.

Definition arg_name_iocontrolcode (arg_val : string) : res (option string) :=
  let! val := int16 arg_val in Ok (dict_get IoControlCodeDict val).

Definition api_name_in_creation_printer : printer :=
  {| p_int := int16; p_whole := [];
     p_steps :=
       [Flag 1 "DEBUG_PROCESS" 1; Flag 2 "DEBUG_ONLY_THIS_PROCESS" 2; Flag 4 "CREATE_SUSPENDED" 4;
        Flag 8 "DETACHED_PROCESS" 8; Flag 0x10 "CREATE_NEW_CONSOLE" 0x10; Flag 0x20 "NORMAL_PRIORITY_CLASS" 0x20;
        Flag 0x40 "IDLE_PRIORITY_CLASS" 0x40; Flag 0x80 "HIGH_PRIORITY_CLASS" 0x80;
        Flag 0x400 "CREATE_UNICODE_ENVIRONMENT" 0x400; Flag 0x40000 "CREATE_PROTECTED_PROCESS" 0x40000;
        Flag 0x80000 "EXTENDED_STARTUPINFO_PRESENT" 0x80000; Flag 0x1000000 "CREATE_BREAKAWAY_FROM_JOB" 0x1000000;
        Flag 0x2000000 "CREATE_PRESERVE_CODE_AUTHZ_LEVEL" 0x2000000;
        Flag 0x4000000 "CREATE_DEFAULT_ERROR_MODE" 0x4000000; Flag 0x8000000 "CREATE_NO_WINDOW" 0x8000000] |}.
Definition api_name_in_creation : string -> res (option string) :=
  print_flags api_name_in_creation_printer.

Definition api_name_move_arg_name_flags_printer : printer :=
  {| p_int := int16; p_whole := [];
     p_steps :=
       [Flag 1 "MOVEFILE_REPLACE_EXISTING" 1; Flag 2 "MOVEFILE_COPY_ALLOWED" 2;
        Flag 4 "MOVEFILE_DELAY_UNTIL_REBOOT" 4; Flag 8 "MOVEFILE_WRITE_THROUGH" 8] |}.
Definition api_name_move_arg_name_flags : string -> res (option string) :=
  print_flags api_name_move_arg_name_flags_printer.

Definition arg_name_fileattributes_printer : printer :=
  {| p_int := int16; p_whole := [(0x80, "FILE_ATTRIBUTE_NORMAL")];
     p_steps :=
       [Flag 1 "FILE_ATTRIBUTE_READONLY" 1; Flag 2 "FILE_ATTRIBUTE_HIDDEN" 2; Flag 4 "FILE_ATTRIBUTE_SYSTEM" 4;
        Flag 0x10 "FILE_ATTRIBUTE_DIRECTORY" 0x10; Flag 0x20 "FILE_ATTRIBUTE_ARCHIVE" 0x20;
        Flag 0x40 "FILE_ATTRIBUTE_DEVICE" 0x40; Flag 0x100 "FILE_ATTRIBUTE_TEMPORARY" 0x100;
        Flag 0x200 "FILE_ATTRIBUTE_SPARSE_FILE" 0x200; Flag 0x400 "FILE_ATTRIBUTE_REPARSE_POINT" 0x400;
        Flag 0x800 "FILE_ATTRIBUTE_COMPRESSED" 0x800; Flag 0x1000 "FILE_ATTRIBUTE_OFFLINE" 0x1000;
        Flag 0x2000 "FILE_ATTRIBUTE_NOT_CONTENT_INDEXED" 0x2000; Flag 0x4000 "FILE_ATTRIBUTE_ENCRYPTED" 0x4000;
        Flag 0x8000 "FILE_ATTRIBUTE_VIRTUAL" 0x8000] |}.
Definition arg_name_fileattributes : string -> res (option string) :=
  print_flags arg_name_fileattributes_printer.

Definition api_name_nt_arg_name_desiredaccess_printer : printer :=
  {| p_int := int16; p_whole := [];
     p_steps :=
       [Mark 0x80000000 "GENERIC_READ" 0x80000000; Mark 0x40000000 "GENERIC_WRITE" 0x40000000;
        Mark 0x20000000 "GENERIC_EXECUTE" 0x20000000; Mark 0x10000000 "GENERIC_ALL" 0x10000000;
        Mark 0x2000000 "MAXIMUM_ALLOWED" 0x2000000; FlagAll 0x1f01ff "FILE_ALL_ACCESS" 0x1f01ff;
        MarkAll 0x120089 "FILE_GENERIC_READ" 0x120089; MarkAll 0x120116 "FILE_GENERIC_WRITE" 0x120116;
        MarkAll 0x1200a0 "FILE_GENERIC_EXECUTE" 0x1200a0; Clear; Mark 1 "FILE_READ_ACCESS" 1;
        Mark 2 "FILE_WRITE_ACCESS" 2; Mark 4 "FILE_APPEND_DATA" 4; Mark 8 "FILE_READ_EA" 8;
        Mark 0x10 "FILE_WRITE_EA" 0x10; Mark 0x20 "FILE_EXECUTE" 0x20; Mark 0x40 "FILE_DELETE_CHILD" 0x40;
        Mark 0x80 "FILE_READ_ATTRIBUTES" 0x80; Mark 0x100 "FILE_WRITE_ATTRIBUTES" 0x100;
        Mark 0x10000 "DELETE" 0x10000; Mark 0x20000 "READ_CONTROL" 0x20000; Mark 0x40000 "WRITE_DAC" 0x40000;
        Mark 0x80000 "WRITE_OWNER" 0x80000; Mark 0x100000 "SYNCHRONIZE" 0x100000;
        Mark 0x1000000 "ACCESS_SYSTEM_SECURITY" 0x1000000; Clear] |}.
Definition api_name_nt_arg_name_desiredaccess : string -> res (option string) :=
  print_flags api_name_nt_arg_name_desiredaccess_printer.

Definition api_name_ntopenprocess_arg_name_desiredaccess_printer : printer :=
  {| p_int := int16; p_whole := [];
     p_steps :=
       [Mark 0x80000000 "GENERIC_READ" 0x80000000; Mark 0x40000000 "GENERIC_WRITE" 0x40000000;
        Mark 0x20000000 "GENERIC_EXECUTE" 0x20000000; Mark 0x10000000 "GENERIC_ALL" 0x10000000;
        Mark 0x2000000 "MAXIMUM_ALLOWED" 0x2000000; FlagAll 0x1fffff "PROCESS_ALL_ACCESS" 0x1fffff;
        FlagAll 0x1f0fff "PROCESS_ALL_ACCESS" 0x1f0fff; Clear; Mark 1 "PROCESS_TERMINATE" 1;
        Mark 2 "PROCESS_CREATE_THREAD" 2; Mark 4 "PROCESS_SET_SESSIONID" 4; Mark 8 "PROCESS_VM_OPERATION" 8;
        Mark 0x10 "PROCESS_VM_READ" 0x10; Mark 0x20 "PROCESS_VM_WRITE" 0x20; Mark 0x40 "PROCESS_DUP_HANDLE" 0x40;
        Mark 0x80 "PROCESS_CREATE_PROCESS" 0x80; Mark 0x100 "PROCESS_SET_QUOTA" 0x100;
        Mark 0x200 "PROCESS_SET_INFORMATION" 0x200; Mark 0x400 "PROCESS_QUERY_INFORMATION" 0x400;
        Mark 0x800 "PROCESS_SUSPEND_RESUME" 0x800; Mark 0x1000 "PROCESS_QUERY_LIMITED_INFORMATION" 0x1000;
        Mark 0x100000 "SYNCHRONIZE" 0x100000; Clear] |}.
Definition api_name_ntopenprocess_arg_name_desiredaccess : string -> res (option string) :=
  print_flags api_name_ntopenprocess_arg_name_desiredaccess_printer.

Definition api_name_ntopenthread_arg_name_desiredaccess_printer : printer :=
  {| p_int := int16; p_whole := [];
     p_steps :=
       [Mark 0x80000000 "GENERIC_READ" 0x80000000; Mark 0x40000000 "GENERIC_WRITE" 0x40000000;
        Mark 0x20000000 "GENERIC_EXECUTE" 0x20000000; Mark 0x10000000 "GENERIC_ALL" 0x10000000;
        Mark 0x2000000 "MAXIMUM_ALLOWED" 0x2000000; FlagAll 0x1fffff "THREAD_ALL_ACCESS" 0x1fffff;
        FlagAll 0x1f03ff "THREAD_ALL_ACCESS" 0x1f03ff; Clear; Mark 1 "THREAD_TERMINATE" 1;
        Mark 2 "THREAD_SUSPEND_RESUME" 2; Mark 8 "THREAD_GET_CONTEXT" 8; Mark 0x10 "THREAD_SET_CONTEXT" 0x10;
        Mark 0x20 "THREAD_SET_INFORMATION" 0x20; Mark 0x40 "THREAD_QUERY_INFORMATION" 0x40;
        Mark 0x80 "THREAD_SET_THREAD_TOKEN" 0x80; Mark 0x100 "THREAD_IMPERSONATE" 0x100;
        Mark 0x200 "THREAD_DIRECT_IMPERSONATION" 0x200; Mark 0x400 "THREAD_SET_LIMITED_INFORMATION" 0x400;
        Mark 0x800 "THREAD_QUERY_LIMITED_INFORMATION" 0x800; Clear] |}.
Definition api_name_ntopenthread_arg_name_desiredaccess : string -> res (option string) :=
  print_flags api_name_ntopenthread_arg_name_desiredaccess_printer.

Definition api_name_cointernet_arg_name_featureentry (arg_val : string) : res (option string) :=
  let! val := py_int_text arg_val in Ok (dict_get CoInternetSetFeatureEnabledDict val).

Definition api_name_cointernet_arg_name_flags_printer : printer :=
  {| p_int := int16; p_whole := [];
     p_steps :=
       [Flag 1 "SET_FEATURE_ON_THREAD" 1; Flag 2 "SET_FEATURE_ON_PROCESS" 2; Flag 4 "SET_FEATURE_IN_REGISTRY" 4;
        Flag 8 "SET_FEATURE_ON_THREAD_LOCALMACHINE" 8; Flag 0x10 "SET_FEATURE_ON_THREAD_INTRANET" 0x10;
        Flag 0x20 "SET_FEATURE_ON_THREAD_TRUSTED" 0x20; Flag 0x40 "SET_FEATURE_ON_THREAD_INTERNET" 0x40;
        Flag 0x80 "SET_FEATURE_ON_THREAD_RESTRICTED" 0x80] |}.
Definition api_name_cointernet_arg_name_flags : string -> res (option string) :=
  print_flags api_name_cointernet_arg_name_flags_printer.

Definition api_name_internetsetoptiona_arg_name_option (arg_val : string) : res (option string) :=
  let! val := int16 arg_val in Ok (dict_get InternetSetOptionADict val).

Definition arg_name_fileinformationclass (arg_val : string) : res (option string) :=
  let! val := py_int_text arg_val in Ok (dict_get FileInformationClassDict val).

Definition arg_name_processinformationclass (arg_val : string) : res (option string) :=
  let! val := py_int_text arg_val in Ok (dict_get ProcessInformationClassDict val).

Definition arg_name_threadinformationclass (arg_val : string) : res (option string) :=
  let! val := py_int_text arg_val in Ok (dict_get ThreadInformationClassDict val).

Definition arg_name_memtype (arg_val : string) : res (option string) :=
  let! val := int16 arg_val in Ok (dict_get MemTypeDict val).

Definition arg_name_show (arg_val : string) : res (option string) :=
  let! val := py_int_text arg_val in Ok (dict_get ShowDict val).

Definition arg_name_registry (arg_val : string) : res (option string) :=
  let! val := int16 arg_val in Ok (dict_get RegistryDict val).

Definition folder_steps : list step :=
  [Flag 0x800 "CSIDL_FLAG_PER_USER_INIT" 0x800; Flag 0x1000 "CSIDL_FLAG_NO_ALIAS" 0x1000;
   Flag 0x2000 "CSIDL_FLAG_DONT_UNEXPAND" 0x2000; Flag 0x4000 "CSIDL_FLAG_DONT_VERIFY" 0x4000;
   Flag 0x8000 "CSIDL_FLAG_CREATE" 0x8000].
Definition api_name_shgetfolderpathw_arg_name_folder (arg_val : string) : res (option string) :=
  let! val := int16 arg_val in
  let s := run_steps folder_steps val in
  let last := match dict_get FolderDict (pp_val s) with Some folder => folder | None => hex08 (pp_val s) end in
  Ok (Some (join "|" (pp_res s ++ [last]))).

Definition infolevel (arg_val : string) : res (option string) :=
  let! val := match int16 arg_val with Ok v => Ok v | Raise _ => py_int_text arg_val end in
  Ok (dict_get InfoLevelDict val).

(** [None + str] raises. *)
Definition category_services_arg_name_servicetype (arg_val : string) : res (option string) :=
  let! val := py_int_text arg_val in
  let retstr := dict_get ServicesServiceTypeDict (Z.land val 0x3F) in
  if negb (Z.land val 0x130 =? 0) then
    match retstr with
    | Some s => Ok (Some (s +:+ "|SERVICE_INTERACTIVE_PROCESS"))
    | None => Raise TypeError
    end
  else Ok retstr.

Definition api_name_socket (arg_val arg_name : string) : res (option string) :=
  if bool_decide (arg_name = "af") then let! val := py_int_text arg_val in Ok (dict_get afWSASocketDict val)
  else if bool_decide (arg_name = "type") then let! val := py_int_text arg_val in Ok (dict_get afWSASocketTypeDict val)
  else if bool_decide (arg_name = "protocol") then let! val := py_int_text arg_val in Ok (dict_get protocolWSASocketDict val)
  else Ok None.

(** ** The functions of utils.py *)

(** The loop takes the names whose value has a bit of the argument. *)
Fixpoint pretty_convert_loop (argval : Z) (enumdict : list (string * Z)) (leftover : Z) : list string * Z :=
  match enumdict with
  | [] => ([], leftover)
  | (key, value) :: d =>
      if negb (Z.land argval value =? 0) then
        let '(names, l) := pretty_convert_loop argval d (and_not leftover value) in (key :: names, l)
      else pretty_convert_loop argval d leftover
  end.
Definition simple_pretty_print_convert (argval : Z) (enumdict : list (string * Z)) : string :=
  let '(retnames, leftover) := pretty_convert_loop argval enumdict argval in
  join "|" (with_leftover leftover retnames).
Definition arg_name_clscontext (arg_val : string) : res (option string) :=
  let! val := int16 arg_val in Ok (Some (simple_pretty_print_convert val ClsContextDict)).

(** The names of the status codes. *)
Definition retval_names : list (Z * string) :=
  [(0x103, "NO_MORE_ITEMS"); (0x2af9, "WSAHOST_NOT_FOUND"); (0x2afc, "WSANO_DATA");
   (0x80000005, "BUFFER_OVERFLOW"); (0x80000006, "NO_MORE_FILES"); (0x8000000a, "HANDLES_CLOSED");
   (0x8000001a, "NO_MORE_ENTRIES"); (0xc0000001, "UNSUCCESSFUL"); (0xc0000002, "NOT_IMPLEMENTED");
   (0xc0000004, "INFO_LENGTH_MISMATCH"); (0xc0000005, "ACCESS_VIOLATION"); (0xc0000008, "INVALID_HANDLE");
   (0xc000000b, "INVALID_CID"); (0xc000000d, "INVALID_PARAMETER"); (0xc000000f, "NO_SUCH_FILE");
   (0xc0000011, "END_OF_FILE"); (0xc0000018, "CONFLICTING_ADDRESSES"); (0xc0000022, "ACCESS_DENIED");
   (0xc0000023, "BUFFER_TOO_SMALL"); (0xc0000024, "OBJECT_TYPE_MISMATCH"); (0xc0000033, "OBJECT_NAME_INVALID");
   (0xc0000034, "OBJECT_NAME_NOT_FOUND"); (0xc0000035, "OBJECT_NAME_COLLISION");
   (0xc0000039, "OBJECT_PATH_INVALID"); (0xc000003a, "OBJECT_PATH_NOT_FOUND"); (0xc000003c, "DATA_OVERRUN");
   (0xc0000043, "SHARING_VIOLATION"); (0xc0000045, "INVALID_PAGE_PROTECTION");
   (0xc000007a, "PROCEDURE_NOT_FOUND"); (0xc00000ac, "PIPE_NOT_AVAILABLE");
   (0xc00000ba, "FILE_IS_A_DIRECTORY"); (0xc000010a, "PROCESS_IS_TERMINATING"); (0xc0000121, "CANNOT_DELETE");
   (0xc0000135, "DLL_NOT_FOUND"); (0xc0000139, "ENTRYPOINT_NOT_FOUND"); (0xc0000142, "DLL_INIT_FAILED");
   (0xc000014b, "PIPE_BROKEN"); (0xc0000225, "NOT_FOUND")].

(** Nothing for a call that succeeded or a value that is no number. *)
Definition pretty_print_retval (status : bool) (retval : string) : option string :=
  if status then None else
  match int16 retval with
  | Ok v => dict_get retval_names (Z.land v 0xFFFFFFFF)
  | Raise _ => None
  end.

(** The function that prints an argument, by category, API and name. *)
Definition pretty_print_arg (category api_name arg_name arg_val : string) : res (option string) :=
  let cat s := bool_decide (category = s) in
  let api s := bool_decide (api_name = s) in
  let arg s := bool_decide (arg_name = s) in
  if api "NtCreateSection" && arg "DesiredAccess" then
    api_name_ntcreatesection_arg_name_desiredaccess arg_val
  else if api "CreateToolhelp32Snapshot" && arg "Flags" then
    api_name_createtoolhelp32snapshot_arg_name_flags arg_val
  else if arg "ClsContext" then
    arg_name_clscontext arg_val
  else if arg "BlobType" then
    blobtype arg_val
  else if arg "Algid" then
    algid arg_val
  else if api "SHGetFolderPathW" && arg "Folder" then
    api_name_shgetfolderpathw_arg_name_folder arg_val
  else if arg "HookIdentifier" then
    hookidentifer arg_val
  else if arg "InfoLevel" then
    infolevel arg_val
  else if arg "Disposition" then
    disposition arg_val
  else if arg "CreateDisposition" then
    createdisposition arg_val
  else if arg "ShareAccess" then
    shareaccess arg_val
  else if arg "SystemInformationClass" then
    systeminformationclass arg_val
  else if cat "registry" && arg "Type" then
    category_registry_arg_name_type arg_val
  else if (api "OpenSCManagerA" || api "OpenSCManagerW") && arg "DesiredAccess" then
    api_name_opensc_arg_name_desiredaccess arg_val
  else if cat "services" && arg "ControlCode" then
    category_services_arg_name_controlcode arg_val
  else if cat "services" && arg "ErrorControl" then
    category_services_arg_name_errorcontrol arg_val
  else if cat "services" && arg "StartType" then
    category_services_arg_name_starttype arg_val
  else if cat "services" && arg "ServiceType" then
    category_services_arg_name_servicetype arg_val
  else if cat "services" && arg "DesiredAccess" then
    category_services_arg_name_desiredaccess arg_val
  else if cat "registry" && (arg "Access" || arg "DesiredAccess") then
    category_registry_arg_name_access_desired_access arg_val
  else if arg "IoControlCode" then
    arg_name_iocontrolcode arg_val
  else if arg "Protection" || arg "Win32Protect" || arg "NewAccessProtection" || arg "OldAccessProtection" || arg "OldProtection" then
    arg_name_protection_and_others arg_val
  else if (api "CreateProcessInternalW" || api "CreateProcessWithTokenW" || api "CreateProcessWithLogonW") && arg "CreationFlags" then
    api_name_in_creation arg_val
  else if (api "MoveFileWithProgressW" || api "MoveFileWithProgressTransactedW") && arg "Flags" then
    api_name_move_arg_name_flags arg_val
  else if arg "FileAttributes" then
    arg_name_fileattributes arg_val
  else if (api "NtCreateFile" || api "NtOpenFile" || api "NtCreateDirectoryObject" || api "NtOpenDirectoryObject") && arg "DesiredAccess" then
    api_name_nt_arg_name_desiredaccess arg_val
  else if api "NtOpenProcess" && arg "DesiredAccess" then
    api_name_ntopenprocess_arg_name_desiredaccess arg_val
  else if api "NtOpenThread" && arg "DesiredAccess" then
    api_name_ntopenthread_arg_name_desiredaccess arg_val
  else if api "CoInternetSetFeatureEnabled" && arg "FeatureEntry" then
    api_name_cointernet_arg_name_featureentry arg_val
  else if api "CoInternetSetFeatureEnabled" && arg "Flags" then
    api_name_cointernet_arg_name_flags arg_val
  else if api "InternetSetOptionA" && arg "Option" then
    api_name_internetsetoptiona_arg_name_option arg_val
  else if (api "socket" || api "WSASocketA" || api "WSASocketW") then
    api_name_socket arg_val arg_name
  else if arg "FileInformationClass" then
    arg_name_fileinformationclass arg_val
  else if arg "ProcessInformationClass" then
    arg_name_processinformationclass arg_val
  else if arg "ThreadInformationClass" then
    arg_name_threadinformationclass arg_val
  else if arg "MemType" then
    arg_name_memtype arg_val
  else if arg "Show" then
    arg_name_show arg_val
  else if arg "Registry" then
    arg_name_registry arg_val
  else Ok None.

(** ** Reading the numbers back *)

Lemma digit_cases d : 0 <= d < 16 ->
  hex_val (hex_digit d) = Some d /\ is_ws (hex_digit d) = false /\ hex_digit d <> "_"%char /\ hex_digit d <> "|"%char.
Proof.
  intros Hd. assert (exists n : nat, (n < 16)%nat /\ d = Z.of_nat n) as (n & Hn & ->) by (exists (Z.to_nat d); lia).
  do 16 (destruct n as [|n]; [vm_compute; repeat split; done|]). lia.
Qed.

Lemma hex_rep_length n : forall v, length (hex_rep n v) = n.
Proof. induction n as [|n IH]; intros v; simpl; [done|]. rewrite length_app, IH. simpl. lia. Qed.

Lemma hex_rep_chars n : forall v c, c ∈ hex_rep n v -> exists d, 0 <= d < 16 /\ c = hex_digit d.
Proof.
  induction n as [|n IH]; intros v c Hc; simpl in Hc; [set_solver|].
  apply elem_of_app in Hc as [Hc|Hc%list_elem_of_singleton]; [by eapply IH|].
  exists (v mod 16). split; [apply Z.mod_pos_bound; lia|done].
Qed.

Lemma hex_digits_app l : forall acc last d,
  0 <= d < 16 ->
  hex_digits_val acc last (l ++ [hex_digit d]) =
  match l with
  | [] => Some (acc * 16 + d)
  | _ => (fun a => a * 16 + d) <$> hex_digits_val acc last l
  end \/ exists c, c ∈ l /\ hex_val c = None.
Proof.
  induction l as [|c l IH]; intros acc last d Hd; simpl.
  - left. by rewrite (proj1 (digit_cases d Hd)).
  - destruct (hex_val c) as [x|] eqn:Ex; [|right; exists c; split; [apply list_elem_of_here|done]].
    destruct (IH (acc * 16 + x) true d) as [Hl|(c' & Hc' & Hv)]; [done| |].
    + left. rewrite Hl. destruct l; done.
    + right. exists c'. split; [by apply list_elem_of_further|done].
Qed.

Lemma hex_digits_rep n : forall v last,
  hex_digits_val 0 last (hex_rep (S n) v) = Some (v mod 16 ^ Z.of_nat (S n)).
Proof.
  induction n as [|n IH]; intros v last; cbn [hex_rep].
  - simpl. pose proof (Z.mod_pos_bound v 16 ltac:(lia)) as Hd. by rewrite (proj1 (digit_cases _ Hd)).
  - pose proof (Z.mod_pos_bound v 16 ltac:(lia)) as Hd. cbn [hex_rep] in IH.
    destruct (hex_digits_app (hex_rep n (v / 16 / 16) ++ [hex_digit (v / 16 mod 16)]) 0 last (v mod 16)) as [->|(c & Hc & Hv)];
      [done| |].
    + destruct (hex_rep n (v / 16 / 16) ++ [hex_digit (v / 16 mod 16)])%list as [|c l] eqn:E;
        [by destruct (hex_rep n (v / 16 / 16))|]. rewrite <- E, IH. simpl. f_equal.
      rewrite (Nat2Z.inj_succ (S n)), (Z.pow_succ_r 16 (Z.of_nat (S n))) by lia.
      rewrite Z.rem_mul_r by lia. lia.
    + change (hex_rep n (v / 16 / 16) ++ [hex_digit (v / 16 mod 16)])%list with (hex_rep (S n) (v / 16)) in Hc.
      apply hex_rep_chars in Hc as (d & Hd' & ->). by rewrite (proj1 (digit_cases d Hd')) in Hv.
Qed.

Lemma hex_width_bound v : 0 <= v -> v < 16 ^ Z.of_nat (hex_width v).
Proof.
  intros Hv. unfold hex_width. destruct (decide (v = 0)) as [->|Hne]; [done|].
  pose proof (Z.log2_nonneg v). rewrite Nat2Z.inj_succ, Z2Nat.id by (apply Z.div_pos; lia).
  change 16 with (2 ^ 4). rewrite <- Z.pow_mul_r by (pose proof (Z.div_pos (Z.log2 v) 4); lia).
  apply Z.log2_lt_pow2; [lia|]. pose proof (Z.div_mod (Z.log2 v) 4). pose proof (Z.mod_pos_bound (Z.log2 v) 4). lia.
Qed.

Lemma strip_ws_id a l b : is_ws a = false -> is_ws b = false -> strip_ws ((a :: l) ++ [b]) = ((a :: l) ++ [b])%list.
Proof.
  intros Ha Hb. unfold strip_ws. cbn [app drop_ws]. rewrite Ha.
  change (a :: l ++ [b])%list with ((a :: l) ++ [b])%list. rewrite reverse_snoc. cbn [drop_ws]. rewrite Hb.
  by rewrite reverse_cons, reverse_involutive.
Qed.

(** What [hex08] prints, [int(s, 16)] reads. *)
Lemma int16_hex08 v : 0 <= v -> int16 (hex08 v) = Ok v.
Proof.
  intros Hv. unfold int16, hex08. rewrite (proj2 (Z.ltb_ge _ _)) by lia. rewrite B_app, B_text.
  set (n := Nat.max 8 (hex_width v)). assert (Hn : exists k, n = S (S k)) by (exists (n - 2)%nat; lia).
  assert (Hb : v < 16 ^ Z.of_nat n).
  { pose proof (hex_width_bound v Hv). eapply Z.lt_le_trans; [done|]. apply Z.pow_le_mono_r; lia. }
  destruct Hn as [k Hk]. clearbody n. subst n.
  pose proof (Z.mod_pos_bound v 16 ltac:(lia)) as Hd. destruct (digit_cases _ Hd) as (_ & Hws & _ & _).
  change (B "0x" ++ hex_rep (S (S k)) v)%list with (("0"%char :: "x"%char :: hex_rep (S k) (v / 16)) ++ [hex_digit (v mod 16)])%list.
  rewrite strip_ws_id by done. change (("0"%char :: "x"%char :: hex_rep (S k) (v / 16)) ++ [hex_digit (v mod 16)])%list
    with ("0"%char :: "x"%char :: hex_rep (S (S k)) v). cbv beta iota. rewrite !bool_decide_false by done.
  unfold hex_unsigned. rewrite bool_decide_true by auto.
  destruct (hex_rep (S (S k)) v) as [|c l] eqn:E; [by apply (f_equal length) in E; rewrite hex_rep_length in E|].
  rewrite bool_decide_false.
  - rewrite <- E, hex_digits_rep, Z.mod_small by lia. done.
  - assert (Hc : c ∈ hex_rep (S (S k)) v) by (rewrite E; apply list_elem_of_here).
    apply hex_rep_chars in Hc as (d & Hd' & ->). apply (digit_cases d Hd').
Qed.

(** ** The flags and the numbers they stand for *)

Definition step_flag (t : step) : list (string * Z) :=
  match t with
  | Flag _ n m | FlagAll _ n m | Mark _ n m | MarkAll _ n m => [(n, m)]
  | Clear => []
  end.

(** A statement prints its name exactly when all bits of its mask are set:
    one bit is tested, or all of them. *)
Definition one_bit (m : Z) : bool := (0 <? m) && (m =? 2 ^ Z.log2 m).
Definition exact_step (t : step) : bool :=
  match t with
  | Flag test _ m | Mark test _ m => (test =? m) && one_bit m
  | FlagAll test _ m | MarkAll test _ m => (test =? m) && (0 <=? m)
  | Clear => true
  end.

Definition fires (t : step) (val : Z) : bool :=
  match t with
  | Flag test _ _ | Mark test _ _ => negb (Z.land val test =? 0)
  | FlagAll test _ _ | MarkAll test _ _ => Z.land val test =? test
  | Clear => false
  end.

(** The names and masks printed by the statements from a state on. *)
Fixpoint printed (steps : list step) (s : pp_state) : list (string * Z) :=
  match steps with
  | [] => []
  | t :: steps' => (if fires t (pp_val s) then step_flag t else []) ++ printed steps' (run_step s t)
  end.
Definition all_bits (l : list (string * Z)) : Z := fold_right (fun a m => Z.lor a.2 m) 0 l.

Lemma run_step_res s t : pp_res (run_step s t) = (pp_res s ++ (if fires t (pp_val s) then (step_flag t).*1 else []))%list.
Proof. destruct t; simpl; try case_match; simpl; by rewrite ?app_nil_r. Qed.

Lemma printed_names steps : forall s,
  pp_res (fold_left run_step steps s) = (pp_res s ++ (printed steps s).*1)%list.
Proof.
  induction steps as [|t steps IH]; intros s; simpl; [by rewrite app_nil_r|].
  rewrite IH, run_step_res, fmap_app, <- app_assoc. do 2 f_equal. by destruct (fires t (pp_val s)).
Qed.

Lemma printed_sub steps : forall s x, x ∈ printed steps s -> x ∈ mjoin (step_flag <$> steps).
Proof.
  induction steps as [|t steps IH]; intros s x Hx; simpl in Hx |- *; [set_solver|].
  apply elem_of_app in Hx as [Hx|Hx]; apply elem_of_app; [left; by destruct (fires _ _); [|set_solver]|right; by eapply IH].
Qed.

Lemma one_bit_test m v : one_bit m = true -> negb (Z.land v m =? 0) = (Z.land v m =? m).
Proof.
  intros [Hm Hp]%andb_prop. apply Z.ltb_lt in Hm. apply Z.eqb_eq in Hp. rewrite Hp.
  set (k := Z.log2 m). assert (0 <= k) by apply Z.log2_nonneg.
  assert (Hl : Z.land v (2 ^ k) = if Z.testbit v k then 2 ^ k else 0).
  { apply Z.bits_inj'. intros i Hi. rewrite Z.land_spec, Z.pow2_bits_eqb by done.
    destruct (Z.eqb_spec k i) as [->|Hne]; rewrite ?andb_true_r, ?andb_false_r;
      destruct (Z.testbit v _); rewrite ?Z.bits_0, ?Z.pow2_bits_eqb by done; rewrite ?Z.eqb_refl; try done.
    by rewrite (proj2 (Z.eqb_neq _ _)). }
  rewrite Hl. pose proof (Z.pow_pos_nonneg 2 k). destruct (Z.testbit v k).
  - rewrite Z.eqb_refl, (proj2 (Z.eqb_neq _ _)) by lia. done.
  - rewrite Z.eqb_refl. symmetry. apply Z.eqb_neq. lia.
Qed.

Lemma fires_all t v : exact_step t = true -> fires t v = true -> Forall (fun a => Z.land v a.2 = a.2) (step_flag t).
Proof.
  intros He Hf. destruct t; simpl in *; try constructor; try done; cbn [snd];
    apply andb_prop in He as [E Hb]; apply Z.eqb_eq in E; subst.
  - rewrite one_bit_test in Hf by done. by apply Z.eqb_eq.
  - by apply Z.eqb_eq.
  - rewrite one_bit_test in Hf by done. by apply Z.eqb_eq.
  - by apply Z.eqb_eq.
Qed.

(** Nothing is lost: a bit of the value is still to be printed or is in [M],
    the bits of the names printed so far, and only such bits are marked. *)
Definition no_loss (v0 M : Z) (s : pp_state) : Prop := forall i, 0 <= i ->
  Z.testbit v0 i = Z.testbit (pp_val s) i || Z.testbit M i /\
  (Z.testbit (pp_remove s) i = true -> Z.testbit M i = true).

Lemma no_loss_step v0 M s t :
  exact_step t = true -> no_loss v0 M s ->
  no_loss v0 (Z.lor (all_bits (if fires t (pp_val s) then step_flag t else [])) M) (run_step s t).
Proof.
  intros He Hs i Hi. pose proof (fires_all t (pp_val s) He) as Hf. destruct (Hs i Hi) as [Hv Hr].
  destruct t as [test n m|test n m|test n m|test n m|]; cbn [fires step_flag run_step exact_step] in *;
    try (apply andb_prop in He as [E _]; apply Z.eqb_eq in E; subst m).
  all: try (destruct (negb _)); try (destruct (_ =? _)).
  all: try (specialize (Hf eq_refl); apply Forall_inv in Hf; cbn [snd] in Hf;
            apply (f_equal (fun z => Z.testbit z i)) in Hf; rewrite Z.land_spec in Hf).
  all: unfold all_bits, and_not; cbn [fold_right snd pp_val pp_remove];
    rewrite ?Z.lor_spec, ?Z.land_spec, ?Z.lnot_spec, ?Z.bits_0, ?Z.lor_spec by done; rewrite ?Hv.
  all: destruct (Z.testbit (pp_val s) i), (Z.testbit M i), (Z.testbit (pp_remove s) i);
    try destruct (Z.testbit test i); simpl in *; intuition congruence.
Qed.

Lemma no_loss_steps v0 steps : forall M s,
  forallb exact_step steps = true -> no_loss v0 M s ->
  no_loss v0 (Z.lor (all_bits (printed steps s)) M) (fold_left run_step steps s).
Proof.
  induction steps as [|t steps IH]; intros M s He Hs; simpl in He |- *; [done|].
  apply andb_prop in He as [Ht He]. pose proof (IH _ _ He (no_loss_step _ _ _ _ Ht Hs)) as Hn.
  intros i Hi. destruct (Hn i Hi) as [Hv Hr].
  assert (Hb : forall l1 l2, Z.testbit (all_bits (l1 ++ l2)) i = Z.testbit (all_bits l1) i || Z.testbit (all_bits l2) i).
  { intros l1 l2. induction l1 as [|a l1 IHl]; simpl; [by rewrite Z.bits_0|]. by rewrite !Z.lor_spec, IHl, orb_assoc. }
  rewrite !Z.lor_spec in *. rewrite Hb. destruct (Z.testbit (all_bits (if fires t (pp_val s) then step_flag t else [])) i),
    (Z.testbit M i), (Z.testbit (all_bits (printed steps (run_step s t))) i); simpl in *; intuition.
Qed.

(** The value is the left-over together with the masks printed. *)
Lemma run_steps_lossless steps v :
  forallb exact_step steps = true ->
  let s := run_steps steps v in
  let p := printed steps {| pp_val := v; pp_remove := 0; pp_res := [] |} in
  v = Z.lor (pp_val s) (all_bits p) /\ pp_res s = p.*1.
Proof.
  intros He s p. split; [|apply printed_names]. apply Z.bits_inj'. intros i Hi.
  assert (H0 : no_loss v 0 {| pp_val := v; pp_remove := 0; pp_res := [] |}).
  { intros k Hk. cbn. by rewrite Z.bits_0, orb_false_r. }
  destruct (no_loss_steps v steps _ _ He H0 i Hi) as [Hv _]. rewrite Hv, !Z.lor_spec, Z.bits_0, orb_false_r. done.
Qed.

(** ** Reading the text back *)

(** The reader a person is: a piece is a name of the table or a number, and the
    value is the pieces together. *)
Definition names_table (p : printer) : list (string * Z) :=
  ((fun a => (a.2, a.1)) <$> p_whole p) ++ mjoin (step_flag <$> p_steps p).
Fixpoint assoc (l : list (string * Z)) (n : string) : option Z :=
  match l with [] => None | (k, m) :: l' => if bool_decide (k = n) then Some m else assoc l' n end.
Definition read_piece (tbl : list (string * Z)) (s : string) : option Z :=
  match assoc tbl s with
  | Some m => Some m
  | None => match int16 s with Ok v => Some v | Raise _ => None end
  end.
Fixpoint read_pieces (tbl : list (string * Z)) (l : list string) : option Z :=
  match l with
  | [] => Some 0
  | s :: l' => m ← read_piece tbl s; v ← read_pieces tbl l'; Some (Z.lor m v)
  end.
Definition read_flags (p : printer) (t : string) : option Z :=
  if bool_decide (t = "") then Some 0 else read_pieces (names_table p) (split_on "|" t).

(** A table whose text can be read back: exact statements, different names,
    none of which looks like a number or contains the separator. *)
Definition name_ok (n : string) : bool :=
  negb (contains_sub ["|"%char] (B n)) &&
  match n with String c _ => negb (bool_decide (c = "0"%char)) | EmptyString => false end.
Definition exact_printer (p : printer) : bool :=
  forallb exact_step (p_steps p) && bool_decide (NoDup (names_table p).*1) && forallb name_ok (names_table p).*1.

Lemma assoc_in l n m : NoDup l.*1 -> (n, m) ∈ l -> assoc l n = Some m.
Proof.
  induction l as [|[k x] l IH]; intros Hd Hin; [set_solver|]. cbn [fmap list_fmap fst] in Hd.
  apply NoDup_cons in Hd as [Hk Hd]. apply elem_of_cons in Hin as [E|Hin]; simpl.
  - simplify_eq. by rewrite bool_decide_true.
  - rewrite bool_decide_false; [by apply IH|]. intros ->. apply Hk. rewrite list_elem_of_fmap. by exists (n, m).
Qed.

Lemma assoc_none l n : n ∉ l.*1 -> assoc l n = None.
Proof.
  induction l as [|[k x] l IH]; intros Hn; [done|]. cbn [fmap list_fmap fst assoc] in *.
  rewrite bool_decide_false by (intros ->; apply Hn, list_elem_of_here). apply IH. set_solver.
Qed.

Lemma name_ok_spec n : name_ok n = true -> "|"%char ∉ B n /\ n <> "" /\ forall s, n <> String "0" s.
Proof.
  unfold name_ok. intros [H1 H2]%andb_prop. apply negb_true_iff in H1. split.
  - intros Hin. apply list_elem_of_split in Hin as (a & b & E).
    assert (contains_sub ["|"%char] (B n) = true); [|congruence]. apply contains_sub_spec. exists a, b. by rewrite E.
  - destruct n as [|c n]; [done|]. split; [done|]. intros s E. by simplify_eq.
Qed.

Lemma hex08_shape v : 0 <= v -> "|"%char ∉ B (hex08 v) /\ exists s, hex08 v = String "0" s.
Proof.
  intros Hv. unfold hex08. rewrite (proj2 (Z.ltb_ge _ _)) by lia. split; [|by eexists].
  rewrite B_app, B_text. intros [Hin|Hin]%elem_of_app; [by vm_compute in Hin; set_solver|].
  apply hex_rep_chars in Hin as (d & Hd & E). by apply (digit_cases d Hd).
Qed.

Lemma split_join l : l <> [] -> (forall s, s ∈ l -> "|"%char ∉ B s) -> split_on "|" (join "|" l) = l.
Proof.
  induction l as [|s l IH]; intros Hne Hl; [done|]. cbn [join]. destruct l as [|s2 l].
  - unfold split_on. rewrite split_byte_single by (apply Hl, list_elem_of_here). simpl. by rewrite text_B.
  - etrans; [apply (split_on_app "|" s (join "|" (s2 :: l)))|]. rewrite IH by (done || set_solver).
    unfold split_on. rewrite split_byte_single by (apply Hl, list_elem_of_here). simpl. by rewrite text_B.
Qed.

Lemma join_nonempty l : l <> [] -> (forall s, s ∈ l -> s <> "") -> join "|" l <> "".
Proof.
  destruct l as [|s l]; [done|]. intros _ Hl. assert (s <> "") by (apply Hl, list_elem_of_here).
  destruct l, s; done.
Qed.

Lemma read_pieces_app tbl l1 l2 a b :
  read_pieces tbl l1 = Some a -> read_pieces tbl l2 = Some b -> read_pieces tbl (l1 ++ l2) = Some (Z.lor a b).
Proof.
  revert a. induction l1 as [|s l1 IH]; intros a Ha Hb; simpl in *; [simplify_eq; by rewrite Hb|].
  destruct (read_piece tbl s) as [m|]; [|done]. simpl in *. destruct (read_pieces tbl l1) as [v|]; simplify_eq/=.
  erewrite IH by done. simpl. by rewrite Z.lor_assoc.
Qed.

Lemma read_pieces_names tbl l :
  NoDup tbl.*1 -> (forall x, x ∈ l -> x ∈ tbl) -> read_pieces tbl l.*1 = Some (all_bits l).
Proof.
  intros Hd. induction l as [|[n m] l IH]; intros Hl; [done|]. cbn [fmap list_fmap fst read_pieces].
  unfold read_piece. rewrite (assoc_in tbl n m); [|done|apply Hl, list_elem_of_here]. simpl.
  rewrite IH by set_solver. done.
Qed.

Section printer_props.
Context (p : printer) (Hp : exact_printer p = true).

Lemma exact_printer_spec :
  forallb exact_step (p_steps p) = true /\ NoDup (names_table p).*1 /\
  forall n, n ∈ (names_table p).*1 -> name_ok n = true.
Proof using Hp.
  unfold exact_printer in Hp. apply andb_prop in Hp as [[H1 H2]%andb_prop H3].
  split_and!; [done|by apply bool_decide_eq_true in H2|]. intros n Hn. rewrite forallb_forall in H3.
  apply H3. by apply list_elem_of_In.
Qed.

Lemma read_leftover v : 0 <= v -> read_piece (names_table p) (hex08 v) = Some v.
Proof using Hp.
  intros Hv. unfold read_piece. rewrite assoc_none; [by rewrite int16_hex08|].
  intros Hin. apply exact_printer_spec in Hin. apply name_ok_spec in Hin as (_ & _ & Hn).
  destruct (hex08_shape v Hv) as [_ [s Hs]]. by apply (Hn s).
Qed.

Lemma read_flags_text v : 0 <= v -> read_flags p (flags_text (p_steps p) v) = Some v.
Proof using Hp.
  intros Hv. destruct exact_printer_spec as (He & Hd & Hok).
  destruct (run_steps_lossless (p_steps p) v He) as [Hval Hres]. unfold flags_text.
  set (s := run_steps (p_steps p) v) in *. set (q := printed _ _) in *.
  assert (Hq : forall x, x ∈ q -> x ∈ names_table p).
  { intros x Hx. unfold names_table. apply elem_of_app. right. by eapply printed_sub. }
  assert (Hleft : 0 <= pp_val s).
  { rewrite Hval in Hv. apply Z.lor_nonneg in Hv as [Hv _]. exact Hv. }
  set (l := with_leftover (pp_val s) (pp_res s)).
  assert (Hpieces : read_pieces (names_table p) l = Some v).
  { unfold l, with_leftover. rewrite Hres. pose proof (read_pieces_names _ q Hd Hq) as Hr.
    destruct (Z.eqb_spec (pp_val s) 0) as [E|E]; cbn [negb].
    - rewrite Hr, Hval, E. by rewrite Z.lor_0_l.
    - rewrite (read_pieces_app _ _ _ _ (Z.lor (pp_val s) 0) Hr).
      + by rewrite Z.lor_0_r, Z.lor_comm, <- Hval.
      + cbn [read_pieces]. by rewrite read_leftover. }
  assert (Hl : forall n, n ∈ l -> "|"%char ∉ B n /\ n <> "").
  { intros n Hn. assert (n ∈ q.*1 \/ n = hex08 (pp_val s)) as [Hn'| ->].
    { unfold l, with_leftover in Hn. rewrite Hres in Hn. destruct (negb _); [|by left].
      apply elem_of_app in Hn as [Hn|Hn%list_elem_of_singleton]; auto. }
    - apply list_elem_of_fmap in Hn' as (x & -> & Hx). apply Hq in Hx.
      destruct (name_ok_spec x.1) as (H1 & H2 & _); [|done]. apply Hok. rewrite list_elem_of_fmap. by exists x.
    - destruct (hex08_shape _ Hleft) as [H1 [t Ht]]. split; [exact H1|by rewrite Ht]. }
  change (read_flags p (join "|" l) = Some v). clearbody l. unfold read_flags. destruct l as [|n l'].
  - rewrite bool_decide_true by done. exact Hpieces.
  - rewrite bool_decide_false by (apply join_nonempty; [done|]; intros x Hx; by apply Hl).
    rewrite split_join; [exact Hpieces|done|]. intros x Hx. by apply Hl.
Qed.

Lemma whole_name_in v n : whole_name (p_whole p) v = Some n -> (n, v) ∈ names_table p.
Proof using Type.
  intros Hw. unfold names_table. apply elem_of_app. left.
  induction (p_whole p) as [|[k m] l IH]; simpl in Hw; [done|]. csimpl.
  destruct (Z.eqb_spec v k) as [->|]; simplify_eq; [apply list_elem_of_here|]. apply list_elem_of_further. by apply IH.
Qed.

Lemma read_print_value v : 0 <= v -> read_flags p (print_value p v) = Some v.
Proof using Hp.
  intros Hv. unfold print_value. destruct (whole_name (p_whole p) v) as [n|] eqn:Hw; [|by apply read_flags_text].
  destruct exact_printer_spec as (_ & Hd & Hok). apply whole_name_in in Hw.
  destruct (name_ok_spec n) as (H1 & H2 & _); [apply Hok; rewrite list_elem_of_fmap; by exists (n, v)|].
  unfold read_flags. rewrite bool_decide_false by done. unfold split_on. rewrite split_byte_single by done.
  cbn [fmap list_fmap]. rewrite text_B. cbn [read_pieces]. unfold read_piece. rewrite (assoc_in _ n v) by done.
  simpl. by rewrite Z.lor_0_r.
Qed.
End printer_props.

(** The functions whose text can be read back. *)
Definition exact_printers : list printer :=
  [api_name_createtoolhelp32snapshot_arg_name_flags_printer; shareaccess_printer;
   api_name_opensc_arg_name_desiredaccess_printer; category_services_arg_name_desiredaccess_printer;
   arg_name_protection_and_others_printer; api_name_in_creation_printer; api_name_move_arg_name_flags_printer;
   arg_name_fileattributes_printer; api_name_nt_arg_name_desiredaccess_printer;
   api_name_cointernet_arg_name_flags_printer].

Lemma exact_printers_ok p : p ∈ exact_printers -> exact_printer p = true.
Proof.
  intros Hp. assert (H : forallb exact_printer exact_printers = true) by (vm_compute; reflexivity).
  rewrite forallb_forall in H. apply H. by apply list_elem_of_In.
Qed.

(** For ten of the functions that print flags, the text stands for exactly
    the value: reading the names and the left-over number back gives the
    argument, for every value of any width. *)
Theorem flags_read_back p v : p ∈ exact_printers -> 0 <= v -> read_flags p (print_value p v) = Some v.
Proof. intros Hp Hv. by apply read_print_value; [apply exact_printers_ok|]. Qed.

(** The text of a flag function is never lost; the bits shared by
    [STANDARD_RIGHTS_REQUIRED] are: one bit prints as all four. *)
Lemma section_rights_ambiguous :
  print_value api_name_ntcreatesection_arg_name_desiredaccess_printer 0x10001 =
  print_value api_name_ntcreatesection_arg_name_desiredaccess_printer 0x40001.
Proof. vm_compute. reflexivity. Qed.

(** The mask 0x130 has the bits of both kinds of Win32 services. *)
Lemma own_process_shown_interactive :
  category_services_arg_name_servicetype "16" =
  Ok (Some "SERVICE_WIN32_OWN_PROCESS|SERVICE_INTERACTIVE_PROCESS").
Proof. vm_compute. reflexivity. Qed.

(** Printing fails only on text that is no number, or on a service of an
    unknown type. *)
Definition print_error (e : exn) : Prop := e = ValueError \/ e = TypeError.
Lemma of_option_error {A} e (o : option A) e' : of_option e o = Raise e' -> e' = e.
Proof. destruct o; simpl; congruence. Qed.
Lemma py_int_text_error s e : py_int_text s = Raise e -> print_error e.
Proof. intros H%of_option_error. by left. Qed.
Lemma int16_error s e : int16 s = Raise e -> print_error e.
Proof. intros H%of_option_error. by left. Qed.

Lemma flags_read_back_witness :
  read_flags arg_name_protection_and_others_printer (print_value arg_name_protection_and_others_printer 0x1040) = Some 0x1040.
Proof.
  apply (flags_read_back arg_name_protection_and_others_printer 0x1040); [|lia].
  unfold exact_printers. repeat first [apply list_elem_of_here|apply list_elem_of_further].
Defined.

(** Follows a printing function to where it raises. *)
Ltac print_error_step :=
  match goal with
  | H : Ok _ = Raise _ |- _ => discriminate H
  | H : Raise TypeError = Raise _ |- _ => injection H as <-; by right
  | H : rbind ?r _ = Raise _ |- _ => destruct r eqn:?; cbn [rbind] in H
  | H : Raise _ = Raise _ |- _ => injection H as <-
  | H : int16 _ = Raise _ |- _ => exact (int16_error _ _ H)
  | H : py_int_text _ = Raise _ |- _ => exact (py_int_text_error _ _ H)
  | H : context [if ?b then _ else _] |- _ => destruct b
  | H : context [match ?x with _ => _ end] |- _ => destruct x eqn:?
  end.

Lemma print_flags_error p s e : p_int p = int16 \/ p_int p = py_int_text -> print_flags p s = Raise e -> print_error e.
Proof. unfold print_flags. intros [->| ->] H; repeat print_error_step. Qed.

Lemma pretty_print_arg_error category api_name arg_name arg_val e :
  pretty_print_arg category api_name arg_name arg_val = Raise e -> print_error e.
Proof.
  intros H. unfold pretty_print_arg in H. cbv zeta in H.
  repeat match type of H with (if ?b then _ else _) = _ => destruct b end.
  all: try (eapply print_flags_error; [|exact H]; first [by left|by right]).
  all: try discriminate H.
  all: unfold blobtype, algid, hookidentifer, infolevel, disposition, createdisposition, systeminformationclass,
    category_registry_arg_name_type, category_services_arg_name_controlcode, category_services_arg_name_errorcontrol,
    category_services_arg_name_starttype, category_services_arg_name_servicetype, arg_name_iocontrolcode,
    api_name_cointernet_arg_name_featureentry, api_name_internetsetoptiona_arg_name_option, api_name_socket,
    arg_name_fileinformationclass, arg_name_processinformationclass, arg_name_threadinformationclass,
    arg_name_memtype, arg_name_show, arg_name_registry, arg_name_clscontext,
    api_name_shgetfolderpathw_arg_name_folder in H; repeat print_error_step.
Qed.
