(* ===== verification/ProcessLog.v ===== *)
(** The behaviour log of one process: the BSON parser of lib/cuckoo/common/netlog.py
    and [ParseProcessLog] and [Processes] of modules/processing/behavior.py. *)
From S2P Require Import Prelude Struct Pretty Quarantine.
Open Scope string_scope.
Open Scope list_scope.
Open Scope Z_scope.

(** ** Values and messages *)

(** Argument values: integers, text in UTF-8, binary data, a non-empty array
    of binary strings, and [None]. *)
Inductive bval :=
| BInt (v : Z)
| BText (s : string)
| BBytes (b : list Z)
| BArgv (b : list Z) (l : list (list Z))
| BNone.
#[global] Instance bval_eq_dec : EqDecision bval.
Proof. solve_decision. Defined.

(** A decoded message, with the defaults of [dec.get] filled in. [d_arginfo]
    and [d_args] are the field [args] of an explanation and of a call. *)
Record document := {
  d_type : string; d_I : Z; d_T : Z; d_t : Z; d_R : Z; d_P : Z; d_r : Z;
  d_name : string; d_category : option string;
  d_arginfo : list (string * option string); d_flags_bitmask : bool;
  d_starttime : Z; d_args : list bval; d_aux : list (string * bval) }.

(** The [bson] package, and [datetime.fromtimestamp] for the ticks of a
    [FILETIME] and for seconds, in microseconds. *)
Class bson := {
  bson_decode : list Z -> option document;
  fromfiletime : Z -> res Z;
  fromtimestamp : Z -> res Z }.

Definition MAX_MESSAGE_LENGTH : Z := 20 * 1024 * 1024.

(** The names and the categories of the table of lib/cuckoo/common/logtbl.py. *)
Definition LOGTBL : list (string * string) :=
  [("__process__", "__init__"); ("__thread__", "__init__"); ("NtDeleteFile", "filesystem");
   ("CreateDirectoryW", "filesystem"); ("CreateDirectoryExW", "filesystem");
   ("RemoveDirectoryA", "filesystem"); ("RemoveDirectoryW", "filesystem"); ("FindFirstFileExA", "filesystem");
   ("FindFirstFileExW", "filesystem"); ("DeleteFileA", "filesystem"); ("DeleteFileW", "filesystem");
   ("UnhookWindowsHookEx", "hooking"); ("LdrGetDllHandle", "system"); ("ExitWindowsEx", "system");
   ("IsDebuggerPresent", "system"); ("LookupPrivilegeValueW", "system"); ("NtClose", "system");
   ("URLDownloadToFileW", "network"); ("InternetReadFile", "network"); ("InternetWriteFile", "network");
   ("InternetCloseHandle", "network"); ("DnsQuery_A", "network"); ("DnsQuery_UTF8", "network");
   ("DnsQuery_W", "network"); ("getaddrinfo", "network"); ("GetAddrInfoW", "network");
   ("NtTerminateProcess", "process"); ("ExitProcess", "process"); ("system", "process");
   ("RegOpenKeyExA", "registry"); ("RegOpenKeyExW", "registry"); ("RegDeleteKeyA", "registry");
   ("RegDeleteKeyW", "registry"); ("RegEnumKeyW", "registry"); ("RegDeleteValueA", "registry");
   ("RegDeleteValueW", "registry"); ("RegCloseKey", "registry"); ("NtRenameKey", "registry");
   ("NtEnumerateKey", "registry"); ("NtDeleteKey", "registry"); ("NtDeleteValueKey", "registry");
   ("NtLoadKey", "registry"); ("NtSaveKey", "registry"); ("ControlService", "services");
   ("DeleteService", "services"); ("NtDelayExecution", "system"); ("NtDelayExecution", "system");
   ("WSAStartup", "socket"); ("gethostbyname", "socket"); ("socket", "socket"); ("connect", "socket");
   ("send", "socket"); ("sendto", "socket"); ("recv", "socket"); ("recvfrom", "socket"); ("accept", "socket");
   ("bind", "socket"); ("bind", "socket"); ("setsockopt", "socket"); ("listen", "socket");
   ("select", "socket"); ("ioctlsocket", "socket"); ("closesocket", "socket"); ("shutdown", "socket");
   ("WSARecv", "socket"); ("WSARecvFrom", "socket"); ("WSASend", "socket"); ("WSASendTo", "socket");
   ("WSASocketA", "socket"); ("WSASocketW", "socket"); ("ConnectEx", "socket");
   ("NtOpenMutant", "synchronization"); ("NtGetContextThread", "threading");
   ("NtSetContextThread", "threading"); ("NtResumeThread", "threading"); ("NtTerminateThread", "threading");
   ("ExitThread", "threading"); ("FindWindowA", "windows"); ("FindWindowW", "windows");
   ("FindWindowExA", "windows"); ("FindWindowExA", "windows"); ("FindWindowExW", "windows");
   ("FindWindowExW", "windows"); ("NtCreateFile", "filesystem"); ("NtOpenFile", "filesystem");
   ("NtReadFile", "filesystem"); ("NtWriteFile", "filesystem"); ("NtDeviceIoControlFile", "filesystem");
   ("NtQueryDirectoryFile", "filesystem"); ("NtQueryInformationFile", "filesystem");
   ("NtSetInformationFile", "filesystem"); ("NtOpenDirectoryObject", "filesystem");
   ("NtCreateDirectoryObject", "filesystem"); ("MoveFileWithProgressW", "filesystem");
   ("CopyFileA", "filesystem"); ("CopyFileW", "filesystem"); ("CopyFileExW", "filesystem");
   ("SetWindowsHookExA", "system"); ("SetWindowsHookExW", "system"); ("LdrLoadDll", "system");
   ("LdrGetProcedureAddress", "system"); ("DeviceIoControl", "device"); ("WriteConsoleA", "system");
   ("WriteConsoleW", "system"); ("InternetOpenA", "network"); ("InternetOpenW", "network");
   ("InternetConnectA", "network"); ("InternetConnectW", "network"); ("InternetOpenUrlA", "network");
   ("InternetOpenUrlW", "network"); ("HttpOpenRequestA", "network"); ("HttpOpenRequestW", "network");
   ("HttpSendRequestA", "network"); ("HttpSendRequestW", "network"); ("NtCreateProcess", "process");
   ("NtCreateProcessEx", "process"); ("NtCreateUserProcess", "process"); ("NtOpenProcess", "process");
   ("NtOpenProcess", "process"); ("NtCreateSection", "process"); ("NtOpenSection", "process");
   ("CreateProcessInternalW", "process"); ("ShellExecuteExW", "process");
   ("NtAllocateVirtualMemory", "process"); ("NtReadVirtualMemory", "process");
   ("ReadProcessMemory", "process"); ("NtWriteVirtualMemory", "process"); ("WriteProcessMemory", "process");
   ("NtProtectVirtualMemory", "process"); ("VirtualProtectEx", "process"); ("NtFreeVirtualMemory", "process");
   ("VirtualFreeEx", "process"); ("RegCreateKeyExA", "registry"); ("RegCreateKeyExW", "registry");
   ("RegEnumKeyExA", "registry"); ("RegEnumKeyExW", "registry"); ("RegEnumValueA", "registry");
   ("RegEnumValueA", "registry"); ("RegEnumValueW", "registry"); ("RegEnumValueW", "registry");
   ("RegSetValueExA", "registry"); ("RegSetValueExA", "registry"); ("RegSetValueExW", "registry");
   ("RegSetValueExW", "registry"); ("RegQueryValueExA", "registry"); ("RegQueryValueExA", "registry");
   ("RegQueryValueExW", "registry"); ("RegQueryValueExW", "registry"); ("RegQueryInfoKeyA", "registry");
   ("RegQueryInfoKeyW", "registry"); ("NtCreateKey", "registry"); ("NtOpenKey", "registry");
   ("NtOpenKeyEx", "registry"); ("NtReplaceKey", "registry"); ("NtEnumerateValueKey", "registry");
   ("NtSetValueKey", "registry"); ("NtSetValueKey", "registry"); ("NtQueryValueKey", "registry");
   ("NtQueryValueKey", "registry"); ("NtQueryMultipleValueKey", "registry"); ("NtLoadKey2", "registry");
   ("NtLoadKeyEx", "registry"); ("NtQueryKey", "registry"); ("NtSaveKeyEx", "registry");
   ("OpenSCManagerA", "services"); ("OpenSCManagerW", "services"); ("CreateServiceA", "services");
   ("CreateServiceW", "services"); ("OpenServiceA", "services"); ("OpenServiceW", "services");
   ("StartServiceA", "services"); ("StartServiceW", "services"); ("TransmitFile", "socket");
   ("NtCreateMutant", "synchronization"); ("NtCreateNamedPipeFile", "synchronization");
   ("NtCreateThread", "threading"); ("NtOpenThread", "threading"); ("NtSuspendThread", "threading");
   ("CreateThread", "threading"); ("CreateRemoteThread", "threading"); ("RtlCreateUserThread", "threading");
   ("NtMapViewOfSection", "process"); ("GetSystemMetrics", "misc"); ("GetCursorPos", "misc");
   ("REGISTRY_OPEN_KEY", "registry"); ("REGISTRY_DELETE_KEY", "registry");
   ("REGISTRY_VALUE_KEY_SET", "registry"); ("REGISTRY_VALUE_KEY_DELETE", "registry");
   ("REGISTRY_KEY_RENAME", "registry"); ("REGISTRY_ENUMERATE_KEY", "registry");
   ("REGISTRY_ENUMERATE_VALUE_KEY", "registry"); ("REGISTRY_QUERY_KEY", "registry");
   ("REGISTRY_QUERY_VALUE_KEY", "registry"); ("REGISTRY_CREATE_KEY", "registry"); ("LOAD_DRIVER", "system");
   ("ZwOpenProcess", "process"); ("ZwOpenThread", "threading"); ("ZwQuerySystemInformation", "process");
   ("ZwWriteVirtualMemory", "process"); ("ZwDebugActiveProcess", "process"); ("ZwCreateProcess", "process");
   ("ZwCreateProcessEx", "process"); ("ZwQueueApcThread", "threading"); ("ZwCreateThread", "threading");
   ("ZwCreateThreadEx", "threading"); ("NtMapViewOfSection", "process"); ("ZwSetContextThread", "threading");
   ("ZwSystemDebugControl", "process"); ("ZwCreateFile", "filesystem"); ("ZwOpenFile", "filesystem");
   ("ZwReadFile", "filesystem"); ("ZwWriteFile", "filesystem"); ("ZwDeleteFile", "filesystem");
   ("ZwClose (FILE_DELETE_ON_CLOSE)", "filesystem"); ("ZwSetInformationFile (Delete)", "filesystem");
   ("ZwSetInformationFile (Rename)", "filesystem"); ("ZwQueryInformationFile", "filesystem");
   ("ZwCreateMutant", "synchronization"); ("ZwDeviceIoControlFile", "system");
   ("ZwTerminateProcess", "process"); ("ZwDelayExecution", "system"); ("ZwQueryAttributesFile", "filesystem");
   ("ZwReadVirtualMemory", "process"); ("ZwResumeThread", "threading"); ("ZwCreateSection", "process");
   ("ZwUserCallOneParam", "system"); ("ZwUserCallNoParam", "system"); ("ZwLoadDriver", "system");
   ("ZwCreateUserProcess", "process")].

(** ** Text *)

(** The code points of well-formed UTF-8. *)
Fixpoint utf8_chars (l : bytes) : list Z :=
  let v c := byte_val c in
  match l with
  | [] => []
  | a :: l1 =>
      if v a <? 128 then v a :: utf8_chars l1 else
      match l1 with
      | [] => []
      | b :: l2 =>
          if v a <? 224 then (v a - 192) * 64 + (v b - 128) :: utf8_chars l2 else
          match l2 with
          | [] => []
          | c :: l3 =>
              if v a <? 240 then ((v a - 224) * 64 + (v b - 128)) * 64 + (v c - 128) :: utf8_chars l3 else
              match l3 with
              | [] => []
              | d :: l4 =>
                  (((v a - 240) * 64 + (v b - 128)) * 64 + (v c - 128)) * 64 + (v d - 128) :: utf8_chars l4
              end
          end
      end
  end.

(** [b.decode()], and when that fails every byte as the character of its
    number, which takes two bytes from 128 on. *)
Definition latin1_utf8 (b : Z) : bytes :=
  if b <? 128 then [byte_char b] else [byte_char (192 + b / 64); byte_char (128 + b mod 64)].
Definition decode_utf8 (b : list Z) : option string :=
  let l := byte_char <$> b in if utf8_valid l then Some (text l) else None.
Definition bytes2str (b : list Z) : string :=
  match decode_utf8 b with
  | Some s => s
  | None => text (mjoin (latin1_utf8 <$> b))
  end.

(** In a list or a dictionary the second try is [ord] of an integer, which
    raises. *)
Definition bytes2str_element (b : list Z) : res string := of_option TypeError (decode_utf8 b).
Fixpoint bytes2str_list (l : list (list Z)) : res (list string) :=
  match l with
  | [] => Ok []
  | b :: l' => let! s := bytes2str_element b in let! r := bytes2str_list l' in Ok (s :: r)
  end.

(** What is not binary is left out of the new dictionary. *)
Fixpoint bytes2str_dict (d : list (string * bval)) : res (list (string * bval)) :=
  match d with
  | [] => Ok []
  | (k, BBytes b) :: d' =>
      let! s := bytes2str_element b in let! r := bytes2str_dict d' in Ok ((k, BText s) :: r)
  | _ :: d' => bytes2str_dict d'
  end.

(** Letters, digits, punctuation, space, tab, CR and LF. *)
Definition printable (c : Z) : bool := (32 <=? c) && (c <=? 126) || (c =? 9) || (c =? 10) || (c =? 13).
Definition convert_char (c : Z) : bytes :=
  if printable c then [byte_char c] else B "\x" ++ hex_rep (Nat.max 2 (hex_width c)) c.
Definition printable_text (s : string) : string :=
  let l := utf8_chars (B s) in
  if forallb printable l then s else text (mjoin (convert_char <$> l)).

(** [str(v)] of an integer. *)
Fixpoint dec_rep (fuel : nat) (v : Z) (acc : bytes) : bytes :=
  match fuel with
  | O => acc
  | S fuel' =>
      let acc := byte_char (48 + v mod 10) :: acc in
      if v <? 10 then acc else dec_rep fuel' (v / 10) acc
  end.
Definition str_int (v : Z) : string :=
  let digits n := text (dec_rep (S (Z.to_nat (Z.log2 n))) n []) in
  if v <? 0 then "-" +:+ digits (- v) else digits v.

Definition convert_to_printable (v : bval) : res string :=
  match v with
  | BInt n => Ok (str_int n)
  | BText s => Ok (printable_text s)
  | BBytes b => Ok (bytes2str b)
  | BArgv _ _ | BNone => Raise TypeError
  end.

(** [str(v)] of any value. *)
Definition py_str (v : bval) : string :=
  match v with
  | BInt n => str_int n
  | BText s => s
  | BBytes b => text (repr_bytes b)
  | BArgv b l => "[" +:+ join ", " ((fun x => text (repr_bytes x)) <$> b :: l) +:+ "]"
  | BNone => "None"
  end.

Definition bval_true (v : bval) : bool :=
  match v with
  | BInt n => negb (n =? 0)
  | BText s => bool_decide (s <> "")
  | BBytes b => bool_decide (b <> [])
  | BArgv _ _ => true
  | BNone => false
  end.

(** ** Converters *)

(** Every integer of Python 3 is an [int], so the branch for wide integers is
    not reached. *)
Definition default_converter (v : bval) : bval :=
  match v with BInt n => BInt (Z.land n 0xFFFFFFFF) | _ => v end.

(** [f"0x{default_converter(v):08x}"]. *)
Definition hex_converter (v : bval) : res bval :=
  match default_converter v with
  | BInt n => Ok (BText (hex08 n))
  | BText _ => Raise ValueError
  | _ => Raise TypeError
  end.

Inductive converter := DefaultConverter | HexConverter.
Definition convert (c : converter) (v : bval) : res bval :=
  match c with DefaultConverter => Ok (default_converter v) | HexConverter => hex_converter v end.

Definition TYPECONVERTERS (fmt : string) : option converter :=
  if bool_decide (fmt = "h" \/ fmt = "p") then Some HexConverter else None.

Definition check_names_for_typeinfo (arginfo : list (string * option string)) : list string * list converter :=
  (arginfo.*1, (fun i => match i.2 with
                         | Some fmt => default DefaultConverter (TYPECONVERTERS fmt)
                         | None => DefaultConverter
                         end) <$> arginfo).

(** Dictionaries keep the place of the first insertion. *)
Fixpoint dict_set {A} (k : string) (v : A) (d : list (string * A)) : list (string * A) :=
  match d with
  | [] => [(k, v)]
  | (k', v') :: d' => if bool_decide (k = k') then (k, v) :: d' else (k', v') :: dict_set k v d'
  end.
Fixpoint dict_lookup {A} (k : string) (d : list (string * A)) : option A :=
  match d with
  | [] => None
  | (k', v') :: d' => if bool_decide (k = k') then Some v' else dict_lookup k d'
  end.
(** [d.pop(k, default)]. *)
Fixpoint dict_pop {A} (k : string) (def : A) (d : list (string * A)) : A * list (string * A) :=
  match d with
  | [] => (def, [])
  | (k', v') :: d' =>
      if bool_decide (k = k') then (v', d') else let '(v, d1) := dict_pop k def d' in (v, (k', v') :: d1)
  end.
Definition dict_update {A} (d new : list (string * A)) : list (string * A) :=
  fold_left (fun acc kv => dict_set kv.1 kv.2 acc) new d.

Fixpoint convert_args (names : list string) (convs : list converter) (args : list bval) :
    res (list (string * bval)) :=
  match names, convs, args with
  | n :: names', c :: convs', a :: args' =>
      let! v := convert c a in let! r := convert_args names' convs' args' in Ok ((n, v) :: r)
  | _, _, _ => Ok []
  end.

(** ** The log *)

Record argument := { a_name : string; a_value : string; raw_value : option bval; pretty_value : option string }.
#[global] Instance argument_eq_dec : EqDecision argument.
Proof. solve_decision. Defined.

(** One recorded call; [timestamp] in microseconds, [c_id] unset until the call
    is handed out. *)
Record call := {
  timestamp : Z; thread_id : string; caller : string; parentcaller : string; category : string; api : string;
  c_status : bool; c_return : string; pretty_return : option string; arguments : list argument;
  repeated : Z; c_id : option Z }.

Record info := { i_name : string; i_argnames : list string; i_converters : list converter; i_category : string }.

(** [ParseProcessLog] with its parser and its file: what follows the position,
    and the whole file for [seek(0)]. The conversion cache holds results of a
    pure function and is left out. *)
Record plog := {
  pl_rest : list Z; pl_whole : list Z; infomap : gmap Z info;
  process_id : bval; process_name : bval; parent_id : bval; module_path : bval; first_seen : option Z;
  threads : list string; environdict : list (string * bval); lastcall : option call;
  api_count : Z; call_id : Z; api_limit : Z; reporting_mode : bool }.

Definition set_rest (r : list Z) (s : plog) : plog :=
  {| pl_rest := r; pl_whole := pl_whole s; infomap := infomap s; process_id := process_id s;
     process_name := process_name s; parent_id := parent_id s; module_path := module_path s;
     first_seen := first_seen s; threads := threads s; environdict := environdict s; lastcall := lastcall s;
     api_count := api_count s; call_id := call_id s; api_limit := api_limit s; reporting_mode := reporting_mode s |}.
Definition set_infomap (m : gmap Z info) (s : plog) : plog :=
  {| pl_rest := pl_rest s; pl_whole := pl_whole s; infomap := m; process_id := process_id s;
     process_name := process_name s; parent_id := parent_id s; module_path := module_path s;
     first_seen := first_seen s; threads := threads s; environdict := environdict s; lastcall := lastcall s;
     api_count := api_count s; call_id := call_id s; api_limit := api_limit s; reporting_mode := reporting_mode s |}.
Definition set_process (pid ppid name path : bval) (seen : Z) (s : plog) : plog :=
  {| pl_rest := pl_rest s; pl_whole := pl_whole s; infomap := infomap s; process_id := pid;
     process_name := name; parent_id := ppid; module_path := path;
     first_seen := Some seen; threads := threads s; environdict := environdict s; lastcall := lastcall s;
     api_count := api_count s; call_id := call_id s; api_limit := api_limit s; reporting_mode := reporting_mode s |}.
Definition set_environ (d : list (string * bval)) (s : plog) : plog :=
  {| pl_rest := pl_rest s; pl_whole := pl_whole s; infomap := infomap s; process_id := process_id s;
     process_name := process_name s; parent_id := parent_id s; module_path := module_path s;
     first_seen := first_seen s; threads := threads s; environdict := d; lastcall := lastcall s;
     api_count := api_count s; call_id := call_id s; api_limit := api_limit s; reporting_mode := reporting_mode s |}.
Definition set_lastcall (c : option call) (s : plog) : plog :=
  {| pl_rest := pl_rest s; pl_whole := pl_whole s; infomap := infomap s; process_id := process_id s;
     process_name := process_name s; parent_id := parent_id s; module_path := module_path s;
     first_seen := first_seen s; threads := threads s; environdict := environdict s; lastcall := c;
     api_count := api_count s; call_id := call_id s; api_limit := api_limit s; reporting_mode := reporting_mode s |}.
Definition add_thread (t : string) (s : plog) : plog :=
  {| pl_rest := pl_rest s; pl_whole := pl_whole s; infomap := infomap s; process_id := process_id s;
     process_name := process_name s; parent_id := parent_id s; module_path := module_path s;
     first_seen := first_seen s; threads := if bool_decide (t ∈ threads s) then threads s else threads s ++ [t];
     environdict := environdict s; lastcall := lastcall s;
     api_count := api_count s; call_id := call_id s; api_limit := api_limit s; reporting_mode := reporting_mode s |}.
Definition set_counts (a c : Z) (s : plog) : plog :=
  {| pl_rest := pl_rest s; pl_whole := pl_whole s; infomap := infomap s; process_id := process_id s;
     process_name := process_name s; parent_id := parent_id s; module_path := module_path s;
     first_seen := first_seen s; threads := threads s; environdict := environdict s; lastcall := lastcall s;
     api_count := a; call_id := c; api_limit := api_limit s; reporting_mode := reporting_mode s |}.

(** [ParseProcessLog.read]: a short read leaves the file at its end. *)
Definition read (length : Z) : st plog (list Z) := fun s =>
  if length <=? 0 then (Ok [], s) else
  let buf := take (Z.to_nat length) (pl_rest s) in
  let s' := set_rest (drop (Z.to_nat length) (pl_rest s)) s in
  if bool_decide (buf = [] \/ zlen buf <> length) then (Raise EOFError, s') else (Ok buf, s').

(** *** The callbacks of the parser *)

(** [arg_value] after the conversions that precede the [try] block. *)
Definition arg_text (v : bval) : res bval :=
  match v with
  | BBytes b => Ok (BText (bytes2str b))
  | BArgv b l => let! parts := bytes2str_list (b :: l) in Ok (BText (join " " parts))
  | _ => Ok v
  end.

(** One argument of [_parse]; [None] is one that is skipped. *)
Definition parse_argument (reporting : bool) (category api_name : string) (arg : string * bval) :
    res (option argument) :=
  let '(arg_name, v) := arg in
  let! arg_value := arg_text v in
  match convert_to_printable arg_value with
  | Raise _ => Ok None
  | Ok value =>
      let! pretty := pretty_print_arg category api_name arg_name value in
      Ok (Some {| a_name := arg_name; a_value := value;
                  raw_value := if reporting then None else Some arg_value;
                  pretty_value := if truthy pretty then pretty else None |})
  end.

Fixpoint parse_arguments (reporting : bool) (category api_name : string) (args : list (string * bval)) :
    res (list argument) :=
  match args with
  | [] => Ok []
  | a :: args' =>
      let! o := parse_argument reporting category api_name a in
      let! r := parse_arguments reporting category api_name args' in
      Ok (match o with Some x => x :: r | None => r end)
  end.

(** [bool(int(v))]. *)
Definition int_of (v : bval) : res Z :=
  match v with
  | BInt n => Ok n
  | BText s => py_int_text s
  | BBytes b => of_option ValueError (py_int (byte_char <$> b))
  | BArgv _ _ | BNone => Raise TypeError
  end.

Definition return_text (v : bval) : res string :=
  match v with
  | BInt n => Ok (hex08 (Z.land n 0xFFFFFFFF))
  | _ => convert_to_printable (BText (py_str v))
  end.

Record row := {
  r_time : Z; r_tid : Z; r_caller : Z; r_parentcaller : Z; r_category : string; r_api : string;
  r_repeated : Z; r_status : bval; r_return : bval; r_args : list (string * bval) }.

(** [_parse]: the call, and its thread in the list of threads. *)
Definition _parse (r : row) : st plog call := fun s =>
  (let* args := slift (parse_arguments (reporting_mode s) (r_category r) (r_api r) (r_args r)) in
   let* st := slift (int_of (r_status r)) in
   let status := negb (st =? 0) in
   let* ret := slift (return_text (r_return r)) in
   let prettyret := pretty_print_retval status ret in
   let thread := str_int (r_tid r) in
   do* smodify (add_thread thread) in
   sret {| timestamp := r_time r; thread_id := thread;
           caller := hex08 (Z.land (r_caller r) 0xFFFFFFFF);
           parentcaller := hex08 (Z.land (r_parentcaller r) 0xFFFFFFFF);
           category := r_category r; api := r_api r; c_status := status; c_return := ret;
           pretty_return := if truthy prettyret then prettyret else None;
           arguments := args; repeated := r_repeated r; c_id := None |}) s.

(** [log_call]: [None + timedelta] raises before the process is known. *)
Definition log_call (d : document) (apiname category : string) (is_success retval : bval)
    (args : list (string * bval)) : st plog unit := fun s =>
  match first_seen s with
  | None => (Raise TypeError, s)
  | Some t0 =>
      (let* c := _parse {| r_time := t0 + d_t d * 1000; r_tid := d_T d; r_caller := d_R d; r_parentcaller := d_P d;
                           r_category := category; r_api := apiname; r_repeated := d_r d; r_status := is_success;
                           r_return := retval; r_args := args |} in
       smodify (set_lastcall (Some c))) s
  end.

Definition log_environ (argdict : list (string * bval)) : st plog unit :=
  let* new := slift (bytes2str_dict argdict) in
  smodify (fun s => set_environ (dict_update (environdict s) new) s).

(** ** The parser *)

Section parser.
Context `{bson}.

Definition arg_int (v : option bval) : res Z :=
  match v with None => Raise KeyError | Some (BInt n) => Ok n | Some _ => Raise TypeError end.

(** The file name of a path in binary data or text. *)
Definition filename_of (path : bval) : res bval :=
  match path with
  | BBytes b => Ok (BBytes (byte_val <$> get_filename_from_path (byte_char <$> b)))
  | BText s => Ok (BText (text (get_filename_from_path (B s))))
  | _ => Raise TypeError
  end.

(** The special message of a new process. *)
Definition process_message (argdict : list (string * bval)) : st plog unit :=
  let* timelow := slift (arg_int (dict_lookup "TimeLow" argdict)) in
  let timelow := Z.land timelow 0xFFFFFFFF in
  let* timehigh := slift (arg_int (dict_lookup "TimeHigh" argdict)) in
  let timehigh := Z.land timehigh 0xFFFFFFFF in
  let* vmtime := slift (fromfiletime (timelow + Z.shiftl timehigh 32)) in
  let* pid := slift (of_option KeyError (dict_lookup "ProcessIdentifier" argdict)) in
  let* ppid := slift (of_option KeyError (dict_lookup "ParentProcessIdentifier" argdict)) in
  let* modulepath := slift (of_option KeyError (dict_lookup "ModulePath" argdict)) in
  let* procname := slift (filename_of modulepath) in
  smodify (set_process pid ppid procname modulepath vmtime).

(** The category of an explanation without one. *)
Definition info_category (d : document) : string :=
  if truthy (d_category d) then default "" (d_category d)
  else match filter (fun e => e.1 = d_name d) LOGTBL with
       | (_, c) :: _ => c
       | [] => "unknown"
       end.

Definition info_message (d : document) : st plog unit := smodify (fun s =>
  let '(argnames, converters) := check_names_for_typeinfo (d_arginfo d) in
  set_infomap (<[d_I d := {| i_name := d_name d; i_argnames := argnames; i_converters := converters;
                             i_category := info_category d |}]> (infomap s)) s).

(** A call whose explanation is known. [None]: the next message is read. *)
Definition call_message (d : document) (i : info) : st plog (option bool) :=
  if negb (bool_decide (length (d_args d) = length (i_argnames i))) then sret None else
  let* pairs := slift (convert_args (i_argnames i) (i_converters i) (d_args d)) in
  let argdict := dict_update [] pairs in
  if bool_decide (i_name i = "__process__") then
    do* process_message argdict in sret (Some true)
  else if bool_decide (i_name i = "__thread__") then
    let* pid := slift (of_option KeyError (dict_lookup "ProcessIdentifier" argdict)) in sret (Some true)
  else if bool_decide (i_name i = "__environ__") then
    do* log_environ argdict in sret (Some true)
  else
    let '(is_success, argdict) := dict_pop "is_success" (BInt 1) argdict in
    let '(retval, argdict) := dict_pop "retval" (BInt 0) argdict in
    do* log_call d (i_name i) (i_category i) is_success retval (argdict ++ d_aux d) in
    sret (Some true).

(** What is done with a decoded message. *)
Definition handle_message (d : document) : st plog (option bool) :=
  if bool_decide (d_type d = "info") then
    do* info_message d in sret (if d_flags_bitmask d then None else Some true)
  else if bool_decide (d_type d = "debug") then sret (Some true)
  else if bool_decide (d_type d = "new_process") then
    let* vmtime := slift (fromtimestamp (d_starttime d)) in
    do* smodify (set_process BNone (BInt 0) (BText (d_name d)) (BText "DUMMY") vmtime) in
    sret (Some true)
  else
    let* s := sget in
    match infomap s !! d_I d with
    | None => sret (Some true)
    | Some i => call_message d i
    end.

(** One round of [read_next_message]; [Some b] is its result. *)
Definition read_message : st plog (option bool) :=
  let* data := read 4 in
  if bool_decide (data = []) then sret (Some false) else
  if negb (bool_decide (length data = 4%nat)) then sret (Some false) else
  let blen := le_val data in
  if MAX_MESSAGE_LENGTH <? blen then sret (Some false) else
  let* more := read (blen - 4) in
  let data := data ++ more in
  if zlen data <? blen then sret (Some false) else
  match bson_decode data with
  | None => sret (Some false)
  | Some d => handle_message d
  end.

(** Each round takes four bytes of the file, or ends. *)
Fixpoint read_next_loop (fuel : nat) : st plog bool :=
  match fuel with
  | O => sraise OutOfFuel
  | S fuel' =>
      let* r := read_message in
      match r with Some b => sret b | None => read_next_loop fuel' end
  end.
Definition file_fuel (s : plog) : nat := S (length (pl_rest s)).
Definition read_next_message : st plog bool := fun s => read_next_loop (file_fuel s) s.

(** [while not self.process_id: read_next_message()]. *)
Fixpoint first_loop (fuel : nat) : st plog unit := fun s =>
  if bval_true (process_id s) then (Ok tt, s) else
  match fuel with
  | O => (Raise OutOfFuel, s)
  | S fuel' => (do* read_next_message in first_loop fuel') s
  end.
Definition seek0 : st plog unit := smodify (fun s => set_rest (pl_whole s) s).
Definition parse_first_and_reset : st plog unit := fun s =>
  (do* first_loop (file_fuel s) in seek0) s.

(** ** The calls of the log *)

Definition same_call (a b : call) : bool :=
  bool_decide (api a = api b) && bool_decide (c_status a = c_status b) &&
  bool_decide (arguments a = arguments b) && bool_decide (c_return a = c_return b).

(** [while not self.lastcall]: the end of the file is no error here. *)
Fixpoint wait_loop_log (fuel : nat) : st plog bool := fun s =>
  match lastcall s with
  | Some _ => (Ok true, s)
  | None =>
      match fuel with
      | O => (Raise OutOfFuel, s)
      | S fuel' =>
          match read_next_message s with
          | (Ok true, s1) => wait_loop_log fuel' s1
          | (Ok false, s1) => (Ok false, s1)
          | (Raise EOFError, s1) => (Ok false, s1)
          | (Raise e, s1) => (Raise e, s1)
          end
      end
  end.
Definition wait_for_lastcall : st plog bool := fun s => wait_loop_log (file_fuel s) s.

Definition reset : st plog unit :=
  do* seek0 in smodify (fun s => set_lastcall None (set_counts 0 0 s)).

Definition add_repeats (c l : call) : call :=
  {| timestamp := timestamp c; thread_id := thread_id c; caller := caller c; parentcaller := parentcaller c;
     category := category c; api := api c; c_status := c_status c; c_return := c_return c;
     pretty_return := pretty_return c; arguments := arguments c;
     repeated := repeated c + (repeated l + 1); c_id := c_id c |}.
Definition with_id (i : Z) (c : call) : call :=
  {| timestamp := timestamp c; thread_id := thread_id c; caller := caller c; parentcaller := parentcaller c;
     category := category c; api := api c; c_status := c_status c; c_return := c_return c;
     pretty_return := pretty_return c; arguments := arguments c; repeated := repeated c; c_id := Some i |}.

(** Equal calls that follow are counted on the first. *)
Fixpoint merge_loop (fuel : nat) (nextcall : call) : st plog call := fun s =>
  match lastcall s with
  | Some l =>
      if same_call nextcall l then
        match fuel with
        | O => (Raise OutOfFuel, s)
        | S fuel' =>
            (do* smodify (set_lastcall None) in
             do* wait_for_lastcall in
             merge_loop fuel' (add_repeats nextcall l)) s
        end
      else (Ok nextcall, s)
  | None => (Ok nextcall, s)
  end.

(** [cacheless_next]; [None] is [StopIteration]. *)
Definition cacheless_next : st plog (option call) :=
  let* found := wait_for_lastcall in
  if negb found then do* reset in sret None else
  do* smodify (fun s => set_counts (api_count s + 1) (call_id s) s) in
  let* s := sget in
  if negb (api_limit s =? 0) && (api_limit s <? api_count s) then do* reset in sret None else
  match lastcall s with
  | None => sret None
  | Some nextcall =>
      do* smodify (set_lastcall None) in
      do* wait_for_lastcall in
      let* s := sget in
      let* nextcall := merge_loop (file_fuel s) nextcall in
      let* s := sget in
      do* smodify (fun s => set_counts (api_count s) (call_id s + 1) s) in
      sret (Some (with_id (call_id s) nextcall))
  end.

(** [for call in log]. *)
Fixpoint iterate (fuel : nat) : st plog (list call) :=
  match fuel with
  | O => sraise OutOfFuel
  | S fuel' =>
      let* o := cacheless_next in
      match o with
      | None => sret []
      | Some c => let* r := iterate fuel' in sret (c :: r)
      end
  end.
Definition calls : st plog (list call) := fun s => iterate (S (file_fuel s)) s.
End parser.

(** ** The logs of an analysis *)

Section processes.
Context `{bson}.

(** A directory entry. *)
Record log_file := { lf_name : string; lf_isdir : bool; lf_content : list Z }.

Definition new_log (limit : Z) (content : list Z) : plog :=
  {| pl_rest := content; pl_whole := content; infomap := ∅; process_id := BNone; process_name := BNone;
     parent_id := BNone; module_path := BNone; first_seen := None; threads := []; environdict := [];
     lastcall := None; api_count := 0; call_id := 0; api_limit := limit; reporting_mode := false |}.

(** [__init__], without [ram_boost]: an empty file and one of another kind are
    not opened. *)
Definition ParseProcessLog (limit : Z) (name : string) (content : list Z) : res plog :=
  if (0 <? zlen content) && ends_with ".bson" name then
    match parse_first_and_reset (new_log limit content) with
    | (Ok _, s) => Ok s
    | (Raise e, _) => Raise e
    end
  else Ok (new_log limit content).

Record process := {
  pr_id : bval; pr_name : bval; pr_parent : bval; pr_path : bval; pr_first_seen : Z; pr_log : plog }.

Definition bytes2str_value (v : bval) : bval := match v with BBytes b => BText (bytes2str b) | _ => v end.

(** The configuration: call limit, size limit, and the loop detection, which
    rewrites a file. *)
Record log_config := { cfg_call_limit : Z; cfg_size_limit : Z; compress_log_file : option (log_file -> list Z) }.

(** One entry of the directory; [None] is one that is skipped. *)
Definition process_file (cfg : log_config) (f : log_file) : res (option process) :=
  let content := match compress_log_file cfg with Some g => g f | None => lf_content f end in
  if lf_isdir f then Ok None
  else if cfg_size_limit cfg <? zlen content then Ok None
  else
    let! log := ParseProcessLog (cfg_call_limit cfg) (lf_name f) content in
    if bool_decide (process_id log = BNone) then Ok None
    else
      let! seen := of_option AttributeError (first_seen log) in
      Ok (Some {| pr_id := process_id log; pr_name := bytes2str_value (process_name log); pr_parent := parent_id log;
                  pr_path := bytes2str_value (module_path log); pr_first_seen := seen; pr_log := log |}).

Fixpoint process_files (cfg : log_config) (files : list log_file) : res (list process) :=
  match files with
  | [] => Ok []
  | f :: files' =>
      let! o := process_file cfg f in
      let! r := process_files cfg files' in
      Ok (match o with Some p => p :: r | None => r end)
  end.

(** The order is that of the printed times, in milliseconds. *)
Definition seen_before (a b : process) : Prop := pr_first_seen a / 1000 <= pr_first_seen b / 1000.
#[global] Instance seen_before_dec a b : Decision (seen_before a b).
Proof. unfold seen_before. solve_decision. Defined.
#[global] Instance seen_before_total : Total seen_before.
Proof. intros a b. unfold seen_before. lia. Qed.
#[global] Instance seen_before_trans : Transitive seen_before.
Proof. intros a b c. unfold seen_before. lia. Qed.

(** [Processes.run]; [None] is a folder that does not exist. *)
Definition processes_run (cfg : log_config) (folder : option (list log_file)) : res (list process) :=
  match folder with
  | None | Some [] => Ok []
  | Some files => let! r := process_files cfg files in Ok (merge_sort seen_before r)
  end.
End processes.

(** ** Messages in their frames *)

Section log_thms.
Context `{Hbson : bson}.

(** The handlers do not look at the position, the counters or the last call. *)
Definition at_pos (r : list Z) (a c : Z) (s : plog) : plog := set_rest r (set_counts a c s).

(** [m] does the same at every position. *)
Definition steady {A} (m : st plog A) : Prop :=
  forall r a c s, m (at_pos r a c s) = ((m s).1, at_pos r a c (m s).2).

Lemma steady_ret {A} (x : A) : steady (sret x).
Proof. by intros r a c s. Qed.
Lemma steady_lift {A} (x : res A) : steady (slift x).
Proof. by intros r a c s. Qed.
Lemma steady_bind {A C} (m : st plog A) (f : A -> st plog C) : steady m -> (forall x, steady (f x)) -> steady (sbind m f).
Proof.
  intros Hm Hf r a c s. unfold sbind. rewrite Hm. destruct (m s) as [[x|e] s1]; simpl; [apply Hf|done].
Qed.
Lemma steady_modify f : (forall r a c s, f (at_pos r a c s) = at_pos r a c (f s)) -> steady (smodify f).
Proof. intros Hf r a c s. unfold smodify. simpl. by rewrite Hf. Qed.

Lemma steady_handle d : steady (handle_message d).
Proof.
  unfold handle_message. destruct (bool_decide _).
  { apply steady_bind; [|intros; apply steady_ret]. apply steady_modify. intros r a c s. by destruct (check_names_for_typeinfo _). }
  destruct (bool_decide _); [apply steady_ret|]. destruct (bool_decide _).
  { repeat (apply steady_bind; [|intros]); try apply steady_lift; try apply steady_ret. by apply steady_modify. }
  intros r a c s. unfold sbind at 1 2 3, sget. cbn [infomap at_pos set_rest set_counts].
  destruct (infomap s !! d_I d) as [i|]; [|done]. revert r a c s.
  change (steady (call_message d i)). unfold call_message, process_message, log_environ.
  destruct (negb _); [apply steady_ret|].
  apply steady_bind; [apply steady_lift|intros pairs].
  destruct (bool_decide _).
  { repeat (apply steady_bind; [|intros]); try apply steady_lift; try apply steady_ret. by apply steady_modify. }
  destruct (bool_decide _).
  { repeat (apply steady_bind; [|intros]); try apply steady_lift; apply steady_ret. }
  destruct (bool_decide _).
  { repeat (apply steady_bind; [|intros]); try apply steady_lift; try apply steady_ret. by apply steady_modify. }
  destruct (dict_pop _ _ _) as [ok l1]. destruct (dict_pop _ _ _) as [ret l2].
  apply steady_bind; [|intros; apply steady_ret]. intros r a c s. unfold log_call.
  cbn [first_seen at_pos set_rest set_counts]. destruct (first_seen s) as [t0|]; [|done].
  revert r a c s. match goal with |- forall r a c s, ?m (at_pos r a c s) = _ => change (steady m) end.
  apply steady_bind; [|intros; by apply steady_modify].
  intros r a c s. unfold _parse. cbn [reporting_mode at_pos set_rest set_counts].
  generalize (reporting_mode s). intros b. revert r a c s.
  match goal with |- forall r a c s, ?m (at_pos r a c s) = _ => change (steady m) end.
  repeat (apply steady_bind; [|intros]); try apply steady_lift; try apply steady_ret. by apply steady_modify.
Qed.
(** Nor do they touch the file, the counters or the limit. *)
Definition keeps_file (s s' : plog) : Prop :=
  pl_rest s' = pl_rest s /\ pl_whole s' = pl_whole s /\ api_limit s' = api_limit s /\
  api_count s' = api_count s /\ call_id s' = call_id s.
#[local] Instance keeps_file_preorder : PreOrder keeps_file.
Proof. split; [by intros s|]. unfold keeps_file. intros a b c (? & ? & ? & ? & ?) (? & ? & ? & ? & ?). split_and!; congruence. Qed.

Lemma within_modify_keeps f : (forall s, keeps_file s (f s)) -> within keeps_file (smodify f).
Proof. intros Hf s. apply Hf. Qed.

Ltac keeps_tac :=
  within_tac; try (apply within_modify_keeps; intros; by repeat split).

Lemma handle_keeps d : within keeps_file (handle_message d).
Proof.
  unfold handle_message, info_message, call_message, process_message, log_environ. keeps_tac.
  all: try (by intros s).
  intros s. unfold log_call. destruct (first_seen s); [|by simpl]. revert s.
  match goal with |- forall s, keeps_file s (?m s).2 => change (within keeps_file m) end. keeps_tac.
  intros s. unfold _parse. generalize (reporting_mode s). intros rep. revert s.
  match goal with |- forall s, keeps_file s (?m s).2 => change (within keeps_file m) end. keeps_tac.
Qed.
(** A message that needs the next one to be read has changed no call. *)
Lemma handle_result d s r s1 :
  handle_message d s = (Ok r, s1) -> r = Some true \/ (r = None /\ lastcall s1 = lastcall s).
Proof.
  unfold handle_message, info_message. intros Hm. destruct (bool_decide _).
  { apply sbind_inv in Hm as [(u & s2 & Hi & Hr)|(e & _ & ?)]; [|done]. unfold smodify in Hi. simplify_eq.
    destruct (check_names_for_typeinfo _). injection Hr as <- <-. destruct (d_flags_bitmask d); [by right|by left]. }
  destruct (bool_decide _); [injection Hm as <- <-; by left|]. destruct (bool_decide _).
  { apply sbind_inv in Hm as [(u & s2 & _ & Hr)|(e & _ & ?)]; [|done].
    apply sbind_inv in Hr as [(u2 & s3 & _ & Hr)|(e & _ & ?)]; [|done]. injection Hr as <- <-. by left. }
  apply sbind_inv in Hm as [(u & s2 & Hg & Hm)|(e & _ & ?)]; [|done]. unfold sget in Hg. simplify_eq.
  destruct (infomap u !! d_I d) as [i|]; [|injection Hm as <- <-; by left]. unfold call_message in Hm.
  destruct (negb _); [injection Hm as <- <-; by right|].
  apply sbind_inv in Hm as [(pairs & s3 & _ & Hm)|(e & _ & ?)]; [|done].
  repeat (destruct (bool_decide _); [apply sbind_inv in Hm as [(? & ? & _ & Hm)|(e & _ & ?)]; [injection Hm as <- <-; by left|done]|]).
  destruct (dict_pop _ _ _) as [ok l1]. destruct (dict_pop _ _ _) as [ret l2].
  apply sbind_inv in Hm as [(? & ? & _ & Hm)|(e & _ & ?)]; [injection Hm as <- <-; by left|done].
Qed.

(** A frame: its length in front, and what it decodes to. *)
Definition framed (b : list Z) (d : document) : Prop :=
  4 <= zlen b <= MAX_MESSAGE_LENGTH /\ le_val (take 4 b) = zlen b /\ bson_decode b = Some d.
(** What is left of a frame that was not written completely. *)
Definition cut_off (t : list Z) : Prop :=
  zlen t < 4 \/ (4 <= zlen t < le_val (take 4 t) /\ le_val (take 4 t) <= MAX_MESSAGE_LENGTH).

Lemma read_prefix n x r s :
  pl_rest s = x ++ r -> zlen x = n -> 0 <= n -> read n s = (Ok x, set_rest r s).
Proof.
  intros Hs Hx Hn. unfold read. destruct (Z.leb_spec n 0).
  - destruct x; [|unfold zlen in Hx; simpl in Hx; lia]. simpl in Hs. rewrite <- Hs. by destruct s.
  - rewrite Hs. replace (Z.to_nat n) with (length x) by (unfold zlen in Hx; lia).
    rewrite take_app_length, drop_app_length, bool_decide_false; [done|].
    intros [->|?]; [unfold zlen in Hx; simpl in Hx; lia|done].
Qed.

Lemma read_short n s : zlen (pl_rest s) < n -> 0 < n -> read n s = (Raise EOFError, set_rest [] s).
Proof.
  intros Hs Hn. unfold read. rewrite (proj2 (Z.leb_gt _ _)) by lia. unfold zlen in *.
  rewrite drop_ge, take_ge by lia. rewrite bool_decide_true; [done|]. right. unfold zlen. lia.
Qed.

Lemma set_rest_twice r1 r2 s : set_rest r1 (set_rest r2 s) = set_rest r1 s.
Proof. done. Qed.

Lemma read_message_frame b d r s :
  pl_rest s = b ++ r -> framed b d -> read_message s = handle_message d (set_rest r s).
Proof.
  intros Hs (Hlen & Hpre & Hdec). unfold read_message.
  assert (H4 : zlen (take 4 b) = 4) by (unfold zlen in *; rewrite length_take; lia).
  rewrite (sbind_ok _ _ _ (take 4 b) (set_rest (drop 4 b ++ r) s)).
  2:{ apply read_prefix; [|done|lia]. by rewrite app_assoc, take_drop. }
  rewrite bool_decide_false by (intros E; rewrite E in H4; done).
  rewrite (bool_decide_true (length _ = _)) by (unfold zlen in H4; lia). cbn [negb].
  rewrite Hpre. rewrite (proj2 (Z.ltb_ge _ _)) by lia.
  rewrite (sbind_ok _ _ _ (drop 4 b) (set_rest r s)).
  2:{ rewrite <- (set_rest_twice r (drop 4 b ++ r)). apply read_prefix; [done| |lia].
      unfold zlen in *. rewrite length_drop. lia. }
  rewrite take_drop, (proj2 (Z.ltb_ge _ _)) by lia. by rewrite Hdec.
Qed.

Lemma read_message_cut t s :
  pl_rest s = t -> cut_off t -> read_message s = (Raise EOFError, set_rest [] s).
Proof.
  intros Hs [Ht|[Ht Hm]]; unfold read_message.
  - unfold sbind at 1. by rewrite read_short by (rewrite ?Hs; lia).
  - assert (H4 : zlen (take 4 t) = 4) by (unfold zlen in *; rewrite length_take; lia).
    rewrite (sbind_ok _ _ _ (take 4 t) (set_rest (drop 4 t) s)).
    2:{ apply read_prefix; [|done|lia]. by rewrite take_drop. }
    rewrite bool_decide_false by (intros E; rewrite E in H4; done).
    rewrite (bool_decide_true (length _ = _)) by (unfold zlen in H4; lia). cbn [negb].
    rewrite (proj2 (Z.ltb_ge _ _)) by lia. unfold sbind at 1. rewrite read_short; [done| |lia].
    cbn [pl_rest set_rest]. unfold zlen in *. rewrite length_drop. lia.
Qed.

(** ** The calls a list of messages stands for *)

(** The messages handled in order, and the calls they leave. *)
Fixpoint feed (ds : list document) (s : plog) : res (list call * plog) :=
  match ds with
  | [] => Ok ([], s)
  | d :: ds' =>
      match handle_message d s with
      | (Raise e, _) => Raise e
      | (Ok _, s1) =>
          let! r := feed ds' (set_lastcall None s1) in
          Ok (option_list (lastcall s1) ++ r.1, r.2)
      end
  end.

Lemma set_lastcall_at r a c s : set_lastcall None (at_pos r a c s) = at_pos r a c (set_lastcall None s).
Proof. done. Qed.

Lemma feed_at ds : forall r a c s cs sf,
  feed ds s = Ok (cs, sf) -> feed ds (at_pos r a c s) = Ok (cs, at_pos r a c sf).
Proof.
  induction ds as [|d ds IH]; intros r a c s cs sf Hf; cbn [feed] in *; [by simplify_eq|].
  rewrite steady_handle. destruct (handle_message d s) as [[o|e] s1]; [|done]. cbn [fst snd].
  ok_bind Hf x Hx. destruct x as [cs1 sf1]. rewrite set_lastcall_at, (IH _ _ _ _ _ _ Hx). by simplify_eq/=.
Qed.

(** The file stands before the messages [ds], which hold the calls [cs], and
    perhaps one more that was cut off. *)
Definition facing (ds : list document) (cs : list call) (s : plog) : Prop :=
  (exists bs tail, pl_rest s = concat bs ++ tail /\ Forall2 framed bs ds /\ cut_off tail) /\
  exists sf, feed ds s = Ok (cs, sf).

Definition keeps_counts (s s' : plog) : Prop :=
  pl_whole s' = pl_whole s /\ api_limit s' = api_limit s /\ api_count s' = api_count s /\ call_id s' = call_id s.
#[local] Instance keeps_counts_preorder : PreOrder keeps_counts.
Proof. split; [by intros s|]. unfold keeps_counts. intros a b c (? & ? & ? & ?) (? & ? & ? & ?). split_and!; congruence. Qed.

Lemma set_rest_at r s : set_rest r s = at_pos r (api_count s) (call_id s) s.
Proof. by destruct s. Qed.

Lemma facing_length ds cs s : facing ds cs s -> (length ds <= length (pl_rest s))%nat.
Proof.
  intros [(bs & tail & -> & Hb & _) _]. induction Hb as [|b d bs ds (Hl & _) Hb IH]; simpl; [lia|].
  rewrite !length_app in *. unfold zlen in Hl. lia.
Qed.

Lemma set_lastcall_same s : lastcall s = None -> set_lastcall None s = s.
Proof. destruct s. simpl. by intros ->. Qed.

(** One message: the calls that remain are those of the rest of the file. *)
Lemma facing_cons d ds cs s :
  facing (d :: ds) cs s -> lastcall s = None ->
  exists r s1 cs', read_message s = (Ok r, s1) /\ (r = Some true \/ (r = None /\ lastcall s1 = None)) /\
    cs = option_list (lastcall s1) ++ cs' /\ facing ds cs' (set_lastcall None s1) /\ keeps_counts s s1.
Proof.
  intros [(bs & tail & Hs & Hb & Ht) [sf Hf]] Hn. apply Forall2_cons_inv_r in Hb as (b & bs' & Hb & Hbs & ->).
  cbn [concat] in Hs. rewrite <- app_assoc in Hs. rewrite (read_message_frame _ _ _ _ Hs Hb).
  set (r0 := concat bs' ++ tail) in *. cbn [feed] in Hf.
  pose proof (handle_keeps d s) as Hk. pose proof (handle_result d s) as Hres.
  rewrite set_rest_at, steady_handle. destruct (handle_message d s) as [[o|e] s1]; [|done]. cbn [fst snd] in *.
  ok_bind Hf x Hx. destruct x as [cs' sf']. simplify_eq/=.
  eexists o, _, cs'. split; [done|]. split_and!.
  - destruct (Hres o s1 eq_refl) as [?|[? E]]; [by left|right]. split; [done|]. cbn. congruence.
  - done.
  - split; [exists bs', tail; by split_and!|]. rewrite set_lastcall_at. eexists. by apply feed_at.
  - destruct Hk as (_ & Hw & Hl & Ha & Hc). by repeat split.
Qed.

Lemma facing_nil cs s : facing [] cs s -> cs = [] /\ read_message s = (Raise EOFError, set_rest [] s).
Proof.
  intros [(bs & tail & Hs & Hb & Ht) [sf Hf]]. apply Forall2_nil_inv_r in Hb as ->. simplify_eq/=.
  split; [done|]. by eapply read_message_cut.
Qed.

Lemma facing_end s : pl_rest s = [] -> facing [] [] s.
Proof. intros Hs. split; [|by eexists]. exists [], []. rewrite Hs. split_and!; [done|constructor|by left]. Qed.

(** [read_next_message] reaches the end of the file, or a message that it
    answers for, with the calls of the file accounted for. *)
Lemma read_next_facing ds : forall fuel cs s,
  facing ds cs s -> lastcall s = None -> (length ds < fuel)%nat ->
  (cs = [] /\ exists s1, read_next_loop fuel s = (Raise EOFError, s1) /\ pl_rest s1 = [] /\ lastcall s1 = None /\
                       keeps_counts s s1) \/
  exists s1 ds' cs', read_next_loop fuel s = (Ok true, s1) /\ (length ds' < length ds)%nat /\
    cs = option_list (lastcall s1) ++ cs' /\ facing ds' cs' (set_lastcall None s1) /\ keeps_counts s s1.
Proof.
  induction ds as [|d ds IH]; intros fuel cs s Hf Hn Hfuel; (destruct fuel as [|fuel]; [simpl in Hfuel; lia|]);
    cbn [read_next_loop].
  - apply facing_nil in Hf as [-> Hr]. left. split; [done|]. eexists. unfold sbind. rewrite Hr. split_and!; done.
  - destruct (facing_cons _ _ _ _ Hf Hn) as (r & s1 & cs' & Hr & Hcase & -> & Hf' & Hk). rewrite (sbind_ok _ _ _ _ _ Hr).
    destruct Hcase as [->|[-> Hl]].
    + right. exists s1, ds, cs'. split_and!; [done|simpl; lia|done..].
    + rewrite set_lastcall_same in Hf' by done. rewrite Hl. cbn [option_list app].
      destruct (IH fuel cs' s1 Hf' Hl) as [(-> & s2 & E & Hr2 & Hl2 & Hk2)|(s2 & ds2 & cs2 & E & Hd & -> & Hf2 & Hk2)];
        [simpl in Hfuel; lia| |].
      * left. split; [done|]. exists s2. split_and!; [done..|by etrans].
      * right. exists s2, ds2, cs2. split_and!; [done|simpl; lia|done|done|by etrans].
Qed.

Lemma wait_facing n : forall fuel ds cs s,
  (length ds <= n)%nat -> facing ds cs s -> lastcall s = None -> (length ds < fuel)%nat ->
  exists s1, wait_loop_log fuel s = (Ok (bool_decide (cs <> [])), s1) /\ lastcall s1 = head cs /\ keeps_counts s s1 /\
    exists ds', facing ds' (tail cs) (set_lastcall None s1).
Proof.
  induction n as [|n IH]; intros fuel ds cs s Hlen Hf Hn Hfuel; (destruct fuel as [|fuel]; [lia|]);
    cbn [wait_loop_log]; rewrite Hn; unfold read_next_message; pose proof (facing_length _ _ _ Hf) as Hfl;
    (destruct (read_next_facing ds (file_fuel s) cs s Hf Hn) as
       [(-> & s1 & -> & Hr1 & Hl1 & Hk1)|(s1 & ds1 & cs1 & -> & Hd & -> & Hf1 & Hk1)]; [unfold file_fuel; lia| |]).
  1, 3: rewrite bool_decide_false by (intros H0; by apply H0); exists s1; split_and!; [done..|];
    exists []; rewrite set_lastcall_same by done; by apply facing_end.
  - lia.
  - destruct (lastcall s1) as [c|] eqn:El.
    + exists s1. rewrite bool_decide_true by done. split_and!; [|done|done|by exists ds1].
      destruct fuel; cbn [wait_loop_log]; by rewrite El.
    + rewrite set_lastcall_same in Hf1 by done. cbn [option_list app].
      destruct (IH fuel ds1 cs1 s1) as (s2 & E & Hl2 & Hk2 & Hf2); [lia|done|done|lia|].
      exists s2. split_and!; [done|done|by etrans|done].
Qed.
(** ** Equal calls in a row *)

(** The specification: a call takes over the repeats of the equal one that
    follows it. *)
Fixpoint merge (cs : list call) : list call :=
  match cs with
  | [] => []
  | c :: cs' =>
      match merge cs' with
      | m :: ms => if same_call c m then add_repeats c m :: ms else c :: m :: ms
      | [] => [c]
      end
  end.

(** What the loop does with the calls that follow. *)
Fixpoint absorb (c : call) (cs : list call) : call * list call :=
  match cs with
  | l :: cs' => if same_call c l then absorb (add_repeats c l) cs' else (c, cs)
  | [] => (c, [])
  end.

Lemma same_call_spec a b :
  same_call a b = true <-> api a = api b /\ c_status a = c_status b /\ arguments a = arguments b /\ c_return a = c_return b.
Proof. unfold same_call. rewrite !andb_true_iff, !bool_decide_eq_true. tauto. Qed.

Lemma same_call_repeats a b l : same_call (add_repeats a l) b = same_call a b.
Proof. done. Qed.

Lemma add_repeats_twice c l m : add_repeats (add_repeats c l) m = add_repeats c (add_repeats l m).
Proof. destruct c, l, m. unfold add_repeats. simpl. f_equal. lia. Qed.

Lemma same_call_trans a b c : same_call a b = true -> same_call a c = same_call b c.
Proof.
  intros (E1 & E2 & E3 & E4)%same_call_spec. unfold same_call. by rewrite E1, E2, E3, E4.
Qed.

Lemma merge_absorb cs : forall c, merge (c :: cs) = (absorb c cs).1 :: merge (absorb c cs).2.
Proof.
  induction cs as [|l cs IH]; intros c; [done|].
  cbn [absorb]. destruct (same_call c l) eqn:E.
  - rewrite <- IH. cbn [merge]. destruct (merge cs) as [|m ms] eqn:Em.
    + by rewrite E.
    + rewrite same_call_repeats, <- (same_call_trans c l m E). destruct (same_call c m) eqn:E2.
      * rewrite same_call_repeats || idtac. assert (E3 : same_call c (add_repeats l m) = true) by done.
        rewrite E3. by rewrite add_repeats_twice.
      * by rewrite E.
  - cbn [merge fst snd]. destruct (merge cs) as [|m ms] eqn:Em; [by rewrite E|].
    destruct (same_call l m); [|by rewrite E].
    assert (same_call c (add_repeats l m) = false) as ->; done.
Qed.

(** The number of executed calls. *)
Definition executed (cs : list call) : Z := fold_right (fun c n => repeated c + 1 + n) 0 cs.

Lemma merge_executed cs : executed (merge cs) = executed cs.
Proof.
  induction cs as [|c cs IH]; [done|].
  change (executed (c :: cs)) with (repeated c + 1 + executed cs). rewrite <- IH. cbn [merge].
  destruct (merge cs) as [|m ms]; [done|]. destruct (same_call c m); simpl; lia.
Qed.

Definition no_equal_neighbours (cs : list call) : Prop :=
  forall i a b, cs !! i = Some a -> cs !! S i = Some b -> same_call a b = false.

Lemma merge_neighbours cs : no_equal_neighbours (merge cs).
Proof.
  induction cs as [|c cs IH]; intros i a b Ha Hb; [done|]. cbn [merge] in *.
  destruct (merge cs) as [|m ms] eqn:Em; [destruct i; done|]. destruct (same_call c m) eqn:E.
  - destruct i as [|i]; [|by apply (IH (S i))]. simpl in Ha. simplify_eq.
    rewrite same_call_repeats, (same_call_trans c m b E). by apply (IH 0%nat m).
  - destruct i as [|i]; simpl in *; [by simplify_eq|]. by apply (IH i).
Qed.

Lemma absorb_length cs : forall c, (length (absorb c cs).2 <= length cs)%nat.
Proof. induction cs as [|l cs IH]; intros c; simpl; [lia|]. destruct (same_call c l); simpl; [|lia]. etrans; [apply IH|lia]. Qed.

Fixpoint numbered (i : Z) (cs : list call) : list call :=
  match cs with [] => [] | c :: cs' => with_id i c :: numbered (i + 1) cs' end.

(** ** Iterating over the log *)

(** The calls [cs] are still to come; the first may have been read already. *)
Definition pending (cs : list call) (s : plog) : Prop :=
  match lastcall s with
  | Some c => exists cs' ds, cs = c :: cs' /\ facing ds cs' (set_lastcall None s)
  | None => exists ds, facing ds cs s
  end.

Lemma wait_pending cs s :
  pending cs s -> exists s1, wait_for_lastcall s = (Ok (bool_decide (cs <> [])), s1) /\ lastcall s1 = head cs /\
    keeps_counts s s1 /\ exists ds', facing ds' (tail cs) (set_lastcall None s1).
Proof.
  unfold pending, wait_for_lastcall. destruct (lastcall s) as [c|] eqn:El.
  - intros (cs' & ds & -> & Hf). exists s. rewrite bool_decide_true by done.
    split_and!; [|done|done|by exists ds]. unfold file_fuel. cbn [wait_loop_log]. by rewrite El.
  - intros [ds Hf]. pose proof (facing_length _ _ _ Hf). apply (wait_facing (length ds) _ ds); auto. unfold file_fuel. lia.
Qed.

Lemma looked_pending cs s ds :
  lastcall s = head cs -> facing ds (tail cs) (set_lastcall None s) -> pending cs s.
Proof.
  intros Hl Hf. unfold pending. rewrite Hl. destruct cs as [|c cs]; simpl in *; [|by exists cs, ds].
  rewrite set_lastcall_same in Hf by done. by exists ds.
Qed.

Lemma merge_loop_pending cs : forall fuel c s ds,
  lastcall s = head cs -> facing ds (tail cs) (set_lastcall None s) -> (length cs <= fuel)%nat ->
  exists s1, merge_loop fuel c s = (Ok (absorb c cs).1, s1) /\ pending (absorb c cs).2 s1 /\ keeps_counts s s1.
Proof.
  induction cs as [|l cs IH]; intros fuel c s ds Hl Hf Hfuel.
  - exists s. split_and!; [destruct fuel; cbn [merge_loop]; by rewrite Hl|by eapply looked_pending|done].
  - cbn [absorb head tail] in *. destruct (same_call c l) eqn:E.
    + destruct fuel as [|fuel]; [simpl in Hfuel; lia|]. cbn [merge_loop]. rewrite Hl, E.
      rewrite (sbind_ok _ _ _ tt (set_lastcall None s)) by done.
      destruct (wait_pending cs (set_lastcall None s)) as (s1 & Hw & Hl1 & Hk1 & ds1 & Hf1); [by exists ds|].
      rewrite (sbind_ok _ _ _ _ _ Hw).
      destruct (IH fuel (add_repeats c l) s1 ds1 Hl1 Hf1) as (s2 & Hm & Hp & Hk2); [simpl in Hfuel; lia|].
      exists s2. split_and!; [done|done|]. etrans; [|by etrans]. by destruct s.
    + exists s. split_and!; [destruct fuel; cbn [merge_loop]; by rewrite Hl, E| |done]. by eapply looked_pending.
Qed.

Definition limited (limit count : Z) (l : list call) : list call :=
  if limit =? 0 then l else take (Z.to_nat (limit - count)) l.

Lemma feed_length ds : forall s cs sf, feed ds s = Ok (cs, sf) -> (length cs <= length ds)%nat.
Proof.
  induction ds as [|d ds IH]; intros s cs sf Hf; cbn [feed] in Hf; [by simplify_eq/=|].
  destruct (handle_message d s) as [[o|e] s1]; [|done]. ok_bind Hf x Hx. destruct x as [cs1 sf1]. apply IH in Hx.
  simplify_eq/=. rewrite length_app. destruct (lastcall s1); simpl; lia.
Qed.

Lemma looked_length cs s :
  (exists ds, facing ds (tail cs) (set_lastcall None s)) -> (length cs <= S (length (pl_rest s)))%nat.
Proof.
  intros [ds Hf]. pose proof (facing_length _ _ _ Hf) as Hl. destruct Hf as [_ [sf Hf]]. apply feed_length in Hf.
  cbn [pl_rest set_lastcall] in Hl. destruct cs; simpl in *; lia.
Qed.

Lemma facing_counts ds cs a c s : facing ds cs s -> facing ds cs (set_counts a c s).
Proof.
  intros [Hfile [sf Hf]]. split; [exact Hfile|]. eexists. apply (feed_at ds (pl_rest s) a c _ _ _ Hf).
Qed.

Lemma pending_counts cs a c s : pending cs s -> pending cs (set_counts a c s).
Proof.
  unfold pending. cbn [lastcall set_counts]. destruct (lastcall s).
  - intros (cs' & ds & E & Hf). exists cs', ds. split; [done|]. apply (facing_counts ds cs' a c _ Hf).
  - intros (ds & Hf). exists ds. by apply facing_counts.
Qed.

(** What one step of the iteration does: at the end, at the limit, and else. *)
Lemma next_end s : pending [] s -> exists s1, cacheless_next s = (Ok None, s1).
Proof.
  intros Hp. destruct (wait_pending [] s Hp) as (s1 & Hw & _). eexists. unfold cacheless_next.
  by rewrite (sbind_ok _ _ _ _ _ Hw).
Qed.

Lemma next_limit c cs s :
  pending (c :: cs) s -> api_limit s <> 0 -> api_limit s <= api_count s ->
  exists s1, cacheless_next s = (Ok None, s1).
Proof.
  intros Hp Hne Hle. destruct (wait_pending _ s Hp) as (s1 & Hw & Hl1 & (Hwh & Hli & Hac & Hci) & _).
  eexists. unfold cacheless_next. rewrite (sbind_ok _ _ _ _ _ Hw), bool_decide_true by done. cbn [negb].
  rewrite (sbind_ok _ _ _ tt (set_counts (api_count s1 + 1) (call_id s1) s1)) by done. unfold sbind at 1, sget.
  cbn [api_limit api_count set_counts]. rewrite Hli, Hac.
  rewrite (proj2 (Z.eqb_neq _ _)), (proj2 (Z.ltb_lt _ _)) by lia. done.
Qed.

Lemma next_call c cs s :
  pending (c :: cs) s -> api_limit s = 0 \/ api_count s < api_limit s ->
  exists s1, cacheless_next s = (Ok (Some (with_id (call_id s) (absorb c cs).1)), s1) /\ pending (absorb c cs).2 s1 /\
    api_limit s1 = api_limit s /\ api_count s1 = api_count s + 1 /\ call_id s1 = call_id s + 1.
Proof.
  intros Hp Hlim. destruct (wait_pending _ s Hp) as (s1 & Hw & Hl1 & (Hwh & Hli & Hac & Hci) & ds1 & Hf1).
  unfold cacheless_next. rewrite (sbind_ok _ _ _ _ _ Hw), bool_decide_true by done. cbn [negb].
  set (s2 := set_counts (api_count s1 + 1) (call_id s1) s1).
  rewrite (sbind_ok _ _ _ tt s2), (sbind_ok _ _ _ s2 s2) by done.
  assert (negb (api_limit s2 =? 0) && (api_limit s2 <? api_count s2) = false) as ->.
  { cbn [api_limit api_count s2 set_counts]. rewrite Hli, Hac. destruct (Z.eqb_spec (api_limit s) 0); [done|].
    apply Z.ltb_ge. lia. }
  assert (Hl2 : lastcall s2 = Some c) by exact Hl1. rewrite Hl2.
  rewrite (sbind_ok _ _ _ tt (set_lastcall None s2)) by done.
  assert (Hp2 : pending cs (set_lastcall None s2)) by (exists ds1; exact (facing_counts _ _ _ _ _ Hf1)).
  destruct (wait_pending cs _ Hp2) as (s3 & Hw3 & Hl3 & Hk3 & ds3 & Hf3). rewrite (sbind_ok _ _ _ _ _ Hw3).
  rewrite (sbind_ok _ _ _ s3 s3) by done.
  destruct (merge_loop_pending cs (file_fuel s3) c s3 ds3 Hl3 Hf3) as (s4 & Hm & Hp4 & Hk4).
  { unfold file_fuel. apply looked_length. by exists ds3. }
  rewrite (sbind_ok _ _ _ _ _ Hm), (sbind_ok _ _ _ s4 s4) by done.
  rewrite (sbind_ok _ _ _ tt (set_counts (api_count s4) (call_id s4 + 1) s4)) by done.
  assert (Hk : keeps_counts s2 s4) by (etrans; [|exact Hk4]; exact Hk3). destruct Hk as (_ & Hli4 & Hac4 & Hci4).
  cbn [api_limit api_count call_id s2 set_counts] in Hli4, Hac4, Hci4.
  eexists. split; [rewrite Hci4, Hci; reflexivity|]. split; [by apply pending_counts|]. cbn. lia.
Qed.

Lemma iterate_pending n : forall fuel cs s,
  (length cs <= n)%nat -> pending cs s -> (length cs < fuel)%nat -> 0 <= api_limit s ->
  (api_limit s = 0 \/ api_count s <= api_limit s) ->
  exists s1, iterate fuel s = (Ok (numbered (call_id s) (limited (api_limit s) (api_count s) (merge cs))), s1).
Proof.
  induction n as [|n IH]; intros fuel cs s Hlen Hp Hfuel Hlim Hcount; (destruct fuel as [|fuel]; [lia|]);
    cbn [iterate]; (destruct cs as [|c cs];
      [destruct (next_end s Hp) as [s1 Hn]; exists s1; rewrite (sbind_ok _ _ _ _ _ Hn); unfold limited;
       destruct (_ =? 0); [done|change (merge []) with (@nil call); by rewrite take_nil]|]); simpl in Hlen; [lia|].
  assert (Hcase : (api_limit s = 0 \/ api_count s < api_limit s) \/ (api_limit s <> 0 /\ api_limit s = api_count s)) by lia.
  destruct Hcase as [Hc|[Hne He]].
  - destruct (next_call c cs s Hp Hc) as (s1 & Hn & Hp1 & El & Ea & Ei). rewrite (sbind_ok _ _ _ _ _ Hn).
    pose proof (absorb_length cs c) as Habs. simpl in Hfuel.
    destruct (IH fuel (absorb c cs).2 s1 ltac:(lia) Hp1 ltac:(lia) ltac:(lia) ltac:(lia)) as [s2 Hit].
    exists s2. rewrite (sbind_ok _ _ _ _ _ Hit). unfold sret. do 2 f_equal. rewrite merge_absorb, El, Ea, Ei.
    unfold limited. destruct (Z.eqb_spec (api_limit s) 0) as [E|E]; [done|].
    by replace (Z.to_nat (api_limit s - api_count s)) with (S (Z.to_nat (api_limit s - (api_count s + 1)))) by lia.
  - destruct (next_limit c cs s Hp Hne ltac:(lia)) as [s1 Hn]. exists s1. rewrite (sbind_ok _ _ _ _ _ Hn).
    unfold limited. rewrite (proj2 (Z.eqb_neq _ _)) by done. by replace (Z.to_nat _) with 0%nat by lia.
Qed.

(** C6. Iterating over a log gives the calls of its messages in order, equal
    calls in a row as one that counts the repeats, numbered from the start and
    cut off at the limit, and ends without an error where the file was cut
    off; no two neighbours are equal, and the number of executed calls is that
    of the messages. *)
Theorem log_calls_merged ds cs s :
  facing ds cs s -> lastcall s = None -> 0 <= api_limit s -> api_count s = 0 ->
  (exists s1, calls s = (Ok (numbered (call_id s) (limited (api_limit s) 0 (merge cs))), s1)) /\
  no_equal_neighbours (merge cs) /\ executed (merge cs) = executed cs.
Proof.
  intros Hf Hl Hlim Ha. split; [|split; [apply merge_neighbours|apply merge_executed]].
  assert (Hp : pending cs s) by (unfold pending; rewrite Hl; by exists ds).
  unfold calls.
  assert (Hn : (length cs <= length ds)%nat) by (destruct Hf as [_ [sf Hf]]; by eapply feed_length).
  pose proof (facing_length _ _ _ Hf). rewrite <- Ha.
  apply (iterate_pending (length cs)); [done|done|unfold file_fuel; lia|done|lia].
Qed.
(** ** Any file: the loops end *)

(** [datetime] raises its own errors only. *)
Class times_fine : Prop := {
  filetime_fine t : fromfiletime t <> Raise OutOfFuel;
  timestamp_fine t : fromtimestamp t <> Raise OutOfFuel }.
Context (Htimes : times_fine).

Lemma never_lift {A} e (r : res A) : r <> Raise e -> never e (@slift plog A r).
Proof using Type. by intros Hr s. Qed.

Ltac fuel_tac := repeat first
  [ assumption | apply never_bind; [|intros] | apply never_ret | apply never_modify | apply never_get
  | lazymatch goal with |- never _ (sraise _) => apply never_raise; discriminate
                      | |- never _ (match ?x with _ => _ end) => destruct x eqn:?
                      | |- never _ (slift _) => apply never_lift end ].

(** Follows a pure computation to where it raises. *)
Ltac no_fuel := repeat (simplify_eq/=; first
  [ match goal with
    | H : rbind ?r _ = Raise _ |- _ => destruct r eqn:?; cbn [rbind] in H
    | H : pretty_print_arg _ _ _ _ = Raise OutOfFuel |- _ =>
        apply pretty_print_arg_error in H as [H|H]; discriminate H
    | H : context [match ?x with _ => _ end] |- _ => destruct x eqn:?
    | H : of_option _ ?o = Raise _ |- _ => destruct o eqn:?; simpl in H
    end ]); try done.

Lemma bytes2str_element_fine b : bytes2str_element b <> Raise OutOfFuel.
Proof using Type. unfold bytes2str_element. by destruct (decode_utf8 b). Qed.
Lemma bytes2str_list_fine l : bytes2str_list l <> Raise OutOfFuel.
Proof using Type.
  induction l as [|b l IH]; intros H; cbn [bytes2str_list] in H; [done|].
  pose proof (bytes2str_element_fine b). no_fuel; congruence.
Qed.
Lemma bytes2str_dict_fine l : bytes2str_dict l <> Raise OutOfFuel.
Proof using Type.
  induction l as [|[k [v|s|b|b l2|]] l IH]; intros H; cbn [bytes2str_dict] in H; try done.
  pose proof (bytes2str_element_fine b). no_fuel; congruence.
Qed.
Lemma convert_args_fine ns cs args : convert_args ns cs args <> Raise OutOfFuel.
Proof using Type.
  revert cs args. induction ns as [|n ns IH]; intros [|c cs] [|a args] H; cbn [convert_args] in H; try done.
  unfold convert, hex_converter in H. specialize (IH cs args). no_fuel; congruence.
Qed.
Lemma parse_arguments_fine r c a args : parse_arguments r c a args <> Raise OutOfFuel.
Proof using Type.
  induction args as [|[n v] args IH]; intros H; cbn [parse_arguments] in H; [done|].
  unfold parse_argument, arg_text in H.
  destruct v as [v|t|b|b l|]; cbn [rbind] in H; try (no_fuel; congruence).
  pose proof (bytes2str_list_fine (b :: l)). destruct (bytes2str_list (b :: l)); cbn [rbind] in H; no_fuel; congruence.
Qed.

Lemma handle_fine d : never OutOfFuel (handle_message d).
Proof using Htimes.
  unfold handle_message, info_message, call_message, process_message, log_environ. fuel_tac.
  all: try apply convert_args_fine; try apply filetime_fine; try apply timestamp_fine; try apply bytes2str_dict_fine.
  all: try (unfold of_option, arg_int, filename_of; intros ?; no_fuel; congruence).
  intros s. unfold log_call. destruct (first_seen s); [|done]. revert s.
  match goal with |- forall s, (?m s).1 <> _ => change (never OutOfFuel m) end. fuel_tac.
  - intros s. apply parse_arguments_fine.
  - unfold int_of, py_int_text. intros ?. no_fuel.
  - unfold return_text. intros ?. no_fuel.
Qed.
Definition left_over (s : plog) : nat := length (pl_rest s).

(** What a step may do to the file: one with this kind of answer takes bytes. *)
Definition ends_with_less {A} (answered : A -> bool) (s : plog) (r : res A * plog) : Prop :=
  (left_over r.2 <= left_over s)%nat /\ r.1 <> Raise OutOfFuel /\
  (forall a, r.1 = Ok a -> answered a = true -> (left_over r.2 < left_over s)%nat).

Lemma read_less n s : ends_with_less (fun _ => 0 <? n) s (read n s).
Proof using Type.
  unfold read, ends_with_less, left_over. destruct (Z.leb_spec n 0); [split_and!; [done|done|]; intros a _ Hn; apply Z.ltb_lt in Hn; lia|].
  destruct (bool_decide (_ \/ _)) eqn:E; cbn; rewrite length_drop; split_and!; try lia; try done.
  intros a [= <-] _. apply bool_decide_eq_false in E.
  assert (length (take (Z.to_nat n) (pl_rest s)) <> 0)%nat.
  { intros H0. apply E. left. by apply nil_length_inv. }
  rewrite length_take in H0. lia.
Qed.

Lemma less_false s s1 : (left_over s1 < left_over s)%nat -> ends_with_less (fun _ => true) s (Ok (Some false), s1).
Proof using Type. intros Hl. split_and!; [cbn; lia|done|done]. Qed.

Lemma less_raise {A} (f : A -> bool) s s1 e :
  (left_over s1 <= left_over s)%nat -> e <> OutOfFuel -> ends_with_less f s (Raise e, s1).
Proof using Type. intros Hl He. split_and!; [done|cbn; congruence|done]. Qed.

Lemma read_message_less s : ends_with_less (fun _ => true) s (read_message s).
Proof using Htimes.
  unfold read_message, sbind at 1. destruct (read_less 4 s) as (H1 & H2 & H3).
  destruct (read 4 s) as [[data|e] s1]; cbn [fst snd] in *; [|apply less_raise; [done|congruence]].
  specialize (H3 data eq_refl eq_refl). clear H2.
  destruct (bool_decide _); [by apply less_false|]. destruct (negb _); [by apply less_false|].
  destruct (_ <? _); [by apply less_false|].
  unfold sbind at 1. destruct (read_less (le_val data - 4) s1) as (H4 & H5 & _).
  destruct (read _ s1) as [[more|e] s2]; cbn [fst snd] in *; [|apply less_raise; [lia|congruence]].
  destruct (_ <? _); [apply less_false; lia|].
  destruct (bson_decode _) as [d|]; [|apply less_false; lia].
  pose proof (handle_keeps d s2) as (Hk & _). pose proof (handle_fine d s2) as Hf.
  unfold ends_with_less, left_over in *. rewrite Hk. split_and!; [lia|done|]. intros. lia.
Qed.

Lemma read_next_less fuel : forall s, (left_over s < fuel)%nat -> ends_with_less (fun _ => true) s (read_next_loop fuel s).
Proof using Htimes.
  induction fuel as [|fuel IH]; intros s Hf; [lia|]. cbn [read_next_loop]. unfold sbind.
  destruct (read_message_less s) as (H1 & H2 & H3). destruct (read_message s) as [[[b|]|e] s1]; cbn [fst snd] in *.
  - split_and!; [done|done|]. intros a _ _. by apply (H3 (Some b)).
  - specialize (H3 None eq_refl eq_refl). destruct (IH s1) as (H4 & H5 & H6); [lia|].
    split_and!; [lia|done|]. intros a Ha Hb. specialize (H6 a Ha Hb). lia.
  - apply less_raise; [done|]. intros ->. by apply H2.
Qed.

Lemma wait_less fuel : forall s, (left_over s < fuel)%nat ->
  ends_with_less (fun b => b && bool_decide (lastcall s = None)) s (wait_loop_log fuel s) /\
  ((wait_loop_log fuel s).1 = Ok true -> lastcall (wait_loop_log fuel s).2 <> None).
Proof using Htimes.
  induction fuel as [|fuel IH]; intros s Hf; [lia|]. cbn [wait_loop_log]. destruct (lastcall s) as [c|] eqn:El.
  { split; [|intros _; cbn; congruence]. split_and!; [done|done|]. intros a _ Hb. by rewrite andb_false_r in Hb. }
  unfold read_next_message. destruct (read_next_less (file_fuel s) s) as (H1 & H2 & H3); [unfold file_fuel; apply Nat.lt_succ_diag_r|].
  destruct (read_next_loop _ s) as [[[]|e] s1]; cbn [fst snd] in *.
  - specialize (H3 true eq_refl eq_refl). destruct (IH s1) as ((H4 & H5 & H6) & H7); [lia|].
    split; [|exact H7]. split_and!; [lia|done|]. intros. lia.
  - split; [|done]. split_and!; [done|done|]. by intros a [= <-].
  - destruct (decide (e = EOFError)) as [->|He].
    + split; [|done]. split_and!; [done|done|]. by intros a [= <-].
    + replace (match e with EOFError => _ | _ => _ end) with (@Raise bool e, s1) by (destruct e; done).
      split; [apply less_raise; [done|intros ->; by apply H2]|done].
Qed.
(** Only a message that is answered sets the last call. *)
Definition same_lastcall (s s' : plog) : Prop := lastcall s' = lastcall s.
#[local] Instance same_lastcall_preorder : PreOrder same_lastcall.
Proof. split; [by intros s|]. unfold same_lastcall. intros a b c. congruence. Qed.
Lemma within_modify_last f : (forall s, same_lastcall s (f s)) -> within same_lastcall (smodify f).
Proof using Type. intros Hf s. apply Hf. Qed.

Lemma raise_keeps {A} (m : st plog A) s e s1 : within same_lastcall m -> m s = (Raise e, s1) -> lastcall s1 = lastcall s.
Proof using Type. intros Hm E. pose proof (Hm s) as H. by rewrite E in H. Qed.

Lemma parse_keeps r : within same_lastcall (_parse r).
Proof using Type.
  intros s. unfold _parse. generalize (reporting_mode s). intros rep. revert s.
  match goal with |- forall s, same_lastcall s (?m s).2 => change (within same_lastcall m) end.
  within_tac. by apply within_modify_last.
Qed.

Lemma log_call_raise d n c ok ret args s e s1 :
  log_call d n c ok ret args s = (Raise e, s1) -> lastcall s1 = lastcall s.
Proof using Type.
  unfold log_call. destruct (first_seen s) as [t0|]; [|by intros [= <- <-]].
  intros [(x & s2 & _ & Hm)|(e2 & Hp & _)]%sbind_inv; [done|]. by apply raise_keeps in Hp; [|apply parse_keeps].
Qed.

Lemma handle_raise d s e s1 : handle_message d s = (Raise e, s1) -> lastcall s1 = lastcall s.
Proof using Type.
  unfold handle_message. destruct (bool_decide _); [by intros H|]. destruct (bool_decide _); [done|].
  destruct (bool_decide _).
  { apply raise_keeps. within_tac. by apply within_modify_last. }
  intros [(u & s2 & Hg & Hm)|(e2 & Hg & _)]%sbind_inv; [|done]. unfold sget in Hg. simplify_eq.
  destruct (infomap u !! d_I d) as [i|]; [|done]. unfold call_message in Hm. destruct (negb _); [done|].
  apply sbind_inv in Hm as [(pairs & s3 & Hl & Hm)|(e2 & Hl & _)]; [|by injection Hl as _ <-].
  injection Hl as _ <-.
  destruct (bool_decide _).
  { revert Hm. apply raise_keeps. unfold process_message. within_tac. by apply within_modify_last. }
  destruct (bool_decide _). { revert Hm. apply raise_keeps. within_tac. }
  destruct (bool_decide _).
  { revert Hm. apply raise_keeps. unfold log_environ. within_tac. by apply within_modify_last. }
  destruct (dict_pop _ _ _) as [ok l1]. destruct (dict_pop _ _ _) as [ret l2].
  apply sbind_inv in Hm as [(? & ? & _ & Hm)|(e2 & Hl & _)]; [done|]. by apply log_call_raise in Hl.
Qed.

Lemma read_keeps n : within same_lastcall (read n).
Proof using Type. intros s. unfold read. by repeat case_match. Qed.

Lemma read_message_unanswered s r s1 : read_message s = (r, s1) -> r <> Ok (Some true) -> lastcall s1 = lastcall s.
Proof using Type.
  unfold read_message. intros [(data & s2 & Hr & Hm)|(e & Hr & ->)]%sbind_inv Hne.
  2:{ intros. by apply (raise_keeps _ _ _ _ (read_keeps 4) Hr). }
  pose proof (read_keeps 4 s) as Hk. rewrite Hr in Hk. cbn in Hk. unfold same_lastcall in Hk. rewrite <- Hk.
  destruct (bool_decide (data = [])); [by injection Hm as <- <-|].
  destruct (negb (bool_decide (length data = 4%nat))); [by injection Hm as <- <-|].
  destruct (MAX_MESSAGE_LENGTH <? le_val data); [by injection Hm as <- <-|].
  apply sbind_inv in Hm as [(more & s3 & Hr2 & Hm)|(e & Hr2 & ->)].
  2:{ by apply (raise_keeps _ _ _ _ (read_keeps _) Hr2). }
  pose proof (read_keeps (le_val data - 4) s2) as Hk2. rewrite Hr2 in Hk2. cbn in Hk2. unfold same_lastcall in Hk2. rewrite <- Hk2.
  destruct (_ <? _); [by injection Hm as <- <-|]. destruct (bson_decode _) as [d|]; [|by injection Hm as <- <-].
  destruct r as [o|e]; [|by eapply handle_raise]. apply handle_result in Hm as [->|[_ E]]; done.
Qed.

Lemma read_next_unanswered fuel : forall s r s1,
  read_next_loop fuel s = (r, s1) -> r <> Ok true -> lastcall s1 = lastcall s.
Proof using Type.
  induction fuel as [|fuel IH]; intros s r s1 Hr Hne; cbn [read_next_loop] in Hr; [by injection Hr as <- <-|].
  apply sbind_inv in Hr as [(o & s2 & Hm & Hr)|(e & Hm & ->)]; [|by eapply read_message_unanswered].
  destruct o as [b|].
  - injection Hr as <- <-. eapply read_message_unanswered; [done|]. intros [= ->]. done.
  - apply IH in Hr; [|done]. rewrite Hr. by eapply read_message_unanswered.
Qed.

Lemma wait_unanswered fuel : forall s s1, wait_loop_log fuel s = (Ok false, s1) -> lastcall s1 = None.
Proof using Type.
  induction fuel as [|fuel IH]; intros s s1 Hw; cbn [wait_loop_log] in Hw; destruct (lastcall s) as [c|] eqn:El; try done.
  unfold read_next_message in Hw. destruct (read_next_loop (file_fuel s) s) as [[[]|e] s2] eqn:Er.
  - by eapply IH.
  - injection Hw as <-. rewrite <- El. by eapply read_next_unanswered.
  - assert (E : s2 = s1) by (destruct e; by injection Hw). rewrite <- E, <- El. by eapply read_next_unanswered.
Qed.

(** What is still to be done: bytes to read, and a call read ahead. *)
Definition work (s : plog) : nat := (left_over s + match lastcall s with Some _ => 1 | None => 0 end)%nat.

Lemma wait_work s :
  let '(r, s1) := wait_for_lastcall s in
  r <> Raise OutOfFuel /\ (left_over s1 <= left_over s)%nat /\
  (r = Ok true -> lastcall s1 <> None /\ (lastcall s = None -> left_over s1 < left_over s)%nat) /\
  (r = Ok false -> lastcall s1 = None).
Proof using Htimes.
  destruct (wait_less (file_fuel s) s) as ((H1 & H2 & H3) & H4); [unfold file_fuel; apply Nat.lt_succ_diag_r|].
  unfold wait_for_lastcall. destruct (wait_loop_log (file_fuel s) s) as [r s1] eqn:E. cbn [fst snd] in *.
  split_and!; try done.
  - intros Hr. split; [by apply H4|]. intros Hn. apply (H3 true Hr). by rewrite bool_decide_true.
  - intros ->. by eapply wait_unanswered.
Qed.
Lemma raise_other {A C} e : @Raise A e <> Raise OutOfFuel -> @Raise C e <> Raise OutOfFuel.
Proof using Type. intros He [= ->]. by apply He. Qed.

Lemma merge_work fuel : forall c s, (work s <= fuel)%nat ->
  (merge_loop fuel c s).1 <> Raise OutOfFuel /\ (work (merge_loop fuel c s).2 <= work s)%nat.
Proof using Htimes.
  induction fuel as [|fuel IH]; intros c s Hf; cbn [merge_loop]; destruct (lastcall s) as [l|] eqn:El;
    try (by split); destruct (same_call c l); try (by split); unfold work in Hf; rewrite El in Hf; [lia|].
  rewrite (sbind_ok _ _ _ tt (set_lastcall None s)) by done. unfold sbind.
  pose proof (wait_work (set_lastcall None s)) as Hw. destruct (wait_for_lastcall _) as [r s1].
  change (left_over (set_lastcall None s)) with (left_over s) in Hw. cbn [lastcall set_lastcall] in Hw.
  destruct Hw as (H1 & H2 & H3 & H4). destruct r as [b|e].
  - assert (Hw1 : (work s1 <= left_over s)%nat).
    { unfold work. destruct b; [destruct (H3 eq_refl) as [_ Hlt]; specialize (Hlt eq_refl); destruct (lastcall s1); lia|].
      rewrite (H4 eq_refl). lia. }
    destruct (IH (add_repeats c l) s1) as [H5 H6]; [lia|]. split; [done|]. unfold work in *. rewrite El. lia.
  - split; [by apply (raise_other e H1)|]. unfold work at 2. rewrite El. unfold work. cbn. destruct (lastcall s1); lia.
Qed.

(** One step to the next call: it spends what it hands out. *)
Definition next_spends (s : plog) (p : res (option call) * plog) : Prop :=
  p.1 <> Raise OutOfFuel /\ (forall c, p.1 = Ok (Some c) -> (work p.2 < work s)%nat).

Lemma spends_raise {A} (e : exn) s s1 : @Raise A e <> Raise OutOfFuel -> next_spends s (Raise e, s1).
Proof using Type. intros H. split; [by apply (raise_other e H)|done]. Qed.

Lemma next_work s : next_spends s (cacheless_next s).
Proof using Htimes.
  unfold cacheless_next, sbind at 1. pose proof (wait_work s) as Hw. destruct (wait_for_lastcall s) as [[b|e] s1];
    destruct Hw as (H1 & H2 & H3 & H4); [|by eapply spends_raise; eassumption].
  destruct b; cbn [negb]; [|by split]. destruct (H3 eq_refl) as [Hsome Hless]. clear H1 H4.
  assert (Hw1 : (S (left_over s1) <= work s)%nat).
  { unfold work. destruct (lastcall s); [lia|]. specialize (Hless eq_refl). lia. }
  rewrite (sbind_ok _ _ _ tt (set_counts (api_count s1 + 1) (call_id s1) s1)) by done.
  unfold sbind at 1, sget. destruct (negb _ && _); [by split|]. cbn [lastcall set_counts].
  destruct (lastcall s1) as [c|] eqn:El; [|done].
  rewrite (sbind_ok _ _ _ tt (set_lastcall None (set_counts (api_count s1 + 1) (call_id s1) s1))) by done.
  unfold sbind at 1. pose proof (wait_work (set_lastcall None (set_counts (api_count s1 + 1) (call_id s1) s1))) as Hw.
  destruct (wait_for_lastcall _) as [[b2|e] s3]; destruct Hw as (H5 & H6 & H7 & H8); [|by eapply spends_raise; eassumption].
  change (left_over (set_lastcall _ _)) with (left_over s1) in *. cbn [lastcall set_lastcall] in H7.
  assert (Hw3 : (work s3 <= left_over s1)%nat).
  { unfold work. destruct b2; [destruct (H7 eq_refl) as [_ Hlt]; specialize (Hlt eq_refl); destruct (lastcall s3); lia|].
    rewrite (H8 eq_refl). lia. }
  unfold sbind at 1. unfold sbind at 1. destruct (merge_work (file_fuel s3) c s3) as [H9 H10].
  { unfold work, file_fuel, left_over. destruct (lastcall s3); lia. }
  destruct (merge_loop _ c s3) as [[c'|e] s4]; cbn [fst snd] in *; [|by eapply spends_raise; eassumption].
  split; [done|]. intros c2 _. cbn. unfold work in *. cbn. unfold left_over in *. cbn. lia.
Qed.

Lemma iterate_ends fuel : forall s, (work s < fuel)%nat -> (iterate fuel s).1 <> Raise OutOfFuel.
Proof using Htimes.
  induction fuel as [|fuel IH]; intros s Hf; [lia|]. cbn [iterate]. unfold sbind at 1.
  destruct (next_work s) as [H1 H2]. destruct (cacheless_next s) as [[[c|]|e] s1]; cbn [fst snd] in *; [|done|by eapply (raise_other e); eassumption].
  specialize (H2 c eq_refl). specialize (IH s1 ltac:(lia)). unfold sbind.
  destruct (iterate fuel s1) as [[l|e] s2]; [done|]. by eapply (raise_other e); eassumption.
Qed.

Lemma first_loop_ends fuel : forall s, (left_over s < fuel)%nat ->
  match (first_loop fuel s).1 with Ok _ => bval_true (process_id (first_loop fuel s).2) = true | Raise e => e <> OutOfFuel end.
Proof using Htimes.
  induction fuel as [|fuel IH]; intros s Hf; [lia|]. cbn [first_loop].
  destruct (bval_true (process_id s)) eqn:E; [done|]. unfold sbind, read_next_message.
  destruct (read_next_less (file_fuel s) s) as (H1 & H2 & H3); [unfold file_fuel; apply Nat.lt_succ_diag_r|].
  destruct (read_next_loop _ s) as [[b|e] s1]; cbn [fst snd] in *; [|congruence].
  specialize (H3 b eq_refl eq_refl). apply IH. lia.
Qed.

(** On any file the loops over the log end: opening it finds the process or
    raises, and iterating over it from any state gives calls or raises; no
    loop runs past the bytes of the file. *)
Theorem log_loops_end s :
  match (first_loop (file_fuel s) s).1 with
  | Ok _ => bval_true (process_id (first_loop (file_fuel s) s).2) = true
  | Raise e => e <> OutOfFuel
  end /\
  (calls s).1 <> Raise OutOfFuel.
Proof using Htimes.
  split; [apply first_loop_ends; unfold file_fuel; apply Nat.lt_succ_diag_r|].
  apply iterate_ends. unfold work, file_fuel, left_over. destruct (lastcall s); lia.
Qed.
End log_thms.

(** ** A log that names no process *)

Section no_process.
Context `{Hbson : bson}.

(** No message explains a [__process__] call. *)
Definition names_no_process (d : document) : Prop := d_type d = "info" -> d_name d <> "__process__".
Definition process_unknown (s : plog) : Prop :=
  process_id s = BNone /\ forall k i, infomap s !! k = Some i -> i_name i <> "__process__".
Definition stays_unknown (s s' : plog) : Prop := process_unknown s -> process_unknown s'.
#[local] Instance stays_unknown_preorder : PreOrder stays_unknown.
Proof. split; [by intros s ?|]. intros a b c Hab Hbc Ha. by apply Hbc, Hab. Qed.

Lemma within_modify_unknown f :
  (forall s, process_id (f s) = process_id s /\ infomap (f s) = infomap s) -> within stays_unknown (smodify f).
Proof using Type. intros Hf s [H1 H2]. destruct (Hf s) as [E1 E2]. split; cbn; [congruence|]. intros k i. rewrite E2. apply H2. Qed.

Lemma parse_unknown r : within stays_unknown (_parse r).
Proof using Type.
  intros s. unfold _parse. generalize (reporting_mode s). intros rep. revert s.
  match goal with |- forall s, stays_unknown s (?m s).2 => change (within stays_unknown m) end.
  within_tac. by apply within_modify_unknown.
Qed.

Lemma call_unknown d i : i_name i <> "__process__" -> within stays_unknown (call_message d i).
Proof using Type.
  intros Hi. unfold call_message, log_environ. rewrite (bool_decide_false (i_name i = _)) by done. within_tac.
  - by apply within_modify_unknown.
  - intros s. unfold log_call. destruct (first_seen s); [|done]. revert s.
    match goal with |- forall s, stays_unknown s (?m s).2 => change (within stays_unknown m) end.
    within_tac; first [apply parse_unknown|by apply within_modify_unknown].
Qed.

Lemma handle_unknown d s : names_no_process d -> process_unknown s -> process_unknown (handle_message d s).2.
Proof using Type.
  intros Hd Hs. unfold handle_message. destruct (bool_decide (d_type d = "info")) eqn:E.
  { unfold info_message, sbind, smodify. destruct (check_names_for_typeinfo _) as [names convs]. destruct Hs as [H1 H2].
    split; [done|]. intros k i. cbn. intros [[_ <-]|[_ Hk]]%lookup_insert_Some; [|by eapply H2].
    cbn. apply Hd. by apply bool_decide_eq_true in E. }
  clear E. destruct (bool_decide _); [done|]. destruct (bool_decide _).
  { unfold sbind, slift. destruct (fromtimestamp _); [|done]. by destruct Hs. }
  unfold sbind at 1, sget. destruct (infomap s !! d_I d) as [i|] eqn:Ei; [|done].
  apply call_unknown; [|done]. destruct Hs as [_ H2]. by eapply H2.
Qed.
(** The file stands before messages that name no process. *)
Definition no_process_ahead (ds : list document) (s : plog) : Prop :=
  process_unknown s /\ Forall names_no_process ds /\
  exists bs tail, pl_rest s = concat bs ++ tail /\ Forall2 framed bs ds /\ cut_off tail.

Lemma read_message_ahead ds s : no_process_ahead ds s ->
  (exists e, (read_message s).1 = Raise e) \/
  exists d ds' r, ds = d :: ds' /\ (read_message s).1 = Ok r /\ r <> Some false /\ no_process_ahead ds' (read_message s).2.
Proof using Type.
  intros (Hs & Hds & bs & tail & Hr & Hb & Ht). destruct Hb as [|b d bs ds Hb Hbs].
  - left. exists EOFError. by rewrite (read_message_cut tail).
  - cbn [concat] in Hr. rewrite <- app_assoc in Hr. rewrite (read_message_frame _ _ _ _ Hr Hb).
    set (s0 := set_rest (concat bs ++ tail) s). apply Forall_cons in Hds as [Hd Hds].
    assert (Hs0 : process_unknown s0) by exact Hs. pose proof (handle_unknown d s0 Hd Hs0) as Hu.
    pose proof (handle_keeps d s0) as (Hk & _). pose proof (handle_result d s0) as Hres.
    destruct (handle_message d s0) as [[r|e] s1]; [right|left; by exists e]. exists d, ds, r. cbn [fst snd] in *. split_and!; [done|done| |].
    + by destruct (Hres r s1 eq_refl) as [->|[-> _]].
    + split_and!; [done|done|]. exists bs, tail. split_and!; [|done|done]. rewrite Hk. done.
Qed.

Lemma read_next_ahead fuel : forall ds s, no_process_ahead ds s ->
  (exists e, (read_next_loop fuel s).1 = Raise e) \/
  exists ds', (read_next_loop fuel s).1 = Ok true /\ (length ds' < length ds)%nat /\ no_process_ahead ds' (read_next_loop fuel s).2.
Proof using Type.
  induction fuel as [|fuel IH]; intros ds s Hs; cbn [read_next_loop]; [left; by eexists|]. unfold sbind.
  destruct (read_message_ahead ds s Hs) as [[e He]|(d & ds' & r & -> & Hr & Hne & Hs1)]; destruct (read_message s) as [x s1]; cbn [fst snd] in *; subst x.
  - left. by eexists.
  - destruct r as [[]|]; [|done|].
    + right. exists ds'. split_and!; [done|simpl; lia|done].
    + destruct (IH ds' s1 Hs1) as [?|(ds2 & ? & ? & ?)]; [by left|right]. exists ds2. split_and!; [done|simpl; lia|done].
Qed.

Lemma first_loop_ahead fuel : forall ds s, no_process_ahead ds s -> (length ds < fuel)%nat ->
  exists e, (first_loop fuel s).1 = Raise e.
Proof using Type.
  induction fuel as [|fuel IH]; intros ds s Hs Hf; cbn [first_loop]; [lia|]. pose proof Hs as ((Hp & _) & _).
  rewrite Hp. cbn [bval_true].
  unfold sbind, read_next_message. destruct (read_next_ahead (file_fuel s) ds s Hs) as [[e He]|(ds' & He & Hl & Hs1)];
    destruct (read_next_loop _ s) as [x s1]; cbn [fst snd] in *; subst x; [by eexists|]. apply (IH ds' s1 Hs1). lia.
Qed.

Lemma ahead_length ds s : no_process_ahead ds s -> (length ds <= length (pl_rest s))%nat.
Proof using Type.
  intros (_ & _ & bs & tail & -> & Hb & _). induction Hb as [|b d bs ds (Hl & _) Hb IH]; simpl; [lia|].
  rewrite !length_app in *. unfold zlen in Hl. lia.
Qed.

Lemma process_files_raise cfg f pre post e :
  process_file cfg f = Raise e -> exists e', process_files cfg (pre ++ f :: post) = Raise e'.
Proof using Type.
  intros Hf. induction pre as [|g pre [e' IH]]; cbn; [by rewrite Hf; eexists|].
  destruct (process_file cfg g); [|by eexists]. rewrite IH. by eexists.
Qed.

(** One log of at most the configured size that holds messages, but no
    message explaining the [__process__] call (the monitor died before it was
    written, or a log of the hypervisor's monitor, whose [new_process] message
    has no process id), makes the step that lists the processes raise for the
    whole analysis, whatever other logs lie in the folder: none of their
    processes is returned. *)
Theorem log_without_process_loses_all cfg pre f post bs tail ds :
  compress_log_file cfg = None -> lf_isdir f = false -> ends_with ".bson" (lf_name f) = true ->
  lf_content f = concat bs ++ tail -> 0 < zlen (lf_content f) <= cfg_size_limit cfg ->
  Forall2 framed bs ds -> cut_off tail -> Forall names_no_process ds ->
  exists e, processes_run cfg (Some (pre ++ f :: post)) = Raise e.
Proof using Type.
  intros Hc Hd Hn Hcon Hlen Hb Ht Hds.
  assert (Ha : no_process_ahead ds (new_log (cfg_call_limit cfg) (lf_content f))).
  { split_and!; [|done|by exists bs, tail]. split; [done|]. intros k i. cbn. by rewrite lookup_empty. }
  assert (exists e, process_file cfg f = Raise e) as [e He].
  { unfold process_file. rewrite Hc, Hd, (proj2 (Z.ltb_ge _ _)) by lia. unfold ParseProcessLog.
    rewrite (proj2 (Z.ltb_lt _ _)), Hn by lia. cbn [andb]. unfold parse_first_and_reset, sbind.
    destruct (first_loop_ahead (file_fuel (new_log (cfg_call_limit cfg) (lf_content f))) ds _ Ha) as [e He].
    { pose proof (ahead_length _ _ Ha). unfold file_fuel. lia. }
    destruct (first_loop _ _) as [x s1]. cbn [fst] in He. subst x. by exists e. }
  unfold processes_run. destruct (process_files_raise cfg f pre post e He) as [e' He'].
  exists e'. destruct (pre ++ f :: post) eqn:E; [by destruct pre|]. by rewrite He'.
Qed.
End no_process.

(** ** Instances *)

(** A decoder for the examples: the fifth byte of a frame tells the message. *)
Definition example_document (type name : string) (args : list bval) : document :=
  {| d_type := type; d_I := 1; d_T := 7; d_t := 0; d_R := 0; d_P := 0; d_r := 0; d_name := name; d_category := None;
     d_arginfo := [("Handle", Some "p")]; d_flags_bitmask := false; d_starttime := 0; d_args := args; d_aux := [] |}.
#[local] Instance example_bson : bson := {|
  bson_decode b := match b with
                   | [_; _; _; _; 0] => Some (example_document "info" "NtClose" [])
                   | [_; _; _; _; v] => Some (example_document "call" "" [BInt v])
                   | _ => None
                   end;
  fromfiletime t := Ok t; fromtimestamp t := Ok t |}.
Definition example_frame (k : Z) : list Z := [5; 0; 0; 0; k].
Definition example_frames : list (list Z) := [example_frame 0; example_frame 4; example_frame 4; example_frame 8].
Definition example_file : list Z := concat example_frames ++ [9; 0].
Definition example_documents : list document :=
  [example_document "info" "NtClose" []; example_document "call" "" [BInt 4]; example_document "call" "" [BInt 4];
   example_document "call" "" [BInt 8]].
Definition example_log : plog := set_process (BInt 12) (BInt 4) (BText "a.exe") (BText "c:\a.exe") 0 (new_log 0 example_file).
Definition example_calls : list call := match feed example_documents example_log with Ok (cs, _) => cs | Raise _ => [] end.

Lemma example_framed : Forall2 framed example_frames example_documents.
Proof. repeat constructor; vm_compute; done. Qed.
Lemma example_cut : cut_off [9; 0].
Proof. left. done. Qed.

Lemma example_feed : exists sf, feed example_documents example_log = Ok (example_calls, sf).
Proof.
  unfold example_calls. destruct (feed example_documents example_log) as [[cs sf]|e] eqn:E; [by exists sf|by vm_compute in E].
Qed.

Lemma log_calls_merged_witness :
  length example_calls = 3%nat /\ length (merge example_calls) = 2%nat /\
  exists s1, calls example_log = (Ok (numbered 0 (limited 0 0 (merge example_calls))), s1).
Proof.
  split_and!; [by vm_compute..|].
  apply (log_calls_merged example_documents example_calls example_log); [|done..].
  split; [exists example_frames, [9; 0]; split_and!; [done|apply example_framed|apply example_cut]|].
  apply example_feed.
Defined.

Lemma example_times : times_fine.
Proof. split; done. Qed.
Lemma log_loops_end_witness : (calls (new_log 0 example_file)).1 <> Raise OutOfFuel.
Proof. apply (log_loops_end example_times (new_log 0 example_file)). Defined.

Lemma log_without_process_loses_all_witness :
  exists e, processes_run {| cfg_call_limit := 0; cfg_size_limit := 100; compress_log_file := None |}
    (Some [{| lf_name := "12.bson"; lf_isdir := false; lf_content := example_file |}]) = Raise e.
Proof.
  apply (log_without_process_loses_all _ [] {| lf_name := "12.bson"; lf_isdir := false; lf_content := example_file |} []
           example_frames [9; 0] example_documents); try done; [apply example_framed|apply example_cut|].
  repeat constructor; intros H; vm_compute in H |- *; congruence.
Defined.
