(* ===== verification/Behavior.v ===== *)
(** The behaviour summary of modules/processing/behavior.py: the partial
    analyses [Summary], [Enhanced], [Anomaly], [ProcessTree] and
    [EncryptedBuffers] and the module that feeds them, on the calls of the
    parsed logs (ProcessLog.v). *)
From S2P Require Import Prelude Struct Pretty Quarantine ProcessLog.
Open Scope string_scope.
Open Scope list_scope.
Open Scope Z_scope.

(** ** Partial analyses *)

(** What [BehaviorAnalysis] expects of one: it is told every call with its
    process. *)
Class partial_behavior (S : Type) := {
  key : string;
  event_apicall : call -> process -> st S unit }.

(** An exception is logged; what was changed before it stays. *)
Definition tell {S} `{partial_behavior S} (c : call) (p : process) (s : S) : S := (event_apicall c p s).2.

(** ** The arguments of a call *)

Definition find_argument (c : call) (argname : string) : option argument :=
  head (filter (fun a => a_name a = argname) (arguments c)).

(** The values are printable ASCII, see [convert_to_printable]. *)
Definition py_strip (s : string) : string := text (strip_ws (B s)).
Definition get_argument (c : call) (argname : string) : option string := a_value <$> find_argument c argname.
Definition get_stripped (c : call) (argname : string) : option string := py_strip <$> get_argument c argname.

(** The key is missing in reporting mode. *)
Definition get_raw_argument (c : call) (argname : string) : res (option bval) :=
  match find_argument c argname with
  | None => Ok None
  | Some a => let! v := of_option KeyError (raw_value a) in Ok (Some v)
  end.

(** [int] of an argument, which is [None] when it is missing. *)
Definition int_argument (c : call) (argname : string) : res Z :=
  match get_argument c argname with None => Raise TypeError | Some v => py_int_text v end.

(** [f"{x}"]. *)
Definition shown (o : option string) : string := default "None" o.

(** ** Summary *)

Inductive field :=
| keys | read_keys | write_keys | delete_keys | mutexes | files | read_files | write_files | delete_files
| started_services | created_services | executed_commands | resolved_apis.
#[global] Instance field_eq_dec : EqDecision field.
Proof. solve_decision. Defined.

Definition Summary : Type := field -> list string.
Definition Summary_init : Summary := fun _ => [].

(** [if name not in self.keys: self.keys.append(name)]. *)
Definition note (f : field) (x : string) (s : Summary) : Summary := fun g =>
  if decide (f = g) then if bool_decide (x ∈ s f) then s f else s f ++ [x] else s g.

(** The same for a name that may be missing or empty. *)
Definition note_name (n : field * option string) (s : Summary) : Summary :=
  match n.2 with
  | Some x => if bool_decide (x = "") then s else note n.1 x s
  | None => s
  end.
Definition notes (l : list (field * option string)) : st Summary unit :=
  smodify (fun s => fold_left (fun s n => note_name n s) l s).

(** [o if b else None]. *)
Definition only (b : bool) (o : option string) : option string := if b then o else None.
(** [a or b] for two names. *)
Definition or_else (a b : option string) : option string := if truthy a then a else b.

(** A path that starts with a drive: its second character is a colon. *)
Definition has_drive (s : string) : bool :=
  match B s with _ :: c :: _ => bool_decide (c = COLON) | _ => false end.

(** The first byte of the encoded information of [NtSetInformationFile]. *)
Definition file_disposition (v : bval) : res Z :=
  match v with
  | BBytes (b :: _) => Ok b
  | BText s => match B s with b :: _ => Ok (byte_val b) | [] => Raise StructError end
  | BInt _ => Raise TypeError
  | BBytes [] => Raise StructError
  | BArgv _ _ | BNone => Raise AttributeError
  end.

(** What stands before the first [c], and before and after the last one. *)
Definition before_first (c : ascii) (l : bytes) : bytes :=
  match find_byte c l with Some i => take i l | None => l end.
Definition after_last (c : ascii) (l : bytes) : bytes := reverse (before_first c (reverse l)).
Definition before_last (c : ascii) (l : bytes) : bytes :=
  match find_byte c (reverse l) with Some i => take (length l - S i) l | None => l end.
Definition QUOTE : ascii := "034"%char.

(** The command line, with the application in front unless it names it. *)
Definition full_command (appname cmdline : string) : string :=
  let base := before_last "."%char (after_last BACKSLASH (B appname)) in
  let firstarg := match B cmdline with
                  | q :: rest => if bool_decide (q = QUOTE) then before_first QUOTE rest else before_first " "%char (B cmdline)
                  | [] => []
                  end in
  if contains_sub base firstarg then cmdline else appname +:+ " " +:+ cmdline.

Definition access_read (access : Z) : bool :=
  negb (Z.land access 0x80000000 =? 0) || negb (Z.land access 0x10000000 =? 0) ||
  negb (Z.land access 0x02000000 =? 0) || negb (Z.land access 0x1 =? 0).
Definition access_write (access : Z) : bool :=
  negb (Z.land access 0x40000000 =? 0) || negb (Z.land access 0x10000000 =? 0) ||
  negb (Z.land access 0x02000000 =? 0) || negb (Z.land access 0x6 =? 0).

(** The branches that record names of registry keys; [None] is another call. *)
Definition summary_registry (c : call) : option (st Summary unit) :=
  let named n := bool_decide (api c = n) in
  let starts p := starts_with p (api c) in
  let name := get_argument c "FullName" in
  let attr := get_argument c "ObjectAttributes" in
  if starts "RegOpenKeyEx" then Some (notes [(keys, name)])
  else if starts "RegSetValue" || named "NtSetValueKey" then Some (notes [(keys, name); (write_keys, name)])
  else if named "NtDeleteValueKey" || named "NtDeleteKey" || starts "RegDeleteValue" then
    Some (notes [(keys, name); (delete_keys, name)])
  else if starts "RegCreateKeyEx" then
    Some (let* disposition := slift (int_argument c "Disposition") in
          notes [(keys, name); (write_keys, only (disposition =? 1) name)])
  else if starts "NtOpenKey" then Some (notes [(keys, attr)])
  else if named "NtCreateKey" then
    Some (let* disposition := slift (int_argument c "Disposition") in
          notes [(keys, attr); (write_keys, only (disposition =? 1) attr)])
  else if named "NtQueryValueKey" || named "NtQueryMultipleValueKey" || starts "RegQueryValue" then
    Some (notes [(keys, name); (read_keys, name)])
  else None.

Definition summary_shell_execute (c : call) : st Summary unit :=
  let* filename := slift (of_option TypeError (get_argument c "FilePath")) in
  let path := get_stripped c "FilePath" in
  let cmdline := only (truthy path) (Some (shown path +:+ " " +:+ shown (get_stripped c "Parameters"))) in
  notes [(files, only (has_drive filename) (Some filename)); (executed_commands, cmdline)].

Definition summary_set_information (c : call) : st Summary unit :=
  let filename := get_argument c "HandleName" in
  let* infoclass := slift (int_argument c "FileInformationClass") in
  let* fileinfo := slift (get_raw_argument c "FileInformation") in
  match fileinfo with
  | Some v =>
      if truthy filename && (infoclass =? 13) && bval_true v then
        let* disp := slift (file_disposition v) in
        notes [(delete_files, only (negb (disp =? 0)) filename)]
      else sret tt
  | None => sret tt
  end.

Definition summary_create_process (c : call) : st Summary unit :=
  let cmdline := get_stripped c "CommandLine" in
  let appname := get_stripped c "ApplicationName" in
  notes [(executed_commands,
          if truthy appname && truthy cmdline then Some (full_command (shown appname) (shown cmdline)) else cmdline)].

(** [combined] is never empty, so it is noted without a test. *)
Definition summary_procedure (c : call) : st Summary unit :=
  let* dllname := slift (of_option AttributeError (get_argument c "ModuleName")) in
  let funcname := get_argument c "FunctionName" in
  let funcname := if truthy funcname then shown funcname else "#" +:+ shown (get_argument c "Ordinal") in
  smodify (note resolved_apis (lower dllname +:+ "." +:+ funcname)).

(** [int(accessval, 16) if accessval else None]; zero is as good as none. *)
Definition desired_access (c : call) : res Z :=
  match get_argument c "DesiredAccess" with
  | Some v => if bool_decide (v = "") then Ok 0 else int16 v
  | None => Ok 0
  end.

Definition summary_filesystem (c : call) : st Summary unit :=
  let filename := or_else (get_argument c "FileName") (get_argument c "DirectoryName") in
  let src := get_argument c "ExistingFileName" in
  let dst := get_argument c "NewFileName" in
  let* access := slift (desired_access c) in
  notes [(read_files, only (access_read access) filename); (write_files, only (access_write access) filename);
         (files, filename); (read_files, src); (files, src); (write_files, dst); (files, dst)].

Definition summary_other (c : call) : st Summary unit :=
  let named n := bool_decide (api c = n) in
  let starts p := starts_with p (api c) in
  let arg := get_argument c in
  if named "SHGetFileInfoW" then
    notes [(files, only (match arg "Path" with Some f => has_drive f | None => false end) (arg "Path"))]
  else if named "ShellExecuteExW" then summary_shell_execute c
  else if named "NtSetInformationFile" then summary_set_information c
  else if starts "DeleteFile" || named "NtDeleteFile" || starts "RemoveDirectory" then
    let filename := or_else (arg "FileName") (arg "DirectoryName") in
    notes [(files, filename); (delete_files, filename)]
  else if starts "StartService" then notes [(started_services, get_stripped c "ServiceName")]
  else if starts "CreateService" then notes [(created_services, get_stripped c "ServiceName")]
  else if named "CreateProcessInternalW" || named "NtCreateUserProcess" || named "CreateProcessWithTokenW" ||
          named "CreateProcessWithLogonW" then summary_create_process c
  else if named "LdrGetProcedureAddress" && c_status c then summary_procedure c
  else if starts "NtCreateProcess" then notes [(executed_commands, arg "FileName")]
  else if named "MoveFileWithProgressW" || named "MoveFileWithProgressTransactedW" then
    notes [(files, arg "ExistingFileName"); (delete_files, arg "ExistingFileName");
           (files, arg "NewFileName"); (write_files, arg "NewFileName")]
  else if bool_decide (ProcessLog.category c = "filesystem") then summary_filesystem c
  else if bool_decide (ProcessLog.category c = "synchronization") then notes [(mutexes, arg "MutexName")]
  else sret tt.

Definition summary_apicall (c : call) : st Summary unit :=
  match summary_registry c with Some m => m | None => summary_other c end.
#[global] Instance summary_behavior : partial_behavior Summary := {
  key := "summary"; event_apicall c _ := summary_apicall c }.

Definition Summary_run (s : Summary) : list (string * list string) :=
  [("files", s files); ("read_files", s read_files); ("write_files", s write_files); ("delete_files", s delete_files);
   ("keys", s keys); ("read_keys", s read_keys); ("write_keys", s write_keys); ("delete_keys", s delete_keys);
   ("executed_commands", s executed_commands); ("resolved_apis", s resolved_apis); ("mutexes", s mutexes);
   ("created_services", s created_services); ("started_services", s started_services)].

(** ** Enhanced *)

(** One entry of the table of events: [item]. *)
Record generic_item := { gi_event : string; gi_object : string; gi_apis : list string; gi_args : list (string * string) }.
Definition item (event object : string) (apis : list string) (args : list (string * string)) : generic_item :=
  {| gi_event := event; gi_object := object; gi_apis := apis; gi_args := args |}.

Definition gendat : list generic_item :=
  [item "move" "file" ["MoveFileWithProgressW"; "MoveFileWithProgressTransactedW"]
     [("from", "ExistingFileName"); ("to", "NewFileName")];
   item "copy" "file" ["CopyFileA"; "CopyFileW"; "CopyFileExW"; "CopyFileExA"]
     [("from", "ExistingFileName"); ("to", "NewFileName")];
   item "delete" "file" ["DeleteFileA"; "DeleteFileW"; "NtDeleteFile"] [("file", "FileName")];
   item "delete" "dir" ["RemoveDirectoryA"; "RemoveDirectoryW"] [("file", "DirectoryName")];
   item "create" "dir" ["CreateDirectoryW"; "CreateDirectoryExW"] [("file", "DirectoryName")];
   item "write" "file" ["URLDownloadToFileW"; "URLDownloadToFileA"] [("file", "FileName")];
   item "read" "file" ["NtReadFile"] [("file", "HandleName")];
   item "write" "file" ["NtWriteFile"] [("file", "HandleName")];
   item "execute" "file"
     ["CreateProcessAsUserA"; "CreateProcessAsUserW"; "CreateProcessA"; "CreateProcessW"; "NtCreateProcess";
      "NtCreateProcessEx"] [("file", "FileName")];
   item "execute" "file" ["CreateProcessInternalW"; "CreateProcessWithLogonW"; "CreateProcessWithTokenW"]
     [("file", "CommandLine")];
   item "execute" "file" ["ShellExecuteExA"; "ShellExecuteExW"] [("file", "FilePath")];
   item "load" "library"
     ["LoadLibraryA"; "LoadLibraryW"; "LoadLibraryExA"; "LoadLibraryExW"; "LdrLoadDll"; "LdrGetDllHandle"]
     [("file", "FileName"); ("pathtofile", "PathToFile"); ("moduleaddress", "BaseAddress")];
   item "findwindow" "windowname" ["FindWindowA"; "FindWindowW"; "FindWindowExA"; "FindWindowExW"]
     [("classname", "ClassName"); ("windowname", "WindowName")];
   item "write" "registry" ["RegSetValueExA"; "RegSetValueExW"] [("regkey", "FullName"); ("content", "Buffer")];
   item "write" "registry" ["RegCreateKeyExA"; "RegCreateKeyExW"] [("regkey", "FullName")];
   item "read" "registry" ["RegQueryValueExA"; "RegQueryValueExW"] [("regkey", "FullName"); ("content", "Data")];
   item "read" "registry" ["NtQueryValueKey"] [("regkey", "FullName"); ("content", "Information")];
   item "delete" "registry"
     ["RegDeleteKeyA"; "RegDeleteKeyW"; "RegDeleteValueA"; "RegDeleteValueW"; "NtDeleteValueKey"]
     [("regkey", "FullName")];
   item "create" "windowshook" ["SetWindowsHookExA"]
     [("id", "HookIdentifier"); ("moduleaddress", "ModuleAddress"); ("procedureaddress", "ProcedureAddress")];
   item "start" "service" ["StartServiceA"; "StartServiceW"] [("service", "ServiceName")];
   item "modify" "service" ["ControlService"] [("service", "ServiceName"); ("controlcode", "ControlCode")];
   item "delete" "service" ["DeleteService"] [("service", "ServiceName")]].

Record event := {
  e_event : string; e_object : string; e_timestamp : Z; e_eid : Z; e_data : list (string * option string) }.

Record Enhanced := { eid : Z; modules : gmap string string; procedures : gmap string string; events : list event }.
Definition Enhanced_init : Enhanced := {| eid := 0; modules := ∅; procedures := ∅; events := [] |}.
Definition set_eid (n : Z) (s : Enhanced) : Enhanced :=
  {| eid := n; modules := modules s; procedures := procedures s; events := events s |}.
Definition append_event (e : event) (s : Enhanced) : Enhanced :=
  {| eid := eid s; modules := modules s; procedures := procedures s; events := events s ++ [e] |}.

Definition _add_loaded_module (name base : string) (s : Enhanced) : Enhanced :=
  {| eid := eid s; modules := <[base := name]> (modules s); procedures := procedures s; events := events s |}.
Definition _get_loaded_module (base : string) (s : Enhanced) : string := default "" (modules s !! base).
Definition _add_procedure (mbase name base : string) (s : Enhanced) : Enhanced :=
  {| eid := eid s; modules := modules s;
     procedures := <[base := _get_loaded_module mbase s +:+ ":" +:+ name]> (procedures s); events := events s |}.

(** The last argument of a name wins. *)
Definition _load_args (c : call) : list (string * string) :=
  dict_update [] ((fun a => (a_name a, a_value a)) <$> arguments c).
Definition args_get (c : call) (name def : string) : string := default def (dict_lookup name (_load_args c)).

Definition _generic_handle (data : list generic_item) (c : call) : st Enhanced (option event) := fun s =>
  match filter (fun i => api c ∈ gi_apis i) data with
  | [] => (Ok None, s)
  | i :: _ =>
      let s' := set_eid (eid s + 1) s in
      (Ok (Some {| e_event := gi_event i; e_object := gi_object i; e_timestamp := timestamp c; e_eid := eid s';
                   e_data := (fun a => (a.1, dict_lookup a.2 (_load_args c))) <$> gi_args i |}), s')
  end.

(** The keys of the table of actions are integers and the code is text, so the
    default is taken. *)
Definition _get_service_action (control_code : string) : res string :=
  let! v := py_int_text control_code in Ok (if 128 <=? v then "user" else "notify").

Definition with_data (k v : string) (e : event) : event :=
  {| e_event := e_event e; e_object := e_object e; e_timestamp := e_timestamp e; e_eid := e_eid e;
     e_data := dict_set k (Some v) (e_data e) |}.

(** The state of the modules, and what is added to the event. *)
Definition enrich (c : call) (e : event) : st Enhanced event :=
  let arg name := args_get c name "" in
  if bool_decide (api c ∈ ["LoadLibraryA"; "LoadLibraryW"; "LoadLibraryExA"; "LoadLibraryExW"; "LdrGetDllHandle"]) &&
     c_status c then
    do* smodify (_add_loaded_module (arg "FileName") (arg "ModuleHandle")) in sret e
  else if bool_decide (api c = "LdrLoadDll") && c_status c then
    do* smodify (_add_loaded_module (arg "FileName") (arg "BaseAddress")) in sret e
  else if bool_decide (api c = "LdrGetProcedureAddress") && c_status c then
    do* smodify (_add_procedure (arg "ModuleHandle") (arg "FunctionName") (arg "FunctionAddress")) in
    let* s := sget in
    sret (with_data "module" (_get_loaded_module (arg "ModuleHandle") s) e)
  else if bool_decide (api c = "SetWindowsHookExA") then
    let* s := sget in
    sret (with_data "module" (_get_loaded_module (arg "ModuleAddress") s) e)
  else if bool_decide (api c = "ControlService") then
    let* code := slift (of_option KeyError (dict_lookup "ControlCode" (_load_args c))) in
    let* action := slift (_get_service_action code) in
    sret (with_data "action" action e)
  else sret e.

Definition _process_call (c : call) : st Enhanced (option event) :=
  let* o := _generic_handle gendat c in
  match o with
  | Some e => let* e := enrich c e in sret (Some e)
  | None => sret None
  end.

#[global] Instance enhanced_behavior : partial_behavior Enhanced := {
  key := "enhanced";
  event_apicall c _ :=
    let* o := _process_call c in
    match o with Some e => smodify (append_event e) | None => sret tt end }.
Definition Enhanced_run (s : Enhanced) : list event := events s.

(** ** Anomaly *)

Record anomaly := {
  an_name : bval; an_pid : bval; an_category : option string; an_funcname : option string; an_message : option string }.
Definition Anomaly : Type := list anomaly.

(** The last row of a name wins. *)
Definition last_value (name : string) (c : call) : option string :=
  a_value <$> last (filter (fun a => a_name a = name) (arguments c)).

#[global] Instance anomaly_behavior : partial_behavior Anomaly := {
  key := "anomaly";
  event_apicall c p :=
    if negb (bool_decide (ProcessLog.category c = "anomaly")) then sret tt else
    smodify (fun s => s ++ [{| an_name := pr_name p; an_pid := pr_id p; an_category := last_value "Subcategory" c;
                               an_funcname := last_value "FunctionName" c; an_message := last_value "Message" c |}]) }.

(** ** Encrypted buffers *)

Record enc_buffer := {
  eb_process : bval; eb_pid : bval; eb_api_call : string; eb_buffer : string;
  eb_extra : option (string * option string) }.
Definition EncryptedBuffers : Type := list enc_buffer.

(** [buf not in self.bufs] looks for a text among dictionaries and always
    holds. *)
Definition add_buffer (name : string) (extra : option (string * option string)) (c : call) (p : process)
    (s : EncryptedBuffers) : EncryptedBuffers :=
  match get_stripped c "Buffer" with
  | Some buf =>
      if bool_decide (buf = "") then s else
      s ++ [{| eb_process := pr_name p; eb_pid := pr_id p; eb_api_call := name; eb_buffer := buf; eb_extra := extra |}]
  | None => s
  end.

#[global] Instance buffers_behavior : partial_behavior EncryptedBuffers := {
  key := "encryptedbuffers";
  event_apicall c p := smodify (fun s =>
    let s := if starts_with "SslEncryptPacket" (api c) then
               add_buffer "SslEncryptPacket" (Some ("buffer_size", get_argument c "BufferSize")) c p s else s in
    let s := if starts_with "CryptEncrypt" (api c) then
               add_buffer "CryptEncrypt" (Some ("crypt_key", get_argument c "CryptKey")) c p s else s in
    if starts_with "CryptEncryptMessage" (api c) then add_buffer "CryptEncryptMessage" None c p s else s) }.

(** ** The process tree *)

(** [self.processes]: the processes that made a call, one for each id. The
    lists of threads and the environment are those of the log, by reference. *)
Definition ProcessTree : Type := list process.

#[global] Instance tree_behavior : partial_behavior ProcessTree := {
  key := "processtree";
  event_apicall _ p := smodify (fun s => if bool_decide (Exists (fun e => pr_id e = pr_id p) s) then s else s ++ [p]) }.

Inductive tree := Node (e : process) (children : list tree).

(** Append below the first node, in depth-first order, that has the id of the
    parent; [None] is [False]. *)
Fixpoint add_below (node : process) (t : tree) : option tree :=
  match t with
  | Node e cs =>
      if bool_decide (pr_id e = pr_parent node) then Some (Node e (cs ++ [Node node []]))
      else
        Node e <$> (fix go (l : list tree) : option (list tree) :=
                      match l with
                      | [] => None
                      | t :: l' =>
                          match add_below node t with Some t' => Some (t' :: l') | None => cons t <$> go l' end
                      end) cs
  end.
Fixpoint add_node (node : process) (l : list tree) : option (list tree) :=
  match l with
  | [] => None
  | t :: l' => match add_below node t with Some t' => Some (t' :: l') | None => cons t <$> add_node node l' end
  end.

(** Entries of the list have different ids, so the equal one is itself. *)
Definition has_parent (ps : list process) (p : process) : bool :=
  bool_decide (Exists (fun q => pr_id q <> pr_id p /\ pr_id q = pr_parent p) ps).

Definition place_child (t : list tree) (p : process) : list tree :=
  match add_node p t with Some t' => t' | None => t ++ [Node p []] end.
Definition ProcessTree_run (ps : list process) : list tree :=
  let roots := filter (fun p => has_parent ps p = false) ps in
  let children := filter (fun p => has_parent ps p = true) ps in
  fold_left place_child children ((fun p => Node p []) <$> roots).

(** ** The module *)

Record instances := {
  i_anomaly : Anomaly; i_tree : ProcessTree; i_summary : Summary; i_enhanced : Enhanced; i_buffers : EncryptedBuffers }.
Definition new_instances : instances :=
  {| i_anomaly := []; i_tree := []; i_summary := Summary_init; i_enhanced := Enhanced_init; i_buffers := [] |}.

(** [for instance in instances]. *)
Definition tell_all (p : process) (i : instances) (c : call) : instances :=
  {| i_anomaly := tell c p (i_anomaly i); i_tree := tell c p (i_tree i); i_summary := tell c p (i_summary i);
     i_enhanced := tell c p (i_enhanced i); i_buffers := tell c p (i_buffers i) |}.

Record behavior := {
  b_processes : list process; b_anomaly : list anomaly; b_processtree : list tree;
  b_summary : list (string * list string); b_enhanced : list event; b_encryptedbuffers : list enc_buffer }.

Section run.
Context `{bson}.

Definition with_log (s : plog) (p : process) : process :=
  {| pr_id := pr_id p; pr_name := pr_name p; pr_parent := pr_parent p; pr_path := pr_path p;
     pr_first_seen := pr_first_seen p; pr_log := s |}.

(** The loop over the processes and their calls. An error of a log is not
    caught. The logs are read to their end; the last state of each is kept. *)
Fixpoint feed_processes (ps : list process) (i : instances) : res (list process * instances) :=
  match ps with
  | [] => Ok ([], i)
  | p :: ps' =>
      match calls (pr_log p) with
      | (Raise e, _) => Raise e
      | (Ok cs, log) =>
          let! r := feed_processes ps' (fold_left (tell_all p) cs i) in
          Ok (with_log log p :: r.1, r.2)
      end
  end.

Definition BehaviorAnalysis_run (cfg : log_config) (folder : option (list log_file)) : res behavior :=
  let! ps := processes_run cfg folder in
  let! r := feed_processes ps new_instances in
  let i := r.2 in
  Ok {| b_processes := r.1; b_anomaly := i_anomaly i; b_processtree := ProcessTree_run (i_tree i);
        b_summary := Summary_run (i_summary i); b_enhanced := Enhanced_run (i_enhanced i);
        b_encryptedbuffers := i_buffers i |}.
End run.

(** ** Each part alone *)

(** What one part makes of a stream of calls. *)
Definition alone {S} `{partial_behavior S} (evs : list (process * call)) (s : S) : S :=
  fold_left (fun s e => tell e.2 e.1 s) evs s.

Lemma alone_app {S} `{partial_behavior S} e1 e2 (s : S) : alone (e1 ++ e2) s = alone e2 (alone e1 s).
Proof. apply fold_left_app. Qed.

(** ** The summary *)

Lemma note_spec f x s g y : y ∈ note f x s g <-> y ∈ s g \/ (f = g /\ y = x).
Proof.
  unfold note. destruct (decide (f = g)) as [<-|Hne]; [|naive_solver].
  case_bool_decide; [naive_solver|]. rewrite elem_of_app, list_elem_of_singleton. naive_solver.
Qed.

Lemma notes_spec l : forall s g y,
  y ∈ fold_left (fun s n => note_name n s) l s g <-> y ∈ s g \/ ((g, Some y) ∈ l /\ y <> "").
Proof.
  induction l as [|[f o] l IH]; intros s g y; cbn [fold_left]; [set_solver|]. rewrite IH, elem_of_cons.
  unfold note_name. cbn [fst snd]. destruct o as [x|]; [|naive_solver].
  case_bool_decide; [naive_solver|]. rewrite note_spec. naive_solver.
Qed.

(** The fields that repeat names of another one; [d] when the deleted files do, too. *)
Definition part_of (d : bool) (f : field) : option field :=
  match f with
  | read_keys | write_keys | delete_keys => Some keys
  | read_files | write_files => Some files
  | delete_files => if d then Some files else None
  | _ => None
  end.

Definition summary_ok (d : bool) (s : Summary) : Prop :=
  (forall f, NoDup (s f)) /\ (forall f g x, part_of d f = Some g -> x ∈ s f -> x ∈ s g).
Definition summary_step (d : bool) (s s' : Summary) : Prop :=
  (forall f, s f `prefix_of` s' f) /\ (summary_ok d s -> summary_ok d s').
#[local] Instance summary_step_preorder d : PreOrder (summary_step d).
Proof.
  split; [by split|]. intros a b c [H1 H2] [H3 H4]. split; [|intros Ha; by apply H4, H2]. intros f. etrans; [apply H1|apply H3].
Qed.

Lemma note_prefix f x s g : s g `prefix_of` note f x s g.
Proof. unfold note. destruct (decide (f = g)) as [->|]; [|done]. case_bool_decide; [done|by apply prefix_app_r]. Qed.

Lemma note_nodup f x s : (forall g, NoDup (s g)) -> forall g, NoDup (note f x s g).
Proof.
  intros Hs g. unfold note. destruct (decide (f = g)) as [->|]; [|done]. case_bool_decide; [done|].
  apply NoDup_app. split_and!; [done|set_solver|apply NoDup_singleton].
Qed.

Lemma notes_shape l : forall s : Summary,
  (forall g, s g `prefix_of` fold_left (fun s n => note_name n s) l s g) /\
  ((forall g, NoDup (s g)) -> forall g, NoDup (fold_left (fun s n => note_name n s) l s g)).
Proof.
  induction l as [|[f o] l IH]; intros s; cbn [fold_left]; [by split|].
  assert (H : (forall g, s g `prefix_of` note_name (f, o) s g) /\ ((forall g, NoDup (s g)) -> forall g, NoDup (note_name (f, o) s g))).
  { unfold note_name. cbn [fst snd]. destruct o as [x|]; [|by split]. case_bool_decide; [by split|].
    split; [intros g; apply note_prefix|apply note_nodup]. }
  destruct H as [H1 H2], (IH (note_name (f, o) s)) as [H3 H4]. split; [intros g; etrans; [apply H1|apply H3]|]. intros Hs. apply H4, H2, Hs.
Qed.

(** A branch keeps the summary well formed when it notes the name of a part
    for the whole, too. *)
Definition closed (d : bool) (l : list (field * option string)) : Prop :=
  forall f g x, part_of d f = Some g -> (f, Some x) ∈ l -> (g, Some x) ∈ l.

Lemma within_notes d l : closed d l -> within (summary_step d) (notes l).
Proof.
  intros Hl s. destruct (notes_shape l s) as [H1 H2]. split; [exact H1|]. intros [Hn Hp]. split; [by apply H2|].
  intros f g x Hfg. cbn. rewrite !notes_spec. intros [Hx|[Hx Hne]]; [left; by eapply Hp|right; split; [by eapply Hl|done]].
Qed.

Lemma only_Some b o x : only b o = Some x -> o = Some x.
Proof. by destruct b. Qed.

(** What is noted for a part is noted for the whole in the same list. *)
Ltac closed_tac :=
  let f := fresh "f" in let g := fresh "g" in let x := fresh "x" in let Hg := fresh "Hg" in let H := fresh "H" in
  intros f g x Hg H; destruct f; try discriminate Hg; cbn [part_of] in Hg; 
  try (match type of Hg with (if ?b then _ else _) = _ => destruct b; [|discriminate Hg] end); injection Hg as <-;
  rewrite ?elem_of_cons in H |- *;
  repeat match goal with
  | H : _ \/ _ |- _ => destruct H as [H|H]
  | H : _ ∈ [] |- _ => by apply elem_of_nil in H
  | H : (_, _) = (_, _) |- _ => first [discriminate H | injection H as H]
  | H : Some _ = only _ _ |- _ => symmetry in H; apply only_Some in H
  end;
  repeat first [left; congruence | right].

Ltac summary_tac :=
  repeat match goal with |- within _ (if ?b then _ else _) => destruct b end;
  within_tac; try (apply within_notes; closed_tac).

Lemma note_within d f x : part_of d f = None -> within (summary_step d) (smodify (note f x)).
Proof.
  intros Hf s. split; [intros g; apply note_prefix|]. intros [Hn Hp]. split; [by apply note_nodup|].
  intros f' g y Hg. cbn. rewrite !note_spec. intros [Hy|[<- ->]]; [left; by eapply Hp|]. by rewrite Hf in Hg.
Qed.

Lemma registry_within d c m : summary_registry c = Some m -> within (summary_step d) m.
Proof.
  unfold summary_registry. intros H.
  repeat match type of H with (if ?b then Some _ else _) = _ => destruct b; [injection H as <-; summary_tac|] end. done.
Qed.

Lemma set_information_within c : within (summary_step false) (summary_set_information c).
Proof. unfold summary_set_information. summary_tac. Qed.

Lemma other_within d c :
  (d = true -> api c <> "NtSetInformationFile") -> within (summary_step d) (summary_other c).
Proof.
  intros Hd. unfold summary_other, summary_shell_execute, summary_create_process, summary_procedure, summary_filesystem.
  cbn zeta. do 2 (match goal with |- within _ (if ?b then _ else _) => destruct b; [by summary_tac; apply note_within|] end).
  case_bool_decide as E.
  - destruct d; [by destruct Hd|]. apply set_information_within.
  - summary_tac; by apply note_within.
Qed.

Lemma summary_told d evs (s : Summary) :
  (d = true -> Forall (fun e => api e.2 <> "NtSetInformationFile") evs) -> summary_step d s (alone evs s).
Proof.
  revert s. induction evs as [|e evs IH]; intros s Hd; [done|]. unfold alone. cbn [fold_left].
  etrans; [|apply IH; intros Ht; by apply Forall_cons in Hd as [_ ?]].
  change (summary_step d s (summary_apicall e.2 s).2). unfold summary_apicall.
  destruct (summary_registry e.2) as [m|] eqn:E; [by apply (registry_within _ _ _ E)|].
  apply other_within. intros Ht. by apply Forall_cons in Hd as [? _].
Qed.

(** C18. Whatever calls the summary is told, and whatever exceptions they raise, no
    list ever has a name twice, a key that was read, written or deleted is
    among the keys and a file that was read or written is among the files, and, when
    no call is NtSetInformationFile, which notes the file it deletes among the deleted ones
    only, a file that was deleted, too; and what has been recorded stays, in its place. *)
Theorem summary_invariant (evs later : list (process * call)) :
  summary_ok false (alone evs Summary_init) /\
  (Forall (fun e => api e.2 <> "NtSetInformationFile") evs -> summary_ok true (alone evs Summary_init)) /\
  forall f, alone evs Summary_init f `prefix_of` alone (evs ++ later) Summary_init f.
Proof.
  assert (Hi : forall d, summary_ok d Summary_init).
  { split; [intros f; apply NoDup_nil_2|]. intros f g x _ H0. by apply elem_of_nil in H0. }
  split; [by apply (summary_told false)|]. split; [intros Hn; by apply (summary_told true)|].
  intros f. rewrite alone_app. by apply (summary_told false).
Qed.

(** ** Events *)

Lemma dict_lookup_set {A} k k' (v : A) d :
  dict_lookup k (dict_set k' v d) = if decide (k = k') then Some v else dict_lookup k d.
Proof.
  induction d as [|[k2 v2] d IH]; cbn [dict_set dict_lookup].
  - case_bool_decide; by destruct (decide _).
  - case_bool_decide; subst; cbn [dict_lookup]; [case_bool_decide; destruct (decide _); naive_solver|].
    rewrite IH. case_bool_decide; subst; destruct (decide _); naive_solver.
Qed.

(** What of an event the call alone decides; [ControlService] needs a code
    that is a number in decimal. *)
Definition code_ok (c : call) : bool :=
  match dict_lookup "ControlCode" (_load_args c) with
  | Some v => match py_int_text v with Ok _ => true | Raise _ => false end
  | None => false
  end.
Definition recorded (c : call) : option (string * string * Z) :=
  match filter (fun i => api c ∈ gi_apis i) gendat with
  | [] => None
  | i :: _ =>
      if bool_decide (api c = "ControlService") && negb (code_ok c) then None
      else Some (gi_event i, gi_object i, timestamp c)
  end.
Definition kind (e : event) : string * string * Z := (e_event e, e_object e, e_timestamp e).

(** The actions of the table never appear. *)
Definition action_ok (e : event) : Prop :=
  dict_lookup "action" (e_data e) ∈ [None; Some (Some "user"); Some (Some "notify")].

Definition enhanced_step (o : option (string * string * Z)) (s s' : Enhanced) : Prop :=
  eid s <= eid s' /\ procedures s' = procedures s /\
  exists l, events s' = events s ++ option_list l /\ kind <$> l = o /\
    forall e, l = Some e -> e_eid e = eid s' /\ eid s < eid s' /\ action_ok e.

Lemma gendat_plain : Forall (fun i => "LdrGetProcedureAddress" ∉ gi_apis i /\ "action" ∉ (gi_args i).*1) gendat.
Proof. apply (bool_decide_unpack _). by vm_compute. Qed.

Lemma no_action (f : string -> option string) l : "action" ∉ l.*1 ->
  dict_lookup "action" ((fun a : string * string => (a.1, f a.2)) <$> l) = None.
Proof.
  induction l as [|[k v] l IH]; [done|]. cbn. rewrite not_elem_of_cons. intros [Hk Hl].
  rewrite bool_decide_false by done. by apply IH.
Qed.

Lemma plain_ok e : dict_lookup "action" (e_data e) = None -> action_ok e.
Proof. intros H. unfold action_ok. rewrite H. set_solver. Qed.
Lemma with_data_ok k v e : k <> "action" -> dict_lookup "action" (e_data e) = None -> action_ok (with_data k v e).
Proof. intros Hk H. apply plain_ok. cbn. rewrite dict_lookup_set. by destruct (decide _). Qed.

(** The event of a table entry, enriched. *)
Definition enrich_ok (c : call) (e : event) (s : Enhanced) (p : res event * Enhanced) : Prop :=
  eid p.2 = eid s /\ procedures p.2 = procedures s /\ events p.2 = events s /\
  match p.1 with
  | Ok e' => kind e' = kind e /\ e_eid e' = e_eid e /\ action_ok e' /\ (api c = "ControlService" -> code_ok c = true)
  | Raise _ => api c = "ControlService" /\ code_ok c = false
  end.

Lemma enrich_step c e s :
  api c <> "LdrGetProcedureAddress" -> dict_lookup "action" (e_data e) = None -> enrich_ok c e s (enrich c e s).
Proof.
  intros Hapi Hact. unfold enrich. rewrite (bool_decide_false (api c = "LdrGetProcedureAddress")) by done. cbn [andb].
  case_bool_decide as E1.
  { destruct (c_status c); cbn [andb].
    - split_and!; [done..|]. split_and!; [done|done|by apply plain_ok|]. intros E. rewrite E in E1. set_solver.
    - rewrite !(bool_decide_false (api c = _)) by (intros E; rewrite E in E1; set_solver). cbn [andb].
      split_and!; [done..|]. split_and!; [done|done|by apply plain_ok|]. intros E. rewrite E in E1. set_solver. }
  cbn [andb]. case_bool_decide as E2; cbn [andb].
  { rewrite !(bool_decide_false (api c = _)) by congruence.
    destruct (c_status c); (split_and!; [done..|]); (split_and!; [done|done|by apply plain_ok|]); congruence. }
  case_bool_decide as E3.
  { split_and!; [done..|]. split_and!; [done|done|by apply with_data_ok|]. congruence. }
  case_bool_decide as E4.
  - unfold enrich_ok, code_ok, sbind, slift. destruct (dict_lookup "ControlCode" _) as [v|]; [|done].
    cbn [of_option]. unfold _get_service_action. destruct (py_int_text v) as [n|x]; [|done]. cbn [rbind].
    split_and!; [done..|]. split_and!; [done|done| |done]. unfold action_ok. cbn. rewrite dict_lookup_set.
    destruct (decide _); [|done]. destruct (_ <=? _); set_solver.
  - split_and!; [done..|]. split_and!; [done|done|by apply plain_ok|done].
Qed.

Lemma enhanced_tell (e : process * call) (s : Enhanced) : enhanced_step (recorded e.2) s (tell e.2 e.1 s).
Proof.
  destruct e as [p c]. cbn [fst snd]. unfold tell. cbn [event_apicall enhanced_behavior]. unfold _process_call, _generic_handle, recorded.
  pose proof gendat_plain as Hplain. rewrite Forall_forall in Hplain.
  destruct (filter (fun i => api c ∈ gi_apis i) gendat) as [|i l] eqn:Ef.
  { split; [done|]. split; [done|]. exists None. cbn. by rewrite app_nil_r. }
  assert (Hi : i ∈ filter (fun i => api c ∈ gi_apis i) gendat) by (rewrite Ef; left).
  apply list_elem_of_filter in Hi as [Hi Hg]. destruct (Hplain i Hg) as [H1 H2].
  unfold sbind at 1 2. unfold sbind at 1.
  match goal with |- context [enrich c ?e ?s] =>
    pose proof (enrich_step c e s ltac:(intros E; rewrite E in Hi; done) (no_action (fun n => dict_lookup n (_load_args c)) _ H2)) as He; destruct (enrich c e s) as [[e'|x] s'] end;
    destruct He as (He1 & He2 & He3 & He4); cbn [fst snd] in *.
  - destruct He4 as (Hk & He5 & Hok & Hcs). split; [cbn; rewrite He1; cbn; lia|]. split; [done|]. exists (Some e').
    split; [cbn; by rewrite He3|]. cbn [fmap option_fmap option_map]. split.
    { rewrite Hk. case_bool_decide as Ec; [by rewrite (Hcs Ec)|done]. }
    intros e [= <-]. cbn. rewrite He5, He1. cbn. split_and!; [done|lia|done].
  - destruct He4 as [Ec Hc]. split; [cbn; rewrite He1; cbn; lia|]. split; [done|]. exists None.
    split; [cbn; by rewrite He3, app_nil_r|]. split; [|done]. by rewrite bool_decide_true, Hc.
Qed.

Lemma enhanced_told evs : forall s,
  exists l, events (alone evs s) = events s ++ l /\ kind <$> l = omap (fun e => recorded e.2) evs /\
    eid s <= eid (alone evs s) /\ Forall (fun e => eid s < e_eid e <= eid (alone evs s) /\ action_ok e) l /\
    StronglySorted Z.lt (e_eid <$> l) /\ procedures (alone evs s) = procedures s.
Proof.
  induction evs as [|e evs IH]; intros s.
  { exists []. rewrite app_nil_r. split_and!; [done|done|done|constructor|constructor|done]. }
  unfold alone. cbn [fold_left]. fold (alone evs (tell e.2 e.1 s)).
  destruct (enhanced_tell e s) as (H1 & H2 & o & H3 & H4 & H5). destruct (IH (tell e.2 e.1 s)) as (l & G1 & G2 & G3 & G4 & G5 & G6).
  exists (option_list o ++ l). split_and!.
  - by rewrite G1, H3, app_assoc.
  - rewrite fmap_app, G2. cbn [omap list_omap]. rewrite <- H4. by destruct o.
  - lia.
  - apply Forall_app. split.
    + destruct o as [ev|]; [|constructor]. constructor; [|constructor]. destruct (H5 ev eq_refl) as (? & ? & ?). split; [lia|done].
    + eapply Forall_impl; [exact G4|]. intros ev [? ?]. split; [lia|done].
  - destruct o as [ev|]; [|done]. cbn. constructor; [done|]. destruct (H5 ev eq_refl) as (-> & _).
    apply Forall_fmap. eapply Forall_impl; [exact G4|]. cbn. intros ev' [? _]. lia.
  - congruence.
Qed.

(** The events are those of the calls of the table, in the order of the calls,
    without the calls of [ControlService] whose control code is missing or no
    decimal number; they are numbered in increasing order, with a gap for each
    of these; no event names the action stop, pause, continue or info; and the
    table of procedures stays empty. *)
Theorem enhanced_events_spec (evs : list (process * call)) :
  let s := alone evs Enhanced_init in
  kind <$> Enhanced_run s = omap (fun e => recorded e.2) evs /\
  StronglySorted Z.lt (e_eid <$> Enhanced_run s) /\
  Forall action_ok (Enhanced_run s) /\ procedures s = ∅.
Proof.
  destruct (enhanced_told evs Enhanced_init) as (l & H1 & H2 & _ & H3 & H4 & H5). cbn zeta. unfold Enhanced_run.
  rewrite H1. cbn [events Enhanced_init app]. split_and!; [done|done| |done]. eapply Forall_impl; [exact H3|]. by intros e [_ ?].
Qed.

(** ** Encrypted buffers *)

Definition buffers_of (e : process * call) : list enc_buffer := tell e.2 e.1 ([] : EncryptedBuffers).

Lemma add_buffer_app name extra c p s : add_buffer name extra c p s = s ++ add_buffer name extra c p [].
Proof.
  unfold add_buffer. destruct (get_stripped c "Buffer") as [b|]; [|by rewrite app_nil_r].
  case_bool_decide; [by rewrite app_nil_r|done].
Qed.

Lemma buffers_tell e (s : EncryptedBuffers) : tell e.2 e.1 s = s ++ buffers_of e.
Proof.
  destruct e as [p c]. unfold buffers_of, tell. cbn [event_apicall buffers_behavior fst snd smodify].
  destruct (starts_with "SslEncryptPacket" _), (starts_with "CryptEncrypt" _), (starts_with "CryptEncryptMessage" _);
    repeat match goal with
    | |- context [add_buffer ?n ?x c p (?l)] =>
        lazymatch l with [] => fail | _ => rewrite (add_buffer_app n x c p l) end
    end; by rewrite ?app_nil_r, <- ?app_assoc.
Qed.

(** Buffers are never compared: the list is the concatenation of what the calls
    give, and a call of [CryptEncryptMessage] gives its buffer twice. *)
Lemma buffers_never_compared evs :
  alone evs ([] : EncryptedBuffers) = concat (map buffers_of evs) /\
  forall e, api e.2 = "CryptEncryptMessage" -> truthy (get_stripped e.2 "Buffer") = true -> length (buffers_of e) = 2%nat.
Proof.
  split.
  - assert (H : forall s : EncryptedBuffers, alone evs s = s ++ concat (map buffers_of evs)); [|by apply (H [])].
    induction evs as [|e evs IH]; intros s; [by rewrite app_nil_r|]. unfold alone. cbn [fold_left map concat].
    rewrite buffers_tell. unfold alone in IH. by rewrite IH, app_assoc.
  - intros [p c] Ha Hb. cbn in *. unfold buffers_of, tell. cbn. rewrite Ha. unfold add_buffer.
    destruct (get_stripped c "Buffer") as [b|]; [|done]. cbn in Hb. apply bool_decide_eq_true in Hb. by rewrite bool_decide_false.
Qed.

(** ** The tree *)

Definition root (t : tree) : process := match t with Node e _ => e end.
Fixpoint flatten (t : tree) : list process := match t with Node e cs => e :: concat (map flatten cs) end.
Definition members (l : list tree) : list process := concat (map flatten l).
(** Parents with their children. *)
Fixpoint tree_edges (t : tree) : list (process * process) :=
  match t with Node e cs => map (fun c => (e, root c)) cs ++ concat (map tree_edges cs) end.
Definition edges (l : list tree) : list (process * process) := concat (map tree_edges l).

Fixpoint tree_induction (P : tree -> Prop) (H : forall e cs, Forall P cs -> P (Node e cs)) (t : tree) : P t :=
  match t with
  | Node e cs =>
      H e cs ((fix go l : Forall P l :=
                 match l with [] => Forall_nil_2 _ | t :: l' => Forall_cons_2 _ _ _ (tree_induction P H t) (go l') end) cs)
  end.

Lemma add_below_eq node e cs :
  add_below node (Node e cs) =
  if bool_decide (pr_id e = pr_parent node) then Some (Node e (cs ++ [Node node []])) else Node e <$> add_node node cs.
Proof.
  cbn [add_below]. case_bool_decide; [done|]. f_equal. induction cs as [|t cs IH]; [done|]. cbn [add_node]. rewrite <- IH. done.
Qed.

(** What adding a process does to the trees. *)
Definition added (node : process) (l : list tree) (o : option (list tree)) : Prop :=
  match o with
  | Some l' =>
      map root l' = map root l /\ members l' ≡ₚ node :: members l /\
      exists q, pr_id q = pr_parent node /\ edges l' ≡ₚ (q, node) :: edges l
  | None => Forall (fun q => pr_id q <> pr_parent node) (members l)
  end.

Lemma added_cons node t l :
  added node [t] (option_map (fun t' => [t']) (add_below node t)) -> added node l (add_node node l) ->
  added node (t :: l) (add_node node (t :: l)).
Proof.
  intros Ht Hl. cbn [add_node]. destruct (add_below node t) as [t'|]; cbn [option_map] in Ht.
  - destruct Ht as (H1 & H2 & q & Hq & H3). cbn [added]. unfold members, edges in *. cbn [map concat] in *. rewrite !app_nil_r in *.
    split_and!; [injection H1 as H1; cbn; by rewrite H1|by rewrite H2|]. exists q. split; [done|]. by rewrite H3.
  - cbn [added] in Ht. unfold members in Ht. cbn [map concat] in Ht. rewrite app_nil_r in Ht.
    destruct (add_node node l) as [l'|]; cbn [fmap option_fmap option_map added] in *.
    + destruct Hl as (H1 & H2 & q & Hq & H3). unfold members, edges in *. cbn [map concat].
      split_and!; [by rewrite H1| |].
      * rewrite H2. by rewrite Permutation_middle.
      * exists q. split; [done|]. rewrite H3. by rewrite Permutation_middle.
    + unfold members in *. cbn [map concat]. by apply Forall_app.
Qed.

Lemma add_node_spec node l : added node l (add_node node l).
Proof.
  assert (Ht : forall t, added node [t] (option_map (fun t' => [t']) (add_below node t))).
  { apply tree_induction. intros e cs Hcs.
    assert (H : added node cs (add_node node cs)).
    { induction Hcs as [|t cs Ht Hcs IH]; [constructor|by apply added_cons]. }
    rewrite add_below_eq. case_bool_decide as E.
    - cbn [option_map added]. unfold members, edges. cbn [map concat flatten tree_edges root]. rewrite !app_nil_r, !map_app, !concat_app. cbn.
      split_and!; [done| |].
      + rewrite Permutation_app_comm. cbn. constructor.
      + exists e. split; [done|]. rewrite app_nil_r, <- app_assoc. cbn. by rewrite Permutation_middle.
    - destruct (add_node node cs) as [cs'|]; cbn [fmap option_fmap option_map added] in *.
      + destruct H as (H1 & H2 & q & Hq & H3). unfold members, edges in *. cbn [map concat flatten tree_edges root]. rewrite !app_nil_r.
        split_and!; [done| |].
        * rewrite H2. apply perm_swap.
        * exists q. split; [done|].
          replace (map (fun c => (e, root c)) cs') with (map (fun c => (e, root c)) cs).
          2:{ rewrite <- (map_map root (pair e) cs), <- (map_map root (pair e) cs'). by rewrite H1. }
          rewrite H3. by rewrite Permutation_middle.
      + unfold members in *. cbn [map concat flatten]. rewrite app_nil_r. by constructor. }
  induction l as [|t l IH]; [constructor|by apply added_cons].
Qed.

Lemma place_spec t p :
  members (place_child t p) ≡ₚ p :: members t /\
  (Forall (fun e => pr_id e.1 = pr_parent e.2) (edges t) -> Forall (fun e => pr_id e.1 = pr_parent e.2) (edges (place_child t p))) /\
  (Exists (fun q => pr_id q = pr_parent p) (members t) -> map root (place_child t p) = map root t).
Proof.
  unfold place_child. pose proof (add_node_spec p t) as H. destruct (add_node p t) as [t'|].
  - destruct H as (H1 & H2 & q & Hq & H3). split_and!; [done| |done]. intros Ht. rewrite H3. by constructor.
  - unfold members, edges in *. rewrite !map_app, !concat_app. cbn. rewrite !app_nil_r. split_and!; [|done|].
    + rewrite Permutation_app_comm. done.
    + intros HE. apply Exists_exists in HE as (q & Hin & Hq). cbn in H. rewrite Forall_forall in H. by destruct (H q).
Qed.

Lemma place_all cs : forall t,
  members (fold_left place_child cs t) ≡ₚ cs ++ members t /\
  (Forall (fun e => pr_id e.1 = pr_parent e.2) (edges t) -> Forall (fun e => pr_id e.1 = pr_parent e.2) (edges (fold_left place_child cs t))).
Proof.
  induction cs as [|p cs IH]; intros t; cbn [fold_left]; [done|]. destruct (place_spec t p) as (H1 & H2 & _), (IH (place_child t p)) as [H3 H4].
  split; [rewrite H3, H1; cbn; by rewrite Permutation_middle|]. intros Ht. by apply H4, H2.
Qed.

(** When each parent is in the tree before its child, no child becomes a root. *)
Lemma place_roots cs : forall t,
  (forall c1 p c2, cs = c1 ++ p :: c2 -> Exists (fun q => pr_id q = pr_parent p) (c1 ++ members t)) ->
  map root (fold_left place_child cs t) = map root t.
Proof.
  induction cs as [|p cs IH]; intros t H; cbn [fold_left]; [done|]. destruct (place_spec t p) as (H1 & _ & H3).
  rewrite IH; [apply H3, (H [] p cs eq_refl)|]. intros c1 p' c2 ->. rewrite H1, <- Permutation_middle.
  apply (H (p :: c1) p' c2). done.
Qed.

Lemma members_leaves ps : members ((fun p => Node p []) <$> ps) = ps /\ edges ((fun p => Node p []) <$> ps) = [] /\
  map root ((fun p => Node p []) <$> ps) = ps.
Proof. unfold members, edges. induction ps as [|p ps (H1 & H2 & H3)]; [done|]. cbn in *. by rewrite H1, H2, H3. Qed.

Lemma filter_partition (f : process -> bool) ps :
  filter (fun p => f p = true) ps ++ filter (fun p => f p = false) ps ≡ₚ ps.
Proof.
  induction ps as [|p ps IH]; [done|]. rewrite !filter_cons. destruct (f p).
  - rewrite decide_True, decide_False by done. rewrite <- app_comm_cons. by constructor.
  - rewrite decide_False, decide_True by done. rewrite <- Permutation_middle. by constructor.
Qed.

Lemma filter_split (f : process -> bool) ps : forall c1 p c2, filter (fun p => f p = true) ps = c1 ++ p :: c2 ->
  exists l1 l2, ps = l1 ++ p :: l2 /\ filter (fun p => f p = true) l1 = c1 /\ f p = true.
Proof.
  induction ps as [|x ps IH]; intros c1 p c2; [by destruct c1|]. rewrite filter_cons. destruct (decide _) as [Hx|Hx].
  - destruct c1 as [|c c1]; intros [= -> E].
    + exists [], ps. done.
    + destruct (IH _ _ _ E) as (l1 & l2 & -> & <- & Hp). exists (c :: l1), l2. split_and!; [done| |done].
      rewrite filter_cons. by destruct (decide _).
  - intros E. destruct (IH _ _ _ E) as (l1 & l2 & -> & <- & Hp). exists (x :: l1), l2. split_and!; [done| |done].
    rewrite filter_cons. by destruct (decide _).
Qed.

(** What the recorded list of processes is, after any calls. *)
Definition recorded_processes (evs : list (process * call)) (ps : ProcessTree) : Prop :=
  NoDup (pr_id <$> ps) /\ (forall p, p ∈ ps -> p ∈ evs.*1) /\ (forall e, e ∈ evs -> exists p, p ∈ ps /\ pr_id p = pr_id e.1).

Lemma tree_tell e (s : ProcessTree) :
  tell e.2 e.1 s = if bool_decide (Exists (fun q => pr_id q = pr_id e.1) s) then s else s ++ [e.1].
Proof. done. Qed.

Lemma processes_recorded evs : recorded_processes evs (alone evs ([] : ProcessTree)).
Proof.
  induction evs as [|e evs IH] using rev_ind; [split_and!; [constructor|done|]; intros e H; by apply elem_of_nil in H|].
  rewrite alone_app. unfold alone at 1. cbn [fold_left]. rewrite tree_tell. destruct IH as (H1 & H2 & H3). unfold ProcessTree in *.
  case_bool_decide as E; split_and!.
  - done.
  - intros p Hp. rewrite fmap_app, elem_of_app. left. by apply H2.
  - intros e' [He|He%list_elem_of_singleton]%elem_of_app; [by apply H3|]. subst e'. apply Exists_exists in E as (q & Hq & Hid). by exists q.
  - rewrite fmap_app. apply NoDup_app. split_and!; [done| |apply NoDup_singleton].
    intros i (q & -> & Hq)%list_elem_of_fmap Hi. apply list_elem_of_singleton in Hi. apply E, Exists_exists. by exists q.
  - intros p [Hp|Hp]%elem_of_app; rewrite fmap_app, elem_of_app; [left; by apply H2|by right].
  - intros e' [He|He%list_elem_of_singleton]%elem_of_app.
    + destruct (H3 e' He) as (q & Hq & Hid). exists q. split; [|done]. apply elem_of_app. by left.
    + subst e'. exists e.1. split; [|done]. apply elem_of_app. right. by left.
Qed.

(** Every process comes after its parent, when that has a parent itself. *)
Definition parents_first (ps : list process) : Prop :=
  forall l1 p l2 q, ps = l1 ++ p :: l2 -> q ∈ ps -> pr_id q <> pr_id p -> pr_id q = pr_parent p -> has_parent ps q = true -> q ∈ l1.

Lemma roots_are_orphans ps : parents_first ps ->
  map root (ProcessTree_run ps) = filter (fun p => has_parent ps p = false) ps.
Proof.
  intros Hfirst. unfold ProcessTree_run. pose proof (members_leaves (filter (fun p => has_parent ps p = false) ps)) as (H1 & _ & H3).
  rewrite place_roots; [done|]. intros c1 p c2 Hc. rewrite H1.
  destruct (filter_split _ _ _ _ _ Hc) as (l1 & l2 & Hps & <- & Hp).
  unfold has_parent in Hp. apply bool_decide_eq_true, Exists_exists in Hp as (q & Hq & Hne & Hid).
  apply Exists_exists. exists q. split; [|done]. apply elem_of_app. destruct (has_parent ps q) eqn:Eq.
  - left. apply list_elem_of_filter. split; [done|]. by eapply Hfirst.
  - right. by apply list_elem_of_filter.
Qed.

Lemma tree_members (ps : list process) :
  members (ProcessTree_run ps) ≡ₚ ps /\
  Forall (fun e => pr_id e.1 = pr_parent e.2) (edges (ProcessTree_run ps)).
Proof.
  pose proof (members_leaves (filter (fun p => has_parent ps p = false) ps)) as (H1 & H2 & _). unfold ProcessTree_run.
  destruct (place_all (filter (fun p => has_parent ps p = true) ps) ((fun p => Node p []) <$> filter (fun p => has_parent ps p = false) ps)) as [H3 H4].
  split; [rewrite H3, H1; apply filter_partition|]. apply H4. rewrite H2. constructor.
Qed.

(** C19. The process tree has every process that made a call exactly once, the
    first of each process id; each child hangs below a process that has the id
    of its parent; and when the parents are listed before their children, the
    roots are exactly the processes whose parent is not in the list. *)
Theorem process_tree_complete (evs : list (process * call)) :
  let ps := alone evs ([] : ProcessTree) in
  recorded_processes evs ps /\ members (ProcessTree_run ps) ≡ₚ ps /\
  Forall (fun e => pr_id e.1 = pr_parent e.2) (edges (ProcessTree_run ps)) /\
  (parents_first ps -> map root (ProcessTree_run ps) = filter (fun p => has_parent ps p = false) ps).
Proof.
  intros ps. destruct (tree_members ps). split_and!; [apply processes_recorded|done|done|apply roots_are_orphans].
Qed.

(** ** Instances *)

Definition example_process (pid ppid : Z) : process :=
  {| pr_id := BInt pid; pr_name := BText "a.exe"; pr_parent := BInt ppid; pr_path := BText "c:\a.exe"; pr_first_seen := 0;
     pr_log := new_log 0 [] |}.
Definition example_call (name category : string) (args : list (string * string)) : call :=
  {| timestamp := 0; thread_id := "7"; caller := "0x00000000"; parentcaller := "0x00000000"; ProcessLog.category := category;
     api := name; c_status := true; c_return := "0x00000000"; pretty_return := None;
     arguments := (fun a => {| a_name := a.1; a_value := a.2; raw_value := Some (BText a.2); pretty_value := None |}) <$> args;
     repeated := 0; c_id := Some 0 |}.

(** A command without parameters is recorded with the text of [None]. *)
Example shell_execute_none :
  alone [(example_process 1 0, example_call "ShellExecuteExW" "process" [("FilePath", "c:\b.exe")])] Summary_init executed_commands
  = ["c:\b.exe None"].
Proof. by vm_compute. Qed.

(** A file that is marked for deletion is not among the files. *)
Example marked_for_deletion :
  let s := alone [(example_process 1 0, example_call "NtSetInformationFile" "filesystem"
    [("HandleName", "c:\b.exe"); ("FileInformationClass", "13"); ("FileInformation", "y")])] Summary_init in
  s delete_files = ["c:\b.exe"] /\ s files = [].
Proof. by vm_compute. Qed.

Lemma summary_invariant_witness :
  let s := alone [(example_process 1 0, example_call "DeleteFileW" "filesystem" [("FileName", "c:\b.exe")])] Summary_init in
  "c:\b.exe" ∈ s delete_files /\ "c:\b.exe" ∈ s files.
Proof.
  pose proof (summary_invariant [(example_process 1 0, example_call "DeleteFileW" "filesystem" [("FileName", "c:\b.exe")])] [])
    as (_ & [_ H] & _); [repeat constructor; discriminate|].
  split; [by apply (bool_decide_unpack _); vm_compute|].
  apply (H delete_files files); [reflexivity|]. by apply (bool_decide_unpack _); vm_compute.
Defined.

(** Stopping a service is recorded as an unnamed notification. *)
Example stop_service_unnamed :
  e_data <$> events (alone [(example_process 1 0, example_call "ControlService" "services" [("ServiceName", "s"); ("ControlCode", "1")])] Enhanced_init)
  = [[("service", Some "s"); ("controlcode", Some "1"); ("action", Some "notify")]].
Proof. by vm_compute. Qed.

Definition example_stream : list (process * call) :=
  [(example_process 2 1, example_call "NtClose" "system" []); (example_process 1 0, example_call "NtClose" "system" []);
   (example_process 3 2, example_call "NtClose" "system" [])].

Lemma process_tree_complete_witness :
  let ps := alone example_stream ([] : ProcessTree) in
  parents_first ps /\ map root (ProcessTree_run ps) = [example_process 1 0].
Proof.
  assert (H : parents_first (alone example_stream ([] : ProcessTree))).
  { intros l1 p l2 q Hps Hq _ Hid Hp. change (alone _ _) with (example_stream.*1) in *.
    assert (q = example_process 2 1 \/ q = example_process 1 0 \/ q = example_process 3 2) as [-> |[-> | ->]] by set_solver.
    - destruct l1 as [|x1 [|x2 [|x3 [|x4 l1]]]]; cbn in Hps; simplify_eq/=; set_solver.
    - by vm_compute in Hp.
    - destruct l1 as [|x1 [|x2 [|x3 [|x4 l1]]]]; cbn in Hps; simplify_eq/=. }
  split; [exact H|]. pose proof (process_tree_complete example_stream) as (_ & _ & _ & Hr). rewrite (Hr H). by vm_compute.
Defined.
