(* ===== verification/Signature.v ===== *)
(** The base class of the signatures: class Signature of
    lib/cuckoo/common/abstracts.py, its checks on the results of the processing. *)
From S2P Require Import Prelude Struct Pretty ProcessLog Behavior.
Open Scope string_scope.
Open Scope list_scope.
Open Scope Z_scope.

(** The module [re2], or [re]: compiling a pattern may raise, and gives the test
    of [exp.match] and of [re.findall] (is there a match), both with
    [re.IGNORECASE]. *)
Class regex := {
  re_match : string -> res (string -> bool);
  re_findall : string -> res (string -> bool) }.

(** ** The results a signature looks at *)

Record network_results := {
  n_hosts : option (list string);       (** the field [ip] of each *)
  n_domains : option (list string);     (** [domain] *)
  n_http : option (list string) }.      (** [uri] *)
Record behavior_results := {
  br_processes : list (process * list call);
  br_summary : list (string * list string) }.
Record alert := { al_sid : Z; al_signature : string }.
Record results := {
  r_behavior : option behavior_results; r_network : option network_results; r_suricata : option (list alert) }.

Section checks.
Context `{regex}.

(** What a check returns. [False] and [None] are both [Nothing]. *)
Inductive found := Nothing | Item (s : string) | Items (s : gset string).
Definition found_true (f : found) : bool :=
  match f with Nothing => false | Item s => bool_decide (s <> "") | Items s => bool_decide (s <> ∅) end.
Definition of_first (o : option string) : found := match o with Some s => Item s | None => Nothing end.
(** [if all and len(retset) > 0: return retset]. *)
Definition of_set (s : gset string) : found := if bool_decide (s = ∅) then Nothing else Items s.

Fixpoint find_first (p : string -> bool) (l : list string) : option string :=
  match l with
  | [] => None
  | x :: l' => if p x then Some x else find_first p l'
  end.

(** The subject is a text or a list of texts. *)
Definition _check_value (pattern : string) (subject : list string) (regex all ignorecase : bool) : res found :=
  if regex then
    let! exp := re_match pattern in
    Ok (if all then of_set (list_to_set (filter (fun x => exp x = true) subject)) else of_first (find_first exp subject))
  else if ignorecase then Ok (of_first (find_first (fun x => bool_decide (lower x = lower pattern)) subject))
  else Ok (of_first (find_first (fun x => bool_decide (x = pattern)) subject)).

(** [retset.update(ret)]: a text is the set of its characters. *)
Definition characters (s : string) : gset string := list_to_set ((fun c => String c EmptyString) <$> B s).
Definition update (retset : gset string) (f : found) : gset string :=
  match f with Nothing => retset | Item s => retset ∪ characters s | Items s => retset ∪ s end.

(** The loops of the checks: the first match ends them, unless all are wanted.
    [item x] is what is returned for [x]. *)
Fixpoint check_each {X} (all : bool) (check : X -> res found) (item : X -> found -> found) (retset : gset string) (l : list X) :
    res found :=
  match l with
  | [] => Ok (if all then of_set retset else Nothing)
  | x :: l' =>
      let! ret := check x in
      if found_true ret then
        if all then check_each all check item (update retset ret) l' else Ok (item x ret)
      else check_each all check item retset l'
  end.

(** ** The checks *)

Section on_results.
Context (r : results).

Definition the_behavior : res behavior_results := of_option KeyError (r_behavior r).
Definition summary_field (name : string) : res (list string) :=
  let! b := the_behavior in of_option KeyError (dict_lookup name (br_summary b)).
Definition check_summary (name pattern : string) (regex all ignorecase : bool) : res found :=
  let! subject := summary_field name in _check_value pattern subject regex all ignorecase.

Definition check_file (pattern : string) (regex all : bool) := check_summary "files" pattern regex all true.
Definition check_read_file (pattern : string) (regex all : bool) := check_summary "read_files" pattern regex all true.
Definition check_write_file (pattern : string) (regex all : bool) := check_summary "write_files" pattern regex all true.
Definition check_delete_file (pattern : string) (regex all : bool) := check_summary "delete_files" pattern regex all true.
Definition check_key (pattern : string) (regex all : bool) := check_summary "keys" pattern regex all true.
Definition check_read_key (pattern : string) (regex all : bool) := check_summary "read_keys" pattern regex all true.
Definition check_write_key (pattern : string) (regex all : bool) := check_summary "write_keys" pattern regex all true.
Definition check_delete_key (pattern : string) (regex all : bool) := check_summary "delete_keys" pattern regex all true.
Definition check_mutex (pattern : string) (regex all : bool) := check_summary "mutexes" pattern regex all false.
Definition check_started_service (pattern : string) (regex all : bool) := check_summary "started_services" pattern regex all true.
Definition check_created_service (pattern : string) (regex all : bool) := check_summary "created_services" pattern regex all true.
Definition check_executed_command (pattern : string) (regex all ignorecase : bool) :=
  check_summary "executed_commands" pattern regex all ignorecase.

(** The result for [all] is the process: [Some None] is [True], [None] is [False]. *)
Fixpoint process_named (exp : string -> bool) (all : bool) (l : list (process * list call)) : option (option process) :=
  match l with
  | [] => None
  | (p, _) :: l' =>
      if exp (py_str (pr_name p)) then Some (if all then Some p else None) else process_named exp all l'
  end.
Definition check_process_name (pattern : string) (all : bool) : res (option (option process)) :=
  match r_behavior r with
  | None => Ok None
  | Some b =>
      match br_processes b with
      | [] => Ok None
      | l => let! exp := re_findall pattern in Ok (process_named exp all l)
      end
  end.

(** The calls of the processes of a name, of all when it is empty. *)
Definition selected_calls (process : string) (l : list (ProcessLog.process * list call)) : list call :=
  concat (map snd (filter (fun pc => process = "" \/ pr_name pc.1 = BText process) l)).

Definition check_api (pattern process : string) (regex all : bool) : res found :=
  let! b := the_behavior in
  check_each all (fun c => _check_value pattern [api c] regex all false) (fun c _ => Item (api c)) ∅
    (selected_calls process (br_processes b)).

(** An empty filter is none. *)
Definition passes (filter value : string) : bool := bool_decide (filter = "" \/ value = filter).
Definition check_argument_call (c : call) (pattern name api category : string) (regex all ignorecase : bool) : res found :=
  if negb (passes api (ProcessLog.api c)) then Ok Nothing
  else if negb (passes category (ProcessLog.category c)) then Ok Nothing
  else
    check_each all (fun v => _check_value pattern [v] regex all ignorecase) (fun v _ => Item v) ∅
      (a_value <$> filter (fun a => passes name (a_name a) = true) (arguments c)).
Definition check_argument (pattern name api category process : string) (regex all ignorecase : bool) : res found :=
  let! b := the_behavior in
  check_each all (fun c => check_argument_call c pattern name api category regex all ignorecase) (fun _ f => f) ∅
    (selected_calls process (br_processes b)).

Definition check_network (get : network_results -> option (list string)) (pattern : string) (regex all ignorecase : bool) :
    res found :=
  match r_network r with
  | None => Ok Nothing
  | Some n =>
      check_each all (fun s => _check_value pattern [s] regex all ignorecase) (fun s _ => Item s) ∅ (default [] (get n))
  end.
Definition check_ip (pattern : string) (regex all : bool) := check_network n_hosts pattern regex all false.
Definition check_domain (pattern : string) (regex all : bool) := check_network n_domains pattern regex all true.
Definition check_url (pattern : string) (regex all : bool) := check_network n_http pattern regex all false.

Definition get_initial_process : option (process * list call) :=
  match r_behavior r with Some b => head (br_processes b) | None => None end.
Definition get_name_from_pid (pid : bval) : option bval :=
  if bval_true pid then
    let pid := match pid with
               | BText s => if bool_decide (B s <> []) && forallb (fun c => bool_decide (digit_val c <> None)) (B s) then
                              match py_int (B s) with Some n => BInt n | None => pid end
                            else pid
               | _ => pid
               end in
    match r_behavior r with
    | Some b => pr_name <$> head (filter (fun p => pr_id p = pid) (br_processes b).*1)
    | None => None
    end
  else None.

Definition get_environ_entry (proc : option ProcessLog.process) (env_name : string) : option bval :=
  proc ≫= fun p => dict_lookup env_name (environdict (pr_log p)).

Fixpoint alerted (exp : string -> bool) (banned : list Z) (l : list alert) : bool :=
  match l with
  | [] => false
  | a :: l' => negb (bool_decide (al_sid a ∈ banned)) && exp (al_signature a) || alerted exp banned l'
  end.
(** The pattern is compiled for the first alert that is not banned. *)
Definition check_suricata_alerts (pattern : string) (banned_suricata_sids blacklist : list Z) : res bool :=
  let banned := banned_suricata_sids ++ blacklist in
  match r_suricata r with
  | None => Ok false
  | Some l =>
      if forallb (fun a => bool_decide (al_sid a ∈ banned)) l then Ok false
      else let! exp := re_findall pattern in Ok (alerted exp banned l)
  end.
End on_results.

(** ** The arguments of the current call *)

(** A call is an object; the cache is looked up by its identity. *)
Definition heap : Type := gmap Z call.
Record arg_cache := { current_call : option Z; current_dict : list (string * string) }.
Definition no_cache : arg_cache := {| current_call := None; current_dict := [] |}.
Definition call_dict (c : call) : list (string * string) :=
  dict_update [] ((fun a => (a_name a, a_value a)) <$> arguments c).
Definition sig_get_argument (h : heap) (ref : Z) (name : string) : st arg_cache (option string) := fun s =>
  match h !! ref with
  | None => (Raise TypeError, s)
  | Some c =>
      let s := if bool_decide (current_call s = Some ref) then s
               else {| current_call := Some ref; current_dict := call_dict c |} in
      (Ok (dict_lookup name (current_dict s)), s)
  end.

(** ** Matches *)

Record match_data := { md_process : option (bval * bval); md_type : string; md_values : list string }.
Record sig_data := { s_data : list match_data; s_new_data : list match_data }.
(** [match] as a list. *)
Definition add_match (p : option process) (type : string) (values : list string) (s : sig_data) : sig_data :=
  {| s_data := s_data s;
     s_new_data := s_new_data s ++ [{| md_process := (fun p => (pr_name p, pr_id p)) <$> p; md_type := type; md_values := values |}] |}.
Definition has_matches (s : sig_data) : bool :=
  bool_decide (s_new_data s <> []) || bool_decide (s_data s <> []).
End checks.

(** ** What the checks find *)

Section found.
Context `{regex}.

(** The test a check makes of a text. *)
Definition tests (pattern : string) (regex ignorecase : bool) : res (string -> bool) :=
  if regex then re_match pattern
  else Ok (fun x => if ignorecase then bool_decide (lower x = lower pattern) else bool_decide (x = pattern)).

(** The specification of a check over texts: the first match that is not
    empty, or the set of the matches, which are taken apart into characters
    without [regex]. *)
Fixpoint members (regex : bool) (l : list string) : gset string :=
  match l with
  | [] => ∅
  | x :: l' => (if regex then {[x]} else characters x) ∪ members regex l'
  end.
Definition pick (regex all : bool) (matching : list string) : found :=
  if all then of_set (members regex matching) else of_first (head (filter (fun s => s <> "") matching)).

Lemma find_first_filter p l : find_first p l = head (filter (fun x => p x = true) l).
Proof using Type. induction l as [|x l IH]; [done|]. cbn [find_first]. rewrite filter_cons. by destruct (p x). Qed.

Lemma check_value_one pattern x regex all ignorecase t : tests pattern regex ignorecase = Ok t ->
  _check_value pattern [x] regex all ignorecase =
  Ok (if t x then if regex && all then Items {[x]} else Item x else Nothing).
Proof using Type.
  unfold tests, _check_value. destruct regex.
  - intros ->. cbn [rbind]. rewrite filter_cons, filter_nil. cbn [find_first andb]. destruct (t x), all; cbn [of_first]; try done.
    unfold of_set. cbn. rewrite bool_decide_false by set_solver. f_equal. f_equal. set_solver.
  - intros [= <-]. destruct ignorecase; cbn [find_first andb]; by destruct (bool_decide _).
Qed.

(** The loop over texts. *)
Lemma check_each_texts pattern regex all ignorecase t l : tests pattern regex ignorecase = Ok t -> forall acc,
  check_each all (fun v => _check_value pattern [v] regex all ignorecase) (fun v _ => Item v) acc l =
  Ok (if all then of_set (acc ∪ members regex (filter (fun x => t x = true) l)) else pick regex all (filter (fun x => t x = true) l)).
Proof using Type.
  intros Ht. induction l as [|x l IH]; intros acc; cbn [check_each].
  - destruct all; [|done]. rewrite filter_nil. cbn [members]. by rewrite union_empty_r_L.
  - rewrite (check_value_one _ _ _ _ _ _ Ht). cbn [rbind]. rewrite filter_cons. destruct (t x) eqn:E.
    + rewrite decide_True by done. rewrite !IH. destruct regex, all; cbn [andb found_true update members].
      * rewrite bool_decide_true by set_solver. by rewrite union_assoc_L.
      * unfold pick. rewrite filter_cons. destruct (decide (x <> "")) as [Hx|Hx]; [by rewrite bool_decide_true|by rewrite bool_decide_false].
      * case_bool_decide as Hx; [by rewrite union_assoc_L|]. assert (x = "") as -> by (destruct (decide (x = "")); done).
        f_equal. f_equal. unfold characters. cbn. set_solver.
      * unfold pick. rewrite filter_cons. destruct (decide (x <> "")) as [Hx|Hx]; [by rewrite bool_decide_true|by rewrite bool_decide_false].
    + rewrite decide_False by congruence. cbn [found_true]. apply IH.
Qed.

(** What one call gives: its values that pass the filters and the test. *)
Definition matching_values (t : string -> bool) (name api category : string) (c : call) : list string :=
  if passes api (ProcessLog.api c) && passes category (ProcessLog.category c) then
    filter (fun x => t x = true) (a_value <$> filter (fun a => passes name (a_name a) = true) (arguments c))
  else [].

Lemma check_call_spec pattern name api category regex all ignorecase t c : tests pattern regex ignorecase = Ok t ->
  check_argument_call c pattern name api category regex all ignorecase = Ok (pick regex all (matching_values t name api category c)).
Proof using Type.
  intros Ht. unfold check_argument_call, matching_values.
  destruct (passes api _); cbn [negb andb]; [|by destruct all].
  destruct (passes category _); cbn [negb]; [|by destruct all].
  rewrite (check_each_texts _ _ _ _ _ _ Ht). destruct all; [|done]. unfold pick. by rewrite union_empty_l_L.
Qed.

Lemma members_app regex l1 l2 : members regex (l1 ++ l2) = members regex l1 ∪ members regex l2.
Proof using Type. induction l1 as [|x l1 IH]; cbn; [set_solver|]. rewrite IH. set_solver. Qed.

Lemma check_calls_spec pattern name api category regex all ignorecase t l : tests pattern regex ignorecase = Ok t -> forall acc,
  check_each all (fun c => check_argument_call c pattern name api category regex all ignorecase) (fun _ f => f) acc l =
  Ok (if all then of_set (acc ∪ members regex (concat (map (matching_values t name api category) l)))
      else pick regex all (concat (map (matching_values t name api category) l))).
Proof using Type.
  intros Ht. induction l as [|c l IH]; intros acc; cbn [check_each map concat].
  - destruct all; [|done]. cbn [members]. by rewrite union_empty_r_L.
  - rewrite (check_call_spec _ _ _ _ _ _ _ _ _ Ht). cbn [rbind]. rewrite !IH. set (m := matching_values t name api category c).
    destruct all.
    + rewrite members_app, union_assoc_L. unfold pick, of_set. case_bool_decide as E; cbn [found_true].
      * by rewrite E, union_empty_r_L.
      * by rewrite bool_decide_true.
    + unfold pick. rewrite filter_app. destruct (filter (fun s => s <> "") m) as [|y m'] eqn:E; cbn [head of_first found_true app]; [done|].
      assert (Hy : y ∈ filter (fun s => s <> "") m) by (rewrite E; left). apply list_elem_of_filter in Hy as [Hy _].
      by rewrite bool_decide_true.
Qed.

(** A check for an argument looks at exactly the values of the calls and
    arguments that pass its filters. One match: it returns the first value
    that matches and is not empty. All matches with a regular expression: it
    returns the set of the matching values. All matches without one: it
    returns the set of the characters of the matching values. *)
Theorem check_argument_finds (r : results) (b : behavior_results) (pattern name api category process : string)
    (regex all ignorecase : bool) (t : string -> bool) :
  r_behavior r = Some b -> tests pattern regex ignorecase = Ok t ->
  let values := concat (map (matching_values t name api category) (selected_calls process (br_processes b))) in
  check_argument r pattern name api category process regex all ignorecase =
  Ok (if all then of_set (members regex values) else of_first (head (filter (fun s => s <> "") values))) /\
  (regex = true -> forall v, v ∈ members regex values <-> v ∈ values) /\
  (regex = false -> forall v, v ∈ members regex values -> String.length v = 1%nat).
Proof using Type.
  intros Hb Ht values. split_and!.
  - unfold check_argument, the_behavior. rewrite Hb. cbn [of_option rbind]. rewrite (check_calls_spec _ _ _ _ _ _ _ _ _ Ht). fold values.
    destruct all; [by rewrite union_empty_l_L|done].
  - intros ->. induction values as [|x l IH]; intros v; cbn; [set_solver|]. rewrite elem_of_union, IH, elem_of_singleton, elem_of_cons. done.
  - intros ->. induction values as [|x l IH]; intros v; cbn; [set_solver|]. rewrite elem_of_union. intros [Hv|Hv]; [|by apply IH].
    unfold characters in Hv. apply elem_of_list_to_set, list_elem_of_fmap in Hv as (c & -> & _). done.
Qed.

(** ** The cache *)

(** The cache holds the arguments of the call it names. *)
Definition cache_ok (h : heap) (s : arg_cache) : Prop :=
  forall ref, current_call s = Some ref -> exists c, h !! ref = Some c /\ current_dict s = call_dict c.

Lemma cached_argument h ref c name s :
  cache_ok h s -> h !! ref = Some c ->
  (sig_get_argument h ref name s).1 = Ok (dict_lookup name (call_dict c)) /\ cache_ok h (sig_get_argument h ref name s).2.
Proof using Type.
  intros Hs Hc. unfold sig_get_argument. rewrite Hc. cbn [fst snd]. case_bool_decide as E; cbn.
  - destruct (Hs _ E) as (c' & Hc' & ->). by simplify_eq.
  - split; [done|]. intros ref' [= <-]. by exists c.
Qed.
End found.

(** ** Instances *)

(** Patterns that are plain prefixes. *)
#[local] Instance prefix_regex : regex := { re_match p := Ok (starts_with p); re_findall p := Ok (str_contains p) }.
Definition example_results : results :=
  {| r_behavior := Some {| br_processes := [(example_process 1 0, [example_call "system" "process" [("Command", "cmd"); ("Command", "calc")]])];
                           br_summary := [] |};
     r_network := None; r_suricata := None |}.

Lemma check_argument_finds_witness :
  check_argument example_results "c" "Command" "" "" "" true true false = Ok (of_set {["cmd"; "calc"]}) /\
  check_argument example_results "cmd" "Command" "" "" "" false true false = Ok (of_set {["c"; "m"; "d"]}) /\
  check_argument example_results "c" "Command" "system" "" "" true false false = Ok (Item "cmd").
Proof.
  split_and!.
  - rewrite (proj1 (@check_argument_finds prefix_regex example_results _ "c" "Command" "" "" "" true true false (starts_with "c") eq_refl eq_refl)).
    by vm_compute.
  - rewrite (proj1 (@check_argument_finds prefix_regex example_results _ "cmd" "Command" "" "" "" false true false
                      (fun x => bool_decide (x = "cmd")) eq_refl eq_refl)). by vm_compute.
  - rewrite (proj1 (@check_argument_finds prefix_regex example_results _ "c" "Command" "system" "" "" true false false (starts_with "c") eq_refl eq_refl)).
    by vm_compute.
Defined.
