(* ===== verification/RunSignatures.v ===== *)
(** class RunSignatures of lib/cuckoo/core/plugins.py, on the code of the
    signatures, which is an interface, and add_family_detection of
    lib/cuckoo/common/utils.py. *)
From S2P Require Import Prelude Struct Pretty ProcessLog Behavior.
From Stdlib Require Import Floats.SpecFloat.
Open Scope string_scope.
Open Scope list_scope.
Open Scope Z_scope.

(** ** Versions: distutils.version.StrictVersion *)

Record version := { v_numbers : Z * Z * Z; v_prerelease : option (ascii * Z) }.

Fixpoint span_digits (l : bytes) : bytes * bytes :=
  match l with
  | c :: l' => match digit_val c with Some _ => let '(a, b) := span_digits l' in (c :: a, b) | None => ([], l) end
  | [] => ([], [])
  end.
(** One or more digits. *)
Definition number (l : bytes) : option (Z * bytes) :=
  let '(a, b) := span_digits l in n ← int_digits 0 false a; Some (n, b).
(** The end of the pattern: [([ab](\d+))?$]; [$] also is before a last newline. *)
Definition version_end (numbers : Z * Z * Z) (l : bytes) : option version :=
  let stop (pre : option (ascii * Z)) (l : bytes) :=
    if bool_decide (l = [] \/ l = [NL]) then Some {| v_numbers := numbers; v_prerelease := pre |} else None in
  match l with
  | c :: l' =>
      if bool_decide (c = "a"%char \/ c = "b"%char) then n ← number l'; stop (Some (c, n.1)) n.2 else stop None l
  | [] => stop None l
  end.
Definition DOT : ascii := "."%char.
Definition StrictVersion (s : string) : option version :=
  a ← number (B s);
  match a.2 with
  | d :: l =>
      if bool_decide (d = DOT) then
        b ← number l;
        match b.2 with
        | d' :: l' =>
            if bool_decide (d' = DOT) then c ← number l'; version_end (a.1, b.1, c.1) c.2
            else version_end (a.1, b.1, 0) b.2
        | [] => version_end (a.1, b.1, 0) []
        end
      else None
  | [] => None
  end.
(** [a < b]: the numbers, then a prerelease before the release. *)
Definition version_lt (a b : version) : bool :=
  let '(a1, a2, a3) := v_numbers a in
  let '(b1, b2, b3) := v_numbers b in
  if bool_decide ((a1, a2, a3) <> (b1, b2, b3)) then
    (a1 <? b1) || ((a1 =? b1) && ((a2 <? b2) || ((a2 =? b2) && (a3 <? b3))))
  else
    match v_prerelease a, v_prerelease b with
    | Some (l, n), Some (l', n') => (nat_of_ascii l <? nat_of_ascii l')%nat || (bool_decide (l = l') && (n <? n'))
    | Some _, None => true
    | None, _ => false
    end.

Definition CUCKOO_VERSION : string := "2.2-CAPE".
Definition first_part (s : string) : string := default "" (head (split_on "-" s)).

(** ** Signatures *)

(** The attributes of a signature, class or instance, that are read here. *)
Record sig_attrs := {
  name : string; enabled : bool; evented : bool; minimum : option string; maximum : option string;
  order : Z; severity : Z; weight : Z; confidence : Z; families : list string; ttp : option (list string);
  filter_processnames : list string; filter_apinames : list string; filter_categories : list string;
  filter_analysistypes : list string }.

(** [as_result]: the items that are read again. *)
Record sig_match := { m_name : string; m_severity : Z; m_weight : Z; m_confidence : Z; m_families : list string }.
Definition as_result (a : sig_attrs) : sig_match :=
  {| m_name := name a; m_severity := severity a; m_weight := weight a; m_confidence := confidence a; m_families := families a |}.

(** What an overlay sets: an attribute and its value. *)
Inductive overlay_item :=
| OName (s : string) | OEnabled (b : bool) | OSeverity (n : Z) | OWeight (n : Z) | OConfidence (n : Z)
| OFamilies (l : list string) | OOther (attr : string).

Notation detections := (list (string * list (string * string))).

(** The code of the signatures and the object store it works on. [ref] is a
    class or an instance. [sig_run] also reads the matches so far. The calls of a process
    are parsed from its log while they are iterated: those that are handed out, and the
    exception that the iteration ends with, if it does. *)
Class signature_code (W : Type) := {
  attrs : W -> nat -> sig_attrs;
  setattr : nat -> overlay_item -> W -> W;
  construct : nat -> st W nat;
  on_call : nat -> call -> process -> st W (option bool);
  on_complete : nat -> st W bool;
  sig_run : nat -> list sig_match -> st W bool;
  target_category : W -> res string;             (** [results["target"]["category"]] *)
  behavior_processes : W -> option (list (process * (list call * option exn)));
  malfamily_tag : W -> string;
  get_detections : W -> detections;
  set_detections : detections -> W -> W }.

(** One detection of a family: [{detected_by: detected_on}]. *)
Fixpoint add_family_detection (results : detections) (family detected_by detected_on : string) : detections :=
  match results with
  | [] => [(family, [(detected_by, detected_on)])]
  | (f, details) :: rest =>
      if bool_decide (family = f) then
        (f, if bool_decide ((detected_by, detected_on) ∈ details) then details else details ++ [(detected_by, detected_on)]) :: rest
      else (f, details) :: add_family_detection rest family detected_by detected_on
  end.

Definition _check_signature_version (a : sig_attrs) : bool :=
  match StrictVersion (first_part CUCKOO_VERSION) with
  | None => false
  | Some v =>
      match minimum a with
      | Some m =>
          if bool_decide (m = "") then true
          else match StrictVersion (first_part m) with Some w => negb (version_lt v w) | None => false end
      | None => true
      end &&
      match maximum a with
      | Some m =>
          if bool_decide (m = "") then true
          else match StrictVersion (first_part m) with Some w => negb (version_lt w v) | None => false end
      | None => true
      end
  end.

Section run.
Context {W : Type} `{signature_code W}.

(** [complete] is the list of the classes, [matched] and [ttps] grow. *)
Record run_state := { complete : list nat; matched : list sig_match; ttps : list (string * string); world : W }.
Definition set_world (w : W) (s : run_state) : run_state :=
  {| complete := complete s; matched := matched s; ttps := ttps s; world := w |}.
Definition set_complete (l : list nat) (s : run_state) : run_state :=
  {| complete := l; matched := matched s; ttps := ttps s; world := world s |}.
Definition add_matched (m : sig_match) (s : run_state) : run_state :=
  {| complete := complete s; matched := matched s ++ [m]; ttps := ttps s; world := world s |}.
Definition add_ttps (l : list string) (sig : string) (s : run_state) : run_state :=
  {| complete := complete s; matched := matched s; ttps := ttps s ++ ((fun t => (t, sig)) <$> l); world := world s |}.
Definition the_attrs (s : run_state) (sig : nat) : sig_attrs := attrs (world s) sig.

(** Code of a signature, whatever it raises. *)
Definition in_world {A} (m : st W A) : st run_state A := fun s => let '(r, w) := m (world s) in (r, set_world w s).

(** [l.remove(x)]; [None] is ValueError. *)
Fixpoint list_remove (x : nat) (l : list nat) : option (list nat) :=
  match l with
  | [] => None
  | y :: l' => if bool_decide (x = y) then Some l' else cons y <$> list_remove x l'
  end.

(** ** The evented signatures *)

Definition in_types (a : sig_attrs) (w : W) : res bool :=
  match filter_analysistypes a with
  | [] => Ok true
  | types => let! c := target_category w in Ok (bool_decide (c ∈ types))
  end.

(** The list comprehension. *)
Fixpoint evented_instances (classes : list nat) : st W (list nat) :=
  match classes with
  | [] => sret []
  | sig :: rest => fun w =>
      let a := attrs w sig in
      (let* wanted := slift (if enabled a && evented a && _check_signature_version a then in_types a w else Ok false) in
       if wanted then let* i := construct sig in let* l := evented_instances rest in sret (i :: l)
       else evented_instances rest) w
  end.
(** [try: evented_list = [...] except Exception: print(e)]. *)
Definition make_evented : st run_state (list nat) := fun s =>
  match in_world (evented_instances (complete s)) s with
  | (Ok l, s1) => (Ok l, s1)
  | (Raise _, s1) => (Ok [], s1)
  end.

Definition _apply_overlay (overlay : list (string * list overlay_item)) (sig : nat) (w : W) : W :=
  match dict_lookup (name (attrs w sig)) overlay with
  | Some items => fold_left (fun w i => setattr sig i w) items w
  | None => w
  end.

Definition admits (filter : list string) (value : string) : bool := bool_decide (filter = [] \/ value ∈ filter).
(** [filter_processnames] are texts, the name of a process may be another value. *)
Definition wants (a : sig_attrs) (p : process) (c : call) : bool :=
  bool_decide (filter_processnames a = [] \/ pr_name p ∈ (BText <$> filter_processnames a)) &&
  admits (filter_apinames a) (api c) && admits (filter_categories a) (category c).

(** The call of [on_call] and [stats[sig.name] += timediff] in one [try]. *)
Definition call_result (stats : list string) (sig : nat) (c : call) (p : process) (s : run_state) : option bool * run_state :=
  match in_world (on_call sig c p) s with
  | (Ok r, s1) => if bool_decide (name (the_attrs s1 sig) ∈ stats) then (r, s1) else (Some false, s1)
  | (Raise _, s1) => (Some false, s1)
  end.

(** A match of [sig]: it is looked up in the list of the classes. *)
Definition record_match (sig : nat) (s : run_state) : run_state :=
  let s := add_matched (as_result (the_attrs s sig)) s in
  match list_remove sig (complete s) with Some l => set_complete l s | None => s end.

(** [for sig in evented_list], with the position of Python's iterator, which
    goes on by one also after [evented_list.remove(sig)]. *)
Fixpoint call_loop (fuel : nat) (stats : list string) (c : call) (p : process) (i : nat) (evented : list nat) :
    st run_state (list nat) := fun s =>
  match fuel with
  | O => (Raise OutOfFuel, s)
  | S fuel =>
      match evented !! i with
      | None => (Ok evented, s)
      | Some sig =>
          if wants (the_attrs s sig) p c then
            match call_result stats sig c p s with
            | (None, s1) => call_loop fuel stats c p (S i) evented s1
            | (Some b, s1) =>
                let s2 := if b then record_match sig s1 else s1 in
                match list_remove sig evented with
                | Some evented' => call_loop fuel stats c p (S i) evented' s2
                | None => (Raise ValueError, s2)
                end
            end
          else call_loop fuel stats c p (S i) evented s
      end
  end.

Fixpoint calls_loop (stats : list string) (p : process) (cs : list call) (evented : list nat) : st run_state (list nat) :=
  match cs with
  | [] => sret evented
  | c :: cs' => let* e := call_loop (S (length evented)) stats c p 0 evented in calls_loop stats p cs' e
  end.
Fixpoint processes_loop (stats : list string) (ps : list (process * (list call * option exn))) (evented : list nat) :
    st run_state (list nat) :=
  match ps with
  | [] => sret evented
  | (p, (cs, err)) :: ps' =>
      let* left_ := calls_loop stats p cs evented in
      match err with
      | Some e => sraise e
      | None => processes_loop stats ps' left_
      end
  end.

(** [on_complete] of the signatures that are left. *)
Definition complete_one (stats : list string) (sig : nat) (s : run_state) : run_state :=
  match in_world (on_complete sig) s with
  | (Ok r, s1) =>
      if bool_decide (name (the_attrs s1 sig) ∈ stats) && r then
        let a := the_attrs s1 sig in
        record_match sig (match ttp a with Some l => add_ttps l (name a) s1 | None => s1 end)
      else s1
  | (Raise _, s1) => s1
  end.

Definition run_evented (evented : list nat) : st run_state unit := fun s =>
  match evented, behavior_processes (world s) with
  | _ :: _, Some ps =>
      let stats := (fun sig => name (the_attrs s sig)) <$> evented in
      (let* remaining := processes_loop stats ps evented in
       smodify (fold_left (fun s sig => complete_one stats sig s) remaining)) s
  | _, _ => (Ok tt, s)
  end.

(** ** The other signatures *)

(** [process]. *)
Definition process_signature (sig : nat) (s : run_state) : option sig_match * run_state :=
  match in_world (construct sig) s with
  | (Raise _, s1) => (None, s1)
  | (Ok current, s1) =>
      let a := the_attrs s1 current in
      if negb (enabled a) || negb (_check_signature_version a) then (None, s1)
      else
        match in_world (sig_run current (matched s1)) s1 with
        | (Ok true, s2) => (Some (as_result (the_attrs s2 current)), s2)
        | (_, s2) => (None, s2)
        end
  end.

Fixpoint compat_loop (classes : list nat) : st run_state unit :=
  match classes with
  | [] => sret tt
  | sig :: rest => fun s =>
      (let* wanted := slift (in_types (the_attrs s sig) (world s)) in
       if wanted then fun s =>
         match process_signature sig s with
         | (Some m, s1) =>
             let s2 := match ttp (the_attrs s1 sig) with
                       | Some l => add_ttps l (name (the_attrs s1 sig)) s1
                       | None => s1
                       end in
             compat_loop rest (add_matched m s2)
         | (None, s1) => compat_loop rest s1
         end
       else compat_loop rest) s
  end.

(** ** The score *)

(** Python's floats: binary64. *)
Definition float_of (n : Z) : spec_float := binary_normalize 53 1024 n 0 false.
Definition fmul := SFmul 53 1024.
Definition fadd := SFadd 53 1024.
Definition fdiv := SFdiv 53 1024.
Definition half : spec_float := fdiv (float_of 1) (float_of 2).
Definition match_score (m : sig_match) : spec_float :=
  let c := fdiv (float_of (m_confidence m)) (float_of 100) in
  if m_severity m =? 1 then fmul (fmul (float_of (m_weight m)) half) c
  else fmul (float_of (m_weight m * (m_severity m - 1))) c.
Definition malscore_of (l : list sig_match) : spec_float :=
  let s := fold_left (fun s m => fadd s (match_score m)) l (float_of 0) in
  let s := if SFltb (float_of 10) s then float_of 10 else s in
  if SFltb s (float_of 0) then float_of 0 else s.

Definition by_order (w : W) (a b : nat) : bool := order (attrs w a) <=? order (attrs w b).
Definition by_severity (a b : sig_match) : bool := m_severity a <=? m_severity b.

Record run_results := { signatures : list sig_match; malscore : spec_float; res_ttps : list (string * string) }.

(** The family of the first match that has one. *)
Definition detected_family (l : list sig_match) : option string := head (concat ((fun m => take 1 (m_families m)) <$> l)).

Record detection_config := { det_enabled : bool; det_behavior : bool }.

(** [run] without [test_signature]; [overlay] is the content of the overlay file. *)
Definition run_signatures (overlay : list (string * list overlay_item)) (cfg : detection_config) : st run_state run_results :=
  let* evented := make_evented in
  do* smodify (fun s => set_world (fold_left (fun w sig => _apply_overlay overlay sig w) (complete s ++ evented) (world s)) s) in
  do* run_evented evented in
  do* smodify (fun s => set_complete (merge_sort (holds2 (by_order (world s))) (complete s)) s) in
  do* (fun s => compat_loop (complete s) s) in
  fun s =>
    let sorted := merge_sort (holds2 by_severity) (matched s) in
    let w := world s in
    let w' := if negb (bool_decide (malfamily_tag w = "Yara")) && det_enabled cfg && det_behavior cfg then
                match detected_family sorted with
                | Some f => set_detections (add_family_detection (get_detections w) f "Behavior" "") w
                | None => w
                end
              else w in
    (Ok {| signatures := sorted; malscore := malscore_of sorted; res_ttps := ttps s |},
     {| complete := complete s; matched := sorted; ttps := ttps s; world := w' |}).
End run.
Arguments run_state : clear implicits.

(** ** One call: the loop as a walk over the list *)

Section evented.
Context {W : Type} `{signature_code W}.
Implicit Types (s : run_state W) (l : list nat).

Definition settle (sig : nat) (b : bool) (s : run_state W) : run_state W := if b then record_match sig s else s.

(** The signatures that stay, and the new state. The signature behind one that
    is settled stays, but is not asked. *)
Fixpoint walk (stats : list string) (c : call) (p : process) (l : list nat) (s : run_state W) : list nat * run_state W :=
  match l with
  | [] => ([], s)
  | sig :: l' =>
      if wants (the_attrs s sig) p c then
        match call_result stats sig c p s with
        | (None, s1) => let r := walk stats c p l' s1 in (sig :: r.1, r.2)
        | (Some b, s1) =>
            match l' with
            | [] => ([], settle sig b s1)
            | skipped :: l'' => let r := walk stats c p l'' (settle sig b s1) in (skipped :: r.1, r.2)
            end
        end
      else let r := walk stats c p l' s in (sig :: r.1, r.2)
  end.

Lemma remove_first_app x pre l : x ∉ pre -> list_remove x (pre ++ x :: l) = Some (pre ++ l).
Proof using Type.
  induction pre as [|y pre IH]; cbn; [by rewrite bool_decide_true|]. intros Hx. apply not_elem_of_cons in Hx as [Hx1 Hx2].
  rewrite bool_decide_false by done. by rewrite (IH Hx2).
Qed.
Lemma remove_first_absent x l : x ∉ l -> list_remove x l = None.
Proof using Type.
  induction l as [|y l IH]; cbn; [done|]. intros Hx. apply not_elem_of_cons in Hx as [Hx1 Hx2].
  rewrite bool_decide_false by done. by rewrite (IH Hx2).
Qed.

(** Induction on lists that may also drop two elements. *)
Lemma two_step_ind {A} (P : list A -> Prop) :
  P [] -> (forall x k, P k -> (forall y k', k = y :: k' -> P k') -> P (x :: k)) -> forall k, P k.
Proof using Type.
  intros Hnil Hcons k. cut (P k /\ forall y k', k = y :: k' -> P k'); [by intros [? _]|].
  induction k as [|x k [IH1 IH2]]; [by split|]. split; [by apply Hcons|]. by intros ? ? [= _ <-].
Qed.

Lemma call_loop_at stats c p l : forall pre fuel s, NoDup (pre ++ l) -> (length l < fuel)%nat ->
  call_loop fuel stats c p (length pre) (pre ++ l) s = (Ok (pre ++ (walk stats c p l s).1), (walk stats c p l s).2).
Proof using Type.
  induction l as [|sig l IH1 IH2] using two_step_ind; intros pre fuel s Hnd Hf; (destruct fuel as [|fuel]; [lia|]); cbn [call_loop walk].
  - rewrite app_nil_r, (lookup_ge_None_2 pre _ (le_n _)). cbn. by rewrite app_nil_r.
  - rewrite list_lookup_middle by done. cbn [length] in Hf.
    assert (Hnext : forall s, call_loop fuel stats c p (S (length pre)) (pre ++ sig :: l) s =
                    (Ok (pre ++ sig :: (walk stats c p l s).1), (walk stats c p l s).2)).
    { intros s'. specialize (IH1 (pre ++ [sig]) fuel s'). rewrite <-!app_assoc, length_app, Nat.add_1_r in IH1. apply IH1; [done|lia]. }
    destruct (wants _ p c); [|apply Hnext]. destruct (call_result stats sig c p s) as [[b|] s1]; [|apply Hnext].
    rewrite remove_first_app by (apply NoDup_app in Hnd as (_ & Hd & _); intros Hin; apply (Hd _ Hin); left).
    assert (Hnd' : NoDup (pre ++ l)) by (eapply sublist_NoDup; [exact Hnd|by apply sublist_app, sublist_cons]).
    change (if b then record_match sig s1 else s1) with (settle sig b s1).
    destruct l as [|y l']; [destruct fuel; [cbn in Hf; lia|]; cbn [call_loop]; rewrite app_nil_r, (lookup_ge_None_2 pre _ (le_S _ _ (le_n _))); cbn; by rewrite app_nil_r|].
    specialize (IH2 y l' eq_refl (pre ++ [y]) fuel (settle sig b s1)). rewrite <-!app_assoc, length_app, Nat.add_1_r in IH2.
    apply IH2; [done|]. cbn in Hf. lia.
Qed.

(** Handing a call to the evented signatures by Python's iterator over the
    list that shrinks is the walk over the list: a signature that does not want
    the call or does not decide stays, one that decides goes, with a match if
    it returned true, and the one right behind it is not asked about this call. *)
Theorem call_loop_walk stats c p l s : NoDup l ->
  call_loop (S (length l)) stats c p 0 l s = (Ok (walk stats c p l s).1, (walk stats c p l s).2) /\
  (forall sig skipped l' b s1, l = sig :: skipped :: l' -> wants (the_attrs s sig) p c = true ->
     call_result stats sig c p s = (Some b, s1) ->
     walk stats c p l s = (skipped :: (walk stats c p l' (settle sig b s1)).1, (walk stats c p l' (settle sig b s1)).2)).
Proof using Type.
  intros Hnd. split; [by apply (call_loop_at _ _ _ l []); [|lia]|].
  intros sig skipped l' b s1 -> Hw Hr. cbn [walk]. by rewrite Hw, Hr.
Qed.

(** ** What every part of a run keeps *)

(** A match of an instance, as its attributes are at some time; a match of a class, of an
    object that was made from it. *)
Definition of_instance (sig : nat) (m : sig_match) : Prop := exists (w : W), m = as_result (attrs w sig).
Definition of_class (sig : nat) (m : sig_match) : Prop :=
  exists (w : W) i (w' : W), (construct sig w).1 = Ok i /\ m = as_result (attrs w' i).

(** The list of the classes stays, and for each of [ids] one match is added. *)
Definition grows (R : nat -> sig_match -> Prop) (ids : list nat) (s s' : run_state W) : Prop :=
  complete s' = complete s /\ exists ms, matched s' = matched s ++ ms /\ Forall2 R ids ms.

Lemma grows_refl R s : grows R [] s s.
Proof using Type. split; [done|]. exists []. by rewrite app_nil_r. Qed.
Lemma grows_trans R a b s1 s2 s3 : grows R a s1 s2 -> grows R b s2 s3 -> grows R (a ++ b) s1 s3.
Proof using Type.
  intros [Hc1 (m1 & Ha & H1)] [Hc2 (m2 & Hb & H2)]. split; [congruence|]. exists (m1 ++ m2).
  rewrite Hb, Ha, app_assoc. split; [done|]. by apply Forall2_app.
Qed.
Lemma grows_world R s w : grows R [] s (set_world w s).
Proof using Type. split; [done|]. exists []. cbn. by rewrite app_nil_r. Qed.

Lemma grows_call R stats sig c p s : grows R [] s (call_result stats sig c p s).2.
Proof using Type.
  unfold call_result, in_world. destruct (on_call _ _ _ _) as [[r|e] w]; [|apply grows_world].
  case_bool_decide; apply grows_world.
Qed.
Lemma grows_record sig s : sig ∉ complete s -> grows of_instance [sig] s (record_match sig s).
Proof using Type.
  intros Hs. unfold record_match. cbn [complete add_matched]. rewrite remove_first_absent by done.
  split; [done|]. exists [as_result (the_attrs s sig)]. split; [done|]. constructor; [by exists (world s)|constructor].
Qed.
Lemma grows_settle sig (b : bool) s : sig ∉ complete s -> grows of_instance (if b then [sig] else []) s (settle sig b s).
Proof using Type. destruct b; [by apply grows_record|intros; apply grows_refl]. Qed.

Lemma walk_keeps stats c p l : forall s, (forall x, x ∈ l -> x ∉ complete s) ->
  let r := walk stats c p l s in
  sublist r.1 l /\ exists ids, grows of_instance ids s r.2 /\ ids ++ r.1 ⊆+ l.
Proof using Type.
  induction l as [|sig l IH1 IH2] using two_step_ind; intros s Hs; cbn [walk].
  - split; [done|]. exists []. split; [apply grows_refl|done].
  - assert (Hl : forall n s1, grows of_instance n s s1 -> forall x, x ∈ l -> x ∉ complete s1) by (intros n s1 [-> _] x Hx; apply Hs; by right).
    assert (Hstay : forall s1, grows of_instance [] s s1 -> let r := walk stats c p l s1 in
              sublist (sig :: r.1) (sig :: l) /\ exists ids, grows of_instance ids s r.2 /\ ids ++ (sig :: r.1) ⊆+ sig :: l).
    { intros s1 H1. destruct (IH1 s1 (Hl _ _ H1)) as (Hr & n & Hn & Hle). split; [by apply sublist_skip|].
      exists n. split; [by apply (grows_trans _ [] n _ _ _ H1 Hn)|]. rewrite <- Permutation_middle. by apply submseteq_skip. }
    destruct (wants _ p c); [|by apply Hstay, grows_refl].
    pose proof (grows_call of_instance stats sig c p s) as H1. destruct (call_result stats sig c p s) as [[b|] s1]; cbn [snd] in H1; [|by apply Hstay].
    assert (H2 : grows of_instance (if b then [sig] else []) s (settle sig b s1)).
    { apply (grows_trans _ [] _ _ _ _ H1), grows_settle. rewrite (proj1 H1). apply Hs. left. }
    assert (Hb : (if b then [sig] else []) ⊆+ [sig]) by (destruct b; [done|apply submseteq_nil_l]).
    destruct l as [|y l']; cbn [fst snd].
    + split; [apply sublist_nil_l|]. eexists. split; [exact H2|]. by rewrite app_nil_r.
    + destruct (IH2 y l' eq_refl (settle sig b s1)) as (Hr & n & Hn & Hle).
      { intros x Hx. apply (Hl _ _ H2). by right. }
      split; [by apply sublist_cons, sublist_skip|]. eexists. split; [by eapply grows_trans; [exact H2|exact Hn]|].
      rewrite <- app_assoc, <- Permutation_middle. apply (submseteq_app _ [sig] _ (y :: l')); [exact Hb|]. by apply submseteq_skip.
Qed.

(** The evented signatures that are left, and the state, after some calls. *)
Definition settles (l : list nat) (s : run_state W) (r : res (list nat) * run_state W) : Prop :=
  exists l' s', r = (Ok l', s') /\ sublist l' l /\ exists ids, grows of_instance ids s s' /\ ids ++ l' ⊆+ l.
(** The same, or the exception of a log. *)
Definition settles_or (err : option exn) (l : list nat) (s : run_state W) (r : res (list nat) * run_state W) : Prop :=
  match err with
  | None => settles l s r
  | Some e => r.1 = Raise e
  end.

Lemma settles_bind err l s m k : settles l s (m s) ->
  (forall l' s', sublist l' l -> complete s' = complete s -> settles_or err l' s' (k l' s')) -> settles_or err l s (sbind m k s).
Proof using Type.
  intros (l' & s' & Hm & Hl & n & Hn & Hle) Hk. unfold sbind. rewrite Hm. specialize (Hk l' s' Hl (proj1 Hn)).
  destruct err as [e|]; [exact Hk|]. destruct Hk as (l2 & s2 & -> & Hl2 & n2 & Hn2 & Hle2). exists l2, s2.
  split_and!; [done|by etrans|]. exists (n ++ n2). split; [by eapply grows_trans|].
  etrans; [|exact Hle]. rewrite <- app_assoc. by apply submseteq_app.
Qed.

Definition disjoint_from (l : list nat) (s : run_state W) : Prop := NoDup l /\ forall x, x ∈ l -> x ∉ complete s.
Lemma disjoint_sublist l l' s s' : disjoint_from l s -> sublist l' l -> complete s' = complete s -> disjoint_from l' s'.
Proof using Type.
  intros [Hn Hd] Hl Hs. split; [by eapply sublist_NoDup|]. rewrite Hs. intros x Hx. apply Hd. by eapply elem_of_sublist.
Qed.

Lemma settles_self l s : settles l s (Ok l, s).
Proof using Type. exists l, s. split_and!; [done..|]. exists []. split; [apply grows_refl|done]. Qed.

Lemma settles_calls stats p cs : forall l s, disjoint_from l s -> settles l s (calls_loop stats p cs l s).
Proof using Type.
  induction cs as [|c cs IH]; intros l s Hd; cbn [calls_loop]; [apply settles_self|].
  apply (settles_bind None); [|intros l' s' Hl Hs; by eapply IH, disjoint_sublist].
  rewrite (call_loop_at stats c p l [] _ s) by (try apply Hd; cbn; lia).
  destruct (walk_keeps stats c p l s (proj2 Hd)) as (Hl & n & Hn & Hle). eexists _, _. split_and!; [done..|]. by exists n.
Qed.

(** The exception of the first log that has one. *)
Definition log_error (ps : list (process * (list call * option exn))) : option exn := head (omap (fun x => x.2.2) ps).

Lemma settles_processes stats ps : forall l s, disjoint_from l s -> settles_or (log_error ps) l s (processes_loop stats ps l s).
Proof using Type.
  induction ps as [|[p [cs [e|]]] ps IH]; intros l s Hd; cbn [processes_loop]; [apply settles_self|..].
  - apply settles_bind; [by apply settles_calls|done].
  - apply settles_bind; [by apply settles_calls|]. intros l' s' Hl Hs. by eapply IH, disjoint_sublist.
Qed.

Lemma grows_complete stats sig s : sig ∉ complete s ->
  exists ids, ids ⊆+ [sig] /\ grows of_instance ids s (complete_one stats sig s).
Proof using Type.
  intros Hs. unfold complete_one, in_world.
  destruct (on_complete sig (world s)) as [[r|e] w]; [|exists []; split; [apply submseteq_nil_l|apply grows_world]].
  destruct (bool_decide _ && r); [|exists []; split; [apply submseteq_nil_l|apply grows_world]]. exists [sig]. split; [done|].
  apply (grows_trans _ [] [sig] _ _ _ (grows_world of_instance s w)).
  unfold record_match. destruct (ttp _); cbn [complete add_matched add_ttps set_world]; rewrite remove_first_absent by done;
    (split; [done|]); eexists [_]; (split; [done|]); (constructor; [|constructor]); by exists w.
Qed.
Lemma grows_completes stats l : forall s, (forall x, x ∈ l -> x ∉ complete s) ->
  exists ids, ids ⊆+ l /\ grows of_instance ids s (fold_left (fun s sig => complete_one stats sig s) l s).
Proof using Type.
  induction l as [|x l IH]; intros s Hs; cbn [fold_left]; [exists []; split; [done|apply grows_refl]|].
  destruct (grows_complete stats x s (Hs x ltac:(left))) as (i1 & Hi1 & H1).
  destruct (IH (complete_one stats x s)) as (i2 & Hi2 & H2). { rewrite (proj1 H1). intros y Hy. apply Hs. by right. }
  exists (i1 ++ i2). split; [by apply (submseteq_app i1 [x])|by eapply grows_trans].
Qed.

(** The exception that the evented phase ends with: that of a log. *)
Definition evented_error (l : list nat) (w : W) : option exn :=
  match l, behavior_processes w with
  | _ :: _, Some ps => log_error ps
  | _, _ => None
  end.

(** The evented phase raises only what a log raises, and each signature matches at most once. *)
Lemma evented_phase l s : disjoint_from l s ->
  match evented_error l (world s) with
  | Some e => (run_evented l s).1 = Raise e
  | None => exists s' ids, run_evented l s = (Ok tt, s') /\ grows of_instance ids s s' /\ ids ⊆+ l
  end.
Proof using Type.
  intros Hd. unfold run_evented, evented_error. assert (Hno : forall l0, exists s' ids,
    (Ok tt, s) = (Ok tt, s') /\ grows of_instance ids s s' /\ ids ⊆+ l0).
  { intros l0. exists s, []. split; [done|]. split; [apply grows_refl|apply submseteq_nil_l]. }
  destruct l as [|x l]; [apply Hno|]. destruct (behavior_processes (world s)) as [ps|]; [|apply Hno].
  set (stats := (fun sig => name (the_attrs s sig)) <$> x :: l).
  pose proof (settles_processes stats ps (x :: l) s Hd) as Hp. unfold settles_or in Hp. destruct (log_error ps) as [e|].
  { unfold sbind. destruct (processes_loop _ _ _ s) as [[]]; cbn in *; congruence. }
  destruct Hp as (l' & s1 & He & Hl & n & Hn & Hle). rewrite (sbind_ok _ _ _ l' s1 He). cbn [smodify].
  destruct (grows_completes stats l' s1) as (i2 & Hi2 & H2).
  { intros y Hy. by eapply (disjoint_sublist _ _ _ _ Hd Hl (proj1 Hn)). }
  eexists _, (n ++ i2). split; [done|]. split; [by eapply grows_trans|]. etrans; [|exact Hle]. by apply submseteq_app.
Qed.

(** ** The other signatures *)

(** [process]: what it returns is a match of the class. *)
Lemma grows_process sig s :
  grows of_class [] s (process_signature sig s).2 /\
  forall m, (process_signature sig s).1 = Some m -> of_class sig m.
Proof using Type.
  unfold process_signature, in_world. destruct (construct sig (world s)) as [[i|e] w] eqn:Ec; [|split; [apply grows_world|done]].
  destruct (_ || _); [split; [apply grows_world|done]|].
  destruct (sig_run _ _ _) as [[[]|e] w2]; (split; [apply (grows_world _ s)|]); [|done..].
  intros m [= <-]. exists (world s), i, w2. by rewrite Ec.
Qed.

Hypothesis has_target : forall w, exists c, target_category w = Ok c.
Lemma in_types_ok a w : exists b, in_types a w = Ok b.
Proof using has_target.
  unfold in_types. destruct (filter_analysistypes a); [by eexists|]. destruct (has_target w) as [c ->]. by eexists.
Qed.

Lemma compat_phase l : forall s, exists s' ids, compat_loop l s = (Ok tt, s') /\ grows of_class ids s s' /\ ids ⊆+ l.
Proof using has_target.
  induction l as [|sig l IH]; intros s; cbn [compat_loop]; [exists s, []; split; [done|]; split; [apply grows_refl|done]|].
  destruct (in_types_ok (the_attrs s sig) (world s)) as [b Hb]. rewrite (sbind_ok _ _ _ b s) by (unfold slift; by rewrite Hb).
  assert (Hgo : forall i s1, i ⊆+ [sig] -> grows of_class i s s1 ->
    exists s' ids, compat_loop l s1 = (Ok tt, s') /\ grows of_class ids s s' /\ ids ⊆+ sig :: l).
  { intros i s1 Hi H1. destruct (IH s1) as (s' & ids & He & Hs' & Hle). exists s', (i ++ ids). split; [done|].
    split; [by eapply grows_trans|]. by apply (submseteq_app i [sig]). }
  destruct b; [|apply (Hgo []); [apply submseteq_nil_l|apply grows_refl]].
  destruct (grows_process sig s) as [H1 Hm]. destruct (process_signature sig s) as [[m|] s1]; [|by apply (Hgo []); [apply submseteq_nil_l|]].
  apply (Hgo [sig]); [done|]. apply (grows_trans _ [] [sig] _ _ _ H1).
  split; [by destruct (ttp _)|]. exists [m]. split; [by destruct (ttp _)|]. constructor; [by apply Hm|constructor].
Qed.
End evented.

(** ** A run *)

(** What is relied on: a new object is a new reference, and making one leaves
    the attributes of the others and the target alone. *)
Class signature_laws (W : Type) `{signature_code W} := {
  next : W -> nat;
  construct_next : forall sig w, (next w <= next (construct sig w).2)%nat;
  construct_new : forall sig w i, (construct sig w).1 = Ok i -> (next w <= i < next (construct sig w).2)%nat;
  construct_attrs : forall sig w x, (x < next w)%nat -> attrs (construct sig w).2 x = attrs w x;
  construct_target : forall sig w, target_category (construct sig w).2 = target_category w }.

Section a_run.
Context {W : Type} `{signature_laws W}.
Implicit Types (s : run_state W) (l : list nat).

Definition selected (a : sig_attrs) (w : W) : res bool :=
  if enabled a && evented a && _check_signature_version a then in_types a w else Ok false.

Lemma evented_instances_cons sig l w : evented_instances (sig :: l) w =
  match selected (attrs w sig) w with
  | Ok true => match construct sig w with
               | (Ok i, w1) => let r := evented_instances l w1 in (rbind r.1 (fun objs => Ok (i :: objs)), r.2)
               | (Raise e, w1) => (Raise e, w1)
               end
  | Ok false => evented_instances l w
  | Raise e => (Raise e, w)
  end.
Proof using Type.
  cbn [evented_instances]. unfold sbind at 1, slift. fold (selected (attrs w sig) w). destruct (selected _ w) as [[]|e]; [|done..].
  unfold sbind. destruct (construct sig w) as [[i|e] w1]; [|done]. by destruct (evented_instances l w1) as [[objs|e] w2].
Qed.

Lemma evented_instances_next l : forall w, (next w <= next (evented_instances l w).2)%nat.
Proof using Type.
  induction l as [|sig l IH]; intros w; [done|]. rewrite evented_instances_cons. destruct (selected _ w) as [[]|e]; [|apply IH|done].
  pose proof (construct_next sig w) as Hn. destruct (construct sig w) as [[i|e] w1]; cbn [snd] in *; [|done]. pose proof (IH w1). lia.
Qed.
Lemma evented_instances_new l : forall w objs, (evented_instances l w).1 = Ok objs ->
  NoDup objs /\ forall i, i ∈ objs -> (next w <= i < next (evented_instances l w).2)%nat.
Proof using Type.
  induction l as [|sig l IH]; intros w objs.
  { intros [= <-]. split; [constructor|]. by intros i ?%elem_of_nil. }
  rewrite evented_instances_cons. destruct (selected _ w) as [[]|e]; [|apply IH|done].
  pose proof (construct_new sig w) as Hn. destruct (construct sig w) as [[i|e] w1]; cbn [fst snd] in *; [|done].
  specialize (IH w1). pose proof (evented_instances_next l w1). destruct (evented_instances l w1) as [[objs'|e] w2]; cbn [fst snd rbind] in *; [|done].
  intros [= <-]. destruct (IH objs' eq_refl) as [Hd Hin]. specialize (Hn i eq_refl). split.
  - constructor; [|done]. intros Hi. specialize (Hin i Hi). lia.
  - intros j [->|Hj]%elem_of_cons; [lia|]. specialize (Hin j Hj). lia.
Qed.

Definition classes_old s : Prop := forall x, x ∈ complete s -> (x < next (world s))%nat.
Lemma make_evented_spec s : classes_old s ->
  exists l s1, make_evented s = (Ok l, s1) /\ grows of_instance [] s s1 /\ disjoint_from l s1.
Proof using Type.
  intros Hs. unfold make_evented, in_world. pose proof (evented_instances_new (complete s) (world s)) as Hi.
  destruct (evented_instances _ _) as [[objs|e] w]; cbn [fst snd] in Hi; eexists _, _; (split; [done|]); (split; [apply grows_world|]).
  - destruct (Hi objs eq_refl) as [Hd Hin]. split; [done|]. intros x Hx Hc. specialize (Hs x Hc). specialize (Hin x Hx). lia.
  - split; [constructor|]. by intros x ?%elem_of_nil.
Qed.

Lemma malscore_range (l : list sig_match) : SFltb (float_of 10) (malscore_of l) = false /\ SFltb (malscore_of l) (float_of 0) = false.
Proof using Type.
  unfold malscore_of. set (x := fold_left _ _ _). clearbody x.
  destruct (SFltb (float_of 10) x) eqn:E1; [split; by vm_compute|].
  destruct (SFltb x (float_of 0)) eqn:E2; [split; by vm_compute|done].
Qed.


Lemma selected_target a w w' : target_category w = target_category w' -> selected a w = selected a w'.
Proof using Type. intros Ht. unfold selected, in_types. by rewrite Ht. Qed.

Lemma evented_instances_bad bad l : (forall w, exists e, (construct bad w).1 = Raise e) -> bad ∈ l -> forall w,
  (bad < next w)%nat -> selected (attrs w bad) w = Ok true -> exists e, (evented_instances l w).1 = Raise e.
Proof using Type.
  intros Hbad. induction l as [|sig l IH]; [by intros ?%elem_of_nil|]. intros Hin w Hw Hsel. rewrite evented_instances_cons.
  destruct (decide (sig = bad)) as [->|Hne].
  - rewrite Hsel. destruct (Hbad w) as [e He]. destruct (construct bad w) as [[i|e'] w1]; cbn in He; [done|]. by eexists.
  - apply elem_of_cons in Hin as [->|Hin]; [done|]. destruct (selected (attrs w sig) w) as [[]|e]; [|by apply IH|by eexists].
    pose proof (construct_next sig w). pose proof (construct_attrs sig w bad Hw) as Ha. pose proof (construct_target sig w) as Ht.
    destruct (construct sig w) as [[i|e] w1]; cbn [fst snd] in *; [|by eexists].
    destruct (IH Hin w1) as [e He]; [lia| |rewrite He; by eexists]. by rewrite Ha, (selected_target _ w1 w Ht).
Qed.

(** If the code that makes one of the evented signatures raises, none of
    them is told of any call, however many are fine. *)
Theorem broken_signature_stops_all s bad : classes_old s -> bad ∈ complete s ->
  selected (the_attrs s bad) (world s) = Ok true -> (forall w, exists e, (construct bad w).1 = Raise e) ->
  exists s1, make_evented s = (Ok [], s1) /\ run_evented [] s1 = (Ok tt, s1).
Proof using Type.
  intros Hs Hin Hsel Hbad. unfold make_evented, in_world.
  destruct (evented_instances_bad bad (complete s) Hbad Hin (world s) (Hs _ Hin) Hsel) as [e He].
  destruct (evented_instances _ _) as [[objs|e'] w]; cbn in He; [done|]. by eexists.
Qed.
End a_run.

(** ** What the code of the signatures keeps, a run keeps *)

Section kept.
Context {W : Type} `{signature_code W} (P : W -> Prop).
Record code_keeps : Prop := {
  keeps_setattr : forall sig i w, P w -> P (setattr sig i w);
  keeps_construct : forall sig w, P w -> P (construct sig w).2;
  keeps_on_call : forall sig c p w, P w -> P (on_call sig c p w).2;
  keeps_on_complete : forall sig w, P w -> P (on_complete sig w).2;
  keeps_sig_run : forall sig l w, P w -> P (sig_run sig l w).2;
  keeps_set_detections : forall d w, P w -> P (set_detections d w) }.
Context (K : code_keeps).

Definition kept {A} (m : st (run_state W) A) : Prop := forall s, P (world s) -> P (world (m s).2).

Lemma kept_bind {A B} (m : st (run_state W) A) (k : A -> st (run_state W) B) : kept m -> (forall a, kept (k a)) -> kept (sbind m k).
Proof using Type.
  intros Hm Hk s Hs. specialize (Hm s Hs). unfold sbind. destruct (m s) as [[a|e] s']; [by apply Hk|done].
Qed.
Lemma kept_in_world {A} (m : st W A) : (forall w, P w -> P (m w).2) -> kept (in_world m).
Proof using Type. intros Hm s Hs. unfold in_world. specialize (Hm _ Hs). by destruct (m (world s)). Qed.
Lemma kept_record sig s : world (record_match sig s) = world s.
Proof using Type. unfold record_match. by destruct (list_remove _ _). Qed.

Lemma kept_instances l : forall w, P w -> P (evented_instances l w).2.
Proof using K.
  induction l as [|sig l IH]; intros w Hw; [done|]. cbn [evented_instances]. unfold sbind at 1, slift.
  destruct (if enabled _ && _ && _ then _ else _) as [[]|e]; [|by apply IH|done].
  pose proof (keeps_construct K sig w Hw) as H1. unfold sbind. destruct (construct sig w) as [[i|e] w1]; [|done].
  specialize (IH w1 H1). by destruct (evented_instances l w1) as [[]].
Qed.
Lemma kept_make_evented : kept make_evented.
Proof using K.
  intros s Hs. unfold make_evented. pose proof (kept_in_world _ (kept_instances (complete s)) s Hs) as H1.
  by destruct (in_world _ s) as [[l|e] s1].
Qed.
Lemma kept_overlay o l : forall w, P w -> P (fold_left (fun w sig => _apply_overlay o sig w) l w).
Proof using K.
  induction l as [|sig l IH]; intros w Hw; [done|]. cbn [fold_left]. apply IH. unfold _apply_overlay.
  destruct (dict_lookup _ _) as [items|]; [|done]. revert w Hw. induction items as [|i items IHi]; intros w Hw; [done|].
  cbn [fold_left]. by apply IHi, K.
Qed.
Lemma kept_call_result stats sig c p s : P (world s) -> P (world (call_result stats sig c p s).2).
Proof using K.
  intros Hs. unfold call_result. pose proof (kept_in_world _ (keeps_on_call K sig c p) s Hs) as H1.
  destruct (in_world _ s) as [[r|e] s1]; [by case_bool_decide|done].
Qed.
Lemma kept_call_loop stats c p fuel : forall i l, kept (call_loop fuel stats c p i l).
Proof using K.
  induction fuel as [|fuel IH]; intros i l s Hs; cbn [call_loop]; [done|].
  destruct (l !! i) as [sig|]; [|done]. destruct (wants _ p c); [|by apply IH].
  pose proof (kept_call_result stats sig c p s Hs) as H1. destruct (call_result _ _ _ _ s) as [[b|] s1]; cbn [snd] in H1; [|by apply IH].
  assert (H2 : P (world (if b then record_match sig s1 else s1))) by (destruct b; [by rewrite kept_record|done]).
  destruct (list_remove sig l); [by apply IH|done].
Qed.
Lemma kept_processes stats ps : forall l, kept (processes_loop stats ps l).
Proof using K.
  induction ps as [|[p [cs err]] ps IH]; intros l; cbn [processes_loop]; [by intros s Hs|].
  apply kept_bind; [|intros l'; destruct err; [by intros s Hs|apply IH]].
  revert l. induction cs as [|c cs IHc]; intros l; cbn [calls_loop]; [by intros s Hs|].
  apply kept_bind; [apply kept_call_loop|done].
Qed.
Lemma kept_completes stats l : forall s, P (world s) -> P (world (fold_left (fun s sig => complete_one stats sig s) l s)).
Proof using K.
  induction l as [|sig l IH]; intros s Hs; [done|]. cbn [fold_left]. apply IH. unfold complete_one.
  pose proof (kept_in_world _ (keeps_on_complete K sig) s Hs) as H1. destruct (in_world _ s) as [[r|e] s1]; [|done].
  destruct (_ && _); [|done]. rewrite kept_record. by destruct (ttp _).
Qed.
Lemma kept_evented l : kept (run_evented l).
Proof using K.
  intros s Hs. unfold run_evented. destruct l as [|x l]; [done|]. destruct (behavior_processes _) as [ps|]; [|done].
  set (stats := _ <$> _). apply (kept_bind (processes_loop stats ps (x :: l))); [apply kept_processes| |done].
  intros r s' Hs'. by apply kept_completes.
Qed.
Lemma kept_compat l : kept (compat_loop l).
Proof using K.
  induction l as [|sig l IH]; intros s Hs; [done|]. cbn [compat_loop]. unfold sbind, slift.
  destruct (in_types _ _) as [[]|e]; [|by apply IH|done].
  assert (H1 : P (world (process_signature sig s).2)).
  { unfold process_signature. pose proof (kept_in_world _ (keeps_construct K sig) s Hs) as H1.
    destruct (in_world _ s) as [[i|e] s1]; [|done]. destruct (_ || _); [done|].
    pose proof (kept_in_world _ (keeps_sig_run K i (matched s1)) s1 H1) as H2. by destruct (in_world _ s1) as [[[]|e] s2]. }
  destruct (process_signature sig s) as [[m|] s1]; [|by apply IH]. apply IH. by destruct (ttp _).
Qed.

Lemma run_signatures_keeps overlay cfg : kept (run_signatures overlay cfg).
Proof using K.
  unfold run_signatures. apply kept_bind; [apply kept_make_evented|]. intros l.
  apply kept_bind; [intros s Hs; by apply kept_overlay|]. intros _. apply kept_bind; [apply kept_evented|]. intros _.
  apply kept_bind; [by intros s Hs|]. intros _. apply kept_bind; [intros s Hs; by apply kept_compat|]. intros _ s Hs.
  cbn [snd world]. destruct (_ && _); [|done]. destruct (detected_family _); [by apply K|done].
Qed.
End kept.

(** ** An instance: three classes, of which the last cannot be made *)

Record example_world := { ew_class : list nat; ew_told : list nat; ew_detections : detections }.
Definition example_attrs (n : string) (sev : Z) : sig_attrs :=
  {| name := n; enabled := true; evented := true; minimum := Some "1.3"; maximum := None; order := 0; severity := sev; weight := 1;
     confidence := 100; families := ["Emotet"]; ttp := Some ["T1055"]; filter_processnames := []; filter_apinames := [];
     filter_categories := []; filter_analysistypes := [] |}.
Definition class_of (w : example_world) (x : nat) : nat := if bool_decide (x < 3)%nat then x else default O (ew_class w !! (x - 3)%nat).
#[local] Instance example_code : signature_code example_world := {
  attrs w x := match class_of w x with O => example_attrs "caller" 3 | 1%nat => example_attrs "watcher" 2 | _ => example_attrs "broken" 1 end;
  setattr _ _ w := w;
  construct sig w := if bool_decide (sig = 2%nat) then (Raise OtherException, w)
    else (Ok (3 + length (ew_class w))%nat, {| ew_class := ew_class w ++ [sig]; ew_told := ew_told w; ew_detections := ew_detections w |});
  on_call sig _ _ w := (Ok (if bool_decide (class_of w sig = O) then Some true else None),
    {| ew_class := ew_class w; ew_told := ew_told w ++ [sig]; ew_detections := ew_detections w |});
  on_complete sig w := (Ok true, w);
  sig_run _ _ w := (Raise NotImplementedError, w);
  target_category _ := Ok "file";
  behavior_processes _ := Some [(example_process 1 0, ([example_call "system" "process" []], None))];
  malfamily_tag _ := "";
  get_detections w := ew_detections w;
  set_detections d w := {| ew_class := ew_class w; ew_told := ew_told w; ew_detections := d |} }.

#[local] Instance example_laws : signature_laws example_world.
Proof.
  refine {| next w := (3 + length (ew_class w))%nat |}.
  - intros sig w. cbn. case_bool_decide; cbn; rewrite ?length_app; cbn; lia.
  - intros sig w i. cbn. case_bool_decide; cbn; [done|]. intros [= <-]. rewrite length_app. cbn. lia.
  - intros sig w x Hx. cbn. case_bool_decide; [done|]. unfold class_of. cbn [snd ew_class]. case_bool_decide; [done|].
    by rewrite lookup_app_l by lia.
  - done.
Defined.

Definition example_world0 : example_world := {| ew_class := []; ew_told := []; ew_detections := [] |}.
Definition example_state (classes : list nat) : run_state example_world :=
  {| complete := classes; matched := []; ttps := []; world := example_world0 |}.
Definition example_detection : detection_config := {| det_enabled := true; det_behavior := true |}.
Definition told_state : run_state example_world :=
  {| complete := [0; 1]%nat; matched := []; ttps := [];
     world := {| ew_class := [0; 1; 1]%nat; ew_told := []; ew_detections := [] |} |}.

(** The second of three instances is not told. *)
Lemma call_loop_walk_witness :
  exists s', call_loop 4 ["caller"; "watcher"] (example_call "system" "process" []) (example_process 1 0) 0 [3; 4; 5]%nat told_state =
    (Ok [4; 5]%nat, s') /\ ew_told (world s') = [3; 5]%nat /\ length (matched s') = 1%nat.
Proof.
  destruct (call_loop_walk ["caller"; "watcher"] (example_call "system" "process" []) (example_process 1 0) [3; 4; 5]%nat told_state) as [E _].
  { apply (bool_decide_unpack _). by vm_compute. }
  cbn [length] in E. rewrite E. eexists. split; [f_equal; vm_compute; reflexivity|by vm_compute].
Defined.


Lemma broken_signature_stops_all_witness :
  exists s1, make_evented (example_state [0; 1; 2]%nat) = (Ok [], s1) /\ run_evented [] s1 = (Ok tt, s1).
Proof.
  apply (broken_signature_stops_all _ 2%nat); [|cbn; set_solver|by vm_compute|by eexists].
  unfold classes_old. apply Forall_forall. repeat constructor.
Defined.
