(* ===== verification/CapeSignatures.v ===== *)
(** The signatures of modules/signatures/CAPE.py, with IsPEImage of
    lib/cuckoo/common/integrations/parse_pe.py, as code of the runner of
    RunSignatures.v; and what they find in the calls. *)
From S2P Require Import Prelude Struct Quarantine Pretty ProcessLog Behavior Signature RunSignatures.
Open Scope string_scope.
Open Scope list_scope.
Open Scope Z_scope.

(** ** Is it a PE image: parse_pe.py *)

Definition OPTIONAL_HEADER_MAGIC_PE : Z := 0x10B.
Definition OPTIONAL_HEADER_MAGIC_PE_PLUS : Z := 0x20B.
Definition IMAGE_FILE_EXECUTABLE_IMAGE : Z := 0x0002.
Definition IMAGE_FILE_MACHINE_I386 : Z := 0x014C.
Definition IMAGE_FILE_MACHINE_AMD64 : Z := 0x8664.
Definition DOS_HEADER_LIMIT : Z := 0x40.
Definition PE_HEADER_LIMIT : Z := 0x200.

(** The loop over the even offsets below [PE_HEADER_LIMIT - 86]. *)
Fixpoint probe_machine (buf : list Z) (offsets : list nat) : list Z :=
  match offsets with
  | [] => []
  | o :: rest =>
      let offset := Z.of_nat o in
      match unpack 2 (slice buf offset (offset + 2)) with
      | Ok probe =>
          if bool_decide (probe = IMAGE_FILE_MACHINE_I386 \/ probe = IMAGE_FILE_MACHINE_AMD64) then
            slice buf (offset - 4) (offset + 252)
          else probe_machine buf rest
      | Raise _ => probe_machine buf rest
      end
  end.
Definition probe_offsets : list nat := (fun i => 2 * i)%nat <$> seq 0 (Z.to_nat ((PE_HEADER_LIMIT - 86) / 2)).

(** The tests of the headers. [struct.unpack] returns a tuple, which is never
    equal to 0, so the first three only raise. *)
Definition header_tests (nt_headers : list Z) : res bool :=
  let! machine := unpack 2 (slice nt_headers 4 6) in
  let! optional_size := unpack 2 (slice nt_headers 20 22) in
  let! headers_size := unpack 2 (slice nt_headers 84 86) in
  let! characteristics := unpack 2 (slice nt_headers 22 24) in
  if Z.land characteristics IMAGE_FILE_EXECUTABLE_IMAGE =? 0 then Ok false
  else if negb (Z.land optional_size 3 =? 0) then Ok false
  else
    let! magic := unpack 2 (slice nt_headers 24 26) in
    Ok (bool_decide (magic = OPTIONAL_HEADER_MAGIC_PE \/ magic = OPTIONAL_HEADER_MAGIC_PE_PLUS)).

Definition nt_headers_of (buf : list Z) : list Z :=
  let dos_header := slice buf 0 DOS_HEADER_LIMIT in
  let e_lfanew := if (length (slice dos_header 0 64) =? 64)%nat then le_val (slice dos_header 60 64) else 0 in
  if (e_lfanew =? 0) || (PE_HEADER_LIMIT <? e_lfanew) then probe_machine buf probe_offsets
  else slice buf e_lfanew (e_lfanew + 256).

(** [len] is the length of the buffer, [size] is 0 when none is given. *)
Definition IsPEImage (len : Z) (buf : list Z) (size : Z) : bool :=
  if len =? 0 then false
  else
    let size := if size =? 0 then len else size in
    if size <? DOS_HEADER_LIMIT then false
    else if size <? PE_HEADER_LIMIT then false
    else
      let nt_headers := nt_headers_of buf in
      if bool_decide (nt_headers = []) then false
      else match header_tests nt_headers with Ok b => b | Raise _ => false end.
Definition IsPEImage_bytes (buf : list Z) (size : Z) : bool := IsPEImage (zlen buf) buf size.
(** A text: its length is in characters, then it is encoded. *)
Definition IsPEImage_text (s : string) (size : Z) : bool := IsPEImage (zlen (utf8_chars (B s))) (byte_val <$> B s) size.

(** ** Reading arguments *)

(** A value of [get_argument]; what the cache holds is the dict of the call
    ([cached_argument] in Signature.v). *)
Definition arg (c : call) (name : string) : option string := dict_lookup name (call_dict c).
Definition arg_value (o : option string) : bval := match o with Some s => BText s | None => BNone end.

(** [int(x, 0)]: the base is the prefix of the text. *)
Definition digit_in (base : Z) (c : ascii) : option Z :=
  match hex_val c with Some d => if d <? base then Some d else None | None => None end.
Fixpoint base_digits (base acc : Z) (last_digit : bool) (l : bytes) : option Z :=
  match l with
  | [] => if last_digit then Some acc else None
  | c :: l' =>
      match digit_in base c with
      | Some d => base_digits base (acc * base + d) true l'
      | None => if bool_decide (c = "_"%char) && last_digit then base_digits base acc false l' else None
      end
  end.
(** After a prefix one underscore may stand. *)
Definition prefixed (base : Z) (l : bytes) : option Z :=
  match l with
  | u :: l' => if bool_decide (u = "_"%char) then base_digits base 0 false l' else base_digits base 0 false l
  | [] => None
  end.
(** A decimal number that begins with 0 is 0. *)
Definition decimal_literal (l : bytes) : option Z :=
  v ← base_digits 10 0 false l;
  if bool_decide (head l = Some "0"%char) && negb (v =? 0) then None else Some v.
Definition unsigned0 (l : bytes) : option Z :=
  match l with
  | z :: x :: l' =>
      if bool_decide (z = "0"%char) then
        match lower_ascii x with
        | "x"%char => prefixed 16 l'
        | "o"%char => prefixed 8 l'
        | "b"%char => prefixed 2 l'
        | _ => decimal_literal l
        end
      else decimal_literal l
  | _ => decimal_literal l
  end.
Definition int0 (s : string) : res Z :=
  of_option ValueError
    match strip_ws (B s) with
    | c :: l' =>
        if bool_decide (c = "-"%char) then Z.opp <$> unsigned0 l'
        else if bool_decide (c = "+"%char) then unsigned0 l'
        else unsigned0 (c :: l')
    | [] => None
    end.
Example int0_literals : int0 " 0x1F_f " = Ok 0x1FF /\ int0 "010" = Raise ValueError /\ int0 "0_0" = Ok 0 /\ int0 "-0b11" = Ok (-3).
Proof. by vm_compute. Qed.

(** [int(x, 16)] and the like of an argument: [int(None)] is a TypeError. *)
Definition int_of_arg (f : string -> res Z) (o : option string) : res Z :=
  match o with Some s => f s | None => Raise TypeError end.
(** [if size: size = int(size)], 0 when there is none. *)
Definition size_arg (f : string -> res Z) (o : option string) : res Z :=
  match o with Some s => if bool_decide (s = "") then Ok 0 else f s | None => Ok 0 end.
Definition pe_arg (o : option string) (size : Z) : bool :=
  match o with Some s => IsPEImage_text s size | None => false end.
Definition api_in (l : list string) (c : call) : bool := bool_decide (api c ∈ l).

(** ** The signatures *)

(** [process is not self.lastprocess]: two entries of the list of processes are
    the same object when they are the same record; no two entries of a log
    folder are. *)
#[global] Instance call_eq_dec : EqDecision call.
Proof. solve_decision. Defined.
#[global] Instance converter_eq_dec : EqDecision converter.
Proof. solve_decision. Defined.
#[global] Instance info_eq_dec : EqDecision info.
Proof. solve_decision. Defined.
#[global] Instance plog_eq_dec : EqDecision plog.
Proof. solve_decision. Defined.
#[global] Instance process_eq_dec : EqDecision process.
Proof. solve_decision. Defined.
Definition same_process (p : process) (last : option process) : bool := bool_decide (last = Some p).

(** What [on_call] of a signature does to its object: [Some b] is a value that
    is not [None]. *)
Abbreviation handler S := (call -> process -> st S (option bool)).
Definition undecided {S} (s : S) : res (option bool) * S := (Ok None, s).
Definition matches {S} (s : S) : res (option bool) * S := (Ok (Some true), s).

(** *** Signatures on buffers: the last buffer decides *)

Definition compression_on_call : handler bool := fun c _ compressed_binary =>
  if bool_decide (api c = "RtlDecompressBuffer") then
    match size_arg int16 (arg c "UncompressedBufferLength") with
    | Ok size => undecided (pe_arg (arg c "UncompressedBuffer") size)
    | Raise e => (Raise e, compressed_binary)
    end
  else undecided compressed_binary.

Definition regbinary_on_call : handler bool := fun c _ reg_binary =>
  if api_in ["RegSetValueExA"; "RegSetValueExW"] c then
    if truthy (arg c "Buffer") then
      match size_arg py_int_text (arg c "BufferLength") with
      | Ok size => undecided (pe_arg (arg c "Buffer") size)
      | Raise e => (Raise e, reg_binary)
      end
    else undecided reg_binary
  else undecided reg_binary.

Definition decryption_on_call : handler bool := fun c _ encrypted_binary =>
  if bool_decide (api c = "CryptDecrypt") then
    match size_arg py_int_text (arg c "Length") with
    | Ok size => undecided (pe_arg (arg c "Buffer") size)
    | Raise e => (Raise e, encrypted_binary)
    end
  else undecided encrypted_binary.

(** *** CAPE_Unpacker *)

Definition EXECUTABLE_FLAGS : Z := Z.lor (Z.lor (Z.lor 0x10 0x20) 0x40) 0x80.
Definition EXTRACTION_MIN_SIZE : Z := 0x1001.
Definition office : list bval := [BText "WINWORD.EXE"; BText "EXCEL.EXE"; BText "POWERPNT.EXE"].
Definition large_executable (handle : option string) (protection size : Z) : bool :=
  bool_decide (handle = Some "0xffffffff") && negb (Z.land protection EXECUTABLE_FLAGS =? 0) && (EXTRACTION_MIN_SIZE <=? size).
(** A text never equals the number 0xFFFFFFFF, so the last branch finds
    nothing; comparing the size, a text, with a number would raise. *)
Definition unpacker_calls (c : call) : res (option bool) :=
  let! first :=
    if bool_decide (api c = "NtAllocateVirtualMemory") then
      let! protection := int_of_arg int0 (arg c "Protection") in
      let! regionsize := int_of_arg int0 (arg c "RegionSize") in
      Ok (large_executable (arg c "ProcessHandle") protection regionsize)
    else Ok false in
  if first then Ok (Some true)
  else if bool_decide (api c = "VirtualProtectEx") then
    let! protection := int_of_arg int0 (arg c "Protection") in
    let! size := int_of_arg int0 (arg c "Size") in
    Ok (if large_executable (arg c "ProcessHandle") protection size then Some true else None)
  else if bool_decide (api c = "NtProtectVirtualMemory") then
    let! protection := int_of_arg int0 (arg c "NewAccessProtection") in
    if bool_decide (arg_value (arg c "ProcessHandle") = BInt 0xFFFFFFFF) && negb (Z.land protection EXECUTABLE_FLAGS =? 0) then
      Raise TypeError
    else Ok None
  else Ok None.
Definition unpacker_on_call : handler unit := fun c p s =>
  if bool_decide (pr_name p ∈ office) then (Ok (Some false), s) else (unpacker_calls c, s).

(** *** CAPE_InjectionCreateRemoteThread *)

Record thread_state := {
  th_last : option process; th_handles : gset (option string); th_pids : gset (option string);
  th_write : bool; th_thread : bool; th_description : option string }.
Definition th_with (handle pid : option string) (s : thread_state) : thread_state :=
  {| th_last := th_last s; th_handles := {[handle]} ∪ th_handles s; th_pids := {[pid]} ∪ th_pids s; th_write := th_write s;
     th_thread := th_thread s; th_description := th_description s |}.
Definition th_written (s : thread_state) : thread_state :=
  {| th_last := th_last s; th_handles := th_handles s; th_pids := th_pids s; th_write := true; th_thread := th_thread s;
     th_description := th_description s |}.
Definition th_threaded (s : thread_state) : thread_state :=
  {| th_last := th_last s; th_handles := th_handles s; th_pids := th_pids s; th_write := th_write s; th_thread := true;
     th_description := th_description s |}.
Definition th_describe (d : string) (s : thread_state) : thread_state :=
  {| th_last := th_last s; th_handles := th_handles s; th_pids := th_pids s; th_write := th_write s; th_thread := th_thread s;
     th_description := Some d |}.
Definition th_enter (p : process) (s : thread_state) : thread_state :=
  if same_process p (th_last s) then s
  else {| th_last := Some p; th_handles := ∅; th_pids := ∅; th_write := th_write s; th_thread := th_thread s;
          th_description := th_description s |}.

(** A text is not equal to the number of the process. *)
Definition other_process (pid : option string) (p : process) : bool := negb (bool_decide (arg_value pid = pr_id p)).
Definition NTDLL_TEXT : string :=
  "Code injection via WriteProcessMemory-modified NTDLL code in a remote process".
Definition thread_on_call : handler thread_state := fun c p s =>
  let s := th_enter p s in
  let opened (handle pid : option string) := undecided (if other_process pid p then th_with handle pid s else s) in
  let known := bool_decide (arg c "ProcessHandle" ∈ th_handles s) in
  if bool_decide (api c = "OpenProcess") && c_status c then opened (Some (c_return c)) (arg c "ProcessId")
  else if bool_decide (api c = "NtOpenProcess") && c_status c then opened (arg c "ProcessHandle") (arg c "ProcessIdentifier")
  else if bool_decide (api c = "CreateProcessInternalW") then opened (arg c "ProcessHandle") (arg c "ProcessId")
  else if bool_decide (api c = "NtMapViewOfSection") then undecided (if known then th_written s else s)
  else if api_in ["VirtualAllocEx"; "NtAllocateVirtualMemory"] c then undecided (if known then th_written s else s)
  else if api_in ["NtWriteVirtualMemory"; "NtWow64WriteVirtualMemory64"; "WriteProcessMemory"] c then
    if known then
      let s := th_written s in
      match int_of_arg int16 (arg c "BaseAddress") with
      | Raise e => (Raise e, s)
      | Ok addr =>
          if (0x7C900000 <=? addr) && (addr <? 0x80000000) then
            match arg c "Buffer" with
            | None => (Raise AttributeError, s)
            | Some buf => if starts_with "\xe9" buf then matches (th_describe NTDLL_TEXT s) else undecided s
            end
          else undecided s
      end
    else undecided s
  else if bool_decide (api c = "CreateRemoteThread") || starts_with "NtCreateThread" (api c) then
    undecided (if known then th_threaded s else s)
  else if starts_with "NtQueueApcThread" (api c) then
    undecided (if bool_decide (Some (py_str (arg_value (arg c "ProcessId"))) ∈ th_pids s) then th_threaded s else s)
  else undecided s.
Definition thread_on_complete (s : thread_state) : bool := th_write s && th_thread s.

(** *** CAPE_InjectionProcessHollowing *)

(** [ho_process] and [ho_thread] are [process_map] and [thread_map], whose keys
    are the handles. *)
Record hollow_state := {
  ho_last : option process; ho_sequence : Z; ho_process : list (option string * option string);
  ho_thread : list (option string * option string); ho_data : list string }.
Definition ho_step (n : Z) (s : hollow_state) : hollow_state :=
  {| ho_last := ho_last s; ho_sequence := n; ho_process := ho_process s; ho_thread := ho_thread s; ho_data := ho_data s |}.
Definition ho_created (phandle thandle pid : option string) (s : hollow_state) : hollow_state :=
  {| ho_last := ho_last s; ho_sequence := ho_sequence s; ho_process := (phandle, pid) :: ho_process s;
     ho_thread := (thandle, pid) :: ho_thread s; ho_data := ho_data s |}.
Definition ho_injection (d : string) (s : hollow_state) : hollow_state :=
  {| ho_last := ho_last s; ho_sequence := ho_sequence s; ho_process := ho_process s; ho_thread := ho_thread s;
     ho_data := ho_data s ++ [d] |}.
Definition ho_enter (p : process) (s : hollow_state) : hollow_state :=
  if same_process p (ho_last s) then s
  else {| ho_last := Some p; ho_sequence := 0; ho_process := []; ho_thread := []; ho_data := ho_data s |}.
Fixpoint pid_of (handle : option string) (l : list (option string * option string)) : option string :=
  match l with
  | [] => None
  | (h, pid) :: l' => if bool_decide (h = handle) then pid else pid_of handle l'
  end.
Definition text_or_none (v : option bval) : string := match v with Some v => py_str v | None => "None" end.
Definition injection_text (r : results) (p : process) (pid : option string) : string :=
  py_str (pr_name p) +:+ "(" +:+ py_str (pr_id p) +:+ ") -> " +:+ text_or_none (get_name_from_pid r (arg_value pid)) +:+ "("
  +:+ py_str (arg_value pid) +:+ ")".

Definition WRITES : list string := ["NtWriteVirtualMemory"; "NtWow64WriteVirtualMemory64"; "WriteProcessMemory"; "NtMapViewOfSection"].
Definition allow_list : list bval := [BText "acrord32.exe"].
Definition hollow_on_call (r : results) : handler hollow_state := fun c p s =>
  let s := ho_enter p s in
  let knows_process := bool_decide (arg c "ProcessHandle" ∈ (ho_process s).*1) in
  let knows_thread := bool_decide (arg c "ThreadHandle" ∈ (ho_thread s).*1) in
  let n := ho_sequence s in
  if bool_decide (pr_name p ∈ allow_list) then (Ok (Some false), s)
  else if bool_decide (api c = "CreateProcessInternalW") then
    undecided (ho_created (arg c "ProcessHandle") (arg c "ThreadHandle") (arg c "ProcessId") s)
  else if api_in ["NtUnmapViewOfSection"; "NtAllocateVirtualMemory"] c && (n =? 0) then
    undecided (if knows_process then ho_step 1 s else s)
  else if bool_decide (api c = "NtGetContextThread") && (n =? 0) then undecided (if knows_thread then ho_step 1 s else s)
  else if api_in WRITES c && ((n =? 1) || (n =? 2)) then undecided (if knows_process then ho_step (n + 1) s else s)
  else if bool_decide (api c = "NtSetContextThread") && ((n =? 1) || (n =? 2)) then
    undecided (if knows_thread then ho_step (n + 1) s else s)
  else if bool_decide (api c = "NtResumeThread") && ((n =? 2) || (n =? 3)) then
    if knows_thread then matches (ho_injection (injection_text r p (pid_of (arg c "ThreadHandle") (ho_thread s))) s) else undecided s
  else if bool_decide (api c = "NtResumeProcess") && ((n =? 2) || (n =? 3)) then
    if knows_process then matches (ho_injection (injection_text r p (pid_of (arg c "ProcessHandle") (ho_process s))) s)
    else undecided s
  else undecided s.

(** *** CAPE_InjectionSetWindowLong *)

Record window_state := { wi_last : option process; wi_sharedmap : bool; wi_found : bool }.
Definition wi_enter (p : process) (s : window_state) : window_state :=
  if same_process p (wi_last s) then s else {| wi_last := Some p; wi_sharedmap := false; wi_found := false |}.
Definition wi_share (s : window_state) : window_state :=
  {| wi_last := wi_last s; wi_sharedmap := true; wi_found := wi_found s |}.
Definition wi_find (s : window_state) : window_state :=
  {| wi_last := wi_last s; wi_sharedmap := wi_sharedmap s; wi_found := true |}.
Definition sharedsections : list string := [
  "\basenamedobjects\shimsharedmemory"; "\basenamedobjects\windows_shell_global_counters"; "\basenamedobjects\msctf.shared.sfm.mih";
  "\basenamedobjects\msctf.shared.sfm.amf"; "\basenamedobjects\urlzonessm_administrator"; "\basenamedobjects\urlzonessm_system"].
Definition window_on_call : handler window_state := fun c p s =>
  let s := wi_enter p s in
  if bool_decide (api c = "NtMapViewOfSection") then
    undecided (if bool_decide (arg c "ProcessHandle" = Some "0xffffffff") then s else wi_share s)
  else if api_in ["NtOpenSection"; "NtCreateSection"] c then
    match arg c "ObjectAttributes" with
    | None => (Raise AttributeError, s)
    | Some name => undecided (if bool_decide (lower name ∈ sharedsections) then wi_share s else s)
    end
  else if starts_with "FindWindow" (api c) && c_status c then undecided (wi_find s)
  else if starts_with "SetWindowLong" (api c) && c_status c then if wi_sharedmap s && wi_found s then matches s else undecided s
  else undecided s.

(** *** CAPE_Injection *)

(** The sets are [None] until the first call. *)
Record inter_state := { in_last : option process; in_process : list (option string); in_write : gset (option string); in_detected : bool }.
Definition in_both (s : inter_state) : bool := existsb (fun h => bool_decide (h ∈ in_write s)) (in_process s).
Definition in_enter (p : process) (s : inter_state) : inter_state :=
  if same_process p (in_last s) then s
  else {| in_last := Some p; in_process := []; in_write := ∅; in_detected := in_detected s || in_both s |}.
Definition inter_on_call : handler inter_state := fun c p s =>
  let s := in_enter p s in
  if api_in ["CreateProcessInternalW"; "OpenProcess"; "NtOpenProcess"] c then
    undecided {| in_last := in_last s; in_process := arg c "ProcessHandle" :: in_process s; in_write := in_write s; in_detected := in_detected s |}
  else if api_in WRITES c then
    undecided {| in_last := in_last s; in_process := in_process s; in_write := {[arg c "ProcessHandle"]} ∪ in_write s; in_detected := in_detected s |}
  else undecided s.
Definition inter_on_complete (s : inter_state) : bool := in_detected s || in_both s.

(** *** CAPE_EvilGrab and CAPE_PlugX *)

Record evilgrab_state := { ev_keyname : bool; ev_binary : bool }.
Definition evilgrab_on_call : handler evilgrab_state := fun c _ s =>
  let s := if api_in ["RegCreateKeyExA"; "RegCreateKeyExW"] c && bool_decide (arg c "SubKey" = Some "Software\rar")
           then {| ev_keyname := true; ev_binary := ev_binary s |} else s in
  if api_in ["RegSetValueExA"; "RegSetValueExW"] c && truthy (arg c "BufferLength") then
    match int_of_arg py_int_text (arg c "BufferLength") with
    | Raise e => (Raise e, s)
    | Ok length =>
        undecided (if (0x10000 <? length) && ev_keyname s then {| ev_keyname := ev_keyname s; ev_binary := true |} else s)
    end
  else undecided s.

Record plugx_state := { px_compressed : bool; px_config : bool }.
Definition CONFIG_SIZES : list Z :=
  [0xAE4; 0xBE4; 0x150C; 0x1510; 0x1516; 0x170C; 0x1B18; 0x1D18; 0x2540; 0x254C; 0x2D58; 0x36A4; 0x4EA4].
(** The two characters are never "GULP". *)
Definition plugx_on_call : handler plugx_state := fun c _ s =>
  if bool_decide (api c = "RtlDecompressBuffer") then
    match arg c "UncompressedBuffer" with
    | None => (Raise TypeError, s)
    | Some buf =>
        undecided (if bool_decide (text (take 2 (B buf)) ∈ ["MZ"; "XV"; "GULP"]) then {| px_compressed := true; px_config := px_config s |} else s)
    end
  else if bool_decide (api c = "memcpy") then
    match int_of_arg py_int_text (arg c "count") with
    | Raise e => (Raise e, s)
    | Ok count => undecided (if bool_decide (count ∈ CONFIG_SIZES) then {| px_compressed := px_compressed s; px_config := true |} else s)
    end
  else undecided s.
Definition plugx_on_complete (s : plugx_state) : bool := px_config s && px_compressed s.

(** *** CAPE_Doppelganging and CAPE_TransactedHollowing *)

Record doppel_state := { do_last : option process; do_filehandle : option string; do_sectionhandle : option string }.
Definition do_enter (p : process) (s : doppel_state) : doppel_state :=
  if same_process p (do_last s) then s else {| do_last := Some p; do_filehandle := None; do_sectionhandle := None |}.
Definition doppel_on_call : handler doppel_state := fun c p s =>
  let s := do_enter p s in
  if api_in ["CreateFileTransactedA"; "CreateFileTransactedW"] c then
    undecided {| do_last := do_last s; do_filehandle := arg c "FileHandle"; do_sectionhandle := do_sectionhandle s |}
  else if bool_decide (api c = "NtCreateSection") then
    undecided (if truthy (do_filehandle s) && bool_decide (do_filehandle s = arg c "FileHandle")
               then {| do_last := do_last s; do_filehandle := do_filehandle s; do_sectionhandle := arg c "SectionHandle" |} else s)
  else if bool_decide (api c = "NtCreateProcessEx") then
    if bool_decide (arg c "SectionHandle" = do_sectionhandle s) then matches s else undecided s
  else undecided s.

Record transacted_state := { tr_set : bool; tr_rollback : bool; tr_hollowing : bool }.
Definition transacted_on_call : handler transacted_state := fun c _ s =>
  let s := if bool_decide (api c = "RtlSetCurrentTransaction")
           then {| tr_set := true; tr_rollback := tr_rollback s; tr_hollowing := tr_hollowing s |} else s in
  let s := if bool_decide (api c = "NtRollbackTransaction") && tr_set s
           then {| tr_set := tr_set s; tr_rollback := true; tr_hollowing := tr_hollowing s |} else s in
  undecided (if bool_decide (api c = "NtMapViewOfSection") && negb (bool_decide (arg c "ProcessHandle" = Some "0xffffffff"))
                && tr_rollback s
             then {| tr_set := tr_set s; tr_rollback := tr_rollback s; tr_hollowing := true |} else s).

(** ** The classes *)

Inductive cape_class :=
| CAPE_Compression | CAPE_RegBinary | CAPE_Decryption | CAPE_Unpacker | CAPE_InjectionCreateRemoteThread
| CAPE_InjectionProcessHollowing | CAPE_InjectionSetWindowLong | CAPE_Injection | CAPE_EvilGrab | CAPE_PlugX
| CAPE_Doppelganging | CAPE_TransactedHollowing | CAPEDetectedThreat.
#[global] Instance cape_class_eq_dec : EqDecision cape_class.
Proof. solve_decision. Defined.

Definition cape_attrs (n : string) (sev : Z) (t : option (list string)) (apis categories : list string) : sig_attrs :=
  {| name := n; enabled := true; evented := true; minimum := Some "1.3"; maximum := None; order := 0; severity := sev; weight := 1;
     confidence := 100; families := []; ttp := t; filter_processnames := []; filter_apinames := apis; filter_categories := categories;
     filter_analysistypes := [] |}.
Definition REG_APIS : list string := ["RegSetValueExA"; "RegSetValueExW"; "RegCreateKeyExA"; "RegCreateKeyExW"].
Definition WINDOW_APIS : list string :=
  ["NtMapViewOfSection"; "NtOpenSection"; "NtCreateSection"; "FindWindowA"; "FindWindowW"; "FindWindowExA"; "FindWindowExW"; "PostMessageA";
   "PostMessageW"; "SendNotifyMessageA"; "SendNotifyMessageW"; "SetWindowLongA"; "SetWindowLongW"; "SetWindowLongPtrA"; "SetWindowLongPtrW"].
Definition class_attrs (k : cape_class) : sig_attrs :=
  match k with
  | CAPE_Compression => cape_attrs "Compression" 1 (Some ["T1027"]) ["RtlDecompressBuffer"] []
  | CAPE_RegBinary => cape_attrs "RegBinary" 3 (Some ["T1112"]) REG_APIS []
  | CAPE_Decryption => cape_attrs "Decryption" 1 (Some ["T1027"]) ["CryptDecrypt"] []
  | CAPE_Unpacker => cape_attrs "Unpacker" 1 (Some ["T1027"]) ["NtAllocateVirtualMemory"; "NtProtectVirtualMemory"; "VirtualProtectEx"] []
  | CAPE_InjectionCreateRemoteThread => cape_attrs "InjectionCreateRemoteThread" 3 (Some ["T1055"]) [] ["process"; "threading"]
  | CAPE_InjectionProcessHollowing => cape_attrs "InjectionProcessHollowing" 3 (Some ["T1055"; "T1093"]) [] ["process"; "threading"]
  | CAPE_InjectionSetWindowLong => cape_attrs "InjectionSetWindowLong" 3 (Some ["T1055"; "T1181"]) WINDOW_APIS []
  | CAPE_Injection => cape_attrs "InjectionInterProcess" 3 (Some ["T1055"]) [] ["process"]
  | CAPE_EvilGrab => cape_attrs "EvilGrab" 3 (Some ["T1219"]) REG_APIS []
  | CAPE_PlugX =>
      let a := cape_attrs "PlugX" 3 (Some ["T1219"]) ["RtlDecompressBuffer"; "memcpy"] [] in
      {| name := name a; enabled := true; evented := true; minimum := minimum a; maximum := None; order := 0; severity := 3; weight := 1;
         confidence := 100; families := ["PlugX"]; ttp := ttp a; filter_processnames := []; filter_apinames := filter_apinames a;
         filter_categories := []; filter_analysistypes := [] |}
  | CAPE_Doppelganging => cape_attrs "Doppelganging" 3 (Some ["T1055"; "T1186"]) [] ["process"; "thread"; "filesystem"]
  | CAPE_TransactedHollowing =>
      cape_attrs "TransactedHollowing" 3 (Some ["T1055"; "T1093"]) ["RtlSetCurrentTransaction"; "NtRollbackTransaction"; "NtMapViewOfSection"] []
  | CAPEDetectedThreat => cape_attrs "cape_detected_threat" 3 None [] []
  end.

(** The attributes an instance of each class adds. *)
Inductive sig_state :=
| SCompression (compressed_binary : bool) | SRegBinary (reg_binary : bool) | SDecryption (encrypted_binary : bool) | SUnpacker (u : unit)
| SThread (s : thread_state) | SHollow (s : hollow_state) | SWindow (s : window_state) | SInter (s : inter_state)
| SEvilGrab (s : evilgrab_state) | SPlugX (s : plugx_state) | SDoppel (s : doppel_state) | STransacted (s : transacted_state)
| SThreat (description : option string) (data : list (string * list (string * string))).
Definition thread_init : thread_state :=
  {| th_last := None; th_handles := ∅; th_pids := ∅; th_write := false; th_thread := false; th_description := None |}.
Definition hollow_init : hollow_state := {| ho_last := None; ho_sequence := 0; ho_process := []; ho_thread := []; ho_data := [] |}.
Definition inter_init : inter_state := {| in_last := None; in_process := []; in_write := ∅; in_detected := false |}.
Definition transacted_init : transacted_state := {| tr_set := false; tr_rollback := false; tr_hollowing := false |}.
Definition class_init (k : cape_class) : sig_state :=
  match k with
  | CAPE_Compression => SCompression false
  | CAPE_RegBinary => SRegBinary false
  | CAPE_Decryption => SDecryption false
  | CAPE_Unpacker => SUnpacker tt
  | CAPE_InjectionCreateRemoteThread => SThread thread_init
  | CAPE_InjectionProcessHollowing => SHollow hollow_init
  | CAPE_InjectionSetWindowLong => SWindow {| wi_last := None; wi_sharedmap := false; wi_found := false |}
  | CAPE_Injection => SInter inter_init
  | CAPE_EvilGrab => SEvilGrab {| ev_keyname := false; ev_binary := false |}
  | CAPE_PlugX => SPlugX {| px_compressed := false; px_config := false |}
  | CAPE_Doppelganging => SDoppel {| do_last := None; do_filehandle := None; do_sectionhandle := None |}
  | CAPE_TransactedHollowing => STransacted transacted_init
  | CAPEDetectedThreat => SThreat None []
  end.

Definition with_state {S} (mk : S -> sig_state) (h : handler S) (c : call) (p : process) (s : S) : res (option bool) * sig_state :=
  ((h c p s).1, mk (h c p s).2).
(** [on_call] of the base class raises. *)
Definition state_on_call (r : results) (c : call) (p : process) (s : sig_state) : res (option bool) * sig_state :=
  match s with
  | SCompression b => with_state SCompression compression_on_call c p b
  | SRegBinary b => with_state SRegBinary regbinary_on_call c p b
  | SDecryption b => with_state SDecryption decryption_on_call c p b
  | SUnpacker u => with_state SUnpacker unpacker_on_call c p u
  | SThread s => with_state SThread thread_on_call c p s
  | SHollow s => with_state SHollow (hollow_on_call r) c p s
  | SWindow s => with_state SWindow window_on_call c p s
  | SInter s => with_state SInter inter_on_call c p s
  | SEvilGrab s => with_state SEvilGrab evilgrab_on_call c p s
  | SPlugX s => with_state SPlugX plugx_on_call c p s
  | SDoppel s => with_state SDoppel doppel_on_call c p s
  | STransacted s => with_state STransacted transacted_on_call c p s
  | SThreat _ _ => (Raise NotImplementedError, s)
  end.
Definition state_on_complete (s : sig_state) : res bool :=
  match s with
  | SCompression b | SRegBinary b | SDecryption b => Ok b
  | SThread s => Ok (thread_on_complete s)
  | SInter s => Ok (inter_on_complete s)
  | SEvilGrab s => Ok (ev_binary s)
  | SPlugX s => Ok (plugx_on_complete s)
  | STransacted s => Ok (tr_hollowing s)
  | SUnpacker _ | SHollow _ | SWindow _ | SDoppel _ | SThreat _ _ => Raise NotImplementedError
  end.

(** ** The objects, and the interface of the runner *)

(** A class or an instance with the attributes set on it; an attribute that an
    instance does not have is that of its class. *)
Record cape_object := { o_class : cape_class; o_own : list overlay_item; o_state : option sig_state }.
Record cape_world := {
  cw_objects : list cape_object; cw_results : results; cw_category : res string; cw_malfamily : string; cw_detections : detections }.
Definition with_objects (l : list cape_object) (w : cape_world) : cape_world :=
  {| cw_objects := l; cw_results := cw_results w; cw_category := cw_category w; cw_malfamily := cw_malfamily w;
     cw_detections := cw_detections w |}.

Definition set_item (a : sig_attrs) (i : overlay_item) : sig_attrs :=
  {| name := match i with OName s => s | _ => name a end;
     enabled := match i with OEnabled b => b | _ => enabled a end;
     evented := evented a; minimum := minimum a; maximum := maximum a; order := order a;
     severity := match i with OSeverity n => n | _ => severity a end;
     weight := match i with OWeight n => n | _ => weight a end;
     confidence := match i with OConfidence n => n | _ => confidence a end;
     families := match i with OFamilies l => l | _ => families a end;
     ttp := ttp a; filter_processnames := filter_processnames a; filter_apinames := filter_apinames a;
     filter_categories := filter_categories a; filter_analysistypes := filter_analysistypes a |}.
Fixpoint own_class (l : list cape_object) (k : cape_class) : list overlay_item :=
  match l with
  | [] => []
  | o :: l' =>
      match o_state o with
      | None => if bool_decide (o_class o = k) then o_own o else own_class l' k
      | Some _ => own_class l' k
      end
  end.
Definition object_attrs (l : list cape_object) (o : cape_object) : sig_attrs :=
  fold_left set_item (match o_state o with Some _ => own_class l (o_class o) ++ o_own o | None => o_own o end) (class_attrs (o_class o)).
Definition no_attrs : sig_attrs := cape_attrs "" 1 None [] [].
Definition cape_ref_attrs (w : cape_world) (x : nat) : sig_attrs :=
  match cw_objects w !! x with Some o => object_attrs (cw_objects w) o | None => no_attrs end.

Definition cape_setattr (x : nat) (i : overlay_item) (w : cape_world) : cape_world :=
  match cw_objects w !! x with
  | Some o => with_objects (<[x := {| o_class := o_class o; o_own := o_own o ++ [i]; o_state := o_state o |}]> (cw_objects w)) w
  | None => w
  end.
Definition cape_construct (x : nat) : st cape_world nat := fun w =>
  match cw_objects w !! x with
  | Some {| o_class := k; o_state := None |} =>
      (Ok (length (cw_objects w)), with_objects (cw_objects w ++ [{| o_class := k; o_own := []; o_state := Some (class_init k) |}]) w)
  | _ => (Raise TypeError, w)
  end.
Definition put_state (x : nat) (o : cape_object) (s : sig_state) (w : cape_world) : cape_world :=
  with_objects (<[x := {| o_class := o_class o; o_own := o_own o; o_state := Some s |}]> (cw_objects w)) w.
Definition cape_on_call (x : nat) (c : call) (p : process) : st cape_world (option bool) := fun w =>
  match cw_objects w !! x with
  | Some o =>
      match o_state o with
      | Some s => let h := state_on_call (cw_results w) c p s in (h.1, put_state x o h.2 w)
      | None => (Raise TypeError, w)
      end
  | None => (Raise TypeError, w)
  end.
Definition cape_on_complete (x : nat) : st cape_world bool := fun w =>
  match cw_objects w !! x with
  | Some {| o_state := Some s |} => (state_on_complete s, w)
  | _ => (Raise TypeError, w)
  end.
(** [run] of CAPEDetectedThreat; that of the base class raises. *)
Definition threat_description (d : detections) : string := "CAPE detected the " +:+ join ", " d.*1 +:+ " malware".
Definition cape_run (x : nat) (_ : list sig_match) : st cape_world bool := fun w =>
  match cw_objects w !! x with
  | Some o =>
      match o_state o with
      | Some (SThreat _ data) =>
          if bool_decide (cw_detections w = []) then (Ok false, w)
          else (Ok true, put_state x o (SThreat (Some (threat_description (cw_detections w))) (data ++ cw_detections w)) w)
      | Some _ => (Raise NotImplementedError, w)
      | None => (Raise TypeError, w)
      end
  | None => (Raise TypeError, w)
  end.

(** Logs that can be read to their end. *)
Definition read_to_end (ps : list (process * list call)) : list (process * (list call * option exn)) :=
  (fun pc => (pc.1, (pc.2, None))) <$> ps.

#[global] Instance cape_code : signature_code cape_world := {
  attrs := cape_ref_attrs;
  setattr := cape_setattr;
  construct := cape_construct;
  on_call := cape_on_call;
  on_complete := cape_on_complete;
  sig_run := cape_run;
  target_category := cw_category;
  behavior_processes w := (fun b => read_to_end (br_processes b)) <$> r_behavior (cw_results w);
  malfamily_tag := cw_malfamily;
  get_detections := cw_detections;
  set_detections d w :=
    {| cw_objects := cw_objects w; cw_results := cw_results w; cw_category := cw_category w; cw_malfamily := cw_malfamily w; cw_detections := d |} }.

(** ** Printable text is no PE image *)

(** All bytes of a text are letters, digits, punctuation, space, tab, CR or LF. *)
Abbreviation plain l := (Forall (fun z => printable z = true) l).

Lemma slice_length {A} (l : list A) a b : 0 <= a <= b -> b <= zlen l -> zlen (slice l a b) = b - a.
Proof.
  intros Hab Hb. unfold slice. rewrite !slice_bound_in by lia. unfold zlen in *. rewrite length_take, length_drop. lia.
Qed.

Lemma printable_range z : printable z = true -> 9 <= z <= 126.
Proof. unfold printable. rewrite !orb_true_iff, andb_true_iff, !Z.eqb_eq, !Z.leb_le. lia. Qed.

Lemma probe_plain buf offsets : plain buf -> probe_machine buf offsets = [].
Proof.
  intros H. induction offsets as [|o l IH]; [done|]. cbn [probe_machine]. unfold unpack.
  pose proof (slice_Forall _ buf (Z.of_nat o) (Z.of_nat o + 2) H) as Hs.
  destruct (decide _) as [Hl|]; [|done]. destruct (slice buf _ _) as [|a [|b [|? ?]]]; try done.
  apply Forall_cons in Hs as [Ha Hb]. apply Forall_cons in Hb as [Hb _].
  apply printable_range in Ha, Hb. cbn [le_val]. rewrite bool_decide_false; [done|].
  unfold IMAGE_FILE_MACHINE_I386, IMAGE_FILE_MACHINE_AMD64. lia.
Qed.

Lemma le_val_plain l : plain l -> length l = 4%nat -> PE_HEADER_LIMIT < le_val l.
Proof.
  intros H Hl. destruct l as [|a [|b [|c [|d [|? ?]]]]]; try done. unfold PE_HEADER_LIMIT.
  repeat (apply Forall_cons in H as [?%printable_range H]). cbn [le_val]. lia.
Qed.

Lemma nt_headers_plain buf : plain buf -> nt_headers_of buf = [].
Proof.
  intros H. unfold nt_headers_of. set (d := slice buf 0 DOS_HEADER_LIMIT).
  destruct (_ =? _)%nat eqn:E; [|by apply probe_plain].
  assert (Hd : 64 <= zlen d).
  { apply Nat.eqb_eq in E. pose proof (slice_length_le d 0 64 ltac:(lia)) as Hle.
    pose proof (slice_length_in d 0 64 ltac:(lia)) as Hin. destruct (slice d 0 64) eqn:Es; [done|]. rewrite <-Es in *.
    specialize (Hin ltac:(rewrite Es; discriminate)). unfold zlen in *. lia. }
  assert (Hl : length (slice d 60 64) = 4%nat).
  { pose proof (slice_length d 60 64 ltac:(lia) Hd) as Hl. unfold zlen in Hl. lia. }
  pose proof (le_val_plain _ (slice_Forall _ d 60 64 (slice_Forall _ buf _ _ H)) Hl) as Hlt.
  apply Z.ltb_lt in Hlt as ->. rewrite orb_true_r. by apply probe_plain.
Qed.

Lemma plain_no_image s size : plain (byte_val <$> B s) -> IsPEImage_text s size = false.
Proof.
  intros H. unfold IsPEImage_text, IsPEImage. destruct (_ =? _); [done|]. destruct (_ <? _); [done|]. destruct (_ <? _); [done|].
  by rewrite (nt_headers_plain _ H).
Qed.

(** ** What the parser of the logs gives is printable *)

Lemma byte_char_val z : 0 <= z < 256 -> byte_val (byte_char z) = z.
Proof. intros Hz. unfold byte_val, byte_char. rewrite nat_ascii_embedding by lia. lia. Qed.
Lemma plain_bytes l : (forall b, b ∈ l -> exists z, b = byte_char z /\ printable z = true) -> plain (byte_val <$> l).
Proof.
  intros H. apply Forall_forall. intros z (b & -> & Hb)%list_elem_of_fmap. destruct (H b Hb) as (z & -> & Hz).
  by rewrite byte_char_val by (apply printable_range in Hz; lia).
Qed.

Lemma byte_in_range lo hi c : byte_in lo hi c = true <-> Z.of_nat lo <= byte_val c <= Z.of_nat hi.
Proof. unfold byte_in, byte_val. rewrite andb_true_iff, !Nat.leb_le. lia. Qed.
Lemma byte_in_false lo hi c : byte_in lo hi c = false <-> ~ (Z.of_nat lo <= byte_val c <= Z.of_nat hi).
Proof. rewrite <-byte_in_range. by destruct (byte_in lo hi c). Qed.
Lemma byte_val_range c : 0 <= byte_val c < 256.
Proof. unfold byte_val. pose proof (nat_ascii_bounded c). lia. Qed.

(** A character of several bytes is not printable. *)
Lemma wide_char_unprintable a b l1 : utf8_valid (a :: b :: l1) = true -> 128 <= byte_val a ->
  forallb printable (utf8_chars (a :: b :: l1)) = false.
Proof.
  intros Hv Ha. pose proof (byte_val_range b). cbn [utf8_valid] in Hv. destruct (byte_in 0 127 a) eqn:E0; [apply byte_in_range in E0; lia|].
  cbn [utf8_chars]. rewrite (proj2 (Z.ltb_ge (byte_val a) 128)) by lia.
  assert (Hbig : forall z k, 126 < z -> forallb printable (z :: k) = false).
  { intros z k Hz. cbn [forallb]. destruct (printable z) eqn:E; [apply printable_range in E; lia|done]. }
  destruct (byte_in 194 223 a) eqn:E1.
  - apply byte_in_range in E1. apply andb_true_iff in Hv as [Hb%byte_in_range _]. rewrite (proj2 (Z.ltb_lt (byte_val a) 224)) by lia.
    apply Hbig. lia.
  - destruct l1 as [|c l1]; [done|]. destruct (_ || _) eqn:E3 in Hv.
    + apply andb_true_iff in Hv as [Hc%byte_in_range _]. rewrite !orb_true_iff, !andb_true_iff, orb_true_iff in E3.
      unfold cont in *. rewrite !byte_in_range in E3. rewrite (proj2 (Z.ltb_ge (byte_val a) 224)), (proj2 (Z.ltb_lt (byte_val a) 240)) by lia.
      apply Hbig. lia.
    + destruct l1 as [|d l1]; [done|]. rewrite !andb_true_iff, !orb_true_iff, !andb_true_iff in Hv. unfold cont in *.
      rewrite !byte_in_range in Hv. rewrite (proj2 (Z.ltb_ge (byte_val a) 224)), (proj2 (Z.ltb_ge (byte_val a) 240)) by lia.
      apply Hbig. lia.
Qed.

Lemma printable_chars_plain n : forall l, (length l <= n)%nat -> utf8_valid l = true -> forallb printable (utf8_chars l) = true ->
  plain (byte_val <$> l).
Proof.
  induction n as [|n IH]; intros [|a l1] Hn Hv Hp; cbn in Hn; try (by constructor); [lia|].
  destruct (Z_lt_le_dec (byte_val a) 128) as [Ha|Ha].
  - cbn [utf8_valid utf8_chars] in Hv, Hp. rewrite (proj2 (Z.ltb_lt _ _) Ha) in Hp. cbn [forallb] in Hp. apply andb_true_iff in Hp as [Hpa Hp].
    rewrite (proj2 (byte_in_range 0 127 a)) in Hv by (pose proof (byte_val_range a); lia). constructor; [done|]. apply IH; [lia|done|done].
  - destruct l1 as [|b l1].
    + cbn [utf8_valid] in Hv. by rewrite (proj2 (byte_in_false 0 127 a)) in Hv by lia.
    + by rewrite (wide_char_unprintable a b l1 Hv Ha) in Hp.
Qed.

Lemma convert_char_plain z b : b ∈ convert_char z -> exists y, b = byte_char y /\ printable y = true.
Proof.
  unfold convert_char. destruct (printable z) eqn:E.
  - intros ->%list_elem_of_singleton. by exists z.
  - rewrite elem_of_app. intros [Hb|Hb].
    + apply (elem_of_cons) in Hb as [->|Hb%list_elem_of_singleton]; [by exists 92|subst b; by exists 120].
    + apply hex_rep_chars in Hb as (d & Hd & ->). unfold hex_digit. eexists. split; [done|].
      unfold printable. destruct (d <? 10) eqn:Ed; [apply Z.ltb_lt in Ed|apply Z.ltb_ge in Ed];
        rewrite !orb_true_iff, andb_true_iff, !Z.leb_le; lia.
Qed.

Lemma printable_text_plain s : utf8_valid (B s) = true -> plain (byte_val <$> B (printable_text s)).
Proof.
  intros Hv. unfold printable_text. destruct (forallb _ _) eqn:E; [by eapply printable_chars_plain|].
  rewrite B_text. apply plain_bytes. intros b (l & Hb & (z & -> & _)%list_elem_of_fmap)%list_elem_of_join.
  exact (convert_char_plain z b Hb).
Qed.

Lemma utf8_valid_app n : forall l k, (length l <= n)%nat -> utf8_valid l = true -> utf8_valid k = true -> utf8_valid (l ++ k) = true.
Proof.
  induction n as [|n IH]; intros [|a l1] k Hn Hl Hk; cbn [length] in Hn; [done|lia|done|]. cbn [app utf8_valid] in *.
  destruct (byte_in 0 127 a); [apply IH; [lia|done..]|]. destruct l1 as [|b l1]; [done|]. cbn [app length] in *.
  destruct (byte_in 194 223 a).
  { apply andb_true_iff in Hl as [-> Hl]. apply IH; [lia|done..]. }
  destruct l1 as [|c l1]; [done|]. cbn [app length] in *. destruct (_ || _) eqn:E3.
  { apply andb_true_iff in Hl as [-> Hl]. apply IH; [lia|done..]. }
  destruct l1 as [|d l1]; [done|]. cbn [app length] in *. rewrite !andb_true_iff in Hl. destruct Hl as [[[E4 ->] ->] Hl].
  rewrite E4. apply IH; [lia|done..].
Qed.
Lemma utf8_app s1 s2 : utf8_valid (B s1) = true -> utf8_valid (B s2) = true -> utf8_valid (B (s1 +:+ s2)) = true.
Proof. intros H1 H2. rewrite B_app. by eapply utf8_valid_app. Qed.

Lemma decode_valid b s : decode_utf8 b = Some s -> utf8_valid (B s) = true.
Proof. unfold decode_utf8. destruct (utf8_valid _) eqn:E; [|done]. intros [= <-]. by rewrite B_text. Qed.

Lemma latin1_valid b : 0 <= b < 256 -> utf8_valid (latin1_utf8 b) = true.
Proof.
  intros Hb. unfold latin1_utf8. destruct (b <? 128) eqn:E; [apply Z.ltb_lt in E|apply Z.ltb_ge in E]; cbn [utf8_valid].
  - by rewrite (proj2 (byte_in_range 0 127 _)) by (rewrite byte_char_val by lia; lia).
  - assert (H1 : 194 <= 192 + b / 64 <= 195) by (pose proof (Z.div_mod b 64 ltac:(lia)); pose proof (Z.mod_pos_bound b 64 ltac:(lia)); lia).
    assert (H2 : 128 <= 128 + b mod 64 <= 191) by (pose proof (Z.mod_pos_bound b 64 ltac:(lia)); lia).
    rewrite (proj2 (byte_in_false 0 127 _)), (proj2 (byte_in_range 194 223 _)) by (rewrite byte_char_val by lia; lia).
    unfold cont. by rewrite (proj2 (byte_in_range 128 191 _)) by (rewrite byte_char_val by lia; lia).
Qed.
Lemma bytes2str_valid b : Forall is_byte b -> utf8_valid (B (bytes2str b)) = true.
Proof.
  intros Hb. unfold bytes2str. destruct (decode_utf8 b) eqn:E; [by apply (decode_valid b)|]. rewrite B_text. clear E.
  induction Hb as [|x l Hx Hl IH]; [done|]. cbn. eapply utf8_valid_app; [done|by apply latin1_valid|done].
Qed.
Lemma bytes2str_list_valid l : forall parts, bytes2str_list l = Ok parts -> Forall (fun s => utf8_valid (B s) = true) parts.
Proof.
  induction l as [|b l IH]; intros parts; cbn; [by intros [= <-]|]. unfold bytes2str_element.
  destruct (decode_utf8 b) as [s|] eqn:E; [|done]. cbn. destruct (bytes2str_list l) as [r|]; [|done]. intros [= <-].
  constructor; [by apply (decode_valid b)|by apply IH].
Qed.
Lemma join_valid l : Forall (fun s => utf8_valid (B s) = true) l -> utf8_valid (B (join " " l)) = true.
Proof.
  induction 1 as [|s l Hs Hl IH]; [done|]. destruct l as [|s' l]; [done|]. change (join " " (s :: s' :: l)) with (s +:+ " " +:+ join " " (s' :: l)).
  apply utf8_app; [done|]. by apply utf8_app.
Qed.

Lemma str_int_plain v : plain (byte_val <$> B (str_int v)).
Proof.
  assert (Hd : forall fuel v acc, (forall b, b ∈ acc -> exists z, b = byte_char z /\ printable z = true) ->
               forall b, b ∈ dec_rep fuel v acc -> exists z, b = byte_char z /\ printable z = true).
  { induction fuel as [|fuel IH]; intros w acc Hacc b; cbn [dec_rep]; [apply Hacc|].
    assert (Hacc' : forall b, b ∈ byte_char (48 + w mod 10) :: acc -> exists z, b = byte_char z /\ printable z = true).
    { intros b' [->|Hb']%elem_of_cons; [|by apply Hacc]. eexists. split; [done|]. pose proof (Z.mod_pos_bound w 10 ltac:(lia)).
      unfold printable. rewrite !orb_true_iff, andb_true_iff, !Z.leb_le. lia. }
    destruct (w <? 10); [apply Hacc'|by apply IH]. }
  unfold str_int. destruct (v <? 0).
  - rewrite B_app, B_text. rewrite fmap_app. apply Forall_app. split; [by constructor|]. apply plain_bytes, Hd. by intros b ?%elem_of_nil.
  - rewrite B_text. apply plain_bytes, Hd. by intros b ?%elem_of_nil.
Qed.

(** What BSON gives: text is UTF-8, binary data are bytes. *)
Definition decoded (v : bval) : Prop :=
  match v with BText s => utf8_valid (B s) = true | BBytes b => Forall is_byte b | _ => True end.

Lemma parsed_argument_plain reporting cat apin n v a : decoded v -> parse_argument reporting cat apin (n, v) = Ok (Some a) ->
  plain (byte_val <$> B (a_value a)).
Proof.
  intros Hv. unfold parse_argument. destruct (arg_text v) as [t|e] eqn:Et; [|done]. cbn [rbind].
  destruct (convert_to_printable t) as [s|e] eqn:Ec; [|done]. destruct (pretty_print_arg _ _ _ _) as [pretty|e]; [|done].
  intros [= <-]. cbn [a_value].
  assert (Ht : match t with BInt _ => True | BText s => utf8_valid (B s) = true | _ => False end \/ t = BNone).
  { destruct v; cbn [arg_text] in Et; try (simplify_eq; cbn; auto).
    - left. by apply bytes2str_valid.
    - destruct (bytes2str_list _) as [parts|] eqn:Ep; [|done]. cbn in Et. simplify_eq. left. by eapply join_valid, bytes2str_list_valid. }
  destruct t; cbn in Ec; destruct Ht; simplify_eq; try done.
  - apply str_int_plain.
  - by apply printable_text_plain.
Qed.

(** ** A signature in a run *)

(** One call, then the calls of a process and of all processes, until the
    signature decides. An exception decides too. *)
Definition tell_one (r : results) (c : call) (p : process) (s : sig_state) : option bool * sig_state :=
  match state_on_call r c p s with
  | (Ok d, s') => (d, s')
  | (Raise _, s') => (Some false, s')
  end.
Fixpoint told (k : cape_class) (r : results) (p : process) (cs : list call) (s : sig_state) : option bool * sig_state :=
  match cs with
  | [] => (None, s)
  | c :: cs' =>
      if wants (class_attrs k) p c then
        match tell_one r c p s with (None, s1) => told k r p cs' s1 | d => d end
      else told k r p cs' s
  end.
Fixpoint told_all (k : cape_class) (r : results) (ps : list (process * list call)) (s : sig_state) : option bool * sig_state :=
  match ps with
  | [] => (None, s)
  | (p, cs) :: ps' => match told k r p cs s with (None, s1) => told_all k r ps' s1 | d => d end
  end.
(** Whether a signature that is told these calls ends among the matches. *)
Definition reported (k : cape_class) (r : results) (ps : list (process * list call)) : bool :=
  match told_all k r ps (class_init k) with
  | (Some d, _) => d
  | (None, s) => match state_on_complete s with Ok d => d | Raise _ => false end
  end.
Definition the_match (k : cape_class) : sig_match := as_result (class_attrs k).
Definition decision (k : cape_class) (x : option bool) : list sig_match := match x with Some true => [the_match k] | _ => [] end.

Lemma the_match_inj k1 k2 : the_match k1 = the_match k2 -> k1 = k2.
Proof. destruct k1, k2; (done || (intros E; discriminate E)). Qed.
Lemma decision_in k k' x : the_match k ∈ decision k' x <-> k = k' /\ x = Some true.
Proof.
  destruct x as [[]|]; cbn [decision]; rewrite ?list_elem_of_singleton, ?elem_of_nil; try (split; [done|by intros [_ ?]]).
  split; [by intros ?%the_match_inj|by intros [-> _]].
Qed.

(** *** The classes of a run, and an object of each *)

Section loaded.
Context (ks : list cape_class) (Hks : NoDup ks) (r : results) (category malfamily : string) (d : detections).

Definition class_object (k : cape_class) : cape_object := {| o_class := k; o_own := []; o_state := None |}.
Definition instance_object (k : cape_class) (s : sig_state) : cape_object := {| o_class := k; o_own := []; o_state := Some s |}.
Definition world_of (more : list cape_object) : cape_world :=
  {| cw_objects := (class_object <$> ks) ++ more; cw_results := r; cw_category := Ok category; cw_malfamily := malfamily;
     cw_detections := d |}.
(** Every signature of the module is a class, none has been made. *)
Definition loaded : run_state cape_world :=
  {| complete := seq 0 (length ks); matched := []; ttps := []; world := world_of [] |}.

(** The state of the run when the objects have the states [ss]. *)
Abbreviation ref j := (length ks + j)%nat.
Definition run_at (m : list sig_match) (t : list (string * string)) (ss : list sig_state) : run_state cape_world :=
  {| complete := seq 0 (length ks); matched := m; ttps := t; world := world_of (zip_with instance_object ks ss) |}.
Abbreviation stats := (name <$> (class_attrs <$> ks)).

Lemma own_nothing k l : Forall (fun o => o_own o = []) l -> own_class l k = [].
Proof using Type.
  induction 1 as [|o l Ho Hl IH]; [done|]. cbn [own_class]. destruct (o_state o); [done|]. by case_bool_decide.
Qed.
Lemma plain_objects ss : Forall (fun o => o_own o = []) ((class_object <$> ks) ++ zip_with instance_object ks ss).
Proof using Type.
  apply Forall_app. split; [by apply Forall_fmap, Forall_true|]. clear. revert ss. by induction ks; intros [|s ss]; constructor.
Qed.
Lemma instance_at ss j k s : ks !! j = Some k -> ss !! j = Some s ->
  ((class_object <$> ks) ++ zip_with instance_object ks ss) !! ref j = Some (instance_object k s).
Proof using Type.
  intros Hk Hs. rewrite lookup_app_r by (rewrite length_fmap; lia). rewrite length_fmap. replace (_ - _)%nat with j by lia.
  by rewrite lookup_zip_with, Hk, Hs.
Qed.
Lemma attrs_at m t ss j k s : ks !! j = Some k -> ss !! j = Some s -> the_attrs (run_at m t ss) (ref j) = class_attrs k.
Proof using Type.
  intros Hk Hs. unfold the_attrs. cbn [attrs cape_code]. unfold cape_ref_attrs. cbn [world run_at cw_objects world_of].
  rewrite (instance_at _ _ _ _ Hk Hs). unfold object_attrs. cbn [o_state instance_object o_class o_own].
  by rewrite own_nothing by apply plain_objects.
Qed.

Lemma put_at ss j k s s' : ks !! j = Some k -> ss !! j = Some s ->
  put_state (ref j) (instance_object k s) s' (world_of (zip_with instance_object ks ss)) =
  world_of (zip_with instance_object ks (<[j := s']> ss)).
Proof using Type.
  intros Hk Hs. unfold put_state, with_objects, world_of. cbn [cw_objects cw_results cw_category cw_malfamily cw_detections].
  f_equal. rewrite insert_app_r_alt by (rewrite length_fmap; lia). f_equal. rewrite length_fmap. replace (_ - _)%nat with j by lia.
  cbn [o_class o_own instance_object]. clear Hks. revert j ss Hk Hs. induction ks as [|k' l IH]; intros [|j] [|s0 ss] Hk Hs; try done; cbn in *.
  - by simplify_eq.
  - f_equal. by apply IH.
Qed.

Lemma stats_has k j : ks !! j = Some k -> name (class_attrs k) ∈ stats.
Proof using Type. intros Hk. apply list_elem_of_fmap. exists (class_attrs k). split; [done|]. apply list_elem_of_fmap. exists k. split; [done|]. by eapply list_elem_of_lookup_2. Qed.

(** One object is told of a call. *)
Lemma call_at c p m t ss j k s : ks !! j = Some k -> ss !! j = Some s ->
  call_result stats (ref j) c p (run_at m t ss) = ((tell_one r c p s).1, run_at m t (<[j := (tell_one r c p s).2]> ss)).
Proof using Type.
  intros Hk Hs. unfold call_result, in_world. cbn [on_call cape_code world run_at]. unfold cape_on_call. cbn [cw_objects world_of].
  rewrite (instance_at _ _ _ _ Hk Hs). cbn [o_state instance_object cw_results]. fold (world_of (zip_with instance_object ks ss)).
  fold (instance_object k s). rewrite (put_at _ _ _ _ _ Hk Hs). unfold tell_one. cbn [cw_results world_of].
  assert (Hj : (j < length ss)%nat) by (by eapply lookup_lt_Some).
  destruct (state_on_call r c p s) as [[x|e] s'] eqn:E; cbn [fst snd]; (change (set_world _ _) with (run_at m t (<[j := s']> ss))); [|done].
  rewrite (attrs_at _ _ _ _ k s' Hk) by (by rewrite list_lookup_insert_eq). by rewrite bool_decide_true by (by eapply stats_has).
Qed.
Lemma settle_at b m t ss j k s : ks !! j = Some k -> ss !! j = Some s ->
  settle (ref j) b (run_at m t ss) = run_at (m ++ decision k (Some b)) t ss.
Proof using Type.
  intros Hk Hs. destruct b; cbn [settle decision]; [|by rewrite app_nil_r]. unfold record_match. rewrite (attrs_at _ _ _ _ _ _ Hk Hs).
  cbn [complete add_matched run_at]. rewrite remove_first_absent by (intros ?%elem_of_seq; lia). done.
Qed.

(** What happens to each signature of the list [js] when some calls are told:
    [E k first s x] relates its state to its decision and new state, [first]
    if it is the first of the list. *)
Abbreviation effect := (cape_class -> bool -> sig_state -> option bool * sig_state -> Prop).
Definition outcome (E : effect) (js : list nat) (ss : list sig_state) (js' : list nat) (ss' : list sig_state) (ms : list sig_match) : Prop :=
  sublist js' js /\ length ss' = length ss /\ forall j k s, ks !! j = Some k -> ss !! j = Some s ->
    (j ∉ js -> ss' !! j = Some s /\ the_match k ∉ ms) /\
    (j ∈ js -> exists x, E k (bool_decide (head js = Some j)) s x /\ ss' !! j = Some x.2 /\ (j ∈ js' <-> x.1 = None) /\
      (the_match k ∈ ms <-> x.1 = Some true) /\ (head js = Some j -> x.1 = None -> head js' = Some j)).

Lemma outcome_mono (E1 E2 : effect) js ss js' ss' ms : (forall k f s x, E1 k f s x -> E2 k f s x) ->
  outcome E1 js ss js' ss' ms -> outcome E2 js ss js' ss' ms.
Proof using Type.
  intros HE (Hsub & Hlen & H). split_and!; [done..|]. intros j k s Hk Hs. destruct (H j k s Hk Hs) as [H1 H2]. split; [done|].
  intros Hj. destruct (H2 Hj) as (x & Hx & ?). exists x. split; [by apply HE|done].
Qed.

Definition then_effect (E1 E2 : effect) : effect := fun k first s x =>
  exists y, E1 k first s y /\
    match y.1 with Some _ => x = y | None => exists first', (first = true -> first' = true) /\ E2 k first' y.2 x end.
Lemma outcome_trans E1 E2 js ss js1 ss1 ms1 js2 ss2 ms2 :
  outcome E1 js ss js1 ss1 ms1 -> outcome E2 js1 ss1 js2 ss2 ms2 -> outcome (then_effect E1 E2) js ss js2 ss2 (ms1 ++ ms2).
Proof using Type.
  intros (Hs1 & Hl1 & H1) (Hs2 & Hl2 & H2). split_and!; [by etrans|congruence|]. intros j k s Hk Hs.
  destruct (H1 j k s Hk Hs) as [Hout Hin]. split.
  - intros Hj. destruct (Hout Hj) as [Hss Hm]. destruct (H2 j k s Hk Hss) as [[Hss2 Hm2] _].
    { intros Hj1. apply Hj. by eapply elem_of_sublist. }
    split; [done|]. rewrite elem_of_app. by intros [].
  - intros Hj. destruct (Hin Hj) as (y & Hy & Hss & Hj1 & Hm & Hh). destruct (H2 j k y.2 Hk Hss) as [Hout2 Hin2].
    destruct y.1 as [b|] eqn:Ey.
    + destruct Hout2 as [Hss2 Hm2]; [by rewrite Hj1|]. exists y. split_and!.
      * exists y. by rewrite Ey.
      * done.
      * rewrite Ey. split; [|done]. intros Hj2. exfalso. assert (Hin1 : j ∈ js1) by (by eapply elem_of_sublist). by apply Hj1 in Hin1.
      * rewrite Ey, elem_of_app, Hm. naive_solver.
      * by rewrite Ey.
    + destruct Hin2 as (x & Hx & Hss2 & Hj2 & Hm2 & Hh2); [by apply Hj1|]. exists x. split_and!.
      * exists y. split; [done|]. rewrite Ey. exists (bool_decide (head js1 = Some j)). split; [|done].
        intros Hf%bool_decide_eq_true. apply bool_decide_eq_true. by apply Hh.
      * done.
      * done.
      * rewrite elem_of_app, Hm, Hm2. naive_solver.
      * intros Hf Hx1. apply Hh2; [by apply Hh|done].
Qed.

(** One call: a signature is asked, does not want the call, or is skipped. *)
Definition one_call (c : call) (p : process) : effect := fun k first s x =>
  (x = (None, s) /\ (first = true -> wants (class_attrs k) p c = false)) \/ (wants (class_attrs k) p c = true /\ x = tell_one r c p s).

Lemma outcome_nil (E : effect) ss : outcome E [] ss [] ss [].
Proof using Type.
  split_and!; [done..|]. intros j k s Hk Hs. split; [intros _; split; [done|by intros ?%elem_of_nil]|by intros ?%elem_of_nil].
Qed.

(** Putting one signature in front of a walk over the others. *)
Lemma outcome_front (E E' : effect) y js ss js' ss' ms k0 s0 x0 :
  (forall k f s x, E' k f s x -> E k false s x) -> NoDup (y :: js) -> ks !! y = Some k0 -> ss !! y = Some s0 ->
  E k0 true s0 x0 -> outcome E' js (<[y := x0.2]> ss) js' ss' ms ->
  outcome E (y :: js) ss (match x0.1 with None => y :: js' | Some _ => js' end) ss' (decision k0 x0.1 ++ ms).
Proof using Hks.
  intros HE [Hy Hnd]%NoDup_cons Hk0 Hs0 Hx0 (Hsub & Hlen & H). rewrite length_insert in Hlen.
  assert (Hylen : (y < length ss)%nat) by (by eapply lookup_lt_Some).
  assert (Hyj : y ∉ js') by (intros Hj; apply Hy; by eapply elem_of_sublist).
  split_and!; [destruct x0.1; [by apply sublist_cons|by apply sublist_skip]|done|].
  intros j k s Hk Hs. destruct (decide (j = y)) as [->|Hne].
  - simplify_eq. split; [by intros []%not_elem_of_cons|]. intros _. exists x0. rewrite bool_decide_true by done.
    destruct (H y _ x0.2 Hk0) as [[Hss Hm] _]; [by rewrite list_lookup_insert_eq|done|]. split_and!; try done.
    + destruct x0.1; [split; [done|discriminate]|]. split; [done|]. intros _. left.
    + rewrite elem_of_app, decision_in. naive_solver.
    + intros _ ->. done.
  - destruct (H j k s Hk) as [Hout Hin]; [by rewrite list_lookup_insert_ne|].
    assert (Hkk : k <> k0) by (intros ->; apply Hne; by eapply (NoDup_lookup ks)).
    split.
    + intros [_ Hj]%not_elem_of_cons. destruct (Hout Hj) as [Hss Hm]. split; [done|]. rewrite elem_of_app, decision_in. naive_solver.
    + intros [->|Hj]%elem_of_cons; [done|]. destruct (Hin Hj) as (x & Hx & Hss & Hjj & Hm & _). exists x.
      rewrite bool_decide_false by (intros [= ->]; done). split_and!; try done.
      * by eapply HE.
      * rewrite <-Hjj. destruct x0.1; [done|]. rewrite elem_of_cons. naive_solver.
      * rewrite elem_of_app, decision_in, <-Hm. naive_solver.
      * intros [= ->]. done.
Qed.

Definition maybe_call (c : call) (p : process) : effect := fun k _ s x => one_call c p k false s x.
Lemma one_call_maybe c p k f s x : one_call c p k f s x -> maybe_call c p k f s x.
Proof using Type. intros [[Hx _]|Hx]; [left; split; [done|intros [=]]|by right]. Qed.

Lemma walk_outcome c p js : forall m t ss, NoDup js -> length ss = length ks -> (forall j, j ∈ js -> (j < length ks)%nat) ->
  exists js' ss' ms, walk stats c p ((fun j => ref j) <$> js) (run_at m t ss) = ((fun j => ref j) <$> js', run_at (m ++ ms) t ss') /\
    outcome (one_call c p) js ss js' ss' ms.
Proof using Hks.
  induction js as [|y js IH1 IH2] using two_step_ind; intros m t ss Hnd Hlen Hlt.
  { exists [], ss, []. rewrite app_nil_r. split; [done|]. apply outcome_nil. }
  destruct (lookup_lt_is_Some_2 ks y) as [k Hk]; [by apply Hlt; left|].
  destruct (lookup_lt_is_Some_2 ss y) as [s Hs]; [rewrite Hlen; by apply Hlt; left|].
  assert (Hstay : forall x, one_call c p k true s x -> x.1 = None -> exists js' ss' ms,
            walk stats c p ((fun j => ref j) <$> js) (run_at m t (<[y := x.2]> ss)) = ((fun j => ref j) <$> js', run_at (m ++ ms) t ss') /\
            outcome (one_call c p) (y :: js) ss (y :: js') ss' ms).
  { intros x Hx Hx1. destruct (IH1 m t (<[y := x.2]> ss)) as (js' & ss' & ms & Hw & Ho).
    - by apply NoDup_cons in Hnd as [_ Hnd].
    - by rewrite length_insert.
    - intros j Hj. apply Hlt. by right.
    - exists js', ss', ms. split; [done|].
      pose proof (outcome_front _ _ y js ss js' ss' ms k s x (fun k f s x => one_call_maybe c p k f s x) Hnd Hk Hs Hx Ho) as H.
      rewrite Hx1 in H. exact H. }
  cbn [fmap list_fmap walk]. rewrite (attrs_at _ _ _ _ _ _ Hk Hs). destruct (wants (class_attrs k) p c) eqn:Ew.
  2:{ destruct (Hstay (None, s)) as (js' & ss' & ms & Hw & Ho); [by left|done|]. cbn [snd] in Hw. rewrite list_insert_id in Hw by done.
      exists (y :: js'), ss', ms. by rewrite Hw. }
  rewrite (call_at _ _ _ _ _ _ _ _ Hk Hs). destruct (tell_one r c p s) as [[b|] s1] eqn:Et; cbn [fst snd].
  2:{ destruct (Hstay (None, s1)) as (js' & ss' & ms & Hw & Ho); [right; by rewrite Et|done|]. cbn [snd] in Hw.
      exists (y :: js'), ss', ms. by rewrite Hw. }
  assert (Hylen : (y < length ss)%nat) by (by eapply lookup_lt_Some).
  rewrite (settle_at _ _ _ _ _ k s1 Hk) by (by rewrite list_lookup_insert_eq).
  assert (Hx : one_call c p k true s (Some b, s1)) by (right; by rewrite Et).
  destruct js as [|z js]; cbn [fmap list_fmap].
  - exists [], (<[y := s1]> ss), (decision k (Some b)). split; [done|]. rewrite <-(app_nil_r (decision k (Some b))).
    apply (outcome_front (one_call c p) (one_call c p) y [] ss [] _ [] k s (Some b, s1) (fun k f s x => one_call_maybe c p k f s x) Hnd Hk Hs Hx).
    apply outcome_nil.
  - pose proof Hnd as [_ Hnd1]%NoDup_cons. pose proof Hnd1 as [_ Hnd2]%NoDup_cons.
    destruct (IH2 z js eq_refl (m ++ decision k (Some b)) t (<[y := s1]> ss)) as (js' & ss' & ms & Hw & Ho); [done|by rewrite length_insert| |].
    { intros j Hj. apply Hlt. by do 2 right. }
    rewrite Hw. exists (z :: js'), ss', (decision k (Some b) ++ ms). split; [by rewrite app_assoc|].
    destruct (lookup_lt_is_Some_2 ks z) as [kz Hkz]; [by apply Hlt; right; left|].
    destruct (lookup_lt_is_Some_2 (<[y := s1]> ss) z) as [sz Hsz]; [rewrite length_insert, Hlen; by apply Hlt; right; left|].
    apply (outcome_front (one_call c p) (maybe_call c p) y (z :: js) ss (z :: js') ss' ms k s (Some b, s1) (fun k f s x H => H) Hnd Hk Hs Hx).
    apply (outcome_front (maybe_call c p) (one_call c p) z js _ js' ss' ms kz sz (None, sz)); try done.
    + intros k' f s' x. apply one_call_maybe.
    + left. split; [done|intros [=]].
    + cbn [snd]. by rewrite list_insert_id.
Qed.

Lemma outcome_same (E : effect) js ss : (forall k f s, E k f s (None, s)) -> outcome E js ss js ss [].
Proof using Type.
  intros HE. split_and!; [done..|]. intros j k s Hk Hs. split; [intros _; split; [done|by intros ?%elem_of_nil]|].
  intros Hj. exists (None, s). split_and!; [apply HE|done|done|by rewrite elem_of_nil|done].
Qed.

(** A signature sees some of the calls of a process, the first sees all. *)
Definition many_calls (p : process) (cs : list call) : effect := fun k first s x =>
  exists cs', sublist cs' cs /\ (first = true -> cs' = cs) /\ x = told k r p cs' s.
Lemma one_then_many c p cs k f s x : then_effect (one_call c p) (many_calls p cs) k f s x -> many_calls p (c :: cs) k f s x.
Proof using Type.
  intros (y & Hy & Hx). destruct Hy as [[-> Hw]|[Hw ->]].
  - cbn [fst snd] in Hx. destruct Hx as (f' & Hf & cs' & Hsub & Hall & ->). destruct f.
    + exists (c :: cs'). rewrite Hall by auto. split_and!; [done..|]. cbn [told]. by rewrite Hw.
    + exists cs'. split_and!; [by apply sublist_cons|intros [=]|done].
  - destruct (tell_one r c p s) as [[b|] s1] eqn:Et; cbn [fst snd] in Hx.
    + subst x. exists (c :: cs). split_and!; [done..|]. cbn [told]. by rewrite Hw, Et.
    + destruct Hx as (f' & Hf & cs' & Hsub & Hall & ->). exists (c :: cs'). split_and!; [by apply sublist_skip| |].
      * intros Ht. by rewrite Hall by auto.
      * cbn [told]. by rewrite Hw, Et.
Qed.

(** The same for the calls of all processes. *)
Definition some_of (ps' ps : list (process * list call)) : Prop := Forall2 (fun a b => a.1 = b.1 /\ sublist a.2 b.2) ps' ps.
Definition many_processes (ps : list (process * list call)) : effect := fun k first s x =>
  exists ps', some_of ps' ps /\ (first = true -> ps' = ps) /\ x = told_all k r ps' s.
Lemma some_of_refl ps : some_of ps ps.
Proof using Type. by apply Forall_Forall2_diag, Forall_forall. Qed.
Lemma calls_then_many p cs ps k f s x :
  then_effect (many_calls p cs) (many_processes ps) k f s x -> many_processes ((p, cs) :: ps) k f s x.
Proof using Type.
  intros (y & (cs' & Hsub & Hall & ->) & Hx). destruct (told k r p cs' s) as [[b|] s1] eqn:Et; cbn [fst snd] in Hx.
  - subst x. exists ((p, cs') :: ps). split_and!.
    + constructor; [done|apply some_of_refl].
    + intros Hf. by rewrite Hall.
    + cbn [told_all]. by rewrite Et.
  - destruct Hx as (f' & Hf & ps' & Hps & Hall' & ->). exists ((p, cs') :: ps'). split_and!.
    + by constructor.
    + intros Ht. by rewrite Hall, Hall' by auto.
    + cbn [told_all]. by rewrite Et.
Qed.

Definition in_play (js : list nat) (ss : list sig_state) : Prop :=
  NoDup js /\ length ss = length ks /\ forall j, j ∈ js -> (j < length ks)%nat.
Lemma outcome_in_play E js ss js' ss' ms : in_play js ss -> outcome E js ss js' ss' ms -> in_play js' ss'.
Proof using Type.
  intros (Hnd & Hlen & Hlt) (Hsub & Hlen' & _). split_and!; [by eapply sublist_NoDup|congruence|].
  intros j Hj. apply Hlt. by eapply elem_of_sublist.
Qed.

Definition refs (js : list nat) : list nat := (fun j => ref j) <$> js.
(** A loop over the list of the signatures that has this effect. *)
Definition has_effect (E : effect) (loop : list nat -> st (run_state cape_world) (list nat)) : Prop :=
  forall js m t ss, in_play js ss -> exists js' ss' ms,
    loop (refs js) (run_at m t ss) = (Ok (refs js'), run_at (m ++ ms) t ss') /\ outcome E js ss js' ss' ms.
Lemma has_effect_bind (E1 E2 E : effect) l1 l2 : (forall k f s x, then_effect E1 E2 k f s x -> E k f s x) ->
  has_effect E1 l1 -> has_effect E2 l2 -> has_effect E (fun l => sbind (l1 l) l2).
Proof using Type.
  intros HE H1 H2 js m t ss Hr. destruct (H1 js m t ss Hr) as (js1 & ss1 & ms1 & He1 & Ho1).
  destruct (H2 js1 (m ++ ms1) t ss1 (outcome_in_play _ _ _ _ _ _ Hr Ho1)) as (js2 & ss2 & ms2 & He2 & Ho2).
  exists js2, ss2, (ms1 ++ ms2). rewrite (sbind_ok _ _ _ _ _ He1), He2, app_assoc. split; [done|].
  eapply outcome_mono; [exact HE|by eapply outcome_trans].
Qed.
Lemma has_effect_same (E : effect) : (forall k f s, E k f s (None, s)) -> has_effect E sret.
Proof using Type. intros HE js m t ss Hr. exists js, ss, []. rewrite app_nil_r. split; [done|by apply outcome_same]. Qed.

Lemma call_effect c p : has_effect (one_call c p) (fun l => call_loop (S (length l)) stats c p 0 l).
Proof using Hks.
  intros js m t ss (Hnd & Hlen & Hlt). destruct (walk_outcome c p js m t ss Hnd Hlen Hlt) as (js' & ss' & ms & Hw & Ho).
  exists js', ss', ms. split; [|done].
  rewrite (call_loop_at stats c p (refs js) [] (S (length (refs js)))); [|apply NoDup_fmap_2; [intros ? ? E; lia|done]|lia].
  unfold refs. rewrite Hw. done.
Qed.
Lemma calls_effect p cs : has_effect (many_calls p cs) (calls_loop stats p cs).
Proof using Hks.
  induction cs as [|c cs IH]; [apply has_effect_same; intros k f s; by exists []|].
  apply (has_effect_bind (one_call c p) (many_calls p cs) _ (fun l => call_loop (S (length l)) stats c p 0 l)); [apply one_then_many|apply call_effect|done].
Qed.
Lemma processes_effect ps : has_effect (many_processes ps) (processes_loop stats (read_to_end ps)).
Proof using Hks.
  induction ps as [|[p cs] ps IH]; [apply has_effect_same; intros k f s; exists []; split_and!; [constructor|done..]|].
  apply (has_effect_bind (many_calls p cs) (many_processes ps) _ (calls_loop stats p cs)); [apply calls_then_many|apply calls_effect|done].
Qed.

(** The objects of the evented signatures are made. *)
Definition plain_world (more : list cape_object) : Prop := Forall (fun o => o_own o = []) more.
Lemma class_attrs_at more i k : ks !! i = Some k -> plain_world more -> attrs (world_of more) i = class_attrs k.
Proof using Type.
  intros Hk Hm. cbn [attrs cape_code]. unfold cape_ref_attrs. cbn [cw_objects world_of].
  rewrite lookup_app_l by (rewrite length_fmap; by eapply lookup_lt_Some). rewrite list_lookup_fmap, Hk. cbn [fmap option_fmap option_map].
  unfold object_attrs. by cbn [o_state class_object o_own fold_left o_class].
Qed.
Lemma class_version k w : enabled (class_attrs k) && evented (class_attrs k) && _check_signature_version (class_attrs k) = true /\
  in_types (class_attrs k) w = Ok true.
Proof using Type. by destruct k; split; vm_compute. Qed.
Lemma construct_at more i k : ks !! i = Some k -> plain_world more ->
  construct i (world_of more) = (Ok (ref (length more)), world_of (more ++ [instance_object k (class_init k)])).
Proof using Type.
  intros Hk Hm. cbn [construct cape_code]. unfold cape_construct. cbn [cw_objects world_of].
  rewrite lookup_app_l by (rewrite length_fmap; by eapply lookup_lt_Some). rewrite list_lookup_fmap, Hk. cbn [fmap option_fmap option_map class_object].
  rewrite length_app, length_fmap. unfold with_objects. cbn [cw_objects world_of cw_results cw_category cw_malfamily cw_detections].
  by rewrite <-app_assoc.
Qed.
Definition new_object (k : cape_class) : cape_object := instance_object k (class_init k).
Lemma plain_new pre : plain_world (new_object <$> pre).
Proof using Type. by apply Forall_fmap, Forall_true. Qed.
Lemma made_from post : forall pre, ks = pre ++ post ->
  evented_instances (seq (length pre) (length post)) (world_of (new_object <$> pre)) =
  (Ok (refs (seq (length pre) (length post))), world_of (new_object <$> ks)).
Proof using Type.
  induction post as [|k post IH]; intros pre E; cbn [length seq evented_instances].
  { rewrite app_nil_r in E. by rewrite E. }
  assert (Hk : ks !! length pre = Some k) by (rewrite E; by apply list_lookup_middle).
  rewrite (class_attrs_at _ _ k Hk) by apply plain_new. destruct (class_version k (world_of (new_object <$> pre))) as [-> Ht].
  unfold slift at 1. rewrite Ht. unfold sbind at 1. unfold sbind at 1. rewrite (construct_at _ _ k Hk) by apply plain_new.
  specialize (IH (pre ++ [k])). rewrite length_app, fmap_app, Nat.add_1_r in IH. rewrite (sbind_ok _ _ _ _ _ (IH ltac:(by rewrite E, <-app_assoc))).
  by rewrite length_fmap.
Qed.
Lemma zip_new : zip_with instance_object ks (class_init <$> ks) = new_object <$> ks.
Proof using Type. clear. induction ks as [|k l IH]; [done|]. cbn. by rewrite IH. Qed.
Lemma loaded_made : make_evented loaded = (Ok (refs (seq 0 (length ks))), run_at [] [] (class_init <$> ks)).
Proof using Type.
  unfold make_evented, in_world. cbn [complete loaded world].
  pose proof (made_from ks [] eq_refl) as H. cbn in H. rewrite H. unfold run_at. by rewrite zip_new.
Qed.

(** What is left is asked at the end. *)
Lemma complete_at m t ss j k s : ks !! j = Some k -> ss !! j = Some s -> exists t',
  complete_one stats (ref j) (run_at m t ss) =
  run_at (m ++ match state_on_complete s with Ok true => [the_match k] | _ => [] end) t' ss.
Proof using Type.
  intros Hk Hs. unfold complete_one, in_world. cbn [on_complete cape_code world run_at].
  unfold cape_on_complete. cbn [cw_objects world_of]. rewrite (instance_at _ _ _ _ Hk Hs). cbn [instance_object].
  assert (Hr : forall t', record_match (ref j) (run_at m t' ss) = run_at (m ++ [the_match k]) t' ss).
  { intros t'. exact (settle_at true m t' ss j k s Hk Hs). }
  destruct (state_on_complete s) as [b|e]; change (set_world _ _) with (run_at m t ss); [|exists t; by rewrite app_nil_r].
  rewrite (attrs_at _ _ _ _ _ _ Hk Hs), bool_decide_true by (by eapply stats_has). destruct b; cbn [andb]; [|exists t; by rewrite app_nil_r].
  destruct (ttp (class_attrs k)) as [l|]; [|exists t; apply Hr].
  exists (t ++ ((fun x => (x, name (class_attrs k))) <$> l)). rewrite <-Hr. done.
Qed.
Lemma completes_at js : forall m t ss, in_play js ss -> exists t' ms,
  fold_left (fun s sig => complete_one stats sig s) (refs js) (run_at m t ss) = run_at (m ++ ms) t' ss /\
  forall j k s, ks !! j = Some k -> ss !! j = Some s -> the_match k ∈ ms <-> j ∈ js /\ state_on_complete s = Ok true.
Proof using Hks.
  induction js as [|y js IH]; intros m t ss (Hnd & Hlen & Hlt).
  { exists t, []. rewrite app_nil_r. split; [done|]. intros j k s _ _. rewrite !elem_of_nil. naive_solver. }
  destruct (lookup_lt_is_Some_2 ks y) as [k Hk]; [by apply Hlt; left|].
  destruct (lookup_lt_is_Some_2 ss y) as [s Hs]; [rewrite Hlen; by apply Hlt; left|].
  apply NoDup_cons in Hnd as [Hy Hnd]. cbn [refs fmap list_fmap fold_left]. destruct (complete_at m t ss y k s Hk Hs) as [t1 ->].
  set (a := match state_on_complete s with Ok true => [the_match k] | _ => [] end).
  destruct (IH (m ++ a) t1 ss) as (t' & ms & He & Hms).
  { split_and!; [done..|]. intros j Hj. apply Hlt. by right. }
  exists t', (a ++ ms). split; [by rewrite app_assoc|]. intros j k' s' Hk' Hs'. rewrite elem_of_app, (Hms j k' s' Hk' Hs'), elem_of_cons.
  assert (Ha : the_match k' ∈ a <-> k' = k /\ state_on_complete s = Ok true).
  { unfold a. destruct (state_on_complete s) as [[]|].
    - rewrite list_elem_of_singleton. split; [by intros ?%the_match_inj|by intros [-> _]].
    - rewrite elem_of_nil. split; [intros []|by intros [_ [=]]].
    - rewrite elem_of_nil. split; [intros []|by intros [_ [=]]]. }
  rewrite Ha. split.
  - intros [[-> Hc]|[Hj Hc]]; [|by auto]. assert (j = y) as -> by (by eapply (NoDup_lookup ks)). simplify_eq. auto.
  - intros [[->|Hj] Hc]; [left; by simplify_eq|by right].
Qed.

(** The evented phase. *)
Lemma in_play_new : in_play (seq 0 (length ks)) (class_init <$> ks).
Proof using Type.
  split_and!; [apply NoDup_seq|by rewrite length_fmap|]. intros j Hj%elem_of_seq. lia.
Qed.
(** What a class sees of the calls, and whether it is reported. *)
Definition seen_by (ps : list (process * list call)) (ms : list sig_match) : Prop :=
  forall j k, ks !! j = Some k -> exists ps', some_of ps' ps /\ (j = O -> ps' = ps) /\ (the_match k ∈ ms <-> reported k r ps' = true).
Lemma evented_at b : r_behavior r = Some b -> exists ms t ss,
  run_evented (refs (seq 0 (length ks))) (run_at [] [] (class_init <$> ks)) = (Ok tt, run_at ms t ss) /\ seen_by (br_processes b) ms.
Proof using Hks.
  intros Hb. destruct (decide (ks = [])) as [E|Hne].
  { exists [], [], (class_init <$> ks). unfold seen_by. rewrite E. split; [done|]. intros j k Hk. by rewrite lookup_nil in Hk. }
  destruct (processes_effect (br_processes b) (seq 0 (length ks)) [] [] (class_init <$> ks) in_play_new) as (js & ss & ms & He & Ho).
  destruct (completes_at js ms [] ss (outcome_in_play _ _ _ _ _ _ in_play_new Ho)) as (t & ms2 & Hc & Hms2).
  exists (ms ++ ms2), t, ss. split.
  - assert (Hst : (fun sig => name (the_attrs (run_at [] [] (class_init <$> ks)) sig)) <$> refs (seq 0 (length ks)) = stats).
    { unfold refs. rewrite <-!list_fmap_compose. apply list_eq. intros i. rewrite !list_lookup_fmap.
      destruct (decide (i < length ks)%nat) as [Hi|Hi].
      - rewrite lookup_seq_lt by done. cbn [fmap option_fmap option_map compose Nat.add]. destruct (lookup_lt_is_Some_2 ks i Hi) as [k Hk]. rewrite Hk.
        unfold compose. rewrite (attrs_at _ _ _ i k (class_init k) Hk); [done|by rewrite list_lookup_fmap, Hk].
      - rewrite lookup_seq_ge by lia. by rewrite lookup_ge_None_2 by lia. }
    unfold run_evented. rewrite Hst. cbn [behavior_processes cape_code world run_at cw_results world_of]. rewrite Hb. cbn [fmap option_fmap option_map].
    destruct (refs (seq 0 (length ks))) as [|x l] eqn:El; [by destruct ks|].
    rewrite (sbind_ok _ _ _ _ _ He). unfold smodify. cbn [app]. by rewrite Hc.
  - intros j k Hk. destruct Ho as (_ & Hlen & Ho). destruct (Ho j k (class_init k) Hk) as [_ Hin]; [by rewrite list_lookup_fmap, Hk|].
    destruct Hin as (x & (ps' & Hps & Hall & ->) & Hss & Hj & Hm & _); [apply elem_of_seq; apply lookup_lt_Some in Hk; lia|].
    exists ps'. split_and!; [done| |].
    + intros ->. apply Hall. apply bool_decide_eq_true. by destruct ks.
    + rewrite elem_of_app, (Hms2 j k _ Hk Hss), Hm, Hj. unfold reported. destruct (told_all k r ps' (class_init k)) as [[[]|] s]; cbn [fst snd].
      * split; [done|by left].
      * split; [by intros [|[]]|done].
      * split; [intros [|[_ ->]]; done|]. intros H. right. split; [done|]. by destruct (state_on_complete s) as [[]|].
Qed.

(** The other phase only adds matches of CAPEDetectedThreat. *)
Lemma last_object more k s :
  cw_objects (world_of (more ++ [instance_object k s])) !! ref (length more) = Some (instance_object k s).
Proof using Type.
  cbn [cw_objects world_of]. rewrite lookup_app_r by (rewrite length_fmap; lia). rewrite length_fmap.
  replace (_ - _)%nat with (length more) by lia. by apply list_lookup_middle.
Qed.
Lemma last_attrs more k s : plain_world more -> attrs (world_of (more ++ [instance_object k s])) (ref (length more)) = class_attrs k.
Proof using Type.
  intros Hm. cbn [attrs cape_code]. unfold cape_ref_attrs. rewrite last_object. unfold object_attrs. cbn [o_state instance_object o_class o_own].
  rewrite own_nothing; [done|]. cbn [cw_objects world_of]. apply Forall_app. split; [by apply Forall_fmap, Forall_true|].
  apply Forall_app. split; [done|by repeat constructor].
Qed.
Lemma last_put more k s s' : put_state (ref (length more)) (instance_object k s) s' (world_of (more ++ [instance_object k s])) =
  world_of (more ++ [instance_object k s']).
Proof using Type.
  unfold put_state, with_objects, world_of. cbn [cw_objects cw_results cw_category cw_malfamily cw_detections]. f_equal.
  rewrite insert_app_r_alt by (rewrite length_fmap; lia). f_equal. rewrite length_fmap. replace (_ - _)%nat with (length more + 0)%nat by lia.
  by rewrite insert_app_r.
Qed.

(** One class in the other phase. *)
Definition threats (ms : list sig_match) : Prop := forall k, the_match k ∈ ms -> k = CAPEDetectedThreat.
Lemma process_at m t cl more x k : ks !! x = Some k -> plain_world more -> exists ms more', plain_world more' /\ threats ms /\
  process_signature x {| complete := cl; matched := m; ttps := t; world := world_of more |} =
  (head ms, {| complete := cl; matched := m; ttps := t; world := world_of more' |}).
Proof using Type.
  intros Hk Hp. unfold process_signature, in_world. cbn [world]. rewrite (construct_at _ _ _ Hk Hp).
  assert (Hp' : forall s, plain_world (more ++ [instance_object k s])) by (intros s; apply Forall_app; split; [done|by repeat constructor]).
  unfold the_attrs at 1 2. cbn [set_world complete matched ttps world]. rewrite (last_attrs _ _ _ Hp).
  destruct (class_version k (world_of more)) as [[[-> _]%andb_true_iff ->]%andb_true_iff _]. cbn [negb orb sig_run cape_code].
  unfold cape_run. rewrite last_object. cbn [instance_object o_state].
  destruct (decide (k = CAPEDetectedThreat)) as [->|Hne].
  - cbn [class_init cw_detections world_of]. case_bool_decide.
    + exists [], (more ++ [new_object CAPEDetectedThreat]). split; [apply Hp'|]. split; [by intros ? ?%elem_of_nil|done].
    + fold (world_of (more ++ [instance_object CAPEDetectedThreat (SThreat None [])])).
      change {| o_class := _; o_own := _; o_state := _ |} with (instance_object CAPEDetectedThreat (SThreat None [])).
      rewrite last_put. unfold the_attrs. cbn [set_world complete matched ttps world]. rewrite (last_attrs _ _ _ Hp).
      eexists [_], _. split; [apply Hp'|]. split; [|done]. by intros k' ->%list_elem_of_singleton%the_match_inj.
  - exists [], (more ++ [new_object k]). split; [apply Hp'|]. split; [by intros ? ?%elem_of_nil|]. destruct k; done.
Qed.
Lemma compat_at l cl : forall m t more, (forall x, x ∈ l -> (x < length ks)%nat) -> plain_world more -> exists s' ms,
  compat_loop l {| complete := cl; matched := m; ttps := t; world := world_of more |} = (Ok tt, s') /\ matched s' = m ++ ms /\ threats ms.
Proof using Type.
  induction l as [|x l IH]; intros m t more Hl Hp.
  { eexists _, []. rewrite app_nil_r. split_and!; [done..|]. by intros k ?%elem_of_nil. }
  destruct (lookup_lt_is_Some_2 ks x) as [k Hk]; [by apply Hl; left|]. assert (Hl' : forall y, y ∈ l -> (y < length ks)%nat) by (intros y Hy; apply Hl; by right).
  cbn [compat_loop]. unfold the_attrs at 1. cbn [world]. rewrite (class_attrs_at _ _ _ Hk Hp). destruct (class_version k (world_of more)) as [_ Ht].
  unfold sbind, slift. rewrite Ht. destruct (process_at m t cl more x k Hk Hp) as (ms & more' & Hp' & Hms & ->).
  destruct ms as [|y ms]; cbn [head]; [by apply IH|]. unfold add_matched.
  assert (Hgo : forall t', exists s' ms', compat_loop l {| complete := cl; matched := m ++ [y]; ttps := t'; world := world_of more' |} = (Ok tt, s') /\
            matched s' = m ++ ms' /\ threats ms').
  { intros t'. destruct (IH (m ++ [y]) t' more' Hl' Hp') as (s' & ms' & He & Hm & Ht'). exists s', (y :: ms').
    split_and!; [done|by rewrite Hm, <-app_assoc|]. intros k' [E|Hin]%elem_of_cons; [apply Hms; rewrite E; left|by apply Ht']. }
  destruct (ttp _); apply Hgo.
Qed.

(** A run with the classes of the module loaded and no overlay. *)
Lemma no_overlay l (w : cape_world) : fold_left (fun w sig => _apply_overlay [] sig w) l w = w.
Proof using Type. induction l as [|x l IH]; [done|]. exact IH. Qed.
Lemma loaded_run cfg b : r_behavior r = Some b -> exists rr s', run_signatures [] cfg loaded = (Ok rr, s') /\
  forall j k, ks !! j = Some k -> k <> CAPEDetectedThreat -> exists ps', some_of ps' (br_processes b) /\ (j = O -> ps' = br_processes b) /\
    (the_match k ∈ signatures rr <-> reported k r ps' = true).
Proof using Hks.
  intros Hb. destruct (evented_at b Hb) as (ms & t & ss & He & Hseen). unfold run_signatures.
  rewrite (sbind_ok _ _ _ _ _ loaded_made). unfold sbind at 1, smodify at 1. rewrite no_overlay.
  change (set_world _ _) with (run_at [] [] (class_init <$> ks)). rewrite (sbind_ok _ _ _ _ _ He). unfold sbind at 1, smodify at 1.
  set (cl := merge_sort _ _).
  destruct (compat_at cl cl ms t (zip_with instance_object ks ss)) as (s' & ms2 & Hc & Hm & Ht).
  { intros x Hx. unfold cl in Hx. rewrite merge_sort_Permutation in Hx. apply elem_of_seq in Hx. lia. }
  { pose proof (plain_objects ss) as H. by apply Forall_app in H as [_ H]. }
  rewrite (sbind_ok _ _ _ tt s'); [|exact Hc]. eexists _, _. split; [done|]. cbn [signatures]. intros j k Hk Hne.
  destruct (Hseen j k Hk) as (ps' & Hps & Hall & Hiff). exists ps'. split_and!; [done..|].
  rewrite merge_sort_Permutation, Hm, elem_of_app, <-Hiff. split; [|by left]. intros [|H]; [done|]. by apply Ht in H.
Qed.
End loaded.

(** ** Signatures on buffers never match *)

(** The arguments of a call of the log are what the parser made of the values
    of the message. *)
Definition parsed_argument (a : argument) : Prop :=
  exists reporting cat apin n v, decoded v /\ parse_argument reporting cat apin (n, v) = Ok (Some a).
Definition parsed_calls (b : behavior_results) : Prop :=
  forall p cs c a, (p, cs) ∈ br_processes b -> c ∈ cs -> a ∈ arguments c -> parsed_argument a.

Lemma dict_set_either {A} k k' (v v' : A) d : dict_lookup k (dict_set k' v' d) = Some v -> dict_lookup k d = Some v \/ (k, v) = (k', v').
Proof.
  induction d as [|[k1 v1] d IH]; cbn; [case_bool_decide; [|done]; intros [= ->]; subst; by right|].
  repeat (case_bool_decide; cbn; subst); try done; try (intros [= ->]; by right); auto.
Qed.
Lemma dict_update_either {A} k (v : A) new : forall d, dict_lookup k (dict_update d new) = Some v -> dict_lookup k d = Some v \/ (k, v) ∈ new.
Proof.
  induction new as [|[k1 v1] new IH]; intros d; cbn; [by left|]. intros [H|H]%IH; [|by right; right].
  apply dict_set_either in H as [H|H]; [by left|right]. rewrite H. left.
Qed.
Lemma arg_in c n s : arg c n = Some s -> exists a, a ∈ arguments c /\ a_value a = s.
Proof.
  unfold arg, call_dict. intros [H|H]%dict_update_either; [done|]. apply list_elem_of_fmap in H as (a & [= -> ->] & Ha). by exists a.
Qed.
Lemma parsed_no_image c n size : (forall a, a ∈ arguments c -> parsed_argument a) -> pe_arg (arg c n) size = false.
Proof.
  intros Hc. destruct (arg c n) as [s|] eqn:E; [|done]. apply arg_in in E as (a & Ha & <-).
  destruct (Hc a Ha) as (rep & cat & apin & m & v & Hv & Hp). apply plain_no_image. by eapply parsed_argument_plain.
Qed.

Definition buffer_class (k : cape_class) : Prop := k = CAPE_Compression \/ k = CAPE_RegBinary \/ k = CAPE_Decryption.
Lemma buffer_told k r p cs : buffer_class k -> (forall c a, c ∈ cs -> a ∈ arguments c -> parsed_argument a) ->
  exists d, told k r p cs (class_init k) = (d, class_init k) /\ d <> Some true.
Proof.
  intros Hk. induction cs as [|c cs IH]; intros Hcs; [by exists None|]. cbn [told].
  destruct IH as (d & IH & Hd). { intros c' a Hc'. apply Hcs. by right. }
  destruct (wants _ p c); [|by exists d]. assert (Hc : forall n size, pe_arg (arg c n) size = false).
  { intros n size. apply parsed_no_image. intros a. apply Hcs. left. }
  assert (Ht : exists x, tell_one r c p (class_init k) = (x, class_init k) /\ x <> Some true).
  { destruct Hk as [-> |[-> | ->]]; unfold tell_one, state_on_call, with_state, class_init, compression_on_call, regbinary_on_call, decryption_on_call;
      repeat (case_match; cbn [fst snd undecided] in *; simplify_eq); rewrite ?Hc; by eexists. }
  destruct Ht as ([b|] & -> & Hx); [by eexists|by exists d].
Qed.

Lemma buffer_told_all k r ps : buffer_class k ->
  (forall p cs c a, (p, cs) ∈ ps -> c ∈ cs -> a ∈ arguments c -> parsed_argument a) ->
  exists x, told_all k r ps (class_init k) = (x, class_init k) /\ x <> Some true.
Proof.
  intros Hk. induction ps as [|[p cs] ps IH]; intros Hps; [by exists None|]. cbn [told_all].
  destruct (buffer_told k r p cs Hk) as ([x|] & -> & Hx); [intros c a Hc; by eapply Hps; [left|]|by exists (Some x)|].
  apply IH. intros q cs' c a Hq. apply (Hps q cs'). by right.
Qed.
Lemma some_of_elem ps' ps p cs' : some_of ps' ps -> (p, cs') ∈ ps' -> exists cs, (p, cs) ∈ ps /\ sublist cs' cs.
Proof.
  induction 1 as [|[q cs1] [q' cs2] l' l [Hq Hsub] H IH]; [by intros ?%elem_of_nil|]. cbn in *. subst q'.
  intros [[= -> ->]|Hin]%elem_of_cons; [exists cs2; split; [left|done]|]. destruct (IH Hin) as (cs & Hcs & ?). exists cs. split; [by right|done].
Qed.

(** C40. The signatures for decompressed, decrypted and registry buffers that
    hold a program never match, whichever signatures of the module are loaded:
    the parser of the logs makes every value printable, in which form no buffer
    is taken for a PE image, whatever the sample decompressed, decrypted or
    stored. *)
Theorem buffers_never_images (ks : list cape_class) (r : results) (b : behavior_results) (category malfamily : string)
    (d : detections) (cfg : detection_config) :
  NoDup ks -> r_behavior r = Some b -> parsed_calls b ->
  exists rr s', run_signatures [] cfg (loaded ks r category malfamily d) = (Ok rr, s') /\
    forall k, k ∈ ks -> buffer_class k -> the_match k ∉ signatures rr.
Proof.
  intros Hks Hb Hp. destruct (loaded_run ks Hks r category malfamily d cfg b Hb) as (rr & s' & Hr & Hs).
  exists rr, s'. split; [done|]. intros k Hk Hbuf Hm. apply list_elem_of_lookup_1 in Hk as [j Hk].
  destruct (Hs j k Hk) as (ps' & Hps & _ & Hiff); [intros ->; by destruct Hbuf as [|[|]]|]. apply Hiff in Hm.
  destruct (buffer_told_all k r ps' Hbuf) as (x & Hx & Hne).
  - intros p cs' c a Hin Hc. destruct (some_of_elem _ _ _ _ Hps Hin) as (cs & Hcs & Hsub). apply (Hp p cs c a Hcs). by eapply elem_of_sublist.
  - unfold reported in Hm. rewrite Hx in Hm. destruct x as [[]|]; [done..|]. by destruct Hbuf as [-> |[-> | ->]].
Qed.

(** ** Process hollowing: the automaton and the pattern *)

(** A call [x] that fits, after a list of calls that has the property [P]. *)
Definition after (P : list call -> Prop) (Q : list call -> call -> Prop) (l : list call) : Prop :=
  exists a x b, l = a ++ x :: b /\ P a /\ Q a x.
Lemma after_snoc P Q l x : after P Q (l ++ [x]) <-> after P Q l \/ (P l /\ Q l x).
Proof.
  split.
  - intros (a & y & b & E & HP & HQ). destruct b as [|z b _] using rev_ind.
    + apply app_inj_tail in E as [-> ->]. by right.
    + rewrite app_comm_cons, app_assoc in E. apply app_inj_tail in E as [-> ->]. left. by exists a, y, b.
  - intros [(a & y & b & -> & HP & HQ)|[HP HQ]].
    + exists a, y, (b ++ [x]). by rewrite <-app_assoc.
    + by exists l, x, [].
Qed.
Lemma after_nil P Q : ~ after P Q [].
Proof. intros (a & x & b & E & _). by destruct a. Qed.

(** The handles of the processes and threads that the calls created. *)
Definition created (n : string) (l : list call) (h : option string) : Prop :=
  exists c, c ∈ l /\ api c = "CreateProcessInternalW" /\ arg c n = h.
Definition on_process (apis : list string) (l : list call) (x : call) : Prop :=
  api x ∈ apis /\ created "ProcessHandle" l (arg x "ProcessHandle").
Definition on_thread (a : string) (l : list call) (x : call) : Prop :=
  api x = a /\ created "ThreadHandle" l (arg x "ThreadHandle").
(** The three steps: memory of a created process is freed or allocated, or the
    context of a created thread is read; then memory is written or the context
    set; then the process or thread is resumed. *)
Definition begins l x := on_process ["NtUnmapViewOfSection"; "NtAllocateVirtualMemory"] l x \/ on_thread "NtGetContextThread" l x.
Definition changes l x := on_process WRITES l x \/ on_thread "NtSetContextThread" l x.
Definition resumes l x := on_thread "NtResumeThread" l x \/ on_process ["NtResumeProcess"] l x.
Definition begun := after (fun _ => True) begins.
Definition changed := after begun changes.
Definition hollows := after changed resumes.

Lemma created_snoc n l x h : created n (l ++ [x]) h <-> created n l h \/ (api x = "CreateProcessInternalW" /\ arg x n = h).
Proof.
  unfold created. split.
  - intros (c & [Hc|Hc%list_elem_of_singleton]%elem_of_app & H); [left; by exists c|right; by subst].
  - intros [(c & Hc & H)|H]; [exists c|exists x]; rewrite elem_of_app, list_elem_of_singleton; naive_solver.
Qed.
Lemma after_mono (P P' : list call -> Prop) (Q : list call -> call -> Prop) l : (forall a, P a -> P' a) -> after P Q l -> exists a x b, l = a ++ x :: b /\ P' a.
Proof. intros H (a & x & b & -> & HP & _). exists a, x, b. auto. Qed.
Lemma begun_app l k : begun l -> begun (l ++ k).
Proof. intros (a & x & b & -> & H). exists a, x, (b ++ k). by rewrite <-app_assoc. Qed.
Lemma changed_begun l : changed l -> begun l.
Proof. intros (a & x & b & -> & H & _). by apply begun_app. Qed.

Section hollowing.
Context (r : results).

(** What the object knows after some calls of a process. *)
Definition knows (p : process) (l : list call) (s : hollow_state) : Prop :=
  ho_last s = Some p /\ (forall h, h ∈ (ho_process s).*1 <-> created "ProcessHandle" l h) /\
  (forall h, h ∈ (ho_thread s).*1 <-> created "ThreadHandle" l h) /\
  0 <= ho_sequence s <= 3 /\ (1 <= ho_sequence s <-> begun l) /\ (2 <= ho_sequence s <-> changed l).

Lemma knows_snoc_other p l s c s' : knows p l s -> api c <> "CreateProcessInternalW" -> ho_last s' = ho_last s ->
  ho_process s' = ho_process s -> ho_thread s' = ho_thread s -> 0 <= ho_sequence s' <= 3 ->
  (1 <= ho_sequence s' <-> 1 <= ho_sequence s \/ begins l c) ->
  (2 <= ho_sequence s' <-> 2 <= ho_sequence s \/ (1 <= ho_sequence s /\ changes l c)) -> knows p (l ++ [c]) s'.
Proof using Type.
  intros (Hl & Hp & Ht & Hn & Hb & Hc) Ha El Ep Et En Eb Ec. unfold knows. rewrite El, Ep, Et.
  refine (conj Hl (conj _ (conj _ (conj En (conj _ _))))).
  - intros h. rewrite Hp, created_snoc. naive_solver.
  - intros h. rewrite Ht, created_snoc. naive_solver.
  - rewrite Eb, Hb. unfold begun. rewrite after_snoc. naive_solver.
  - rewrite Ec, Hc, Hb. unfold changed. rewrite after_snoc. done.
Qed.

(** Which of the tests of the automaton a call passes: at most one. *)
Record tests_are (c : call) (i : nat) : Prop := {
  t_create : bool_decide (api c = "CreateProcessInternalW") = (i =? 1)%nat;
  t_begin_p : api_in ["NtUnmapViewOfSection"; "NtAllocateVirtualMemory"] c = (i =? 2)%nat;
  t_begin_t : bool_decide (api c = "NtGetContextThread") = (i =? 3)%nat;
  t_change_p : api_in WRITES c = (i =? 4)%nat;
  t_change_t : bool_decide (api c = "NtSetContextThread") = (i =? 5)%nat;
  t_resume_t : bool_decide (api c = "NtResumeThread") = (i =? 6)%nat;
  t_resume_p : bool_decide (api c = "NtResumeProcess") = (i =? 7)%nat }.
Definition tested : list (nat * list string) :=
  [(1, ["CreateProcessInternalW"]); (2, ["NtUnmapViewOfSection"; "NtAllocateVirtualMemory"]); (3, ["NtGetContextThread"]); (4, WRITES);
   (5, ["NtSetContextThread"]); (6, ["NtResumeThread"]); (7, ["NtResumeProcess"])]%nat.
Lemma api_tests c : exists i, tests_are c i.
Proof using Type.
  destruct (decide (api c ∈ concat tested.*2)) as [Hin|Hout].
  - unfold tested, WRITES in Hin. cbn [fmap list_fmap snd concat app] in Hin.
    repeat (apply elem_of_cons in Hin as [E|Hin]); [..|by apply elem_of_nil in Hin];
      [exists 1%nat|exists 2%nat|exists 2%nat|exists 3%nat|exists 4%nat|exists 4%nat|exists 4%nat|exists 4%nat|exists 5%nat|exists 6%nat|exists 7%nat];
      split; unfold api_in; rewrite E; by vm_compute.
  - exists O. cbn in Hout. split; unfold api_in; apply bool_decide_eq_false; set_solver.
Qed.
(** One call: the automaton is where the pattern is. *)
Lemma api_in_true l c : api_in l c = true <-> api c ∈ l.
Proof using Type. apply bool_decide_eq_true. Qed.
Lemma steps_tested p l s c i : knows p l s -> tests_are c i ->
  let kp := bool_decide (arg c "ProcessHandle" ∈ (ho_process s).*1) in
  let kt := bool_decide (arg c "ThreadHandle" ∈ (ho_thread s).*1) in
  (begins l c <-> ((i =? 2) && kp || (i =? 3) && kt)%nat = true) /\ (changes l c <-> ((i =? 4) && kp || (i =? 5) && kt)%nat = true) /\
  (resumes l c <-> ((i =? 6) && kt || (i =? 7) && kp)%nat = true).
Proof using Type.
  intros (_ & Hp & Ht & _) [_ T2 T3 T4 T5 T6 T7] kp kt. unfold begins, changes, resumes, on_process, on_thread, kp, kt.
  rewrite !orb_true_iff, !andb_true_iff, <-T2, <-T3, <-T4, <-T5, <-T6, <-T7. unfold api_in. rewrite !bool_decide_eq_true.
  rewrite !Hp, !Ht, list_elem_of_singleton. done.
Qed.
Lemma knows_created p l s c : knows p l s -> api c = "CreateProcessInternalW" ->
  knows p (l ++ [c]) (ho_created (arg c "ProcessHandle") (arg c "ThreadHandle") (arg c "ProcessId") s).
Proof using Type.
  intros (Hl & Hp & Ht & Hn & Hb & Hc) Ha.
  assert (Hno : forall l', ~ begins l' c /\ ~ changes l' c).
  { intros l'. unfold begins, changes, on_process, on_thread. rewrite Ha. split; intros [[H _]|[H _]]; try done; revert H; apply (bool_decide_unpack _); by vm_compute. }
  refine (conj Hl (conj _ (conj _ (conj Hn (conj _ _))))); cbn [ho_process ho_thread ho_sequence ho_created fmap list_fmap fst].
  - intros h. rewrite elem_of_cons, Hp, created_snoc. naive_solver.
  - intros h. rewrite elem_of_cons, Ht, created_snoc. naive_solver.
  - rewrite Hb. unfold begun. rewrite after_snoc. destruct (Hno l). naive_solver.
  - rewrite Hc. unfold changed. rewrite after_snoc. destruct (Hno l). naive_solver.
Qed.
Ltac hollow_case Hsame Hkeep :=
  cbn [Nat.eqb andb orb];
  repeat match goal with |- context [ Z.eqb ?a ?b ] => destruct (Z.eqb_spec a b) end; cbn [andb orb fst snd undecided matches];
  first
    [ left; split; [reflexivity|]; split; [lia|reflexivity]
    | right; split; [reflexivity|]; split; [intros [? ?]; first [lia|discriminate]|]; eexists; split; [reflexivity|];
      first [apply Hkeep; cbn [Nat.eqb andb orb]; lia | apply Hsame; cbn [Nat.eqb andb orb]; lia] ].
Lemma hollow_step p l s c : knows p l s -> pr_name p ∉ allow_list -> ho_enter p s = s ->
  let x := tell_one r c p (SHollow s) in
  (x.1 = Some true /\ changed l /\ resumes l c) \/
  (x.1 = None /\ ~ (changed l /\ resumes l c) /\ exists s', x.2 = SHollow s' /\ knows p (l ++ [c]) s').
Proof using Type.
  intros Hk Ha He. destruct (api_tests c) as [i T]. destruct (steps_tested p l s c i Hk T) as (Hbe & Hch & Hre).
  pose proof Hk as (Hl & Hp & Ht & Hn & Hb & Hc). unfold tell_one, state_on_call, with_state, hollow_on_call.
  rewrite He, bool_decide_false by done.
  assert (Hcpi : api c = "CreateProcessInternalW" <-> i = 1%nat) by (rewrite <-(bool_decide_eq_true (api c = _)), (t_create _ _ T); apply Nat.eqb_eq).
  destruct T as [-> -> -> -> -> -> ->]. rewrite <-Hc, Hre.
  assert (Hsame : forall n, n = ho_sequence s \/ (n = 1 /\ ho_sequence s = 0 /\ begins l c) \/
            (n = ho_sequence s + 1 /\ 1 <= ho_sequence s <= 2 /\ changes l c) -> i <> 1%nat ->
            (begins l c -> 1 <= n) -> (changes l c -> 1 <= ho_sequence s -> 2 <= n) -> knows p (l ++ [c]) (ho_step n s)).
  { intros n Hstep Hi1 Hbn Hcn. apply (knows_snoc_other p l s c); try done; cbn [ho_sequence ho_step]; [naive_solver|lia|..]; split; intuition lia. }
  assert (Hkeep : i <> 1%nat -> (begins l c -> 1 <= ho_sequence s) -> (changes l c -> 1 <= ho_sequence s -> 2 <= ho_sequence s) ->
            knows p (l ++ [c]) s).
  { intros H1 H2 H3. specialize (Hsame (ho_sequence s) (or_introl eq_refl) H1 H2 H3). by destruct s. }
  pose proof (knows_created p l s c Hk) as Hnew. rewrite Hcpi in Hnew. setoid_rewrite Hbe in Hsame. setoid_rewrite Hch in Hsame.
  rewrite Hbe, Hch in Hkeep. clear Hbe Hch Hre Hcpi Hp Ht Hb Hc Hl He Ha Hk.
  destruct (bool_decide (arg c "ProcessHandle" ∈ _)), (bool_decide (arg c "ThreadHandle" ∈ _));
    destruct i as [|[|[|[|[|[|[|[|i]]]]]]]]; try (hollow_case Hsame Hkeep);
    (right; split; [reflexivity|]; split; [by intros [_ ?]|]; eexists; split; [reflexivity|by apply Hnew]).
Qed.

(** The calls of a process that the signature wants. *)
Definition wanted (cs : list call) : list call := filter (fun c => category c ∈ ["process"; "threading"]) cs.
Lemma hollow_wants p c : wants (class_attrs CAPE_InjectionProcessHollowing) p c = bool_decide (category c ∈ ["process"; "threading"]).
Proof using Type.
  unfold wants, admits. rewrite (bool_decide_true (filter_processnames _ = [] \/ _)) by (by left).
  rewrite (bool_decide_true (filter_apinames _ = [] \/ _)) by (by left). cbn [andb]. apply bool_decide_ext. split; [by intros []|by right].
Qed.

Lemma enter_same p s : ho_last s = Some p -> ho_enter p s = s.
Proof using Type. intros Hl. unfold ho_enter, same_process. by rewrite bool_decide_true. Qed.
Lemma enter_last p s : ho_last (ho_enter p s) = Some p.
Proof using Type. unfold ho_enter, same_process. by case_bool_decide. Qed.
Lemma tell_enter c p s : tell_one r c p (SHollow s) = tell_one r c p (SHollow (ho_enter p s)).
Proof using Type.
  unfold tell_one, state_on_call, with_state, hollow_on_call. by rewrite (enter_same p (ho_enter p s) (enter_last p s)).
Qed.
Lemma knows_new p s : ho_last s <> Some p -> knows p [] (ho_enter p s).
Proof using Type.
  intros Hl. unfold ho_enter, same_process. rewrite bool_decide_false by done.
  refine (conj eq_refl (conj _ (conj _ (conj _ (conj _ _))))); cbn.
  - intros h. split; [by intros ?%elem_of_nil|by intros (c & ?%elem_of_nil & _)].
  - intros h. split; [by intros ?%elem_of_nil|by intros (c & ?%elem_of_nil & _)].
  - lia.
  - split; [lia|by intros ?%after_nil].
  - split; [lia|by intros ?%after_nil].
Qed.
Lemma after_app P Q l k : after P Q l -> after P Q (l ++ k).
Proof using Type. intros (a & x & b & -> & H). exists a, x, (b ++ k). by rewrite <-app_assoc. Qed.

(** The calls of one process. *)
Lemma hollow_told p cs : pr_name p ∉ allow_list -> forall l s, knows p l (ho_enter p s) -> ~ hollows l ->
  let x := told CAPE_InjectionProcessHollowing r p cs (SHollow s) in
  (x.1 = Some true /\ hollows (l ++ wanted cs)) \/
  (x.1 = None /\ ~ hollows (l ++ wanted cs) /\ exists s', x.2 = SHollow s' /\ (ho_last s' = Some p \/ s' = s)).
Proof using Type.
  intros Ha. induction cs as [|c cs IH]; intros l s Hk Hh; cbn [told].
  { right. cbn. rewrite app_nil_r. split_and!; [done..|]. exists s. auto. }
  rewrite hollow_wants. unfold wanted. rewrite filter_cons. case_bool_decide as Hw; [rewrite decide_True by done|rewrite decide_False by done; by apply IH].
  fold (wanted cs). rewrite tell_enter.
  destruct (hollow_step p l (ho_enter p s) c Hk Ha (enter_same _ _ (enter_last p s))) as [(Hd & Hc & Hr)|(Hd & Hno & s' & Hs' & Hk')];
    destruct (tell_one r c p _) as [x1 x2]; cbn [fst snd] in *; subst.
  - left. split; [done|]. change (c :: wanted cs) with ([c] ++ wanted cs). rewrite app_assoc. apply after_app, after_snoc. by right.
  - assert (Hh' : ~ hollows (l ++ [c])) by (unfold hollows; rewrite after_snoc; intros [|]; auto).
    assert (Hl' : ho_last s' = Some p) by apply Hk'.
    specialize (IH (l ++ [c]) s'). rewrite (enter_same _ _ Hl'), <-app_assoc in IH. destruct (IH Hk' Hh') as [IH1|(H1 & H2 & s2 & H3 & H4)]; [by left|].
    right. split_and!; [done..|]. exists s2. split; [done|]. left. destruct H4 as [|]; [done|by subst].
Qed.

(** A process on the allow list ends the signature at the first call it wants. *)
Lemma allowed_told p cs s : pr_name p ∈ allow_list -> let x := told CAPE_InjectionProcessHollowing r p cs (SHollow s) in
  if bool_decide (wanted cs = []) then x = (None, SHollow s) else x.1 = Some false.
Proof using Type.
  intros Ha. induction cs as [|c cs IH]; cbn [told]; [done|]. rewrite hollow_wants. unfold wanted. rewrite filter_cons.
  destruct (decide (category c ∈ ["process"; "threading"])) as [Hw|Hw]; [rewrite (bool_decide_true (category c ∈ _)) by done|
    rewrite (bool_decide_false (category c ∈ _)) by done; exact IH].
  rewrite bool_decide_false by done. unfold tell_one, state_on_call, with_state, hollow_on_call. by rewrite bool_decide_true.
Qed.

(** The pattern in the calls of all processes: no process on the allow list made
    a call before. *)
Definition hollowing_in (ps : list (process * list call)) : Prop :=
  exists before p cs rest, ps = before ++ (p, cs) :: rest /\
    (forall q qs, (q, qs) ∈ before -> pr_name q ∈ allow_list -> wanted qs = []) /\ pr_name p ∉ allow_list /\ hollows (wanted cs).
Lemma hollowing_cons p cs ps : hollowing_in ((p, cs) :: ps) <->
  (pr_name p ∉ allow_list /\ hollows (wanted cs)) \/ ((pr_name p ∈ allow_list -> wanted cs = []) /\ hollowing_in ps).
Proof using Type.
  split.
  - intros ([|[q qs] before] & p' & cs' & rest & E & Hb & Hp & Hh); cbn in E; simplify_eq; [by left|right]. split; [apply (Hb q qs); left|].
    exists before, p', cs', rest. split_and!; [done| |done..]. intros q' qs' Hq. apply Hb. by right.
  - intros [[Hp Hh]|[Ha (before & p' & cs' & rest & -> & Hb & Hp & Hh)]].
    + exists [], p, cs, ps. split_and!; [done| |done..]. by intros q qs ?%elem_of_nil.
    + exists ((p, cs) :: before), p', cs', rest. split_and!; [done| |done..]. intros q qs [[= -> ->]|Hq]%elem_of_cons; [done|by apply Hb].
Qed.

Lemma hollow_all ps : forall s, NoDup ps.*1 -> (forall p, ho_last s = Some p -> p ∉ ps.*1) ->
  exists x s', told_all CAPE_InjectionProcessHollowing r ps (SHollow s) = (x, SHollow s') /\ (x = Some true <-> hollowing_in ps).
Proof using Type.
  induction ps as [|[p cs] ps IH]; intros s Hnd Hs; cbn [told_all].
  { exists None, s. split; [done|]. split; [done|]. intros ([|] & ? & ? & ? & E & _); discriminate E. }
  cbn [fmap list_fmap fst] in Hnd. apply NoDup_cons in Hnd as [Hp Hnd].
  assert (Hst : forall cs s, exists s', (told CAPE_InjectionProcessHollowing r p cs (SHollow s)).2 = SHollow s').
  { clear. induction cs as [|c cs IHc]; intros s; cbn [told]; [by eexists|]. destruct (wants _ _ _); [|apply IHc].
    unfold tell_one, state_on_call, with_state. destruct (hollow_on_call r c p s) as [[[b|]|e] s1]; cbn [fst snd]; [by eexists|apply IHc|by eexists]. }
  destruct (decide (pr_name p ∈ allow_list)) as [Ha|Ha].
  - pose proof (allowed_told p cs s Ha) as H. cbn zeta in H. case_bool_decide as Hw.
    + rewrite H. destruct (IH s Hnd) as (x & s' & -> & Hx); [intros q Hq Hin; apply (Hs q Hq); by right|].
      exists x, s'. split; [done|]. rewrite hollowing_cons, Hx. naive_solver.
    + destruct (Hst cs s) as [s' Hs']. destruct (told _ r p cs _) as [x1 x2]. cbn [fst snd] in *. subst. eexists _, _. split; [done|]. rewrite hollowing_cons. naive_solver.
  - destruct (hollow_told p cs Ha [] s) as [(H1 & Hh)|(H1 & Hh & s1 & H2 & Hl)].
    + apply knows_new. intros E. apply (Hs p E). left.
    + apply after_nil.
    + destruct (Hst cs s) as [s' Hs']. destruct (told _ r p cs _) as [x1 x2]. cbn [fst snd app] in *. subst. eexists _, _. split; [done|]. rewrite hollowing_cons. naive_solver.
    + destruct (told _ r p cs _) as [x1 x2]. cbn [fst snd app] in *. subst. destruct (IH s1 Hnd) as (x & s' & -> & Hx).
      * intros q Hq Hin. destruct Hl as [Hl| ->]; [by simplify_eq|apply (Hs q Hq); by right].
      * exists x, s'. split; [done|]. rewrite hollowing_cons, Hx. naive_solver.
Qed.
Lemma hollow_reported ps : NoDup ps.*1 -> reported CAPE_InjectionProcessHollowing r ps = true <-> hollowing_in ps.
Proof using Type.
  intros Hnd. unfold reported. cbn [class_init]. destruct (hollow_all ps hollow_init Hnd) as (x & s' & -> & Hx); [done|].
  rewrite <-Hx. by destruct x as [[]|].
Qed.
End hollowing.

(** Fewer calls have fewer patterns. *)
Lemma after_sublist (P : list call -> Prop) Q l k : (forall a b, sublist a b -> P a -> P b) -> (forall a b x, sublist a b -> Q a x -> Q b x) ->
  sublist l k -> after P Q l -> after P Q k.
Proof.
  intros HP HQ Hs (a & x & b & -> & Ha & Hx). apply sublist_app_l in Hs as (k1 & k2 & -> & H1 & H2).
  apply sublist_cons_l in H2 as (k3 & k4 & -> & H3). assert (sublist a (k1 ++ k3)) by (rewrite <-(app_nil_r a); apply sublist_app; [done|apply sublist_nil_l]).
  exists (k1 ++ k3), x, k4. split; [by rewrite <-app_assoc|]. split; [by eapply HP|by eapply HQ].
Qed.
Lemma created_sublist n h a b : sublist a b -> created n a h -> created n b h.
Proof. intros Hs (c & Hc & H). exists c. split; [by eapply elem_of_sublist|done]. Qed.
Lemma hollows_sublist l k : sublist l k -> hollows l -> hollows k.
Proof.
  assert (Hp : forall apis a b x, sublist a b -> on_process apis a x -> on_process apis b x) by (intros apis a b x Hs [? ?]; split; [done|by eapply created_sublist]).
  assert (Ht : forall n a b x, sublist a b -> on_thread n a x -> on_thread n b x) by (intros n a b x Hs [? ?]; split; [done|by eapply created_sublist]).
  assert (Hb : forall a b x, sublist a b -> begins a x -> begins b x) by (intros a b x Hs [H|H]; [left|right]; eauto).
  assert (Hc : forall a b x, sublist a b -> changes a x -> changes b x) by (intros a b x Hs [H|H]; [left|right]; eauto).
  assert (Hr : forall a b x, sublist a b -> resumes a x -> resumes b x) by (intros a b x Hs [H|H]; [left|right]; eauto).
  apply after_sublist; [|done]. intros a b. apply after_sublist; [|done]. intros a' b'. by apply after_sublist.
Qed.
Lemma wanted_sublist l k : sublist l k -> sublist (wanted l) (wanted k).
Proof.
  induction 1 as [|x l k H IH|x l k H IH]; [done| |]; unfold wanted; rewrite !filter_cons; destruct (decide _); try done.
  - by apply sublist_skip.
  - by apply sublist_cons.
Qed.
Lemma some_of_names ps' ps : some_of ps' ps -> ps'.*1 = ps.*1.
Proof. induction 1 as [|[p cs'] [q cs] l l' [E _] H IH]; [done|]. cbn in *. by rewrite E, IH. Qed.

(** C39. The signature for process hollowing, whichever signatures of the module
    are loaded, is reported only if some process made the calls of the pattern
    in order: it created a process, then touched its memory or thread, then
    wrote, then resumed it. When it is the first signature, it is reported
    exactly if the pattern is in the calls of a process before which no process
    on the allow list made a call that the signature wants: a process called
    acrord32.exe ends the signature for all processes. *)
Theorem hollowing_reported (ks : list cape_class) (r : results) (b : behavior_results) (category malfamily : string)
    (d : detections) (cfg : detection_config) :
  NoDup ks -> r_behavior r = Some b -> NoDup (br_processes b).*1 ->
  exists rr s', run_signatures [] cfg (loaded ks r category malfamily d) = (Ok rr, s') /\
    (CAPE_InjectionProcessHollowing ∈ ks -> the_match CAPE_InjectionProcessHollowing ∈ signatures rr ->
      exists p cs, (p, cs) ∈ br_processes b /\ pr_name p ∉ allow_list /\ hollows (wanted cs)) /\
    (head ks = Some CAPE_InjectionProcessHollowing ->
      the_match CAPE_InjectionProcessHollowing ∈ signatures rr <-> hollowing_in (br_processes b)).
Proof.
  intros Hks Hb Hnd. destruct (loaded_run ks Hks r category malfamily d cfg b Hb) as (rr & s' & Hr & Hs).
  exists rr, s'. split; [done|]. split.
  - intros [j Hj]%list_elem_of_lookup_1 Hm. destruct (Hs j _ Hj) as (ps' & Hps & _ & Hiff); [done|]. apply Hiff in Hm.
    apply hollow_reported in Hm as (before & p & cs & rest & -> & _ & Hp & Hh); [|by rewrite (some_of_names _ _ Hps)].
    destruct (some_of_elem _ _ p cs Hps) as (cs' & Hin & Hsub); [apply elem_of_app; right; left|]. exists p, cs'. split_and!; [done..|].
    eapply hollows_sublist; [|done]. by apply wanted_sublist.
  - intros Hhd. assert (Hj : ks !! O = Some CAPE_InjectionProcessHollowing) by (by destruct ks).
    destruct (Hs O _ Hj) as (ps' & Hps & Hall & Hiff); [done|]. rewrite Hiff, (Hall eq_refl). by apply hollow_reported.
Qed.

(** The number of a process is no text, so its own number is another process. *)
Lemma own_process_is_other p n : pr_id p = BInt n -> other_process (Some (str_int n)) p = true.
Proof. intros E. unfold other_process. rewrite E. by rewrite bool_decide_false. Qed.

(** ** Instances *)

(** An image whose machine, size of optional header and size of headers are 0. *)
Definition zero_image : list Z :=
  repeat 0 60 ++ le_bytes 4 0x80 ++ repeat 0 64 ++ [80; 69; 0; 0] ++ repeat 0 18 ++ le_bytes 2 IMAGE_FILE_EXECUTABLE_IMAGE
  ++ le_bytes 2 OPTIONAL_HEADER_MAGIC_PE ++ repeat 0 400.
Example zero_image_accepted : IsPEImage_bytes zero_image 0 = true.
Proof. by vm_compute. Qed.

Definition image_argument (apin n : string) : argument :=
  match parse_argument true "misc" apin (n, BBytes zero_image) with
  | Ok (Some a) => a
  | _ => {| a_name := n; a_value := ""; raw_value := None; pretty_value := None |}
  end.
Definition buffer_call (apin n : string) : call :=
  {| timestamp := 0; thread_id := "7"; caller := "0x00000000"; parentcaller := "0x00000000"; ProcessLog.category := "misc"; api := apin;
     c_status := true; c_return := "0x00000000"; pretty_return := None; arguments := [image_argument apin n]; repeated := 0; c_id := Some 0 |}.
Definition behavior_of (ps : list (process * list call)) : behavior_results := {| br_processes := ps; br_summary := [] |}.
Definition results_of (ps : list (process * list call)) : results :=
  {| r_behavior := Some (behavior_of ps); r_network := None; r_suricata := None |}.
Definition buffer_behavior : list (process * list call) :=
  [(example_process 1 0, [buffer_call "RtlDecompressBuffer" "UncompressedBuffer"; buffer_call "CryptDecrypt" "Buffer"])].

Lemma parsed_calls_forall ps : Forall (fun pc => Forall (fun c => Forall parsed_argument (arguments c)) pc.2) ps -> parsed_calls (behavior_of ps).
Proof.
  intros H p cs c a Hin Hc Ha. rewrite Forall_forall in H. specialize (H _ Hin). cbn [snd] in H. rewrite Forall_forall in H.
  specialize (H _ Hc). rewrite Forall_forall in H. by apply H.
Qed.

Lemma buffer_call_parsed apin n : parse_argument true "misc" apin (n, BBytes zero_image) = Ok (Some (image_argument apin n)) ->
  Forall parsed_argument (arguments (buffer_call apin n)).
Proof.
  intros E. constructor; [|constructor]. exists true, "misc", apin, n, (BBytes zero_image). split; [|done].
  by apply (bool_decide_unpack _); vm_compute.
Qed.

Lemma buffers_never_images_witness :
  IsPEImage_bytes zero_image 0 = true /\
  exists rr s', run_signatures [] example_detection
      (loaded [CAPE_Compression; CAPE_Unpacker; CAPE_Decryption] (results_of buffer_behavior) "file" "" []) = (Ok rr, s') /\
    the_match CAPE_Compression ∉ signatures rr /\ the_match CAPE_Decryption ∉ signatures rr.
Proof.
  split; [by vm_compute|].
  destruct (buffers_never_images [CAPE_Compression; CAPE_Unpacker; CAPE_Decryption] (results_of buffer_behavior) (behavior_of buffer_behavior)
              "file" "" [] example_detection) as (rr & s' & Hr & Hs).
  - by apply (bool_decide_unpack _); vm_compute.
  - done.
  - apply parsed_calls_forall. constructor; [|constructor].
    constructor; [apply buffer_call_parsed; by vm_compute|constructor; [apply buffer_call_parsed; by vm_compute|constructor]].
  - exists rr, s'. split; [done|]. clear Hr. split; apply Hs; [by left|by left|by do 2 right; left|by right; right].
Defined.

(** A process is created, its memory freed, written, and its thread resumed. *)
Definition hc_create := example_call "CreateProcessInternalW" "process" [("ProcessHandle", "0x10"); ("ThreadHandle", "0x14"); ("ProcessId", "2")].
Definition hc_unmap := example_call "NtUnmapViewOfSection" "process" [("ProcessHandle", "0x10")].
Definition hc_write := example_call "NtWriteVirtualMemory" "process" [("ProcessHandle", "0x10")].
Definition hc_resume := example_call "NtResumeThread" "threading" [("ThreadHandle", "0x14")].
Definition hollow_calls : list call := [hc_create; hc_unmap; example_call "NtClose" "system" []; hc_write; hc_resume].
Definition hollow_behavior : list (process * list call) := [(example_process 2 1, [hc_resume]); (example_process 1 0, hollow_calls)].
Lemma hollow_example : hollowing_in hollow_behavior.
Proof.
  assert (Hc : forall n l h, arg hc_create n = h -> created n (hc_create :: l) h) by (intros n l h ?; exists hc_create; split; [left|done]).
  exists [(example_process 2 1, [hc_resume])], (example_process 1 0), hollow_calls, [].
  split; [done|]. split; [|split; [by apply (bool_decide_unpack _); vm_compute|]].
  { intros q qs [= -> ->]%list_elem_of_singleton Hin. exfalso. revert Hin. by apply (bool_decide_unpack _); vm_compute. }
  assert (Hw : wanted hollow_calls = [hc_create; hc_unmap; hc_write; hc_resume]) by done. rewrite Hw.
  exists [hc_create; hc_unmap; hc_write], hc_resume, []. split; [done|]. split.
  - exists [hc_create; hc_unmap], hc_write, []. split; [done|]. split.
    + exists [hc_create], hc_unmap, []. split; [done|]. split; [done|]. left. split; [left|]. by apply Hc; vm_compute.
    + left. split; [left|]. by apply Hc; vm_compute.
  - left. split; [done|]. by apply Hc; vm_compute.
Qed.
Lemma hollowing_reported_witness :
  exists rr s', run_signatures [] example_detection
      (loaded [CAPE_InjectionProcessHollowing; CAPE_Unpacker] (results_of hollow_behavior) "file" "" []) = (Ok rr, s') /\
    the_match CAPE_InjectionProcessHollowing ∈ signatures rr.
Proof.
  destruct (hollowing_reported [CAPE_InjectionProcessHollowing; CAPE_Unpacker] (results_of hollow_behavior) (behavior_of hollow_behavior)
              "file" "" [] example_detection) as (rr & s' & Hr & _ & Hs).
  - by apply (bool_decide_unpack _); vm_compute.
  - done.
  - by apply (bool_decide_unpack _); vm_compute.
  - exists rr, s'. split; [done|]. clear Hr. apply Hs; [reflexivity|].
    exact hollow_example.
Defined.
