(* ===== verification/Plugins.v ===== *)
(** The managers of the plugins in lib/cuckoo/core/plugins.py: RunAuxiliary,
    RunProcessing and RunReporting, and process of utils/process.py, which runs
    one task through processing, signatures (RunSignatures.v) and reporting. *)
From S2P Require Import Prelude Struct Pretty ProcessLog Behavior RunSignatures.
From Stdlib Require Import Floats.SpecFloat.
Open Scope string_scope.
Open Scope list_scope.
Open Scope Z_scope.

(** [Config(...).get(section)]: [None] raises CuckooOperationalError; the value
    is the option [enabled]. *)
Abbreviation plugin_config := (string -> option bool).

(** [rsplit(".", 1)[1]] of a module name with a dot. *)
Definition module_name (s : string) : string := default s (last (split_on "." s)).

(** ** RunAuxiliary *)

(** The code of the auxiliary modules. *)
Class auxiliary_code (M W : Type) := {
  aux_module : M -> string;                 (** the name of its Python module *)
  aux_init : M -> st W unit;
  aux_start : M -> st W unit;
  aux_stop : M -> st W unit;
  aux_callback : M -> string -> st W unit }.

Record aux_state (M W : Type) := { aux_enabled : list M; aux_world : W }.
Arguments aux_enabled {M W} _.
Arguments aux_world {M W} _.

Section auxiliary.
Context {M W : Type} `{auxiliary_code M W}.
Definition aux_mk (l : list M) (w : W) : aux_state M W := {| aux_enabled := l; aux_world := w |}.

Fixpoint RunAuxiliary_start (cfg : plugin_config) (auxiliary_list : list M) (s : aux_state M W) : aux_state M W :=
  match auxiliary_list with
  | [] => s
  | module :: rest =>
      match aux_init module (aux_world s) with
      | (Raise _, w) => aux_mk (aux_enabled s) w
      | (Ok _, w) =>
          match cfg (module_name (aux_module module)) with
          | Some true =>
              match aux_start module w with
              | (Ok _, w') => RunAuxiliary_start cfg rest (aux_mk (aux_enabled s ++ [module]) w')
              | (Raise _, w') => RunAuxiliary_start cfg rest (aux_mk (aux_enabled s) w')
              end
          | _ => RunAuxiliary_start cfg rest (aux_mk (aux_enabled s) w)
          end
      end
  end.

Fixpoint callback_loop (name : string) (l enabled : list M) (w : W) : aux_state M W :=
  match l with
  | [] => aux_mk enabled w
  | module :: rest =>
      match aux_callback module name w with
      | (Raise CuckooDisableModule, w') => callback_loop name rest enabled w'
      | (_, w') => callback_loop name rest (enabled ++ [module]) w'
      end
  end.
Definition RunAuxiliary_callback (name : string) (s : aux_state M W) : aux_state M W :=
  callback_loop name (aux_enabled s) [] (aux_world s).

Definition RunAuxiliary_stop (s : aux_state M W) : aux_state M W :=
  aux_mk (aux_enabled s) (fold_left (fun w m => (aux_stop m w).2) (aux_enabled s) (aux_world s)).
End auxiliary.

(** ** RunProcessing *)

(** The values of the dictionary of results. *)
Inductive data (X : Type) := DBehavior (b : behavior) | DReported (b : behavior) (calls : list (list call)) | DOther (x : X).
Arguments DBehavior {X} _.
Arguments DReported {X} _ _.
Arguments DOther {X} _.
Abbreviation results X := (list (string * data X)).

Class processing_code (P X : Type) := {
  p_module : P -> string; p_order : P -> Z; p_key : P -> string;
  p_init : P -> st (results X) unit;
  p_run : P -> st (results X) (data X) }.

Section processing.
Context {P X : Type} `{processing_code P X}.

Definition RunProcessing_process (cfg : plugin_config) (module : P) (r : results X) : option (string * data X) * results X :=
  match p_init module r with
  | (Raise _, r1) => (None, r1)
  | (Ok _, r1) =>
      match cfg (module_name (p_module module)) with
      | Some true =>
          match p_run module r1 with
          | (Ok data, r2) => (Some (p_key module, data), r2)
          | (Raise _, r2) => (None, r2)
          end
      | _ => (None, r1)
      end
  end.

Fixpoint processing_loop (cfg : plugin_config) (l : list P) (r : results X) : results X :=
  match l with
  | [] => r
  | module :: rest =>
      match RunProcessing_process cfg module r with
      | (Some (key, d), r1) => processing_loop cfg rest (dict_set key d r1)
      | (None, r1) => processing_loop cfg rest r1
      end
  end.
Definition before_in_order (a b : P) : bool := p_order a <=? p_order b.
Definition RunProcessing_run (cfg : plugin_config) (processing_list : list P) (r : results X) : results X :=
  processing_loop cfg (merge_sort (holds2 before_in_order) processing_list) r.
End processing.

(** ** RunReporting *)

Class reporting_code (R X : Type) := {
  rp_module : R -> string; rp_order : R -> Z;
  rp_init : R -> res unit;
  rp_run : R -> st (results X) unit;
  falsy : X -> bool }.

Definition begin_reporting (s : plog) : plog :=
  {| pl_rest := pl_rest s; pl_whole := pl_whole s; infomap := infomap s; process_id := process_id s;
     process_name := process_name s; parent_id := parent_id s; module_path := module_path s;
     first_seen := first_seen s; threads := threads s; environdict := environdict s; lastcall := lastcall s;
     api_count := api_count s; call_id := call_id s; api_limit := api_limit s; reporting_mode := true |}.

Section reporting.
Context {R X : Type} `{reporting_code R X} `{bson}.

Fixpoint dict_del (k : string) (d : results X) : results X :=
  match d with
  | [] => []
  | (k', v) :: d' => if bool_decide (k = k') then d' else (k', v) :: dict_del k d'
  end.
Definition drop_pefiles (r : results X) : results X :=
  match dict_lookup "pefiles" r with
  | Some (DOther x) => if falsy x then r else dict_del "pefiles" r
  | Some _ => dict_del "pefiles" r
  | None => r
  end.
Fixpoint listed_calls (ps : list process) : res (list (list call)) :=
  match ps with
  | [] => Ok []
  | p :: ps' => let! cs := (calls (begin_reporting (pr_log p))).1 in let! l := listed_calls ps' in Ok (cs :: l)
  end.
Definition RunReporting_init (r : results X) : res (results X) :=
  let r := drop_pefiles r in
  match dict_lookup "behavior" r with
  | None => Raise KeyError
  | Some (DBehavior b) => let! l := listed_calls (b_processes b) in Ok (dict_set "behavior" (DReported b l) r)
  | Some (DReported _ _) => Raise AttributeError
  | Some (DOther _) => Raise TypeError
  end.

(** [parents] is what [list_parents] returns, if it is not empty. *)
Definition RunReporting_process (cfg : plugin_config) (reprocess : bool) (parents : option X) (module : R) (r : results X) :
    results X :=
  match rp_init module with
  | Raise _ => r
  | Ok _ =>
      let name := module_name (rp_module module) in
      match cfg name with
      | Some true =>
          if bool_decide (name = "submitCAPE") && reprocess then
            match parents with Some tasks => dict_set "CAPE_children" (DOther tasks) r | None => r end
          else (rp_run module r).2
      | _ => r
      end
  end.
Definition report_before (a b : R) : bool := rp_order a <=? rp_order b.
Definition RunReporting_run (cfg : plugin_config) (reprocess : bool) (parents : option X) (reporting_list : list R) (r : results X) :
    results X :=
  fold_left (fun r m => RunReporting_process cfg reprocess parents m r) (merge_sort (holds2 report_before) reporting_list) r.
End reporting.

(** ** One task: process of utils/process.py *)

(** The results, the status of the task, and what else the signatures see. *)
Record pipeline (X O : Type) := { pl_results : results X; pl_status : string; pl_other : O }.
Arguments pl_results {X O} _.
Arguments pl_status {X O} _.
Arguments pl_other {X O} _.

Record plugins (P R X : Type) := {
  signature_list : list nat; processing_list : list P; reporting_list : list R;
  processing_cfg : plugin_config; reporting_cfg : plugin_config; overlays : list (string * list overlay_item);
  detection_cfg : detection_config; list_parents : option X; of_matches : list sig_match -> X;
  of_score : spec_float -> X; of_ttps : list (string * string) -> X }.
Arguments signature_list {P R X} _.
Arguments processing_list {P R X} _.
Arguments reporting_list {P R X} _.
Arguments processing_cfg {P R X} _.
Arguments reporting_cfg {P R X} _.
Arguments overlays {P R X} _.
Arguments detection_cfg {P R X} _.
Arguments list_parents {P R X} _.
Arguments of_matches {P R X} _.
Arguments of_score {P R X} _.
Arguments of_ttps {P R X} _.

Definition TASK_REPORTED : string := "reported".
Definition TASK_FAILED_PROCESSING : string := "failed_processing".

Section process.
Context {P R X O : Type} `{processing_code P X} `{reporting_code R X} `{bson} `{signature_code (pipeline X O)}.

Definition with_results (f : results X -> results X) (w : pipeline X O) : pipeline X O :=
  {| pl_results := f (pl_results w); pl_status := pl_status w; pl_other := pl_other w |}.
Definition set_task_status (s : string) (w : pipeline X O) : pipeline X O :=
  {| pl_results := pl_results w; pl_status := s; pl_other := pl_other w |}.

(** [RunSignatures(...).run()], which stores the signatures, the score and the ttps. *)
Definition signatures_step (pl : plugins P R X) : st (pipeline X O) unit := fun w =>
  match run_signatures (overlays pl) (detection_cfg pl) {| complete := signature_list pl; matched := []; ttps := []; world := w |} with
  | (Ok r, s) => 
      (Ok tt, with_results (fun d => dict_set "ttps" (DOther (of_ttps pl (res_ttps r)))
                (dict_set "malscore" (DOther (of_score pl (malscore r)))
                  (dict_set "signatures" (DOther (of_matches pl (signatures r))) d))) (world s))
  | (Raise e, s) => (Raise e, world s)
  end.

Definition process_task (pl : plugins P R X) (report auto capeproc : bool) : st (pipeline X O) unit :=
  do* smodify (fun w => {| pl_results := []; pl_status := pl_status w; pl_other := pl_other w |}) in
  do* smodify (with_results (RunProcessing_run (processing_cfg pl) (processing_list pl))) in
  do* signatures_step pl in
  if report then
    let* r := (fun w => (RunReporting_init (pl_results w), w)) in
    do* smodify (with_results (fun _ =>
      RunReporting_run (reporting_cfg pl) (negb (auto || capeproc) && report) (list_parents pl) (reporting_list pl) r)) in
    smodify (set_task_status TASK_REPORTED)
  else sret tt.

(** [processing_finished], the callback of the future. *)
Definition processing_finished (r : res unit * pipeline X O) : pipeline X O :=
  match r with
  | (Ok _, w) => w
  | (Raise _, w) => set_task_status TASK_FAILED_PROCESSING w
  end.
End process.

(** ** The life of the auxiliary modules *)

(** What happens to a module, as a log beside the code of the modules. *)
Inductive aux_event (M : Type) := Started (m : M) | Stopped (m : M) | Disabled (m : M).
Arguments Started {M} _.
Arguments Stopped {M} _.
Arguments Disabled {M} _.

Definition logged {M W} (m : st W unit) (on_ok on_raise : list (aux_event M)) : st (W * list (aux_event M)) unit := fun w =>
  let '(r, w') := m w.1 in
  (r, (w', w.2 ++ match r with Ok _ => on_ok | Raise CuckooDisableModule => on_raise | Raise _ => [] end)).
#[local] Instance logged_code {M W} `{auxiliary_code M W} : auxiliary_code M (W * list (aux_event M)) := {
  aux_module := aux_module;
  aux_init m := logged (aux_init m) [] [];
  aux_start m := logged (aux_start m) [Started m] [];
  aux_stop m := fun w => let '(r, w') := aux_stop m w.1 in (r, (w', w.2 ++ [Stopped m]));
  aux_callback m n := logged (aux_callback m n) [] [Disabled m] }.

Section life.
Context {M W : Type} `{EqDecision M} `{auxiliary_code M W}.
Implicit Types (s : aux_state M (W * list (aux_event M))) (l ds : list M).

Definition started (log : list (aux_event M)) : list M := omap (fun e => match e with Started m => Some m | _ => None end) log.
Definition stopped (log : list (aux_event M)) : list M := omap (fun e => match e with Stopped m => Some m | _ => None end) log.
Definition disabled (log : list (aux_event M)) : list M := omap (fun e => match e with Disabled m => Some m | _ => None end) log.
Definition log_of s : list (aux_event M) := (aux_world s).2.

Lemma filter_agree {A} (P Q : A -> Prop) `{!forall x, Decision (P x), !forall x, Decision (Q x)} (l : list A) :
  (forall x, x ∈ l -> P x <-> Q x) -> filter P l = filter Q l.
Proof using Type.
  induction l as [|x l IH]; intros Hpq; [done|]. rewrite !filter_cons, IH by (intros y Hy; apply Hpq; by right).
  pose proof (Hpq x ltac:(left)). destruct (decide (P x)), (decide (Q x)); done || tauto.
Qed.

(** Code that leaves no event when it raises, or returns. *)
Lemma logged_same (m : st W unit) w : exists r w', logged (M := M) m [] [] w = (r, (w', w.2)).
Proof using Type.
  unfold logged. destruct (m w.1) as [[u|e] w']; [|destruct e]; cbn; rewrite app_nil_r; by eexists _, _.
Qed.

Definition starts (cfg : plugin_config) l s s' : Prop := exists ms,
  log_of s' = log_of s ++ (Started <$> ms) /\ aux_enabled s' = aux_enabled s ++ ms /\ sublist ms l.

Lemma starts_skip cfg m l s w r : (forall s1, starts cfg l s1 (r s1)) -> (w : W * list (aux_event M)).2 = log_of s ->
  starts cfg (m :: l) s (r (aux_mk (aux_enabled s) w)).
Proof using Type.
  intros IH Hw. destruct (IH (aux_mk (aux_enabled s) w)) as (ms & Hl & He & Hs). exists ms.
  unfold log_of at 2 in Hl. cbn [aux_world aux_mk aux_enabled] in *. rewrite Hw in Hl. split_and!; [done..|by apply sublist_cons].
Qed.

Lemma start_log cfg l : forall s, starts cfg l s (RunAuxiliary_start cfg l s).
Proof using Type.
  induction l as [|m l IH]; intros s; cbn [RunAuxiliary_start].
  { exists []. by rewrite !app_nil_r. }
  cbn [aux_init aux_start logged_code]. destruct (logged_same (aux_init m) (aux_world s)) as ([u|e] & w1 & ->).
  2:{ exists []. rewrite !app_nil_r. split_and!; [done..|apply sublist_nil_l]. }
  destruct (cfg _) as [[]|]; [|by apply starts_skip..].
  unfold logged. cbn [fst snd]. destruct (aux_start m w1) as [[u'|e] w2].
  - destruct (IH (aux_mk (aux_enabled s ++ [m]) (w2, (aux_world s).2 ++ [Started m]))) as (ms & Hl & He & Hs).
    exists (m :: ms). rewrite Hl, He, fmap_cons. cbn [log_of aux_world aux_mk aux_enabled snd]. rewrite <-!app_assoc.
    split_and!; [done..|by apply sublist_skip].
  - apply starts_skip; [done|]. destruct e; apply app_nil_r.
Qed.

Lemma callback_log name l : forall acc w, NoDup l -> exists ds,
  log_of (callback_loop name l acc w) = (w : W * list (aux_event M)).2 ++ (Disabled <$> ds) /\
  aux_enabled (callback_loop name l acc w) = acc ++ filter (fun m => m ∉ ds) l /\ (forall m, m ∈ ds -> m ∈ l).
Proof using Type.
  induction l as [|m l IH]; intros acc w Hnd; cbn [callback_loop].
  { exists []. cbn. rewrite !app_nil_r. split_and!; [done..|]. by intros m ?%elem_of_nil. }
  apply NoDup_cons in Hnd as [Hm Hnd].
  assert (Hstay : forall w1, w1.2 = w.2 -> exists ds,
    log_of (callback_loop name l (acc ++ [m]) w1) = w.2 ++ (Disabled <$> ds) /\
    aux_enabled (callback_loop name l (acc ++ [m]) w1) = acc ++ filter (fun x => x ∉ ds) (m :: l) /\ (forall x, x ∈ ds -> x ∈ m :: l)).
  { intros w1 Hw. destruct (IH (acc ++ [m]) w1 Hnd) as (ds & Hl & He & Hin). exists ds. rewrite Hl, He, Hw, filter_cons, <-app_assoc.
    rewrite decide_True by (intros Hd; by apply Hm, Hin). split_and!; [done..|]. intros x Hx. right. by apply Hin. }
  cbn [aux_callback logged_code]. unfold logged. destruct (aux_callback m name w.1) as [[u|e] w1].
  { apply Hstay. apply app_nil_r. }
  destruct (decide (e = CuckooDisableModule)) as [->|He]; [|destruct e; try done; apply Hstay; apply app_nil_r].
  destruct (IH acc (w1, w.2 ++ [Disabled m]) Hnd) as (ds & Hl & Hen & Hin). exists (m :: ds).
  rewrite Hl, Hen, filter_cons, fmap_cons. cbn [snd]. rewrite <-app_assoc. rewrite decide_False by (intros Hx; apply Hx; left).
  split_and!; [done| |].
  - f_equal. apply filter_agree. intros x Hx. rewrite not_elem_of_cons. split; [|tauto]. intros Hd. split; [|done]. by intros ->.
  - intros x [->|Hx]%elem_of_cons; [left|right; by apply Hin].
Qed.

Lemma stop_log s : log_of (RunAuxiliary_stop s) = log_of s ++ (Stopped <$> aux_enabled s).
Proof using Type.
  unfold RunAuxiliary_stop, log_of. cbn [aux_world aux_mk]. generalize (aux_world s). induction (aux_enabled s) as [|m l IH]; intros w; cbn [fold_left].
  { by rewrite app_nil_r. }
  rewrite IH, fmap_cons. cbn [aux_stop logged_code]. destruct (aux_stop m w.1) as [r w']. cbn [snd]. by rewrite <-app_assoc.
Qed.

Lemma events_started ms : started (Started <$> ms) = ms /\ stopped (Started <$> ms) = [] /\ disabled (Started <$> ms) = [].
Proof using Type. induction ms as [|m ms (IH1 & IH2 & IH3)]; [done|]. unfold started, stopped, disabled in *. rewrite fmap_cons. cbn [omap list_omap]. by rewrite IH1, IH2, IH3. Qed.
Lemma events_disabled ms : started (Disabled <$> ms) = [] /\ stopped (Disabled <$> ms) = [] /\ disabled (Disabled <$> ms) = ms.
Proof using Type. induction ms as [|m ms (IH1 & IH2 & IH3)]; [done|]. unfold started, stopped, disabled in *. rewrite fmap_cons. cbn [omap list_omap]. by rewrite IH1, IH2, IH3. Qed.
Lemma events_stopped ms : started (Stopped <$> ms) = [] /\ stopped (Stopped <$> ms) = ms /\ disabled (Stopped <$> ms) = [].
Proof using Type. induction ms as [|m ms (IH1 & IH2 & IH3)]; [done|]. unfold started, stopped, disabled in *. rewrite fmap_cons. cbn [omap list_omap]. by rewrite IH1, IH2, IH3. Qed.

(** Between start and stop: the enabled modules are the started ones that did
    not disable themselves, and none was stopped. *)
Definition aux_running s : Prop :=
  NoDup (aux_enabled s) /\ aux_enabled s = filter (fun m => m ∉ disabled (log_of s)) (started (log_of s)) /\ stopped (log_of s) = [].

Lemma running_callback name s : aux_running s -> aux_running (RunAuxiliary_callback name s).
Proof using Type.
  intros (Hnd & He & Hst). unfold RunAuxiliary_callback.
  destruct (callback_log name (aux_enabled s) [] (aux_world s) Hnd) as (ds & Hl & Hen & Hin).
  destruct (events_disabled ds) as (E1 & E2 & E3). unfold aux_running. rewrite Hl, Hen. cbn [app].
  unfold started, stopped, disabled in *. rewrite !omap_app, E1, E2, E3, !app_nil_r. fold (log_of s).
  split_and!; [by apply NoDup_filter| |done]. rewrite He, list_filter_filter. apply filter_agree. intros m _. rewrite elem_of_app. tauto.
Qed.
Lemma running_start cfg l w : NoDup l -> aux_running (RunAuxiliary_start cfg l (aux_mk [] (w, []))).
Proof using Type.
  intros Hnd. destruct (start_log cfg l (aux_mk [] (w, []))) as (ms & Hl & He & Hs). cbn [log_of aux_world aux_mk snd app aux_enabled] in Hl, He.
  destruct (events_started ms) as (E1 & E2 & E3). unfold aux_running. rewrite Hl, He. rewrite E1, E2, E3.
  split_and!; [by eapply sublist_NoDup| |done]. symmetry. apply filter_all. intros x _. by apply not_elem_of_nil.
Qed.

(** C23. Whatever the auxiliary modules do: after a start, any callbacks and a
    stop, the modules that were stopped are exactly those that were started
    and did not disable themselves, each once and in the order of their start. *)
Theorem auxiliary_stopped cfg l names w : NoDup l ->
  let s := RunAuxiliary_stop (fold_left (fun s n => RunAuxiliary_callback n s) names (RunAuxiliary_start cfg l (aux_mk [] (w, [])))) in
  stopped (log_of s) = filter (fun m => m ∉ disabled (log_of s)) (started (log_of s)).
Proof using Type.
  intros Hnd s. subst s. pose proof (running_start cfg l w Hnd) as Hr. revert Hr. generalize (RunAuxiliary_start cfg l (aux_mk [] (w, []))).
  induction names as [|n names IH]; intros s Hr; cbn [fold_left]; [|by apply IH, running_callback].
  destruct Hr as (_ & He & Hst). destruct (events_stopped (aux_enabled s)) as (E1 & E2 & E3). rewrite stop_log.
  unfold started, stopped, disabled in *. by rewrite !omap_app, E1, E2, E3, Hst, !app_nil_r, He.
Qed.
End life.

(** ** A log that cannot be parsed fails the task *)

Section failing.
Context {P R X O : Type} `{processing_code P X} `{reporting_code R X} `{bson} `{signature_code (pipeline X O)}.

Definition absent (r : results X) : Prop := dict_lookup "behavior" r = None.

Lemma absent_set k d r : k <> "behavior" -> absent r -> absent (dict_set k d r).
Proof using Type. intros Hk Hr. unfold absent. rewrite dict_lookup_set, decide_False by done. done. Qed.
Lemma absent_del k r : absent r -> absent (dict_del k r).
Proof using Type.
  unfold absent. induction r as [|[k' v] r IH]; cbn [dict_del dict_lookup]; [done|]. case_bool_decide; [done|]. intros Hr.
  case_bool_decide; [done|]. cbn [dict_lookup]. rewrite bool_decide_false by done. by apply IH.
Qed.
Lemma absent_init r : absent r -> RunReporting_init r = Raise KeyError.
Proof using Type.
  intros Hr. unfold RunReporting_init. assert (absent (drop_pefiles r)) as ->; [|done].
  unfold drop_pefiles. destruct (dict_lookup "pefiles" r) as [[b|b l|x]|]; [by apply absent_del..| |done].
  destruct (falsy x); [done|by apply absent_del].
Qed.

Context (cfg : log_config) (folder : option (list log_file)).
Context (pl : plugins P R X) (w : pipeline X O).
(** The module of the behaviour is BehaviorAnalysis; no module stores anything under its key
    in the results by itself. *)
Context (behavior_module : forall m, m ∈ processing_list pl -> p_key m = "behavior" ->
  p_run m = slift (rbind (BehaviorAnalysis_run cfg folder) (fun b => Ok (DBehavior b)))).
Context (other_modules : forall m r, absent r -> absent (p_init m r).2 /\ absent (p_run m r).2).

Context (bad : exists e, processes_run cfg folder = Raise e).

Lemma absent_process m r : m ∈ processing_list pl -> absent r ->
  absent (RunProcessing_process (processing_cfg pl) m r).2 /\
  forall k d, (RunProcessing_process (processing_cfg pl) m r).1 = Some (k, d) -> k <> "behavior".
Proof using bad behavior_module other_modules.
  intros Hm Hr. unfold RunProcessing_process. destruct (other_modules m r Hr) as [Ha1 _].
  destruct (p_init m r) as [[u|e'] r1]; cbn [snd] in Ha1; [|done]. destruct (processing_cfg pl _) as [[]|]; [|done..].
  destruct (other_modules m r1 Ha1) as [_ Ha2]. destruct (p_run m r1) as [[d|e'] r2] eqn:E; cbn [snd] in Ha2; [|done].
  split; [done|]. intros k d' [= <- <-] Hk. rewrite (behavior_module m Hm Hk) in E. unfold BehaviorAnalysis_run in E. destruct bad as [e0 Eb]. rewrite Eb in E.
  cbn in E. by inversion E.
Qed.
Lemma absent_processing l : (forall m, m ∈ l -> m ∈ processing_list pl) -> forall r, absent r -> absent (processing_loop (processing_cfg pl) l r).
Proof using bad behavior_module other_modules.
  induction l as [|m l IH]; intros Hl r Hr; cbn [processing_loop]; [done|].
  destruct (absent_process m r (Hl m ltac:(left)) Hr) as [Ha1 Ha2].
  destruct (RunProcessing_process _ m r) as [[[k d]|] r1]; cbn [fst snd] in *.
  - apply IH; [intros x Hx; apply Hl; by right|]. apply absent_set; [by eapply Ha2|done].
  - apply IH; [intros x Hx; apply Hl; by right|done].
Qed.

Definition gives_up (out : res unit * pipeline X O) : Prop := (exists e', out.1 = Raise e') /\ absent (pl_results out.2).

Lemma no_behavior_gives_up auto capeproc : code_keeps (fun w => absent (pl_results w)) ->
  gives_up (process_task pl true auto capeproc w).
Proof using bad behavior_module other_modules.
  intros K. unfold process_task, sbind at 1 2, smodify at 1 2. cbn [with_results pl_results].
  set (w1 := with_results _ _). assert (Ha1 : absent (pl_results w1)).
  { apply absent_processing; [|done]. intros m Hm. by rewrite merge_sort_Permutation in Hm. }
  unfold sbind at 1, signatures_step.
  set (s0 := {| complete := _; matched := _; ttps := _; world := w1 |}).
  pose proof (run_signatures_keeps _ K (overlays pl) (detection_cfg pl) s0 Ha1) as Ha2.
  destruct (run_signatures _ _ s0) as [[r|e'] s1]; cbn [snd] in Ha2; [|split; [by exists e'|done]].
  set (w2 := with_results _ (world s1)). assert (Ha3 : absent (pl_results w2)) by (cbn; by repeat apply absent_set).
  unfold sbind. rewrite absent_init by done. split; [by eexists|done].
Qed.
End failing.

(** C22. One log without the message of its process costs the whole task. In a folder with
    any other logs, one log that is not empty nor too big, made of whole messages of which none
    explains the [__process__] call and perhaps an incomplete one at the end, makes the
    behaviour module fail; then, whatever else the other modules and the signatures do, as long as
    none of them stores results under the key [behavior] itself, reporting raises before the
    first report is made, the results have no behaviour, and the task ends as
    failed_processing. *)
Theorem bad_log_fails_task {P R X O : Type} `{processing_code P X} `{reporting_code R X} `{bson} `{signature_code (pipeline X O)}
    (pl : plugins P R X) (w : pipeline X O) cfg pre f post bs tail ds auto capeproc :
  compress_log_file cfg = None -> lf_isdir f = false -> ends_with ".bson" (lf_name f) = true ->
  lf_content f = concat bs ++ tail -> 0 < zlen (lf_content f) <= cfg_size_limit cfg ->
  Forall2 framed bs ds -> cut_off tail -> Forall names_no_process ds ->
  (forall m, m ∈ processing_list pl -> p_key m = "behavior" ->
     p_run m = slift (rbind (BehaviorAnalysis_run cfg (Some (pre ++ f :: post))) (fun b => Ok (DBehavior b)))) ->
  (forall m r, absent r -> absent (p_init m r).2 /\ absent (p_run m r).2) ->
  code_keeps (fun w => absent (pl_results w)) ->
  let out := process_task pl true auto capeproc w in
  gives_up out /\ pl_status (processing_finished out) = TASK_FAILED_PROCESSING.
Proof.
  intros Hc Hd Hn Hcon Hlen Hb Ht Hds Hbeh Hoth K out.
  assert (gives_up out) as Hg.
  { apply (no_behavior_gives_up cfg (Some (pre ++ f :: post))); try done. by eapply log_without_process_loses_all. }
  split; [done|]. destruct Hg as [[e' He] _]. unfold processing_finished. destruct out as [[]]; cbn in He; done.
Qed.

(** ** Instances *)

(** Auxiliary modules by number: 0 cannot be started, 2 disables itself, 4 cannot be made. *)
#[local] Instance example_auxiliary : auxiliary_code nat unit := {
  aux_module m := "modules.auxiliary.sniffer";
  aux_init m w := (if bool_decide (m = 4%nat) then Raise OtherException else Ok tt, w);
  aux_start m w := (if bool_decide (m = 0%nat) then Raise OSError else Ok tt, w);
  aux_stop m w := (if bool_decide (m = 1%nat) then Raise OSError else Ok tt, w);
  aux_callback m n w := (if bool_decide (m = 2%nat) then Raise CuckooDisableModule else Ok tt, w) }.
Definition sniffer_config : plugin_config := fun s => if bool_decide (s = "sniffer") then Some true else None.

Lemma auxiliary_stopped_witness :
  let s := RunAuxiliary_stop (RunAuxiliary_callback "legacy" (RunAuxiliary_start sniffer_config [0; 1; 2; 3; 4; 5]%nat (aux_mk [] (tt, [])))) in
  stopped (log_of s) = filter (fun m => m ∉ disabled (log_of s)) (started (log_of s)) /\ stopped (log_of s) = [1; 3]%nat.
Proof.
  split; [|by vm_compute]. apply (auxiliary_stopped sniffer_config [0; 1; 2; 3; 4; 5]%nat ["legacy"]).
  apply (bool_decide_unpack _). by vm_compute.
Defined.

#[local] Existing Instance example_bson.
Definition example_log_config : log_config := {| cfg_call_limit := 0; cfg_size_limit := 100; compress_log_file := None |}.
Definition example_folder : option (list log_file) := Some [{| lf_name := "12.bson"; lf_isdir := false; lf_content := example_file |}].

(** The behaviour module and one that counts the results before it. *)
#[local] Instance example_processing : processing_code bool nat := {
  p_module b := if b then "modules.processing.behavior" else "modules.processing.targetinfo";
  p_order b := if b then 1 else 0; p_key b := if b then "behavior" else "target";
  p_init _ := sret tt;
  p_run b := if b then slift (rbind (BehaviorAnalysis_run example_log_config example_folder) (fun b => Ok (DBehavior b)))
             else fun r => (Ok (DOther (length r)), r) }.
#[local] Instance example_reporting : reporting_code unit nat := {
  rp_module _ := "modules.reporting.jsondump"; rp_order _ := 1; rp_init _ := Ok tt; rp_run _ := sret tt; falsy n := Nat.eqb n 0 }.
#[local] Instance example_signatures : signature_code (pipeline nat unit) := {
  attrs _ _ := example_attrs "caller" 3; setattr _ _ w := w; construct sig := sret sig; on_call _ _ _ := sret None;
  on_complete _ := sret true; sig_run _ _ := sret true; target_category _ := Ok "file"; behavior_processes _ := None;
  malfamily_tag _ := ""; get_detections _ := []; set_detections _ w := w }.
Definition example_plugins : plugins bool unit nat :=
  {| signature_list := [0%nat]; processing_list := [true; false]; reporting_list := [tt]; processing_cfg _ := Some true;
     reporting_cfg _ := Some true; overlays := []; detection_cfg := example_detection; list_parents := None;
     of_matches l := length l; of_score _ := O; of_ttps l := length l |}.
Definition completed_task : pipeline nat unit := {| pl_results := []; pl_status := "completed"; pl_other := tt |}.

Lemma bad_log_fails_task_witness :
  let out := process_task example_plugins true true false completed_task in
  gives_up out /\ pl_status (processing_finished out) = TASK_FAILED_PROCESSING /\
  dict_lookup "signatures" (pl_results out.2) = Some (DOther 1%nat).
Proof.
  intros out.
  assert (Ho : gives_up out /\ pl_status (processing_finished out) = TASK_FAILED_PROCESSING).
  { apply (bad_log_fails_task example_plugins completed_task example_log_config []
      {| lf_name := "12.bson"; lf_isdir := false; lf_content := example_file |} [] example_frames [9; 0] example_documents);
      try done; [apply example_framed|apply example_cut|..].
    - repeat constructor; intros Hx; vm_compute in Hx |- *; congruence.
    - intros [] _; [done|]. by intros [=].
    - by intros [] r Hr. }
  split; [apply Ho|]. split; [apply Ho|]. by vm_compute.
Defined.
