(* ===== verification/Feeds.v ===== *)
(** class GetFeeds of lib/cuckoo/core/plugins.py and the base class Feed of
    lib/cuckoo/common/abstracts.py. *)
From S2P Require Import Prelude ProcessLog.
Open Scope string_scope.
Open Scope list_scope.
Open Scope Z_scope.

(** A class of feeds: what its constructor sets, or that it raises, and [modify]
    on the downloaded data, whose result is the attribute [data]. *)
Record feed_class := {
  fc_name : string; fc_enabled : bool; fc_init : res unit; fc_feedname : string; fc_downloadurl : string; fc_frequency : Z;
  fc_modify : bytes -> res string }.
(** The base class has no [modify]. *)
Definition Feed_modify (_ : bytes) : res string := Raise NotImplementedError.

(** What [requests.get] gives: [None] is a RequestException. *)
Record feed_world := {
  fw_files : gmap string (Z * string);     (** path, with mtime and content *)
  fw_time : Z;
  fw_get : string -> option Z -> option (Z * bytes);   (** url, [If-Modified-Since]; status code and content *)
  fw_results : list (string * string) }.   (** [results["feeds"]] *)
Definition set_file (path : string) (content : string) (w : feed_world) : feed_world :=
  {| fw_files := <[path := (fw_time w, content)]> (fw_files w); fw_time := fw_time w; fw_get := fw_get w; fw_results := fw_results w |}.
Definition set_result (name path : string) (w : feed_world) : feed_world :=
  {| fw_files := fw_files w; fw_time := fw_time w; fw_get := fw_get w; fw_results := dict_set name path (fw_results w) |}.

Definition feedpath (root : string) (f : feed_class) : string :=
  (root ++ "/data/feeds/" ++ fc_feedname f ++ ".feed")%string.

(** An instance: [data], [downloaddata] and [updatefeed]. *)
Record feed_object := { f_data : string; downloaddata : bytes; updatefeed : bool }.
Definition new_feed : feed_object := {| f_data := ""; downloaddata := []; updatefeed := false |}.

Section feeds.
Context (root : string).

(** [update]: is there new data, and the instance. *)
Definition Feed_update (f : feed_class) (w : feed_world) : bool * feed_object :=
  let old := fst <$> fw_files w !! feedpath root f in
  let updatefeed := match old with Some mtime => fc_frequency f * 3600 <? fw_time w - mtime | None => true end in
  let self := {| f_data := ""; downloaddata := []; updatefeed := updatefeed |} in
  if updatefeed then
    match fw_get w (fc_downloadurl f) (match old with Some 0 => None | m => m end) with
    | None => (false, self)
    | Some (status, content) =>
        if status =? 200 then (true, {| f_data := ""; downloaddata := content; updatefeed := updatefeed |}) else (false, self)
    end
  else (false, self).

(** [run]: the file is opened as text, so that writing bytes raises after it
    was made empty. *)
Definition Feed_run (f : feed_class) (self : feed_object) (modified : bool) : st feed_world unit :=
  if updatefeed self then
    if modified && bool_decide (f_data self <> "") then smodify (set_file (feedpath root f) (f_data self))
    else if bool_decide (downloaddata self <> []) then do* smodify (set_file (feedpath root f) "") in sraise TypeError
    else sret tt
  else sret tt.

(** [GetFeeds.process]. The handler of a failed constructor reads [current],
    which is not bound. *)
Definition GetFeeds_process (f : feed_class) : st feed_world unit := fun w =>
  match fc_init f with
  | Raise _ => (Raise NameError, w)
  | Ok _ =>
      let '(updated, self) := Feed_update f w in
      let record := smodify (set_result (fc_name f) (feedpath root f)) in
      (if updated then
         let modified := (let* d := slift (fc_modify f (downloaddata self)) in
                          Feed_run f {| f_data := d; downloaddata := downloaddata self; updatefeed := updatefeed self |} true) in
         fun w => match modified w with
                  | (Ok _, w1) => record w1
                  | (Raise NotImplementedError, w1) => (do* Feed_run f self false in record) w1
                  | (Raise _, w1) => (Ok tt, w1)
                  end
       else record) w
  end.

Fixpoint GetFeeds_run (feeds_list : list feed_class) : st feed_world unit :=
  match feeds_list with
  | [] => sret tt
  | f :: rest => do* (if fc_enabled f then GetFeeds_process f else sret tt) in GetFeeds_run rest
  end.

(** ** What becomes of a feed *)

(** [f] is due, and its server sends [content]. *)
Definition downloads (f : feed_class) (w : feed_world) (content : bytes) : Prop :=
  Feed_update f w = (true, {| f_data := ""; downloaddata := content; updatefeed := true |}).

Lemma update_due f w : (Feed_update f w).1 = true -> updatefeed (Feed_update f w).2 = true.
Proof using Type.
  unfold Feed_update. set (b := match fst <$> _ with Some _ => _ | None => _ end). destruct b; [|done].
  destruct (fw_get _ _ _) as [[status content]|]; [|done]. by destruct (status =? 200).
Qed.

(** A feed whose class has no [modify] never keeps its data: after a
    download its file is empty, the run raises TypeError and the feeds behind
    it are not looked at. With a [modify] the file holds the modified data. *)
Theorem unmodified_feed_lost f rest w content : fc_enabled f = true -> fc_init f = Ok tt -> downloads f w content -> content <> [] ->
  (fc_modify f = Feed_modify ->
     GetFeeds_run (f :: rest) w = (Raise TypeError, set_file (feedpath root f) "" w)) /\
  (forall d, fc_modify f content = Ok d -> d <> "" ->
     GetFeeds_run (f :: rest) w = GetFeeds_run rest (set_result (fc_name f) (feedpath root f) (set_file (feedpath root f) d w))).
Proof using Type.
  intros He Hi Hd Hc. split.
  - intros Hm. cbn [GetFeeds_run]. rewrite He. unfold sbind at 1, GetFeeds_process. rewrite Hi, Hd, Hm. cbn. by rewrite bool_decide_true.
  - intros d Hm Hne. cbn [GetFeeds_run]. rewrite He. unfold sbind at 1, GetFeeds_process. rewrite Hi, Hd.
    unfold sbind, slift. cbn [downloaddata]. rewrite Hm. cbn -[GetFeeds_run]. by rewrite bool_decide_true.
Qed.

(** A feed that is not due is only named in the results. *)
Lemma feed_not_due f w : fc_init f = Ok tt -> (Feed_update f w).1 = false ->
  GetFeeds_process f w = (Ok tt, set_result (fc_name f) (feedpath root f) w).
Proof using Type. intros Hi Hu. unfold GetFeeds_process. rewrite Hi. by destruct (Feed_update f w) as [[] self]. Qed.

(** A constructor that raises ends the run of all feeds. *)
Lemma feed_init_raises f rest w e : fc_enabled f = true -> fc_init f = Raise e -> GetFeeds_run (f :: rest) w = (Raise NameError, w).
Proof using Type. intros He Hi. cbn [GetFeeds_run]. rewrite He. unfold sbind, GetFeeds_process. by rewrite Hi. Qed.
End feeds.

Definition example_feed (modify : bytes -> res string) : feed_class :=
  {| fc_name := "IP list"; fc_enabled := true; fc_init := Ok tt; fc_feedname := "iplist"; fc_downloadurl := "https://feed"; fc_frequency := 24;
     fc_modify := modify |}.
Definition example_feed_world : feed_world :=
  {| fw_files := {["/opt/CAPEv2/data/feeds/iplist.feed" := (0, "10.0.0.1")]}; fw_time := 100000;
     fw_get _ _ := Some (200, B "10.0.0.2"); fw_results := [] |}.
Lemma unmodified_feed_lost_witness :
  exists w, GetFeeds_run "/opt/CAPEv2" [example_feed Feed_modify] example_feed_world = (Raise TypeError, w) /\
    snd <$> fw_files w !! "/opt/CAPEv2/data/feeds/iplist.feed" = Some "".
Proof.
  eexists. split.
  - apply (proj1 (unmodified_feed_lost "/opt/CAPEv2" (example_feed Feed_modify) [] example_feed_world (B "10.0.0.2")
                    eq_refl eq_refl ltac:(by vm_compute) ltac:(done)) eq_refl).
  - by vm_compute.
Defined.
