(* ===== verification/Database.v ===== *)
(** The task database of lib/cuckoo/core/database.py: its tables, the faults of the
    SQL backend, and the operations on machines, guests and errors. *)
From S2P Require Import Prelude.
Open Scope Z_scope.

(** ** Values, statuses and rows *)

(** What a column without a meaning of its own can hold. *)
Inductive pyval := VNone | VBool (b : bool) | VInt (z : Z) | VStr (s : string).

#[global] Instance pyval_eq_dec : EqDecision pyval.
Proof. solve_decision. Defined.

Inductive task_status :=
| TASK_BANNED | TASK_PENDING | TASK_RUNNING | TASK_DISTRIBUTED | TASK_COMPLETED | TASK_RECOVERED
| TASK_REPORTED | TASK_FAILED_ANALYSIS | TASK_FAILED_PROCESSING | TASK_FAILED_REPORTING
| TASK_DISTRIBUTED_COMPLETED.

#[global] Instance task_status_eq_dec : EqDecision task_status.
Proof. solve_decision. Defined.

Definition ALL_DB_STATUSES : list task_status :=
  [TASK_BANNED; TASK_PENDING; TASK_RUNNING; TASK_DISTRIBUTED; TASK_COMPLETED; TASK_RECOVERED;
   TASK_REPORTED; TASK_FAILED_ANALYSIS; TASK_FAILED_PROCESSING; TASK_FAILED_REPORTING;
   TASK_DISTRIBUTED_COMPLETED].

(** The values of the [status_type] column; [TASK_DISTRIBUTED_COMPLETED] is none. *)
Definition status_type (s : task_status) : bool :=
  bool_decide (s ∈ [TASK_BANNED; TASK_PENDING; TASK_RUNNING; TASK_COMPLETED; TASK_DISTRIBUTED;
    TASK_REPORTED; TASK_RECOVERED; TASK_FAILED_ANALYSIS; TASK_FAILED_PROCESSING; TASK_FAILED_REPORTING]).

Record Machine := {
  m_name : string; m_label : string; m_arch : string; m_ip : string; m_platform : string;
  m_tags : list string; m_interface : option string; m_snapshot : option string;
  m_locked : bool; m_locked_changed_on : option Z;
  m_status : option string; m_status_changed_on : option Z;
  m_resultserver_ip : string; m_resultserver_port : string }.

Record Guest := {
  g_status : string; g_name : string; g_label : string; g_manager : string;
  g_started_on : Z; g_shutdown_on : option Z; g_task_id : Z }.

Record Sample := {
  s_md5 : string; s_crc32 : string; s_sha1 : string; s_sha256 : string; s_sha512 : string;
  s_file_size : Z; s_file_type : string; s_ssdeep : option string;
  s_parent : pyval; s_source_url : pyval }.

Record Error := { e_message : string; e_task_id : Z }.

Inductive category := CFile | CUrl | CPcap | CStatic.

#[global] Instance category_eq_dec : EqDecision category.
Proof. solve_decision. Defined.

(** The counters [add_statistics_to_task] stores. *)
Record statistics := {
  dropped_files : Z; running_processes : Z; api_calls : Z; domains : Z; signatures_total : Z;
  signatures_alert : Z; files_written : Z; registry_keys_modified : Z; crash_issues : Z; anti_issues : Z }.

(** The VM tags of the [tasks_tags] table are the names in [t_tags]; the other
    timestamps of the table are written by other modules. *)
Record Task := {
  t_target : string; t_category : category; t_cape : pyval; t_timeout : Z; t_priority : Z;
  t_custom : pyval; t_machine : option string; t_package : string; t_route : pyval;
  t_tags_tasks : pyval; t_tags : list string; t_options : option string; t_platform : pyval;
  t_memory : bool; t_enforce_timeout : bool; t_clock : Z; t_added_on : Z;
  t_started_on : option Z; t_completed_on : option Z; t_status : task_status;
  t_statistics : option statistics; t_sample_id : option Z; t_machine_id : option Z;
  t_shrike_url : pyval; t_shrike_refer : pyval; t_shrike_msg : pyval; t_shrike_sid : pyval;
  t_parent_id : pyval; t_tlp : pyval; t_user_id : pyval; t_username : pyval }.

(** The tables, and how many times the backend was asked. *)
Record Database := {
  machines : gmap Z Machine; tasks : gmap Z Task; samples : gmap Z Sample;
  guests : gmap Z Guest; errors : gmap Z Error; ticks : nat }.

(** ** The SQL backend *)

(** How the backend answers a statement or a commit. *)
Inductive outcome := Fine | Broken | Conflict.

#[global] Instance outcome_eq_dec : EqDecision outcome.
Proof. solve_decision. Defined.

(** What the code relies on: rows come back in some order, which may change from
    one statement to the next; a new primary key is fresh; [LIKE '%s%'] finds at
    least the rows that contain [s] when [s] has no backslash (whether it folds
    case depends on the backend); any statement may fail. *)
Class SqlBackend := {
  answer : nat -> outcome;
  scan : forall {A}, nat -> gmap Z A -> list (Z * A);
  scan_perm : forall A n (t : gmap Z A), scan n t ≡ₚ map_to_list t;
  new_id : forall {A}, nat -> gmap Z A -> Z;
  new_id_fresh : forall A n (t : gmap Z A), t !! new_id n t = None;
  sql_contains : string -> string -> bool;
  sql_contains_sub : forall sub s, BACKSLASH ∉ B sub -> str_contains sub s = true -> sql_contains sub s = true }.

(** No statement fails. *)
Definition reliable `{SqlBackend} : Prop := forall n, answer n = Fine.

Definition set_machines (f : gmap Z Machine -> gmap Z Machine) (d : Database) : Database :=
  {| machines := f (machines d); tasks := tasks d; samples := samples d; guests := guests d;
     errors := errors d; ticks := ticks d |}.
Definition set_tasks (f : gmap Z Task -> gmap Z Task) (d : Database) : Database :=
  {| machines := machines d; tasks := f (tasks d); samples := samples d; guests := guests d;
     errors := errors d; ticks := ticks d |}.
Definition set_samples (f : gmap Z Sample -> gmap Z Sample) (d : Database) : Database :=
  {| machines := machines d; tasks := tasks d; samples := f (samples d); guests := guests d;
     errors := errors d; ticks := ticks d |}.
Definition set_guests (f : gmap Z Guest -> gmap Z Guest) (d : Database) : Database :=
  {| machines := machines d; tasks := tasks d; samples := samples d; guests := f (guests d);
     errors := errors d; ticks := ticks d |}.
Definition set_errors (f : gmap Z Error -> gmap Z Error) (d : Database) : Database :=
  {| machines := machines d; tasks := tasks d; samples := samples d; guests := guests d;
     errors := f (errors d); ticks := ticks d |}.
Definition tick (d : Database) : Database :=
  {| machines := machines d; tasks := tasks d; samples := samples d; guests := guests d;
     errors := errors d; ticks := S (ticks d) |}.

Definition empty_db : Database :=
  {| machines := ∅; tasks := ∅; samples := ∅; guests := ∅; errors := ∅; ticks := 0 |}.

(** ** Sessions *)

Section operations.
Context `{SqlBackend}.

(** A [SELECT]; the rows come in the order of that statement. *)
Definition query {A} (f : nat -> Database -> A) : st Database A := fun d =>
  match answer (ticks d) with
  | Fine => (Ok (f (ticks d) d), tick d)
  | _ => (Raise SQLAlchemyError, tick d)
  end.

(** [session.commit()]: the changes of the session happen together or not at
    all. *)
Definition commit (f : Database -> Database) : st Database unit := fun d =>
  match answer (ticks d) with
  | Fine => (Ok tt, f (tick d))
  | Broken => (Raise SQLAlchemyError, tick d)
  | Conflict => (Raise IntegrityError, tick d)
  end.

(** [session.refresh(row)]. *)
Definition refresh : st Database unit := query (fun _ _ => tt).

(** [try: m except SQLAlchemyError: k]. *)
Definition try_sql {A} (m k : st Database A) : st Database A :=
  scatch m (fun e => if is_sqlalchemy e then Some k else None).

(** [filter(p).first()] and [filter(p).all()]. *)
Definition select {A} (p : A -> bool) (n : nat) (t : gmap Z A) : list (Z * A) :=
  filter (fun r => p r.2 = true) (scan n t).
Definition first {A} (p : A -> bool) (n : nat) (t : gmap Z A) : option (Z * A) := head (select p n t).

(** ** Machines *)

Definition set_lock (b : bool) (now : Z) (m : Machine) : Machine :=
  {| m_name := m_name m; m_label := m_label m; m_arch := m_arch m; m_ip := m_ip m;
     m_platform := m_platform m; m_tags := m_tags m; m_interface := m_interface m;
     m_snapshot := m_snapshot m; m_locked := b; m_locked_changed_on := Some now;
     m_status := m_status m; m_status_changed_on := m_status_changed_on m;
     m_resultserver_ip := m_resultserver_ip m; m_resultserver_port := m_resultserver_port m |}.
Definition with_interface (i : option string) (m : Machine) : Machine :=
  {| m_name := m_name m; m_label := m_label m; m_arch := m_arch m; m_ip := m_ip m;
     m_platform := m_platform m; m_tags := m_tags m; m_interface := i;
     m_snapshot := m_snapshot m; m_locked := m_locked m; m_locked_changed_on := m_locked_changed_on m;
     m_status := m_status m; m_status_changed_on := m_status_changed_on m;
     m_resultserver_ip := m_resultserver_ip m; m_resultserver_port := m_resultserver_port m |}.
Definition with_mstatus (s : option string) (now : Z) (m : Machine) : Machine :=
  {| m_name := m_name m; m_label := m_label m; m_arch := m_arch m; m_ip := m_ip m;
     m_platform := m_platform m; m_tags := m_tags m; m_interface := m_interface m;
     m_snapshot := m_snapshot m; m_locked := m_locked m; m_locked_changed_on := m_locked_changed_on m;
     m_status := s; m_status_changed_on := Some now;
     m_resultserver_ip := m_resultserver_ip m; m_resultserver_port := m_resultserver_port m |}.

Definition by_label (l : string) (m : Machine) : bool := bool_decide (m_label m = l).
Definition by_name (l : string) (m : Machine) : bool := bool_decide (m_name m = l).
Definition is_free (m : Machine) : bool := negb (m_locked m).

(** [machines_tags] is emptied by a statement of its own, outside of the
    [try]. *)
Definition clean_machines : st Database unit :=
  do* commit (set_machines (fmap (fun m =>
    {| m_name := m_name m; m_label := m_label m; m_arch := m_arch m; m_ip := m_ip m;
       m_platform := m_platform m; m_tags := []; m_interface := m_interface m;
       m_snapshot := m_snapshot m; m_locked := m_locked m; m_locked_changed_on := m_locked_changed_on m;
       m_status := m_status m; m_status_changed_on := m_status_changed_on m;
       m_resultserver_ip := m_resultserver_ip m; m_resultserver_port := m_resultserver_port m |}))) in
  try_sql (commit (set_machines (fun _ => ∅))) (sret tt).

(** [session.delete(None)] raises an error of SQLAlchemy's. *)
Definition delete_machine (name : string) : st Database (option string) :=
  try_sql
    (let* row := query (fun n d => first (by_name name) n (machines d)) in
     match row with
     | None => sraise SQLAlchemyError
     | Some (id, _) => do* commit (set_machines (delete id)) in sret (Some "success"%string)
     end)
    (sret None).

(** [tags.replace(" ", "").split(",")], when there are any. *)
Definition machine_tags (tags : option string) : list string :=
  if truthy tags then
    split_on ","%char (text (filter (fun c => c <> " "%char) (B (default EmptyString tags))))
  else [].

(** The tags are looked up before the [try]. *)
Definition add_machine (name label arch ip platform : string) (tags interface snapshot : option string)
    (rs_ip rs_port : string) : st Database unit :=
  let m := {| m_name := name; m_label := label; m_arch := arch; m_ip := ip; m_platform := platform;
              m_tags := machine_tags tags; m_interface := interface; m_snapshot := snapshot;
              m_locked := false; m_locked_changed_on := None; m_status := None;
              m_status_changed_on := None; m_resultserver_ip := rs_ip; m_resultserver_port := rs_port |} in
  do* foldr (fun _ k => do* query (fun _ _ => tt) in k) (sret tt) (machine_tags tags) in
  try_sql (commit (fun d => set_machines (<[new_id (ticks d) (machines d) := m]>) d)) (sret tt).

Definition set_machine_interface (label : string) (interface : option string) : st Database unit :=
  try_sql
    (let* row := query (fun n d => first (by_label label) n (machines d)) in
     match row with
     | None => sret tt
     | Some (id, _) => commit (set_machines (alter (with_interface interface) id))
     end)
    (sret tt).

Definition list_machines (locked : bool) (platform : string) (tags : list string)
    : st Database (list (Z * Machine)) :=
  try_sql
    (let* ms := query (fun n d =>
       if locked then select m_locked n (machines d)
       else if bool_decide (platform <> EmptyString)
       then select (fun m => bool_decide (m_platform m = platform)) n (machines d)
       else scan n (machines d)) in
     sret (match tags with
           | [] => ms
           | _ => tag ← tags; filter (fun r => tag ∈ m_tags r.2) ms
           end))
    (sret []).

(** The selection criteria of [lock_machine]. *)
Definition criteria (label platform : option string) (tags : list string) (m : Machine) : bool :=
  (negb (truthy label) || bool_decide (Some (m_label m) = label))
  && (negb (truthy platform) || bool_decide (Some (m_platform m) = platform))
  && forallb (fun t => bool_decide (t ∈ m_tags m)) tags.

Definition lock_machine (now : Z) (label platform : option string) (tags : list string)
    : st Database (option (Z * Machine)) :=
  if truthy label && truthy platform then sret None
  else if truthy label && bool_decide (tags <> []) then sret None
  else
  let* found := try_sql
    (let* count := query (fun n d => length (select (criteria label platform tags) n (machines d))) in
     if bool_decide (count = 0%nat) then sraise CuckooOperationalError
     else let* m := query (fun n d => first (fun m => criteria label platform tags m && is_free m) n (machines d)) in
          sret (Some m))
    (sret None) in
  match found with
  | None => sret None                     (* the query failed *)
  | Some None => sret None                (* every match is locked *)
  | Some (Some (id, m)) =>
      try_sql
        (do* commit (set_machines (alter (set_lock true now) id)) in
         do* refresh in
         sret (Some (id, set_lock true now m)))
        (sret None)
  end.

Definition unlock_machine (now : Z) (label : string) : st Database (option (Z * Machine)) :=
  let* found := try_sql (let* r := query (fun n d => first (by_label label) n (machines d)) in sret (Some r))
                        (sret None) in
  match found with
  | None | Some None => sret None
  | Some (Some (id, m)) =>
      try_sql
        (do* commit (set_machines (alter (set_lock false now) id)) in
         do* refresh in
         sret (Some (id, set_lock false now m)))
        (sret None)
  end.

Definition count_machines_available : st Database Z :=
  try_sql (query (fun n d => zlen (select is_free n (machines d)))) (sret 0).

Definition get_available_machines : st Database (list (Z * Machine)) :=
  try_sql (query (fun n d => select is_free n (machines d))) (sret []).

Definition set_machine_status (now : Z) (label : string) (status : option string) : st Database unit :=
  let* found := try_sql (let* r := query (fun n d => first (by_label label) n (machines d)) in sret (Some r))
                        (sret None) in
  match found with
  | None | Some None => sret tt
  | Some (Some (id, _)) =>
      try_sql (do* commit (set_machines (alter (with_mstatus status now) id)) in refresh) (sret tt)
  end.

Definition view_machine (name : string) : st Database (option (Z * Machine)) :=
  try_sql (query (fun n d => first (by_name name) n (machines d))) (sret None).
Definition view_machine_by_label (label : string) : st Database (option (Z * Machine)) :=
  try_sql (query (fun n d => first (by_label label) n (machines d))) (sret None).

(** ** Guests and errors *)

Definition of_task (task_id : Z) (g : Guest) : bool := bool_decide (g_task_id g = task_id).
Definition with_gstatus (s : string) (g : Guest) : Guest :=
  {| g_status := s; g_name := g_name g; g_label := g_label g; g_manager := g_manager g;
     g_started_on := g_started_on g; g_shutdown_on := g_shutdown_on g; g_task_id := g_task_id g |}.
Definition with_shutdown (now : Z) (g : Guest) : Guest :=
  {| g_status := g_status g; g_name := g_name g; g_label := g_label g; g_manager := g_manager g;
     g_started_on := g_started_on g; g_shutdown_on := Some now; g_task_id := g_task_id g |}.

(** A task that has a guest already cannot get a second one: the first would be
    left without a task, which its column forbids. *)
Definition guest_start (now task_id : Z) (name label manager : string) : st Database (option Z) :=
  try_sql
    (let* task := query (fun _ d => tasks d !! task_id) in
     match task with
     | None => sraise AttributeError
     | Some _ =>
         let g := {| g_status := "init"; g_name := name; g_label := label; g_manager := manager;
                     g_started_on := now; g_shutdown_on := None; g_task_id := task_id |} in
         let* old := query (fun n d => first (of_task task_id) n (guests d)) in
         match old with
         | Some _ => sraise IntegrityError
         | None =>
             let* d := sget in
             let id := new_id (ticks d) (guests d) in
             do* commit (set_guests (<[id := g]>)) in
             do* refresh in
             sret (Some id)
         end
     end)
    (sret None).

Definition guest_get_status (task_id : Z) : st Database (option string) :=
  try_sql (let* g := query (fun n d => first (of_task task_id) n (guests d)) in
           sret ((fun r => g_status r.2) <$> g))
          (sret None).

Definition guest_set_status (task_id : Z) (status : string) : st Database unit :=
  try_sql
    (let* g := query (fun n d => first (of_task task_id) n (guests d)) in
     match g with
     | None => sret tt
     | Some (id, _) => do* commit (set_guests (alter (with_gstatus status) id)) in refresh
     end)
    (sret tt).

Definition guest_remove (guest_id : Z) : st Database unit :=
  try_sql
    (let* g := query (fun _ d => guests d !! guest_id) in
     match g with
     | None => sraise SQLAlchemyError
     | Some _ => commit (set_guests (delete guest_id))
     end)
    (sret tt).

(** The second handler is for [TypeError], which nothing raises here. *)
Definition guest_stop (now guest_id : Z) : st Database unit :=
  scatch
    (let* g := query (fun _ d => guests d !! guest_id) in
     match g with
     | None => sraise AttributeError
     | Some _ => commit (set_guests (alter (with_shutdown now) guest_id))
     end)
    (fun e => if is_sqlalchemy e then Some (sret tt) else if decide (e = TypeError) then Some (sret tt) else None).

Definition add_error (message : string) (task_id : Z) : st Database unit :=
  let e := {| e_message := message; e_task_id := task_id |} in
  try_sql (commit (fun d => set_errors (<[new_id (ticks d) (errors d) := e]>) d)) (sret tt).

Definition view_errors (task_id : Z) : st Database (list (Z * Error)) :=
  try_sql (query (fun n d => select (fun e => bool_decide (e_task_id e = task_id)) n (errors d))) (sret []).

End operations.

(** A concrete backend: rows in the order of the table, the next key after the
    largest, answers as given. *)
Definition next_key {A} (t : gmap Z A) : Z := map_fold (fun k _ acc => Z.max k acc) 0 t + 1.

Lemma next_key_gt {A} (t : gmap Z A) k x : t !! k = Some x -> k < next_key t.
Proof.
  unfold next_key. revert k x.
  refine (map_fold_weak_ind (fun r (t : gmap Z A) => forall k x, t !! k = Some x -> k < r + 1)
            (fun k _ acc => Z.max k acc) 0 _ _ t).
  - intros k x Hk. by rewrite lookup_empty in Hk.
  - intros i y t' r Hi IH k x Hk. apply lookup_insert_Some in Hk as [[<- <-]|[_ Hk]]; [lia|].
    specialize (IH _ _ Hk). lia.
Qed.

Lemma next_key_fresh {A} (t : gmap Z A) : t !! next_key t = None.
Proof.
  destruct (t !! next_key t) as [x|] eqn:E; [|done]. apply next_key_gt in E. lia.
Qed.

Definition simple_backend (ans : nat -> outcome) : SqlBackend :=
  {| answer := ans;
     scan A _ t := map_to_list t; scan_perm _ _ t := Permutation_refl _;
     new_id A _ t := next_key t; new_id_fresh _ _ t := next_key_fresh t;
     sql_contains := str_contains; sql_contains_sub _ _ _ H := H |}.

Definition always_fine : SqlBackend := simple_backend (fun _ => Fine).

(** Operations on machines while the sandbox runs, with the time they run at. *)
Inductive machine_op :=
| OpLock (label platform : option string) (tags : list string)
| OpUnlock (label : string)
| OpInterface (label : string) (interface : option string)
| OpStatus (label : string) (status : option string)
| OpAdd (name label arch ip platform : string) (tags interface snapshot : option string) (rs_ip rs_port : string)
| OpDelete (name : string)
| OpClean.

(** Two machines, for examples. *)
Definition example_machine (label arch platform : string) : Machine :=
  {| m_name := label; m_label := label; m_arch := arch; m_ip := "192.168.1.2"; m_platform := platform;
     m_tags := [arch]; m_interface := None; m_snapshot := None; m_locked := false; m_locked_changed_on := None;
     m_status := None; m_status_changed_on := None; m_resultserver_ip := "192.168.1.1"; m_resultserver_port := "2042" |}.
Definition two_machines : Database :=
  {| machines := {[ 1 := example_machine "win7" "x64" "windows"; 2 := example_machine "ubuntu" "x86" "linux" ]};
     tasks := ∅; samples := ∅; guests := ∅; errors := ∅; ticks := 0 |}.

(** Everything but the machines is as it was. *)
Definition only_machines (d d' : Database) : Prop :=
  tasks d' = tasks d /\ samples d' = samples d /\ guests d' = guests d /\ errors d' = errors d.

(** [id] is a locked machine with this label and name. *)
Definition locked_as (id : Z) (l : string * string) (d : Database) : Prop :=
  exists m, machines d !! id = Some m /\ m_locked m = true /\ (m_label m, m_name m) = l.
(** The operation unlocks the label, or deletes the row. *)
Definition releases (l : string * string) (o : machine_op) : bool :=
  match o with
  | OpUnlock label => bool_decide (label = l.1)
  | OpDelete name => bool_decide (name = l.2)
  | OpClean => true
  | _ => false
  end.

#[global] Instance machine_op_eq_dec : EqDecision machine_op.
Proof. solve_decision. Defined.

Section runs.
Context `{SqlBackend}.

(** One operation: the machine a lock returned, and the database after it. *)
Definition run_machine_op (now : Z) (o : machine_op) (d : Database) : option Z * Database :=
  match o with
  | OpLock label platform tags =>
      let '(r, d') := lock_machine now label platform tags d in
      (match r with Ok (Some (id, _)) => Some id | _ => None end, d')
  | OpUnlock label => (None, (unlock_machine now label d).2)
  | OpInterface label i => (None, (set_machine_interface label i d).2)
  | OpStatus label s => (None, (set_machine_status now label s d).2)
  | OpAdd name label arch ip platform tags i s ri rp =>
      (None, (add_machine name label arch ip platform tags i s ri rp d).2)
  | OpDelete name => (None, (delete_machine name d).2)
  | OpClean => (None, (clean_machines d).2)
  end.

Fixpoint run_machine_ops (os : list (Z * machine_op)) (d : Database) : Database :=
  match os with
  | [] => d
  | (now, o) :: os' => run_machine_ops os' (run_machine_op now o d).2
  end.

(** ** Running sessions *)

Lemma query_inv {A} (f : nat -> Database -> A) d r d' :
  query f d = (r, d') ->
  d' = tick d /\
  ((answer (ticks d) = Fine /\ r = Ok (f (ticks d) d)) \/ (answer (ticks d) <> Fine /\ r = Raise SQLAlchemyError)).
Proof. unfold query. destruct (answer (ticks d)); intros [= <- <-]; auto. Qed.

Lemma commit_inv f d r d' :
  commit f d = (r, d') ->
  (answer (ticks d) = Fine /\ r = Ok tt /\ d' = f (tick d)) \/ (exists e, is_sqlalchemy e = true /\ answer (ticks d) <> Fine /\ r = Raise e /\ d' = tick d).
Proof.
  unfold commit. destruct (answer (ticks d)); intros [= <- <-]; [by left| |];
    right; eexists; (split; [|done]); done.
Qed.

Lemma try_sql_inv {A} (m k : st Database A) d r d' :
  try_sql m k d = (r, d') ->
  (exists e d1, m d = (Raise e, d1) /\ is_sqlalchemy e = true /\ k d1 = (r, d')) \/
  (m d = (r, d') /\ forall e, r = Raise e -> is_sqlalchemy e = false).
Proof.
  unfold try_sql, scatch. destruct (m d) as [[a|e] d1]; [intros [= <- <-]; right; naive_solver|].
  destruct (is_sqlalchemy e) eqn:E; [eauto 10|]. intros [= <- <-]. right. naive_solver.
Qed.

Lemma query_fine {A} (Hr : reliable) (f : nat -> Database -> A) d :
  query f d = (Ok (f (ticks d) d), tick d).
Proof. unfold query. by rewrite Hr. Qed.

Lemma commit_fine (Hr : reliable) f d : commit f d = (Ok tt, f (tick d)).
Proof. unfold commit. by rewrite Hr. Qed.

Lemma try_sql_ok {A} (m k : st Database A) d a d' :
  m d = (Ok a, d') -> try_sql m k d = (Ok a, d').
Proof. unfold try_sql, scatch. by intros ->. Qed.

Lemma try_sql_other {A} (m k : st Database A) d e d' :
  m d = (Raise e, d') -> is_sqlalchemy e = false -> try_sql m k d = (Raise e, d').
Proof. unfold try_sql, scatch. by intros -> ->. Qed.

Lemma try_sql_caught {A} (m k : st Database A) d e d' :
  m d = (Raise e, d') -> is_sqlalchemy e = true -> try_sql m k d = k d'.
Proof. unfold try_sql, scatch. by intros -> ->. Qed.

Lemma select_spec {A} (p : A -> bool) n t id x :
  (id, x) ∈ select p n t <-> t !! id = Some x /\ p x = true.
Proof.
  unfold select. rewrite list_elem_of_filter, (scan_perm A n t), elem_of_map_to_list. naive_solver.
Qed.

Lemma first_Some {A} (p : A -> bool) n t id x :
  first p n t = Some (id, x) -> t !! id = Some x /\ p x = true.
Proof.
  unfold first. intros Hh. apply (select_spec p n t). destruct (select p n t); simplify_eq/=.
  apply list_elem_of_here.
Qed.

Lemma select_nil {A} (p : A -> bool) n t :
  select p n t = [] <-> (forall id x, t !! id = Some x -> p x = false).
Proof.
  split.
  - intros Hn id x Hx. destruct (p x) eqn:E; [|done]. assert ((id, x) ∈ select p n t) as Hin by by apply select_spec.
    rewrite Hn in Hin. set_solver.
  - intros Hn. destruct (select p n t) as [|[id x] l] eqn:E; [done|].
    assert ((id, x) ∈ select p n t) as Hin by (rewrite E; apply list_elem_of_here).
    apply select_spec in Hin as [Hx Hp]. apply Hn in Hx. congruence.
Qed.

Lemma select_count {A} (p : A -> bool) n (t : gmap Z A) :
  bool_decide (length (select p n t) = 0%nat) = true ->
  forall id x, t !! id = Some x -> p x = false.
Proof. rewrite bool_decide_eq_true, length_zero_iff_nil. apply select_nil. Qed.

Lemma first_None {A} (p : A -> bool) n t :
  first p n t = None <-> (forall id x, t !! id = Some x -> p x = false).
Proof.
  rewrite <- (select_nil p n t). unfold first. destruct (select p n t); naive_solver.
Qed.

Lemma select_length {A} (p : A -> bool) n n' (t : gmap Z A) :
  length (select p n t) = length (select p n' t).
Proof. unfold select. by rewrite (scan_perm A n t), (scan_perm A n' t). Qed.

End runs.

(** Runs a session that is known to end: one case per answer of the backend. *)
Ltac sql_step :=
  match goal with
  | N : answer _ <> Fine, R : reliable |- _ => exfalso; apply N, R
  | E : query _ _ = (_, _) |- _ => apply query_inv in E; destruct E as [? [[? ?]|[? ?]]]; simplify_eq/=
  | E : refresh _ = (_, _) |- _ => unfold refresh in E
  | E : commit _ _ = (_, _) |- _ =>
      apply commit_inv in E; destruct E as [(? & ? & ?)|(? & ? & ? & ? & ?)]; simplify_eq/=
  | E : try_sql _ _ _ = (_, _) |- _ =>
      apply try_sql_inv in E; destruct E as [(? & ? & ? & ? & ?)|[? ?]]
  | E : sbind _ _ _ = (_, _) |- _ =>
      apply sbind_inv in E; destruct E as [(? & ? & ? & ?)|(? & ? & ?)]; simplify_eq/=
  | E : sret _ _ = (_, _) |- _ => unfold sret in E; simplify_eq/=
  | E : sraise _ _ = (_, _) |- _ => unfold sraise in E; simplify_eq/=
  | E : sget _ = (_, _) |- _ => unfold sget in E; simplify_eq/=
  | E : (match ?x with _ => _ end) _ = (_, _) |- _ => destruct x eqn:?; simplify_eq/=
  | E : forall e, Raise ?x = Raise e -> _ |- _ => specialize (E _ eq_refl); simplify_eq/=
  end.
Ltac sql_run := repeat sql_step; try congruence.

(** Names what the query found, or that it found nothing. *)
Tactic Notation "found" simple_intropattern(p) :=
  match goal with E : first _ _ _ = Some _ |- _ => apply first_Some in E as p end.
Tactic Notation "not_found" ident(Hn) :=
  match goal with E : first _ _ _ = None |- _ => pose proof (proj1 (first_None _ _ _) E) as Hn; clear E end.

Section machine_theorems.
Context `{SqlBackend}.

(** ** Locking *)

Lemma lock_machine_inv now label platform tags d r d' :
  lock_machine now label platform tags d = (r, d') ->
  only_machines d d' /\
  match r with
  | Ok (Some (id, m)) =>
      exists m0, machines d !! id = Some m0 /\ m_locked m0 = false /\
        criteria label platform tags m0 = true /\ m = set_lock true now m0 /\
        machines d' = <[id := m]> (machines d)
  | Ok None => True
  | Raise e => e = CuckooOperationalError /\ machines d' = machines d /\
      forall id m, machines d !! id = Some m -> criteria label platform tags m = false
  end.
Proof.
  unfold lock_machine, only_machines. intros E. sql_run; split_and?; try done.
  - found [Hm Hp]. apply andb_true_iff in Hp as [Hc Hf]. exists m.
    split_and!; [done|by apply negb_true_iff|done|done|]. apply map_eq. intros i.
    destruct (decide (i = z)) as [->|]; simplify_map_eq; done.
  - exact (select_count _ _ _ Heqb1).
Qed.

Lemma alter_locked f i id l d d' :
  machines d' = alter f i (machines d) ->
  (forall m, m_locked m = true -> m_locked (f m) = true) -> (forall m, (m_label (f m), m_name (f m)) = (m_label m, m_name m)) ->
  locked_as id l d -> locked_as id l d'.
Proof.
  intros E Hf Hl (m & Hm & Hk & <-). destruct (decide (i = id)) as [->|Hne].
  - exists (f m). rewrite E, lookup_alter_eq, Hm. simpl. auto.
  - exists m. by rewrite E, lookup_alter_ne.
Qed.

Lemma same_locked id l d d' : machines d' = machines d -> locked_as id l d -> locked_as id l d'.
Proof. intros E (m & ? & ? & ?). exists m. by rewrite E. Qed.

Lemma tag_lookups_inv (ts : list string) d r d' :
  foldr (fun _ k => do* query (fun _ _ => tt) in k) (sret tt) ts d = (r, d') -> machines d' = machines d.
Proof.
  revert d. induction ts as [|t ts IH]; simpl; intros d E; sql_run; try done.
  match goal with E : foldr _ _ _ _ = _ |- _ => by apply IH in E end.
Qed.

Lemma add_machine_inv name label arch ip platform tags i s ri rp d r d' :
  add_machine name label arch ip platform tags i s ri rp d = (r, d') ->
  machines d' = machines d \/
  exists n m, machines d' = <[new_id n (machines d) := m]> (machines d) /\ m_locked m = false.
Proof.
  unfold add_machine. intros E. apply sbind_inv in E as [(u & d1 & E1 & E)|(e & E & ->)];
    apply tag_lookups_inv in E || apply tag_lookups_inv in E1; [|by left].
  sql_run; try by left. right. eexists _, _. rewrite <- E1. split; [reflexivity|done].
Qed.

Definition machine_altered (d d' : Database) (f : Machine -> Machine) : Prop :=
  machines d' = machines d \/ exists i, machines d' = alter f i (machines d).

Lemma lock_machine_alters now label platform tags d :
  machine_altered d (lock_machine now label platform tags d).2 (set_lock true now).
Proof.
  destruct (lock_machine now label platform tags d) as [r d'] eqn:E. unfold machine_altered.
  unfold lock_machine in E. sql_run; eauto.
Qed.

Lemma set_interface_alters label i d :
  machine_altered d (set_machine_interface label i d).2 (with_interface i).
Proof.
  destruct (set_machine_interface label i d) as [r d'] eqn:E. unfold machine_altered.
  unfold set_machine_interface in E. sql_run; eauto.
Qed.

Lemma set_status_alters now label st d :
  machine_altered d (set_machine_status now label st d).2 (with_mstatus st now).
Proof.
  destruct (set_machine_status now label st d) as [r d'] eqn:E. unfold machine_altered.
  unfold set_machine_status in E. sql_run; eauto.
Qed.

Lemma altered_locked d d' f id l :
  machine_altered d d' f ->
  (forall m, m_locked m = true -> m_locked (f m) = true) -> (forall m, (m_label (f m), m_name (f m)) = (m_label m, m_name m)) ->
  locked_as id l d -> locked_as id l d'.
Proof. intros [E|[i E]] Hf Hl; [by apply same_locked|by apply (alter_locked f i)]. Qed.

Lemma unlock_keeps_lock now label id l d :
  label <> l.1 -> locked_as id l d -> locked_as id l (unlock_machine now label d).2.
Proof.
  intros Hne Hk. destruct (unlock_machine now label d) as [r d'] eqn:E.
  unfold unlock_machine in E. sql_run; try by apply (same_locked _ _ d).
  all: found [Hm Hl]; apply bool_decide_eq_true in Hl;
    destruct Hk as (m0 & Hm0 & Hk0 & Hl0); exists m0; simpl;
    rewrite lookup_alter_ne; [done|]; intros ->; simplify_eq/=; done.
Qed.

Lemma delete_keeps_lock name id l d :
  name <> l.2 -> locked_as id l d -> locked_as id l (delete_machine name d).2.
Proof.
  intros Hne Hk. destruct (delete_machine name d) as [r d'] eqn:E.
  unfold delete_machine in E. sql_run; try by apply (same_locked _ _ d).
  all: found [Hm Hl]; apply bool_decide_eq_true in Hl;
    destruct Hk as (m0 & Hm0 & Hk0 & Hl0); exists m0; simpl;
    rewrite lookup_delete_ne; [done|]; intros ->; simplify_eq/=; done.
Qed.

Lemma run_op_keeps_lock now o d id l :
  locked_as id l d -> releases l o = false -> locked_as id l (run_machine_op now o d).2.
Proof.
  intros Hk Ho. destruct o as [label platform tags|label|label i|label s|name label arch ip platform tags i s ri rp|name|]; simpl in *.
  - pose proof (lock_machine_alters now label platform tags d) as Ha.
    destruct (lock_machine now label platform tags d) as [r d']. by apply (altered_locked _ _ _ _ _ Ha).
  - apply unlock_keeps_lock; [by apply bool_decide_eq_false in Ho|done].
  - by apply (altered_locked _ _ _ _ _ (set_interface_alters label i d)).
  - by apply (altered_locked _ _ _ _ _ (set_status_alters now label s d)).
  - destruct (add_machine _ _ _ _ _ _ _ _ _ _ d) as [r d'] eqn:E.
    apply add_machine_inv in E as [E|(n & m & E & _)]; [by apply (same_locked _ _ d)|].
    destruct Hk as (m0 & Hm & ?). exists m0. simpl. rewrite E, lookup_insert_ne; [done|].
    intros En. pose proof (new_id_fresh Machine n (machines d)). congruence.
  - apply delete_keeps_lock; [by apply bool_decide_eq_false in Ho|done].
  - done.
Qed.

Lemma run_ops_keep_lock os d id l :
  locked_as id l d -> existsb (releases l) os.*2 = false -> locked_as id l (run_machine_ops os d).
Proof.
  revert d. induction os as [|[t o] os IH]; intros d Hk Hn; [done|]. csimpl in Hn. simpl.
  apply orb_false_iff in Hn as [Ho Hn]. apply IH; [by apply run_op_keeps_lock|done].
Qed.

(** C3. A lock is exclusive: once [lock_machine] has returned a machine, no later call
    returns it again unless, in between, its label is unlocked, its row deleted by its
    name, or the table of machines cleaned; whatever the other operations are and however
    the backend fails. *)
Theorem lock_exclusive now o d id os now' o' :
  (run_machine_op now o d).1 = Some id ->
  let d1 := (run_machine_op now o d).2 in
  (run_machine_op now' o' (run_machine_ops os d1)).1 = Some id ->
  exists m o2, machines d1 !! id = Some m /\ o2 ∈ os.*2 /\
    (o2 = OpUnlock (m_label m) \/ o2 = OpDelete (m_name m) \/ o2 = OpClean).
Proof.
  intros Hl d1 Hl'. destruct o as [label platform tags| | | | | |]; try done. simpl in Hl. subst d1. simpl in *.
  destruct (lock_machine now label platform tags d) as [[[[i m]|]|] d1] eqn:E; simplify_eq/=.
  apply lock_machine_inv in E as (_ & m0 & Hm & Hf & _ & -> & E).
  exists (set_lock true now m0). destruct (existsb (releases (m_label m0, m_name m0)) os.*2) eqn:Hn.
  - apply existsb_exists in Hn as (o2 & Hin & Ho). exists o2. split; [by rewrite E, lookup_insert_eq|].
    split; [by apply list_elem_of_In|]. destruct o2; try done; simpl in Ho; try (apply bool_decide_eq_true in Ho as ->); auto.
  - exfalso. apply (run_ops_keep_lock os d1 id) in Hn as (m2 & Hm2 & Hk2 & _).
    + destruct o' as [label' platform' tags'| | | | | |]; simpl in Hl'; try done.
      destruct (lock_machine now' label' platform' tags' _) as [[[[i m]|]|] d2] eqn:E2; simplify_eq/=.
      apply lock_machine_inv in E2 as (_ & m1 & Hm1 & Hf1 & _). congruence.
    + exists (set_lock true now m0). by rewrite E, lookup_insert_eq.
Qed.

Definition lock_misuse (label platform : option string) (tags : list string) : bool :=
  truthy label && (truthy platform || bool_decide (tags <> [])).

Lemma lock_not_misused label platform tags :
  lock_misuse label platform tags = false ->
  truthy label && truthy platform = false /\ truthy label && bool_decide (tags <> []) = false.
Proof. unfold lock_misuse. by destruct (truthy label), (truthy platform), (bool_decide (tags <> [])). Qed.

Lemma lock_machine_misused now label platform tags d :
  lock_misuse label platform tags = true -> lock_machine now label platform tags d = (Ok None, d).
Proof.
  unfold lock_misuse, lock_machine. intros Hm.
  by destruct (truthy label), (truthy platform), (bool_decide (tags <> [])).
Qed.

Lemma lock_machine_none (Hr : reliable) now label platform tags d d' :
  lock_machine now label platform tags d = (Ok None, d') ->
  machines d' = machines d /\
  (lock_misuse label platform tags = true \/
   (exists id m, machines d !! id = Some m /\ criteria label platform tags m = true) /\
   forall id m, machines d !! id = Some m -> criteria label platform tags m = true -> m_locked m = true).
Proof.
  destruct (lock_misuse label platform tags) eqn:Hm.
  { rewrite (lock_machine_misused _ _ _ _ _ Hm). intros [= <-]. auto. }
  unfold lock_machine, lock_misuse in *. intros E. sql_run;
    try (exfalso; destruct (lock_not_misused _ _ _ Hm); congruence).
  split; [done|right]. not_found Hf. split.
  - destruct (select (criteria label platform tags) (ticks d) (machines d)) as [|[id m] l] eqn:Es; [done|].
    exists id, m. apply (select_spec _ (ticks d)). rewrite Es. apply list_elem_of_here.
  - intros id m Hid Hcr. specialize (Hf _ _ Hid). apply andb_false_iff in Hf as [?|Hf]; [congruence|]. by apply negb_false_iff.
Qed.

(** C8. What [lock_machine] decides, when the backend answers: it refuses a label combined
    with a platform or tags, raises [CuckooOperationalError] exactly when no machine
    meets the criteria, returns nothing exactly when all that do are locked, and otherwise
    locks one free machine that meets them and changes nothing else. *)
Theorem lock_machine_decides (Hr : reliable) now label platform tags d :
  let matches m := criteria label platform tags m in
  let '(r, d') := lock_machine now label platform tags d in
  only_machines d d' /\
  match r with
  | Raise e => e = CuckooOperationalError /\ lock_misuse label platform tags = false /\ machines d' = machines d /\
      forall id m, machines d !! id = Some m -> matches m = false
  | Ok None => machines d' = machines d /\
      (lock_misuse label platform tags = true \/
       (exists id m, machines d !! id = Some m /\ matches m = true) /\
       forall id m, machines d !! id = Some m -> matches m = true -> m_locked m = true)
  | Ok (Some (id, m)) => lock_misuse label platform tags = false /\ exists m0, machines d !! id = Some m0 /\
      m_locked m0 = false /\ matches m0 = true /\ m = set_lock true now m0 /\
      machines d' = <[id := m]> (machines d)
  end.
Proof.
  intros matches. destruct (lock_machine now label platform tags d) as [r d'] eqn:E.
  pose proof E as Ei. apply lock_machine_inv in Ei as [Ho Ei]. split; [done|].
  assert (lock_misuse label platform tags = true -> r = Ok None) as Hm.
  { intros Hm. rewrite (lock_machine_misused _ _ _ _ _ Hm) in E. congruence. }
  destruct (lock_misuse label platform tags) eqn:Hmis; [rewrite Hm in * by done|clear Hm].
  - split; [|by left]. by apply (lock_machine_none Hr) in E as [? _].
  - destruct r as [[[id m]|]|e]; [by auto| |destruct Ei as (-> & ? & ?); by auto].
    apply (lock_machine_none Hr) in E as [? [?|?]]; [congruence|auto].
Qed.

(** Locking and unlocking are inverse: when labels are unique, unlocking the label of
    the machine that was locked gives back that machine, free, and a table that differs
    from the one before only in the time of its last lock change. *)
Theorem unlock_restores (Hr : reliable) now now' label platform tags d id m d1 :
  (forall i j mi mj, machines d !! i = Some mi -> machines d !! j = Some mj -> m_label mi = m_label mj -> i = j) ->
  lock_machine now label platform tags d = (Ok (Some (id, m)), d1) ->
  exists m0 d2, machines d !! id = Some m0 /\ m_locked m0 = false /\
    unlock_machine now' (m_label m) d1 = (Ok (Some (id, set_lock false now' m0)), d2) /\
    machines d2 = <[id := set_lock false now' m0]> (machines d) /\ only_machines d d2.
Proof.
  intros Hu E. apply lock_machine_inv in E as (Ho & m0 & Hm & Hf & _ & -> & E). exists m0.
  destruct (unlock_machine now' (m_label (set_lock true now m0)) d1) as [r d2] eqn:E2.
  assert (machines d1 !! id = Some (set_lock true now m0)) as Hm1 by (by rewrite E, lookup_insert_eq).
  unfold unlock_machine in E2. sql_run.
  - found [Hz Hl].
    apply bool_decide_eq_true in Hl. rewrite E in Hz.
    assert (z = id /\ m = set_lock true now m0) as [-> ->].
    { apply lookup_insert_Some in Hz as [[-> ->]|[Hne Hz]]; [done|]. exfalso.
      apply Hne. by eapply Hu. }
    eexists. split_and!; [done|done|reflexivity| |done]. simpl. rewrite E.
    apply map_eq. intros i. destruct (decide (i = id)) as [->|]; by simplify_map_eq.
  - not_found Hn. specialize (Hn _ _ Hm1). unfold by_label in Hn. by rewrite bool_decide_true in Hn.
Qed.

(** A lock can leak: when the commit of the lock succeeds and the refresh that follows
    fails, the caller gets nothing and the machine stays locked. *)
Theorem lock_leaks_on_refresh now label platform tags d id m :
  lock_misuse label platform tags = false ->
  answer (ticks d) = Fine -> answer (1 + ticks d) = Fine -> answer (2 + ticks d) = Fine ->
  answer (3 + ticks d) <> Fine ->
  first (fun m => criteria label platform tags m && is_free m) (1 + ticks d) (machines d) = Some (id, m) ->
  (lock_machine now label platform tags d).1 = Ok None /\
  machines (lock_machine now label platform tags d).2 !! id = Some (set_lock true now m).
Proof.
  intros Hmis A0 A1 A2 A3 Hf. destruct (lock_machine now label platform tags d) as [r d'] eqn:E.
  pose proof Hf as Hs. apply first_Some in Hs as [Hid Hs]. apply andb_true_iff in Hs as [Hc _].
  destruct (lock_not_misused _ _ _ Hmis) as [H1 H2]. unfold lock_machine in E. rewrite H1, H2 in E. simpl in *.
  sql_run; simpl in *; try congruence.
  - split; [done|]. by rewrite lookup_alter_eq, Hid.
  - match goal with Hn : bool_decide _ = true |- _ => pose proof (select_count _ _ _ Hn _ _ Hid); congruence end.
Qed.

End machine_theorems.

(** ** Witnesses *)

Lemma always_fine_reliable : @reliable always_fine.
Proof. done. Qed.

Lemma lock_exclusive_witness :
  let B := always_fine in
  exists m o2, machines (run_machine_op 1 (OpLock (Some "win7"%string) None []) two_machines).2 !! 1 = Some m /\
    o2 ∈ [(2, OpUnlock "win7"%string); (3, OpStatus "win7"%string None)].*2 /\
    (o2 = OpUnlock (m_label m) \/ o2 = OpDelete (m_name m) \/ o2 = OpClean).
Proof.
  intros B. apply (lock_exclusive 1 (OpLock (Some "win7"%string) None []) two_machines 1
           [(2, OpUnlock "win7"%string); (3, OpStatus "win7"%string None)] 4 (OpLock None None ["x64"%string]));
    vm_compute; reflexivity.
Defined.

Lemma lock_machine_decides_witness :
  let B := always_fine in
  let '(r, d') := lock_machine 1 (Some "win10"%string) None [] two_machines in
  r = Raise CuckooOperationalError /\ only_machines two_machines d'.
Proof.
  intros B. pose proof (lock_machine_decides always_fine_reliable 1 (Some "win10"%string) None [] two_machines) as H.
  destruct (lock_machine _ _ _ _ _) as [r d'] eqn:E. split; [|exact (proj1 H)].
  vm_compute in E. congruence.
Defined.

Lemma unlock_restores_witness :
  let B := always_fine in
  exists m0 d2, machines two_machines !! 1 = Some m0 /\ m_locked m0 = false /\
    unlock_machine 9 "win7" (lock_machine 1 None (Some "windows"%string) [] two_machines).2
      = (Ok (Some (1, set_lock false 9 m0)), d2) /\
    machines d2 = <[1 := set_lock false 9 m0]> (machines two_machines) /\ only_machines two_machines d2.
Proof.
  intros B.
  apply (unlock_restores always_fine_reliable 1 9 None (Some "windows"%string) [] two_machines 1
           (set_lock true 1 (example_machine "win7" "x64" "windows"))).
  - intros i j mi mj Hi Hj. unfold two_machines in *. simpl in *.
    apply lookup_insert_Some in Hi as [[<- <-]|[? Hi]]; apply lookup_insert_Some in Hj as [[<- <-]|[? Hj]]; try done;
      rewrite ?lookup_singleton_Some in *; naive_solver.
  - vm_compute. reflexivity.
Defined.

Lemma lock_leaks_on_refresh_witness :
  let B := simple_backend (fun n => if bool_decide (n = 3%nat) then Broken else Fine) in
  (lock_machine 1 (Some "win7"%string) None [] two_machines).1 = Ok None /\
  machines (lock_machine 1 (Some "win7"%string) None [] two_machines).2 !! 1
    = Some (set_lock true 1 (example_machine "win7" "x64" "windows")).
Proof.
  intros B. apply (lock_leaks_on_refresh 1 (Some "win7"%string) None [] two_machines); try reflexivity; done.
Defined.
