(* ===== verification/TaskQueue.v ===== *)
(** The task queue of lib/cuckoo/core/database.py: the life of a task, the scheduling
    query [fetch], and the queries on tasks and samples. *)
From S2P Require Import Prelude Database.
Open Scope Z_scope.

(** ** Changes of a row *)

Definition with_run (status : task_status) (started completed : option Z) (t : Task) : Task :=
  {| t_target := t_target t; t_category := t_category t; t_cape := t_cape t; t_timeout := t_timeout t;
     t_priority := t_priority t; t_custom := t_custom t; t_machine := t_machine t; t_package := t_package t;
     t_route := t_route t; t_tags_tasks := t_tags_tasks t; t_tags := t_tags t; t_options := t_options t;
     t_platform := t_platform t; t_memory := t_memory t; t_enforce_timeout := t_enforce_timeout t;
     t_clock := t_clock t; t_added_on := t_added_on t; t_started_on := started; t_completed_on := completed;
     t_status := status; t_statistics := t_statistics t; t_sample_id := t_sample_id t;
     t_machine_id := t_machine_id t; t_shrike_url := t_shrike_url t; t_shrike_refer := t_shrike_refer t;
     t_shrike_msg := t_shrike_msg t; t_shrike_sid := t_shrike_sid t; t_parent_id := t_parent_id t;
     t_tlp := t_tlp t; t_user_id := t_user_id t; t_username := t_username t |}.

Definition with_vm (vm : option string) (vm_id : option Z) (t : Task) : Task :=
  {| t_target := t_target t; t_category := t_category t; t_cape := t_cape t; t_timeout := t_timeout t;
     t_priority := t_priority t; t_custom := t_custom t; t_machine := vm; t_package := t_package t;
     t_route := t_route t; t_tags_tasks := t_tags_tasks t; t_tags := t_tags t; t_options := t_options t;
     t_platform := t_platform t; t_memory := t_memory t; t_enforce_timeout := t_enforce_timeout t;
     t_clock := t_clock t; t_added_on := t_added_on t; t_started_on := t_started_on t;
     t_completed_on := t_completed_on t; t_status := t_status t; t_statistics := t_statistics t;
     t_sample_id := t_sample_id t; t_machine_id := vm_id; t_shrike_url := t_shrike_url t;
     t_shrike_refer := t_shrike_refer t; t_shrike_msg := t_shrike_msg t; t_shrike_sid := t_shrike_sid t;
     t_parent_id := t_parent_id t; t_tlp := t_tlp t; t_user_id := t_user_id t; t_username := t_username t |}.

Definition with_clock (clock : Z) (stats : option statistics) (t : Task) : Task :=
  {| t_target := t_target t; t_category := t_category t; t_cape := t_cape t; t_timeout := t_timeout t;
     t_priority := t_priority t; t_custom := t_custom t; t_machine := t_machine t; t_package := t_package t;
     t_route := t_route t; t_tags_tasks := t_tags_tasks t; t_tags := t_tags t; t_options := t_options t;
     t_platform := t_platform t; t_memory := t_memory t; t_enforce_timeout := t_enforce_timeout t;
     t_clock := clock; t_added_on := t_added_on t; t_started_on := t_started_on t;
     t_completed_on := t_completed_on t; t_status := t_status t; t_statistics := stats;
     t_sample_id := t_sample_id t; t_machine_id := t_machine_id t; t_shrike_url := t_shrike_url t;
     t_shrike_refer := t_shrike_refer t; t_shrike_msg := t_shrike_msg t; t_shrike_sid := t_shrike_sid t;
     t_parent_id := t_parent_id t; t_tlp := t_tlp t; t_user_id := t_user_id t; t_username := t_username t |}.

Definition with_status (s : task_status) (t : Task) : Task := with_run s (t_started_on t) (t_completed_on t) t.

(** ** The life of a task *)

Section operations.
Context `{SqlBackend}.

(** [daydelta] is the configuration's; the clock is in seconds since the epoch. *)
Definition update_clock (now daydelta task_id : Z) : st Database (option Z) :=
  try_sql
    (let* row := query (fun _ d => tasks d !! task_id) in
     match row with
     | None => sret None
     | Some t =>
         if t_clock t =? 0 then
           let clock := if decide (t_category t = CFile) then now + daydelta * 86400 else now in
           do* commit (set_tasks (alter (fun t => with_clock clock (t_statistics t) t) task_id)) in
           do* refresh in
           sret (Some clock)
         else sret (Some (t_clock t))
     end)
    (sret None).

(** What [set_status] writes. *)
Definition apply_status (now : Z) (s : task_status) (t : Task) : Task :=
  with_run
    (if decide (s = TASK_DISTRIBUTED_COMPLETED) then t_status t else s)
    (if decide (s ∈ [TASK_RUNNING; TASK_DISTRIBUTED]) then Some now else t_started_on t)
    (if decide (s ∈ [TASK_RUNNING; TASK_DISTRIBUTED]) then t_completed_on t
     else if decide (s ∈ [TASK_COMPLETED; TASK_DISTRIBUTED_COMPLETED]) then Some now else t_completed_on t)
    t.

Definition set_status (now task_id : Z) (s : task_status) : st Database unit :=
  try_sql
    (let* row := query (fun _ d => tasks d !! task_id) in
     match row with
     | None => sret tt
     | Some _ => commit (set_tasks (alter (apply_status now s) task_id))
     end)
    (sret tt).

Definition set_task_vm (task_id : Z) (vmname : string) (vm_id : Z) : st Database unit :=
  try_sql
    (let* row := query (fun _ d => tasks d !! task_id) in
     match row with
     | None => sret tt
     | Some _ => commit (set_tasks (alter (with_vm (Some vmname) (Some vm_id)) task_id))
     end)
    (sret tt).

(** [not_(Task.options.contains("node="))]: NULL options make it NULL, so the
    row is left out. *)
Definition not_node (t : Task) : bool :=
  match t_options t with Some o => negb (sql_contains "node=" o) | None => false end.

Definition arch_ok (arch : string) (t : Task) : bool :=
  if str_contains "x64" arch then bool_decide ("x64"%string ∈ t_tags t) || bool_decide ("x86"%string ∈ t_tags t)
  else bool_decide (arch ∈ t_tags t).

Definition fetchable (arch : string) (t : Task) : bool :=
  bool_decide (t_status t = TASK_PENDING) && not_node t && arch_ok arch t.

(** [ORDER BY priority DESC, added_on]. *)
Definition fetch_before (a b : Z * Task) : Prop :=
  t_priority b.2 < t_priority a.2 \/ (t_priority a.2 = t_priority b.2 /\ t_added_on a.2 <= t_added_on b.2).

#[global] Instance fetch_before_dec a b : Decision (fetch_before a b).
Proof. unfold fetch_before. solve_decision. Defined.

Definition pinned_elsewhere (label : string) (t : Task) : bool :=
  truthy (t_machine t) && bool_decide (t_machine t <> Some label).

Definition fetch (now : Z) (machine : Z * Machine) : st Database (option (Z * Task)) :=
  let '(mid, m) := machine in
  try_sql
    (let* row := query (fun n d => head (merge_sort fetch_before (select (fetchable (m_arch m)) n (tasks d)))) in
     match row with
     | None => sret None
     | Some (id, t) =>
         if pinned_elsewhere (m_label m) t then sret None
         else
           do* set_status now id TASK_RUNNING in
           do* set_task_vm id (m_label m) mid in
           let* row := query (fun _ d => tasks d !! id) in
           match row with
           | None => sraise SQLAlchemyError
           | Some t' => sret (Some (id, t'))
           end
     end)
    (sret None).

(** ** Queries *)

Definition opt_eqb {A} `{EqDecision A} (o : option A) (x : A) : bool :=
  match o with None => true | Some y => bool_decide (x = y) end.

(** The error path returns an empty list where callers expect a number. *)
Inductive count_result := Count (n : Z) | EmptyList.

Definition count_matching_tasks (cat : option category) (status not_status : option task_status)
    : st Database count_result :=
  try_sql
    (let* n := query (fun n d => zlen (select (fun t =>
        opt_eqb status (t_status t)
        && match not_status with None => true | Some s => negb (bool_decide (t_status t = s)) end
        && opt_eqb cat (t_category t)) n (tasks d))) in
     sret (Count n))
    (sret EmptyList).

(** [.like(f"%{x}%")] on a text column; NULL is no match. *)
Definition like_val (x : string) (v : pyval) : bool :=
  match v with VStr s => sql_contains x s | _ => false end.

Record task_filter := {
  f_status : option task_status; f_not_status : option task_status; f_category : option category;
  f_sample_id : option Z; f_id_before : option Z; f_id_after : option Z;
  f_completed_after : option Z; f_added_before : option Z; f_options_like : option string;
  f_tags_tasks_like : option string; f_task_ids : list Z; f_hashes : bool }.

Definition no_filter : task_filter :=
  {| f_status := None; f_not_status := None; f_category := None; f_sample_id := None; f_id_before := None;
     f_id_after := None; f_completed_after := None; f_added_before := None; f_options_like := None;
     f_tags_tasks_like := None; f_task_ids := []; f_hashes := false |}.

(** One row of [list_tasks]; [ss] is the sample table of the join. *)
Definition task_matches (f : task_filter) (ss : gmap Z Sample) (id : Z) (t : Task) : bool :=
  (negb (f_hashes f) || match t_sample_id t with Some s => bool_decide (is_Some (ss !! s)) | None => false end)
  && opt_eqb (f_status f) (t_status t)
  && match f_not_status f with None => true | Some s => negb (bool_decide (t_status t = s)) end
  && opt_eqb (f_category f) (t_category t)
  && match f_sample_id f with None => true | Some s => bool_decide (t_sample_id t = Some s) end
  && match f_id_before f with None => true | Some b => id <? b end
  && match f_id_after f with None => true | Some b => b <? id end
  && match f_completed_after f, t_completed_on t with None, _ => true | Some c, Some x => c <? x | Some _, None => false end
  && match f_added_before f with None => true | Some a => t_added_on t <? a end
  && (negb (truthy (f_options_like f))
      || match t_options t with Some o => sql_contains (default EmptyString (f_options_like f)) o | None => false end)
  && (negb (truthy (f_tags_tasks_like f)) || like_val (default EmptyString (f_tags_tasks_like f)) (t_tags_tasks t))
  && (bool_decide (f_task_ids f = []) || bool_decide (id ∈ f_task_ids f)).

(** [ORDER BY added_on DESC], the default. *)
Definition newest_first (a b : Z * Task) : bool := t_added_on b.2 <=? t_added_on a.2.

Definition list_tasks (f : task_filter) (order_by : option (Z * Task -> Z * Task -> bool))
    (limit offset : option nat) : st Database (list (Z * Task)) :=
  let ord := default newest_first order_by in
  try_sql
    (query (fun n d =>
       let rows := filter (fun r => task_matches f (samples d) r.1 r.2 = true) (scan n (tasks d)) in
       let sorted := merge_sort (holds2 ord) rows in
       let rest := drop (default 0%nat offset) sorted in
       match limit with Some l => take l rest | None => rest end))
    (sret []).

Definition list_parents (parent_id : pyval) : st Database (list (Z * string)) :=
  try_sql
    (let* ts := query (fun n d => select (fun t => bool_decide (t_parent_id t = parent_id)) n (tasks d)) in
     sret ((fun r => (r.1, t_package r.2)) <$> ts))
    (sret []).

(** [if sample_id], [elif task_id]. *)
Definition nonzero (o : option Z) : option Z :=
  match o with Some 0 | None => None | Some z => Some z end.

Definition val_truthy (v : pyval) : bool :=
  match v with
  | VNone => false | VBool b => b | VInt z => negb (z =? 0) | VStr s => bool_decide (s <> EmptyString)
  end.

(** A parent that is no sample's id has no [to_dict]. *)
Definition parent_row (p : pyval) : st Database (option Sample) :=
  if val_truthy p then
    let* s := query (fun _ d => match p with VInt z => samples d !! z | _ => None end) in
    match s with None => sraise AttributeError | Some s => sret (Some s) end
  else sret None.

Definition list_sample_parent (sample_id task_id : option Z) : st Database (option Sample) :=
  scatch
    (match nonzero sample_id, nonzero task_id with
     | Some s, _ =>
         let* p := query (fun _ d => s_parent <$> samples d !! s) in
         parent_row (default VNone p)
     | None, Some t =>
         let* p := query (fun _ d => task ← tasks d !! t; sid ← t_sample_id task; s_parent <$> samples d !! sid) in
         match p with None => sraise TypeError | Some p => parent_row p end
     | None, None => sret None
     end)
    (fun e => if is_sqlalchemy e then Some (sret None) else if decide (e = TypeError) then Some (sret None) else None).

(** The row of an aggregate always exists; its value is NULL when no task has one, and then
    [strftime] raises. [None] is the result 0. *)
Definition minmax_tasks : st Database (option (Z * Z)) :=
  try_sql
    (let* lo := query (fun n d => foldr (fun r acc => match t_started_on r.2, acc with
        | Some x, Some y => Some (Z.min x y) | Some x, None => Some x | None, _ => acc end) None (scan n (tasks d))) in
     let* hi := query (fun n d => foldr (fun r acc => match t_completed_on r.2, acc with
        | Some x, Some y => Some (Z.max x y) | Some x, None => Some x | None, _ => acc end) None (scan n (tasks d))) in
     match lo, hi with
     | Some lo, Some hi => sret (Some (lo, hi))
     | _, _ => sraise AttributeError
     end)
    (sret None).

Definition get_tlp_tasks : st Database (list Z) :=
  try_sql
    (let* ts := query (fun n d => select (fun t => bool_decide (t_tlp t = VStr "true")) n (tasks d)) in
     sret ts.*1)
    (sret []).

Definition get_file_types : st Database (list string) :=
  try_sql
    (query (fun n d => merge_sort (holds2 String.leb)
       (remove_dups ((fun r => s_file_type r.2) <$> scan n (samples d)))))
    (sret []).

(** [GROUP BY status]: one entry for each status that some task has. *)
Definition get_tasks_status_count : st Database (list (task_status * Z)) :=
  try_sql
    (query (fun n d => s ← remove_dups ((fun r => t_status r.2) <$> scan n (tasks d));
                       [(s, zlen (select (fun t => bool_decide (t_status t = s)) n (tasks d)))]))
    (sret []).

Definition count_tasks (status : option task_status) (mid : option Z) : st Database Z :=
  try_sql
    (query (fun n d => zlen (select (fun t =>
       match nonzero mid with None => true | Some m => bool_decide (t_machine_id t = Some m) end
       && opt_eqb status (t_status t)) n (tasks d))))
    (sret 0).

Definition view_task (task_id : Z) : st Database (option Task) :=
  try_sql (query (fun _ d => tasks d !! task_id)) (sret None).

(** Without the task, [session.refresh(None)] fails after an empty commit. *)
Definition add_statistics_to_task (task_id : Z) (details : statistics) : st Database bool :=
  try_sql
    (let* row := query (fun _ d => tasks d !! task_id) in
     match row with
     | None => do* commit (fun d => d) in sraise SQLAlchemyError
     | Some _ =>
         do* commit (set_tasks (alter (fun t => with_clock (t_clock t) (Some details) t) task_id)) in
         do* refresh in
         sret true
     end)
    (sret false).

(** The guest and the errors of the task go with it. *)
Definition delete_task (task_id : Z) : st Database bool :=
  try_sql
    (let* row := query (fun _ d => tasks d !! task_id) in
     match row with
     | None => sraise SQLAlchemyError
     | Some _ =>
         do* commit (fun d =>
           set_errors (filter (fun r => e_task_id r.2 <> task_id))
             (set_guests (filter (fun r => g_task_id r.2 <> task_id))
                (set_tasks (delete task_id) d))) in
         sret true
     end)
    (sret false).

(** The statement runs in a transaction that [session.close()] rolls back. *)
Definition delete_tasks (ids : list Z) : st Database bool :=
  try_sql (do* query (fun _ _ => tt) in sret true) (sret false).

Definition view_sample (sample_id : Z) : st Database (option Sample) :=
  try_sql (query (fun _ d => samples d !! sample_id)) (sret None).

Inductive found_sample :=
| FError | FNothing | FSample (s : option (Z * Sample)) | FSamples (l : list (Z * Sample))
| FTasks (l : list (Z * Task)).

Definition find_sample (md5 sha1 sha256 : option string) (parent task_id sample_id : option Z)
    : st Database found_sample :=
  let by_hash (f : Sample -> string) (h : option string) :=
    let* s := query (fun n d => first (fun s => bool_decide (Some (f s) = h)) n (samples d)) in sret (FSample s) in
  try_sql
    (if truthy md5 then by_hash s_md5 md5
     else if truthy sha1 then by_hash s_sha1 sha1
     else if truthy sha256 then by_hash s_sha256 sha256
     else match nonzero parent, nonzero sample_id, nonzero task_id with
     | Some p, _, _ =>
         let* l := query (fun n d => select (fun s => bool_decide (s_parent s = VInt p)) n (samples d)) in sret (FSamples l)
     | None, Some i, _ =>
         let* l := query (fun n d => filter (fun r => r.1 = i) (scan n (samples d))) in sret (FSamples l)
     | None, None, Some t =>
         let* l := query (fun n d => filter (fun r => r.1 = t /\ is_Some (t_sample_id r.2 ≫= fun s => samples d !! s))
                                       (scan n (tasks d))) in sret (FTasks l)
     | None, None, None => sret FNothing
     end)
    (sret FError).

(** The truth value of what [check_file_uniq] returns: that the file is known. *)
Definition check_file_uniq (now : Z) (sha256 : string) (hours : Z) : st Database bool :=
  try_sql
    (if negb (hours =? 0) && bool_decide (sha256 <> EmptyString) then
       query (fun n d => match first (fun t =>
           bool_decide (now - 3600 * hours <= t_added_on t <= now)
           && match t_sample_id t ≫= fun s => samples d !! s with
              | Some s => bool_decide (s_sha256 s = sha256) | None => false end) n (tasks d) with
         | Some _ => true | None => false end)
     else
       let* s := find_sample None None (Some sha256) None None None in
       sret (match s with FSample (Some _) => true | _ => false end))
    (sret false).

Definition count_samples : st Database Z := try_sql (query (fun n d => zlen (scan n (samples d)))) (sret 0).

Definition get_source_url (sample_id : option Z) : st Database pyval :=
  try_sql
    (match nonzero sample_id with
     | None => sret (VBool false)
     | Some i => let* s := query (fun _ d => samples d !! i) in
                 sret (match s with Some s => s_source_url s | None => VNone end)
     end)
    (sret (VBool false)).

(** Errors of this one escape. *)
Definition ban_user_tasks (user_id : Z) : st Database unit :=
  do* query (fun _ _ => tt) in
  commit (set_tasks (fmap (fun t =>
    if bool_decide (t_user_id t = VInt user_id) && bool_decide (t_status t = TASK_PENDING)
    then with_status TASK_BANNED t else t))).

End operations.

(** ** Operations in sequence *)

Inductive queue_op :=
| QClock (daydelta task_id : Z)
| QStatus (task_id : Z) (s : task_status)
| QVm (task_id : Z) (vmname : string) (vm_id : Z)
| QFetch (machine : Z * Machine)
| QStatistics (task_id : Z) (details : statistics)
| QDelete (task_id : Z)
| QDeleteMany (ids : list Z)
| QBan (user_id : Z).

#[global] Instance statistics_eq_dec : EqDecision statistics.
Proof. solve_decision. Defined.
#[global] Instance machine_eq_dec : EqDecision Machine.
Proof. solve_decision. Defined.
#[global] Instance queue_op_eq_dec : EqDecision queue_op.
Proof. solve_decision. Defined.

(** What keeps the fetched task [id] from being pending again. *)
Definition keeps_running (id : Z) (o : queue_op) : bool :=
  match o with
  | QStatus i TASK_PENDING => negb (bool_decide (i = id))
  | _ => true
  end.

(** A queue for examples: an urgent task of another node, an urgent 64-bit task
    pinned to a machine, an ordinary one and a finished one. *)
Definition example_task (prio added : Z) (machine options : option string) (tags : list string)
    (s : task_status) : Task :=
  {| t_target := "/tmp/sample.exe"; t_category := CFile; t_cape := VBool false; t_timeout := 0; t_priority := prio;
     t_custom := VStr ""; t_machine := machine; t_package := "exe"; t_route := VNone; t_tags_tasks := VBool false;
     t_tags := tags; t_options := options; t_platform := VStr "windows"; t_memory := false;
     t_enforce_timeout := false; t_clock := 0; t_added_on := added; t_started_on := None; t_completed_on := None;
     t_status := s; t_statistics := None; t_sample_id := Some 1; t_machine_id := None; t_shrike_url := VNone;
     t_shrike_refer := VNone; t_shrike_msg := VNone; t_shrike_sid := VNone; t_parent_id := VNone; t_tlp := VNone;
     t_user_id := VInt 0; t_username := VBool false |}.
Definition example_queue : Database :=
  {| machines := machines two_machines;
     tasks := {[ 1 := example_task 3 10 None (Some "node=w1"%string) ["x64"%string] TASK_PENDING;
                 2 := example_task 2 20 (Some "win10"%string) (Some ""%string) ["x64"%string] TASK_PENDING;
                 3 := example_task 1 5 None (Some "free=yes"%string) ["x86"%string] TASK_PENDING;
                 4 := example_task 1 4 None None ["x86"%string] TASK_RECOVERED ]};
     samples := ∅; guests := ∅; errors := ∅; ticks := 0 |}.
Definition win10 : Z * Machine := (7, example_machine "win10" "x64" "windows").
Definition win7 : Z * Machine := (1, example_machine "win7" "x64" "windows").

(** Everything but the tasks is as it was. *)
Definition only_tasks (d d' : Database) : Prop :=
  machines d' = machines d /\ samples d' = samples d /\ guests d' = guests d /\ errors d' = errors d.

Section queue_runs.
Context `{SqlBackend}.

(** One operation: the task a fetch returned, and the database after it. *)
Definition run_queue_op (now : Z) (o : queue_op) (d : Database) : option Z * Database :=
  match o with
  | QClock delta i => (None, (update_clock now delta i d).2)
  | QStatus i s => (None, (set_status now i s d).2)
  | QVm i vm vid => (None, (set_task_vm i vm vid d).2)
  | QFetch m =>
      let '(r, d') := fetch now m d in
      (match r with Ok (Some (id, _)) => Some id | _ => None end, d')
  | QStatistics i s => (None, (add_statistics_to_task i s d).2)
  | QDelete i => (None, (delete_task i d).2)
  | QDeleteMany ids => (None, (delete_tasks ids d).2)
  | QBan u => (None, (ban_user_tasks u d).2)
  end.

Fixpoint run_queue_ops (os : list (Z * queue_op)) (d : Database) : Database :=
  match os with
  | [] => d
  | (now, o) :: os' => run_queue_ops os' (run_queue_op now o d).2
  end.

(** ** The invariant of the queue *)

(** A status is one of the column's; a task that runs has started, one that is
    completed has a completion time. *)
Definition task_ok (t : Task) : Prop :=
  status_type (t_status t) = true /\
  (t_status t = TASK_RUNNING \/ t_status t = TASK_DISTRIBUTED -> is_Some (t_started_on t)) /\
  (t_status t = TASK_COMPLETED -> is_Some (t_completed_on t)).

Definition queue_ok (d : Database) : Prop := forall id t, tasks d !! id = Some t -> task_ok t.

(** The tasks of a database come from those of another by changing the row of
    each task [id] along [P id], or by deleting rows. *)
Definition tasks_within (P : Z -> relation Task) (d d' : Database) : Prop :=
  forall id t', tasks d' !! id = Some t' -> exists t, tasks d !! id = Some t /\ P id t t'.

Section along.
Context (P : Z -> relation Task) (HP : forall id, PreOrder (P id)).

Lemma within_alter f i d d' :
  tasks d' = alter f i (tasks d) -> (forall t, P i t (f t)) -> tasks_within P d d'.
Proof.
  intros E Hf id t' Ht. rewrite E in Ht. destruct (decide (i = id)) as [->|Hne].
  - rewrite lookup_alter_eq in Ht. destruct (tasks d !! id) as [t|]; simplify_eq/=. eauto.
  - rewrite lookup_alter_ne in Ht by done. exists t'. split; [done|]. reflexivity.
Qed.

Lemma within_same d d' : tasks d' = tasks d -> tasks_within P d d'.
Proof. intros E id t'. rewrite E. intros. exists t'. split; [done|]. reflexivity. Qed.

Lemma within_delete i d d' : tasks d' = delete i (tasks d) -> tasks_within P d d'.
Proof.
  intros E id t' Ht. rewrite E in Ht. apply lookup_delete_Some in Ht as [_ Ht]. exists t'.
  split; [done|]. reflexivity.
Qed.

Lemma within_trans d1 d2 d3 : tasks_within P d1 d2 -> tasks_within P d2 d3 -> tasks_within P d1 d3.
Proof.
  intros H12 H23 id t3 H3. destruct (H23 _ _ H3) as (t2 & H2 & ?).
  destruct (H12 _ _ H2) as (t1 & H1 & ?). exists t1. split; [done|]. by etrans.
Qed.

(** Whatever the backend answers, an operation changes rows along [P] when what
    it may write does. *)
Ltac by_within := sql_run; simpl;
  first [by apply within_same|by eapply within_delete|eapply within_alter; [reflexivity|intros; cbn beta; by eauto]].

Lemma set_status_within now i s d :
  (forall t, P i t (apply_status now s t)) -> tasks_within P d (set_status now i s d).2.
Proof.
  intros Hf. destruct (set_status now i s d) as [r d'] eqn:E. unfold set_status in E. by_within.
Qed.

Lemma set_task_vm_within i vm vid d :
  (forall t, P i t (with_vm (Some vm) (Some vid) t)) -> tasks_within P d (set_task_vm i vm vid d).2.
Proof.
  intros Hf. destruct (set_task_vm i vm vid d) as [r d'] eqn:E. unfold set_task_vm in E. by_within.
Qed.

Lemma update_clock_within now delta i d :
  (forall c t, P i t (with_clock c (t_statistics t) t)) -> tasks_within P d (update_clock now delta i d).2.
Proof.
  intros Hf. destruct (update_clock now delta i d) as [r d'] eqn:E. unfold update_clock in E. by_within.
Qed.

Lemma statistics_within i s d :
  (forall t, P i t (with_clock (t_clock t) (Some s) t)) -> tasks_within P d (add_statistics_to_task i s d).2.
Proof.
  intros Hf. destruct (add_statistics_to_task i s d) as [r d'] eqn:E. unfold add_statistics_to_task in E. by_within.
Qed.

Lemma delete_task_within i d : tasks_within P d (delete_task i d).2.
Proof. destruct (delete_task i d) as [r d'] eqn:E. unfold delete_task in E. by_within. Qed.

Lemma delete_tasks_within ids d : tasks_within P d (delete_tasks ids d).2.
Proof. destruct (delete_tasks ids d) as [r d'] eqn:E. unfold delete_tasks in E. by_within. Qed.

Lemma ban_within u d :
  (forall i t, t_status t = TASK_PENDING -> P i t (with_status TASK_BANNED t)) ->
  tasks_within P d (ban_user_tasks u d).2.
Proof.
  intros Hf. destruct (ban_user_tasks u d) as [r d'] eqn:E. unfold ban_user_tasks in E.
  sql_run; simpl; try by apply within_same.
  intros id t' Ht. simpl in Ht. rewrite lookup_fmap in Ht.
  destruct (tasks d !! id) as [t|]; simplify_eq/=. exists t. split; [done|].
  destruct (bool_decide _ && bool_decide _) eqn:Eb; [|reflexivity].
  apply andb_true_iff in Eb as [_ Eb]. apply Hf. by apply bool_decide_eq_true in Eb.
Qed.

Lemma fetch_within now m d :
  (forall i t, P i t (apply_status now TASK_RUNNING t)) ->
  (forall i t, P i t (with_vm (Some (m_label m.2)) (Some m.1) t)) ->
  tasks_within P d (fetch now m d).2.
Proof.
  intros Hs Hv. destruct (fetch now m d) as [r d'] eqn:E. destruct m as [mid m]. unfold fetch in E.
  sql_run; simpl in *; try (by apply within_same);
    repeat match goal with
    | E : set_status now ?i ?s ?d0 = _ |- _ =>
        let W := fresh "W" in pose proof (set_status_within now i s d0 (Hs i)) as W; rewrite E in W; clear E
    | E : set_task_vm ?i ?l ?v ?d0 = _ |- _ =>
        let W := fresh "V" in pose proof (set_task_vm_within i l v d0 (Hv i)) as W; rewrite E in W; clear E
    end;
    match goal with
    | W : tasks_within _ _ ?x, V : tasks_within _ ?x _ |- _ => exact (within_trans _ _ _ W V)
    | W : tasks_within _ _ _ |- _ => exact W
    end.
Qed.

End along.

(** Any operation changes a row along [P] when its writes do. *)
Definition op_along (P : Z -> relation Task) (now : Z) (o : queue_op) : Prop :=
  match o with
  | QClock _ i => forall c t, P i t (with_clock c (t_statistics t) t)
  | QStatus i s => forall t, P i t (apply_status now s t)
  | QVm i vm vid => forall t, P i t (with_vm (Some vm) (Some vid) t)
  | QFetch m => forall i t, P i t (apply_status now TASK_RUNNING t) /\ P i t (with_vm (Some (m_label m.2)) (Some m.1) t)
  | QStatistics i s => forall t, P i t (with_clock (t_clock t) (Some s) t)
  | QDelete _ | QDeleteMany _ => True
  | QBan _ => forall i t, t_status t = TASK_PENDING -> P i t (with_status TASK_BANNED t)
  end.

Lemma run_op_within (P : Z -> relation Task) (HP : forall id, PreOrder (P id)) now o d :
  op_along P now o -> tasks_within P d (run_queue_op now o d).2.
Proof.
  destruct o; simpl; intros Ho.
  - by apply update_clock_within.
  - by apply set_status_within.
  - by apply set_task_vm_within.
  - pose proof (fetch_within P HP now machine d) as Hf. destruct (fetch now machine d) as [r d'].
    apply Hf; intros; apply Ho.
  - by apply statistics_within.
  - by apply delete_task_within.
  - by apply delete_tasks_within.
  - by apply ban_within.
Qed.

Lemma run_ops_within (P : Z -> relation Task) (HP : forall id, PreOrder (P id)) os d :
  (forall now o, (now, o) ∈ os -> op_along P now o) -> tasks_within P d (run_queue_ops os d).
Proof.
  revert d. induction os as [|[now o] os IH]; intros d Ho; simpl; [by apply within_same|].
  apply (within_trans P HP _ (run_queue_op now o d).2).
  - apply run_op_within; [done|]. apply Ho. apply list_elem_of_here.
  - apply IH. intros. apply Ho. by apply list_elem_of_further.
Qed.

(** *** The invariant *)

Definition ok_step (_ : Z) : relation Task := fun t t' => task_ok t -> task_ok t'.
#[local] Instance ok_step_preorder id : PreOrder (ok_step id).
Proof. split; [by intros t ?|intros t1 t2 t3 ? ? ?; unfold ok_step in *; auto]. Qed.

Lemma apply_status_ok now s t : task_ok t -> task_ok (apply_status now s t).
Proof. unfold task_ok, apply_status. intros (H1 & H2 & H3). destruct s; simpl; split_and!; naive_solver. Qed.

Lemma op_ok now o : op_along ok_step now o.
Proof.
  destruct o; simpl; try done.
  - intros c t Hk. exact Hk.
  - intros t. exact (apply_status_ok now s t).
  - intros t Hk. exact Hk.
  - intros i t. split; [exact (apply_status_ok now TASK_RUNNING t)|]. intros Hk. exact Hk.
  - intros t Hk. exact Hk.
  - intros i t Hp Hk. unfold task_ok, with_status in *. simpl. naive_solver.
Qed.

Lemma within_ok d d' : tasks_within ok_step d d' -> queue_ok d -> queue_ok d'.
Proof. intros Hw Hq id t' Ht. destruct (Hw _ _ Ht) as (t & Hd & Hs). by apply Hs, (Hq id). Qed.

(** C11. Whatever operations run on the queue and however the backend fails, the statuses
    stored stay within the column's type, a running or distributed task has a start time
    and a completed one a completion time. *)
Theorem queue_invariant os d : queue_ok d -> queue_ok (run_queue_ops os d).
Proof. apply within_ok, run_ops_within; [apply _|intros; apply op_ok]. Qed.

(** ** Fetching *)

(** [t] is the task the order of the queue puts first for this architecture. *)
Definition best (arch : string) (d : Database) (id : Z) (t : Task) : Prop :=
  tasks d !! id = Some t /\ fetchable arch t = true /\
  forall j u, tasks d !! j = Some u -> fetchable arch u = true -> fetch_before (id, t) (j, u).

#[local] Instance fetch_before_total : Total fetch_before.
Proof. intros x y. unfold fetch_before. lia. Qed.
#[local] Instance fetch_before_trans : Transitive fetch_before.
Proof. intros x y z. unfold fetch_before. lia. Qed.

Lemma candidate_best arch n d id t :
  head (merge_sort fetch_before (select (fetchable arch) n (tasks d))) = Some (id, t) -> best arch d id t.
Proof.
  intros Hh. apply (merge_sort_head fetch_before) in Hh as [Hin Hle]; [|apply _..]. apply select_spec in Hin as [Hid Hf].
  split_and!; [done|done|]. intros j u Hj Hu.
  assert ((j, u) ∈ select (fetchable arch) n (tasks d)) as Hin by (by apply select_spec).
  apply Hle in Hin as [E|]; [|done]. simplify_eq. right. lia.
Qed.

Lemma candidate_none arch n d :
  head (merge_sort fetch_before (select (fetchable arch) n (tasks d))) = None ->
  forall id t, tasks d !! id = Some t -> fetchable arch t = false.
Proof. intros Hh. apply (select_nil _ n). by apply merge_sort_nil in Hh. Qed.

Tactic Notation "candidate" simple_intropattern(p) :=
  match goal with E : head (merge_sort fetch_before _) = Some _ |- _ => apply candidate_best in E as p end.

Lemma set_status_fine (Hr : reliable) now i s d :
  exists d', set_status now i s d = (Ok tt, d') /\ tasks d' = alter (apply_status now s) i (tasks d) /\ only_tasks d d'.
Proof.
  destruct (set_status now i s d) as [r d'] eqn:E. exists d'. unfold set_status in E.
  sql_run; split_and!; try done; by rewrite alter_absent.
Qed.

Lemma set_task_vm_fine (Hr : reliable) i vm vid d :
  exists d', set_task_vm i vm vid d = (Ok tt, d') /\
    tasks d' = alter (with_vm (Some vm) (Some vid)) i (tasks d) /\ only_tasks d d'.
Proof.
  destruct (set_task_vm i vm vid d) as [r d'] eqn:E. exists d'. unfold set_task_vm in E.
  sql_run; split_and!; try done; by rewrite alter_absent.
Qed.

Lemma fetch_inv now m d id t' d' :
  fetch now m d = (Ok (Some (id, t')), d') ->
  exists t, best (m_arch m.2) d id t /\ pinned_elsewhere (m_label m.2) t = false.
Proof.
  intros E. destruct m as [mid m]. unfold fetch in E. sql_run.
  all: candidate Hb; simpl in *; eauto.
Qed.

Lemma only_tasks_trans d1 d2 d3 : only_tasks d1 d2 -> only_tasks d2 d3 -> only_tasks d1 d3.
Proof. unfold only_tasks. intuition congruence. Qed.

(** The run of [fetch] when no statement fails. *)
Lemma fetch_run (Hr : reliable) now mid m d :
  let '(r, d') := fetch now (mid, m) d in
  only_tasks d d' /\
  match r with
  | Raise _ => False
  | Ok None => tasks d' = tasks d /\
      ((forall id t, tasks d !! id = Some t -> fetchable (m_arch m) t = false) \/
       exists id t, best (m_arch m) d id t /\ pinned_elsewhere (m_label m) t = true)
  | Ok (Some (id, t')) => exists t, best (m_arch m) d id t /\ pinned_elsewhere (m_label m) t = false /\
      t' = with_vm (Some (m_label m)) (Some mid) (apply_status now TASK_RUNNING t) /\
      tasks d' = <[id := t']> (tasks d)
  end.
Proof.
  destruct (fetch now (mid, m) d) as [r d'] eqn:E. unfold fetch in E.
  sql_run; simpl in *; try done;
    repeat match goal with
    | E : set_status ?n ?i ?s ?d0 = _ |- _ =>
        let F := fresh in destruct (set_status_fine Hr n i s d0) as (? & F & Ts & Os); rewrite F in E; clear F; simplify_eq/=
    | E : set_task_vm ?i ?l ?v ?d0 = _ |- _ =>
        let F := fresh in destruct (set_task_vm_fine Hr i l v d0) as (? & F & Tv & Ov); rewrite F in E; clear F; simplify_eq/=
    end.
  - candidate (Hz & _). exfalso. rewrite Tv, Ts, !lookup_alter_eq, Hz in Heqo0. done.
  - split_and!; [done|done|]. right. candidate Hb. eauto.
  - candidate Hb. pose proof Hb as (Hz & _). split; [exact (only_tasks_trans _ _ _ Os Ov)|].
    rewrite Tv, Ts, !lookup_alter_eq, Hz in Heqo0. simplify_eq/=. exists t. split_and!; try done.
    rewrite Tv, Ts, (alter_present _ _ _ _ Hz), (alter_present _ _ _ (apply_status now TASK_RUNNING t));
      [by rewrite insert_insert_eq|by rewrite lookup_insert_eq].
  - split_and!; [done|done|]. left. by eapply candidate_none.
Qed.

(** C2. What [fetch] does, when the backend answers: it hands out the pending task that
    comes first by priority and age among those whose tags fit the machine's architecture
    and that are not meant for another node, marks exactly that task as running on that
    machine, and returns nothing, without any change, exactly when there is no such task
    or the first one is pinned to another machine. *)
Theorem fetch_spec (Hr : reliable) now mid m d :
  let '(r, d') := fetch now (mid, m) d in
  only_tasks d d' /\
  match r with
  | Raise _ => False
  | Ok None => tasks d' = tasks d /\
      ((forall id t, tasks d !! id = Some t -> fetchable (m_arch m) t = false) \/
       exists id t, best (m_arch m) d id t /\ pinned_elsewhere (m_label m) t = true)
  | Ok (Some (id, t')) => exists t, best (m_arch m) d id t /\ pinned_elsewhere (m_label m) t = false /\
      t' = with_vm (Some (m_label m)) (Some mid) (apply_status now TASK_RUNNING t) /\
      tasks d' = <[id := t']> (tasks d)
  end.
Proof. apply (fetch_run Hr). Qed.

(** Head-of-line blocking: when the first task of the queue for an architecture is
    pinned to another machine, [fetch] gives this machine nothing, whatever else is
    waiting. *)
Theorem pinned_task_blocks_queue now mid m d id t :
  tasks d !! id = Some t -> fetchable (m_arch m) t = true -> pinned_elsewhere (m_label m) t = true ->
  (forall j u, tasks d !! j = Some u -> fetchable (m_arch m) u = true -> j <> id -> ~ fetch_before (j, u) (id, t)) ->
  (fetch now (mid, m) d).1 = Ok None /\ tasks (fetch now (mid, m) d).2 = tasks d.
Proof.
  intros Hid Hf Hp Hmin. unfold fetch, try_sql, scatch, sbind, query.
  destruct (answer (ticks d)); [|done..].
  destruct (head _) as [[z u]|] eqn:Eh; [|done]. apply candidate_best in Eh as (Hz & Hzf & Hzmin).
  destruct (decide (z = id)) as [->|Hne]; [|exfalso; by apply (Hmin z u); auto].
  simplify_eq. by rewrite Hp.
Qed.

(** A task meant for another node, or one whose options are NULL, is never handed
    out, however the backend fails. *)
Theorem fetch_skips_node_tasks now m d id t' d' :
  fetch now m d = (Ok (Some (id, t')), d') ->
  exists t o, tasks d !! id = Some t /\ t_status t = TASK_PENDING /\
    t_options t = Some o /\ str_contains "node=" o = false.
Proof.
  intros E. apply fetch_inv in E as (t & (Hid & Hf & _) & _). unfold fetchable in Hf.
  apply andb_true_iff in Hf as [Hf _]. apply andb_true_iff in Hf as [Hs Hn].
  apply bool_decide_eq_true in Hs. unfold not_node in Hn.
  destruct (t_options t) as [o|] eqn:Ho; [|done]. exists t, o. split_and!; try done.
  destruct (str_contains "node=" o) eqn:Ec; [|done].
  apply sql_contains_sub in Ec; [by rewrite Ec in Hn|]. vm_compute. set_solver.
Qed.

Lemma keeps_running_along id now o :
  keeps_running id o = true ->
  op_along (fun i t t' => i = id -> t_status t <> TASK_PENDING -> t_status t' <> TASK_PENDING) now o.
Proof.
  destruct o; simpl; auto; try by intros; split.
  - intros Hk t -> Hp. destruct s; simpl; try done. by rewrite bool_decide_true in Hk.
Qed.

(** A task is handed out once: when the backend answers, a task [fetch] has returned
    is never returned again as long as nothing sets its status back to pending. *)
Theorem fetch_once (Hr : reliable) now m d id os now' m' :
  (run_queue_op now (QFetch m) d).1 = Some id ->
  Forall (fun o => keeps_running id o = true) os.*2 ->
  (run_queue_op now' (QFetch m') (run_queue_ops os (run_queue_op now (QFetch m) d).2)).1 <> Some id.
Proof.
  intros Hf Hk Hf'. set (P := fun i t t' => i = id -> t_status t <> TASK_PENDING -> t_status t' <> TASK_PENDING).
  assert (forall i, PreOrder (P i)) as HP.
  { intros i. split; [by intros t ??|intros t1 t2 t3 H1 H2 ??; by apply H2, H1]. }
  assert (tasks_within P (run_queue_op now (QFetch m) d).2 (run_queue_ops os (run_queue_op now (QFetch m) d).2)) as Hw.
  { apply run_ops_within; [done|]. intros n o Hin. apply keeps_running_along.
    rewrite Forall_forall in Hk. apply Hk. apply list_elem_of_fmap. by exists (n, o). }
  simpl in *. destruct (fetch now m d) as [r d1] eqn:E1, (fetch now' m' _) as [r2 d2] eqn:E2. simpl in *.
  destruct r as [[[i t1]|]|], r2 as [[[i2 t2]|]|]; simplify_eq/=.
  apply fetch_inv in E2 as (t & (Ht & Hft & _) & _). destruct (Hw _ _ Ht) as (t0 & Ht0 & Hp).
  destruct m as [mid m]. pose proof (fetch_run Hr now mid m d) as Hs. rewrite E1 in Hs.
  destruct Hs as (_ & t3 & _ & _ & -> & Hd). rewrite Hd, lookup_insert_eq in Ht0. simplify_eq.
  apply (Hp eq_refl); [done|]. unfold fetchable in Hft.
  apply andb_true_iff in Hft as [Hft _]. apply andb_true_iff in Hft as [Hft _]. by apply bool_decide_eq_true in Hft.
Qed.

(** A fault of the backend can hand a task out and leave it pending: when only the
    commit that marks the task as running fails, [set_status] swallows the error and
    [fetch] returns the task all the same, so that the next [fetch] can return it too. *)
Theorem fetch_leaves_pending now mid m d id t :
  (forall n, answer n <> Fine <-> n = (2 + ticks d)%nat) ->
  head (merge_sort fetch_before (select (fetchable (m_arch m)) (ticks d) (tasks d))) = Some (id, t) ->
  pinned_elsewhere (m_label m) t = false ->
  exists t' d', fetch now (mid, m) d = (Ok (Some (id, t')), d') /\
    tasks d' !! id = Some t' /\ t_status t' = TASK_PENDING /\ fetchable (m_arch m) t' = true.
Proof.
  intros Ha Hh Hp. destruct (fetch now (mid, m) d) as [r d'] eqn:E. unfold fetch, set_status, set_task_vm in E.
  pose proof (proj2 (Ha (2 + ticks d)%nat) eq_refl) as Hbad. simpl in Hbad.
  pose proof (candidate_best _ _ _ _ _ Hh) as (Hid & Hf & _).
  sql_run; simpl in *; try congruence;
    try match goal with
    | N : answer ?k <> Fine |- _ => tryif unify k (S (S (ticks d))) then fail else (apply Ha in N; lia)
    end.
  - match goal with E : tasks d !! id = Some t, F : _ |- _ => by rewrite lookup_alter_eq, E in F end.
  - match goal with E : tasks d !! id = Some t, F : _ |- _ =>
      rewrite lookup_alter_eq, E in F; rename E into Hid; simplify_eq/= end.
    pose proof Hf as Hs. apply andb_true_iff in Hs as [Hs _]. apply andb_true_iff in Hs as [Hs _].
    apply bool_decide_eq_true in Hs.
    eexists _, _. split_and!; [reflexivity|simpl; by rewrite lookup_alter_eq, Hid|done|exact Hf].
Qed.

(** ** Queries *)

(** [delete_tasks] deletes nothing: its statement is never committed, and it reports
    success. *)
Theorem delete_tasks_no_effect ids d :
  tasks (delete_tasks ids d).2 = tasks d /\
  (answer (ticks d) = Fine -> (delete_tasks ids d).1 = Ok true).
Proof.
  unfold delete_tasks, try_sql, scatch, sbind, query. by destruct (answer (ticks d)).
Qed.

(** [list_tasks] returns a slice of the matching tasks, each once, in the requested
    order (a total preorder), or newest first. *)
Theorem list_tasks_spec (Hr : reliable) f order_by limit offset d :
  let ord := default newest_first order_by in
  Total (holds2 ord) -> Transitive (holds2 ord) ->
  exists rows, (list_tasks f order_by limit offset d).1
      = Ok (match limit with Some l => take l | None => id end (drop (default 0%nat offset) rows)) /\
    NoDup rows /\ StronglySorted (holds2 ord) rows /\
    forall i t, (i, t) ∈ rows <-> tasks d !! i = Some t /\ task_matches f (samples d) i t = true.
Proof.
  intros ord Ht Htr. unfold list_tasks. erewrite try_sql_ok; [|by rewrite (query_fine Hr)].
  fold ord. set (rows := filter _ _).
  exists (merge_sort (holds2 ord) rows). split_and!.
  - by destruct limit.
  - rewrite (merge_sort_Permutation (holds2 ord) rows). unfold rows.
    apply NoDup_filter. rewrite (scan_perm Task _ (tasks d)). apply NoDup_map_to_list.
  - by apply StronglySorted_merge_sort.
  - intros i t. rewrite (merge_sort_Permutation (holds2 ord) rows). unfold rows.
    rewrite list_elem_of_filter, (scan_perm Task _ (tasks d)), elem_of_map_to_list. naive_solver.
Qed.

Lemma group_counts {A B} `{EqDecision B} (f : A -> B) (l : list A) (ks : list B) :
  NoDup ks ->
  foldr Z.add 0 ((fun k => zlen (filter (fun x => f x = k) l)) <$> ks) = zlen (filter (fun x => f x ∈ ks) l).
Proof.
  induction ks as [|k ks IH]; intros Hn; csimpl.
  - induction l as [|x l IHl]; [done|]. rewrite filter_cons_False by set_solver. done.
  - apply NoDup_cons in Hn as [Hk Hn]. rewrite IH by done. clear IH.
    induction l as [|x l IHl]; [done|]. rewrite !filter_cons. unfold zlen in *.
    repeat case_decide; simpl; set_solver || lia.
Qed.

(** The counts of [get_tasks_status_count] add up to [count_tasks], and each is the
    count of its status. *)
Theorem status_counts_add_up (Hr : reliable) d counts :
  (get_tasks_status_count d).1 = Ok counts ->
  Ok (foldr Z.add 0 counts.*2) = (count_tasks None None d).1 /\
  forall s n, (s, n) ∈ counts -> (count_tasks (Some s) None d).1 = Ok n.
Proof.
  unfold get_tasks_status_count, count_tasks.
  erewrite try_sql_ok; [|by rewrite (query_fine Hr)]. intros [= <-].
  erewrite try_sql_ok; [|by rewrite (query_fine Hr)].
  set (l := scan (ticks d) (tasks d)). set (ks := remove_dups _).
  assert (forall s, zlen (select (fun t => bool_decide (t_status t = s)) (ticks d) (tasks d))
                    = zlen (filter (fun r : Z * Task => t_status r.2 = s) l)) as Hsel.
  { intros s. unfold select. f_equal. apply list_filter_iff. intros r. by rewrite bool_decide_eq_true. }
  split.
  - simpl. f_equal. transitivity (zlen (filter (fun r : Z * Task => t_status r.2 ∈ ks) l)).
    + rewrite <- group_counts by apply NoDup_remove_dups. f_equal.
      induction ks as [|k ks IH]; [done|]. csimpl. by rewrite IH, Hsel.
    + assert (select (fun _ => true) (ticks d) (tasks d) = l) as ->.
      { unfold select. fold l. clear. induction l as [|x l IH]; [done|]. rewrite filter_cons_True by done. by rewrite IH. }
      f_equal. subst ks. assert (forall r, r ∈ l -> t_status r.2 ∈ remove_dups ((fun r : Z * Task => t_status r.2) <$> l)) as Hall.
      { intros r Hr'. apply elem_of_remove_dups, list_elem_of_fmap. by exists r. }
      revert Hall. generalize (remove_dups ((fun r : Z * Task => t_status r.2) <$> l)). clear.
      induction l as [|x l IH]; intros ks Hall; [done|]. rewrite filter_cons_True by (apply Hall; set_solver).
      f_equal. apply IH. set_solver.
  - intros s n Hin. erewrite try_sql_ok; [|by rewrite (query_fine Hr)]. simpl.
    apply list_elem_of_bind in Hin as (k & Hin & _). apply list_elem_of_singleton in Hin. simplify_eq. done.
Qed.

(** [minmax_tasks] does not survive a queue in which no task has started or completed:
    the aggregate row is there but its value is NULL, and the conversion raises
    [AttributeError]. *)
Theorem minmax_tasks_empty (Hr : reliable) d :
  (forall i t, tasks d !! i = Some t -> t_started_on t = None) ->
  (minmax_tasks d).1 = Raise AttributeError.
Proof.
  intros Hn. unfold minmax_tasks, try_sql, scatch, sbind. rewrite !(query_fine Hr).
  assert (forall r, r ∈ scan (ticks d) (tasks d) -> t_started_on r.2 = None) as Hs.
  { intros [i t] Hin. rewrite (scan_perm Task) in Hin. apply elem_of_map_to_list in Hin. by eapply Hn. }
  assert (forall l : list (Z * Task), (forall r, r ∈ l -> t_started_on r.2 = None) ->
    foldr (fun r acc => match t_started_on r.2, acc with
      | Some x, Some y => Some (Z.min x y) | Some x, None => Some x | None, _ => acc end) None l = None) as Hf.
  { induction l as [|r l IH]; intros Hl; [done|]. cbn [foldr]. rewrite (Hl r), IH; set_solver. }
  by rewrite Hf.
Qed.

End queue_runs.

(** ** Witnesses *)

Lemma queue_invariant_witness :
  let B := always_fine in
  queue_ok (run_queue_ops [(1, QFetch win10); (2, QStatus 2 TASK_COMPLETED); (3, QBan 0)] example_queue).
Proof.
  intros B. apply queue_invariant. intros id t Ht. unfold example_queue in Ht. simpl in Ht.
  repeat (apply lookup_insert_Some in Ht as [[<- <-]|[_ Ht]]; [repeat split; simpl; naive_solver|]).
  apply lookup_singleton_Some in Ht as [<- <-]. repeat split; simpl; naive_solver.
Defined.

Lemma fetch_spec_witness :
  let B := always_fine in
  only_tasks example_queue (fetch 50 win10 example_queue).2 /\
  exists t', (fetch 50 win10 example_queue).1 = Ok (Some (2, t')) /\ t_status t' = TASK_RUNNING.
Proof.
  intros B. pose proof (fetch_spec always_fine_reliable 50 7 (example_machine "win10" "x64" "windows") example_queue) as H.
  split.
  - subst B. unfold win10. destruct (fetch _ _ _) as [r d']. exact (proj1 H).
  - eexists. split; vm_compute; reflexivity.
Defined.

Lemma pinned_task_blocks_queue_witness :
  let B := always_fine in
  (fetch 50 win7 example_queue).1 = Ok None /\ tasks (fetch 50 win7 example_queue).2 = tasks example_queue.
Proof.
  intros B. apply (pinned_task_blocks_queue 50 1 _ example_queue 2
    (example_task 2 20 (Some "win10"%string) (Some ""%string) ["x64"%string] TASK_PENDING)); try reflexivity.
  intros j u Hj Hf Hne. unfold example_queue in Hj. simpl in Hj.
  repeat (apply lookup_insert_Some in Hj as [[<- <-]|[_ Hj]]; [try done; unfold fetch_before; simpl; lia|]).
  apply lookup_singleton_Some in Hj as [<- <-]. unfold fetch_before; simpl; lia.
Defined.

Lemma fetch_skips_node_tasks_witness :
  let B := always_fine in
  exists t o, tasks example_queue !! 2 = Some t /\ t_status t = TASK_PENDING /\
    t_options t = Some o /\ str_contains "node=" o = false.
Proof.
  intros B. eapply (fetch_skips_node_tasks 50 win10 example_queue 2 _ (fetch 50 win10 example_queue).2).
  vm_compute. reflexivity.
Defined.

Lemma fetch_once_witness :
  let B := always_fine in
  (run_queue_op 70 (QFetch win10) (run_queue_ops [(60, QStatus 2 TASK_COMPLETED); (61, QStatus 4 TASK_PENDING)]
     (run_queue_op 50 (QFetch win10) example_queue).2)).1 <> Some 2.
Proof.
  intros B. apply (fetch_once always_fine_reliable); [vm_compute; reflexivity|]. repeat constructor.
Defined.

Lemma fetch_leaves_pending_witness :
  let B := simple_backend (fun n => if bool_decide (n = 2%nat) then Broken else Fine) in
  exists t' d', fetch 50 win10 example_queue = (Ok (Some (2, t')), d') /\
    tasks d' !! 2 = Some t' /\ t_status t' = TASK_PENDING /\ fetchable "x64" t' = true.
Proof.
  intros B. apply (fetch_leaves_pending 50 7 (example_machine "win10" "x64" "windows") example_queue 2
    (example_task 2 20 (Some "win10"%string) (Some ""%string) ["x64"%string] TASK_PENDING)).
  - intros n. simpl. destruct (decide (n = 2%nat)) as [->|Hn].
    + rewrite bool_decide_true by done. naive_solver.
    + rewrite bool_decide_false by done. naive_solver.
  - vm_compute. reflexivity.
  - reflexivity.
Defined.

Lemma list_tasks_spec_witness :
  let B := always_fine in
  exists rows, (list_tasks no_filter None (Some 2%nat) None example_queue).1 = Ok (take 2 (drop 0 rows)) /\
    NoDup rows /\ StronglySorted (holds2 newest_first) rows /\
    forall i t, (i, t) ∈ rows <-> tasks example_queue !! i = Some t /\ task_matches no_filter ∅ i t = true.
Proof.
  intros B. apply (list_tasks_spec always_fine_reliable no_filter None (Some 2%nat) None example_queue).
  - intros x y. unfold holds2, newest_first. simpl. rewrite !Z.leb_le. lia.
  - intros x y z. unfold holds2, newest_first. simpl. rewrite !Z.leb_le. lia.
Defined.

Lemma status_counts_add_up_witness :
  let B := always_fine in
  Ok (foldr Z.add 0 [(TASK_RECOVERED, 1); (TASK_PENDING, 3)].*2) = (count_tasks None None example_queue).1 /\
  forall s n, (s, n) ∈ [(TASK_RECOVERED, 1); (TASK_PENDING, 3)] -> (count_tasks (Some s) None example_queue).1 = Ok n.
Proof.
  intros B. apply (status_counts_add_up always_fine_reliable). vm_compute. reflexivity.
Defined.

Lemma minmax_tasks_empty_witness : let B := always_fine in (minmax_tasks empty_db).1 = Raise AttributeError.
Proof.
  intros B. apply (minmax_tasks_empty always_fine_reliable). intros i t Hi. simpl in Hi. by rewrite lookup_empty in Hi.
Defined.

Lemma delete_tasks_no_effect_witness :
  let B := always_fine in tasks (delete_tasks [1; 2] example_queue).2 = tasks example_queue /\
  (delete_tasks [1; 2] example_queue).1 = Ok true.
Proof. intros B. split; [apply delete_tasks_no_effect|by apply delete_tasks_no_effect]. Defined.
