(* ===== verification/Submission.v ===== *)
(** Task submission in lib/cuckoo/core/database.py: samples and tasks are added, archives
    are unpacked into tasks, tasks are rescheduled. *)
From S2P Require Import Prelude Database TaskQueue.
Open Scope Z_scope.

(** ** Files and configuration *)

(** What the [File] class computes of a file. *)
Record file_info := {
  fi_type : string; fi_md5 : string; fi_crc32 : string; fi_sha1 : string; fi_sha256 : string;
  fi_sha512 : string; fi_size : Z; fi_ssdeep : option string }.

(** A document of the report store: the task it is of, and the blocks of the
    category that was asked for, each with its hash of that kind and its sha256. *)
Record report_doc := { doc_task : Z; doc_blocks : list (string * string) }.

(** A configuration that was extracted before: the id of its task. *)
Record static_config := { config_id : Z }.

(** The world outside of the database: the files, the identification of file
    types, the unpacker, the extractors, the report store, and the settings. *)
Class SubmissionEnv := {
  linux_enabled : bool;
  dist_enabled : bool;
  file_of : string -> file_info;
  path_exists : string -> bool;
  demux_sample : string -> string -> option string -> list string;
  sflock_identify : string -> option string;
  static_config_lookup : string -> option static_config;
  static_extraction : string -> option static_config;
  parse_clock : string -> option Z;
  find_reports : string -> string -> list report_doc;
  find_suricata : string -> list (list string);
  str_of_id : Z -> string }.

Definition sandbox_packages : list string :=
  ["nsis"; "cpl"; "reg"; "regsvr"; "dll"; "exe"; "pdf"; "pub"; "doc"; "xls"; "ppt"; "jar"; "zip"; "rar";
   "swf"; "python"; "msi"; "ps1"; "msg"; "eml"; "js"; "html"; "hta"; "xps"; "wsf"; "mht"; "doc"; "vbs";
   "lnk"; "chm"; "hwp"; "inp"; "vbs"; "js"; "vbejse"; "msbuild"; "sct"; "xslt"; "Shellcode";
   "Shellcode_x64"]%string.

Definition VALID_LINUX_TYPES : list string :=
  ["Bourne-Again"; "POSIX shell script"; "ELF"; "Python"]%string.

(** [None] stands for [False]. *)
Definition _get_linux_vm_tag (mgtype : string) : option string :=
  let mgtype := lower mgtype in
  if existsb (fun p => starts_with p mgtype) VALID_LINUX_TYPES
     && negb (str_contains "motorola" mgtype) && negb (str_contains "renesas" mgtype) then None
  else if str_contains "mipsel" mgtype then Some "mipsel"%string
  else if str_contains "mips" mgtype then Some "mips"%string
  else if str_contains "arm" mgtype then Some "arm"%string
  else if str_contains "sparc" mgtype then Some "sparc"%string
  else if str_contains "powerpc" mgtype then Some "powerpc"%string
  else if str_contains "32-bit" mgtype then Some "x32"%string
  else if str_contains "elf 64-bit" mgtype && str_contains "x86-64" mgtype then Some "x64"%string
  else Some "x64"%string.

(** [get_options] of lib/cuckoo/common/utils.py; later keys replace earlier
    ones. *)
Definition get_options (optstring : option string) : gmap string string :=
  let parse o := match find_byte "="%char (B o) with
                 | Some n => Some (text (strip_ws (take n (B o))), text (strip_ws (drop (S n) (B o))))
                 | None => None end in
  if truthy optstring then
    foldl (fun m o => match parse o with Some (k, v) => <[k := v]> m | None => m end) ∅
      (split_on ","%char (default EmptyString optstring))
  else ∅.

(** ** Adding samples and tasks *)

Inductive submitted := OFile (path : string) | OPcap (path : string) | OStatic (path : string) | OUrl (url : string).

(** The lower-case name of the class of the object. *)
Definition category_of (o : submitted) : category :=
  match o with OFile _ => CFile | OPcap _ => CPcap | OStatic _ => CStatic | OUrl _ => CUrl end.

Definition file_path_of (o : submitted) : option string :=
  match o with OFile p | OPcap p | OStatic p => Some p | OUrl _ => None end.

Inductive clock_arg := ClockNone | ClockText (s : string) | ClockTime (t : Z).

Section submission.
Context `{SqlBackend} `{SubmissionEnv}.

Definition new_sample (i : file_info) (parent source_url : pyval) : Sample :=
  {| s_md5 := fi_md5 i; s_crc32 := fi_crc32 i; s_sha1 := fi_sha1 i; s_sha256 := fi_sha256 i;
     s_sha512 := fi_sha512 i; s_file_size := fi_size i; s_file_type := fi_type i; s_ssdeep := fi_ssdeep i;
     s_parent := if val_truthy parent then parent else VNone;
     s_source_url := if val_truthy source_url then source_url else VNone |}.

(** The sample whose MD5 is known; an error of the query is only logged. *)
Definition lookup_sample (md5 : string) : st Database (option Z) :=
  try_sql (let* s := query (fun n d => first (fun s => bool_decide (s_md5 s = md5)) n (samples d)) in
           sret (fst <$> s)) (sret None).

(** The commit of a new sample: its SHA256 must be unique. *)
Definition insert_sample (s : Sample) : st Database Z := fun d =>
  if bool_decide (map_Forall (fun _ s' => s_sha256 s' <> s_sha256 s) (samples d)) then
    let id := new_id (ticks d) (samples d) in
    (do* commit (set_samples (<[id := s]>)) in sret id) d
  else (Raise IntegrityError, tick d).

(** A sample that is known is committed without a change. *)
Definition store_sample (known : option Z) (s : Sample) : st Database Z :=
  match known with
  | Some id => do* commit (fun d => d) in sret id
  | None => insert_sample s
  end.

(** After a conflict the sample is looked up again; [sample.id] is read at the end
    on every path, which fails when that look-up finds nothing. *)
Definition register_sample (o : submitted) (source_url : pyval) : st Database (option Z) :=
  match file_path_of o with
  | None => sret None
  | Some path =>
      let i := file_of path in
      let* known := lookup_sample (fi_md5 i) in
      let* stored := scatch
        (let* id := store_sample known (new_sample i VNone source_url) in sret (Some (id, true)))
        (fun e => match e with
         | IntegrityError => Some
             (try_sql
                (let* again := query (fun n d => first (fun s => bool_decide (s_md5 s = fi_md5 i)) n (samples d)) in
                 match again with Some (id, _) => sret (Some (id, false)) | None => sraise AttributeError end)
                (sret None))
         | SQLAlchemyError => Some (sret None)
         | _ => None end) in
      match stored with
      | None => sret None
      | Some (id, expired) => do* (if expired : bool then refresh else sret tt) in sret (Some id)
      end
  end.

(** The architecture tag that submission adds to the user's tags. *)
Definition arch_tags (file_type package : string) (tags : option string) : option string :=
  let add (t : string) := if truthy tags then Some (default EmptyString tags +:+ "," +:+ t)%string else Some t in
  if str_contains "PE32+" file_type || str_contains "64-bit" file_type || ends_with "_x64" package then add "x64"%string
  else if linux_enabled then
    match _get_linux_vm_tag file_type with Some a => add a | None => tags end
  else add "x86"%string.

(** [for tag in tags.split(","): if tag.strip(): ...]: the name is not
    stripped. *)
Definition task_tags (tags : option string) : list string :=
  if truthy tags then
    filter (fun t => strip_ws (B t) <> []) (split_on ","%char (default EmptyString tags))
  else [].

Definition task_clock (c : clock_arg) : Z :=
  match c with
  | ClockNone => 0
  | ClockText s => if truthy (Some s) then default 0 (parse_clock s) else 0
  | ClockTime t => t
  end.

(** The commit of a task, after its tags have been looked up. *)
Definition store_task (t : Task) : st Database (option Z) :=
  do* foldr (fun _ k => do* query (fun _ _ => tt) in k) (sret tt) (t_tags t) in
  try_sql
    (let* d := sget in
     let id := new_id (ticks d) (tasks d) in
     do* commit (set_tasks (<[id := t]>)) in
     do* refresh in
     sret (Some id))
    (sret None).

(** The row of a new task. *)
Definition add_row (now : Z) (obj : submitted) (timeout : option Z) (package : string) (options : option string)
    (priority : option Z) (custom : pyval) (machine : option string) (platform : pyval)
    (memory enforce_timeout : bool) (clock : clock_arg)
    (shrike_url shrike_msg shrike_sid shrike_refer parent_id tlp route cape tags_tasks user_id username : pyval)
    (target : string) (started sample_id : option Z) (tags : option string) : Task :=
  {| t_target := target; t_category := category_of obj; t_cape := cape; t_timeout := default 0 timeout;
     t_priority := match nonzero priority with Some p => p | None => 1 end; t_custom := custom;
     t_machine := machine; t_package := package; t_route := route; t_tags_tasks := tags_tasks;
     t_tags := task_tags tags; t_options := options; t_platform := platform; t_memory := memory;
     t_enforce_timeout := enforce_timeout; t_clock := task_clock clock; t_added_on := now;
     t_started_on := started; t_completed_on := None; t_status := TASK_PENDING; t_statistics := None;
     t_sample_id := sample_id; t_machine_id := None; t_shrike_url := shrike_url; t_shrike_refer := shrike_refer;
     t_shrike_msg := shrike_msg; t_shrike_sid := shrike_sid; t_parent_id := parent_id; t_tlp := tlp;
     t_user_id := user_id; t_username := username |}.

(** The arguments stand in the order of the source, which does not use [static].
    A conflict leaves a new sample without an id. *)
Definition add (now : Z) (obj : submitted) (timeout : option Z) (package : string) (options : option string)
    (priority : option Z) (custom : pyval) (machine : option string) (platform : pyval) (tags : option string)
    (memory enforce_timeout : bool) (clock : clock_arg)
    (shrike_url shrike_msg shrike_sid shrike_refer parent_id sample_parent_id tlp static source_url route cape
     tags_tasks user_id username : pyval) : st Database (option Z) :=
  let row := add_row now obj timeout package options priority custom machine platform memory enforce_timeout clock
    shrike_url shrike_msg shrike_sid shrike_refer parent_id tlp route cape tags_tasks user_id username in
  match file_path_of obj with
  | Some path =>
      let i := file_of path in
      let* known := lookup_sample (fi_md5 i) in
      let* stored := scatch
        (let* id := store_sample known (new_sample i sample_parent_id source_url) in sret (Some (Some id)))
        (fun e => match e with
         | IntegrityError => Some (sret (Some known))
         | SQLAlchemyError => Some (sret None)
         | _ => None end) in
      match stored with
      | None => sret None
      | Some sample_id =>
          let* loaded := (match sample_id with          (* sample.id *)
                          | Some _ => try_sql (do* refresh in sret true) (sret false)
                          | None => sret true end) in
          if negb loaded then sret None
          else store_task (row path (match obj with OPcap _ | OStatic _ => Some now | _ => None end) sample_id
                             (arch_tags (fi_type i) package tags))
      end
  | None => store_task (row (match obj with OUrl u => u | _ => EmptyString end) None None (Some "x64,x86"%string))
  end.
(** The arguments that [add_path], [add_url] and the others share. *)
Record submit_args := {
  a_timeout : option Z; a_package : string; a_options : option string; a_priority : option Z;
  a_custom : pyval; a_machine : option string; a_platform : pyval; a_tags : option string;
  a_memory : bool; a_enforce_timeout : bool; a_clock : clock_arg;
  a_shrike_url : pyval; a_shrike_msg : pyval; a_shrike_sid : pyval; a_shrike_refer : pyval;
  a_parent_id : pyval; a_sample_parent_id : pyval; a_tlp : pyval; a_static : bool; a_source_url : pyval;
  a_route : pyval; a_cape : pyval; a_tags_tasks : pyval; a_user_id : pyval; a_username : pyval }.

Definition default_args : submit_args :=
  {| a_timeout := Some 0; a_package := ""; a_options := Some ""%string; a_priority := Some 1; a_custom := VStr "";
     a_machine := Some ""%string; a_platform := VStr ""; a_tags := None; a_memory := false;
     a_enforce_timeout := false; a_clock := ClockNone; a_shrike_url := VNone; a_shrike_msg := VNone;
     a_shrike_sid := VNone; a_shrike_refer := VNone; a_parent_id := VNone; a_sample_parent_id := VNone;
     a_tlp := VNone; a_static := false; a_source_url := VBool false; a_route := VNone; a_cape := VBool false;
     a_tags_tasks := VBool false; a_user_id := VInt 0; a_username := VBool false |}.

Definition add_path (now : Z) (path : string) (a : submit_args) : st Database (option Z) :=
  if bool_decide (path = EmptyString) || negb (path_exists path) then sret None
  else
    add now (OFile path) (Some (default 0 (a_timeout a))) (a_package a) (a_options a)
      (Some (match nonzero (a_priority a) with Some p => p | None => 1 end)) (a_custom a) (a_machine a)
      (a_platform a) (a_tags a) (a_memory a) (a_enforce_timeout a) (a_clock a) (a_shrike_url a)
      (a_shrike_msg a) (a_shrike_sid a) (a_shrike_refer a) (a_parent_id a) (a_sample_parent_id a) (a_tlp a)
      (VBool false) (a_source_url a) (a_route a) (a_cape a) (a_tags_tasks a) (a_user_id a) (a_username a).

(** The positional arguments after [parent_id] are [tlp], [user_id] and
    [username]; those of [add] are [sample_parent_id], [tlp] and [static]. *)
Definition add_pcap (now : Z) (path : string) (a : submit_args) : st Database (option Z) :=
  add now (OPcap path) (a_timeout a) (a_package a) (a_options a) (a_priority a) (a_custom a) (a_machine a)
    (a_platform a) (a_tags a) (a_memory a) (a_enforce_timeout a) (a_clock a) (a_shrike_url a)
    (a_shrike_msg a) (a_shrike_sid a) (a_shrike_refer a) (a_parent_id a)
    (a_tlp a) (a_user_id a) (a_username a)
    (VBool false) VNone (VBool false) (VBool false) (VInt 0) (VBool false).

(** As for [add_pcap], [tlp] is passed where [add] takes [sample_parent_id]. *)
Definition add_url (now : Z) (url : string) (a : submit_args) : st Database (option Z) :=
  add now (OUrl url) (Some (default 0 (a_timeout a))) (a_package a) (a_options a)
    (Some (match nonzero (a_priority a) with Some p => p | None => 1 end)) (a_custom a) (a_machine a)
    (a_platform a) (a_tags a) (a_memory a) (a_enforce_timeout a) (a_clock a) (a_shrike_url a)
    (a_shrike_msg a) (a_shrike_sid a) (a_shrike_refer a) (a_parent_id a) (a_tlp a)
    VNone (VBool false) (VBool false) (a_route a) (a_cape a) (a_tags_tasks a) (a_user_id a) (a_username a).

(** The parent sample of the files of an archive. *)
Definition archive_parent (path : string) (files : list string) (source_url : pyval) : st Database pyval :=
  if bool_decide (files <> []) && bool_decide (path ∉ files) then
    let* id := register_sample (OFile path) source_url in
    sret (match id with Some i => VInt i | None => VNone end)
  else sret VNone.

Definition some_truthy (o : option Z) : list Z := match nonzero o with Some i => [i] | None => [] end.

Fixpoint add_static_files (now : Z) (parent : pyval) (a : submit_args) (files : list string) : st Database (list Z) :=
  match files with
  | [] => sret []
  | f :: files' =>
      let* id := add now (OStatic f) (a_timeout a) (a_package a) (a_options a) (a_priority a) (a_custom a)
        (a_machine a) (a_platform a) (a_tags a) (a_memory a) (a_enforce_timeout a) (a_clock a) (a_shrike_url a)
        (a_shrike_msg a) (a_shrike_sid a) (a_shrike_refer a) VNone parent (a_tlp a) (VBool (a_static a))
        (VBool false) VNone (VBool false) (VBool false) (a_user_id a) (a_username a) in
      let* ids := add_static_files now parent a files' in
      sret (some_truthy id ++ ids)
  end.

Definition add_static (now : Z) (path : string) (a : submit_args) : st Database (list Z) :=
  let files := demux_sample path (a_package a) (a_options a) in
  let* parent := archive_parent path files (VBool false) in
  add_static_files now parent a files.

(** ** Archives *)

(** The variables of the loop over the files that outlive a round. *)
Record demux_state := {
  ds_package : string; ds_options : option string; ds_config : option static_config;
  ds_task_id : option Z; ds_task_ids : list Z }.

(** [static_extraction] is a function, so [if config or static_extraction] is
    always taken. *)
Definition demux_static (now : Z) (a : submit_args) (file : string) (s : demux_state) : st Database demux_state :=
  let '(config, ids) :=
    match static_config_lookup file with
    | Some c => (Some c, ds_task_ids s ++ [config_id c])
    | None => (static_extraction file, ds_task_ids s)
    end in
  let* added := add_static now file
    {| a_timeout := Some 0; a_package := ""; a_options := ds_options s; a_priority := a_priority a;
       a_custom := VStr ""; a_machine := Some ""%string; a_platform := VStr ""; a_tags := None; a_memory := false;
       a_enforce_timeout := false; a_clock := ClockNone; a_shrike_url := VNone; a_shrike_msg := VNone;
       a_shrike_sid := VNone; a_shrike_refer := VNone; a_parent_id := VNone; a_sample_parent_id := VNone;
       a_tlp := a_tlp a; a_static := true; a_source_url := VBool false; a_route := VNone; a_cape := VBool false;
       a_tags_tasks := VBool false; a_user_id := a_user_id a; a_username := a_username a |} in
  sret {| ds_package := ds_package s; ds_options := ds_options s; ds_config := config;
          ds_task_id := ds_task_id s; ds_task_ids := ids ++ added |}.

Definition identify_package (package file : string) : string :=
  if bool_decide (package = EmptyString) then
    match sflock_identify file with
    | Some p => if bool_decide (p <> EmptyString /\ p ∈ sandbox_packages) then p else package
    | None => package
    end
  else package.

Definition dist_options (static : bool) (options : option string) : option string :=
  if static && dist_enabled then
    if truthy options then Some (default EmptyString options +:+ ",dist_extract=1")%string
    else Some "dist_extract=1"%string
  else options.

Definition is_none {A} (o : option A) : bool := match o with None => true | Some _ => false end.

Definition demux_file (now : Z) (a : submit_args) (only_extraction : bool) (parent : pyval) (file : string)
    (s : demux_state) : st Database demux_state :=
  let* s := (if a_static a then demux_static now a file s else sret s) in
  let* s :=
    (if is_none (ds_config s) && negb only_extraction then
       let package := identify_package (ds_package s) file in
       let options := dist_options (a_static a) (a_options a) in
       let* id := add_path now file
         {| a_timeout := a_timeout a; a_package := package; a_options := options; a_priority := a_priority a;
            a_custom := a_custom a; a_machine := a_machine a; a_platform := a_platform a; a_tags := a_tags a;
            a_memory := a_memory a; a_enforce_timeout := a_enforce_timeout a; a_clock := a_clock a;
            a_shrike_url := a_shrike_url a; a_shrike_msg := a_shrike_msg a; a_shrike_sid := a_shrike_sid a;
            a_shrike_refer := a_shrike_refer a; a_parent_id := a_parent_id a; a_sample_parent_id := parent;
            a_tlp := a_tlp a; a_static := false; a_source_url := a_source_url a; a_route := a_route a;
            a_cape := a_cape a; a_tags_tasks := a_tags_tasks a; a_user_id := a_user_id a;
            a_username := a_username a |} in
       sret {| ds_package := package; ds_options := options; ds_config := ds_config s; ds_task_id := id;
               ds_task_ids := ds_task_ids s |}
     else sret s) in
  sret {| ds_package := ds_package s; ds_options := ds_options s; ds_config := ds_config s;
          ds_task_id := ds_task_id s; ds_task_ids := ds_task_ids s ++ some_truthy (ds_task_id s) |}.

Fixpoint demux_files (now : Z) (a : submit_args) (only_extraction : bool) (parent : pyval) (files : list string)
    (s : demux_state) : st Database demux_state :=
  match files with
  | [] => sret s
  | f :: files' => let* s' := demux_file now a only_extraction parent f s in
                   demux_files now a only_extraction parent files' s'
  end.

(** The file of an archive that the option [file=] names. *)
Definition select_runfile (options : option string) (files : list string) : list string :=
  match get_options options !! "file"%string with
  | None => files
  | Some f => match head (filter (fun x => str_contains (lower f) (lower x) = true) files) with
              | Some x => [x] | None => files end
  end.

(** [sample_parent_id] of the caller is dropped by the source. *)
Definition demux_sample_and_add_to_db (now : Z) (path : string) (a : submit_args) (only_extraction : bool)
    : st Database (list Z * option static_config) :=
  let package := if bool_decide (a_platform a = VStr "linux") then EmptyString else a_package a in
  let files := demux_sample path package (a_options a) in
  let* parent := archive_parent path files (a_source_url a) in
  let* s := demux_files now a only_extraction parent (select_runfile (a_options a) files)
    {| ds_package := package; ds_options := a_options a; ds_config := None; ds_task_id := None;
       ds_task_ids := [] |} in
  sret (ds_task_ids s, ds_config s).

(** ** Rescheduling *)

Definition hash_column (h : string) : option (Sample -> string) :=
  match String.length h with
  | 32%nat => Some s_md5 | 40%nat => Some s_sha1 | 64%nat => Some s_sha256 | 128%nat => Some s_sha512 | _ => None
  end.

Definition binaries_path (sha256 : string) : string := ("storage/binaries/" +:+ sha256)%string.
Definition analysis_path (task : Z) (folder sha256 : string) : string :=
  ("storage/analyses/" +:+ str_of_id task +:+ "/" +:+ folder +:+ "/" +:+ sha256)%string.

(** The first block of a report whose file exists; the search goes on with the
    next report only while nothing has been found. *)
Fixpoint search_reports (h folder : string) (docs : list report_doc) (found : option string) : option string :=
  match docs with
  | [] => found
  | doc :: docs' =>
      let here := head (filter (fun p => path_exists p = true)
        ((fun b => analysis_path (doc_task doc) folder b.2) <$> filter (fun b => b.1 = h) (doc_blocks doc))) in
      match (match here with Some p => Some p | None => found end) with
      | Some p => Some p
      | None => search_reports h folder docs' None
      end
  end.

(** Opening a task's own target as [with open(path, "rb").read() as f] fails: a
    bytes object is no context manager (an [AttributeError] before Python 3.11),
    so a target that exists ends the search with nothing. *)
Definition sample_path_by_hash (h : string) : st Database (option string) :=
  match hash_column h with
  | None => sret None
  | Some col =>
      scatch
        (let* s := query (fun n d => first (fun s => bool_decide (col s = h)) n (samples d)) in
         let stored := match s with
                       | Some (_, s) => if path_exists (binaries_path (s_sha256 s)) then Some (binaries_path (s_sha256 s)) else None
                       | None => None end in
         let found := match stored with
           | Some p => Some p
           | None =>
               search_reports h "procdump" (find_reports "procdump" h)
                 (search_reports h "files" (find_reports "dropped" h)
                    (search_reports h "CAPE" (find_reports "CAPE.payloads" h) None))
           end in
         match found with
         | Some p => sret (Some p)
         | None =>
             let* targets := query (fun n d => (fun r => t_target r.2) <$>
               select (fun t => match t_sample_id t ≫= fun i => samples d !! i with
                                | Some s => bool_decide (col s = h) | None => false end) n (tasks d)) in
             match filter (fun p => p <> EmptyString /\ path_exists p = true) targets with
             | _ :: _ => sraise AttributeError
             | [] =>
                 sret (last (omap (fun files => head (filter (fun p => str_contains h p && path_exists p = true) files))
                              (find_suricata h)))
             end
         end)
        (fun e => if decide (e = AttributeError) then Some (sret None)
                  else if is_sqlalchemy e then Some (sret None) else None)
  end.

Inductive rescheduled := RNone | RFalse | RId (id : option Z) | RIds (ids : list Z).

(** [_ensure_valid_target]: the sample of the task, by its hash. *)
Definition _ensure_valid_target (t : Task) : st Database (option string) :=
  if decide (t_category t = CUrl) then sret (Some (t_target t))
  else
    let* s := query (fun _ d => t_sample_id t ≫= fun i => samples d !! i) in
    match s with
    | None => sraise AttributeError
    | Some s =>
        let* p := sample_path_by_hash (s_sha256 s) in
        match p with
        | None => sraise TypeError
        | Some p => sret (if path_exists p then Some p else None)
        end
    end.

Definition join_tags (tags : list string) : option string :=
  match tags with [] => None | _ => Some (String.concat "," tags) end.

(** What is carried over to the new task. *)
Definition reschedule_args (t : Task) : submit_args :=
  {| a_timeout := Some (t_timeout t); a_package := t_package t; a_options := t_options t;
     a_priority := Some (t_priority t); a_custom := t_custom t; a_machine := t_machine t;
     a_platform := t_platform t; a_tags := join_tags (t_tags t); a_memory := t_memory t;
     a_enforce_timeout := t_enforce_timeout t; a_clock := ClockTime (t_clock t); a_shrike_url := VNone;
     a_shrike_msg := VNone; a_shrike_sid := VNone; a_shrike_refer := VNone; a_parent_id := VNone;
     a_sample_parent_id := VNone; a_tlp := t_tlp t; a_static := true; a_source_url := VBool false;
     a_route := VNone; a_cape := VBool false; a_tags_tasks := VBool false; a_user_id := VInt 0;
     a_username := VBool false |}.

Definition reschedule (now task_id : Z) : st Database rescheduled :=
  let* task := view_task task_id in
  match task with
  | None => sret RNone
  | Some t =>
      let* row := query (fun _ d => tasks d !! task_id) in
      match row with
      | None => sraise AttributeError
      | Some _ =>
          let* ok := try_sql (do* commit (set_tasks (alter (with_status TASK_RECOVERED) task_id)) in sret true)
                             (sret false) in
          if negb ok then sret RFalse
          else
            let* target := _ensure_valid_target t in
            match target with
            | None | Some EmptyString => sret RNone
            | Some p =>
                let a := reschedule_args t in
                match t_category t with
                | CFile => let* r := add_path now p a in sret (RId r)
                | CUrl => let* r := add_url now p a in sret (RId r)
                | CPcap => let* r := add_pcap now p a in sret (RId r)
                | CStatic => let* r := add_static now p a in sret (RIds r)
                end
            end
      end
  end.

End submission.

(** ** A concrete environment, for examples *)

(** Every file under /tmp exists, and is a 64-bit executable when its name says
    so; its hashes are made from its path. *)
Definition example_env : SubmissionEnv :=
  {| linux_enabled := false; dist_enabled := false;
     file_of p := {| fi_type := if str_contains "64" p then "PE32+ executable" else "PE32 executable"; fi_md5 := p;
                     fi_crc32 := ""; fi_sha1 := ""; fi_sha256 := p; fi_sha512 := ""; fi_size := 1; fi_ssdeep := None |};
     path_exists p := starts_with "/tmp/" p;
     demux_sample p _ _ := if decide (p = "/tmp/a.zip"%string) then ["/tmp/a.dll"; "/tmp/b.pdf"]%string else [p];
     sflock_identify p := if str_contains "dll" p then Some "dll"%string else Some "pdf"%string;
     static_config_lookup _ := None; static_extraction _ := None; parse_clock _ := None;
     find_reports _ _ := []; find_suricata _ := []; str_of_id _ := "1"%string |}.

(** Only the sample of the example queue, with a sha256 of 64 characters. *)
Definition example_sha256 : string := text (replicate 64 "a"%char).
Definition example_sample : Sample :=
  {| s_md5 := "m"; s_crc32 := ""; s_sha1 := ""; s_sha256 := example_sha256; s_sha512 := ""; s_file_size := 1;
     s_file_type := ""; s_ssdeep := None; s_parent := VNone; s_source_url := VNone |}.
Definition example_db : Database := set_samples (fun _ => {[ 1 := example_sample ]}) example_queue.

(** ** What a submission changes *)

Section changes.
Context `{SqlBackend} `{SubmissionEnv}.

(** Along a step, tasks are only added, pending, or recovered. *)
Definition submits (d d' : Database) : Prop := queue_ok d -> queue_ok d'.

#[local] Instance submits_preorder : PreOrder submits.
Proof. split; [by intros d ?|intros d1 d2 d3 ? ? ?; unfold submits in *; auto]. Qed.

Lemma submits_query {A} (f : nat -> Database -> A) : within submits (query f).
Proof. intros d. unfold query. destruct (answer (ticks d)); exact (fun Hq => Hq). Qed.

Lemma submits_commit f : (forall d, submits d (f d)) -> within submits (commit f).
Proof. intros Hf d. unfold commit. destruct (answer (ticks d)); simpl; [exact (Hf (tick d))|exact (fun Hq => Hq)..]. Qed.

Lemma submits_try {A} (m k : st Database A) : within submits m -> within submits k -> within submits (try_sql m k).
Proof.
  intros Hm Hk. unfold try_sql. apply within_catch; [apply _|done|].
  intros e k' He. destruct (is_sqlalchemy e); by simplify_eq.
Qed.

Lemma submits_get : within submits sget.
Proof. by intros d. Qed.

(** Splits a goal [within submits m] along [m]. *)
Ltac submits_step :=
  lazymatch goal with
  | |- within _ (query _) => apply submits_query
  | |- within _ refresh => apply submits_query
  | |- within _ sget => apply submits_get
  | |- within _ (try_sql _ _) => apply submits_try
  | |- within _ (commit _) => apply submits_commit; let d := fresh "d" in let Hq := fresh "Hq" in intros d Hq
  | |- within _ (scatch _ _) => apply within_catch; [typeclasses eauto| |intros ?e ?k ?He]
  | _ => within_step
  end.

Lemma tag_lookups_submit (ts : list string) :
  within submits (foldr (fun _ k => do* query (fun _ _ => tt) in k) (sret tt) ts).
Proof. induction ts as [|t ts IH]; simpl; repeat submits_step. Qed.

Lemma insert_ok d id t : queue_ok d -> task_ok t -> queue_ok (set_tasks (<[id := t]>) d).
Proof.
  intros Hq Ht i u Hu. simpl in Hu. apply lookup_insert_Some in Hu as [[_ <-]|[_ Hu]]; [done|]. by apply (Hq i).
Qed.

Lemma store_task_submits t : task_ok t -> within submits (store_task t).
Proof.
  intros Ht. unfold store_task. apply within_bind; [apply _|apply tag_lookups_submit|intros _].
  repeat submits_step. by apply insert_ok.
Qed.

Lemma lookup_sample_submits md5 : within submits (lookup_sample md5).
Proof. unfold lookup_sample. repeat submits_step. Qed.

Lemma store_sample_submits known s : within submits (store_sample known s).
Proof.
  unfold store_sample, insert_sample. destruct known; [repeat submits_step; done|].
  intros d. destruct (bool_decide _); [|exact (fun Hq => Hq)].
  assert (within submits (do* commit (set_samples (<[new_id (ticks d) (samples d) := s]>))
    in sret (new_id (ticks d) (samples d)))) as Hw by (repeat submits_step; done). apply Hw.
Qed.

Lemma register_sample_submits o u : within submits (register_sample o u).
Proof.
  unfold register_sample. repeat first [apply lookup_sample_submits|apply store_sample_submits|submits_step].
  all: try done.
  all: destruct e; simplify_eq; repeat submits_step.
Qed.

Lemma pending_ok t : t_status t = TASK_PENDING -> task_ok t.
Proof. unfold task_ok. intros ->. split_and!; naive_solver. Qed.

Ltac submits_tac := repeat first [apply lookup_sample_submits|apply store_sample_submits
  |apply register_sample_submits|apply store_task_submits, pending_ok; reflexivity|submits_step]; try done.

Lemma add_submits now obj timeout package options priority custom machine platform tags memory enforce_timeout
    clock shrike_url shrike_msg shrike_sid shrike_refer parent_id sample_parent_id tlp static source_url route cape
    tags_tasks user_id username :
  within submits (add now obj timeout package options priority custom machine platform tags memory enforce_timeout
    clock shrike_url shrike_msg shrike_sid shrike_refer parent_id sample_parent_id tlp static source_url route cape
    tags_tasks user_id username).
Proof.
  unfold add. submits_tac.
  all: destruct e; simplify_eq; submits_tac.
Qed.

Lemma add_path_submits now path a : within submits (add_path now path a).
Proof. unfold add_path. submits_tac. apply add_submits. Qed.
Lemma add_url_submits now url a : within submits (add_url now url a).
Proof. apply add_submits. Qed.
Lemma add_pcap_submits now path a : within submits (add_pcap now path a).
Proof. apply add_submits. Qed.

Lemma archive_parent_submits path files u : within submits (archive_parent path files u).
Proof. unfold archive_parent. submits_tac. Qed.

Lemma add_static_submits now path a : within submits (add_static now path a).
Proof.
  unfold add_static. apply within_bind; [apply _|apply archive_parent_submits|intros parent].
  induction (demux_sample _ _ _) as [|f files IH]; simpl; submits_tac. apply add_submits.
Qed.

Lemma demux_submits now path a only : within submits (demux_sample_and_add_to_db now path a only).
Proof.
  unfold demux_sample_and_add_to_db. apply within_bind; [apply _|apply archive_parent_submits|intros parent].
  apply within_bind; [apply _| |intros; apply within_ret, _].
  generalize {| ds_package := if bool_decide (a_platform a = VStr "linux") then EmptyString else a_package a;
    ds_options := a_options a; ds_config := None; ds_task_id := None; ds_task_ids := [] |}.
  induction (select_runfile _ _) as [|f files IH]; intros s; simpl; [submits_tac|].
  apply within_bind; [apply _| |intros; apply IH]. unfold demux_file, demux_static.
  submits_tac; first [apply add_static_submits|apply add_path_submits].
Qed.

Lemma target_submits t : within submits (_ensure_valid_target t).
Proof.
  unfold _ensure_valid_target, sample_path_by_hash. submits_tac.
  all: repeat case_decide; simplify_eq; submits_tac.
  all: destruct (is_sqlalchemy _); simplify_eq; submits_tac.
Qed.

Lemma reschedule_submits now id : within submits (reschedule now id).
Proof.
  unfold reschedule, view_task. submits_tac.
  - intros i u Hu. simpl in Hu. apply lookup_alter_Some in Hu as [(<- & t' & Hu & ->)|[_ Hu]]; [|by apply (Hq i)].
    apply Hq in Hu. unfold task_ok, with_status in *. simpl. naive_solver.
  - apply target_submits.
  - apply add_path_submits.
  - apply add_pcap_submits.
  - apply add_static_submits.
Qed.

(** Submitting and rescheduling keep the invariant of the queue, whatever is submitted
    and however the backend fails: what they add is pending, what they replace is
    recovered. *)
Theorem submission_invariant now path id a only d :
  queue_ok d ->
  queue_ok (add_path now path a d).2 /\ queue_ok (add_url now path a d).2 /\
  queue_ok (add_pcap now path a d).2 /\ queue_ok (add_static now path a d).2 /\
  queue_ok (demux_sample_and_add_to_db now path a only d).2 /\ queue_ok (reschedule now id d).2.
Proof.
  intros Hq. split_and!.
  - by apply add_path_submits.
  - by apply add_url_submits.
  - by apply add_pcap_submits.
  - by apply add_static_submits.
  - by apply demux_submits.
  - by apply reschedule_submits.
Qed.

(** ** Tags *)

Lemma linux_tag_some mgtype : is_Some (_get_linux_vm_tag mgtype).
Proof.
  unfold _get_linux_vm_tag. cbn [existsb VALID_LINUX_TYPES].
  rewrite !lower_starts_with by (vm_compute; lia). cbn [orb andb].
  repeat match goal with |- context [if ?b then _ else _] => destruct b end; eauto.
Qed.

Lemma task_tags_app tags a :
  truthy tags = true -> strip_ws (B a) <> [] -> ","%char ∉ B a ->
  task_tags (Some (default EmptyString tags +:+ "," +:+ a)%string) = task_tags tags ++ [a].
Proof.
  intros Ht Ha Hc. unfold task_tags at 1.
  assert (truthy (Some (default EmptyString tags +:+ "," +:+ a)%string) = true) as ->
    by (by destruct tags as [[|? ?]|]).
  cbn [default id from_option]. change ","%string with (text [","%char]). rewrite split_on_app, filter_app. f_equal.
  - unfold task_tags. by rewrite Ht.
  - unfold split_on. rewrite split_byte_single by done. csimpl. rewrite text_B.
    by rewrite filter_cons_True.
Qed.

Definition linux_tags : list string := ["mipsel"; "mips"; "arm"; "sparc"; "powerpc"; "x32"; "x64"]%string.

Lemma linux_tag_known mgtype a : _get_linux_vm_tag mgtype = Some a -> a ∈ linux_tags.
Proof.
  unfold _get_linux_vm_tag, linux_tags. intros E.
  repeat match type of E with (if ?b then _ else _) = _ => destruct b end; simplify_eq; set_solver.
Qed.

Definition is_64bit (file_type package : string) : bool :=
  str_contains "PE32+" file_type || str_contains "64-bit" file_type || ends_with "_x64" package.

(** The architecture submission assigns. *)
Definition arch_of (file_type package : string) : string :=
  if is_64bit file_type package then "x64"
  else if linux_enabled then default "x64"%string (_get_linux_vm_tag file_type) else "x86".

Lemma add_tag_app tags a :
  strip_ws (B a) <> [] -> ","%char ∉ B a -> a <> EmptyString ->
  task_tags (if truthy tags then Some (default EmptyString tags +:+ "," +:+ a)%string else Some a) = task_tags tags ++ [a].
Proof.
  intros Ha Hc Hne. destruct (truthy tags) eqn:Ht; [by apply task_tags_app|].
  unfold task_tags. rewrite Ht. simpl. rewrite bool_decide_true by done. unfold split_on.
  rewrite split_byte_single by done. csimpl. by rewrite text_B, filter_cons_True.
Qed.

(** [_get_linux_vm_tag] never returns [False]: the file type is lower-cased before it
    is compared with capitalised prefixes, so every file type, whether or not it is of
    Linux, gets one of the architectures. *)
Theorem linux_vm_tag_total mgtype :
  exists a, _get_linux_vm_tag mgtype = Some a /\ a ∈ linux_tags.
Proof.
  destruct (linux_tag_some mgtype) as [a Ha]. exists a. split; [done|]. by apply linux_tag_known in Ha.
Qed.

Lemma arch_tag_app file_type package tags :
  task_tags (arch_tags file_type package tags) = task_tags tags ++ [arch_of file_type package].
Proof.
  unfold arch_tags, arch_of, is_64bit. destruct (_ || _ || _); [apply add_tag_app; [done|vm_compute; set_solver|done]|].
  destruct linux_enabled; [|apply add_tag_app; [done|vm_compute; set_solver|done]].
  destruct (_get_linux_vm_tag file_type) as [a|] eqn:E.
  - apply linux_tag_known in E. simpl.
    assert (strip_ws (B a) <> [] /\ ","%char ∉ B a /\ a <> EmptyString) as (H1 & H2 & H3); [|by apply add_tag_app].
    unfold linux_tags in E. repeat (apply elem_of_cons in E as [->|E]; [split_and!; [done|vm_compute; set_solver|done]|]).
    set_solver.
  - destruct (linux_tag_some file_type). congruence.
Qed.

(** The tags of a file's task are the user's followed by one architecture: [x64] for a
    64-bit file, else the one of its Linux platform or [x86]. *)
Theorem arch_tag_added file_type package tags :
  task_tags (arch_tags file_type package tags) = task_tags tags ++ [arch_of file_type package].
Proof. apply arch_tag_app. Qed.

Lemma arch_of_known file_type package : arch_of file_type package ∈ linux_tags ++ ["x86"%string].
Proof.
  unfold arch_of. destruct (is_64bit _ _); [unfold linux_tags; set_solver|].
  destruct linux_enabled; [|set_solver]. destruct (linux_tag_some file_type) as [a Ha]. rewrite Ha. simpl.
  apply linux_tag_known in Ha. set_solver.
Qed.

(** ** New tasks *)

Lemma lookup_sample_tasks md5 d r d' : lookup_sample md5 d = (r, d') -> tasks d' = tasks d.
Proof. unfold lookup_sample. intros E. sql_run; done. Qed.

Lemma store_sample_tasks known s d r d' : store_sample known s d = (r, d') -> tasks d' = tasks d.
Proof.
  unfold store_sample, insert_sample. intros E. destruct known; [sql_run; done|].
  destruct (bool_decide _); [|by simplify_eq]. cbv zeta in E. sql_run; done.
Qed.

Lemma catch_sample_tasks known s d r d' :
  scatch (let* id := store_sample known s in sret (Some (Some id)))
    (fun e => match e with
     | IntegrityError => Some (sret (Some known)) | SQLAlchemyError => Some (sret None) | _ => None end) d = (r, d') ->
  tasks d' = tasks d.
Proof.
  intros E. apply scatch_inv in E as [(a & E & _)|(e & d1 & E & Hk)].
  - sql_run. by match goal with E : store_sample _ _ _ = _ |- _ => apply store_sample_tasks in E end.
  - assert (tasks d1 = tasks d) as <-.
    { sql_run; by match goal with E : store_sample _ _ _ = _ |- _ => apply store_sample_tasks in E end. }
    destruct Hk as [(k & Hk & E2)|(_ & _ & ->)]; [|done]. destruct e; simplify_eq; by sql_run.
Qed.

Lemma tag_lookups_tasks (ts : list string) d r d' :
  foldr (fun _ k => do* query (fun _ _ => tt) in k) (sret tt) ts d = (r, d') -> tasks d' = tasks d.
Proof.
  revert d. induction ts as [|t ts IH]; simpl; intros d E; sql_run; try done.
  match goal with E : foldr _ _ _ _ = _ |- _ => by apply IH in E end.
Qed.

Lemma store_task_some t d id d' :
  store_task t d = (Ok (Some id), d') -> tasks d !! id = None /\ tasks d' = <[id := t]> (tasks d).
Proof.
  unfold store_task. intros E. apply sbind_inv in E as [(u & d1 & E1 & E)|(e & _ & ?)]; [|done].
  apply tag_lookups_tasks in E1. sql_run. rewrite <- E1. split; [apply new_id_fresh|done].
Qed.

(** What a successful submission stores. *)
Definition stored (d d' : Database) (id : Z) (t : Task) : Prop :=
  tasks d !! id = None /\ tasks d' = <[id := t]> (tasks d).

Lemma add_some now obj timeout package options priority custom machine platform tags memory enforce_timeout
    clock shrike_url shrike_msg shrike_sid shrike_refer parent_id sample_parent_id tlp static source_url route cape
    tags_tasks user_id username d id d' :
  add now obj timeout package options priority custom machine platform tags memory enforce_timeout
    clock shrike_url shrike_msg shrike_sid shrike_refer parent_id sample_parent_id tlp static source_url route cape
    tags_tasks user_id username d = (Ok (Some id), d') ->
  exists target started sid, stored d d' id
    (add_row now obj timeout package options priority custom machine platform memory enforce_timeout clock
       shrike_url shrike_msg shrike_sid shrike_refer parent_id tlp route cape tags_tasks user_id username
       target started sid
       (match file_path_of obj with
        | Some p => arch_tags (fi_type (file_of p)) package tags
        | None => Some "x64,x86"%string end)).
Proof.
  unfold add. intros E. destruct (file_path_of obj) as [path|] eqn:Ho.
  - destruct (sbind_inv _ _ _ _ _ E) as [(known & d1 & E1 & E2)|(? & _ & ?)]; [clear E|done].
    apply lookup_sample_tasks in E1. apply sbind_inv in E2 as [(st & d2 & E2 & E3)|(? & _ & ?)]; [|done].
    apply catch_sample_tasks in E2. destruct st as [sid|]; [|by sql_run].
    assert (exists d3, tasks d3 = tasks d2 /\ store_task
       (add_row now obj timeout package options priority custom machine platform memory enforce_timeout clock
         shrike_url shrike_msg shrike_sid shrike_refer parent_id tlp route cape tags_tasks user_id username path
         match obj with OPcap _ | OStatic _ => Some now | _ => None end sid
         (arch_tags (fi_type (file_of path)) package tags)) d3 = (Ok (Some id), d')) as (d3 & Et & Es).
    { destruct sid; sql_run; eexists; (split; [|eassumption]); done. }
    apply store_task_some in Es as [Hn Es]. unfold stored. rewrite <- E1, <- E2, <- Et. eauto.
  - apply store_task_some in E. unfold stored. eauto.
Qed.

(** A submitted URL loses its TLP and its tags: [add_url] passes the TLP where [add]
    takes the parent sample, and [add] replaces the tags. *)
Theorem url_submission_drops now url a d id d' :
  add_url now url a d = (Ok (Some id), d') ->
  exists t, stored d d' id t /\ t_status t = TASK_PENDING /\ t_target t = url /\
    t_tlp t = VNone /\ t_tags t = ["x64"; "x86"]%string /\ t_user_id t = a_user_id a.
Proof.
  unfold add_url, add. cbn [file_path_of]. intros E. apply store_task_some in E as [Hn E].
  eexists. split; [exact (conj Hn E)|]. done.
Qed.

(** The positional arguments of [add_pcap] are shifted: the task gets the user's id as
    its TLP and no user. *)
Theorem pcap_arguments_shift now path a d id d' :
  add_pcap now path a d = (Ok (Some id), d') ->
  exists t, stored d d' id t /\ t_tlp t = a_user_id a /\ t_user_id t = VInt 0 /\ t_username t = VBool false.
Proof.
  unfold add_pcap. intros E. apply add_some in E as (target & started & sid & Hs).
  eexists. split; [exact Hs|]. done.
Qed.

(** C15. What is submitted can be fetched: a file added to a queue with nothing pending is
    the next task that [fetch] hands to a machine of its architecture, when the options
    are not NULL and name no node, and no other machine was asked for. *)
Theorem submission_is_fetchable (Hr : reliable) now path a o d id d' now' mid m :
  add_path now path a d = (Ok (Some id), d') ->
  (forall i t, tasks d !! i = Some t -> t_status t <> TASK_PENDING) ->
  a_options a = Some o -> sql_contains "node=" o = false ->
  truthy (a_machine a) = false \/ a_machine a = Some (m_label m) ->
  m_arch m = arch_of (fi_type (file_of path)) (a_package a) ->
  exists t', (fetch now' (mid, m) d').1 = Ok (Some (id, t')) /\ t_status t' = TASK_RUNNING /\
    t_package t' = a_package a /\ t_options t' = Some o.
Proof.
  unfold add_path. intros E Hnone Ho Hnode Hm Harch. destruct (_ || _); [by sql_run|].
  apply add_some in E as (target & started & sid & Hn & Ht). cbn [file_path_of] in Ht.
  match type of Ht with _ = <[_ := ?r]> _ => set (row := r) in Ht end.
  assert (fetchable (m_arch m) row = true) as Hf.
  { unfold fetchable. apply andb_true_iff. split; [apply andb_true_iff; split|].
    - done.
    - unfold not_node. change (t_options row) with (a_options a). by rewrite Ho, Hnode.
    - assert (m_arch m ∈ t_tags row) as Hin.
      { change (t_tags row) with (task_tags (arch_tags (fi_type (file_of path)) (a_package a) (a_tags a))).
        rewrite arch_tag_app, Harch. set_solver. }
      unfold arch_ok. destruct (str_contains "x64" (m_arch m)) eqn:Ex; [|by apply bool_decide_eq_true].
      pose proof (arch_of_known (fi_type (file_of path)) (a_package a)) as Hk. rewrite <- Harch in Hk.
      assert (m_arch m = "x64"%string) as E64.
      { unfold linux_tags in Hk. cbn [app] in Hk.
        repeat (apply elem_of_cons in Hk as [Hk|Hk]; [by rewrite Hk in *|]). by apply not_elem_of_nil in Hk. }
      rewrite E64 in Hin. by rewrite bool_decide_true. }
  assert (forall i t, tasks d' !! i = Some t -> fetchable (m_arch m) t = true -> i = id /\ t = row) as Hall.
  { intros i t Hi Hft. rewrite Ht in Hi. apply lookup_insert_Some in Hi as [[<- <-]|[_ Hi]]; [done|exfalso].
    apply Hnone in Hi. unfold fetchable in Hft. apply andb_true_iff in Hft as [Hft _].
    apply andb_true_iff in Hft as [Hft _]. by apply bool_decide_eq_true in Hft. }
  assert (tasks d' !! id = Some row) as Hrow by (by rewrite Ht, lookup_insert_eq).
  assert (pinned_elsewhere (m_label m) row = false) as Hp.
  { unfold pinned_elsewhere. change (t_machine row) with (a_machine a). destruct Hm as [-> | ->]; [done|].
    by rewrite bool_decide_false, andb_false_r by naive_solver. }
  pose proof (fetch_run Hr now' mid m d') as Hs. destruct (fetch now' (mid, m) d') as [r d2].
  destruct Hs as [_ Hs]. destruct r as [[[i t']|]|]; [| |done].
  - destruct Hs as (t & (Hi & Hfi & _) & _ & -> & _). destruct (Hall _ _ Hi Hfi) as [-> ->].
    eexists. split; [reflexivity|]. done.
  - destruct Hs as [_ [Hs|(i & t & (Hi & Hfi & _) & Hpi)]].
    + apply Hs in Hrow. congruence.
    + destruct (Hall _ _ Hi Hfi) as [-> ->]. congruence.
Qed.

(** ** Rescheduling and archives *)

(** The sample is neither among the stored binaries nor in a report. *)
Definition binary_missing (sha256 : string) : Prop :=
  String.length sha256 = 64%nat /\ path_exists (binaries_path sha256) = false /\
  forall c, find_reports c sha256 = [].

Lemma path_of_missing (Hr : reliable) h d id t sid s :
  binary_missing h -> samples d !! sid = Some s -> s_sha256 s = h ->
  tasks d !! id = Some t -> t_sample_id t = Some sid -> t_target t <> EmptyString -> path_exists (t_target t) = true ->
  exists d', sample_path_by_hash h d = (Ok None, d') /\ tasks d' = tasks d /\ samples d' = samples d.
Proof.
  intros (Hl & Hp & Hrep) Hs Hh Ht Hsid Hne Hex. exists (tick (tick d)). split; [|done].
  unfold sample_path_by_hash, hash_column, scatch. rewrite Hl, (sbind_ok _ _ _ _ _ (query_fine Hr _ _)).
  assert (forall o, o = first (fun s => bool_decide (s_sha256 s = h)) (ticks d) (samples d) ->
    match o with Some (_, s) => if path_exists (binaries_path (s_sha256 s)) then Some (binaries_path (s_sha256 s)) else None
    | None => None end = None) as Hnone.
  { intros [[j s']|] Ho; [|done]. symmetry in Ho. apply first_Some in Ho as [_ Ho].
    apply bool_decide_eq_true in Ho. by rewrite Ho, Hp. }
  rewrite (Hnone _ eq_refl), !Hrep. cbn [search_reports].
  rewrite (sbind_ok _ _ _ _ _ (query_fine Hr _ _)). cbn [tasks samples tick].
  match goal with |- context [filter ?P ?l] => assert (t_target t ∈ filter P l) as Hin end.
  { apply list_elem_of_filter. split; [done|]. apply list_elem_of_fmap. exists (id, t). split; [done|].
    apply select_spec. split; [done|]. rewrite Hsid. simpl. rewrite Hs. by apply bool_decide_eq_true. }
  destruct (filter _ _); [by apply not_elem_of_nil in Hin|]. done.
Qed.

(** Rescheduling can lose a task: when its sample is only at the path it was submitted
    from, [sample_path_by_hash] finds nothing, the list comprehension over its result
    raises [TypeError], and the old task is already marked as recovered while no new one
    exists. *)
Theorem reschedule_loses_task (Hr : reliable) now id t sid s d :
  tasks d !! id = Some t -> t_category t <> CUrl -> t_sample_id t = Some sid -> samples d !! sid = Some s ->
  binary_missing (s_sha256 s) -> t_target t <> EmptyString -> path_exists (t_target t) = true ->
  (reschedule now id d).1 = Raise TypeError /\
  tasks (reschedule now id d).2 = <[id := with_status TASK_RECOVERED t]> (tasks d).
Proof.
  intros Ht Hc Hsid Hs Hm Hne Hex. unfold reschedule, view_task.
  rewrite (sbind_ok _ _ _ _ _ (try_sql_ok _ _ _ _ _ (query_fine Hr _ _))). cbn beta. rewrite Ht.
  rewrite (sbind_ok _ _ _ _ _ (query_fine Hr _ _)). cbn [tasks tick]. rewrite Ht.
  set (d3 := set_tasks (alter (with_status TASK_RECOVERED) id) (tick (tick (tick d)))).
  rewrite (sbind_ok _ _ _ true d3).
  2:{ apply try_sql_ok. by rewrite (sbind_ok _ _ _ _ _ (commit_fine Hr _ _)). }
  cbn [negb]. unfold _ensure_valid_target. rewrite decide_False by done.
  assert (tasks d3 !! id = Some (with_status TASK_RECOVERED t)) as Ht3.
  { unfold d3. simpl. by rewrite lookup_alter_eq, Ht. }
  destruct (path_of_missing Hr (s_sha256 s) (tick d3) id (with_status TASK_RECOVERED t) sid s) as (d4 & E & Et & _);
    try done.
  unfold sbind. rewrite (query_fine Hr). cbn [samples d3 set_tasks tick]. rewrite Hsid. simpl. rewrite Hs.
  fold d3. rewrite E. simpl. split; [done|]. rewrite Et. unfold d3. simpl. by apply alter_present.
Qed.

Lemma add_path_some now path a d id d' :
  add_path now path a d = (Ok (Some id), d') -> exists t, stored d d' id t /\ t_package t = a_package a.
Proof.
  unfold add_path. intros E. destruct (_ || _); [by sql_run|].
  apply add_some in E as (target & started & sid & Hs). eexists. split; [exact Hs|]. done.
Qed.

(** One round of the loop over an archive without static extraction. *)
Lemma demux_file_plain now a parent f s d s' d' :
  a_static a = false -> ds_config s = None -> demux_file now a false parent f s d = (Ok s', d') ->
  exists b id, add_path now f b d = (Ok id, d') /\ a_package b = identify_package (ds_package s) f /\
    ds_package s' = identify_package (ds_package s) f /\ ds_config s' = None /\
    ds_task_ids s' = ds_task_ids s ++ some_truthy id.
Proof.
  intros Hst Hc E. unfold demux_file in E. rewrite Hst in E.
  apply sbind_inv in E as [(s1 & d1 & E1 & E)|(? & _ & ?)]; [|done]. unfold sret in E1. simplify_eq.
  rewrite Hc in E. cbn [is_none andb negb] in E.
  apply sbind_inv in E as [(s2 & d2 & E2 & E)|(? & _ & ?)]; [|done].
  apply sbind_inv in E2 as [(id & d3 & E3 & E2)|(? & _ & ?)]; [|done].
  unfold sret in E, E2. simplify_eq/=. eexists _, id. split; [exact E3|]. done.
Qed.

(** The package identified for one file of an archive is used for the files after it:
    when the first of two files is identified, the task of the second gets the same
    package, whatever the second file is. *)
Theorem demux_package_leaks now path a f1 f2 p d id1 id2 c d' :
  a_package a = EmptyString -> a_static a = false -> a_platform a <> VStr "linux" ->
  demux_sample path EmptyString (a_options a) = [f1; f2] -> get_options (a_options a) !! "file"%string = None ->
  sflock_identify f1 = Some p -> p <> EmptyString -> p ∈ sandbox_packages ->
  demux_sample_and_add_to_db now path a false d = (Ok ([id1; id2], c), d') ->
  exists t1 t2, tasks d' !! id1 = Some t1 /\ tasks d' !! id2 = Some t2 /\
    t_package t1 = p /\ t_package t2 = p.
Proof.
  intros Hp Hst Hpl Hdm Hopt Hid Hne Hin E. unfold demux_sample_and_add_to_db in E.
  rewrite bool_decide_false, Hp, Hdm in E by done. cbv zeta in E.
  unfold select_runfile in E. rewrite Hopt in E. cbn [demux_files] in E.
  apply sbind_inv in E as [(parent & d0 & _ & E)|(? & _ & ?)]; [|done].
  apply sbind_inv in E as [(s & d1 & E1 & E)|(? & _ & ?)]; [|done]. unfold sret in E. simplify_eq.
  apply sbind_inv in E1 as [(s1 & d2 & E1 & E)|(? & _ & ?)]; [|done].
  apply sbind_inv in E as [(s2 & d3 & E2 & E)|(? & _ & ?)]; [|done]. unfold sret in E. simplify_eq.
  apply demux_file_plain in E1 as (b1 & i1 & A1 & P1 & Q1 & C1 & I1); [|done..].
  apply demux_file_plain in E2 as (b2 & i2 & A2 & P2 & Q2 & C2 & I2); [|done..].
  assert (identify_package EmptyString f1 = p) as Hi1.
  { unfold identify_package. rewrite bool_decide_true, Hid, bool_decide_true by done. done. }
  cbn [ds_package ds_task_ids app] in *. rewrite Hi1 in *. rewrite Q1 in P2.
  assert (identify_package p f2 = p) as Hi2 by (unfold identify_package; by rewrite bool_decide_false).
  rewrite Hi2 in P2. rewrite I1 in I2.
  assert (i1 = Some id1 /\ i2 = Some id2) as [-> ->].
  { rewrite I2 in *. unfold some_truthy, nonzero in *.
    destruct i1 as [[| |]|], i2 as [[| |]|]; simplify_eq/=; done. }
  apply add_path_some in A1 as (t1 & (N1 & T1) & K1). apply add_path_some in A2 as (t2 & (N2 & T2) & K2).
  exists t1, t2. rewrite T2. rewrite T1 in N2 |- *. apply lookup_insert_None in N2 as [_ Hn].
  rewrite lookup_insert_eq, lookup_insert_ne, lookup_insert_eq by done. split_and!; congruence.
Qed.

End changes.

(** ** Witnesses *)

Lemma submission_invariant_witness :
  let B := always_fine in let E := example_env in
  queue_ok (add_path 5 "/tmp/a.zip" default_args empty_db).2 /\ queue_ok (add_url 5 "/tmp/a.zip" default_args empty_db).2 /\
  queue_ok (add_pcap 5 "/tmp/a.zip" default_args empty_db).2 /\ queue_ok (add_static 5 "/tmp/a.zip" default_args empty_db).2 /\
  queue_ok (demux_sample_and_add_to_db 5 "/tmp/a.zip" default_args false empty_db).2 /\
  queue_ok (reschedule 5 1 empty_db).2.
Proof.
  intros B E. apply submission_invariant. intros i t Ht. simpl in Ht. by rewrite lookup_empty in Ht.
Defined.

Lemma url_submission_drops_witness :
  let B := always_fine in let E := example_env in
  exists t, stored empty_db (add_url 5 "http://a" default_args empty_db).2 1 t /\ t_status t = TASK_PENDING /\
    t_target t = "http://a"%string /\ t_tlp t = VNone /\ t_tags t = ["x64"; "x86"]%string /\
    t_user_id t = VInt 0.
Proof. intros B E. eapply (url_submission_drops 5 "http://a" default_args). vm_compute. reflexivity. Defined.

Definition pcap_args : submit_args :=
  {| a_timeout := Some 0; a_package := ""; a_options := Some ""%string; a_priority := Some 1; a_custom := VStr "";
     a_machine := Some ""%string; a_platform := VStr ""; a_tags := None; a_memory := false;
     a_enforce_timeout := false; a_clock := ClockNone; a_shrike_url := VNone; a_shrike_msg := VNone;
     a_shrike_sid := VNone; a_shrike_refer := VNone; a_parent_id := VNone; a_sample_parent_id := VNone;
     a_tlp := VStr "amber"; a_static := false; a_source_url := VBool false; a_route := VNone; a_cape := VBool false;
     a_tags_tasks := VBool false; a_user_id := VInt 7; a_username := VStr "analyst" |}.

Lemma pcap_arguments_shift_witness :
  let B := always_fine in let E := example_env in
  exists t, stored empty_db (add_pcap 5 "/tmp/x.pcap" pcap_args empty_db).2 1 t /\ t_tlp t = VInt 7 /\
    t_user_id t = VInt 0 /\ t_username t = VBool false.
Proof. intros B E. eapply (pcap_arguments_shift 5 "/tmp/x.pcap" pcap_args). vm_compute. reflexivity. Defined.

Lemma submission_is_fetchable_witness :
  let B := always_fine in let E := example_env in
  exists t', (fetch 9 win10 (add_path 5 "/tmp/x64.exe" default_args empty_db).2).1 = Ok (Some (1, t')) /\
    t_status t' = TASK_RUNNING /\ t_package t' = ""%string /\ t_options t' = Some ""%string.
Proof.
  intros B E. eapply (submission_is_fetchable always_fine_reliable 5 "/tmp/x64.exe" default_args ""%string empty_db).
  - vm_compute. reflexivity.
  - intros i t Ht. simpl in Ht. by rewrite lookup_empty in Ht.
  - reflexivity.
  - reflexivity.
  - by left.
  - vm_compute. reflexivity.
Defined.

Lemma reschedule_loses_task_witness :
  let B := always_fine in let E := example_env in
  (reschedule 9 4 example_db).1 = Raise TypeError /\
  tasks (reschedule 9 4 example_db).2
    = <[4 := with_status TASK_RECOVERED (example_task 1 4 None None ["x86"%string] TASK_RECOVERED)]> (tasks example_db).
Proof.
  intros B E. apply (reschedule_loses_task always_fine_reliable 9 4 _ 1 example_sample); try reflexivity; try done.
Defined.

Lemma demux_package_leaks_witness :
  let B := always_fine in let E := example_env in
  let d' := (demux_sample_and_add_to_db 5 "/tmp/a.zip" default_args false empty_db).2 in
  exists t1 t2, tasks d' !! 1 = Some t1 /\ tasks d' !! 2 = Some t2 /\ t_package t1 = "dll"%string /\
    t_package t2 = "dll"%string.
Proof.
  intros B E d'.
  apply (demux_package_leaks 5 "/tmp/a.zip" default_args "/tmp/a.dll" "/tmp/b.pdf" "dll" empty_db 1 2 None d');
    [done|done|done|reflexivity|reflexivity|reflexivity|done|unfold sandbox_packages; set_solver|].
  vm_compute. reflexivity.
Defined.
