(* ===== verification/Dist.v ===== *)
(** The distributed scheduler, utils/dist.py with lib/cuckoo/common/dist_db.py:
    the table of distributed tasks, their submission to the nodes, the fetching
    of the reports, and the cleaning of the nodes. The database of the
    scheduler is taken not to fail; the main database may (Database.v). *)
From S2P Require Import Prelude Database TaskQueue ProcessLog Submission.
Open Scope string_scope.
Open Scope list_scope.
Open Scope Z_scope.

(** ** The database of the scheduler (dist_db.py) *)

Record dist_node := {
  n_name : string; n_url : string; n_apikey : string; n_enabled : bool; n_last_check : option Z }.
Record dist_vm := { vm_node : Z; vm_name : string; vm_platform : string; vm_tags : list string }.
Record dist_task := {
  d_path : string; d_category : Database.category; d_package : string; d_timeout : pyval; d_priority : Z; d_options : string;
  d_machine : option string; d_platform : pyval; d_route : pyval; d_tags : string; d_custom : pyval; d_memory : bool;
  d_clock : Z; d_enforce_timeout : bool;
  d_node_id : option Z; d_task_id : option Z; d_main_task_id : option Z;
  d_finished : bool; d_retrieved : bool; d_notificated : bool; d_deleted : bool }.

(** ** The other machines *)

(** A task in the list of a node: its id there, and when it was completed, if
    that is a date. *)
Record listed_task := { r_id : Z; r_completed_on : option Z }.
(** The answer of a node to a submission: [r_ok] is [status_code < 400]; in
    the JSON the list of the ids, which may be null, and [task_id]. *)
Inductive ids_field := NoIds | NullIds | SomeIds (l : list Z).
Record submit_answer := { sa_code : Z; sa_json : res (ids_field * Z) }.
(** The tasks of a node, as its status counts them. *)
Record node_counts := { completed_tasks : Z; pending_tasks : Z; running_tasks : Z }.
Inductive endpoint := CreateFile | CreateFileNoAuth | CreateUrl | CreateStatic.

(** Requests to the nodes, the callbacks, and the files of the host; any of
    them may raise. [ExternalError] is the exception of pyzipper for a report
    that is no zip file. *)
Class dist_net (W : Type) := {
  dist_now : W -> Z;
  http_create : dist_node -> endpoint -> dist_task -> st W submit_answer;
  http_status : dist_node -> st W (option node_counts);
  http_list : dist_node -> string -> option Z -> st W (Z * res (list listed_task));
  http_report : dist_node -> Z -> st W (Z * bytes);
  http_delete_many : dist_node -> string -> st W Z;
  http_callback : string -> Z -> st W bool;
  on_disk : string -> W -> bool;
  open_file : string -> st W unit;
  http_machines : dist_node -> st W (list (string * string * list string));
  copy_report : Z -> dist_node -> Z -> st W bool;
  report_folder : Z -> st W unit;
  unzip_to : Z -> bytes -> st W unit;
  keep_sample : string -> Z -> st W unit;
  drop_report : Z -> st W unit }.

(** The state that the threads share. *)
Record dist (W : Type) := {
  drows : gmap Z dist_task; dnodes : gmap Z dist_node; dvms : list dist_vm; main_db : Database; dworld : W; cleaner_queue : list
  (Z * Z); fetcher_queue : list (listed_task * Z); current_queue : gmap Z (list Z); t_is_none : gmap Z (list Z); last_checks : gmap
  string Z; dead_checks : gmap string Z; server_tags : gmap string (list string); statuses : list (string * node_counts);
  failed_count : gmap string Z; minimum_queue : gmap string nat }.
Arguments drows {W} _. Arguments dnodes {W} _. Arguments dvms {W} _. Arguments main_db {W} _. Arguments dworld {W} _.
Arguments cleaner_queue {W} _. Arguments fetcher_queue {W} _. Arguments current_queue {W} _. Arguments t_is_none {W} _.
Arguments last_checks {W} _. Arguments dead_checks {W} _. Arguments server_tags {W} _. Arguments statuses {W} _.
Arguments failed_count {W} _. Arguments minimum_queue {W} _.

Section dist_state.
Context {W : Type} `{SqlBackend} `{dist_net W}.
Definition on_drows (f : gmap Z dist_task -> gmap Z dist_task) (s : dist W) : dist W :=
  {| drows := f (drows s); dnodes := dnodes s; dvms := dvms s; main_db := main_db s; dworld := dworld s; cleaner_queue := cleaner_queue s;
     fetcher_queue := fetcher_queue s; current_queue := current_queue s; t_is_none := t_is_none s; last_checks := last_checks s; dead_checks
     := dead_checks s; server_tags := server_tags s; statuses := statuses s; failed_count := failed_count s; minimum_queue := minimum_queue
     s |}.
Definition on_dnodes (f : gmap Z dist_node -> gmap Z dist_node) (s : dist W) : dist W :=
  {| drows := drows s; dnodes := f (dnodes s); dvms := dvms s; main_db := main_db s; dworld := dworld s; cleaner_queue := cleaner_queue s;
     fetcher_queue := fetcher_queue s; current_queue := current_queue s; t_is_none := t_is_none s; last_checks := last_checks s; dead_checks
     := dead_checks s; server_tags := server_tags s; statuses := statuses s; failed_count := failed_count s; minimum_queue := minimum_queue
     s |}.
Definition on_dvms (f : list dist_vm -> list dist_vm) (s : dist W) : dist W :=
  {| drows := drows s; dnodes := dnodes s; dvms := f (dvms s); main_db := main_db s; dworld := dworld s; cleaner_queue := cleaner_queue s;
     fetcher_queue := fetcher_queue s; current_queue := current_queue s; t_is_none := t_is_none s; last_checks := last_checks s; dead_checks
     := dead_checks s; server_tags := server_tags s; statuses := statuses s; failed_count := failed_count s; minimum_queue := minimum_queue
     s |}.
Definition on_main_db (f : Database -> Database) (s : dist W) : dist W :=
  {| drows := drows s; dnodes := dnodes s; dvms := dvms s; main_db := f (main_db s); dworld := dworld s; cleaner_queue := cleaner_queue s;
     fetcher_queue := fetcher_queue s; current_queue := current_queue s; t_is_none := t_is_none s; last_checks := last_checks s; dead_checks
     := dead_checks s; server_tags := server_tags s; statuses := statuses s; failed_count := failed_count s; minimum_queue := minimum_queue
     s |}.
Definition on_dworld (f : W -> W) (s : dist W) : dist W :=
  {| drows := drows s; dnodes := dnodes s; dvms := dvms s; main_db := main_db s; dworld := f (dworld s); cleaner_queue := cleaner_queue s;
     fetcher_queue := fetcher_queue s; current_queue := current_queue s; t_is_none := t_is_none s; last_checks := last_checks s; dead_checks
     := dead_checks s; server_tags := server_tags s; statuses := statuses s; failed_count := failed_count s; minimum_queue := minimum_queue
     s |}.
Definition on_cleaner_queue (f : list (Z * Z) -> list (Z * Z)) (s : dist W) : dist W :=
  {| drows := drows s; dnodes := dnodes s; dvms := dvms s; main_db := main_db s; dworld := dworld s; cleaner_queue := f (cleaner_queue s);
     fetcher_queue := fetcher_queue s; current_queue := current_queue s; t_is_none := t_is_none s; last_checks := last_checks s; dead_checks
     := dead_checks s; server_tags := server_tags s; statuses := statuses s; failed_count := failed_count s; minimum_queue := minimum_queue
     s |}.
Definition on_fetcher_queue (f : list (listed_task * Z) -> list (listed_task * Z)) (s : dist W) : dist W :=
  {| drows := drows s; dnodes := dnodes s; dvms := dvms s; main_db := main_db s; dworld := dworld s; cleaner_queue := cleaner_queue s;
     fetcher_queue := f (fetcher_queue s); current_queue := current_queue s; t_is_none := t_is_none s; last_checks := last_checks s;
     dead_checks := dead_checks s; server_tags := server_tags s; statuses := statuses s; failed_count := failed_count s; minimum_queue :=
     minimum_queue s |}.
Definition on_current_queue (f : gmap Z (list Z) -> gmap Z (list Z)) (s : dist W) : dist W :=
  {| drows := drows s; dnodes := dnodes s; dvms := dvms s; main_db := main_db s; dworld := dworld s; cleaner_queue := cleaner_queue s;
     fetcher_queue := fetcher_queue s; current_queue := f (current_queue s); t_is_none := t_is_none s; last_checks := last_checks s;
     dead_checks := dead_checks s; server_tags := server_tags s; statuses := statuses s; failed_count := failed_count s; minimum_queue :=
     minimum_queue s |}.
Definition on_t_is_none (f : gmap Z (list Z) -> gmap Z (list Z)) (s : dist W) : dist W :=
  {| drows := drows s; dnodes := dnodes s; dvms := dvms s; main_db := main_db s; dworld := dworld s; cleaner_queue := cleaner_queue s;
     fetcher_queue := fetcher_queue s; current_queue := current_queue s; t_is_none := f (t_is_none s); last_checks := last_checks s;
     dead_checks := dead_checks s; server_tags := server_tags s; statuses := statuses s; failed_count := failed_count s; minimum_queue :=
     minimum_queue s |}.
Definition on_last_checks (f : gmap string Z -> gmap string Z) (s : dist W) : dist W :=
  {| drows := drows s; dnodes := dnodes s; dvms := dvms s; main_db := main_db s; dworld := dworld s; cleaner_queue := cleaner_queue s;
     fetcher_queue := fetcher_queue s; current_queue := current_queue s; t_is_none := t_is_none s; last_checks := f (last_checks s);
     dead_checks := dead_checks s; server_tags := server_tags s; statuses := statuses s; failed_count := failed_count s; minimum_queue :=
     minimum_queue s |}.
Definition on_dead_checks (f : gmap string Z -> gmap string Z) (s : dist W) : dist W :=
  {| drows := drows s; dnodes := dnodes s; dvms := dvms s; main_db := main_db s; dworld := dworld s; cleaner_queue := cleaner_queue s;
     fetcher_queue := fetcher_queue s; current_queue := current_queue s; t_is_none := t_is_none s; last_checks := last_checks s; dead_checks
     := f (dead_checks s); server_tags := server_tags s; statuses := statuses s; failed_count := failed_count s; minimum_queue :=
     minimum_queue s |}.
Definition on_server_tags (f : gmap string (list string) -> gmap string (list string)) (s : dist W) : dist W :=
  {| drows := drows s; dnodes := dnodes s; dvms := dvms s; main_db := main_db s; dworld := dworld s; cleaner_queue := cleaner_queue s;
     fetcher_queue := fetcher_queue s; current_queue := current_queue s; t_is_none := t_is_none s; last_checks := last_checks s; dead_checks
     := dead_checks s; server_tags := f (server_tags s); statuses := statuses s; failed_count := failed_count s; minimum_queue :=
     minimum_queue s |}.
Definition on_statuses (f : list (string * node_counts) -> list (string * node_counts)) (s : dist W) : dist W :=
  {| drows := drows s; dnodes := dnodes s; dvms := dvms s; main_db := main_db s; dworld := dworld s; cleaner_queue := cleaner_queue s;
     fetcher_queue := fetcher_queue s; current_queue := current_queue s; t_is_none := t_is_none s; last_checks := last_checks s; dead_checks
     := dead_checks s; server_tags := server_tags s; statuses := f (statuses s); failed_count := failed_count s; minimum_queue :=
     minimum_queue s |}.
Definition on_failed_count (f : gmap string Z -> gmap string Z) (s : dist W) : dist W :=
  {| drows := drows s; dnodes := dnodes s; dvms := dvms s; main_db := main_db s; dworld := dworld s; cleaner_queue := cleaner_queue s;
     fetcher_queue := fetcher_queue s; current_queue := current_queue s; t_is_none := t_is_none s; last_checks := last_checks s; dead_checks
     := dead_checks s; server_tags := server_tags s; statuses := statuses s; failed_count := f (failed_count s); minimum_queue :=
     minimum_queue s |}.
Definition on_minimum_queue (f : gmap string nat -> gmap string nat) (s : dist W) : dist W :=
  {| drows := drows s; dnodes := dnodes s; dvms := dvms s; main_db := main_db s; dworld := dworld s; cleaner_queue := cleaner_queue s;
     fetcher_queue := fetcher_queue s; current_queue := current_queue s; t_is_none := t_is_none s; last_checks := last_checks s; dead_checks
     := dead_checks s; server_tags := server_tags s; statuses := statuses s; failed_count := failed_count s; minimum_queue := f
     (minimum_queue s) |}.

(** A call of the main database, and of the world. *)
Definition in_main {A} (m : Z -> st Database A) : st (dist W) A := fun s =>
  let '(r, d) := m (dist_now (dworld s)) (main_db s) in (r, on_main_db (fun _ => d) s).
Definition world_call {A} (m : st W A) : st (dist W) A := fun s => let '(r, w) := m (dworld s) in (r, on_dworld (fun _ => w) s).
Definition main_status (o : option Z) (t : task_status) : st (dist W) unit :=
  match o with Some id => in_main (fun now => set_status now id t) | None => sret tt end.
Definition alter_row (id : Z) (f : dist_task -> dist_task) : st (dist W) unit := smodify (on_drows (alter f id)).
(** [try: m except Exception: k], for anything Python may raise. *)
Definition try_all {A} (m k : st (dist W) A) : st (dist W) A := scatch m (fun e => if decide (e ∈ [OutOfFuel; Blocked]) then None else Some k).

(** The rows of a query, in the order of their ids or the other way round. *)
Definition rows_asc (p : dist_task -> bool) (s : dist W) : list (Z * dist_task) :=
  merge_sort (holds2 (fun a b : Z * dist_task => a.1 <=? b.1)) (filter (fun r => p r.2 = true) (map_to_list (drows s))).
Definition last_row (p : dist_task -> bool) (s : dist W) : option (Z * dist_task) := last (rows_asc p s).
(** A row that waits for its report. *)
Definition waiting (node_id task_id : Z) (t : dist_task) : bool :=
  bool_decide (d_node_id t = Some node_id) && bool_decide (d_task_id t = Some task_id) && negb (d_retrieved t) && negb (d_finished t).

(** ** Updates of a row *)

Definition row_flags (finished retrieved notificated deleted : bool) (t : dist_task) : dist_task :=
  {| d_path := d_path t; d_category := d_category t; d_package := d_package t; d_timeout := d_timeout t; d_priority := d_priority t;
     d_options := d_options t; d_machine := d_machine t; d_platform := d_platform t; d_route := d_route t; d_tags := d_tags t;
     d_custom := d_custom t; d_memory := d_memory t; d_clock := d_clock t; d_enforce_timeout := d_enforce_timeout t;
     d_node_id := d_node_id t; d_task_id := d_task_id t; d_main_task_id := d_main_task_id t;
     d_finished := finished; d_retrieved := retrieved; d_notificated := notificated; d_deleted := deleted |}.
Definition row_sent (tags : string) (node_id task_id : option Z) (t : dist_task) : dist_task :=
  {| d_path := d_path t; d_category := d_category t; d_package := d_package t; d_timeout := d_timeout t; d_priority := d_priority t;
     d_options := d_options t; d_machine := d_machine t; d_platform := d_platform t; d_route := d_route t; d_tags := tags;
     d_custom := d_custom t; d_memory := d_memory t; d_clock := d_clock t; d_enforce_timeout := d_enforce_timeout t;
     d_node_id := node_id; d_task_id := task_id; d_main_task_id := d_main_task_id t;
     d_finished := d_finished t; d_retrieved := d_retrieved t; d_notificated := d_notificated t; d_deleted := d_deleted t |}.
Definition retrieved_row (t : dist_task) : dist_task := row_flags true true (d_notificated t) (d_deleted t) t.

(** ** Deleting on the nodes *)

(** [nodes] is the table as the caller read it; the answer is whether the
    session of the caller was rolled back. A response of 400 or more is false. *)
Definition _delete_many (nodes : gmap Z dist_node) (node_id : Z) (ids : list string) : st (dist W) bool := fun s =>
  match nodes !! node_id with
  | None => (Raise KeyError, s)
  | Some node =>
      if bool_decide (n_name node = "master") then (Ok false, s)
      else try_all (let* code := world_call (http_delete_many node (String.concat "," ids)) in
                    sret ((code <? 400) && negb (code =? 200))) (sret true) s
  end.

(** [if (node_id, task_id) not in queue: queue.put(...)]. *)
Definition put_once (node_id task_id : Z) : st (dist W) unit :=
  smodify (on_cleaner_queue (fun q => if bool_decide ((node_id, task_id) ∈ q) then q else q ++ [(node_id, task_id)])).
Definition put_always (node_id task_id : Z) : st (dist W) unit := smodify (on_cleaner_queue (fun q => q ++ [(node_id, task_id)])).

(** One round of [remove_from_worker]: the queue by node, in the order the
    nodes first appear; the ids of a node are a set. *)
Definition group_step (details : list (Z * list Z)) (e : Z * Z) : list (Z * list Z) :=
  (fix go l := match l with
     | [] => [(e.1, [e.2])]
     | (n, ids) :: l' => if bool_decide (n = e.1) then (n, ids ++ [e.2]) :: l' else (n, ids) :: go l'
     end) details.
Definition remove_one (x : Z) (l : list Z) : list Z :=
  (fix go l := match l with [] => [] | y :: l' => if bool_decide (x = y) then l' else y :: go l' end) l.
Fixpoint delete_all (nodes : gmap Z dist_node) (details : list (Z * list Z)) : st (dist W) unit :=
  match details with
  | [] => sret tt
  | (n, ids) :: l => let* _ := _delete_many nodes n (str_int <$> remove_dups ids) in delete_all nodes l
  end.
Definition remove_round (nodes : gmap Z dist_node) : st (dist W) unit := fun s =>
  let q := cleaner_queue s in
  let s := on_cleaner_queue (fun _ => []) s in
  let s := on_t_is_none (fun m => fold_left (fun m e => alter (remove_one e.2) e.1 m) q m) s in
  delete_all nodes (fold_left group_step q []) s.

(** ** Fetching the reports *)

(** [node_fetch_tasks]: [[]] when the node cannot be asked. *)
Definition node_fetch_tasks (status : string) (node : dist_node) (since : option Z) : st (dist W) (list listed_task) :=
  try_all (let* r := world_call (http_list node status since) in
           if r.1 <? 400 then slift r.2 else sret [])
          (sret []).

(** [(task["id"], node.id) not in fetcher_queue.queue]: the queue holds pairs
    of a task and a node, and a number is no task. *)
Definition same_entry (k : Z * Z) (e : listed_task * Z) : bool := false.
Definition count_failure (name : string) : st (dist W) unit := smodify (on_dead_checks (fun m => <[name := default 0 (m !! name) + 1]> m)).
Definition note_check (node_id completed : Z) : st (dist W) unit :=
  smodify (on_dnodes (alter (fun n =>
    if match n_last_check n with None => true | Some c => c <? completed end
    then {| n_name := n_name n; n_url := n_url n; n_apikey := n_apikey n; n_enabled := n_enabled n; n_last_check := Some completed |} else n) node_id)).
(** One reported task of a node: what is left of the limit. *)
Definition fetch_step (node_id : Z) (name : string) (task : listed_task) (limit : nat) : st (dist W) nat := fun s =>
  match last_row (fun t => waiting node_id (r_id task) t && negb (d_deleted t)) s with
  | None => (do* put_always node_id (r_id task) in sret limit) s
  | Some _ =>
      if negb (bool_decide (r_id task ∈ default [] (current_queue s !! node_id))) && negb (existsb (same_entry (r_id task, node_id)) (fetcher_queue s)) then
        (do* smodify (on_fetcher_queue (fun q => q ++ [(task, node_id)])) in
         match r_completed_on task with
         | None => do* count_failure name in sret (S limit)
         | Some c => do* note_check node_id c in sret (S limit)
         end) s
      else (Ok limit, s)
  end.
(** The loop ends behind the 50th task whose date can be read. *)
Fixpoint fetch_tasks (node_id : Z) (name : string) (tasks : list listed_task) (limit : nat) : st (dist W) unit :=
  match tasks with
  | [] => sret tt
  | task :: tasks' =>
      let* limit' := fetch_step node_id name task limit in
      if bool_decide (limit' = 50%nat /\ limit = 49%nat /\ is_Some (r_completed_on task)) then sret tt
      else fetch_tasks node_id name tasks' limit'
  end.
(** One node in one round of [fetcher]; every third time all tasks are asked for. *)
Definition fetch_node (node_id : Z) : st (dist W) unit := fun s =>
  match dnodes s !! node_id with
  | None => (Ok tt, s)
  | Some node =>
      if n_enabled node then
        let s := on_dead_checks (fun m => if decide (is_Some (m !! n_name node)) then m else <[n_name node := 0]> m) s in
        let n := default 0 (last_checks s !! n_name node) + 1 in
        let s := on_last_checks (<[n_name node := if n =? 3 then 0 else n]>) s in
        let since := if n =? 3 then 0 else default 0 (n_last_check node) in
        (let* tasks := node_fetch_tasks "reported" node (Some since) in fetch_tasks node_id (n_name node) tasks 0) s
      else (Ok tt, s)
  end.

(** The end of an iteration that is reached: the task is no longer current. *)
Definition release_current (node_id task_id : Z) : st (dist W) unit := smodify (on_current_queue (alter (remove_one task_id) node_id)).
(** [node_get_report]. *)
Definition node_get_report (task_id : Z) (node : dist_node) : st (dist W) (option (Z * bytes)) :=
  try_all (let* r := world_call (http_report node task_id) in sret (Some r)) (sret None).
(** The report as a zip file; whatever is wrong with the files on the host but
    [OSError] while unpacking leaves the row as it is. *)
Definition unpack_report (node_id : Z) (id : Z) (t : dist_task) (main_id task_id : Z) (content : bytes) : st (dist W) unit :=
  scatch
    (if bool_decide (content = []) then sret tt
     else
       do* scatch (do* world_call (unzip_to main_id content) in put_once node_id task_id)
             (fun e => if decide (e = OSError) then Some (sret tt) else None) in
       do* (fun s => if on_disk (d_path t) (dworld s) then world_call (keep_sample (d_path t) main_id) s else (Ok tt, s)) in
       alter_row id retrieved_row)
    (fun e => if decide (e ∈ [OutOfFuel; Blocked]) then None
              else if decide (e = ExternalError) then Some (sret tt) else Some (world_call (drop_report main_id))).
(** One iteration of [fetch_latest_reports]: does it reach its end, or does a
    [continue] skip it? *)
Definition fetch_report (node_id task_id : Z) : st (dist W) bool := fun s =>
  match last_row (waiting node_id task_id) s with
  | None =>
      (do* smodify (on_t_is_none (fun m => <[node_id := default [] (m !! node_id) ++ [task_id]]> m)) in
       do* put_once node_id task_id in sret false) s
  | Some (id, t) =>
      (do* main_status (d_main_task_id t) TASK_DISTRIBUTED_COMPLETED in
       do* main_status (d_main_task_id t) TASK_REPORTED in
       fun s =>
         match dnodes s !! node_id with
         | None => (Raise AttributeError, s)
         | Some node =>
             (let* report := node_get_report task_id node in
              match report with
              | None => sret false
              | Some (code, content) =>
                  if bool_decide (code <> 200) then do* (if code =? 400 then put_once node_id task_id else sret tt) in sret false
                  else
                    do* world_call (report_folder (default 0 (d_main_task_id t))) in
                    do* unpack_report node_id id t (default 0 (d_main_task_id t)) task_id content in sret true
              end) s
         end) s
  end.
(** The same with the storage of the nodes mounted here. *)
Definition fetch_report_nfs (node_id task_id : Z) : st (dist W) bool := fun s =>
  match last_row (waiting node_id task_id) s with
  | None =>
      (do* smodify (on_t_is_none (fun m => <[node_id := default [] (m !! node_id) ++ [task_id]]> m)) in
       do* put_once node_id task_id in sret false) s
  | Some (id, t) =>
      (do* main_status (d_main_task_id t) TASK_DISTRIBUTED_COMPLETED in
       do* main_status (d_main_task_id t) TASK_REPORTED in
       fun s =>
         match dnodes s !! node_id with
         | None => (Raise AttributeError, s)
         | Some node =>
             (let* copied := world_call (copy_report task_id node (default 0 (d_main_task_id t))) in
              if copied : bool then
                do* (fun s => if on_disk (d_path t) (dworld s) then world_call (keep_sample (d_path t) (default 0 (d_main_task_id t))) s
                              else (Ok tt, s)) in
                do* alter_row id retrieved_row in sret true
              else sret false) s
         end) s
  end.
Definition fetch_iteration (nfs : bool) : st (dist W) unit := fun s =>
  match fetcher_queue s with
  | [] => (Raise Blocked, s)
  | (task, node_id) :: q =>
      (do* smodify (on_fetcher_queue (fun _ => q)) in
       do* smodify (on_current_queue (fun m => <[node_id := default [] (m !! node_id) ++ [r_id task]]> m)) in
       let* at_end := try_all ((if nfs then fetch_report_nfs else fetch_report) node_id (r_id task)) (sret true) in
       if at_end : bool then release_current node_id (r_id task) else sret tt) s
  end.

(** ** Callbacks and failed tasks *)

(** One task of [notification_loop]. *)
Fixpoint notify (id : Z) (main_id : Z) (urls : list string) : st (dist W) unit :=
  match urls with
  | [] => sret tt
  | url :: urls' =>
      do* try_all (let* ok := world_call (http_callback url main_id) in
                   if ok then alter_row id (fun t => row_flags (d_finished t) (d_retrieved t) true (d_deleted t) t) else sret tt) (sret tt) in
      notify id main_id urls'
  end.
Fixpoint notify_all (urls : list string) (l : list (Z * dist_task)) : st (dist W) unit :=
  match l with
  | [] => sret tt
  | (id, t) :: l' => do* main_status (d_main_task_id t) TASK_REPORTED in do* notify id (default 0 (d_main_task_id t)) urls in notify_all urls l'
  end.
Definition notification_round (urls : list string) : st (dist W) unit := fun s =>
  notify_all urls (reverse (rows_asc (fun t => d_finished t && d_retrieved t && negb (d_notificated t)) s)) s.

(** One failed task that a node reports, and the round of [failed_cleaner]
    for a node. *)
Definition clean_failed (node_id : Z) (task : listed_task) : st (dist W) unit := fun s =>
  match last_row (fun t => bool_decide (d_task_id t = Some (r_id task)) && bool_decide (d_node_id t = Some node_id)) s with
  | Some (id, t) =>
      (do* main_status (d_main_task_id t) TASK_FAILED_REPORTING in
       do* alter_row id (fun t => row_flags true true true (d_deleted t) t) in
       put_once node_id (r_id task)) s
  | None => put_once node_id (r_id task) s
  end.
Fixpoint clean_failed_all (node_id : Z) (l : list listed_task) : st (dist W) unit :=
  match l with [] => sret tt | t :: l' => do* clean_failed node_id t in clean_failed_all node_id l' end.
Definition failed_node (node_id : Z) : st (dist W) unit := fun s =>
  match dnodes s !! node_id with
  | Some node =>
      if n_enabled node then
        (let* a := node_fetch_tasks "failed_analysis" node None in
         do* clean_failed_all node_id a in
         let* p := node_fetch_tasks "failed_processing" node None in
         clean_failed_all node_id p) s
      else (Ok tt, s)
  | None => (Ok tt, s)
  end.

(** ** Submission to a node *)

(** [task.tags[:-1]], if the last character is a comma. *)
Definition without_comma (tags : string) : string :=
  match reverse (B tags) with c :: l => if bool_decide (c = ","%char) then text (reverse l) else tags | [] => tags end.
Definition fail_row (id : Z) (t : dist_task) : st (dist W) unit :=
  do* alter_row id (row_flags true true (d_notificated t) (d_deleted t)) in main_status (d_main_task_id t) TASK_FAILED_REPORTING.
(** The id the node gave, from the JSON of the answer. *)
Definition accepted_id (a : submit_answer) : res (option Z) :=
  let! j := sa_json a in
  match j.1 with
  | SomeIds (i :: _) => Ok (Some i)
  | NullIds => Raise TypeError
  | _ => Ok (if 0 <? j.2 then Some j.2 else None)
  end.
(** The request, or [None] when the task is given up. Connection errors of
    requests are [OSError]s. *)
Definition create_on (node : dist_node) (id : Z) (t : dist_task) : st (dist W) (option (submit_answer)) := fun s =>
  match d_category t with
  | CFile | CPcap =>
      if on_disk (d_path t) (dworld s) then
        scatch (do* world_call (open_file (d_path t)) in
                let* r := world_call (http_create node CreateFile t) in sret (Some r))
               (fun e => if decide (e = OSError) then Some (do* fail_row id t in sret None) else None) s
      else (do* fail_row id t in sret None) s
  | CUrl => (let* r := world_call (http_create node CreateUrl t) in sret (Some r)) s
  | CStatic => (do* world_call (open_file (d_path t)) in
                let* r := world_call (http_create node CreateStatic t) in sret (Some r)) s
  end.
(** A 500 for a file is answered by a second request, without the key. *)
Definition answer_of (node : dist_node) (t : dist_task) (r : submit_answer) : st (dist W) (option Z) :=
  let* r := (if bool_decide (sa_code r = 500 /\ d_category t = CFile) then
               do* world_call (open_file (d_path t)) in world_call (http_create node CreateFileNoAuth t)
             else sret r) in
  if bool_decide (sa_code r = 200) then slift (accepted_id r) else sret None.
Definition node_submit_task (id node_id : Z) : st (dist W) bool := fun s =>
  match dnodes s !! node_id with
  | None => (Raise AttributeError, s)
  | Some node =>
      if bool_decide (n_name node = "master") then (Ok false, s)
      else match drows s !! id with
      | None => (Raise AttributeError, s)
      | Some t =>
          let t := row_sent (without_comma (d_tags t)) (d_node_id t) (d_task_id t) t in
          (do* alter_row id (fun _ => t) in
           try_all
             (let* r := create_on node id t in
              match r with
              | None => sret false
              | Some r =>
                  let* task_id := answer_of node t r in
                  match task_id with
                  | Some i => do* alter_row id (row_sent (d_tags t) (Some node_id) (Some i)) in sret true
                  | None => sret false
                  end
              end)
             (sret false)) s
      end
  end.

(** ** Options and tags *)

(** A dict, in the order of its keys. *)
Fixpoint assoc_put {A} (k : string) (v : A) (d : list (string * A)) : list (string * A) :=
  match d with
  | [] => [(k, v)]
  | (k', v') :: d' => if bool_decide (k = k') then (k, v) :: d' else (k', v') :: assoc_put k v d'
  end.
Fixpoint assoc_get {A} (k : string) (d : list (string * A)) : option A :=
  match d with [] => None | (k', v) :: d' => if bool_decide (k = k') then Some v else assoc_get k d' end.
Definition assoc_del {A} (k : string) (d : list (string * A)) : list (string * A) := filter (fun kv => kv.1 <> k) d.
(** [get_options] as a dict. *)
Definition parse_option (o : string) : option (string * string) :=
  match find_byte "="%char (B o) with
  | Some n => Some (text (strip_ws (take n (B o))), text (strip_ws (drop (S n) (B o))))
  | None => None
  end.
Definition option_step (d : list (string * string)) (o : string) : list (string * string) :=
  match parse_option o with Some (k, v) => assoc_put k v d | None => d end.
Definition options_dict (o : option string) : list (string * string) :=
  if truthy o then fold_left option_step (split_on ","%char (default "" o)) [] else [].
Definition show_item (kv : string * string) : string := (kv.1 ++ "=" ++ kv.2)%string.
(** The options that go to the node. *)
Definition node_options (d : list (string * string)) (id : Z) : string :=
  let items := String.concat "," (show_item <$> (if truthy (assoc_get "node" d) then assoc_del "node" d else d)) in
  ((if bool_decide (items = "") then "" else items ++ ",") ++ "main_task_id=" ++ str_int id)%string.

(** [tags.replace(sub, "")]. *)
Fixpoint remove_sub (fuel : nat) (sub l : bytes) : bytes :=
  match fuel, l with
  | S fuel, c :: l' => if has_prefix sub l then remove_sub fuel sub (drop (length sub) l) else c :: remove_sub fuel sub l'
  | _, _ => l
  end.
Definition tags_text (names : list string) : string :=
  let tags := String.concat "," names in
  let tags := if bool_decide (tags <> "") then (tags ++ ",")%string else tags in
  if str_contains "x86" tags && str_contains "x64" tags then text (remove_sub (length (B tags)) (B "x86,") (B tags)) else tags.

(** [itertools.combinations(l, n)]. *)
Fixpoint combinations {A} (n : nat) (l : list A) {struct l} : list (list A) :=
  match n, l with
  | O, _ => [[]]
  | S _, [] => []
  | S n', x :: l' => ((cons x) <$> combinations n' l') ++ combinations n l'
  end.
Definition all_combinations {A} (l : list A) : list (list A) := seq 1 (length l) ≫= fun n => combinations n l.
Definition vm_combinations (vms : list dist_vm) (node_id : Z) : list string :=
  remove_dups (String.concat "," <$> (filter (fun m => vm_node m = node_id) vms ≫= fun m => all_combinations (vm_tags m))).
Definition load_vm_tags (node_id : Z) (name : string) : st (dist W) unit :=
  smodify (fun s => on_server_tags (<[name := vm_combinations (dvms s) node_id]>) s).

(** [LIKE]: a percent sign is any text, an underscore any character; [eq] is
    how the backend compares characters. *)
Definition PERCENT : ascii := "%"%char.
Fixpoint sql_like (eq : ascii -> ascii -> bool) (p s : bytes) : bool :=
  match p with
  | [] => bool_decide (s = [])
  | c :: p' =>
      if bool_decide (c = PERCENT) then
        (fix any (s : bytes) : bool := sql_like eq p' s || match s with [] => false | _ :: s' => any s' end) s
      else match s with
           | [] => false
           | x :: s' => (bool_decide (c = "_"%char) || eq c x) && sql_like eq p' s'
           end
  end.
(** The condition for one combination. *)
Definition combination_query (eq : ascii -> ascii -> bool) (tags : string) (tg : string) : bool :=
  match split_on ","%char tg with
  | [_] => bool_decide (tags = (tg ++ ",")%string)
  | l => sql_like eq (concat (replicate (length l) [PERCENT; ","%char])) (B tags) &&
         forallb (fun t => sql_like eq (PERCENT :: B t ++ [","%char; PERCENT]) (B tags)) l
  end.
Definition tags_query (eq : ascii -> ascii -> bool) (combos : list string) (tags : string) : bool :=
  bool_decide (tags = "") || existsb (combination_query eq tags) combos.

(** ** The submission of pending tasks *)

Record dist_cfg := { enable_tags : bool; like_eq : ascii -> ascii -> bool; dead_count : Z; master_storage_only : bool }.

Definition node_named (name : string) (s : dist W) : option (Z * dist_node) :=
  head (merge_sort (holds2 (fun a b : Z * dist_node => a.1 <=? b.1)) (filter (fun n => n_name n.2 = name) (map_to_list (dnodes s)))).
Definition sent_status (name : string) : task_status := if bool_decide (name = "master") then TASK_RUNNING else TASK_DISTRIBUTED.
Definition delete_row (id : Z) : st (dist W) unit := smodify (on_drows (delete id)).

(** Rows that no node has are deleted, and their tasks pending again. *)
Definition bad_row (t : dist_task) : bool :=
  bool_decide (d_node_id t = None) && bool_decide (d_task_id t = None) && bool_decide (is_Some (d_main_task_id t)).
Fixpoint reset_rows (l : list (Z * dist_task)) : st (dist W) unit :=
  match l with
  | [] => sret tt
  | (id, t) :: l' => do* delete_row id in do* main_status (d_main_task_id t) TASK_PENDING in reset_rows l'
  end.
Definition reset_bad : st (dist W) unit := fun s => reset_rows (rows_asc bad_row s) s.

(** The node a task asks for: [None] when the task is another node's,
    [Some true] when the node asked for is not available. *)
Definition wanted_node (names : list string) (name : string) (options : list (string * string)) : option bool :=
  let n := assoc_get "node" options in
  if truthy n then
    if bool_decide (default "" n ∈ names) then (if bool_decide (default "" n = name) then Some false else None) else Some true
  else Some false.
Definition task_timeout (t : Task) (options : list (string * string)) : pyval :=
  match t_options t with
  | Some o => if str_contains "timeout=" o then match assoc_get "timeout" options with Some v => VStr v | None => VInt 0 end else VInt (t_timeout t)
  | None => VInt (t_timeout t)
  end.
(** [options["password"]] is only read. *)
Definition password_read (t : Task) (options : list (string * string)) : res unit :=
  if str_contains "msoffice-crypt-tmp" (t_target t) then
    match t_options t with
    | None => Raise TypeError
    | Some o => if str_contains "password=" o then match assoc_get "password" options with Some _ => Ok tt | None => Raise KeyError end else Ok tt
    end
  else Ok tt.
Definition new_row (id : Z) (t : Task) (options : list (string * string)) : dist_task :=
  {| d_path := t_target t; d_category := t_category t; d_package := t_package t; d_timeout := task_timeout t options; d_priority := t_priority t;
     d_options := node_options options id; d_machine := t_machine t; d_platform := t_platform t; d_route := t_route t; d_tags := tags_text (t_tags t);
     d_custom := t_custom t; d_memory := t_memory t; d_clock := t_clock t; d_enforce_timeout := t_enforce_timeout t;
     d_node_id := None; d_task_id := None; d_main_task_id := Some id;
     d_finished := false; d_retrieved := false; d_notificated := false; d_deleted := false |}.
Fixpoint set_all (ids : list Z) (t : task_status) : st (dist W) unit :=
  match ids with [] => sret tt | id :: l => do* main_status (Some id) t in set_all l t end.
(** A pending task gets its row: [None] when it is skipped, else the id of the
    row and whether it is pushed at once. *)
Definition prepare_row (name : string) (r : Z * Task) : st (dist W) (option (Z * bool)) := fun s =>
  let '(id, t) := r in
  let options := options_dict (t_options t) in
  match wanted_node ((statuses s).*1) name options with
  | None => (Ok None, s)
  | Some force =>
      let rows := rows_asc (fun x => bool_decide (d_main_task_id x = Some id)) s in
      if bool_decide (rows <> []) then (do* set_all ((fun _ => id) <$> rows) (sent_status name) in sret None) s
      else if bool_decide (t_category t <> CUrl) && negb (on_disk (t_target t) (dworld s)) then
        (do* in_main (fun _ => delete_task id) in sret None) s
      else
        (do* slift (password_read t options) in
         fun s => let row := new_id (ticks (main_db s)) (drows s) in
                  (Ok (Some (row, force)), on_drows (<[row := new_row id t options]>) s)) s
  end.
(** The pending tasks in turn; the answer is the number that was pushed and
    whether that ends the call. *)
Fixpoint push_pending (name : string) (node_id : Z) (push : bool) (pend all : nat) (l : list (Z * Task)) (limit : nat) : st (dist W) (nat * bool) :=
  match l with
  | [] => sret (limit, false)
  | r :: l' =>
      let* row := prepare_row name r in
      match row with
      | None => push_pending name node_id push pend all l' limit
      | Some (row, force) =>
          if force || push then
            let* submitted := node_submit_task row node_id in
            do* (if submitted : bool then main_status (Some r.1) (sent_status name) else sret tt) in
            if bool_decide (S limit = pend) || bool_decide (S limit = all) then sret (S limit, true)
            else push_pending name node_id push pend all l' (S limit)
          else push_pending name node_id push pend all l' limit
      end
  end.
(** Rows that have not been pushed, by priority and task. *)
Definition unsent (t : dist_task) : bool :=
  (bool_decide (d_node_id t = None) || bool_decide (d_task_id t = None)) && negb (d_finished t).
Definition row_before (a b : Z * dist_task) : bool :=
  (d_priority b.2 <? d_priority a.2) ||
  ((d_priority a.2 =? d_priority b.2) && (default 0 (d_main_task_id a.2) <=? default 0 (d_main_task_id b.2))).
Definition to_upload (cfg : dist_cfg) (name : string) (pend : nat) (s : dist W) : list (Z * dist_task) :=
  let ok t := unsent t && (negb (enable_tags cfg) || tags_query (like_eq cfg) (default [] (server_tags s !! name)) (d_tags t)) in
  take pend (merge_sort (holds2 row_before) (filter (fun r => ok r.2 = true) (map_to_list (drows s)))).
Fixpoint upload_rows (name : string) (node_id : Z) (pend : nat) (l : list (Z * dist_task)) (limit : nat) : st (dist W) unit :=
  match l with
  | [] => sret tt
  | (row, t) :: l' =>
      let* submitted := node_submit_task row node_id in
      do* (if submitted : bool then main_status (d_main_task_id t) (sent_status name) else delete_row row) in
      if bool_decide (S limit = pend) then sret tt else upload_rows name node_id pend l' (S limit)
  end.
Definition pending_filter (options_like : option string) : task_filter :=
  {| f_status := Some TASK_PENDING; f_not_status := None; f_category := None; f_sample_id := None; f_id_before := None;
     f_id_after := None; f_completed_after := None; f_added_before := None; f_options_like := options_like;
     f_tags_tasks_like := None; f_task_ids := []; f_hashes := false |}.
Definition by_priority (a b : Z * Task) : bool := t_priority b.2 <=? t_priority a.2.
Definition submit_tasks (cfg : dist_cfg) (name : string) (pend : nat) (options_like : option string) (push : bool) : st (dist W) unit := fun s =>
  match node_named name s with
  | None => (Raise AttributeError, s)
  | Some (node_id, node) =>
      (do* (if decide (is_Some (server_tags s !! name)) then sret tt else load_vm_tags node_id name) in
       do* reset_bad in
       if bool_decide (n_name node = "master") then sret tt
       else
         let* l := in_main (fun _ => list_tasks (pending_filter options_like) (Some by_priority) (Some pend) None) in
         if bool_decide (l = []) then sret tt
         else
           let* r := push_pending name node_id push pend (length l) l 0 in
           if r.2 then sret tt
           else fun s => upload_rows name node_id pend (to_upload cfg name pend s) r.1 s) s
  end.

(** ** The rounds of [StatusThread.run] *)

Definition node_load (c : node_counts) : Z := completed_tasks c + pending_tasks c + running_tasks c.
(** [min(STATUSES, key=...)]: the first of the least loaded. *)
Fixpoint least_loaded (best : string * Z) (l : list (string * node_counts)) : string :=
  match l with
  | [] => best.1
  | (k, c) :: l' => least_loaded (if node_load c <? best.2 then (k, node_load c) else best) l'
  end.
Definition forget_node (name : string) : st (dist W) unit := smodify (on_statuses (assoc_del name)).
Definition machine_count (node_id : Z) (s : dist W) : nat := length (filter (fun m => vm_node m = node_id) (dvms s)).
Definition hotplug (r : Z * dist_node) : st (dist W) unit :=
  smodify (fun s => on_minimum_queue (<[n_name r.2 := machine_count r.1 s]>) s).
(** [MINIMUMQUEUE[name]]. *)
Definition queue_of (name : string) : st (dist W) nat := fun s => (of_option KeyError (minimum_queue s !! name), s).
(** The node that gets the next tasks, and how many: [None] behind a
    [KeyError]. *)
Definition balance (r : Z * dist_node) : st (dist W) (option ((Z * dist_node) * Z)) := fun s =>
  let name := n_name r.2 in
  let best := match statuses s with [] => name | (k, c) :: l => least_loaded (k, node_load c) l end in
  let r' := if bool_decide (best = name) then Some r else node_named best s in
  match r' with
  | None => (Raise AttributeError, s)
  | Some r' =>
      match minimum_queue s !! n_name r'.2, assoc_get (n_name r'.2) (statuses s) with
      | Some q, Some c => (Ok (Some (r', Z.of_nat q - (pending_tasks c + running_tasks c))), s)
      | _, _ => (do* hotplug r' in sret None) s
      end
  end.
Definition status_node (cfg : dist_cfg) (r : Z * dist_node) : st (dist W) unit :=
  let name := n_name r.2 in
  let* status := world_call (http_status r.2) in
  match status with
  | None =>
      do* smodify (on_failed_count (fun m => <[name := default 0 (m !! name) + 1]> m)) in
      fun s => (if bool_decide (failed_count s !! name = Some (dead_count cfg)) then forget_node name else sret tt) s
  | Some c =>
      do* smodify (on_failed_count (<[name := 0]>)) in
      do* smodify (on_statuses (assoc_put name c)) in
      let* first := scatch (let* q := queue_of name in
                            do* submit_tasks cfg name q (Some ("node=" ++ name)%string) true in sret true)
                           (fun e => if decide (e = KeyError) then Some (do* hotplug r in sret false) else None) in
      if first : bool then
        let* b := balance r in
        match b with
        | None => sret tt
        | Some (r', pend) =>
            if pend <=? 0 then sret tt
            else fun s =>
              let busy := default 0 (pending_tasks <$> assoc_get "master" (statuses s)) in
              let least q := Z.of_nat (default 0%nat q) in
              if master_storage_only cfg
                 || ((least (minimum_queue s !! "master") <? busy)
                     && (pending_tasks c <? least (minimum_queue s !! n_name r'.2)))
              then submit_tasks cfg (n_name r'.2) (Z.to_nat pend) None false s
              else (Ok tt, s)
        end
      else sret tt
  end.
Fixpoint status_nodes (cfg : dist_cfg) (l : list (Z * dist_node)) : st (dist W) unit :=
  match l with [] => sret tt | r :: l' => do* status_node cfg r in status_nodes cfg l' end.
Definition nodes_asc (enabled : bool) (s : dist W) : list (Z * dist_node) :=
  merge_sort (holds2 (fun a b : Z * dist_node => a.1 <=? b.1)) (filter (fun n => n_enabled n.2 = enabled) (map_to_list (dnodes s))).
Definition status_round (cfg : dist_cfg) : st (dist W) unit :=
  try_all
    (do* smodify (fun s => on_statuses (fun d => fold_left (fun d r => assoc_del (n_name r.2) d) (nodes_asc false s) d) s) in
     fun s => status_nodes cfg (nodes_asc true s) s)
    (sret tt).

(** Before the first round: whether the master only stores, the length of the
    queue of each node, and the tags of its machines. *)
Definition storage_only (configured : bool) (s : dist W) : bool :=
  configured || match node_named "master" s with Some r => bool_decide (machine_count r.1 s = 0%nat) | None => true end.
Fixpoint start_nodes (l : list (Z * dist_node)) : st (dist W) unit :=
  match l with [] => sret tt | r :: l' => do* hotplug r in do* load_vm_tags r.1 (n_name r.2) in start_nodes l' end.
Definition status_start : st (dist W) unit := fun s => start_nodes (nodes_asc true s) s.

(** ** The cleaning of the nodes by hand *)

(** [details] as [group_step] makes it. A row without a node has none in
    [nodes]. *)
Fixpoint clean_details (nodes : gmap Z dist_node) (l : list (Z * dist_task)) (details : list (Z * list Z)) : res (list (Z * list Z)) :=
  match l with
  | [] => Ok details
  | (id, t) :: l' =>
      match d_node_id t with
      | Some n => if decide (is_Some (nodes !! n)) then clean_details nodes l' (group_step details (n, default 0 (d_task_id t))) else Raise KeyError
      | None => Raise KeyError
      end
  end.
Fixpoint delete_details (nodes : gmap Z dist_node) (details : list (Z * list Z)) (rolled_back : bool) : st (dist W) bool :=
  match details with
  | [] => sret rolled_back
  | (n, ids) :: l => let* b := _delete_many nodes n (str_int <$> ids) in delete_details nodes l (rolled_back || b)
  end.
Definition mark_deleted (ids : list Z) (m : gmap Z dist_task) : gmap Z dist_task :=
  fold_left (fun m id => alter (fun t => row_flags (d_finished t) (d_retrieved t) (d_notificated t) true t) id m) ids m.
(** ** The administration of the nodes *)

Definition first_node (name : string) : st (dist W) (Z * dist_node) := fun s =>
  match node_named name s with Some r => (Ok r, s) | None => (Raise AttributeError, s) end.
Definition node_enabled (name : string) (status : bool) : st (dist W) unit :=
  let* r := first_node name in
  smodify (on_dnodes (alter (fun n => {| n_name := n_name n; n_url := n_url n; n_apikey := n_apikey n; n_enabled := status;
                                         n_last_check := n_last_check n |}) r.1)).
(** The old machines go when the new ones have been read. *)
Definition update_machine_table (name : string) : st (dist W) unit :=
  let* r := first_node name in
  let* vms := world_call (http_machines r.2) in
  smodify (on_dvms (fun l => filter (fun m => vm_node m <> r.1) l ++
    ((fun v : string * string * list string => {| vm_node := r.1; vm_name := v.1.1; vm_platform := v.1.2; vm_tags := v.2 |}) <$> vms))).
(** A node has no method [delete_machine]. *)
Definition delete_vm_on_node (name vm : string) : st (dist W) unit :=
  let* r := first_node name in
  fun s => if existsb (fun m => bool_decide (vm_name m = vm) && bool_decide (vm_node m = r.1)) (dvms s) then (Raise AttributeError, s) else (Ok tt, s).
(** [TaskInfo.get]: the task on its node, or [None] when it is pending. *)
Definition task_info (main_id : Z) : st (dist W) (option (option Z * string * string)) := fun s =>
  match head (rows_asc (fun t => bool_decide (d_main_task_id t = Some main_id)) s) with
  | Some (_, t) =>
      match nonzero (d_node_id t) with
      | Some n => match dnodes s !! n with
                  | Some node => (Ok (Some (d_task_id t, n_url node, n_name node)), s)
                  | None => (Raise AttributeError, s)
                  end
      | None => (Ok None, s)
      end
  | None => (Ok None, s)
  end.
(** [StatusRootApi.get]: processing, processed, pending. *)
Definition status_counts (s : dist W) : nat * nat * nat :=
  let sent t := bool_decide (is_Some (d_node_id t)) in
  (length (rows_asc (fun t => sent t && negb (d_finished t)) s), length (rows_asc (fun t => sent t && d_finished t) s),
   length (rows_asc (fun t => negb (sent t)) s)).

(** The marks are committed at the end: a rollback for one node loses them all. *)
Definition cron_cleaner (since : option Z) : st (dist W) unit := fun s =>
  let pick t := match since with
                | Some c => d_notificated t && (c <=? d_clock t)
                | None => d_notificated t && negb (d_deleted t)
                end in
  let rows := reverse (rows_asc pick s) in
  (let* details := slift (clean_details (dnodes s) rows []) in
   let* rolled_back := delete_details (dnodes s) details false in
   if rolled_back : bool then sret tt else smodify (on_drows (mark_deleted (rows.*1)))) s.
End dist_state.

(** ** What no operation breaks *)

Section dist_proofs.
Context {W : Type} `{SqlBackend} `{dist_net W}.
Implicit Types (s : dist W) (t : dist_task).

Section steps.
Context (R : relation (dist W)) `{!PreOrder R}.
Lemma within_in_main {A} (m : Z -> st Database A) : (forall s d, R s (on_main_db (fun _ => d) s)) -> within R (in_main m).
Proof using Type. intros Hd s. unfold in_main. destruct (m _ _) as [r d]. apply Hd. Qed.
Lemma within_in_world {A} (m : st W A) : (forall s w, R s (on_dworld (fun _ => w) s)) -> within R (world_call m).
Proof using Type. intros Hw s. unfold world_call. destruct (m _) as [r w]. apply Hw. Qed.
Lemma within_modify (f : dist W -> dist W) : (forall s, R s (f s)) -> within R (smodify f).
Proof using Type. intros Hf s. apply Hf. Qed.
Lemma within_try_all {A} (m k : st (dist W) A) : within R m -> within R k -> within R (try_all m k).
Proof using PreOrder0.
  intros Hm Hk. apply within_catch; [typeclasses eauto|done|]. intros e k' He. by destruct (decide _); simplify_eq.
Qed.
Lemma within_result {A} (r : res A) : within R (fun s => (r, s)).
Proof using PreOrder0. intros s. by simpl. Qed.
Lemma within_at {A} (m : dist W -> st (dist W) A) : (forall s, within R (m s)) -> within R (fun s => m s s).
Proof using Type. intros Hm s. apply Hm. Qed.
End steps.

(** What a step of the scheduler does to the shared state, one piece at a
    time. *)
Class step_frame (R : relation (dist W)) := {
  framed_pre :: PreOrder R;
  framed_main : forall s d, R s (on_main_db (fun _ => d) s);
  framed_world : forall s w, R s (on_dworld (fun _ => w) s);
  framed_cleaner : forall s f, R s (on_cleaner_queue f s);
  framed_none : forall s f, R s (on_t_is_none f s);
  framed_nodes : forall s f, R s (on_dnodes f s);
  framed_last : forall s f, R s (on_last_checks f s);
  framed_dead : forall s f, R s (on_dead_checks f s);
  framed_tags : forall s f, R s (on_server_tags f s);
  framed_statuses : forall s f, R s (on_statuses f s);
  framed_failed : forall s f, R s (on_failed_count f s);
  framed_minimum : forall s f, R s (on_minimum_queue f s) }.
End dist_proofs.

Create HintDb dist.
#[export] Hint Extern 1 (step_frame _) => exact _ : dist.

(** A piece of the state that [R] does not mind. *)
Ltac framed_tac :=
  intros;
  first [ apply framed_main | apply framed_world | apply framed_cleaner | apply framed_none | apply framed_nodes | apply framed_last
        | apply framed_dead | apply framed_tags | apply framed_statuses | apply framed_failed | apply framed_minimum ].
#[export] Hint Extern 1 (PreOrder _) => apply framed_pre : typeclass_instances.
(** Reduces [within R m] to the steps of [m]. *)
Ltac dist_step :=
  first [ assumption | solve [eauto 3 with dist nocore]
        | lazymatch goal with
          | |- within _ (sbind _ _) => apply within_bind; [typeclasses eauto| |intros]
          | |- within _ (sret _) => apply within_ret; typeclasses eauto
          | |- within _ (sraise _) => apply within_raise; typeclasses eauto
          | |- within _ (slift _) => apply within_lift; typeclasses eauto
          | |- within _ (in_main _) => apply within_in_main; framed_tac
          | |- within _ (world_call _) => apply within_in_world; framed_tac
          | |- within _ (try_all _ _) => apply within_try_all; [typeclasses eauto| |]
          | |- within _ (smodify _) => apply within_modify; intros; try framed_tac
          | |- within _ (fun s => (_, s)) => apply within_result; typeclasses eauto
          | |- within _ (match ?x with _ => _ end) => destruct x eqn:?
          | |- within _ (let '(_, _) := ?x in _) => destruct x eqn:?
          | |- within _ ((match ?x with _ => _ end) _ _) => destruct x eqn:?
          | |- ?R ?s (snd (Ok _, ?s)) => simpl; reflexivity
          | |- ?R ?s (snd (Raise _, ?s)) => simpl; reflexivity
          | |- ?R ?s (snd ((match ?x with _ => _ end) ?s)) => destruct x eqn:?
          | |- ?R ?s (snd (match ?x with _ => _ end)) => destruct x eqn:?
          | |- ?R ?s (snd (?m ?s)) => refine ((_ : within R m) s)
          | |- within _ (fun s => _) => let s := fresh "s" in intros s; cbv beta zeta
          end ].
Ltac dist_tac := repeat dist_step.

Section dist_frames.
Context {W : Type} `{SqlBackend} `{dist_net W} (R : relation (dist W)) {Hf : step_frame R}.

Lemma within_main_status o t : within R (main_status o t).
Proof using Hf. unfold main_status. dist_tac. Qed.
Lemma within_put_once n i : within R (put_once n i).
Proof using Hf. unfold put_once. dist_tac. Qed.
Lemma within_put_always n i : within R (put_always n i).
Proof using Hf. unfold put_always. dist_tac. Qed.
Lemma within_delete_many nodes n ids : within R (_delete_many nodes n ids).
Proof using Hf. unfold _delete_many. dist_tac. Qed.
Hint Resolve within_main_status within_put_once within_put_always within_delete_many : dist.
Lemma within_delete_all nodes l : within R (delete_all nodes l).
Proof using Hf. induction l as [|[n ids] l IH]; simpl; dist_tac. Qed.
Hint Resolve within_delete_all : dist.
Lemma within_remove_round nodes : within R (remove_round nodes).
Proof using Hf.
  intros s. unfold remove_round. etrans; [|etrans; [|apply within_delete_all]]; [apply framed_cleaner|apply framed_none].
Qed.
Lemma within_node_fetch_tasks st n since : within R (node_fetch_tasks st n since).
Proof using Hf. unfold node_fetch_tasks. dist_tac. Qed.
Lemma within_node_get_report i n : within R (node_get_report i n).
Proof using Hf. unfold node_get_report. dist_tac. Qed.
Lemma within_count_failure n : within R (count_failure n).
Proof using Hf. unfold count_failure. dist_tac. Qed.
Lemma within_note_check n c : within R (note_check n c).
Proof using Hf. unfold note_check. dist_tac. Qed.
Lemma within_set_all ids t : within R (set_all ids t).
Proof using Hf. induction ids; simpl; dist_tac. Qed.
Lemma within_load_vm_tags n name : within R (load_vm_tags n name).
Proof using Hf. unfold load_vm_tags. dist_tac. Qed.
Lemma within_forget_node name : within R (forget_node name).
Proof using Hf. unfold forget_node. dist_tac. Qed.
Lemma within_hotplug r : within R (hotplug r).
Proof using Hf. unfold hotplug. dist_tac. Qed.
Lemma within_delete_details nodes l b : within R (delete_details nodes l b).
Proof using Hf. revert b. induction l as [|[n ids] l IH]; intros b; simpl; dist_tac. Qed.
Lemma within_queue_of name : within R (queue_of name).
Proof using Hf. intros s. by simpl. Qed.
Hint Resolve within_hotplug : dist.
Lemma within_balance r : within R (balance r).
Proof using Hf. unfold balance. dist_tac. Qed.
End dist_frames.

#[export] Hint Resolve within_main_status within_put_once within_put_always within_delete_many within_delete_all within_remove_round
  within_node_fetch_tasks within_node_get_report within_count_failure within_note_check within_set_all within_load_vm_tags
  within_forget_node within_hotplug within_delete_details within_queue_of within_balance : dist.

(** ** Rows *)

(** A row is finished when its report has been retrieved, has a node when it
    has an id there, and is called back when it is finished. *)
Definition row_ok (t : dist_task) : Prop :=
  d_finished t = d_retrieved t /\ (is_Some (d_node_id t) <-> is_Some (d_task_id t)) /\ (d_notificated t = true -> d_finished t = true).

Lemma row_ok_done n d t : row_ok t -> row_ok (row_flags true true n d t).
Proof. intros (_ & Hn & _). by split_and!. Qed.
Lemma row_ok_flags d t : row_ok t -> row_ok (row_flags (d_finished t) (d_retrieved t) (d_notificated t) d t).
Proof. intros (? & ? & ?). by split_and!. Qed.
Lemma row_ok_tags tags t : row_ok t -> row_ok (row_sent tags (d_node_id t) (d_task_id t) t).
Proof. intros (? & ? & ?). by split_and!. Qed.
Lemma row_ok_sent tags n i t : row_ok t -> row_ok (row_sent tags (Some n) (Some i) t).
Proof. intros (? & ? & ?). by split_and!. Qed.
Lemma row_ok_new id t options : row_ok (new_row id t options).
Proof. split_and!; [done| |done]. simpl. by split; intros [? [=]]. Qed.
#[export] Hint Resolve row_ok_done row_ok_flags row_ok_tags row_ok_sent row_ok_new : dist.

(** What a step does to the rows, but for a submission. *)
Class row_framed {W} (R : relation (dist W)) := {
  rf_framed :: step_frame R;
  rf_flags : forall id n d, within R (alter_row id (row_flags true true n d));
  rf_retrieved : forall id, within R (alter_row id retrieved_row);
  rf_failed : forall id, within R (alter_row id (fun t => row_flags true true true (d_deleted t) t));
  rf_delete : forall id, within R (delete_row id);
  rf_mark : forall ids, within R (smodify (on_drows (mark_deleted ids)));
  rf_new : forall s row id t options, drows s !! row = None -> R s (on_drows (<[row := new_row id t options]>) s) }.
Class submit_framed {W} `{dist_net W} `{SqlBackend} (R : relation (dist W)) := {
  sf_framed :: row_framed R;
  sf_submit : forall id n, within R (node_submit_task id n) }.
#[export] Hint Extern 1 (row_framed _) => exact _ : dist.
#[export] Hint Extern 1 (submit_framed _) => exact _ : dist.
#[export] Hint Resolve rf_flags rf_retrieved rf_failed rf_delete rf_mark sf_submit : dist.

Section row_frames.
Context {W : Type} `{SqlBackend} `{dist_net W} (R : relation (dist W)) {Hr : row_framed R}.

Lemma within_unpack n id t m i c : within R (unpack_report n id t m i c).
Proof using Hr.
  unfold unpack_report. apply within_catch; [exact _| |].
  - dist_tac. apply within_catch; [exact _|dist_tac|].
    intros e k. destruct (decide _); intros [= <-]. dist_tac.
  - intros e k. destruct (decide _); [done|]. destruct (decide _); intros [= <-]; dist_tac.
Qed.
Hint Resolve within_unpack : dist.
Lemma within_fetch_report n i : within R (fetch_report n i).
Proof using Hr. unfold fetch_report. dist_tac. Qed.
Lemma within_fetch_report_nfs n i : within R (fetch_report_nfs n i).
Proof using Hr. unfold fetch_report_nfs. dist_tac. Qed.
Lemma within_clean_failed n task : within R (clean_failed n task).
Proof using Hr. unfold clean_failed. dist_tac. Qed.
Hint Resolve within_clean_failed : dist.
Lemma within_clean_failed_all n l : within R (clean_failed_all n l).
Proof using Hr. induction l; simpl; dist_tac. Qed.
Hint Resolve within_clean_failed_all : dist.
Lemma within_failed_node n : within R (failed_node n).
Proof using Hr. unfold failed_node. dist_tac. Qed.
Lemma within_fail_row id t : within R (fail_row id t).
Proof using Hr. unfold fail_row. dist_tac. Qed.
Hint Resolve within_fail_row : dist.
Lemma within_create_on node id t : within R (create_on node id t).
Proof using Hr.
  unfold create_on. dist_tac; (apply within_catch; [exact _|dist_tac|]; intros e k; destruct (decide _); intros [= <-]; dist_tac).
Qed.
Lemma within_answer_of node t r : within R (answer_of node t r).
Proof using Hr. unfold answer_of. dist_tac. Qed.
Lemma within_reset_rows l : within R (reset_rows l).
Proof using Hr. induction l as [|[id t] l IH]; simpl; dist_tac. Qed.
Hint Resolve within_reset_rows : dist.
Lemma within_reset_bad : within R reset_bad.
Proof using Hr. unfold reset_bad. dist_tac. Qed.
Lemma within_add_row name r : within R (prepare_row name r).
Proof using Hr.
  unfold prepare_row. destruct r as [id t]. intros s. destruct (wanted_node _ _ _); [|by simpl]. dist_tac.
  apply rf_new, new_id_fresh.
Qed.
Lemma within_cron_cleaner since : within R (cron_cleaner since).
Proof using Hr. unfold cron_cleaner. dist_tac. Qed.
End row_frames.
#[export] Hint Resolve within_fetch_report within_fetch_report_nfs within_failed_node within_create_on within_answer_of within_reset_bad within_add_row
  within_cron_cleaner : dist.

Section submit_frames.
Context {W : Type} `{SqlBackend} `{dist_net W} (R : relation (dist W)) {Hr : submit_framed R}.

Lemma within_push_pending name n push pend all l limit : within R (push_pending name n push pend all l limit).
Proof using Hr. revert limit. induction l as [|r l IH]; intros limit; simpl; dist_tac. Qed.
Lemma within_upload_rows name n pend l limit : within R (upload_rows name n pend l limit).
Proof using Hr. revert limit. induction l as [|[row t] l IH]; intros limit; simpl; dist_tac. Qed.
Hint Resolve within_push_pending within_upload_rows : dist.
Lemma within_submit_tasks cfg name pend o push : within R (submit_tasks cfg name pend o push).
Proof using Hr. unfold submit_tasks. dist_tac. Qed.
Hint Resolve within_submit_tasks : dist.
Lemma within_status_node cfg r : within R (status_node cfg r).
Proof using Hr.
  unfold status_node. dist_tac. apply within_catch; [exact _|dist_tac|].
  intros e k. destruct (decide _); intros [= <-]. dist_tac.
Qed.
Hint Resolve within_status_node : dist.
Lemma within_status_nodes cfg l : within R (status_nodes cfg l).
Proof using Hr. induction l; simpl; dist_tac. Qed.
Hint Resolve within_status_nodes : dist.
Lemma within_status_round cfg : within R (status_round cfg).
Proof using Hr. unfold status_round. dist_tac. Qed.
End submit_frames.
#[export] Hint Resolve within_status_round within_submit_tasks : dist.

Section dist_rows.
Context {W : Type} `{SqlBackend} `{dist_net W}.
Implicit Types (s : dist W) (t : dist_task).

Definition rows_ok (m : gmap Z dist_task) : Prop := map_Forall (fun _ t => row_ok t) m.
Definition keeps_rows (s s' : dist W) : Prop := rows_ok (drows s) -> rows_ok (drows s').

#[export] Instance keeps_rows_pre : PreOrder keeps_rows.
Proof. unfold keeps_rows. split; intros ?; intros; auto. Qed.

Lemma alter_ok (m : gmap Z dist_task) id f : (forall t, row_ok t -> row_ok (f t)) -> rows_ok m -> rows_ok (alter f id m).
Proof. intros Hf Hm i t [(<- & y & Hy & ->)|(_ & Ht)]%lookup_alter_Some; [apply Hf|]; by eapply Hm. Qed.
Lemma keeps_alter_row id f : (forall t, row_ok t -> row_ok (f t)) -> within keeps_rows (alter_row id f).
Proof. intros Hf. apply within_modify. intros s Hs. by apply alter_ok. Qed.
Hint Resolve keeps_alter_row : dist.
#[export] Instance keeps_rows_row_framed : row_framed keeps_rows.
Proof.
  split; [split; [exact _|..]; intros s f Hs; exact Hs|eauto with dist..| | |].
  - intros id. apply within_modify. intros s Hs. by apply map_Forall_delete.
  - intros ids. apply within_modify. intros s Hs. revert Hs. unfold rows_ok. cbn. generalize (drows s).
    induction ids as [|id ids IH]; intros m Hm; simpl; [done|]. apply IH, alter_ok; eauto with dist.
  - intros s row id t options _ Hs. by apply map_Forall_insert_2; [apply row_ok_new|].
Qed.
#[export] Instance keeps_rows_submit_framed : submit_framed keeps_rows.
Proof.
  split; [exact _|]. intros id n s Hs. unfold node_submit_task. destruct (dnodes s !! n) as [node|]; [|done]. case_bool_decide; [done|].
  destruct (drows s !! id) as [t|] eqn:Et; [|done]. pose proof (Hs _ _ Et) as Ht. cbv zeta. revert Hs.
  refine ((_ : within keeps_rows _) s). clear Et. dist_tac.
Qed.

Lemma keeps_fetcher f : within keeps_rows (smodify (on_fetcher_queue f)).
Proof. apply within_modify. intros s Hs. exact Hs. Qed.
Lemma keeps_current f : within keeps_rows (smodify (on_current_queue f)).
Proof. apply within_modify. intros s Hs. exact Hs. Qed.
Hint Resolve keeps_fetcher keeps_current : dist.
Lemma keeps_fetch_step n name task limit : within keeps_rows (fetch_step n name task limit).
Proof. unfold fetch_step. dist_tac. Qed.
Hint Resolve keeps_fetch_step : dist.
Lemma keeps_fetch_tasks n name l limit : within keeps_rows (fetch_tasks n name l limit).
Proof. revert limit. induction l as [|task l IH]; intros limit; simpl; dist_tac. Qed.
Hint Resolve keeps_fetch_tasks : dist.
Lemma keeps_fetch_node n : within keeps_rows (fetch_node n).
Proof.
  unfold fetch_node. intros s. destruct (dnodes s !! n) as [node|]; [|by simpl]. destruct (n_enabled node); [|by simpl].
  cbv zeta. etrans; [|etrans; [|refine ((_ : within keeps_rows _) _); dist_tac]]; intros Hs; exact Hs.
Qed.
Lemma keeps_fetch_iteration nfs : within keeps_rows (fetch_iteration nfs).
Proof. unfold fetch_iteration, release_current. dist_tac. Qed.

(** Rows in [L] are finished, and stay so. *)
Definition done_rows (L : list Z) (m : gmap Z dist_task) : Prop :=
  rows_ok m /\ forall i t, i ∈ L -> m !! i = Some t -> d_finished t = true.
Definition keeps_done (L : list Z) (s s' : dist W) : Prop := done_rows L (drows s) -> done_rows L (drows s').
#[export] Instance keeps_done_pre L : PreOrder (keeps_done L).
Proof. unfold keeps_done. split; intros ?; intros; auto. Qed.
#[export] Instance keeps_done_framed L : step_frame (keeps_done L).
Proof. split; [exact _|..]; intros s f Hs; exact Hs. Qed.

Lemma notified_done L id : id ∈ L ->
  within (keeps_done L) (alter_row id (fun t => row_flags (d_finished t) (d_retrieved t) true (d_deleted t) t)).
Proof.
  intros Hid. apply within_modify. intros s [Ho Hd]. cbn. split.
  - intros i t [(<- & y & Hy & ->)|(_ & Ht)]%lookup_alter_Some; [|by eapply Ho].
    destruct (Ho _ _ Hy) as (? & ? & ?). refine (conj _ (conj _ _)); [done|done|]. intros _. by apply (Hd id y).
  - intros i t Hi [(<- & y & Hy & ->)|(_ & Ht)]%lookup_alter_Some; [by apply (Hd id y)|by eapply Hd].
Qed.
Lemma keeps_notify L id m urls : id ∈ L -> within (keeps_done L) (notify id m urls).
Proof. intros Hid. induction urls as [|url urls IH]; simpl; dist_tac. by apply notified_done. Qed.
Lemma keeps_notify_all L urls l : (forall r, r ∈ l -> r.1 ∈ L) -> within (keeps_done L) (notify_all urls l).
Proof.
  induction l as [|[id t] l IH]; intros Hl; simpl; dist_tac.
  - apply keeps_notify. by apply (Hl (id, t)), list_elem_of_here.
  - apply IH. intros r Hr. by apply Hl, list_elem_of_further.
Qed.
Lemma rows_asc_sound p s id t : (id, t) ∈ rows_asc p s -> drows s !! id = Some t /\ p t = true.
Proof. unfold rows_asc. rewrite merge_sort_Permutation, list_elem_of_filter, elem_of_map_to_list. by intros [? ?]. Qed.
Lemma keeps_notification urls : within keeps_rows (notification_round urls).
Proof.
  intros s Hs. unfold notification_round. set (l := reverse _).
  apply (keeps_notify_all (l.*1) urls l); [intros r; apply list_elem_of_fmap_2|].
  split; [done|]. intros i t [[j u] [-> Hu]]%list_elem_of_fmap Ht.
  unfold l in Hu. rewrite elem_of_reverse in Hu. apply rows_asc_sound in Hu as [Hu Hp]. simplify_eq/=.
  rewrite !andb_true_iff in Hp. by destruct Hp as [[? ?] ?].
Qed.
End dist_rows.

(** ** Runs *)

(** What the threads of the scheduler do, a round or an iteration at a time. *)
Inductive dist_op :=
| Fetcher (node_id : Z) | FetchReport (nfs : bool) | RemoveFromWorker (nodes : gmap Z dist_node) | NotificationLoop (urls : list string)
| FailedCleaner (node_id : Z) | Status (cfg : dist_cfg) | CronCleaner (since : option Z).

Section runs.
Context {W : Type} `{SqlBackend} `{dist_net W}.
Implicit Types (s : dist W) (t : dist_task).

Definition run_op (op : dist_op) : st (dist W) unit :=
  match op with
  | Fetcher n => fetch_node n
  | FetchReport nfs => fetch_iteration nfs
  | RemoveFromWorker nodes => remove_round nodes
  | NotificationLoop urls => notification_round urls
  | FailedCleaner n => failed_node n
  | Status cfg => status_round cfg
  | CronCleaner since => cron_cleaner since
  end.
Definition run_ops (ops : list dist_op) (s : dist W) : dist W := fold_left (fun s op => (run_op op s).2) ops s.

Lemma dist_ops_within (R : relation (dist W)) `{!PreOrder R} : (forall op, within R (run_op op)) -> forall ops s, R s (run_ops ops s).
Proof. intros Hop ops. induction ops as [|op ops IH]; intros s; simpl; [done|]. etrans; [apply (Hop op)|apply IH]. Qed.

(** C29. Whatever the threads of the scheduler do, a row of the table of
    distributed tasks is finished exactly when its report has been retrieved,
    has a node exactly when it has the id of a task on that node, and is called
    back only when it is finished. *)
Theorem rows_invariant ops s : rows_ok (drows s) -> rows_ok (drows (run_ops ops s)).
Proof.
  refine (dist_ops_within keeps_rows _ ops s). intros []; simpl; try solve [eauto 4 with dist nocore].
  - apply keeps_fetch_node.
  - apply keeps_fetch_iteration.
  - apply keeps_notification.
Qed.
End runs.

(** ** A report that could not be fetched *)

Section stuck.
Context {W : Type} `{SqlBackend} `{dist_net W}.
Implicit Types (s : dist W) (t : dist_task).

(** A task of a node that is current, and in no entry of the queue. *)
Definition stuck (n i : Z) (s : dist W) : Prop :=
  i ∈ default [] (current_queue s !! n) /\ forall e, e ∈ fetcher_queue s -> e.2 = n -> r_id e.1 <> i.
Definition keeps_stuck (n i : Z) (s s' : dist W) : Prop := stuck n i s -> stuck n i s'.
#[export] Instance keeps_stuck_pre n i : PreOrder (keeps_stuck n i).
Proof. unfold keeps_stuck. split; intros ?; intros; auto. Qed.
#[export] Instance keeps_stuck_row_framed n i : row_framed (keeps_stuck n i).
Proof.
  split; [split; [exact _|..]; intros s f Hs; exact Hs|..]; intros; try (apply within_modify; intros s' Hs; exact Hs).
  intros Hs; exact Hs.
Qed.
Lemma stuck_alter_row n i id f : within (keeps_stuck n i) (alter_row id f).
Proof. apply within_modify. intros s Hs. exact Hs. Qed.
Hint Resolve stuck_alter_row : dist.
#[export] Instance keeps_stuck_submit_framed n i : submit_framed (keeps_stuck n i).
Proof. split; [exact _|]. intros id n'. unfold node_submit_task. dist_tac. Qed.

Lemma stuck_notify n i id m urls : within (keeps_stuck n i) (notify id m urls).
Proof. induction urls as [|url urls IH]; simpl; dist_tac. Qed.
Hint Resolve stuck_notify : dist.
Lemma stuck_notify_all n i urls l : within (keeps_stuck n i) (notify_all urls l).
Proof. induction l as [|[id t] l IH]; simpl; dist_tac. Qed.
Hint Resolve stuck_notify_all : dist.

(** A task that is current is not queued. *)
Lemma stuck_fetch_step n i n' name task limit : within (keeps_stuck n i) (fetch_step n' name task limit).
Proof.
  intros s Hs. unfold fetch_step. destruct (last_row _ s); [|by refine ((_ : within (keeps_stuck n i) _) s Hs); dist_tac].
  case_bool_decide as Hin; [done|]. destruct (existsb _ _); [done|]. simpl.
  assert (stuck n i (on_fetcher_queue (fun q => q ++ [(task, n')]) s)) as Hs'.
  { split; [apply Hs|]. intros e [He|He%list_elem_of_singleton]%elem_of_app; [by apply Hs|]. subst e.
    simpl. intros -> <-. by apply Hin, Hs. }
  destruct (r_completed_on task) as [c|].
  - revert Hs'. refine ((_ : within (keeps_stuck n i) (do* note_check n' c in sret (S limit))) _). dist_tac.
  - revert Hs'. refine ((_ : within (keeps_stuck n i) (do* count_failure name in sret (S limit))) _). dist_tac.
Qed.
Hint Resolve stuck_fetch_step : dist.
Lemma stuck_fetch_tasks n i n' name l limit : within (keeps_stuck n i) (fetch_tasks n' name l limit).
Proof. revert limit. induction l as [|task l IH]; intros limit; simpl; dist_tac. Qed.
Hint Resolve stuck_fetch_tasks : dist.
Lemma stuck_fetch_node n i n' : within (keeps_stuck n i) (fetch_node n').
Proof.
  unfold fetch_node. intros s. destruct (dnodes s !! n') as [node|]; [|by simpl]. destruct (n_enabled node); [|by simpl].
  cbv zeta. etrans; [|etrans; [|refine ((_ : within (keeps_stuck n i) _) _); dist_tac]]; intros Hs; exact Hs.
Qed.
Lemma elem_of_remove_one x y l : x <> y -> x ∈ remove_one y l <-> x ∈ l.
Proof.
  intros Hne. induction l as [|z l IH]; simpl; [done|]. case_bool_decide; [set_solver|]. set_solver.
Qed.
Lemma stuck_fetch_iteration n i nfs : within (keeps_stuck n i) (fetch_iteration nfs).
Proof.
  intros s Hs. unfold fetch_iteration. destruct (fetcher_queue s) as [|[task n'] q] eqn:Eq; [done|].
  assert (n' = n -> r_id task <> i) as Hne.
  { intros ->. apply Hs with (e := (task, n)); [|done]. rewrite Eq. apply list_elem_of_here. }
  unfold sbind, smodify. cbv beta iota zeta.
  set (s1 := on_current_queue _ _).
  assert (stuck n i s1) as Hs1.
  { split; [|intros e He; apply Hs; rewrite Eq; by apply list_elem_of_further].
    unfold s1. cbn. destruct (decide (n' = n)) as [->|]; [|rewrite lookup_insert_ne by done; apply Hs].
    rewrite lookup_insert_eq. cbn. apply elem_of_app. left. apply Hs. }
  assert (within (keeps_stuck n i) (try_all ((if nfs then fetch_report_nfs else fetch_report) n' (r_id task)) (sret true))) as Ht
    by (destruct nfs; dist_tac).
  specialize (Ht s1 Hs1). destruct (try_all _ _ _) as [[[]|e] s2]; simpl in *; try done.
  destruct Ht as [Hc Hq]. split; [|done]. cbn. destruct (decide (n' = n)) as [->|].
  - rewrite lookup_alter_eq. destruct (current_queue s2 !! n) as [l|]; [|done]. cbn in *. by apply elem_of_remove_one; [naive_solver|].
  - by rewrite lookup_alter_ne.
Qed.
Lemma stuck_run n i ops s : stuck n i s -> stuck n i (run_ops ops s).
Proof.
  refine (dist_ops_within (keeps_stuck n i) _ ops s). intros []; simpl; try solve [eauto 4 with dist nocore].
  - apply stuck_fetch_node.
  - apply stuck_fetch_iteration.
  - unfold notification_round. dist_tac.
Qed.

Lemma main_status_fine (Hr : reliable) o st s :
  exists d, main_status o st s = (Ok tt, on_main_db (fun _ => d) s) /\
    tasks d = match o with Some m => alter (apply_status (dist_now (dworld s)) st) m (tasks (main_db s)) | None => tasks (main_db s) end.
Proof.
  destruct o as [m|]; [|exists (main_db s); by destruct s]. unfold main_status, in_main.
  destruct (set_status_fine Hr (dist_now (dworld s)) m st (main_db s)) as (d & -> & Hd & _). by exists d.
Qed.

(** How a request for a report fails. *)
Definition fetch_fails (r : res (Z * bytes)) : Prop :=
  match r with Ok (code, _) => code <> 200 | Raise e => e ∉ [OutOfFuel; Blocked] end.
Lemma get_report_fails i node s r w :
  http_report node i (dworld s) = (r, w) -> fetch_fails r ->
  exists o, node_get_report i node s = (Ok o, on_dworld (fun _ => w) s) /\ (o = None \/ exists code c, o = Some (code, c) /\ code <> 200).
Proof.
  intros Hw Hf. unfold node_get_report, try_all, scatch, sbind, world_call. rewrite Hw. destruct r as [[code c]|e]; simpl in *.
  - eexists. split; [done|]. right. by exists code, c.
  - rewrite decide_False by done. eexists. by split; [|left].
Qed.
Lemma fetch_report_fails (Hr : reliable) n i s id t m node r w :
  last_row (waiting n i) s = Some (id, t) -> d_main_task_id t = Some m -> dnodes s !! n = Some node ->
  http_report node i (dworld s) = (r, w) -> fetch_fails r ->
  exists s', fetch_report n i s = (Ok false, s') /\ drows s' = drows s /\ current_queue s' = current_queue s /\ fetcher_queue s' = fetcher_queue s /\
    tasks (main_db s') = alter (apply_status (dist_now (dworld s)) TASK_REPORTED) m
                           (alter (apply_status (dist_now (dworld s)) TASK_DISTRIBUTED_COMPLETED) m (tasks (main_db s))).
Proof.
  intros Hl Hm Hn Hw Hf. unfold fetch_report. rewrite Hl, Hm.
  destruct (main_status_fine Hr (Some m) TASK_DISTRIBUTED_COMPLETED s) as (d & Hd & Hdt).
  set (s1 := on_main_db (fun _ => d) s) in *.
  destruct (main_status_fine Hr (Some m) TASK_REPORTED s1) as (d2 & Hd2 & Hdt2).
  set (s2 := on_main_db (fun _ => d2) s1) in *.
  unfold sbind at 1. rewrite Hd. unfold sbind at 1. rewrite Hd2. cbv beta. change (dnodes s2) with (dnodes s). rewrite Hn.
  destruct (get_report_fails i node s2 r w Hw Hf) as (o & Ho & Hcase). unfold sbind at 1. rewrite Ho.
  assert (tasks (main_db s2) = alter (apply_status (dist_now (dworld s)) TASK_REPORTED) m
    (alter (apply_status (dist_now (dworld s)) TASK_DISTRIBUTED_COMPLETED) m (tasks (main_db s)))) as Hts.
  { cbn. rewrite Hdt2. cbn. by rewrite Hdt. }
  destruct Hcase as [->|(code & c & -> & Hcode)]; [by eexists|].
  rewrite bool_decide_eq_true_2 by done. destruct (code =? 400); by eexists.
Qed.

(** A report whose request fails is lost: the task is already reported in
    the main database, its row still waits, and, unless a copy is in the queue
    yet, nothing the scheduler does afterwards queues it again. *)
Theorem failed_fetch_stuck (Hr : reliable) s task n q id t m node r w ops :
  fetcher_queue s = (task, n) :: q -> (forall e, e ∈ q -> e.2 = n -> r_id e.1 <> r_id task) ->
  last_row (waiting n (r_id task)) s = Some (id, t) -> d_main_task_id t = Some m -> is_Some (tasks (main_db s) !! m) ->
  dnodes s !! n = Some node -> http_report node (r_id task) (dworld s) = (r, w) -> fetch_fails r ->
  let s' := (fetch_iteration false s).2 in
  t_status <$> tasks (main_db s') !! m = Some TASK_REPORTED /\ drows s' = drows s /\ stuck n (r_id task) (run_ops ops s').
Proof.
  intros Hq Hone Hl Hm [x Hx] Hn Hw Hf. unfold fetch_iteration. rewrite Hq. unfold sbind, smodify. cbv beta iota zeta.
  set (s1 := on_current_queue _ _).
  destruct (fetch_report_fails Hr n (r_id task) s1 id t m node r w) as (s2 & Hs2 & Hrows & Hc & Hfq & Hts); try done.
  unfold try_all, scatch. rewrite Hs2. simpl. split_and!; [|done|].
  - rewrite Hts. cbn. by rewrite !lookup_alter_eq, Hx.
  - apply stuck_run. split.
    + rewrite Hc. unfold s1. cbn. rewrite lookup_insert_eq. cbn. set_solver.
    + rewrite Hfq. intros e. apply Hone.
Qed.
End stuck.

(** ** How much one call sends *)

Section sent.
Context {W : Type} `{SqlBackend} `{dist_net W}.
Implicit Types (s : dist W) (t : dist_task).

Definition on_node (r : Z * dist_task) : Prop := is_Some (d_node_id r.2).
Definition sent (s : dist W) : nat := size (filter on_node (drows s)).
Definition sends_no (s s' : dist W) : Prop := (sent s' <= sent s)%nat.
#[export] Instance sends_no_pre : PreOrder sends_no.
Proof. unfold sends_no. split; intros ?; intros; lia. Qed.

Lemma size_subseteq {A} (m1 m2 : gmap Z A) : m1 ⊆ m2 -> (size m1 <= size m2)%nat.
Proof. apply map_subseteq_size. Qed.
Lemma sent_alter f id (m : gmap Z dist_task) : (forall t, m !! id = Some t -> d_node_id (f t) = d_node_id t) ->
  size (filter on_node (alter f id m)) = size (filter on_node m).
Proof.
  intros Hf. assert (dom (filter on_node (alter f id m)) = dom (filter on_node m)) as E; [|by rewrite <- !size_dom, E].
  apply set_eq. intros i. rewrite !elem_of_dom. unfold is_Some.
  setoid_rewrite map_lookup_filter_Some. setoid_rewrite lookup_alter_Some. unfold on_node. cbn. split.
  - intros (x & [(<- & y & ? & ->)|(? & ?)] & Hx); eexists; split; try done. by rewrite Hf in Hx.
  - intros (x & Hx & Hn). destruct (decide (id = i)) as [<-|]; [|by exists x; naive_solver].
    exists (f x). split; [left; naive_solver|by rewrite (Hf x Hx)].
Qed.
Lemma sent_alter_one f id (m : gmap Z dist_task) : (size (filter on_node (alter f id m)) <= S (size (filter on_node m)))%nat.
Proof.
  destruct (m !! id) as [t|] eqn:E; [|rewrite alter_absent by done; lia].
  rewrite (alter_present _ _ _ _ E), map_filter_insert. case_decide.
  - rewrite map_size_insert. case_match; simpl; lia.
  - etrans; [|apply Nat.le_succ_diag_r]. apply size_subseteq, map_filter_subseteq_mono, delete_subseteq.
Qed.
Lemma sends_alter_row f id : (forall t, d_node_id (f t) = d_node_id t) -> within sends_no (alter_row id f).
Proof. intros Hf. apply within_modify. intros s. unfold sends_no, sent. cbn. rewrite sent_alter; done. Qed.
Hint Resolve sends_alter_row : dist.
#[export] Instance sends_no_row_framed : row_framed sends_no.
Proof.
  split; [split; [exact _|..]; intros; unfold sends_no, sent; cbn; lia|eauto with dist..| | |].
  - intros id. apply within_modify. intros s. apply size_subseteq, map_filter_subseteq_mono, delete_subseteq.
  - intros ids. apply within_modify. intros s. unfold sends_no, sent. cbn. generalize (drows s).
    induction ids as [|id ids IH]; intros m; simpl; [done|]. etrans; [apply IH|]. by rewrite sent_alter.
  - intros s row id t o Hrow. unfold sends_no, sent. cbn. rewrite map_filter_insert, decide_False, delete_id; [done|done|]. by intros [? [=]].
Qed.

Lemma sent_submit id n s : (sent (node_submit_task id n s).2 <= S (sent s))%nat.
Proof.
  unfold node_submit_task. destruct (dnodes s !! n) as [node|]; [|simpl; lia]. case_bool_decide; [simpl; lia|].
  destruct (drows s !! id) as [t|] eqn:Et; [|simpl; lia]. cbv zeta. unfold sbind at 1, alter_row at 1, smodify. cbv beta iota zeta.
  set (t' := row_sent _ _ _ t). set (s1 := on_drows _ s).
  assert (sent s1 = sent s) as <- by (apply sent_alter; intros ?; rewrite Et; by intros [= <-]).
  unfold try_all, scatch. unfold sbind at 1. assert (within sends_no (create_on node id t')) as Hc by dist_tac. specialize (Hc s1).
  destruct (create_on node id t' s1) as [[[r|]|e] s2]; simpl in *; unfold sends_no in Hc; [|lia|case_decide; simpl; lia].
  unfold sbind at 1. assert (within sends_no (answer_of node t' r)) as Ha by dist_tac. specialize (Ha s2).
  destruct (answer_of node t' r s2) as [[[i|]|e] s3]; simpl in *; unfold sends_no in Ha; [|lia|case_decide; simpl; lia].
  etrans; [apply sent_alter_one|]. unfold sent in *. lia.
Qed.
Lemma sent_within {A} (m : st (dist W) A) s r s' : within sends_no m -> m s = (r, s') -> (sent s' <= sent s)%nat.
Proof. intros Hm E. specialize (Hm s). by rewrite E in Hm. Qed.
Lemma sent_submit_run id n s r s' : node_submit_task id n s = (r, s') -> (sent s' <= S (sent s))%nat.
Proof. intros E. pose proof (sent_submit id n s) as Hs. by rewrite E in Hs. Qed.

Lemma sent_push name n push pend all l limit s r s' : (limit < pend)%nat ->
  push_pending name n push pend all l limit s = (r, s') ->
  match r with
  | Ok (lim, stop) => (limit <= lim <= pend)%nat /\ (stop = false -> (lim < pend)%nat) /\ (sent s' <= sent s + (lim - limit))%nat
  | Raise _ => (sent s' <= sent s + (pend - limit))%nat
  end.
Proof.
  revert limit s r s'. induction l as [|x l IH]; intros limit s r s' Hlt E; cbn [push_pending] in E; [unfold sret in E; simplify_eq/=; split_and!; intros; lia|].
  unfold sbind at 1 in E. destruct (prepare_row name x s) as [[o|e] s1] eqn:Ea;
    (apply sent_within in Ea; [|by dist_tac]); [|simplify_eq/=; lia].
  assert (forall r s', push_pending name n push pend all l limit s1 = (r, s') -> match r with
    | Ok (lim, stop) => (limit <= lim <= pend)%nat /\ (stop = false -> (lim < pend)%nat) /\ (sent s' <= sent s + (lim - limit))%nat
    | Raise _ => (sent s' <= sent s + (pend - limit))%nat end) as Hskip.
  { intros r' s2 Er. specialize (IH limit s1 r' s2 Hlt Er). destruct r' as [[lim stop]|]; [destruct IH as (? & ? & ?); split_and!|]; intros; auto || lia. }
  destruct o as [[row force]|]; [|by apply Hskip]. destruct (force || push); [|by apply Hskip]. clear Hskip.
  unfold sbind at 1 in E. destruct (node_submit_task row n s1) as [[b|e] s2] eqn:Es; apply sent_submit_run in Es; [|simplify_eq/=; lia].
  unfold sbind at 1 in E. destruct ((if b then main_status (Some x.1) (sent_status name) else sret tt) s2) as [[u|e] s3] eqn:Em;
    (apply sent_within in Em; [|by destruct b; dist_tac]); [|simplify_eq/=; lia].
  case_bool_decide as Hp; unfold sret in E; simpl in E; [simplify_eq/=; split_and!; intros; done || lia|].
  case_bool_decide; [simplify_eq/=; split_and!; intros; done || lia|].
  specialize (IH (S limit) s3 r s' ltac:(lia) E). destruct r as [[lim stop]|]; [destruct IH as (? & ? & ?); split_and!|]; intros; auto || lia.
Qed.
Lemma sent_upload name n pend l limit s : (limit < pend)%nat ->
  (sent (upload_rows name n pend l limit s).2 <= sent s + (pend - limit))%nat.
Proof.
  revert limit s. induction l as [|[row t] l IH]; intros limit s Hlt; cbn [upload_rows]; [simpl; lia|].
  unfold sbind at 1. destruct (node_submit_task row n s) as [[b|e] s1] eqn:Es; apply sent_submit_run in Es; [|simpl; lia].
  unfold sbind at 1. destruct ((if b then main_status (d_main_task_id t) (sent_status name) else delete_row row) s1) as [[u|e] s2] eqn:Em;
    (apply sent_within in Em; [|by destruct b; dist_tac]); [|simpl; lia].
  case_bool_decide; [simpl; lia|]. specialize (IH (S limit) s2). lia.
Qed.

Lemma list_none f o d l d' : list_tasks f o (Some 0%nat) None d = (Ok l, d') -> l = [].
Proof.
  unfold list_tasks, try_sql, scatch, query. destruct (answer (ticks d)); cbn [take]; try (by intros [= <- <-]).
  all: case_match; cbn; by intros [= <- <-].
Qed.

Lemma sent_bind {A B} (m : st (dist W) A) (f : A -> st (dist W) B) k s : within sends_no m ->
  (forall a s', m s = (Ok a, s') -> (sent (f a s').2 <= sent s' + k)%nat) -> (sent (sbind m f s).2 <= sent s + k)%nat.
Proof.
  intros Hm Hf. specialize (Hm s). unfold sbind. destruct (m s) as [[a|e] s']; cbn in *; unfold sends_no in Hm; [|lia].
  specialize (Hf a s' eq_refl). lia.
Qed.

(** One call of [submit_tasks] puts no more tasks on a node than it was asked
    to, however many are pending, pushed at once, or waiting from before. *)
Theorem submit_bounded cfg name pend o push s : (sent (submit_tasks cfg name pend o push s).2 <= sent s + pend)%nat.
Proof.
  unfold submit_tasks. destruct (node_named name s) as [[n node]|]; [|simpl; lia].
  apply sent_bind; [dist_tac|]. intros _ s1 _. apply sent_bind; [dist_tac|]. intros _ s2 _.
  case_bool_decide; [simpl; lia|]. apply sent_bind; [dist_tac|]. intros l s3 E3.
  case_bool_decide as Hl; [simpl; lia|].
  assert (0 < pend)%nat as Hp.
  { destruct pend; [|lia]. destruct Hl. unfold in_main in E3. destruct (list_tasks _ _ _ _ _) as [r d] eqn:Er. simplify_eq.
    by eapply list_none. }
  unfold sbind. destruct (push_pending name n push pend (length l) l 0 s3) as [[[lim stop]|e] s4] eqn:E4;
    (apply sent_push in E4; [|done]); [|simpl; lia].
  destruct E4 as (? & Hs & ?). destruct stop; [simpl; lia|]. specialize (Hs eq_refl).
  simpl. etrans; [by apply sent_upload|]. lia.
Qed.
End sent.

(** ** A node that is down *)

Section down.
Context {W : Type} `{SqlBackend} `{dist_net W}.
Implicit Types (s : dist W) (t : dist_task).

(** Requests raise a connection error, which is an [OSError]; a file of the
    host is opened, or raises one too. *)
Definition node_down (node : dist_node) : Prop :=
  (forall ep t w, exists w', http_create node ep t w = (Raise OSError, w')) /\
  (forall p w, exists w', open_file p w = (Ok tt, w') \/ open_file p w = (Raise OSError, w')).

Lemma fail_row_fine (Hr : reliable) id t m s : d_main_task_id t = Some m ->
  exists s', fail_row id t s = (Ok tt, s') /\
    tasks (main_db s') = alter (apply_status (dist_now (dworld s)) TASK_FAILED_REPORTING) m (tasks (main_db s)).
Proof.
  intros Hm. unfold fail_row. rewrite Hm. unfold sbind, alter_row, smodify. cbv beta iota zeta.
  destruct (main_status_fine Hr (Some m) TASK_FAILED_REPORTING
    (on_drows (alter (row_flags true true (d_notificated t) (d_deleted t)) id) s)) as (d & -> & Hd). by eexists.
Qed.

Lemma create_on_down (Hr : reliable) node id t m x s :
  node_down node -> d_main_task_id t = Some m -> tasks (main_db s) !! m = Some x ->
  exists r s', create_on node id t s = (r, s') /\
    match d_category t with
    | CFile | CPcap => r = Ok None /\ t_status <$> tasks (main_db s') !! m = Some TASK_FAILED_REPORTING
    | CUrl | CStatic => r = Raise OSError /\ main_db s' = main_db s
    end.
Proof.
  intros [Hcreate Hopen] Hm Hx.
  assert (forall s2, tasks (main_db s2) = tasks (main_db s) -> exists s', sbind (fail_row id t) (fun _ => sret None) s2 = (@Ok (option submit_answer) None, s') /\
    t_status <$> tasks (main_db s') !! m = Some TASK_FAILED_REPORTING) as Hfail.
  { intros s2 E. destruct (fail_row_fine Hr id t m s2 Hm) as (s' & Hs & Hs'). exists s'. unfold sbind. rewrite Hs. split; [done|].
    by rewrite Hs', lookup_alter_eq, E, Hx. }
  assert (forall s2, tasks (main_db s2) = tasks (main_db s) -> exists r s', sbind (fail_row id t) (fun _ => sret None) s2 = (r, s') /\
    r = @Ok (option submit_answer) None /\ t_status <$> tasks (main_db s') !! m = Some TASK_FAILED_REPORTING) as Hfail'.
  { intros s2 E. destruct (Hfail s2 E) as (s' & ? & ?). eauto. }
  unfold create_on. destruct (d_category t).
  1, 3: destruct (on_disk (d_path t) (dworld s)); [|by apply Hfail'].
  1, 2: unfold scatch; unfold sbind at 1 2, world_call; destruct (Hopen (d_path t) (dworld s)) as [w1 [E|E]]; rewrite E; cbn [dworld on_dworld];
    try (match goal with |- context [http_create _ ?ep ?u ?w] => destruct (Hcreate ep u w) as [w2 E2]; rewrite E2 end); by apply Hfail'.
  - unfold sbind, world_call. destruct (Hcreate CreateUrl t (dworld s)) as [w2 ->]. by do 2 eexists.
  - unfold sbind, world_call. destruct (Hopen (d_path t) (dworld s)) as [w1 [E|E]]; rewrite E; cbn [dworld on_dworld]; [|by do 2 eexists].
    destruct (Hcreate CreateStatic t w1) as [w2 ->]. by do 2 eexists.
Qed.

(** A submission to a node that does not answer gives the task up for good
    when it is a file, although another node may be free: the main database has
    it as failed. The task of a URL, or of a static analysis, stays as it is. *)
Theorem node_down_fails_file (Hr : reliable) id n s node t m x :
  dnodes s !! n = Some node -> n_name node <> "master" -> node_down node ->
  drows s !! id = Some t -> d_main_task_id t = Some m -> tasks (main_db s) !! m = Some x ->
  exists s', node_submit_task id n s = (Ok false, s') /\
    match d_category t with
    | CFile | CPcap => t_status <$> tasks (main_db s') !! m = Some TASK_FAILED_REPORTING
    | CUrl | CStatic => main_db s' = main_db s
    end.
Proof.
  intros Hn Hmaster Hdown Ht Hm Hx. unfold node_submit_task. rewrite Hn, Ht, bool_decide_eq_false_2 by done.
  cbv zeta. set (t' := row_sent _ _ _ t). unfold sbind at 1, alter_row at 1, smodify. cbv beta iota zeta.
  set (s1 := on_drows _ s). unfold try_all, scatch, sbind.
  destruct (create_on_down Hr node id t' m x s1) as (r & s' & -> & Hs'); [done..|].
  change (d_category t') with (d_category t) in Hs'. exists s'. destruct (d_category t); destruct Hs' as [-> Hs']; done.
Qed.
End down.

(** ** A report that is fetched *)

Section fetched.
Context {W : Type} `{SqlBackend} `{dist_net W}.
Implicit Types (s : dist W) (t : dist_task).

Lemma remove_one_app x l : x ∉ l -> remove_one x (l ++ [x]) = l.
Proof.
  induction l as [|y l IH]; intros Hx; simpl; [by rewrite bool_decide_eq_true_2|].
  rewrite bool_decide_eq_false_2 by set_solver. f_equal. apply IH. set_solver.
Qed.
Lemma put_once_puts n i s : exists q, put_once n i s = (Ok tt, on_cleaner_queue (fun _ => q) s) /\ (n, i) ∈ q.
Proof.
  unfold put_once, smodify. eexists. split; [done|]. cbn. case_bool_decide; set_solver.
Qed.
Lemma unpack_fine n id t m i c s w2 w3 :
  c <> [] -> unzip_to m c (dworld s) = (Ok tt, w2) -> on_disk (d_path t) w2 = true -> keep_sample (d_path t) m w2 = (Ok tt, w3) ->
  exists q, (n, i) ∈ q /\ unpack_report n id t m i c s =
    (Ok tt, on_drows (alter retrieved_row id) (on_dworld (fun _ => w3) (on_cleaner_queue (fun _ => q) (on_dworld (fun _ => w2) s)))).
Proof.
  intros Hc Hz Hd Hk. unfold unpack_report, scatch. rewrite bool_decide_eq_false_2 by done.
  unfold sbind at 1 2. unfold sbind at 1, world_call. rewrite Hz.
  destruct (put_once_puts n i (on_dworld (fun _ => w2) s)) as (q & -> & Hq). exists q. split; [done|].
  unfold sbind. cbn. by rewrite Hd, Hk.
Qed.

(** A report that arrives is unpacked once: the row is finished and
    retrieved, the task is reported in the main database with the time it was
    completed, the task is to be deleted on the node, and it is no longer
    current. *)
Theorem report_fetched (Hr : reliable) s task n q id t m x node c w0 w1 w2 w3 :
  fetcher_queue s = (task, n) :: q -> last_row (waiting n (r_id task)) s = Some (id, t) ->
  d_main_task_id t = Some m -> tasks (main_db s) !! m = Some x -> dnodes s !! n = Some node ->
  http_report node (r_id task) (dworld s) = (Ok (200, c), w0) -> report_folder m w0 = (Ok tt, w1) -> c <> [] -> unzip_to m c w1 = (Ok tt, w2) ->
  on_disk (d_path t) w2 = true -> keep_sample (d_path t) m w2 = (Ok tt, w3) -> r_id task ∉ default [] (current_queue s !! n) ->
  exists s', fetch_iteration false s = (Ok tt, s') /\ drows s' = alter retrieved_row id (drows s) /\
    t_status <$> tasks (main_db s') !! m = Some TASK_REPORTED /\
    t_completed_on <$> tasks (main_db s') !! m = Some (Some (dist_now (dworld s))) /\
    (n, r_id task) ∈ cleaner_queue s' /\ default [] (current_queue s' !! n) = default [] (current_queue s !! n).
Proof.
  intros Hq Hl Hm Hx Hn Hw Hfold Hc Hz Hd Hk Hnot. unfold fetch_iteration. rewrite Hq. unfold sbind at 1 2, smodify. cbv beta iota zeta.
  set (s1 := on_current_queue _ _). unfold sbind at 1, try_all, scatch, fetch_report.
  change (last_row (waiting n (r_id task)) s1) with (last_row (waiting n (r_id task)) s). rewrite Hl, Hm.
  destruct (main_status_fine Hr (Some m) TASK_DISTRIBUTED_COMPLETED s1) as (d & Hd1 & Hdt).
  set (s2 := on_main_db (fun _ => d) s1) in *.
  destruct (main_status_fine Hr (Some m) TASK_REPORTED s2) as (d2 & Hd2 & Hdt2).
  set (s3 := on_main_db (fun _ => d2) s2) in *.
  unfold sbind at 1. rewrite Hd1. unfold sbind at 1. rewrite Hd2. cbv beta. change (dnodes s3) with (dnodes s). rewrite Hn.
  unfold sbind at 1, node_get_report, try_all, scatch. unfold sbind at 1, world_call.
  change (dworld s3) with (dworld s). rewrite Hw. cbn [sret]. rewrite bool_decide_eq_false_2 by (intros Hne; by destruct Hne).
  change (default 0 (Some m)) with m. unfold sbind at 1. unfold sbind at 1, world_call. cbn [dworld on_dworld]. rewrite Hfold.
  destruct (unpack_fine n id t m (r_id task) c (on_dworld (fun _ => w1) (on_dworld (fun _ => w0) s3)) w2 w3) as (qc & Hin & Hu); [done..|].
  rewrite Hu. eexists. split; [reflexivity|]. cbn. split_and!; [done| | |done|].
  - rewrite Hdt2. cbn. rewrite Hdt. cbn. by rewrite !lookup_alter_eq, Hx.
  - rewrite Hdt2. cbn. rewrite Hdt. cbn. by rewrite !lookup_alter_eq, Hx.
  - rewrite lookup_alter_eq, lookup_insert_eq. cbn. by rewrite remove_one_app.
Qed.
End fetched.

(** ** An example *)

(** A world that is the code with which every report is answered; the node
    accepts no task. *)
#[local] Instance demo_net : dist_net Z :=
  {| dist_now := fun _ => 100; http_create := fun _ _ _ w => (Raise OSError, w); http_status := fun _ w => (Ok None, w);
     http_list := fun _ _ _ w => (Ok (200, Ok []), w); http_report := fun _ _ w => (Ok (w, B "zip"), w);
     http_delete_many := fun _ _ w => (Ok 200, w); http_callback := fun _ _ w => (Ok true, w); on_disk := fun _ _ => true;
     open_file := fun _ w => (Ok tt, w); http_machines := fun _ w => (Ok [], w); copy_report := fun _ _ _ w => (Ok true, w); report_folder := fun _ w => (Ok tt, w);
     unzip_to := fun _ _ w => (Ok tt, w); keep_sample := fun _ _ w => (Ok tt, w);
     drop_report := fun _ w => (Ok tt, w) |}.
Definition demo_worker : dist_node :=
  {| n_name := "worker"; n_url := "http://10.0.0.2"; n_apikey := "key"; n_enabled := true; n_last_check := None |}.
Definition demo_task : Task := example_task 1 10 None None [] TASK_DISTRIBUTED.
Definition demo_row (main_id : Z) : dist_task :=
  row_sent "" (Some 1) (Some 5) (new_row main_id demo_task []).
Definition demo_dist (code : Z) : dist Z :=
  {| drows := {[7 := demo_row 1]}; dnodes := {[1 := demo_worker]}; dvms := []; main_db := set_tasks (fun _ => {[1 := demo_task]}) empty_db;
     dworld := code; cleaner_queue := []; fetcher_queue := [({| r_id := 5; r_completed_on := Some 90 |}, 1)]; current_queue := ∅; t_is_none := ∅;
     last_checks := ∅; dead_checks := ∅; server_tags := ∅; statuses := []; failed_count := ∅; minimum_queue := ∅ |}.

(** A machine with the tags x64 and office is given a task that wants win10 as
    well. *)
Example tags_over_match :
  tags_query (fun a b => bool_decide (a = b)) (vm_combinations [{| vm_node := 1; vm_name := "win7"; vm_platform := "windows"; vm_tags := ["x64"; "office"] |}] 1) (tags_text ["win10"; "office"; "x64"]) = true.
Proof. reflexivity. Qed.

Lemma demo_rows_ok code : rows_ok (drows (demo_dist code)).
Proof. apply map_Forall_singleton. apply row_ok_sent, row_ok_new. Qed.

Lemma rows_invariant_witness :
  let B := always_fine in
  rows_ok (drows (run_ops [Fetcher 1; FetchReport false; NotificationLoop ["http://10.0.0.3"]; RemoveFromWorker {[1 := demo_worker]}] (demo_dist 200))).
Proof. intros B. apply rows_invariant, demo_rows_ok. Defined.

Lemma failed_fetch_stuck_witness :
  let B := always_fine in
  let s' := (fetch_iteration false (demo_dist 500)).2 in
  t_status <$> tasks (main_db s') !! 1 = Some TASK_REPORTED /\ drows s' = drows (demo_dist 500) /\
  stuck 1 5 (run_ops [Fetcher 1; FetchReport true; CronCleaner None] s').
Proof.
  intros B. apply (failed_fetch_stuck always_fine_reliable (demo_dist 500) {| r_id := 5; r_completed_on := Some 90 |} 1 [] 7 (demo_row 1) 1 demo_worker
    (Ok (500, Prelude.B "zip")) 500); try (vm_compute; reflexivity); [set_solver|by eexists|simpl; lia].
Defined.

Lemma node_down_fails_file_witness :
  let B := always_fine in
  exists s', node_submit_task 7 1 (demo_dist 200) = (Ok false, s') /\ t_status <$> tasks (main_db s') !! 1 = Some TASK_FAILED_REPORTING.
Proof.
  intros B. apply (node_down_fails_file always_fine_reliable 7 1 (demo_dist 200) demo_worker (demo_row 1) 1 demo_task); try (vm_compute; reflexivity); [done|].
  split; intros; eexists; [reflexivity|left; reflexivity].
Defined.

Lemma report_fetched_witness :
  let B := always_fine in
  exists s', fetch_iteration false (demo_dist 200) = (Ok tt, s') /\ drows s' = alter retrieved_row 7 (drows (demo_dist 200)) /\
    t_status <$> tasks (main_db s') !! 1 = Some TASK_REPORTED /\ t_completed_on <$> tasks (main_db s') !! 1 = Some (Some (dist_now (dworld (demo_dist 200)))) /\
    (1, 5) ∈ cleaner_queue s' /\ default [] (current_queue s' !! 1) = default [] (current_queue (demo_dist 200) !! 1).
Proof.
  intros B. apply (report_fetched always_fine_reliable (demo_dist 200) {| r_id := 5; r_completed_on := Some 90 |} 1 [] 7 (demo_row 1) 1 demo_task demo_worker
    (Prelude.B "zip") 200 200 200 200); try (vm_compute; reflexivity); [done|set_solver].
Defined.
