(* ===== verification/Machinery.v ===== *)
(** The base class of the machine managers (class Machinery of
    lib/cuckoo/common/abstracts.py), and the state of one analysis thread, which calls
    it. *)
From S2P Require Import Prelude Database TaskQueue.
Open Scope Z_scope.

(** ** The world of an analysis thread *)

(** A command to the rooter, and its answer. An argument may be [None], which
    the rooter does not accept. *)
Record rooter_cmd := { rc_name : string; rc_args : list (option string) }.
Record rooter_reply := { rr_output : bool; rr_exception : option string }.

#[global] Instance rooter_cmd_eq_dec : EqDecision rooter_cmd.
Proof. solve_decision. Defined.

(** Calls that leave the modelled code. *)
Inductive event :=
| EvStart (label : string) | EvStop (label : string) | EvDump (label : string)
| EvAuxInit | EvAuxStart | EvAuxStop
| EvGuestStart | EvGuestWait
| EvAddTask (ip : string) | EvDelTask (ip : string)
| EvReadTarget (path : string) | EvCopy (src dst : string) | EvMkdir (path : string) | EvSymlink (dst : string)
| EvRmtree (path : string) | EvQueueError (e : exn)
| EvLock | EvRelease | EvSleep | EvStatus (label : string)
| EvRooter (c : rooter_cmd).

#[global] Instance event_eq_dec : EqDecision event.
Proof. solve_decision. Defined.

(** One analysis: the shared database, the machine lock as this thread holds
    it, the paths that exist, the fields of the AnalysisManager object, the
    variables of [launch_analysis] that its handlers read, and the calls made. *)
Record analysis := {
  an_db : Database; an_lock : bool; an_files : gset string;
  an_task_id : Z; an_task : Task; an_machine : option (Z * Machine);
  an_binary : string; an_interface : option string; an_rt_table : option string; an_route : option string;
  an_response : option rooter_reply;
  an_unlocked : bool; an_dead : bool; an_guest_log : option (option Z);
  an_trace : list event; an_time : nat }.

(** What answers the calls: the [n]-th call returns or raises, [rooter_says]
    is the answer to a command ([None]: the rooter cannot be reached), and
    [others] is what the other threads do to the database while this one
    sleeps. *)
Class Outside := {
  responds : nat -> event -> option exn;
  rooter_says : nat -> rooter_cmd -> option rooter_reply;
  others : nat -> Database -> Database;
  time_at : nat -> Z;
  vm_status : nat -> string -> res string;
  sha256_at : nat -> string -> string;
  listed_vms : option (list string);       (** [None]: [_list] is not implemented *)
  vm_state_timeout : Z;
  stopped_states : list string }.

Definition an_set_db (d : Database) (a : analysis) : analysis :=
  {| an_db := d; an_lock := an_lock a; an_files := an_files a; an_task_id := an_task_id a; an_task := an_task a;
     an_machine := an_machine a; an_binary := an_binary a; an_interface := an_interface a;
     an_rt_table := an_rt_table a; an_route := an_route a; an_response := an_response a;
     an_unlocked := an_unlocked a; an_dead := an_dead a; an_guest_log := an_guest_log a;
     an_trace := an_trace a; an_time := an_time a |}.
Definition an_set_lock (b : bool) (a : analysis) : analysis :=
  {| an_db := an_db a; an_lock := b; an_files := an_files a; an_task_id := an_task_id a; an_task := an_task a;
     an_machine := an_machine a; an_binary := an_binary a; an_interface := an_interface a;
     an_rt_table := an_rt_table a; an_route := an_route a; an_response := an_response a;
     an_unlocked := an_unlocked a; an_dead := an_dead a; an_guest_log := an_guest_log a;
     an_trace := an_trace a; an_time := an_time a |}.
Definition an_set_files (f : gset string) (a : analysis) : analysis :=
  {| an_db := an_db a; an_lock := an_lock a; an_files := f; an_task_id := an_task_id a; an_task := an_task a;
     an_machine := an_machine a; an_binary := an_binary a; an_interface := an_interface a;
     an_rt_table := an_rt_table a; an_route := an_route a; an_response := an_response a;
     an_unlocked := an_unlocked a; an_dead := an_dead a; an_guest_log := an_guest_log a;
     an_trace := an_trace a; an_time := an_time a |}.
Definition an_set_machine (m : option (Z * Machine)) (a : analysis) : analysis :=
  {| an_db := an_db a; an_lock := an_lock a; an_files := an_files a; an_task_id := an_task_id a; an_task := an_task a;
     an_machine := m; an_binary := an_binary a; an_interface := an_interface a;
     an_rt_table := an_rt_table a; an_route := an_route a; an_response := an_response a;
     an_unlocked := an_unlocked a; an_dead := an_dead a; an_guest_log := an_guest_log a;
     an_trace := an_trace a; an_time := an_time a |}.
Definition an_set_task (t : Task) (a : analysis) : analysis :=
  {| an_db := an_db a; an_lock := an_lock a; an_files := an_files a; an_task_id := an_task_id a; an_task := t;
     an_machine := an_machine a; an_binary := an_binary a; an_interface := an_interface a;
     an_rt_table := an_rt_table a; an_route := an_route a; an_response := an_response a;
     an_unlocked := an_unlocked a; an_dead := an_dead a; an_guest_log := an_guest_log a;
     an_trace := an_trace a; an_time := an_time a |}.
Definition an_set_binary (b : string) (a : analysis) : analysis :=
  {| an_db := an_db a; an_lock := an_lock a; an_files := an_files a; an_task_id := an_task_id a; an_task := an_task a;
     an_machine := an_machine a; an_binary := b; an_interface := an_interface a;
     an_rt_table := an_rt_table a; an_route := an_route a; an_response := an_response a;
     an_unlocked := an_unlocked a; an_dead := an_dead a; an_guest_log := an_guest_log a;
     an_trace := an_trace a; an_time := an_time a |}.
Definition an_set_route (route interface rt_table : option string) (a : analysis) : analysis :=
  {| an_db := an_db a; an_lock := an_lock a; an_files := an_files a; an_task_id := an_task_id a; an_task := an_task a;
     an_machine := an_machine a; an_binary := an_binary a; an_interface := interface;
     an_rt_table := rt_table; an_route := route; an_response := an_response a;
     an_unlocked := an_unlocked a; an_dead := an_dead a; an_guest_log := an_guest_log a;
     an_trace := an_trace a; an_time := an_time a |}.
Definition an_set_response (r : option rooter_reply) (a : analysis) : analysis :=
  {| an_db := an_db a; an_lock := an_lock a; an_files := an_files a; an_task_id := an_task_id a; an_task := an_task a;
     an_machine := an_machine a; an_binary := an_binary a; an_interface := an_interface a;
     an_rt_table := an_rt_table a; an_route := an_route a; an_response := r;
     an_unlocked := an_unlocked a; an_dead := an_dead a; an_guest_log := an_guest_log a;
     an_trace := an_trace a; an_time := an_time a |}.
Definition an_set_locals (unlocked dead : bool) (guest_log : option (option Z)) (a : analysis) : analysis :=
  {| an_db := an_db a; an_lock := an_lock a; an_files := an_files a; an_task_id := an_task_id a; an_task := an_task a;
     an_machine := an_machine a; an_binary := an_binary a; an_interface := an_interface a;
     an_rt_table := an_rt_table a; an_route := an_route a; an_response := an_response a;
     an_unlocked := unlocked; an_dead := dead; an_guest_log := guest_log;
     an_trace := an_trace a; an_time := an_time a |}.
Definition an_log (e : event) (a : analysis) : analysis :=
  {| an_db := an_db a; an_lock := an_lock a; an_files := an_files a; an_task_id := an_task_id a; an_task := an_task a;
     an_machine := an_machine a; an_binary := an_binary a; an_interface := an_interface a;
     an_rt_table := an_rt_table a; an_route := an_route a; an_response := an_response a;
     an_unlocked := an_unlocked a; an_dead := an_dead a; an_guest_log := an_guest_log a;
     an_trace := an_trace a ++ [e]; an_time := S (an_time a) |}.

Section calls.
Context `{SqlBackend} `{Outside}.

(** A call that leaves the modelled code. *)
Definition call (e : event) : st analysis unit := fun a =>
  match responds (an_time a) e with
  | None => (Ok tt, an_log e a)
  | Some x => (Raise x, an_log e a)
  end.

(** A call of the database, at the current time. *)
Definition on_db {A} (m : Z -> st Database A) : st analysis A := fun a =>
  let '(r, d) := m (time_at (an_time a)) (an_db a) in (r, an_set_db d a).

(** [rooter(name, *args)]. *)
Definition rooter (name : string) (args : list (option string)) : st analysis (option rooter_reply) := fun a =>
  let c := {| rc_name := name; rc_args := args |} in
  (Ok (rooter_says (an_time a) c), an_log (EvRooter c) a).

(** ** Machinery *)

Definition machines_ : st analysis (list (Z * Machine)) := on_db (fun _ => list_machines false "" []).
Definition availables : st analysis Z := on_db (fun _ => count_machines_available).
Definition running : st analysis (list (Z * Machine)) := on_db (fun _ => list_machines true "" []).

Definition acquire (machine_id platform : option string) (tags : list string) : st analysis (option (Z * Machine)) :=
  on_db (fun now =>
    if truthy machine_id then lock_machine now machine_id None []
    else if truthy platform then lock_machine now None platform tags
    else lock_machine now None None tags).

Definition release (label : string) : st analysis unit :=
  do* on_db (fun now => unlock_machine now label) in sret tt.

Definition set_vm_status (label : string) (status : option string) : st analysis unit :=
  on_db (fun now => set_machine_status now label status).

(** [_status], which a manager may not implement ([NameError] never is). *)
Definition status_of (label : string) : st analysis string := fun a =>
  (vm_status (an_time a) label, an_log (EvStatus label) a).

(** The loop of [_wait_status]: it gives up after the configured number of
    rounds, and the fuel is one more than that. *)
Fixpoint wait_loop (fuel : nat) (waitme : Z) (label : string) (states : list string) (current : string)
    : st analysis unit :=
  if bool_decide (current ∈ states) then sret tt
  else
    match fuel with
    | O => sraise OutOfFuel
    | S fuel' =>
        if vm_state_timeout <? waitme then sraise CuckooMachineError
        else
          let* current := status_of label in
          wait_loop fuel' (waitme + 1) label states current
    end.

Definition wait_fuel : nat := S (Z.to_nat (vm_state_timeout + 1)).

Definition _wait_status (label : string) (states : list string) : st analysis unit :=
  let* current := scatch (let* s := status_of label in sret (Some s))
                    (fun e => if decide (e = NameError) then Some (sret None) else None) in
  match current with
  | None => sret tt
  | Some c => wait_loop wait_fuel 0 label states c
  end.

Fixpoint shutdown_loop (ms : list (Z * Machine)) : st analysis unit :=
  match ms with
  | [] => sret tt
  | (_, m) :: ms' =>
      do* scatch (call (EvStop (m_label m)))
            (fun e => if decide (e = CuckooMachineError) then Some (sret tt) else None) in
      shutdown_loop ms'
  end.

Definition shutdown : st analysis unit :=
  let* n := running in
  if bool_decide (n <> []) then
    do* running in                    (* the log line *)
    let* ms := running in
    shutdown_loop ms
  else sret tt.

(** The options of one machine in the configuration of the manager; a missing
    key raises [KeyError]. *)
Definition need (o : gmap string string) (k : string) : res string := of_option KeyError (o !! k).

Definition strip (s : string) : string := text (strip_ws (B s)).

(** [rs_ip] and [rs_port] are the addresses of the result server, which the
    options may override; those two are not stripped. *)
Definition load_machine (id : string) (mmanager o : gmap string string) (rs_ip rs_port : string) : st Database unit :=
  let* label := slift (need o "label"%string) in
  let* platform := slift (need o "platform"%string) in
  let* ip := slift (need o "ip"%string) in
  let* arch := slift (need o "arch"%string) in
  let interface := if truthy (o !! "interface"%string) then o !! "interface"%string else mmanager !! "interface"%string in
  add_machine (strip id) (strip label) (strip arch) (strip ip) (strip platform)
    (strip <$> o !! "tags"%string) (strip <$> interface) (strip <$> o !! "snapshot"%string)
    (default rs_ip (o !! "resultserver_ip"%string)) (default rs_port (o !! "resultserver_port"%string)).

(** A section that does not exist is a [CuckooOperationalError], which skips
    the machine. *)
Fixpoint _initialize (ids : list string) (mmanager : gmap string string) (sections : gmap string (gmap string string))
    (rs_ip rs_port : string) : st Database unit :=
  match ids with
  | [] => sret tt
  | id :: ids' =>
      do* scatch
        (match sections !! strip id with
         | None => sraise CuckooOperationalError
         | Some o => load_machine id mmanager o rs_ip rs_port
         end)
        (fun e => if bool_decide (e = AttributeError) || is_operational e then Some (sret tt) else None) in
      _initialize ids' mmanager sections rs_ip rs_port
  end.

(** Machines that are not powered off are stopped. *)
Fixpoint check_loop (vms : list string) (ms : list (Z * Machine)) : st analysis unit :=
  match ms with
  | [] => sret tt
  | (_, m) :: ms' =>
      let* off := (if bool_decide (m_label m ∈ vms) then
                     let* s := status_of (m_label m) in sret (bool_decide (s ∈ stopped_states))
                   else sret false) in
      do* (if off : bool then sret tt
           else scatch (call (EvStop (m_label m)))
                  (fun e => if decide (e = CuckooMachineError) then Some (sraise CuckooCriticalError) else None)) in
      check_loop vms ms'
  end.

Definition _initialize_check : st analysis unit :=
  match listed_vms with
  | None => sret tt
  | Some vms =>
      let* ms := machines_ in
      do* check_loop vms ms in
      if vm_state_timeout =? 0 then sraise CuckooCriticalError else sret tt
  end.

(** ** Waiting for a state *)

(** The manager's own exceptions are not ours. *)
Definition status_fine : Prop := forall n l, vm_status n l <> Raise OutOfFuel.

(** The state [a'] is [a] after [n] questions for the status of [label], the
    last one answered by [s]. *)
Definition asked (label : string) (n : nat) (a a' : analysis) : Prop :=
  an_trace a' = an_trace a ++ replicate n (EvStatus label) /\ an_db a' = an_db a /\
  an_time a' = (an_time a + n)%nat.

Lemma asked_one label a r a' :
  status_of label a = (r, a') -> r = vm_status (an_time a) label /\ asked label 1 a a'.
Proof. unfold status_of, asked. intros [= <- <-]. split_and!; simpl; try done. lia. Qed.

Lemma asked_trans label n n' a a' a'' : asked label n a a' -> asked label n' a' a'' -> asked label (n + n') a a''.
Proof.
  intros (T1 & D1 & C1) (T2 & D2 & C2). unfold asked.
  split_and!; [by rewrite T2, T1, replicate_add, app_assoc|congruence|lia].
Qed.

Lemma wait_loop_spec (Hf : status_fine) label states fuel waitme current a r a' :
  (Z.to_nat (vm_state_timeout + 1 - waitme) < fuel)%nat -> 0 <= waitme ->
  wait_loop fuel waitme label states current a = (r, a') ->
  exists n, asked label n a a' /\ (n <= Z.to_nat (vm_state_timeout + 1 - waitme))%nat /\ r <> Raise OutOfFuel /\
    (r = Ok tt -> (n = 0%nat /\ current ∈ states) \/
                  exists s, vm_status (an_time a + n - 1) label = Ok s /\ s ∈ states).
Proof.
  revert waitme current a. induction fuel as [|fuel IH]; intros waitme current a Hn Hw E; [lia|].
  cbn [wait_loop] in E. case_bool_decide as Hc.
  - unfold sret in E. simplify_eq. exists 0%nat. unfold asked. rewrite app_nil_r.
    split_and!; try done; try lia. by left.
  - destruct (Z.ltb_spec vm_state_timeout waitme) as [Hto|Hto].
    + unfold sraise in E. simplify_eq. exists 0%nat. unfold asked. rewrite app_nil_r. split_and!; try done; try lia.
    + apply sbind_inv in E as [(s & a1 & E1 & E)|(e & E1 & ->)].
      * apply asked_one in E1 as [Hs A1]. apply IH in E as (n & A & Hle & Hne & Hok); [|lia..].
        exists (1 + n)%nat. split_and!; [by eapply asked_trans|lia|done|]. intros Hr. right.
        destruct A1 as (_ & _ & C1). rewrite C1 in Hok. destruct (Hok Hr) as [[-> Hin]|(s' & Hs' & Hin)].
        -- exists s. split; [|done]. rewrite Hs. f_equal. lia.
        -- exists s'. split; [|done]. rewrite <- Hs'. f_equal. lia.
      * apply asked_one in E1 as [Hs A1]. exists 1%nat. split_and!; [done|lia|intros [= ->]; by eapply Hf|done].
Qed.

(** Waiting for a machine state ends: [_wait_status] asks for the status at most two more
    times than the configured timeout, never runs out of the model's fuel, touches nothing
    else, and returns only if the last answer is one of the wanted states or the manager
    does not implement the question. *)
Theorem wait_status_spec (Hf : status_fine) label states a r a' :
  0 <= vm_state_timeout -> _wait_status label states a = (r, a') ->
  exists n, asked label n a a' /\ Z.of_nat n <= vm_state_timeout + 2 /\ r <> Raise OutOfFuel /\
    (r = Ok tt -> vm_status (an_time a) label = Raise NameError \/
                  exists s, vm_status (an_time a + n - 1) label = Ok s /\ s ∈ states).
Proof.
  intros Ht E. unfold _wait_status in E. apply sbind_inv in E as [(o & a1 & E1 & E)|(e & E1 & ->)].
  - apply scatch_inv in E1 as [(x & E1 & [= ->])|(e & a2 & E1 & [(k & Hk & E2)|(_ & ? & _)])]; [| |done].
    + apply sbind_inv in E1 as [(s & a2 & E1 & E2)|(? & _ & ?)]; [|done].
      unfold sret in E2. simplify_eq. apply asked_one in E1 as [Hs A1].
      apply wait_loop_spec in E as (n & A & Hle & Hne & Hok); [|done|unfold wait_fuel; lia|lia].
      destruct A1 as (T1 & D1 & C1). exists (1 + n)%nat.
      split_and!; [by eapply asked_trans|lia|done|]. intros Hr. right. rewrite C1 in Hok.
      destruct (Hok Hr) as [[-> Hin]|(s' & Hs' & Hin)].
      * exists s. split; [|done]. rewrite Hs. f_equal. lia.
      * exists s'. split; [|done]. rewrite <- Hs'. f_equal. lia.
    + destruct (decide (e = NameError)) as [->|]; simplify_eq. unfold sret in E2, E. simplify_eq.
      apply sbind_inv in E1 as [(? & ? & _ & ?)|(? & E1 & [= ->])]; [done|].
      apply asked_one in E1 as [Hs A1]. exists 1%nat. split_and!; [done|lia|done|]. by left.
  - apply scatch_inv in E1 as [(x & E1 & ?)|(x & a2 & E1 & [(k & Hk & E2)|(Hk & ? & ->)])]; [done| |].
    + destruct (decide (x = NameError)); by simplify_eq.
    + simplify_eq. apply sbind_inv in E1 as [(? & ? & _ & ?)|(? & E1 & [= ->])]; [done|].
      apply asked_one in E1 as [Hs A1]. exists 1%nat. split_and!; [done|lia|intros [= ->]; by eapply Hf|done].
Qed.

End calls.

(** ** Witnesses *)

(** An outside with the given failures and rooter, and no other thread. *)
Definition outside (fails : nat -> event -> option exn) (says : rooter_cmd -> option rooter_reply) : Outside := {|
  responds := fails; rooter_says := fun _ => says; others := fun _ d => d; time_at := Z.of_nat;
  vm_status := fun _ _ => Ok "running"%string; sha256_at := fun _ _ => "abcd"%string;
  listed_vms := None; vm_state_timeout := 300; stopped_states := ["poweroff"%string] |}.
Definition calm : Outside := outside (fun _ _ => None) (fun _ => Some {| rr_output := true; rr_exception := None |}).

(** A thread that has done nothing yet. *)
Definition new_analysis (d : Database) (files : gset string) (id : Z) (t : Task) : analysis := {|
  an_db := d; an_lock := false; an_files := files; an_task_id := id; an_task := t;
  an_machine := None; an_binary := ""; an_interface := None; an_rt_table := None; an_route := None;
  an_response := None; an_unlocked := false; an_dead := false; an_guest_log := None; an_trace := []; an_time := 0 |}.

Lemma calm_status_fine : @status_fine calm.
Proof. intros n l. by cbv. Qed.

Lemma wait_status_spec_witness :
  let B := always_fine in let O := calm in
  let a := new_analysis example_queue ∅ 2 (example_task 2 20 None None [] TASK_RUNNING) in
  exists n, asked "win7" n a (_wait_status "win7" ["poweroff"%string] a).2 /\ Z.of_nat n <= 302 /\
    Raise CuckooMachineError <> Raise OutOfFuel (A := unit) /\
    (Raise CuckooMachineError = Ok tt -> vm_status (an_time a) "win7" = Raise NameError \/
       exists s, vm_status (an_time a + n - 1) "win7" = Ok s /\ s ∈ ["poweroff"%string]).
Proof.
  intros B O a. apply (wait_status_spec calm_status_fine "win7" ["poweroff"%string] a (Raise CuckooMachineError)).
  - cbv. discriminate.
  - vm_compute. reflexivity.
Defined.
