(* ===== verification/Hypervisors.v ===== *)
(** The machine managers: LibVirtMachinery of lib/cuckoo/common/abstracts.py
    with KVM, and VirtualBox, VMware, Proxmox and MultiMachinery of
    modules/machinery/, on the hypervisors, which are interfaces. *)
From S2P Require Import Prelude Database.
Open Scope string_scope.
Open Scope list_scope.
Open Scope Z_scope.

(** ** The hypervisors *)

(** The host: a clock in seconds. *)
Class host (W : Type) := { hv_now : W -> Z; hv_sleep : Z -> st W unit }.

(** libvirt. A connection is a number, a snapshot a name; a failure of the
    library is [ExternalError]. [lv_state] gives the first number of the
    state, if the answer is not empty; [lv_created] is the text of
    [creationTime] in the description of a snapshot. *)
Class libvirt (W : Type) := {
  lv_version : W -> Z;
  lv_open : string -> st W nat;
  lv_close : nat -> st W unit;
  lv_lookup : nat -> string -> st W unit;
  lv_defined : nat -> st W (list string);
  lv_state : string -> st W (option Z);
  lv_snapshot_names : string -> st W (list string);
  lv_find_snapshot : string -> string -> st W string;
  lv_revert : string -> string -> st W unit;
  lv_is_active : string -> st W bool;
  lv_destroy : string -> st W unit;
  lv_has_current : string -> st W bool;
  lv_current : string -> st W string;
  lv_all_snapshots : string -> st W (list string);
  lv_created : string -> string -> st W (option string);
  lv_create_file : string -> st W unit;
  lv_core_dump : string -> string -> st W unit;
  lv_xml_interface : string -> st W (option string) }.

(** Programs of the host: [subprocess.call], [Popen] with [communicate], and
    [Popen] alone; a program that cannot be started is [OSError]. *)
Class programs (W : Type) := {
  call : list string -> st W Z;
  communicate : list string -> st W (Z * string * string);
  popen : list string -> st W nat;
  poll : nat -> st W (option Z);
  terminate_program : nat -> st W unit;
  file_there : string -> W -> bool }.

(** The API of Proxmox. *)
Record px_vm := { px_name : string; px_node : string; px_kind : string; px_id : Z }.
Record px_task := { pt_type : string; pt_status : string; pt_exitstatus : option string }.
Record px_state := { ps_status : string; ps_lock : option string }.
Class proxmox (W : Type) := {
  px_resources : st W (list px_vm);
  px_task_status : string -> string -> st W px_task;
  px_status : px_vm -> st W px_state;
  px_snapshots : px_vm -> st W (list (string * Z));
  px_rollback : px_vm -> string -> st W string;
  px_start : px_vm -> st W string;
  px_stop : px_vm -> st W string }.

(** A manager: the hypervisor, the database and the handles [vms]. *)
Record vmm (W : Type) := { hv : W; vmdb : Database; vms : option (gset string) }.
Arguments hv {W} _. Arguments vmdb {W} _. Arguments vms {W} _.

Definition POWEROFF : string := "poweroff".
Definition RUNNING : string := "running".
Definition PAUSED : string := "paused".
Definition ERROR : string := "machete".
Definition ABORTED : string := "abort".
Definition VB_SAVED : string := "saved".
Definition VB_ABORTED : string := "aborted".

Section managers.
Context {W : Type} `{SqlBackend} `{host W}.

Definition on_hv {A} (m : st W A) : st (vmm W) A := fun s =>
  let '(r, w) := m (hv s) in (r, {| hv := w; vmdb := vmdb s; vms := vms s |}).
Definition on_vmdb {A} (m : Z -> st Database A) : st (vmm W) A := fun s =>
  let '(r, d) := m (hv_now (hv s)) (vmdb s) in (r, {| hv := hv s; vmdb := d; vms := vms s |}).
Definition set_vms (v : option (gset string)) : st (vmm W) unit :=
  smodify (fun s => {| hv := hv s; vmdb := vmdb s; vms := v |}).

Definition record_status (label status : string) : st (vmm W) unit :=
  on_vmdb (fun now => set_machine_status now label (Some status)).
(** [view_machine_by_label(label).snapshot]. *)
Definition machine_row (label : string) : st (vmm W) (option Machine) :=
  let* r := on_vmdb (fun _ => view_machine_by_label label) in sret (snd <$> r).
Definition row_of (o : option Machine) : st (vmm W) Machine := slift (of_option AttributeError o).

(** An exception of class [e] is [CuckooMachineError]. *)
Definition machine_error {A} (e : exn) (m : st (vmm W) A) : st (vmm W) A :=
  scatch m (fun x => if decide (x = e) then Some (sraise CuckooMachineError) else None).

(** ** What the managers share *)

Section shared.
Context (vm_state_timeout : Z).
(** [_wait_status]. *)
Fixpoint vm_wait_loop (fuel : nat) (status : st (vmm W) string) (waitme : Z) (states : list string) (current : string)
    : st (vmm W) unit :=
  if bool_decide (current ∈ states) then sret tt
  else
    match fuel with
    | O => sraise OutOfFuel
    | S fuel' =>
        if vm_state_timeout <? waitme then sraise CuckooMachineError
        else
          do* on_hv (hv_sleep 1) in
          let* current := status in
          vm_wait_loop fuel' status (waitme + 1) states current
    end.
Definition vm_wait_status (status : st (vmm W) string) (states : list string) : st (vmm W) unit :=
  let* current := scatch (let* s := status in sret (Some s))
                    (fun e => if decide (e = NameError) then Some (sret None) else None) in
  match current with
  | None => sret tt
  | Some c => vm_wait_loop (S (Z.to_nat (vm_state_timeout + 1))) status 0 states c
  end.

(** [_initialize_check] of the base class. *)
Fixpoint vm_check_loop (status : string -> st (vmm W) string) (stop : string -> st (vmm W) unit) (stopped configured : list string)
    (ms : list (Z * Machine)) : st (vmm W) unit :=
  match ms with
  | [] => sret tt
  | (_, m) :: ms' =>
      let* off := (if bool_decide (m_label m ∈ configured) then
                     let* s := status (m_label m) in sret (bool_decide (s ∈ stopped))
                   else sret false) in
      do* (if off : bool then sret tt
           else scatch (stop (m_label m)) (fun e => if decide (e = CuckooMachineError) then Some (sraise CuckooCriticalError) else None)) in
      vm_check_loop status stop stopped configured ms'
  end.
Definition vm_initialize_check (list_vms : st (vmm W) (list string)) (status : string -> st (vmm W) string)
    (stop : string -> st (vmm W) unit) (stopped : list string) : st (vmm W) unit :=
  let* configured := list_vms in
  let* ms := on_vmdb (fun _ => list_machines false "" []) in
  do* vm_check_loop status stop stopped configured ms in
  if vm_state_timeout =? 0 then sraise CuckooCriticalError else sret tt.

(** [shutdown] of the base class: it asks three times which machines run. *)
Definition vm_running : st (vmm W) (list (Z * Machine)) := on_vmdb (fun _ => list_machines true "" []).
Fixpoint vm_stop_all (stop : string -> st (vmm W) unit) (ms : list (Z * Machine)) : st (vmm W) unit :=
  match ms with
  | [] => sret tt
  | (_, m) :: ms' =>
      do* scatch (stop (m_label m)) (fun e => if decide (e = CuckooMachineError) then Some (sret tt) else None) in
      vm_stop_all stop ms'
  end.
Definition vm_shutdown (stop : string -> st (vmm W) unit) : st (vmm W) unit :=
  let* n := vm_running in
  if bool_decide (n <> []) then do* vm_running in let* ms := vm_running in vm_stop_all stop ms else sret tt.
End shared.

(** ** LibVirtMachinery *)

Section libvirt_manager.
Context `{libvirt W} (dsn : string) (vm_state_timeout : Z).

(** [self.vms[label]]. *)
Definition vm_handle (label : string) : st (vmm W) unit := fun s =>
  match vms s with
  | None => (Raise TypeError, s)
  | Some v => if bool_decide (label ∈ v) then (Ok tt, s) else (Raise KeyError, s)
  end.
Definition _connect : st (vmm W) nat :=
  if bool_decide (dsn = "") then sraise CuckooMachineError else machine_error ExternalError (on_hv (lv_open dsn)).
Definition _disconnect (conn : nat) : st (vmm W) unit := machine_error ExternalError (on_hv (lv_close conn)).
(** [try: ... except libvirtError: raise CuckooMachineError finally: _disconnect(conn)]. *)
Definition until_closed {A} (conn : nat) (m : st (vmm W) A) : st (vmm W) A :=
  sfinally (machine_error ExternalError m) (_disconnect conn).
Definition with_connection {A} (m : nat -> st (vmm W) A) : st (vmm W) A :=
  let* conn := _connect in until_closed conn (m conn).
(** A call of a domain. *)
Definition domain {A} (label : string) (m : st W A) : st (vmm W) A := do* vm_handle label in on_hv m.

Definition status_text (n : Z) : string :=
  if bool_decide (n = 1) then RUNNING
  else if bool_decide (n = 3) then PAUSED
  else if bool_decide (n = 4 \/ n = 5) then POWEROFF
  else ERROR.
(** [_status]; without an answer the variable is not set. *)
Definition LibVirt_status (label : string) : st (vmm W) string :=
  let* state := with_connection (fun _ => domain label (lv_state label)) in
  match state with
  | None => sraise NameError
  | Some n => do* record_status label (status_text n) in sret (status_text n)
  end.

(** [sorted(all_snapshots, key=..., reverse=True)[0]]: the keys are texts. *)
Fixpoint creation_times (label : string) (l : list string) : st W (list (string * option string)) :=
  match l with
  | [] => sret []
  | s :: l' => let* t := lv_created label s in let* r := creation_times label l' in sret ((s, t) :: r)
  end.
Fixpoint latest (best : string * string) (l : list (string * option string)) : res string :=
  match l with
  | [] => Ok best.1
  | (s, Some t) :: l' => latest (if String.ltb best.2 t then (s, t) else best) l'
  | (_, None) :: _ => Raise TypeError
  end.
Definition newest (l : list (string * option string)) : res string :=
  match l with
  | [] => Raise IndexError
  | [(s, _)] => Ok s
  | (s, Some t) :: l' => latest (s, t) l'
  | (_, None) :: _ => Raise TypeError
  end.
Definition _get_snapshot (label : string) : st (vmm W) (option string) :=
  with_connection (fun _ =>
    let* current := domain label (lv_has_current label) in
    if current then let* s := on_hv (lv_current label) in sret (Some s)
    else
      let* all := on_hv (lv_all_snapshots label) in
      match all with
      | [] => sret None
      | _ => let* times := on_hv (creation_times label all) in slift (match newest times with Ok s => Ok (Some s) | Raise e => Raise e end)
      end).

(** The connection of [start] is not closed where something outside of its
    [try] blocks raises. *)
Definition LibVirt_start (label : string) : st (vmm W) unit :=
  let* status := LibVirt_status label in
  if bool_decide (status <> POWEROFF) then sraise CuckooMachineError
  else
    let* conn := _connect in
    let* vm_info := machine_row label in
    let* snapshot_list := domain label (lv_snapshot_names label) in
    let* info := row_of vm_info in
    let wanted := default "" (m_snapshot info) in
    do* (if bool_decide (wanted <> "" /\ wanted ∈ snapshot_list) then
           until_closed conn
             (do* vm_handle label in
              let* snapshot := on_hv (lv_find_snapshot label wanted) in
              domain label (lv_revert label snapshot))
         else
           let* found := _get_snapshot label in
           match found with
           | Some _ =>
               let* again := _get_snapshot label in
               let* snapshot := slift (of_option AttributeError again) in   (* the log line *)
               until_closed conn (domain label (lv_revert label snapshot))
           | None => do* _disconnect conn in sraise CuckooMachineError
           end) in
    vm_wait_status vm_state_timeout (LibVirt_status label) [RUNNING].

Definition LibVirt_stop (label : string) : st (vmm W) unit :=
  let* status := LibVirt_status label in
  if bool_decide (status = POWEROFF) then sraise CuckooMachineError
  else
    do* with_connection (fun _ =>
          let* active := domain label (lv_is_active label) in
          if active then domain label (lv_destroy label) else sret tt) in
    vm_wait_status vm_state_timeout (LibVirt_status label) [POWEROFF].

Definition LibVirt_dump_memory (label path : string) : st (vmm W) unit :=
  with_connection (fun _ => do* on_hv (lv_create_file path) in domain label (lv_core_dump label path)).
Definition _lookup (label : string) : st (vmm W) unit := with_connection (fun conn => on_hv (lv_lookup conn label)).
Definition LibVirt_list : st (vmm W) (list string) := with_connection (fun conn => on_hv (lv_defined conn)).
Fixpoint lookup_all (ms : list (Z * Machine)) : st (vmm W) (gset string) :=
  match ms with
  | [] => sret ∅
  | (_, m) :: ms' => do* _lookup (m_label m) in let* r := lookup_all ms' in sret ({[m_label m]} ∪ r)
  end.
Definition _fetch_machines : st (vmm W) (gset string) :=
  let* ms := on_vmdb (fun _ => list_machines false "" []) in lookup_all ms.
Definition _version_check (w : W) : bool := 8000 <=? lv_version w.
Definition LibVirt_initialize_check : st (vmm W) unit := fun s =>
  if _version_check (hv s) then
    (let* found := _fetch_machines in
     do* set_vms (Some found) in
     vm_initialize_check vm_state_timeout LibVirt_list LibVirt_status LibVirt_stop [POWEROFF; ABORTED]) s
  else (Raise CuckooMachineError, s).
Definition LibVirt_shutdown : st (vmm W) unit := do* vm_shutdown LibVirt_stop in set_vms None.

(** KVM: the default of [getattr] is computed before the attribute is read,
    and a machine of the database always has the attribute. *)
Definition _get_interface (label : string) : st (vmm W) (option string) := do* _lookup label in on_hv (lv_xml_interface label).
Definition KVM_start (label : string) : st (vmm W) unit :=
  do* LibVirt_start label in
  let* m := machine_row label in
  match m with
  | None => sret tt
  | Some row =>
      do* _get_interface label in
      if truthy (m_interface row) then on_vmdb (fun _ => set_machine_interface label (m_interface row)) else sret tt
  end.
End libvirt_manager.

(** ** VirtualBox *)

Section virtualbox.
Context `{programs W} (vbox_path vbox_mode : string) (vm_state_timeout : Z).

Definition DQUOTE : ascii := "034"%char.
(** [re.match] of VMState=, a quote, a word and a quote, without regard to
    case: the word. *)
Definition is_word (c : ascii) : bool :=
  let n := nat_of_ascii c in
  bool_decide (48 <= n <= 57 \/ 65 <= n <= 90 \/ 97 <= n <= 122 \/ n = 95)%nat.
Fixpoint word_then_quote (acc line : bytes) : option bytes :=
  match line with
  | [] => None
  | c :: line' =>
      if is_word c then word_then_quote (acc ++ [c]) line'
      else if bool_decide (c = DQUOTE) && negb (bool_decide (acc = [])) then Some acc else None
  end.
Definition vmstate_prefix : bytes := B "vmstate=" ++ [DQUOTE].
Definition vmstate_of_line (line : bytes) : option bytes :=
  if has_prefix vmstate_prefix (lower_ascii <$> line) then word_then_quote [] (drop (length vmstate_prefix) line) else None.
(** The last line that matches, in lower case. *)
Definition vmstate (output : string) : option string :=
  last (omap (fun l => lower ∘ text <$> vmstate_of_line l) (split_byte NL (B output))).

Definition VirtualBox_status (label : string) : st (vmm W) string :=
  let* status :=
    scatch (let* p := on_hv (communicate [vbox_path; "showvminfo"; label; "--machinereadable"]) in
            let '(code, output, err) := p in
            sret (if bool_decide (code = 0) then vmstate output else Some ERROR))
           (fun e => if decide (e = OSError) then Some (sret (Some ERROR)) else None) in
  match status with
  | Some s => do* record_status label s in sret s
  | None => sraise CuckooMachineError
  end.

Definition VirtualBox_start (label : string) : st (vmm W) unit :=
  let* status := VirtualBox_status label in
  if bool_decide (status = RUNNING) then sraise CuckooMachineError
  else
    let* vm_info := machine_row label in
    let* info := row_of vm_info in
    let wanted := default "" (m_snapshot info) in
    do* machine_error OSError
      (let* code := on_hv (call ([vbox_path; "snapshot"; label] ++
                                 (if bool_decide (wanted <> "") then ["restore"; wanted] else ["restorecurrent"]))) in
       if bool_decide (code <> 0) then sraise CuckooMachineError else sret tt) in
    do* vm_wait_status vm_state_timeout (VirtualBox_status label) [VB_SAVED] in
    do* machine_error OSError
      (let* p := on_hv (communicate [vbox_path; "startvm"; label; "--type"; vbox_mode]) in
       let '(_, _, err) := p in
       if bool_decide (err <> "") then sraise OSError else sret tt) in
    vm_wait_status vm_state_timeout (VirtualBox_status label) [RUNNING].

(** [while proc.poll() is None]: without a pause once the time is over. *)
Fixpoint poweroff_loop (fuel : nat) (proc : nat) (stop_me : Z) : st W unit :=
  match fuel with
  | O => sraise OutOfFuel
  | S fuel =>
      let* code := poll proc in
      match code with
      | Some _ => sret tt
      | None =>
          if stop_me <? vm_state_timeout then do* hv_sleep 1 in poweroff_loop fuel proc (stop_me + 1)
          else do* terminate_program proc in poweroff_loop fuel proc stop_me
      end
  end.
Definition VirtualBox_stop (fuel : nat) (label : string) : st (vmm W) unit :=
  let* status := VirtualBox_status label in
  if bool_decide (status ∈ [POWEROFF; VB_ABORTED]) then sraise CuckooMachineError
  else
    do* machine_error OSError
      (let* proc := on_hv (popen [vbox_path; "controlvm"; label; "poweroff"]) in
       on_hv (poweroff_loop fuel proc 0)) in
    vm_wait_status vm_state_timeout (VirtualBox_status label) [POWEROFF; VB_ABORTED; VB_SAVED].

(** The text between the first two quotes of each line. *)
Definition vm_of_line (line : bytes) : option string :=
  match split_byte DQUOTE line with
  | _ :: name :: _ => if bool_decide (text name = "<inaccessible>") then None else Some (text name)
  | _ => None
  end.
Definition VirtualBox_list : st (vmm W) (list string) :=
  let* p := machine_error OSError (on_hv (communicate [vbox_path; "list"; "vms"])) in
  let '(_, output, _) := p in
  sret (omap vm_of_line (split_byte NL (B output))).
Definition VirtualBox_dump_memory (label path : string) : st (vmm W) unit :=
  machine_error OSError (do* on_hv (call [vbox_path; "debugvm"; label; "dumpvmcore"; "--filename"; path]) in sret tt).
Definition VirtualBox_initialize_check (fuel : nat) : st (vmm W) unit := fun s =>
  if bool_decide (vbox_path = "") || negb (file_there vbox_path (hv s)) then (Raise CuckooCriticalError, s)
  else vm_initialize_check vm_state_timeout VirtualBox_list VirtualBox_status (VirtualBox_stop fuel) [POWEROFF; VB_ABORTED] s.
End virtualbox.

(** ** VMware *)

Section vmware.
Context `{programs W} (vmrun_path vmware_mode : string).

Definition _snapshot_from_vmx (vmx_path : string) : st (vmm W) (option string) :=
  let* vm_info := machine_row vmx_path in let* info := row_of vm_info in sret (m_snapshot info).
(** [vmx_path in output], of an output that is not empty. *)
Definition _is_running (vmx_path : string) : st (vmm W) bool :=
  let* p := machine_error OSError (on_hv (communicate [vmrun_path; "list"])) in
  let '(_, output, _) := p in
  if bool_decide (output = "") then sraise CuckooMachineError else sret (str_contains vmx_path output).
(** A snapshot that is [None] is no argument of a program. *)
Definition _revert (vmx_path : string) (snapshot : option string) : st (vmm W) unit :=
  machine_error OSError
    (let* s := slift (of_option TypeError snapshot) in
     let* code := on_hv (call [vmrun_path; "revertToSnapshot"; vmx_path; s]) in
     if bool_decide (code <> 0) then sraise CuckooMachineError else sret tt).
Definition VMware_start (vmx_path : string) : st (vmm W) unit :=
  let* snapshot := _snapshot_from_vmx vmx_path in
  let* running := _is_running vmx_path in
  if running then sraise CuckooMachineError
  else
    do* _revert vmx_path snapshot in
    do* on_hv (hv_sleep 3) in
    machine_error OSError
      (let args := [vmrun_path; "start"; vmx_path; vmware_mode] in
       if bool_decide (lower vmware_mode = "gui") then
         let* p := on_hv (communicate args) in
         let '(_, output, _) := p in
         if bool_decide (output <> "") then sraise CuckooMachineError else sret tt
       else do* on_hv (popen args) in sret tt).
Definition VMware_stop (vmx_path : string) : st (vmm W) unit :=
  let* running := _is_running vmx_path in
  if running then
    machine_error OSError
      (let* code := on_hv (call [vmrun_path; "stop"; vmx_path; "hard"]) in
       if bool_decide (code <> 0) then sraise CuckooMachineError else sret tt)
  else sret tt.

Definition _check_vmx (vmx_path : string) : st (vmm W) unit := fun s =>
  if ends_with ".vmx" vmx_path && file_there vmx_path (hv s) then (Ok tt, s) else (Raise CuckooMachineError, s).
(** The result of [_check_snapshot] is not used. *)
Definition _check_snapshot (vmx_path : string) (snapshot : option string) : st (vmm W) bool :=
  let* p := machine_error OSError (on_hv (communicate [vmrun_path; "listSnapshots"; vmx_path])) in
  let '(_, output, _) := p in
  if bool_decide (output = "") then sraise CuckooMachineError
  else slift (match snapshot with Some s => Ok (str_contains s output) | None => Raise TypeError end).
Fixpoint consistency_checks (ms : list (Z * Machine)) : st (vmm W) unit :=
  match ms with
  | [] => sret tt
  | (_, m) :: ms' =>
      let* snapshot := _snapshot_from_vmx (m_label m) in
      do* _check_vmx (m_label m) in
      do* _check_snapshot (m_label m) snapshot in
      consistency_checks ms'
  end.
(** VMware does not list its machines: the base checks return at once. *)
Definition VMware_initialize_check : st (vmm W) unit := fun s =>
  if bool_decide (vmrun_path = "") || negb (file_there vmrun_path (hv s)) then (Raise CuckooMachineError, s)
  else (let* ms := on_vmdb (fun _ => list_machines false "" []) in consistency_checks ms) s.
End vmware.

(** ** Proxmox *)

Section proxmox_manager.
Context `{proxmox W} (vm_state_timeout : Z).

Definition find_vm (label : string) : st (vmm W) px_vm :=
  let* all := machine_error ExternalError (on_hv px_resources) in
  slift (of_option CuckooMachineError (list_find (fun v => px_name v = label) all ≫= fun kv => Some kv.2)).

(** A task of QEMU is called [qm...]. *)
Definition operation_of (t : px_task) : string :=
  if starts_with "qm" (pt_type t) then text (drop 2 (B (pt_type t))) else pt_type t.
(** [wait_for_task]: [None] when the time is over. The operation only decides
    about a warning. *)
Fixpoint task_loop (fuel : nat) (taskid : string) (vm : px_vm) (elapsed : Z) : st (vmm W) (option px_task) :=
  if elapsed <? vm_state_timeout then
    match fuel with
    | O => sraise OutOfFuel
    | S fuel =>
        let* task := machine_error ExternalError (on_hv (px_task_status (px_node vm) taskid)) in
        if bool_decide (pt_status task <> "stopped") then do* on_hv (hv_sleep 1) in task_loop fuel taskid vm (elapsed + 1)
        else
          let* status := machine_error ExternalError (on_hv (px_status vm)) in
          match ps_lock status with
          | Some _ => do* on_hv (hv_sleep 1) in task_loop fuel taskid vm (elapsed + 1)
          | None => sret (Some task)
          end
    end
  else sret None.
Definition wait_for_task (taskid : string) (vm : px_vm) : st (vmm W) (option px_task) :=
  task_loop (Z.to_nat vm_state_timeout) taskid vm 0.
(** What [rollback], [start] and [stop] do with the task. *)
Definition task_done (task : option px_task) : st (vmm W) unit :=
  match task with
  | None => sraise CuckooMachineError
  | Some t =>
      match pt_exitstatus t with
      | None => sraise KeyError
      | Some e => if bool_decide (e <> "OK") then sraise CuckooMachineError else sret tt
      end
  end.

(** The snapshot with the greatest time above 0, the first of several. *)
Definition snap_step (acc : Z * option string) (s : string * Z) : Z * option string :=
  if bool_decide (s.1 = "current") then acc else if acc.1 <? s.2 then (s.2, Some s.1) else acc.
Definition most_recent (l : list (string * Z)) : option string := (fold_left snap_step l (0, None)).2.
Definition find_snapshot (label : string) (vm : px_vm) : st (vmm W) (option string) :=
  let* vm_info := machine_row label in
  let* info := row_of vm_info in
  if truthy (m_snapshot info) then sret (m_snapshot info)
  else let* l := machine_error ExternalError (on_hv (px_snapshots vm)) in sret (most_recent l).

Definition rollback (label : string) (vm : px_vm) : st (vmm W) unit :=
  let* snapshot := find_snapshot label vm in
  if truthy snapshot then
    let* taskid := machine_error ExternalError (on_hv (px_rollback vm (default "" snapshot))) in
    let* task := wait_for_task taskid vm in task_done task
  else sraise CuckooMachineError.
Definition Proxmox_start (label : string) : st (vmm W) unit :=
  let* vm := find_vm label in
  do* rollback label vm in
  let* status := machine_error ExternalError (on_hv (px_status vm)) in
  if bool_decide (ps_status status = "running") then sret tt
  else
    let* taskid := machine_error ExternalError (on_hv (px_start vm)) in
    let* task := wait_for_task taskid vm in task_done task.
Definition Proxmox_stop (label : string) : st (vmm W) unit :=
  let* vm := find_vm label in
  let* taskid := machine_error ExternalError (on_hv (px_stop vm)) in
  let* task := wait_for_task taskid vm in task_done task.
End proxmox_manager.

(** ** MultiMachinery *)

Inductive manager_kind := Kvm | VBox | Vmware | Prox.
(** The modules that [import_plugin] finds here. *)
Definition import_plugin (name : string) : option manager_kind :=
  if bool_decide (name = "kvm") then Some Kvm
  else if bool_decide (name = "virtualbox") then Some VBox
  else if bool_decide (name = "vmware") then Some Vmware
  else if bool_decide (name = "proxmox") then Some Prox
  else None.

(** [_machine_labels], [_machines] and [_machineries]. *)
Record multi := {
  machine_labels : gmap string string; mm_machines : gmap string string; machineries : gmap string manager_kind }.
Definition no_multi : multi := {| machine_labels := ∅; mm_machines := ∅; machineries := ∅ |}.
(** One machinery with its machines, names and labels, in [set_options]. *)
Definition add_entry (mach : string) (m : multi) (nl : string * string) : multi :=
  {| machine_labels := <[nl.2 := nl.1]> (machine_labels m); mm_machines := <[nl.1 := mach]> (mm_machines m); machineries := machineries m |}.
Definition add_machinery (m : multi) (entry : string * list (string * string)) : res multi :=
  match import_plugin entry.1 with
  | None => Raise CuckooCriticalError
  | Some kind =>
      let m' := fold_left (add_entry entry.1) entry.2 m in
      Ok {| machine_labels := machine_labels m'; mm_machines := mm_machines m'; machineries := <[entry.1 := kind]> (machineries m') |}
  end.
Fixpoint multi_set_options (l : list (string * list (string * string))) (m : multi) : res multi :=
  match l with
  | [] => Ok m
  | e :: l' => let! m' := add_machinery m e in multi_set_options l' m'
  end.
(** [None["machinery"]] and [None["module"]] are [TypeError]. *)
Definition module_of (m : multi) (label : string) : res manager_kind :=
  of_option TypeError (name ← machine_labels m !! label; mach ← mm_machines m !! name; machineries m !! mach).

Section multi_manager.
Context `{libvirt W, programs W, proxmox W} (vbox_path vbox_mode vmrun_path vmware_mode : string) (vm_state_timeout : Z) (fuel : nat).
Definition KVM_DSN : string := "qemu:///system".
Definition module_start (k : manager_kind) (label : string) : st (vmm W) unit :=
  match k with
  | Kvm => KVM_start KVM_DSN vm_state_timeout label
  | VBox => VirtualBox_start vbox_path vbox_mode vm_state_timeout label
  | Vmware => VMware_start vmrun_path vmware_mode label
  | Prox => Proxmox_start vm_state_timeout label
  end.
Definition module_stop (k : manager_kind) (label : string) : st (vmm W) unit :=
  match k with
  | Kvm => LibVirt_stop KVM_DSN vm_state_timeout label
  | VBox => VirtualBox_stop vbox_path vm_state_timeout fuel label
  | Vmware => VMware_stop vmrun_path label
  | Prox => Proxmox_stop vm_state_timeout label
  end.
Definition Multi_start (m : multi) (label : string) : st (vmm W) unit :=
  let* k := slift (module_of m label) in module_start k label.
Definition Multi_stop (m : multi) (label : string) : st (vmm W) unit :=
  if bool_decide (label = "") then sret tt else let* k := slift (module_of m label) in module_stop k label.
End multi_manager.
End managers.

(** ** What the hypervisors promise *)

(** [derives w l s]: no revert of [l] is under way, and what is on its disk
    comes from the snapshot [s]. [rolled w t]: the task [t] of Proxmox is a
    rollback of that machine to that snapshot. *)
Class host_view (W : Type) := {
  derives : W -> string -> string -> Prop;
  rolled : W -> string -> option (string * string);
  conns : W -> gset nat }.

Definition keeps_origin `{host_view W} (w w' : W) : Prop :=
  (forall l s, derives w l s -> derives w' l s) /\ (forall t x, rolled w t = Some x -> rolled w' t = Some x).
#[global] Instance keeps_origin_preorder `{host_view W} : PreOrder keeps_origin.
Proof. split; [by intros w|]. intros w1 w2 w3 [H1 H2] [H3 H4]. split; eauto. Qed.
Definition same_conns `{host_view W} (w w' : W) : Prop := conns w' = conns w.
#[global] Instance same_conns_preorder `{host_view W} : PreOrder same_conns.
Proof. split; [by intros w|]. intros w1 w2 w3 H1 H2. unfold same_conns in *. congruence. Qed.
Definition steady `{host_view W} {A} (m : st W A) : Prop := within keeps_origin m /\ within same_conns m /\ never OutOfFuel m.

Class host_laws (W : Type) `{host W, host_view W} := { sleep_steady : forall n, steady (hv_sleep n) }.

(** libvirt: connections are opened and closed, only a revert changes where a
    disk comes from, and a snapshot that is found has the name asked for. *)
Class libvirt_laws (W : Type) `{host_view W, libvirt W} := {
  open_origin : forall d, within keeps_origin (lv_open d);
  open_fuel : forall d, never OutOfFuel (lv_open d);
  open_conns : forall d w, match lv_open d w with
    | (Ok c, w') => c ∉ conns w /\ conns w' = {[c]} ∪ conns w
    | (Raise _, w') => conns w' = conns w end;
  close_origin : forall c, within keeps_origin (lv_close c);
  close_fuel : forall c, never OutOfFuel (lv_close c);
  close_conns : forall c w, match lv_close c w with
    | (Ok _, w') => conns w' = conns w ∖ {[c]}
    | (Raise _, w') => conns w' = conns w end;
  lookup_steady : forall c l, steady (lv_lookup c l);
  defined_steady : forall c, steady (lv_defined c);
  state_steady : forall l, steady (lv_state l);
  names_steady : forall l, steady (lv_snapshot_names l);
  find_steady : forall l s, steady (lv_find_snapshot l s);
  find_name : forall l s w x w', lv_find_snapshot l s w = (Ok x, w') -> x = s;
  revert_conns : forall l s, within same_conns (lv_revert l s);
  revert_fuel : forall l s, never OutOfFuel (lv_revert l s);
  revert_derives : forall l s w w', lv_revert l s w = (Ok tt, w') -> derives w' l s;
  active_steady : forall l, steady (lv_is_active l);
  destroy_steady : forall l, steady (lv_destroy l);
  has_current_steady : forall l, steady (lv_has_current l);
  current_steady : forall l, steady (lv_current l);
  all_steady : forall l, steady (lv_all_snapshots l);
  created_steady : forall l s, steady (lv_created l s);
  create_file_steady : forall p, steady (lv_create_file p);
  core_dump_steady : forall l p, steady (lv_core_dump l p);
  xml_steady : forall l, steady (lv_xml_interface l) }.

(** The commands of VBoxManage and vmrun that restore a snapshot. *)
Definition restoring (args : list string) : bool :=
  match args with _ :: c :: _ => bool_decide (c ∈ ["snapshot"; "revertToSnapshot"]) | _ => false end.
Class programs_laws (W : Type) `{host_view W, programs W} := {
  call_steady : forall args, restoring args = false -> steady (call args);
  call_fuel : forall args, never OutOfFuel (call args);
  communicate_steady : forall args, restoring args = false -> steady (communicate args);
  popen_steady : forall args, restoring args = false -> steady (popen args);
  poll_steady : forall p, steady (poll p);
  terminate_steady : forall p, steady (terminate_program p);
  vbox_restores : forall p l s w w', call [p; "snapshot"; l; "restore"; s] w = (Ok 0, w') -> derives w' l s;
  vbox_restores_current : forall p l w w', call [p; "snapshot"; l; "restorecurrent"] w = (Ok 0, w') -> exists s, derives w' l s;
  vmrun_restores : forall p l s w w', call [p; "revertToSnapshot"; l; s] w = (Ok 0, w') -> derives w' l s }.

(** Proxmox: a rollback that stopped and was OK is done. *)
Class proxmox_laws (W : Type) `{host_view W, proxmox W} := {
  resources_steady : steady px_resources;
  task_steady : forall n t, steady (px_task_status n t);
  status_steady : forall v, steady (px_status v);
  snapshots_steady : forall v, steady (px_snapshots v);
  start_steady : forall v, steady (px_start v);
  stop_steady : forall v, steady (px_stop v);
  rollback_fuel : forall v s, never OutOfFuel (px_rollback v s);
  rollback_rolled : forall v s w t w', px_rollback v s w = (Ok t, w') -> rolled w' t = Some (px_name v, s);
  rolled_derives : forall n t w x w' l s, rolled w t = Some (l, s) -> px_task_status n t w = (Ok x, w') ->
    pt_status x = "stopped" -> pt_exitstatus x = Some "OK" -> derives w' l s }.

(** ** The start of a machine *)

Lemma sfinally_ok_inv {S A} (m : st S A) k s a s' :
  sfinally m k s = (Ok a, s') -> exists s1, m s = (Ok a, s1) /\ k s1 = (Ok tt, s').
Proof. unfold sfinally. destruct (m s) as [r s1]. destruct (k s1) as [[[]|] s2] eqn:E; intros [= -> ->]. by exists s1. Qed.

(** The rows stay, with their labels and snapshots. *)
Definition rows_kept (d d' : Database) : Prop := forall id row, machines d !! id = Some row ->
  exists row', machines d' !! id = Some row' /\ m_label row' = m_label row /\ m_snapshot row' = m_snapshot row.
#[global] Instance rows_kept_preorder : PreOrder rows_kept.
Proof.
  split; [intros d id row ?; by exists row|]. intros d1 d2 d3 H1 H2 id row Hr.
  destruct (H1 id row Hr) as (r2 & E2 & L2 & S2). destruct (H2 id r2 E2) as (r3 & E3 & L3 & S3). exists r3. split_and!; congruence.
Qed.
Lemma altered_rows_kept d d' f : machine_altered d d' f -> (forall m, m_label (f m) = m_label m /\ m_snapshot (f m) = m_snapshot m) -> rows_kept d d'.
Proof.
  intros [E|[i E]] Hf id row Hr; rewrite E; [by exists row|]. destruct (decide (i = id)) as [->|Hne].
  - exists (f row). rewrite lookup_alter_eq, Hr. destruct (Hf row). by split_and!.
  - exists row. by rewrite lookup_alter_ne.
Qed.

Section clean.
Context {W : Type} `{SqlBackend} `{Hhost : host W} `{Hview : !host_view W} `{Hlaws : !host_laws W}.

Definition later (m m' : vmm W) : Prop := keeps_origin (hv m) (hv m') /\ rows_kept (vmdb m) (vmdb m').
#[local] Instance later_preorder : PreOrder later.
Proof using Type. split; [by intros m|]. intros m1 m2 m3 [H1 H2] [H3 H4]. split; by etrans. Qed.

Lemma on_hv_later {A} (m : st W A) : within keeps_origin m -> within later (on_hv m).
Proof using Type. intros Hm s. specialize (Hm (hv s)). unfold on_hv. destruct (m (hv s)) as [r w]. by split. Qed.
Lemma record_later label st : within later (record_status label st).
Proof using Type.
  intros s. unfold record_status, on_vmdb. pose proof (set_status_alters (hv_now (hv s)) label (Some st) (vmdb s)) as Ha.
  destruct (set_machine_status _ _ _ _) as [r d]. split; [done|]. by eapply altered_rows_kept.
Qed.
Lemma interface_later label i : within later (on_vmdb (fun _ => set_machine_interface label i)).
Proof using Type.
  intros s. unfold on_vmdb. pose proof (set_interface_alters label i (vmdb s)) as Ha.
  destruct (set_machine_interface _ _ _) as [r d]. split; [done|]. by eapply altered_rows_kept.
Qed.
Lemma row_later label : within later (machine_row label).
Proof using Type.
  intros s. unfold machine_row, on_vmdb, view_machine_by_label, try_sql, scatch, query, sbind, sret.
  repeat split_match; simplify_eq/=; (split; [done|]); intros id r Hr; by exists r.
Qed.
Lemma row_found label s o s' : machine_row label s = (Ok o, s') ->
  forall row, o = Some row -> exists id, machines (vmdb s') !! id = Some row /\ m_label row = label.
Proof using Type.
  unfold machine_row, on_vmdb, view_machine_by_label, try_sql, scatch, query, sbind, sret. intros E row ->.
  repeat split_match; simplify_eq/=.
  match goal with E : _ <$> first ?p ?n ?t = Some _ |- _ => destruct (first p n t) as [[id r]|] eqn:Ef; simplify_eq/= end.
  apply first_Some in Ef as [Hm Hl]. exists id. split; [done|]. by apply bool_decide_eq_true in Hl.
Qed.
Lemma machine_error_later {A} e (m : st (vmm W) A) : within later m -> within later (machine_error e m).
Proof using Type. intros Hm. apply within_catch; [typeclasses eauto|done|]. intros x k Hk. case_decide; simplify_eq. apply within_raise. typeclasses eauto. Qed.
Lemma machine_error_ok {A} e (m : st (vmm W) A) s a s' : machine_error e m s = (Ok a, s') -> m s = (Ok a, s').
Proof using Type.
  unfold machine_error. intros [(x & E & [= ->])|(x & s1 & E & [(k & Hk & E')|(_ & ? & _)])]%scatch_inv; [done| |done].
  case_decide; by simplify_eq.
Qed.
Lemma wait_later timeout status states : within later status -> within later (vm_wait_status timeout status states).
Proof using Hlaws.
  intros Hs. unfold vm_wait_status. apply within_bind; [typeclasses eauto| |].
  - apply within_catch; [typeclasses eauto|within_tac|]. intros x k Hk. case_decide; simplify_eq. within_tac.
  - intros [c|]; [|within_tac]. generalize 0. generalize (S (Z.to_nat (timeout + 1))). intros fuel. revert c.
    induction fuel as [|fuel IH]; intros c w; cbn [vm_wait_loop]; within_tac. + apply on_hv_later, sleep_steady. + apply IH.
Qed.

(** What is promised when the start of a machine returns: its disk comes from a
    snapshot, the one of the machine's row if that has one, unless [alt]. *)
Definition clean_with (alt : string -> string -> Prop) (label : string) (m : vmm W) : Prop :=
  exists id row s, machines (vmdb m) !! id = Some row /\ m_label row = label /\ derives (hv m) label s /\
    (truthy (m_snapshot row) -> m_snapshot row = Some s \/ alt label (default "" (m_snapshot row))).
Lemma clean_later alt label m m' : clean_with alt label m -> later m m' -> clean_with alt label m'.
Proof using Type.
  intros (id & row & s & Hr & Hl & Hd & Ht) [[Ho _] Hk]. destruct (Hk id row Hr) as (row' & E & L & Sn).
  exists id, row', s. rewrite Sn, L. split_and!; auto.
Qed.
(** A row of that label with that snapshot. *)
Definition has_row (label : string) (snap : option string) (m : vmm W) : Prop :=
  exists id row, machines (vmdb m) !! id = Some row /\ m_label row = label /\ m_snapshot row = snap.
Lemma has_row_later label snap m m' : has_row label snap m -> later m m' -> has_row label snap m'.
Proof using Type.
  intros (id & row & Hr & Hl & Hs) [_ Hk]. destruct (Hk id row Hr) as (row' & E & L & Sn). exists id, row'. split_and!; congruence.
Qed.
Lemma found_has_row label s row s' : machine_row label s = (Ok (Some row), s') -> has_row label (m_snapshot row) s'.
Proof using Type. intros E. destruct (row_found _ _ _ _ E row eq_refl) as (id & Hr & Hl). by exists id, row. Qed.
Lemma row_of_ok o (s : vmm W) row s' : row_of o s = (Ok row, s') -> o = Some row /\ s' = s.
Proof using Type. destruct o; [|done]. by intros [= -> ->]. Qed.
Lemma clean_from alt label snap m x : has_row label snap m -> derives (hv m) label x ->
  (truthy snap -> snap = Some x \/ alt label (default "" snap)) -> clean_with alt label m.
Proof using Type. intros (id & row & Hr & Hl & <-) Hd Ht. by exists id, row, x. Qed.
Lemma within_run {A} (m : st (vmm W) A) s r s' : within later m -> m s = (r, s') -> later s s'.
Proof using Type. intros Hm E. specialize (Hm s). by rewrite E in Hm. Qed.

Ltac ok_inv := repeat match goal with
  | E : sbind _ _ _ = (Ok _, _) |- _ => let a := fresh "x" in let s := fresh "s" in let E' := fresh "E" in
      apply sbind_ok_inv in E as (a & s & E' & E); cbv beta in E
  | E : sret _ _ = (Ok _, _) |- _ => injection E as <- <-
  | E : sraise _ _ = (Ok _, _) |- _ => discriminate E
  | E : slift ?r _ = (Ok _, _) |- _ => unfold slift in E
  | E : (Raise _, _) = (Ok _, _) |- _ => discriminate E
  | E : machine_error _ _ _ = (Ok _, _) |- _ => apply machine_error_ok in E
  end.

Section libvirt_clean.
Context {Hlv : libvirt W} {Hll : libvirt_laws W} (dsn : string) (timeout : Z).

Lemma handle_later label : within later (vm_handle label).
Proof using Type. intros s. unfold vm_handle. by repeat split_match. Qed.
Ltac later_tac := repeat first
  [ within_step | apply on_hv_later | apply machine_error_later | apply record_later | apply row_later | apply handle_later
  | apply open_origin | apply close_origin | apply state_steady | apply names_steady | apply find_steady | apply active_steady
  | apply destroy_steady | apply has_current_steady | apply current_steady | apply all_steady | apply created_steady
  | apply lookup_steady | apply xml_steady ].
Lemma connect_later : within later (_connect dsn).
Proof using Hll. unfold _connect. later_tac. Qed.
Lemma until_closed_later {A} c (m : st (vmm W) A) : within later m -> within later (until_closed c m).
Proof using Hll. intros Hm. unfold until_closed, _disconnect. later_tac. Qed.
Lemma with_connection_later {A} (m : nat -> st (vmm W) A) : (forall c, within later (m c)) -> within later (with_connection dsn m).
Proof using Hll. intros Hm. apply within_bind; [typeclasses eauto|apply connect_later|]. intros c. by apply until_closed_later. Qed.
Lemma status_later label : within later (LibVirt_status dsn label).
Proof using Hll.
  unfold LibVirt_status. apply within_bind; [typeclasses eauto| |intros [n|]; later_tac].
  apply with_connection_later. intros c. unfold domain. later_tac.
Qed.
Lemma creation_times_origin label l : within keeps_origin (creation_times label l).
Proof using Hll. induction l as [|s l IH]; cbn [creation_times]; later_tac; apply created_steady. Qed.
Lemma get_snapshot_later label : within later (_get_snapshot dsn label).
Proof using Hll.
  apply with_connection_later. intros c. unfold domain. later_tac. apply creation_times_origin.
Qed.

Lemma until_closed_ok {A} c (m : st (vmm W) A) s a s' : until_closed c m s = (Ok a, s') -> exists s1, m s = (Ok a, s1) /\ later s1 s'.
Proof using Hll.
  intros (s1 & E & Ec)%sfinally_ok_inv. ok_inv. exists s1. split; [done|].
  eapply within_run; [|exact Ec]. unfold _disconnect. later_tac.
Qed.
Lemma reverted_derives label x s s' : domain label (lv_revert label x) s = (Ok tt, s') ->
  derives (hv s') label x /\ forall snap, has_row label snap s -> has_row label snap s'.
Proof using Hll.
  unfold domain, vm_handle. intros E. ok_inv. repeat (split_match; simplify_eq/=). unfold on_hv in E.
  destruct (lv_revert label x (hv s0)) as [r w] eqn:Er. simplify_eq/=. split; [by apply revert_derives in Er|done].
Qed.

(** The snapshots that libvirt lists for a machine when it is started in [s]: the first steps
    of [start], up to the list. *)
Definition listed_at_start (label : string) : st (vmm W) (list string) :=
  let* _ := LibVirt_status dsn label in
  let* _ := _connect dsn in
  let* _ := machine_row label in
  domain label (lv_snapshot_names label).
(** The alternative of libvirt: in this start it does not list the snapshot of the row. *)
Definition not_listed (s : vmm W) (label wanted : string) : Prop :=
  exists names s', listed_at_start label s = (Ok names, s') /\ wanted ∉ names.

Lemma LibVirt_start_clean label s s' : LibVirt_start dsn timeout label s = (Ok tt, s') -> clean_with (not_listed s) label s'.
Proof using Hll Hlaws.
  unfold LibVirt_start. intros E. apply sbind_ok_inv in E as (status & s1 & E1 & E). case_bool_decide; [done|].
  apply sbind_ok_inv in E as (conn & s2 & E2 & E). apply sbind_ok_inv in E as (o & s3 & E3 & E).
  apply sbind_ok_inv in E as (names & s4 & E4 & E). apply sbind_ok_inv in E as (info & s5 & E5 & E).
  apply sbind_ok_inv in E as ([] & s6 & E6 & E).
  eapply clean_later; [|by eapply within_run; [apply wait_later, status_later|]]. clear E.
  assert (Hlist : listed_at_start label s = (Ok names, s4))
    by (unfold listed_at_start; by rewrite (sbind_ok _ _ _ _ _ E1), (sbind_ok _ _ _ _ _ E2), (sbind_ok _ _ _ _ _ E3)).
  apply row_of_ok in E5 as [-> ->]. apply found_has_row in E3.
  assert (Hr : has_row label (m_snapshot info) s4) by (eapply has_row_later; [exact E3|]; eapply within_run; [|exact E4]; unfold domain; later_tac).
  case_bool_decide as Hw.
  - destruct Hw as [Hne Hin]. apply until_closed_ok in E6 as (s7 & E6 & Hl). eapply clean_later; [|exact Hl]. clear Hl.
    apply sbind_ok_inv in E6 as ([] & s8 & E7 & E6). apply sbind_ok_inv in E6 as (x & s9 & E8 & E6).
    assert (x = default "" (m_snapshot info)) as ->.
    { unfold on_hv in E8. destruct (lv_find_snapshot label _ _) as [r w] eqn:Ef. simplify_eq/=. by apply find_name in Ef. }
    apply reverted_derives in E6 as [Hd Hk]. eapply clean_from; [apply Hk| exact Hd|].
    + eapply has_row_later; [exact Hr|]. etrans; (eapply within_run; [|done]); later_tac.
    + intros Ht. left. destruct (m_snapshot info); [done|]. by destruct Hne.
  - apply sbind_ok_inv in E6 as ([f|] & s7 & E7 & E6); [|ok_inv].
    apply sbind_ok_inv in E6 as (again & s8 & E8 & E6). apply sbind_ok_inv in E6 as (x & s9 & E9 & E6).
    assert (s9 = s8) as -> by (unfold slift in E9; congruence).
    apply until_closed_ok in E6 as (s10 & E6 & Hl). eapply clean_later; [|exact Hl]. clear Hl.
    apply reverted_derives in E6 as [Hd Hk]. eapply clean_from; [apply Hk|exact Hd|].
    + eapply has_row_later; [exact Hr|]. etrans; (eapply within_run; [|done]); apply get_snapshot_later.
    + intros Ht. right. exists names, s4. split; [exact Hlist|].
      intros Hin. apply Hw. split; [|done]. by destruct (m_snapshot info) as [t|]; [apply bool_decide_unpack in Ht|].
Qed.

Lemma KVM_start_clean label s s' : KVM_start dsn timeout label s = (Ok tt, s') -> clean_with (not_listed s) label s'.
Proof using Hll Hlaws.
  unfold KVM_start. intros E. apply sbind_ok_inv in E as ([] & s1 & E1 & E). eapply clean_later; [by eapply LibVirt_start_clean|].
  eapply within_run; [|exact E]. apply within_bind; [typeclasses eauto|apply row_later|]. intros [row|]; [|later_tac].
  unfold _get_interface, _lookup. later_tac; [|apply interface_later]. apply with_connection_later. intros c. later_tac.
Qed.
End libvirt_clean.

Definition never_else (label wanted : string) : Prop := False.

Section programs_clean.
Context {Hpr : programs W} {Hpl : programs_laws W} (vbox_path vbox_mode vmrun_path vmware_mode : string) (timeout : Z).
Ltac prog_tac := repeat first
  [ within_step | apply on_hv_later | apply machine_error_later | apply record_later | apply row_later | apply sleep_steady
  | (apply communicate_steady; reflexivity) | (apply popen_steady; reflexivity) | apply poll_steady | apply terminate_steady ].

Lemma vbox_status_later label : within later (VirtualBox_status vbox_path label).
Proof using Hpl.
  unfold VirtualBox_status. apply within_bind; [typeclasses eauto| |intros [s|]; prog_tac].
  apply within_catch; [typeclasses eauto|prog_tac|]. intros e k Hk. case_decide; simplify_eq. within_tac.
Qed.
(** A call that restores, and what stays. *)
Lemma call_ok args s code s' : on_hv (call args) s = (Ok code, s') -> call args (hv s) = (Ok code, hv s') /\ forall l sn, has_row l sn s -> has_row l sn s'.
Proof using Type. unfold on_hv. destruct (call args (hv s)) as [r w] eqn:E. intros ?. by simplify_eq/=. Qed.

Lemma VirtualBox_start_clean label s s' : VirtualBox_start vbox_path vbox_mode timeout label s = (Ok tt, s') -> clean_with never_else label s'.
Proof using Hpl Hlaws.
  unfold VirtualBox_start. intros E. apply sbind_ok_inv in E as (status & s1 & E1 & E). case_bool_decide; [done|].
  apply sbind_ok_inv in E as (o & s2 & E2 & E). apply sbind_ok_inv in E as (info & s3 & E3 & E). apply row_of_ok in E3 as [-> ->].
  apply found_has_row in E2. apply sbind_ok_inv in E as ([] & s4 & E4 & E). eapply clean_later.
  2:{ eapply within_run; [|exact E]. apply within_bind; [typeclasses eauto|apply wait_later, vbox_status_later|]. intros [].
      apply within_bind; [typeclasses eauto|prog_tac|]. intros []. apply wait_later, vbox_status_later. }
  apply machine_error_ok, sbind_ok_inv in E4 as (code & s5 & E4 & E5). case_bool_decide as Hc; [done|]. injection E5 as <-.
  apply call_ok in E4 as [Ec Hk]. subst code. case_bool_decide as Hw.
  - apply vbox_restores in Ec. eapply clean_from; [by apply Hk|exact Ec|]. intros Ht. left. by destruct (m_snapshot info); [|destruct Hw].
  - apply vbox_restores_current in Ec as [x Hx]. eapply clean_from; [by apply Hk|exact Hx|]. intros Ht. exfalso.
    destruct (m_snapshot info); [by apply bool_decide_unpack in Ht|done].
Qed.

Lemma VMware_start_clean label s s' : VMware_start vmrun_path vmware_mode label s = (Ok tt, s') -> clean_with never_else label s'.
Proof using Hpl Hlaws.
  unfold VMware_start, _snapshot_from_vmx. intros E. apply sbind_ok_inv in E as (snap & s1 & E1 & E).
  apply sbind_ok_inv in E1 as (o & s2 & E1 & E2). apply sbind_ok_inv in E2 as (info & s3 & E3 & E2). apply row_of_ok in E3 as [-> ->].
  injection E2 as <- <-. apply found_has_row in E1. apply sbind_ok_inv in E as (run & s4 & E4 & E). destruct run; [done|].
  assert (Hr : has_row label (m_snapshot info) s4).
  { eapply has_row_later; [exact E1|]. eapply within_run; [|exact E4]. unfold _is_running. prog_tac. }
  apply sbind_ok_inv in E as ([] & s5 & E5 & E). eapply clean_later.
  2:{ eapply within_run; [|exact E]. apply within_bind; [typeclasses eauto|prog_tac|]. intros []. prog_tac. }
  clear E. unfold _revert in E5. apply machine_error_ok, sbind_ok_inv in E5 as (x & s6 & E6 & E5). apply sbind_ok_inv in E5 as (code & s7 & E5 & E7).
  case_bool_decide as Hc; [done|]. injection E7 as <-. subst code.
  unfold slift in E6. destruct (m_snapshot info) as [sn|]; [|done]. injection E6 as -> <-. apply call_ok in E5 as [Ec Hk]. apply vmrun_restores in Ec.
  eapply clean_from; [by apply Hk|exact Ec|]. intros _. by left.
Qed.
End programs_clean.

Section proxmox_clean.
Context {Hpx : proxmox W} {Hxl : proxmox_laws W} (timeout : Z).
Ltac px_tac := repeat first
  [ within_step | apply on_hv_later | apply machine_error_later | apply row_later | apply sleep_steady | apply resources_steady
  | apply task_steady | apply status_steady | apply snapshots_steady | apply start_steady | apply stop_steady ].

Lemma task_loop_later fuel t vm n : within later (task_loop timeout fuel t vm n).
Proof using Hxl Hlaws. revert n. induction fuel as [|fuel IH]; intros n; cbn [task_loop]; px_tac; apply IH. Qed.
(** A task that is done was seen stopped, and its disk is rolled back. *)
Lemma task_loop_done fuel t vm n s x s' l sn : task_loop timeout fuel t vm n s = (Ok (Some x), s') -> rolled (hv s) t = Some (l, sn) ->
  pt_exitstatus x = Some "OK" -> derives (hv s') l sn.
Proof using Hxl Hlaws.
  revert n s. induction fuel as [|fuel IH]; intros n s; cbn [task_loop]; destruct (n <? timeout); try done.
  intros E Hr Hx. apply sbind_ok_inv in E as (y & s1 & E1 & E). apply machine_error_ok in E1.
  assert (H1 : later s s1) by (eapply within_run; [|exact E1]; px_tac). case_bool_decide as Hs.
  - apply sbind_ok_inv in E as ([] & s2 & E2 & E). eapply IH; [exact E| |done].
    assert (H2 : later s1 s2) by (eapply within_run; [|exact E2]; px_tac). apply H2, H1, Hr.
  - apply sbind_ok_inv in E as (ps & s2 & E2 & E). assert (H2 : later s1 s2) by (eapply within_run; [|exact E2]; px_tac).
    destruct (ps_lock ps).
    + apply sbind_ok_inv in E as ([] & s3 & E3 & E). eapply IH; [exact E| |done].
      assert (H3 : later s2 s3) by (eapply within_run; [|exact E3]; px_tac). apply H3, H2, H1, Hr.
    + injection E as -> <-. apply H2. unfold on_hv in E1. destruct (px_task_status (px_node vm) t (hv s)) as [r w] eqn:Et. simplify_eq/=.
      eapply rolled_derives; [done|exact Et| |done]. done.
Qed.
Lemma find_vm_name label s vm s' : find_vm label s = (Ok vm, s') -> px_name vm = label.
Proof using Type.
  unfold find_vm. intros E. apply sbind_ok_inv in E as (all & s1 & _ & E). unfold slift in E.
  destruct (list_find _ all) as [[i v]|] eqn:El; simplify_eq/=. by apply list_find_Some in El as (_ & ? & _).
Qed.

Lemma Proxmox_start_clean label s s' : Proxmox_start timeout label s = (Ok tt, s') -> clean_with never_else label s'.
Proof using Hxl Hlaws.
  unfold Proxmox_start. intros E. apply sbind_ok_inv in E as (vm & s1 & E1 & E). apply find_vm_name in E1 as Hn.
  apply sbind_ok_inv in E as ([] & s2 & E2 & E). eapply clean_later.
  2:{ eapply within_run; [|exact E]. unfold wait_for_task, task_done. px_tac. apply task_loop_later. }
  clear E E1. unfold rollback, find_snapshot in E2. apply sbind_ok_inv in E2 as (snap & s3 & E3 & E2).
  apply sbind_ok_inv in E3 as (o & s4 & E4 & E3). apply sbind_ok_inv in E3 as (info & s5 & E5 & E3). apply row_of_ok in E5 as [-> ->].
  apply found_has_row in E4.
  assert (Hr : has_row label (m_snapshot info) s3 /\ (truthy (m_snapshot info) -> snap = m_snapshot info)).
  { destruct (truthy (m_snapshot info)); [by injection E3 as <- <-|]. split; [|done]. eapply has_row_later; [exact E4|]. eapply within_run; [|exact E3]. px_tac. }
  destruct Hr as [Hr Hsn]. destruct snap as [sn|]; [|done]. destruct (truthy (Some sn)); [|done].
  apply sbind_ok_inv in E2 as (t & s6 & E6 & E2). apply machine_error_ok in E6. apply sbind_ok_inv in E2 as (task & s7 & E7 & E2).
  unfold on_hv in E6. destruct (px_rollback vm _ (hv s3)) as [r w] eqn:Ew. simplify_eq/=. apply rollback_rolled in Ew.
  destruct task as [x|]; [|done]. unfold task_done in E2. destruct (pt_exitstatus x) eqn:Ex; [|done]. case_bool_decide as Hok; [done|]. injection E2 as <-.
  unfold wait_for_task in E7. set (s6 := {| hv := w; vmdb := vmdb s3; vms := vms s3 |}) in *. eapply clean_from.
  - eapply has_row_later; [|eapply within_run; [apply task_loop_later|exact E7]]. exact Hr.
  - eapply task_loop_done; [exact E7|exact Ew|congruence].
  - intros Ht. left. by rewrite <- (Hsn Ht).
Qed.
End proxmox_clean.

(** ** The waits end *)

Lemma on_hv_fuel {A} (m : st W A) : never OutOfFuel m -> never OutOfFuel (on_hv m).
Proof using Type. intros Hm s. specialize (Hm (hv s)). unfold on_hv. by destruct (m (hv s)). Qed.
Lemma on_vmdb_fuel {A} (m : Z -> st Database A) : (forall n, never OutOfFuel (m n)) -> never OutOfFuel (on_vmdb m).
Proof using Type. intros Hm s. unfold on_vmdb. specialize (Hm (hv_now (hv s)) (vmdb s)). by destruct (m _ _). Qed.
Lemma machine_error_fuel {A} e (m : st (vmm W) A) : never OutOfFuel m -> never OutOfFuel (machine_error e m).
Proof using Type. intros Hm. apply never_catch; [done|]. intros x k Hx Hk. case_decide; simplify_eq. by apply never_raise. Qed.
Lemma query_fuel {A} (f : nat -> Database -> A) : never OutOfFuel (query f).
Proof using Type. intros d. unfold query. by destruct (answer _). Qed.
Lemma commit_fuel f : never OutOfFuel (commit f).
Proof using Type. intros d. unfold commit. by destruct (answer _). Qed.
Lemma try_sql_fuel {A} (m k : st Database A) : never OutOfFuel m -> never OutOfFuel k -> never OutOfFuel (try_sql m k).
Proof using Type. intros Hm Hk. apply never_catch; [done|]. intros x k' Hx E. destruct (is_sqlalchemy x); by simplify_eq. Qed.
Lemma finally_fuel {S A} (m : st S A) k : never OutOfFuel m -> never OutOfFuel k -> never OutOfFuel (sfinally m k).
Proof using Type.
  intros Hm Hk s. specialize (Hm s). unfold sfinally. destruct (m s) as [r s1]. specialize (Hk s1). destruct (k s1) as [[]]; simpl in *; congruence.
Qed.
Lemma lift_fuel {S A} (r : res A) : r <> Raise OutOfFuel -> never OutOfFuel (@slift S A r).
Proof using Type. by intros Hr s. Qed.
Ltac fuel_step := first
  [ assumption
  | lazymatch goal with
    | |- never _ (sbind _ _) => apply never_bind; [|intros]
    | |- never _ (sret _) => apply never_ret
    | |- never _ (sraise _) => by apply never_raise
    | |- never _ (sfinally _ _) => apply finally_fuel
    | |- never _ (on_hv _) => apply on_hv_fuel
    | |- never _ (on_vmdb _) => apply on_vmdb_fuel; intros
    | |- never _ (machine_error _ _) => apply machine_error_fuel
    | |- never _ (try_sql _ _) => apply try_sql_fuel
    | |- never _ (query _) => apply query_fuel
    | |- never _ (commit _) => apply commit_fuel
    | |- never _ (slift (of_option _ ?x)) => apply lift_fuel; by destruct x
    | |- never _ (match ?x with _ => _ end) => destruct x eqn:?
    end ].
Ltac fuel_tac := repeat fuel_step.
Lemma record_fuel label status : never OutOfFuel (record_status (W := W) label status).
Proof using Type. unfold record_status, set_machine_status, refresh. fuel_tac. Qed.
Lemma row_fuel label : never OutOfFuel (machine_row (W := W) label).
Proof using Type. unfold machine_row, view_machine_by_label. fuel_tac. Qed.
Lemma set_interface_fuel label i : never OutOfFuel (set_machine_interface label i).
Proof using Type. unfold set_machine_interface. fuel_tac. Qed.

(** The loop asks at most as often as the timeout allows. *)
Lemma wait_loop_fuel timeout status states c : never OutOfFuel status -> forall fuel n, 0 <= n -> (Z.to_nat (timeout + 1 - n) < fuel)%nat ->
  never OutOfFuel (vm_wait_loop (W := W) timeout fuel status n states c).
Proof using Hlaws.
  intros Hs fuel. revert c. induction fuel as [|fuel IH]; intros c n Hn Hf; [lia|]. cbn [vm_wait_loop]. case_bool_decide; [apply never_ret|].
  destruct (Z.ltb_spec timeout n); [by apply never_raise|]. apply never_bind; [apply on_hv_fuel, sleep_steady|]. intros _. apply never_bind; [done|].
  intros c'. apply IH; lia.
Qed.
Lemma wait_fuel timeout status states : never OutOfFuel status -> never OutOfFuel (vm_wait_status (W := W) timeout status states).
Proof using Hlaws.
  intros Hs. unfold vm_wait_status. apply never_bind.
  - apply never_catch; [fuel_tac|]. intros x k Hx Hk. case_decide; simplify_eq. apply never_ret.
  - intros [c|]; [|apply never_ret]. apply wait_loop_fuel; [done|lia|]. rewrite Z.sub_0_r. lia.
Qed.

Section module_fuel.
Context {Hlv : libvirt W} {Hll : libvirt_laws W} {Hpr : programs W} {Hpl : programs_laws W} {Hpx : proxmox W} {Hxl : proxmox_laws W}.
Context (dsn vbox_path vbox_mode vmrun_path vmware_mode : string) (timeout : Z).
Ltac starts_tac := repeat first
  [ fuel_step | apply open_fuel | apply close_fuel | apply revert_fuel | apply rollback_fuel | apply call_fuel
  | apply state_steady | apply names_steady | apply find_steady | apply has_current_steady | apply current_steady
  | apply all_steady | apply created_steady | apply lookup_steady | apply xml_steady | apply sleep_steady
  | (apply communicate_steady; reflexivity) | (apply popen_steady; reflexivity)
  | apply resources_steady | apply task_steady | apply status_steady | apply snapshots_steady | apply start_steady
  | apply record_fuel | apply row_fuel | apply set_interface_fuel ].

Lemma handle_fuel label : never OutOfFuel (vm_handle (W := W) label).
Proof using Type. intros s. unfold vm_handle. by repeat split_match. Qed.
Lemma with_connection_fuel {A} (m : nat -> st (vmm W) A) : (forall c, never OutOfFuel (m c)) -> never OutOfFuel (with_connection dsn m).
Proof using Hll. intros Hm. unfold with_connection, _connect, until_closed, _disconnect. starts_tac. apply Hm. Qed.
Lemma newest_fuel l : newest l <> Raise OutOfFuel.
Proof using Type.
  assert (Hl : forall l b, latest b l <> Raise OutOfFuel) by (intros l'; induction l' as [|[s [t|]] l' IH]; intros b; cbn; [done|apply IH|done]).
  destruct l as [|[s [t|]] [|x l]]; cbn [newest]; done.
Qed.
Lemma get_snapshot_fuel label : never OutOfFuel (_get_snapshot dsn label).
Proof using Hll.
  apply with_connection_fuel. intros c. unfold domain. starts_tac; [apply handle_fuel| |].
  - match goal with |- never _ (creation_times _ ?l) => generalize l end. intros all. induction all as [|x all IH]; cbn [creation_times]; starts_tac.
  - apply lift_fuel. match goal with |- context [newest ?l] => pose proof (newest_fuel l); destruct (newest l); congruence end.
Qed.
Lemma LibVirt_status_fuel label : never OutOfFuel (LibVirt_status dsn label).
Proof using Hll. unfold LibVirt_status. apply never_bind; [|intros [n|]; starts_tac]. apply with_connection_fuel. intros c. unfold domain. starts_tac. apply handle_fuel. Qed.
Lemma KVM_start_fuel label : never OutOfFuel (KVM_start dsn timeout label).
Proof using Hll Hlaws.
  unfold KVM_start, LibVirt_start, _get_interface, _lookup, row_of, _connect, until_closed, _disconnect, domain.
  starts_tac; try apply handle_fuel; try apply LibVirt_status_fuel; try apply get_snapshot_fuel.
  - apply wait_fuel, LibVirt_status_fuel.
  - apply with_connection_fuel. intros c. starts_tac.
Qed.
Lemma VirtualBox_start_fuel label : never OutOfFuel (VirtualBox_start vbox_path vbox_mode timeout label).
Proof using Hpl Hlaws.
  assert (Hs : never OutOfFuel (VirtualBox_status vbox_path label)).
  { unfold VirtualBox_status. apply never_bind; [|intros [s|]; starts_tac]. apply never_catch; [starts_tac|]. intros x k Hx Hk. case_decide; simplify_eq. apply never_ret. }
  unfold VirtualBox_start, row_of. starts_tac; by apply wait_fuel.
Qed.
Lemma VMware_start_fuel label : never OutOfFuel (VMware_start vmrun_path vmware_mode label).
Proof using Hpl Hlaws. unfold VMware_start, _snapshot_from_vmx, _is_running, _revert, row_of. starts_tac. Qed.
Lemma Proxmox_start_fuel label : never OutOfFuel (Proxmox_start timeout label).
Proof using Hxl Hlaws.
  assert (Hw : forall t vm, never OutOfFuel (wait_for_task (W := W) timeout t vm)).
  { intros t vm. unfold wait_for_task. enough (forall fuel n, Z.to_nat (timeout - n) = fuel -> never OutOfFuel (task_loop timeout fuel t vm n)) as He by (apply He; by rewrite Z.sub_0_r).
    induction fuel as [|fuel IH]; intros n Hn; cbn [task_loop]; destruct (Z.ltb_spec n timeout); try lia; try apply never_ret; starts_tac; apply IH; lia. }
  unfold Proxmox_start, find_vm, rollback, find_snapshot, row_of, task_done. starts_tac; apply Hw.
Qed.
End module_fuel.

(** C27. When a machine is started through MultiMachinery, by whichever
    manager, the start ends, and if it returns, whatever was done to the machine
    before, its disk comes from a snapshot: the one of the machine's row if the
    row has one, except that libvirt falls back to another snapshot when in this
    start it did not list that one. *)
Theorem start_is_clean {Hlv : libvirt W} {Hll : libvirt_laws W} {Hpr : programs W} {Hpl : programs_laws W} {Hpx : proxmox W}
    {Hxl : proxmox_laws W} vbox_path vbox_mode vmrun_path vmware_mode timeout m k label s :
  module_of m label = Ok k ->
  let '(r, s') := Multi_start vbox_path vbox_mode vmrun_path vmware_mode timeout m label s in
  r <> Raise OutOfFuel /\
  (r = Ok tt -> clean_with (match k with Kvm => not_listed KVM_DSN s | _ => never_else end) label s').
Proof using Hlaws.
  intros Hk. unfold Multi_start, slift, sbind. rewrite Hk. cbn [module_start].
  destruct (module_start _ _ _ _ _ k label s) as [r s'] eqn:E. split.
  - assert (Hf : never OutOfFuel (module_start vbox_path vbox_mode vmrun_path vmware_mode timeout k label)).
    { destruct k; [apply KVM_start_fuel|apply VirtualBox_start_fuel|apply VMware_start_fuel|apply Proxmox_start_fuel]. }
    specialize (Hf s). by rewrite E in Hf.
  - intros ->. destruct k; cbn [module_start] in E.
    + by eapply KVM_start_clean.
    + by eapply VirtualBox_start_clean.
    + by eapply VMware_start_clean.
    + by eapply Proxmox_start_clean.
Qed.
End clean.

(** ** Which module a machine belongs to *)

Section dispatch.
(** The machine is known under its label, and its machinery is loaded. *)
Definition served (m : multi) (mach name label : string) : Prop :=
  machine_labels m !! label = Some name /\ mm_machines m !! name = Some mach /\ exists k, machineries m !! mach = Some k /\ import_plugin mach = Some k.
Lemma fold_entries mach l : forall m, let m' := fold_left (add_entry mach) l m in
  machineries m' = machineries m /\
  (forall label, label ∉ l.*2 -> machine_labels m' !! label = machine_labels m !! label) /\
  (forall name, name ∉ l.*1 -> mm_machines m' !! name = mm_machines m !! name) /\
  (NoDup l.*1 -> NoDup l.*2 -> forall name label, (name, label) ∈ l -> machine_labels m' !! label = Some name /\ mm_machines m' !! name = Some mach).
Proof.
  induction l as [|[n lb] l IH]; intros m; cbn [fold_left fmap list_fmap fst snd].
  - split_and!; try done. by intros _ _ name label ?%elem_of_nil.
  - destruct (IH (add_entry mach m (n, lb))) as (H1 & H2 & H3 & H4). split_and!; [done| | |].
    + intros label [Hne Hl]%not_elem_of_cons. rewrite H2 by done. cbn. by rewrite lookup_insert_ne.
    + intros name [Hne Hl]%not_elem_of_cons. rewrite H3 by done. cbn. by rewrite lookup_insert_ne.
    + intros [Hn Hd]%NoDup_cons [Hb Hd']%NoDup_cons name label [[= -> ->]|Hin]%elem_of_cons; [|by apply H4].
      rewrite H2, H3 by done. cbn. by rewrite !lookup_insert_eq.
Qed.
Lemma add_machinery_served m e m' mach name label : add_machinery m e = Ok m' ->
  (served m mach name label -> label ∉ e.2.*2 -> name ∉ e.2.*1 -> served m' mach name label) /\
  (NoDup e.2.*1 -> NoDup e.2.*2 -> (name, label) ∈ e.2 -> served m' e.1 name label).
Proof.
  unfold add_machinery. destruct (import_plugin e.1) as [k|] eqn:Ek; [|done].
  destruct (fold_entries e.1 e.2 m) as (H1 & H2 & H3 & H4). intros [= <-]. split.
  - intros (E1 & E2 & k' & E3 & E4) Hl Hn. unfold served. cbn. rewrite H2, H3, H1 by done. split_and!; [done|done|].
    destruct (decide (e.1 = mach)) as [<-|Hne]; [exists k; by rewrite lookup_insert_eq|exists k'; by rewrite lookup_insert_ne].
  - intros Hd Hd' Hin. destruct (H4 Hd Hd' name label Hin) as [E1 E2]. unfold served. cbn. split_and!; [done|done|]. exists k. by rewrite lookup_insert_eq.
Qed.
Lemma set_options_served l : forall m m' mach name label, multi_set_options l m = Ok m' -> served m mach name label ->
  name ∉ (l ≫= fun e => e.2.*1) -> label ∉ (l ≫= fun e => e.2.*2) -> served m' mach name label.
Proof.
  induction l as [|e l IH]; intros m m' mach name label; cbn [multi_set_options rbind mbind list_bind]; [by intros [= ->]|].
  destruct (add_machinery m e) as [m1|x] eqn:E; [|done]. cbn [rbind]. rewrite !elem_of_app. intros Hs Hsv Hn Hl.
  eapply IH; [exact Hs| |tauto|tauto]. apply (add_machinery_served _ _ _ mach name label E); tauto.
Qed.

(** If the names and the labels of all machines are different, each label
    is served by the module of the machinery that lists the machine. *)
Theorem multi_dispatch l m : multi_set_options l no_multi = Ok m ->
  NoDup (l ≫= fun e => e.2.*1) -> NoDup (l ≫= fun e => e.2.*2) ->
  forall mach ms name label, (mach, ms) ∈ l -> (name, label) ∈ ms ->
  exists k, import_plugin mach = Some k /\ module_of m label = Ok k.
Proof.
  intros Hs Hn Hl mach ms name label Hin Hin'. enough (served m mach name label) as (E1 & E2 & k & E3 & E4).
  { exists k. split; [done|]. unfold module_of. by rewrite E1; cbn; rewrite E2; cbn; rewrite E3. }
  revert Hs. generalize no_multi. induction l as [|e l IH]; intros m0; cbn [multi_set_options]; [by apply elem_of_nil in Hin|].
  cbn [mbind list_bind] in Hn, Hl. apply NoDup_app in Hn as (Hn1 & Hnd & Hn2). apply NoDup_app in Hl as (Hl1 & Hld & Hl2).
  destruct (add_machinery m0 e) as [m1|x] eqn:E; [|done]. cbn [rbind]. intros Hs. apply elem_of_cons in Hin as [<-|Hin]; [|by eapply IH].
  eapply set_options_served; [exact Hs| | |].
  - exact (proj2 (add_machinery_served m0 (mach, ms) m1 mach name label E) Hn1 Hl1 Hin').
  - apply Hnd. change name with (name, label).1. by apply list_elem_of_fmap_2.
  - apply Hld. change label with (name, label).2. by apply list_elem_of_fmap_2.
Qed.
End dispatch.

(** ** The connections of libvirt *)

Section connections.
Context {W : Type} `{SqlBackend} `{Hhost : host W} `{Hview : !host_view W} `{Hlaws : !host_laws W} {Hlv : libvirt W} {Hll : libvirt_laws W}.
Context (dsn : string) (timeout : Z) (Hclose : forall c w, exists w', lv_close c w = (Ok tt, w')).

Definition live (s : vmm W) : gset nat := conns (hv s).
Definition cs (s s' : vmm W) : Prop := live s' = live s.
#[local] Instance cs_preorder : PreOrder cs.
Proof using Type. split; [by intros s|]. intros s1 s2 s3. unfold cs. congruence. Qed.
Lemma on_hv_cs {A} (m : st W A) : within same_conns m -> within cs (on_hv m).
Proof using Type. intros Hm s. specialize (Hm (hv s)). unfold on_hv. by destruct (m (hv s)). Qed.
Lemma on_vmdb_cs {A} (m : Z -> st Database A) : within cs (on_vmdb m).
Proof using Type. intros s. unfold on_vmdb. by destruct (m _ _). Qed.
Lemma machine_error_cs {A} e (m : st (vmm W) A) : within cs m -> within cs (machine_error e m).
Proof using Type. intros Hm. apply within_catch; [typeclasses eauto|done|]. intros x k Hk. case_decide; simplify_eq. apply within_raise. typeclasses eauto. Qed.
Lemma handle_cs label : within cs (vm_handle label).
Proof using Type. intros s. unfold vm_handle. by repeat split_match. Qed.
Ltac cs_tac := repeat first
  [ within_step | apply on_hv_cs | apply on_vmdb_cs | apply machine_error_cs | apply handle_cs
  | apply state_steady | apply names_steady | apply find_steady | apply revert_conns | apply active_steady
  | apply destroy_steady | apply has_current_steady | apply current_steady | apply all_steady | apply created_steady
  | apply lookup_steady | apply defined_steady | apply create_file_steady | apply core_dump_steady | apply sleep_steady ].

Lemma until_closed_conns {A} c (m : st (vmm W) A) s : within cs m -> live (until_closed c m s).2 = live s ∖ {[c]}.
Proof using Hll Hclose Hlaws.
  intros Hm. assert (Hm' := machine_error_cs ExternalError m Hm s). unfold until_closed, sfinally.
  destruct (machine_error ExternalError m s) as [r s1]. unfold _disconnect, machine_error, scatch, on_hv.
  pose proof (close_conns c (hv s1)) as Hc. destruct (Hclose c (hv s1)) as [w' Hw]. rewrite Hw in Hc |- *. cbn. unfold cs, live in *. cbn in *. congruence.
Qed.
Lemma connect_conns s : match _connect dsn s with
  | (Ok c, s') => c ∉ live s /\ live s' = {[c]} ∪ live s
  | (Raise _, s') => live s' = live s end.
Proof using Hll Hlaws.
  unfold _connect. case_bool_decide; [done|]. unfold machine_error, scatch, on_hv. pose proof (open_conns dsn (hv s)) as Ho.
  destruct (lv_open dsn (hv s)) as [[c|e] w]; cbn in *; [done|]. by case_decide.
Qed.
Lemma with_connection_cs {A} (m : nat -> st (vmm W) A) : (forall c, within cs (m c)) -> within cs (with_connection dsn m).
Proof using Hll Hclose Hlaws.
  intros Hm s. unfold with_connection, sbind. pose proof (connect_conns s) as Hc. destruct (_connect dsn s) as [[c|e] s1]; [|done].
  unfold cs. rewrite until_closed_conns by done. destruct Hc as [Hn ->]. set_solver.
Qed.
Lemma creation_times_cs label l : within same_conns (creation_times label l).
Proof using Hll Hlaws. induction l as [|x l IH]; cbn [creation_times]; cs_tac. Qed.
Lemma get_snapshot_cs label : within cs (_get_snapshot dsn label).
Proof using Hll Hclose Hlaws. apply with_connection_cs. intros c. unfold domain. cs_tac. apply creation_times_cs. Qed.
Lemma LibVirt_status_cs label : within cs (LibVirt_status dsn label).
Proof using Hll Hclose Hlaws.
  unfold LibVirt_status, record_status. apply within_bind; [typeclasses eauto| |intros [n|]; cs_tac].
  apply with_connection_cs. intros c. unfold domain. cs_tac.
Qed.
Lemma wait_cs label states : within cs (vm_wait_status timeout (LibVirt_status dsn label) states).
Proof using Hll Hclose Hlaws.
  unfold vm_wait_status. apply within_bind; [typeclasses eauto| |].
  - apply within_catch; [typeclasses eauto| |].
    + apply within_bind; [typeclasses eauto|apply LibVirt_status_cs|]. intros. cs_tac.
    + intros x k Hk. case_decide; simplify_eq. cs_tac.
  - intros [c|]; [|cs_tac]. generalize 0. generalize (S (Z.to_nat (timeout + 1))). intros fuel. revert c.
    induction fuel as [|fuel IH]; intros c n; cbn [vm_wait_loop]; cs_tac; [apply LibVirt_status_cs|apply IH].
Qed.
Lemma LibVirt_stop_cs label : within cs (LibVirt_stop dsn timeout label).
Proof using Hll Hclose Hlaws.
  unfold LibVirt_stop. apply within_bind; [typeclasses eauto|apply LibVirt_status_cs|]. intros st. case_bool_decide; [cs_tac|].
  apply within_bind; [typeclasses eauto| |intros _; apply wait_cs]. apply with_connection_cs. intros c. unfold domain. cs_tac.
Qed.

(** The part of [LibVirt_start] with the connection. *)
Definition leaves (c : nat) (s : vmm W) {A} (p : res A * vmm W) : Prop :=
  (exists e, p.1 = Raise e /\ live p.2 = live s) \/ live p.2 = live s ∖ {[c]}.
Lemma leaves_bind c s {A B} (m : st (vmm W) A) (f : A -> st (vmm W) B) :
  within cs m -> (forall a s', live s' = live s -> leaves c s (f a s')) -> leaves c s (sbind m f s).
Proof using Type.
  intros Hm Hf. specialize (Hm s). unfold sbind. destruct (m s) as [[a|e] s1]; [by apply Hf|]. left. by exists e.
Qed.
Lemma leaves_cs c s s1 {A} (p : res A * vmm W) : live s1 = live s -> leaves c s1 p -> leaves c s p.
Proof using Type. unfold leaves. by intros ->. Qed.

Lemma leaves_then c s {A B} (m : st (vmm W) A) (f : A -> st (vmm W) B) :
  leaves c s (m s) -> (forall a, within cs (f a)) -> leaves c s (sbind m f s).
Proof using Type.
  intros Hm Hf. unfold sbind. destruct (m s) as [[a|e] s1]; cbn in *; [|by destruct Hm as [(x & [= ->] & HH)|HH]; [left; exists x|right]].
  destruct Hm as [(e & ? & _)|Hm]; [done|]. right. rewrite (Hf a s1). exact Hm.
Qed.
Lemma leaves_closed c s {A} (m : st (vmm W) A) : within cs m -> leaves c s (until_closed c m s).
Proof using Hll Hclose Hlaws. intros Hm. right. by apply until_closed_conns. Qed.
Lemma leaves_disconnect c s : leaves c s ((do* _disconnect c in sraise (A := unit) CuckooMachineError) s).
Proof using Hll Hclose Hlaws.
  right. unfold _disconnect, machine_error, scatch, on_hv, sbind. pose proof (close_conns c (hv s)) as Hc.
  destruct (Hclose c (hv s)) as [w' Hw]. rewrite Hw in Hc |- *. exact Hc.
Qed.

(** The state, the snapshot, the stop, the memory dump and the listing of
    machines leave as many connections to libvirt open as they found, however
    they end. The start does so if it returns; if it raises, it may leave its
    own connection open, and it does where libvirt cannot list the snapshots. *)
Theorem libvirt_connections label path s :
  live (LibVirt_status dsn label s).2 = live s /\ live (_get_snapshot dsn label s).2 = live s /\
  live (LibVirt_stop dsn timeout label s).2 = live s /\ live (LibVirt_dump_memory dsn label path s).2 = live s /\
  live (LibVirt_list dsn s).2 = live s /\
  (let '(r, s') := LibVirt_start dsn timeout label s in
   live s' = live s \/ exists c e, r = Raise e /\ c ∉ live s /\ live s' = {[c]} ∪ live s) /\
  (forall s1 c s2 o s3 e s4, LibVirt_status dsn label s = (Ok POWEROFF, s1) -> _connect dsn s1 = (Ok c, s2) ->
     machine_row label s2 = (Ok o, s3) -> domain label (lv_snapshot_names label) s3 = (Raise e, s4) ->
     c ∉ live s /\ live (LibVirt_start dsn timeout label s).2 = {[c]} ∪ live s).
Proof using Hll Hclose Hlaws.
  pose proof (LibVirt_status_cs label s) as Hst. split_and!.
  - exact Hst.
  - apply get_snapshot_cs.
  - apply LibVirt_stop_cs.
  - apply with_connection_cs. intros c. unfold domain. cs_tac.
  - apply with_connection_cs. intros c. cs_tac.
  - destruct (LibVirt_start dsn timeout label s) as [r s'] eqn:E. unfold LibVirt_start in E.
    apply sbind_inv in E as [(st & s1 & E1 & E)|(e & E & ->)]; [|rewrite E in Hst; by left]. rewrite E1 in Hst. cbn in Hst. unfold cs in Hst.
    case_bool_decide; [injection E as <- <-; by left|]. pose proof (connect_conns s1) as Hc.
    apply sbind_inv in E as [(c & s2 & E2 & E)|(e & E & ->)]; [|rewrite E in Hc; left; congruence]. rewrite E2 in Hc. destruct Hc as [Hn Hc].
    rewrite Hst in Hn, Hc. cut (leaves c s2 (r, s')).
    { intros [(e & [= ->] & Hl)|Hl]; cbn in Hl; [right; exists c, e; split_and!; [done..|congruence]|left]. rewrite Hl, Hc. set_solver. }
    rewrite <- E. clear E. apply leaves_bind; [unfold machine_row; cs_tac|]. intros o s3 H3. apply (leaves_cs _ _ s3 _ H3).
    apply leaves_bind; [unfold domain; cs_tac|]. intros names s4 H4. apply (leaves_cs _ _ s4 _ H4).
    apply leaves_bind; [unfold row_of; cs_tac|]. intros info s5 H5. apply (leaves_cs _ _ s5 _ H5).
    apply leaves_then; [|intros _; apply wait_cs]. case_bool_decide; [apply leaves_closed; unfold domain; cs_tac|].
    apply leaves_bind; [apply get_snapshot_cs|]. intros found s6 H6. apply (leaves_cs _ _ s6 _ H6).
    destruct found as [f|]; [|apply leaves_disconnect]. apply leaves_bind; [apply get_snapshot_cs|]. intros again s7 H7. apply (leaves_cs _ _ s7 _ H7).
    apply leaves_bind; [cs_tac|]. intros x s8 H8. apply (leaves_cs _ _ s8 _ H8). apply leaves_closed. unfold domain. cs_tac.
  - intros s1 c s2 o s3 e s4 E1 E2 E3 E4. rewrite E1 in Hst. pose proof (connect_conns s1) as Hc. rewrite E2 in Hc. destruct Hc as [Hn Hc].
    assert (H3 : within cs (machine_row label)) by (unfold machine_row; cs_tac). specialize (H3 s2). rewrite E3 in H3.
    assert (H4 : within cs (domain label (lv_snapshot_names label))) by (unfold domain; cs_tac). specialize (H4 s3). rewrite E4 in H4.
    unfold LibVirt_start, sbind at 1. rewrite E1. cbn beta iota. rewrite bool_decide_false by (intros Hx; by apply Hx). unfold sbind at 1. rewrite E2.
    unfold sbind at 1. rewrite E3. unfold sbind at 1. rewrite E4. unfold cs in *. cbn [snd] in *. split; [congruence|]. congruence.
Qed.
End connections.

(** ** A small hypervisor *)

Record toy_domain := { td_on : bool; td_origin : option string; td_snapshots : list string; td_listable : bool }.
Record toy := { toy_time : Z; toy_domains : gmap string toy_domain; toy_conns : gset nat; toy_tasks : gmap string (string * string) }.
Definition toy_domains_set (d : gmap string toy_domain) (w : toy) : toy :=
  {| toy_time := toy_time w; toy_domains := d; toy_conns := toy_conns w; toy_tasks := toy_tasks w |}.
Definition toy_ask {A} (l : string) (f : toy_domain -> option A) : st toy A := fun w =>
  (of_option ExternalError (d ← toy_domains w !! l; f d), w).
Definition toy_restore (on : bool) (l s : string) : st toy unit := fun w =>
  (Ok tt, toy_domains_set (<[l := {| td_on := on; td_origin := Some s; td_snapshots := [s]; td_listable := true |}]> (toy_domains w)) w).
Definition toy_fresh (c : gset nat) : nat := fresh c.

#[local] Instance toy_host : host toy := {
  hv_now := toy_time;
  hv_sleep n w := (Ok tt, {| toy_time := toy_time w + n; toy_domains := toy_domains w; toy_conns := toy_conns w; toy_tasks := toy_tasks w |}) }.
#[local] Instance toy_view : host_view toy := {
  derives w l s := exists d, toy_domains w !! l = Some d /\ td_origin d = Some s;
  rolled w t := toy_tasks w !! t;
  conns := toy_conns }.
#[local] Instance toy_libvirt : libvirt toy := {
  lv_version _ := 8001;
  lv_open _ w := let c := toy_fresh (toy_conns w) in
    (Ok c, {| toy_time := toy_time w; toy_domains := toy_domains w; toy_conns := {[c]} ∪ toy_conns w; toy_tasks := toy_tasks w |});
  lv_close c w := (Ok tt, {| toy_time := toy_time w; toy_domains := toy_domains w; toy_conns := toy_conns w ∖ {[c]}; toy_tasks := toy_tasks w |});
  lv_lookup _ l := toy_ask l (fun _ => Some tt);
  lv_defined _ := fun w => (Ok (map_to_list (toy_domains w)).*1, w);
  lv_state l := toy_ask l (fun d => Some (Some (if td_on d then 1 else 5)));
  lv_snapshot_names l := toy_ask l (fun d => if td_listable d then Some (td_snapshots d) else None);
  lv_find_snapshot l s := toy_ask l (fun d => if bool_decide (s ∈ td_snapshots d) then Some s else None);
  lv_revert l s := toy_restore true l s;
  lv_is_active l := toy_ask l (fun d => Some (td_on d));
  lv_destroy l := toy_ask l (fun _ => Some tt);
  lv_has_current l := toy_ask l (fun _ => Some false);
  lv_current l := toy_ask l (fun _ => None);
  lv_all_snapshots l := toy_ask l (fun d => Some (td_snapshots d));
  lv_created l s := toy_ask l (fun _ => Some (Some "1700000000"));
  lv_create_file _ := sret tt;
  lv_core_dump l _ := toy_ask l (fun _ => Some tt);
  lv_xml_interface l := toy_ask l (fun _ => Some (Some "vnet0")) }.
#[local] Instance toy_programs : programs toy := {
  call args := match args with
    | [_; "snapshot"; l; "restore"; s] => do* toy_restore false l s in sret 0
    | [_; "snapshot"; l; "restorecurrent"] => do* toy_restore false l "current" in sret 0
    | [_; "revertToSnapshot"; l; s] => do* toy_restore false l s in sret 0
    | _ => sret 0
    end;
  communicate _ := sret (0, "", "");
  popen _ := sret 0%nat;
  poll _ := sret (Some 0);
  terminate_program _ := sret tt;
  file_there _ _ := true }.
#[local] Instance toy_proxmox : proxmox toy := {
  px_resources := sret [];
  px_task_status _ _ := sret {| pt_type := "qmrollback"; pt_status := "running"; pt_exitstatus := None |};
  px_status _ := sret {| ps_status := "running"; ps_lock := None |};
  px_snapshots _ := sret [];
  px_rollback v s w := (Ok (px_name v ++ s)%string, {| toy_time := toy_time w; toy_domains := toy_domains w; toy_conns := toy_conns w;
                                                      toy_tasks := <[(px_name v ++ s)%string := (px_name v, s)]> (toy_tasks w) |});
  px_start _ := sret "";
  px_stop _ := sret "" }.

Lemma steady_id {A} (f : toy -> res A) : (forall w, f w <> Raise OutOfFuel) -> steady (fun w => (f w, w)).
Proof. intros Hf. split_and!; intros w; cbn; [reflexivity|reflexivity|apply Hf]. Qed.
Lemma toy_ask_steady {A} l (f : toy_domain -> option A) : steady (toy_ask l f).
Proof. apply steady_id. intros w. by destruct (_ ≫= _). Qed.
#[local] Instance toy_host_laws : host_laws toy.
Proof. split. intros n. by split_and!; intros w. Defined.
#[local] Instance toy_libvirt_laws : libvirt_laws toy.
Proof.
  split; intros; try apply toy_ask_steady; try (by apply steady_id); try (by intros w); try (by intros w; cbn).
  - cbn. split; [apply is_fresh|done].
  - done.
  - cbn in *. unfold toy_ask in *. destruct (toy_domains w !! l) as [d|]; simplify_eq/=. by case_bool_decide; simplify_eq/=.
  - cbn in *. unfold toy_restore in *. simplify_eq/=. eexists. split; [apply lookup_insert_eq|done].
Defined.
Lemma toy_restored on l s w x w' : (do* toy_restore on l s in sret x) w = (Ok 0, w') -> derives w' l s.
Proof. unfold toy_restore, sbind, sret. intros E. simplify_eq/=. eexists. split; [apply lookup_insert_eq|done]. Qed.
#[local] Instance toy_programs_laws : programs_laws toy.
Proof.
  split; [| |by intros; split_and!; intros..| | |].
  - intros args Ha. destruct args as [|p [|c args]]; try (by split_and!; intros). unfold restoring in Ha. apply bool_decide_eq_false in Ha.
    apply not_elem_of_cons in Ha as [H1 [H2 _]%not_elem_of_cons]. cbn [call toy_programs]. repeat split_match; subst; try congruence; by split_and!; intros.
  - intros args w. cbn [call toy_programs]. by repeat split_match.
  - intros p l s w w'. apply toy_restored.
  - intros p l w w' E. exists "current". exact (toy_restored _ _ _ _ _ _ E).
  - intros p l s w w'. apply toy_restored.
Defined.
#[local] Instance toy_proxmox_laws : proxmox_laws toy.
Proof.
  split; intros; try (by split_and!; intros); try (by intros w); cbn in *; simplify_eq/=; try done; [by rewrite lookup_insert_eq|].
  unfold sret in *. by simplify_eq/=.
Defined.

Definition toy_world : toy :=
  {| toy_time := 0; toy_conns := ∅; toy_tasks := ∅;
     toy_domains := {[ "win7" := {| td_on := false; td_origin := None; td_snapshots := ["old"; "clean"]; td_listable := true |};
                       "winxp" := {| td_on := false; td_origin := Some "old"; td_snapshots := []; td_listable := false |} ]} |}.
Definition toy_db : Database :=
  {| machines := {[ 1 := {| m_name := "win7"; m_label := "win7"; m_arch := "x64"; m_ip := "192.168.1.2"; m_platform := "windows";
       m_tags := []; m_interface := None; m_snapshot := Some "clean"; m_locked := true; m_locked_changed_on := None; m_status := None;
       m_status_changed_on := None; m_resultserver_ip := "192.168.1.1"; m_resultserver_port := "2042" |} ]};
     tasks := ∅; samples := ∅; guests := ∅; errors := ∅; ticks := 0 |}.
Definition toy_manager : vmm toy := {| hv := toy_world; vmdb := toy_db; vms := Some {["win7"; "winxp"]} |}.
Definition toy_machines : list (string * list (string * string)) := [("kvm", [("m1", "win7"); ("m2", "winxp")]); ("vmware", [("m3", "/vm/a.vmx")])].
Definition toy_multi : multi := match multi_set_options toy_machines no_multi with Ok m => m | Raise _ => no_multi end.

#[local] Existing Instance always_fine.
Lemma start_is_clean_witness :
  (Multi_start "/usr/bin/VBoxManage" "headless" "/usr/bin/vmrun" "nogui" 60 toy_multi "win7" toy_manager).1 = Ok tt /\
  clean_with (not_listed KVM_DSN toy_manager) "win7" (Multi_start "/usr/bin/VBoxManage" "headless" "/usr/bin/vmrun" "nogui" 60 toy_multi "win7" toy_manager).2.
Proof.
  assert (Hk : module_of toy_multi "win7" = Ok Kvm) by by vm_compute.
  assert (Hr : (Multi_start "/usr/bin/VBoxManage" "headless" "/usr/bin/vmrun" "nogui" 60 toy_multi "win7" toy_manager).1 = Ok tt) by by vm_compute.
  split; [exact Hr|].
  pose proof (start_is_clean "/usr/bin/VBoxManage" "headless" "/usr/bin/vmrun" "nogui" 60 toy_multi Kvm "win7" toy_manager Hk) as H.
  revert H Hr. destruct (Multi_start _ _ _ _ _ _ _ _) as [r s']. intros [_ H] Hr. exact (H Hr).
Defined.

Lemma multi_dispatch_witness : exists k, import_plugin "vmware" = Some k /\ module_of toy_multi "/vm/a.vmx" = Ok k.
Proof.
  apply (multi_dispatch toy_machines toy_multi) with (mach := "vmware") (ms := [("m3", "/vm/a.vmx")]) (name := "m3").
  - by vm_compute.
  - apply (bool_decide_unpack _). by vm_compute.
  - apply (bool_decide_unpack _). by vm_compute.
  - by right; left.
  - by left.
Defined.

Lemma pair_of {A S} (p : res A * S) r : p.1 = r -> p = (r, p.2).
Proof. by destruct p; intros <-. Qed.
Lemma libvirt_connections_witness :
  live (LibVirt_start "qemu:///system" 60 "winxp" toy_manager).2 = {[0%nat]} ∪ live toy_manager /\
  live (LibVirt_stop "qemu:///system" 60 "win7" toy_manager).2 = live toy_manager.
Proof.
  assert (Hc : forall c (w : toy), exists w', lv_close c w = (Ok tt, w')) by (intros c w; by eexists).
  pose proof (libvirt_connections "qemu:///system" 60 Hc "winxp" "" toy_manager) as (_ & _ & _ & _ & _ & _ & Hl).
  pose proof (libvirt_connections "qemu:///system" 60 Hc "win7" "" toy_manager) as (_ & _ & Hs & _).
  split; [|exact Hs].
  refine (proj2 (Hl _ 0%nat _ None _ ExternalError _ (pair_of _ _ _) (pair_of _ _ _) (pair_of _ _ _) (pair_of _ _ _))); by vm_compute.
Defined.
