(* ===== verification/Qemu.v ===== *)
(** The QEMU manager of modules/machinery/qemu.py: the command lines, the
    processes of the machines, and the stop. *)
From S2P Require Import Prelude Database Hypervisors.
Open Scope string_scope.
Open Scope list_scope.
Open Scope Z_scope.

(** ** str.format *)

(** The parameters of a command line; a value may be [None]. *)
Abbreviation params := (gmap string (option string)).
Definition show_value (v : option string) : string := default "None" v.
Definition OPEN : ascii := "{"%char.
Definition CLOSE : ascii := "}"%char.
(** [s.format] with the parameters by name, for fields that are plain names; a single closing brace
    and a field that does not end are [ValueError]. [acc] is the name of the
    field that is being read. *)
Fixpoint format_bytes (p : params) (acc : option bytes) (s : bytes) : res bytes :=
  match s with
  | [] => match acc with None => Ok [] | Some _ => Raise ValueError end
  | c :: s' =>
      match acc with
      | Some name =>
          if bool_decide (c = CLOSE) then
            match p !! text name with
            | None => Raise KeyError
            | Some v => let! r := format_bytes p None s' in Ok (B (show_value v) ++ r)
            end
          else format_bytes p (Some (name ++ [c])) s'
      | None =>
          if bool_decide (c = OPEN) then
            match s' with
            | c' :: s'' => if bool_decide (c' = OPEN) then let! r := format_bytes p None s'' in Ok (OPEN :: r) else format_bytes p (Some []) s'
            | [] => Raise ValueError
            end
          else if bool_decide (c = CLOSE) then
            match s' with
            | c' :: s'' => if bool_decide (c' = CLOSE) then let! r := format_bytes p None s'' in Ok (CLOSE :: r) else Raise ValueError
            | [] => Raise ValueError
            end
          else let! r := format_bytes p None s' in Ok (c :: r)
      end
  end.
Definition py_format (p : params) (s : string) : res string := let! r := format_bytes p None (B s) in Ok (text r).

(** ** The table of architectures *)

Record qemu_arch := { qa_cmdline : list string; qa_params : params }.
Definition QEMU_ARGS : gmap string qemu_arch := list_to_map [
  ("default", {|
    qa_cmdline := ["qemu-system-x86_64"; "-display"; "none"];
    qa_params := {[ "memory" := Some "512M"; "mac" := Some "52:54:00:12:34:56"; "kernel" := Some "{imagepath}/vmlinuz" ]} |});
  ("mipsel", {|
    qa_cmdline := ["qemu-system-mipsel"; "-display"; "none"; "-M"; "malta"; "-m"; "{memory}"; "-kernel"; "{kernel}"; "-hda"; "{snapshot_path}";
      "-append"; "root=/dev/sda1 console=tty0"; "-netdev"; "tap,id=net_{vmname},ifname=tap_{vmname},script=no,downscript=no"; "-device";
      "e1000,netdev=net_{vmname},mac={mac}"];
    qa_params := {[ "kernel" := Some "{imagepath}/vmlinux-4.19.0-8-4kc-malta-mipsel" ]} |});
  ("mips", {|
    qa_cmdline := ["qemu-system-mips"; "-display"; "none"; "-M"; "malta"; "-m"; "{memory}"; "-kernel"; "{kernel}"; "-hda"; "{snapshot_path}";
      "-append"; "root=/dev/sda1 console=ttyS0 nokaslr"; "-netdev"; "tap,id=net_{vmname},ifname=tap_{vmname},script=no,downscript=no"; "-device";
      "e1000,netdev=net_{vmname},mac={mac}"];
    qa_params := {[ "kernel" := Some "{imagepath}/vmlinux-4.19.0-8-4kc-malta"; "machine" := Some "" ]} |});
  ("armwrt", {|
    qa_cmdline := ["qemu-system-arm"; "-display"; "none"; "-M"; "realview-eb-mpcore"; "-m"; "{memory}"; "-kernel"; "{kernel}"; "-drive";
      "if=sd,cache=unsafe,file={snapshot_path}"; "-append"; "console=ttyAMA0 root=/dev/mmcblk0 rootwait"; "-netdev";
      "tap,id=net_{vmname},ifname=tap_{vmname},script=no,downscript=no"; "-device"; "virtio-net-device,netdev=net_{vmname},mac={mac}"];
    qa_params := {[ "kernel" := Some "{imagepath}/openwrt-realview-vmlinux.elf" ]} |});
  ("arm", {|
    qa_cmdline := ["qemu-system-arm"; "-display"; "none"; "-M"; "virt"; "-m"; "{memory}"; "-kernel"; "{kernel}"; "-initrd"; "{initrd}"; "-drive";
      "if=none,file={snapshot_path},id=hd0"; "-device"; "virtio-blk-device,drive=hd0"; "-append"; "root=/dev/vda2"; "-netdev";
      "tap,id=net_{vmname},ifname=tap_{vmname},script=no,downscript=no"; "-device"; "virtio-net-device,netdev=net_{vmname},mac={mac}"];
    qa_params := {[ "memory" := Some "{memory}"; "kernel" := Some "{imagepath}/vmlinuz-3.2.0-4-versatile-arm"; "initrd" := Some
      "{imagepath}/initrd-3.2.0-4-versatile-arm" ]} |});
  ("arm64", {|
    qa_cmdline := ["qemu-system-aarch64"; "-display"; "none"; "-M"; "virt"; "-m"; "{memory}"; "-kernel"; "{kernel}"; "-initrd"; "{initrd}"; "-drive";
      "if=none,file={snapshot_path},id=hd0"; "-device"; "virtio-blk-device,drive=hd0"; "-append"; "root=/dev/sda1"; "-netdev";
      "tap,id=net_{vmname},ifname=tap_{vmname},script=no,downscript=no"; "-device"; "virtio-net-device,netdev=net_{vmname},mac={mac}"];
    qa_params := {[ "memory" := Some "512M"; "kernel" := Some "{imagepath}/vmlinuz-3.2.0-4-versatile-arm"; "initrd" := Some
      "{imagepath}/initrd-3.2.0-4-versatile-arm" ]} |});
  ("x64", {|
    qa_cmdline := ["qemu-system-x86_64"; "-display"; "none"; "-m"; "{memory}"; "-hda"; "{snapshot_path}"; "-netdev";
      "tap,id=net_{vmname},ifname=tap_{vmname},script=no,downscript=no"; "-device"; "e1000,netdev=net_{vmname},mac={mac}"];
    qa_params := {[ "memory" := Some "1024M" ]} |});
  ("x86", {|
    qa_cmdline := ["qemu-system-i386"; "-display"; "none"; "-m"; "{memory}"; "-hda"; "{snapshot_path}"; "-netdev";
      "tap,id=net_{vmname},ifname=tap_{vmname},script=no,downscript=no"; "-device"; "e1000,netdev=net_{vmname},mac={mac}"];
    qa_params := {[ "memory" := Some "1024M" ]} |});
  ("powerpc", {|
    qa_cmdline := ["qemu-system-ppc"; "-display"; "none"; "-m"; "{memory}"; "-hda"; "{snapshot_path}"; "-netdev";
      "tap,id=net_{vmname},ifname=tap_{vmname},script=no,downscript=no"; "-device"; "e1000,netdev=net_{vmname},mac={mac}"];
    qa_params := {[ "memory" := Some "256M"; "machine" := Some "none" ]} |});
  ("powerpc64", {|
    qa_cmdline := ["qemu-system-ppc64"; "-display"; "none"; "-m"; "{memory}"; "-hda"; "{snapshot_path}"; "-netdev";
      "tap,id=net_{vmname},ifname=tap_{vmname},script=no,downscript=no"; "-device"; "e1000,netdev=net_{vmname},mac={mac}"];
    qa_params := {[ "memory" := Some "512M" ]} |});
  ("sh4", {|
    qa_cmdline := ["qemu-system-sh4"; "-display"; "none"; "-M"; "r2d"; "-m"; "{memory}"; "-kernel"; "{kernel}"; "-initrd"; "{initrd}"; "-hda";
      "{snapshot_path}"; "-append"; "root=/dev/sda1 noiotrap"; "-netdev"; "tap,id=net_{vmname},ifname=tap_{vmname},script=no,downscript=no";
      "-device"; "e1000,netdev=net_{vmname},mac={mac}"];
    qa_params := {[ "memory" := Some "64M"; "kernel" := Some "{imagepath}/vmlinuz-2.6.32-5-sh7751r"; "initrd" := Some
      "{imagepath}/initrd.img-2.6.32-5-sh7751r" ]} |});
  ("sparc", {|
    qa_cmdline := ["qemu-system-sparc"; "-display"; "none"; "-m"; "{memory}"; "-hda"; "{snapshot_path}"; "-netdev";
      "tap,id=net_{vmname},ifname=tap_{vmname},script=no,downscript=no"; "-device"; "e1000,netdev=net_{vmname},mac={mac}"];
    qa_params := {[ "memory" := Some "256M" ]} |});
  ("sparc64", {|
    qa_cmdline := ["qemu-system-sparc64"; "-display"; "none"; "-m"; "{memory}"; "-hda"; "{snapshot_path}"; "-netdev";
      "tap,id=net_{vmname},ifname=tap_{vmname},script=no,downscript=no"; "-device"; "e1000,netdev=net_{vmname},mac={mac}"];
    qa_params := {[ "memory" := Some "256M" ]} |})].

(** ** The command of a machine *)

(** The section of a machine in qemu.conf. Reading an attribute that is not
    there gives [None], never the default of [getattr]. *)
Record qemu_options := {
  q_image : string; q_snapshot : option string; q_arch : option string; q_memory : option string; q_mac : option string;
  q_kernel : option string; q_initrd : option string; q_cpu : option string; q_enable_kvm : bool }.

Definition image_dir (p : string) : string := text (os_path_split (B p)).1.
Definition overlay_path (name image : string) : string := text (os_path_join (B (image_dir image)) (B ("snapshot_" ++ name ++ ".qcow2"))).
(** [params[var] = val.format(params)] for an option that is set. *)
Definition override (var : string) (val : option string) (p : params) : res params :=
  if truthy val then let! v := py_format p (default "" val) in Ok (<[var := Some v]> p) else Ok p.
Definition qemu_arch_of (o : qemu_options) : res qemu_arch := of_option KeyError (a ← q_arch o; QEMU_ARGS !! a).
Definition qemu_params (name snapshot_path : string) (o : qemu_options) : res params :=
  let! a := qemu_arch_of o in
  let! d := of_option KeyError (QEMU_ARGS !! "default") in
  let p := <["imagepath" := Some (image_dir (q_image o))]> (<["snapshot_path" := Some snapshot_path]>
           (<["vmname" := Some name]> (<["memory" := q_memory o]> (qa_params a ∪ qa_params d)))) in
  let! p := override "mac" (q_mac o) p in
  let! p := override "kernel" (q_kernel o) p in
  override "initrd" (q_initrd o) p.
Fixpoint format_all (p : params) (l : list string) : res (list string) :=
  match l with
  | [] => Ok []
  | t :: l' => let! x := py_format p t in let! r := format_all p l' in Ok (x :: r)
  end.
Definition qemu_command (name snapshot_path : string) (o : qemu_options) : res (list string) :=
  let! a := qemu_arch_of o in
  let! p := qemu_params name snapshot_path o in
  let! cmd := format_all p (qa_cmdline a) in
  Ok (cmd ++ (if truthy (q_snapshot o) then ["-loadvm"; default "" (q_snapshot o)] else [])
          ++ (if q_enable_kvm o then ["-enable-kvm"] else [])
          ++ (if truthy (q_cpu o) then ["-cpu"; default "" (q_cpu o)] else [])).

(** ** Start and stop *)

Class qemu_host (W : Type) := { remove_file : string -> st W unit; kill_program : nat -> st W unit }.
(** The manager with the processes of the machines; [None] after a stop. *)
Record qemu (W : Type) := { q_vm : vmm W; q_state : gmap string (option nat) }.
Arguments q_vm {W} _. Arguments q_state {W} _.

Definition Q_RUNNING : string := "running".
Definition Q_STOPPED : string := "stopped".

Section qemu_manager.
Context {W : Type} `{SqlBackend} `{host W} `{programs W} `{qemu_host W} (qemu_img : string) (sections : gmap string qemu_options) (vm_state_timeout : Z).

Definition in_vm {A} (m : st (vmm W) A) : st (qemu W) A := fun s =>
  let '(r, v) := m (q_vm s) in (r, {| q_vm := v; q_state := q_state s |}).
Definition set_qemu_process (name : string) (p : option nat) : st (qemu W) unit :=
  smodify (fun s => {| q_vm := q_vm s; q_state := <[name := p]> (q_state s) |}).

(** A new layer over the image, after an old one is removed. *)
Definition create_overlay (image snapshot_path : string) : st (vmm W) unit :=
  do* (fun s => if file_there snapshot_path (hv s) then on_hv (remove_file snapshot_path) s else (Ok tt, s)) in
  machine_error OSError
    (let* p := on_hv (communicate [qemu_img; "create"; "-f"; "qcow2"; "-F"; "qcow2"; "-b"; image; snapshot_path]) in
     let '(_, _, err) := p in
     if bool_decide (err <> "") then sraise OSError else sret tt).
Definition disk_of (name : string) (o : qemu_options) : string :=
  if truthy (q_snapshot o) then q_image o else overlay_path name (q_image o).
Definition QEMU_start (label : string) : st (qemu W) unit :=
  let* vm_info := in_vm (machine_row label) in
  let* info := in_vm (row_of vm_info) in
  let name := m_name info in
  let* o := slift (of_option AttributeError (sections !! name)) in
  do* (if truthy (q_snapshot o) then sret tt else in_vm (create_overlay (q_image o) (overlay_path name (q_image o)))) in
  let* cmd := slift (qemu_command name (disk_of name o) o) in
  let* proc := in_vm (machine_error OSError (on_hv (popen cmd))) in
  set_qemu_process name (Some proc).

Definition QEMU_status (name : string) : st (qemu W) string := fun s =>
  (Ok (match q_state s !! name with Some (Some _) => Q_RUNNING | _ => Q_STOPPED end), s).
Fixpoint reap_loop (fuel : nat) (proc : nat) (stop_me : Z) : st W unit :=
  match fuel with
  | O => sraise OutOfFuel
  | S fuel =>
      let* code := poll proc in
      match code with
      | Some _ => sret tt
      | None =>
          do* (if stop_me <? vm_state_timeout then sret tt else terminate_program proc) in
          do* hv_sleep 1 in
          reap_loop fuel proc (if stop_me <? vm_state_timeout then stop_me + 1 else stop_me)
      end
  end.
Definition QEMU_stop (fuel : nat) (label : string) : st (qemu W) unit :=
  let* vm_info := in_vm (machine_row label) in
  let* info := in_vm (row_of vm_info) in
  let* status := QEMU_status (m_name info) in
  if bool_decide (status = Q_STOPPED) then sraise CuckooMachineError
  else
    let* proc := (fun s => (of_option AttributeError (q_state s !! m_name info ≫= id), s)) in
    do* in_vm (on_hv (kill_program proc)) in
    do* in_vm (on_hv (reap_loop fuel proc 0)) in
    set_qemu_process (m_name info) None.
End qemu_manager.

(** ** The command lines *)

(** The names of the fields of a template, if it is well formed. *)
Fixpoint fields (acc : option bytes) (s : bytes) : option (list string) :=
  match s with
  | [] => match acc with None => Some [] | Some _ => None end
  | c :: s' =>
      match acc with
      | Some name => if bool_decide (c = CLOSE) then l ← fields None s'; Some (text name :: l) else fields (Some (name ++ [c])) s'
      | None =>
          if bool_decide (c = OPEN) then
            match s' with
            | c' :: s'' => if bool_decide (c' = OPEN) then fields None s'' else fields (Some []) s'
            | [] => None
            end
          else if bool_decide (c = CLOSE) then
            match s' with
            | c' :: s'' => if bool_decide (c' = CLOSE) then fields None s'' else None
            | [] => None
            end
          else fields None s'
      end
  end.
Lemma format_ok p n : forall s acc l, (length s <= n)%nat -> fields acc s = Some l -> (forall x, x ∈ l -> is_Some (p !! x)) ->
  exists r, format_bytes p acc s = Ok r.
Proof.
  induction n as [|n IH]; intros [|c s] acc l Hn; cbn [fields format_bytes length] in *; try lia; try (destruct acc; [done|]; intros; by eexists).
  destruct acc as [name|].
  - case_bool_decide; [|apply IH; lia]. intros (l' & El & [= <-])%bind_Some Hl. destruct (Hl (text name)) as [v ->]; [left|].
    destruct (IH s None l' ltac:(lia) El) as [r ->]; [intros x Hx; apply Hl; by right|]. by eexists.
  - case_bool_decide; [|case_bool_decide].
    + destruct s as [|c' s]; [done|]. cbn [length] in Hn. case_bool_decide; [|apply IH; cbn [length]; lia].
      intros El Hl. destruct (IH s None l ltac:(lia) El Hl) as [r ->]. by eexists.
    + destruct s as [|c' s]; [done|]. cbn [length] in Hn. case_bool_decide; [|done].
      intros El Hl. destruct (IH s None l ltac:(lia) El Hl) as [r ->]. by eexists.
    + intros El Hl. destruct (IH s None l ltac:(lia) El Hl) as [r ->]. by eexists.
Qed.
Lemma format_plain p s : OPEN ∉ B s -> CLOSE ∉ B s -> py_format p s = Ok s.
Proof.
  intros H1 H2. unfold py_format. enough (format_bytes p None (B s) = Ok (B s)) as -> by (cbn; by rewrite text_B).
  induction (B s) as [|c l IH]; [done|]. cbn [format_bytes]. apply not_elem_of_cons in H1 as [? ?], H2 as [? ?].
  rewrite !bool_decide_false by congruence. by rewrite IH.
Qed.
Definition plain (v : option string) : Prop := forall s, v = Some s -> OPEN ∉ B s /\ CLOSE ∉ B s.
Lemma override_plain var val p : plain val -> override var val p = Ok (if truthy val then <[var := val]> p else p).
Proof.
  intros Hp. unfold override. destruct (truthy val) eqn:Et; [|done]. destruct val as [v|]; [|done]. destruct (Hp v eq_refl). cbn [default].
  by rewrite format_plain.
Qed.

Definition default_params : params := default ∅ (qa_params <$> QEMU_ARGS !! "default").
Definition known_keys (a : qemu_arch) : gset string := {["imagepath"; "snapshot_path"; "vmname"; "memory"]} ∪ dom (qa_params a ∪ default_params).
Definition template_ok (a : qemu_arch) (t : string) : bool :=
  match fields None (B t) with Some l => forallb (fun x => bool_decide (x ∈ known_keys a)) l | None => false end.
Lemma table_ok_all : forallb (fun kv => forallb (template_ok kv.2) (qa_cmdline kv.2)) (map_to_list QEMU_ARGS) = true.
Proof. by vm_compute. Qed.
Lemma table_ok arch a : QEMU_ARGS !! arch = Some a -> forallb (template_ok a) (qa_cmdline a) = true.
Proof.
  rewrite <- elem_of_map_to_list. generalize table_ok_all. generalize (map_to_list QEMU_ARGS). intros l Hall Hin.
  rewrite forallb_forall in Hall. apply list_elem_of_In in Hin. exact (Hall (arch, a) Hin).
Qed.
Lemma format_all_ok p l : (forall t, t ∈ l -> exists x, py_format p t = Ok x) -> exists r, format_all p l = Ok r /\ Forall2 (fun t x => py_format p t = Ok x) l r.
Proof.
  induction l as [|t l IH]; intros Hl; [by exists []|]. destruct (Hl t) as [x Hx]; [left|]. destruct IH as (r & Er & Hr); [intros t' Ht'; apply Hl; by right|].
  exists (x :: r). cbn [format_all]. rewrite Hx. cbn. rewrite Er. split; [done|by constructor].
Qed.

(** The parameters over the table's. *)
Definition put (var : string) (val : option string) (p : params) : params := if truthy val then <[var := val]> p else p.
Definition filled (m : params) (img path name : string) (mem mac kernel initrd : option string) : params :=
  put "initrd" initrd (put "kernel" kernel (put "mac" mac
    (<["imagepath" := Some img]> (<["snapshot_path" := Some path]> (<["vmname" := Some name]> (<["memory" := mem]> m)))))).
Lemma put_lookup var val p k : put var val p !! k = if decide (var = k /\ truthy val = true) then Some val else p !! k.
Proof.
  unfold put. case_decide as Hc; [destruct Hc as [<- ->]; apply lookup_insert_eq|]. destruct (truthy val); [|done].
  apply lookup_insert_ne. tauto.
Qed.
Lemma filled_lookup m img path name mem mac kernel initrd k : filled m img path name mem mac kernel initrd !! k =
  if decide ("initrd" = k /\ truthy initrd = true) then Some initrd
  else if decide ("kernel" = k /\ truthy kernel = true) then Some kernel
  else if decide ("mac" = k /\ truthy mac = true) then Some mac
  else if decide ("imagepath" = k) then Some (Some img)
  else if decide ("snapshot_path" = k) then Some (Some path)
  else if decide ("vmname" = k) then Some (Some name)
  else if decide ("memory" = k) then Some mem else m !! k.
Proof. unfold filled. by rewrite !put_lookup, !lookup_insert. Qed.
Lemma filled_known m img path name mem mac kernel initrd k :
  k ∈ (({["imagepath"; "snapshot_path"; "vmname"; "memory"]} : gset string) ∪ dom m) -> is_Some (filled m img path name mem mac kernel initrd !! k).
Proof.
  intros Hk. rewrite filled_lookup. repeat (case_decide; [by eexists|]). apply elem_of_union in Hk as [Hk|Hk]; [set_solver|by apply elem_of_dom].
Qed.
Lemma format_kernel p v : p !! "kernel" = Some v -> py_format p "{kernel}" = Ok (show_value v).
Proof.
  intros Hv. unfold py_format. assert (format_bytes p None (B "{kernel}") = Ok (B (show_value v))) as ->; [|cbn [rbind]; by rewrite text_B].
  cbn -[lookup show_value]. rewrite Hv. cbn -[show_value]. by rewrite app_nil_r.
Qed.
Lemma format_memory p v : p !! "memory" = Some v -> py_format p "{memory}" = Ok (show_value v).
Proof.
  intros Hv. unfold py_format. assert (format_bytes p None (B "{memory}") = Ok (B (show_value v))) as ->; [|cbn [rbind]; by rewrite text_B].
  cbn -[lookup show_value]. rewrite Hv. cbn -[show_value]. by rewrite app_nil_r.
Qed.
Lemma formatted_in p l cmd t x : Forall2 (fun t x => py_format p t = Ok x) l cmd -> t ∈ l -> py_format p t = Ok x -> x ∈ cmd.
Proof.
  intros Hc Ht Hx. apply list_elem_of_lookup in Ht as [i Hi]. destruct (Forall2_lookup_l _ _ _ _ _ Hc Hi) as (y & Hy & E).
  apply list_elem_of_lookup. exists i. congruence.
Qed.

(** C28. For every architecture of the table and every machine whose options for
    the address, the kernel and the ramdisk have no braces there is a command:
    the templates with the parameters put in. These options are taken over as
    they are; where one is not set the default of the table is used with its
    own field not put in, and where the memory is not set its default is lost. *)
Theorem qemu_command_spec arch a name path o : QEMU_ARGS !! arch = Some a -> q_arch o = Some arch ->
  plain (q_mac o) -> plain (q_kernel o) -> plain (q_initrd o) ->
  exists p cmd rest, qemu_params name path o = Ok p /\ qemu_command name path o = Ok (cmd ++ rest) /\
    Forall2 (fun t x => py_format p t = Ok x) (qa_cmdline a) cmd /\
    p !! "snapshot_path" = Some (Some path) /\ p !! "vmname" = Some (Some name) /\ p !! "memory" = Some (q_memory o) /\
    (forall var val, (var, val) ∈ [("mac", q_mac o); ("kernel", q_kernel o); ("initrd", q_initrd o)] ->
       p !! var = if truthy val then Some val else (qa_params a ∪ default_params) !! var) /\
    ("{kernel}" ∈ qa_cmdline a -> truthy (q_kernel o) = false ->
       exists k, (qa_params a ∪ default_params) !! "kernel" = Some k /\ show_value k ∈ cmd) /\
    ("{memory}" ∈ qa_cmdline a -> q_memory o = None -> "None" ∈ cmd).
Proof.
  intros Ha Ho Hm Hk Hi. assert (Hd : exists d, QEMU_ARGS !! "default" = Some d /\ default_params = qa_params d).
  { unfold default_params. destruct (QEMU_ARGS !! "default") as [d|] eqn:E; [by exists d|]. exfalso. revert E. by vm_compute. }
  destruct Hd as (d & Hd & Hdp). unfold qemu_command, qemu_params, qemu_arch_of. rewrite Ho. cbn [mbind option_bind]. rewrite Ha, Hd. cbn [of_option rbind].
  rewrite <- Hdp. rewrite !override_plain by done. cbn [rbind]. rewrite !override_plain by done. cbn [rbind]. rewrite !override_plain by done. cbn [rbind].
  fold (put "mac" (q_mac o) (<["imagepath":=Some (image_dir (q_image o))]> (<["snapshot_path":=Some path]> (<["vmname":=Some name]> (<["memory":=q_memory o]> (qa_params a ∪ default_params)))))).
  pose proof (table_ok arch a Ha) as Ht. unfold template_ok, known_keys in Ht. revert Ht. generalize (qa_params a ∪ default_params) as m. intros m Ht.
  match goal with |- context [format_all ?q _] => change q with (filled m (image_dir (q_image o)) path name (q_memory o) (q_mac o) (q_kernel o) (q_initrd o)) end.
  set (p := filled _ _ _ _ _ _ _ _). rewrite forallb_forall in Ht.
  destruct (format_all_ok p (qa_cmdline a)) as (cmd & Ec & Hc).
  { intros t Hin. apply list_elem_of_In, Ht in Hin. unfold py_format. destruct (fields None (B t)) as [l|] eqn:Ef; [|done].
    destruct (format_ok p _ _ _ _ (le_n _) Ef) as [r ->]; [|by eexists]. intros x Hx. apply filled_known.
    rewrite forallb_forall in Hin. by apply list_elem_of_In, Hin, bool_decide_eq_true in Hx. }
  assert (Hmem : p !! "memory" = Some (q_memory o)) by (unfold p; rewrite filled_lookup; repeat (case_decide; destruct_and?; try done)).
  exists p, cmd. eexists. split; [done|]. rewrite Ec. split; [done|]. split; [exact Hc|]. split_and!.
  - unfold p. rewrite filled_lookup. repeat (case_decide; destruct_and?; try done).
  - unfold p. rewrite filled_lookup. repeat (case_decide; destruct_and?; try done).
  - done.
  - intros var val Hin. unfold p. rewrite filled_lookup.
    repeat (apply elem_of_cons in Hin as [[= -> ->]|Hin]); [..|by apply elem_of_nil in Hin]; match goal with |- context [if truthy ?v then _ else _] => destruct (truthy v) eqn:? end;
      repeat (case_decide; destruct_and?; try done; try tauto).
  - intros Hin Hno. pose proof Hin as Hin'. apply list_elem_of_In, Ht in Hin'. cbn [B list_ascii_of_string fields] in Hin'.
    cbn -[dom bool_decide union] in Hin'. apply andb_true_iff in Hin' as [Hdom _]. apply bool_decide_eq_true, elem_of_union in Hdom as [Hdom|Hdom].
    { exfalso. revert Hdom. set_solver. }
    apply elem_of_dom in Hdom as [k Hkk]. exists k. split; [done|]. eapply formatted_in; [exact Hc|exact Hin|]. apply format_kernel. unfold p.
    rewrite filled_lookup, Hno. repeat (case_decide; destruct_and?; try done).
  - intros Hin Hno. eapply formatted_in; [exact Hc|exact Hin|]. rewrite (format_memory p _ Hmem). by rewrite Hno.
Qed.

(** ** What a machine runs on *)

Section start_disk.
Context {W : Type} `{SqlBackend} `{host W} `{programs W} `{qemu_host W} (qemu_img : string) (sections : gmap string qemu_options).
Lemma in_vm_ok {A} (m : st (vmm W) A) s a s' : in_vm m s = (Ok a, s') -> m (q_vm s) = (Ok a, q_vm s') /\ q_state s' = q_state s.
Proof using Type. unfold in_vm. destruct (m (q_vm s)) as [r v]. intros ?. by simplify_eq/=. Qed.
Lemma overlay_made image path (s s' : vmm W) : create_overlay qemu_img image path s = (Ok tt, s') -> exists w code output,
  communicate [qemu_img; "create"; "-f"; "qcow2"; "-F"; "qcow2"; "-b"; image; path] w = (Ok (code, output, ""), hv s').
Proof using Type.
  unfold create_overlay. intros E. apply sbind_ok_inv in E as ([] & s1 & _ & E). apply machine_error_ok, sbind_ok_inv in E as ([[code output] err] & s2 & E1 & E).
  case_bool_decide as He; [done|]. injection E as <-. unfold on_hv in E1. destruct (communicate _ (hv s1)) as [r w] eqn:Ec. simplify_eq/=. by eexists _, _, _.
Qed.

(** A start that returns has run the command of the machine's section,
    and its process is the one a stop will kill, whichever was recorded before.
    Without a snapshot the disk is not the image but a layer made over it by
    the command just before. *)
Theorem QEMU_start_disk label s s' : QEMU_start qemu_img sections label s = (Ok tt, s') ->
  exists info o cmd proc w, m_label info = label /\ sections !! m_name info = Some o /\
    qemu_command (m_name info) (disk_of (m_name info) o) o = Ok cmd /\ popen cmd w = (Ok proc, hv (q_vm s')) /\
    q_state s' = <[m_name info := Some proc]> (q_state s) /\
    (truthy (q_snapshot o) = false -> disk_of (m_name info) o = overlay_path (m_name info) (q_image o) /\
       exists w0 code output, communicate [qemu_img; "create"; "-f"; "qcow2"; "-F"; "qcow2"; "-b"; q_image o; overlay_path (m_name info) (q_image o)] w0
         = (Ok (code, output, ""), w)).
Proof using Type.
  unfold QEMU_start. intros E. apply sbind_ok_inv in E as (r & s1 & E1 & E). apply in_vm_ok in E1 as [E1 Q1].
  apply sbind_ok_inv in E as (info & s2 & E2 & E). apply in_vm_ok in E2 as [E2 Q2]. apply row_of_ok in E2 as [-> E2].
  apply sbind_ok_inv in E as (o & s3 & E3 & E). unfold slift in E3. destruct (sections !! m_name info) as [o'|] eqn:Es; [|done]. injection E3 as -> <-.
  apply sbind_ok_inv in E as ([] & s4 & E4 & E). apply sbind_ok_inv in E as (cmd & s5 & E5 & E). unfold slift in E5. injection E5 as Ec <-.
  apply sbind_ok_inv in E as (proc & s6 & E6 & E). apply in_vm_ok in E6 as [E6 Q6]. apply machine_error_ok in E6. unfold set_qemu_process, smodify in E. injection E as <-.
  assert (Q4 : q_state s4 = q_state s2) by (destruct (truthy (q_snapshot o)); [by injection E4 as <-|by apply in_vm_ok in E4 as [_ ?]]).
  unfold on_hv in E6. destruct (popen cmd (hv (q_vm s4))) as [r w] eqn:Ep. destruct (row_found _ _ _ _ E1 info eq_refl) as (id & _ & Hl).
  exists info, o, cmd, proc, (hv (q_vm s4)). cbn [q_vm q_state hv]. split_and!; [done..| | |].
  - rewrite Ep. injection E6 as -> Hv. by rewrite <- Hv.
  - congruence.
  - intros Hs. unfold disk_of. rewrite Hs in *. split; [done|]. apply in_vm_ok in E4 as [E4 _]. by apply overlay_made in E4.
Qed.
End start_disk.

(** ** An example *)

#[local] Existing Instance toy_host.
#[local] Existing Instance toy_programs.
#[local] Existing Instance always_fine.
#[local] Instance toy_qemu_host : qemu_host toy := { remove_file _ := sret tt; kill_program _ := sret tt }.
Definition arm_options : qemu_options :=
  {| q_image := "/vms/arm/disk.qcow2"; q_snapshot := None; q_arch := Some "arm"; q_memory := None; q_mac := None;
     q_kernel := None; q_initrd := Some "/vms/initrd"; q_cpu := Some "cortex-a15"; q_enable_kvm := false |}.

Lemma qemu_command_spec_witness : exists p cmd rest, qemu_params "arm1" "/vms/arm/snapshot_arm1.qcow2" arm_options = Ok p /\
  qemu_command "arm1" "/vms/arm/snapshot_arm1.qcow2" arm_options = Ok (cmd ++ rest) /\
  "{imagepath}/vmlinuz-3.2.0-4-versatile-arm" ∈ cmd /\ "None" ∈ cmd /\ p !! "initrd" = Some (Some "/vms/initrd").
Proof.
  destruct (QEMU_ARGS !! "arm") as [a|] eqn:Ha; [|exfalso; revert Ha; by vm_compute].
  assert (Hk : (qa_params a ∪ default_params) !! "kernel" = Some (Some "{imagepath}/vmlinuz-3.2.0-4-versatile-arm") /\
               bool_decide ("{kernel}" ∈ qa_cmdline a) && bool_decide ("{memory}" ∈ qa_cmdline a) = true).
  { assert (a = default a (QEMU_ARGS !! "arm")) as -> by by rewrite Ha. split; by vm_compute. }
  destruct Hk as [Hk [H1%bool_decide_eq_true H2%bool_decide_eq_true]%andb_true_iff].
  assert (Hn : plain None) by by intros s.
  assert (Hi : plain (Some "/vms/initrd")) by (intros s [= <-]; split; apply (bool_decide_unpack _); by vm_compute).
  destruct (qemu_command_spec "arm" a "arm1" "/vms/arm/snapshot_arm1.qcow2" arm_options Ha eq_refl Hn Hn Hi)
    as (p & cmd & rest & E1 & E2 & _ & _ & _ & _ & Hv & Hke & Hme).
  exists p, cmd, rest. split_and!; [done|done| |by apply Hme|].
  - destruct (Hke H1 eq_refl) as (k & Hk' & Hin). rewrite Hk in Hk'. injection Hk' as <-. exact Hin.
  - apply (Hv "initrd" (Some "/vms/initrd")). by right; right; left.
Defined.

Definition toy_sections : gmap string qemu_options := {[ "win7" := arm_options ]}.
Definition toy_qemu : qemu toy := {| q_vm := toy_manager; q_state := ∅ |}.
Lemma QEMU_start_disk_witness : exists info o cmd proc w, m_label info = "win7" /\ toy_sections !! m_name info = Some o /\
    qemu_command (m_name info) (disk_of (m_name info) o) o = Ok cmd /\
    popen cmd w = (Ok proc, hv (q_vm (QEMU_start "/usr/bin/qemu-img" toy_sections "win7" toy_qemu).2)) /\
    q_state (QEMU_start "/usr/bin/qemu-img" toy_sections "win7" toy_qemu).2 = <[m_name info := Some proc]> (q_state toy_qemu) /\
    (truthy (q_snapshot o) = false -> disk_of (m_name info) o = overlay_path (m_name info) (q_image o) /\
       exists w0 code output, communicate ["/usr/bin/qemu-img"; "create"; "-f"; "qcow2"; "-F"; "qcow2"; "-b"; q_image o; overlay_path (m_name info) (q_image o)] w0
         = (Ok (code, output, ""), w)).
Proof.
  apply (QEMU_start_disk "/usr/bin/qemu-img" toy_sections "win7" toy_qemu). apply pair_of. by vm_compute.
Defined.
