(* ===== verification/PcapSort.v ===== *)
(** The sorting of captures by connection, modules/processing/network.py:
    [SortCap], [batch_sort], and the packets of one connection that the web
    interface shows. A capture file is the list of its packets; what dpkt makes
    of the bytes of a packet is a parameter. *)
From S2P Require Import Prelude.
From stdpp Require Import sorting.
Open Scope Z_scope.

(** ** How Python compares *)

(** Numbers, texts and tuples are compared the same way: a three-way comparison
    that is an order. *)
Class Comparer (A : Type) := {
  cmp : A -> A -> comparison;
  cmp_eq : forall x y, cmp x y = Eq <-> x = y;
  cmp_flip : forall x y, cmp y x = CompOpp (cmp x y);
  cmp_trans : forall x y z, cmp x y = Lt -> cmp y z = Lt -> cmp x z = Lt }.

Definition before {A} `{Comparer A} (x y : A) : bool := match cmp x y with Gt => false | _ => true end.

#[export] Program Instance Z_comparer : Comparer Z := {| cmp := Z.compare |}.
Next Obligation. intros. apply Z.compare_eq_iff. Qed.
Next Obligation. intros. apply Z.compare_antisym. Qed.
Next Obligation. intros x y z. rewrite !Z.compare_lt_iff. lia. Qed.

Definition ascii_cmp (a b : ascii) : comparison := (nat_of_ascii a ?= nat_of_ascii b)%nat.
#[export] Program Instance ascii_comparer : Comparer ascii := {| cmp := ascii_cmp |}.
Next Obligation.
  intros x y. unfold ascii_cmp. rewrite Nat.compare_eq_iff. split; [|by intros ->].
  intros E. by rewrite <- (ascii_nat_embedding x), E, ascii_nat_embedding.
Qed.
Next Obligation. intros. apply Nat.compare_antisym. Qed.
Next Obligation. intros x y z. unfold ascii_cmp. rewrite !Nat.compare_lt_iff. lia. Qed.

Section products.
Context {A B} `{Comparer A} `{Comparer B}.
Definition pair_cmp (x y : A * B) : comparison := match cmp x.1 y.1 with Eq => cmp x.2 y.2 | c => c end.
#[export] Program Instance pair_comparer : Comparer (A * B) := {| cmp := pair_cmp |}.
Next Obligation.
  intros [a b] [c d]. unfold pair_cmp. simpl. destruct (cmp a c) eqn:E.
  - apply cmp_eq in E as ->. rewrite cmp_eq. naive_solver.
  - split; [done|]. intros [= -> ->]. rewrite (proj2 (cmp_eq c c)) in E; done.
  - split; [done|]. intros [= -> ->]. rewrite (proj2 (cmp_eq c c)) in E; done.
Qed.
Next Obligation.
  intros [a b] [c d]. unfold pair_cmp. simpl. rewrite (cmp_flip a c). destruct (cmp a c); simpl; try done. apply cmp_flip.
Qed.
Next Obligation.
  intros [a b] [c d] [e f]. unfold pair_cmp. simpl.
  destruct (cmp a c) eqn:E1; destruct (cmp c e) eqn:E2; try done.
  - apply cmp_eq in E1 as ->. rewrite E2. apply cmp_trans.
  - apply cmp_eq in E1 as ->. by rewrite E2.
  - apply cmp_eq in E2 as ->. by rewrite E1.
  - by rewrite (cmp_trans _ _ _ E1 E2).
Qed.

Fixpoint list_cmp (x y : list A) : comparison :=
  match x, y with
  | [], [] => Eq
  | [], _ => Lt
  | _, [] => Gt
  | a :: x', b :: y' => match cmp a b with Eq => list_cmp x' y' | c => c end
  end.
#[export] Program Instance list_comparer : Comparer (list A) := {| cmp := list_cmp |}.
Next Obligation.
  induction x as [|a x IH]; intros [|b y]; simpl; try done. destruct (cmp a b) eqn:E.
  - apply cmp_eq in E as ->. rewrite IH. naive_solver.
  - split; [done|]. intros [= -> ->]. rewrite (proj2 (cmp_eq b b)) in E; done.
  - split; [done|]. intros [= -> ->]. rewrite (proj2 (cmp_eq b b)) in E; done.
Qed.
Next Obligation.
  induction x as [|a x IH]; intros [|b y]; simpl; try done. rewrite (cmp_flip a b). destruct (cmp a b); simpl; auto.
Qed.
Next Obligation.
  induction x as [|a x IH]; intros [|b y] [|c z]; simpl; try done.
  destruct (cmp a b) eqn:E1; destruct (cmp b c) eqn:E2; try done.
  - apply cmp_eq in E1 as ->. rewrite E2. apply IH.
  - apply cmp_eq in E1 as ->. by rewrite E2.
  - apply cmp_eq in E2 as ->. by rewrite E1.
  - by rewrite (cmp_trans _ _ _ E1 E2).
Qed.

#[export] Instance before_total : Total (holds2 (@before A _)).
Proof. intros x y. unfold holds2, before. rewrite (cmp_flip x y). destruct (cmp x y); simpl; auto. Qed.
#[export] Instance before_transitive : Transitive (holds2 (@before A _)).
Proof.
  intros x y z. unfold holds2, before. destruct (cmp x y) eqn:E1; [apply cmp_eq in E1 as ->; done| |done].
  destruct (cmp y z) eqn:E2; [apply cmp_eq in E2 as <-; by rewrite E1|by rewrite (cmp_trans _ _ _ E1 E2)|done].
Qed.
End products.

Definition string_cmp (s t : string) : comparison := list_cmp (B s) (B t).
#[export] Program Instance string_comparer : Comparer string := {| cmp := string_cmp |}.
Next Obligation.
  intros s t. change (cmp (B s) (B t) = Eq <-> s = t). rewrite cmp_eq. split; [|by intros ->].
  intros E. by rewrite <- (text_B s), E, text_B.
Qed.
Next Obligation. intros s t. change (cmp (B t) (B s) = CompOpp (cmp (B s) (B t))). apply cmp_flip. Qed.
Next Obligation. intros s t u. change (cmp (B s) (B t) = Lt -> cmp (B t) (B u) = Lt -> cmp (B s) (B u) = Lt). apply cmp_trans. Qed.

(** ** What dpkt finds in a packet *)

Record tcp := { tcp_sport : Z; tcp_dport : Z; tcp_seq : Z; tcp_ack : Z; tcp_data : bytes }.
Record udp := { udp_sport : Z; udp_dport : Z; udp_data : bytes }.
Record icmp := { icmp_type : Z; icmp_size : nat; icmp_payload : res bytes }.
(** The data of an IP packet: decoded, or the bytes. *)
Inductive transport := LTcp (t : tcp) | LUdp (u : udp) | LIcmp (i : icmp) | LBytes (l : bytes).
(** The addresses are the texts of [inet_ntoa] and [inet_ntop]. *)
Inductive layer := Ipv4 (src dst : string) (p : Z) (l3 : transport) | Ipv6 (src dst : string) (p : Z) (l3 : transport) | NoIp.

(** [ip_payload] is [ip.data.data], [None] when there is no such attribute. *)
Class dpkt := {
  ethernet : bytes -> res layer;
  raw_ip : bytes -> res layer;
  ip_payload : layer -> option bytes;
  as_tcp : bytes -> res tcp;
  as_udp : bytes -> res udp;
  as_icmp : bytes -> res icmp }.

Definition IP_PROTO_ICMP : Z := 1.
Definition IP_PROTO_TCP : Z := 6.
Definition IP_PROTO_UDP : Z := 17.

(** [Packet(raw, ts)]; a time is a number of microseconds. *)
Abbreviation Packet := (bytes * Z)%type.
(** Source, destination, their ports, protocol. *)
Abbreviation flow := (string * string * Z * Z * Z)%type.
(** [Keyed(key, obj)]. *)
Abbreviation Keyed := (flow * Z * Z * Packet)%type.

Section captures.
Context `{dpkt}.

Definition iplayer_from_raw (raw : bytes) (linktype : Z) : res layer :=
  if linktype =? 1 then ethernet raw else if linktype =? 101 then raw_ip raw else Raise OtherException.

Definition flowtuple_from_raw (raw : bytes) (linktype : Z) : res flow :=
  let! ip := iplayer_from_raw raw linktype in
  Ok match ip with
     | Ipv4 src dst proto l3 =>
         match l3 with
         | LTcp t => if proto =? IP_PROTO_TCP then (src, dst, tcp_sport t, tcp_dport t, proto) else (src, dst, 0, 0, proto)
         | LUdp u => if proto =? IP_PROTO_UDP then (src, dst, udp_sport u, udp_dport u, proto) else (src, dst, 0, 0, proto)
         | _ => (src, dst, 0, 0, proto)
         end
     | _ => ("0"%string, "0"%string, 0, 0, -1)
     end.

Definition payload_from_raw (raw : bytes) (linktype : Z) : res bytes :=
  let! ip := iplayer_from_raw raw linktype in Ok (default [] (ip_payload ip)).

(** ** [SortCap] *)

(** A capture that is being read; [sc_conns] is a set. *)
Record SortCap := { sc_rest : list Packet; sc_linktype : Z; sc_ctr : Z; sc_conns : list flow }.

Definition open_cap (linktype : Z) (ps : list Packet) : SortCap :=
  {| sc_rest := ps; sc_linktype := linktype; sc_ctr := 0; sc_conns := [] |}.

Definition reverse_flow (f : flow) : flow := match f with (sip, dip, sport, dport, proto) => (dip, sip, dport, sport, proto) end.

(** The direction in which a connection was first seen. *)
Definition known_flow (conns : list flow) (f : flow) : flow :=
  if bool_decide (reverse_flow f ∈ conns) then reverse_flow f else f.

Definition SortCap_next (c : SortCap) : res (option (Keyed * SortCap)) :=
  match sc_rest c with
  | [] => Ok None
  | (raw, ts) :: rest =>
      let! f := flowtuple_from_raw raw (sc_linktype c) in
      let f := known_flow (sc_conns c) f in
      Ok (Some ((f, ts, sc_ctr c + 1, (raw, ts)),
                {| sc_rest := rest; sc_linktype := sc_linktype c; sc_ctr := sc_ctr c + 1; sc_conns := f :: sc_conns c |}))
  end.

(** ** [batch_sort] *)

(** [list(islice(input_iterator, n))]. *)
Fixpoint read_chunk (n : nat) (c : SortCap) : res (list Keyed * SortCap) :=
  match n with
  | O => Ok ([], c)
  | S n =>
      let! r := SortCap_next c in
      match r with
      | None => Ok ([], c)
      | Some (k, c) => let! r := read_chunk n c in Ok (k :: r.1, r.2)
      end
  end.

(** The files of the sorted chunks. *)
Fixpoint sort_chunks (fuel : nat) (buffer_size : nat) (c : SortCap) : res (list (list Packet)) :=
  match fuel with
  | O => Raise OutOfFuel
  | S fuel =>
      let! r := read_chunk buffer_size c in
      match r.1 with
      | [] => Ok []
      | _ => let! chunks := sort_chunks fuel buffer_size r.2 in
             Ok ((snd <$> merge_sort (holds2 before) r.1) :: chunks)
      end
  end.

(** The least head of the lists, the first one of equals. *)
Fixpoint least_head (ls : list (list Keyed)) : option (Keyed * list (list Keyed)) :=
  match ls with
  | [] => None
  | [] :: ls' => match least_head ls' with None => None | Some (y, rest) => Some (y, [] :: rest) end
  | (x :: l) :: ls' =>
      match least_head ls' with
      | None => Some (x, l :: ls')
      | Some (y, rest) => if before x y then Some (x, l :: ls') else Some (y, (x :: l) :: rest)
      end
  end.
(** [heapq.merge]. *)
Fixpoint heap_merge (fuel : nat) (ls : list (list Keyed)) : list Keyed :=
  match fuel with
  | O => []
  | S fuel => match least_head ls with None => [] | Some (x, ls') => x :: heap_merge fuel ls' end
  end.

(** Every chunk is read by a [SortCap] of its own. *)
Fixpoint read_caps (linktype : Z) (chunks : list (list Packet)) : res (list (list Keyed)) :=
  match chunks with
  | [] => Ok []
  | c :: chunks' =>
      let! r := read_chunk (length c) (open_cap linktype c) in
      let! ls := read_caps linktype chunks' in Ok (r.1 :: ls)
  end.
Definition batch_sort (buffer_size : nat) (linktype : Z) (ps : list Packet) : res (list Packet) :=
  let! chunks := sort_chunks (S (length ps)) buffer_size (open_cap linktype ps) in
  let! ls := read_caps linktype chunks in
  Ok (snd <$> heap_merge (length (concat ls)) ls).

Definition BUFFER_SIZE : nat := Z.to_nat 32000.
Definition sort_pcap (linktype : Z) (ps : list Packet) : res (list Packet) := batch_sort BUFFER_SIZE linktype ps.

(** ** The packets of a connection *)

Definition b64_alphabet : string := "ABCDEFGHIJKLMNOPQRSTUVWXYZabcdefghijklmnopqrstuvwxyz0123456789+/".
Definition b64_char (n : nat) : ascii := default "="%char (B b64_alphabet !! n).
Fixpoint b64encode (l : bytes) : bytes :=
  match l with
  | a :: b :: c :: l' =>
      let n := (nat_of_ascii a * 65536 + nat_of_ascii b * 256 + nat_of_ascii c)%nat in
      b64_char (n / 262144) :: b64_char (n / 4096 mod 64) :: b64_char (n / 64 mod 64) :: b64_char (n mod 64) :: b64encode l'
  | [a; b] =>
      let n := (nat_of_ascii a * 1024 + nat_of_ascii b * 4)%nat in
      [b64_char (n / 4096); b64_char (n / 64 mod 64); b64_char (n mod 64); "="%char]
  | [a] => let n := (nat_of_ascii a * 16)%nat in [b64_char (n / 64); b64_char (n mod 64); "="%char; "="%char]
  | [] => []
  end.

Record stream_packet := { sp_src : string; sp_dst : string; sp_sport : Z; sp_dport : Z; sp_raw : bytes; sp_direction : bool }.

(** [next_connection_packets], all of what it yields. *)
Fixpoint connection_packets (first_ft : option flow) (linktype : Z) (ps : list Packet) : res (list stream_packet) :=
  match ps with
  | [] => Ok []
  | (raw, ts) :: ps' =>
      let! ft := flowtuple_from_raw raw linktype in
      let first := default ft first_ft in
      if bool_decide (first = ft \/ first = reverse_flow ft) then
        let! payload := payload_from_raw raw linktype in
        let! rest := connection_packets (Some first) linktype ps' in
        Ok (match ft with (sip, dip, sport, dport, proto) =>
              {| sp_src := sip; sp_dst := dip; sp_sport := sport; sp_dport := dport; sp_raw := b64encode payload;
                 sp_direction := bool_decide (first = ft) |} end :: rest)
      else Ok []
  end.
Definition next_connection_packets (linktype : Z) (ps : list Packet) : res (list stream_packet) := connection_packets None linktype ps.
(** An offset in the file is the number of packets before it; one packet is
    read before the file is positioned. *)
Definition packets_for_stream (linktype : Z) (ps : list Packet) (offset : nat) : res (list stream_packet) :=
  match ps with [] => Raise OtherException | _ => next_connection_packets linktype (drop offset ps) end.
End captures.

(** ** Sorting loses nothing *)

Section sorting.
Context `{dpkt}.

Lemma next_inv c r : SortCap_next c = Ok r ->
  match r with
  | None => sc_rest c = []
  | Some (k, c') => exists f, sc_rest c = k.2 :: sc_rest c' /\ flowtuple_from_raw k.2.1 (sc_linktype c) = Ok f /\
      k.1.1.1 = known_flow (sc_conns c) f /\ k.1.1.2 = k.2.2 /\ sc_conns c' = k.1.1.1 :: sc_conns c /\ sc_linktype c' = sc_linktype c
  end.
Proof.
  unfold SortCap_next. destruct (sc_rest c) as [|[raw ts] rest]; [by intros [= <-]|].
  destruct (flowtuple_from_raw raw (sc_linktype c)) as [f|e] eqn:E; [|done]. cbn. intros [= <-]. by exists f.
Qed.
Lemma read_chunk_objs n c ks c' : read_chunk n c = Ok (ks, c') ->
  snd <$> ks = take n (sc_rest c) /\ sc_rest c' = drop n (sc_rest c) /\ sc_linktype c' = sc_linktype c.
Proof.
  revert c ks c'. induction n as [|n IH]; intros c ks c' E; cbn in E; [by simplify_eq|].
  destruct (SortCap_next c) as [r|e] eqn:En; [|done]. apply next_inv in En. cbn in E.
  destruct r as [[k c1]|]; [|simplify_eq; by rewrite En].
  destruct En as (f & Hr & _ & _ & _ & _ & Hl). destruct (read_chunk n c1) as [[ks1 c2]|e] eqn:E1; [|done]. cbn in E. simplify_eq.
  destruct (IH _ _ _ E1) as (Ha & Hb & Hc). rewrite Hr, fmap_cons, Ha. cbn. split_and!; congruence.
Qed.

Lemma least_head_perm ls : match least_head ls with None => concat ls = [] | Some (x, ls') => concat ls ≡ₚ x :: concat ls' end.
Proof.
  induction ls as [|[|x l] ls IH]; cbn; [done| |].
  - by destruct (least_head ls) as [[y rest]|]; cbn.
  - destruct (least_head ls) as [[y rest]|]; [|done]. destruct (before x y); [done|].
    cbn. rewrite IH. symmetry. apply (Permutation_middle (x :: l)).
Qed.
Lemma heap_merge_perm fuel ls : (length (concat ls) <= fuel)%nat -> heap_merge fuel ls ≡ₚ concat ls.
Proof.
  revert ls. induction fuel as [|fuel IH]; intros ls Hf; cbn.
  - by destruct (concat ls); cbn in Hf; [|lia].
  - pose proof (least_head_perm ls) as Hp. destruct (least_head ls) as [[x ls']|]; [|by rewrite Hp].
    rewrite Hp, IH; [done|]. apply Permutation_length in Hp. cbn in Hp. lia.
Qed.

Lemma read_caps_perm linktype chunks ls : read_caps linktype chunks = Ok ls -> snd <$> concat ls = concat chunks.
Proof.
  revert ls. induction chunks as [|c chunks IH]; intros ls E; cbn in E; [by simplify_eq|].
  destruct (read_chunk _ _) as [[ks c']|] eqn:Er; [|done]. cbn in E. destruct (read_caps linktype chunks); [|done]. simplify_eq/=.
  apply read_chunk_objs in Er as [Hk _]. cbn in Hk. rewrite fmap_app, Hk, firstn_all. f_equal. by apply IH.
Qed.
Lemma sort_chunks_perm fuel n c chunks : (0 < n)%nat -> sort_chunks fuel n c = Ok chunks -> concat chunks ≡ₚ sc_rest c.
Proof.
  intros Hn. revert c chunks. induction fuel as [|fuel IH]; intros c chunks E; cbn in E; [done|].
  destruct (read_chunk n c) as [[ks c']|] eqn:Er; [|done]. apply read_chunk_objs in Er as (Hk & Hr & _). cbn in E.
  destruct ks as [|k ks].
  - simplify_eq. destruct (sc_rest c); [done|]. by destruct n; [lia|].
  - destruct (sort_chunks fuel n c') as [chunks'|] eqn:Es; [|done]. simplify_eq/=. rewrite (IH _ _ Es), Hr.
    rewrite merge_sort_Permutation, fmap_cons, Hk. by rewrite take_drop.
Qed.

(** The packets dpkt can read. *)
Definition readable (linktype : Z) (p : Packet) : Prop := exists f, flowtuple_from_raw p.1 linktype = Ok f.
Lemma read_chunk_total n c : Forall (readable (sc_linktype c)) (sc_rest c) -> exists r, read_chunk n c = Ok r.
Proof.
  revert c. induction n as [|n IH]; intros c Hc; [by eexists|]. cbn. unfold SortCap_next.
  destruct (sc_rest c) as [|[raw ts] rest]; [by eexists|]. apply Forall_cons in Hc as [[f Hf] Hc]. cbn in Hf. rewrite Hf. cbn.
  edestruct IH as [r ->]; [exact Hc|]. by eexists.
Qed.
Lemma sort_chunks_total fuel n c : (0 < n)%nat -> (length (sc_rest c) < fuel)%nat -> Forall (readable (sc_linktype c)) (sc_rest c) ->
  exists chunks, sort_chunks fuel n c = Ok chunks.
Proof.
  intros Hn. revert c. induction fuel as [|fuel IH]; intros c Hf Hc; [lia|]. cbn.
  destruct (read_chunk_total n c Hc) as [[ks c'] E]. rewrite E. cbn. apply read_chunk_objs in E as (Hk & Hr & Hl).
  destruct ks as [|k ks]; [by eexists|]. destruct (IH c') as [chunks ->]; [|by rewrite Hr, Hl; apply Forall_drop|by eexists].
  rewrite Hr, length_drop. destruct (sc_rest c); [by destruct n|]. cbn in *. lia.
Qed.
Lemma read_caps_total linktype chunks : Forall (readable linktype) (concat chunks) -> exists ls, read_caps linktype chunks = Ok ls.
Proof.
  induction chunks as [|c chunks IH]; [by eexists|]. cbn. intros [Hc Hcs]%Forall_app.
  destruct (read_chunk_total (length c) (open_cap linktype c) Hc) as [r ->]. cbn.
  destruct (IH Hcs) as [ls ->]. by eexists.
Qed.

(** Sorting a capture ends, and the result has the packets of the capture,
    each as often as before, whatever the size of the chunks. *)
Theorem batch_sort_permutes n linktype ps : (0 < n)%nat -> Forall (readable linktype) ps ->
  exists out, batch_sort n linktype ps = Ok out /\ out ≡ₚ ps.
Proof.
  intros Hn Hps. unfold batch_sort.
  destruct (sort_chunks_total (S (length ps)) n (open_cap linktype ps) Hn) as [chunks Hc]; [cbn; lia|done|].
  rewrite Hc. cbn. apply (sort_chunks_perm _ _ _ _ Hn) in Hc. cbn in Hc.
  destruct (read_caps_total linktype chunks) as [ls Hls]; [by rewrite Hc|]. rewrite Hls. cbn.
  eexists. split; [done|]. rewrite heap_merge_perm by done. by rewrite (read_caps_perm _ _ _ Hls).
Qed.
End sorting.

(** ** A connection is shown whole *)

Section streams.
Context `{dpkt}.

Lemma reverse_twice f : reverse_flow (reverse_flow f) = f.
Proof. by destruct f as [[[[]]]]. Qed.

(** No connection is known in both directions. *)
Definition one_way (conns : list flow) : Prop := forall f, f ∈ conns -> reverse_flow f ∈ conns -> reverse_flow f = f.
Lemma one_way_known conns f : one_way conns -> one_way (known_flow conns f :: conns).
Proof.
  intros Ho. unfold known_flow. case_bool_decide as Hin; intros g.
  - assert (forall h, h ∈ reverse_flow f :: conns -> h ∈ conns) as Hs by set_solver. intros ? ?. apply Ho; by apply Hs.
  - rewrite !elem_of_cons. intros [->|Hg] [Hr|Hr]; [done|done| |by apply Ho].
    destruct Hin. by rewrite <- Hr, reverse_twice.
Qed.

(** What the reader says of a packet: one of the two directions of its flow,
    its time, and a direction that is in [conns]. *)
Definition keyed_ok (linktype : Z) (conns : list flow) (k : Keyed) : Prop :=
  k.1.1.1 ∈ conns /\ k.1.1.2 = k.2.2 /\
  exists f, flowtuple_from_raw k.2.1 linktype = Ok f /\ (k.1.1.1 = f \/ k.1.1.1 = reverse_flow f).
Lemma read_chunk_keys n c ks c' : read_chunk n c = Ok (ks, c') -> one_way (sc_conns c) ->
  one_way (sc_conns c') /\ sc_conns c ⊆ sc_conns c' /\ Forall (keyed_ok (sc_linktype c) (sc_conns c')) ks.
Proof.
  revert c ks c'. induction n as [|n IH]; intros c ks c' E Ho; cbn in E; [by simplify_eq|].
  destruct (SortCap_next c) as [r|e] eqn:En; [|done]. apply next_inv in En. cbn in E.
  destruct r as [[k c1]|]; [|by simplify_eq].
  destruct En as (f & _ & Hf & Hk & Ht & Hc & Hl). destruct (read_chunk n c1) as [[ks1 c2]|e] eqn:E1; [|done]. cbn in E. simplify_eq.
  destruct (IH _ _ _ E1) as (Ho2 & Hsub & Hall); [rewrite Hc, Hk; by apply one_way_known|].
  rewrite Hc in Hsub. split_and!; [done|set_solver|]. rewrite <- Hl. constructor; [|done].
  split_and!; [set_solver|done|]. rewrite Hl. exists f. split; [done|]. rewrite Hk. unfold known_flow. case_bool_decide; auto.
Qed.

Lemma before_fst {A B} `{Comparer A} `{Comparer B} (x y : A * B) : before x y = true -> before x.1 y.1 = true.
Proof. unfold before. change (cmp x y) with (pair_cmp x y). unfold pair_cmp. by destruct (cmp x.1 y.1). Qed.
Lemma before_snd {A B} `{Comparer A} `{Comparer B} (x y : A * B) : before x y = true -> x.1 = y.1 -> before x.2 y.2 = true.
Proof. unfold before. change (cmp x y) with (pair_cmp x y). unfold pair_cmp. intros Hb E%cmp_eq. by rewrite E in Hb. Qed.
Lemma before_antisym {A} `{Comparer A} (x y : A) : before x y = true -> before y x = true -> x = y.
Proof. unfold before. rewrite (cmp_flip x y). destruct (cmp x y) eqn:E; try done. by apply cmp_eq in E. Qed.

(** How a packet of the connection of [first] is shown. *)
Definition shows (linktype : Z) (first : flow) (p : Packet) (e : stream_packet) : Prop :=
  exists sip dip sport dport proto payload, flowtuple_from_raw p.1 linktype = Ok (sip, dip, sport, dport, proto) /\
    payload_from_raw p.1 linktype = Ok payload /\
    e = {| sp_src := sip; sp_dst := dip; sp_sport := sport; sp_dport := dport; sp_raw := b64encode payload;
           sp_direction := bool_decide (first = (sip, dip, sport, dport, proto)) |}.
Lemma payload_total raw linktype f : flowtuple_from_raw raw linktype = Ok f -> exists pl, payload_from_raw raw linktype = Ok pl.
Proof.
  unfold flowtuple_from_raw, payload_from_raw. destruct (iplayer_from_raw raw linktype); [|done]. intros _. by eexists.
Qed.

(** The keys are sorted by connection, so that what follows a packet of another
    connection is of another connection. *)
Lemma connection_spec linktype conns first g ks :
  one_way conns -> g ∈ conns -> (g = first \/ g = reverse_flow first) -> Forall (keyed_ok linktype conns) ks ->
  StronglySorted (holds2 before) ks -> Forall (fun k => before g k.1.1.1 = true) ks ->
  exists es, connection_packets (Some first) linktype (snd <$> ks) = Ok es /\
    Forall2 (shows linktype first) (snd <$> filter (fun k => k.1.1.1 = g) ks) es.
Proof.
  intros Ho Hg Hfirst. induction ks as [|k ks IH]; intros Hok Hs Hb; [by exists []|].
  apply Forall_cons in Hok as [(Hk & _ & f & Hf & Hdir) Hok]. apply StronglySorted_inv in Hs as [Hs Hafter]. apply Forall_cons in Hb as [Hgk Hb].
  destruct k as [[[fl ts] ctr] [raw ts']]. cbn -[filter] in *. rewrite Hf. cbn -[filter].
  destruct (payload_total _ _ _ Hf) as [pl Hpl]. rewrite Hpl. cbn -[filter].
  assert (first = f \/ first = reverse_flow f <-> fl = g) as Hsame.
  { split.
    - assert (reverse_flow g ∈ conns -> reverse_flow g = g) by auto. intros Hd.
      assert (fl = g \/ fl = reverse_flow g) as [?| ->]; [|done|auto].
      destruct Hfirst as [-> | ->], Hd as [-> | ->], Hdir as [-> | ->]; rewrite ?reverse_twice; auto.
    - intros ->. destruct Hfirst as [E1|E1], Hdir as [E2|E2]; [left; congruence|right; congruence|right|left].
      + by rewrite <- (reverse_twice first), <- E1, E2.
      + by rewrite <- (reverse_twice first), <- E1, E2, reverse_twice. }
  case_bool_decide as Hc.
  - rewrite filter_cons, decide_True by (cbn; tauto). destruct (IH Hok Hs Hb) as (es & -> & Hes). cbn -[filter].
    eexists. split; [done|]. cbn -[filter]. constructor; [|done]. destruct f as [[[[]]]]. by do 6 eexists.
  - exists []. split; [done|]. rewrite filter_cons, decide_False by (cbn; tauto).
    destruct (filter (fun k : Keyed => k.1.1.1 = g) ks) as [|k' l] eqn:El; [constructor|exfalso].
    assert (k' ∈ filter (fun k : Keyed => k.1.1.1 = g) ks) as [E Hk']%list_elem_of_filter by (rewrite El; apply list_elem_of_here).
    rewrite Forall_forall in Hafter. specialize (Hafter k' Hk').
    apply Hc, Hsame. symmetry. apply before_antisym; [done|]. rewrite <- E. by apply before_fst, before_fst, before_fst in Hafter.
Qed.

(** Packets of one connection. *)
Definition same_conn (linktype : Z) (p q : Packet) : Prop :=
  match flowtuple_from_raw p.1 linktype, flowtuple_from_raw q.1 linktype with
  | Ok f, Ok g => f = g \/ f = reverse_flow g
  | _, _ => False
  end.
#[export] Instance same_conn_dec linktype p q : Decision (same_conn linktype p q).
Proof. unfold same_conn. destruct (flowtuple_from_raw p.1 linktype), (flowtuple_from_raw q.1 linktype); apply _. Defined.

Lemma keyed_same linktype conns k l : one_way conns -> keyed_ok linktype conns k -> keyed_ok linktype conns l ->
  same_conn linktype k.2 l.2 <-> l.1.1.1 = k.1.1.1.
Proof.
  intros Ho (Hk & _ & f & Hf & Hdf) (Hl & _ & g & Hg & Hdg). unfold same_conn. rewrite Hf, Hg.
  set (a := k.1.1.1) in *. set (b := l.1.1.1) in *. split.
  - intros Hd. assert (a = b \/ reverse_flow a = b) as [->|E]; [|done|].
    + destruct Hd as [-> | ->], Hdf as [-> | ->], Hdg as [-> | ->]; rewrite ?reverse_twice; auto.
    + rewrite <- E. apply Ho; [done|by rewrite E].
  - intros E. destruct Hdf as [E1|E1], Hdg as [E2|E2]; [left; congruence| | |left].
    + right. congruence.
    + right. rewrite <- (reverse_twice f), <- E1. congruence.
    + rewrite <- (reverse_twice f), <- E1, <- (reverse_twice g), <- E2. congruence.
Qed.

(** A capture that fits into one chunk. *)
Lemma heap_merge_one fuel l : (length l <= fuel)%nat -> heap_merge fuel [l] = l.
Proof.
  revert l. induction fuel as [|fuel IH]; intros [|x l] Hf; cbn in *; try done; [lia|]. f_equal. apply IH. lia.
Qed.
Lemma one_chunk n linktype ps out : (length ps <= n)%nat -> batch_sort n linktype ps = Ok out ->
  exists ks c', read_chunk n (open_cap linktype ps) = Ok (ks, c') /\ out = snd <$> merge_sort (holds2 before) ks.
Proof.
  intros Hn. unfold batch_sort. cbn [sort_chunks]. destruct (read_chunk n (open_cap linktype ps)) as [[ks c']|] eqn:Er; [|done].
  cbn [rbind fst]. destruct (read_chunk_objs _ _ _ _ Er) as (Hk & Hr & Hl). cbn in Hk, Hr. rewrite drop_ge in Hr by done.
  intros E. exists ks, c'. split; [done|]. destruct ks as [|k ks]; [by simplify_eq/=|].
  assert (forall fuel, (0 < fuel)%nat -> sort_chunks fuel n c' = Ok []) as Hend.
  { intros [|fuel] Hf; [lia|]. cbn. destruct n as [|n]; [done|].
    cbn. unfold SortCap_next. by rewrite Hr. }
  destruct ps as [|p ps]; [by rewrite take_nil in Hk|]. rewrite Hend in E by (cbn; lia). cbn [rbind read_caps] in E.
  destruct (read_chunk _ _) as [[ls c2]|] eqn:E2 in E; [|done]. cbn in E. simplify_eq.
  apply read_chunk_objs in E2 as (Hls & _ & _). cbn in Hls. rewrite firstn_all in Hls.
  rewrite app_nil_r. change (snd <$> heap_merge (length ls) [ls] = snd <$> merge_sort (holds2 before) (k :: ks)).
  by rewrite heap_merge_one, Hls.
Qed.

Lemma sorted_times linktype conns g l : Forall (keyed_ok linktype conns) l -> StronglySorted (holds2 before) l ->
  StronglySorted (fun a b : Packet => a.2 <= b.2) (snd <$> filter (fun x : Keyed => x.1.1.1 = g) l).
Proof.
  induction l as [|k l IH]; intros Hok Hs; [constructor|]. apply Forall_cons in Hok as [(_ & Hk & _) Hok].
  apply StronglySorted_inv in Hs as [Hs Hafter]. rewrite filter_cons. case_decide as Hg; [|by apply IH].
  rewrite fmap_cons. constructor; [by apply IH|]. apply Forall_forall. rewrite Forall_forall in Hafter, Hok. intros q (x & -> & [Hx Hin]%list_elem_of_filter)%list_elem_of_fmap.
  specialize (Hafter x Hin). apply before_fst, before_fst, before_snd in Hafter; [|congruence].
  destruct (Hok x Hin) as (_ & Hxt & _). rewrite Hk, Hxt in Hafter. unfold before, cmp in Hafter. cbn in Hafter.
  destruct (Z.compare_spec k.2.2 x.2.2); [lia|lia|done].
Qed.
Lemma filter_keyed linktype conns k l : one_way conns -> keyed_ok linktype conns k -> Forall (keyed_ok linktype conns) l ->
  filter (same_conn linktype k.2) (snd <$> l) = snd <$> filter (fun x : Keyed => x.1.1.1 = k.1.1.1) l.
Proof.
  intros Ho Hk. induction l as [|x l IH]; intros Hl; [done|]. apply Forall_cons in Hl as [Hx Hl].
  rewrite fmap_cons, !filter_cons. pose proof (keyed_same _ _ _ _ Ho Hk Hx) as Hsame. destruct (decide (x.1.1.1 = k.1.1.1)).
  - rewrite decide_True by tauto. rewrite fmap_cons. f_equal. by apply IH.
  - rewrite decide_False by tauto. by apply IH.
Qed.
Lemma first_of_stream linktype p ps f : flowtuple_from_raw p.1 linktype = Ok f ->
  next_connection_packets linktype (p :: ps) = connection_packets (Some f) linktype (p :: ps).
Proof. destruct p as [raw ts]. cbn. by intros ->. Qed.

(** C30. In a capture sorted in one chunk, the packets that are shown for a
    connection, from its first packet on, are all packets of the connection, in
    the order of time, and no others; each has its addresses, its payload in
    base 64, and whether it goes the way of the first. *)
Theorem stream_complete n linktype ps out pre p post : (length ps <= n)%nat -> batch_sort n linktype ps = Ok out ->
  out = pre ++ p :: post -> (forall q, q ∈ pre -> ~ same_conn linktype p q) ->
  exists conn es first, packets_for_stream linktype out (length pre) = Ok es /\ flowtuple_from_raw p.1 linktype = Ok first /\
    Forall2 (shows linktype first) conn es /\ conn ≡ₚ filter (same_conn linktype p) ps /\ StronglySorted (fun a b => a.2 <= b.2) conn.
Proof.
  intros Hn Hsort Hout Hpre. destruct (one_chunk _ _ _ _ Hn Hsort) as (ks & c' & Hr & Ho).
  destruct (read_chunk_keys _ _ _ _ Hr) as (Hway & _ & Hok); [by intros ? ?%elem_of_nil|]. cbn in Hok.
  destruct (read_chunk_objs _ _ _ _ Hr) as (Hobjs & _ & _). cbn in Hobjs. rewrite firstn_all2 in Hobjs by done.
  pose proof (merge_sort_Permutation (holds2 before) ks) as Hperm. pose proof (StronglySorted_merge_sort (holds2 before) ks) as Hss.
  set (sorted := merge_sort (holds2 before) ks) in *. rewrite <- Hperm in Hok.
  assert (exists kpre k kpost, sorted = kpre ++ k :: kpost /\ pre = snd <$> kpre /\ p = k.2 /\ post = snd <$> kpost) as (kpre & k & kpost & Es & -> & -> & ->).
  { rewrite Hout in Ho. symmetry in Ho. apply fmap_app_inv in Ho as (kpre & kr & -> & Hrest & ->).
    symmetry in Hrest. apply fmap_cons_inv in Hrest as (k & kpost & -> & -> & ->). by exists kpre, k, kpost. }
  rewrite Es in Hss, Hok. apply Forall_app in Hok as [Hokpre Hokrest]. pose proof (Forall_inv Hokrest) as Hk.
  apply StronglySorted_app in Hss as (Hcross & _ & Hssrest).
  destruct Hk as (Hin & Hts & f & Hf & Hdir).
  assert (Forall (fun x : Keyed => before k.1.1.1 x.1.1.1 = true) (k :: kpost)) as Hb.
  { apply StronglySorted_inv in Hssrest as [_ Hafter]. constructor; [unfold before; by rewrite (proj2 (cmp_eq _ _) eq_refl)|].
    eapply Forall_impl; [exact Hafter|]. intros x Hx. by apply before_fst, before_fst, before_fst in Hx. }
  destruct (connection_spec linktype (sc_conns c') f k.1.1.1 (k :: kpost) Hway Hin Hdir Hokrest Hssrest Hb) as (es & Hes & Hshow).
  exists (snd <$> filter (fun x : Keyed => x.1.1.1 = k.1.1.1) (k :: kpost)), es, f. split_and!; [|done|done| |by eapply sorted_times].
  - rewrite <- Hes, Hout. unfold packets_for_stream. rewrite drop_app_length. rewrite fmap_cons, <- (first_of_stream _ _ _ _ Hf).
    by destruct (snd <$> kpre).
  - rewrite <- Hobjs, <- Hperm, Es, fmap_app, filter_app.
    rewrite <- (filter_keyed linktype (sc_conns c') k (k :: kpost) Hway (Forall_inv Hokrest) Hokrest).
    destruct (filter (same_conn linktype k.2) (snd <$> kpre)) as [|q l] eqn:El; [done|]. exfalso.
    assert (q ∈ filter (same_conn linktype k.2) (snd <$> kpre)) as [Hq Hqin]%list_elem_of_filter by (rewrite El; apply list_elem_of_here).
    by eapply Hpre.
Qed.
End streams.

(** ** An example *)

(** A packet is its two addresses and its data. *)
#[local] Instance toy_dpkt : dpkt :=
  {| ethernet := fun raw => Ok match raw with
       | a :: b :: data => Ipv4 (text [a]) (text [b]) IP_PROTO_TCP
           (LTcp {| tcp_sport := 80; tcp_dport := 80; tcp_seq := 0; tcp_ack := 0; tcp_data := data |})
       | _ => NoIp
       end;
     raw_ip := fun _ => Ok NoIp;
     ip_payload := fun ip => match ip with Ipv4 _ _ _ (LTcp t) => Some (tcp_data t) | _ => None end;
     as_tcp := fun _ => Raise ExternalError; as_udp := fun _ => Raise ExternalError; as_icmp := fun _ => Raise ExternalError |}.
(** A question, a packet of another connection, and the answer. *)
Definition toy_capture : list Packet := [(B "12hello", 10); (B "13", 20); (B "21hi", 30)].

Example one_chunk_stream :
  (let! out := batch_sort 3 1 toy_capture in packets_for_stream 1 out 0) =
  Ok [{| sp_src := "1"; sp_dst := "2"; sp_sport := 80; sp_dport := 80; sp_raw := B "aGVsbG8="; sp_direction := true |};
      {| sp_src := "2"; sp_dst := "1"; sp_sport := 80; sp_dport := 80; sp_raw := B "aGk="; sp_direction := false |}].
Proof. vm_compute. reflexivity. Qed.

(** When the answer is read with another chunk, it is sorted by its own
    direction: the connection is torn apart, and only the question is shown. *)
Example chunks_split_connection :
  batch_sort 2 1 toy_capture = Ok toy_capture /\
  packets_for_stream 1 toy_capture 0 =
    Ok [{| sp_src := "1"; sp_dst := "2"; sp_sport := 80; sp_dport := 80; sp_raw := B "aGVsbG8="; sp_direction := true |}].
Proof. split; vm_compute; reflexivity. Qed.

Lemma toy_readable : Forall (readable 1) toy_capture.
Proof. repeat constructor; by eexists. Qed.
Lemma batch_sort_permutes_witness : exists out, batch_sort 2 1 toy_capture = Ok out /\ out ≡ₚ toy_capture.
Proof. apply (batch_sort_permutes 2 1 toy_capture); [lia|apply toy_readable]. Defined.

Lemma stream_complete_witness :
  exists conn es first, packets_for_stream 1 [(B "12hello", 10); (B "21hi", 30); (B "13", 20)] 0 = Ok es /\
    flowtuple_from_raw (B "12hello") 1 = Ok first /\ Forall2 (shows 1 first) conn es /\
    conn ≡ₚ filter (same_conn 1 (B "12hello", 10)) toy_capture /\ StronglySorted (fun a b : Packet => a.2 <= b.2) conn.
Proof.
  apply (stream_complete 3 1 toy_capture [(B "12hello", 10); (B "21hi", 30); (B "13", 20)] [] (B "12hello", 10) [(B "21hi", 30); (B "13", 20)]);
    [cbn; lia|vm_compute; reflexivity|reflexivity|by intros ? ?%elem_of_nil].
Defined.
