(* ===== verification/Network.v ===== *)
(** The network analysis, modules/processing/network.py with
    lib/cuckoo/common/irc.py: what [Pcap] collects from the packets of a
    capture, and its report. A packet that raises leaves what has been collected
    so far. *)
From S2P Require Import Prelude ProcessLog PcapSort.
Open Scope string_scope.
Open Scope list_scope.
Open Scope Z_scope.

(** ** What the libraries find in the data *)

(** An answer of a DNS message: its type and its data as text, or what reading
    them raises. *)
Record dns_rr := { rr_type : Z; rr_text : res string }.
Record dns_message := { dns_rcode : Z; dns_qr : Z; dns_opcode : Z; dns_qd : list (string * Z); dns_an : list dns_rr }.
(** A request of dpkt.http as far as it was decoded; an attribute may be
    missing. *)
Record http_message := {
  h_method : option string; h_version : option string; h_uri : option string;
  h_headers : option (list (string * string)); h_body : option bytes }.

(** [http_unpack] gives the attributes behind [unpack], set to [None] before,
    and [Some e] when it raised; [ExternalError] is [UnpackError].
    [tls_server_hello] gives random and session id of a server hello. *)
Class netlib := {
  dns_parse : bytes -> res dns_message;
  http_unpack : bytes -> http_message * option exn;
  http_request : bytes -> http_message;
  tls_server_hello : bytes -> res (option (bytes * bytes));
  inet_aton : string -> res Z;
  resolve : string -> string;
  country_name : string -> string;
  reverse_dns : string -> string;
  domain_passlisted : string -> bool }.

(** Configuration and options. *)
Record net_cfg := { enabled_passlist : bool; resolve_dns : bool; use_reverse_dns : bool; resultserver_ip : string; opt_sorted : bool }.

(** ** The state of [Pcap] *)

Record net_conn := { c_src : string; c_sport : Z; c_dst : string; c_dport : Z; c_offset : nat; c_time : Z }.
#[global] Instance net_conn_eq_dec : EqDecision net_conn.
Proof. solve_decision. Defined.
Record icmp_entry := { i_src : string; i_dst : string; i_type : Z; i_data : string }.
#[global] Instance icmp_entry_eq_dec : EqDecision icmp_entry.
Proof. solve_decision. Defined.
Record http_entry := {
  he_count : Z; he_host : string; he_port : Z; he_data : string; he_uri : string; he_body : string; he_path : string;
  he_agent : string; he_version : string; he_method : string }.
(** An answer without a type is the empty dictionary. *)
Record dns_entry := { de_request : string; de_type : string; de_answers : list (option (string * string)) }.
Record irc_message := { im_prefix : option string; im_command : string; im_params : string; im_client : bool; im_conn : string * string * Z * Z }.

(** Dictionaries in the order of their keys; sets as lists. *)
Record pcap := {
  hosts : list string; unique_hosts : list string; unique_domains : list (string * string);
  tcp_connections : list net_conn; tcp_connections_seen : list (string * Z * string * Z);
  tcp_connections_dead : list ((string * Z * string * Z) * (Z * Z)); dead_hosts : list ((string * Z) * Z); alive_hosts : list (string * Z);
  udp_connections : list net_conn; udp_connections_seen : list (string * Z * string * Z);
  icmp_requests : list icmp_entry; http_requests : list (bytes * http_entry); tls_keys : list (bytes * bytes);
  dns_requests : list ((string * string) * dns_entry); dns_answers : list (string * string);
  smtp_flow : list (string * list bytes); irc_requests : list irc_message;
  ip_passlist : list string; cap_offset : nat; first_ts : option Z }.

Definition with_hosts (f : list string -> list string) (c : pcap) : pcap :=
  {| hosts := f (hosts c); unique_hosts := unique_hosts c; unique_domains := unique_domains c; tcp_connections := tcp_connections c;
     tcp_connections_seen := tcp_connections_seen c; tcp_connections_dead := tcp_connections_dead c; dead_hosts := dead_hosts c; alive_hosts
     := alive_hosts c; udp_connections := udp_connections c; udp_connections_seen := udp_connections_seen c; icmp_requests := icmp_requests
     c; http_requests := http_requests c; tls_keys := tls_keys c; dns_requests := dns_requests c; dns_answers := dns_answers c; smtp_flow :=
     smtp_flow c; irc_requests := irc_requests c; ip_passlist := ip_passlist c; cap_offset := cap_offset c; first_ts := first_ts c |}.
Definition with_unique_hosts (f : list string -> list string) (c : pcap) : pcap :=
  {| hosts := hosts c; unique_hosts := f (unique_hosts c); unique_domains := unique_domains c; tcp_connections := tcp_connections c;
     tcp_connections_seen := tcp_connections_seen c; tcp_connections_dead := tcp_connections_dead c; dead_hosts := dead_hosts c; alive_hosts
     := alive_hosts c; udp_connections := udp_connections c; udp_connections_seen := udp_connections_seen c; icmp_requests := icmp_requests
     c; http_requests := http_requests c; tls_keys := tls_keys c; dns_requests := dns_requests c; dns_answers := dns_answers c; smtp_flow :=
     smtp_flow c; irc_requests := irc_requests c; ip_passlist := ip_passlist c; cap_offset := cap_offset c; first_ts := first_ts c |}.
Definition with_unique_domains (f : list (string * string) -> list (string * string)) (c : pcap) : pcap :=
  {| hosts := hosts c; unique_hosts := unique_hosts c; unique_domains := f (unique_domains c); tcp_connections := tcp_connections c;
     tcp_connections_seen := tcp_connections_seen c; tcp_connections_dead := tcp_connections_dead c; dead_hosts := dead_hosts c; alive_hosts
     := alive_hosts c; udp_connections := udp_connections c; udp_connections_seen := udp_connections_seen c; icmp_requests := icmp_requests
     c; http_requests := http_requests c; tls_keys := tls_keys c; dns_requests := dns_requests c; dns_answers := dns_answers c; smtp_flow :=
     smtp_flow c; irc_requests := irc_requests c; ip_passlist := ip_passlist c; cap_offset := cap_offset c; first_ts := first_ts c |}.
Definition with_tcp_connections (f : list net_conn -> list net_conn) (c : pcap) : pcap :=
  {| hosts := hosts c; unique_hosts := unique_hosts c; unique_domains := unique_domains c; tcp_connections := f (tcp_connections c);
     tcp_connections_seen := tcp_connections_seen c; tcp_connections_dead := tcp_connections_dead c; dead_hosts := dead_hosts c; alive_hosts
     := alive_hosts c; udp_connections := udp_connections c; udp_connections_seen := udp_connections_seen c; icmp_requests := icmp_requests
     c; http_requests := http_requests c; tls_keys := tls_keys c; dns_requests := dns_requests c; dns_answers := dns_answers c; smtp_flow :=
     smtp_flow c; irc_requests := irc_requests c; ip_passlist := ip_passlist c; cap_offset := cap_offset c; first_ts := first_ts c |}.
Definition with_tcp_connections_seen (f : list (string * Z * string * Z) -> list (string * Z * string * Z)) (c : pcap) : pcap :=
  {| hosts := hosts c; unique_hosts := unique_hosts c; unique_domains := unique_domains c; tcp_connections := tcp_connections c;
     tcp_connections_seen := f (tcp_connections_seen c); tcp_connections_dead := tcp_connections_dead c; dead_hosts := dead_hosts c;
     alive_hosts := alive_hosts c; udp_connections := udp_connections c; udp_connections_seen := udp_connections_seen c; icmp_requests :=
     icmp_requests c; http_requests := http_requests c; tls_keys := tls_keys c; dns_requests := dns_requests c; dns_answers := dns_answers
     c; smtp_flow := smtp_flow c; irc_requests := irc_requests c; ip_passlist := ip_passlist c; cap_offset := cap_offset c; first_ts :=
     first_ts c |}.
Definition with_tcp_connections_dead (f : list ((string * Z * string * Z) * (Z * Z)) -> list ((string * Z * string * Z) * (Z * Z))) (c : pcap) : pcap :=
  {| hosts := hosts c; unique_hosts := unique_hosts c; unique_domains := unique_domains c; tcp_connections := tcp_connections c;
     tcp_connections_seen := tcp_connections_seen c; tcp_connections_dead := f (tcp_connections_dead c); dead_hosts := dead_hosts c;
     alive_hosts := alive_hosts c; udp_connections := udp_connections c; udp_connections_seen := udp_connections_seen c; icmp_requests :=
     icmp_requests c; http_requests := http_requests c; tls_keys := tls_keys c; dns_requests := dns_requests c; dns_answers := dns_answers
     c; smtp_flow := smtp_flow c; irc_requests := irc_requests c; ip_passlist := ip_passlist c; cap_offset := cap_offset c; first_ts :=
     first_ts c |}.
Definition with_dead_hosts (f : list ((string * Z) * Z) -> list ((string * Z) * Z)) (c : pcap) : pcap :=
  {| hosts := hosts c; unique_hosts := unique_hosts c; unique_domains := unique_domains c; tcp_connections := tcp_connections c;
     tcp_connections_seen := tcp_connections_seen c; tcp_connections_dead := tcp_connections_dead c; dead_hosts := f (dead_hosts c);
     alive_hosts := alive_hosts c; udp_connections := udp_connections c; udp_connections_seen := udp_connections_seen c; icmp_requests :=
     icmp_requests c; http_requests := http_requests c; tls_keys := tls_keys c; dns_requests := dns_requests c; dns_answers := dns_answers
     c; smtp_flow := smtp_flow c; irc_requests := irc_requests c; ip_passlist := ip_passlist c; cap_offset := cap_offset c; first_ts :=
     first_ts c |}.
Definition with_alive_hosts (f : list (string * Z) -> list (string * Z)) (c : pcap) : pcap :=
  {| hosts := hosts c; unique_hosts := unique_hosts c; unique_domains := unique_domains c; tcp_connections := tcp_connections c;
     tcp_connections_seen := tcp_connections_seen c; tcp_connections_dead := tcp_connections_dead c; dead_hosts := dead_hosts c; alive_hosts
     := f (alive_hosts c); udp_connections := udp_connections c; udp_connections_seen := udp_connections_seen c; icmp_requests :=
     icmp_requests c; http_requests := http_requests c; tls_keys := tls_keys c; dns_requests := dns_requests c; dns_answers := dns_answers
     c; smtp_flow := smtp_flow c; irc_requests := irc_requests c; ip_passlist := ip_passlist c; cap_offset := cap_offset c; first_ts :=
     first_ts c |}.
Definition with_udp_connections (f : list net_conn -> list net_conn) (c : pcap) : pcap :=
  {| hosts := hosts c; unique_hosts := unique_hosts c; unique_domains := unique_domains c; tcp_connections := tcp_connections c;
     tcp_connections_seen := tcp_connections_seen c; tcp_connections_dead := tcp_connections_dead c; dead_hosts := dead_hosts c; alive_hosts
     := alive_hosts c; udp_connections := f (udp_connections c); udp_connections_seen := udp_connections_seen c; icmp_requests :=
     icmp_requests c; http_requests := http_requests c; tls_keys := tls_keys c; dns_requests := dns_requests c; dns_answers := dns_answers
     c; smtp_flow := smtp_flow c; irc_requests := irc_requests c; ip_passlist := ip_passlist c; cap_offset := cap_offset c; first_ts :=
     first_ts c |}.
Definition with_udp_connections_seen (f : list (string * Z * string * Z) -> list (string * Z * string * Z)) (c : pcap) : pcap :=
  {| hosts := hosts c; unique_hosts := unique_hosts c; unique_domains := unique_domains c; tcp_connections := tcp_connections c;
     tcp_connections_seen := tcp_connections_seen c; tcp_connections_dead := tcp_connections_dead c; dead_hosts := dead_hosts c; alive_hosts
     := alive_hosts c; udp_connections := udp_connections c; udp_connections_seen := f (udp_connections_seen c); icmp_requests :=
     icmp_requests c; http_requests := http_requests c; tls_keys := tls_keys c; dns_requests := dns_requests c; dns_answers := dns_answers
     c; smtp_flow := smtp_flow c; irc_requests := irc_requests c; ip_passlist := ip_passlist c; cap_offset := cap_offset c; first_ts :=
     first_ts c |}.
Definition with_icmp_requests (f : list icmp_entry -> list icmp_entry) (c : pcap) : pcap :=
  {| hosts := hosts c; unique_hosts := unique_hosts c; unique_domains := unique_domains c; tcp_connections := tcp_connections c;
     tcp_connections_seen := tcp_connections_seen c; tcp_connections_dead := tcp_connections_dead c; dead_hosts := dead_hosts c; alive_hosts
     := alive_hosts c; udp_connections := udp_connections c; udp_connections_seen := udp_connections_seen c; icmp_requests := f
     (icmp_requests c); http_requests := http_requests c; tls_keys := tls_keys c; dns_requests := dns_requests c; dns_answers := dns_answers
     c; smtp_flow := smtp_flow c; irc_requests := irc_requests c; ip_passlist := ip_passlist c; cap_offset := cap_offset c; first_ts :=
     first_ts c |}.
Definition with_http_requests (f : list (bytes * http_entry) -> list (bytes * http_entry)) (c : pcap) : pcap :=
  {| hosts := hosts c; unique_hosts := unique_hosts c; unique_domains := unique_domains c; tcp_connections := tcp_connections c;
     tcp_connections_seen := tcp_connections_seen c; tcp_connections_dead := tcp_connections_dead c; dead_hosts := dead_hosts c; alive_hosts
     := alive_hosts c; udp_connections := udp_connections c; udp_connections_seen := udp_connections_seen c; icmp_requests := icmp_requests
     c; http_requests := f (http_requests c); tls_keys := tls_keys c; dns_requests := dns_requests c; dns_answers := dns_answers c;
     smtp_flow := smtp_flow c; irc_requests := irc_requests c; ip_passlist := ip_passlist c; cap_offset := cap_offset c; first_ts :=
     first_ts c |}.
Definition with_tls_keys (f : list (bytes * bytes) -> list (bytes * bytes)) (c : pcap) : pcap :=
  {| hosts := hosts c; unique_hosts := unique_hosts c; unique_domains := unique_domains c; tcp_connections := tcp_connections c;
     tcp_connections_seen := tcp_connections_seen c; tcp_connections_dead := tcp_connections_dead c; dead_hosts := dead_hosts c; alive_hosts
     := alive_hosts c; udp_connections := udp_connections c; udp_connections_seen := udp_connections_seen c; icmp_requests := icmp_requests
     c; http_requests := http_requests c; tls_keys := f (tls_keys c); dns_requests := dns_requests c; dns_answers := dns_answers c;
     smtp_flow := smtp_flow c; irc_requests := irc_requests c; ip_passlist := ip_passlist c; cap_offset := cap_offset c; first_ts :=
     first_ts c |}.
Definition with_dns_requests (f : list ((string * string) * dns_entry) -> list ((string * string) * dns_entry)) (c : pcap) : pcap :=
  {| hosts := hosts c; unique_hosts := unique_hosts c; unique_domains := unique_domains c; tcp_connections := tcp_connections c;
     tcp_connections_seen := tcp_connections_seen c; tcp_connections_dead := tcp_connections_dead c; dead_hosts := dead_hosts c; alive_hosts
     := alive_hosts c; udp_connections := udp_connections c; udp_connections_seen := udp_connections_seen c; icmp_requests := icmp_requests
     c; http_requests := http_requests c; tls_keys := tls_keys c; dns_requests := f (dns_requests c); dns_answers := dns_answers c;
     smtp_flow := smtp_flow c; irc_requests := irc_requests c; ip_passlist := ip_passlist c; cap_offset := cap_offset c; first_ts :=
     first_ts c |}.
Definition with_dns_answers (f : list (string * string) -> list (string * string)) (c : pcap) : pcap :=
  {| hosts := hosts c; unique_hosts := unique_hosts c; unique_domains := unique_domains c; tcp_connections := tcp_connections c;
     tcp_connections_seen := tcp_connections_seen c; tcp_connections_dead := tcp_connections_dead c; dead_hosts := dead_hosts c; alive_hosts
     := alive_hosts c; udp_connections := udp_connections c; udp_connections_seen := udp_connections_seen c; icmp_requests := icmp_requests
     c; http_requests := http_requests c; tls_keys := tls_keys c; dns_requests := dns_requests c; dns_answers := f (dns_answers c);
     smtp_flow := smtp_flow c; irc_requests := irc_requests c; ip_passlist := ip_passlist c; cap_offset := cap_offset c; first_ts :=
     first_ts c |}.
Definition with_smtp_flow (f : list (string * list bytes) -> list (string * list bytes)) (c : pcap) : pcap :=
  {| hosts := hosts c; unique_hosts := unique_hosts c; unique_domains := unique_domains c; tcp_connections := tcp_connections c;
     tcp_connections_seen := tcp_connections_seen c; tcp_connections_dead := tcp_connections_dead c; dead_hosts := dead_hosts c; alive_hosts
     := alive_hosts c; udp_connections := udp_connections c; udp_connections_seen := udp_connections_seen c; icmp_requests := icmp_requests
     c; http_requests := http_requests c; tls_keys := tls_keys c; dns_requests := dns_requests c; dns_answers := dns_answers c; smtp_flow :=
     f (smtp_flow c); irc_requests := irc_requests c; ip_passlist := ip_passlist c; cap_offset := cap_offset c; first_ts := first_ts c |}.
Definition with_irc_requests (f : list irc_message -> list irc_message) (c : pcap) : pcap :=
  {| hosts := hosts c; unique_hosts := unique_hosts c; unique_domains := unique_domains c; tcp_connections := tcp_connections c;
     tcp_connections_seen := tcp_connections_seen c; tcp_connections_dead := tcp_connections_dead c; dead_hosts := dead_hosts c; alive_hosts
     := alive_hosts c; udp_connections := udp_connections c; udp_connections_seen := udp_connections_seen c; icmp_requests := icmp_requests
     c; http_requests := http_requests c; tls_keys := tls_keys c; dns_requests := dns_requests c; dns_answers := dns_answers c; smtp_flow :=
     smtp_flow c; irc_requests := f (irc_requests c); ip_passlist := ip_passlist c; cap_offset := cap_offset c; first_ts := first_ts c |}.
Definition with_ip_passlist (f : list string -> list string) (c : pcap) : pcap :=
  {| hosts := hosts c; unique_hosts := unique_hosts c; unique_domains := unique_domains c; tcp_connections := tcp_connections c;
     tcp_connections_seen := tcp_connections_seen c; tcp_connections_dead := tcp_connections_dead c; dead_hosts := dead_hosts c; alive_hosts
     := alive_hosts c; udp_connections := udp_connections c; udp_connections_seen := udp_connections_seen c; icmp_requests := icmp_requests
     c; http_requests := http_requests c; tls_keys := tls_keys c; dns_requests := dns_requests c; dns_answers := dns_answers c; smtp_flow :=
     smtp_flow c; irc_requests := irc_requests c; ip_passlist := f (ip_passlist c); cap_offset := cap_offset c; first_ts := first_ts c |}.
Definition with_cap_offset (f : nat -> nat) (c : pcap) : pcap :=
  {| hosts := hosts c; unique_hosts := unique_hosts c; unique_domains := unique_domains c; tcp_connections := tcp_connections c;
     tcp_connections_seen := tcp_connections_seen c; tcp_connections_dead := tcp_connections_dead c; dead_hosts := dead_hosts c; alive_hosts
     := alive_hosts c; udp_connections := udp_connections c; udp_connections_seen := udp_connections_seen c; icmp_requests := icmp_requests
     c; http_requests := http_requests c; tls_keys := tls_keys c; dns_requests := dns_requests c; dns_answers := dns_answers c; smtp_flow :=
     smtp_flow c; irc_requests := irc_requests c; ip_passlist := ip_passlist c; cap_offset := f (cap_offset c); first_ts := first_ts c |}.
Definition with_first_ts (f : option Z -> option Z) (c : pcap) : pcap :=
  {| hosts := hosts c; unique_hosts := unique_hosts c; unique_domains := unique_domains c; tcp_connections := tcp_connections c;
     tcp_connections_seen := tcp_connections_seen c; tcp_connections_dead := tcp_connections_dead c; dead_hosts := dead_hosts c; alive_hosts
     := alive_hosts c; udp_connections := udp_connections c; udp_connections_seen := udp_connections_seen c; icmp_requests := icmp_requests
     c; http_requests := http_requests c; tls_keys := tls_keys c; dns_requests := dns_requests c; dns_answers := dns_answers c; smtp_flow :=
     smtp_flow c; irc_requests := irc_requests c; ip_passlist := ip_passlist c; cap_offset := cap_offset c; first_ts := f (first_ts c) |}.
Definition new_pcap (passlist : list string) : pcap :=
  {| hosts := []; unique_hosts := []; unique_domains := []; tcp_connections := []; tcp_connections_seen := []; tcp_connections_dead := [];
     dead_hosts := []; alive_hosts := []; udp_connections := []; udp_connections_seen := []; icmp_requests := []; http_requests := [];
     tls_keys := []; dns_requests := []; dns_answers := []; smtp_flow := []; irc_requests := []; ip_passlist := passlist; cap_offset :=
     0%nat; first_ts := None |}.

(** ** Dictionaries *)

Section dicts.
Context {K V : Type} `{EqDecision K}.
Fixpoint d_get (k : K) (d : list (K * V)) : option V :=
  match d with [] => None | (k', v) :: d' => if decide (k = k') then Some v else d_get k d' end.
Fixpoint d_set (k : K) (v : V) (d : list (K * V)) : list (K * V) :=
  match d with [] => [(k, v)] | (k', v') :: d' => if decide (k = k') then (k, v) :: d' else (k', v') :: d_set k v d' end.
End dicts.
Definition add_new {A} `{EqDecision A} (x : A) (l : list A) : list A := if decide (x ∈ l) then l else l ++ [x].

(** ** Hosts *)

Section dissect.
Context `{dpkt} `{netlib} (cfg : net_cfg).

Definition dissect (A : Type) : Type := st pcap A.

(** The networks, and their sizes. *)
Definition ip4 (a b c d : Z) : Z := Z.lor (Z.shiftl a 24) (Z.lor (Z.shiftl b 16) (Z.lor (Z.shiftl c 8) d)).
Definition private_networks : list (Z * Z) :=
  [(ip4 0 0 0 0, 8); (ip4 10 0 0 0, 8); (ip4 100 64 0 0, 10); (ip4 127 0 0 0, 8); (ip4 169 254 0 0, 16); (ip4 172 16 0 0, 12);
   (ip4 192 0 0 0, 24); (ip4 192 0 2 0, 24); (ip4 192 88 99 0, 24); (ip4 192 168 0 0, 16); (ip4 198 18 0 0, 15); (ip4 198 51 100 0, 24);
   (ip4 203 0 113 0, 24); (ip4 240 0 0 0, 4); (ip4 255 255 255 255, 32); (ip4 224 0 0 0, 4)].
Definition in_network (ipaddr : Z) (n : Z * Z) : bool :=
  let network_high := Z.lor n.1 (Z.shiftl 1 (32 - n.2) - 1) in (ipaddr <=? network_high) && (n.1 <=? ipaddr).
Definition _is_private_ip (ip : string) : bool :=
  match inet_aton ip with Ok ipaddr => existsb (in_network ipaddr) private_networks | Raise _ => false end.

Definition _add_hosts (dst : string) : dissect unit := fun c =>
  if decide (dst ∈ hosts c) then (Ok tt, c)
  else
    let ip := printable_text dst in
    if decide (ip ∈ hosts c) then (Ok tt, c)
    else if decide (ip ∈ ip_passlist c) then (Ok tt, c)
    else
      let c := with_hosts (fun l => l ++ [ip]) c in
      (Ok tt, if _is_private_ip ip then c else with_unique_hosts (fun l => l ++ [ip]) c).

(** The first request with an answer that is the address; an answer without a
    type has no data either. *)
Fixpoint answers_have (ip : string) (l : list (option (string * string))) : res bool :=
  match l with
  | [] => Ok false
  | None :: _ => Raise KeyError
  | Some a :: l' => if bool_decide (a.2 = ip) then Ok true else answers_have ip l'
  end.
Fixpoint answered_name (ip : string) (d : list ((string * string) * dns_entry)) : res string :=
  match d with
  | [] => Ok ""
  | (_, q) :: d' =>
      let! found := answers_have ip (de_answers q) in
      let name := if found : bool then de_request q else "" in
      if bool_decide (name <> "") then Ok name else answered_name ip d'
  end.
Record host_entry := { ho_ip : string; ho_country : string; ho_name : string; ho_inaddr : string }.
#[global] Instance host_entry_eq_dec : EqDecision host_entry.
Proof. solve_decision. Defined.
Fixpoint enrich_hosts (d : list ((string * string) * dns_entry)) (l : list string) : res (list host_entry) :=
  match l with
  | [] => Ok []
  | ip :: l' =>
      let! name := answered_name ip d in
      let! rest := enrich_hosts d l' in
      Ok ({| ho_ip := ip; ho_country := country_name ip; ho_name := name; ho_inaddr := if use_reverse_dns cfg then reverse_dns ip else "" |} :: rest)
  end.
(** The hosts are popped from the end. *)
Definition _enrich_hosts (c : pcap) : res (list host_entry) := enrich_hosts (dns_requests c) (reverse (unique_hosts c)).

(** ** DNS *)

Definition type_mapping (t : Z) : option string :=
  d_get t [(1, "A"); (2, "NS"); (5, "CNAME"); (6, "SOA"); (10, "NULL"); (12, "PTR"); (13, "HINFO"); (15, "MX"); (16, "TXT"); (28, "AAAA");
           (33, "SRV"); (41, "OPT")].
(** The types whose answers are read. *)
Definition answer_type (t : Z) : option string :=
  d_get t [(1, "A"); (28, "AAAA"); (5, "CNAME"); (15, "MX"); (12, "PTR"); (2, "NS"); (6, "SOA"); (13, "HINFO"); (16, "TXT")].
(** An answer of another type is an empty dictionary, [None]; an address that
    is none is left out. *)
Definition read_answer (a : dns_rr) : res (list (option (string * string))) :=
  match answer_type (rr_type a) with
  | None => Ok [None]
  | Some t =>
      match rr_text a with
      | Ok s => Ok [Some (t, s)]
      | Raise e => if decide (t = "A" /\ e = OSError \/ t = "AAAA" /\ (e = OSError \/ e = ValueError)) then Ok [] else Raise e
      end
  end.
Fixpoint read_answers (l : list dns_rr) : res (list (option (string * string))) :=
  match l with [] => Ok [] | a :: l' => let! x := read_answer a in let! y := read_answers l' in Ok (x ++ y) end.
(** [ans["type"]] of the empty dictionary raises. *)
Fixpoint typed_answers (l : list (option (string * string))) : res (list (string * string)) :=
  match l with [] => Ok [] | None :: _ => Raise KeyError | Some a :: l' => let! r := typed_answers l' in Ok (a :: r) end.
(** The passlist takes the addresses in front of an answer without a type, too. *)
Fixpoint passlist_answers (l : list (option (string * string))) : dissect unit :=
  match l with
  | [] => sret tt
  | None :: _ => sraise KeyError
  | Some (t, d) :: l' =>
      do* (if decide (t = "A" \/ t = "AAAA") then smodify (with_ip_passlist (add_new d)) else sret tt) in passlist_answers l'
  end.

Definition add_domain_skips (domain : string) : bool :=
  ends_with ".windows.com" domain || ends_with ".in-addr.arpa" domain || ends_with ".ip6.arpa" domain.
Definition _add_domain (domain : string) : dissect unit := smodify (fun c =>
  if add_domain_skips domain then c
  else if decide (domain ∈ (unique_domains c).*1) then c
  else with_unique_domains (fun l => l ++ [(domain, if resolve_dns cfg then resolve domain else "")]) c).

Definition _check_dns (udpdata : bytes) : bool := match dns_parse udpdata with Ok _ => true | Raise _ => false end.
(** The new answers are appended to the request, which has its own answers when
    it is new. *)
Definition add_request (type : string) (name : string) (answers : list (string * string)) : dissect unit := smodify (fun c =>
  let key := (type, name) in
  let c := match d_get key (dns_requests c) with
           | Some _ => c
           | None => with_dns_requests (d_set key {| de_request := name; de_type := type; de_answers := Some <$> answers |}) c
           end in
  let new := filter (fun a => a ∉ dns_answers c) (remove_dups answers) in
  let c := with_dns_answers (fun l => l ++ new) c in
  match d_get key (dns_requests c) with
  | Some q => with_dns_requests (d_set key {| de_request := de_request q; de_type := de_type q; de_answers := de_answers q ++ (Some <$> new) |}) c
  | None => c
  end).
(** The stored answers of a new request are those of the message, which raises
    later when one has no type. *)
Definition _add_dns (udpdata : bytes) : dissect unit :=
  let* dns := slift (dns_parse udpdata) in
  if (dns_rcode dns =? 0) || (dns_qr dns =? 1) || (dns_opcode dns =? 0) then
    match dns_qd dns with
    | [] => sret tt
    | (name, qtype) :: _ =>
        let* read := slift (read_answers (dns_an dns)) in
        let answers := read ++ (if dns_rcode dns =? 3 then [Some ("NXDOMAIN", "")] else []) in
        if enabled_passlist cfg && domain_passlisted name then passlist_answers answers
        else
          do* _add_domain name in
          match type_mapping qtype with
          | None => sret tt
          | Some type =>
              match typed_answers answers with
              | Ok l => add_request type name l
              | Raise e =>
                  do* smodify (fun c => match d_get (type, name) (dns_requests c) with
                                        | Some _ => c
                                        | None => with_dns_requests (d_set (type, name)
                                            {| de_request := name; de_type := type; de_answers := answers |}) c
                                        end) in sraise e
              end
          end
    end
  else sret tt.

(** ** HTTP, TLS and ICMP *)

Definition show_bytes (l : bytes) : string := bytes2str ((fun c => Z.of_nat (nat_of_ascii c)) <$> l).
(** [_check_http]; only [UnpackError] is caught. *)
Definition _check_http (data : bytes) : res bool :=
  match http_unpack data with
  | (_, None) => Ok true
  | (r, Some e) =>
      if decide (e = ExternalError) then Ok (bool_decide (is_Some (h_method r) \/ is_Some (h_version r) \/ is_Some (h_uri r))) else Raise e
  end.

(** The pattern of a host with at least two labels and perhaps a port. *)
Definition is_alnum (c : ascii) : bool :=
  let n := nat_of_ascii c in
  ((48 <=? n) && (n <=? 57) || (65 <=? n) && (n <=? 90) || (97 <=? n) && (n <=? 122))%nat.
Definition is_digit (c : ascii) : bool := let n := nat_of_ascii c in ((48 <=? n) && (n <=? 57))%nat.
Definition host_label (l : bytes) : bool :=
  match l with
  | [] => false
  | [c] => is_alnum c
  | c :: l' => is_alnum c && is_alnum (List.last l' c) && forallb (fun x => is_alnum x || bool_decide (x = "-"%char)) l' && (length l <=? 63)%nat
  end.
Definition host_pattern (host : string) : bool :=
  match split_byte COLON (B host) with
  | [name] => (2 <=? length (split_byte "."%char name))%nat && forallb host_label (split_byte "."%char name)
  | [name; port] => (2 <=? length (split_byte "."%char name))%nat && forallb host_label (split_byte "."%char name)
                    && forallb is_digit port && (1 <=? length port)%nat && (length port <=? 5)%nat
  | _ => false
  end.
(** [urlunparse(("http", netloc, uri, None, None, None))]. *)
Definition http_url (netloc uri : string) : string :=
  "http://" +:+ netloc +:+ (if bool_decide (uri <> "") && negb (starts_with "/" uri) then "/" +:+ uri else uri).
Definition http_netloc (host : string) (port : Z) : string :=
  if negb (port =? 80) && negb (str_contains ":" host) then host +:+ ":" +:+ str_int port else host.

(** A new entry, or [None] when something raises or the host is passlisted. *)
Definition http_entry_of (dst : string) (dport : Z) (data : bytes) : option http_entry :=
  let h := http_request data in
  match h_headers h, h_uri h, h_body h, h_version h, h_method h with
  | Some headers, Some uri, Some body, Some version, Some method =>
      let host := match d_get "host" headers with Some x => if host_pattern x then printable_text x else dst | None => dst end in
      if enabled_passlist cfg && domain_passlisted host then None
      else Some {| he_count := 1; he_host := host; he_port := dport; he_data := show_bytes data;
                   he_uri := printable_text (http_url (http_netloc host dport) uri); he_body := show_bytes body; he_path := printable_text uri;
                   he_agent := match d_get "user-agent" headers with Some a => printable_text a | None => "" end;
                   he_version := printable_text version; he_method := printable_text method |}
  | _, _, _, _, _ => None
  end.
Definition count_again (e : http_entry) : http_entry :=
  {| he_count := he_count e + 1; he_host := he_host e; he_port := he_port e; he_data := he_data e; he_uri := he_uri e; he_body := he_body e;
     he_path := he_path e; he_agent := he_agent e; he_version := he_version e; he_method := he_method e |}.
Definition _add_http (dst : string) (dport : Z) (data : bytes) : dissect unit := smodify (fun c =>
  match d_get data (http_requests c) with
  | Some e => with_http_requests (d_set data (count_again e)) c
  | None => match http_entry_of dst dport data with Some e => with_http_requests (d_set data e) c | None => c end
  end).

Definition _https_identify (data : bytes) : dissect unit :=
  let* hello := slift (tls_server_hello data) in
  match hello with Some k => smodify (with_tls_keys (fun l => l ++ [k])) | None => sret tt end.

Definition _icmp_dissect (src dst : string) (i : icmp) : dissect unit :=
  if (0 <? icmp_size i)%nat then
    if bool_decide (src = resultserver_ip cfg) then sret tt
    else
      let text := match icmp_payload i with Ok b => show_bytes b | Raise _ => "" end in
      smodify (with_icmp_requests (fun l => l ++ [{| i_src := src; i_dst := dst; i_type := icmp_type i; i_data := text |}]))
  else sret tt.

(** ** IRC *)

Definition irc_methods : list string :=
  ["PASS"; "JOIN"; "USER"; "OPER"; "MODE"; "SERVICE"; "QUIT"; "SQUIT"; "PART"; "TOPIC"; "NAMES"; "LIST"; "INVITE"; "KICK"; "PRIVMSG"; "NOTICE";
   "MOTD"; "LUSERS"; "VERSION"; "STATS"; "LINKS"; "TIME"; "CONNECT"; "TRACE"; "ADMIN"; "INFO"; "SERVLIST"; "SQUERY"; "WHO"; "WHOIS"; "WHOWAS";
   "KILL"; "PING"; "PONG"; "ERROR"; "AWAY"; "REHASH"; "DIE"; "RESTART"; "SUMMON"; "USERS"; "WALLOPS"; "USERHOST"; "NICK"; "ISON"].
(** Bytes are never equal to a text. *)
Definition bytes_are_text (b : bytes) (s : string) : bool := false.
(** [f.readlines()]. *)
Fixpoint read_lines (cur : bytes) (l : bytes) : list bytes :=
  match l with
  | [] => if bool_decide (cur = []) then [] else [cur]
  | c :: l' => if bool_decide (c = NL) then (cur ++ [c]) :: read_lines [] l' else read_lines (cur ++ [c]) l'
  end.
Definition is_letter (c : ascii) : bool := is_alnum c && negb (is_digit c).
Fixpoint letters (l : bytes) : bytes := match l with c :: l' => if is_letter c then c :: letters l' else [] | [] => [] end.
(** The longest [(.+[\x0a\0x0d])] at the start: its last character is a line
    feed, NUL, x, 0 or d. *)
Fixpoint irc_params (seen : bytes) (best : option bytes) (l : bytes) : option bytes :=
  match l with
  | [] => best
  | c :: l' =>
      let best := if bool_decide (seen <> []) && bool_decide (c ∈ [NL; NUL; "x"%char; "0"%char; "d"%char]) then Some (seen ++ [c]) else best in
      if bool_decide (c = NL) then best else irc_params (seen ++ [c]) best l'
  end.
(** The first match of the pattern of a client message. *)
Fixpoint irc_client (l : bytes) : option (bytes * bytes) :=
  match l with
  | [] => None
  | _ :: l' =>
      let word := letters l in
      match drop (length word) l with
      | " "%char :: rest =>
          match word, irc_params [] None rest with
          | _ :: _, Some params => Some (word, params)
          | _, _ => irc_client l'
          end
      | _ => irc_client l'
      end
  end.
(** A line that begins with a colon is searched with a pattern that is a text,
    which raises. *)
Fixpoint irc_unpack (logirc : bool) (messages : list irc_message) (conn : string * string * Z * Z) (lines : list bytes) : res (list irc_message) :=
  match lines with
  | [] => Ok messages
  | element :: lines' =>
      if has_prefix [COLON] element then Raise TypeError
      else
        match irc_client element with
        | Some (word, params) =>
            if existsb (bytes_are_text word) irc_methods then
              let command := show_bytes word in
              let logirc := logirc || bool_decide (command ∈ ["NICK"; "USER"]) in
              let m := {| im_prefix := None; im_command := command; im_params := show_bytes (strip_ws params); im_client := true; im_conn := conn |} in
              irc_unpack logirc (if logirc then messages ++ [m] else messages) conn lines'
            else irc_unpack logirc messages conn lines'
        | None => irc_unpack logirc messages conn lines'
        end
  end.
Definition unpack_irc (conn : string * string * Z * Z) (data : bytes) : res (list irc_message) := irc_unpack false [] conn (read_lines [] data).
Definition isthereIRC (data : bytes) : bool :=
  match unpack_irc ("", "", 0, 0) data with Ok ms => bool_decide (ms <> []) | Raise _ => false end.
Definition _add_irc (conn : string * string * Z * Z) (data : bytes) : dissect unit := smodify (fun c =>
  let '(src, dst, _, _) := conn in
  if enabled_passlist cfg && bool_decide (src ∈ ip_passlist c) || bool_decide (dst ∈ ip_passlist c) then c
  else match unpack_irc conn data with
       | Ok ms => with_irc_requests (fun l => l ++ filter (fun m => im_client m = true) ms
                                              ++ filter (fun m => im_client m = false /\ im_command m <> "266") ms) c
       | Raise _ => c
       end).

(** ** Packets *)

Definition _reassemble_smtp (dst : string) (data : bytes) : dissect unit :=
  smodify (with_smtp_flow (fun d => d_set dst (default [] (d_get dst d) ++ [data]) d)).
Definition _tcp_dissect (src dst : string) (sport dport : Z) (data : bytes) : dissect unit :=
  let* is_http := slift (_check_http data) in
  do* (if is_http : bool then _add_http dst dport data else sret tt) in
  do* (if bool_decide (dport ∈ [25; 587]) then _reassemble_smtp dst data else sret tt) in
  do* (if negb (dport =? 21) && isthereIRC data then _add_irc (src, dst, sport, dport) data else sret tt) in
  if (dport =? 443) || (sport =? 443) then _https_identify data else sret tt.
Definition _udp_dissect (sport dport : Z) (data : bytes) : dissect unit :=
  if (bool_decide (dport ∈ [53; 5353]) || bool_decide (sport ∈ [53; 5353])) && _check_dns data then _add_dns data else sret tt.

(** The data of an IP packet as TCP, UDP or ICMP: what is not decoded yet is
    decoded from its bytes. *)
Definition get_tcp (l3 : transport) : res tcp := match l3 with LTcp t => Ok t | LBytes b => as_tcp b | _ => Raise TypeError end.
Definition get_udp (l3 : transport) : res udp := match l3 with LUdp u => Ok u | LBytes b => as_udp b | _ => Raise TypeError end.
Definition get_icmp (l3 : transport) : res icmp := match l3 with LIcmp i => Ok i | LBytes b => as_icmp b | _ => Raise TypeError end.

Definition conn_at (c : pcap) (src : string) (sport : Z) (dst : string) (dport : Z) (ts : Z) : net_conn :=
  {| c_src := src; c_sport := sport; c_dst := dst; c_dport := dport; c_offset := cap_offset c; c_time := ts - default ts (first_ts c) |}.
Definition seen_either (l : list (string * Z * string * Z)) (src : string) (sport : Z) (dst : string) (dport : Z) : bool :=
  bool_decide ((dst, dport, src, sport) ∈ l) || bool_decide ((src, sport, dst, dport) ∈ l).
Definition note_tcp (src : string) (sport : Z) (dst : string) (dport ts : Z) : dissect unit := smodify (fun c =>
  let c := if seen_either (tcp_connections_seen c) src sport dst dport then c
           else with_tcp_connections_seen (fun l => l ++ [(src, sport, dst, dport)])
                  (with_tcp_connections (fun l => l ++ [conn_at c src sport dst dport ts]) c) in
  with_alive_hosts (add_new (dst, dport)) c).
Definition note_udp (src : string) (sport : Z) (dst : string) (dport ts : Z) : dissect unit := smodify (fun c =>
  if seen_either (udp_connections_seen c) src sport dst dport then c
  else with_udp_connections_seen (fun l => l ++ [(src, sport, dst, dport)])
         (with_udp_connections (fun l => l ++ [conn_at c src sport dst dport ts]) c)).
(** A segment without data that repeats numbers counts as a retry. *)
Definition note_dead (src dst : string) (t : tcp) : dissect unit := smodify (fun c =>
  let ipconn := (src, tcp_sport t, dst, tcp_dport t) in
  let host := (dst, tcp_dport t) in
  let c := if bool_decide (d_get ipconn (tcp_connections_dead c) = Some (tcp_seq t, tcp_ack t))
           then with_dead_hosts (d_set host (default 1 (d_get host (dead_hosts c)) + 1)) c else c in
  with_tcp_connections_dead (d_set ipconn (tcp_seq t, tcp_ack t)) c).
Definition ip_packet (src dst : string) (p : Z) (l3 : transport) (ts : Z) : dissect unit :=
  do* _add_hosts dst in
  if p =? IP_PROTO_TCP then
    let* t := slift (get_tcp l3) in
    if bool_decide (tcp_data t = []) then note_dead src dst t
    else
      do* _tcp_dissect src dst (tcp_sport t) (tcp_dport t) (tcp_data t) in note_tcp src (tcp_sport t) dst (tcp_dport t) ts
  else if p =? IP_PROTO_UDP then
    let* u := slift (get_udp l3) in
    do* (if bool_decide (udp_data u = []) then sret tt else _udp_dissect (udp_sport u) (udp_dport u) (udp_data u)) in
    note_udp src (udp_sport u) dst (udp_dport u) ts
  else if p =? IP_PROTO_ICMP then
    let* i := slift (get_icmp l3) in _icmp_dissect src dst i
  else sret tt.

Definition packet_body (linktype : Z) (pkt : Packet) : dissect unit :=
  let* ip := slift (iplayer_from_raw pkt.1 linktype) in
  match ip with
  | Ipv4 src dst p l3 | Ipv6 src dst p l3 => ip_packet src dst p l3 pkt.2
  | NoIp => sret tt
  end.
(** Packet [n]; the offset moves behind it if nothing raises. A time of 0 does
    not count as the first. *)
Definition one_packet (linktype : Z) (n : nat) (pkt : Packet) : dissect unit :=
  do* smodify (fun c => match first_ts c with Some 0 | None => with_first_ts (fun _ => Some pkt.2) c | Some _ => c end) in
  scatch (do* packet_body linktype pkt in smodify (with_cap_offset (fun _ => S n)))
    (fun _ => Some (sret tt)).
Fixpoint all_packets (linktype : Z) (n : nat) (ps : list Packet) : dissect unit :=
  match ps with [] => sret tt | p :: ps' => do* one_packet linktype n p in all_packets linktype (S n) ps' end.

(** ** The report *)

(** The data of a flow is a list, which has no [startswith]. *)
Definition _process_smtp (c : pcap) : res unit := match smtp_flow c with [] => Ok tt | _ :: _ => Raise AttributeError end.

Record net_report := {
  r_hosts : list host_entry; r_domains : list (string * string); r_tcp : list net_conn; r_udp : list net_conn; r_icmp : list icmp_entry;
  r_http : list http_entry; r_dns : list dns_entry; r_irc : list irc_message; r_dead : list (string * Z) }.

(** [l.remove(x)]. *)
Fixpoint remove_elem {A} `{EqDecision A} (x : A) (l : list A) : res (list A) :=
  match l with
  | [] => Raise ValueError
  | y :: l' => if decide (x = y) then Ok l' else let! r := remove_elem x l' in Ok (y :: r)
  end.
(** The removals for one element, one for each address of the passlist that is
    an address of it. *)
Fixpoint remove_times {A} `{EqDecision A} (n : nat) (x : A) (l : list A) : res (list A) :=
  match n with O => Ok l | S n => let! l := remove_elem x l in remove_times n x l end.
Definition hits (addresses passlist : list string) : nat := length (filter (fun p => p ∈ addresses) passlist).
(** The list is walked by index while it shrinks. *)
Fixpoint remove_passlisted {A} `{EqDecision A} (fuel : nat) (addresses : A -> list string) (passlist : list string) (i : nat) (l : list A) : res (list A) :=
  match fuel with
  | O => Raise OutOfFuel
  | S fuel =>
      match l !! i with
      | None => Ok l
      | Some x => let! l := remove_times (hits (addresses x) passlist) x l in remove_passlisted fuel addresses passlist (S i) l
      end
  end.
Definition without_passlisted {A} `{EqDecision A} (addresses : A -> list string) (passlist : list string) (l : list A) : res (list A) :=
  if enabled_passlist cfg then remove_passlisted (S (length l)) addresses passlist 0 l else Ok l.
Definition conn_addresses (x : net_conn) : list string := [c_src x; c_dst x].
Definition icmp_addresses (x : icmp_entry) : list string := [i_src x; i_dst x].

(** At least 3 tries, and nothing ever came. *)
Definition dead_list (c : pcap) : list (string * Z) :=
  fst <$> filter (fun h : (string * Z) * Z => 3 <= h.2 /\ h.1 ∉ alive_hosts c) (dead_hosts c).
Definition report (c : pcap) : res net_report :=
  let! hs := _enrich_hosts c in
  let pl := ip_passlist c in
  let! hs := without_passlisted (fun h => [ho_ip h]) pl hs in
  let! tcps := without_passlisted conn_addresses pl (tcp_connections c) in
  let! udps := without_passlisted conn_addresses pl (udp_connections c) in
  let! icmps := without_passlisted icmp_addresses pl (icmp_requests c) in
  Ok {| r_hosts := hs; r_domains := unique_domains c; r_tcp := tcps; r_udp := udps; r_icmp := icmps; r_http := snd <$> http_requests c;
        r_dns := snd <$> dns_requests c; r_irc := irc_requests c; r_dead := dead_list c |}.
Definition sorted_report (c : pcap) : res (list net_conn * list net_conn) :=
  let! tcps := without_passlisted conn_addresses (ip_passlist c) (tcp_connections c) in
  let! udps := without_passlisted conn_addresses (ip_passlist c) (udp_connections c) in Ok (tcps, udps).

(** [Pcap.run] behind the opening of the file: the report, or the sorted lists
    of connections. The passlist is shared by all runs. *)
Definition Pcap_run (linktype : Z) (passlist : list string) (ps : list Packet) : res (net_report + list net_conn * list net_conn) * list string :=
  let c := (all_packets linktype 0 ps (new_pcap passlist)).2 in
  (let! _ := _process_smtp c in
   if opt_sorted cfg then let! r := sorted_report c in Ok (inr r) else let! r := report c in Ok (inl r), ip_passlist c).
End dissect.

(** ** What the packets do to the state *)

(** Reduces [within R m] to single changes. *)
Ltac net_step :=
  first [ assumption
        | lazymatch goal with
          | |- within _ (sbind _ _) => apply within_bind; [typeclasses eauto| |intros]
          | |- within _ (scatch _ _) => apply within_catch; [typeclasses eauto| |intros ? ? [= <-]]
          | |- within _ (sret _) => apply within_ret; typeclasses eauto
          | |- within _ (sraise _) => apply within_raise; typeclasses eauto
          | |- within _ (slift _) => apply within_lift; typeclasses eauto
          | |- within _ (match ?x with _ => _ end) => destruct x eqn:?
          end
        | solve [eauto 2 with net nocore] ].
Ltac net_tac := repeat net_step.
Create HintDb net.

Section network.
Context `{dpkt} `{netlib} (cfg : net_cfg).

(** Every single change but the note of a TCP connection, and all of them. *)
Class calm_part (R : relation pcap) := {
  cn_pre :: PreOrder R;
  cn_hosts : forall dst, within R (_add_hosts dst);
  cn_passlist : forall d, within R (smodify (with_ip_passlist (add_new d)));
  cn_domain : forall d, within R (_add_domain cfg d);
  cn_request : forall t n l, within R (add_request t n l);
  cn_broken : forall (t n : string) (l : list (option (string * string))), within R (smodify (fun c => match d_get (t, n) (dns_requests c) with
                | Some _ => c
                | None => with_dns_requests (d_set (t, n) {| de_request := n; de_type := t; de_answers := l |}) c
                end));
  cn_http : forall dst dport data, within R (_add_http cfg dst dport data);
  cn_tls : forall k, within R (smodify (with_tls_keys (fun l => l ++ [k])));
  cn_icmp : forall i, within R (smodify (with_icmp_requests (fun l => l ++ [i])));
  cn_irc : forall conn data, within R (_add_irc cfg conn data);
  cn_smtp : forall dst data, within R (_reassemble_smtp dst data);
  cn_udp : forall src sport dst dport ts, within R (note_udp src sport dst dport ts);
  cn_dead : forall src dst t, within R (note_dead src dst t) }.
Class calm_net (R : relation pcap) := {
  cn_part :: calm_part R;
  cn_tcp : forall src sport dst dport ts, within R (note_tcp src sport dst dport ts) }.

Section within_part.
Context (R : relation pcap) {Hc : calm_part R}.
Hint Resolve cn_hosts cn_passlist cn_domain cn_request cn_broken cn_http cn_tls cn_icmp cn_irc cn_smtp cn_udp cn_dead : net.
Hint Extern 1 (calm_part _) => exact Hc : net.

Lemma within_passlist_answers l : within R (passlist_answers l).
Proof using Hc. induction l as [|[[t d]|] l IH]; cbn [passlist_answers]; net_tac. Qed.
Hint Resolve within_passlist_answers : net.
Lemma within_add_dns data : within R (_add_dns cfg data).
Proof using Hc. unfold _add_dns. net_tac. Qed.
Hint Resolve within_add_dns : net.
Lemma within_tcp_dissect src dst sport dport data : within R (_tcp_dissect cfg src dst sport dport data).
Proof using Hc. unfold _tcp_dissect, _https_identify. net_tac. Qed.
Lemma within_udp_dissect sport dport data : within R (_udp_dissect cfg sport dport data).
Proof using Hc. unfold _udp_dissect. net_tac. Qed.
End within_part.

Section within_net.
Context (R : relation pcap) {Hc : calm_net R}.
Hint Resolve cn_hosts cn_icmp cn_udp cn_tcp cn_dead within_tcp_dissect within_udp_dissect : net.
Hint Extern 1 (calm_net _) => exact Hc : net.
Hint Extern 1 (calm_part _) => exact cn_part : net.

Lemma within_ip_packet src dst p l3 ts : within R (ip_packet cfg src dst p l3 ts).
Proof using Hc. unfold ip_packet, _icmp_dissect. net_tac. Qed.
Hint Resolve within_ip_packet : net.
Lemma within_packet_body linktype pkt : within R (packet_body cfg linktype pkt).
Proof using Hc. unfold packet_body. net_tac. Qed.
Lemma within_one_packet linktype n pkt :
  (forall c x, R c (with_first_ts (fun _ => x) c)) -> (forall c k, R c (with_cap_offset (fun _ => k) c)) -> within R (one_packet cfg linktype n pkt).
Proof using Hc.
  intros Hf Ho. unfold one_packet. apply within_bind; [exact _| |intros _].
  - intros c. cbn. destruct (first_ts c) as [[]|]; [apply Hf|reflexivity|reflexivity|apply Hf].
  - apply within_catch; [exact _| |intros ? ? [= <-]; net_tac]. apply within_bind; [exact _|apply within_packet_body|intros _ c; apply Ho].
Qed.
Lemma within_all_packets linktype n ps :
  (forall c x, R c (with_first_ts (fun _ => x) c)) -> (forall c k, R c (with_cap_offset (fun _ => k) c)) -> within R (all_packets cfg linktype n ps).
Proof using Hc.
  intros Hf Ho. revert n. induction ps as [|p ps IH]; intros n; cbn [all_packets]; [net_tac|].
  apply within_bind; [exact _|by apply within_one_packet|intros _; apply IH].
Qed.
End within_net.

(** ** Mail *)

Definition keeps_mail (c c' : pcap) : Prop := smtp_flow c <> [] -> smtp_flow c' <> [].
#[local] Instance keeps_mail_pre : PreOrder keeps_mail.
Proof. unfold keeps_mail. split; intros ?; intros; auto. Qed.
Lemma d_set_nonempty {K V} `{EqDecision K} (k : K) (v : V) d : d_set k v d <> [].
Proof. destruct d as [|[k' v'] d]; cbn; [done|]. by destruct (decide (k = k')). Qed.
#[local] Instance keeps_mail_calm : calm_net keeps_mail.
Proof.
  split; [split; [exact _|..]|]; intros; intros c Hs; cbn; try exact Hs.
  - unfold _add_hosts. repeat case_decide; try exact Hs. cbn. by destruct (_is_private_ip _).
  - repeat case_match; exact Hs.
  - repeat case_match; exact Hs.
  - repeat case_match; exact Hs.
  - repeat case_match; exact Hs.
  - destruct conn as [[[src dst'] ?] ?]. repeat case_match; exact Hs.
  - apply d_set_nonempty.
  - repeat case_match; exact Hs.
  - repeat case_match; exact Hs.
  - repeat case_match; exact Hs.
Qed.

(** A packet with data for a mail server that the dissectors can read. *)
Definition mail_packet (linktype : Z) (p : Packet) : Prop :=
  exists src dst t, iplayer_from_raw p.1 linktype = Ok (Ipv4 src dst IP_PROTO_TCP (LTcp t)) /\ tcp_dport t ∈ [25; 587] /\ tcp_data t <> [] /\
    exists b, _check_http (tcp_data t) = Ok b.
Lemma within_after {S A} (R : relation S) (m : st S A) c r c' : within R m -> m c = (r, c') -> R c c'.
Proof. intros Hm E. specialize (Hm c). by rewrite E in Hm. Qed.
Lemma one_packet_run linktype n p c : exists c', one_packet cfg linktype n p c = (Ok tt, c').
Proof.
  unfold one_packet, sbind, smodify, scatch. destruct (packet_body _ _ _ _) as [[u|e] c1]; by eexists.
Qed.
Lemma add_hosts_run dst c : exists c', _add_hosts dst c = (Ok tt, c').
Proof. unfold _add_hosts. repeat case_decide; by eexists. Qed.
Lemma mail_collected linktype n p c : mail_packet linktype p -> smtp_flow (one_packet cfg linktype n p c).2 <> [].
Proof.
  intros (src & dst & t & Hip & Hport & Hdata & b & Hb). unfold one_packet, sbind at 1, smodify at 1. cbv beta iota zeta.
  set (c0 := match first_ts c with Some 0 | None => _ | _ => c end).
  assert (smtp_flow (packet_body cfg linktype p c0).2 <> []) as Hm.
  { unfold packet_body. rewrite Hip. unfold sbind at 1, slift at 1. cbv beta iota. unfold ip_packet, sbind at 1.
    destruct (add_hosts_run dst c0) as [c1 ->].
    change (IP_PROTO_TCP =? IP_PROTO_TCP) with true. cbv iota. unfold sbind at 1, slift at 1, get_tcp at 1. cbv beta iota. rewrite bool_decide_eq_false_2 by done.
    assert (within keeps_mail (note_tcp src (tcp_sport t) dst (tcp_dport t) p.2)) as Hnote by apply cn_tcp.
    enough (smtp_flow (_tcp_dissect cfg src dst (tcp_sport t) (tcp_dport t) (tcp_data t) c1).2 <> []) as Hd.
    { unfold sbind. destruct (_tcp_dissect _ _ _ _ _ _ _) as [[u|e] c2]; [by apply Hnote|done]. }
    unfold _tcp_dissect. rewrite Hb. unfold sbind at 1, slift at 1. cbv beta iota. rewrite (bool_decide_eq_true_2 (tcp_dport t ∈ [25; 587])) by done.
    match goal with |- context [do* _ in ?rest] =>
      assert (forall c2, smtp_flow (rest c2).2 <> []) as Hrest; [intros c2|destruct b; apply Hrest] end.
    unfold sbind at 1, _reassemble_smtp at 1, smodify. cbv beta iota zeta.
    set (c3 := with_smtp_flow _ c2). assert (smtp_flow c3 <> []) as H3 by apply d_set_nonempty. revert H3.
    refine ((_ : within keeps_mail _) c3). apply within_bind; [exact _|destruct (_ && _); [apply cn_irc|apply within_ret; exact _]|intros _].
    destruct (_ || _); [|apply within_ret; exact _]. unfold _https_identify.
    apply within_bind; [exact _|apply within_lift; exact _|]. intros [k|]; [apply cn_tls|apply within_ret; exact _]. }
  unfold scatch, sbind. destruct (packet_body cfg linktype p c0) as [[u|e] c1]; done.
Qed.

(** One packet of mail is enough: if the capture has a segment with data for
    port 25 or 587 that is no broken HTTP request, the analysis raises, and
    nothing of the network is reported. *)
Theorem mail_loses_report linktype passlist ps p : p ∈ ps -> mail_packet linktype p ->
  (Pcap_run cfg linktype passlist ps).1 = Raise AttributeError.
Proof.
  intros Hin Hp. unfold Pcap_run.
  enough (smtp_flow (all_packets cfg linktype 0 ps (new_pcap passlist)).2 <> []) as Hs.
  { unfold _process_smtp. cbn [fst]. by destruct (smtp_flow _). }
  generalize (new_pcap passlist) as c. generalize 0%nat as n. induction ps as [|q ps IH]; intros n c; [by apply elem_of_nil in Hin|].
  cbn [all_packets]. unfold sbind. destruct (one_packet_run linktype n q c) as [c1 E1]. rewrite E1. apply elem_of_cons in Hin as [->|Hin]; [|by apply IH].
  assert (smtp_flow c1 <> []) as Hc1 by (pose proof (mail_collected linktype n q c Hp) as Hm; by rewrite E1 in Hm).
  revert Hc1. refine ((_ : within keeps_mail _) c1). apply within_all_packets; [exact _|intros ? ? Hx; exact Hx..].
Qed.

(** ** Addresses *)

(** The address lies in the network: they agree in the first [n.2] bits. *)
Definition agrees (a : Z) (n : Z * Z) : Prop := Z.shiftr a (32 - n.2) = Z.shiftr n.1 (32 - n.2).
(** A network has [n.2] bits, and zeros behind them. *)
Definition network_ok (n : Z * Z) : Prop := 0 <= n.2 <= 32 /\ 0 <= n.1 /\ n.1 mod 2 ^ (32 - n.2) = 0.
Lemma networks_ok : Forall network_ok private_networks.
Proof. repeat constructor; cbv; try done. Qed.
Lemma in_network_spec a n : network_ok n -> 0 <= a -> in_network a n = true <-> agrees a n.
Proof.
  intros (Hb & H1 & Hm) Ha. unfold in_network, agrees. set (k := 32 - n.2) in *. assert (0 <= k) as Hk by lia.
  rewrite !Z.shiftr_div_pow2, Z.shiftl_1_l by done. assert (0 < 2 ^ k) as Hp by lia.
  assert (Z.lor n.1 (2 ^ k - 1) = n.1 + (2 ^ k - 1)) as ->.
  { rewrite <- Z.add_nocarry_lor; [done|].
    replace (2 ^ k - 1) with (Z.ones k) by (rewrite Z.ones_equiv; lia). rewrite Z.land_ones by done. exact Hm. }
  rewrite andb_true_iff, !Z.leb_le.
  pose proof (Z.div_mod n.1 (2 ^ k)) as E1. pose proof (Z.div_mod a (2 ^ k)) as E2. pose proof (Z.mod_pos_bound a (2 ^ k) Hp). nia.
Qed.
(** An address is private exactly when it agrees with one of the listed
    networks in the bits of the network. *)
Theorem private_ip_spec ip a : inet_aton ip = Ok a -> 0 <= a ->
  _is_private_ip ip = true <-> Exists (agrees a) private_networks.
Proof.
  intros Hi Ha. unfold _is_private_ip. rewrite Hi, existsb_exists, Exists_exists. pose proof networks_ok as Hok. rewrite Forall_forall in Hok.
  split; intros (n & Hn & Hx); exists n; (split; [by apply list_elem_of_In|]).
  - apply list_elem_of_In in Hn. by apply in_network_spec; [apply Hok| |].
  - apply in_network_spec; [by apply Hok|done|done].
Qed.

(** ** What is collected *)

Definition conn_key (x : net_conn) : string * Z * string * Z := (c_src x, c_sport x, c_dst x, c_dport x).
Definition other_way (k : string * Z * string * Z) : string * Z * string * Z := match k with (a, b, c, d) => (c, d, a, b) end.
(** A connection is listed once, in one direction. *)
Definition listed_once (l : list net_conn) (seen : list (string * Z * string * Z)) : Prop :=
  seen = conn_key <$> l /\ NoDup seen /\ forall k, k ∈ seen -> other_way k ∈ seen -> other_way k = k.
Definition net_ok (c : pcap) : Prop :=
  NoDup (hosts c) /\ NoDup (unique_hosts c) /\ (forall ip, ip ∈ unique_hosts c -> ip ∈ hosts c /\ _is_private_ip ip = false) /\
  listed_once (tcp_connections c) (tcp_connections_seen c) /\ listed_once (udp_connections c) (udp_connections_seen c).
Definition keeps_net (c c' : pcap) : Prop := net_ok c -> net_ok c'.
#[local] Instance keeps_net_pre : PreOrder keeps_net.
Proof. unfold keeps_net. split; intros ?; intros; auto. Qed.

Lemma listed_more l seen x : listed_once l seen -> seen_either seen (c_src x) (c_sport x) (c_dst x) (c_dport x) = false ->
  listed_once (l ++ [x]) (seen ++ [conn_key x]).
Proof.
  intros (-> & Hn & Ho). unfold seen_either. rewrite orb_false_iff, !bool_decide_eq_false. intros [Hr Hd]. split_and!.
  - by rewrite fmap_app.
  - apply NoDup_app. split_and!; [done| |apply NoDup_singleton]. intros k Hk ->%list_elem_of_singleton. by apply Hd.
  - intros k. rewrite !elem_of_app, !list_elem_of_singleton. intros [Hk|Hk] [Hk'|Hk'].
    + by apply Ho.
    + destruct Hr. enough ((c_dst x, c_dport x, c_src x, c_sport x) = k) as -> by done. destruct k as [[[]]]. unfold conn_key in Hk'. cbn in Hk'. congruence.
    + subst k. destruct Hr. exact Hk'.
    + by subst k.
Qed.
#[local] Instance keeps_net_calm : calm_net keeps_net.
Proof.
  split; [split; [exact _|..]|]; intros; intros c Hs; cbn; try exact Hs.
  - unfold _add_hosts. case_decide; [exact Hs|]. case_decide as Hin; [exact Hs|]. case_decide; [exact Hs|].
    destruct Hs as (Hh & Hu & Hp & Ht & Hudp). set (ip := printable_text dst) in *.
    assert (NoDup (hosts c ++ [ip])) as Hnd.
    { apply NoDup_app. split_and!; [done| |apply NoDup_singleton]. by intros x Hx ->%list_elem_of_singleton. }
    destruct (_is_private_ip ip) eqn:E; cbn; unfold net_ok; cbn.
    + split_and!; [done|done| |done|done]. intros x Hx. destruct (Hp x Hx). set_solver.
    + split_and!; [done| | |done|done].
      * apply NoDup_app. split_and!; [done| |apply NoDup_singleton]. intros x Hx ->%list_elem_of_singleton. by destruct (Hp ip Hx).
      * intros x [Hx|Hx%list_elem_of_singleton]%elem_of_app; [destruct (Hp x Hx); set_solver|]. subst x. set_solver.
  - repeat case_match; exact Hs.
  - repeat case_match; exact Hs.
  - repeat case_match; exact Hs.
  - repeat case_match; exact Hs.
  - destruct conn as [[[src dst'] ?] ?]. repeat case_match; exact Hs.
  - destruct (seen_either _ _ _ _ _) eqn:E; [exact Hs|]. destruct Hs as (Hh & Hu & Hp & Ht & Hudp). unfold net_ok. cbn.
    refine (conj Hh (conj Hu (conj Hp (conj Ht _)))). by apply (listed_more _ _ (conn_at c src sport dst dport ts)).
  - repeat case_match; exact Hs.
  - destruct (seen_either _ _ _ _ _) eqn:E; [exact Hs|]. destruct Hs as (Hh & Hu & Hp & Ht & Hudp). unfold net_ok. cbn.
    refine (conj Hh (conj Hu (conj Hp (conj _ Hudp)))). by apply (listed_more _ _ (conn_at c src sport dst dport ts)).
Qed.

(** Whatever the packets hold, every host is listed once, a unique host is a
    host with an address that is not private, and every connection is listed
    once, in the direction of its first data. *)
Theorem collected_once linktype passlist ps : net_ok (all_packets cfg linktype 0 ps (new_pcap passlist)).2.
Proof.
  apply (within_all_packets keeps_net); [intros c x Hs; exact Hs..|].
  unfold net_ok, listed_once. cbn. split_and!; try apply NoDup_nil_2; try done; set_solver.
Qed.

(** ** Offsets *)

(** IPv4 or no IP at all, and TCP is decoded by dpkt. *)
Definition plain_packet (linktype : Z) (p : Packet) : Prop :=
  match iplayer_from_raw p.1 linktype with
  | Ok (Ipv4 _ _ proto l3) => proto = IP_PROTO_TCP -> exists t, l3 = LTcp t
  | Ok NoIp => True
  | _ => False
  end.
(** The dissectors do not raise. *)
Definition quiet_packet (linktype : Z) (p : Packet) : Prop := forall c, exists c', packet_body cfg linktype p c = (Ok tt, c').

(** The ends of a TCP packet that carries data. *)
Definition data_of (linktype : Z) (p : Packet) : option (string * Z * string * Z) :=
  match iplayer_from_raw p.1 linktype with
  | Ok (Ipv4 src dst proto (LTcp t)) =>
      if bool_decide (proto = IP_PROTO_TCP /\ tcp_data t <> []) then Some (src, tcp_sport t, dst, tcp_dport t) else None
  | _ => None
  end.
Definition conn_of (x : net_conn) : string * Z * string * Z := (c_src x, c_sport x, c_dst x, c_dport x).
Definition turned (k : string * Z * string * Z) : string * Z * string * Z := let '(a, b, c, d) := k in (c, d, a, b).

(** The packet of a connection: the first of [ps] with data between its two ends. *)
Definition begins (linktype : Z) (ps : list Packet) (x : net_conn) : Prop :=
  exists p, ps !! c_offset x = Some p /\
    flowtuple_from_raw p.1 linktype = Ok (c_src x, c_dst x, c_sport x, c_dport x, IP_PROTO_TCP) /\
    data_of linktype p = Some (conn_of x) /\
    forall j q, (j < c_offset x)%nat -> ps !! j = Some q ->
      data_of linktype q <> Some (conn_of x) /\ data_of linktype q <> Some (turned (conn_of x)).
Definition seen_conn (c : pcap) (k : string * Z * string * Z) : Prop :=
  turned k ∈ tcp_connections_seen c \/ k ∈ tcp_connections_seen c.

(** Every listed connection begins at its offset, and the connections of the first [n]
    packets have been seen. *)
Definition leads (linktype : Z) (ps : list Packet) (n : nat) (c : pcap) : Prop :=
  (forall x, x ∈ tcp_connections c -> begins linktype ps x) /\
  forall j q k, (j < n)%nat -> ps !! j = Some q -> data_of linktype q = Some k -> seen_conn c k.
Definition same_tcp (c c' : pcap) : Prop :=
  tcp_connections c' = tcp_connections c /\ tcp_connections_seen c' = tcp_connections_seen c /\ cap_offset c' = cap_offset c.
#[local] Instance same_tcp_pre : PreOrder same_tcp.
Proof. unfold same_tcp. split; [by intros c|]. intros c1 c2 c3 (-> & -> & ->) (-> & -> & ->). done. Qed.
#[local] Instance same_tcp_part : calm_part same_tcp.
Proof.
  split; [exact _|..]; intros; intros c; cbn; try done.
  - unfold _add_hosts. repeat case_decide; try done. cbn. by destruct (_is_private_ip _).
  - by repeat case_match.
  - by repeat case_match.
  - by repeat case_match.
  - by repeat case_match.
  - destruct conn as [[[src dst'] ?] ?]. by repeat case_match.
  - by repeat case_match.
  - by repeat case_match.
Qed.
Lemma same_run {A} (m : dissect A) c r c' : within same_tcp m -> m c = (r, c') -> same_tcp c c'.
Proof. intros Hm E. exact (within_after same_tcp m c r c' Hm E). Qed.
Lemma leads_eq linktype ps n c c' : leads linktype ps n c -> tcp_connections c' = tcp_connections c ->
  tcp_connections_seen c' = tcp_connections_seen c -> leads linktype ps n c'.
Proof. intros [H1 H2] E1 E2. unfold leads, seen_conn in *. by rewrite E1, E2. Qed.
Lemma leads_same linktype ps n c c' : leads linktype ps n c -> same_tcp c c' -> leads linktype ps n c'.
Proof. intros Hl (E1 & E2 & _). by eapply leads_eq. Qed.

(** A packet that has no data adds nothing. *)
Lemma leads_next linktype ps n c p : leads linktype ps n c -> ps !! n = Some p -> data_of linktype p = None -> leads linktype ps (S n) c.
Proof.
  intros [H1 H2] Hp Hd. split; [done|]. intros j q k Hj Hq Hk. destruct (decide (j = n)) as [->|]; [congruence|].
  eapply (H2 j); [lia|done..].
Qed.

Lemma seen_either_conn c src sport dst dport :
  seen_either (tcp_connections_seen c) src sport dst dport = true <-> seen_conn c (src, sport, dst, dport).
Proof. unfold seen_either, seen_conn. cbn. by rewrite orb_true_iff, !bool_decide_eq_true. Qed.

Lemma note_leads linktype ps n p c src dst sport dport ts :
  leads linktype ps n c -> cap_offset c = n -> ps !! n = Some p ->
  flowtuple_from_raw p.1 linktype = Ok (src, dst, sport, dport, IP_PROTO_TCP) ->
  data_of linktype p = Some (src, sport, dst, dport) ->
  leads linktype ps (S n) (note_tcp src sport dst dport ts c).2.
Proof.
  intros [H1 H2] Ho Hp Hf Hd. cbn. pose proof (seen_either_conn c src sport dst dport) as Hs.
  destruct (seen_either _ _ _ _ _).
  - split; [exact H1|]. intros j q k Hj Hq Hk. destruct (decide (j = n)) as [->|]; [|eapply (H2 j); [lia|done..]].
    rewrite Hp in Hq. injection Hq as <-. rewrite Hd in Hk. injection Hk as <-. by apply Hs.
  - assert (Hns : ~ seen_conn c (src, sport, dst, dport)) by (intros Hsc; by apply Hs in Hsc).
    split.
    + cbn. intros x [Hx|Hx%list_elem_of_singleton]%elem_of_app; [by apply H1|]. subst x. exists p. unfold conn_of. cbn.
      rewrite Ho. split_and!; [done..|]. intros j q Hj Hq.
      split; intros Hk; apply Hns; apply (H2 j q _ Hj Hq) in Hk; unfold seen_conn in *; cbn in *; tauto.
    + intros j q k Hj Hq Hk. unfold seen_conn. cbn. destruct (decide (j = n)) as [->|].
      * rewrite Hp in Hq. injection Hq as <-. rewrite Hd in Hk. injection Hk as <-. right. set_solver.
      * assert (Hk' : seen_conn c k) by (eapply (H2 j); [lia|done..]). unfold seen_conn in Hk'. set_solver.
Qed.
Lemma body_leads linktype ps n p c c' : plain_packet linktype p -> packet_body cfg linktype p c = (Ok tt, c') ->
  leads linktype ps n c -> cap_offset c = n -> ps !! n = Some p -> leads linktype ps (S n) c'.
Proof.
  unfold plain_packet, packet_body. intros Hplain E Hl Ho Hp. unfold sbind at 1, slift at 1 in E.
  assert (Hnext : data_of linktype p = None -> same_tcp c c' -> leads linktype ps (S n) c')
    by (intros Hd Hs; eapply leads_next; [by eapply leads_same|done..]).
  destruct (iplayer_from_raw p.1 linktype) as [[src dst proto l3|src dst proto l3|]|e] eqn:Hip; cbv beta iota in E; try done.
  2:{ unfold sret in E. simplify_eq. apply Hnext; [unfold data_of; by rewrite Hip|done]. }
  destruct (decide (proto = IP_PROTO_TCP)) as [->|Hne].
  - destruct (Hplain eq_refl) as [t ->]. unfold ip_packet, sbind at 1 in E. destruct (_add_hosts dst c) as [[u|e] c1] eqn:E1; [|done].
    apply same_run in E1; [|apply cn_hosts]. change (IP_PROTO_TCP =? IP_PROTO_TCP) with true in E. cbv iota in E.
    unfold sbind at 1, slift at 1, get_tcp at 1 in E. cbv beta iota in E. case_bool_decide as Hdata.
    { apply same_run in E; [|apply cn_dead]. apply Hnext; [|by etrans]. unfold data_of. rewrite Hip, bool_decide_false; [done|tauto]. }
    unfold sbind at 1 in E. destruct (_tcp_dissect _ _ _ _ _ _ c1) as [[u2|e] c2] eqn:E2; [|done].
    apply same_run in E2; [|by apply within_tcp_dissect; exact _]. assert (E3 : same_tcp c c2) by by etrans.
    pose proof (note_leads linktype ps n p c2 src dst (tcp_sport t) (tcp_dport t) p.2) as Hn. rewrite E in Hn. apply Hn.
    + by eapply leads_same.
    + destruct E3 as (_ & _ & ->). done.
    + done.
    + unfold flowtuple_from_raw. rewrite Hip. done.
    + unfold data_of. by rewrite Hip, bool_decide_true.
  - apply same_run in E.
    { apply Hnext; [|done]. unfold data_of. rewrite Hip. destruct l3; try done. rewrite bool_decide_false; [done|tauto]. }
    unfold ip_packet.
    apply within_bind; [exact _|apply cn_hosts|intros _]. rewrite (proj2 (Z.eqb_neq proto IP_PROTO_TCP) Hne).
    destruct (proto =? IP_PROTO_UDP).
    + apply within_bind; [exact _|apply within_lift; exact _|intros u]. apply within_bind; [exact _| |intros _; apply cn_udp].
      case_bool_decide; [apply within_ret; exact _|by apply within_udp_dissect; exact _].
    + destruct (proto =? IP_PROTO_ICMP); [|apply within_ret; exact _]. apply within_bind; [exact _|apply within_lift; exact _|intros i].
      unfold _icmp_dissect. destruct (0 <? _)%nat; [|apply within_ret; exact _]. case_bool_decide; [apply within_ret; exact _|apply cn_icmp].
Qed.
Definition same_offset (c c' : pcap) : Prop := cap_offset c' = cap_offset c.
#[local] Instance same_offset_pre : PreOrder same_offset.
Proof. unfold same_offset. split; [by intros c|]. by intros c1 c2 c3 -> ->. Qed.
#[local] Instance same_offset_calm : calm_net same_offset.
Proof.
  split; [split; [exact _|..]|]; intros; intros c; unfold same_offset; cbn; try done; try (by repeat case_match).
  unfold _add_hosts. repeat case_decide; try done. cbn. by destruct (_is_private_ip _).
Qed.
Lemma packets_lead linktype ps n rest c : drop n ps = rest -> cap_offset c = n -> leads linktype ps n c ->
  Forall (plain_packet linktype) rest -> Forall (quiet_packet linktype) rest ->
  leads linktype ps (n + length rest) (all_packets cfg linktype n rest c).2.
Proof.
  revert n c. induction rest as [|p rest IH]; intros n c Hd Ho Hl Hp Hq; [cbn; by rewrite Nat.add_0_r|]. cbn [all_packets length].
  apply Forall_cons in Hp as [Hp Hps]. apply Forall_cons in Hq as [Hq Hqs].
  unfold sbind at 1, one_packet, smodify. unfold sbind at 1. cbv beta iota zeta.
  set (c0 := match first_ts c with Some 0 | None => _ | _ => c end).
  assert (same_tcp c c0) as Hs0 by (unfold c0; by destruct (first_ts c) as [[]|]).
  destruct (Hq c0) as [c1 E]. unfold scatch, sbind at 1. rewrite E.
  rewrite <- Nat.add_succ_comm. apply IH; try done.
  - replace (S n) with (n + 1)%nat by lia. by rewrite <- drop_drop, Hd.
  - apply (leads_eq _ _ _ c1); [|done..].
    apply (body_leads linktype ps n p c0 c1) in E; [exact E|done|by eapply leads_same| |].
    + destruct Hs0 as (_ & _ & ->). done.
    + rewrite <- (Nat.add_0_r n), <- lookup_drop, Hd. done.
Qed.
Lemma connection_total linktype first ps : Forall (readable linktype) ps -> exists es, connection_packets first linktype ps = Ok es.
Proof.
  revert first. induction ps as [|[raw ts] ps IH]; intros first Hps; [by eexists|]. apply Forall_cons in Hps as [[f Hf] Hps]. cbn in *. rewrite Hf. cbn.
  case_bool_decide; [|by eexists]. destruct (payload_total _ _ _ Hf) as [pl ->]. cbn. destruct (IH (Some (default f first)) Hps) as [es ->]. by eexists.
Qed.
Lemma plain_readable linktype p : plain_packet linktype p -> readable linktype p.
Proof.
  unfold plain_packet, readable, flowtuple_from_raw. destruct (iplayer_from_raw p.1 linktype) as [ip|]; [|done]. intros _. by eexists.
Qed.

(** C31. In a capture of IPv4 packets that no dissector raises for, the offset
    stored with a TCP connection is that of the first packet with data between its two ends, in
    either direction, and it leads [packets_for_stream] to it: the first packet shown has the
    connection's addresses and ports, in its direction. (Segments without data may stand before.) *)
Theorem offset_leads_to_stream linktype passlist ps x : Forall (plain_packet linktype) ps -> Forall (quiet_packet linktype) ps ->
  x ∈ tcp_connections (all_packets cfg linktype 0 ps (new_pcap passlist)).2 ->
  (exists p, ps !! c_offset x = Some p /\ data_of linktype p = Some (conn_of x)) /\
  (forall j q, (j < c_offset x)%nat -> ps !! j = Some q ->
     data_of linktype q <> Some (conn_of x) /\ data_of linktype q <> Some (turned (conn_of x))) /\
  exists e es, packets_for_stream linktype ps (c_offset x) = Ok (e :: es) /\ sp_src e = c_src x /\ sp_dst e = c_dst x /\
    sp_sport e = c_sport x /\ sp_dport e = c_dport x /\ sp_direction e = true.
Proof.
  intros Hp Hq Hx. destruct (packets_lead linktype ps 0 ps (new_pcap passlist) eq_refl eq_refl) as [Hl _]; try done.
  { split; [|lia]. intros y Hy. by apply elem_of_nil in Hy. }
  destruct (Hl x Hx) as (p & Hpn & Hf & Hd & Hbefore). split; [by exists p|]. split; [done|].
  unfold packets_for_stream. rewrite (drop_S ps p (c_offset x) Hpn).
  assert (Forall (readable linktype) (p :: drop (S (c_offset x)) ps)) as Hr.
  { rewrite <- (drop_S ps p (c_offset x) Hpn). apply Forall_drop. eapply Forall_impl; [exact Hp|]. apply plain_readable. }
  destruct ps as [|q ps]; [by rewrite lookup_nil in Hpn|]. apply Forall_cons in Hr as [_ Hr].
  rewrite (first_of_stream _ _ _ _ Hf). destruct p as [raw ts]. cbn in Hf |- *. rewrite Hf. cbn.
  rewrite bool_decide_eq_true_2 by auto. destruct (payload_total _ _ _ Hf) as [pl ->]. cbn.
  destruct (connection_total linktype (Some (c_src x, c_dst x, c_sport x, c_dport x, IP_PROTO_TCP)) _ Hr) as [es Hes]. cbn in Hes. rewrite Hes. cbn.
  do 2 eexists. split; [done|]. cbn. by rewrite bool_decide_eq_true_2.
Qed.

(** ** Nothing is found in IRC traffic *)

Lemma no_irc_messages conn log ms lines : irc_unpack log ms conn lines = Ok ms \/ exists e, irc_unpack log ms conn lines = Raise e.
Proof.
  induction lines as [|l lines IH]; [by left|]. cbn [irc_unpack]. destruct (has_prefix _ _); [right; by eexists|].
  destruct (irc_client l) as [[word params]|]; [|done].
  assert (existsb (bytes_are_text word) irc_methods = false) as -> by done. done.
Qed.

Definition same_irc (c c' : pcap) : Prop := irc_requests c' = irc_requests c.
#[local] Instance same_irc_pre : PreOrder same_irc.
Proof. unfold same_irc. split; [by intros c|]. by intros c1 c2 c3 -> ->. Qed.
#[local] Instance same_irc_calm : calm_net same_irc.
Proof.
  split; [split; [exact _|..]|]; intros; intros c; unfold same_irc; cbn; try done; try (by repeat case_match).
  - unfold _add_hosts. repeat case_decide; try done. cbn. by destruct (_is_private_ip _).
  - destruct conn as [[[src dst] sport] dport]. destruct (_ || _); [done|]. unfold unpack_irc.
    destruct (no_irc_messages (src, dst, sport, dport) false [] (read_lines [] data)) as [->|[e ->]]; [|done]. cbn. by rewrite app_nil_r.
Qed.

(** No message of IRC is ever reported, whatever was sent: the lines are
    bytes, the methods they are compared with are text. *)
Theorem irc_never_found linktype passlist ps : irc_requests (all_packets cfg linktype 0 ps (new_pcap passlist)).2 = [].
Proof.
  by apply (within_all_packets same_irc).
Qed.

(** ** The passlist *)

(** With the passlist on, a connection between two addresses of the passlist
    is removed twice, and the second time it is not there: the report raises. *)
Theorem both_ends_passlisted passlist x l : enabled_passlist cfg = true -> NoDup (x :: l) -> NoDup passlist ->
  c_src x ∈ passlist -> c_dst x ∈ passlist -> c_src x <> c_dst x ->
  without_passlisted cfg conn_addresses passlist (x :: l) = Raise ValueError.
Proof.
  intros He [Hx _]%NoDup_cons Hp Hs Hd Hne. unfold without_passlisted. rewrite He. cbn [remove_passlisted lookup list_lookup].
  assert (hits (conn_addresses x) passlist = 2%nat) as ->.
  { unfold hits. assert (filter (fun p => p ∈ conn_addresses x) passlist ≡ₚ [c_src x; c_dst x]) as ->; [|done].
    apply NoDup_Permutation; [by apply NoDup_filter| |].
    - repeat constructor; rewrite ?list_elem_of_singleton; [done|by intros ?%elem_of_nil].
    - intros y. rewrite list_elem_of_filter. unfold conn_addresses. set_solver. }
  cbn. rewrite decide_True by done. cbn.
  assert (remove_elem x l = Raise ValueError) as ->; [|done]. induction l as [|y l IH]; [done|]. cbn.
  rewrite decide_False by set_solver. by rewrite IH by set_solver.
Qed.
End network.

(** ** An example *)

(** A packet is source and destination, the last digit of the port, and its data. *)
#[local] Instance toy_packets : dpkt :=
  {| ethernet := fun raw => Ok match raw with
       | a :: b :: p :: data => Ipv4 (text [a]) (text [b]) IP_PROTO_TCP
           (LTcp {| tcp_sport := 2000; tcp_dport := 20 + (Z.of_nat (nat_of_ascii p) - 48); tcp_seq := 0; tcp_ack := 0; tcp_data := data |})
       | _ => NoIp
       end;
     raw_ip := fun _ => Ok NoIp;
     ip_payload := fun ip => match ip with Ipv4 _ _ _ (LTcp t) => Some (tcp_data t) | _ => None end;
     as_tcp := fun _ => Raise ExternalError; as_udp := fun _ => Raise ExternalError; as_icmp := fun _ => Raise ExternalError |}.
Definition no_request : http_message := {| h_method := None; h_version := None; h_uri := None; h_headers := None; h_body := None |}.
(** The address of a host is its name in single digits; there is no HTTP or TLS. *)
#[local] Instance toy_net : netlib :=
  {| dns_parse := fun _ => Raise ExternalError; http_unpack := fun _ => (no_request, Some ExternalError); http_request := fun _ => no_request;
     tls_server_hello := fun _ => Ok None;
     inet_aton := fun s => match s with String c "" => Ok (ip4 10 0 0 (Z.of_nat (nat_of_ascii c))) | _ => Raise OSError end;
     resolve := fun _ => ""; country_name := fun _ => ""; reverse_dns := fun _ => ""; domain_passlisted := fun _ => false |}.
Definition toy_cfg : net_cfg :=
  {| enabled_passlist := true; resolve_dns := false; use_reverse_dns := false; resultserver_ip := "9"; opt_sorted := true |}.

Definition mail_capture : list Packet := [(B "128hello", 10); (B "125MAIL", 20)].
Lemma mail_loses_report_witness : (Pcap_run toy_cfg 1 [] mail_capture).1 = Raise AttributeError.
Proof.
  apply (mail_loses_report toy_cfg 1 [] mail_capture (B "125MAIL", 20)); [by right; left|].
  do 3 eexists. split; [reflexivity|]. split; [by left|]. split; [done|]. by eexists.
Defined.

Lemma private_ip_spec_witness : _is_private_ip "1" = true <-> Exists (agrees (ip4 10 0 0 49)) private_networks.
Proof. apply (private_ip_spec "1" (ip4 10 0 0 49)); [reflexivity|by vm_compute]. Defined.

Definition two_connections : list Packet := [(B "128hello", 10); (B "346ok", 20); (B "128more", 30)].
Definition second_connection : net_conn := {| c_src := "3"; c_sport := 2000; c_dst := "4"; c_dport := 26; c_offset := 1; c_time := 10 |}.
Lemma toy_quiet : Forall (quiet_packet toy_cfg 1) two_connections.
Proof.
  unfold two_connections. repeat (apply Forall_cons_2; [intros c|]); [..|apply Forall_nil_2].
  all: unfold packet_body, ip_packet, sbind, slift; cbn -[_add_hosts _tcp_dissect note_tcp].
  all: match goal with |- context [_add_hosts ?dst ?c] => destruct (add_hosts_run dst c) as [c1 E] end.
  all: rewrite E; eexists; reflexivity.
Qed.
Lemma offset_leads_to_stream_witness :
  data_of 1 (B "128hello", 10) <> Some (conn_of second_connection) /\
  exists e es, packets_for_stream 1 two_connections (c_offset second_connection) = Ok (e :: es) /\ sp_src e = "3" /\ sp_dst e = "4" /\
    sp_sport e = 2000 /\ sp_dport e = 26 /\ sp_direction e = true.
Proof.
  destruct (offset_leads_to_stream toy_cfg 1 [] two_connections second_connection) as (_ & Hb & Hs);
    [..|split; [by apply (Hb 0%nat); [cbn; lia|]|exact Hs]].
  - repeat constructor; intros _; by eexists.
  - apply toy_quiet.
  - vm_compute. by right; left.
Defined.

Definition inner_connection : net_conn := {| c_src := "1"; c_sport := 2000; c_dst := "2"; c_dport := 28; c_offset := 0; c_time := 0 |}.
Lemma both_ends_passlisted_witness :
  without_passlisted toy_cfg conn_addresses ["1"; "2"] [inner_connection; second_connection] = Raise ValueError.
Proof.
  apply (both_ends_passlisted toy_cfg ["1"; "2"] inner_connection [second_connection]); [reflexivity|..|by left|by right; left|done].
  - by apply (bool_decide_unpack _).
  - by apply (bool_decide_unpack _).
Defined.
