(* ===== verification/Analysis.v ===== *)
(** The life of one analysis: class AnalysisManager of lib/cuckoo/core/scheduler.py. *)
From stdpp Require Import pretty.
From S2P Require Import Prelude Database TaskQueue Machinery.
Open Scope Z_scope.

(** ** Settings *)

Record vpn := { vpn_interface : string; vpn_rt_table : option string }.
Record socks5 := { so_port : string; so_dnsport : string }.

(** The routing, cuckoo and result server sections of the configuration. *)
Class Settings := {
  default_route : string;
  inetsim_interface : string; inetsim_server : string; inetsim_dnsport : string; inetsim_ports : string;
  tor_interface : string; tor_dnsport : string; tor_proxyport : string;
  internet : string; internet_rt_table : option string;
  vpns : gmap string vpn;
  socks5s : gmap string socks5;
  verify_interface : bool; have_networkifaces : bool; network_interfaces : list string;
  rs_port : string;
  memory_dump : bool; memory_space : bool;     (** enough space for a dump *)
  default_timeout : Z; clock_delta : Z;
  storage_path : Z -> string; binaries_dir : Z -> string;
  manager_name : string }.

(** What is sent to the guest. *)
Record guest_options := {
  go_id : Z; go_ip : string; go_port : string; go_category : category; go_target : string; go_package : string;
  go_options : option string; go_enforce_timeout : bool; go_clock : Z; go_timeout : Z }.

Section manager.
Context `{SqlBackend} `{Outside} `{Settings}.

(** [machine_lock.release()] of a lock that is not held raises. *)
Definition lock_acquire : st analysis unit := do* call EvLock in smodify (an_set_lock true).
Definition lock_release : st analysis unit := fun a =>
  if an_lock a then (Ok tt, an_log EvRelease (an_set_lock false a)) else (Raise OtherException, a).

(** [self.machine], once it is set. *)
Definition the_machine : st analysis Machine := fun a =>
  match an_machine a with Some (_, m) => (Ok m, a) | None => (Raise AttributeError, a) end.
Definition the_machine_id : st analysis Z := fun a =>
  match an_machine a with Some (i, _) => (Ok i, a) | None => (Raise AttributeError, a) end.

(** [try: m except ...: h]: [h] returns [None] for a class that is not named. *)
Definition except_ {A} (p : exn -> bool) (h m : st analysis A) : st analysis A :=
  scatch m (fun e => if p e then Some h else None).

(** ** Files *)

Definition storage : st analysis string := fun a => (Ok (storage_path (an_task_id a)), a).

Definition path_known (p : string) : st analysis bool := fun a => (Ok (bool_decide (p ∈ an_files a)), a).

(** A call that makes [p] exist when it succeeds. *)
Definition creates (e : event) (p : string) : st analysis unit :=
  do* call e in smodify (fun a => an_set_files ({[ p ]} ∪ an_files a) a).

Definition init_storage : st analysis bool :=
  let* p := storage in
  let* there := path_known p in
  if there : bool then sret false
  else except_ is_operational (sret false) (do* creates (EvMkdir p) p in sret true).

(** Without a sample row there is no [sha256] to compare with. *)
Definition check_file (sha256 : string) : st analysis bool :=
  let* a := sget in
  let* s := on_db (fun _ => match t_sample_id (an_task a) with
                            | Some i => view_sample i | None => sret None end) in
  match s with
  | None => sraise AttributeError
  | Some s => sret (bool_decide (sha256 = s_sha256 s))
  end.

Definition is_io (e : exn) : bool := bool_decide (e = OSError).

(** A copy of the target under [dst], unless there is one; its directory [dir]
    is created first when one is given. *)
Definition copy_once (target dst : string) (dir : option string) : st analysis bool :=
  let* there := path_known dst in
  if there : bool then sret true
  else except_ is_io (sret false)
    (do* (match dir with Some d => call (EvMkdir d) | None => sret tt end) in
     do* creates (EvCopy target dst) dst in
     sret true).

Definition store_file (sha256 : string) : st analysis bool :=
  let* a := sget in
  let target := t_target (an_task a) in
  let* there := path_known target in
  if negb there then sret false
  else
    let binary := (binaries_dir (an_task_id a) +:+ "/" +:+ sha256)%string in
    do* smodify (an_set_binary binary) in
    let* ok := copy_once target binary (Some (binaries_dir (an_task_id a))) in
    if negb ok then sret false
    else
      let* ok := copy_once target ("storage/binaries/" +:+ sha256)%string None in
      if negb ok then sret false
      else
        let* p := storage in
        do* except_ (fun e => is_io e || bool_decide (e = AttributeError)) (sret tt)
              (call (EvSymlink (p +:+ "/binary")%string)) in
        sret true.

(** [None] is the fall-through of the source: the analysis goes on. *)
Definition category_checks : st analysis (option bool) :=
  let* a := sget in
  let t := an_task a in
  let* ok :=
    (if decide (t_category t = CUrl) then sret true
     else
       let sha256 := sha256_at (an_time a) (t_target t) in
       do* call (EvReadTarget (t_target t)) in
       let* ok := check_file sha256 in
       if negb ok then sret false else store_file sha256) in
  if negb ok then sret (Some false)
  else
    match t_category t with
    | CPcap | CStatic =>
        let* p := storage in
        do* (if decide (t_category t = CPcap) then call (EvSymlink (p +:+ "/dump.pcap")%string) else sret tt) in
        do* except_ (fun _ => true) (sret tt) (call (EvMkdir (p +:+ "/logs")%string)) in
        do* except_ (fun _ => true) (sret tt) (call (EvMkdir (p +:+ "/files")%string)) in
        do* except_ (fun _ => true) (sret tt) (call (EvMkdir (p +:+ "/aux")%string)) in
        sret (Some true)
    | _ => sret None
    end.

(** ** Machines *)

(** Another thread runs while this one sleeps. *)
Definition sleep : st analysis unit := fun a =>
  (Ok tt, an_log EvSleep (an_set_db (others (an_time a) (an_db a)) a)).

(** One round of the loop of [acquire_machine]; it returns with the lock held. *)
Definition acquire_round : st analysis (option (Z * Machine)) :=
  do* lock_acquire in
  let* n := availables in
  if n =? 0 then do* lock_release in do* sleep in sret None
  else
    let* a := sget in
    let platform := match t_platform (an_task a) with VStr s => Some s | _ => None end in
    let* m := acquire (t_machine (an_task a)) platform (t_tags (an_task a)) in
    match m with
    | None => do* lock_release in do* sleep in sret None
    | Some m => sret (Some m)
    end.

(** The loop runs until a machine is free. *)
Fixpoint acquire_machine (fuel : nat) : st analysis unit :=
  match fuel with
  | O => sraise OutOfFuel
  | S fuel' =>
      let* m := acquire_round in
      match m with
      | Some m => smodify (an_set_machine (Some m))
      | None => acquire_machine fuel'
      end
  end.

(** For a file, its name, type and exports are read from the target. *)
Definition build_options : st analysis guest_options :=
  let* a := sget in
  let t := an_task a in
  let* m := the_machine in
  do* (if decide (t_category t = CFile) then call (EvReadTarget (t_target t)) else sret tt) in
  sret {| go_id := an_task_id a; go_ip := m_resultserver_ip m; go_port := m_resultserver_port m;
          go_category := t_category t; go_target := t_target t; go_package := t_package t;
          go_options := t_options t; go_enforce_timeout := t_enforce_timeout t; go_clock := t_clock t;
          go_timeout := if t_timeout t =? 0 then default_timeout else t_timeout t |}.

(** ** Routing *)

(** The interface and routing table of a route. *)
Definition route_target (route : string) (interface rt : option string) : option string * option string :=
  if bool_decide (route ∈ ["none"; "None"; "drop"; "false"]%string) then (None, None)
  else if bool_decide (route = "inetsim"%string) then (Some inetsim_interface, rt)
  else if bool_decide (route = "tor"%string) then (Some tor_interface, rt)
  else if bool_decide (route = "internet"%string) && bool_decide (internet <> "none"%string)
  then (Some internet, internet_rt_table)
  else match vpns !! route with
  | Some v => (Some (vpn_interface v), vpn_rt_table v)
  | None => match socks5s !! route with
            | Some _ => (Some ""%string, rt)
            | None => (None, None) end
  end.

(** The rooter command that a route needs, if any: its prefix and arguments. *)
Definition route_command (route ip : string) : option (string * list (option string)) :=
  if bool_decide (route = "inetsim"%string) then
    Some ("inetsim"%string, Some <$> [ip; inetsim_server; inetsim_dnsport; rs_port; inetsim_ports])
  else if bool_decide (route = "tor"%string) then
    Some ("socks5"%string, Some <$> [ip; rs_port; tor_dnsport; tor_proxyport])
  else match socks5s !! route with
  | Some s => Some ("socks5"%string, Some <$> [ip; rs_port; so_dnsport s; so_port s])
  | None => if bool_decide (route ∈ ["none"; "None"; "drop"]%string) then Some ("drop"%string, Some <$> [ip; rs_port]) else None
  end.

(** [self.rooter_response = rooter(...)]. *)
Definition tell_rooter (name : string) (args : list (option string)) : st analysis unit :=
  let* r := rooter name args in smodify (an_set_response r).

Definition _rooter_response_check : st analysis unit :=
  let* a := sget in
  match an_response a with
  | Some r => match rr_exception r with Some _ => sraise CuckooCriticalError | None => sret tt end
  | None => sret tt
  end.

(** The answer of [rooter] is a dictionary, which is true whatever its output
    says; it is false only when there is no answer. *)
Definition route_network : st analysis unit :=
  let* a := sget in
  let* m := the_machine in
  let route := match t_route (an_task a) with VStr s => if truthy (Some s) then s else default_route | _ => default_route end in
  let '(interface, rt_table) := route_target route (an_interface a) (an_rt_table a) in
  do* smodify (an_set_route (Some route) interface rt_table) in
  do* (if truthy interface then
         let* r := rooter "nic_available" [interface] in
         match r with
         | None => smodify (an_set_route (Some "none"%string) None None)
         | Some _ => sret tt
         end
       else sret tt) in
  let* a := sget in
  do* (match route_command (default EmptyString (an_route a)) (m_ip m) with
       | Some (name, args) => tell_rooter (name +:+ "_enable")%string args
       | None => sret tt end) in
  do* _rooter_response_check in
  do* (if have_networkifaces && verify_interface && truthy (an_interface a)
          && negb (bool_decide (default EmptyString (an_interface a) ∈ network_interfaces))
       then sraise CuckooNetworkError else sret tt) in
  do* (if truthy (an_interface a) then
         do* tell_rooter "forward_enable" [m_interface m; an_interface a; Some (m_ip m)] in
         _rooter_response_check
       else sret tt) in
  if truthy (an_rt_table a) then
    do* tell_rooter "srcroute_enable" [an_rt_table a; Some (m_ip m)] in
    _rooter_response_check
  else sret tt.

Definition unroute_network : st analysis unit :=
  let* a := sget in
  let* m := the_machine in
  do* (if truthy (an_interface a) then
         do* tell_rooter "forward_disable" [m_interface m; an_interface a; Some (m_ip m)] in
         _rooter_response_check
       else sret tt) in
  do* (if truthy (an_rt_table a) then
         do* tell_rooter "srcroute_disable" [an_rt_table a; Some (m_ip m)] in
         _rooter_response_check
       else sret tt) in
  do* (match route_command (default EmptyString (an_route a)) (m_ip m) with
       | Some (name, args) => tell_rooter (name +:+ "_disable")%string args
       | None => sret tt end) in
  _rooter_response_check.

(** ** The analysis *)

Definition is_machine_or_network (e : exn) : bool := bool_decide (e = CuckooMachineError \/ e = CuckooNetworkError).

Definition release_unless_unlocked : st analysis unit :=
  let* a := sget in if an_unlocked a then sret tt else lock_release.

Definition set_unlocked (b : bool) : st analysis unit :=
  smodify (fun a => an_set_locals b (an_dead a) (an_guest_log a) a).
Definition set_dead : st analysis unit := smodify (fun a => an_set_locals (an_unlocked a) true (an_guest_log a) a).
Definition set_guest_log (g : option Z) : st analysis unit :=
  smodify (fun a => an_set_locals (an_unlocked a) (an_dead a) (Some g) a).

(** The [try] block up to the release of the machine lock. *)
Definition start_guest : st analysis unit :=
  let* a := sget in
  let* m := the_machine in
  do* set_unlocked false in
  let* g := on_db (fun now => guest_start now (an_task_id a) (m_name m) (m_label m) manager_name) in
  do* set_guest_log g in
  do* call (EvStart (m_label m)) in
  route_network.

(** The rest of it: [GuestManager] is outside. *)
Definition follow_guest : st analysis unit :=
  let* a := sget in
  let id := an_task_id a in
  do* call EvAuxStart in
  do* on_db (fun now => update_clock now clock_delta id) in
  do* on_db (fun _ => guest_set_status id "starting") in
  do* call EvGuestStart in
  let* s := on_db (fun _ => guest_get_status id) in
  do* (if decide (s = Some "starting"%string) then
         do* on_db (fun _ => guest_set_status id "running") in
         call EvGuestWait
       else sret tt) in
  on_db (fun _ => guest_set_status id "stopping").

Definition run_guest : st analysis bool :=
  do* start_guest in
  do* lock_release in
  do* set_unlocked true in
  do* follow_guest in
  sret true.

(** The handlers of the [try] block. *)
Definition run_guest_handled : st analysis bool :=
  scatch run_guest (fun e =>
    if is_machine_or_network e then Some (do* release_unless_unlocked in do* set_dead in sret false)
    else if decide (e = CuckooGuestError) then Some (do* release_unless_unlocked in sret false)
    else None).

(** [guest_log] is unbound when [guest_start] raised. *)
Definition the_guest_log : st analysis (option Z) := fun a =>
  match an_guest_log a with Some g => (Ok g, a) | None => (Raise NameError, a) end.

Definition guest_row (g : option Z) (m : Z -> st Database unit) : st Database unit :=
  match g with Some i => m i | None => m 0 end.

(** The [finally] block. A row id that is [None] finds no row. *)
Definition clean_up : st analysis unit :=
  let* a := sget in
  let* m := the_machine in
  do* call EvAuxStop in
  do* (if memory_dump || t_memory (an_task a) then
         if memory_space then except_ (fun e => bool_decide (e = CuckooMachineError \/ e = NotImplementedError)) (sret tt) (call (EvDump (m_label m)))
         else sret tt
       else sret tt) in
  do* except_ (fun e => bool_decide (e = CuckooMachineError)) (sret tt) (call (EvStop (m_label m))) in
  let* g := the_guest_log in
  do* on_db (fun now => match g with Some i => guest_stop now i | None => sraise AttributeError end) in
  do* call (EvDelTask (m_ip m)) in
  do* unroute_network in
  let* a := sget in
  if an_dead a then
    do* on_db (fun _ => match g with Some i => guest_remove i | None => sret tt end) in
    let* p := storage in
    do* call (EvRmtree p) in
    do* smodify (fun a => an_set_files (an_files a ∖ {[ p ]}) a) in
    sraise CuckooDeadMachine
  else
    except_ (fun e => bool_decide (e = CuckooMachineError)) (sret tt) (release (m_label m)).

(** Acquiring the machine, with its handler. *)
Definition take_machine (fuel : nat) : st analysis bool :=
  except_ is_operational (do* lock_release in sret false)
    (do* acquire_machine fuel in
     let* i := the_machine_id in
     let* m := the_machine in
     let* a := sget in
     do* on_db (fun _ => set_task_vm (an_task_id a) (m_label m) i) in
     sret true).

Definition on_machine : st analysis bool := sfinally run_guest_handled clean_up.

(** The analysis on the machine. *)
Definition use_machine : st analysis bool :=
  let* options := build_options in
  let* m := the_machine in
  do* except_ (fun _ => true) (do* release (m_label m) in call (EvQueueError OtherException))
        (call (EvAddTask (m_ip m))) in
  do* call EvAuxInit in
  on_machine.

Definition launch_analysis (fuel : nat) : st analysis bool :=
  do* smodify (an_set_locals false false None) in
  let* ok := init_storage in
  if negb ok then sret false
  else
    let* early := category_checks in
    match early with
    | Some b => sret b
    | None =>
        let* acquired := take_machine fuel in
        if negb acquired then sret false else use_machine
    end.

(** [CuckooDeadMachine] starts the analysis again. *)
Fixpoint run_loop (rounds fuel : nat) : st analysis bool :=
  match rounds with
  | O => sraise OutOfFuel
  | S rounds' =>
      scatch (launch_analysis fuel)
        (fun e => if decide (e = CuckooDeadMachine) then Some (run_loop rounds' fuel) else None)
  end.

(** Every exception of the thread is logged and dropped. *)
Definition run (rounds fuel : nat) : st analysis unit :=
  scatch
    (do* run_loop rounds fuel in
     let* a := sget in
     do* on_db (fun now => set_status now (an_task_id a) TASK_COMPLETED) in
     let* t := on_db (fun _ => view_task (an_task_id a)) in
     do* smodify (fun a => an_set_task (default (an_task a) t) a) in
     let* p := storage in
     except_ is_io (sret tt) (call (EvSymlink "latest")))
    (fun e => if decide (e = OutOfFuel) then None else Some (sret tt)).

(** ** The machine lock *)

(** The lock and the local variables stay as they are. *)
Definition same_lock (a a' : analysis) : Prop :=
  an_lock a' = an_lock a /\ an_unlocked a' = an_unlocked a /\ an_dead a' = an_dead a.

#[local] Instance same_lock_preorder : PreOrder same_lock.
Proof. split; [by intros a|]. intros a1 a2 a3 (?&?&?) (?&?&?). unfold same_lock. intuition congruence. Qed.

Lemma lock_call e : within same_lock (call e).
Proof. intros a. unfold call. by destruct (responds _ _). Qed.

Lemma lock_on_db {A} (m : Z -> st Database A) : within same_lock (on_db m).
Proof. intros a. unfold on_db. by destruct (m _ _). Qed.

Lemma lock_rooter n args : within same_lock (rooter n args).
Proof. by intros a. Qed.

Lemma lock_get : within same_lock (@sget analysis).
Proof. by intros a. Qed.

Lemma lock_modify f : (forall a, same_lock a (f a)) -> within same_lock (smodify f).
Proof. intros Hf a. apply Hf. Qed.

Lemma lock_machine_field : within same_lock the_machine /\ within same_lock the_machine_id /\
  within same_lock storage /\ (forall p, within same_lock (path_known p)) /\ within same_lock the_guest_log /\ within same_lock sleep.
Proof.
  split_and!; try by intros a.
  - intros a. unfold the_machine. by destruct (an_machine a) as [[]|].
  - intros a. unfold the_machine_id. by destruct (an_machine a) as [[]|].
  - intros a. unfold the_guest_log. by destruct (an_guest_log a).
Qed.

Ltac lock_step :=
  lazymatch goal with
  | |- within _ (call _) => apply lock_call
  | |- within _ (on_db _) => apply lock_on_db
  | |- within _ (rooter _ _) => apply lock_rooter
  | |- within _ sget => apply lock_get
  | |- within _ the_machine => apply lock_machine_field
  | |- within _ the_machine_id => apply lock_machine_field
  | |- within _ storage => apply lock_machine_field
  | |- within _ (path_known _) => apply lock_machine_field
  | |- within _ the_guest_log => apply lock_machine_field
  | |- within _ sleep => apply lock_machine_field
  | |- within _ (smodify _) => apply lock_modify; intros ?; done
  | |- within _ (creates _ _) => unfold creates
  | |- within _ (release _) => unfold release
  | |- within _ (tell_rooter _ _) => unfold tell_rooter
  | |- within _ _rooter_response_check => unfold _rooter_response_check
  | |- within _ (except_ _ _ _) => unfold except_
  | |- within _ (scatch _ _) => apply within_catch; [typeclasses eauto| |intros ? ? ?; try split_match; simplify_eq]
  | _ => within_step
  end.
Ltac lock_tac := repeat lock_step.

Lemma init_storage_lock : within same_lock init_storage.
Proof. unfold init_storage. lock_tac. Qed.

Lemma category_checks_lock : within same_lock category_checks.
Proof. unfold category_checks, store_file, check_file, copy_once. lock_tac. Qed.

Lemma build_options_lock : within same_lock build_options.
Proof. unfold build_options. lock_tac. Qed.

Lemma route_network_lock : within same_lock route_network.
Proof. unfold route_network. lock_tac. Qed.

Lemma unroute_network_lock : within same_lock unroute_network.
Proof. unfold unroute_network. lock_tac. Qed.

Lemma clean_up_lock : within same_lock clean_up.
Proof. unfold clean_up. repeat first [apply unroute_network_lock|lock_step]. Qed.

(** No call from outside raises [CuckooDeadMachine], which is the scheduler's
    own. *)
Definition no_dead : Prop := forall n e, responds n e <> Some CuckooDeadMachine.

Lemma never_query {A} (f : nat -> Database -> A) : never CuckooDeadMachine (query f).
Proof. intros d. unfold query. by destruct (answer _). Qed.
Lemma never_commit f : never CuckooDeadMachine (commit f).
Proof. intros d. unfold commit. by destruct (answer _). Qed.
Lemma never_on_db {A} (m : Z -> st Database A) : (forall t, never CuckooDeadMachine (m t)) -> never CuckooDeadMachine (on_db m).
Proof. intros Hm a. unfold on_db. specialize (Hm (time_at (an_time a)) (an_db a)). by destruct (m _ _) as [[] ]. Qed.
Lemma never_call (Hd : no_dead) e : never CuckooDeadMachine (call e).
Proof.
  intros a. unfold call. pose proof (Hd (an_time a) e). destruct (responds _ _); [|done]. simpl. congruence.
Qed.
Lemma never_rooter n args : never CuckooDeadMachine (rooter n args).
Proof. by intros a. Qed.
Lemma never_release : never CuckooDeadMachine lock_release.
Proof. intros a. unfold lock_release. by destruct (an_lock a). Qed.
Lemma never_field : never CuckooDeadMachine the_machine /\ never CuckooDeadMachine the_machine_id /\
  never CuckooDeadMachine storage /\ (forall p, never CuckooDeadMachine (path_known p)) /\
  never CuckooDeadMachine the_guest_log /\ never CuckooDeadMachine sleep.
Proof.
  split_and!; try by intros a.
  - intros a. unfold the_machine. by destruct (an_machine a) as [[]|].
  - intros a. unfold the_machine_id. by destruct (an_machine a) as [[]|].
  - intros a. unfold the_guest_log. by destruct (an_guest_log a).
Qed.

Ltac never_step :=
  lazymatch goal with
  | |- never _ (sret _) => apply never_ret
  | |- never _ (sraise _) => apply never_raise; done
  | |- never _ (sbind _ _) => apply never_bind; [|intros ?]
  | |- never _ sget => apply never_get
  | |- never _ (smodify _) => apply never_modify
  | |- never _ (call _) => apply never_call; assumption
  | |- never _ (query _) => apply never_query
  | |- never _ refresh => apply never_query
  | |- never _ (commit _) => apply never_commit
  | |- never _ (on_db _) => apply never_on_db; intros ?
  | |- never _ (rooter _ _) => apply never_rooter
  | |- never _ lock_release => apply never_release
  | |- never _ the_machine => apply never_field
  | |- never _ the_machine_id => apply never_field
  | |- never _ storage => apply never_field
  | |- never _ (path_known _) => apply never_field
  | |- never _ the_guest_log => apply never_field
  | |- never _ sleep => apply never_field
  | |- never _ (scatch _ _) => apply never_catch; [|intros ? ? ? ?; repeat (split_match; simplify_eq); simplify_eq]
  | |- never _ (match ?x with _ => _ end) => destruct x eqn:?
  | |- never _ ?m => let h := head_of m in unfold h
  end
with head_of m := lazymatch m with ?f _ => head_of f | _ => m end.

Ltac never_tac := repeat never_step.

Lemma never_acquire_machine (Hd : no_dead) fuel : never CuckooDeadMachine (acquire_machine fuel).
Proof. induction fuel as [|fuel IH]; cbn [acquire_machine]; [by apply never_raise|]. never_tac. exact IH. Qed.

Lemma never_before (Hd : no_dead) :
  never CuckooDeadMachine init_storage /\ never CuckooDeadMachine category_checks /\
  never CuckooDeadMachine build_options /\ never CuckooDeadMachine run_guest.
Proof. split_and!; never_tac. Qed.

(** The lock is held exactly until it is released. *)
Definition lock_matches (a : analysis) : Prop := an_lock a = negb (an_unlocked a) /\ an_dead a = false.

Lemma lock_matches_same a a' : same_lock a a' -> lock_matches a -> lock_matches a'.
Proof. intros (? & ? & ?) [? ?]. unfold lock_matches. split; congruence. Qed.

Lemma start_guest_keeps_lock : within (fun a a' => an_lock a' = an_lock a) start_guest.
Proof.
  assert (PreOrder (fun a a' : analysis => an_lock a' = an_lock a)) by (split; [by intros ?|intros ? ? ?; congruence]).
  assert (forall A (m : st analysis A), within same_lock m -> within (fun a a' => an_lock a' = an_lock a) m) as Hs
    by (intros A m Hm s; apply Hm).
  unfold start_guest, set_unlocked, set_guest_log.
  repeat first [apply Hs, lock_get|apply Hs, lock_machine_field|apply Hs, lock_on_db|apply Hs, lock_call
               |apply Hs, route_network_lock|apply within_bind; [eassumption| |intros ?]]; by intros ?.
Qed.

Lemma start_guest_lock a r a' : lock_matches a -> an_unlocked a = false -> start_guest a = (r, a') ->
  lock_matches a' /\ an_unlocked a' = false.
Proof.
  intros Hl Hu E. unfold start_guest in E.
  assert (within (fun a a' => lock_matches a /\ an_unlocked a = false -> lock_matches a' /\ an_unlocked a' = false)
            start_guest) as Hw; [|specialize (Hw a); unfold start_guest in Hw; rewrite E in Hw; by apply Hw].
  assert (PreOrder (fun a a' => lock_matches a /\ an_unlocked a = false -> lock_matches a' /\ an_unlocked a' = false)) as HP.
  { split; [by intros ?|]. intros ? ? ? ? ? ?. auto. }
  assert (forall A (m : st analysis A), within same_lock m ->
    within (fun a a' => lock_matches a /\ an_unlocked a = false -> lock_matches a' /\ an_unlocked a' = false) m) as Hs.
  { intros A m Hm s [? ?]. pose proof (Hm s) as Hss. split; [by apply (lock_matches_same s)|].
    destruct Hss as (? & ? & ?). congruence. }
  unfold start_guest, set_unlocked, set_guest_log.
  repeat first [apply Hs, lock_get|apply Hs, lock_machine_field|apply Hs, lock_on_db|apply Hs, lock_call
               |apply Hs, route_network_lock|apply within_bind; [exact HP| |intros ?]].
  - intros s [[L1 L2] L3]. rewrite L3 in L1. unfold lock_matches. simpl. rewrite ?L3. done.
Qed.

Lemma follow_guest_lock : within same_lock follow_guest.
Proof. unfold follow_guest. lock_tac. Qed.

Lemma run_guest_lock a r a' : lock_matches a -> an_unlocked a = false -> run_guest a = (r, a') ->
  lock_matches a' /\ (forall b, r = Ok b -> an_unlocked a' = true).
Proof.
  intros Hl Hu E. unfold run_guest in E.
  apply sbind_inv in E as [([] & a1 & E1 & E)|(e & E & ->)].
  - apply start_guest_lock in E1 as [[Hl1 Hd1] Hu1]; [|done..]. rewrite Hu1 in Hl1.
    assert (lock_release a1 = (Ok tt, an_log EvRelease (an_set_lock false a1))) as Er
      by (unfold lock_release; by rewrite Hl1).
    rewrite (sbind_ok _ _ _ _ _ Er) in E.
    set (a2 := an_set_locals true (an_dead a1) (an_guest_log a1) (an_log EvRelease (an_set_lock false a1))) in *.
    assert (set_unlocked true (an_log EvRelease (an_set_lock false a1)) = (Ok tt, a2)) as Eu by done.
    rewrite (sbind_ok _ _ _ _ _ Eu) in E.
    assert (lock_matches a2 /\ an_unlocked a2 = true) as [Hl2 Hu2] by (unfold lock_matches; simpl; by rewrite Hd1).
    apply sbind_inv in E as [([] & a3 & E3 & E)|(e & E & ->)].
    + unfold sret in E. simplify_eq. pose proof (follow_guest_lock a2) as Hf. rewrite E3 in Hf. simpl in Hf.
      split; [by apply (lock_matches_same a2)|]. destruct Hf as (? & ? & ?). congruence.
    + pose proof (follow_guest_lock a2) as Hf. rewrite E in Hf. split; [by apply (lock_matches_same a2)|done].
  - apply start_guest_lock in E as [? _]; [|done..]. done.
Qed.

(** After the handlers: a result means that the lock is free, and so does the
    mark of a dead machine. *)
Lemma run_guest_handled_lock a r a' : lock_matches a -> an_unlocked a = false -> run_guest_handled a = (r, a') ->
  (forall b, r = Ok b -> an_lock a' = false) /\ (an_dead a' = true -> an_lock a' = false).
Proof.
  intros Hl Hu E. unfold run_guest_handled in E.
  apply scatch_inv in E as [(b & E & ->)|(e & a1 & E & E2)].
  - apply run_guest_lock in E as [[Hl1 Hd1] Hu1]; [|done..]. rewrite (Hu1 _ eq_refl) in Hl1. done.
  - apply run_guest_lock in E as [[Hl1 Hd1] _]; [|done..].
    destruct E2 as [(k & Hk & E2)|(_ & -> & ->)]; [|split; congruence].
    assert (forall a2 r2, release_unless_unlocked a1 = (r2, a2) -> r2 = Ok tt /\ an_lock a2 = false /\ an_dead a2 = false) as Hrel.
    { intros a2 r2. unfold release_unless_unlocked, lock_release, sbind, sget, sret.
      destruct (an_unlocked a1); cbn [negb] in Hl1; [|rewrite Hl1]; by intros [= <- <-]. }
    destruct (release_unless_unlocked a1) as [r2 a2] eqn:Er. destruct (Hrel _ _ eq_refl) as (-> & Hl2 & Hd2).
    destruct (is_machine_or_network e); [|destruct (decide (e = CuckooGuestError)); [|done]]; simplify_eq;
      rewrite (sbind_ok _ _ _ _ _ Er) in E2; unfold set_dead, sbind, smodify, sret in E2; simplify_eq; simpl; by auto.
Qed.

Lemma call_inv e a r a' :
  call e a = (r, a') -> a' = an_log e a /\
  ((responds (an_time a) e = None /\ r = Ok tt) \/ exists x, responds (an_time a) e = Some x /\ r = Raise x).
Proof. unfold call. destruct (responds _ _); intros [= <- <-]; eauto. Qed.

Lemma on_db_inv {A} (m : Z -> st Database A) a r a' :
  on_db m a = (r, a') -> exists d, m (time_at (an_time a)) (an_db a) = (r, d) /\ a' = an_set_db d a.
Proof. unfold on_db. destruct (m _ _) as [r' d]. intros [= <- <-]. eauto. Qed.

Lemma lock_release_inv a r a' :
  lock_release a = (r, a') ->
  (an_lock a = true /\ r = Ok tt /\ a' = an_log EvRelease (an_set_lock false a)) \/
  (an_lock a = false /\ r = Raise OtherException /\ a' = a).
Proof. unfold lock_release. destruct (an_lock a); intros [= <- <-]; auto. Qed.

(** One step of a run of the monad. *)
Ltac an_step :=
  match goal with
  | E : call _ _ = (_, _) |- _ =>
      apply call_inv in E; destruct E as [? [[? ?]|(? & ? & ?)]]; simplify_eq/=
  | E : on_db _ _ = (_, _) |- _ => apply on_db_inv in E; destruct E as (? & ? & ?); simplify_eq/=
  | E : lock_release _ = (_, _) |- _ =>
      apply lock_release_inv in E; destruct E as [(? & ? & ?)|(? & ? & ?)]; simplify_eq/=
  | E : lock_acquire _ = (_, _) |- _ => unfold lock_acquire in E
  | E : sleep _ = (_, _) |- _ => unfold sleep in E; simplify_eq/=
  | E : smodify _ _ = (_, _) |- _ => unfold smodify in E; simplify_eq/=
  | E : storage _ = (_, _) |- _ => unfold storage in E; simplify_eq/=
  | E : sbind _ _ _ = (_, _) |- _ =>
      apply sbind_inv in E; destruct E as [(? & ? & ? & ?)|(? & ? & ?)]; simplify_eq/=
  | E : sret _ _ = (_, _) |- _ => unfold sret in E; simplify_eq/=
  | E : sraise _ _ = (_, _) |- _ => unfold sraise in E; simplify_eq/=
  | E : sget _ = (_, _) |- _ => unfold sget in E; simplify_eq/=
  | E : (match ?x with _ => _ end) _ = (_, _) |- _ => destruct x eqn:?; simplify_eq/=
  end.
Ltac an_run := repeat an_step; try congruence.

Lemma acquire_round_lock a r a' : an_lock a = false -> acquire_round a = (r, a') ->
  an_unlocked a' = an_unlocked a /\ an_dead a' = an_dead a /\
  (forall m, r = Ok (Some m) -> an_lock a' = true) /\ (r = Ok None -> an_lock a' = false).
Proof.
  intros Hl E. unfold acquire_round, acquire, availables in E. an_run; simpl; split_and!; naive_solver.
Qed.

Lemma acquire_machine_lock fuel a r a' : an_lock a = false -> acquire_machine fuel a = (r, a') ->
  an_unlocked a' = an_unlocked a /\ an_dead a' = an_dead a /\ (forall u, r = Ok u -> an_lock a' = true).
Proof.
  revert a. induction fuel as [|fuel IH]; intros a Hl E; cbn [acquire_machine] in E; [an_run; split_and!; naive_solver|].
  apply sbind_inv in E as [(m & a1 & E1 & E)|(e & E & ->)].
  - apply acquire_round_lock in E1 as (Hu & Hd & Hs & Hn); [|done]. destruct m as [m|].
    + an_run. simpl. split_and!; naive_solver.
    + apply IH in E as (? & ? & ?); [|by apply Hn]. split_and!; try congruence; done.
  - apply acquire_round_lock in E as (Hu & Hd & _); [|done]. split_and!; naive_solver.
Qed.

Lemma take_machine_lock fuel a r a' : an_lock a = false -> take_machine fuel a = (r, a') ->
  an_unlocked a' = an_unlocked a /\ an_dead a' = an_dead a /\ (forall b, r = Ok b -> an_lock a' = b).
Proof.
  intros Hl E. unfold take_machine in E. apply scatch_inv in E as [(b & E & ->)|(e & a1 & E & Hk)].
  - apply sbind_inv in E as [([] & a1 & E1 & E)|(? & _ & ?)]; [|done].
    apply acquire_machine_lock in E1 as (Hu & Hd & Hs); [|done]. specialize (Hs _ eq_refl).
    pose proof (lock_machine_field) as (Wm & Wi & _).
    apply sbind_inv in E as [(i & a2 & E2 & E)|(? & _ & ?)]; [|done].
    apply sbind_inv in E as [(m & a3 & E3 & E)|(? & _ & ?)]; [|done].
    specialize (Wi a1). rewrite E2 in Wi. specialize (Wm a2). rewrite E3 in Wm.
    assert (same_lock a1 a3) as (L & U & D) by (by transitivity a2). clear Wi Wm E2 E3.
    an_run; simpl; split_and!; congruence.
  - assert (an_unlocked a1 = an_unlocked a /\ an_dead a1 = an_dead a) as [Hu Hd].
    { apply sbind_inv in E as [([] & a2 & E1 & E)|(e' & E & _)].
      - apply acquire_machine_lock in E1 as (Hu & Hd & _); [|done].
        assert (within same_lock (let* i := the_machine_id in let* m := the_machine in let* a := sget in
          do* on_db (fun _ => set_task_vm (an_task_id a) (m_label m) i) in sret true)) as Hw by lock_tac.
        specialize (Hw a2). rewrite E in Hw. destruct Hw as (? & ? & ?). simpl in *. split; congruence.
      - by apply acquire_machine_lock in E as (Hu & Hd & _). }
    destruct Hk as [(k & Hk & E2)|(_ & -> & ->)]; [|split_and!; naive_solver].
    destruct (is_operational e); simplify_eq. an_run; simpl; split_and!; naive_solver.
Qed.

Lemma never_ok {A} e (m : st analysis A) a a' : never e m -> m a = (Raise e, a') -> False.
Proof. intros Hn E. specialize (Hn a). by rewrite E in Hn. Qed.

(** [launch_analysis] ends with a result, or gives the machine up. *)
Definition ends {A} (r : res A) : Prop := (exists b, r = Ok b) \/ r = Raise CuckooDeadMachine.

(** A first part that leaves the lock alone and gives no machine up. *)
Lemma bind_quiet {A B} (m : st analysis A) (f : A -> st analysis B) a r a' :
  within same_lock m -> never CuckooDeadMachine m -> sbind m f a = (r, a') -> ends r ->
  exists x a1, same_lock a a1 /\ f x a1 = (r, a').
Proof.
  intros Hw Hn E Hr. specialize (Hw a). apply sbind_inv in E as [(x & a1 & E1 & E)|(e & E & ->)].
  - rewrite E1 in Hw. eauto.
  - exfalso. destruct Hr as [[]|]; simplify_eq. by eapply never_ok.
Qed.

(** The cleaning up gives up a machine only when it is marked as dead. *)
Lemma clean_up_dead (Hd : no_dead) a a' : clean_up a = (Raise CuckooDeadMachine, a') -> an_dead a = true.
Proof.
  intros E. unfold clean_up in E.
  do 9 (apply bind_quiet in E as (? & ? & ? & E);
    [|solve [lock_tac|apply unroute_network_lock]|solve [never_tac]|by right]).
  match type of E with _ ?a1 = _ => assert (an_dead a1 = an_dead a) as <- by (unfold same_lock in *; intuition congruence) end.
  unfold sbind at 1, sget in E. destruct (an_dead _); [done|].
  exfalso. revert E. apply never_ok. never_tac.
Qed.

Lemma use_machine_lock (Hd : no_dead) a r a' :
  lock_matches a -> an_unlocked a = false -> use_machine a = (r, a') -> ends r -> an_lock a' = false.
Proof.
  intros Hl Hu E Hr. unfold use_machine in E.
  assert (never CuckooDeadMachine run_guest_handled) as Nr.
  { unfold run_guest_handled. apply never_catch; [by apply never_before|]. intros e k _ Hk.
    destruct (is_machine_or_network e); [|destruct (decide _); [|done]]; simplify_eq; never_tac. }
  apply bind_quiet in E as (o & a1 & W1 & E); [|apply build_options_lock|by apply never_before|done].
  apply bind_quiet in E as (m & a2 & W2 & E); [|lock_tac|never_tac|done].
  apply bind_quiet in E as ([] & a3 & W3 & E); [|lock_tac|never_tac|done].
  apply bind_quiet in E as ([] & a4 & W4 & E); [|lock_tac|never_tac|done].
  assert (same_lock a a4) as W by (do 3 (etrans; [eassumption|]); done).
  apply (lock_matches_same _ _ W) in Hl. destruct W as (_ & U & _). rewrite <- U in Hu. clear U W1 W2 W3 W4.
  unfold on_machine, sfinally in E. destruct (run_guest_handled a4) as [r5 a5] eqn:E5.
  pose proof (run_guest_handled_lock _ _ _ Hl Hu E5) as [Hok Hdead].
  pose proof (clean_up_lock a5) as W. destruct (clean_up a5) as [[u|e] a6] eqn:E6; simplify_eq.
  - destruct W as (L & _). simpl in L. rewrite L. destruct Hr as [[b ->]| ->]; [by apply (Hok b)|].
    exfalso. by eapply never_ok.
  - destruct Hr as [[]|]; simplify_eq. destruct W as (L & _). simpl in L. rewrite L. apply Hdead. by eapply clean_up_dead.
Qed.

(** C9. The machine lock is released: however the outside answers, when [launch_analysis]
    returns, or gives the machine up as dead, its thread does not hold the machine lock. *)
Theorem launch_releases_lock (Hd : no_dead) fuel a r a' :
  an_lock a = false -> launch_analysis fuel a = (r, a') -> ends r -> an_lock a' = false.
Proof.
  intros Hl E Hr. unfold launch_analysis in E.
  rewrite (sbind_ok (smodify (an_set_locals false false None)) _ a tt _ eq_refl) in E.
  apply bind_quiet in E as (ok & a1 & W1 & E); [|unfold init_storage; lock_tac|never_tac|done].
  destruct ok; cbn [negb] in E; [|an_run; destruct W1 as (-> & _); done].
  apply bind_quiet in E as (early & a2 & W2 & E); [|apply category_checks_lock|never_tac|done].
  assert (same_lock (an_set_locals false false None a) a2) as (L & U & D) by (by transitivity a1).
  simpl in L, U, D. rewrite Hl in L. destruct early; [by an_run|].
  apply sbind_inv in E as [(b & a3 & E1 & E)|(e & E & ->)].
  - apply take_machine_lock in E1 as (U3 & D3 & L3); [|done]. specialize (L3 _ eq_refl).
    destruct b; cbn [negb] in E; [|by an_run]. eapply (use_machine_lock Hd a3), Hr; [|congruence|done].
    unfold lock_matches. rewrite L3, U3, U, D3, D. done.
  - exfalso. destruct Hr as [[]|]; simplify_eq. revert E. apply never_ok.
    unfold take_machine. repeat first [apply never_acquire_machine; done|never_step].
Qed.

(** A rooter error leaks the machine lock: when starting the guest raises anything but a
    machine, network or guest error (such as the [CuckooCriticalError] of an exception in the
    rooter), no handler runs, and the [finally] block does not release the lock either. *)
Theorem critical_error_leaks_lock a e a1 :
  an_lock a = true -> start_guest a = (Raise e, a1) -> is_machine_or_network e = false -> e <> CuckooGuestError ->
  exists e' a', on_machine a = (Raise e', a') /\ an_lock a' = true.
Proof.
  intros Hl E Hm Hg. pose proof (start_guest_keeps_lock a) as W. rewrite E in W. simpl in W.
  assert (run_guest_handled a = (Raise e, a1)) as E1.
  { unfold run_guest_handled, scatch, run_guest, sbind. rewrite E, Hm. by rewrite decide_False. }
  unfold on_machine, sfinally. rewrite E1. pose proof (clean_up_lock a1) as (L & _).
  destruct (clean_up a1) as [[u|x] a2]; simpl in L; eexists _, _; (split; [reflexivity|congruence]).
Qed.

(** Every machine with this label is locked. *)
Definition label_locked (l : string) (d : Database) : Prop :=
  forall i m, machines d !! i = Some m -> m_label m = l -> m_locked m = true.

Lemma label_not_acquired l platform tags d now r d' :
  label_locked l d -> l <> EmptyString -> lock_machine now (Some l) platform tags d = (r, d') ->
  (forall m, r <> Ok (Some m)) /\ machines d' = machines d.
Proof.
  intros Hl Hne E.
  assert (truthy (Some l) = true) as Ht by (unfold truthy; rewrite bool_decide_true by done; done).
  assert (forall i m, machines d !! i = Some m -> criteria (Some l) platform tags m && is_free m = true -> False) as Hno.
  { intros i m Hm [Hc Hf]%andb_true_iff. unfold criteria in Hc. rewrite Ht in Hc.
    apply andb_true_iff in Hc as [[Hc _]%andb_true_iff _]. apply bool_decide_eq_true in Hc. simplify_eq.
    unfold is_free in Hf. by rewrite (Hl _ _ Hm eq_refl) in Hf. }
  unfold lock_machine in E. sql_run; split_and?; try done; found [Hm Hc]; exfalso; by eapply Hno.
Qed.

(** The machines that are locked stay so while other threads run. *)
Definition others_keep (l : string) : Prop := forall n d, label_locked l d -> label_locked l (others n d).

Lemma label_locked_same l d d' : machines d' = machines d -> label_locked l d -> label_locked l d'.
Proof. unfold label_locked. by intros ->. Qed.

Lemma count_available_machines d r d' : count_machines_available d = (r, d') -> machines d' = machines d.
Proof. unfold count_machines_available. intros E. by sql_run. Qed.

Lemma acquire_round_pinned l a r a' :
  others_keep l -> l <> EmptyString -> t_machine (an_task a) = Some l -> label_locked l (an_db a) ->
  acquire_round a = (r, a') ->
  (forall m, r <> Ok (Some m)) /\ an_task a' = an_task a /\ label_locked l (an_db a').
Proof.
  intros Ho Hne Ht Hl E. unfold acquire_round, acquire, availables in E.
  assert (truthy (Some l) = true) as Htr by (unfold truthy; rewrite bool_decide_true by done; done).
  repeat first [progress (rewrite ?Ht, ?Htr in * ) | an_step];
    repeat match goal with
    | E : count_machines_available _ = _ |- _ => apply count_available_machines in E
    | E : lock_machine _ (Some ?l) _ _ ?d = _, L : label_locked ?l ?d |- _ =>
        apply (label_not_acquired l) in E as [? E]; [|done|done]
    | E : machines ?d' = machines ?d, L : label_locked ?l ?d |- _ => apply (label_locked_same l) in E; [|done]
    end; split_and!; try done; try (by apply Ho); naive_solver.
Qed.

(** A dead machine is waited for: a task that names its machine (every task that the
    scheduler starts) never acquires one while the machines of that label are locked, as a
    machine given up as dead stays, however many rounds it tries. *)
Theorem dead_machine_never_reacquired l a fuel :
  others_keep l -> l <> EmptyString -> t_machine (an_task a) = Some l -> label_locked l (an_db a) ->
  exists e, (acquire_machine fuel a).1 = Raise e.
Proof.
  intros Ho Hne. revert a. induction fuel as [|fuel IH]; intros a Ht Hl; [by eexists|]. cbn [acquire_machine].
  unfold sbind. destruct (acquire_round a) as [r a1] eqn:E.
  apply (acquire_round_pinned l) in E as (Hr & Ht1 & Hl1); [|done..].
  destruct r as [[m|]|e]; [by destruct (Hr m)| |by eexists]. apply IH; [|done]. by rewrite Ht1.
Qed.

(** ** Routing *)

(** Commands to the rooter, by the prefix of their name. *)
Definition command (suffix : string) (c : string * list (option string)) : event :=
  EvRooter {| rc_name := c.1 +:+ suffix; rc_args := c.2 |}.

(** No command fails inside the rooter. *)
Definition rooter_fine : Prop := forall n c r, rooter_says n c = Some r -> rr_exception r = None.

(** The last answer does not tell of an exception. *)
Definition answer_fine (a : analysis) : Prop := forall r, an_response a = Some r -> rr_exception r = None.

(** The events [es] are sent from [a] to [a'], which keeps the route. *)
Definition sends (a a' : analysis) (es : list event) : Prop :=
  an_trace a' = an_trace a ++ es /\ answer_fine a' /\ an_machine a' = an_machine a /\
  an_route a' = an_route a /\ an_interface a' = an_interface a /\ an_rt_table a' = an_rt_table a.

Lemma tell_rooter_sends (Hr : rooter_fine) p suffix args a r a' :
  answer_fine a -> tell_rooter (p +:+ suffix) args a = (r, a') -> r = Ok tt /\ sends a a' [command suffix (p, args)].
Proof.
  intros Ha E. unfold tell_rooter, rooter, sbind, smodify in E. simplify_eq/=. split; [done|].
  unfold sends, answer_fine. simpl. split_and!; try done. apply Hr.
Qed.

Lemma response_check_sends a r a' : answer_fine a -> _rooter_response_check a = (r, a') -> r = Ok tt /\ a' = a.
Proof.
  intros Ha E. unfold _rooter_response_check, sbind, sget in E. unfold answer_fine in Ha.
  destruct (an_response a) as [x|]; [rewrite (Ha _ eq_refl) in E|]; unfold sret in E; by simplify_eq.
Qed.

Lemma sends_trans a1 a2 a3 es fs : sends a1 a2 es -> sends a2 a3 fs -> sends a1 a3 (es ++ fs).
Proof.
  intros (T1 & _ & M1 & R1 & I1 & B1) (T2 & A2 & M2 & R2 & I2 & B2). unfold sends.
  split_and!; try congruence; [by rewrite T2, T1, app_assoc|done].
Qed.

(** A command that is sent when [b] holds, and its check. *)
Lemma when_sends (Hr : rooter_fine) (b : bool) p suffix args a r a' :
  answer_fine a ->
  (if b then do* tell_rooter (p +:+ suffix) args in _rooter_response_check else sret tt) a = (r, a') ->
  r = Ok tt /\ sends a a' (if b then [command suffix (p, args)] else []).
Proof.
  intros Ha E. destruct b; [|unfold sret in E; simplify_eq; split; [done|]; unfold sends; by rewrite app_nil_r].
  apply sbind_inv in E as [([] & a1 & E1 & E)|(e & E & ->)].
  - apply tell_rooter_sends in E1 as [_ Hs]; [|done..]. apply response_check_sends in E as [-> ->]; [done|apply Hs].
  - by apply tell_rooter_sends in E as [? _].
Qed.

(** The command of the route. *)
Lemma main_sends (Hr : rooter_fine) suffix route ip a r a' :
  answer_fine a ->
  (match route_command route ip with
   | Some (name, args) => tell_rooter (name +:+ suffix)%string args
   | None => sret tt end) a = (r, a') ->
  r = Ok tt /\ sends a a' (command suffix <$> option_list (route_command route ip)).
Proof.
  intros Ha E. destruct (route_command route ip) as [[name args]|]; [by eapply tell_rooter_sends|].
  unfold sret in E. simplify_eq. split; [done|]. unfold sends. by rewrite app_nil_r.
Qed.

(** The commands of a route that is set up: prefixes and arguments. *)
Definition route_commands (m : Machine) (route interface rt : option string)
    : list (string * list (option string)) :=
  option_list (route_command (default EmptyString route) (m_ip m))
  ++ (if truthy interface then [("forward"%string, [m_interface m; interface; Some (m_ip m)])] else [])
  ++ (if truthy rt then [("srcroute"%string, [rt; Some (m_ip m)])] else []).

(** [m] sends [es] and returns. *)
Definition sending (es : list event) (m : st analysis unit) : Prop :=
  forall a r a', answer_fine a -> m a = (r, a') -> r = Ok tt /\ sends a a' es.

Lemma sends_bind es (m k : st analysis unit) a r a' :
  sending es m -> answer_fine a -> sbind m (fun _ => k) a = (r, a') -> exists a1, sends a a1 es /\ k a1 = (r, a').
Proof.
  intros Hm Ha E. apply sbind_inv in E as [([] & a1 & E1 & E)|(e & E & ->)].
  - apply Hm in E1 as [_ Hs]; [eauto|done].
  - by apply Hm in E as [? _].
Qed.

Lemma sending_check : sending [] _rooter_response_check.
Proof.
  intros a r a' Ha E. apply response_check_sends in E as [-> ->]; [|done].
  split; [done|]. unfold sends. by rewrite app_nil_r.
Qed.

Lemma unroute_network_sends (Hr : rooter_fine) a i m :
  an_machine a = Some (i, m) -> answer_fine a ->
  exists a' cs, unroute_network a = (Ok tt, a') /\ sends a a' (command "_disable" <$> cs) /\
    cs ≡ₚ route_commands m (an_route a) (an_interface a) (an_rt_table a).
Proof.
  intros Hm Ha. destruct (unroute_network a) as [r a'] eqn:E. unfold unroute_network in E.
  unfold sbind at 1, sget in E. rewrite (sbind_ok the_machine _ a m a) in E by (unfold the_machine; by rewrite Hm).
  eapply sends_bind in E as (a1 & S1 & E); [|intros ?; apply (when_sends Hr _ "forward" "_disable")|done].
  eapply sends_bind in E as (a2 & S2 & E); [|intros ?; apply (when_sends Hr _ "srcroute" "_disable")|apply S1].
  eapply sends_bind in E as (a3 & S3 & E); [|intros ?; apply (main_sends Hr)|apply S2].
  apply sending_check in E as [-> S4]; [|apply S3].
  pose proof (sends_trans _ _ _ _ _ S1 (sends_trans _ _ _ _ _ S2 (sends_trans _ _ _ _ _ S3 S4))) as Hs.
  exists a', ((if truthy (an_interface a) then [("forward"%string, [m_interface m; an_interface a; Some (m_ip m)])] else [])
    ++ (if truthy (an_rt_table a) then [("srcroute"%string, [an_rt_table a; Some (m_ip m)])] else [])
    ++ option_list (route_command (default EmptyString (an_route a)) (m_ip m))).
  split_and!; [done| |].
  - rewrite app_nil_r in Hs. by destruct (truthy (an_interface a)), (truthy (an_rt_table a)).
  - unfold route_commands. by rewrite app_assoc, Permutation_app_comm.
Qed.

(** A question to the rooter that changes nothing. *)
Definition is_probe (e : event) : Prop := exists i, e = EvRooter {| rc_name := "nic_available"; rc_args := [i] |}.

Lemma route_network_sends (Hr : rooter_fine) a i m a' :
  an_machine a = Some (i, m) -> answer_fine a -> route_network a = (Ok tt, a') ->
  exists probes, Forall is_probe probes /\
    an_trace a' = an_trace a ++ probes
                  ++ (command "_enable" <$> route_commands m (an_route a') (an_interface a') (an_rt_table a')) /\
    an_machine a' = an_machine a /\ answer_fine a'.
Proof.
  intros Hm Ha E. unfold route_network in E.
  unfold sbind at 1, sget in E. rewrite (sbind_ok the_machine _ a m a) in E by (unfold the_machine; by rewrite Hm).
  cbv zeta in E. destruct (route_target _ _ _) as [interface rt].
  apply sbind_inv in E as [([] & b & Eb & E)|(? & _ & ?)]; [|done]. unfold smodify in Eb. injection Eb as <-.
  apply sbind_inv in E as [([] & b & Eb & E)|(? & _ & ?)]; [|done].
  set (route := match t_route _ with VStr _ => _ | _ => _ end) in *. clearbody route.
  assert (exists probes, Forall is_probe probes /\ an_trace b = an_trace a ++ probes /\ an_machine b = an_machine a /\ answer_fine b)
    as (probes & Hp & T & M & Ab).
  { destruct (truthy interface); [|unfold sret in Eb; injection Eb as <-; exists []; by rewrite app_nil_r].
    unfold rooter, sbind, smodify, sret in Eb.
    eexists [_]. split; [by repeat constructor; eexists|]. by destruct (rooter_says _ _); injection Eb as <-. }
  unfold sbind at 1 in E.
  eapply sends_bind in E as (b1 & S1 & E); [|intros ?; apply (main_sends Hr)|done].
  eapply sends_bind in E as (b2 & S2 & E); [|exact sending_check|apply S1].
  apply sbind_inv in E as [([] & b3 & E3 & E)|(? & _ & ?)]; [|done].
  assert (b3 = b2) as -> by (destruct (_ && _); unfold sraise, sret in E3; congruence). clear E3.
  eapply sends_bind in E as (b4 & S4 & E); [|intros ?; apply (when_sends Hr _ "forward" "_enable")|apply S2].
  apply (when_sends Hr _ "srcroute" "_enable") in E as [_ S5]; [|apply S4].
  pose proof (sends_trans _ _ _ _ _ S1 (sends_trans _ _ _ _ _ S2 (sends_trans _ _ _ _ _ S4 S5))) as (T' & A' & M' & R' & I' & B').
  exists probes. split_and!; [done| |congruence|done].
  rewrite R', I', B', T', T, <- app_assoc. do 2 f_equal. unfold route_commands.
  by destruct (route_command _ _) as [[] |], (truthy (an_interface b)), (truthy (an_rt_table b)).
Qed.

(** C13. What is routed is unrouted: when the rooter reports no error, [unroute_network] sends
    the disabling command of each enabling command that [route_network] sent, once, with
    the same arguments, and nothing else. *)
Theorem routes_undone (Hr : rooter_fine) a i m a1 a2 :
  an_machine a = Some (i, m) -> answer_fine a -> route_network a = (Ok tt, a1) ->
  an_machine a2 = an_machine a1 -> an_route a2 = an_route a1 -> an_interface a2 = an_interface a1 ->
  an_rt_table a2 = an_rt_table a1 -> answer_fine a2 ->
  exists a3 probes cs cs', unroute_network a2 = (Ok tt, a3) /\ Forall is_probe probes /\
    an_trace a1 = an_trace a ++ probes ++ (command "_enable" <$> cs) /\
    an_trace a3 = an_trace a2 ++ (command "_disable" <$> cs') /\ cs' ≡ₚ cs.
Proof.
  intros Hm Ha E M2 R2 I2 B2 A2. eapply route_network_sends in E as (probes & Hp & T & M & _); [|done..].
  destruct (unroute_network_sends Hr a2 i m) as (a3 & cs' & E3 & (T3 & _) & Hc); [congruence|done|].
  exists a3, probes. eexists _, cs'. split_and!; [done|done|exact T|done|]. by rewrite Hc, R2, I2, B2.
Qed.

(** ** A folder that exists *)

Lemma launch_existing fuel a :
  storage_path (an_task_id a) ∈ an_files a ->
  launch_analysis fuel a = (Ok false, an_set_locals false false None a).
Proof.
  intros Hp. unfold launch_analysis, init_storage, storage, path_known, sbind, smodify, sret. simpl.
  by rewrite bool_decide_true.
Qed.

Lemma view_task_fine (Hr : reliable) i d : exists d', view_task i d = (Ok (tasks d !! i), d') /\ tasks d' = tasks d.
Proof.
  unfold view_task. destruct (try_sql _ _ d) as [r d'] eqn:E. exists d'. by sql_run.
Qed.

(** [OutOfFuel] is the model's own. *)
Definition no_fuel_error : Prop := forall n e, responds n e <> Some OutOfFuel.

(** An existing folder ends a task: when the analysis folder of a task exists, as it does
    while another thread analyses the same task, [run] marks the task as completed without
    taking a machine, whatever the other thread does. *)
Theorem existing_folder_completes_task (Hr : reliable) (Hf : no_fuel_error) rounds fuel a :
  storage_path (an_task_id a) ∈ an_files a ->
  exists a', run (S rounds) fuel a = (Ok tt, a') /\
    tasks (an_db a') = alter (apply_status (time_at (an_time a)) TASK_COMPLETED) (an_task_id a) (tasks (an_db a)) /\
    an_trace a' = an_trace a ++ [EvSymlink "latest"].
Proof.
  intros Hp. unfold run. cbn [run_loop].
  assert (scatch (launch_analysis fuel) (fun e => if decide (e = CuckooDeadMachine) then Some (run_loop rounds fuel) else None) a
          = (Ok false, an_set_locals false false None a)) as E1 by (unfold scatch; by rewrite launch_existing).
  unfold scatch at 1. rewrite (sbind_ok _ _ _ _ _ E1). unfold sbind at 1, sget.
  destruct (set_status_fine Hr (time_at (an_time a)) (an_task_id a) TASK_COMPLETED (an_db a)) as (d1 & Es & Ts & _).
  destruct (view_task_fine Hr (an_task_id a) d1) as (d2 & Ev & Tv).
  unfold sbind, on_db. cbn [an_set_locals an_task_id an_time an_db]. rewrite Es. cbn [an_set_db an_task_id an_time an_db].
  rewrite Ev. unfold smodify, storage, except_, scatch, call, sret. cbn.
  pose proof (Hf (an_time a) (EvSymlink "latest")) as Hn.
  destruct (responds (an_time a) (EvSymlink "latest")) as [x|]; [destruct (is_io x)|]; cbn;
    [|rewrite decide_False by congruence|]; eexists; (split; [reflexivity|]); cbn; by rewrite Tv, Ts.
Qed.

End manager.

(** ** Witnesses *)

(** The default route goes through a VPN. *)
Definition plain_settings : Settings := {|
  default_route := "vpn0"; inetsim_interface := "virbr1"; inetsim_server := "192.168.1.2"; inetsim_dnsport := "53";
  inetsim_ports := ""; tor_interface := "virbr1"; tor_dnsport := "5353"; tor_proxyport := "9040";
  internet := "none"; internet_rt_table := Some "main"%string;
  vpns := {[ "vpn0"%string := {| vpn_interface := "tun0"; vpn_rt_table := Some "tun0"%string |} ]};
  socks5s := ∅; verify_interface := true; have_networkifaces := true; network_interfaces := ["tun0"; "lo"]%string;
  rs_port := "2042"; memory_dump := false; memory_space := true; default_timeout := 200; clock_delta := 0;
  storage_path := fun i => ("storage/analyses/" +:+ pretty i)%string;
  binaries_dir := fun i => ("storage/binaries/" +:+ pretty i)%string;
  manager_name := "KVM" |}.

Definition analysis_sample : Sample := {|
  s_md5 := "m"; s_crc32 := "c"; s_sha1 := "s"; s_sha256 := "abcd"; s_sha512 := "t"; s_file_size := 10;
  s_file_type := "PE32"; s_ssdeep := Some "d"%string; s_parent := VNone; s_source_url := VBool false |}.

Definition analysis_db : Database :=
  {| machines := machines example_queue; tasks := tasks example_queue; samples := {[ 1 := analysis_sample ]};
     guests := ∅; errors := ∅; ticks := 0 |}.

Definition waiting_analysis : analysis :=
  new_analysis analysis_db {[ "/tmp/sample.exe"%string ]} 2
    (example_task 2 20 (Some "win7"%string) (Some ""%string) ["x64"%string] TASK_RUNNING).

(** A rooter whose first command fails. *)
Definition broken_rooter : Outside :=
  outside (fun _ _ => None) (fun c => Some {| rr_output := true; rr_exception :=
    if bool_decide (rc_name c = "forward_enable"%string) then Some "iptables"%string else None |}).

(** An analysis that runs to its end, and leaves the machine free. *)
Example plain_launch :
  let B := always_fine in let O := calm in let S := plain_settings in
  let '(r, a) := launch_analysis 3 waiting_analysis in
  r = Ok true /\ an_lock a = false /\ (m_locked <$> machines (an_db a) !! 1) = Some false.
Proof. vm_compute. split_and!; reflexivity. Qed.

(** With the failing rooter the thread ends, its machine is free, and the lock is still held. *)
Example broken_run :
  let B := always_fine in let O := broken_rooter in let S := plain_settings in
  let '(r, a) := run 1 3 waiting_analysis in
  r = Ok tt /\ an_lock a = true /\ (m_locked <$> machines (an_db a) !! 1) = Some false.
Proof. vm_compute. split_and!; reflexivity. Qed.

Lemma calm_no_dead : @no_dead calm.
Proof. intros n e. by cbv. Qed.
Lemma calm_rooter_fine : @rooter_fine calm.
Proof. intros n c r. by intros [= <-]. Qed.

Lemma calm_no_fuel_error : @no_fuel_error calm.
Proof. intros n e. by cbv. Qed.

Lemma launch_releases_lock_witness :
  let B := always_fine in let O := calm in let S := plain_settings in
  an_lock (launch_analysis 3 waiting_analysis).2 = false.
Proof.
  intros B O S. apply (launch_releases_lock calm_no_dead 3 waiting_analysis (Ok true) _ eq_refl).
  - vm_compute. reflexivity.
  - left. by eexists.
Defined.

(** The state in which the guest is started. *)
Definition machine_taken : analysis :=
  let B := always_fine in let S := plain_settings in
  an_set_lock true (an_set_machine (Some win7) waiting_analysis).

Lemma critical_error_leaks_lock_witness :
  let B := always_fine in let O := broken_rooter in let S := plain_settings in
  exists e a', on_machine machine_taken = (Raise e, a') /\ an_lock a' = true.
Proof.
  intros B O S. apply (critical_error_leaks_lock machine_taken CuckooCriticalError (start_guest machine_taken).2).
  - reflexivity.
  - vm_compute. reflexivity.
  - reflexivity.
  - done.
Defined.

Lemma dead_machine_never_reacquired_witness :
  let B := always_fine in let O := calm in let S := plain_settings in
  exists e, (acquire_machine 20 (an_set_db (set_machines (alter (set_lock true 5) 1) analysis_db) waiting_analysis)).1 = Raise e.
Proof.
  intros B O S. apply (dead_machine_never_reacquired "win7"); [by intros n d|done|reflexivity|].
  intros i m Hi Hl. simpl in Hi. apply lookup_alter_Some in Hi as [(-> & m0 & _ & ->)|[Hne Hi]]; [done|].
  unfold two_machines in Hi. simpl in Hi. rewrite lookup_insert_ne in Hi by done.
  apply lookup_singleton_Some in Hi as [_ <-]. done.
Defined.

Lemma routes_undone_witness :
  let B := always_fine in let O := calm in let S := plain_settings in
  exists a3 probes cs cs', unroute_network (route_network machine_taken).2 = (Ok tt, a3) /\ Forall is_probe probes /\
    an_trace (route_network machine_taken).2 = [] ++ probes ++ (command "_enable" <$> cs) /\
    an_trace a3 = an_trace (route_network machine_taken).2 ++ (command "_disable" <$> cs') /\ cs' ≡ₚ cs.
Proof.
  intros B O S. apply (routes_undone calm_rooter_fine machine_taken 1 win7.2).
  - reflexivity.
  - done.
  - vm_compute. reflexivity.
  - reflexivity.
  - reflexivity.
  - reflexivity.
  - reflexivity.
  - vm_compute. intros r [= <-]. done.
Defined.

Lemma existing_folder_completes_task_witness :
  let B := always_fine in let O := calm in let S := plain_settings in
  let a := an_set_files {[ "storage/analyses/2"%string ]} waiting_analysis in
  exists a', run 1 0 a = (Ok tt, a') /\
    tasks (an_db a') = alter (apply_status 0 TASK_COMPLETED) 2 (tasks analysis_db) /\
    an_trace a' = [] ++ [EvSymlink "latest"].
Proof.
  intros B O S a. apply (existing_folder_completes_task always_fine_reliable calm_no_fuel_error 0 0 a).
  change (("storage/analyses/" +:+ pretty 2)%string ∈@{gset string} {[ "storage/analyses/2"%string ]}).
  apply elem_of_singleton. reflexivity.
Defined.
