(* ===== verification/Scheduler.v ===== *)
(** The main loop: class Scheduler of lib/cuckoo/core/scheduler.py. *)
From S2P Require Import Prelude Database TaskQueue Machinery Analysis.
Open Scope Z_scope.

(** What the loop reads of the configuration, and the machine manager's file. *)
Class LoopConfig := {
  max_analysis_count : Z; max_machines_count : Z; freespace : bool;
  manager_conf : bool;                                   (** its file exists *)
  machine_ids : list string;
  manager_options : gmap string string;
  machine_sections : gmap string (gmap string string);
  rs_address : string * string }.

(** [sc_world] is what the loop shares with the analysis threads: the database
    and the machine lock, which any of them may hold; the fields of an analysis
    in it are not used. [sc_task] is the local variable [task]: unbound, [None],
    or a task. [sc_started] has the tasks for which a thread was started. *)
Record scheduler := {
  sc_world : analysis;
  sc_running : bool; sc_maxcount : option Z; sc_total : Z;
  sc_active : Z; sc_errors : list exn;
  sc_task : option (option (Z * Task)); sc_started : list (Z * Task) }.

(** What the analysis threads do between two calls of the loop, the signals that
    arrive, and the free space. *)
Record shared := { sh_db : Database; sh_lock : bool; sh_active : Z; sh_errors : list exn }.
Class Threads := {
  meanwhile : nat -> shared -> shared;
  sighup : nat -> bool;
  need_space : nat -> bool }.

Definition sc_set_world (w : analysis) (s : scheduler) : scheduler :=
  {| sc_world := w; sc_running := sc_running s; sc_maxcount := sc_maxcount s; sc_total := sc_total s;
     sc_active := sc_active s; sc_errors := sc_errors s; sc_task := sc_task s; sc_started := sc_started s |}.
Definition sc_set_running (b : bool) (s : scheduler) : scheduler :=
  {| sc_world := sc_world s; sc_running := b; sc_maxcount := sc_maxcount s; sc_total := sc_total s;
     sc_active := sc_active s; sc_errors := sc_errors s; sc_task := sc_task s; sc_started := sc_started s |}.
Definition sc_set_maxcount (c : option Z) (s : scheduler) : scheduler :=
  {| sc_world := sc_world s; sc_running := sc_running s; sc_maxcount := c; sc_total := sc_total s;
     sc_active := sc_active s; sc_errors := sc_errors s; sc_task := sc_task s; sc_started := sc_started s |}.
Definition sc_set_task (t : option (Z * Task)) (s : scheduler) : scheduler :=
  {| sc_world := sc_world s; sc_running := sc_running s; sc_maxcount := sc_maxcount s; sc_total := sc_total s;
     sc_active := sc_active s; sc_errors := sc_errors s; sc_task := Some t; sc_started := sc_started s |}.
Definition sc_start_one (t : Z * Task) (s : scheduler) : scheduler :=
  {| sc_world := sc_world s; sc_running := sc_running s; sc_maxcount := sc_maxcount s; sc_total := sc_total s + 1;
     sc_active := sc_active s; sc_errors := sc_errors s; sc_task := sc_task s; sc_started := sc_started s ++ [t] |}.
Definition sc_set_errors (l : list exn) (s : scheduler) : scheduler :=
  {| sc_world := sc_world s; sc_running := sc_running s; sc_maxcount := sc_maxcount s; sc_total := sc_total s;
     sc_active := sc_active s; sc_errors := l; sc_task := sc_task s; sc_started := sc_started s |}.

Section loop.
Context `{SqlBackend} `{Outside} `{Settings} `{LoopConfig} `{Threads}.

Definition in_world {A} (m : st analysis A) : st scheduler A := fun s =>
  let '(r, w) := m (sc_world s) in (r, sc_set_world w s).

(** The threads run; [set_stop_analyzing] is the handler of SIGHUP. *)
Definition interfere : st scheduler unit := fun s =>
  let w := sc_world s in
  let n := an_time w in
  let h := meanwhile n {| sh_db := an_db w; sh_lock := an_lock w; sh_active := sc_active s; sh_errors := sc_errors s |} in
  (Ok tt, {| sc_world := an_log EvSleep (an_set_db (sh_db h) (an_set_lock (sh_lock h) w));
             sc_running := sc_running s && negb (sighup n);
             sc_maxcount := sc_maxcount s; sc_total := sc_total s; sc_active := sh_active h;
             sc_errors := sh_errors h; sc_task := sc_task s; sc_started := sc_started s |}).

(** A call of the machine manager or the database, after the threads had their turn. *)
Definition after {A} (m : st analysis A) : st scheduler A := do* interfere in in_world m.

Definition stop : st scheduler unit :=
  do* smodify (sc_set_running false) in after shutdown.

(** [for machine in ...: task = fetch(machine); if task: break]. *)
Fixpoint find_task (ms : list (Z * Machine)) : st scheduler unit :=
  match ms with
  | [] => sret tt
  | m :: ms' =>
      let* t := after (on_db (fun now => fetch now m)) in
      do* smodify (sc_set_task t) in
      match t with
      | Some _ => sret tt
      | None => find_task ms'
      end
  end.

(** [if task:], which fails when [task] was never assigned. *)
Definition start_task : st scheduler unit :=
  let* s := sget in
  match sc_task s with
  | None => sraise NameError
  | Some None => sret tt
  | Some (Some t) => smodify (sc_start_one t)
  end.

Definition limit_reached (s : scheduler) : bool :=
  match sc_maxcount s with
  | Some c => negb (c =? 0) && (c <=? sc_total s)
  | None => false
  end.

Definition serve : st scheduler unit :=
  do* interfere in
  let* s := sget in
  if limit_reached s then if sc_active s <=? 0 then stop else sret tt
  else
    let* ms := after (on_db (fun _ => get_available_machines)) in
    do* find_task ms in
    start_task.

Definition raise_errors : st scheduler unit :=
  let* s := sget in
  match sc_errors s with
  | [] => sret tt
  | e :: l => do* smodify (sc_set_errors l) in sraise e
  end.

(** One turn of the loop: [sret tt] before the end is the source's [continue]. *)
Definition round : st scheduler unit :=
  do* interfere in                                       (* time.sleep(1) *)
  let* s := sget in
  if an_lock (sc_world s) then sret tt
  else if freespace && need_space (an_time (sc_world s)) then sret tt
  else
    let* many := (if 0 <? max_machines_count then
                    let* ms := after running in sret (max_machines_count <=? zlen ms)
                  else sret false) in
    if many : bool then sret tt
    else
      let* n := after availables in
      if n =? 0 then sret tt
      else do* serve in raise_errors.

(** At most [n] turns, while [self.running]. *)
Fixpoint rounds (n : nat) : st scheduler unit :=
  match n with
  | O => sret tt
  | S n' => let* s := sget in if sc_running s then do* round in rounds n' else sret tt
  end.

Fixpoint drop_forwarding (m : Machine) (vs : list vpn) : st analysis unit :=
  match vs with
  | [] => sret tt
  | v :: vs' =>
      do* rooter "forward_disable" [m_interface m; Some (vpn_interface v); Some (m_ip m)] in
      drop_forwarding m vs'
  end.

Fixpoint drop_routes (ms : list (Z * Machine)) : st analysis unit :=
  match ms with
  | [] => sret tt
  | (_, m) :: ms' =>
      do* (if truthy (m_interface m) then
             do* drop_forwarding m ((map_to_list vpns).*2) in
             if bool_decide (internet <> "none"%string)
             then do* rooter "forward_disable" [m_interface m; Some internet; Some (m_ip m)] in sret tt
             else sret tt
           else sret tt) in
      drop_routes ms'
  end.

(** The constructor of the manager empties the table of machines;
    [Machinery.initialize] fills it. *)
Definition initialize : st analysis unit :=
  do* on_db (fun _ => clean_machines) in
  if negb manager_conf then sraise CuckooCriticalError
  else
    do* except_ (fun e => bool_decide (e = CuckooMachineError)) (sraise CuckooCriticalError)
          (do* on_db (fun _ => _initialize machine_ids manager_options machine_sections rs_address.1 rs_address.2) in
           _initialize_check) in
    let* ms := machines_ in
    if bool_decide (ms = []) then sraise CuckooCriticalError
    else
      do* machines_ in
      do* machines_ in
      let* ms := machines_ in
      drop_routes ms.

Definition start (n : nat) : st scheduler unit :=
  do* in_world initialize in
  do* smodify (fun s => sc_set_maxcount (Some (default max_analysis_count (sc_maxcount s))) s) in
  rounds n.

(** ** The number of analyses *)

(** No analysis is started. *)
Definition quiet (s s' : scheduler) : Prop :=
  sc_maxcount s' = sc_maxcount s /\ sc_total s' = sc_total s /\ sc_started s' = sc_started s.

#[local] Instance quiet_preorder : PreOrder quiet.
Proof. split; [by intros ?|]. intros ? ? ? (?&?&?) (?&?&?). unfold quiet. intuition congruence. Qed.

Lemma quiet_interfere : within quiet interfere.
Proof. by intros s. Qed.
Lemma quiet_world {A} (m : st analysis A) : within quiet (in_world m).
Proof. intros s. unfold in_world. by destruct (m _). Qed.
Lemma quiet_after {A} (m : st analysis A) : within quiet (after m).
Proof. apply within_bind; [apply _|apply quiet_interfere|intros; apply quiet_world]. Qed.
Lemma quiet_get : within quiet (@sget scheduler).
Proof. by intros s. Qed.
Lemma quiet_modify f : (forall s, quiet s (f s)) -> within quiet (smodify f).
Proof. intros Hf s. apply Hf. Qed.

Ltac quiet_step :=
  lazymatch goal with
  | |- within _ interfere => apply quiet_interfere
  | |- within _ (after _) => apply quiet_after
  | |- within _ (in_world _) => apply quiet_world
  | |- within _ sget => apply quiet_get
  | |- within _ (smodify _) => apply quiet_modify; intros ?; done
  | _ => within_step
  end.
Ltac quiet_tac := repeat quiet_step.

Lemma quiet_find_task ms : within quiet (find_task ms).
Proof. induction ms as [|m ms IH]; cbn [find_task]; quiet_tac. Qed.
Lemma quiet_stop : within quiet stop.
Proof. unfold stop. quiet_tac. Qed.
Lemma quiet_raise_errors : within quiet raise_errors.
Proof. unfold raise_errors. quiet_tac. Qed.

(** The count is the number of threads started, and stays within the limit. *)
Definition counted (s : scheduler) : Prop :=
  sc_total s = zlen (sc_started s) /\ forall c, sc_maxcount s = Some c -> 0 < c -> sc_total s <= c.

(** From [s] to [s'] the limit is the same and the count stays right. *)
Definition keeps_count (s s' : scheduler) : Prop :=
  sc_maxcount s' = sc_maxcount s /\ (counted s -> counted s').

#[local] Instance keeps_count_preorder : PreOrder keeps_count.
Proof. split; [by intros ?|]. intros ? ? ? (?&?) (?&?). split; [congruence|auto]. Qed.

Lemma quiet_counted s s' : quiet s s' -> keeps_count s s'.
Proof. unfold keeps_count, counted. intros (-> & -> & ->). done. Qed.

Lemma within_quiet {A} (m : st scheduler A) : within quiet m -> within keeps_count m.
Proof. intros Hm s. apply quiet_counted, Hm. Qed.

Lemma start_task_counted s : limit_reached s = false -> keeps_count s (start_task s).2.
Proof.
  intros Hl. unfold start_task, sbind, sget. destruct (sc_task s) as [[t|]|]; simpl; [|done|done].
  split; [done|]. intros [Hc Hb]. split; simpl.
  - rewrite Hc, zlen_app. done.
  - intros c Hm Hp. specialize (Hb c Hm Hp). unfold limit_reached in Hl. rewrite Hm in Hl. lia.
Qed.

Lemma serve_counted : within keeps_count serve.
Proof.
  intros s. destruct (serve s) as [r s'] eqn:E. simpl. unfold serve in E.
  pose proof (quiet_interfere s) as Q0. rewrite (sbind_ok interfere _ s tt (interfere s).2) in E by done.
  set (s0 := (interfere s).2) in *. unfold sbind at 1, sget in E. apply quiet_counted in Q0. transitivity s0; [done|clear Q0].
  destruct (limit_reached s0) eqn:Hl.
  - destruct (sc_active s0 <=? 0); [|unfold sret in E; by simplify_eq].
    apply quiet_counted. pose proof (quiet_stop s0) as Q. by rewrite E in Q.
  - apply sbind_inv in E as [(ms & s1 & E1 & E)|(e & E1 & ->)];
      pose proof (quiet_after (on_db (fun _ => get_available_machines)) s0) as Q1; rewrite E1 in Q1; simpl in Q1;
      [|by apply quiet_counted].
    apply sbind_inv in E as [([] & s2 & E2 & E)|(e & E2 & ->)];
      pose proof (quiet_find_task ms s1) as Q2; rewrite E2 in Q2; simpl in Q2;
      [|by apply quiet_counted; etrans; [apply Q1|apply Q2]].
    assert (quiet s0 s2) as Q by (by transitivity s1).
    transitivity s2; [by apply quiet_counted|].
    pose proof (start_task_counted s2) as K. rewrite E in K. apply K.
    destruct Q as (Qm & Qt & _). unfold limit_reached in *. by rewrite Qm, Qt.
Qed.

Lemma round_counted : within keeps_count round.
Proof.
  unfold round.
  repeat first [apply serve_counted | apply within_quiet; first [apply quiet_interfere|apply quiet_get|apply quiet_after|apply quiet_raise_errors]
               |within_step].
Qed.

Lemma rounds_counted n : within keeps_count (rounds n).
Proof.
  induction n as [|n IH]; cbn [rounds];
  repeat first [apply round_counted|apply within_quiet, quiet_get|within_step].
Qed.

Lemma count_rounds n s : counted s -> counted (rounds n s).2.
Proof. apply rounds_counted. Qed.

(** C14. The limit of analyses is respected: from a fresh scheduler, after any number of turns
    and whatever the analysis threads, the database and the signals do, the number of
    started analyses is the counter and does not exceed [max_analysis_count]. *)
Theorem scheduler_respects_limit n s :
  sc_total s = 0 -> sc_started s = [] -> 0 < max_analysis_count -> sc_maxcount s = None ->
  zlen (sc_started (start n s).2) <= max_analysis_count.
Proof.
  intros Ht Hs Hp Hm. unfold start.
  pose proof (quiet_world initialize s) as Q. unfold sbind at 1. destruct (in_world initialize s) as [[u|e] s1]; simpl in Q |- *.
  - destruct Q as (Qm & Qt & Qs). unfold sbind, smodify.
    set (s2 := sc_set_maxcount _ s1). assert (counted s2) as Hc.
    { split; simpl; [by rewrite Qt, Qs, Ht, Hs|]. intros c. rewrite Qm, Hm. simpl. intros [= <-] _. lia. }
    destruct (count_rounds n s2 Hc) as [<- Hb]. apply Hb; [|done].
    destruct (rounds_counted n s2) as [-> _]. simpl. by rewrite Qm, Hm.
  - destruct Q as (_ & _ & ->). rewrite Hs. unfold zlen. simpl. lia.
Qed.

(** ** A task that is started again *)

(** The loop variable is not reset: when the limit is not reached and no machine is free
    any more at the second look, the task of the turn before is started again; in the first
    such turn the variable is unbound, which is an error. *)
Theorem stale_task_restarted s :
  let s1 := (interfere s).2 in let s2 := (interfere s1).2 in
  limit_reached s1 = false ->
  (get_available_machines (an_db (sc_world s2))).1 = Ok [] ->
  match sc_task s with
  | Some (Some t) => exists s', serve s = (Ok tt, s') /\ sc_started s' = sc_started s ++ [t]
  | Some None => exists s', serve s = (Ok tt, s') /\ sc_started s' = sc_started s
  | None => exists s', serve s = (Raise NameError, s')
  end.
Proof.
  intros s1 s2 Hl Hf.
  set (s3 := sc_set_world (an_set_db (get_available_machines (an_db (sc_world s2))).2 (sc_world s2)) s2).
  assert (serve s = start_task s3) as ->.
  { unfold serve. rewrite (sbind_ok interfere _ s tt s1) by done. unfold sbind at 1, sget. rewrite Hl.
    rewrite (sbind_ok (after _) _ s1 [] s3); [done|]. unfold after. rewrite (sbind_ok interfere _ s1 tt s2) by done.
    unfold in_world, on_db, s3. destruct (get_available_machines _) as [r d]. by simplify_eq/=. }
  unfold start_task, sbind, sget. assert (sc_task s3 = sc_task s) as -> by done.
  destruct (sc_task s) as [[t|]|]; eexists; split; done.
Qed.

(** ** No machine *)

Definition all_locked (d : Database) : Prop := forall i m, machines d !! i = Some m -> m_locked m = true.

Lemma all_locked_none d r d' :
  all_locked d -> count_machines_available d = (r, d') -> r = Ok 0 /\ machines d' = machines d.
Proof.
  intros Hl E. unfold count_machines_available in E. sql_run; split; try done. do 2 f_equal.
  assert (select is_free (ticks d) (machines d) = []) as ->; [|done].
  apply select_nil. intros i m Hm. unfold is_free. by rewrite (Hl _ _ Hm).
Qed.

Lemma running_machines d r d' : list_machines true "" [] d = (r, d') -> machines d' = machines d.
Proof. unfold list_machines. intros E. by sql_run. Qed.

(** No thread unlocks a machine or adds one, and nobody sends a signal. *)
Definition stuck_threads : Prop :=
  (forall n h, all_locked (sh_db h) -> all_locked (sh_db (meanwhile n h))) /\ forall n, sighup n = false.

(** Nothing happens but time. *)
Definition idle (s s' : scheduler) : Prop :=
  all_locked (an_db (sc_world s')) /\ sc_running s' = sc_running s /\ sc_started s' = sc_started s /\ sc_total s' = sc_total s.

Lemma idle_trans s1 s2 s3 : idle s1 s2 -> idle s2 s3 -> idle s1 s3.
Proof. intros (? & ? & ? & ?) (? & ? & ? & ?). unfold idle. split_and!; [done|congruence..]. Qed.

Lemma interfere_idle (Hs : stuck_threads) s :
  all_locked (an_db (sc_world s)) -> idle s (interfere s).2.
Proof.
  intros Hl. destruct Hs as [Hm Hh]. unfold idle, interfere. simpl. rewrite Hh, andb_true_r.
  split_and!; try done. by apply Hm.
Qed.

(** A query, which returns or raises, that leaves the machines alone. *)
Lemma query_idle {A} (Hs : stuck_threads) (m : Z -> st Database A) s r s' :
  all_locked (an_db (sc_world s)) -> (forall t d r d', m t d = (r, d') -> machines d' = machines d) ->
  after (on_db m) s = (r, s') ->
  idle s s' /\ exists t d, all_locked d /\ (m t d).1 = r.
Proof.
  intros Hl Hm E. pose proof (interfere_idle Hs s Hl) as I. unfold after in E.
  rewrite (sbind_ok interfere _ s tt (interfere s).2) in E by done. destruct I as (L & R & S & T).
  unfold in_world, on_db in E.
  destruct (m _ _) as [r' d] eqn:Em. simplify_eq/=. apply Hm in Em as Ed. split.
  - unfold idle. simpl. split_and!; try done. unfold all_locked. by rewrite Ed.
  - eexists _, _. split; [|by rewrite Em]. done.
Qed.

Lemma limit_idle (Hs : stuck_threads) s r s' :
  all_locked (an_db (sc_world s)) ->
  (if 0 <? max_machines_count
   then let* ms := after running in sret (max_machines_count <=? zlen ms)
   else sret false) s = (r, s') -> idle s s'.
Proof.
  intros Hl E. destruct (0 <? max_machines_count); [|unfold sret in E; by simplify_eq].
  apply sbind_inv in E as [(ms & s1 & E1 & E)|(e & E1 & ->)];
    apply (query_idle Hs (fun _ => list_machines true "" [])) in E1 as [I _]; try done;
    try (intros t d r0 d' E0; by apply running_machines in E0).
  unfold sret in E. by simplify_eq.
Qed.

Lemma round_idle (Hs : stuck_threads) s : all_locked (an_db (sc_world s)) -> idle s (round s).2.
Proof.
  intros Hl. destruct (round s) as [r s'] eqn:E. simpl. unfold round in E.
  pose proof (interfere_idle Hs s Hl) as I.
  rewrite (sbind_ok interfere _ s tt (interfere s).2) in E by done. set (s1 := (interfere s).2) in *.
  unfold sbind at 1, sget in E.
  destruct (an_lock _); [unfold sret in E; by simplify_eq|].
  destruct (_ && _); [unfold sret in E; by simplify_eq|].
  apply (idle_trans _ s1); [done|]. clear I.
  assert (all_locked (an_db (sc_world s1))) as Hl1 by (by apply interfere_idle).
  apply sbind_inv in E as [(many & s2 & E2 & E)|(e & E2 & ->)].
  - apply limit_idle in E2 as I2; [|done..]. destruct many; [unfold sret in E; by simplify_eq|].
    apply (idle_trans _ s2); [done|]. assert (all_locked (an_db (sc_world s2))) as Hl2 by apply I2.
    apply sbind_inv in E as [(n & s3 & E3 & E)|(e & E3 & ->)];
      apply (query_idle Hs (fun _ => count_machines_available)) in E3 as [I3 (t & d & Hd & En)]; try done;
      try (intros t0 d0 r0 d0' E0; by apply count_available_machines in E0).
    destruct (count_machines_available d) as [r1 d1] eqn:Ec. apply all_locked_none in Ec as [-> _]; [|done].
    simplify_eq/=. unfold sret in E. by simplify_eq.
  - by eapply limit_idle.
Qed.

Lemma rounds_idle (Hs : stuck_threads) n s : all_locked (an_db (sc_world s)) -> idle s (rounds n s).2.
Proof.
  revert s. induction n as [|n IH]; intros s Hl; [by unfold idle|]. cbn [rounds].
  unfold sbind at 1, sget. destruct (sc_running s); [|by unfold idle]. unfold sbind.
  pose proof (round_idle Hs s Hl) as I. destruct (round s) as [[u|e] s1]; [|done].
  apply (idle_trans _ s1); [done|]. apply IH, I.
Qed.

(** Without a free machine the loop goes on: while every machine stays locked, as a
    machine given up as dead does, the loop neither starts an analysis nor stops, even when
    the limit is reached and no analysis is active. *)
Theorem no_machine_no_stop (Hs : stuck_threads) n s :
  all_locked (an_db (sc_world s)) -> sc_running s = true ->
  sc_running (rounds n s).2 = true /\ sc_started (rounds n s).2 = sc_started s.
Proof. intros Hl Hr. destruct (rounds_idle Hs n s Hl) as (_ & -> & -> & _). done. Qed.

End loop.

(** ** Witnesses *)

Definition loop_config (limit : Z) : LoopConfig := {|
  max_analysis_count := limit; max_machines_count := 10; freespace := true; manager_conf := true;
  machine_ids := ["win7"%string]; manager_options := {[ "interface"%string := "virbr0"%string ]};
  machine_sections := {[ "win7"%string := {[ "label"%string := "win7"%string; "platform"%string := "windows"%string;
                                              "ip"%string := "192.168.1.2"%string; "arch"%string := "x64"%string ]} ]};
  rs_address := ("192.168.1.1"%string, "2042"%string) |}.

(** The threads do nothing while the loop runs. *)
Definition still : Threads := {| meanwhile := fun _ h => h; sighup := fun _ => false; need_space := fun _ => false |}.

(** A thread takes the machine just before the loop looks for it again. *)
Definition racing : Threads := {|
  meanwhile := fun n h => if bool_decide (n = 1%nat)
    then {| sh_db := set_machines (fmap (set_lock true 1)) (sh_db h); sh_lock := sh_lock h;
            sh_active := sh_active h; sh_errors := sh_errors h |}
    else h;
  sighup := fun _ => false; need_space := fun _ => false |}.

Definition new_scheduler (d : Database) : scheduler := {|
  sc_world := new_analysis d ∅ 0 (example_task 1 1 None None [] TASK_PENDING);
  sc_running := true; sc_maxcount := None; sc_total := 0; sc_active := 0; sc_errors := []; sc_task := None;
  sc_started := [] |}.

(** The machine of the configuration takes the urgent task of its own label. *)
Definition pinned_queue : Database :=
  {| machines := ∅; tasks := {[ 2 := example_task 2 20 (Some "win7"%string) (Some ""%string) ["x64"%string] TASK_PENDING ]};
     samples := ∅; guests := ∅; errors := ∅; ticks := 0 |}.

Example one_started :
  let B := always_fine in let O := calm in let S := plain_settings in let L := loop_config 1 in let T := still in
  (sc_started (start 3 (new_scheduler pinned_queue)).2).*1 = [2] /\
  sc_running (start 1 (new_scheduler pinned_queue)).2 = true /\
  sc_running (start 3 (new_scheduler pinned_queue)).2 = false.
Proof. vm_compute. split_and!; reflexivity. Qed.

Lemma scheduler_respects_limit_witness :
  let B := always_fine in let O := calm in let S := plain_settings in let L := loop_config 1 in let T := still in
  zlen (sc_started (start 3 (new_scheduler pinned_queue)).2) <= max_analysis_count.
Proof.
  intros B O S L T. apply (scheduler_respects_limit 3 (new_scheduler pinned_queue)); reflexivity.
Defined.

Definition started_before : Z * Task := (2, example_task 2 20 (Some "win7"%string) (Some ""%string) ["x64"%string] TASK_RUNNING).

Lemma stale_task_restarted_witness :
  let B := always_fine in let O := calm in let S := plain_settings in let L := loop_config 0 in let T := racing in
  let s := sc_set_task (Some started_before) (new_scheduler example_queue) in
  exists s', serve s = (Ok tt, s') /\ sc_started s' = [] ++ [started_before].
Proof.
  intros B O S L T s. apply (stale_task_restarted s); vm_compute; reflexivity.
Defined.

Lemma no_machine_no_stop_witness :
  let B := always_fine in let O := calm in let S := plain_settings in let L := loop_config 1 in let T := still in
  let s := sc_start_one started_before (sc_set_maxcount (Some 1) (new_scheduler pinned_queue)) in
  sc_running (rounds 50 s).2 = true /\ sc_started (rounds 50 s).2 = [started_before].
Proof.
  intros B O S L T s. apply (no_machine_no_stop ltac:(by split) 50 s); [|reflexivity].
  intros i m Hm. simpl in Hm. by rewrite lookup_empty in Hm.
Defined.
