(* ===== verification/Rooter.v ===== *)
(** The root service that changes the packet filter for the scheduler: utils/rooter.py. *)
From S2P Require Import Prelude Machinery.
Open Scope Z_scope.

(** ** The packet filter *)

(** A rule is the list of its arguments as the kernel keeps it; a chain has a
    table and a name, and its rules are in order. *)
Abbreviation rule := (list string).
Abbreviation chain := (string * string)%type.
Abbreviation tables := (gmap chain (list rule)).

Inductive action := Append | Insert | Delete.

Definition action_of (s : string) : option action :=
  if bool_decide (s = "-A"%string) then Some Append
  else if bool_decide (s = "-I"%string) then Some Insert
  else if bool_decide (s = "-D"%string) then Some Delete
  else None.

(** The commands that this program gives: the table comes first or after the
    chain, and is [filter] when it is not named. *)
Definition reading (args : list string) : option (action * chain * list string) :=
  match args with
  | f :: t :: rest =>
      if bool_decide (f = "-t"%string) then
        match rest with
        | act :: ch :: spec => a ← action_of act; Some (a, (t, ch), spec)
        | _ => None
        end
      else
        match rest with
        | f2 :: tab :: spec =>
            if bool_decide (f2 = "-t"%string) then a ← action_of f; Some (a, (tab, t), spec)
            else a ← action_of f; Some (a, ("filter"%string, t), f2 :: tab :: spec)
        | _ => a ← action_of f; Some (a, ("filter"%string, t), rest)
        end
  | _ => None
  end.

Fixpoint remove_first (r : rule) (l : list rule) : list rule :=
  match l with
  | [] => []
  | x :: l' => if decide (x = r) then l' else x :: remove_first r l'
  end.

(** What a command does; [None] is an error: the chain does not exist, or there
    is no such rule to delete. *)
Definition effect (a : action) (c : chain) (r : rule) (t : tables) : option tables :=
  l ← t !! c;
  match a with
  | Append => Some (<[c := l ++ [r]]> t)
  | Insert => Some (<[c := r :: l]> t)
  | Delete => if decide (r ∈ l) then Some (<[c := remove_first r l]> t) else None
  end.

(** The programs that are run. [accepts] says which rules iptables understands, and [norm] is how the kernel writes down the arguments
    of a rule; [filter_run] is iptables: its error output and the tables after
    it; [filter_save] are the lines of iptables-save and [filter_restore] reads
    them; [spawn] says whether a program can be started; [program] is the output
    of any other one, and [status] its exit status. *)
Class Programs := {
  iptables_path : string; iptables_save : string; iptables_restore : string; ip_path : string; systemctl : string;
  accepts : list string -> bool;
  norm : list string -> rule;
  filter_run : list string -> tables -> string * tables;
  filter_save : tables -> string;
  filter_restore : string -> tables -> tables;
  spawn : nat -> list string -> option exn;
  program : nat -> list string -> string * string;
  status : nat -> list string -> bool }.

(** What follows [-j] in the arguments of a rule, and whether they have the
    comment of this program. *)
Fixpoint jump (spec : list string) : option string :=
  match spec with
  | f :: (x :: _) as rest => if decide (f = "-j"%string) then Some x else jump rest
  | _ => None
  end.
Definition has_comment (spec : list string) : bool := bool_decide ("CAPE-rooter"%string ∈ spec).

(** The documented behaviour of iptables, for the commands of this program: what
    a command does, and that a rule keeps its target and its comment. *)
Class FilterLaws `{Programs} := {
  target : rule -> option string;
  commented : rule -> bool;
  norm_target spec : accepts spec = true -> target (norm spec) = jump spec;
  norm_comment spec : accepts spec = true -> commented (norm spec) = has_comment spec;
  filter_law args t a c spec : reading args = Some (a, c, spec) ->
    match (if accepts spec then effect a c (norm spec) t else None) with
    | Some t' => filter_run args t = (EmptyString, t')
    | None => exists err, err <> EmptyString /\ filter_run args t = (err, t)
    end }.

(** The tables, and the other commands that were run. *)
Record host := { h_tables : tables; h_ran : list (list string); h_clock : nat }.

Definition h_set_tables (t : tables) (h : host) : host :=
  {| h_tables := t; h_ran := h_ran h; h_clock := S (h_clock h) |}.
Definition h_log (args : list string) (h : host) : host :=
  {| h_tables := h_tables h; h_ran := h_ran h ++ [args]; h_clock := S (h_clock h) |}.

Section rooter.
Context `{Programs}.

(** [Popen] of a program; the arguments of the packet filter change the tables. *)
Definition run (args : list string) : st host (string * string) := fun h =>
  match spawn (h_clock h) args with
  | Some e => (Raise e, h)
  | None =>
      match args with
      | [] => (Raise IndexError, h)
      | p :: args' =>
          if bool_decide (p = iptables_path) then
            let '(err, t) := filter_run args' (h_tables h) in (Ok (EmptyString, err), h_set_tables t h)
          else (Ok (program (h_clock h) args), h_log args h)
      end
  end.

Definition rooter_comment : list string := ["-m"; "comment"; "--comment"; "CAPE-rooter"]%string.

Definition run_iptables (args : list string) : st host (string * string) :=
  run (iptables_path :: args ++ rooter_comment).

(** A command whose output is not used. *)
Definition ipt (args : list string) : st host unit := do* run_iptables args in sret tt.
Definition ip_ (args : list string) : st host unit := do* run (ip_path :: args) in sret tt.

(** [subprocess.check_call], with its [CalledProcessError] as [false]. *)
Definition check_call (args : list string) : st host bool := fun h =>
  match spawn (h_clock h) args with
  | Some e => (Raise e, h)
  | None => (Ok (status (h_clock h) args), h_log args h)
  end.

(** [run] is given one list, which cannot be joined into the log line. *)
Definition check_tuntap (vm_name main_iface : string) : st host bool := sraise TypeError.

Definition mentions_rooter (l : string) : bool := str_contains "CAPE-rooter" l.

(** The lines of a text, without the empty ones. *)
Definition full_lines (s : string) : list string :=
  filter (fun l => l <> EmptyString) (split_on NL s).

(** [except OSError] also covers the start of iptables-save alone. *)
Definition cleanup_rooter : st host unit :=
  let* out := scatch (fun h => match spawn (h_clock h) [iptables_save] with
                               | Some e => (Raise e, h)
                               | None => (Ok (Some (filter_save (h_tables h))), h_log [iptables_save] h) end)
                (fun e => if decide (e = OSError) then Some (sret None) else None) in
  match out with
  | None => sret tt
  | Some s =>
      if bool_decide (s = EmptyString) then sret tt
      else
        let cleaned := filter (fun l => mentions_rooter l = false) (full_lines s) in
        fun h => match spawn (h_clock h) [iptables_restore] with
                 | Some e => (Raise e, h)
                 | None => (Ok tt, h_set_tables (filter_restore (String.concat (text [NL]) cleaned) (h_tables h)) h)
                 end
  end.

Definition nic_available (interface : string) : st host bool := check_call [ip_path; "link"; "show"; interface]%string.
Definition rt_available (rt_table : string) : st host bool := check_call [ip_path; "route"; "list"; "table"; rt_table]%string.

(** The names that are running: one or none. *)
Definition vpn_status (name : string) : st host (list string) :=
  let* out := run [systemctl; "status"; ("openvpn@" +:+ name +:+ ".service")]%string in
  sret (if existsb (str_contains "running") (split_on NL out.1) then [name] else []).

Definition forward_drop : st host unit := ipt ["-P"; "FORWARD"; "DROP"]%string.

Definition established : list string := ["-m"; "state"; "--state"; "ESTABLISHED,RELATED"; "-j"; "ACCEPT"]%string.
Definition state_enable : st host unit := ipt (["-A"; "INPUT"]%string ++ established).

(** The loop deletes until a deletion fails. *)
Fixpoint state_loop (fuel : nat) : st host unit :=
  match fuel with
  | O => sraise OutOfFuel
  | S fuel' =>
      let* out := run_iptables (["-D"; "INPUT"]%string ++ established) in
      if bool_decide (out.2 <> EmptyString) then sret tt else state_loop fuel'
  end.

(** One round more than there are rules in the chain. *)
Definition state_disable : st host unit := fun h =>
  state_loop (S (length (default [] (h_tables h !! ("filter", "INPUT")%string)))) h.

Definition masquerade (interface : string) : list string := ["POSTROUTING"; "-o"; interface; "-j"; "MASQUERADE"]%string.
Definition enable_nat (interface : string) : st host unit := ipt (["-t"; "nat"; "-A"]%string ++ masquerade interface).
Definition disable_nat (interface : string) : st host unit := ipt (["-t"; "nat"; "-D"]%string ++ masquerade interface).

Definition reserved_tables : list string := ["local"; "main"; "default"]%string.

Fixpoint add_routes (ls : list string) (interface rt_table : string) : st host unit :=
  match ls with
  | [] => sret tt
  | l :: ls' =>
      do* ip_ (["route"; "add"]%string ++ filter (fun x => x <> EmptyString) (split_on " "%char l)
               ++ ["dev"; interface; "table"; rt_table]%string) in
      add_routes ls' interface rt_table
  end.

Definition init_rttable (rt_table interface : string) : st host unit :=
  if decide (rt_table ∈ reserved_tables) then sret tt
  else
    let* out := run [ip_path; "route"; "list"; "dev"; interface]%string in
    add_routes (split_on NL out.1) interface rt_table.

Definition flush_rttable (rt_table : string) : st host unit :=
  if decide (rt_table ∈ reserved_tables) then sret tt
  else ip_ ["route"; "flush"; "table"; rt_table]%string.

(** The rules that are switched: chain and arguments. *)
Definition forward_rule (i o flag ipaddr : string) : list string :=
  ["FORWARD"; "-i"; i; "-o"; o; flag; ipaddr; "-j"; "ACCEPT"]%string.

Definition forward_enable (src dst ipaddr : string) : st host unit :=
  do* ipt ["-D"; "FORWARD"; "-i"; src; "-j"; "REJECT"]%string in
  do* ipt ["-D"; "FORWARD"; "-o"; src; "-j"; "REJECT"]%string in
  do* ipt ("-I"%string :: forward_rule src dst "--source" ipaddr) in
  ipt ("-I"%string :: forward_rule dst src "--destination" ipaddr).

Definition forward_disable (src dst ipaddr : string) : st host unit :=
  do* ipt ("-D"%string :: forward_rule src dst "--source" ipaddr) in
  ipt ("-D"%string :: forward_rule dst src "--destination" ipaddr).

Definition srcroute_enable (rt_table ipaddr : string) : st host unit :=
  do* ip_ ["rule"; "add"; "from"; ipaddr; "table"; rt_table]%string in
  ip_ ["route"; "flush"; "cache"]%string.
Definition srcroute_disable (rt_table ipaddr : string) : st host unit :=
  do* ip_ ["rule"; "del"; "from"; ipaddr; "table"; rt_table]%string in
  ip_ ["route"; "flush"; "cache"]%string.

Definition dns_rule (proto vm_ip dns_ip dns_port : string) : list string :=
  ["PREROUTING"; "-p"; proto; "--dport"; "53"; "--source"; vm_ip; "-j"; "DNAT"; "--to-destination";
   dns_ip +:+ ":" +:+ dns_port]%string.
Definition dns_forward (action vm_ip dns_ip dns_port : string) : st host unit :=
  do* ipt (["-t"; "nat"; action]%string ++ dns_rule "tcp" vm_ip dns_ip dns_port) in
  ipt (["-t"; "nat"; action]%string ++ dns_rule "udp" vm_ip dns_ip dns_port).

Definition isdigit (s : bytes) : bool :=
  bool_decide (s <> []) && forallb (fun c => match digit_val c with Some _ => true | None => false end) s.

(** One entry of the port list, if it is well formed. *)
Definition port_pair (entry : bytes) : option (string * string) :=
  match split_byte COLON entry with
  | [a; b] => if isdigit a && isdigit b then Some (text a, text b) else None
  | _ => None
  end.

Definition redirect_rule (srcip dstip : string) (p : string * string) : list string :=
  ["PREROUTING"; "--source"; srcip; "-p"; "tcp"; "--syn"; "--dport"; p.1; "-j"; "DNAT"; "--to-destination";
   dstip +:+ ":" +:+ p.2]%string.

Fixpoint redirect_all (action srcip dstip : string) (ps : list (string * string)) : st host unit :=
  match ps with
  | [] => sret tt
  | p :: ps' =>
      do* run (iptables_path :: ["-t"; "nat"; action]%string ++ redirect_rule srcip dstip p) in
      redirect_all action srcip dstip ps'
  end.

(** Invalid entries are skipped. *)
Definition inetsim_redirect_port (action srcip dstip ports : string) : st host unit :=
  redirect_all action srcip dstip (omap port_pair (split_ws (B ports))).

Definition capture_spec (ipaddr resultserver_port : string) (target : list string) : list string :=
  ["--source"; ipaddr; "-p"; "tcp"; "--syn"; "!"; "--dport"; resultserver_port; "-j"]%string ++ target.
Definition invalid_conntrack : list string := ["-m"; "conntrack"; "--ctstate"; "INVALID"; "-j"; "DROP"]%string.
Definition invalid_state : list string := ["-m"; "state"; "--state"; "INVALID"; "-j"; "DROP"]%string.
Definition drop_source (ipaddr : string) : list string := ["--source"; ipaddr; "-j"; "DROP"]%string.

Definition inetsim_enable (ipaddr inetsim_ip dns_port resultserver_port ports : string) : st host unit :=
  do* inetsim_redirect_port "-A" ipaddr inetsim_ip ports in
  do* ipt (["-t"; "nat"; "-I"; "PREROUTING"]%string
           ++ capture_spec ipaddr resultserver_port ["DNAT"; "--to-destination"; inetsim_ip]%string) in
  do* ipt (["-A"; "OUTPUT"]%string ++ invalid_conntrack) in
  do* ipt (["-A"; "OUTPUT"]%string ++ invalid_state) in
  do* dns_forward "-A" ipaddr inetsim_ip dns_port in
  ipt (["-A"; "OUTPUT"]%string ++ drop_source ipaddr).

Definition inetsim_disable (ipaddr inetsim_ip dns_port resultserver_port ports : string) : st host unit :=
  do* inetsim_redirect_port "-D" ipaddr inetsim_ip ports in
  do* ipt (["-D"; "PREROUTING"; "-t"; "nat"]%string
           ++ capture_spec ipaddr resultserver_port ["DNAT"; "--to-destination"; inetsim_ip]%string) in
  do* ipt (["-D"; "OUTPUT"]%string ++ invalid_conntrack) in
  do* ipt (["-D"; "OUTPUT"]%string ++ invalid_state) in
  do* dns_forward "-D" ipaddr inetsim_ip dns_port in
  ipt (["-D"; "OUTPUT"]%string ++ drop_source ipaddr).

Definition dns_redirect (proto ipaddr dns_port : string) : list string :=
  ["PREROUTING"; "-p"; proto; "--dport"; "53"; "--source"; ipaddr; "-j"; "REDIRECT"; "--to-ports"; dns_port]%string.

(** The number stands before the chain. *)
Definition socks5_enable (ipaddr resultserver_port dns_port proxy_port : string) : st host unit :=
  do* ipt (["-t"; "nat"; "-I"; "PREROUTING"]%string
           ++ capture_spec ipaddr resultserver_port ["REDIRECT"; "--to-ports"; proxy_port]%string) in
  do* ipt (["-I"; "1"; "OUTPUT"]%string ++ invalid_conntrack) in
  do* ipt (["-I"; "2"; "OUTPUT"]%string ++ invalid_state) in
  do* ipt (["-t"; "nat"; "-A"]%string ++ dns_redirect "tcp" ipaddr dns_port) in
  do* ipt (["-t"; "nat"; "-A"]%string ++ dns_redirect "udp" ipaddr dns_port) in
  ipt (["-A"; "OUTPUT"]%string ++ drop_source ipaddr).

Definition socks5_disable (ipaddr resultserver_port dns_port proxy_port : string) : st host unit :=
  do* ipt (["-t"; "nat"; "-D"; "PREROUTING"]%string
           ++ capture_spec ipaddr resultserver_port ["REDIRECT"; "--to-ports"; proxy_port]%string) in
  do* ipt (["-D"; "OUTPUT"]%string ++ invalid_conntrack) in
  do* ipt (["-D"; "OUTPUT"]%string ++ invalid_state) in
  do* ipt (["-t"; "nat"; "-D"]%string ++ dns_redirect "tcp" ipaddr dns_port) in
  do* ipt (["-t"; "nat"; "-D"]%string ++ dns_redirect "udp" ipaddr dns_port) in
  ipt (["-D"; "OUTPUT"]%string ++ drop_source ipaddr).

Definition accept_syn (ipaddr port : string) : list string :=
  ["--source"; ipaddr; "-p"; "tcp"; "--syn"; "--dport"; port; "-j"; "ACCEPT"]%string.
Definition accept_to (ipaddr flag port : string) : list string :=
  ["--destination"; ipaddr; "-p"; "tcp"; flag; port; "-j"; "ACCEPT"]%string.
Definition drop_to (ipaddr : string) : list string := ["--destination"; ipaddr; "-j"; "DROP"]%string.

Definition drop_enable (ipaddr resultserver_port : string) : st host unit :=
  do* ipt (["-t"; "nat"; "-I"; "PREROUTING"]%string ++ accept_syn ipaddr resultserver_port) in
  do* ipt (["-A"; "INPUT"]%string ++ accept_to ipaddr "--dport" "8000") in
  do* ipt (["-A"; "INPUT"]%string ++ accept_to ipaddr "--sport" resultserver_port) in
  do* ipt (["-A"; "OUTPUT"]%string ++ accept_to ipaddr "--dport" "8000") in
  do* ipt (["-A"; "OUTPUT"]%string ++ accept_to ipaddr "--sport" resultserver_port) in
  ipt (["-A"; "OUTPUT"]%string ++ drop_to ipaddr).

Definition drop_disable (ipaddr resultserver_port : string) : st host unit :=
  do* ipt (["-t"; "nat"; "-D"; "PREROUTING"]%string ++ accept_syn ipaddr resultserver_port) in
  do* ipt (["-D"; "INPUT"]%string ++ accept_to ipaddr "--dport" "8000") in
  do* ipt (["-D"; "INPUT"]%string ++ accept_to ipaddr "--sport" resultserver_port) in
  do* ipt (["-D"; "OUTPUT"]%string ++ accept_to ipaddr "--dport" "8000") in
  do* ipt (["-D"; "OUTPUT"]%string ++ accept_to ipaddr "--sport" resultserver_port) in
  ipt (["-D"; "OUTPUT"]%string ++ drop_to ipaddr).

(** ** Requests *)

(** A decoded JSON value: numbers are not told apart, and the keys of an object
    are distinct. *)
Inductive json :=
| JNull | JBool (b : bool) | JNum | JStr (s : string) | JList (l : list json) | JObj (o : list (string * json)).

(** What a handler returns. *)
Inductive output := ONone | OBool (b : bool) | ORunning (names : list string).

Definition returns {A} (f : A -> output) (m : st host A) : st host output := let* a := m in sret (f a).
Definition none (m : st host unit) : st host output := returns (fun _ => ONone) m.

(** The handlers, with the names of their parameters. *)
Definition handlers (command : string) : option (list string * (list string -> option (st host output))) :=
  let h0 m := Some ([], fun args => match args with [] => Some m | _ => None end) in
  let h1 a m := Some ([a], fun args => match args with [x] => Some (m x) | _ => None end) in
  let h2 a b m := Some ([a; b], fun args => match args with [x; y] => Some (m x y) | _ => None end) in
  let h3 a b c m := Some ([a; b; c], fun args => match args with [x; y; z] => Some (m x y z) | _ => None end) in
  let h4 a b c d m := Some ([a; b; c; d], fun args => match args with [x; y; z; u] => Some (m x y z u) | _ => None end) in
  let h5 a b c d e m :=
    Some ([a; b; c; d; e], fun args => match args with [x; y; z; u; v] => Some (m x y z u v) | _ => None end) in
  (if bool_decide (command = "nic_available") then h1 "interface" (fun i => returns OBool (nic_available i))
  else if bool_decide (command = "rt_available") then h1 "rt_table" (fun t => returns OBool (rt_available t))
  else if bool_decide (command = "vpn_status") then h1 "name" (fun n => returns ORunning (vpn_status n))
  else if bool_decide (command = "forward_drop") then h0 (none forward_drop)
  else if bool_decide (command = "state_enable") then h0 (none state_enable)
  else if bool_decide (command = "state_disable") then h0 (none state_disable)
  else if bool_decide (command = "enable_nat") then h1 "interface" (fun i => none (enable_nat i))
  else if bool_decide (command = "disable_nat") then h1 "interface" (fun i => none (disable_nat i))
  else if bool_decide (command = "init_rttable") then h2 "rt_table" "interface" (fun t i => none (init_rttable t i))
  else if bool_decide (command = "flush_rttable") then h1 "rt_table" (fun t => none (flush_rttable t))
  else if bool_decide (command = "forward_enable") then h3 "src" "dst" "ipaddr" (fun a b c => none (forward_enable a b c))
  else if bool_decide (command = "forward_disable") then h3 "src" "dst" "ipaddr" (fun a b c => none (forward_disable a b c))
  else if bool_decide (command = "srcroute_enable") then h2 "rt_table" "ipaddr" (fun a b => none (srcroute_enable a b))
  else if bool_decide (command = "srcroute_disable") then h2 "rt_table" "ipaddr" (fun a b => none (srcroute_disable a b))
  else if bool_decide (command = "inetsim_enable") then
    h5 "ipaddr" "inetsim_ip" "dns_port" "resultserver_port" "ports" (fun a b c d e => none (inetsim_enable a b c d e))
  else if bool_decide (command = "inetsim_disable") then
    h5 "ipaddr" "inetsim_ip" "dns_port" "resultserver_port" "ports" (fun a b c d e => none (inetsim_disable a b c d e))
  else if bool_decide (command = "socks5_enable") then
    h4 "ipaddr" "resultserver_port" "dns_port" "proxy_port" (fun a b c d => none (socks5_enable a b c d))
  else if bool_decide (command = "socks5_disable") then
    h4 "ipaddr" "resultserver_port" "dns_port" "proxy_port" (fun a b c d => none (socks5_disable a b c d))
  else if bool_decide (command = "drop_enable") then h2 "ipaddr" "resultserver_port" (fun a b => none (drop_enable a b))
  else if bool_decide (command = "drop_disable") then h2 "ipaddr" "resultserver_port" (fun a b => none (drop_disable a b))
  else if bool_decide (command = "cleanup_rooter") then h0 (none cleanup_rooter)
  else None)%string.

(** [o.get(k)]. *)
Fixpoint key {A} (k : string) (o : list (string * A)) : option A :=
  match o with
  | [] => None
  | (k', v) :: o' => if decide (k' = k) then Some v else key k o'
  end.

(** Python's call: positions first, the other parameters by name. *)
Definition call_handler (h : list string * (list string -> option (st host output)))
    (args : list string) (kwargs : list (string * string)) : st host output :=
  let rest := drop (length args) h.1 in
  let named := omap (fun p => key p kwargs) rest in
  if decide (length args <= length h.1)%nat then
    if decide (length named = length rest /\ length kwargs = length rest) then
      match h.2 (args ++ named) with Some m => m | None => sraise TypeError end
    else sraise TypeError
  else sraise TypeError.

Record reply := { re_output : output; re_exception : option exn }.

Definition as_str (j : json) : option string := match j with JStr s => Some s | _ => None end.

(** A request without its arguments when one of them is no string. *)
Definition string_args (args : list json) (kwargs : list (string * json))
    : option (list string * list (string * string)) :=
  a ← mapM as_str args; k ← mapM (fun p => v ← as_str p.2; Some (p.1, v)) kwargs; Some (a, k).

(** One datagram: [None] did not decode. An object that is no dictionary has no
    [get], which nothing catches; a request that is refused gets no reply. *)
Definition request (obj : option json) : st host (option reply) :=
  match obj with
  | None => sret None
  | Some (JObj o) =>
      match key "command" o with
      | Some (JStr command) =>
          match handlers command with
          | None => sret None
          | Some h =>
              match default (JList []) (key "args" o), default (JObj []) (key "kwargs" o) with
              | JList args, JObj kwargs =>
                  match string_args args kwargs with
                  | None => sret None
                  | Some (args, kwargs) =>
                      scatch (let* out := call_handler h args kwargs in
                              sret (Some {| re_output := out; re_exception := None |}))
                        (fun e => Some (sret (Some {| re_output := ONone; re_exception := Some e |})))
                  end
              | _, _ => sret None
              end
          end
      | _ => sret None
      end
  | Some _ => sraise AttributeError
  end.

(** The datagram that [rooter] of lib/cuckoo/core/rooter.py sends. *)
Definition client_request (c : rooter_cmd) : json :=
  JObj [("command"%string, JStr (rc_name c));
        ("args"%string, JList ((fun a => match a with Some s => JStr s | None => JNull end) <$> rc_args c));
        ("kwargs"%string, JObj [])].

End rooter.

(** ** Commands to the packet filter *)

Section filter.
Context `{FilterLaws}.

(** Every program can be started. *)
Definition spawn_fine : Prop := forall n args, spawn n args = None.

(** Tables after a command: an error changes nothing. *)
Definition after_command (t : tables) (x : action * chain * list string) : tables :=
  if accepts x.2 then default t (effect x.1.1 x.1.2 (norm x.2) t) else t.

Definition after_commands (xs : list (action * chain * list string)) (t : tables) : tables :=
  fold_left after_command xs t.

Lemma after_commands_app xs ys t : after_commands (xs ++ ys) t = after_commands ys (after_commands xs t).
Proof using Type. apply fold_left_app. Qed.

(** [m] gives the commands [xs] and nothing else. *)
Definition gives {A} (xs : list (action * chain * list string)) (m : st host A) : Prop :=
  forall h, exists out h', m h = (Ok out, h') /\ h_tables h' = after_commands xs (h_tables h) /\ h_ran h' = h_ran h.

Lemma filter_reads args t a c spec :
  reading args = Some (a, c, spec) -> (filter_run args t).2 = after_command t (a, c, spec).
Proof.
  intros Hr. pose proof (filter_law args t a c spec Hr) as Hl. unfold after_command. simpl.
  destruct (accepts spec); [destruct (effect a c (norm spec) t)|];
    first [by rewrite Hl|by destruct Hl as (err & _ & ->)].
Qed.

Lemma gives_run (Hs : spawn_fine) args x : reading args = Some x -> gives [x] (run (iptables_path :: args)).
Proof.
  destruct x as [[a c] spec]. intros Hr h. unfold run. rewrite Hs, bool_decide_true by done.
  pose proof (filter_reads args (h_tables h) a c spec Hr) as E.
  destruct (filter_run args (h_tables h)) as [err t]. eexists _, _. split; [done|]. by simpl in *.
Qed.

Lemma gives_bind {A B} xs ys (m : st host A) (k : st host B) : gives xs m -> gives ys k -> gives (xs ++ ys) (do* m in k).
Proof.
  intros Hm Hk h. destruct (Hm h) as (o1 & h1 & E1 & T1 & R1). destruct (Hk h1) as (o2 & h2 & E2 & T2 & R2).
  exists o2, h2. rewrite (sbind_ok _ _ _ _ _ E1). split_and!; [done| |congruence].
  unfold after_commands in *. by rewrite fold_left_app, <- T1.
Qed.

Lemma gives_nil {A} (a : A) : gives [] (sret a).
Proof. intros h. by exists a, h. Qed.

Lemma gives_ipt (Hs : spawn_fine) args x : reading (args ++ rooter_comment) = Some x -> gives [x] (ipt args).
Proof. intros Hr. apply (gives_bind [x] []); [by apply gives_run|apply gives_nil]. Qed.

(** A command of the program, with its comment. *)
Definition ours (a : action) (table ch : string) (spec : list string) : action * chain * list string :=
  (a, (table, ch), spec ++ rooter_comment).

Lemma gives_redirect (Hs : spawn_fine) flag a ip dst ps :
  action_of flag = Some a ->
  gives ((fun p => (a, ("nat", "PREROUTING")%string, tail (redirect_rule ip dst p))) <$> ps) (redirect_all flag ip dst ps).
Proof.
  intros Hf. induction ps as [|p ps IH]; [apply gives_nil|]. cbn [redirect_all fmap list_fmap].
  apply (gives_bind [_]); [|exact IH]. apply (gives_run Hs). cbn. by rewrite Hf.
Qed.

Ltac gives_tac Hs :=
  lazymatch goal with
  | |- gives _ (sbind _ _) => eapply gives_bind; [|gives_tac Hs]; gives_tac Hs
  | |- gives _ (ipt _) => apply (gives_ipt Hs); reflexivity
  | |- gives _ (redirect_all _ _ _ _) => apply (gives_redirect Hs); reflexivity
  | |- gives _ (sret _) => apply gives_nil
  | |- gives _ ?m => unfold_head m; gives_tac Hs
  end
with unfold_head m := lazymatch m with ?f _ => unfold_head f | _ => unfold m end.

(** ** Switches *)

(** The routes that are switched on and off, with their arguments. *)
Inductive route :=
| RDrop (ip port : string)
| RInetsim (ip inetsim_ip dns_port rs_port ports : string)
| RForward (src dst ip : string)
| RNat (interface : string)
| RSocks5 (ip rs_port dns_port proxy_port : string).

Definition switch_on (r : route) : st host unit :=
  match r with
  | RDrop ip port => drop_enable ip port
  | RInetsim ip i d p ports => inetsim_enable ip i d p ports
  | RForward s d ip => forward_enable s d ip
  | RNat i => enable_nat i
  | RSocks5 ip p d x => socks5_enable ip p d x
  end.
Definition switch_off (r : route) : st host unit :=
  match r with
  | RDrop ip port => drop_disable ip port
  | RInetsim ip i d p ports => inetsim_disable ip i d p ports
  | RForward s d ip => forward_disable s d ip
  | RNat i => disable_nat i
  | RSocks5 ip p d x => socks5_disable ip p d x
  end.

(** The rules of a proxy route, and the two that it means to have against invalid packets. *)
Definition socks5_first (ip p x : string) : action * chain * list string :=
  ours Insert "nat" "PREROUTING" (capture_spec ip p ["REDIRECT"; "--to-ports"; x]%string).
Definition socks5_last (ip d : string) : list (action * chain * list string) :=
  [ours Append "nat" "PREROUTING" (tail (dns_redirect "tcp" ip d)); ours Append "nat" "PREROUTING" (tail (dns_redirect "udp" ip d));
   ours Append "filter" "OUTPUT" (drop_source ip)].
Definition invalid_adds : list (action * chain * list string) :=
  [ours Append "filter" "OUTPUT" invalid_conntrack; ours Append "filter" "OUTPUT" invalid_state].

(** The commands that add the rules of a route; the rule number of the proxy route stands
    before the chain, so its rules against invalid packets are never added. *)
Definition additions (r : route) : list (action * chain * list string) :=
  match r with
  | RDrop ip port =>
      [ours Insert "nat" "PREROUTING" (accept_syn ip port);
       ours Append "filter" "INPUT" (accept_to ip "--dport" "8000"); ours Append "filter" "INPUT" (accept_to ip "--sport" port);
       ours Append "filter" "OUTPUT" (accept_to ip "--dport" "8000"); ours Append "filter" "OUTPUT" (accept_to ip "--sport" port);
       ours Append "filter" "OUTPUT" (drop_to ip)]
  | RInetsim ip i d p ports =>
      ((fun x => (Append, ("nat", "PREROUTING")%string, tail (redirect_rule ip i x))) <$> omap port_pair (split_ws (B ports)))
      ++ [ours Insert "nat" "PREROUTING" (capture_spec ip p ["DNAT"; "--to-destination"; i]%string);
          ours Append "filter" "OUTPUT" invalid_conntrack; ours Append "filter" "OUTPUT" invalid_state;
          ours Append "nat" "PREROUTING" (tail (dns_rule "tcp" ip i d)); ours Append "nat" "PREROUTING" (tail (dns_rule "udp" ip i d));
          ours Append "filter" "OUTPUT" (drop_source ip)]
  | RForward s d ip =>
      [ours Insert "filter" "FORWARD" (tail (forward_rule s d "--source" ip));
       ours Insert "filter" "FORWARD" (tail (forward_rule d s "--destination" ip))]
  | RNat i => [ours Append "nat" "POSTROUTING" (tail (masquerade i))]
  | RSocks5 ip p d x => socks5_first ip p x :: socks5_last ip d
  end.

(** Deleting what a command adds. *)
Definition undo (x : action * chain * list string) : action * chain * list string := (Delete, x.1.2, x.2).

(** The rules that a switch tries to delete first. *)
Definition rejects (r : route) : list (action * chain * list string) :=
  match r with
  | RForward s _ _ => [ours Delete "filter" "FORWARD" ["-i"; s; "-j"; "REJECT"]%string;
                       ours Delete "filter" "FORWARD" ["-o"; s; "-j"; "REJECT"]%string]
  | _ => []
  end.

Lemma gives_eq {A} xs ys (m : st host A) : gives xs m -> xs = ys -> gives ys m.
Proof. by intros ? <-. Qed.

(** The commands of the two switches of a route. *)
Definition on_commands (r : route) : list (action * chain * list string) :=
  match r with
  | RSocks5 ip p d x =>
      socks5_first ip p x :: ours Insert "filter" "1" ("OUTPUT"%string :: invalid_conntrack)
      :: ours Insert "filter" "2" ("OUTPUT"%string :: invalid_state) :: socks5_last ip d
  | _ => rejects r ++ additions r
  end.
Definition off_commands (r : route) : list (action * chain * list string) :=
  match r with
  | RSocks5 ip p d x => undo <$> (socks5_first ip p x :: invalid_adds ++ socks5_last ip d)
  | _ => undo <$> additions r
  end.

Lemma switch_on_gives (Hs : spawn_fine) r : gives (on_commands r) (switch_on r).
Proof. destruct r; simpl switch_on; (eapply gives_eq; [gives_tac Hs|]); simpl; by rewrite ?app_nil_r. Qed.

Lemma switch_off_gives (Hs : spawn_fine) r : gives (off_commands r) (switch_off r).
Proof.
  destruct r; simpl switch_off; (eapply gives_eq; [gives_tac Hs|]); try reflexivity.
  simpl. rewrite fmap_app, <- list_fmap_compose. simpl. reflexivity.
Qed.

(** ** The rules in force *)

(** The rules of [active] that stand in [c]. *)
Definition rules_in (c : chain) (active : list (chain * rule)) : list rule := (filter (fun x => x.1 = c) active).*2.

#[local] Instance rules_in_proper c : Proper ((≡ₚ) ==> (≡ₚ)) (rules_in c).
Proof. intros l l' Hl. unfold rules_in. by rewrite Hl. Qed.

(** Every chain of [t] has the rules of [base] and those of [active], in some order. *)
Definition holds (base : tables) (active : list (chain * rule)) (t : tables) : Prop :=
  forall c, match base !! c, t !! c with
            | Some l0, Some l => l ≡ₚ l0 ++ rules_in c active
            | None, None => True
            | _, _ => False
            end.

#[local] Instance holds_proper base : Proper ((≡ₚ) ==> (=) ==> iff) (holds base).
Proof.
  intros a a' Ha t t' <-. split; intros Hh c; specialize (Hh c); destruct (base !! c), (t !! c); try done.
  - by rewrite <- Ha.
  - by rewrite Ha.
Qed.

Lemma holds_base base : holds base [] base.
Proof. intros c. destruct (base !! c) as [l|]; [|done]. unfold rules_in. by rewrite app_nil_r. Qed.

Lemma rules_in_cons c x active : rules_in c (x :: active) = if decide (x.1 = c) then x.2 :: rules_in c active else rules_in c active.
Proof. unfold rules_in. rewrite filter_cons. by case_decide. Qed.

Lemma rules_in_elem c r active : r ∈ rules_in c active <-> (c, r) ∈ active.
Proof.
  unfold rules_in. rewrite list_elem_of_fmap. split.
  - intros ([c' r'] & -> & Hin). apply list_elem_of_filter in Hin as [Hc Hin]. simpl in *. by subst.
  - intros Hin. exists (c, r). split; [done|]. by apply list_elem_of_filter.
Qed.

Lemma remove_first_Permutation r l : r ∈ l -> l ≡ₚ r :: remove_first r l.
Proof.
  induction l as [|x l IH]; intros Hin; [by apply not_elem_of_nil in Hin|]. simpl. case_decide as Hx; [by subst|].
  apply elem_of_cons in Hin as [->|Hin]; [done|]. rewrite (IH Hin) at 1. constructor.
Qed.

(** Adding a rule, at either end of its chain. *)
Lemma holds_add base active t a c spec :
  holds base active t -> is_Some (base !! c) -> accepts spec = true -> a <> Delete ->
  holds base ((c, norm spec) :: active) (after_command t (a, c, spec)).
Proof.
  intros Hh [l0 Hl0] Hacc Ha. unfold after_command, effect. simpl. rewrite Hacc.
  pose proof (Hh c) as Hc. rewrite Hl0 in Hc. destruct (t !! c) as [l|] eqn:Hl; [|done]. simpl.
  assert (exists l', l' ≡ₚ norm spec :: l /\ default t (match a with
      | Append => Some (<[c := l ++ [norm spec]]> t) | Insert => Some (<[c := norm spec :: l]> t)
      | Delete => if decide (norm spec ∈ l) then Some (<[c := remove_first (norm spec) l]> t) else None end)
      = <[c := l']> t) as (l' & Hl' & ->).
  { destruct a; [exists (l ++ [norm spec])|exists (norm spec :: l)|done]; (split; [|done]); [|done].
    by rewrite Permutation_app_comm. }
  intros c'. specialize (Hh c'). rewrite rules_in_cons. simpl. destruct (decide (c = c')) as [<-|Hne].
  - rewrite lookup_insert_eq, Hl0, Hl', Hc. by rewrite Permutation_middle.
  - by rewrite lookup_insert_ne by done.
Qed.

(** Deleting a rule that is in force. *)
Lemma holds_delete base active t a c spec :
  holds base ((c, norm spec) :: active) t -> accepts spec = true ->
  holds base active (after_command t (undo (a, c, spec))).
Proof.
  intros Hh Hacc. unfold after_command, effect, undo. simpl. rewrite Hacc. pose proof (Hh c) as Hc.
  rewrite rules_in_cons in Hc. simpl in Hc. rewrite decide_True in Hc by done.
  destruct (t !! c) as [l|] eqn:Hl; simpl.
  - destruct (base !! c) as [l0|] eqn:Hl0; [|done].
    assert (norm spec ∈ l) as Hin by (rewrite Hc; set_solver). rewrite decide_True by done. simpl.
    intros c'. specialize (Hh c'). rewrite rules_in_cons in Hh. simpl in Hh. destruct (decide (c = c')) as [<-|Hne].
    + rewrite lookup_insert_eq, Hl0. apply (inj (cons (norm spec))).
      rewrite <- remove_first_Permutation by done. by rewrite Hc, Permutation_middle.
    + by rewrite lookup_insert_ne by done.
  - intros c'. specialize (Hh c'). rewrite rules_in_cons in Hh. simpl in Hh.
    destruct (decide (c = c')) as [<-|Hne]; [|done]. rewrite Hl in *. by destruct (base !! c).
Qed.

(** Deleting a rule that is not there. *)
Lemma holds_delete_absent base active t c spec :
  holds base active t ->
  (accepts spec = true -> (forall l, base !! c = Some l -> norm spec ∉ l) /\ (c, norm spec) ∉ active) ->
  after_command t (Delete, c, spec) = t.
Proof.
  intros Hh Ha. unfold after_command, effect. simpl. destruct (accepts spec); [|done]. destruct (Ha eq_refl) as [Hb Hn].
  specialize (Hh c). destruct (t !! c) as [l|]; [|done]. simpl. destruct (base !! c) as [l0|]; [|done].
  rewrite decide_False; [done|]. rewrite Hh, elem_of_app, rules_in_elem. intros [?|?]; [by eapply Hb|done].
Qed.

(** The rule that a command adds, and its chain. *)
Definition placed (x : action * chain * list string) : chain * rule := (x.1.2, norm x.2).

Definition addable (base : tables) (x : action * chain * list string) : Prop :=
  is_Some (base !! x.1.2) /\ accepts x.2 = true /\ x.1.1 <> Delete.

Lemma holds_adds base active t xs :
  holds base active t -> Forall (addable base) xs -> holds base ((placed <$> xs) ++ active) (after_commands xs t).
Proof.
  intros Hh Hx. revert active t Hh. induction Hx as [|[[a c] spec] xs (Hb & Hacc & Ha) Hx IH]; intros active t Hh; [done|].
  csimpl. rewrite (Permutation_middle (placed <$> xs)). apply IH. by apply holds_add.
Qed.

Lemma holds_deletes base active t xs :
  holds base ((placed <$> xs) ++ active) t -> Forall (fun x => accepts x.2 = true) xs ->
  holds base active (after_commands (undo <$> xs) t).
Proof.
  intros Hh Hx. revert t Hh. induction Hx as [|[[a c] spec] xs Hacc Hx IH]; intros t Hh; [done|].
  csimpl. apply IH. by apply holds_delete.
Qed.

(** The rules of a route, by their chains. *)
Definition route_rules (r : route) : list (chain * rule) := placed <$> additions r.

(** iptables understands the arguments of the route; no interface is called [-j]. *)
Definition route_accepted (r : route) : Prop :=
  Forall (fun x => accepts x.2 = true) (additions r) /\
  match r with RForward s _ _ => s <> "-j"%string | _ => True end.

(** Tables with the built-in chains, and no rule of this program. *)
Definition ready (t : tables) : Prop :=
  Forall (fun c => is_Some (t !! c))
    [("nat", "PREROUTING"); ("nat", "POSTROUTING"); ("filter", "INPUT"); ("filter", "OUTPUT"); ("filter", "FORWARD")]%string.
Definition clean (t : tables) : Prop := forall c l r, t !! c = Some l -> r ∈ l -> commented r = false.

Lemma additions_addable t r : ready t -> route_accepted r -> Forall (addable t) (additions r).
Proof.
  intros Hr [Ha _]. unfold ready in Hr. rewrite !Forall_cons in Hr.
  destruct Hr as (H1 & H2 & H3 & H4 & H5 & _). rewrite Forall_forall in *. intros x Hx. specialize (Ha x Hx).
  unfold addable. destruct r; simpl in Hx; unfold socks5_first, socks5_last, ours in Hx; rewrite ?elem_of_app, ?elem_of_cons, ?list_elem_of_fmap in Hx;
    repeat match goal with E : _ \/ _ |- _ => destruct E as [E|E] end;
    try (destruct Hx as (? & -> & _)); try subst x; try (by apply not_elem_of_nil in Hx); by split_and!.
Qed.

Lemma additions_target r x : x ∈ additions r -> jump x.2 <> Some "REJECT"%string.
Proof.
  intros Hx. destruct r; simpl in Hx; unfold socks5_first, socks5_last, ours in Hx; rewrite ?elem_of_app, ?elem_of_cons, ?list_elem_of_fmap in Hx;
    repeat match goal with E : _ \/ _ |- _ => destruct E as [E|E] end;
    try (destruct Hx as (? & -> & _)); try subst x; try (by apply not_elem_of_nil in Hx);
    simpl; repeat case_decide; try done; by subst.
Qed.

(** What [forward_enable] tries to delete carries the comment of this program, so
    it is never there. *)
Lemma rejects_nothing base act kept t r :
  clean base -> route_accepted r -> Forall route_accepted act -> kept ⊆ act ≫= route_rules -> holds base kept t ->
  after_commands (rejects r) t = t.
Proof.
  intros Hc Hr Ha Hk Hh.
  assert (forall x, x ∈ rejects r -> after_command t x = t) as Hx.
  { intros x Hx. destruct r as [| |s d ip| |]; simpl in Hx; try by apply not_elem_of_nil in Hx. destruct Hr as [_ Hr].
    assert (exists spec, x = (Delete, ("filter", "FORWARD")%string, spec ++ rooter_comment)
                         /\ jump (spec ++ rooter_comment) = Some "REJECT"%string) as (spec & -> & Hj).
    { rewrite !elem_of_cons in Hx. destruct Hx as [->|[->|Hx]]; [| |by apply not_elem_of_nil in Hx];
        eexists; (split; [reflexivity|]); simpl; repeat case_decide; done. }
    apply (holds_delete_absent base kept); [done|]. intros Hacc. split.
    - intros l Hl Hin. apply (Hc _ _ _ Hl) in Hin. rewrite norm_comment in Hin by done.
      unfold has_comment in Hin. apply bool_decide_eq_false in Hin. apply Hin. rewrite elem_of_app. right.
      unfold rooter_comment. set_solver.
    - intros Hin%Hk. apply list_elem_of_bind in Hin as (r' & Hin & Hr'). unfold route_rules in Hin.
      apply list_elem_of_fmap in Hin as (y & E & Hy). unfold placed in E. simplify_eq/=.
      rewrite Forall_forall in Ha. destruct (Ha _ Hr') as [Ha' _]. rewrite Forall_forall in Ha'.
      apply (additions_target _ _ Hy). rewrite <- norm_target by (by apply Ha').
      rewrite <- Hj, <- norm_target by done. congruence. }
  assert (forall xs, (forall x, x ∈ xs -> after_command t x = t) -> after_commands xs t = t) as Hf.
  { induction xs as [|x xs IH]; intros Hxs; [done|]. cbn. rewrite (Hxs x) by set_solver. apply IH. set_solver. }
  by apply Hf.
Qed.

(** One switch: any route may be switched on, and one that is on may be switched off. The
    proxy routes that were switched off are counted. *)
Definition is_proxy (r : route) : bool := match r with RSocks5 _ _ _ _ => true | _ => false end.
Inductive switch_step : relation (list route * nat * host) :=
| step_on r act n h h' :
    route_accepted r -> switch_on r h = (Ok tt, h') -> switch_step (act, n, h) (r :: act, n, h')
| step_off r act act' n h h' :
    act ≡ₚ r :: act' -> switch_off r h = (Ok tt, h') ->
    switch_step (act, n, h) (act', if is_proxy r then S n else n, h').

(** The two rules that switching a proxy route off deletes without having added them. *)
Definition invalid_rules : list (chain * rule) := placed <$> invalid_adds.

(** No chain has the name of a rule number. *)
Definition no_number_chains (t : tables) : Prop :=
  t !! ("filter", "1")%string = None /\ t !! ("filter", "2")%string = None.

(** A rule that can be lost: one of the two, which has the comment. *)
Definition stolen (x : chain * rule) : Prop := x ∈ invalid_rules /\ commented x.2 = true.

(** The rules [kept] of those of the routes that are on, with [lost] those that are gone. *)
Definition in_force (base : tables) (s : list route * nat * host) : Prop :=
  Forall route_accepted s.1.1 /\
  exists kept lost, s.1.1 ≫= route_rules ≡ₚ kept ++ lost /\ Forall stolen lost /\ (length lost <= 2 * s.1.2)%nat
    /\ holds base kept (h_tables s.2).

Lemma no_chain base active t a c spec : holds base active t -> base !! c = None -> after_command t (a, c, spec) = t.
Proof.
  intros Hh Hn. specialize (Hh c). rewrite Hn in Hh. unfold after_command, effect. simpl.
  destruct (accepts spec); [|done]. by destruct (t !! c).
Qed.

(** Switching a route on adds its rules. *)
Lemma on_commands_hold base act kept t r :
  ready base -> clean base -> no_number_chains base -> route_accepted r -> Forall route_accepted act ->
  kept ⊆ act ≫= route_rules -> holds base kept t ->
  holds base (route_rules r ++ kept) (after_commands (on_commands r) t).
Proof.
  intros Hr Hc [N1 N2] Hacc Ha Hk Hh. pose proof (additions_addable base r Hr Hacc) as Hadd.
  destruct r as [ | | | |ip p d x]; try (cbn [on_commands];
    rewrite after_commands_app, (rejects_nothing base act kept) by done; by apply holds_adds).
  cbn [on_commands after_commands fold_left]. apply Forall_cons in Hadd as [Hf Hl].
  pose proof (holds_adds _ _ _ [_] Hh ltac:(constructor; [exact Hf|constructor])) as H1.
  cbn [after_commands fold_left] in H1.
  assert (forall k spec, base !! ("filter"%string, k) = None ->
    after_command (after_command t (socks5_first ip p x)) (ours Insert "filter" k spec) = after_command t (socks5_first ip p x)) as Hno
    by (intros k spec Hk1; by apply (no_chain _ _ _ _ _ _ H1)).
  rewrite !Hno by done.
  pose proof (holds_adds _ _ _ _ H1 Hl) as H2. eapply holds_proper; [|reflexivity|exact H2].
  unfold route_rules. simpl. solve_Permutation.
Qed.

Lemma commented_not_base base c r l : clean base -> commented r = true -> base !! c = Some l -> r ∉ l.
Proof. intros Hc Hr Hl Hin. apply (Hc _ _ _ Hl) in Hin. congruence. Qed.

(** Switching off deletes rules that are there; those that were lost are not there to delete. *)
Lemma undo_hold base xs rest kept lost t :
  clean base -> Forall (fun x => accepts x.2 = true) xs -> Forall stolen lost ->
  (placed <$> xs) ++ rest ≡ₚ kept ++ lost -> holds base kept t ->
  exists kept' lost', rest ≡ₚ kept' ++ lost' /\ Forall stolen lost' /\ (length lost' <= length lost)%nat
    /\ holds base kept' (after_commands (undo <$> xs) t).
Proof.
  intros Hc Hx. revert kept lost t.
  induction Hx as [|[[a c] spec] xs Hacc Hx IH]; intros kept lost t Hl Hp Hh; [by exists kept, lost|].
  csimpl in *. cbn [after_commands fold_left]. fold (after_commands (undo <$> xs) (after_command t (undo (a, c, spec)))).
  assert (placed (a, c, spec) ∈ kept ++ lost) as Hin by (rewrite <- Hp; left).
  destruct (decide (placed (a, c, spec) ∈ kept)) as [Hk|Hk].
  - apply elem_of_Permutation in Hk as [kept1 Hk]. rewrite Hk in Hp, Hh. simpl in Hp. apply (inj (cons _)) in Hp.
    eapply IH; [exact Hl|exact Hp|]. by apply holds_delete.
  - apply elem_of_app in Hin as [?|Hin]; [done|].
    apply elem_of_Permutation in Hin as [lost1 Hl1]. rewrite Hl1 in Hl. apply Forall_cons in Hl as [[_ Hv] Hl].
    rewrite Hl1, <- Permutation_middle in Hp. apply (inj (cons _)) in Hp.
    assert (after_command t (undo (a, c, spec)) = t) as ->.
    { apply (holds_delete_absent base kept); [done|]. intros _. split; [intros l Hb; by eapply commented_not_base|exact Hk]. }
    destruct (IH kept lost1 t) as (k' & l' & ? & ? & ? & ?); [done..|].
    exists k', l'. split_and!; [done|done| |done]. rewrite Hl1. simpl. lia.
Qed.

(** Deleting an invalid rule, which may be there. *)
Lemma invalid_delete_hold base kept t x :
  clean base -> x ∈ invalid_adds -> holds base kept t ->
  exists kept' taken, kept ≡ₚ kept' ++ taken /\ Forall stolen taken /\ (length taken <= 1)%nat
    /\ holds base kept' (after_command t (undo x)).
Proof.
  intros Hc Hx Hh. assert (placed x ∈ invalid_rules) as Hv by by apply list_elem_of_fmap_2.
  assert (has_comment x.2 = true) as Hm by (unfold invalid_adds in Hx; set_solver).
  destruct x as [[a c] spec]. cbn [snd] in Hm. destruct (accepts spec) eqn:Hacc.
  - destruct (decide (placed (a, c, spec) ∈ kept)) as [Hk|Hk].
    + apply elem_of_Permutation in Hk as [kept1 Hk]. exists kept1, [placed (a, c, spec)].
      rewrite Hk in Hh. split_and!; [by rewrite Hk, Permutation_cons_append| |done|by apply holds_delete].
      constructor; [|constructor]. split; [done|]. cbn [snd placed]. by rewrite norm_comment.
    + exists kept, []. rewrite app_nil_r. split_and!; [done|constructor|simpl; lia|].
      unfold undo. rewrite (holds_delete_absent base kept); [done|done|]. intros _.
      split; [intros l Hb; eapply commented_not_base; [done|by rewrite norm_comment|done]|exact Hk].
  - exists kept, []. rewrite app_nil_r. split_and!; [done|constructor|simpl; lia|].
    unfold after_command, undo. simpl. by rewrite Hacc.
Qed.

(** Switching a route off: its rules are gone, and a proxy route may take two others along. *)
Lemma off_commands_hold base r rest kept lost t :
  clean base -> route_accepted r -> Forall stolen lost -> route_rules r ++ rest ≡ₚ kept ++ lost -> holds base kept t ->
  exists kept' lost', rest ≡ₚ kept' ++ lost' /\ Forall stolen lost'
    /\ (length lost' <= length lost + if is_proxy r then 2 else 0)%nat
    /\ holds base kept' (after_commands (off_commands r) t).
Proof.
  intros Hc [Hacc _] Hl Hp Hh.
  destruct r as [ | | | |ip p d x]; try (destruct (undo_hold base _ rest kept lost t Hc Hacc Hl Hp Hh) as (k & l & ? & ? & ? & ?);
    exists k, l; split_and!; [done|done|simpl; lia|done]).
  apply Forall_cons in Hacc as [Hf Hlast]. change (route_rules _ ++ rest) with ((placed <$> [socks5_first ip p x]) ++ (placed <$> socks5_last ip d) ++ rest) in Hp.
  destruct (undo_hold base [socks5_first ip p x] _ kept lost t Hc ltac:(by repeat constructor) Hl Hp Hh) as (k1 & l1 & P1 & L1 & N1 & H1).
  destruct (invalid_delete_hold base k1 _ (ours Append "filter" "OUTPUT" invalid_conntrack) Hc ltac:(left) H1) as (k2 & t2 & P2 & L2 & N2 & H2).
  destruct (invalid_delete_hold base k2 _ (ours Append "filter" "OUTPUT" invalid_state) Hc ltac:(right; left) H2) as (k3 & t3 & P3 & L3 & N3 & H3).
  destruct (undo_hold base (socks5_last ip d) rest k3 (t3 ++ t2 ++ l1) _ Hc Hlast ltac:(by rewrite !Forall_app)
    ltac:(by rewrite P1, P2, P3, <- !app_assoc) H3) as (k4 & l4 & P4 & L4 & N4 & H4).
  exists k4, l4. split_and!; [done|done| |exact H4]. rewrite !length_app in N4. cbn [is_proxy]. lia.
Qed.

Lemma switch_on_force (Hs : spawn_fine) base r act n h :
  ready base -> clean base -> no_number_chains base -> route_accepted r -> in_force base (act, n, h) ->
  exists h', switch_on r h = (Ok tt, h') /\ in_force base (r :: act, n, h').
Proof.
  intros Hr Hc Hn Hacc (Ha & kept & lost & Hp & Hl & Hlen & Hh). simpl in *.
  destruct (switch_on_gives Hs r h) as ([] & h' & E & T & _). exists h'. split; [done|].
  split; [by constructor|]. exists (route_rules r ++ kept), lost. simpl. split_and!; [by rewrite Hp, app_assoc|done|done|].
  rewrite T. apply (on_commands_hold base act); try done. intros x Hx. rewrite Hp. set_solver.
Qed.

Lemma switch_off_force (Hs : spawn_fine) base r act act' n h :
  clean base -> act ≡ₚ r :: act' -> in_force base (act, n, h) ->
  exists h', switch_off r h = (Ok tt, h') /\ in_force base (act', if is_proxy r then S n else n, h').
Proof.
  intros Hc Hp (Ha & kept & lost & Hk & Hl & Hlen & Hh). simpl in *. rewrite Hp in Ha, Hk. apply Forall_cons in Ha as [Hacc Ha].
  destruct (switch_off_gives Hs r h) as ([] & h' & E & T & _). exists h'. split; [done|]. split; [done|].
  destruct (off_commands_hold base r _ kept lost _ Hc Hacc Hl Hk Hh) as (k & l & ? & ? & ? & ?).
  exists k, l. simpl. split_and!; [done|done| |by rewrite T]. destruct (is_proxy r); lia.
Qed.

Lemma switches_force (Hs : spawn_fine) base s s' :
  ready base -> clean base -> no_number_chains base -> rtc switch_step s s' -> in_force base s -> in_force base s'.
Proof.
  intros Hr Hc Hn Hst Hi. apply (rtc_invariant switch_step (in_force base) s s' Hst Hi). intros x y Hxy Hx.
  destruct Hxy as [r act n h h' Hacc E|r act act' n h h' Hp E].
  - destruct (switch_on_force Hs base r act n h) as (h2 & E2 & ?); [done..|]. congruence.
  - destruct (switch_off_force Hs base r act act' n h) as (h2 & E2 & ?); [done..|]. congruence.
Qed.

(** C16. The rules of the routes: starting from tables with the built-in chains and no rule of
    this program, after any interleaving of routes of all kinds switched on and of switched-on
    routes switched off, every chain has the rules that it had before (those of libvirt, too,
    which [forward_enable] says it deletes) and those of the routes that are on, but for [lost]:
    rules against invalid packets of the OUTPUT chain, at most two for each proxy route that was
    switched off. As long as none was, the rules are exactly those. *)
Theorem rooter_rules (Hs : spawn_fine) h0 act n h :
  ready (h_tables h0) -> clean (h_tables h0) -> no_number_chains (h_tables h0) ->
  rtc switch_step ([], 0%nat, h0) (act, n, h) ->
  exists lost, lost ⊆ invalid_rules /\ (length lost <= 2 * n)%nat /\
    forall c, match h_tables h0 !! c, h_tables h !! c with
              | Some l0, Some l => l ++ rules_in c lost ≡ₚ l0 ++ rules_in c (act ≫= route_rules)
              | None, None => True
              | _, _ => False
              end.
Proof.
  intros Hr Hc Hn Hst. apply (switches_force Hs (h_tables h0)) in Hst as (_ & kept & lost & Hp & Hl & Hlen & Hh); [|done..|].
  - exists lost. split_and!; [intros x Hx; rewrite Forall_forall in Hl; by apply Hl|done|]. intros c. specialize (Hh c). simpl in *.
    destruct (h_tables h0 !! c), (h_tables h !! c); try done.
    rewrite Hh, Hp. unfold rules_in. by rewrite filter_app, fmap_app, app_assoc.
  - split; [done|]. exists [], []. split_and!; [done|constructor|simpl; lia|]. apply holds_base.
Qed.

(** ** The proxy route *)

Definition socks5_rules (on : bool) (ip rs_port dns_port proxy_port : string) : list (action * chain * list string) :=
  [ours Insert "nat" "PREROUTING" (capture_spec ip rs_port ["REDIRECT"; "--to-ports"; proxy_port]%string)]
  ++ (if on then [ours Insert "filter" "1" ("OUTPUT"%string :: invalid_conntrack); ours Insert "filter" "2" ("OUTPUT"%string :: invalid_state)]
      else [ours Append "filter" "OUTPUT" invalid_conntrack; ours Append "filter" "OUTPUT" invalid_state])
  ++ [ours Append "nat" "PREROUTING" (tail (dns_redirect "tcp" ip dns_port));
      ours Append "nat" "PREROUTING" (tail (dns_redirect "udp" ip dns_port));
      ours Append "filter" "OUTPUT" (drop_source ip)].

Lemma socks5_on_gives (Hs : spawn_fine) ip p d x : gives (socks5_rules true ip p d x) (socks5_enable ip p d x).
Proof. eapply gives_eq; [unfold socks5_enable; gives_tac Hs|]. reflexivity. Qed.
Lemma socks5_off_gives (Hs : spawn_fine) ip p d x : gives (undo <$> socks5_rules false ip p d x) (socks5_disable ip p d x).
Proof. eapply gives_eq; [unfold socks5_disable; gives_tac Hs|]. reflexivity. Qed.

(** Switching a proxy route on and off again deletes these rules of another route. *)
Lemma socks5_steals (Hs : spawn_fine) base active ip p d x h :
  ready base -> base !! ("filter", "1")%string = None -> base !! ("filter", "2")%string = None ->
  Forall (fun x => accepts x.2 = true) (socks5_rules false ip p d x) -> holds base (invalid_rules ++ active) (h_tables h) ->
  exists h', (do* socks5_enable ip p d x in socks5_disable ip p d x) h = (Ok tt, h') /\ holds base active (h_tables h').
Proof.
  intros Hr N1 N2 Hacc Hh.
  destruct (gives_bind _ _ _ _ (socks5_on_gives Hs ip p d x) (socks5_off_gives Hs ip p d x) h) as ([] & h' & E & T & _).
  exists h'. split; [done|]. rewrite T. unfold after_commands. rewrite fold_left_app.
  apply holds_deletes; [|done]. clear E T.
  unfold socks5_rules in *. rewrite !Forall_app in Hacc. destruct Hacc as (Ha & _ & Hb).
  set (xa := [_]) in *. set (xb := [_; _; ours Append "filter" "OUTPUT" (drop_source ip)]) in *.
  rewrite !fold_left_app. cbn [fold_left] in *.
  assert (Forall (addable base) xa /\ Forall (addable base) xb) as [Aa Ab].
  { unfold ready in Hr. rewrite !Forall_cons in Hr. destruct Hr as (H1 & H2 & H3 & H4 & H5 & _).
    unfold xa, xb in *. 
    repeat (apply Forall_cons in Ha as [? Ha]). repeat (apply Forall_cons in Hb as [? Hb]).
    unfold addable. split; repeat constructor; simpl; done. }
  pose proof (holds_adds _ _ _ xa Hh Aa) as H1. unfold after_commands in H1. set (t1 := fold_left _ xa _) in *.
  assert (forall n spec, n = "1"%string \/ n = "2"%string -> after_command t1 (ours Insert "filter" n spec) = t1) as Hno
    by (intros n spec [-> | ->]; by apply (no_chain _ _ t1 _ _ _ H1)).
  rewrite !Hno by auto.
  pose proof (holds_adds _ _ _ xb H1 Ab) as H2. unfold after_commands in H2.
  eapply holds_proper; [|reflexivity|exact H2].
  rewrite !fmap_app. fold invalid_rules. change (placed <$> [_; _]) with invalid_rules. solve_Permutation.
Qed.

Lemma inetsim_has_invalid ip i d p ports :
  exists rest, route_rules (RInetsim ip i d p ports) ≡ₚ invalid_rules ++ rest.
Proof.
  eexists. unfold route_rules. simpl. rewrite fmap_app. simpl. unfold invalid_rules. simpl.
  rewrite (Permutation_app_comm (placed <$> _)). simpl.
  etrans; [apply Permutation_swap|]. constructor. etrans; [apply Permutation_swap|]. reflexivity.
Qed.

(** A proxy route breaks an InetSim route: its two rules against invalid packets are never
    added, because the rule number stands before the chain, but they are deleted when it is
    switched off. If an InetSim route is on, those deleted are its rules. *)
Theorem socks5_disable_steals (Hs : spawn_fine) base a i d p ports act ip rp dp x h :
  ready base -> base !! ("filter", "1")%string = None -> base !! ("filter", "2")%string = None ->
  Forall (fun y => accepts y.2 = true) (socks5_rules false ip rp dp x) ->
  holds base ((RInetsim a i d p ports :: act) ≫= route_rules) (h_tables h) ->
  exists h' l l', (do* socks5_enable ip rp dp x in socks5_disable ip rp dp x) h = (Ok tt, h') /\
    h_tables h !! ("filter", "OUTPUT")%string = Some l /\ h_tables h' !! ("filter", "OUTPUT")%string = Some l' /\
    l ≡ₚ norm (invalid_conntrack ++ rooter_comment) :: norm (invalid_state ++ rooter_comment) :: l'.
Proof.
  intros Hr N1 N2 Hacc Hh. simpl in Hh. destruct (inetsim_has_invalid a i d p ports) as (rest & Hp).
  rewrite Hp, <- app_assoc in Hh.
  destruct (socks5_steals Hs base _ ip rp dp x h Hr N1 N2 Hacc Hh) as (h' & E & Hh').
  specialize (Hh ("filter", "OUTPUT")%string). specialize (Hh' ("filter", "OUTPUT")%string).
  assert (is_Some (base !! ("filter", "OUTPUT")%string)) as [l0 Hl0]
    by (unfold ready in Hr; rewrite !Forall_cons in Hr; apply Hr).
  rewrite Hl0 in Hh, Hh'. destruct (h_tables h !! _) as [l|]; [|done].
  destruct (h_tables h' !! _) as [l'|] eqn:El'; [|done]. exists h', l, l'. split_and!; [done..|].
  rewrite Hh, Hh'. unfold invalid_rules, invalid_adds. cbn [fmap list_fmap app]. rewrite !rules_in_cons. simpl.
  solve_Permutation.
Qed.

(** ** The order of the rules *)

Definition place (l : list rule) (x : action * chain * list string) : list rule :=
  match x.1.1 with Append => l ++ [norm x.2] | Insert => norm x.2 :: l | Delete => l end.

Lemma adds_at xs c l t :
  t !! c = Some l -> Forall (addable t) xs ->
  after_commands xs t !! c = Some (fold_left place (filter (fun x => x.1.2 = c) xs) l).
Proof.
  revert l t. induction xs as [|[[a c'] spec] xs IH]; intros l t Hl Hx; [done|].
  apply Forall_cons in Hx as [([l1 Hl1] & Hacc & Hd) Hx]. simpl in *.
  assert (exists l2, after_command t (a, c', spec) = <[c' := l2]> t /\ l2 = place l1 (a, c', spec)) as (l2 & E & ->).
  { unfold after_command, effect, place. simpl. rewrite Hacc, Hl1. simpl. destruct a; [by eexists|by eexists|done]. }
  rewrite filter_cons. simpl. cbn [after_commands fold_left]. unfold after_commands in *. simpl. rewrite E.
  assert (Forall (addable (<[c' := place l1 (a, c', spec)]> t)) xs) as Hx'.
  { eapply Forall_impl; [done|]. intros y (Hy & ? & ?). split; [|done]. by apply lookup_insert_is_Some'; right. }
  case_decide as Hc; [subst c'|].
  - simpl. apply IH; [|done]. rewrite lookup_insert_eq. congruence.
  - apply IH; [|done]. by rewrite lookup_insert_ne.
Qed.

Lemma fold_appends xs l :
  Forall (fun x => x.1.1 = Append) xs -> fold_left place xs l = l ++ ((fun x => norm x.2) <$> xs).
Proof.
  revert l. induction xs as [|[[a c] spec] xs IH]; intros l Hx; [by rewrite app_nil_r|].
  apply Forall_cons in Hx as [Ha Hx]. simpl in *. subst a. rewrite IH by done. unfold place. simpl.
  by rewrite <- app_assoc.
Qed.

(** The order of an InetSim route: after [inetsim_enable] the rule that sends every other
    TCP connection of the machine to InetSim stands before all others, in particular
    before the rules of the redirected ports, which are at the end. *)
Theorem inetsim_order (Hs : spawn_fine) ip i d p ports h l :
  ready (h_tables h) -> route_accepted (RInetsim ip i d p ports) ->
  h_tables h !! ("nat", "PREROUTING")%string = Some l ->
  exists h', inetsim_enable ip i d p ports h = (Ok tt, h') /\
    h_tables h' !! ("nat", "PREROUTING")%string = Some
      (norm (capture_spec ip p ["DNAT"; "--to-destination"; i]%string ++ rooter_comment)
       :: l ++ ((fun x => norm (tail (redirect_rule ip i x))) <$> omap port_pair (split_ws (B ports)))
            ++ [norm (tail (dns_rule "tcp" ip i d) ++ rooter_comment); norm (tail (dns_rule "udp" ip i d) ++ rooter_comment)]).
Proof.
  intros Hr Ha Hl. destruct (switch_on_gives Hs (RInetsim ip i d p ports) h) as ([] & h' & E & T & _).
  exists h'. split; [exact E|]. rewrite T. cbn [on_commands rejects app].
  rewrite (adds_at _ _ l) by (done || by apply additions_addable). f_equal.
  cbn [additions]. rewrite filter_app, fold_left_app.
  set (ps := omap port_pair _).
  assert (filter (fun x : action * chain * list string => x.1.2 = ("nat", "PREROUTING")%string)
            ((fun x => (Append, ("nat", "PREROUTING")%string, tail (redirect_rule ip i x))) <$> ps)
          = (fun x => (Append, ("nat", "PREROUTING")%string, tail (redirect_rule ip i x))) <$> ps) as ->.
  { clearbody ps. clear. induction ps as [|x ps IH]; [done|]. csimpl. rewrite filter_cons_True by done.
    f_equal. exact IH. }
  rewrite (fold_appends (_ <$> ps)) by (apply Forall_fmap, Forall_true; done). rewrite <- list_fmap_compose. simpl.
  unfold place, ours. simpl. f_equal. by rewrite <- !app_assoc.
Qed.

(** ** Deleting until nothing is left *)

Definition established_rule : rule := norm (established ++ rooter_comment).

Lemma filter_remove_first (r : rule) l : filter (fun x => x <> r) (remove_first r l) = filter (fun x => x <> r) l.
Proof.
  induction l as [|x l IH]; [done|]. cbn [remove_first]. destruct (decide (x = r)) as [->|Hne].
  - by rewrite filter_cons_False by auto.
  - by rewrite !filter_cons_True, IH.
Qed.

Lemma remove_first_length (r : rule) l : r ∈ l -> length l = S (length (remove_first r l)).
Proof. intros Hin. by rewrite (remove_first_Permutation r l Hin) at 1. Qed.

Lemma state_loop_spec (Hs : spawn_fine) fuel h l :
  accepts (established ++ rooter_comment) = true -> h_tables h !! ("filter", "INPUT")%string = Some l ->
  (length l < fuel)%nat ->
  exists h', state_loop fuel h = (Ok tt, h') /\
    h_tables h' = <[("filter", "INPUT")%string := filter (fun x => x <> established_rule) l]> (h_tables h).
Proof.
  intros Hacc. revert h l. induction fuel as [|fuel IH]; intros h l Hl Hf; [lia|]. cbn [state_loop].
  set (args := (["-D"; "INPUT"]%string ++ established) ++ rooter_comment).
  assert (run_iptables (["-D"; "INPUT"]%string ++ established) h
          = let '(err, t) := filter_run args (h_tables h) in (Ok (EmptyString, err), h_set_tables t h)) as Er
    by (unfold run_iptables, run; by rewrite Hs, bool_decide_true).
  pose proof (filter_law args (h_tables h) Delete ("filter", "INPUT")%string (established ++ rooter_comment) eq_refl) as Law.
  rewrite Hacc in Law. unfold effect in Law. rewrite Hl in Law. cbn [mbind option_bind] in Law.
  change (norm (established ++ rooter_comment)) with established_rule in Law.
  unfold sbind. rewrite Er. destruct (decide (established_rule ∈ l)) as [Hin|Hin].
  - rewrite Law. cbn [snd]. rewrite bool_decide_false by auto.
    destruct (IH (h_set_tables (<[("filter", "INPUT")%string := remove_first established_rule l]> (h_tables h)) h)
                (remove_first established_rule l)) as (h' & E & T).
    { simpl. by rewrite lookup_insert_eq. }
    { rewrite (remove_first_length established_rule l Hin) in Hf. lia. }
    exists h'. split; [exact E|]. rewrite T. simpl. by rewrite insert_insert_eq, filter_remove_first.
  - destruct Law as (err & Hne & Law). rewrite Law. cbn [snd]. rewrite bool_decide_true by done.
    eexists. split; [done|]. simpl.
    rewrite filter_all by (intros x Hx ->; done). by rewrite insert_id.
Qed.

(** [state_disable] terminates: one round more than the rules of the chain is enough, and
    afterwards none of its rules is left and every other rule is where it was. *)
Theorem state_disable_spec (Hs : spawn_fine) h l :
  accepts (established ++ rooter_comment) = true -> h_tables h !! ("filter", "INPUT")%string = Some l ->
  exists h', state_disable h = (Ok tt, h') /\
    h_tables h' = <[("filter", "INPUT")%string := filter (fun x => x <> established_rule) l]> (h_tables h).
Proof. intros Hacc Hl. unfold state_disable. rewrite Hl. apply (state_loop_spec Hs); [done..|]. simpl. lia. Qed.

(** ** Requests of the client *)

Definition json_arg (a : option string) : json := match a with Some s => JStr s | None => JNull end.

Lemma string_args_client args : string_args (json_arg <$> args) [] = (fun l => (l, [])) <$> mapM id args.
Proof.
  unfold string_args. assert (mapM as_str (json_arg <$> args) = mapM id args) as ->.
  { induction args as [|[a|] args IH]; [done| |done]. cbn. cbn in IH. by rewrite IH. }
  by destruct (mapM id args).
Qed.

Lemma request_client c h :
  request (Some (client_request c)) h =
  match handlers (rc_name c), mapM id (rc_args c) with
  | Some hd, Some args =>
      scatch (let* out := call_handler hd args [] in sret (Some {| re_output := out; re_exception := None |}))
        (fun e => Some (sret (Some {| re_output := ONone; re_exception := Some e |}))) h
  | _, _ => (Ok None, h)
  end.
Proof.
  unfold client_request, request.
  change (key "command" _) with (Some (JStr (rc_name c))). cbv beta iota. destruct (handlers (rc_name c)) as [hd|]; [|done].
  change (key "args" _) with (Some (JList (json_arg <$> rc_args c))).
  change (key "kwargs" _) with (Some (JObj [])). cbn [from_option id]. rewrite string_args_client.
  by destruct (mapM id (rc_args c)).
Qed.

(** Who gets an answer: the rooter answers a request of the client exactly when it knows
    the command and no argument is [None]; otherwise it changes nothing and sends nothing,
    and the client, which waits without a timeout, never returns. *)
Theorem request_answered c h :
  (handlers (rc_name c) <> None /\ None ∉ rc_args c <-> exists rep h', request (Some (client_request c)) h = (Ok (Some rep), h')) /\
  (handlers (rc_name c) = None \/ None ∈ rc_args c <-> request (Some (client_request c)) h = (Ok None, h)).
Proof.
  assert ((None ∈ rc_args c /\ mapM id (rc_args c) = None) \/ (None ∉ rc_args c /\ exists l, mapM id (rc_args c) = Some l)) as Hm.
  { induction (rc_args c) as [|[a|] args IH]; [right; split; [set_solver|by eexists]| |left; split; [set_solver|done]].
    destruct IH as [[Hi E]|[Hi (l & E)]]; [left|right]; (split; [set_solver|]); cbn; cbn in E; rewrite E; [done|by eexists]. }
  rewrite request_client. destruct (handlers (rc_name c)) as [hd|]; [|naive_solver].
  destruct Hm as [[Hi ->]|[Hi (l & ->)]]; [naive_solver|].
  unfold scatch, sbind, sret. destruct (call_handler hd l [] h) as [[out|e] h']; split; split; naive_solver.
Qed.

End filter.

(** ** Witnesses *)

(** A packet filter that does what the specification says, and keeps its rules as they are given. *)
Definition plain_filter : Programs := {|
  iptables_path := "/sbin/iptables"; iptables_save := "/sbin/iptables-save"; iptables_restore := "/sbin/iptables-restore";
  ip_path := "/sbin/ip"; systemctl := "/bin/systemctl"; accepts := fun _ => true; norm := fun l => l;
  filter_run := fun args t =>
    match reading args with
    | Some (a, c, spec) => match effect a c spec t with Some t' => (EmptyString, t') | None => ("Bad rule"%string, t) end
    | None => ("Bad argument"%string, t)
    end;
  filter_save := fun _ => EmptyString; filter_restore := fun _ t => t;
  spawn := fun _ _ => None; program := fun _ _ => (EmptyString, EmptyString); status := fun _ _ => true |}.

Definition plain_laws : @FilterLaws plain_filter.
Proof.
  refine (@Build_FilterLaws plain_filter jump has_comment (fun _ _ => eq_refl) (fun _ _ => eq_refl) _).
  intros args t a c spec Hr. simpl. rewrite Hr. destruct (effect a c spec t); [done|]. by exists "Bad rule"%string.
Defined.

Lemma plain_spawn : @spawn_fine plain_filter.
Proof. by intros n args. Qed.

(** The chains of a new kernel, with libvirt's rules. *)
Definition libvirt_reject : rule := ["-i"; "virbr0"; "-j"; "REJECT"]%string.
Definition new_tables : tables :=
  {[ ("nat", "PREROUTING") := []; ("nat", "POSTROUTING") := []; ("filter", "INPUT") := [];
     ("filter", "OUTPUT") := []; ("filter", "FORWARD") := [libvirt_reject] ]}%string.
Definition new_host : host := {| h_tables := new_tables; h_ran := []; h_clock := 0 |}.

Lemma new_ready : ready new_tables.
Proof. repeat constructor; by eexists. Qed.

Lemma new_clean : @clean plain_filter plain_laws new_tables.
Proof.
  intros c l r Hl Hr. unfold new_tables in Hl.
  repeat (apply lookup_insert_Some in Hl as [[<- <-]|[_ Hl]]; [by apply not_elem_of_nil in Hr|]).
  apply lookup_singleton_Some in Hl as [<- <-]. by apply list_elem_of_singleton in Hr as ->.
Qed.

(** Three routes are switched on and two of them off. *)
Lemma rooter_rules_witness :
  let P := plain_filter in let F := plain_laws in
  let inetsim := RInetsim "10.0.0.2" "10.0.0.1" "53" "2042" "80:8080 x 443:" in
  let forward := RForward "virbr0" "eth0" "10.0.0.3" in let drop := RDrop "10.0.0.4" "2042" in
  let h := (do* switch_on inetsim in do* switch_on forward in do* switch_on drop in
            do* switch_off inetsim in switch_off drop) new_host in
  h_tables h.2 !! ("filter", "FORWARD")%string = Some
    (["-i"; "eth0"; "-o"; "virbr0"; "--destination"; "10.0.0.3"; "-j"; "ACCEPT"; "-m"; "comment"; "--comment"; "CAPE-rooter"]
     :: ["-i"; "virbr0"; "-o"; "eth0"; "--source"; "10.0.0.3"; "-j"; "ACCEPT"; "-m"; "comment"; "--comment"; "CAPE-rooter"]
     :: [libvirt_reject])%string /\
  forall c, match new_tables !! c, h_tables h.2 !! c with
            | Some l0, Some l => l ≡ₚ l0 ++ rules_in c ([forward] ≫= route_rules)
            | None, None => True
            | _, _ => False
            end.
Proof.
  intros P F inetsim forward drop h. split; [vm_compute; reflexivity|].
  destruct (rooter_rules plain_spawn new_host [forward] 0 h.2 new_ready new_clean (conj eq_refl eq_refl)) as (lost & _ & Hl & Hc);
    [|apply Nat.le_0_r, nil_length_inv in Hl as ->; intros c; specialize (Hc c);
      change (h_tables new_host) with new_tables in Hc; change (rules_in c []) with (@nil rule) in Hc;
      destruct (new_tables !! c), (h_tables h.2 !! c); try done; by rewrite app_nil_r in Hc].
  assert (forall r, (match r with RForward s _ _ => s <> "-j"%string | _ => True end) -> route_accepted r) as Hacc
    by (intros r Hr; split; [by apply Forall_true|done]).
  eapply rtc_l; [apply (step_on inetsim); [by apply Hacc|vm_compute; reflexivity]|].
  eapply rtc_l; [apply (step_on forward); [by apply Hacc|vm_compute; reflexivity]|].
  eapply rtc_l; [apply (step_on drop); [by apply Hacc|vm_compute; reflexivity]|].
  eapply rtc_l; [apply (step_off inetsim [drop; forward; inetsim] [drop; forward] 0); [solve_Permutation|vm_compute; reflexivity]|].
  eapply rtc_l; [apply (step_off drop [drop; forward] [forward] 0); [done|vm_compute; reflexivity]|].
  apply rtc_refl.
Defined.

Lemma plain_accepted r : (match r with RForward s _ _ => s <> "-j"%string | _ => True end) -> @route_accepted plain_filter r.
Proof. intros Hr. split; [by apply Forall_true|done]. Qed.

Lemma socks5_disable_steals_witness :
  let P := plain_filter in let F := plain_laws in
  let h := (switch_on (RInetsim "10.0.0.2" "10.0.0.1" "53" "2042" "") new_host).2 in
  exists h' l l', (do* socks5_enable "10.0.0.5" "2042" "5353" "9050" in socks5_disable "10.0.0.5" "2042" "5353" "9050") h = (Ok tt, h') /\
    h_tables h !! ("filter", "OUTPUT")%string = Some l /\ h_tables h' !! ("filter", "OUTPUT")%string = Some l' /\
    l ≡ₚ norm (invalid_conntrack ++ rooter_comment) :: norm (invalid_state ++ rooter_comment) :: l'.
Proof.
  intros P F h. eapply (socks5_disable_steals plain_spawn new_tables "10.0.0.2" "10.0.0.1" "53" "2042" "" []).
  - exact new_ready.
  - reflexivity.
  - reflexivity.
  - by apply Forall_true.
  - subst h. intros c.
    destruct (switch_on_gives plain_spawn (RInetsim "10.0.0.2" "10.0.0.1" "53" "2042" "") new_host) as ([] & h' & E & T & _).
    apply (f_equal snd) in E. cbn [snd] in E. subst h'.
    pose proof (on_commands_hold new_tables [] [] new_tables (RInetsim "10.0.0.2" "10.0.0.1" "53" "2042" "") new_ready new_clean
      (conj eq_refl eq_refl) (plain_accepted (RInetsim "10.0.0.2" "10.0.0.1" "53" "2042" "") I) (Forall_nil_2 _) ltac:(done) (holds_base _)) as Hg.
    change new_tables with (h_tables new_host) in Hg at 2. rewrite <- T in Hg. exact (Hg c).
Defined.

Lemma inetsim_order_witness :
  let P := plain_filter in let F := plain_laws in
  exists h', inetsim_enable "10.0.0.2" "10.0.0.1" "53" "2042" "80:8080" new_host = (Ok tt, h') /\
    h_tables h' !! ("nat", "PREROUTING")%string = Some
      (norm (capture_spec "10.0.0.2" "2042" ["DNAT"; "--to-destination"; "10.0.0.1"]%string ++ rooter_comment)
       :: [] ++ ((fun x => norm (tail (redirect_rule "10.0.0.2" "10.0.0.1" x))) <$> omap port_pair (split_ws (B "80:8080")))
            ++ [norm (tail (dns_rule "tcp" "10.0.0.2" "10.0.0.1" "53") ++ rooter_comment);
                norm (tail (dns_rule "udp" "10.0.0.2" "10.0.0.1" "53") ++ rooter_comment)]).
Proof.
  intros P F. apply (inetsim_order plain_spawn "10.0.0.2" "10.0.0.1" "53" "2042" "80:8080" new_host []);
    [exact new_ready|by apply plain_accepted|reflexivity].
Defined.

Lemma state_disable_spec_witness :
  let P := plain_filter in let F := plain_laws in
  let h := (do* state_enable in do* state_enable in enable_nat "eth0") new_host in
  exists h', state_disable h.2 = (Ok tt, h') /\ h_tables h' = <[("filter", "INPUT")%string := []]> (h_tables h.2).
Proof.
  intros P F h. apply (state_disable_spec plain_spawn h.2 [established ++ rooter_comment; established ++ rooter_comment]);
    [reflexivity|vm_compute; reflexivity].
Defined.
