(* ===== verification/Agent.v ===== *)
(** The agent that runs in the guest: agent/agent.py, its handlers on the
    operating system of the guest, the routes and the dispatch of a request. *)
From S2P Require Import Prelude Struct Pretty.
Open Scope string_scope.
Open Scope list_scope.
Open Scope Z_scope.

(** ** Requests and replies *)

(** The methods the handler of the agent has, [HEAD] being inherited from
    [SimpleHTTPRequestHandler], and all the others. *)
Inductive method := GET | POST | HEAD | OTHER.
#[global] Instance method_eq_dec : EqDecision method.
Proof. solve_decision. Defined.

(** The fields of a request: text of the form, and uploaded files. *)
Record http_request := {
  rq_method : method; rq_path : string; rq_ip : string;
  rq_form : list (string * string); rq_files : list (string * bytes) }.

Fixpoint form_get {A} (k : string) (l : list (string * A)) : option A :=
  match l with
  | [] => None
  | (k', v) :: l' => if bool_decide (k = k') then Some v else form_get k l'
  end.

(** The values that are sent as JSON; binary data cannot be. *)
Inductive jval := JStr (s : string) | JInt (n : Z) | JNull | JBytes (b : bytes) | JStrs (l : list string)
                | JDict (l : list (string * string)).
#[global] Instance jval_eq_dec : EqDecision jval.
Proof. solve_decision. Defined.
Definition serializable (v : jval) : bool := match v with JBytes _ => false | _ => true end.

(** What a handler returns. *)
Inductive response :=
| jsonify (status_code : Z) (values : list (string * jval))
| send_file (path : string).

Definition json_error (code : Z) (message : string) : response :=
  jsonify code [("message", JStr message); ("error_code", JInt code)].
(** The text of the traceback is left out. *)
Definition json_exception (message : string) : response :=
  jsonify 500 [("message", JStr message); ("error_code", JInt 500); ("traceback", JStr "")].
Definition json_success (message : string) (kwargs : list (string * jval)) : response :=
  jsonify 200 (("message", JStr message) :: kwargs).

(** What the client gets: nothing when the connection is closed at once, else
    the head and a body. [Missing] is a body that is never sent, because an
    exception was raised after the head; [ErrorPage] is the page of the standard library. *)
Inductive body := Json (l : list (string * jval)) | Contents (b : bytes) | Missing | ErrorPage.
Inductive http_reply := Closed | Reply (code : Z) (b : body).

(** ** The guest *)

Inductive node := Dir | File (data : bytes) | Absent.

(** A command line, or the interpreter with a script. *)
Inductive command := Command (line : string) (shell : bool) | Python (script : string).

(** The operating system of the guest. An operation may raise. [translate_path] is the
    path below the working directory of the agent that the path of a URL names. *)
Class guest_os (W : Type) := {
  translate_path : W -> string -> string;
  os_path : W -> string -> node;
  os_environ : W -> list (string * string);
  platform_system : W -> string;
  agent_file : W -> string;
  agent_output : W -> string * string;
  local_ip : W -> res string;
  makedirs : string -> Z -> st W unit;
  mkstemp : string -> string -> option string -> st W string;
  mkdtemp : string -> string -> option string -> st W string;
  store : string -> bytes -> st W unit;
  extractall : bytes -> string -> st W unit;
  chmod_tree : string -> st W unit;
  rmtree : string -> st W unit;
  chmod : string -> st W unit;
  remove : string -> st W unit;
  popen : command -> option string -> st W unit;
  communicate : command -> option string -> st W (bytes * bytes) }.

Definition STATUS_INIT : Z := 1.
Definition STATUS_RUNNING : Z := 2.
Definition STATUS_COMPLETED : Z := 3.
Definition STATUS_FAILED : Z := 4.
Definition AGENT_VERSION : string := "0.11".
Definition AGENT_FEATURES : list string := ["execpy"; "execute"; "pinning"; "logs"; "largefile"; "unicodepath"].

Section agent.
Context {W : Type} `{guest_os W}.

(** [state], whose [client_ip] is set by pinning, and the server. *)
Record agent := { status : jval; description : jval; client_ip : option string; serving : bool; os : W }.
Definition agent_init (w : W) : agent :=
  {| status := JInt STATUS_INIT; description := JNull; client_ip := None; serving := true; os := w |}.

Definition set_agent_status (s : jval) (a : agent) : agent :=
  {| status := s; description := description a; client_ip := client_ip a; serving := serving a; os := os a |}.
Definition set_description (d : jval) (a : agent) : agent :=
  {| status := status a; description := d; client_ip := client_ip a; serving := serving a; os := os a |}.
Definition set_client_ip (ip : string) (a : agent) : agent :=
  {| status := status a; description := description a; client_ip := Some ip; serving := serving a; os := os a |}.
Definition stop_serving (a : agent) : agent :=
  {| status := status a; description := description a; client_ip := client_ip a; serving := false; os := os a |}.
Definition set_os (w : W) (a : agent) : agent :=
  {| status := status a; description := description a; client_ip := client_ip a; serving := serving a; os := w |}.

(** An operation of the guest in the agent, and [try: m except Exception]. *)
Definition on_os {A} (m : st W A) : st agent A := fun a => let '(r, w) := m (os a) in (r, set_os w a).
Definition attempt {A} (m : st agent A) : st agent (res A) := fun a => let '(r, a') := m a in (Ok r, a').

(** ** Handlers *)

Definition handler : Type := http_request -> st agent response.

Definition get_index : handler := fun _ =>
  sret (json_success "CAPE Agent!" [("version", JStr AGENT_VERSION); ("features", JStrs AGENT_FEATURES)]).
Definition get_status : handler := fun _ =>
  let* a := sget in sret (json_success "Analysis status" [("status", status a); ("description", description a)]).
Definition opt_str (o : option string) : jval := match o with Some s => JStr s | None => JNull end.
Definition put_status : handler := fun rq =>
  match form_get "status" (rq_form rq) with
  | None => sret (json_error 400 "No status has been provided")
  | Some s =>
      do* smodify (set_agent_status (JStr s)) in
      do* smodify (set_description (opt_str (form_get "description" (rq_form rq)))) in
      sret (json_success "Analysis status updated" [])
  end.
Definition get_logs : handler := fun _ =>
  let* a := sget in
  let '(stdout, stderr) := agent_output (os a) in
  sret (json_success "Agent logs" [("stdout", JStr stdout); ("stderr", JStr stderr)]).
Definition get_system : handler := fun _ =>
  let* a := sget in sret (json_success "System" [("system", JStr (platform_system (os a)))]).
Definition get_environ : handler := fun _ =>
  let* a := sget in sret (json_success "Environment variables" [("environ", JDict (os_environ (os a)))]).
Definition get_path : handler := fun _ =>
  let* a := sget in sret (json_success "Agent path" [("filepath", JStr (agent_file (os a)))]).

(** [int] of the mode is outside of the [try] block. *)
Definition do_mkdir : handler := fun rq =>
  match form_get "dirpath" (rq_form rq) with
  | None => sret (json_error 400 "No dirpath has been provided")
  | Some dirpath =>
      let* mode := slift (match form_get "mode" (rq_form rq) with Some m => py_int_text m | None => Ok 511 end) in
      let* r := attempt (on_os (makedirs dirpath mode)) in
      sret (match r with
            | Ok _ => json_success "Successfully created directory" []
            | Raise _ => json_exception "Error creating directory"
            end)
  end.

Definition do_mktemp : handler := fun rq =>
  let suffix := default "" (form_get "suffix" (rq_form rq)) in
  let prefix := default "tmp" (form_get "prefix" (rq_form rq)) in
  let* r := attempt (on_os (mkstemp suffix prefix (form_get "dirpath" (rq_form rq)))) in
  sret (match r with
        | Ok path => json_success "Successfully created temporary file" [("filepath", JStr path)]
        | Raise _ => json_exception "Error creating temporary file"
        end).

Definition do_mkdtemp : handler := fun rq =>
  let suffix := default "" (form_get "suffix" (rq_form rq)) in
  let prefix := default "tmp" (form_get "prefix" (rq_form rq)) in
  let* r := attempt (on_os (mkdtemp suffix prefix (form_get "dirpath" (rq_form rq)))) in
  sret (match r with
        | Ok path => json_success "Successfully created temporary directory" [("dirpath", JStr path)]
        | Raise _ => json_exception "Error creating temporary directory"
        end).

Definition do_store : handler := fun rq =>
  match form_get "filepath" (rq_form rq), form_get "file" (rq_files rq) with
  | None, _ => sret (json_error 400 "No filepath has been provided")
  | _, None => sret (json_error 400 "No file has been provided")
  | Some path, Some data =>
      let* r := attempt (on_os (store path data)) in
      sret (match r with
            | Ok _ => json_success "Successfully stored file" []
            | Raise _ => json_exception "Error storing file"
            end)
  end.

Definition do_retrieve : handler := fun rq =>
  match form_get "filepath" (rq_form rq) with
  | None => sret (json_error 400 "No filepath has been provided")
  | Some path => sret (send_file path)
  end.

Definition do_extract : handler := fun rq =>
  match form_get "dirpath" (rq_form rq), form_get "zipfile" (rq_files rq) with
  | None, _ => sret (json_error 400 "No dirpath has been provided")
  | _, None => sret (json_error 400 "No zip file has been provided")
  | Some dirpath, Some data =>
      let* r := attempt (on_os (extractall data dirpath)) in
      sret (match r with
            | Ok _ => json_success "Successfully extracted zip file" []
            | Raise _ => json_exception "Error extracting zip file"
            end)
  end.

Definition do_remove : handler := fun rq =>
  match form_get "path" (rq_form rq) with
  | None => sret (json_error 400 "No path has been provided")
  | Some path =>
      let* a := sget in
      let gone (message : string) (r : res unit) : response :=
        match r with
        | Ok _ => json_success message []
        | Raise _ => json_exception "Error removing file or directory"
        end in
      match os_path (os a) path with
      | Dir =>
          let* r := attempt (do* on_os (chmod_tree path) in on_os (rmtree path)) in
          sret (gone "Successfully deleted directory" r)
      | File _ =>
          let* r := attempt (do* on_os (chmod path) in on_os (remove path)) in
          sret (gone "Successfully deleted file" r)
      | Absent => sret (json_error 404 "Path provided does not exist")
      end
  end.

(** The part that [do_execute] and [do_execpy] share. *)
Definition run_command (failure : string) (c : command) (rq : http_request) : st agent response :=
  let cwd := form_get "cwd" (rq_form rq) in
  let* r := attempt (match form_get "async" (rq_form rq) with
                     | Some _ => do* on_os (popen c cwd) in sret (JNull, JNull)
                     | None => let* out := on_os (communicate c cwd) in sret (JBytes out.1, JBytes out.2)
                     end) in
  match r with
  | Raise _ =>
      do* smodify (set_agent_status (JInt STATUS_FAILED)) in
      do* smodify (set_description (JStr failure)) in
      sret (json_exception "Error executing command")
  | Ok (stdout, stderr) =>
      do* smodify (set_agent_status (JInt STATUS_RUNNING)) in
      sret (json_success "Successfully executed command" [("stdout", stdout); ("stderr", stderr)])
  end.

Definition do_execute : handler := fun rq =>
  let* a := sget in
  let* ip := slift (local_ip (os a)) in
  if bool_decide (rq_ip rq = "127.0.0.1" \/ rq_ip rq = ip) then sret (json_error 500 "Not allowed to execute commands") else
  match form_get "command" (rq_form rq) with
  | None => sret (json_error 400 "No command has been provided")
  | Some line =>
      let shell := match form_get "shell" (rq_form rq) with Some _ => true | None => false end in
      run_command "Error execute command" (Command line shell) rq
  end.

Definition do_execpy : handler := fun rq =>
  match form_get "filepath" (rq_form rq) with
  | None => sret (json_error 400 "No Python file has been provided")
  | Some path => run_command "Error executing command" (Python path) rq
  end.

Definition do_pinning : handler := fun rq =>
  let* a := sget in
  match client_ip a with
  | Some _ => sret (json_error 500 "Agent has already been pinned to an IP!")
  | None =>
      do* smodify (set_client_ip (rq_ip rq)) in
      sret (json_success "Successfully pinned Agent" [("client_ip", JStr (rq_ip rq))])
  end.

(** The key is always in [request.environ], so the error is never returned. *)
Definition do_kill : handler := fun _ =>
  do* smodify stop_serving in sret (json_success "Quit the CAPE Agent" []).

(** ** The server *)

(** The routes in the order of their registration. *)
Definition routes : list (method * string * handler) :=
  [(GET, "/", get_index); (GET, "/status", get_status); (POST, "/status", put_status); (GET, "/logs", get_logs);
   (GET, "/system", get_system); (GET, "/environ", get_environ); (GET, "/path", get_path);
   (POST, "/mkdir", do_mkdir); (GET, "/mktemp", do_mktemp); (POST, "/mktemp", do_mktemp);
   (GET, "/mkdtemp", do_mkdtemp); (POST, "/mkdtemp", do_mkdtemp); (POST, "/store", do_store);
   (POST, "/retrieve", do_retrieve); (POST, "/extract", do_extract); (POST, "/remove", do_remove);
   (POST, "/execute", do_execute); (POST, "/execpy", do_execpy); (GET, "/pinning", do_pinning); (GET, "/kill", do_kill)].

Fixpoint find_route (m : method) (path : string) (l : list (method * string * handler)) : option handler :=
  match l with
  | [] => None
  | (m', p, fn) :: l' => if bool_decide (m = m' /\ path = p) then Some fn else find_route m path l'
  end.

(** A file that is not empty is opened as text, and text cannot be written to
    the connection, so the body raises. *)
Definition respond (a : agent) (r : response) : http_reply :=
  match r with
  | jsonify code values => Reply code (if forallb (fun kv => serializable kv.2) values then Json values else Missing)
  | send_file path =>
      match os_path (os a) path with
      | File [] => Reply 200 (Contents [])
      | File _ => Reply 200 Missing
      | Dir | Absent => Reply 404 (Contents [])
      end
  end.

(** Another address than the pinned one is ignored, but for the status that
    is posted from the guest itself. *)
Definition ignored (rq : http_request) (a : agent) : bool :=
  match client_ip a with
  | Some ip =>
      negb (bool_decide (rq_ip rq = ip)) &&
      (negb (bool_decide (rq_ip rq = "127.0.0.1")) ||
       negb (bool_decide (rq_path rq = "/status")) || negb (bool_decide (rq_method rq = POST)))
  | None => false
  end.

(** [do_GET] and [do_POST]: a [GET] has no form. *)
Definition received (rq : http_request) : http_request :=
  match rq_method rq with
  | GET => {| rq_method := GET; rq_path := rq_path rq; rq_ip := rq_ip rq; rq_form := []; rq_files := [] |}
  | _ => rq
  end.

(** [do_HEAD], inherited from [SimpleHTTPRequestHandler]: the status of the file or the
    directory that the path names, which is assumed to be readable. Nothing is changed and
    the pin is not looked at. *)
Fixpoint url_path (path : bytes) : bytes :=
  match path with
  | [] => []
  | c :: rest => if bool_decide (c = "?"%char \/ c = "#"%char) then [] else c :: url_path rest
  end.
Definition send_head (a : agent) (path : string) : Z :=
  let slash := bool_decide (last (url_path (B path)) = Some "/"%char) in
  match os_path (os a) (translate_path (os a) path) with
  | Dir => if slash then 200 else 301
  | File _ => if slash then 404 else 200
  | Absent => 404
  end.

(** An exception in a handler closes the connection. *)
Definition handle (rq : http_request) (a : agent) : http_reply * agent :=
  if ignored rq a then (Closed, a) else
  match find_route (rq_method rq) (rq_path rq) routes with
  | None => (respond a (json_error 404 "Route not found"), a)
  | Some fn =>
      match fn (received rq) a with
      | (Ok ret, a') => (respond a' ret, a')
      | (Raise _, a') => (Closed, a')
      end
  end.

(** [serve_forever] until the shutdown. *)
Definition serve_agent (rq : http_request) (a : agent) : http_reply * agent :=
  if serving a then
    match rq_method rq with
    | GET | POST => handle rq a
    | HEAD => (Reply (send_head a (rq_path rq)) (Contents []), a)
    | OTHER => (Reply 501 ErrorPage, a)
    end
  else (Closed, a).
Definition serve_all (rqs : list http_request) (a : agent) : agent :=
  fold_left (fun a rq => (serve_agent rq a).2) rqs a.

(** ** Pinning *)

Lemma find_route_in m path fn l : find_route m path l = Some fn -> (m, path, fn) ∈ l.
Proof using Type.
  induction l as [|[[m' p] f] l IH]; [done|]. cbn [find_route]. case_bool_decide as E; [|intros Hf; right; by apply IH].
  destruct E as [-> ->]. intros [= ->]. left.
Qed.

(** Once there is a pin, no handler changes it. *)
Definition keeps_pin (a a' : agent) : Prop := client_ip a <> None -> client_ip a' = client_ip a.
#[local] Instance keeps_pin_preorder : PreOrder keeps_pin.
Proof. split; [by intros a ?|]. unfold keeps_pin. intros a b c H1 H2 Ha. rewrite H2; [by apply H1|]. by rewrite H1. Qed.

Lemma within_pin_modify f : (forall a, client_ip (f a) = client_ip a) -> within keeps_pin (smodify f).
Proof using Type. intros Hf a _. apply Hf. Qed.
Lemma within_pin_os {A} (m : st W A) : within keeps_pin (on_os m).
Proof using Type. intros a _. unfold on_os. by destruct (m (os a)). Qed.
Lemma within_pin_attempt {A} (m : st agent A) : within keeps_pin m -> within keeps_pin (attempt m).
Proof using Type. intros Hm a. specialize (Hm a). unfold attempt. by destruct (m a). Qed.

Ltac pin_tac :=
  repeat first [ apply within_pin_os | apply within_pin_attempt | (by apply within_pin_modify) | case_match | progress within_tac ].

Lemma routes_keep_pin : Forall (fun r => forall rq, within keeps_pin (r.2 rq)) routes.
Proof using Type.
  repeat (apply Forall_cons; split); [..|constructor]; intros rq; cbn [snd];
    unfold get_index, get_status, put_status, get_logs, get_system, get_environ, get_path, do_mkdir, do_mktemp, do_mkdtemp,
      do_store, do_retrieve, do_extract, do_remove, do_execute, do_execpy, do_pinning, do_kill, run_command.
  all: try (by pin_tac).
  intros a Ha. unfold sbind, sget. destruct (client_ip a) eqn:E; [done|by destruct Ha].
Qed.

Lemma handle_keeps_pin rq a : keeps_pin a (handle rq a).2.
Proof using Type.
  unfold handle. destruct (ignored rq a); [done|].
  destruct (find_route _ _ _) as [fn|] eqn:E; [|done]. apply find_route_in in E.
  pose proof routes_keep_pin as Hk. rewrite Forall_forall in Hk. specialize (Hk _ E (received rq) a). cbn [snd] in Hk.
  by destruct (fn (received rq) a) as [[ret|e] a'].
Qed.

Lemma serve_keeps_pin rq a : keeps_pin a (serve_agent rq a).2.
Proof using Type. unfold serve_agent. destruct (serving a); [|done]. destruct (rq_method rq); try done; apply handle_keeps_pin. Qed.

(** What another address gets from a pinned agent. *)
Definition refusal (a : agent) (rq : http_request) : http_reply :=
  if serving a then
    match rq_method rq with
    | GET | POST => Closed
    | HEAD => Reply (send_head a (rq_path rq)) (Contents [])
    | OTHER => Reply 501 ErrorPage
    end
  else Closed.

(** A handled request that is not from the pinned address: ignored, or a new status. *)
Lemma foreign_handled rq a ip :
  client_ip a = Some ip -> rq_ip rq <> ip ->
  let a' := (handle rq a).2 in
  os a' = os a /\ serving a' = serving a /\
  (rq_ip rq <> "127.0.0.1" -> handle rq a = (Closed, a)).
Proof using Type.
  intros Hip Hrq. unfold handle, ignored. rewrite Hip.
  rewrite (bool_decide_false (rq_ip rq = ip)) by done. cbn [negb andb].
  case_bool_decide as E1; cbn [negb orb]; [|done]. case_bool_decide as E2; cbn [negb orb]; [|done].
  case_bool_decide as E3; cbn [negb orb]; [|done].
  unfold received. rewrite E2, E3. change (find_route POST "/status" routes) with (Some put_status). cbn match.
  unfold put_status. split_and!; [..|done]; by destruct (form_get "status" (rq_form rq)).
Qed.

Lemma foreign_request rq a ip :
  client_ip a = Some ip -> rq_ip rq <> ip ->
  let a' := (serve_agent rq a).2 in
  os a' = os a /\ serving a' = serving a /\
  (rq_ip rq <> "127.0.0.1" -> serve_agent rq a = (refusal a rq, a)).
Proof using Type.
  intros Hip Hrq. pose proof (foreign_handled rq a ip Hip Hrq) as Hh. cbn zeta in *.
  unfold serve_agent, refusal. destruct (serving a) eqn:Es; [|done].
  destruct (rq_method rq); [exact Hh|exact Hh| |]; cbn [snd]; by rewrite Es.
Qed.


(** ** Replies *)

(** The agent never sends the contents of a file: a retrieved file that is
    not empty gives the head of a reply without a body, and so does a command
    that the agent waits for, whose output cannot be written as JSON. *)
Theorem agent_sends_no_binary (a : agent) (rq : http_request) :
  match (serve_agent rq a).1 with Reply _ (Contents b) => b = [] | _ => True end /\
  (forall path c data, serving a = true -> ignored rq a = false -> rq_method rq = POST -> rq_path rq = "/retrieve" ->
     form_get "filepath" (rq_form rq) = Some path -> os_path (os a) path = File (c :: data) ->
     (serve_agent rq a).1 = Reply 200 Missing) /\
  (forall path out w, serving a = true -> ignored rq a = false -> rq_method rq = POST -> rq_path rq = "/execpy" ->
     form_get "filepath" (rq_form rq) = Some path -> form_get "async" (rq_form rq) = None ->
     communicate (Python path) (form_get "cwd" (rq_form rq)) (os a) = (Ok out, w) ->
     (serve_agent rq a).1 = Reply 200 Missing).
Proof using Type.
  split_and!.
  - assert (Hr : forall a r, match respond a r with Reply _ (Contents b) => b = [] | _ => True end).
    { intros a0 []; cbn; [by destruct (forallb _ _)|]. by destruct (os_path _ _) as [|[|]|]. }
    unfold serve_agent. destruct (serving a); [|done]. destruct (rq_method rq) eqn:Em; try done; unfold handle.
    all: destruct (ignored rq a); [done|]; rewrite Em.
    all: destruct (find_route _ _ _) as [fn|]; [|apply (Hr a)]; destruct (fn (received rq) a) as [[ret|e] a']; [apply Hr|done].
  - intros path c data Hs Hi Hm Hp Hf Hd. unfold serve_agent, handle, received. rewrite Hs, Hm, Hi, Hp.
    change (find_route POST "/retrieve" routes) with (Some do_retrieve). cbn match. unfold do_retrieve. rewrite Hf. cbn. by rewrite Hd.
  - intros path out w Hs Hi Hm Hp Hf Ha Hc. unfold serve_agent, handle, received. rewrite Hs, Hm, Hi, Hp.
    change (find_route POST "/execpy" routes) with (Some do_execpy). cbn match. unfold do_execpy. rewrite Hf.
    unfold run_command. rewrite Ha. unfold sbind, attempt, on_os. rewrite Hc. done.
Qed.
End agent.
Arguments agent _ : clear implicits.

(** ** Instances *)

(** A guest that records what is done to it, and where everything succeeds. *)
Inductive effect :=
| MakeDir (path : string) | MakeTemp (path : string) | Stored (path : string) (data : bytes) | Extracted (data : bytes) (path : string)
| Removed (path : string) | Started (c : command) (cwd : option string).
Definition stored_at (path : string) (e : effect) : option bytes :=
  match e with Stored p data => if bool_decide (p = path) then Some data else None | _ => None end.
#[export] Instance recording_os : guest_os (list effect) := {
  translate_path _ path := path;
  os_path w path := match last (omap (stored_at path) w) with Some data => File data | None => Absent end;
  os_environ _ := [("SYSTEMDRIVE", "C:"); ("TEMP", "C:\Temp")];
  platform_system _ := "Windows"; agent_file _ := "C:\agent.py"; agent_output _ := ("", ""); local_ip _ := Ok "192.168.1.2";
  makedirs path _ := smodify (fun w => w ++ [MakeDir path]);
  mkstemp suffix prefix dir := let path := default "" dir +:+ prefix +:+ "1" +:+ suffix in do* smodify (fun w => w ++ [MakeTemp path]) in sret path;
  mkdtemp suffix prefix dir := let path := default "" dir +:+ prefix +:+ "1" +:+ suffix in do* smodify (fun w => w ++ [MakeTemp path]) in sret path;
  store path data := smodify (fun w => w ++ [Stored path data]);
  extractall data path := smodify (fun w => w ++ [Extracted data path]);
  chmod_tree _ := sret tt; rmtree path := smodify (fun w => w ++ [Removed path]);
  chmod _ := sret tt; remove path := smodify (fun w => w ++ [Removed path]);
  popen c cwd := smodify (fun w => w ++ [Started c cwd]);
  communicate c cwd := do* smodify (fun w => w ++ [Started c cwd]) in sret (B "out", []) }.

Definition example_request (m : method) (path ip : string) (form : list (string * string)) : http_request :=
  {| rq_method := m; rq_path := path; rq_ip := ip; rq_form := form; rq_files := [] |}.
Definition example_agent : agent (list effect) := set_client_ip "192.168.1.1" (agent_init [Stored "C:\a" (B "x")]).


Lemma agent_sends_no_binary_witness :
  (serve_agent (example_request POST "/retrieve" "192.168.1.1" [("filepath", "C:\a")]) example_agent).1 = Reply 200 Missing.
Proof.
  by apply (agent_sends_no_binary example_agent (example_request POST "/retrieve" "192.168.1.1" [("filepath", "C:\a")])) with "C:\a" "x"%char [].
Defined.
