(* ===== verification/Guest.v ===== *)
(** The host's side of the guest: GuestManager of lib/cuckoo/core/guest.py,
    against an interface for the connection to the agent, the database and the
    clock, and together with the agent of Agent.v. *)
From S2P Require Import Prelude Struct Pretty ProcessLog Agent.
Open Scope string_scope.
Open Scope list_scope.
Open Scope Z_scope.

(** ** The outside *)

Inductive connection := Connected | TimedOut | Refused.

(** The guest table, [self.do_run], which another thread may clear, the clock in
    milliseconds and the network. [http] raises what [requests] raises;
    [Closed] is its [ConnectionError]. *)
Class host (W : Type) := {
  guest_get_status : W -> option string;
  guest_set_status : string -> W -> W;
  do_run : W -> bool;
  now : W -> Z;
  sleep1 : W -> W;
  connect : W -> connection * W;
  http : http_request -> st W http_reply }.

(** Time passes where the code waits for a second. *)
Class host_laws (W : Type) `{host W} : Prop := {
  sleep_second w : now w + 1000 <= now (sleep1 w);
  connect_second w : (connect w).1 = TimedOut -> now w + 1000 <= now (connect w).2;
  connect_forward w : now w <= now (connect w).2;
  http_forward rq w : now w <= now (http rq w).2;
  http_ends rq w : (http rq w).1 <> Raise OutOfFuel }.

(** The files of the host: the archive of the analyzer, the walk below a folder
    and the contents of a file. *)
Class host_files := {
  analyzer_zipfile : string -> res bytes;
  os_walk : string -> list (string * list string);
  open_rb : string -> res bytes }.

(** A value of the options as it is written to the configuration. *)
Inductive option_value := Shown (s : string) | Datetime (year month day hour minute second : Z).

(** The options of the task, and those the manager looks at. *)
Record task_options := {
  o_items : list (string * option_value); o_timeout : Z; o_options : string; o_category : string; o_target : string;
  o_file_name : string }.

Section guest.
Context {W : Type} `{host W} `{host_files}.
Context (platform own_ip : string) (critical_timeout : Z) (sys_executable : string).

(** [GuestManager]; the constant fields are the parameters above. *)
Record guest := { timeout : Z; analyzer_path : option string; g_environ : jval; outside : W }.
Definition guest_init (w : W) : guest := {| timeout := 0; analyzer_path := None; g_environ := JDict []; outside := w |}.
Definition set_timeout (t : Z) (g : guest) : guest :=
  {| timeout := t; analyzer_path := analyzer_path g; g_environ := g_environ g; outside := outside g |}.
Definition set_analyzer_path (p : string) (g : guest) : guest :=
  {| timeout := timeout g; analyzer_path := Some p; g_environ := g_environ g; outside := outside g |}.
Definition set_guest_environ (e : jval) (g : guest) : guest :=
  {| timeout := timeout g; analyzer_path := analyzer_path g; g_environ := e; outside := outside g |}.
Definition set_outside (w : W) (g : guest) : guest :=
  {| timeout := timeout g; analyzer_path := analyzer_path g; g_environ := g_environ g; outside := w |}.

Definition db_status : st guest (option string) := fun g => (Ok (guest_get_status (outside g)), g).
Definition db_set_status (s : string) : st guest unit := smodify (fun g => set_outside (guest_set_status s (outside g)) g).

(** [session.get] and [session.post]; [ConnectionError] becomes a
    [CuckooGuestError]. *)
Definition send (rq : http_request) : st guest (Z * body) := fun g =>
  let '(r, w) := http rq (outside g) in
  (match r with Ok Closed => Raise CuckooGuestError | Ok (Reply code b) => Ok (code, b) | Raise e => Raise e end,
   set_outside w g).
Definition raise_for_status (r : Z * body) : res body :=
  if (400 <=? r.1) && (r.1 <? 600) then Raise OtherException else Ok r.2.

Definition get_request (path : string) : http_request :=
  {| rq_method := GET; rq_path := path; rq_ip := own_ip; rq_form := []; rq_files := [] |}.
Definition post_request (path : string) (data : list (string * string)) (files : list (string * bytes)) : http_request :=
  {| rq_method := POST; rq_path := path; rq_ip := own_ip; rq_form := data; rq_files := files |}.
Definition get (path : string) : st guest body := let* r := send (get_request path) in slift (raise_for_status r).
Definition post (path : string) (files : list (string * bytes)) (data : list (string * string)) : st guest body :=
  let* r := send (post_request path data files) in slift (raise_for_status r).

(** [r.json()], of an object. *)
Definition json_body (b : body) : res (list (string * jval)) :=
  match b with Json l => Ok l | Contents _ | Missing | ErrorPage => Raise ValueError end.
Definition json_item (k : string) (l : list (string * jval)) : res jval := of_option KeyError (form_get k l).
Definition json_text (v : jval) : res string := match v with JStr s => Ok s | _ => Raise TypeError end.
(** [k in v]. *)
Definition json_in (k : string) (v : jval) : res bool :=
  match v with
  | JStrs l => Ok (bool_decide (k ∈ l))
  | JStr s => Ok (str_contains k s)
  | JDict l => Ok (bool_decide (k ∈ l.*1))
  | JInt _ | JNull | JBytes _ => Raise TypeError
  end.

(** ** Waiting for the agent *)

(** [CuckooGuestCriticalTimeout] is a [CuckooGuestError]. *)
Fixpoint wait_available_loop (fuel : nat) (finish : Z) : st guest unit := fun g =>
  if negb (bool_decide (guest_get_status (outside g) = Some "starting") && do_run (outside g)) then (Ok tt, g) else
  match fuel with
  | O => (Raise OutOfFuel, g)
  | S fuel' =>
      let '(c, w) := connect (outside g) in
      match c with
      | Connected => (Ok tt, set_outside w g)
      | TimedOut | Refused =>
          let w := match c with Refused => sleep1 w | _ => w end in
          if finish <? now w then (Raise CuckooGuestError, set_outside w g)
          else wait_available_loop fuel' finish (set_outside w g)
      end
  end.
(** Each round takes a second. *)
Definition rounds_of (t : Z) : nat := S (S (Z.to_nat t)).
Definition wait_available : st guest unit := fun g =>
  wait_available_loop (rounds_of (timeout g)) (now (outside g) + timeout g * 1000) g.

(** ** Uploads *)

Definition py_join (a b : string) : string := text (os_path_join (B a) (B b)).
Definition dirname (p : string) : string := text (os_path_split (B p)).1.

Definition query_environ : st guest unit :=
  let* b := get "/environ" in
  let* e := slift (let! l := json_body b in json_item "environ" l) in
  smodify (set_guest_environ e).

Definition environ_item (k : string) : st guest string := fun g =>
  (match g_environ g with
   | JDict l => of_option KeyError (form_get k l)
   | _ => Raise TypeError
   end, g).
Definition determine_system_drive : st guest string :=
  if bool_decide (platform = "windows") then let* d := environ_item "SYSTEMDRIVE" in sret (d +:+ "/") else sret "/".
Definition determine_temp_path : st guest string :=
  if bool_decide (platform = "windows") then environ_item "TEMP" else sret "/tmp".

(** lib/cuckoo/common/config.py. *)
Definition strip_text (s : string) : string := text (strip_ws (B s)).
Definition parse_options (options : string) : list (string * string) :=
  fold_left (fun ret field =>
    match find_byte "="%char (B field) with
    | None => ret
    | Some i => dict_set (strip_text (text (take i (B field)))) (strip_text (text (drop (S i) (B field)))) ret
    end) (split_on ","%char options) [].

Definition determine_analyzer_path (o : task_options) : st guest unit :=
  let* systemdrive := determine_system_drive in
  let analpath := form_get "analpath" (parse_options (o_options o)) in
  if truthy analpath then
    let dirpath := systemdrive +:+ default "" analpath in
    do* post "/mkdir" [] [("dirpath", dirpath)] in
    smodify (set_analyzer_path dirpath)
  else
    let* b := post "/mkdtemp" [] [("dirpath", systemdrive)] in
    let* d := slift (let! l := json_body b in let! v := json_item "dirpath" l in json_text v) in
    smodify (set_analyzer_path d).

(** [self.analyzer_path], once it is set. *)
Definition the_path : st guest string := fun g => (of_option TypeError (analyzer_path g), g).

Definition upload_analyzer (o : task_options) : st guest unit :=
  let* zip_data := slift (analyzer_zipfile platform) in
  do* determine_analyzer_path o in
  let* path := the_path in
  do* post "/extract" [("zipfile", zip_data)] [("dirpath", path)] in sret tt.

(** [%Y%m%dT%H:%M:%S], of a year from 1000 on. *)
Definition pad2 (n : Z) : string := if n <? 10 then "0" +:+ str_int n else str_int n.
Definition show_option (v : option_value) : string :=
  match v with
  | Shown s => s
  | Datetime y m d h mi s => str_int y +:+ pad2 m +:+ pad2 d +:+ "T" +:+ pad2 h +:+ ":" +:+ pad2 mi +:+ ":" +:+ pad2 s
  end.
Definition newline : string := String "010"%char EmptyString.
Definition config_text (o : task_options) : string :=
  join newline ("[analysis]" :: ((fun kv => kv.1 +:+ " = " +:+ show_option kv.2) <$> o_items o)).
Definition add_config (o : task_options) : st guest unit :=
  let* path := the_path in
  do* post "/store" [("file", B (config_text o))] [("filepath", py_join path "analysis.conf")] in sret tt.

(** The files below the folder of the target, without the target. *)
Definition support_files (o : task_options) : list (string * string) :=
  concat (map (fun d => filter (fun f => f.1 <> o_target o) (map (fun xf => (py_join d.1 xf, xf)) d.2))
            (os_walk (dirname (o_target o)))).
Fixpoint upload_files (l : list (string * string)) : st guest unit :=
  match l with
  | [] => sret tt
  | (target, xf) :: l' =>
      let* temp := determine_temp_path in
      let* data := slift (open_rb target) in
      do* post "/store" [("file", data)] [("filepath", py_join temp xf)] in
      upload_files l'
  end.
Definition upload_support_files (o : task_options) : st guest unit := upload_files (support_files o).

Definition upload_target (o : task_options) : st guest unit :=
  if bool_decide (o_category o = "file" \/ o_category o = "archive") then
    let* temp := determine_temp_path in
    let* data := slift (open_rb (o_target o)) in
    do* post "/store" [("file", data)] [("filepath", py_join temp (o_file_name o))] in sret tt
  else sret tt.

Definition execute_analyzer (execpy : bool) : st guest unit :=
  let* path := the_path in
  if execpy then
    do* post "/execpy" [] [("filepath", py_join path "analyzer.py"); ("async", "yes"); ("cwd", path)] in sret tt
  else
    do* post "/execute" [] [("command", sys_executable +:+ " " +:+ path +:+ "\analyzer.py"); ("async", "yes"); ("cwd", path)] in
    sret tt.

(** What follows when the agent has shown its features. *)
Definition prepare (features : jval) (o : task_options) : st guest unit :=
  let* pinning := slift (json_in "pinning" features) in
  do* (if pinning then do* get "/pinning" in sret tt else sret tt) in
  do* query_environ in
  do* upload_analyzer o in
  do* add_config o in
  do* upload_target o in
  do* upload_support_files o in
  let* execpy := slift (json_in "execpy" features) in
  execute_analyzer execpy.

Definition start_analysis (o : task_options) : st guest unit :=
  do* smodify (set_timeout (o_timeout o + critical_timeout)) in
  do* wait_available in
  let* g := sget in
  if negb (do_run (outside g)) then sret tt else
  let* s := db_status in
  if negb (bool_decide (s = Some "starting")) then sret tt else
  let* r := send (get_request "/") in
  if negb (r.1 =? 200) then db_set_status "failed" else
  match json_body r.2 with
  | Raise _ => db_set_status "failed"
  | Ok l => prepare (default (JStrs []) (form_get "features" l)) o
  end.

(** ** Waiting for the end *)

(** The answer to [/status]; [None]: it failed, and the loop goes on. *)
Definition poll_status : st guest (option (list (string * jval))) := fun g =>
  let '(r, g') := (let* b := get "/status" in slift (json_body b)) g in
  (match r with Ok l => Ok (Some l) | Raise OutOfFuel => Raise OutOfFuel | Raise _ => Ok None end, g').

Fixpoint wait_completion_loop (fuel : nat) (finish : Z) : st guest unit := fun g =>
  if negb (bool_decide (guest_get_status (outside g) = Some "running") && do_run (outside g)) then (Ok tt, g) else
  match fuel with
  | O => (Raise OutOfFuel, g)
  | S fuel' =>
      let w := sleep1 (outside g) in
      if finish <? now w then (Ok tt, set_outside w g) else
      (let* o := poll_status in
       match o with
       | None => wait_completion_loop fuel' finish
       | Some l =>
           let* s := slift (json_item "status" l) in
           if bool_decide (s = JStr "complete") then db_set_status "complete"
           else if bool_decide (s = JStr "exception") then
             let* d := slift (json_item "description" l) in db_set_status "failed"
           else wait_completion_loop fuel' finish
       end) (set_outside w g)
  end.
Definition wait_for_completion : st guest unit := fun g =>
  wait_completion_loop (rounds_of (timeout g)) (now (outside g) + timeout g * 1000) g.
End guest.
Arguments guest _ : clear implicits.

(** ** The loops end *)

Section waits.
Context {W : Type} `{Hhost : host W} {Hlaws : host_laws W} (own_ip : string).

Lemma wait_available_in fuel : forall finish (g : guest W),
  (0 < Z.of_nat fuel \/ now (outside g) <= finish) -> finish - now (outside g) < Z.of_nat fuel * 1000 ->
  (wait_available_loop fuel finish g).1 <> Raise OutOfFuel.
Proof using Hlaws.
  induction fuel as [|fuel IH]; intros finish g Hf Ht; cbn [wait_available_loop]; destruct (negb _); try done; [lia|].
  pose proof (connect_second (outside g)) as H1. pose proof (connect_forward (outside g)) as H2.
  destruct (connect (outside g)) as [c w]. cbn [fst snd] in *. pose proof (sleep_second w) as H3.
  destruct c; [done|specialize (H1 eq_refl)|clear H1];
    (match goal with |- context [finish <? ?n] => destruct (Z.ltb_spec finish n) end; [done|]);
    apply IH; cbn [outside set_outside]; lia.
Qed.

Lemma poll_result (g : guest W) :
  let '(r, g') := poll_status own_ip g in
  r <> Raise OutOfFuel /\ now (outside g) <= now (outside g') /\ timeout g' = timeout g.
Proof using Hlaws.
  unfold poll_status, get, send, sbind. pose proof (http_forward (get_request own_ip "/status") (outside g)) as H1.
  pose proof (http_ends (get_request own_ip "/status") (outside g)) as H2.
  destruct (http _ _) as [r w]. cbn [fst snd] in *. destruct r as [[|code b]|e]; [by split_and!| |destruct e; by split_and!].
  unfold slift, raise_for_status. cbn [fst snd]. destruct (_ && _); [by split_and!|]. by destruct b.
Qed.

Lemma wait_completion_in fuel : forall finish (g : guest W),
  (0 < Z.of_nat fuel \/ now (outside g) <= finish) -> finish - now (outside g) < Z.of_nat fuel * 1000 ->
  (wait_completion_loop own_ip fuel finish g).1 <> Raise OutOfFuel.
Proof using Hlaws.
  induction fuel as [|fuel IH]; intros finish g Hf Ht; cbn [wait_completion_loop]; destruct (negb _); try done; [lia|].
  pose proof (sleep_second (outside g)) as H1. destruct (Z.ltb_spec finish (now (sleep1 (outside g)))); [done|].
  unfold sbind at 1. pose proof (poll_result (set_outside (sleep1 (outside g)) g)) as Hp.
  destruct (poll_status _ _) as [[o|e] g1]; destruct Hp as (H2 & H3 & _); [|by cbn; congruence]. cbn [outside set_outside] in H3.
  assert (IH' : (wait_completion_loop own_ip fuel finish g1).1 <> Raise OutOfFuel) by (apply IH; lia).
  destruct o as [l|]; [|done]. unfold sbind, slift, json_item. destruct (form_get "status" l) as [s|]; [|done]. cbn [of_option].
  destruct (bool_decide _); [done|]. destruct (bool_decide _); [|done]. by destruct (form_get "description" l).
Qed.

(** Waiting for the agent and waiting for the end of the analysis both end,
    whatever the guest, the network and the database answer: each round takes a
    second and the rounds stop at the timeout. *)
Theorem guest_waits_end (g : guest W) :
  (wait_available g).1 <> Raise OutOfFuel /\ (wait_for_completion own_ip g).1 <> Raise OutOfFuel.
Proof using Hlaws.
  unfold wait_available, wait_for_completion, rounds_of. split; [apply wait_available_in|apply wait_completion_in]; lia.
Qed.
End waits.

(** ** The manager and the agent *)

(** One guest with its agent, and what the host knows of it. *)
Record system (W : Type) := { sys_agent : agent W; sys_status : option string; sys_run : bool; sys_now : Z }.
Arguments sys_agent {W}. Arguments sys_status {W}. Arguments sys_run {W}. Arguments sys_now {W}.
Arguments Build_system {W}.

#[export] Instance system_host `{guest_os W} : host (system W) := {
  guest_get_status := sys_status;
  guest_set_status s w := {| sys_agent := sys_agent w; sys_status := Some s; sys_run := sys_run w; sys_now := sys_now w |};
  do_run := sys_run;
  now := sys_now;
  sleep1 w := {| sys_agent := sys_agent w; sys_status := sys_status w; sys_run := sys_run w; sys_now := sys_now w + 1000 |};
  connect w := (if serving (sys_agent w) then Connected else Refused, w);
  http rq w :=
    let '(r, a) := serve_agent rq (sys_agent w) in
    (Ok r, {| sys_agent := a; sys_status := sys_status w; sys_run := sys_run w; sys_now := sys_now w |}) }.

#[export] Instance system_laws `{guest_os W} : host_laws (system W).
Proof.
  split; cbn; intros; try lia; [by destruct (serving (sys_agent w))| |]; by destruct (serve_agent rq (sys_agent w)).
Qed.

Section script.
Context {W : Type} `{guest_os W} `{host_files}.
Context (platform own_ip : string) (critical_timeout : Z) (sys_executable : string).

(** The specification: what [start_analysis] does to the guest, without a
    network. An operation that fails there is an HTTP error here. *)
Definition remote {A} (m : st W A) : st W A := fun w =>
  match m w with (Ok a, w') => (Ok a, w') | (Raise _, w') => (Raise OtherException, w') end.
Definition env_item (env : list (string * string)) (k : string) : res string := of_option KeyError (form_get k env).
Definition script_temp (env : list (string * string)) : res string :=
  if bool_decide (platform = "windows") then env_item env "TEMP" else Ok "/tmp".
Definition script_drive (env : list (string * string)) : res string :=
  if bool_decide (platform = "windows") then let! d := env_item env "SYSTEMDRIVE" in Ok (d +:+ "/") else Ok "/".
Definition script_folder (env : list (string * string)) (o : task_options) : st W string :=
  let* drive := slift (script_drive env) in
  let analpath := form_get "analpath" (parse_options (o_options o)) in
  if truthy analpath then
    do* remote (makedirs (drive +:+ default "" analpath) 511) in sret (drive +:+ default "" analpath)
  else remote (mkdtemp "" "tmp" (Some drive)).
Fixpoint script_files (env : list (string * string)) (l : list (string * string)) : st W unit :=
  match l with
  | [] => sret tt
  | (target, xf) :: l' =>
      let* temp := slift (script_temp env) in
      let* data := slift (open_rb target) in
      do* remote (store (py_join temp xf) data) in
      script_files env l'
  end.
Definition script_target (env : list (string * string)) (o : task_options) : st W unit :=
  if bool_decide (o_category o = "file" \/ o_category o = "archive") then
    let* temp := slift (script_temp env) in
    let* data := slift (open_rb (o_target o)) in
    remote (store (py_join temp (o_file_name o)) data)
  else sret tt.
Definition guest_script (o : task_options) : st W unit :=
  let* w := sget in
  let* zip_data := slift (analyzer_zipfile platform) in
  let* path := script_folder (os_environ w) o in
  do* remote (extractall zip_data path) in
  do* remote (store (py_join path "analysis.conf") (B (config_text o))) in
  do* script_target (os_environ w) o in
  do* script_files (os_environ w) (support_files o) in
  remote (popen (Python (py_join path "analyzer.py")) (Some path)).

(** The manager is connected to the pinned agent, whose guest is [w]. *)
Definition linked (env : list (string * string)) (path : option string) (g : guest (system W)) (w : W) : Prop :=
  client_ip (sys_agent (outside g)) = Some own_ip /\ serving (sys_agent (outside g)) = true /\
  os (sys_agent (outside g)) = w /\ sys_status (outside g) = Some "starting" /\
  g_environ g = JDict env /\ analyzer_path g = path.

(** [m] on the host does what [n] does in the guest. *)
Definition simulates {A} (env : list (string * string)) (p : option string) (q : A -> option string)
    (m : st (guest (system W)) A) (n : st W A) : Prop :=
  forall g w, linked env p g w ->
  (m g).1 = (n w).1 /\ os (sys_agent (outside (m g).2)) = (n w).2 /\
  forall a, (n w).1 = Ok a -> linked env (q a) (m g).2 (n w).2.

Lemma sim_bind {A C} env p (q : A -> option string) (q' : C -> option string) m n f h :
  simulates env p q m n -> (forall a, simulates env (q a) q' (f a) (h a)) -> simulates env p q' (sbind m f) (sbind n h).
Proof using Type.
  intros Hm Hf g w Hl. destruct (Hm g w Hl) as (H1 & H2 & H3). unfold sbind.
  destruct (m g) as [r g1], (n w) as [r' w1]. cbn [fst snd] in *. subst r'. destruct r as [a|e]; [|done].
  by apply (Hf a), H3.
Qed.
Lemma sim_ret {A} env p (a : A) : simulates env p (fun _ => p) (sret a) (sret a).
Proof using Type. intros g w Hl. split; [done|]. split; [by destruct Hl as (_ & _ & ? & _)|]. done. Qed.
Lemma sim_lift {A} env p (r : res A) : simulates env p (fun _ => p) (slift r) (slift r).
Proof using Type. intros g w Hl. split; [done|]. split; [by destruct Hl as (_ & _ & ? & _)|]. done. Qed.

(** A request that the agent answers with the outcome of an operation. *)
Lemma sim_post {A} env p path files form (fn : @handler W) (m : st W A) (ok : A -> list (string * jval)) ko k :
  find_route POST path (@routes W _) = Some fn ->
  (forall a, client_ip a = Some own_ip -> let '(r, w) := m (os a) in
     exists a', fn (post_request own_ip path form files) a
       = (Ok (match r with Ok x => jsonify 200 (ok x) | Raise _ => json_exception ko end), a') /\
     os a' = w /\ client_ip a' = client_ip a /\ serving a' = serving a) ->
  (forall x, forallb (fun kv => serializable kv.2) (ok x) = true /\ k (Json (ok x)) = Ok x) ->
  simulates env p (fun _ => p) (let* b := post own_ip path files form in slift (k b)) (remote m).
Proof using Type.
  intros Hr Hfn Hok g w (Hc & Hs & Hw & Hst & He & Hp). unfold remote. specialize (Hfn _ Hc). rewrite Hw in Hfn.
  unfold post, send, sbind. cbn [http system_host]. unfold serve_agent, handle, ignored, received. rewrite Hs, Hc.
  cbn [rq_ip rq_method rq_path post_request]. rewrite (bool_decide_true (own_ip = own_ip)) by done. cbn [negb andb]. rewrite Hr.
  destruct (m w) as [r w']. destruct Hfn as (a' & Hfn & Hos & Hc' & Hs'). rewrite Hfn. destruct r as [x|e]; cbn [respond].
  - destruct (Hok x) as [H1 H2]. rewrite H1. cbn. rewrite H2. split_and!; [done|done|]. intros a [= <-].
    split_and!; cbn; congruence.
  - cbn. split_and!; done.
Qed.

(** The same for an answer that is not looked at. *)
Lemma sim_post_unit {A} env p path files form (fn : @handler W) (m : st W A) ok ko :
  find_route POST path (@routes W _) = Some fn -> forallb (fun kv => serializable kv.2) ok = true ->
  (forall a, client_ip a = Some own_ip -> let '(r, w) := m (os a) in
     exists a', fn (post_request own_ip path form files) a
       = (Ok (match r with Ok x => jsonify 200 ok | Raise _ => json_exception ko end), a') /\
     os a' = w /\ client_ip a' = client_ip a /\ serving a' = serving a) ->
  simulates env p (fun _ => p) (do* post own_ip path files form in sret tt) (do* remote m in sret tt).
Proof using Type.
  intros Hr Hok Hfn.
  assert (Hs : simulates env p (fun _ => p) (let* b := post own_ip path files form in slift ((fun _ => Ok tt) b)) (remote (do* m in sret tt))).
  { apply (sim_post env p path files form fn (do* m in sret tt) (fun _ => ok) ko (fun _ => Ok tt) Hr); [|intros []; by split].
    intros a Ha. specialize (Hfn a Ha). unfold sbind. by destruct (m (os a)) as [[x|e] w']. }
  intros g w Hl. destruct (Hs g w Hl) as (H1 & H2 & H3). unfold remote, sbind, slift, sret in *.
  destruct (post own_ip path files form g) as [[b|e] g'], (m w) as [[x|e'] w']; cbn [fst snd] in *; by split_and!.
Qed.

Lemma form_get_here {A} k (v : A) l : form_get k ((k, v) :: l) = Some v.
Proof using Type. cbn. by rewrite bool_decide_true. Qed.
Lemma form_get_next {A} k k' (v : A) l : k <> k' -> form_get k ((k', v) :: l) = form_get k l.
Proof using Type. intros Hk. cbn. by rewrite bool_decide_false. Qed.

(** Evaluates a handler on a concrete form. *)
Ltac form_tac :=
  cbn [rq_form rq_files post_request]; repeat first [rewrite form_get_here | rewrite form_get_next by done]; cbn [form_get default];
  unfold sbind, slift, attempt, on_os.

Lemma sim_store env p path data :
  simulates env p (fun _ => p) (do* post own_ip "/store" [("file", data)] [("filepath", path)] in sret tt)
    (do* remote (store path data) in sret tt).
Proof using Type.
  apply (sim_post_unit env p _ _ _ do_store _ [("message", JStr "Successfully stored file")] "Error storing file"); [done|done|].
  intros a Ha. unfold do_store. form_tac. destruct (store path data (os a)) as [[u|e] w];
    (eexists; split_and!; [done|done..]).
Qed.

Lemma sim_extract env p path data :
  simulates env p (fun _ => p) (do* post own_ip "/extract" [("zipfile", data)] [("dirpath", path)] in sret tt)
    (do* remote (extractall data path) in sret tt).
Proof using Type.
  apply (sim_post_unit env p _ _ _ do_extract _ [("message", JStr "Successfully extracted zip file")] "Error extracting zip file"); [done|done|].
  intros a Ha. unfold do_extract. form_tac. destruct (extractall data path (os a)) as [[u|e] w];
    (eexists; split_and!; [done|done..]).
Qed.

Lemma sim_mkdir env p path :
  simulates env p (fun _ => p) (do* post own_ip "/mkdir" [] [("dirpath", path)] in sret tt)
    (do* remote (makedirs path 511) in sret tt).
Proof using Type.
  apply (sim_post_unit env p _ _ _ do_mkdir _ [("message", JStr "Successfully created directory")] "Error creating directory"); [done|done|].
  intros a Ha. unfold do_mkdir. form_tac. destruct (makedirs path 511 (os a)) as [[u|e] w];
    (eexists; split_and!; [done|done..]).
Qed.

Lemma sim_mkdtemp env p dir :
  simulates env p (fun _ => p)
    (let* b := post own_ip "/mkdtemp" [] [("dirpath", dir)] in
     slift (let! l := json_body b in let! v := json_item "dirpath" l in json_text v))
    (remote (mkdtemp "" "tmp" (Some dir))).
Proof using Type.
  apply (sim_post env p _ _ _ do_mkdtemp _
           (fun d => [("message", JStr "Successfully created temporary directory"); ("dirpath", JStr d)])
           "Error creating temporary directory"); [done| |done].
  intros a Ha. unfold do_mkdtemp. form_tac. destruct (mkdtemp "" "tmp" (Some dir) (os a)) as [[d|e] w];
    (eexists; split_and!; [done|done..]).
Qed.

Lemma sim_execpy env p path cwd :
  simulates env p (fun _ => p)
    (do* post own_ip "/execpy" [] [("filepath", path); ("async", "yes"); ("cwd", cwd)] in sret tt)
    (do* remote (popen (Python path) (Some cwd)) in sret tt).
Proof using Type.
  apply (sim_post_unit env p _ _ _ do_execpy _
           [("message", JStr "Successfully executed command"); ("stdout", JNull); ("stderr", JNull)] "Error executing command"); [done|done|].
  intros a Ha. unfold do_execpy, run_command. form_tac. destruct (popen (Python path) (Some cwd) (os a)) as [[u|e] w];
    (eexists; split_and!; [done|done..]).
Qed.

(** ** The whole preparation *)

(** The same when the two results have different types. *)
Definition simulates_as {A C} (env : list (string * string)) (p : option string) (f : C -> A) (q : C -> option string)
    (m : st (guest (system W)) A) (n : st W C) : Prop :=
  forall g w, linked env p g w ->
  (m g).1 = (let! c := (n w).1 in Ok (f c)) /\ os (sys_agent (outside (m g).2)) = (n w).2 /\
  forall c, (n w).1 = Ok c -> linked env (q c) (m g).2 (n w).2.

Lemma sim_as {A} env p q (m : st (guest (system W)) A) n : simulates env p q m n -> simulates_as env p (fun x => x) q m n.
Proof using Type. intros Hm g w Hl. destruct (Hm g w Hl) as (H1 & H2 & H3). split_and!; [rewrite H1; by destruct (n w).1|done|done]. Qed.

Lemma sim_as_bind {A C A' C'} env p (f : C -> A) q (f' : C' -> A') q' m n F K :
  simulates_as env p f q m n -> (forall c, simulates_as env (q c) f' q' (F (f c)) (K c)) ->
  simulates_as env p f' q' (sbind m F) (sbind n K).
Proof using Type.
  intros Hm Hf g w Hl. destruct (Hm g w Hl) as (H1 & H2 & H3). unfold sbind.
  destruct (m g) as [r g1], (n w) as [r' w1]. cbn [fst snd] in *. subst r. destruct r' as [c|e]; [|done].
  by apply (Hf c), H3.
Qed.

Lemma sim_as_ext {A C} env p (f : C -> A) q m m' n n' :
  (forall g, m g = m' g) -> (forall w, n w = n' w) -> simulates_as env p f q m n -> simulates_as env p f q m' n'.
Proof using Type. intros Hm Hn Hs g w Hl. rewrite <- Hm, <- Hn. by apply Hs. Qed.

Lemma sbind_assoc {S A C D} (m : st S A) (f : A -> st S C) (h : C -> st S D) s :
  sbind (sbind m f) h s = sbind m (fun x => sbind (f x) h) s.
Proof using Type. unfold sbind. by destruct (m s) as [[x|e] s']. Qed.

Lemma sim_unit_end env p m (n : st W unit) :
  simulates env p (fun _ => p) m (do* n in sret tt) -> simulates env p (fun _ => p) m n.
Proof using Type. intros Hs g w Hl. specialize (Hs g w Hl). unfold sbind in Hs. by destruct (n w) as [[[]|e] w']. Qed.

Lemma the_path_bind {A} env p g w (f : string -> st (guest (system W)) A) :
  linked env (Some p) g w -> sbind the_path f g = f p g.
Proof using Type. intros (_ & _ & _ & _ & _ & Hp). unfold sbind, the_path. by rewrite Hp. Qed.

Lemma linked_path env p d g w : linked env p g w -> linked env (Some d) (set_analyzer_path d g) w.
Proof using Type. intros (Hc & Hs & Hw & Hst & He & Hp). by split_and!. Qed.

Lemma sim_env env p k : simulates env p (fun _ => p) (environ_item k) (slift (env_item env k)).
Proof using Type.
  intros g w Hl. unfold environ_item. assert (Hl' := Hl). destruct Hl' as (Hc & Hs & Hw & Hst & He & Hp). rewrite He. by split_and!.
Qed.

Lemma sim_temp env p : simulates env p (fun _ => p) (determine_temp_path platform) (slift (script_temp env)).
Proof using Type.
  unfold determine_temp_path, script_temp. destruct (bool_decide _); [apply sim_env|]. intros g w Hl. by apply (sim_lift env p (Ok "/tmp")).
Qed.

Lemma sim_drive env p : simulates env p (fun _ => p) (determine_system_drive platform) (slift (script_drive env)).
Proof using Type.
  unfold determine_system_drive, script_drive. destruct (bool_decide _); [|intros g w Hl; by apply (sim_lift env p (Ok "/"))].
  intros g w Hl. destruct (sim_env env p "SYSTEMDRIVE" g w Hl) as (H1 & H2 & H3). unfold sbind, slift in *.
  destruct (environ_item "SYSTEMDRIVE" g) as [r g']. cbn [fst snd] in *. subst r.
  destruct (env_item env "SYSTEMDRIVE") as [d|e]; split_and!; try done. intros a _. by apply (H3 d).
Qed.

(** Where the analyzer goes. *)
Lemma sim_folder env p o :
  simulates_as env p (fun _ => tt) Some (determine_analyzer_path platform own_ip o) (script_folder env o).
Proof using Type.
  unfold determine_analyzer_path, script_folder. eapply sim_as_bind; [apply sim_as, sim_drive|]. intros drive. cbn beta.
  destruct (truthy _).
  - intros g w Hl. destruct (sim_mkdir env p (drive +:+ default "" (form_get "analpath" (parse_options (o_options o)))) g w Hl) as (H1 & H2 & H3).
    unfold remote, sbind, sret in *. destruct (post own_ip "/mkdir" [] _ g) as [[b|e] g'], (makedirs _ 511 w) as [[u|e'] w'];
      cbn [fst snd] in *; try discriminate; [|injection H1 as ->; by split_and!]. split_and!; [done|done|]. intros c [= <-].
    by apply (linked_path env p), (H3 tt).
  - intros g w Hl. destruct (sim_mkdtemp env p drive g w Hl) as (H1 & H2 & H3). unfold remote, sbind, slift in *.
    destruct (post own_ip "/mkdtemp" [] _ g) as [[b|e] g'], (mkdtemp "" "tmp" (Some drive) w) as [[d|e'] w']; cbn [fst snd] in *;
      try discriminate; [rewrite H1|rewrite H1; by split_and!|injection H1 as ->; by split_and!].
    split_and!; [done|done|]. intros c [= <-]. by apply (linked_path env p), (H3 d).
Qed.

Lemma sim_upload env p o :
  simulates_as env p (fun _ => tt) Some (upload_analyzer platform own_ip o)
    (let* zip_data := slift (analyzer_zipfile platform) in
     let* path := script_folder env o in
     do* remote (extractall zip_data path) in sret path).
Proof using Type.
  unfold upload_analyzer. eapply sim_as_bind; [apply sim_as, sim_lift|]. intros zip. cbn beta.
  eapply sim_as_bind; [apply sim_folder|]. intros path g w Hl. cbn beta.
  destruct (sim_extract env (Some path) path zip g w Hl) as (H1 & H2 & H3). rewrite (the_path_bind _ _ _ _ _ Hl). unfold sbind, sret in *.
  destruct (post own_ip "/extract" _ _ g) as [[b|e] g'], (remote (extractall zip path) w) as [[u|e'] w']; cbn [fst snd] in *;
    try discriminate; [|injection H1 as ->; by split_and!].
  split_and!; [done|done|]. intros c [= <-]. by apply (H3 tt).
Qed.

Lemma sim_config env path o :
  simulates env (Some path) (fun _ => Some path) (add_config own_ip o)
    (remote (store (py_join path "analysis.conf") (B (config_text o)))).
Proof using Type.
  apply sim_unit_end. unfold add_config. intros g w Hl. rewrite (the_path_bind _ _ _ _ _ Hl). by apply (sim_store env (Some path)).
Qed.

Lemma sim_target env p o : simulates env p (fun _ => p) (upload_target platform own_ip o) (script_target env o).
Proof using Type.
  unfold upload_target, script_target. destruct (bool_decide _); [|apply sim_ret].
  eapply sim_bind; [apply sim_temp|]. intros temp. eapply sim_bind; [apply sim_lift|]. intros data. apply sim_unit_end, sim_store.
Qed.

Lemma sim_files env p l : simulates env p (fun _ => p) (upload_files platform own_ip l) (script_files env l).
Proof using Type.
  induction l as [|[target xf] l IH]; [apply sim_ret|]. cbn [upload_files script_files].
  eapply sim_bind; [apply sim_temp|]. intros temp. eapply sim_bind; [apply sim_lift|]. intros data. cbn beta.
  intros g w Hl.
  destruct (sim_bind env p (fun _ => p) (fun _ => p) _ _ (fun _ => upload_files platform own_ip l) (fun _ => script_files env l)
              (sim_unit_end env p _ _ (sim_store env p (py_join temp xf) data)) (fun _ => IH) g w Hl) as (H1 & H2 & H3).
  rewrite sbind_assoc in H1, H2, H3. by split_and!.
Qed.

Lemma sim_execute env path : simulates env (Some path) (fun _ => Some path) (execute_analyzer own_ip sys_executable true)
  (remote (popen (Python (py_join path "analyzer.py")) (Some path))).
Proof using Type.
  apply sim_unit_end. unfold execute_analyzer. intros g w Hl. rewrite (the_path_bind _ _ _ _ _ Hl). by apply (sim_execpy env (Some path)).
Qed.

(** The guest has booted and the agent waits for its first request. *)
Definition booted (t : Z) (w : W) : system W :=
  {| sys_agent := agent_init w; sys_status := Some "starting"; sys_run := true; sys_now := t |}.
Definition pinned (t : Z) (w : W) : system W :=
  {| sys_agent := Agent.set_client_ip own_ip (agent_init w); sys_status := Some "starting"; sys_run := true; sys_now := t |}.

Lemma get_environ_answer (g : guest (system W)) t w :
  outside g = pinned t w -> get own_ip "/environ" g =
  (Ok (Json [("message", JStr "Environment variables"); ("environ", JDict (os_environ w))]), set_outside (pinned t w) g).
Proof using Type.
  intros Hg. unfold get, send, sbind. rewrite Hg. cbn [http system_host pinned sys_agent]. unfold serve_agent, handle, ignored.
  cbn [serving client_ip Agent.set_client_ip agent_init get_request rq_ip]. by rewrite bool_decide_true.
Qed.

Lemma prepare_linked o t w (g : guest (system W)) :
  outside g = booted t w -> analyzer_path g = None ->
  exists g1, linked (os_environ w) None g1 w /\
    prepare platform own_ip sys_executable (JStrs AGENT_FEATURES) o g =
    (do* upload_analyzer platform own_ip o in do* add_config own_ip o in do* upload_target platform own_ip o in
     do* upload_support_files platform own_ip o in execute_analyzer own_ip sys_executable true) g1.
Proof using Type.
  intros Hg Hp. exists (set_guest_environ (JDict (os_environ w)) (set_outside (pinned t w) g)). split; [by split_and!|].
  unfold prepare. change (json_in "pinning" (JStrs AGENT_FEATURES)) with (Ok (A:=bool) true).
  change (json_in "execpy" (JStrs AGENT_FEATURES)) with (Ok (A:=bool) true).
  rewrite (sbind_ok _ _ _ true g) by done. rewrite (sbind_ok _ _ _ tt (set_outside (pinned t w) g)).
  2:{ unfold get, send, sbind. by rewrite Hg. }
  rewrite (sbind_ok _ _ _ tt (set_guest_environ (JDict (os_environ w)) (set_outside (pinned t w) g))); [done|].
  unfold query_environ. rewrite (sbind_ok _ _ _ _ _ (get_environ_answer (set_outside (pinned t w) g) t w eq_refl)). done.
Qed.

(** What the script does once the folder is there. *)
Definition script_rest (env : list (string * string)) (o : task_options) (path : string) : st W unit :=
  do* remote (store (py_join path "analysis.conf") (B (config_text o))) in
  do* script_target env o in
  do* script_files env (support_files o) in
  remote (popen (Python (py_join path "analyzer.py")) (Some path)).

Lemma script_split o w :
  guest_script o w =
  (let* path := (let* zip_data := slift (analyzer_zipfile platform) in
                 let* path := script_folder (os_environ w) o in
                 do* remote (extractall zip_data path) in sret path) in
   script_rest (os_environ w) o path) w.
Proof using Type.
  unfold guest_script, script_rest. unfold sbind at 1, sget. unfold sbind, slift, sret.
  destruct (analyzer_zipfile platform) as [zip|e]; [|done]. destruct (script_folder _ o w) as [[path|e] w1]; [|done].
  by destruct (remote (extractall zip path) w1) as [[u|e] w2].
Qed.

Lemma sim_prepared o (g : guest (system W)) w : linked (os_environ w) None g w ->
  let m := (do* upload_analyzer platform own_ip o in do* add_config own_ip o in do* upload_target platform own_ip o in
            do* upload_support_files platform own_ip o in execute_analyzer own_ip sys_executable true) in
  (m g).1 = (guest_script o w).1 /\ os (sys_agent (outside (m g).2)) = (guest_script o w).2 /\
  ((m g).1 = Ok tt -> exists path, linked (os_environ w) (Some path) (m g).2 (guest_script o w).2).
Proof using Type.
  intros Hl m. rewrite script_split. set (env := os_environ w) in *.
  assert (Hr : forall path, simulates env (Some path) (fun _ => Some path)
            (do* add_config own_ip o in do* upload_target platform own_ip o in
             do* upload_support_files platform own_ip o in execute_analyzer own_ip sys_executable true) (script_rest env o path)).
  { intros path. unfold script_rest. eapply sim_bind; [apply sim_config|]. intros []. eapply sim_bind; [apply sim_target|]. intros [].
    eapply sim_bind; [apply sim_files|]. intros []. apply sim_execute. }
  destruct (sim_upload env None o g w Hl) as (H1 & H2 & H3). subst m.
  match goal with |- context [@sbind _ _ _ ?n (fun path => script_rest env o path) w] => set (up := n) in * end.
  match goal with |- context [@sbind _ _ _ (upload_analyzer _ _ _) ?f g] => set (rest := f) in * end.
  unfold sbind. destruct (upload_analyzer platform own_ip o g) as [r g'], (up w) as [r' w']. cbn [fst snd] in *. subst r.
  destruct r' as [path|e]; [|split_and!; done]. cbn [rbind]. destruct (Hr path g' w' (H3 path eq_refl)) as (G1 & G2 & G3).
  subst rest. cbn beta. split_and!; [done|done|]. intros Hok. exists path. apply (G3 tt). by rewrite <- G1.
Qed.

(** C4. Preparing the guest over the network does to its operating system what
    the script of the specification does directly, operation by operation, for
    every option, environment and failure: the two have the same result, leave
    the same state, and when they succeed the agent is pinned to the host and
    still serves it. *)
Theorem start_refines_script (o : task_options) (t : Z) (w : W) :
  let '(r, g) := start_analysis platform own_ip critical_timeout sys_executable o (guest_init (booted t w)) in
  r = (guest_script o w).1 /\ os (sys_agent (outside g)) = (guest_script o w).2 /\
  (r = Ok tt -> client_ip (sys_agent (outside g)) = Some own_ip /\ serving (sys_agent (outside g)) = true).
Proof using Type.
  set (g0 := set_timeout (o_timeout o + critical_timeout) (guest_init (booted t w))).
  assert (Hs : start_analysis platform own_ip critical_timeout sys_executable o (guest_init (booted t w)) =
               prepare platform own_ip sys_executable (JStrs AGENT_FEATURES) o g0) by done.
  rewrite Hs. destruct (prepare_linked o t w g0 eq_refl eq_refl) as (g1 & Hl & ->).
  pose proof (sim_prepared o g1 w Hl) as (H1 & H2 & H3). destruct ((sbind _ _) g1) as [r g]. cbn [fst snd] in *.
  split_and!; [done|done|]. intros Hr. destruct (H3 Hr) as (path & Hc & Hv & _). done.
Qed.

(** ** The end of the analysis *)

(** The manager polls a pinned agent. *)
Definition polling (a : agent W) (g : guest (system W)) : Prop :=
  sys_agent (outside g) = a /\ client_ip a = Some own_ip /\ serving a = true /\
  sys_status (outside g) = Some "running" /\ sys_run (outside g) = true.

Lemma poll_answer a (g : guest (system W)) : polling a g ->
  poll_status own_ip g =
  (Ok (Some [("message", JStr "Analysis status"); ("status", status a); ("description", description a)]), g) \/
  (poll_status own_ip g = (Ok None, g) /\ (serializable (status a) && serializable (description a)) = false).
Proof using Type.
  intros (Ha & Hc & Hs & _ & _). unfold poll_status, get, send, sbind. cbn [http system_host]. rewrite Ha.
  unfold serve_agent, handle, ignored. rewrite Hs, Hc. cbn [get_request rq_ip rq_path rq_method].
  rewrite bool_decide_true by done. cbn [negb andb]. change (find_route GET "/status" (@routes W _)) with (Some (@get_status W)).
  cbn. destruct g as [t ap e [a1 st1 r1 n1]]. cbn in *. subst a1.
  destruct (serializable (status a)) eqn:E1, (serializable (description a)) eqn:E2; cbn; [by left|by right..].
Qed.

(** The status of the guest after the loop. *)
Definition final_status (a : agent W) : string :=
  if bool_decide (status a = JStr "complete") then "complete"
  else if bool_decide (status a = JStr "exception") then "failed" else "running".

Lemma polled_loop a fuel : forall finish (g : guest (system W)),
  polling a g -> serializable (status a) = true -> serializable (description a) = true ->
  finish - sys_now (outside g) < Z.of_nat fuel * 1000 -> (0 < fuel)%nat ->
  sys_now (outside g) + 1000 <= finish \/ final_status a = "running" ->
  exists g', wait_completion_loop own_ip fuel finish g = (Ok tt, g') /\ sys_agent (outside g') = a /\
    sys_status (outside g') = Some (final_status a).
Proof using Type.
  induction fuel as [|fuel IH]; intros finish g Hg Hs1 Hs2 Hf Hpos Ht; [lia|]. cbn [wait_completion_loop].
  assert (Hg' := Hg). destruct Hg' as (Ha & Hc & Hs & Hst & Hrun). cbn [guest_get_status do_run now system_host]. rewrite Hst, Hrun.
  cbn [bool_decide andb negb]. rewrite bool_decide_true by done. cbn [andb negb].
  set (g1 := set_outside (sleep1 (outside g)) g). assert (Hg1 : polling a g1) by done.
  destruct (Z.ltb_spec finish (sys_now (sleep1 (outside g)))) as [Hlt|Hle]; cbn in Hlt || cbn in Hle.
  { exists g1. destruct Ht as [Ht| ->]; [lia|]. by split_and!. }
  unfold sbind at 1. destruct (poll_answer a g1 Hg1) as [->|[_ Hser]]; [|by rewrite Hs1, Hs2 in Hser].
  unfold json_item. rewrite form_get_next by done. rewrite form_get_here. unfold sbind at 1, slift at 1. cbn [of_option].
  destruct (bool_decide (status a = JStr "complete")) eqn:E1.
  { eexists. split; [done|]. unfold final_status. rewrite E1. by split. }
  destruct (bool_decide (status a = JStr "exception")) eqn:E2.
  { rewrite !form_get_next by done. rewrite form_get_here. eexists. split; [done|]. unfold final_status. rewrite E1, E2. by split. }
  apply IH; [done..| | |]; cbn; [lia|lia|]. right. unfold final_status. by rewrite E1, E2.
Qed.

(** The analyzer in the guest posts its status. *)
Definition analyzer_posts (st desc : string) : http_request :=
  {| rq_method := POST; rq_path := "/status"; rq_ip := "127.0.0.1"; rq_form := [("status", st); ("description", desc)]; rq_files := [] |}.

(** C20. The status the analyzer posts to the pinned agent decides how the host's
    wait ends: complete marks the guest as complete, exception marks it as
    failed, and with any other text the host waits until the timeout and leaves
    the guest as running. *)
Theorem completion_reaches_host (st desc : string) (a : agent W) (g : guest (system W)) :
  polling (serve_agent (analyzer_posts st desc) a).2 g -> client_ip a = Some own_ip -> serving a = true -> 1 <= timeout g ->
  exists g', wait_for_completion own_ip g = (Ok tt, g') /\
    sys_status (outside g') =
      Some (if bool_decide (st = "complete") then "complete" else if bool_decide (st = "exception") then "failed" else "running").
Proof using Type.
  intros Hg Hc Hs Ht. set (a' := (serve_agent (analyzer_posts st desc) a).2) in *.
  assert (Ha : status a' = JStr st /\ description a' = JStr desc).
  { subst a'. unfold serve_agent, handle, ignored. rewrite Hs, Hc. cbn [analyzer_posts rq_ip rq_path rq_method].
    rewrite (bool_decide_true ("/status" = "/status")), (bool_decide_true (POST = POST)) by done.
    rewrite (bool_decide_true ("127.0.0.1" = "127.0.0.1")) by done. cbn [negb orb]. rewrite andb_false_r. by split. }
  destruct Ha as [H1 H2]. unfold wait_for_completion, rounds_of.
  destruct (polled_loop a' (S (S (Z.to_nat (timeout g)))) (now (outside g) + timeout g * 1000) g) as (g' & E & _ & E2);
    [done|by rewrite H1|by rewrite H2|cbn [now system_host]; lia|lia|left; cbn [now system_host]; lia|].
  exists g'. split; [done|]. rewrite E2. unfold final_status. rewrite H1.
  by rewrite !(bool_decide_ext (JStr st = _) (st = _)) by (split; [by intros [= ->]|by intros ->]).
Qed.
End script.

(** ** Instances *)

#[local] Instance example_files : host_files := {
  analyzer_zipfile _ := Ok (B "zip");
  os_walk dir := if bool_decide (dir = "/tmp/x") then [("/tmp/x", ["a.exe"; "b.dll"])] else [];
  open_rb path := Ok (B path) }.
Definition example_options : task_options :=
  {| o_items := [("id", Shown "1"); ("clock", Datetime 2024 1 2 3 4 5)]; o_timeout := 200; o_options := "free=yes"; o_category := "file";
     o_target := "/tmp/x/a.exe"; o_file_name := "a.exe" |}.

(** What the preparation of a guest for a file leaves behind. *)
Example preparation_effects :
  os (sys_agent (outside (start_analysis "windows" "192.168.1.1" 60 "python" example_options (guest_init (booted 0 ([] : list effect)))).2))
  = [MakeTemp "C:/tmp1"; Extracted (B "zip") "C:/tmp1";
     Stored "C:/tmp1/analysis.conf" (B (join newline ["[analysis]"; "id = 1"; "clock = 20240102T03:04:05"]));
     Stored "C:\Temp/a.exe" (B "/tmp/x/a.exe"); Stored "C:\Temp/b.dll" (B "/tmp/x/b.dll");
     Started (Python "C:/tmp1/analyzer.py") (Some "C:/tmp1")].
Proof. by vm_compute. Qed.

Lemma start_refines_script_witness :
  client_ip (sys_agent (outside (start_analysis "windows" "192.168.1.1" 60 "python" example_options
    (guest_init (booted 0 ([] : list effect)))).2)) = Some "192.168.1.1".
Proof.
  pose proof (start_refines_script "windows" "192.168.1.1" 60 "python" example_options 0 ([] : list effect)) as Hs.
  destruct (start_analysis _ _ _ _ _ _) as [r g] eqn:E. destruct Hs as (_ & _ & Hs). apply Hs.
  apply (f_equal fst) in E. vm_compute in E. by rewrite <- E.
Defined.

Definition example_guest : guest (system (list effect)) :=
  {| timeout := 10; analyzer_path := None; g_environ := JNull;
     outside := {| sys_agent := (serve_agent (analyzer_posts "complete" "") example_agent).2; sys_status := Some "running";
                   sys_run := true; sys_now := 0 |} |}.
Lemma completion_reaches_host_witness :
  exists g', wait_for_completion "192.168.1.1" example_guest = (Ok tt, g') /\ sys_status (outside g') = Some "complete".
Proof.
  apply (completion_reaches_host "192.168.1.1" "complete" "" example_agent example_guest); [|done..]. by split_and!.
Defined.

Lemma guest_waits_end_witness : (wait_for_completion "192.168.1.1" example_guest).1 <> Raise OutOfFuel.
Proof. apply (guest_waits_end "192.168.1.1" example_guest). Defined.
