(* ===== verification/Analyzer.v ===== *)
(** The analyzer in a Windows guest, analyzer/windows/analyzer.py: the list of
    processes, the files to dump and the commands of the monitor
    (CommandPipeHandler), on the system calls of the guest, an interface. *)
From S2P Require Import Prelude Struct Pretty ProcessLog Quarantine.
Open Scope string_scope.
Open Scope list_scope.
Open Scope Z_scope.

(** ** The system of the guest *)

(** What [upload_to_host] is given as process identifiers. *)
Inductive upload_pids := PidText (s : string) | PidTexts (l : list string) | PidInts (l : list Z).
Definition pids_true (p : upload_pids) : bool :=
  match p with
  | PidText s => bool_decide (s <> "")
  | PidTexts l => bool_decide (l <> [])
  | PidInts l => bool_decide (l <> [])
  end.
Record upload := {
  up_file : string; up_path : string; up_pids : upload_pids; up_ppids : upload_pids; up_metadata : string;
  up_category : string; up_duplicated : bool }.

(** Windows, the class Process of lib/api/process.py and upload_to_host of
    lib/common/results.py. The timer counts milliseconds. *)
Class windows (W : Type) := {
  timer : W -> Z;
  Sleep : Z -> st W unit;
  path_exists : bytes -> W -> bool;
  is_file : string -> W -> bool;
  sha256 : string -> W -> res string;
  upload_to_host : upload -> st W unit;
  get_filepath : Z -> st W string;
  inject : Z -> option Z -> Z -> option string -> bool -> st W bool;   (** pid, thread, mode, interest, nosleepskip *)
  pid_from_service_name : string -> st W Z;
  run_command_line : string -> st W unit;
  set_terminate_event : Z -> st W bool;
  dump_memory : Z -> st W unit;
  aux_add_pid : Z -> W -> W }.

(** ** ProcessList *)

Record process_list := { pids : list Z; pids_notrack : list Z }.
Definition remove_z (x : Z) (l : list Z) : list Z :=
  (fix go l := match l with [] => [] | y :: l' => if bool_decide (x = y) then l' else y :: go l' end) l.

Definition ProcessList_add_pid (pid : Z) (track : bool) (p : process_list) : process_list :=
  if bool_decide (pid ∈ pids p \/ pid ∈ pids_notrack p) then p
  else if track then {| pids := pids p ++ [pid]; pids_notrack := pids_notrack p |}
  else {| pids := pids p; pids_notrack := pids_notrack p ++ [pid] |}.
Definition ProcessList_add_pids (l : list Z) (p : process_list) : process_list :=
  fold_left (fun p pid => ProcessList_add_pid pid true p) l p.
Definition ProcessList_has_pid (pid : Z) (notrack : bool) (p : process_list) : bool :=
  bool_decide (pid ∈ pids p) || notrack && bool_decide (pid ∈ pids_notrack p).
(** [if pid in l: l.remove(pid)] for both. *)
Definition ProcessList_remove_pid (pid : Z) (p : process_list) : process_list :=
  {| pids := remove_z pid (pids p); pids_notrack := remove_z pid (pids_notrack p) |}.

(** ** Files *)

Record file_details := { fd_category : string; fd_metadata : string; fd_path : string }.
(** [files] and [files_orig] by the path in lower case, and the digests sent. *)
Record files := { pending : list (string * list Z); files_orig : list (string * file_details); dumped : list string }.

Definition PROTECTED_NAMES : list string :=
  ["vmwareuser.exe"; "vmwareservice.exe"; "vboxservice.exe"; "vboxtray.exe"; "sandboxiedcomlaunch.exe"; "sandboxierpcss.exe";
   "procmon.exe"; "regmon.exe"; "filemon.exe"; "wireshark.exe"; "netmon.exe"; "prl_tools_service.exe"; "prl_tools.exe"; "prl_cc.exe";
   "sharedintapp.exe"; "vmtoolsd.exe"; "vmsrvc.exe"; "python.exe"; "perl.exe"].
Definition is_protected_filename (file_name : string) : bool := bool_decide (lower file_name ∈ PROTECTED_NAMES).

Definition win_basename (p : string) : string := text (nt_split (B p)).2.
(** [os.path.join] of a plain folder name and a name without a folder. *)
Definition in_folder (folder name : string) : string := (folder ++ "\" ++ name)%string.
(** [s.split(".", 1)[0]]. *)
Definition before_dot (s : string) : string := default "" (head (split_on "." s)).
Definition dict_without {A} (k : string) (d : list (string * A)) : list (string * A) := filter (fun kv => kv.1 <> k) d.

Section files.
Context {W : Type} `{windows W}.

(** The files and the system they live on. *)
Record file_state := { fs : files; fs_win : W }.
Definition set_file_lists (f : files) (s : file_state) : file_state := {| fs := f; fs_win := fs_win s |}.
Definition set_pending (p : list (string * list Z)) (s : file_state) : file_state :=
  set_file_lists {| pending := p; files_orig := files_orig (fs s); dumped := dumped (fs s) |} s.
Definition on_win {A} (m : st W A) : st file_state A := fun s =>
  let '(r, w) := m (fs_win s) in (r, {| fs := fs s; fs_win := w |}).

(** [add_pid]; no process, or process 0, is not tracked. *)
Definition Files_add_pid (filepath : string) (pid : option Z) (s : file_state) : file_state :=
  match pid, dict_lookup (lower filepath) (pending (fs s)) with
  | Some p, Some l =>
      if bool_decide (p = 0 \/ p ∈ l) then s
      else let s := set_pending (dict_set (lower filepath) (l ++ [p]) (pending (fs s))) s in
           {| fs := fs s; fs_win := aux_add_pid p (fs_win s) |}
  | _, _ => s
  end.

Definition add_file (filepath : string) (pid : option Z) (category metadata : string) (s : file_state) : file_state :=
  let s := match dict_lookup (lower filepath) (pending (fs s)) with
           | Some _ => s
           | None =>
               set_file_lists {| pending := dict_set (lower filepath) [] (pending (fs s));
                         files_orig := dict_set (lower filepath)
                           {| fd_category := category; fd_metadata := metadata; fd_path := filepath |} (files_orig (fs s));
                         dumped := dumped (fs s) |} s
           end in
  Files_add_pid filepath pid s.

(** What is sent for a file of this digest. *)
Definition upload_of (filepath metadata : string) (upids uppids : upload_pids) (category sha : string) (f : files) : upload :=
  let '(category, metadata, upids, filepath) :=
    match dict_lookup (lower filepath) (files_orig f) with
    | Some d => (fd_category d, fd_metadata d, PidInts (default [] (dict_lookup (lower filepath) (pending f))), fd_path d)
    | None => (category, metadata, upids, filepath)
    end in
  let '(path, upids) :=
    if bool_decide (category = "memory") then
      if pids_true upids then
        (in_folder category (match upids with
                             | PidText s => match s with String c _ => String c EmptyString | EmptyString => "" end
                             | PidTexts l => default "" (head l)
                             | PidInts l => default "" (str_int <$> head l)
                             end ++ ".dmp")%string, upids)
      else (in_folder category (win_basename filepath), PidTexts [before_dot (win_basename filepath)])
    else (in_folder category sha, upids) in
  {| up_file := filepath; up_path := path; up_pids := upids; up_ppids := uppids; up_metadata := metadata; up_category := category;
     up_duplicated := bool_decide (sha ∈ dumped f) |}.

Definition dump_file (filepath metadata : string) (upids uppids : upload_pids) (category : string) : st file_state unit := fun s =>
  if is_file filepath (fs_win s) then
    match sha256 filepath (fs_win s) with
    | Raise OSError => (Ok tt, s)
    | Raise e => (Raise e, s)
    | Ok sha =>
        match on_win (upload_to_host (upload_of filepath metadata upids uppids category sha (fs s))) s with
        | (Ok _, s1) =>
            (Ok tt, set_file_lists {| pending := pending (fs s1); files_orig := files_orig (fs s1); dumped := dumped (fs s1) ++ [sha] |} s1)
        | (Raise _, s1) => (Ok tt, s1)
        end
    end
  else (Ok tt, s).

Definition delete_file (filepath : string) (pid : option Z) : st file_state unit :=
  do* smodify (Files_add_pid filepath pid) in
  do* dump_file filepath "" (PidText "") (PidText "") "files" in
  smodify (fun s => set_file_lists {| pending := dict_without (lower filepath) (pending (fs s));
                              files_orig := dict_without (lower filepath) (files_orig (fs s)); dumped := dumped (fs s) |} s).

(** The entry of [files_orig] stays under the old name. *)
Definition move_file (oldfilepath newfilepath : string) (pid : option Z) (s : file_state) : file_state :=
  let s := Files_add_pid oldfilepath pid s in
  match dict_lookup (lower oldfilepath) (pending (fs s)) with
  | Some l => set_pending (dict_set (lower newfilepath) l (dict_without (lower oldfilepath) (pending (fs s)))) s
  | None => s
  end.

(** [while self.files]: fuel, see [dump_files_all]. *)
Fixpoint dump_files_loop (fuel : nat) : st file_state unit := fun s =>
  match pending (fs s) with
  | [] => (Ok tt, s)
  | (first, _) :: _ =>
      match fuel with
      | O => (Raise OutOfFuel, s)
      | S fuel => (do* delete_file first None in dump_files_loop fuel) s
      end
  end.
Definition dump_files : st file_state unit := fun s => dump_files_loop (length (pending (fs s))) s.
End files.
Arguments file_state : clear implicits.

(** ** The analyzer and its command handler *)

Inductive service := Services | Wmi | Dcom | Tasksched | Bits.
#[global] Instance service_eq_dec : EqDecision service.
Proof. solve_decision. Defined.

(** What is fixed while the analysis runs. [protected_paths] are the bytes that
    [add_protected_path] was given. *)
Record analyzer_config := {
  own_pid : Z; own_ppid : Z; hide_pids : list Z; protected_paths : list bytes; services_pid : option Z;
  cfg_category : string; cfg_target : string; procmemdump : bool }.

Record analyzer (W : Type) := {
  processes : process_list; an_files : files; process_lock : bool; inject_list : list Z; critical : list Z;
  monitored : list service; lastinject : option Z; num_injected : Z; timed_out : bool;
  ignore_list : list Z;   (** of the handler *)
  tracked : list Z;       (** the keys, of the handler *)
  win : W }.
Arguments processes {W} _. Arguments an_files {W} _. Arguments process_lock {W} _. Arguments inject_list {W} _.
Arguments critical {W} _. Arguments monitored {W} _. Arguments lastinject {W} _. Arguments num_injected {W} _.
Arguments timed_out {W} _. Arguments ignore_list {W} _. Arguments tracked {W} _. Arguments win {W} _.

(** What a handler returns: nothing, the packed identifiers, or the text that
    stands for an unknown command. *)
Inductive pipe_response := RNone | RPids (l : gset Z) | RNope.

Section handler.
Context {W : Type} `{windows W} (cfg : analyzer_config).

Definition set_processes (x : process_list) (a : analyzer W) : analyzer W :=
  {| processes := x; an_files := an_files a; process_lock := process_lock a; inject_list := inject_list a; critical :=
     critical a; monitored := monitored a; lastinject := lastinject a; num_injected := num_injected a; timed_out := timed_out
     a; ignore_list := ignore_list a; tracked := tracked a; win := win a |}.
Definition set_files (x : files) (a : analyzer W) : analyzer W :=
  {| processes := processes a; an_files := x; process_lock := process_lock a; inject_list := inject_list a; critical :=
     critical a; monitored := monitored a; lastinject := lastinject a; num_injected := num_injected a; timed_out := timed_out
     a; ignore_list := ignore_list a; tracked := tracked a; win := win a |}.
Definition set_process_lock (x : bool) (a : analyzer W) : analyzer W :=
  {| processes := processes a; an_files := an_files a; process_lock := x; inject_list := inject_list a; critical :=
     critical a; monitored := monitored a; lastinject := lastinject a; num_injected := num_injected a; timed_out := timed_out
     a; ignore_list := ignore_list a; tracked := tracked a; win := win a |}.
Definition set_inject_list (x : list Z) (a : analyzer W) : analyzer W :=
  {| processes := processes a; an_files := an_files a; process_lock := process_lock a; inject_list := x; critical :=
     critical a; monitored := monitored a; lastinject := lastinject a; num_injected := num_injected a; timed_out := timed_out
     a; ignore_list := ignore_list a; tracked := tracked a; win := win a |}.
Definition set_critical (x : list Z) (a : analyzer W) : analyzer W :=
  {| processes := processes a; an_files := an_files a; process_lock := process_lock a; inject_list := inject_list a;
     critical := x; monitored := monitored a; lastinject := lastinject a; num_injected := num_injected a; timed_out :=
     timed_out a; ignore_list := ignore_list a; tracked := tracked a; win := win a |}.
Definition set_monitored (x : list service) (a : analyzer W) : analyzer W :=
  {| processes := processes a; an_files := an_files a; process_lock := process_lock a; inject_list := inject_list a;
     critical := critical a; monitored := x; lastinject := lastinject a; num_injected := num_injected a; timed_out :=
     timed_out a; ignore_list := ignore_list a; tracked := tracked a; win := win a |}.
Definition set_lastinject (x : option Z) (a : analyzer W) : analyzer W :=
  {| processes := processes a; an_files := an_files a; process_lock := process_lock a; inject_list := inject_list a;
     critical := critical a; monitored := monitored a; lastinject := x; num_injected := num_injected a; timed_out :=
     timed_out a; ignore_list := ignore_list a; tracked := tracked a; win := win a |}.
Definition set_num_injected (x : Z) (a : analyzer W) : analyzer W :=
  {| processes := processes a; an_files := an_files a; process_lock := process_lock a; inject_list := inject_list a;
     critical := critical a; monitored := monitored a; lastinject := lastinject a; num_injected := x; timed_out := timed_out
     a; ignore_list := ignore_list a; tracked := tracked a; win := win a |}.
Definition set_timed_out (x : bool) (a : analyzer W) : analyzer W :=
  {| processes := processes a; an_files := an_files a; process_lock := process_lock a; inject_list := inject_list a;
     critical := critical a; monitored := monitored a; lastinject := lastinject a; num_injected := num_injected a; timed_out
     := x; ignore_list := ignore_list a; tracked := tracked a; win := win a |}.
Definition set_ignore_list (x : list Z) (a : analyzer W) : analyzer W :=
  {| processes := processes a; an_files := an_files a; process_lock := process_lock a; inject_list := inject_list a;
     critical := critical a; monitored := monitored a; lastinject := lastinject a; num_injected := num_injected a; timed_out
     := timed_out a; ignore_list := x; tracked := tracked a; win := win a |}.
Definition set_win (x : W) (a : analyzer W) : analyzer W :=
  {| processes := processes a; an_files := an_files a; process_lock := process_lock a; inject_list := inject_list a;
     critical := critical a; monitored := monitored a; lastinject := lastinject a; num_injected := num_injected a; timed_out
     := timed_out a; ignore_list := ignore_list a; tracked := tracked a; win := x |}.

Abbreviation handler := (bytes -> st (analyzer W) pipe_response).
Abbreviation step := (st (analyzer W) unit).
Definition sys {A} (m : st W A) : st (analyzer W) A := fun a => let '(r, w) := m (win a) in (r, set_win w a).
Definition on_files (m : st (file_state W) unit) : step := fun a =>
  let '(r, s) := m {| fs := an_files a; fs_win := win a |} in (r, set_files (fs s) (set_win (fs_win s) a)).
Definition on_processes (f : process_list -> process_list) : step := smodify (fun a => set_processes (f (processes a)) a).

(** The lock of the process list: a second [acquire] waits. *)
Definition process_lock_acquire : step := fun a => if process_lock a then (Raise Blocked, a) else (Ok tt, set_process_lock true a).
Definition process_lock_release : step := smodify (set_process_lock false).

(** [int(data)], and [data.decode()]. *)
Definition int_arg (data : bytes) : st (analyzer W) Z := slift (of_option ValueError (py_int data)).
Definition decode (data : bytes) : st (analyzer W) string :=
  slift (if utf8_valid data then Ok (text data) else Raise UnicodeDecodeError).
Definition bytes_isdigit (data : bytes) : bool :=
  bool_decide (data <> []) && forallb (fun c => bool_decide (digit_val c <> None)) data.
Definition is_own (pid : Z) : bool := bool_decide (pid = own_pid cfg \/ pid = own_ppid cfg).

(** [in_protected_path]: the names of the list are bytes, and neither [==] nor
    the comparison of the last byte holds between text and bytes. *)
Definition text_is_bytes (s : string) (b : bytes) : bool := false.
Definition in_protected_path (fname : string) : bool :=
  if bool_decide (fname = "") then false else existsb (text_is_bytes (lower fname)) (protected_paths cfg).

(** The handlers that only log. *)
Definition _handle_log : handler := fun _ => sret RNone.

Definition _handle_loaded : handler := fun data =>
  match data with
  | [] => sret RNone
  | _ =>
      do* process_lock_acquire in
      let* pid := int_arg data in
      do* on_processes (fun p => if bool_decide (pid ∈ pids p) then p else ProcessList_add_pid pid true p) in
      do* smodify (fun a => set_inject_list (remove_z pid (inject_list a)) a) in
      do* process_lock_release in sret RNone
  end.

Definition _handle_getpids : handler := fun _ => sret (RPids (list_to_set (own_pid cfg :: own_ppid cfg :: hide_pids cfg))).

Definition _handle_kterminate : handler := fun data =>
  let* process_id := int_arg data in
  do* on_processes (fun p => if bool_decide (process_id <> 0 /\ process_id ∈ pids p) then ProcessList_remove_pid process_id p else p) in
  sret RNone.

(** The test [process_id not in (pid, ppid, pids)] compares with the list itself. *)
Definition _handle_kprocess : handler := fun data =>
  do* process_lock_acquire in
  let* process_id := int_arg data in
  do* (if bool_decide (process_id <> 0) && negb (is_own process_id) then
         let* filepath := sys (get_filepath process_id) in
         if in_protected_path (win_basename filepath) then sret tt else on_processes (ProcessList_add_pid process_id true)
       else sret tt) in
  do* process_lock_release in sret RNone.

(** [for pid in pids: remove_pid(pid)]: the iterator goes on by one in the list
    that shrinks. *)
Fixpoint ksubvert_loop (fuel : nat) (i : nat) (p : process_list) : process_list :=
  match fuel with
  | O => p
  | S fuel => match pids p !! i with
              | Some pid => ksubvert_loop fuel (S i) (ProcessList_remove_pid pid p)
              | None => p
              end
  end.
Definition _handle_ksubvert : handler := fun _ =>
  do* on_processes (fun p => ksubvert_loop (S (length (pids p))) 0 p) in sret RNone.

Definition INJECT_CREATEREMOTETHREAD : Z := 0.
Definition INJECT_QUEUEUSERAPC : Z := 1.

Definition add_monitored (s : service) : step := smodify (fun a => set_monitored (s :: monitored a) a).
Definition note_injection : step := smodify (fun a => set_lastinject (Some (timer (win a))) a).
(** Injection into the process of a service. *)
Definition inject_service (pid : Z) (ms : Z) : step :=
  do* smodify (fun a => set_critical (critical a ++ [pid]) a) in
  let* filepath := sys (get_filepath pid) in
  do* sys (inject pid None INJECT_QUEUEUSERAPC (Some filepath) true) in
  do* note_injection in sys (Sleep ms).
Definition inject_named (name : string) : step :=
  let* pid := sys (pid_from_service_name name) in
  if bool_decide (pid <> 0) then inject_service pid 2000 else sret tt.
Definition is_monitored (s : service) (a : analyzer W) : bool := bool_decide (s ∈ monitored a).
Definition monitor_dcom : step := fun a =>
  if is_monitored Dcom a then (Ok tt, a) else (do* add_monitored Dcom in inject_named "DcomLaunch") a.

Definition _handle_interop : handler := fun _ => do* monitor_dcom in sret RNone.
Definition _handle_wmi : handler := fun _ a =>
  if negb (is_monitored Wmi a) && negb (timed_out a) then
    (do* add_monitored Wmi in do* monitor_dcom in do* inject_named "winmgmt" in sret RNone) a
  else (Ok RNone, a).
Definition _handle_tasksched : handler := fun _ a =>
  if negb (is_monitored Tasksched a) && negb (timed_out a) then
    (do* add_monitored Tasksched in
     do* sys (run_command_line "net stop schedule /y") in
     do* sys (run_command_line "sc config schedule type= own") in
     do* sys (run_command_line "net start schedule") in
     do* inject_named "schedule" in sret RNone) a
  else (Ok RNone, a).
Definition _handle_bits : handler := fun _ a =>
  if negb (is_monitored Bits a) && negb (timed_out a) then
    (do* add_monitored Bits in
     do* sys (run_command_line "net stop BITS /y") in
     do* sys (run_command_line "sc config BITS type= own") in
     do* monitor_dcom in
     do* sys (run_command_line "net start BITS") in
     do* inject_named "BITS" in sret RNone) a
  else (Ok RNone, a).

Definition _handle_service : handler := fun servname a =>
  if timed_out a then (Ok RNone, a) else
  (let* name := decode servname in
   do* sys (run_command_line ("sc config " ++ name ++ " type= own")%string) in
   fun a =>
     if is_monitored Services a then (Ok RNone, a)
     else match services_pid cfg with
          | Some pid => (do* inject_service pid 1000 in do* add_monitored Services in sret RNone) a
          | None => (Ok RNone, a)
          end) a.

Definition _handle_resume : handler := fun _ => do* note_injection in sret RNone.

(** The handler has no attribute [files]. *)
Fixpoint flush_all (l : list Z) : step :=
  match l with
  | [] => sret tt
  | pid :: l' =>
      let* opened := sys (set_terminate_event pid) in
      if opened then
        do* (if procmemdump cfg then sys (dump_memory pid) else sret tt) in
        sraise AttributeError
      else flush_all l'
  end.
Definition _handle_shutdown : handler := fun _ =>
  do* process_lock_acquire in
  do* (fun a => flush_all (pids (processes a)) a) in
  do* process_lock_release in sret RNone.

Definition _handle_kill : handler := fun data =>
  do* process_lock_acquire in
  let* process_id := int_arg data in
  do* on_processes (fun p => if negb (is_own process_id) && bool_decide (process_id ∈ pids p) then ProcessList_remove_pid process_id p else p) in
  do* process_lock_release in sret RNone.

(** [Process(pid=..., tid=...)]: the constructor has no parameter [tid]. *)
Definition Process_tid (pid thread_id : Z) : step := sraise TypeError.

Definition ignore (pid : Z) : step := smodify (fun a => set_ignore_list (ignore_list a ++ [pid]) a).
Definition _inject_process (process_id thread_id mode : Z) : st (analyzer W) pipe_response :=
  do* process_lock_acquire in
  fun a =>
    if is_own process_id then
      (do* (if bool_decide (process_id ∈ ignore_list a) then sret tt else ignore process_id) in do* process_lock_release in sret RNone) a
    else if ProcessList_has_pid process_id true (processes a) then
      (do* (if negb (ProcessList_has_pid process_id false (processes a)) then
              do* on_processes (ProcessList_remove_pid process_id) in
              do* on_processes (ProcessList_add_pid process_id true) in
              ignore process_id
            else if bool_decide (process_id ∈ ignore_list a) then sret tt else ignore process_id) in
       do* process_lock_release in sret RNone) a
    else
      (do* Process_tid process_id thread_id in
       let* filepath := sys (get_filepath process_id) in
       if is_protected_filename (win_basename filepath) then sret RNone
       else
         do* on_processes (ProcessList_add_pid process_id true) in
         do* process_lock_release in
         do* sys (inject process_id (Some thread_id)
                    (if bool_decide (process_id <> 0 /\ thread_id <> 0) then INJECT_QUEUEUSERAPC else INJECT_CREATEREMOTETHREAD)
                    (Some filepath) true) in
         sret RNone) a.

Definition COMMA : ascii := ","%char.
Definition PIPE_CHAR : ascii := "|"%char.
Definition int_if_digits (l : bytes) : option Z := if bytes_isdigit l then py_int l else None.
(** The pids of PROCESS: one number, or a process and a thread. *)
Definition process_ids (data : bytes) : option Z * option Z :=
  match split_byte COMMA data with
  | [p] => (int_if_digits p, None)
  | [p; t] => (int_if_digits p, int_if_digits t)
  | _ => (None, None)
  end.

Definition _handle_process : handler := fun data =>
  match split_byte COLON data with
  | [suspended; data] => fun a =>
      let '(process_id, thread_id) := process_ids data in
      match process_id with
      | Some pid =>
          if bool_decide (pid = 0) || timed_out a || is_own pid || bool_decide (pid ∈ pids (processes a)) then (Ok RNone, a)
          else
            (do* smodify (fun a => set_inject_list (if bool_decide (pid ∈ inject_list a) then inject_list a else inject_list a ++ [pid]) a) in
             let* filepath := sys (get_filepath pid) in
             fun a =>
               let interest := if bool_decide (cfg_category cfg = "file") || (1 <? num_injected a) then filepath else cfg_target cfg in
               (do* (if bool_decide (services_pid cfg = Some pid) then smodify (fun a => set_critical (critical a ++ [pid]) a) else sret tt) in
                do* (if in_protected_path (win_basename filepath) then sret tt
                     else do* sys (inject pid thread_id INJECT_QUEUEUSERAPC (Some interest) false) in
                          smodify (fun a => set_num_injected (num_injected a + 1) a)) in
                sret RNone) a) a
      | None => (Ok RNone, a)
      end
  | _ => sraise ValueError
  end.

Definition _handle_process2 : handler := fun data =>
  match split_byte COMMA data with
  | [pid; tid; mode] =>
      match int_if_digits pid, int_if_digits tid, int_if_digits mode with
      | Some p, Some t, Some m => _inject_process p t m
      | _, _, _ => sret RNone
      end
  | _ => sret RNone
  end.

(** The commands on files; [self.pid] is always [None]. *)
Definition if_exists (path : bytes) (k : step) : step := fun a => if path_exists path (win a) then k a else (Ok tt, a).
Definition _handle_file_new : handler := fun file_path =>
  do* if_exists file_path (let* p := decode file_path in on_files (smodify (add_file p None "files" ""))) in sret RNone.
(** The four fields [PATH|PID|PPID|Metadata]. *)
Definition dump_fields (category : string) (data : bytes) : step :=
  match split_byte PIPE_CHAR data with
  | [file_path; pid; ppid; metadata] =>
      if_exists file_path
        (let* p := decode file_path in
         let* pid := decode pid in
         let* ppid := decode ppid in
         on_files (dump_file p (text metadata) (PidTexts [pid]) (PidTexts [ppid]) category))
  | _ => sraise ValueError
  end.
Definition _handle_file_cape : handler := fun data => do* dump_fields "CAPE" data in sret RNone.
Definition _handle_file_del : handler := fun data =>
  let* file_path := decode data in
  do* if_exists data (on_files (delete_file file_path None)) in sret RNone.
Definition _handle_file_dump : handler := fun file_path =>
  do* (if contains_sub (B "\CAPE\") file_path then dump_fields "procdump" file_path
       else if_exists file_path
              (let* p := decode file_path in
               if contains_sub (B "\memory\") file_path then on_files (dump_file p "" (PidText "") (PidText "") "memory")
               else on_files (smodify (add_file p None "files" "")))) in
  sret RNone.

(** Nothing is tracked before the last lines, which split a number by colons. *)
Definition _handle_dumpreqs : handler := fun data a =>
  match int_if_digits data with
  | Some pid => if bool_decide (pid ∈ tracked a) then (Raise ValueError, a) else (Ok RNone, a)
  | None => (Ok RNone, a)
  end.

(** [data.split(b"::", 1)]. *)
Fixpoint split_colons (data : bytes) : option (bytes * bytes) :=
  match data with
  | [] => None
  | c :: rest =>
      match rest with
      | c' :: rest' =>
          if bool_decide (c = COLON /\ c' = COLON) then Some ([], rest')
          else '(x, y) ← split_colons rest; Some (c :: x, y)
      | [] => None
      end
  end.
Definition _handle_file_move : handler := fun data =>
  match split_colons data with
  | None => sret RNone
  | Some (old, new) =>
      let* new_filepath := decode new in
      let* old_filepath := decode old in
      do* on_files (smodify (move_file old_filepath new_filepath None)) in sret RNone
  end.

Definition command_handlers : list (string * handler) :=
  [("debug", _handle_log); ("info", _handle_log); ("warning", _handle_log); ("critical", _handle_log); ("kerror", _handle_log);
   ("loaded", _handle_loaded); ("getpids", _handle_getpids); ("kterminate", _handle_kterminate); ("kprocess", _handle_kprocess);
   ("ksubvert", _handle_ksubvert); ("interop", _handle_interop); ("wmi", _handle_wmi); ("tasksched", _handle_tasksched);
   ("bits", _handle_bits); ("service", _handle_service); ("resume", _handle_resume); ("shutdown", _handle_shutdown);
   ("kill", _handle_kill); ("process", _handle_process); ("process2", _handle_process2); ("file_new", _handle_file_new);
   ("file_cape", _handle_file_cape); ("file_del", _handle_file_del); ("file_dump", _handle_file_dump);
   ("dumpreqs", _handle_dumpreqs); ("file_move", _handle_file_move)].

(** The command and its arguments. *)
Definition parse_command (data : bytes) : option (bytes * bytes) :=
  let data := strip_ws data in
  i ← find_byte COLON data; Some (take i data, drop (S i) data).

(** [dispatch]: an exception of a handler is logged; a name that is not text
    ends the thread of the pipe, as waiting for the lock does. *)
Definition dispatch (data : bytes) : st (analyzer W) pipe_response := fun a =>
  match parse_command data with
  | None => (Ok RNope, a)
  | Some (command, arguments) =>
      match decode command a with
      | (Raise e, _) => (Raise e, a)
      | (Ok command, _) =>
          match dict_lookup (lower command) command_handlers with
          | None => (Ok RNope, a)
          | Some fn =>
              match fn arguments a with
              | (Ok r, a') => (Ok r, a')
              | (Raise Blocked, a') => (Raise Blocked, a')
              | (Raise _, a') => (Ok RNope, a')
              end
          end
      end
  end.
End handler.

(** ** What the commands keep *)

Create HintDb calm.

(** Time does not go back in the system, and waiting returns. *)
Class windows_laws (W : Type) `{windows W} := {
  Sleep_returns : forall ms w, (Sleep ms w).1 = Ok tt;
  Sleep_timer : forall ms w, timer w + ms <= timer (Sleep ms w).2;
  upload_timer : forall u w, timer w <= timer (upload_to_host u w).2;
  filepath_timer : forall p w, timer w <= timer (get_filepath p w).2;
  inject_timer : forall p t m i n w, timer w <= timer (inject p t m i n w).2;
  service_timer : forall s w, timer w <= timer (pid_from_service_name s w).2;
  command_timer : forall s w, timer w <= timer (run_command_line s w).2;
  event_timer : forall p w, timer w <= timer (set_terminate_event p w).2;
  dump_timer : forall p w, timer w <= timer (dump_memory p w).2;
  aux_timer : forall p w, timer w <= timer (aux_add_pid p w) }.

(** The invariant of the list of processes. *)
Definition plist_ok (p : process_list) : Prop :=
  NoDup (pids p) /\ NoDup (pids_notrack p) /\ forall x, x ∈ pids p -> x ∉ pids_notrack p.

Lemma elem_of_remove_z x y l : x ∈ remove_z y l -> x ∈ l.
Proof.
  induction l as [|z l IH]; cbn; [done|]. case_bool_decide; [by right|]. intros [->|Hx]%elem_of_cons; [left|right; by apply IH].
Qed.
Lemma remove_z_NoDup y l : NoDup l -> NoDup (remove_z y l) /\ y ∉ remove_z y l.
Proof.
  induction l as [|z l IH]; cbn; intros Hl; [split; [constructor|apply not_elem_of_nil]|].
  apply NoDup_cons in Hl as [Hz Hl]. destruct (IH Hl) as [H1 H2]. case_bool_decide as E; [by subst|].
  split; [constructor; [|done]; by intros ?%elem_of_remove_z|]. by apply not_elem_of_cons.
Qed.

Lemma plist_add pid track p : plist_ok p -> plist_ok (ProcessList_add_pid pid track p).
Proof.
  intros (H1 & H2 & H3). unfold ProcessList_add_pid. case_bool_decide as E; [done|].
  assert (pid ∉ pids p /\ pid ∉ pids_notrack p) as [E1 E2] by tauto. destruct track; split_and!; cbn.
  all: try (apply NoDup_app; split_and!; [done|intros x Hx ->%list_elem_of_singleton; done|apply NoDup_singleton]).
  all: try done.
  - intros x [Hx| ->%list_elem_of_singleton]%elem_of_app; [by apply H3|done].
  - intros x Hx. rewrite elem_of_app, list_elem_of_singleton. intros [Hn| ->]; [by eapply H3|done].
Qed.
Lemma plist_remove pid p : plist_ok p -> plist_ok (ProcessList_remove_pid pid p).
Proof.
  intros (H1 & H2 & H3). split_and!; cbn; [by apply remove_z_NoDup..|].
  intros x Hx Hn. apply elem_of_remove_z in Hx, Hn. by eapply H3.
Qed.
Lemma plist_adds l p : plist_ok p -> plist_ok (ProcessList_add_pids l p).
Proof. revert p. induction l as [|x l IH]; intros p Hp; [done|]. by apply IH, plist_add. Qed.
Lemma plist_ksubvert fuel : forall i p, plist_ok p -> plist_ok (ksubvert_loop fuel i p).
Proof.
  induction fuel as [|fuel IH]; intros i p Hp; cbn; [done|]. destruct (pids p !! i); [|done]. by apply IH, plist_remove.
Qed.

(** The names of the files that wait are in lower case, each once. *)
Definition files_ok (f : files) : Prop := NoDup (pending f).*1 /\ Forall (fun k => lower k = k) (pending f).*1.

Lemma lower_lower s : lower (lower s) = lower s.
Proof.
  unfold lower, text, B. rewrite list_ascii_of_string_of_list_ascii. f_equal. rewrite <-list_fmap_compose. apply list_fmap_ext.
  intros _ c _. unfold compose, lower_ascii. destruct (Nat.leb 65 (nat_of_ascii c) && Nat.leb (nat_of_ascii c) 90) eqn:E; [|by rewrite E].
  apply andb_true_iff in E as [E1 E2]. apply Nat.leb_le in E1, E2. rewrite nat_ascii_embedding by lia.
  replace (Nat.leb (nat_of_ascii c + 32) 90) with false by (symmetry; apply Nat.leb_gt; lia). by rewrite andb_false_r.
Qed.
Lemma dict_set_names {A} k (v : A) d : (dict_set k v d).*1 = if bool_decide (k ∈ d.*1) then d.*1 else d.*1 ++ [k].
Proof.
  induction d as [|[k' v'] d IH]; [done|]. cbn [dict_set]. rewrite fmap_cons. cbn [fst]. destruct (decide (k = k')) as [->|E].
  - by rewrite !bool_decide_true by (done || apply list_elem_of_here).
  - rewrite bool_decide_false by done. rewrite fmap_cons, IH. cbn [fst]. case_bool_decide as E1.
    + by rewrite bool_decide_true by (by apply list_elem_of_further).
    + rewrite bool_decide_false; [done|]. by intros [?|?]%elem_of_cons.
Qed.
Lemma files_ok_set k l f o' dd' : files_ok f ->
  files_ok {| pending := dict_set (lower k) l (pending f); files_orig := o'; dumped := dd' |}.
Proof.
  intros [H1 H2]. unfold files_ok. cbn [pending] in *. rewrite dict_set_names. case_bool_decide as E; [done|]. split.
  - apply NoDup_app. split_and!; [done|intros x Hx ->%list_elem_of_singleton; done|apply NoDup_singleton].
  - apply Forall_app. split; [done|]. repeat constructor. apply lower_lower.
Qed.
Lemma files_ok_without k f o' dd' : files_ok f ->
  files_ok {| pending := dict_without k (pending f); files_orig := o'; dumped := dd' |}.
Proof.
  intros [H1 H2]. unfold files_ok, dict_without. cbn [pending] in *. assert (Hs : sublist (filter (fun kv => kv.1 <> k) (pending f)).*1 (pending f).*1).
  { apply fmap_sublist, sublist_filter. }
  split; [by eapply sublist_NoDup|]. rewrite Forall_forall in H2 |- *. intros x Hx. by apply H2, (elem_of_sublist _ _ _ Hx).
Qed.

Section frames.
Context {W : Type} `{Hwin : windows W, Hlaws : !windows_laws W} (cfg : analyzer_config).

(** A step that moves time forward and keeps the processes and the files well
    formed, and one that also leaves the lock. *)
Definition evolves (a a' : analyzer W) : Prop :=
  timer (win a) <= timer (win a') /\ (plist_ok (processes a) -> plist_ok (processes a')) /\
  (files_ok (an_files a) -> files_ok (an_files a')).
Definition calm (a a' : analyzer W) : Prop := evolves a a' /\ process_lock a' = process_lock a.

#[local] Instance evolves_preorder : PreOrder evolves.
Proof. split; [by intros a; split_and!|]. intros a b c (H1 & H2 & H3) (H4 & H5 & H6). split_and!; [lia|auto..]. Qed.
#[local] Instance calm_preorder : PreOrder calm.
Proof. split; [by split|]. intros a b c [H1 H2] [H3 H4]. split; [by etrans|congruence]. Qed.

Lemma calm_evolves {A} (m : st (analyzer W) A) : within calm m -> within evolves m.
Proof using Type. intros Hm a. apply Hm. Qed.
Lemma calm_sys {A} (m : st W A) : (forall w, timer w <= timer (m w).2) -> within calm (sys m).
Proof using Type. intros Hm a. unfold sys. specialize (Hm (win a)). by destruct (m (win a)). Qed.
Lemma calm_modify f : (forall a, processes (f a) = processes a /\ process_lock (f a) = process_lock a /\ win (f a) = win a /\
    an_files (f a) = an_files a) ->
  within calm (smodify f).
Proof using Type. intros Hf a. destruct (Hf a) as (H1 & H2 & H3 & H4). split; [split_and!|]; cbn; [rewrite H3; lia|by rewrite H1|by rewrite H4|done]. Qed.
Lemma calm_processes f : (forall p, plist_ok p -> plist_ok (f p)) -> within calm (on_processes f).
Proof using Type. intros Hf a. split; [split_and!|]; [cbn; lia|apply Hf|done|done]. Qed.
Lemma calm_if (b : bool) {A} (m k : st (analyzer W) A) : within calm m -> within calm k -> within calm (if b then m else k).
Proof using Type. by destruct b. Qed.
(** A step that looks at the state first. *)
Lemma calm_at {A} (m : analyzer W -> st (analyzer W) A) : (forall a, within calm (m a)) -> within calm (fun a => m a a).
Proof using Type. intros Hm a. apply Hm. Qed.
Lemma calm_const {A} (r : res A) : within calm (fun a => (r, a)).
Proof using Type. by intros a. Qed.

(** *** The files *)

Definition onward (s s' : file_state W) : Prop := timer (fs_win s) <= timer (fs_win s') /\ (files_ok (fs s) -> files_ok (fs s')).
Definition forward {A} (m : st (file_state W) A) : Prop := forall s, onward s (m s).2.
Lemma onward_trans s1 s2 s3 : onward s1 s2 -> onward s2 s3 -> onward s1 s3.
Proof using Type. intros [H1 H2] [H3 H4]. split; [lia|auto]. Qed.
Lemma calm_files m : forward m -> within calm (on_files m).
Proof using Type. intros Hm a. unfold on_files. destruct (Hm {| fs := an_files a; fs_win := win a |}) as [H1 H2]. destruct (m _) as [r s]. split; [split_and!; [exact H1|done|exact H2]|done]. Qed.
Lemma forward_bind {A B} (m : st (file_state W) A) (k : A -> st (file_state W) B) :
  forward m -> (forall a, forward (k a)) -> forward (sbind m k).
Proof using Type.
  intros Hm Hk s. specialize (Hm s). unfold sbind. destruct (m s) as [[a|e] s1]; [|done]. eapply onward_trans; [exact Hm|apply Hk].
Qed.
Lemma forward_add_pid path pid s : onward s (Files_add_pid path pid s).
Proof using Hlaws.
  unfold Files_add_pid. destruct pid; [|by split]. destruct (dict_lookup _ _); [|by split]. case_bool_decide; [by split|].
  split; [apply aux_timer|]. apply (files_ok_set _ _ (fs s)).
Qed.
Lemma forward_dump path m p q c : forward (dump_file path m p q c).
Proof using Hlaws.
  intros s. unfold dump_file, on_win. destruct (is_file path (fs_win s)); [|by split].
  destruct (sha256 path (fs_win s)) as [sha|e]; [|destruct e; by split].
  set (u := upload_of _ _ _ _ _ _ _). pose proof (upload_timer u (fs_win s)) as Hu. by destruct (upload_to_host u (fs_win s)) as [[]].
Qed.
Lemma forward_delete path pid : forward (delete_file path pid).
Proof using Hlaws.
  apply forward_bind; [intros s; apply forward_add_pid|]. intros _. apply forward_bind; [apply forward_dump|]. intros _ s. split; [done|]. apply (files_ok_without _ (fs s)).
Qed.
Lemma forward_add path pid c m : forward (smodify (add_file path pid c m)).
Proof using Hlaws.
  intros s. cbn. unfold add_file. destruct (dict_lookup _ _); (eapply onward_trans; [|apply forward_add_pid]); [by split|].
  split; [done|]. apply (files_ok_set _ _ (fs s)).
Qed.
Lemma forward_move old new pid : forward (smodify (move_file old new pid)).
Proof using Hlaws.
  intros s. cbn. unfold move_file. pose proof (forward_add_pid old pid s) as H1. destruct (dict_lookup _ _); [|done].
  eapply onward_trans; [exact H1|]. split; [done|]. intros Hf.
  apply (files_ok_set _ _ {| pending := dict_without (lower old) _; files_orig := []; dumped := [] |}). by eapply files_ok_without.
Qed.

#[local] Hint Resolve calm_sys calm_processes calm_files calm_const upload_timer filepath_timer inject_timer service_timer command_timer
  event_timer dump_timer plist_add plist_remove plist_adds plist_ksubvert forward_dump forward_delete forward_add forward_move : calm.

(** Sequences and branches of calm steps; a step that looks at the state first
    is opened, and closed again behind its branches. *)
Ltac calm_tac := repeat first
  [ within_step | apply calm_const | apply calm_modify; by intros | solve [auto with calm]
  | lazymatch goal with
    | |- within calm (fun _ => _) => intros ?
    | |- calm _ (snd (match ?x with _ => _ end)) => destruct x
    | |- calm _ (snd (_, _)) => reflexivity
    | |- calm ?a (snd (?m ?a)) => refine ((_ : within calm m) a)
    end ].

Lemma calm_sleep ms : 0 <= ms -> within calm (sys (Sleep ms)).
Proof using Hlaws. intros Hms. apply calm_sys. intros w. pose proof (Sleep_timer ms w). lia. Qed.
Lemma calm_inject_service pid ms : 0 <= ms -> within calm (inject_service pid ms).
Proof using Hlaws. intros Hms. unfold inject_service, note_injection. calm_tac. by apply calm_sleep. Qed.
Lemma calm_inject_named name : within calm (inject_named name).
Proof using Hlaws. unfold inject_named. calm_tac. by apply calm_inject_service. Qed.
Lemma calm_dcom : within calm monitor_dcom.
Proof using Hlaws. unfold monitor_dcom, add_monitored. calm_tac; apply calm_inject_named. Qed.
Lemma calm_if_exists path k : within calm k -> within calm (if_exists path k).
Proof using Type. intros Hk. unfold if_exists. intros a. destruct (path_exists path (win a)); [apply Hk|done]. Qed.
#[local] Hint Resolve calm_sleep calm_inject_service calm_inject_named calm_dcom calm_if_exists : calm.

Lemma calm_file_new data : within calm (_handle_file_new data).
Proof using Hlaws. unfold _handle_file_new, decode. calm_tac. apply calm_if_exists. calm_tac. Qed.
Lemma calm_dump_fields category data : within calm (dump_fields category data).
Proof using Hlaws. unfold dump_fields, decode. calm_tac. apply calm_if_exists. calm_tac. Qed.
Lemma calm_file_del data : within calm (_handle_file_del data).
Proof using Hlaws. unfold _handle_file_del, decode. calm_tac. Qed.
Lemma calm_file_dump data : within calm (_handle_file_dump data).
Proof using Hlaws. unfold _handle_file_dump, decode. calm_tac; [apply calm_dump_fields|]. apply calm_if_exists. calm_tac. Qed.
Lemma calm_file_move data : within calm (_handle_file_move data).
Proof using Hlaws. unfold _handle_file_move, decode. calm_tac. Qed.
Lemma calm_kterminate data : within calm (_handle_kterminate data).
Proof using Hlaws. unfold _handle_kterminate, int_arg. calm_tac. apply calm_processes. intros p Hp. case_bool_decide; auto with calm. Qed.
Lemma calm_ksubvert data : within calm (_handle_ksubvert data).
Proof using Hlaws. unfold _handle_ksubvert. calm_tac. Qed.
Lemma calm_services data : within calm (_handle_interop data) /\ within calm (_handle_wmi data) /\ within calm (_handle_tasksched data) /\
  within calm (_handle_bits data) /\ within calm (_handle_service cfg data) /\ within calm (_handle_resume data).
Proof using Hlaws.
  unfold _handle_interop, _handle_wmi, _handle_tasksched, _handle_bits, _handle_service, _handle_resume, add_monitored, note_injection, decode.
  split_and!; calm_tac. by apply calm_inject_service.
Qed.
Lemma calm_process data : within calm (_handle_process cfg data).
Proof using Hlaws. unfold _handle_process. calm_tac. Qed.
Lemma calm_dumpreqs data : within calm (_handle_dumpreqs data).
Proof using Type. unfold _handle_dumpreqs. calm_tac. Qed.

(** *** The commands that take the lock *)

(** From a held lock: what returns has given it back, what raises has not. *)
Definition gives_back {A} (k : st (analyzer W) A) : Prop := forall a, process_lock a = true ->
  evolves a (k a).2 /\ process_lock (k a).2 = match (k a).1 with Ok _ => false | Raise _ => true end.
(** The same from a free one. *)
Definition brackets {A} (k : st (analyzer W) A) : Prop := forall a, process_lock a = false ->
  evolves a (k a).2 /\ process_lock (k a).2 = match (k a).1 with Ok _ => false | Raise _ => true end.

Lemma gives_back_bind {A B} (m : st (analyzer W) A) (k : A -> st (analyzer W) B) :
  within calm m -> (forall v, gives_back (k v)) -> gives_back (sbind m k).
Proof using Type.
  intros Hm Hk a Ha. specialize (Hm a). unfold sbind. destruct (m a) as [[v|e] a1]; destruct Hm as [H1 H2]; cbn [fst snd] in *.
  - destruct (Hk v a1) as [H3 H4]; [congruence|]. split; [by etrans|done].
  - split; [done|congruence].
Qed.
Lemma gives_back_release {A} (r : A) : gives_back (do* process_lock_release in sret r).
Proof using Type. intros a Ha. by split. Qed.
Lemma gives_back_raise {A B} e (k : A -> st (analyzer W) B) : gives_back (sbind (sraise e) k).
Proof using Type. intros a Ha. by split. Qed.
Lemma brackets_acquire {A} (k : st (analyzer W) A) : gives_back k -> brackets (do* process_lock_acquire in k).
Proof using Type. intros Hk a Ha. unfold sbind, process_lock_acquire. rewrite Ha. by apply (Hk (set_process_lock true a)). Qed.
Lemma brackets_ret {A} (r : A) : brackets (sret r).
Proof using Type. by intros a Ha. Qed.
Lemma blocked {A} (k : st (analyzer W) A) a : process_lock a = true -> (do* process_lock_acquire in k) a = (Raise Blocked, a).
Proof using Type. intros Ha. unfold sbind, process_lock_acquire. by rewrite Ha. Qed.

(** A command that either leaves the lock alone, or takes it first. *)
Definition quiet (h : bytes -> st (analyzer W) pipe_response) : Prop := forall data, within calm (h data).
Definition locker (h : bytes -> st (analyzer W) pipe_response) : Prop :=
  forall data, brackets (h data) /\ forall a, process_lock a = true -> (h data a).2 = a.

Ltac locker_tac := repeat first
  [ apply brackets_acquire | apply gives_back_release | apply gives_back_raise | apply gives_back_bind; [calm_tac|intros] | progress intros ].

Lemma locker_loaded : locker _handle_loaded.
Proof using Hlaws.
  intros data. unfold _handle_loaded, int_arg. destruct data as [|c data]; [split; [apply brackets_ret|done]|].
  split; [locker_tac|by intros a Ha; rewrite blocked]. apply calm_processes. intros p Hp. case_bool_decide; auto with calm.
Qed.
Lemma locker_kprocess : locker (_handle_kprocess cfg).
Proof using Hlaws. intros data. unfold _handle_kprocess, int_arg. split; [locker_tac|by intros a Ha; rewrite blocked]. Qed.
Lemma calm_shutdown_loop l : within calm (flush_all cfg l).
Proof using Hlaws. induction l as [|pid l IH]; cbn [flush_all]; calm_tac. Qed.
Lemma locker_shutdown : locker (_handle_shutdown cfg).
Proof using Hlaws.
  intros data. unfold _handle_shutdown. split; [|by intros a Ha; rewrite blocked].
  apply brackets_acquire, gives_back_bind; [intros a; apply calm_shutdown_loop|]. intros _. apply gives_back_release.
Qed.
Lemma locker_kill : locker (_handle_kill cfg).
Proof using Hlaws.
  intros data. unfold _handle_kill, int_arg. split; [locker_tac|by intros a Ha; rewrite blocked].
  apply calm_processes. intros p Hp. destruct (_ && _); auto with calm.
Qed.
Lemma locker_process2 : locker (_handle_process2 cfg).
Proof using Hlaws.
  intros data. unfold _handle_process2. destruct (split_byte COMMA data) as [|p [|t [|m []]]]; try (split; [apply brackets_ret|done]).
  destruct (int_if_digits p) as [pid|]; [|split; [apply brackets_ret|done]]. destruct (int_if_digits t) as [tid|]; [|split; [apply brackets_ret|done]].
  destruct (int_if_digits m); [|split; [apply brackets_ret|done]]. split; [|by intros a Ha; unfold _inject_process; rewrite blocked].
  unfold _inject_process, ignore, Process_tid. apply brackets_acquire. intros a Ha.
  destruct (is_own cfg pid); [|destruct (ProcessList_has_pid pid true (processes a))];
    (match goal with |- evolves _ (snd (?k a)) /\ _ => refine ((_ : gives_back k) a Ha) end); locker_tac.
Qed.

(** *** All commands *)

Definition lockers : list string := ["loaded"; "kprocess"; "shutdown"; "kill"; "process2"].

Lemma dict_lookup_elem {A} k (d : list (string * A)) v : dict_lookup k d = Some v -> (k, v) ∈ d.
Proof using Type.
  induction d as [|[k' v'] d IH]; cbn; [done|]. case_bool_decide as E; [intros [= ->]; subst; left|intros Hd; right; by apply IH].
Qed.
Lemma handler_kind name h : dict_lookup name (command_handlers cfg) = Some h -> if bool_decide (name ∈ lockers) then locker h else quiet h.
Proof using Hlaws.
  intros Hn%dict_lookup_elem. revert name h Hn.
  enough (Forall (fun kv => if bool_decide (kv.1 ∈ lockers) then locker kv.2 else quiet kv.2) (command_handlers cfg)) as Hall.
  { intros name h Hn. by apply (proj1 (Forall_forall _ _) Hall (name, h)). }
  assert (Hlog : quiet _handle_log) by (intros data; apply calm_const).
  unfold command_handlers. rewrite !Forall_cons, Forall_nil. split_and!; try done; cbn [fst snd];
    match goal with |- if bool_decide (?n ∈ lockers) then _ else _ =>
      let b := eval vm_compute in (bool_decide (n ∈ lockers)) in change (bool_decide (n ∈ lockers)) with b; cbv iota end; try exact Hlog.
  all: try (intros data; apply (calm_services data)).
  all: try (intros data; by apply calm_const).
  all: try (by apply locker_loaded || apply locker_kprocess || apply locker_shutdown || apply locker_kill || apply locker_process2).
  all: intros data; first [apply calm_kterminate|apply calm_ksubvert|apply calm_process|apply calm_file_new|apply calm_file_del
    |apply calm_file_dump|apply calm_file_move|apply calm_dumpreqs|unfold _handle_file_cape; apply within_bind; [exact _|apply calm_dump_fields|intros; by apply calm_const]].
Qed.

(** The handler of a message. *)
Definition handler_of (data : bytes) : option (string * bytes) :=
  '(command, arguments) ← parse_command data; if utf8_valid command then Some (lower (text command), arguments) else None.

Lemma dispatch_cases data a :
  match handler_of data ≫= fun na => h ← dict_lookup na.1 (command_handlers cfg); Some (na.1, na.2, h) with
  | Some (name, args, h) => dict_lookup name (command_handlers cfg) = Some h /\ (dispatch cfg data a).2 = (h args a).2
  | None => (dispatch cfg data a).2 = a
  end.
Proof using Type.
  unfold dispatch, handler_of, decode, slift. generalize (command_handlers cfg) as hs. intros hs. destruct (parse_command data) as [[command args]|]; cbn; [|done].
  destruct (utf8_valid command); cbn; [|done]. destruct (dict_lookup (lower (text command)) hs) as [h|] eqn:E; cbn; [|done].
  split; [done|]. destruct (h args a) as [[r|e] a']; [done|]. by destruct e.
Qed.

Lemma dispatch_evolves data : within evolves (dispatch cfg data).
Proof using Hlaws.
  intros a. pose proof (dispatch_cases data a) as Hd. destruct (handler_of data ≫= _) as [[[name args] h]|]; [|by rewrite Hd].
  destruct Hd as [Hh ->]. apply handler_kind in Hh. destruct (bool_decide _); [|apply Hh].
  destruct (Hh args) as [Hf Hb]. destruct (process_lock a) eqn:E; [by rewrite Hb|]. apply (Hf a E).
Qed.
Lemma dispatch_locked data a : process_lock a = true -> process_lock (dispatch cfg data a).2 = true.
Proof using Hlaws.
  intros Ha. pose proof (dispatch_cases data a) as Hd. destruct (handler_of data ≫= _) as [[[name args] h]|]; [|by rewrite Hd].
  destruct Hd as [Hh ->]. apply handler_kind in Hh. destruct (bool_decide _).
  - destruct (Hh args) as [_ Hb]. by rewrite Hb.
  - destruct (Hh args a) as [_ Hl]. congruence.
Qed.
Definition dispatch_all (l : list bytes) (a : analyzer W) : analyzer W := fold_left (fun a data => (dispatch cfg data a).2) l a.
Lemma dispatch_all_locked l : forall a, process_lock a = true -> process_lock (dispatch_all l a) = true.
Proof using Hlaws. induction l as [|d l IH]; intros a Ha; [done|]. by apply IH, dispatch_locked. Qed.
Lemma dispatch_all_evolves l : forall a, evolves a (dispatch_all l a).
Proof using Hlaws. induction l as [|d l IH]; intros a; [done|]. etrans; [apply dispatch_evolves|apply IH]. Qed.

(** C24. Whatever the monitor sends: the list of processes has no duplicates,
    the tracked and the untracked processes stay apart, and the files that wait
    have different names in lower case. *)
Theorem commands_invariant l a : plist_ok (processes a) -> files_ok (an_files a) ->
  plist_ok (processes (dispatch_all l a)) /\ files_ok (an_files (dispatch_all l a)).
Proof using Hlaws. intros Hp Hf. destruct (dispatch_all_evolves l a) as (_ & H1 & H2). auto. Qed.

Lemma process2_keeps_lock args p t m pid tid mode a : split_byte COMMA args = [p; t; m] ->
  int_if_digits p = Some pid -> int_if_digits t = Some tid -> int_if_digits m = Some mode ->
  is_own cfg pid = false -> ProcessList_has_pid pid true (processes a) = false -> process_lock a = false ->
  process_lock (_handle_process2 cfg args a).2 = true.
Proof using Type.
  intros Hs Hp Ht Hm Ho Hh Ha. unfold _handle_process2, _inject_process. rewrite Hs, Hp, Ht, Hm. unfold sbind at 1, process_lock_acquire. rewrite Ha.
  change (processes (set_process_lock true a)) with (processes a). by rewrite Ho, Hh.
Qed.

(** When a command comes while the lock of the processes is free, the lock
    is still held afterwards exactly if the command is one of the five that
    take it and its handler raises; no later command ever gives it back. A
    PROCESS2 command for a process of somebody else that is not known yet
    always does this. *)
Theorem lock_left_behind data a : process_lock a = false ->
  (process_lock (dispatch cfg data a).2 = true <->
   exists name args h e, handler_of data = Some (name, args) /\ name ∈ lockers /\ dict_lookup name (command_handlers cfg) = Some h /\
     (h args a).1 = Raise e) /\
  (forall l, process_lock (dispatch cfg data a).2 = true -> process_lock (dispatch_all l (dispatch cfg data a).2) = true) /\
  (forall p t m pid tid mode args, handler_of data = Some ("process2", args) -> split_byte COMMA args = [p; t; m] ->
     int_if_digits p = Some pid -> int_if_digits t = Some tid -> int_if_digits m = Some mode ->
     is_own cfg pid = false -> ProcessList_has_pid pid true (processes a) = false ->
     process_lock (dispatch cfg data a).2 = true).
Proof using Hlaws.
  intros Ha. pose proof (dispatch_cases data a) as Hd. split_and!.
  - destruct (handler_of data) as [[name args]|] eqn:E; cbn [mbind option_bind fst snd] in Hd.
    2:{ rewrite Hd, Ha. split; [done|]. by intros (n & r & h & e & ? & _). }
    destruct (dict_lookup name (command_handlers cfg)) as [h|] eqn:Eh; cbn [mbind option_bind] in Hd.
    2:{ rewrite Hd, Ha. split; [done|]. intros (n & r & h & e & [= <- <-] & _ & Hn & _). congruence. }
    destruct Hd as [_ ->]. pose proof (handler_kind name h Eh) as Hk. case_bool_decide as Hin.
    + destruct (proj1 (Hk args) a Ha) as [_ ->]. split.
      * destruct (h args a) as [[r|e] a'] eqn:Er; [done|]. intros _. exists name, args, h, e. by rewrite Er.
      * intros (n & r & h' & e & [= <- <-] & _ & Hn & He). rewrite Eh in Hn. simplify_eq. by rewrite He.
    + destruct (Hk args a) as [_ ->]. rewrite Ha. split; [done|]. by intros (n & r & h' & e & [= <- <-] & Hn & _).
  - intros l. apply dispatch_all_locked.
  - intros p t m pid tid mode args Hn Hs Hp Ht Hm Ho Hh. rewrite Hn in Hd. cbn [mbind option_bind fst snd] in Hd.
    change (dict_lookup "process2" (command_handlers cfg)) with (Some (_handle_process2 cfg)) in Hd. cbn [mbind option_bind] in Hd.
    destruct Hd as [_ ->]. by eapply process2_keeps_lock.
Qed.
End frames.

(** ** An instance: two files with the same content, and a clock *)

#[local] Instance example_windows : windows Z := {
  timer w := w;
  Sleep ms w := (Ok tt, w + ms);
  path_exists _ _ := true;
  is_file p _ := bool_decide (p ∈ ["c:\temp\A.txt"; "c:\temp\a.txt"; "c:\temp\b.txt"]);
  sha256 _ _ := Ok "e3b0";
  upload_to_host _ := sret tt;
  get_filepath _ := sret "\Device\HarddiskVolume1\Windows\explorer.exe";
  inject _ _ _ _ _ := sret true;
  pid_from_service_name _ := sret 900;
  run_command_line _ := sret tt;
  set_terminate_event _ := sret true;
  dump_memory _ := sret tt;
  aux_add_pid _ w := w }.
#[local] Instance example_windows_laws : windows_laws Z.
Proof. split; intros; cbn; try done; lia. Defined.

Definition example_config : analyzer_config :=
  {| own_pid := 100; own_ppid := 50; hide_pids := [8; 16]; protected_paths := [B "c:\analyzer\"]; services_pid := Some 500;
     cfg_category := "file"; cfg_target := "c:\temp\sample.exe"; procmemdump := false |}.
Definition no_files : files := {| pending := []; files_orig := []; dumped := [] |}.
Definition example_analyzer : analyzer Z :=
  {| processes := {| pids := [1000]; pids_notrack := [] |}; an_files := no_files; process_lock := false; inject_list := []; critical := [];
     monitored := []; lastinject := None; num_injected := 0; timed_out := false; ignore_list := []; tracked := []; win := 0 |}.
Definition example_commands : list bytes :=
  [B "PROCESS:0:1234,5678"; B "LOADED:1234"; B "FILE_NEW:c:\temp\A.txt"; B "FILE_NEW:c:\temp\b.txt"; B "INTEROP:"; B "KILL:1000"].

Lemma commands_invariant_witness :
  plist_ok (processes (dispatch_all example_config example_commands example_analyzer)) /\
  pids (processes (dispatch_all example_config example_commands example_analyzer)) = [1234] /\
  (pending (an_files (dispatch_all example_config example_commands example_analyzer))).*1 = ["c:\temp\a.txt"; "c:\temp\b.txt"].
Proof.
  split; [|by vm_compute]. apply (commands_invariant example_config example_commands example_analyzer).
  - split_and!; cbn; [apply NoDup_singleton|constructor|]. by intros x _ ?%elem_of_nil.
  - split; constructor.
Defined.

Lemma lock_left_behind_witness :
  process_lock (dispatch example_config (B "PROCESS2:1234,5678,0") example_analyzer).2 = true /\
  process_lock (dispatch example_config (B "KILL:x") example_analyzer).2 = true /\
  process_lock (dispatch example_config (B "KILL:12") example_analyzer).2 = false.
Proof.
  split_and!.
  - apply (proj2 (proj2 (lock_left_behind example_config (B "PROCESS2:1234,5678,0") example_analyzer eq_refl))
             (B "1234") (B "5678") (B "0") 1234 5678 0 (B "1234,5678,0")); by vm_compute.
  - apply (lock_left_behind example_config (B "KILL:x") example_analyzer eq_refl).
    exists "kill", (B "x"), (_handle_kill example_config), ValueError. split_and!; [by vm_compute| |done|by vm_compute].
    do 3 apply list_elem_of_further. apply list_elem_of_here.
  - by vm_compute.
Defined.
