(* ===== verification/AnalyzerRun.v ===== *)
(** The run of the analyzer in a Windows guest (analyzer/windows/analyzer.py):
    dumping the files, the loop that watches the processes, the shutdown, and
    the report of the result to the agent (Agent.v). *)
From S2P Require Import Prelude Struct Pretty ProcessLog Quarantine Behavior Agent Analyzer.
Open Scope string_scope.
Open Scope list_scope.
Open Scope Z_scope.

(** ** The files that wait are dumped *)

(** The uploads beside the system. *)
#[local] Instance recorded {W} `{windows W} : windows (W * list upload) := {
  timer w := timer w.1;
  Sleep ms w := let '(r, w') := Sleep ms w.1 in (r, (w', w.2));
  path_exists p w := path_exists p w.1;
  is_file p w := is_file p w.1;
  sha256 p w := sha256 p w.1;
  upload_to_host u w := let '(r, w') := upload_to_host u w.1 in (r, (w', w.2 ++ [u]));
  get_filepath p w := let '(r, w') := get_filepath p w.1 in (r, (w', w.2));
  inject p t m i n w := let '(r, w') := inject p t m i n w.1 in (r, (w', w.2));
  pid_from_service_name s w := let '(r, w') := pid_from_service_name s w.1 in (r, (w', w.2));
  run_command_line s w := let '(r, w') := run_command_line s w.1 in (r, (w', w.2));
  set_terminate_event p w := let '(r, w') := set_terminate_event p w.1 in (r, (w', w.2));
  dump_memory p w := let '(r, w') := dump_memory p w.1 in (r, (w', w.2));
  aux_add_pid p w := (aux_add_pid p w.1, w.2) }.

(** What is relied on: sending a file returns and leaves the files of the
    guest alone, and reading one for its digest can only raise OSError. *)
Class upload_laws (W : Type) `{windows W} := {
  upload_ok : forall u w, (upload_to_host u w).1 = Ok tt;
  upload_is_file : forall u w p, is_file p (upload_to_host u w).2 = is_file p w;
  upload_sha256 : forall u w p, sha256 p (upload_to_host u w).2 = sha256 p w;
  sha256_raises : forall p w e, sha256 p w = Raise e -> e = OSError }.

Section dumps.
Context {W : Type} `{Hw : windows W, Hup : !upload_laws W}.

Definition with_dumped (sha : string) (f : files) : files :=
  {| pending := pending f; files_orig := files_orig f; dumped := dumped f ++ [sha] |}.
(** The uploads the waiting files call for: each that exists and can be read, in
    order, marked as a duplicate when its content was sent before. *)
Fixpoint uploads_of (names : list string) (f : files) (w : W) : list upload :=
  match names with
  | [] => []
  | k :: names' =>
      match (if is_file k w then sha256 k w else Raise OSError) with
      | Ok sha => upload_of k "" (PidText "") (PidText "") "files" sha f :: uploads_of names' (with_dumped sha f) w
      | Raise _ => uploads_of names' f w
      end
  end.

Lemma uploads_same names : forall f f' w w', dumped f = dumped f' ->
  (forall p, is_file p w = is_file p w') -> (forall p, sha256 p w = sha256 p w') ->
  (forall k, k ∈ names -> lower k = k /\ dict_lookup k (pending f) = dict_lookup k (pending f') /\
                          dict_lookup k (files_orig f) = dict_lookup k (files_orig f')) ->
  uploads_of names f w = uploads_of names f' w'.
Proof using Type.
  induction names as [|k names IH]; intros f f' w w' Hd Hi Hs Hk; cbn [uploads_of]; [done|]. rewrite Hi, Hs.
  destruct (Hk k ltac:(left)) as (Hl & Hp & Ho).
  destruct (if is_file k w' then _ else _) as [sha|e].
  - f_equal.
    + unfold upload_of. by rewrite Hl, Hp, Ho, Hd.
    + apply IH; [by cbn; rewrite Hd|done..|]. intros x Hx. apply Hk. by right.
  - apply IH; [done..|]. intros x Hx. apply Hk. by right.
Qed.

Lemma lookup_without {A} k k' (d : list (string * A)) : k <> k' -> dict_lookup k (dict_without k' d) = dict_lookup k d.
Proof using Type.
  intros Hne. unfold dict_without. induction d as [|[x v] d IH]; [done|]. rewrite filter_cons. cbn [fst].
  destruct (decide (x <> k')) as [Hx|Hx]; cbn [dict_lookup]; [by rewrite IH|].
  rewrite bool_decide_false; [done|]. intros ->. apply Hx. congruence.
Qed.
Lemma without_first {A} k (v : A) d : k ∉ d.*1 -> dict_without k ((k, v) :: d) = d.
Proof using Type.
  intros Hk. unfold dict_without. rewrite filter_cons. cbn [fst]. rewrite decide_False by (intros Hn; by apply Hn).
  apply filter_all. intros [x y] Hx Hxk. cbn in Hxk. subst x. apply Hk, list_elem_of_fmap. by exists (k, y).
Qed.

(** One file. *)
Lemma delete_one k (s : file_state (W * list upload)) : lower k = k ->
  let sha := if is_file k (fs_win s).1 then sha256 k (fs_win s).1 else Raise OSError in
  let ups := match sha with Ok sha => [upload_of k "" (PidText "") (PidText "") "files" sha (fs s)] | Raise _ => [] end in
  let w' := match sha with
            | Ok sha => (upload_to_host (upload_of k "" (PidText "") (PidText "") "files" sha (fs s)) (fs_win s).1).2
            | Raise _ => (fs_win s).1
            end in
  delete_file k None s =
  (Ok tt, {| fs := {| pending := dict_without k (pending (fs s)); files_orig := dict_without k (files_orig (fs s));
                      dumped := dumped (fs s) ++ match sha with Ok sha => [sha] | Raise _ => [] end |};
             fs_win := (w', (fs_win s).2 ++ ups) |}).
Proof using Hup.
  intros Hl sha ups w'. unfold delete_file, sbind, smodify. cbn [Files_add_pid]. rewrite Hl. unfold dump_file.
  change (is_file k (fs_win s)) with (is_file k (fs_win s).1). change (sha256 k (fs_win s)) with (sha256 k (fs_win s).1).
  subst sha ups w'. destruct s as [f [w log]]. cbn [fs fs_win fst snd].
  destruct (is_file k w); [destruct (sha256 k w) as [sha|e] eqn:E|]; [|apply sha256_raises in E as ->; by rewrite !app_nil_r|by rewrite !app_nil_r].
  unfold on_win. cbn [fs fs_win fst snd upload_to_host recorded]. set (u := upload_of _ _ _ _ _ _ _).
  pose proof (upload_ok u w) as Hu. destruct (upload_to_host u w) as [r w'] eqn:Er. cbn in Hu. subst r. done.
Qed.

Lemma dump_files_from n : forall s : file_state (W * list upload), length (pending (fs s)) = n -> files_ok (fs s) ->
  exists s', dump_files_loop n s = (Ok tt, s') /\ pending (fs s') = [] /\
    (fs_win s').2 = (fs_win s).2 ++ uploads_of (pending (fs s)).*1 (fs s) (fs_win s).1.
Proof using Hup.
  induction n as [|n IH]; intros s Hn [Hnd Hlow].
  { destruct (pending (fs s)) as [|kv d] eqn:E; [|done]. exists s. cbn. rewrite E, app_nil_r. done. }
  destruct (pending (fs s)) as [|[k l] d] eqn:E; [done|]. cbn in Hn, Hnd, Hlow.
  apply NoDup_cons in Hnd as [Hk Hnd]. apply Forall_cons in Hlow as [Hlk Hlow].
  cbn [dump_files_loop]. rewrite E. unfold sbind. rewrite (delete_one k s Hlk). rewrite E, without_first by done.
  set (sha := if is_file k (fs_win s).1 then _ else _). set (s1 := {| fs := _; fs_win := _ |}).
  destruct (IH s1) as (s' & H1 & H2 & H3); [cbn; lia|by split|]. exists s'. split_and!; [done..|]. rewrite H3. cbn [s1 fs fs_win fst snd pending].
  rewrite <-app_assoc. f_equal. rewrite fmap_cons. cbn [fst uploads_of]. fold sha. rewrite Forall_forall in Hlow.
  destruct sha as [sh|e]; cbn [app]; [f_equal|]; apply uploads_same; cbn; rewrite ?app_nil_r; try done; intros *; rewrite ?upload_is_file, ?upload_sha256; try done.
  all: intros Hx; split; [by apply Hlow|]; rewrite lookup_without by (intros ->; done).
  all: rewrite E; cbn [dict_lookup]; rewrite bool_decide_false by (intros ->; done); done.
Qed.

(** What an upload of a waiting file is. *)
Definition upload_for (f : files) (w : W) (u : upload) : Prop := exists k sha f',
  is_file k w = true /\ sha256 k w = Ok sha /\ sublist (dumped f) (dumped f') /\ up_duplicated u = bool_decide (sha ∈ dumped f') /\
  forall d, dict_lookup k (files_orig f) = Some d -> up_file u = fd_path d /\ up_category u = fd_category d /\
    (fd_category d <> "memory" -> up_path u = in_folder (fd_category d) sha).

Lemma uploads_for names : forall f (w : W), Forall (fun k => lower k = k) names -> Forall (upload_for f w) (uploads_of names f w).
Proof using Type.
  induction names as [|k names IH]; intros f w Hl; cbn [uploads_of]; [constructor|]. apply Forall_cons in Hl as [Hk Hl].
  destruct (is_file k w) eqn:Ei; [destruct (sha256 k w) as [sha|e] eqn:Es|]; [|by apply IH..]. constructor.
  - exists k, sha, f. split_and!; [done..| |].
    + unfold upload_of. repeat split_match; simplify_eq/=; done.
    + intros d Hd. unfold upload_of. rewrite Hk, Hd. cbn. destruct (bool_decide (fd_category d = "memory")) eqn:Em.
      * apply bool_decide_eq_true in Em. split_and!; [by destruct (bool_decide _)..|done].
      * done.
  - eapply Forall_impl; [by apply IH|]. intros u (k' & sha' & f' & H1 & H2 & H3 & H4 & H5). exists k', sha', f'.
    split_and!; [done|done| |done..]. etrans; [|exact H3]. cbn. apply sublist_inserts_r. done.
Qed.

(** C25. Dumping the files that wait ends, leaves none waiting, and uploads each
    that exists and can be read, once and in order: under the path and category
    it was added with, to a name made of its digest, marked as a duplicate
    exactly when the same content was sent before. *)
Theorem pending_files_uploaded (f : files) (w : W) (log : list upload) : files_ok f ->
  exists s', dump_files {| fs := f; fs_win := (w, log) |} = (Ok tt, s') /\ pending (fs s') = [] /\
    (fs_win s').2 = log ++ uploads_of (pending f).*1 f w /\ Forall (upload_for f w) (uploads_of (pending f).*1 f w).
Proof using Hup.
  intros Hf. destruct (dump_files_from _ {| fs := f; fs_win := (w, log) |} eq_refl Hf) as (s' & H1 & H2 & H3).
  exists s'. split_and!; [done..|]. apply uploads_for, Hf.
Qed.

(** A file that was moved is sent under its new name in lower case, and with no
    category: what was known about it stays under the old name. *)
Lemma moved_file_forgets old new category metadata sha (w : W) : lower old <> lower new ->
  let s := move_file old new None (add_file old None category metadata {| fs := {| pending := []; files_orig := []; dumped := [] |}; fs_win := w |}) in
  let u := upload_of (lower new) "" (PidText "") (PidText "") "files" sha (fs s) in
  pending (fs s) = [(lower new, [])] /\ up_file u = lower new /\ up_category u = "files".
Proof using Type.
  intros Hne. unfold move_file, add_file, set_file_lists, set_pending. cbn [Files_add_pid fs fs_win pending files_orig dict_lookup dict_set dumped].
  rewrite bool_decide_true by done. rewrite without_first by (apply not_elem_of_nil). cbn [pending fs set_file_lists dict_set].
  unfold upload_of. cbn [pending files_orig fs dict_lookup]. rewrite lower_lower, bool_decide_false by congruence. done.
Qed.
End dumps.

(** ** The loop of [Analyzer.run] *)

(** The package, the auxiliary modules and the calls of Process that only the
    loop and the shutdown make. *)
Class run_code (W : Type) := {
  pkg_check : st W bool;
  pkg_set_pids : list Z -> st W unit;
  pkg_finish : st W unit;
  pkg_files : st W unit;                (** upload of [package_files()] *)
  upload_memdump : Z -> st W unit;
  is_critical : Z -> st W bool;
  terminate : Z -> st W unit;
  create_mutex : st W unit;
  aux_stops : list (st W unit);
  aux_finishes : list (st W unit) }.

(** [Process.is_alive]. *)
Definition is_alive (pid : Z) : bool := true.

Record run_config := {
  run_timeout : Z; pid_check : bool; kernel_analysis : bool; memdump_option : bool; terminate_processes : bool }.

(** The analyzer with the variables of the loop. *)
Record watch (W : Type) := { an : analyzer W; emptytime : option Z; an_do_run : bool }.
Arguments an {W} _. Arguments emptytime {W} _. Arguments an_do_run {W} _.

(** What comes from the other threads between two rounds: commands of the
    monitor, and an auxiliary module that stops the analysis. *)
Inductive arrival := Message (data : bytes) | StopRequest.

Section run.
Context {W : Type} `{windows W} `{run_code W} (acfg : analyzer_config) (cfg : run_config).

Definition set_an (a : analyzer W) (s : watch W) : watch W := {| an := a; emptytime := emptytime s; an_do_run := an_do_run s |}.
Definition set_emptytime (t : option Z) (s : watch W) : watch W := {| an := an s; emptytime := t; an_do_run := an_do_run s |}.
Definition in_an {A} (m : st (analyzer W) A) : st (watch W) A := fun s => let '(r, a) := m (an s) in (r, set_an a s).
Definition in_sys {A} (m : st W A) : st (watch W) A := in_an (sys m).
Definition now (s : watch W) : Z := timer (win (an s)).
(** A time that is [None] or 0 is false. *)
Definition time_set (t : option Z) : option Z := match t with Some 0 => None | _ => t end.
(** Any exception is logged. *)
Definition logged_only (m : st W unit) : st W unit := fun w => (Ok tt, (m w).2).

Fixpoint alive_loop (fuel : nat) (i : nat) : st (watch W) unit := fun s =>
  match fuel with
  | O => (Raise OutOfFuel, s)
  | S fuel =>
      match pids (processes (an s)) !! i with
      | None => (Ok tt, s)
      | Some pid =>
          if is_alive pid then alive_loop fuel (S i) s
          else (do* (if memdump_option cfg then in_sys (logged_only (upload_memdump pid)) else sret tt) in
                do* in_an (on_processes (fun p => if bool_decide (pid ∈ pids p) then ProcessList_remove_pid pid p else p)) in
                alive_loop fuel (S i)) s
      end
  end.

(** Is the list of processes empty for good? *)
Definition check_empty : st (watch W) bool := fun s =>
  let quiet := match time_set (lastinject (an s)) with None => true | Some t => t + 15000 <=? now s end in
  if bool_decide (pids (processes (an s)) = []) && quiet then
    match time_set (emptytime s) with
    | Some t => (Ok (t + 5000 <=? now s), s)
    | None => (Ok false, set_emptytime (Some (now s)) s)
    end
  else (Ok false, set_emptytime None s).

(** The body of [try]: does the loop go on? *)
Definition round_body : st (watch W) bool :=
  let* ended :=
    (if pid_check cfg then
       let* e := (if kernel_analysis cfg then sret false
                  else do* (fun s => alive_loop (S (length (pids (processes (an s))))) 0 s) in check_empty) in
       if e then sret true
       else do* (fun s => in_sys (pkg_set_pids (pids (processes (an s)))) s) in sret false
     else sret false) in
  if ended then sret false
  else fun s => match in_sys pkg_check s with
                | (Ok b, s') => (Ok b, s')
                | (Raise _, s') => (Ok true, s')
                end.

Definition watch_round (time_start : Z) : st (watch W) bool := fun s =>
  if run_timeout cfg * 1000 <=? now s - time_start then (Ok false, set_an (set_timed_out true (an s)) s)
  else if process_lock (an s) then (do* in_sys (Sleep 1000) in sret true) s
  else sfinally round_body (in_sys (Sleep 1000)) s.

Definition arrive (s : watch W) (e : arrival) : watch W :=
  match e with
  | Message data => set_an (dispatch acfg data (an s)).2 s
  | StopRequest => {| an := an s; emptytime := emptytime s; an_do_run := false |}
  end.
(** [while self.do_run]; [env] is what arrives before each round. *)
Fixpoint watch_loop (fuel : nat) (env : nat -> list arrival) (time_start : Z) (n : nat) : st (watch W) unit := fun s =>
  match fuel with
  | O => (Raise OutOfFuel, s)
  | S fuel =>
      let s := fold_left arrive (env n) s in
      if an_do_run s then
        match watch_round time_start s with
        | (Ok true, s') => watch_loop fuel env time_start (S n) s'
        | (Ok false, s') => (Ok tt, s')
        | (Raise e, s') => (Raise e, s')
        end
      else (Ok tt, s)
  end.

(** ** The shutdown *)

(** [while proc.is_alive()]. *)
Fixpoint terminate_loop (fuel : nat) (proc_counter : Z) (pid : Z) : st W unit := fun w =>
  if is_alive pid then
    match fuel with
    | O => (Raise OutOfFuel, w)
    | S fuel =>
        match (if 5 <? proc_counter then terminate pid w else (Ok tt, w)) with
        | (Raise _, w') => terminate_loop fuel proc_counter pid w'
        | (Ok _, w') => (do* Sleep 1000 in terminate_loop fuel (proc_counter + 1) pid) w'
        end
    end
  else (Ok tt, w).

Fixpoint end_processes (fuel : nat) (critical_list l : list Z) : st W unit :=
  match l with
  | [] => sret tt
  | pid :: l' =>
      let rest := end_processes fuel critical_list l' in
      fun w =>
        match (if is_alive pid then set_terminate_event pid w else (Ok true, w)) with
        | (Raise _, w') => rest w'
        | (Ok _, w') =>
            (do* (if terminate_processes cfg && is_alive pid && negb (bool_decide (pid ∈ critical_list)) then
                    let* c := is_critical pid in if c then sret tt else terminate_loop fuel 0 pid
                  else sret tt) in
             rest) w'
        end
  end.

Definition run_shutdown (fuel : nat) : st (watch W) unit :=
  do* (fun s => if kernel_analysis cfg then (Ok tt, s)
                else in_sys (end_processes fuel (critical (an s)) (pids (processes (an s)))) s) in
  do* in_sys create_mutex in
  do* in_sys (Sleep 1000) in
  do* in_sys (logged_only pkg_finish) in
  do* in_sys (logged_only pkg_files) in
  do* in_sys (fold_right (fun m k => do* logged_only m in k) (sret tt) aux_stops) in
  in_sys (fold_right (fun m k => do* logged_only m in k) (sret tt) aux_finishes).
End run.

(** ** What the agent is told: the main program *)

(** How [prepare] and [run] ended: with a value, with CuckooError, or with any
    other exception. *)
Inductive run_outcome := Returned (success : bool) | Cuckoo_error | Unexpected.
Definition wrong_package : string := "You probably submitted the job with wrong package".
Definition newline_text : string := String NL EmptyString.
Definition show_bool (b : bool) : string := if b then "True" else "False".

(** The forms that are posted to the agent; [complete_excp] is the traceback of
    [complete], if it raised. Adding text to the boolean description raises. *)
Definition posted (o : run_outcome) (complete_excp : option string) : list (list (string * string)) :=
  match o with
  | Returned b =>
      match complete_excp with
      | None => [[("status", "complete"); ("description", show_bool b)]]
      | Some _ => []
      end
  | Cuckoo_error =>
      [("status", "exception"); ("description", wrong_package)] ::
      match complete_excp with
      | None => [[("status", "exception"); ("description", wrong_package)]]
      | Some tb => [[("status", "exception"); ("description", wrong_package ++ wrong_package ++ newline_text ++ tb)]]
      end
  | Unexpected =>
      match complete_excp with
      | None => [[]]
      | Some tb => [[("status", "exception"); ("description", tb)]]
      end
  end%string.
Definition status_post (form : list (string * string)) : http_request :=
  {| rq_method := POST; rq_path := "/status"; rq_ip := "127.0.0.1"; rq_form := form; rq_files := [] |}.

(** ** The loop ends *)

(** Time goes on; [set_pids] of a package, which no package overrides, is an assignment. *)
Class run_laws (W : Type) `{windows W} `{run_code W} := {
  check_timer : forall w, timer w <= timer (pkg_check w).2;
  set_pids_returns : forall l w, (pkg_set_pids l w).1 = Ok tt;
  set_pids_timer : forall l w, timer w <= timer (pkg_set_pids l w).2 }.

Section ends.
Context {W : Type} `{Hwin : windows W, Hlaws : !windows_laws W} {Hrc : run_code W} {Hrl : run_laws W}
  (acfg : analyzer_config) (cfg : run_config).
Implicit Types s : watch W.

Lemma in_sys_timer {A} (m : st W A) s : (forall w, timer w <= timer (m w).2) ->
  now s <= now (in_sys m s).2 /\ process_lock (an (in_sys m s).2) = process_lock (an s).
Proof using Type.
  intros Hm. unfold in_sys, in_an, sys, now. specialize (Hm (win (an s))). by destruct (m (win (an s))) as [r w].
Qed.
Lemma in_sys_sleep s : in_sys (Sleep 1000) s = (Ok tt, (in_sys (Sleep 1000) s).2) /\ now s + 1000 <= now (in_sys (Sleep 1000) s).2 /\
  process_lock (an (in_sys (Sleep 1000) s).2) = process_lock (an s) /\ an_do_run (in_sys (Sleep 1000) s).2 = an_do_run s.
Proof using Hlaws.
  unfold in_sys, in_an, sys, now. pose proof (Sleep_timer 1000 (win (an s))) as H1. pose proof (Sleep_returns 1000 (win (an s))) as H2.
  destruct (Sleep 1000 (win (an s))) as [r w]. cbn in *. by subst r.
Qed.

Lemma alive_loop_ok fuel : forall i s, (length (pids (processes (an s))) - i < fuel)%nat -> alive_loop cfg fuel i s = (Ok tt, s).
Proof using Type.
  induction fuel as [|fuel IH]; intros i s Hf; [lia|]. cbn [alive_loop]. destruct (pids (processes (an s)) !! i) eqn:E; [|done].
  cbn [is_alive]. apply IH. apply lookup_lt_Some in E. lia.
Qed.

Lemma round_body_timer s : now s <= now (round_body cfg s).2.
Proof using Hlaws Hrl.
  unfold round_body. unfold sbind at 1.
  set (m := if pid_check cfg then _ else _). assert (Hm : now s <= now (m s).2).
  { subst m. destruct (pid_check cfg); [|cbn [sret snd]; lia]. unfold sbind at 1.
    assert (He : now s <= now ((if kernel_analysis cfg then sret false
        else do* (fun s => alive_loop cfg (S (length (pids (processes (an s))))) 0 s) in check_empty) s).2).
    { destruct (kernel_analysis cfg); [cbn [sret fst snd]; lia|]. unfold sbind. rewrite alive_loop_ok by lia. unfold check_empty.
      destruct (_ && _); [destruct (time_set (emptytime s))|]; cbn [fst snd]; unfold set_emptytime, now in *; cbn [an]; lia. }
    match type of He with _ <= now (snd ?r) => destruct r as [[[]|e] s1] end; cbn [fst snd] in He; [done| |done].
    unfold sbind. pose proof (in_sys_timer (pkg_set_pids (pids (processes (an s1)))) s1 (set_pids_timer _)) as [H1 _].
    destruct (in_sys _ s1) as [[u|e] s2]; cbn [fst snd sret] in *; lia. }
  destruct (m s) as [[[]|e] s1]; cbn [fst snd] in *; [done| |done].
  pose proof (in_sys_timer pkg_check s1 check_timer) as [H1 _]. destruct (in_sys pkg_check s1) as [[b|e] s2]; cbn [fst snd] in *; lia.
Qed.

Lemma round_timer time_start s : let r := watch_round cfg time_start s in
  (r.1 = Ok true -> now s + 1000 <= now r.2) /\ (run_timeout cfg * 1000 <= now s - time_start -> r.1 = Ok false).
Proof using Hlaws Hrl.
  unfold watch_round. destruct (Z.leb_spec (run_timeout cfg * 1000) (now s - time_start)) as [Hle|Hlt]; [by split|]. split; [|lia].
  destruct (process_lock (an s)).
  - destruct (in_sys_sleep s) as (E & Ht & _). unfold sbind. rewrite E. by intros _.
  - unfold sfinally. pose proof (round_body_timer s) as Hb. destruct (round_body cfg s) as [r s1]. cbn [snd] in Hb.
    destruct (in_sys_sleep s1) as (E & Ht & _). rewrite E. cbn [fst snd]. lia.
Qed.

Lemma arrive_timer es : forall s, now s <= now (fold_left (arrive acfg) es s).
Proof using Hlaws.
  induction es as [|e es IH]; intros s; cbn [fold_left]; [lia|]. etrans; [|apply IH]. destruct e as [data|]; [|done].
  destruct (dispatch_evolves acfg data (an s)) as [H1 _]. exact H1.
Qed.

Lemma run_loop_enough fuel : forall k env time_start n s,
  run_timeout cfg * 1000 <= now s - time_start + 1000 * (Z.of_nat fuel - 1) -> (0 < fuel)%nat ->
  watch_loop acfg cfg (fuel + k) env time_start n s = watch_loop acfg cfg fuel env time_start n s.
Proof using Hlaws Hrl.
  induction fuel as [|fuel IH]; intros k env time_start n s Ht Hf; [lia|]. cbn [Nat.add watch_loop].
  pose proof (arrive_timer (env n) s) as Ha. set (s1 := fold_left (arrive acfg) (env n) s) in *.
  destruct (an_do_run s1); [|done]. destruct (round_timer time_start s1) as [H1 H2].
  destruct (watch_round cfg time_start s1) as [[[]|e] s2]; [|done..]. cbn [fst snd] in *. specialize (H1 eq_refl).
  destruct fuel as [|fuel]; [exfalso; specialize (H2 ltac:(lia)); done|]. apply IH; lia.
Qed.

(** No round raises: the exceptions of the package's [check] are caught. *)
Lemma round_body_returns s : exists b, (round_body cfg s).1 = Ok b.
Proof using Hlaws Hrl.
  unfold round_body. unfold sbind at 1.
  set (m := if pid_check cfg then _ else _). assert (Hm : forall s0, exists b s1, m s0 = (Ok b, s1)).
  { intros s0. subst m. destruct (pid_check cfg); [|by eexists _, _].
    assert (He : exists e s1, (if kernel_analysis cfg then sret false
        else do* (fun s => alive_loop cfg (S (length (pids (processes (an s))))) 0 s) in check_empty) s0 = (Ok e, s1)).
    { destruct (kernel_analysis cfg); [by eexists _, _|]. unfold sbind. rewrite alive_loop_ok by lia. unfold check_empty.
      destruct (_ && _); [destruct (time_set _)|]; by eexists _, _. }
    destruct He as (e & s1 & He). rewrite (sbind_ok _ _ _ _ _ He). destruct e; [by eexists _, _|].
    unfold sbind, in_sys, in_an, sys. pose proof (set_pids_returns (pids (processes (an s1))) (win (an s1))) as Hp.
    destruct (pkg_set_pids _ _) as [r w]. cbn in Hp. subst r. by eexists _, _. }
  destruct (Hm s) as (b & s1 & ->). destruct b; [by eexists|]. destruct (in_sys pkg_check _) as [[b|e] s']; by eexists.
Qed.

Lemma watch_round_returns time_start s : exists b, (watch_round cfg time_start s).1 = Ok b.
Proof using Hlaws Hrl.
  unfold watch_round. destruct (_ <=? _); [by eexists|]. destruct (process_lock _).
  - destruct (in_sys_sleep s) as (E & _). unfold sbind. rewrite E. by eexists.
  - unfold sfinally. destruct (round_body_returns s) as [b Hb]. destruct (round_body cfg s) as [r s1]. cbn in Hb. subst r.
    destruct (in_sys_sleep s1) as (E & _). rewrite E. by eexists.
Qed.

Lemma watch_loop_returns fuel : forall env time_start n s,
  run_timeout cfg * 1000 <= now s - time_start + 1000 * (Z.of_nat fuel - 1) -> (0 < fuel)%nat ->
  (watch_loop acfg cfg fuel env time_start n s).1 = Ok tt.
Proof using Hlaws Hrl.
  induction fuel as [|fuel IH]; intros env time_start n s Ht Hf; [lia|]. cbn [watch_loop].
  pose proof (arrive_timer (env n) s) as Ha. set (s1 := fold_left (arrive acfg) (env n) s) in *.
  destruct (an_do_run s1); [|done]. destruct (round_timer time_start s1) as [H1 H2].
  destruct (watch_round_returns time_start s1) as [b Hb].
  destruct (watch_round cfg time_start s1) as [r s2]. cbn [fst snd] in *. subst r. destruct b; [|done]. specialize (H1 eq_refl).
  destruct fuel as [|fuel]; [exfalso; specialize (H2 ltac:(lia)); done|]. apply IH; lia.
Qed.

(** C26. The loop that watches the processes ends, and by itself: after at most one round for each
    second of the timeout and one more it has returned, without an exception, whatever the
    monitor sends, the package's [check] does or raises and the processes do. *)
Theorem watch_loop_ends env s : 0 <= run_timeout cfg ->
  let rounds := S (Z.to_nat (run_timeout cfg)) in
  exists s', forall k, watch_loop acfg cfg (rounds + k) env (now s) 0 s = (Ok tt, s').
Proof using Hlaws Hrl.
  intros Ht rounds. assert (Hn : run_timeout cfg * 1000 <= now s - now s + 1000 * (Z.of_nat rounds - 1)) by (subst rounds; lia).
  assert (H0 : (0 < rounds)%nat) by (subst rounds; lia). clearbody rounds.
  exists (watch_loop acfg cfg rounds env (now s) 0 s).2. intros k.
  rewrite run_loop_enough by done. pose proof (watch_loop_returns rounds env (now s) 0 s Hn H0) as Hr.
  destruct (watch_loop _ _ _ _ _ _ _) as [r s']. cbn in *. by subst r.
Qed.
End ends.

(** ** A lock that is held *)

Section wedged.
Context {W : Type} `{Hwin : windows W, Hlaws : !windows_laws W} (acfg : analyzer_config) (cfg : run_config).
Implicit Types s : watch W.

Definition held s : Prop := process_lock (an s) = true /\ an_do_run s = true.
(** The rounds that only sleep. *)
Fixpoint idle (fuel : nat) (env : nat -> list arrival) (time_start : Z) (n : nat) s : watch W :=
  match fuel with
  | O => s
  | S fuel =>
      let s := fold_left (arrive acfg) (env n) s in
      if run_timeout cfg * 1000 <=? now s - time_start then set_an (set_timed_out true (an s)) s
      else idle fuel env time_start (S n) (in_sys (Sleep 1000) s).2
  end.

Lemma held_arrive es : forall s, StopRequest ∉ es -> held s -> held (fold_left (arrive acfg) es s).
Proof using Hlaws.
  induction es as [|e es IH]; intros s Hes Hs; cbn [fold_left]; [done|]. apply not_elem_of_cons in Hes as [He Hes].
  apply IH; [done|]. destruct e as [data|]; [|done]. destruct Hs as [H1 H2]. split; [by apply dispatch_locked|done].
Qed.

Lemma held_loop fuel : forall env time_start n s, (forall m, StopRequest ∉ env (S n + m)%nat) ->
  held (fold_left (arrive acfg) (env n) s) ->
  run_timeout cfg * 1000 <= now s - time_start + 1000 * (Z.of_nat fuel - 1) -> (0 < fuel)%nat ->
  let s' := idle fuel env time_start n s in
  timed_out (an s') = true /\ run_timeout cfg * 1000 <= now s' - time_start /\
  forall rc : run_code W, watch_loop acfg cfg fuel env time_start n s = (Ok tt, s').
Proof using Hlaws.
  induction fuel as [|fuel IH]; intros env time_start n s Hne Hh Ht Hf; [lia|]. cbn [idle watch_loop].
  pose proof (arrive_timer acfg (env n) s) as Ha. set (s1 := fold_left (arrive acfg) (env n) s) in *.
  destruct Hh as [Hl Hr]. destruct (Z.leb_spec (run_timeout cfg * 1000) (now s1 - time_start)) as [Hle|Hlt].
  { split_and!; [done|done|]. intros rc. rewrite Hr. unfold watch_round. by rewrite (proj2 (Z.leb_le _ _)) by lia. }
  destruct (in_sys_sleep s1) as (E & H1 & H2 & H3). set (s2 := (in_sys (Sleep 1000) s1).2) in *.
  destruct fuel as [|fuel]; [lia|].
  destruct (IH env time_start (S n) s2) as (R1 & R2 & R3); [|apply held_arrive|lia|lia|].
  - intros m. specialize (Hne (S m)). by rewrite Nat.add_succ_r in Hne.
  - specialize (Hne O). by rewrite Nat.add_0_r in Hne.
  - split; congruence.
  - split_and!; [done..|]. intros rc. rewrite Hr. unfold watch_round. rewrite (proj2 (Z.leb_gt _ _)) by lia. rewrite Hl.
    unfold sbind. rewrite E. cbn [sret]. apply R3.
Qed.

(** One PROCESS2 command for a process of somebody else that is not known
    yet makes the analysis run until its timeout, whatever comes after it: the
    loop only sleeps, the package is not asked any more, and the end of the
    processes is not noticed. *)
Theorem one_command_wedges data args p t m pid tid mode env s : 0 <= run_timeout cfg ->
  handler_of data = Some ("process2", args) -> split_byte COMMA args = [p; t; m] ->
  int_if_digits p = Some pid -> int_if_digits t = Some tid -> int_if_digits m = Some mode ->
  is_own acfg pid = false -> ProcessList_has_pid pid true (processes (an s)) = false ->
  process_lock (an s) = false -> an_do_run s = true ->
  env O = [Message data] -> (forall n, StopRequest ∉ env n) ->
  exists s', timed_out (an s') = true /\ run_timeout cfg * 1000 <= now s' - now s /\
    forall rc : run_code W, watch_loop acfg cfg (S (Z.to_nat (run_timeout cfg))) env (now s) 0 s = (Ok tt, s').
Proof using Hlaws.
  intros Ht Hn Hsp Hp Htid Hm Ho Hh Hl Hr He Hne.
  exists (idle (S (Z.to_nat (run_timeout cfg))) env (now s) 0 s). apply held_loop; [intros m'; apply Hne| |lia|lia].
  rewrite He. cbn [fold_left arrive]. split; [|done]. cbn [an set_an].
  pose proof (dispatch_cases acfg data (an s)) as Hd. rewrite Hn in Hd. cbn [mbind option_bind fst snd] in Hd.
  change (dict_lookup "process2" (command_handlers acfg)) with (Some (_handle_process2 (W := W) acfg)) in Hd. cbn [mbind option_bind] in Hd.
  destruct Hd as [_ ->]. by eapply process2_keeps_lock.
Qed.
End wedged.

(** ** The shutdown does not end *)

Section shutdown.
Context {W : Type} `{Hwin : windows W, Hlaws : !windows_laws W} {Hrc : run_code W} (cfg : run_config).

Lemma terminate_never fuel : forall c pid (w : W), (terminate_loop fuel c pid w).1 = Raise OutOfFuel.
Proof using Hlaws.
  induction fuel as [|fuel IH]; intros c pid w; cbn [terminate_loop is_alive]; [done|].
  destruct (if 5 <? c then terminate pid w else (Ok tt, w)) as [[u|e] w1]; [|apply IH]. unfold sbind.
  pose proof (Sleep_returns 1000 w1) as Hs. destruct (Sleep 1000 w1) as [r w2]. cbn in Hs. subst r. apply IH.
Qed.

(** With terminate_processes, the shutdown never ends as soon as one tracked
    process is not critical: a process always counts as alive, also when it was
    terminated. No result is reported then. *)
Theorem shutdown_never_ends fuel s pid : terminate_processes cfg = true -> kernel_analysis cfg = false ->
  (forall p w, (set_terminate_event p w).1 = Ok true \/ (set_terminate_event p w).1 = Ok false) ->
  (forall p w, exists c, (is_critical p w).1 = Ok c) -> (forall w : W, (is_critical pid w).1 = Ok false) ->
  pid ∈ pids (processes (an s)) -> pid ∉ critical (an s) ->
  (run_shutdown cfg fuel s).1 = Raise OutOfFuel.
Proof using Hlaws.
  intros Ht Hk Hev Hc Hpid Hin Hcrit.
  assert (He : forall w, (end_processes cfg fuel (critical (an s)) (pids (processes (an s))) w).1 = Raise OutOfFuel).
  { induction (pids (processes (an s))) as [|p l IH]; [by apply elem_of_nil in Hin|]. intros w. cbn [end_processes is_alive].
    specialize (Hev p w). destruct (set_terminate_event p w) as [r w1]. cbn [fst] in Hev.
    assert (exists b, r = Ok b) as [b ->] by (destruct Hev as [->| ->]; by eexists).
    rewrite Ht. change (is_alive p) with true. cbn [andb]. unfold sbind at 1. destruct (decide (p = pid)) as [->|Hne].
    - rewrite bool_decide_false by done. cbn [negb]. unfold sbind. specialize (Hpid w1). destruct (is_critical pid w1) as [c w2].
      cbn in Hpid. subst c. pose proof (terminate_never fuel 0 pid w2) as Hn. destruct (terminate_loop _ _ _ w2) as [r w3]. cbn in Hn. by subst r.
    - apply elem_of_cons in Hin as [->|Hin]; [done|]. destruct (negb _); [|by apply IH]. unfold sbind. specialize (Hc p w1) as [c Hc].
      destruct (is_critical p w1) as [c' w2]. cbn in Hc. subst c'. destruct c; [by apply IH|].
      pose proof (terminate_never fuel 0 p w2) as Hn. destruct (terminate_loop _ _ _ w2) as [r w3]. cbn in Hn. by subst r. }
  unfold run_shutdown, sbind at 1. rewrite Hk. unfold in_sys, in_an, sys. specialize (He (win (an s))).
  destruct (end_processes _ _ _ _ _) as [r w]. cbn in He. by subst r.
Qed.
End shutdown.

(** ** What the agent knows *)

Section report.
Context {W : Type} `{guest_os W}.

Definition after_posts (forms : list (list (string * string))) (a : agent W) : agent W := serve_all (status_post <$> forms) a.

Lemma post_status form (a : agent W) : serving a = true ->
  status (after_posts [form] a) = match form_get "status" form with Some s => JStr s | None => status a end /\
  serving (after_posts [form] a) = true.
Proof using Type.
  intros Hs. unfold after_posts, serve_all. cbn [fmap list_fmap fold_left]. unfold serve_agent. rewrite Hs. unfold handle.
  assert (ignored (status_post form) a = false) as ->.
  { unfold ignored. destruct (client_ip a); [|done]. cbn [status_post rq_ip rq_path rq_method].
    rewrite (bool_decide_true ("/status" = "/status")), (bool_decide_true (POST = POST)), (bool_decide_true ("127.0.0.1" = "127.0.0.1")) by done.
    cbn [negb orb]. by rewrite andb_false_r. }
  change (find_route (rq_method (status_post form)) (rq_path (status_post form)) routes) with (Some (put_status (W := W))).
  cbn [received status_post rq_method]. unfold put_status. change (rq_form (status_post form)) with form. by destruct (form_get "status" form).
Qed.

(** What the agent learns of the end of the analysis, pinned or not: complete
    when run and complete returned, exception when the package was wrong, or
    when both run and complete failed. An unexpected exception alone leaves the
    status as it was, and so does a failure of complete after a run that
    returned; the host then waits for its timeout. *)
Theorem outcome_reported (o : run_outcome) (complete_excp : option string) (a : agent W) : serving a = true ->
  status (after_posts (posted o complete_excp) a) =
  match o, complete_excp with
  | Returned _, None => JStr "complete"
  | Cuckoo_error, _ | Unexpected, Some _ => JStr "exception"
  | Returned _, Some _ | Unexpected, None => status a
  end.
Proof using Type.
  intros Hs. assert (Htwo : forall f g, after_posts [f; g] a = after_posts [g] (after_posts [f] a)) by done.
  destruct o as [b| |], complete_excp as [tb|]; cbn [posted]; try done.
  - by rewrite (proj1 (post_status _ a Hs)).
  - rewrite Htwo. by rewrite (proj1 (post_status _ _ (proj2 (post_status _ a Hs)))).
  - rewrite Htwo. by rewrite (proj1 (post_status _ _ (proj2 (post_status _ a Hs)))).
  - by rewrite (proj1 (post_status _ a Hs)).
  - by rewrite (proj1 (post_status _ a Hs)).
Qed.
End report.

(** ** Instances *)

#[local] Existing Instance example_windows.
#[local] Existing Instance example_windows_laws.
#[local] Instance example_upload_laws : upload_laws Z.
Proof. split; [done..|]. by intros p w e [=]. Defined.
#[local] Instance example_run_code : run_code Z := {
  pkg_check := sret true; pkg_set_pids _ := sret tt; pkg_finish := sret tt; pkg_files := sret tt; upload_memdump _ := sret tt;
  is_critical _ := sret false; terminate _ := sret tt; create_mutex := sret tt; aux_stops := []; aux_finishes := [] }.
#[local] Instance example_run_laws : run_laws Z.
Proof. split; intros; cbn; first [done|lia]. Defined.

Definition two_files : files := {| pending := [("c:\temp\a.txt", []); ("c:\temp\gone.txt", []); ("c:\temp\b.txt", [])];
  files_orig := [("c:\temp\a.txt", {| fd_category := "files"; fd_metadata := ""; fd_path := "c:\temp\A.txt" |})]; dumped := [] |}.
Lemma pending_files_uploaded_witness :
  exists s', dump_files {| fs := two_files; fs_win := (0, []) |} = (Ok tt, s') /\ pending (fs s') = [] /\
    (fun u => (up_file u, up_path u, up_duplicated u)) <$> (fs_win s').2 =
      [("c:\temp\A.txt", "files\e3b0", false); ("c:\temp\b.txt", "files\e3b0", true)].
Proof.
  destruct (pending_files_uploaded two_files 0 []) as (s' & H1 & H2 & H3 & _).
  { split; [apply (bool_decide_unpack _); by vm_compute|]. repeat constructor. }
  exists s'. split; [done|]. split; [done|]. rewrite H3. by vm_compute.
Defined.

Definition example_run_config (t : Z) : run_config :=
  {| run_timeout := t; pid_check := true; kernel_analysis := false; memdump_option := false; terminate_processes := true |}.
Definition example_watch : watch Z := {| an := example_analyzer; emptytime := None; an_do_run := true |}.
(** The only process ends in the third second. *)
Definition kill_env (n : nat) : list arrival := if bool_decide (n = 3%nat) then [Message (B "KILL:1000")] else [].
Lemma watch_loop_ends_witness :
  exists s', (forall k, watch_loop example_config (example_run_config 60) (61 + k) kill_env (now example_watch) 0 example_watch = (Ok tt, s')) /\
    timed_out (an s') = false /\ now s' = 9000.
Proof.
  destruct (watch_loop_ends example_config (example_run_config 60) kill_env example_watch ltac:(by cbn)) as [s' Hs]. exists s'.
  split; [exact Hs|]. specialize (Hs 0%nat). apply (f_equal snd) in Hs. cbn [snd] in Hs. subst s'. by vm_compute.
Defined.

Definition wedge_env (n : nat) : list arrival :=
  if bool_decide (n = 0%nat) then [Message (B "PROCESS2:1234,5678,0")] else kill_env n.
Lemma one_command_wedges_witness :
  exists s', timed_out (an s') = true /\ 10 * 1000 <= now s' /\
    watch_loop example_config (example_run_config 10) (S (Z.to_nat (run_timeout (example_run_config 10)))) wedge_env (now example_watch) 0
      example_watch = (Ok tt, s').
Proof.
  destruct (one_command_wedges example_config (example_run_config 10) (B "PROCESS2:1234,5678,0") (B "1234,5678,0") (B "1234") (B "5678") (B "0")
              1234 5678 0 wedge_env example_watch) as (s' & H1 & H2 & H3); try by vm_compute.
  - intros n. unfold wedge_env, kill_env. repeat case_bool_decide; intros Hx;
      repeat (apply elem_of_cons in Hx as [?|Hx]; [done|]); by apply elem_of_nil in Hx.
  - exists s'. split; [exact H1|]. split; [|exact (H3 _)]. revert H2. generalize (now s'). cbn. lia.
Defined.

Lemma shutdown_never_ends_witness : (run_shutdown (example_run_config 10) 100 example_watch).1 = Raise OutOfFuel.
Proof.
  apply (shutdown_never_ends (example_run_config 10) 100 example_watch 1000); try done.
  - by left.
  - by exists false.
  - apply list_elem_of_here.
  - apply not_elem_of_nil.
Defined.

Lemma outcome_reported_witness :
  status (after_posts (posted (Returned true) None) (agent_init ([] : list effect))) = JStr "complete" /\
  status (after_posts (posted Cuckoo_error (Some "Traceback")) (agent_init ([] : list effect))) = JStr "exception" /\
  status (after_posts (posted Unexpected None) (agent_init ([] : list effect))) = JInt STATUS_INIT.
Proof.
  split_and!.
  - exact (outcome_reported (Returned true) None (agent_init ([] : list effect)) eq_refl).
  - exact (outcome_reported Cuckoo_error (Some "Traceback") (agent_init ([] : list effect)) eq_refl).
  - exact (outcome_reported Unexpected None (agent_init ([] : list effect)) eq_refl).
Defined.
