(* ===== verification/WinPipe.v ===== *)
(** The pipes of the analyzer in a Windows guest: PipeDispatcher and
    PipeForwarder of analyzer/windows/lib/core/pipe.py and LogServerThread of
    analyzer/windows/lib/core/log.py. *)
From S2P Require Import Prelude.
Open Scope list_scope.
Open Scope Z_scope.

(** What one [ReadFile] gives: does it succeed, is the last error then
    ERROR_MORE_DATA, and the bytes it put into the buffer. *)
Record read_file := { r_success : bool; r_more : bool; r_data : bytes }.

(** ** PipeDispatcher *)

Definition PIPE_BUFSIZE : Z := 0x10000.
(** [create_string_buffer(n)], and reading into it: the bytes behind stay. *)
Definition new_buffer (n : nat) : bytes := replicate n NUL.
Definition fill (data buf : bytes) : bytes := data ++ drop (length data) buf.
(** [buf.value]: up to the first zero byte. *)
Fixpoint buffer_value (buf : bytes) : bytes :=
  match buf with
  | [] => []
  | c :: buf' => if bool_decide (c = NUL) then [] else c :: buffer_value buf'
  end.

(** [_read_message]: the message, the buffer and the reads that are left; at
    the end of the list reading fails. *)
Fixpoint _read_message (ret buf : bytes) (reads : list read_file) : option bytes * bytes * list read_file :=
  match reads with
  | [] => (None, buf, [])
  | r :: reads' =>
      let buf' := fill (r_data r) buf in
      if r_more r then _read_message (ret ++ buffer_value buf') buf' reads'
      else if r_success r then (Some (ret ++ buffer_value buf'), buf', reads')
      else (None, buf', reads')
  end.

(** [run]: what is written for each message. [dispatch] gives [None] for an
    empty response, and [Raise] when the thread ends in it. *)
Definition OK_RESPONSE : bytes := B "OK".
Section dispatcher.
Context {A : Type} (dispatch : bytes -> A -> res (option bytes) * A).
Fixpoint dispatcher_loop (fuel : nat) (buf : bytes) (reads : list read_file) (written : list bytes) (a : A) :
    res unit * list bytes * A :=
  match fuel with
  | O => (Raise OutOfFuel, written, a)
  | S fuel =>
      match _read_message [] buf reads with
      | (Some (c :: m), buf', reads') =>
          match dispatch (c :: m) a with
          | (Ok response, a') => dispatcher_loop fuel buf' reads' (written ++ [default OK_RESPONSE response]) a'
          | (Raise e, a') => (Raise e, written, a')
          end
      | _ => (Ok tt, written, a)
      end
  end.
Definition PipeDispatcher_run (reads : list read_file) (a : A) : res unit * list bytes * A :=
  dispatcher_loop (S (length reads)) (new_buffer (Z.to_nat PIPE_BUFSIZE)) reads [] a.
End dispatcher.

(** ** PipeForwarder *)

(** [sockets] and [active] by process, the number of the next connection, and
    what was sent on each connection. *)
Record forwarders := { sockets : gmap Z nat; active : gset Z; next_socket : nat; sent : gmap nat bytes }.
(** A thread that forwards for a process to a connection. *)
Record forwarder := { fw_pid : Z; fw_socket : nat }.

(** The start of [run]: [None] denies the request. Process 0 always gets a
    connection of its own. *)
Definition forwarder_start (pid : Z) (s : forwarders) : option forwarder * forwarders :=
  if bool_decide (pid ∈ active s) then (None, s)
  else if bool_decide (pid = 0) then
    (Some {| fw_pid := pid; fw_socket := next_socket s |},
     {| sockets := sockets s; active := active s; next_socket := S (next_socket s); sent := sent s |})
  else
    match sockets s !! pid with
    | Some sock =>
        (Some {| fw_pid := pid; fw_socket := sock |},
         {| sockets := sockets s; active := active s ∪ {[pid]}; next_socket := next_socket s; sent := sent s |})
    | None =>
        (Some {| fw_pid := pid; fw_socket := next_socket s |},
         {| sockets := <[pid := next_socket s]> (sockets s); active := active s ∪ {[pid]}; next_socket := S (next_socket s); sent := sent s |})
    end.
(** One read that succeeded, or was cut off with ERROR_MORE_DATA. *)
Definition forwarder_send (f : forwarder) (data : bytes) (s : forwarders) : forwarders :=
  {| sockets := sockets s; active := active s; next_socket := next_socket s;
     sent := <[fw_socket f := default [] (sent s !! fw_socket f) ++ data]> (sent s) |}.
(** The end of [run]. *)
Definition forwarder_end (f : forwarder) (s : forwarders) : forwarders :=
  {| sockets := sockets s; active := if bool_decide (fw_pid f = 0) then active s else active s ∖ {[fw_pid f]};
     next_socket := next_socket s; sent := sent s |}.

(** The threads that run, and their steps in any order. *)
Inductive fstep : forwarders * list forwarder -> forwarders * list forwarder -> Prop :=
| step_start s ts pid f s' : forwarder_start pid s = (Some f, s') -> fstep (s, ts) (s', f :: ts)
| step_denied s ts pid s' : forwarder_start pid s = (None, s') -> fstep (s, ts) (s', ts)
| step_send s ts f data : f ∈ ts -> fstep (s, ts) (forwarder_send f data s, ts)
| step_end s ts1 f ts2 : fstep (s, ts1 ++ f :: ts2) (forwarder_end f s, ts1 ++ ts2).

(** ** LogServerThread *)

(** [handle_logs]: the reads as a stream; the whole messages that were sent.
    [send] may raise. *)
Fixpoint log_message (fuel : nat) (reads : nat -> read_file) (n : nat) (data : bytes) : option (bytes * nat) :=
  match fuel with
  | O => None
  | S fuel =>
      let data := data ++ r_data (reads n) in
      if r_success (reads n) || negb (r_more (reads n)) then Some (data, S n) else log_message fuel reads (S n) data
  end.
Fixpoint handle_logs (fuel : nat) (send : bytes -> res unit) (reads : nat -> read_file) (n : nat) (out : list bytes) :
    res unit * list bytes :=
  match fuel with
  | O => (Raise OutOfFuel, out)
  | S fuel' =>
      match log_message fuel reads n [] with
      | None => (Raise OutOfFuel, out)
      | Some ([], n') => handle_logs fuel' send reads n' out
      | Some (data, n') =>
          match send data with
          | Ok _ => handle_logs fuel' send reads n' (out ++ [data])
          | Raise e => (Raise e, out)
          end
      end
  end.

(** ** What the dispatcher reads *)

Lemma buffer_value_plain d rest : NUL ∉ d -> buffer_value (d ++ rest) = d ++ buffer_value rest.
Proof.
  induction d as [|c d IH]; intros Hd; cbn [app buffer_value]; [done|]. apply not_elem_of_cons in Hd as [Hc Hd].
  rewrite bool_decide_false by done. by rewrite IH.
Qed.
Lemma buffer_value_zeros n : buffer_value (replicate n NUL) = [].
Proof. by destruct n. Qed.
Lemma buffer_value_fill d buf : NUL ∉ d -> buffer_value (fill d buf) = d ++ buffer_value (drop (length d) buf).
Proof. apply buffer_value_plain. Qed.

(** A read that is a message of its own. *)
Definition whole (d : bytes) : read_file := {| r_success := true; r_more := false; r_data := d |}.
(** A read that filled the buffer, with more to come. *)
Definition partial (d : bytes) : read_file := {| r_success := false; r_more := true; r_data := d |}.

(** A new connection gives its first message byte for byte. A second,
    shorter message comes with the end of the first behind it, and so does the
    last part of a message that did not fit into the buffer. *)
Theorem dispatcher_reads n m1 m2 reads : NUL ∉ m1 -> NUL ∉ m2 -> (length m2 <= length m1 <= n)%nat ->
  let '(first, buf, rest) := _read_message [] (new_buffer n) (whole m1 :: whole m2 :: reads) in
  first = Some m1 /\ (_read_message [] buf rest).1.1 = Some (m2 ++ drop (length m2) m1) /\
  (_read_message [] (new_buffer n) (partial m1 :: whole m2 :: reads)).1.1 = Some (m1 ++ m2 ++ drop (length m2) m1).
Proof.
  intros H1 H2 Hl. cbn [_read_message whole partial r_more r_success r_data fst app].
  assert (Hv1 : buffer_value (fill m1 (new_buffer n)) = m1).
  { rewrite buffer_value_fill by done. unfold new_buffer. by rewrite drop_replicate, buffer_value_zeros, app_nil_r. }
  assert (Hv2 : buffer_value (fill m2 (fill m1 (new_buffer n))) = m2 ++ drop (length m2) m1).
  { rewrite buffer_value_fill by done. f_equal. unfold fill. rewrite drop_app_le by lia.
    rewrite buffer_value_plain by (intros Hin; by apply H1, (subseteq_drop _ _ _ Hin)).
    unfold new_buffer. by rewrite drop_replicate, buffer_value_zeros, app_nil_r. }
  by rewrite Hv1, Hv2.
Qed.

Lemma dispatcher_reads_witness :
  let '(first, buf, rest) := _read_message [] (new_buffer 20) [whole (B "FILE_DEL:C:\\a"); whole (B "KILL:12")] in
  first = Some (B "FILE_DEL:C:\\a") /\ (_read_message [] buf rest).1.1 = Some (B "KILL:12L:C:\\a") /\
  (_read_message [] (new_buffer 20) [partial (B "FILE_DEL:C:\\a"); whole (B "KILL:12")]).1.1 = Some (B "FILE_DEL:C:\\aKILL:12L:C:\\a").
Proof.
  assert (H1 : NUL ∉ B "FILE_DEL:C:\\a") by (apply (bool_decide_unpack _); by vm_compute).
  assert (H2 : NUL ∉ B "KILL:12") by (apply (bool_decide_unpack _); by vm_compute).
  exact (dispatcher_reads 20 (B "FILE_DEL:C:\\a") (B "KILL:12") [] H1 H2 ltac:(cbn; lia)).
Defined.

(** ** The connections of the log pipes *)

(** Connections of different processes, and of process 0, are different. *)
Record forwarders_ok (s : forwarders) (ts : list forwarder) : Prop := {
  ok_distinct : NoDup (fw_socket <$> ts);
  ok_old : forall f, f ∈ ts -> (fw_socket f < next_socket s)%nat;
  ok_active : forall f, f ∈ ts -> fw_pid f <> 0 -> fw_pid f ∈ active s /\ sockets s !! fw_pid f = Some (fw_socket f);
  ok_sockets : forall p k, sockets s !! p = Some k -> p <> 0 /\ (k < next_socket s)%nat;
  ok_inj : forall p q k, sockets s !! p = Some k -> sockets s !! q = Some k -> p = q;
  ok_zero : forall f p, f ∈ ts -> fw_pid f = 0 -> sockets s !! p <> Some (fw_socket f) }.

Lemma start_ok pid s ts f s' : forwarders_ok s ts -> forwarder_start pid s = (Some f, s') -> forwarders_ok s' (f :: ts).
Proof.
  intros [H1 H2 H3 H4 H5 H6]. unfold forwarder_start. case_bool_decide as Ha; [done|].
  assert (Hnew : next_socket s ∉ fw_socket <$> ts).
  { intros (g & Hg & Hin)%list_elem_of_fmap. specialize (H2 g Hin). lia. }
  case_bool_decide as Hz; [|destruct (sockets s !! pid) as [k|] eqn:Ek]; intros [= <- <-]; split; cbn [sockets active next_socket fw_pid fw_socket].
  - rewrite fmap_cons. by constructor.
  - intros g [->|Hg]%elem_of_cons; cbn; [lia|]. specialize (H2 g Hg). lia.
  - intros g [->|Hg]%elem_of_cons; cbn; [done|by apply H3].
  - intros p k Hp. destruct (H4 p k Hp). split; [done|lia].
  - apply H5.
  - intros g p [->|Hg]%elem_of_cons; cbn; [|by apply H6]. intros _ Hp. destruct (H4 p _ Hp). lia.
  - rewrite fmap_cons. constructor; [|done]. intros (g & Hg & Hin)%list_elem_of_fmap. cbn in Hg. destruct (decide (fw_pid g = 0)) as [E|E].
    + apply (H6 g pid Hin E). congruence.
    + destruct (H3 g Hin E) as [Hact Hs]. assert (fw_pid g = pid) by (apply (H5 _ _ k); congruence). congruence.
  - intros g [->|Hg]%elem_of_cons; cbn; [by destruct (H4 pid k Ek)|by apply H2].
  - intros g [->|Hg]%elem_of_cons Hne; cbn in *; [set_solver|]. destruct (H3 g Hg Hne). set_solver.
  - apply H4.
  - apply H5.
  - intros g p [->|Hg]%elem_of_cons; cbn; [done|by apply H6].
  - rewrite fmap_cons. by constructor.
  - intros g [->|Hg]%elem_of_cons; cbn; [lia|]. specialize (H2 g Hg). lia.
  - intros g [->|Hg]%elem_of_cons Hne; cbn in *; [rewrite lookup_insert; case_decide; set_solver|].
    destruct (H3 g Hg Hne) as [Hact Hs]. rewrite lookup_insert_ne by congruence. set_solver.
  - intros p k [[<- <-]|[Hne Hp]]%lookup_insert_Some; [split; [done|lia]|]. destruct (H4 p k Hp). split; [done|lia].
  - intros p q k [[<- <-]|[Hne Hp]]%lookup_insert_Some [[<- Hk]|[Hne' Hq]]%lookup_insert_Some; [done|..].
    + destruct (H4 q _ Hq). lia.
    + subst. destruct (H4 p _ Hp). lia.
    + by eapply H5.
  - intros g p [->|Hg]%elem_of_cons; cbn; [done|]. intros Hg0 [[<- Hk]|[Hne Hp]]%lookup_insert_Some.
    + specialize (H2 g Hg). lia.
    + by eapply H6.
Qed.

Lemma end_ok s ts1 f ts2 : forwarders_ok s (ts1 ++ f :: ts2) -> forwarders_ok (forwarder_end f s) (ts1 ++ ts2).
Proof.
  intros [H1 H2 H3 H4 H5 H6]. assert (Hsub : forall g, g ∈ ts1 ++ ts2 -> g ∈ ts1 ++ f :: ts2) by (intros g; rewrite !elem_of_app, elem_of_cons; tauto).
  split; cbn; [|by auto| |done|done|by auto].
  - eapply sublist_NoDup; [exact H1|]. apply fmap_sublist, sublist_app; [done|by apply sublist_cons].
  - intros g Hg Hne. destruct (H3 g (Hsub g Hg) Hne) as [Ha Hs]. split; [|done]. case_bool_decide; [done|].
    apply elem_of_difference. split; [done|]. intros Heq%elem_of_singleton.
    rewrite fmap_app, fmap_cons in H1. apply NoDup_app in H1 as (_ & Hd & Hc). apply NoDup_cons in Hc as [Hc _].
    assert (Hf : sockets s !! fw_pid f = Some (fw_socket f)) by (apply H3; [apply elem_of_app; right; left|done]).
    assert (Hsk : fw_socket g = fw_socket f) by congruence. apply elem_of_app in Hg as [Hg|Hg].
    + apply (Hd (fw_socket g)); [by apply list_elem_of_fmap_2|]. rewrite Hsk. left.
    + apply Hc. rewrite <-Hsk. by apply list_elem_of_fmap_2.
Qed.

(** However the log pipes come and go: no two threads that run forward to
    the same connection, a process keeps its connection when its pipe is opened
    again, and no connection is shared by two processes. *)
Theorem forwarders_separate s ts :
  rtc fstep ({| sockets := ∅; active := ∅; next_socket := 0; sent := ∅ |}, []) (s, ts) ->
  NoDup (fw_socket <$> ts) /\
  (forall f, f ∈ ts -> fw_pid f <> 0 -> sockets s !! fw_pid f = Some (fw_socket f)) /\
  (forall f g, f ∈ ts -> g ∈ ts -> fw_pid f <> 0 -> fw_pid f = fw_pid g -> fw_socket f = fw_socket g) /\
  (forall s' ts', fstep (s, ts) (s', ts') -> sockets s ⊆ sockets s').
Proof.
  intros Hr. assert (Hok : forwarders_ok (s, ts).1 (s, ts).2).
  { eapply (rtc_invariant fstep (fun st => forwarders_ok st.1 st.2)); [exact Hr| |].
    - split; cbn; [constructor|..]; try (by intros f ?%elem_of_nil); intros *; by rewrite lookup_empty.
    - intros a b Hstep Ha. destruct Hstep as [s1 t1 pid f s2 E|s1 t1 pid s2 E|s1 t1 f d Hf|s1 t1 f t2]; cbn [fst snd] in *.
      + by eapply start_ok.
      + unfold forwarder_start in E. repeat (case_bool_decide || split_match); by simplify_eq.
      + by destruct Ha.
      + by apply end_ok. }
  destruct Hok as [H1 H2 H3 H4 H5 H6]. cbn [fst snd] in *. split_and!; [done| | |].
  - intros f Hf Hne. by apply H3.
  - intros f g Hf Hg Hne E. destruct (H3 f Hf Hne), (H3 g Hg ltac:(congruence)). congruence.
  - intros s' ts' Hstep. inversion Hstep as [? ? pid f ? E|? ? pid ? E| |]; subst; [| |done|done];
      unfold forwarder_start in E; repeat (case_bool_decide || split_match); simplify_eq/=; try done.
    by apply insert_subseteq.
Qed.

Lemma forwarders_separate_witness :
  let f12 := {| fw_pid := 12; fw_socket := 0 |} in let f0 := {| fw_pid := 0; fw_socket := 1 |} in
  let s := {| sockets := {[12 := 0%nat]}; active := {[12]}; next_socket := 2; sent := {[0%nat := B "a"]} |} in
  NoDup (fw_socket <$> [f12; f0]) /\
  (forall f, f ∈ [f12; f0] -> fw_pid f <> 0 -> sockets s !! fw_pid f = Some (fw_socket f)) /\
  (forall f g, f ∈ [f12; f0] -> g ∈ [f12; f0] -> fw_pid f <> 0 -> fw_pid f = fw_pid g -> fw_socket f = fw_socket g) /\
  (forall s' ts', fstep (s, [f12; f0]) (s', ts') -> sockets s ⊆ sockets s').
Proof.
  intros f12 f0 s. apply (forwarders_separate s [f12; f0]).
  eapply rtc_l; [eapply (step_start _ [] 12); vm_compute; reflexivity|].
  eapply rtc_l; [exact (step_send _ [f12] f12 (B "a") ltac:(left))|].
  eapply rtc_l; [eapply (step_start _ [f12] 0); vm_compute; reflexivity|].
  eapply rtc_l; [eapply (step_denied _ [f0; f12] 12); vm_compute; reflexivity|].
  eapply rtc_l; [exact (step_end _ [f0] f12 [])|].
  eapply rtc_l; [eapply (step_start _ [f0] 12); vm_compute; reflexivity|].
  match goal with |- rtc _ (?a, _) (?b, _) => replace a with b by (by vm_compute) end. apply rtc_refl.
Defined.

(** ** The thread of the log pipe *)

Lemma handle_logs_broken fuel send n out :
  (handle_logs (S fuel) send (fun _ => {| r_success := false; r_more := false; r_data := [] |}) n out).1 = Raise OutOfFuel.
Proof. revert n. induction fuel as [|fuel IH]; intros n; [done|]. apply (IH (S n)). Qed.
