(* ===== verification/WinProcess.v ===== *)
(** Class Process of analyzer/windows/lib/api/process.py: starting a process,
    the configuration of its monitor, the injection, dumps. What the code asks
    of Windows is a log of events; an answer may depend on all events before. *)
From S2P Require Import Prelude Struct Pretty ProcessLog.
Open Scope string_scope.
Open Scope list_scope.
Open Scope Z_scope.

(** ** Options *)

(** A value is a text, or a number that a package has put there. *)
Inductive oval := OText (s : string) | OInt (z : Z).
#[global] Instance oval_eq_dec : EqDecision oval.
Proof. solve_decision. Defined.
Definition oval_true (v : oval) : bool := match v with OText s => bool_decide (s <> "") | OInt z => negb (z =? 0) end.
Definition oval_text (v : oval) : string := match v with OText s => s | OInt z => str_int z end.
Abbreviation options := (list (string * oval)).
Fixpoint opt_get (k : string) (d : options) : option oval :=
  match d with [] => None | (k', v) :: d' => if decide (k = k') then Some v else opt_get k d' end.
Fixpoint opt_set (k : string) (v : oval) (d : options) : options :=
  match d with [] => [(k, v)] | (k', v') :: d' => if decide (k = k') then (k, v) :: d' else (k', v') :: opt_set k v d' end.
Definition opt_has (k : string) (d : options) : bool := match opt_get k d with Some _ => true | None => false end.
Definition opt_true (k : string) (d : options) : bool := match opt_get k d with Some v => oval_true v | None => false end.

(** ** Events *)

(** The calls of the system, with their arguments; a handle that is [None] in
    Python is [None]. *)
Inductive wevent :=
| ECreate (path cmdline : string) (flags : Z)   (** CreateProcessW *)
| EResume (h : option Z)                        (** ResumeThread *)
| ESleep (ms : Z)
| EClose (h : Z)
| EOpenProcess (pid : Z)
| EOpenThread (tid : Z)
| ETerminate (h : option Z)
| ERun (argv : list string)                     (** a program that is waited for *)
| EWrite (path : string) (lines : list string)
| ELogServer (path : string)
| EUpload (src dst category : string)
| EOpenEvent (name : string)
| ESetEvent (h : Z)
| ECreateEvent (name : string)
| EWait (h ms : Z)
| EKernelAnalyze (pid : Z)
| ERename (a b : string)
| ECopy (a b : string)
| EMove (a b : string)
| EExtract (archive dir : string)
| ERegistry (key name : string) (value : Z)
| EService (call : string).
Abbreviation wtrace := (list wevent).

(** Texts that are fixed or drawn when the analyzer starts (constants.py), and
    the configuration. *)
Record win_cfg := {
  cwd : string; python_dir : string; host_ip : string; host_port : Z; PIPE : string; root_path : string; memory_path : string;
  SHUTDOWN_MUTEX : string; TERMINATE_EVENT : string; LOGSERVER_PREFIX : string;
  CAPEMON32_NAME : string; CAPEMON64_NAME : string; LOADER32_NAME : string; LOADER64_NAME : string;
  startup_time : Z; os_64 : bool; own_pid : Z }.

(** The answers, after a history. [create_process] gives process id, handle,
    thread id and thread handle; [wow64] is [None] when the call fails. *)
Class winapi := {
  x_ok : wtrace -> string -> bool;
  exists_path : wtrace -> string -> bool;
  create_process : wtrace -> string -> string -> Z -> option (Z * Z * Z * Z);
  open_process : wtrace -> Z -> Z;
  open_thread : wtrace -> Z -> Z;
  close_status : wtrace -> Z -> Z;
  resume_status : wtrace -> option Z -> Z;
  terminate_status : wtrace -> option Z -> bool;
  exit_code_of : wtrace -> option Z -> Z;
  image_name : wtrace -> option Z -> Z * Z * bytes;    (** status, size, and what the buffer has behind the header *)
  break_on_termination : wtrace -> option Z -> Z * Z;  (** status and value *)
  parent_of : wtrace -> option Z -> Z * option Z;      (** status; [None]: another size *)
  wow64 : wtrace -> option Z -> option bool;
  run_program : wtrace -> list string -> res Z;
  can_write : wtrace -> string -> res unit;
  log_server : wtrace -> string -> res unit;
  upload : wtrace -> string -> string -> res unit;
  open_event : wtrace -> string -> Z;
  create_event : wtrace -> string -> Z;
  kernel_analyze : wtrace -> Z -> bool;
  decode_utf16 : bytes -> string;
  url_random : wtrace -> Z * string * string * string; (** item, and three random texts in base64 *) }.

(** The events so far, the class attribute [process_num], the dictionaries of the
    module, and the options of the analyzer, which the package shares. *)
Record winst := {
  trace : wtrace; process_num : Z; LOGSERVER_POOL : list string;
  ATTEMPTED_APC_INJECTS : list (Z * Z); ATTEMPTED_THREAD_INJECTS : list Z; w_options : options }.
Definition with_trace (f : wtrace -> wtrace) (w : winst) : winst :=
  {| trace := f (trace w); process_num := process_num w; LOGSERVER_POOL := LOGSERVER_POOL w;
     ATTEMPTED_APC_INJECTS := ATTEMPTED_APC_INJECTS w; ATTEMPTED_THREAD_INJECTS := ATTEMPTED_THREAD_INJECTS w; w_options := w_options w |}.
Definition with_process_num (f : Z -> Z) (w : winst) : winst :=
  {| trace := trace w; process_num := f (process_num w); LOGSERVER_POOL := LOGSERVER_POOL w;
     ATTEMPTED_APC_INJECTS := ATTEMPTED_APC_INJECTS w; ATTEMPTED_THREAD_INJECTS := ATTEMPTED_THREAD_INJECTS w; w_options := w_options w |}.
Definition with_pool (f : list string -> list string) (w : winst) : winst :=
  {| trace := trace w; process_num := process_num w; LOGSERVER_POOL := f (LOGSERVER_POOL w);
     ATTEMPTED_APC_INJECTS := ATTEMPTED_APC_INJECTS w; ATTEMPTED_THREAD_INJECTS := ATTEMPTED_THREAD_INJECTS w; w_options := w_options w |}.
Definition with_attempts (f : list (Z * Z) -> list (Z * Z)) (g : list Z -> list Z) (w : winst) : winst :=
  {| trace := trace w; process_num := process_num w; LOGSERVER_POOL := LOGSERVER_POOL w;
     ATTEMPTED_APC_INJECTS := f (ATTEMPTED_APC_INJECTS w); ATTEMPTED_THREAD_INJECTS := g (ATTEMPTED_THREAD_INJECTS w); w_options := w_options w |}.
Definition with_options (f : options -> options) (w : winst) : winst :=
  {| trace := trace w; process_num := process_num w; LOGSERVER_POOL := LOGSERVER_POOL w;
     ATTEMPTED_APC_INJECTS := ATTEMPTED_APC_INJECTS w; ATTEMPTED_THREAD_INJECTS := ATTEMPTED_THREAD_INJECTS w; w_options := f (w_options w) |}.

(** An event, and the answer to it. *)
Definition ask {A} (e : wevent) (answer : wtrace -> res A) : st winst A := fun w => (answer (trace w), with_trace (fun t => t ++ [e]) w).
Definition emit (e : wevent) : st winst unit := ask e (fun _ => Ok tt).
(** A question that changes nothing. *)
Definition look {A} (answer : wtrace -> A) : st winst A := fun w => (Ok (answer (trace w)), w).

(** ** The process *)

Record process := { p_pid : Z; p_h_process : option Z; p_thread_id : Z; p_h_thread : option Z; p_suspended : bool }.
Definition Process_init (pid thread_id : Z) (suspended : bool) : process :=
  {| p_pid := pid; p_h_process := Some 0; p_thread_id := thread_id; p_h_thread := Some 0; p_suspended := suspended |}.
Definition set_h_process (h : option Z) (p : process) : process :=
  {| p_pid := p_pid p; p_h_process := h; p_thread_id := p_thread_id p; p_h_thread := p_h_thread p; p_suspended := p_suspended p |}.
Definition set_h_thread (h : option Z) (p : process) : process :=
  {| p_pid := p_pid p; p_h_process := p_h_process p; p_thread_id := p_thread_id p; p_h_thread := h; p_suspended := p_suspended p |}.
Definition set_suspended (b : bool) (p : process) : process :=
  {| p_pid := p_pid p; p_h_process := p_h_process p; p_thread_id := p_thread_id p; p_h_thread := p_h_thread p; p_suspended := b |}.
Definition handle_true (h : option Z) : bool := match h with Some z => negb (z =? 0) | None => false end.

Definition CREATE_NEW_CONSOLE : Z := 0x10.
Definition CREATE_SUSPENDED : Z := 0x4.
(** The pseudo handle of [GetCurrentProcess]. *)
Definition CURRENT_PROCESS : Z := -1.
Definition INJECT_CREATEREMOTETHREAD : Z := 0.
Definition INJECT_QUEUEUSERAPC : Z := 1.
Definition NT_SUCCESS (v : Z) : bool := 0 <=? v.
Definition DQ : string := String "034" "".
Definition BS : string := "\".
Definition quoted (s : string) : string := DQ +:+ s +:+ DQ.

(** [urllib.parse.quote(s, "")]. *)
Definition unreserved (c : ascii) : bool :=
  let n := nat_of_ascii c in
  ((48 <=? n) && (n <=? 57) || (65 <=? n) && (n <=? 90) || (97 <=? n) && (n <=? 122) || (n =? 45) || (n =? 46) || (n =? 95) || (n =? 126))%nat.
Definition hex_upper (n : nat) : ascii := default "0"%char (B "0123456789ABCDEF" !! n).
Definition url_quote (s : string) : string :=
  text (B s ≫= fun c => if unreserved c then [c] else ["%"%char; hex_upper (nat_of_ascii c / 16); hex_upper (nat_of_ascii c mod 16)]).
(** The random texts are bytes, which an f-string shows with a prefix. *)
Definition shown_bytes (s : string) : string := "b'" +:+ s +:+ "'".
Definition get_referrer_url (r : Z * string * string * string) (interest : string) : string :=
  if negb (str_contains "://" interest) then ""
  else
    let '(itemidx, ved, ei, usg) := r in
    "http://www.google.com/url?sa=t&rct=j&q=&esrc=s&source=web&cd=" +:+ str_int itemidx +:+ "&ved=" +:+ shown_bytes ("0CCEQfj" +:+ ved)
    +:+ "&url=" +:+ url_quote interest +:+ "&ei=" +:+ shown_bytes ei +:+ "&usg=" +:+ shown_bytes ("AFQj" +:+ usg).

Section process.
Context `{winapi} (cfg : win_cfg).

(** [os.path.join(os.getcwd(), ...)] of relative paths. *)
Definition in_cwd (p : string) : string := cwd cfg +:+ BS +:+ p.

Definition Process_open (p : process) : st winst (bool * process) :=
  let ret := negb (p_pid p =? 0) || negb (p_thread_id p =? 0) in
  let* p := if negb (p_pid p =? 0) && negb (handle_true (p_h_process p)) then
              if p_pid p =? own_pid cfg then sret (set_h_process (Some CURRENT_PROCESS) p)
              else let* h := ask (EOpenProcess (p_pid p)) (fun t => Ok (open_process t (p_pid p))) in sret (set_h_process (Some h) p)
            else sret p in
  let* p := if negb (p_thread_id p =? 0) && negb (handle_true (p_h_thread p)) then
              let* h := ask (EOpenThread (p_thread_id p)) (fun t => Ok (open_thread t (p_thread_id p))) in sret (set_h_thread (Some h) p)
            else sret p in
  sret (ret, p).

Definition close_handle (h : Z) : st winst bool := ask (EClose h) (fun t => Ok (NT_SUCCESS (close_status t h))).
Definition Process_close (p : process) : st winst (bool * process) :=
  let ret := handle_true (p_h_process p) || handle_true (p_h_thread p) in
  let* r := match p_h_process p with
            | Some h => if h =? 0 then sret (ret, p) else let* b := close_handle h in sret (b, set_h_process None p)
            | None => sret (ret, p)
            end in
  match p_h_thread r.2 with
  | Some h => if h =? 0 then sret r else let* b := close_handle h in sret (b, set_h_thread None r.2)
  | None => sret r
  end.

(** [if not self.h_process: self.open()]. *)
Definition opened (p : process) : st winst process :=
  if handle_true (p_h_process p) then sret p else let* r := Process_open p in sret r.2.
Definition exit_code (p : process) : st winst (Z * process) :=
  let* p := opened p in let* c := look (fun t => exit_code_of t (p_h_process p)) in sret (c, p).
(** [fbuf[: fbuf.find(b"\0\0") + 1]]; without two zeros [find] is -1, and
    nothing is left. *)
Fixpoint find_zeros (l : bytes) : option nat :=
  match l with
  | a :: (b :: _) as l' => if decide (a = NUL /\ b = NUL) then Some 0%nat else S <$> find_zeros l'
  | _ => None
  end.
Definition up_to_zeros (l : bytes) : bytes := match find_zeros l with Some n => take (S n) l | None => [] end.
Definition get_filepath (p : process) : st winst (string * process) :=
  let* p := opened p in
  let* r := look (fun t => image_name t (p_h_process p)) in
  sret (if NT_SUCCESS r.1.1 && (8 <? r.1.2) then decode_utf16 (up_to_zeros r.2) else "", p).
Definition is_critical (p : process) : st winst (bool * process) :=
  let* p := opened p in
  let* r := look (fun t => break_on_termination t (p_h_process p)) in sret (NT_SUCCESS r.1 && negb (r.2 =? 0), p).
Definition get_parent_pid (p : process) : st winst (option Z * process) :=
  let* p := opened p in
  let* r := look (fun t => parent_of t (p_h_process p)) in sret (if NT_SUCCESS r.1 then r.2 else None, p).

(** [execute]; what the kernel analysis does is a parameter. *)
Definition Process_execute (path : string) (args : option string) (suspended kernel_analysis : bool) (p : process) : st winst (bool * process) :=
  let* ok := look (fun t => x_ok t path) in
  if negb ok then sret (false, p)
  else
    let arguments := quoted path +:+ " " +:+ default "" args in
    let p := if suspended then set_suspended true p else p in
    let flags := CREATE_NEW_CONSOLE + (if suspended then CREATE_SUSPENDED else 0) in
    let* created := ask (ECreate path arguments flags) (fun t => Ok (create_process t path arguments flags)) in
    match created with
    | Some (pid, hp, tid, ht) =>
        let p := {| p_pid := pid; p_h_process := Some hp; p_thread_id := tid; p_h_thread := Some ht; p_suspended := p_suspended p |} in
        if kernel_analysis then let* b := ask (EKernelAnalyze pid) (fun t => Ok (kernel_analyze t pid)) in sret (b, p) else sret (true, p)
    | None => sret (false, p)
    end.

Definition Process_resume (p : process) : st winst (bool * process) :=
  if negb (p_suspended p) then sret (false, p)
  else if negb (handle_true (p_h_thread p)) then sret (false, p)
  else
    do* emit (ESleep 2000) in
    let* r := ask (EResume (p_h_thread p)) (fun t => Ok (resume_status t (p_h_thread p))) in
    if negb (r =? -1) then sret (true, set_suspended false p) else sret (false, p).

(** [if self.h_process == 0: self.open()]: a closed handle is [None]. *)
Definition opened_if_zero (p : process) : st winst process :=
  if bool_decide (p_h_process p = Some 0) then let* r := Process_open p in sret r.2 else sret p.
Definition set_terminate_event (p : process) : st winst process :=
  let* p := opened_if_zero p in
  let event_name := TERMINATE_EVENT cfg +:+ str_int (p_pid p) in
  let* h := ask (EOpenEvent event_name) (fun t => Ok (open_event t event_name)) in
  if h =? 0 then sret p
  else
    do* emit (ESetEvent h) in
    do* emit (EClose h) in
    let* h := ask (ECreateEvent event_name) (fun t => Ok (create_event t event_name)) in
    if h =? 0 then sret p else do* emit (EWait h 5000) in do* emit (EClose h) in sret p.
Definition Process_terminate (p : process) : st winst (bool * process) :=
  let* p := opened_if_zero p in
  let* b := ask (ETerminate (p_h_process p)) (fun t => Ok (terminate_status t (p_h_process p))) in sret (b, p).
Definition is_64bit (p : process) : st winst (bool * process) :=
  let* p := opened_if_zero p in
  let* r := look (fun t => wow64 t (p_h_process p)) in
  sret (match r with Some false => os_64 cfg | _ => false end, p).

Definition check_inject (p : process) : st winst bool := fun w =>
  if p_pid p =? 0 then (Ok false, w)
  else if negb (p_thread_id p =? 0) || p_suspended p then
    if bool_decide ((p_pid p, p_thread_id p) ∈ ATTEMPTED_APC_INJECTS w) then (Ok false, w)
    else (Ok true, with_attempts (fun l => l ++ [(p_pid p, p_thread_id p)]) id w)
  else if bool_decide (p_pid p ∈ ATTEMPTED_THREAD_INJECTS w) then (Ok false, w)
  else (Ok true, with_attempts id (fun l => l ++ [p_pid p]) w).

(** ** The configuration of the monitor *)

Definition server_options : list string :=
  ["disable_cape"; "dll"; "dll_64"; "loader"; "loader_64"; "route"; "nohuman"; "main_task_id"; "auto"].
Definition option_line (o : string * oval) : string := o.1 +:+ "=" +:+ oval_text o.2.
Definition sent_options (opts : options) : options := filter (fun o => o.1 ∉ server_options) opts.
Definition fixed_lines (pid num : Z) (interest : option string) : list string :=
  ["host-ip=" +:+ host_ip cfg; "host-port=" +:+ str_int (host_port cfg); "pipe=" +:+ PIPE cfg;
   "logserver=" +:+ LOGSERVER_PREFIX cfg +:+ str_int pid; "results=" +:+ root_path cfg; "analyzer=" +:+ cwd cfg;
   "pythonpath=" +:+ python_dir cfg; "first-process=" +:+ (if num =? 1 then "1" else "0"); "startup-time=" +:+ str_int (startup_time cfg);
   "file-of-interest=" +:+ default "None" interest; "shutdown-mutex=" +:+ SHUTDOWN_MUTEX cfg;
   "terminate-event=" +:+ TERMINATE_EVENT cfg +:+ str_int pid].
(** Whether sleeps are not skipped; the length of [None] raises. *)
Definition sleeps_kept (nosleepskip : bool) (interest : option string) (num : Z) (opts : options) : res bool :=
  if nosleepskip then Ok true
  else if opt_has "force-sleepskip" opts then Ok false
  else match interest with
       | None => Raise TypeError
       | Some i => Ok ((2 <? zlen (B i)) && negb (starts_with "\:" i) && (num <=? 2))
       end.
Definition referrer_lines (r : Z * string * string * string) (interest : option string) (opts : options) : res (list string) :=
  if opt_has "norefer" opts || opt_has "referrer" opts then Ok []
  else match interest with None => Raise TypeError | Some i => Ok ["referrer=" +:+ get_referrer_url r i] end.
(** The lines that are written, and what is raised behind them. *)
Definition config_lines (pid num : Z) (r : Z * string * string * string) (interest : option string) (nosleepskip : bool) (opts : options) :
    list string * res unit :=
  let l := fixed_lines pid num interest in
  match sleeps_kept nosleepskip interest num opts with
  | Raise e => (l, Raise e)
  | Ok b =>
      let l := l ++ (if b : bool then ["force-sleepskip=0"] else []) in
      match referrer_lines r interest opts with
      | Raise e => (l, Raise e)
      | Ok l' => (l ++ l' ++ (option_line <$> sent_options opts), Ok tt)
      end
  end.
Definition write_monitor_config (pid : Z) (opts : options) (interest : option string) (nosleepskip : bool) : st winst unit :=
  let config_path := in_cwd ("dll\" +:+ str_int pid +:+ ".ini") in
  let logserver_path := LOGSERVER_PREFIX cfg +:+ str_int pid in
  let* w := sget in
  do* (if bool_decide (logserver_path ∈ LOGSERVER_POOL w) then sret tt
       else do* ask (ELogServer logserver_path) (fun t => log_server t logserver_path) in smodify (with_pool (fun l => l ++ [logserver_path]))) in
  do* (if opt_has "tlsdump" opts then sret tt else smodify (with_process_num (fun n => n + 1))) in
  let* w := sget in
  do* slift (can_write (trace w) config_path) in
  let '(l, r) := config_lines pid (process_num w) (url_random (trace w)) interest nosleepskip opts in
  do* emit (EWrite config_path l) in slift r.

(** ** Injection and dumps *)

(** Loader and monitor for the width of the process. *)
Definition loader_of (is64 : bool) : string := in_cwd (if is64 then LOADER64_NAME cfg else LOADER32_NAME cfg).
Definition monitor_of (is64 : bool) : string := in_cwd (if is64 then CAPEMON64_NAME cfg else CAPEMON32_NAME cfg).
Definition inject_argv (bin_name dll : string) (p : process) : list string :=
  [bin_name; "inject"; str_int (p_pid p); str_int (p_thread_id p); dll;
   str_int (if negb (p_thread_id p =? 0) || p_suspended p then INJECT_QUEUEUSERAPC else INJECT_CREATEREMOTETHREAD)].
(** The mode that is asked for is not used. *)
Definition Process_inject (opts : options) (interest : option string) (nosleepskip : bool) (p : process) : st winst (bool * process) :=
  if p_pid p =? 0 then sret (false, p)
  else
    let* r := is_64bit p in
    let p := r.2 in
    let bin_name := loader_of r.1 in
    let dll := monitor_of r.1 in
    let* b := look (fun t => exists_path t bin_name) in
    if negb b then sret (false, p)
    else
      let* b := look (fun t => exists_path t dll) in
      if negb b then sret (false, p)
      else
        do* write_monitor_config (p_pid p) opts interest nosleepskip in
        let argv := inject_argv bin_name dll p in
        let* ok := scatch (let* code := ask (ERun argv) (fun t => run_program t argv) in sret (code =? 0)) (fun _ => Some (sret false)) in
        sret (ok, p).

Definition dump_name (pid : Z) : string := str_int pid +:+ ".dmp".
(** An upload that raises is logged. *)
Definition try_upload (src dst category : string) : st winst unit :=
  scatch (ask (EUpload src dst category) (fun t => upload t src dst)) (fun _ => Some (sret tt)).
Definition upload_memdump (p : process) : st winst bool :=
  if p_pid p =? 0 then sret false
  else do* try_upload (memory_path cfg +:+ BS +:+ dump_name (p_pid p)) ("memory\" +:+ dump_name (p_pid p)) "memory" in sret true.
Definition dump_memory (p : process) : st winst (bool * process) :=
  if p_pid p =? 0 then sret (false, p)
  else
    let file_path := memory_path cfg +:+ BS +:+ dump_name (p_pid p) in
    let* r := is_64bit p in
    let bin_name := loader_of r.1 in
    let* b := look (fun t => exists_path t bin_name) in
    if negb b then sret (false, r.2)
    else
      let argv := [bin_name; "dump"; str_int (p_pid p); file_path] in
      let* code := ask (ERun argv) (fun t => run_program t argv) in
      if negb (code =? 1) then sret (false, r.2)
      else do* try_upload file_path ("memory\" +:+ dump_name (p_pid p)) "" in sret (true, r.2).
End process.
