(* ===== verification/PackageBase.v ===== *)
(** The base class Package of the analyzer (analyzer/windows/lib/common/abstracts.py)
    on Process (WinProcess.v), check_file_extension of lib/common/common.py, and
    what the packages ask of the guest beside processes. *)
From S2P Require Import Prelude Struct Pretty ProcessLog Quarantine WinProcess.
Open Scope string_scope.
Open Scope list_scope.
Open Scope Z_scope.

(** ** Paths of Windows *)

(** [ntpath.join] for one more part. *)
Definition nt_join (a b : bytes) : bytes :=
  let '(da, pa) := splitdrive a in
  let '(db, pb) := splitdrive b in
  let join d p :=
    let p := match reverse p with c :: _ => if is_sep c then p else p ++ [BACKSLASH] | [] => p end ++ pb in
    match p, reverse d with
    | c :: _, x :: _ => if negb (is_sep c) && negb (bool_decide (x = COLON)) then d ++ BACKSLASH :: p else d ++ p
    | _, _ => d ++ p
    end in
  match pb with
  | c :: _ =>
      if is_sep c then (match db, da with [], _ :: _ => da | _, _ => db end) ++ pb
      else if bool_decide (db <> [] /\ (lower_ascii <$> db) <> (lower_ascii <$> da)) then db ++ pb
      else join (if bool_decide (db = []) then da else db) pa
  | [] =>
      if bool_decide (db <> [] /\ (lower_ascii <$> db) <> (lower_ascii <$> da)) then db
      else join (if bool_decide (db = []) then da else db) pa
  end.
Definition win_path (a : string) (l : list string) : string := text (fold_left (fun p x => nt_join p (B x)) l (B a)).
Definition win_dirname (p : string) : string := text (nt_split (B p)).1.
Definition win_tail (p : string) : string := text (nt_split (B p)).2.
(** [ntpath.splitext(p)[-1]]: leading dots of the name do not begin an extension. *)
Fixpoint drop_dots (l : bytes) : bytes := match l with c :: l' => if bool_decide (c = "."%char) then drop_dots l' else l | [] => [] end.
Definition ext_of_name (name : bytes) : bytes :=
  match split_byte "."%char (reverse (drop_dots name)) with
  | e :: _ :: _ => "."%char :: reverse e
  | _ => []
  end.
Definition win_ext (p : string) : string :=
  text (ext_of_name (drop (last_slash (replace_byte BACKSLASH SLASH (B p))) (B p))).

(** [s.replace(sub, new)] for a [sub] that is not empty. *)
Fixpoint replace_sub (skip : nat) (sub new : bytes) (l : bytes) : bytes :=
  match l with
  | [] => []
  | c :: l' =>
      match skip with
      | S k => replace_sub k sub new l'
      | O => if has_prefix sub l then new ++ replace_sub (length sub - 1) sub new l' else c :: replace_sub 0 sub new l'
      end
  end.
Definition str_replace (sub new s : string) : string := text (replace_sub 0 (B sub) (B new) (B s)).

(** ** What the guest answers *)

(** A password as [zipfile] is given it: [None], bytes or text. *)
Inductive zip_pwd := NoPwd | BytesPwd (l : bytes) | TextPwd (s : string).

Class guest_files := {
  getenv : string -> option string;
  expandvars : string -> string;
  isfile : wtrace -> string -> bool;
  iglob : wtrace -> string -> list string;
  rename_res : wtrace -> string -> string -> res unit;
  copy_res : wtrace -> string -> string -> res unit;
  move_res : wtrace -> string -> string -> res unit;
  read4 : wtrace -> string -> res string;                     (** the first four characters *)
  temp_file : wtrace -> res string;                           (** the name [mkstemp] gives *)
  open_zip : wtrace -> string -> res (list (string * bool));  (** names, and is the entry encrypted *)
  extract_zip : wtrace -> string -> string -> zip_pwd -> res unit;
  has_rarfile : bool;
  open_rar : wtrace -> string -> res (list string);
  extract_rar : wtrace -> string -> string -> zip_pwd -> res unit;
  office_keys : wtrace -> res (list string);                  (** the keys below Software\Microsoft\Office *)
  set_registry : wtrace -> string -> string -> res unit;
  service_call : wtrace -> string -> res Z;
  recursion_limit : nat                                       (** nested calls Python admits *) }.

(** The configuration of the task, as far as packages read it. *)
Record pkg_config := { pk_win : win_cfg; pk_file_type : option string; services_pid : Z }.

Section package.
Context `{winapi} `{guest_files} (cfg : pkg_config).

Definition os_rename (a b : string) : st winst unit := ask (ERename a b) (fun t => rename_res t a b).
Definition shutil_copy (a b : string) : st winst unit := ask (ECopy a b) (fun t => copy_res t a b).
Definition shutil_move (a b : string) : st winst unit := ask (EMove a b) (fun t => move_res t a b).
Definition call (argv : list string) : st winst Z := ask (ERun argv) (fun t => run_program t argv).
Definition get_option (k : string) : st winst (option string) := fun w => (Ok (oval_text <$> opt_get k (w_options w)), w).
Definition option_true (k : string) : st winst bool := fun w => (Ok (opt_true k (w_options w)), w).
Definition set_option (k : string) (v : oval) : st winst unit := smodify (with_options (opt_set k v)).
Definition environ (k : string) : res string := of_option KeyError (getenv k).

(** [check_file_extension]. *)
Definition check_file_extension (path ext : string) : st winst string :=
  if bool_decide (lower (win_ext path) <> ext) then do* os_rename path (path +:+ ext) in sret (path +:+ ext) else sret path.

(** ** The applications *)

(** One entry of [PATHS]; a path is made when it is asked for, which may raise. *)
Definition env_path (k : string) (l : list string) : res string :=
  match getenv k with Some d => Ok (win_path d l) | None => Raise TypeError end.
Definition entry_paths (entry : list string) : list (res string) :=
  match entry with
  | [] => [Raise IndexError]
  | basedir :: rest =>
      let sys32 := match rest with x :: _ => bool_decide (lower x = "system32") | [] => false end in
      if bool_decide (basedir = "SystemRoot") then
        if negb sys32 then [env_path "SystemRoot" rest]
        else match pk_file_type cfg with
             | None => [Raise AttributeError]
             | Some ft => if negb (str_contains "PE32+" ft) then [env_path "SystemRoot" rest]
                          else [env_path "SystemRoot" ("sysnative" :: tail rest)]
             end
      else if bool_decide (basedir = "ProgramFiles") then
        (if truthy (getenv "ProgramFiles(x86)") then [env_path "ProgramFiles(x86)" rest] else []) ++
        [match getenv "ProgramFiles" with Some d => Ok (win_path (str_replace " (x86)" "" d) rest) | None => Raise AttributeError end]
      else if bool_decide (basedir = "HomeDrive") then [Ok (win_path (default "None" (getenv "HomeDrive") +:+ BS) rest)]
      else [Ok (win_path basedir rest)]
  end.
Definition enum_paths (PATHS : list (list string)) : list (res string) := PATHS ≫= entry_paths.

(** The first path for which the test gives one. *)
Fixpoint first_path (pick : string -> option string) (l : list (res string)) : res string :=
  match l with
  | [] => Raise CuckooPackageError
  | Raise e :: _ => Raise e
  | Ok p :: l' => match pick p with Some r => Ok r | None => first_path pick l' end
  end.
(** The name of the application only shows in the message. *)
Definition get_path (PATHS : list (list string)) : st winst string := fun w =>
  (first_path (fun p => if isfile (trace w) p then Some p else None) (enum_paths PATHS), w).
Definition get_path_glob (PATHS : list (list string)) : st winst string := fun w =>
  (first_path (fun p => List.find (isfile (trace w)) (iglob (trace w) p)) (enum_paths PATHS), w).
Definition get_path_app_in_path (PATHS : list (list string)) (application : string) : st winst string := fun w =>
  (first_path (fun p => if isfile (trace w) p && (bool_decide (application = "") || str_contains (lower application) (lower p)) then Some p else None)
     (enum_paths PATHS), w).

(** ** Starting *)

Definition execute (path : string) (args : option string) (interest : string) : st winst (option Z) :=
  let* free := option_true "free" in
  let* kernel_analysis := option_true "kernel_analysis" in
  let* r := Process_execute path args (negb free) kernel_analysis (Process_init 0 0 false) in
  if negb r.1 then sraise CuckooPackageError
  else if free then sret None
  else
    let* p := if kernel_analysis then sret r.2
              else let* w := sget in let* i := Process_inject (pk_win cfg) (w_options w) (Some interest) false r.2 in sret i.2 in
    let* p := Process_resume p in
    let* p := Process_close p.2 in
    sret (Some (p_pid p.2)).
(** [debug_inject] is no method of Process. *)
Definition debug (path : string) (args : option string) (interest : string) : st winst (option Z) :=
  let* r := Process_execute path args true false (Process_init 0 0 false) in
  if negb r.1 then sraise CuckooPackageError
  else let* b := is_64bit (pk_win cfg) r.2 in sraise AttributeError.

Definition move_curdir (filepath : string) : st winst string :=
  let* dir := get_option "curdir" in
  let* curdir := slift match dir with
                       | Some d => Ok (expandvars d)
                       | None => of_option TypeError (getenv "TEMP")
                       end in
  let newpath := win_path curdir [win_tail filepath] in
  do* shutil_move filepath newpath in sret newpath.
End package.

(** A package: what its constructor sets, and its start. *)
Record package := { pk_init : options -> options; pk_start : string -> st winst (option Z) }.
