(* ===== verification/Packages.v ===== *)
(** The analysis packages of the Windows guest, analyzer/windows/modules/packages/,
    one Definition per package, and choose_package of lib/core/packages.py. *)
From S2P Require Import Prelude Struct Pretty ProcessLog Quarantine WinProcess PackageBase.
Open Scope string_scope.
Open Scope list_scope.
Open Scope Z_scope.

(** ** What packages share *)

Fixpoint repeat_m (n : nat) (m : st winst unit) : st winst unit :=
  match n with O => sret tt | S n => do* m in repeat_m n m end.
Fixpoint for_each {A} (f : A -> st winst unit) (l : list A) : st winst unit :=
  match l with [] => sret tt | x :: l' => do* f x in for_each f l' end.
(** A pattern [(\.a|\.b)$] with [re.IGNORECASE]; [$] also stands before a line
    feed at the end. *)
Definition ends_any (exts : list string) (s : string) : bool := existsb (fun e => ends_with e s) exts.
Definition ext_search (exts : list string) (s : string) : bool :=
  ends_any exts (lower s) || ends_any ((fun e => e +:+ text [NL]) <$> exts) (lower s).
(** NotImplementedError is a RuntimeError. *)
Definition is_runtime (e : exn) : bool := bool_decide (e = RuntimeError \/ e = NotImplementedError).

Definition OFFICE (exe : string) : list (list string) :=
  [["ProgramFiles"; "Microsoft Office"; exe]; ["ProgramFiles"; "Microsoft Office"; "Office*"; exe];
   ["ProgramFiles"; "Microsoft Office*"; "root"; "Office*"; exe]].
Definition OFFICE16 (exe : string) : list (list string) := [["ProgramFiles"; "Microsoft Office*"; "root"; "Office16"; exe]].
Definition WORD : list (list string) := OFFICE "WINWORD.EXE" ++ [["ProgramFiles"; "Microsoft Office"; "WORDVIEW.EXE"]].
Definition SYSTEM32 (exe : string) : list (list string) := [["SystemRoot"; "system32"; exe]].
Definition POWERSHELL (dir : string) : list (list string) := [["SystemRoot"; dir; "WindowsPowerShell"; "v*.0"; "powershell.exe"]].
Definition IEXPLORE : list (list string) := [["ProgramFiles"; "Internet Explorer"; "iexplore.exe"]].

(** The options the constructors set. *)
Definition set_all (l : list (string * string)) (d : options) : options := fold_left (fun d kv => opt_set kv.1 (OText kv.2) d) l d.
Definition unpacker_options : list (string * string) := [("unpacker", "1"); ("procdump", "0"); ("injection", "0")].

Section packages.
Context `{winapi} `{guest_files} (cfg : pkg_config).
Abbreviation pkg_start := (string -> st winst (option Z)).
Abbreviation get_path := (get_path cfg).
Abbreviation get_path_glob := (get_path_glob cfg).
Abbreviation get_path_app_in_path := (get_path_app_in_path cfg).
Abbreviation execute := (execute cfg).

(** Most packages look for an application and start it with the file, which has
    been given an extension or not. *)
Definition open_with (PATHS : list (list string)) (args : string -> string) : pkg_start := fun path =>
  let* app := get_path PATHS in execute app (Some (args path)) path.
Definition open_glob (PATHS : list (list string)) (args : string -> string) : pkg_start := fun path =>
  let* app := get_path_glob PATHS in execute app (Some (args path)) path.
Definition open_with_ext (PATHS : list (list string)) (ext : string) (args : string -> string) : pkg_start := fun path =>
  let* app := get_path PATHS in let* path := check_file_extension path ext in execute app (Some (args path)) path.
Definition open_glob_ext (PATHS : list (list string)) (ext : string) (args : string -> string) : pkg_start := fun path =>
  let* app := get_path_glob PATHS in let* path := check_file_extension path ext in execute app (Some (args path)) path.
Definition ext_open_glob (PATHS : list (list string)) (ext : string) (args : string -> string) : pkg_start := fun path =>
  let* path := check_file_extension path ext in let* app := get_path_glob PATHS in execute app (Some (args path)) path.

Definition chm_start : pkg_start := open_glob_ext [["SystemRoot"; "hh.exe"]] ".chm" quoted.
Definition chrome_start : pkg_start := open_with [["ProgramFiles"; "Google"; "Chrome"; "Application"; "chrome.exe"]] quoted.
Definition cpl_start : pkg_start := open_with (SYSTEM32 "control.exe") quoted.
Definition doc_start : pkg_start := open_glob_ext WORD ".doc" (fun p => quoted p +:+ " /q").
Definition doc2016_start : pkg_start := open_glob_ext (OFFICE16 "WINWORD.EXE") ".doc" (fun p => quoted p +:+ " /q /dde /n").
Definition eml_start : pkg_start := open_glob (OFFICE "OUTLOOK.EXE") (fun p => "/eml " +:+ quoted p).
Definition firefox_start : pkg_start := open_with [["ProgramFiles"; "Mozilla Firefox"; "firefox.exe"]] quoted.
Definition cmd_start (p : string) : string := "/c start /wait " +:+ quoted "" +:+ " " +:+ quoted p.
Definition generic_start : pkg_start := open_with (SYSTEM32 "cmd.exe") cmd_start.
Definition hta_start : pkg_start := open_with_ext (SYSTEM32 "mshta.exe") ".hta" quoted.
Definition html_start : pkg_start := fun path =>
  let* iexplore := get_path IEXPLORE in
  let* path := if negb (ends_any [".htm"; ".html"] path) then do* shutil_copy path (path +:+ ".html") in sret (path +:+ ".html") else sret path in
  execute iexplore (Some (quoted path)) path.
(** The call of [execute] has arguments the method does not know. *)
Definition hwp_start : pkg_start := fun path =>
  do* get_path [["ProgramFiles"; "Hnc"; "Hwp80"; "Hwp.exe"]; ["ProgramFiles"; "Hnc"; "Office 2020"; "HOffice110"; "Bin"; "Hword.exe"]] in
  sraise TypeError.
Definition ichitaro_start : pkg_start := open_with_ext [["ProgramFiles"; "JustSystems"; "TaroView"; "TAROVIEW.EXE"]] ".jtd" quoted.
Definition ie_start : pkg_start := open_with IEXPLORE quoted.
Definition inp_start : pkg_start :=
  open_with_ext [["ProgramFiles"; "InPage Urdu Professional"; "Inpage.exe"];
                 ["ProgramFiles"; "Concept Software Pvt. Ltd"; "InPage Urdu Professional"; "Inpage.exe"]] ".inp" quoted.
Definition jar_start : pkg_start := fun path =>
  let* java := get_path_glob [["ProgramFiles"; "Java"; "jre*"; "bin"; "java.exe"]] in
  let* class_path := get_option "class" in
  let args := if truthy class_path then "-cp " +:+ quoted path +:+ " " +:+ default "" class_path else "-jar " +:+ quoted path in
  execute java (Some args) path.
Definition lnk_start : pkg_start := fun path =>
  let* path := check_file_extension path ".lnk" in
  let* cmd := get_path (SYSTEM32 "cmd.exe") in execute cmd (Some (cmd_start path)) path.
Definition mht_start : pkg_start := open_with_ext IEXPLORE ".mht" quoted.
Definition msbuild_start : pkg_start := open_glob [["SystemRoot"; "Microsoft.NET"; "Framework"; "v4.0.30319"; "msbuild.exe"]] quoted.
Definition msg_start : pkg_start := open_glob (OFFICE "OUTLOOK.EXE") (fun p => "/f " +:+ quoted p).
Definition msi_start : pkg_start := open_with (SYSTEM32 "msiexec.exe") (fun p => "/I " +:+ quoted p +:+ " /qb ACCEPTEULA=1 LicenseAccepted=1").
Definition nsis_start : pkg_start := fun path =>
  let* path := check_file_extension path ".exe" in
  let* cmd := get_path (SYSTEM32 "cmd.exe") in execute cmd (Some (cmd_start path +:+ " /NCRC")) path.
Definition ollydbg_start : pkg_start := fun path =>
  let* arguments := get_option "arguments" in
  execute "bin\OllyDbg\OLLYDBG.EXE" (Some (path +:+ " " +:+ default "" arguments)) path.
Definition pdf_start : pkg_start := open_glob [["ProgramFiles"; "Adobe"; "*a*"; "Reader"; "AcroRd32.exe"]] quoted.
Definition ppt_start : pkg_start := open_glob (OFFICE "POWERPNT.EXE") (fun p => "/s " +:+ quoted p).
Definition ppt2016_start : pkg_start := open_glob (OFFICE16 "POWERPNT.EXE") (fun p => "/s " +:+ quoted p).
Definition ps1_args (p : string) : string := "-NoProfile -ExecutionPolicy bypass -File " +:+ quoted p.
Definition ps1_start : pkg_start := open_glob_ext (POWERSHELL "system32") ".ps1" ps1_args.
Definition ps1_x64_start : pkg_start := open_glob_ext (POWERSHELL "sysnative") ".ps1" ps1_args.
Definition Unpacker_ps1_start : pkg_start := open_glob_ext (POWERSHELL "system32") ".ps1" ps1_args.
Definition python_start : pkg_start := fun path =>
  let* python := get_path_glob [["HomeDrive"; "Python*"; "python.exe"]; ["SystemRoot"; "py.exe"]] in
  let* arguments := get_option "arguments" in execute python (Some (path +:+ " " +:+ default "" arguments)) path.
Definition reg_start : pkg_start := open_with [["SystemRoot"; "System32"; "reg.exe"]] (fun p => "import " +:+ quoted p).
Definition regsvr_start : pkg_start := fun path =>
  let* regsvr32 := get_path (SYSTEM32 "regsvr32.exe") in
  let* arguments := get_option "arguments" in
  let* path := check_file_extension path ".dll" in
  execute regsvr32 (Some ((if truthy arguments then default "" arguments +:+ " " else "") +:+ path)) path.
Definition Unpacker_regsvr_start : pkg_start := fun path =>
  let* regsvr32 := get_path (SYSTEM32 "regsvr32.exe") in
  let* arguments := get_option "arguments" in
  let* path := check_file_extension path ".dll" in
  execute regsvr32 (Some (path +:+ (if truthy arguments then " " +:+ default "" arguments else ""))) path.
Definition sct_start : pkg_start := open_with (SYSTEM32 "regsvr32.exe") (fun p => "/u /n /i:" +:+ p +:+ " scrobj.dll").
Definition swf_start : pkg_start := fun path => execute "bin/flashplayer.exe" (Some path) path.
Definition wsf_start : pkg_start := open_with_ext (SYSTEM32 "wscript.exe") ".wsf" quoted.
Definition xls_start : pkg_start := ext_open_glob (OFFICE "EXCEL.EXE") ".xls" (fun p => quoted p +:+ " /dde").
Definition xls2016_start : pkg_start := ext_open_glob (OFFICE16 "EXCEL.EXE") ".xls" (fun p => quoted p +:+ " /dde").
Definition xlst_start : pkg_start :=
  open_with_ext [["SystemRoot"; "system32"; "wbem"; "wmic.exe"]; ["SystemRoot"; "SysWOW64"; "wbem"; "wmic.exe"]] ".xsl"
    (fun p => "process LIST /FORMAT:" +:+ quoted p).
Definition xps_start : pkg_start := open_with (SYSTEM32 "xpsrchvw.exe") quoted.

(** ** Programs and libraries *)

(** From the folder of the application data, which some samples want. *)
Definition to_appdata (path : string) : st winst string :=
  let* appdata := option_true "appdata" in
  if appdata then
    let* basepath := slift (of_option TypeError (getenv "APPDATA")) in
    let newpath := win_path basepath [win_tail path] in
    do* shutil_copy path newpath in sret newpath
  else sret path.
Definition exe_start : pkg_start := fun path =>
  let* args := get_option "arguments" in
  let* runasx86 := option_true "runasx86" in
  let* path := check_file_extension path ".exe" in
  let* path := to_appdata path in
  do* (if runasx86 then do* call ["CorFlags.exe"; path; "/32bit+"] in sret tt else sret tt) in
  execute path args path.
Definition UPX_start : pkg_start := fun path =>
  let* arguments := get_option "arguments" in
  let* path := check_file_extension path ".exe" in
  let* path := to_appdata path in execute path arguments path.
Definition Unpacker_start : pkg_start := fun path =>
  let* arguments := get_option "arguments" in
  let* path := check_file_extension path ".exe" in execute path arguments path.
Definition vawtrak_start : pkg_start := fun path =>
  let* iexplore := get_path IEXPLORE in
  do* execute iexplore (Some (quoted "about:blank")) "about:blank" in
  exe_start path.

(** [rundll32], under another name if one is asked for. *)
Definition dll_loader (rundll32 : string) : st winst string :=
  let* dllloader := get_option "dllloader" in
  if truthy dllloader then
    let newname := win_path (win_dirname rundll32) [default "" dllloader] in
    do* shutil_copy rundll32 newname in sret newname
  else sret rundll32.
Definition with_arguments (args : string) (arguments : option string) : string :=
  if truthy arguments then args +:+ " " +:+ default "" arguments else args.
Definition plain_dll_start : pkg_start := fun path =>
  let* rundll32 := get_path (SYSTEM32 "rundll32.exe") in
  let* function := get_option "function" in
  let* arguments := get_option "arguments" in
  let* path := check_file_extension path ".dll" in
  let args := with_arguments (path +:+ "," +:+ default "#1" function) arguments in
  let* rundll32 := dll_loader rundll32 in execute rundll32 (Some args) path.
Definition UPX_dll_start : pkg_start := plain_dll_start.
Definition Unpacker_dll_start : pkg_start := plain_dll_start.
(** A range of ordinals such as #1-4 or #1..4. *)
Fixpoint lstrip_hash (l : bytes) : bytes := match l with c :: l' => if bool_decide (c = "#"%char) then lstrip_hash l' else l | [] => [] end.
Definition ordinal_range (function : string) : option (Z * Z) :=
  let f := B (str_replace ".." "-" function) in
  match find_byte "-"%char f with
  | Some i =>
      match py_int (lstrip_hash (take i f)), py_int (lstrip_hash (drop (S i) f)) with
      | Some a, Some b => if a <? b then Some (a, b) else None
      | _, _ => None
      end
  | None => None
  end.
Definition range_args (a b : Z) (rundll32 path arguments : string) : string :=
  text (strip_ws (B ("/c for /l %i in (" +:+ str_int a +:+ ",1," +:+ str_int b +:+ ") do @" +:+ rundll32 +:+ " " +:+ quoted path
                     +:+ ",#%i " +:+ arguments))).
Definition dll_start : pkg_start := fun path =>
  let* rundll32 := get_path [["SystemRoot"; "System32"; "rundll32.exe"]] in
  let* function := get_option "function" in
  let function := default "#1" function in
  let* arguments := get_option "arguments" in
  let arguments := default "" arguments in
  let* dllloader := get_option "dllloader" in
  let* path := check_file_extension path ".dll" in
  let* rundll32 := dll_loader rundll32 in
  match ordinal_range function with
  | Some (a, b) =>
      (** ValueError and AssertionError of the start itself are passed over as well *)
      scatch (execute "C:\Windows\System32\cmd.exe" (Some (range_args a b rundll32 path arguments)) path)
        (fun e => if bool_decide (e = ValueError \/ e = AssertionError) then
                    Some (execute rundll32 (Some (with_arguments
                      (quoted path +:+ (if bool_decide (dllloader = Some "regsvcs.exe") then "" else "," +:+ function)) (Some arguments))) path)
                  else None)
  | None =>
      execute rundll32 (Some (with_arguments
        (quoted path +:+ (if bool_decide (dllloader = Some "regsvcs.exe") then "" else "," +:+ function)) (Some arguments))) path
  end.

(** ** Shell code *)

Definition shellcode_start (loaderpath : string) (with_offset : bool) : pkg_start := fun path =>
  let* offset := get_option "offset" in
  let args := with_arguments ("shellcode " +:+ path) (if with_offset then offset else None) in
  let newpath := win_path (win_dirname path) [win_tail loaderpath] in
  do* shutil_copy loaderpath newpath in execute newpath (Some args) newpath.
Definition Shellcode_start : pkg_start := shellcode_start "bin\loader.exe" true.
Definition Shellcode_x64_start : pkg_start := shellcode_start "bin\loader_x64.exe" true.
Definition Shellcode_Unpacker_start : pkg_start := shellcode_start "bin\loader.exe" false.

(** ** Scripts *)

(** An encoded script is told by its first characters. *)
Definition renamed (path ext : string) : st winst string := do* os_rename path (path +:+ ext) in sret (path +:+ ext).
Definition read_start (path : string) : st winst string := fun w => (read4 (trace w) path, w).
Definition vbs_start : pkg_start := fun path =>
  let* wscript := get_path (SYSTEM32 "wscript.exe") in
  let* path := if bool_decide (lower (win_ext path) ∈ [".vbs"; ".vbe"]) then sret path
               else let* m := read_start path in renamed path (if bool_decide (m = "#@~^") then ".vbe" else ".vbs") in
  execute wscript (Some (quoted path)) path.
Definition Unpacker_js_start : pkg_start := fun path =>
  let* wscript := get_path (SYSTEM32 "wscript.exe") in
  let* path := if bool_decide (lower (win_ext path) ∈ [".js"; ".jse"]) then sret path
               else let* m := read_start path in renamed path (if bool_decide (m = "#@~^") then ".jse" else ".js") in
  execute wscript (Some (quoted path)) path.
(** Is it a file, and does it begin so. *)
Definition encoded_file (path : string) : st winst bool :=
  let* b := look (fun t => isfile t path) in
  if b then let* m := read_start path in sret (bool_decide (m = "#@~^")) else sret false.
Definition CALC : string := "C:\windows\system32\calc.exe".
(** Calculators that are not monitored, against samples that count processes;
    the option stays set when one does not start. *)
Definition calcs (n : nat) (path : string) : st winst unit :=
  let* free := option_true "free" in
  do* set_option "free" (OInt 1) in
  do* repeat_m n (do* execute CALC (Some "") path in sret tt) in
  if free then sret tt else set_option "free" (OInt 0).
Definition js_start : pkg_start := fun path =>
  let* wscript := get_path (SYSTEM32 "wscript.exe") in
  let ext := lower (win_ext path) in
  let* pe := if bool_decide (ext ∈ [".js"; ".jse"]) then sret (path, ext)
             else let* b := encoded_file path in
                  if b then let* p := renamed path ".jse" in sret (p, ".jse") else let* p := renamed path ".js" in sret (p, ext) in
  do* (if bool_decide (pe.2 = ".jse") then calcs 20 pe.1 else sret tt) in
  execute wscript (Some (quoted pe.1)) pe.1.
Definition js_antivm_start : pkg_start := fun path =>
  do* calcs 50 path in
  let* wscript := get_path (SYSTEM32 "wscript.exe") in
  let* path := if bool_decide (lower (win_ext path) ∈ [".js"; ".jse"]) then sret path
               else let* b := encoded_file path in renamed path (if b then ".jse" else ".js") in
  execute wscript (Some (quoted path)) path.
Definition vbejse_start : pkg_start := fun path =>
  let* wscript := get_path (SYSTEM32 "wscript.exe") in
  do* shutil_copy path (path +:+ ".vbe") in
  do* shutil_copy path (path +:+ ".jse") in
  do* execute wscript (Some (quoted (path +:+ ".vbe"))) (path +:+ ".vbe") in
  execute wscript (Some (quoted (path +:+ ".jse"))) (path +:+ ".jse").
Definition newline_text : string := text [NL].
Definition applet_html (path class_name : string) : string :=
  newline_text +:+ "        <html>" +:+ newline_text +:+ "            <body>" +:+ newline_text +:+ "                <applet archive="
  +:+ quoted path +:+ " code=" +:+ quoted class_name +:+ " width=" +:+ quoted "1" +:+ " height=" +:+ quoted "1" +:+ ">" +:+ newline_text
  +:+ "                </applet>" +:+ newline_text +:+ "            </body>" +:+ newline_text +:+ "        </html>" +:+ newline_text
  +:+ "        ".
Definition make_html (path : string) (class_name : option string) : st winst string := fun w =>
  match temp_file (trace w) with
  | Ok f => (Ok f, with_trace (fun t => t ++ [EWrite f [applet_html path (default "None" class_name)]]) w)
  | Raise e => (Raise e, w)
  end.
Definition applet_start : pkg_start := fun path =>
  let* browser := get_path (["ProgramFiles"; "Mozilla Firefox"; "firefox.exe"] :: IEXPLORE) in
  let* class_name := get_option "class" in
  let* html_path := make_html path class_name in execute browser (Some (quoted html_path)) html_path.

(** ** Many processes *)

Definition started (path args interest : string) : st winst unit := do* execute path (Some args) interest in sret tt.
Definition processes_start : pkg_start := fun path =>
  do* started "C:\Program Files\Internet Explorer\iexplore.exe" "" path in
  do* started "C:\Program Files\Mozilla Firefox\firefox.exe" "" path in
  do* started "C:\Program Files\Windows Media Player\wmplayer.exe" "/prefetch:1" path in
  do* started "C:\Program Files\Adobe\Reader 11.0\Reader\AcroRd32.exe" "" path in
  do* started "C:\windows\system32\control.exe" "/name Microsoft.BackupAndRestore" path in
  do* for_each (fun exe => started (win_path "C:\windows" ["system32"; exe]) "" path)
        ["osk.exe"; "mobsync.exe"; "mstsc.exe"; "charmap.exe"; "calc.exe"; "mspaint.exe"] in
  do* emit (ESleep 5000) in
  let* word := get_path_glob WORD in execute word (Some (quoted path +:+ " /q")) path.
Definition processes_simple_start : pkg_start := fun path =>
  do* repeat_m 20 (started CALC "" path) in
  do* emit (ESleep 5000) in
  let* word := get_path_glob WORD in execute word (Some (quoted path +:+ " /q")) path.

(** ** Publisher *)

Definition all_digits (l : bytes) : bool := bool_decide (l <> []) && forallb (fun c => bool_decide (is_Some (digit_val c))) l.
Definition office_version (key : string) : bool := str_contains "." key && forallb all_digits (split_byte "."%char (B key)).
Definition set_value (key name : string) (v : Z) : st winst unit := ask (ERegistry key name v) (fun t => set_registry t key name).
Definition set_keys : st winst unit := fun w =>
  match office_keys (trace w) with
  | Raise OSError => (Ok tt, w)
  | Raise e => (Raise e, w)
  | Ok keys =>
      for_each (fun v =>
        let key := "Software\Microsoft\Office\" +:+ v +:+ "\Publisher\Security" in
        do* set_value key "VBAWarnings" 1 in do* set_value key "AccessVBOM" 1 in set_value key "ExtensionHardening" 0)
        (filter (fun k => office_version k = true) keys) w
  end.
Definition pub_start : pkg_start := fun path =>
  do* set_keys in open_glob_ext (OFFICE "MSPUB.EXE" ++ [["ProgramFiles"; "Microsoft Office"; "MSPUB.EXE"]]) ".pub" quoted path.
Definition pub2016_start : pkg_start := fun path => do* set_keys in open_glob_ext (OFFICE16 "MSPUB.EXE") ".pub" quoted path.

(** ** Archives *)

Definition zip_entries (zip_path : string) : st winst (list (string * bool)) := fun w => (open_zip (trace w) zip_path, w).
Definition extractall (zip_path dir : string) (pwd : zip_pwd) : st winst unit := ask (EExtract zip_path dir) (fun t => extract_zip t zip_path dir pwd).
Definition zip_overwritten (zip_path : string) : st winst bool :=
  let* l := zip_entries zip_path in sret (bool_decide (win_tail zip_path ∈ l.*1)).
(** An archive that holds a file of its own name is moved away. *)
Definition move_overwritten (overwritten : bool) (path : string) : st winst string :=
  if overwritten then do* shutil_move path (path +:+ ".old") in sret (path +:+ ".old") else sret path.
(** The first extraction, and the second one after a RuntimeError. *)
Definition extract_twice (m1 m2 : st winst unit) : st winst unit :=
  scatch m1 (fun e =>
    if bool_decide (e = ExternalError) then Some (sraise CuckooPackageError)
    else if is_runtime e then
      Some (scatch m2 (fun e => if is_runtime e then Some (sraise CuckooPackageError) else None))
    else None).
(** A broken archive in an archive is passed over. *)
Definition nested (m : st winst unit) : st winst unit :=
  scatch m (fun e => if bool_decide (e = ExternalError) || is_runtime e then Some (sret tt) else None).
(** [levels] levels of archives are extracted below this one; the passwords are
    those of the two attempts, when some entry is encrypted or not. *)
Fixpoint extract_nested (levels : nat) (zip_path dir : string) (pwd : bool -> zip_pwd * zip_pwd) : st winst unit :=
  let* b := zip_overwritten zip_path in
  let* zip_path := move_overwritten b zip_path in
  let* l := zip_entries zip_path in
  let pwds := pwd (existsb snd l) in
  sfinally (extract_twice (extractall zip_path dir pwds.1) (extractall zip_path dir pwds.2))
    match levels with
    | O => sret tt
    | S levels =>
        for_each (fun name => nested (extract_nested levels (win_path dir [name]) dir (fun b => pwd (existsb snd l || b))))
          (filter (fun n => ends_with ".zip" n = true) l.*1)
    end.
(** An empty password becomes infected for an encrypted archive, and stays so
    for those inside. *)
Definition zip_passwords (password : string) (encrypted : bool) : zip_pwd * zip_pwd :=
  let p := BytesPwd (if encrypted && bool_decide (password = "") then B "infected" else B password) in (p, p).
Definition Zip_extract (path dir password : string) : st winst unit := extract_nested 4 path dir (zip_passwords password).
Definition unpacker_passwords (password : option string) (encrypted : bool) : zip_pwd * zip_pwd :=
  (match password with Some p => TextPwd p | None => NoPwd end, TextPwd "infected").
Definition Unpacker_zip_extract (path dir : string) (password : option string) : st winst unit :=
  extract_nested 4 path dir (unpacker_passwords password).
Definition zip_infos (path : string) : st winst (list (string * bool)) :=
  scatch (zip_entries path) (fun e => if bool_decide (e = ExternalError) then Some (sraise CuckooPackageError) else None).
(** The file that is started: the one that was asked for, the first one the
    patterns find, the first one. *)
Fixpoint first_found (pats : list (string -> bool)) (names : list string) : option string :=
  match pats with [] => None | f :: pats' => match List.find f names with Some n => Some n | None => first_found pats' names end end.
Definition member_to_run (pats : list (string -> bool)) (names : list string) (file : option string) : res string :=
  match file with
  | Some f => Ok f
  | None =>
      match names with
      | [] => Raise CuckooPackageError
      | n :: _ => Ok match first_found pats names with Some f => if bool_decide (f <> "") then f else n | None => n end
      end
  end.
Definition run_dll (PATHS : list (list string)) (file_path : string) : st winst (option Z) :=
  let* rundll32 := get_path_app_in_path PATHS "rundll32.exe" in
  let* function := get_option "function" in
  let* arguments := get_option "arguments" in
  let dll_args := with_arguments (quoted file_path +:+ "," +:+ default "#1" function) arguments in
  let* rundll32 := dll_loader rundll32 in execute rundll32 (Some dll_args) file_path.
(** What both archive packages do with the file; the script of PowerShell is
    given the archive. *)
Definition run_member (PATHS : list (list string)) (dlls : list string) (path file_name file_path : string)
    (otherwise : st winst (option Z)) : st winst (option Z) :=
  let n := lower file_name in
  if ends_with ".lnk" n then let* cmd := get_path PATHS in execute cmd (Some (cmd_start file_path)) file_path
  else if ends_with ".msi" n then let* msi := get_path PATHS in execute msi (Some ("/I " +:+ quoted file_path)) file_path
  else if ends_any [".js"; ".jse"; ".vbs"; ".vbe"; ".wsf"] n then
    let* wscript := get_path_app_in_path PATHS "wscript.exe" in execute wscript (Some (quoted file_path)) file_path
  else if ends_any dlls n then run_dll PATHS file_path
  else if ends_with ".ps1" n then
    let* powershell := get_path_app_in_path PATHS "powershell.exe" in execute powershell (Some (ps1_args path)) file_path
  else otherwise.
Definition ZIP_PATHS : list (list string) :=
  [["SystemRoot"; "system32"; "cmd.exe"]; ["SystemRoot"; "system32"; "wscript.exe"]; ["SystemRoot"; "system32"; "rundll32.exe"];
   ["SystemRoot"; "sysnative"; "WindowsPowerShell"; "v1.0"; "powershell.exe"]; ["SystemRoot"; "system32"; "xpsrchvw.exe"]].
Definition zip_exts : list string := [".exe"; ".dll"; ".scr"; ".msi"; ".bat"; ".lnk"; ".js"; ".jse"; ".vbs"; ".vbe"; ".wsf"].
Definition zip_start : pkg_start := fun path =>
  let* password := get_option "password" in
  let* appdata := option_true "appdata" in
  let* root := slift (environ (if appdata then "APPDATA" else "TEMP")) in
  let* infos := zip_infos path in
  do* Zip_extract path root (default "" password) in
  let* file := get_option "file" in
  let* file_name := slift (member_to_run [ext_search zip_exts] infos.*1 file) in
  let file_path := win_path root [file_name] in
  run_member ZIP_PATHS [".dll"] path file_name file_path
    (do* check_file_extension path ".exe" in let* args := get_option "arguments" in execute file_path args file_path).
Definition Unpacker_zip_start : pkg_start := fun path =>
  let* root := slift (environ "TEMP") in
  let* password := get_option "password" in
  let* infos := zip_infos path in
  do* Unpacker_zip_extract path root password in
  let* file := get_option "file" in
  let* file_name := slift (member_to_run
    [ext_search [".exe"; ".scr"; ".msi"; ".bat"; ".lnk"; ".js"; ".jse"; ".vbs"; ".vbe"; ".wsf"]; ext_search [".dll"; ".ocx"]] infos.*1 file) in
  let file_path := win_path root [file_name] in
  run_member (SYSTEM32 "cmd.exe") [".dll"; ".ocx"] path file_name file_path
    (let* args := get_option "arguments" in execute file_path args file_path).

Definition rar_entries (rar_path : string) : st winst (list string) := fun w => (open_rar (trace w) rar_path, w).
Definition rar_extractall (rar_path dir : string) (pwd : zip_pwd) : st winst unit := ask (EExtract rar_path dir) (fun t => extract_rar t rar_path dir pwd).
(** No level is the last one: Python ends the recursion with RecursionError, a
    RuntimeError. *)
Fixpoint Rar_extract (calls : nat) (rar_path dir : string) (password : option string) : st winst unit :=
  match calls with
  | O => sraise RuntimeError
  | S calls =>
      let* l := rar_entries rar_path in
      let* rar_path := move_overwritten (bool_decide (win_tail rar_path ∈ l)) rar_path in
      let* l := rar_entries rar_path in
      sfinally (extract_twice (rar_extractall rar_path dir (match password with Some p => TextPwd p | None => NoPwd end))
                              (rar_extractall rar_path dir (TextPwd "infected")))
        (for_each (fun name => Rar_extract calls (win_path dir [name]) dir password) (filter (fun n => ends_with ".rar" n = true) l))
  end.
Definition rar_start : pkg_start := fun path =>
  if negb has_rarfile then sraise CuckooPackageError
  else
    let* path := check_file_extension path ".rar" in
    let* root := slift (environ "TEMP") in
    let* password := get_option "password" in
    let* infos := scatch (rar_entries path) (fun e => if bool_decide (e = ExternalError) then Some (sraise CuckooPackageError) else None) in
    do* Rar_extract recursion_limit path root password in
    let* file := get_option "file" in
    let* file_name := slift (member_to_run [ext_search [".exe"; ".scr"; ".msi"; ".bat"; ".lnk"]] infos file) in
    let file_path := win_path root [file_name] in
    if ends_with ".lnk" (lower file_name) then let* cmd := get_path (SYSTEM32 "cmd.exe") in execute cmd (Some (cmd_start file_path)) file_path
    else let* args := get_option "arguments" in execute file_path args file_path.

(** ** A service *)

Definition advapi (name : string) : st winst Z := ask (EService name) (fun t => service_call t name).
(** Nothing is returned, and every exception is logged; logging one that has no
    [__dict__] does not raise. *)
Definition service_body (path : string) : st winst unit :=
  let* path := check_file_extension path ".exe" in
  let* scm_handle := advapi "OpenSCManagerA" in
  if scm_handle =? 0 then sret tt
  else
    let* arguments := get_option "arguments" in
    let* servicename := get_option "servicename" in
    let* servicedesc := get_option "servicedesc" in
    let* service_handle := advapi ("CreateServiceA " +:+ default "CAPEService" servicename +:+ " " +:+ default "CAPE Service" servicedesc +:+ " "
      +:+ with_arguments (quoted path) arguments) in
    if service_handle =? 0 then sret tt
    else
      let servproc := Process_init (services_pid cfg) 0 false in
      let* r := get_filepath (pk_win cfg) servproc in
      let* w := sget in
      let* r := Process_inject (pk_win cfg) (w_options w) (Some r.1) true r.2 in
      do* Process_close r.2 in
      do* emit (ESleep 500) in
      do* advapi "StartServiceA" in do* advapi "CloseServiceHandle" in do* advapi "CloseServiceHandle" in sret tt.
Definition service_start : pkg_start := fun path =>
  do* scatch (service_body path) (fun _ => Some (sret tt)) in sret None.

(** ** The packages by the names of their modules *)

Definition plain (start : pkg_start) : package := {| pk_init := id; pk_start := start |}.
Definition setting (l : list (string * string)) (start : pkg_start) : package := {| pk_init := set_all l; pk_start := start |}.
Definition package_table : list (string * package) :=
  [("Shellcode-Unpacker", setting [("unpacker", "1"); ("procdump", "0"); ("dump-caller-regions", "0")] Shellcode_Unpacker_start);
   ("Shellcode", setting [("procdump", "0")] Shellcode_start);
   ("Shellcode_x64", setting [("procdump", "0")] Shellcode_x64_start);
   ("UPX", setting [("upx", "1")] UPX_start);
   ("UPX_dll", setting [("upx", "1")] UPX_dll_start);
   ("Unpacker", setting unpacker_options Unpacker_start);
   ("Unpacker_dll", setting [("unpacker", "1"); ("injection", "0")] Unpacker_dll_start);
   ("Unpacker_js", setting unpacker_options Unpacker_js_start);
   ("Unpacker_ps1", setting unpacker_options Unpacker_ps1_start);
   ("Unpacker_regsvr", setting unpacker_options Unpacker_regsvr_start);
   ("Unpacker_zip", setting unpacker_options Unpacker_zip_start);
   ("applet", plain applet_start); ("chm", plain chm_start); ("chrome", plain chrome_start); ("cpl", plain cpl_start); ("dll", plain dll_start);
   ("doc", plain doc_start); ("doc2016", plain doc2016_start); ("eml", plain eml_start); ("exe", plain exe_start);
   ("firefox", plain firefox_start); ("generic", plain generic_start); ("hta", plain hta_start); ("html", plain html_start);
   ("hwp", plain hwp_start); ("ichitaro", plain ichitaro_start); ("ie", plain ie_start); ("inp", plain inp_start); ("jar", plain jar_start);
   ("js", plain js_start); ("js_antivm", plain js_antivm_start); ("lnk", plain lnk_start); ("mht", plain mht_start);
   ("msbuild", plain msbuild_start); ("msg", plain msg_start); ("msi", plain msi_start); ("nsis", plain nsis_start);
   ("ollydbg", plain ollydbg_start); ("pdf", setting [("pdf", "1")] pdf_start); ("ppt", plain ppt_start); ("ppt2016", plain ppt2016_start);
   ("processes", plain processes_start); ("processes_simple", plain processes_simple_start); ("ps1", plain ps1_start);
   ("ps1_x64", plain ps1_x64_start); ("pub", plain pub_start); ("pub2016", plain pub2016_start); ("python", plain python_start);
   ("rar", plain rar_start); ("reg", plain reg_start); ("regsvr", plain regsvr_start); ("sct", plain sct_start); ("service", plain service_start);
   ("swf", plain swf_start); ("vawtrak", plain vawtrak_start); ("vbejse", plain vbejse_start); ("vbs", plain vbs_start); ("wsf", plain wsf_start);
   ("xls", plain xls_start); ("xls2016", plain xls2016_start); ("xlst", plain xlst_start); ("xps", plain xps_start); ("zip", plain zip_start)].
Fixpoint find_package (name : string) (l : list (string * package)) : option package :=
  match l with [] => None | (n, p) :: l' => if decide (name = n) then Some p else find_package name l' end.
End packages.

(** ** choose_package *)

Definition any_in (subs : list string) (s : string) : bool := existsb (fun x => str_contains x s) subs.
Definition bytes_in (sub : string) (l : bytes) : bool := contains_sub (B sub) l.
(** The texts one behind the other, in letters of any case. *)
Fixpoint after_sub (sub l : bytes) : option bytes :=
  if has_prefix sub l then Some (drop (length sub) l) else match l with [] => None | _ :: l' => after_sub sub l' end.
Fixpoint subs_in_order (subs : list bytes) (l : bytes) : bool :=
  match subs with [] => true | x :: subs' => match after_sub x l with Some l' => subs_in_order subs' l' | None => false end end.
Definition lower_bytes (l : bytes) : bytes := lower_ascii <$> l.
(** The beginning of a script element in one of three languages. *)
Definition script_tag_here (l : bytes) : bool :=
  if has_prefix (B "<script") l then
    let l1 := drop 7 l in
    let l2 := drop_ws l1 in
    bool_decide (length l2 < length l1)%nat &&
    existsb (fun lang => has_prefix (B ("language=" +:+ DQ +:+ lang +:+ "script" +:+ DQ)) l2) ["j"; "vb"; "perl"]
  else false.
Fixpoint script_tag (l : bytes) : bool := script_tag_here l || match l with [] => false | _ :: l' => script_tag l' end.
(** Dim and white space. *)
Fixpoint dim_found (l : bytes) : bool :=
  has_prefix (B "dim") l && match drop 3 l with c :: _ => is_ws c | [] => false end || match l with [] => false | _ :: l' => dim_found l' end.
Definition split_comma (s : string) : list string := split_on ","%char s.

Definition word_types : list string :=
  ["Rich Text Format"; "Microsoft Word"; "Microsoft Office Word"; "Microsoft OOXML"; "MIME entity"].
Definition word_exts : list string :=
  [".doc"; ".dot"; ".docx"; ".dotx"; ".docm"; ".dotm"; ".docb"; ".rtf"; ".mht"; ".mso"; ".wbk"; ".wiz"].
Definition excel_exts : list string :=
  [".xls"; ".xlt"; ".xlm"; ".xlsx"; ".xltx"; ".xlsm"; ".xltm"; ".xlsb"; ".xla"; ".xlam"; ".xll"; ".xlw"; ".slk"; ".csv"].
Definition ppt_exts : list string :=
  [".ppt"; ".ppa"; ".pot"; ".pps"; ".pptx"; ".pptm"; ".potx"; ".potm"; ".ppam"; ".ppsx"; ".ppsm"; ".sldx"; ".sldm"].
Definition mail_types : list string :=
  ["RFC 822 mail"; "old news"; "mail forwarding"; "smtp mail"; "news"; "news or mail"; "saved news"; "MIME entity"; "vCalendar calendar"].

(** The rules in their order: the first that holds decides. *)
Definition package_rules (file_type file_name : string) (exports : option string) (content : bytes) : list (bool * string) :=
  let t x := str_contains x file_type in
  let n l := ends_any l file_name in
  let low := lower_bytes content in
  [(t "Nullsoft Installer", "nsis");
   (t "DLL" && n [".cpl"], "cpl");
   (t "DLL" && n [".xll"], "xls");
   (t "DLL" && truthy exports && bool_decide ("DllRegisterServer" ∈ split_comma (default "" exports)), "regsvr");
   (t "DLL", "dll");
   (t "PE32" || t "MS-DOS", "exe");
   (n [".msi"; ".msp"; ".appx"] || t "MSI Installer", "msi");
   (n [".pub"], "pub");
   (any_in word_types file_type || n word_exts, "doc");
   (t "Microsoft Office Excel" || t "Microsoft Excel" || n excel_exts, "xls");
   (t "PowerPoint" || n ppt_exts, "ppt");
   (t "Java Jar" || t "Java archive" || n [".jar"], "jar");
   (t "Zip", "zip");
   (t "RAR archive" || n [".rar"], "rar");
   (t "Macromedia Flash" || n [".swf"; ".fws"], "swf");
   (n [".py"; ".pyc"] || t "Python script", "python");
   (n [".ps1"], "ps1");
   (n [".msg"; ".rpmsg"] || t "rpmsg Restricted Permission Message", "msg");
   (n [".eml"; ".ics"] || any_in mail_types file_type, "eml");
   (n [".js"; ".jse"], "js");
   (n [".htm"; ".html"], "html");
   (n [".hta"], "hta");
   (n [".xps"], "xps");
   (t "HTML", "html");
   (n [".mht"], "mht");
   (n [".url"] || t "MS Windows 95 Internet shortcut" || t "Windows URL shortcut", "html");
   (bytes_in "mso-application" content && bytes_in "Word.Document" content, "doc");
   (n [".lnk"] || t "MS Windows shortcut", "lnk");
   (n [".chm"] || t "MS Windows HtmlHelp Data", "chm");
   (n [".hwp"; ".hwpx"; ".hwt"; ".hml"] || t "Hangul (Korean) Word Processor File", "hwp");
   (n [".inp"; ".int"] || bytes_in "InPage Arabic Document" content, "inp");
   (n [".xsl"; ".xslt"] || t "XSL stylesheet", "xslt");
   (n [".sct"] && subs_in_order [B "<?xml"; B "<scriptlet"; B "<registration"] low, "sct");
   (n [".sct"], "hta");
   (n [".wsf"] || bool_decide (file_type = "XML document text"), "wsf");
   (t "PDF" || n [".pdf"], "pdf");
   (script_tag low, "wsf");
   (n [".vbs"; ".vbe"] || dim_found low, "vbs");
   (bytes_in "Set-StrictMode" (take 100 content), "ps1");
   (n [".csproj"; ".vbproj"; ".vcxproj"; ".dbproj"; "fsproj"] || bytes_in "msbuild" content, "msbuild");
   (n [".jtd"; ".jtdc"; ".jttc"; ".jtt"], "ichitaro");
   (n [".reg"], "reg")].
Fixpoint first_rule (l : list (bool * string)) : string :=
  match l with [] => "generic" | (b, p) :: l' => if b : bool then p else first_rule l' end.
Definition choose_package (file_type file_name : string) (exports : option string) (target : res bytes) : res (option string) :=
  if bool_decide (file_type = "") then Ok None
  else let! content := target in Ok (Some (first_rule (package_rules file_type (lower file_name) exports content))).

(** ** The monitor is injected before a process runs *)

Create HintDb pkg.
#[export] Hint Unfold Shellcode_Unpacker_start Shellcode_start Shellcode_x64_start shellcode_start UPX_start UPX_dll_start Unpacker_start Unpacker_dll_start
  plain_dll_start Unpacker_js_start Unpacker_ps1_start Unpacker_regsvr_start Unpacker_zip_start applet_start chm_start chrome_start cpl_start dll_start
  doc_start doc2016_start eml_start exe_start firefox_start generic_start hta_start html_start hwp_start ichitaro_start ie_start inp_start
  jar_start js_start js_antivm_start lnk_start mht_start msbuild_start msg_start msi_start nsis_start ollydbg_start pdf_start ppt_start
  ppt2016_start processes_start processes_simple_start ps1_start ps1_x64_start pub_start pub2016_start python_start rar_start reg_start
  regsvr_start sct_start swf_start vawtrak_start vbejse_start vbs_start wsf_start xls_start xls2016_start xlst_start xps_start zip_start
  open_with open_glob open_with_ext open_glob_ext ext_open_glob Unpacker_zip_extract Zip_extract zip_infos : starts.
(** Reduces [within R m] to single events. *)
Ltac pkg_step :=
  first [ assumption
        | lazymatch goal with
          | |- within _ (sbind _ _) => apply within_bind; [typeclasses eauto| |intros]
          | |- within _ (scatch _ _) => apply within_catch; [typeclasses eauto| |intros]
          | |- within _ (sfinally _ _) => apply within_finally; [typeclasses eauto| |]
          | |- within _ (sret _) => apply within_ret; typeclasses eauto
          | |- within _ (sraise _) => apply within_raise; typeclasses eauto
          | |- within _ (slift _) => apply within_lift; typeclasses eauto
          | |- within _ (match ?x with _ => _ end) => destruct x eqn:?
          end
        | match goal with Hm : (match ?x with _ => _ end) = Some ?k |- within _ ?k => destruct x; [injection Hm as <-|] || injection Hm as <- end
        | match goal with Hm : Some _ = Some ?k |- within _ ?k => injection Hm as <- end
        | match goal with Hm : None = Some ?k |- _ => discriminate Hm end
        | solve [eauto 2 with pkg nocore] ].
Ltac pkg_tac := repeat pkg_step.

Section injection.
Context `{winapi} `{guest_files} (cfg : pkg_config).

Definition no_resume (e : wevent) : Prop := match e with EResume _ => False | _ => True end.
(** Nothing is started, and nothing resumed. *)
Definition quiet (e : wevent) : Prop := match e with ECreate _ _ _ | EResume _ => False | _ => True end.
Definition grows (P : wevent -> Prop) (w w' : winst) : Prop := exists ext, trace w' = trace w ++ ext /\ Forall P ext.
#[local] Instance grows_pre P : PreOrder (grows P).
Proof.
  split; [intros w; exists []; by rewrite app_nil_r|]. intros w1 w2 w3 (e1 & E1 & F1) (e2 & E2 & F2).
  exists (e1 ++ e2). rewrite E2, E1, app_assoc. split; [done|by apply Forall_app].
Qed.

(** What [is_64bit] says about a process with this handle. *)
Definition runs_64 (t : wtrace) (hp : Z) : bool := match wow64 t (Some hp) with Some false => os_64 (pk_win cfg) | _ => false end.
(** The loader for the width was run to put its monitor into the first thread
    of the process, or the kernel watches the process. *)
Definition watched (pid tid : Z) (is64 : bool) (e : wevent) : Prop :=
  match e with
  | ERun argv => argv = [loader_of (pk_win cfg) is64; "inject"; str_int pid; str_int tid; monitor_of (pk_win cfg) is64; str_int INJECT_QUEUEUSERAPC]
  | EKernelAnalyze p => p = pid
  | _ => False
  end.
(** After [t] the loader or the monitor for the width is gone. *)
Definition tool_lost (t : wtrace) (is64 : bool) : Prop :=
  exists_path t (loader_of (pk_win cfg) is64) = false \/ exists_path t (monitor_of (pk_win cfg) is64) = false.
Definition followed (t : wtrace) (pid hp tid : Z) (mid : wtrace) : Prop := exists m1 m2, mid = m1 ++ m2 /\
  (Exists (watched pid tid (runs_64 (t ++ m1) hp)) m2 \/ tool_lost (t ++ m1) (runs_64 (t ++ m1) hp)).
(** Every thread that is resumed is the first one of a process that was created
    suspended, and since then the process is watched, or a tool was found lost. *)
Definition injected (t : wtrace) : Prop := forall t1 h t2, t = t1 ++ EResume h :: t2 ->
  exists t0 path args pid hp tid th mid, let c := ECreate path args (CREATE_NEW_CONSOLE + CREATE_SUSPENDED) in
    t1 = t0 ++ c :: mid /\ create_process t0 path args (CREATE_NEW_CONSOLE + CREATE_SUSPENDED) = Some (pid, hp, tid, th) /\ h = Some th /\
    followed (t0 ++ [c]) pid hp tid mid.
(** A process is created suspended; without, only if the task has the option
    [free], or it is a calculator. *)
Definition start_ok (free : bool) (e : wevent) : Prop :=
  match e with
  | ECreate path _ flags => flags = CREATE_NEW_CONSOLE + CREATE_SUSPENDED \/ flags = CREATE_NEW_CONSOLE /\ (free = true \/ path = CALC)
  | _ => True
  end.
Definition free_of (w : winst) : bool := opt_true "free" (w_options w).
Definition keeps_injected (w w' : winst) : Prop := injected (trace w) -> injected (trace w').
#[local] Instance keeps_injected_pre : PreOrder keeps_injected.
Proof. unfold keeps_injected. split; intros ?; intros; auto. Qed.
(** What a start adds to the history; the option may be left changed. *)
Definition adds (w w' : winst) : Prop := grows (start_ok (free_of w)) w w' /\ keeps_injected w w'.
Definition keeps (w w' : winst) : Prop := adds w w' /\ free_of w' = free_of w.
#[local] Instance keeps_pre : PreOrder keeps.
Proof.
  split; [intros w; by repeat split|]. intros w1 w2 w3 [[G1 K1] F1] [[G2 K2] F2]. rewrite F1 in *.
  repeat split; [by etrans..|done].
Qed.

(** Something was copied to a name, and the copy succeeded. *)
Definition copied (t : wtrace) (dst : string) : Prop := exists t1 src t2, t = t1 ++ ECopy src dst :: t2 /\ copy_res t1 src dst = Ok tt.
Definition tool_names : list string :=
  [CAPEMON32_NAME (pk_win cfg); CAPEMON64_NAME (pk_win cfg); LOADER32_NAME (pk_win cfg); LOADER64_NAME (pk_win cfg)].
(** Loaders and monitors are where the analyzer looks for them. *)
Definition tools_copied (t : wtrace) : Prop := Forall (copied t) tool_names.
Lemma copied_later t t' dst : t `prefix_of` t' -> copied t dst -> copied t' dst.
Proof. intros [ext ->] (t1 & src & t2 & -> & Hc). exists t1, src, (t2 ++ ext). by rewrite <- app_assoc. Qed.
Lemma tools_later t t' : t `prefix_of` t' -> tools_copied t -> tools_copied t'.
Proof. intros Hp Ht. eapply Forall_impl; [exact Ht|]. intros dst. by apply copied_later. Qed.

(** A process that was created has an identifier and a handle. *)
Class guest_laws := {
  created_real : forall t p a f pid hp tid th, create_process t p a f = Some (pid, hp, tid, th) -> pid <> 0 /\ hp <> 0 }.

Lemma split_no_resume (t1 t2 ext t : wtrace) h : t ++ ext = t1 ++ EResume h :: t2 -> Forall no_resume ext -> exists t3, t = t1 ++ EResume h :: t3.
Proof.
  revert t1. induction t as [|e t IH]; intros t1 E Hf; cbn in E.
  - subst ext. apply Forall_app in Hf as [_ Hf]. by apply Forall_cons in Hf as [? _].
  - destruct t1 as [|e1 t1]; cbn in E; injection E as -> E; [by exists t|]. destruct (IH t1 E Hf) as [t3 ->]. by exists t3.
Qed.
Lemma grows_keeps w w' : grows no_resume w w' -> keeps_injected w w'.
Proof.
  intros (ext & E & Hf) Hi t1 h t2 Ht. rewrite E in Ht. destruct (split_no_resume _ _ _ _ _ Ht Hf) as [t3 E3]. exact (Hi t1 h t3 E3).
Qed.
Lemma grows_prefix P w w' : grows P w w' -> trace w `prefix_of` trace w'.
Proof. intros (ext & E & _). by exists ext. Qed.
Lemma grows_impl P Q w w' : (forall e, P e -> Q e) -> grows P w w' -> grows Q w w'.
Proof. intros HPQ (ext & E & Hf). exists ext. split; [done|]. by eapply Forall_impl. Qed.

(** Steps that start and resume nothing, and leave the option alone. *)
Definition still (w w' : winst) : Prop := grows quiet w w' /\ free_of w' = free_of w.
#[local] Instance still_pre : PreOrder still.
Proof. split; [intros w; by split|]. intros w1 w2 w3 [G1 F1] [G2 F2]. split; [by etrans|congruence]. Qed.
Lemma still_keeps w w' : still w w' -> keeps w w'.
Proof.
  intros [Hg Hf]. repeat split; [| |done].
  - eapply grows_impl; [|exact Hg]. by intros [].
  - apply grows_keeps. eapply grows_impl; [|exact Hg]. by intros [].
Qed.
Lemma within_still_keeps {A} (m : st winst A) : within still m -> within keeps m.
Proof. intros Hm w. apply still_keeps, Hm. Qed.
Lemma keeps_adds {A} (m : st winst A) : within keeps m -> within adds m.
Proof. intros Hm w. apply Hm. Qed.
Lemma adds_bind {A B} (m : st winst A) (f : A -> st winst B) : within keeps m -> (forall a, within adds (f a)) -> within adds (sbind m f).
Proof.
  intros Hm Hf w. specialize (Hm w). unfold sbind. destruct (m w) as [[a|e] w1]; cbn in *; [|apply Hm].
  destruct Hm as [[G1 K1] F1]. destruct (Hf a w1) as [G2 K2]. rewrite F1 in G2. split; [by etrans|by transitivity w1].
Qed.

Lemma still_ask {A} e (f : wtrace -> res A) : quiet e -> within still (ask e f).
Proof. intros He w. split; [|done]. exists [e]. split; [done|]. by constructor. Qed.
Lemma still_same {A} (m : st winst A) : (forall w, trace (m w).2 = trace w /\ w_options (m w).2 = w_options w) -> within still m.
Proof. intros Hm w. destruct (Hm w) as [Ht Ho]. split; [exists []; by rewrite Ht, app_nil_r|]. unfold free_of. by rewrite Ho. Qed.
Lemma grows_ask P {A} e (f : wtrace -> res A) : P e -> within (grows P) (ask e f).
Proof. intros He w. exists [e]. split; [done|]. by constructor. Qed.
Lemma grows_same P {A} (m : st winst A) : (forall w, trace (m w).2 = trace w) -> within (grows P) m.
Proof. intros Hm w. exists []. by rewrite Hm, app_nil_r. Qed.
Hint Extern 1 (within still (ask _ _)) => apply still_ask; exact I : pkg.
Hint Extern 1 (within still (emit _)) => apply still_ask; exact I : pkg.
Hint Extern 2 (within still _) => apply still_same; intros; split; reflexivity : pkg.
Hint Extern 1 (within (grows _) (ask _ _)) => apply grows_ask; exact I : pkg.
Hint Extern 1 (within (grows _) (emit _)) => apply grows_ask; exact I : pkg.
Hint Extern 2 (within (grows _) _) => apply grows_same; intros; reflexivity : pkg.

Lemma within_open p : within still (Process_open (pk_win cfg) p).
Proof. unfold Process_open. pkg_tac. Qed.
Hint Resolve within_open : pkg.
Lemma within_opened p : within still (opened (pk_win cfg) p).
Proof. unfold opened. pkg_tac. Qed.
Lemma within_opened_if_zero p : within still (opened_if_zero (pk_win cfg) p).
Proof. unfold opened_if_zero. pkg_tac. Qed.
Hint Resolve within_opened within_opened_if_zero : pkg.
Lemma within_close p : within still (Process_close p).
Proof. unfold Process_close, close_handle. pkg_tac. Qed.
Lemma within_is_64bit p : within still (is_64bit (pk_win cfg) p).
Proof. unfold is_64bit. pkg_tac. Qed.
Lemma within_get_filepath p : within still (get_filepath (pk_win cfg) p).
Proof. unfold get_filepath. pkg_tac. Qed.
Hint Resolve within_close within_is_64bit within_get_filepath : pkg.
Lemma within_write_config pid opts interest b : within still (write_monitor_config (pk_win cfg) pid opts interest b).
Proof. unfold write_monitor_config. pkg_tac. Qed.
Hint Resolve within_write_config : pkg.
Lemma within_inject opts interest b p : within still (Process_inject (pk_win cfg) opts interest b p).
Proof. unfold Process_inject. pkg_tac. Qed.
Hint Resolve within_inject : pkg.
(** The process that is created has the path and the flags that are asked for. *)
Definition starts_only (path : string) (flags : Z) (e : wevent) : Prop :=
  match e with ECreate p _ f => p = path /\ f = flags | EResume _ => False | _ => True end.
Lemma within_process_execute path args (s k : bool) p :
  within (fun w w' : winst => grows (starts_only path (CREATE_NEW_CONSOLE + (if s then CREATE_SUSPENDED else 0))) w w' /\ w_options w' = w_options w)
    (Process_execute path args s k p).
Proof.
  intros w. destruct (Process_execute path args s k p w) as [r w'] eqn:E. cbn [snd]. revert E.
  unfold Process_execute. unfold sbind at 1, look at 1. destruct (x_ok _ _); cbn [negb].
  2: { intros [= _ <-]. split; [exists []; split; [by rewrite app_nil_r|done]|done]. }
  unfold sbind at 1, ask at 1. destruct (create_process _ _ _ _) as [[[[pid hp] tid] th]|].
  2: { intros [= _ <-]. split; [|done]. eexists. split; [reflexivity|]. by repeat constructor. }
  destruct k; intros [= _ <-]; (split; [|done]); eexists; cbn; rewrite <- ?app_assoc; (split; [reflexivity|]); by repeat constructor.
Qed.

Context {Hlaws : guest_laws}.
Lemma is_64bit_open p hp w : p_h_process p = Some hp -> hp <> 0 -> is_64bit (pk_win cfg) p w = (Ok (runs_64 (trace w) hp, p), w).
Proof.
  intros Hh Hne. unfold is_64bit, opened_if_zero. rewrite bool_decide_eq_false_2 by congruence. unfold sbind, look, sret, runs_64. cbn.
  by rewrite Hh.
Qed.
(** The loader was run, or a tool is not there. *)
Lemma inject_runs opts interest b p hp w r w' : p_pid p <> 0 -> p_h_process p = Some hp -> hp <> 0 -> p_suspended p = true ->
  Process_inject (pk_win cfg) opts interest b p w = (Ok r, w') -> r.2 = p /\ exists ext, trace w' = trace w ++ ext /\ 
    (Exists (watched (p_pid p) (p_thread_id p) (runs_64 (trace w) hp)) ext \/ tool_lost (trace w) (runs_64 (trace w) hp)).
Proof.
  intros Hpid Hh Hne Hs. unfold Process_inject. rewrite (proj2 (Z.eqb_neq _ _) Hpid), (sbind_ok _ _ _ _ _ (is_64bit_open p hp w Hh Hne)).
  cbn [fst snd]. set (b64 := runs_64 _ _). unfold sbind at 1, look at 1. destruct (exists_path _ (loader_of _ b64)) eqn:Hl; cbn [negb].
  2: { intros [= <- <-]. split; [done|]. exists []. rewrite app_nil_r. split; [done|]. right. by left. }
  unfold sbind at 1, look at 1. destruct (exists_path _ (monitor_of _ b64)) eqn:Hm; cbn [negb].
  2: { intros [= <- <-]. split; [done|]. exists []. rewrite app_nil_r. split; [done|]. right. by right. }
  intros E. unfold sbind at 1 in E. destruct (write_monitor_config _ _ _ _ _ w) as [[[]|e] w1] eqn:Ew; [|done].
  destruct (within_write_config (p_pid p) opts interest b w) as [(ext & Ht & Hf) _]. rewrite Ew in Ht. cbn in Ht.
  assert (r.2 = p /\ trace w' = trace w1 ++ [ERun (inject_argv (loader_of (pk_win cfg) b64) (monitor_of (pk_win cfg) b64) p)]) as [Hr Ht'].
  { revert E. unfold scatch, sbind, ask. destruct (run_program _ _); cbn; intros [= <- <-]; done. }
  split; [done|]. eexists (ext ++ _). rewrite Ht', Ht, <- app_assoc. split; [done|]. left.
  apply Exists_app. right. constructor. unfold inject_argv. by rewrite Hs, orb_true_r.
Qed.
Lemma process_execute_ok path args k p w p' w' : Process_execute path args true k p w = (Ok (true, p'), w') ->
  exists cmdline hp th mid, trace w' = trace w ++ ECreate path cmdline (CREATE_NEW_CONSOLE + CREATE_SUSPENDED) :: mid /\
    create_process (trace w) path cmdline (CREATE_NEW_CONSOLE + CREATE_SUSPENDED) = Some (p_pid p', hp, p_thread_id p', th) /\
    p_h_process p' = Some hp /\ p_h_thread p' = Some th /\ p_suspended p' = true /\ mid = if k then [EKernelAnalyze (p_pid p')] else [].
Proof.
  unfold Process_execute. unfold sbind at 1, look at 1. destruct (x_ok _ _); cbn [negb]; [|done].
  unfold sbind at 1, ask at 1. set (cmd := quoted path +:+ _). intros E. exists cmd.
  destruct (create_process (trace w) path cmd _) as [[[[pid hp] tid] th]|] eqn:Ec; [|done].
  exists hp, th, (if k then [EKernelAnalyze pid] else []).
  destruct k; unfold sbind, ask, sret in E; cbn in E; [destruct (kernel_analyze _ _); [|done]|]; injection E as <- <-; cbn;
    rewrite <- ?app_assoc; done.
Qed.
Lemma resume_inv p w r w' : Process_resume p w = (r, w') ->
  still w w' \/ trace w' = trace w ++ [ESleep 2000; EResume (p_h_thread p)] /\ w_options w' = w_options w.
Proof.
  unfold Process_resume. destruct (p_suspended p); cbn [negb]; [|intros [= _ <-]; left; reflexivity].
  destruct (negb _); [intros [= _ <-]; left; reflexivity|].
  unfold emit, sbind, ask. destruct (negb _); intros [= _ <-]; right; cbn; by rewrite <- app_assoc.
Qed.

Lemma injected_resume t0 path cmdline pid hp tid th mid : let c := ECreate path cmdline (CREATE_NEW_CONSOLE + CREATE_SUSPENDED) in
  injected (t0 ++ c :: mid) ->
  create_process t0 path cmdline (CREATE_NEW_CONSOLE + CREATE_SUSPENDED) = Some (pid, hp, tid, th) -> followed (t0 ++ [c]) pid hp tid mid ->
  injected ((t0 ++ c :: mid) ++ [ESleep 2000; EResume (Some th)]).
Proof.
  intros c. set (t := t0 ++ _). intros Hi Hc (m1 & m2 & Em & Hw) t1 h t2 E.
  destruct (decide (t2 = [])) as [->|Hne].
  - replace (t ++ [ESleep 2000; EResume (Some th)]) with ((t ++ [ESleep 2000]) ++ [EResume (Some th)]) in E by by rewrite <- app_assoc.
    apply app_inj_tail in E as [<- [= <-]]. unfold t. do 7 eexists. exists (mid ++ [ESleep 2000]). cbv zeta. rewrite <- app_assoc.
    split; [done|]. split; [done|]. split; [done|]. exists m1, (m2 ++ [ESleep 2000]). split; [by rewrite Em, <- app_assoc|].
    destruct Hw as [Hw|Hw]; [left; apply Exists_app; by left|by right].
  - destruct (exists_last Hne) as (t3 & e & ->). change (t ++ [ESleep 2000; EResume (Some th)]) with (t ++ [ESleep 2000] ++ [EResume (Some th)]) in E.
    rewrite app_assoc, app_comm_cons, app_assoc in E. apply app_inj_tail in E as [E _].
    destruct (split_no_resume _ _ _ _ _ E) as [t4 E4]; [by repeat constructor|]. exact (Hi t1 h t4 E4).
Qed.

(** The rest of a start that is not free: the thread is resumed after the
    process was followed. *)
Definition follow (kernel : bool) (interest : string) (p : process) : st winst process :=
  if kernel then sret p else let* w := sget in let* i := Process_inject (pk_win cfg) (w_options w) (Some interest) false p in sret i.2.
Definition start_end (kernel : bool) (interest : string) (p : process) : st winst (option Z) :=
  let* p := follow kernel interest p in
  let* p := Process_resume p in let* p := Process_close p.2 in sret (Some (p_pid p.2)).
Lemma end_followed (k : bool) interest p t0 path cmd hp w w1 r : let c := ECreate path cmd (CREATE_NEW_CONSOLE + CREATE_SUSPENDED) in
  trace w = t0 ++ c :: (if k then [EKernelAnalyze (p_pid p)] else []) -> p_pid p <> 0 -> p_h_process p = Some hp -> hp <> 0 -> p_suspended p = true ->
  follow k interest p w = (Ok r, w1) ->
  r = p /\ exists mid, trace w1 = t0 ++ c :: mid /\ followed (t0 ++ [c]) (p_pid p) hp (p_thread_id p) mid.
Proof.
  intros c Ht Hpid Hh Hne Hs. unfold follow. destruct k.
  - intros [= <- <-]. split; [done|]. eexists. split; [exact Ht|]. exists [], [EKernelAnalyze (p_pid p)]. split; [done|]. left. by constructor.
  - unfold sbind, sget. destruct (Process_inject _ _ _ _ _ w) as [[i|e] w2] eqn:Ei; [|done]. intros [= <- <-].
    destruct (inject_runs _ _ _ _ hp _ _ _ Hpid Hh Hne Hs Ei) as (Hp & ext & He & Hw). split; [done|]. exists ext.
    rewrite He, Ht, <- app_assoc. split; [done|]. exists [], ext. rewrite app_nil_r. rewrite Ht in Hw. by split.
Qed.
Lemma end_injects k interest p t0 path cmd hp th w : let c := ECreate path cmd (CREATE_NEW_CONSOLE + CREATE_SUSPENDED) in
  trace w = t0 ++ c :: (if k : bool then [EKernelAnalyze (p_pid p)] else []) ->
  create_process t0 path cmd (CREATE_NEW_CONSOLE + CREATE_SUSPENDED) = Some (p_pid p, hp, p_thread_id p, th) ->
  p_h_process p = Some hp -> p_h_thread p = Some th -> p_suspended p = true -> keeps w (start_end k interest p w).2.
Proof using Hlaws.
  intros c Ht Hc Hh Hth Hs. destruct (created_real _ _ _ _ _ _ _ _ Hc) as [Hpid Hne]. unfold start_end. unfold sbind at 1.
  destruct (follow k interest p w) as [r w1] eqn:Em.
  assert (still w w1) as H1.
  { change w1 with (r, w1).2. rewrite <- Em. refine ((_ : within still _) w). unfold follow. pkg_tac. }
  destruct r as [p1|e]; [|by apply still_keeps].
  destruct (end_followed k interest p t0 path cmd hp w w1 p1 Ht Hpid Hh Hne Hs Em) as (-> & mid & Ht1 & Hf).
  unfold sbind at 1. destruct (Process_resume p w1) as [r w2] eqn:Er.
  assert (keeps w w2) as H2.
  { destruct (resume_inv _ _ _ _ Er) as [Hr|[Hr Ho]]; [apply still_keeps; by etrans|]. rewrite Hth in Hr.
    transitivity w1; [by apply still_keeps|]. repeat split; [| |unfold free_of; by rewrite Ho].
    - eexists. split; [exact Hr|]. by repeat constructor.
    - intros Hi. rewrite Hr, Ht1. rewrite Ht1 in Hi. by eapply injected_resume. }
  destruct r as [q|e]; [|exact H2]. transitivity w2; [exact H2|]. apply still_keeps. refine ((_ : within still _) w2). pkg_tac.
Qed.
Lemma execute_eq path args interest w : let free := free_of w in let k := opt_true "kernel_analysis" (w_options w) in
  execute cfg path args interest w =
    (let* r := Process_execute path args (negb free) k (Process_init 0 0 false) in
     if negb r.1 then sraise CuckooPackageError else if free then sret None else start_end k interest r.2) w.
Proof. done. Qed.
Lemma execute_keeps path args interest : within keeps (execute cfg path args interest).
Proof using Hlaws.
  intros w. rewrite execute_eq. cbv zeta. set (free := free_of w). set (k := opt_true "kernel_analysis" _). unfold sbind at 1.
  destruct (Process_execute _ _ _ _ _ w) as [r w1] eqn:Ee.
  assert (keeps w w1) as H1.
  { pose proof (within_process_execute path args (negb free) k (Process_init 0 0 false) w) as [Hg Ho]. rewrite Ee in Hg, Ho. cbn in Hg, Ho.
    repeat split; [| |unfold free_of; by rewrite Ho].
    - eapply grows_impl; [|exact Hg]. intros []; cbn; try done. intros [-> ->]. fold free. destruct free; [right; by split; [|left]|by left].
    - apply grows_keeps. eapply grows_impl; [|exact Hg]. by intros []. }
  destruct r as [[b p]|e]; [|exact H1]. cbn [fst snd]. destruct b; cbn [negb]; [|exact H1]. destruct free; [exact H1|]. cbn [negb] in Ee.
  destruct (process_execute_ok _ _ _ _ _ _ _ Ee) as (cmd & hp & th & mid & Ht & Hc & Hhp & Hth & Hs & ->).
  transitivity w1; [exact H1|]. by eapply end_injects.
Qed.
(** A calculator that is not watched. *)
Lemma execute_free path args interest w : free_of w = true ->
  grows (starts_only path CREATE_NEW_CONSOLE) w (execute cfg path args interest w).2.
Proof using Type.
  intros Hf. rewrite execute_eq. cbv zeta. rewrite Hf. set (k := opt_true "kernel_analysis" _). unfold sbind at 1.
  pose proof (within_process_execute path args false k (Process_init 0 0 false) w) as [Hg _]. cbn [negb].
  destruct (Process_execute _ _ _ _ _ w) as [[[b p]|e] w1]; cbn in Hg; [|exact Hg]. by destruct b.
Qed.
End injection.

(** ** Every package *)

Section every_package.
Context `{winapi} `{guest_files} (cfg : pkg_config) {Hlaws : guest_laws}.
Abbreviation R := (keeps cfg).
#[local] Instance all_keeps_pre : PreOrder R := keeps_pre cfg.

Lemma keeps_ask {A} e (f : wtrace -> res A) : quiet e -> within R (ask e f).
Proof. intros He. by apply within_still_keeps, still_ask. Qed.
Lemma keeps_same {A} (m : st winst A) : (forall w, trace (m w).2 = trace w /\ w_options (m w).2 = w_options w) -> within R m.
Proof. intros Hm. by apply within_still_keeps, still_same. Qed.
Hint Extern 1 (within R (ask _ _)) => apply keeps_ask; exact I : pkg.
Hint Extern 1 (within R (emit _)) => apply keeps_ask; exact I : pkg.
Hint Extern 1 (within R (execute _ _ _ _)) => apply execute_keeps; exact Hlaws : pkg.
Hint Extern 2 (within R _) => apply keeps_same; intros; split; reflexivity : pkg.

Lemma keeps_rename a b : within R (os_rename a b).
Proof. unfold os_rename. pkg_tac. Qed.
Lemma keeps_copy a b : within R (shutil_copy a b).
Proof. unfold shutil_copy. pkg_tac. Qed.
Lemma keeps_move a b : within R (shutil_move a b).
Proof. unfold shutil_move. pkg_tac. Qed.
Lemma keeps_call l : within R (call l).
Proof. unfold call. pkg_tac. Qed.
Hint Resolve keeps_rename keeps_copy keeps_move keeps_call : pkg.
Lemma keeps_extension path ext : within R (check_file_extension path ext).
Proof. unfold check_file_extension. pkg_tac. Qed.
Lemma keeps_appdata path : within R (to_appdata path).
Proof. unfold to_appdata. pkg_tac. Qed.
Lemma keeps_loader r : within R (dll_loader r).
Proof. unfold dll_loader. pkg_tac. Qed.
Lemma keeps_renamed path ext : within R (renamed path ext).
Proof. unfold renamed. pkg_tac. Qed.
Lemma keeps_encoded path : within R (encoded_file path).
Proof. unfold encoded_file. pkg_tac. Qed.
Lemma keeps_html path c : within R (make_html path c).
Proof.
  intros w. unfold make_html. destruct (temp_file (trace w)) as [f|e]; [|reflexivity].
  apply still_keeps. split; [|done]. eexists. split; [reflexivity|]. by repeat constructor.
Qed.
Hint Resolve keeps_extension keeps_appdata keeps_loader keeps_renamed keeps_encoded keeps_html : pkg.
Lemma keeps_repeat n m : within R m -> within R (repeat_m n m).
Proof. intros Hm. induction n as [|n IH]; cbn [repeat_m]; pkg_tac. Qed.
Lemma keeps_each {A} (f : A -> st winst unit) l : (forall x, within R (f x)) -> within R (for_each f l).
Proof. intros Hf. induction l as [|x l IH]; cbn [for_each]; pkg_tac; apply Hf. Qed.
Lemma keeps_started path args i : within R (started cfg path args i).
Proof. unfold started. pkg_tac. Qed.
Hint Resolve keeps_repeat keeps_each keeps_started : pkg.
Lemma keeps_set_keys : within R set_keys.
Proof.
  intros w. unfold set_keys. destruct (office_keys (trace w)) as [keys|[]]; try reflexivity.
  refine ((_ : within R _) w). apply keeps_each. intros v. unfold set_value. pkg_tac.
Qed.
Lemma keeps_overwritten b path : within R (move_overwritten b path).
Proof. unfold move_overwritten. pkg_tac. Qed.
Lemma keeps_twice m1 m2 : within R m1 -> within R m2 -> within R (extract_twice m1 m2).
Proof. intros H1 H2. unfold extract_twice. pkg_tac. Qed.
Hint Resolve keeps_set_keys keeps_overwritten keeps_twice : pkg.
Lemma keeps_extract_nested levels : forall path dir pwd, within R (extract_nested levels path dir pwd).
Proof.
  induction levels as [|levels IH]; intros path dir pwd; cbn [extract_nested]; unfold zip_overwritten, extractall;
    pkg_tac; apply keeps_twice || apply keeps_each; intros; unfold nested; pkg_tac.
Qed.
Lemma keeps_rar calls : forall path dir pwd, within R (Rar_extract calls path dir pwd).
Proof.
  induction calls as [|calls IH]; intros path dir pwd; cbn [Rar_extract]; unfold rar_extractall; pkg_tac;
    apply keeps_twice || apply keeps_each; intros; pkg_tac.
Qed.
Hint Resolve keeps_extract_nested keeps_rar : pkg.
Lemma keeps_run_member P dlls path n f m : within R m -> within R (run_member cfg P dlls path n f m).
Proof. intros Hm. unfold run_member, run_dll. pkg_tac. Qed.
Hint Resolve keeps_run_member : pkg.
Lemma keeps_service path : within R (service_start cfg path).
Proof.
  unfold service_start, service_body, advapi. pkg_tac.
  all: apply within_still_keeps; first [apply within_get_filepath|apply within_inject|apply within_close].
Qed.

#[local] Instance all_grows_pre P : PreOrder (grows P) := grows_pre P.
#[local] Instance all_injected_pre : PreOrder (keeps_injected cfg) := keeps_injected_pre cfg.
(** While the option is set, nothing but calculators is started. *)
Definition calculating (w w' : winst) : Prop :=
  free_of w = true -> grows (starts_only CALC CREATE_NEW_CONSOLE) w w' /\ keeps_injected cfg w w' /\ free_of w' = true.
#[local] Instance calculating_pre : PreOrder calculating.
Proof.
  split; [intros w Hw; split_and!; [reflexivity..|done]|]. intros w1 w2 w3 H1 H2 Hf. destruct (H1 Hf) as (G1 & K1 & F1). destruct (H2 F1) as (G2 & K2 & F2).
  split_and!; [by etrans|by transitivity w2|done].
Qed.
Lemma repeat_calculating n path : within calculating (repeat_m n (do* execute cfg CALC (Some "") path in sret tt)).
Proof using Hlaws.
  assert (within calculating (do* execute cfg CALC (Some "") path in sret tt)) as Hm.
  { apply within_bind; [exact _| |intros _; by apply within_ret; exact _]. intros w Hf. destruct (execute_keeps cfg CALC (Some "") path w) as [[_ Hi] He].
    split_and!; [by apply execute_free|done|by rewrite He]. }
  induction n as [|n IH]; cbn [repeat_m]; [apply within_ret; exact _|]. apply within_bind; [exact _|exact Hm|]. by intros [].
Qed.
Lemma get_set k v d : opt_get k (opt_set k v d) = Some v.
Proof. induction d as [|[k' v'] d IH]; cbn; [by rewrite decide_True|]. destruct (decide (k = k')); cbn; [by rewrite decide_True|by rewrite decide_False]. Qed.
(** After the calculators the option is as before; when one does not start,
    it stays set, and nothing more is done. *)
Lemma calcs_then {A} n path (m : st winst A) : within R m -> within (adds cfg) (do* calcs cfg n path in m).
Proof using Hlaws.
  intros Hm w. unfold calcs, option_true, set_option. set (f := opt_true "free" (w_options w)).
  set (w0 := with_options (opt_set "free" (OInt 1)) w). unfold sbind, smodify. fold f w0.
  destruct (repeat_calculating n path w0) as (Hg & Hi & Hf).
  { unfold free_of, opt_true. by cbn [w_options w0 with_options]; rewrite get_set. }
  destruct (repeat_m n _ w0) as [r w1]. cbn [snd] in Hg, Hi, Hf.
  assert (adds cfg w w1) as H1.
  { split; [|exact Hi]. eapply grows_impl; [|exact Hg]. intros []; cbn; try done. intros [-> ->]. right. by split; [|right]. }
  destruct r as [[]|e]; [|exact H1].
  assert (exists w2, (if f then sret tt else smodify (with_options (opt_set "free" (OInt 0)))) w1 = (Ok tt, w2) /\ trace w2 = trace w1 /\ free_of w2 = f)
    as (w2 & E & Ht & Hf2).
  { destruct f; eexists; (split; [reflexivity|]); (split; [done|]); [done|]. unfold free_of, opt_true. cbn [w_options with_options]. by rewrite get_set. }
  unfold smodify in E. cbv beta iota. rewrite E. destruct (Hm w2) as [[G2 K2] _]. destruct H1 as [G1 K1].
  change (free_of w) with f in *. split.
  - change (free_of w) with f. rewrite Hf2 in G2. transitivity w1; [exact G1|]. unfold grows in *. by rewrite <- Ht.
  - transitivity w1; [exact K1|]. unfold keeps_injected in *. by rewrite <- Ht.
Qed.
Lemma js_adds path : within (adds cfg) (js_start cfg path).
Proof using Hlaws.
  unfold js_start. cbv zeta. apply adds_bind; [pkg_tac|intros wscript]. apply adds_bind; [pkg_tac|intros pe].
  destruct (bool_decide _); [apply calcs_then; pkg_tac|apply keeps_adds; pkg_tac].
Qed.
Lemma js_antivm_adds path : within (adds cfg) (js_antivm_start cfg path).
Proof using Hlaws. unfold js_antivm_start. apply calcs_then. pkg_tac. Qed.
Lemma all_packages_add : Forall (fun np : string * package => forall path, within (adds cfg) (pk_start np.2 path)) (package_table cfg).
Proof using Hlaws.
  unfold package_table. repeat apply Forall_cons_2; [..|apply Forall_nil_2]; cbn [snd]; intros path; cbn [pk_start plain setting].
  all: first [apply js_adds|apply js_antivm_adds|apply keeps_adds].
  all: try apply keeps_service.
  all: autounfold with starts; try solve [pkg_tac].
  all: pkg_tac; apply keeps_run_member; pkg_tac.
Qed.
(** No constructor touches the option. *)
Lemma set_all_free l d : "free" ∉ l.*1 -> opt_true "free" (set_all l d) = opt_true "free" d.
Proof.
  unfold set_all. revert d. induction l as [|[k v] l IH]; intros d Hn; [done|]. cbn in *. apply not_elem_of_cons in Hn as [Hk Hn].
  rewrite IH by done. unfold opt_true. f_equal. clear IH. induction d as [|[k' v'] d IH]; cbn.
  - by rewrite decide_False.
  - destruct (decide (k = k')) as [<-|]; cbn; [by rewrite !decide_False|]. by destruct (decide ("free" = k')).
Qed.
Lemma all_inits_free : Forall (fun np : string * package => forall d, opt_true "free" (pk_init np.2 d) = opt_true "free" d) (package_table cfg).
Proof using Type.
  unfold package_table. repeat apply Forall_cons_2; [..|apply Forall_nil_2]; cbn [snd]; intros d; cbn [pk_init plain setting]; try done.
  all: apply set_all_free; by apply (bool_decide_unpack _); vm_compute.
Qed.
Lemma find_package_in name p l : find_package name l = Some p -> (name, p) ∈ l.
Proof.
  induction l as [|[n q] l IH]; cbn; [done|]. destruct (decide (name = n)) as [->|]; [intros [= ->]; left|intros E; right; by apply IH].
Qed.

End every_package.

(** ** The package that is chosen *)

Section choice.
Context `{winapi} `{guest_files} (cfg : pkg_config).

Lemma first_rule_in l : first_rule l = "generic" \/ first_rule l ∈ l.*2.
Proof.
  induction l as [|[[] p] l IH]; cbn; [by left|right; left|]. destruct IH as [IH|IH]; [by left|right; by right].
Qed.
Definition package_names : list string := (package_table cfg).*1.
Lemma found_package name : name ∈ package_names -> is_Some (find_package name (package_table cfg)).
Proof.
  unfold package_names. induction (package_table cfg) as [|[n p] l IH]; cbn; [by intros ?%elem_of_nil|].
  intros [->|Hn]%elem_of_cons; [rewrite decide_True by done; by eexists|]. destruct (decide (name = n)); [by eexists|by apply IH].
Qed.

(** C32. The package that is chosen for a file exists, with one exception: for
    style sheets it is xslt, and the package is called xlst. *)
Theorem chosen_package_exists file_type file_name exports target name :
  choose_package file_type file_name exports target = Ok (Some name) ->
  if decide (name = "xslt") then find_package name (package_table cfg) = None else is_Some (find_package name (package_table cfg)).
Proof.
  unfold choose_package. destruct (bool_decide _); [done|]. destruct target as [content|]; [|done]. cbn [rbind]. intros E.
  assert (name = first_rule (package_rules file_type (lower file_name) exports content)) as Hname by congruence. clear E.
  destruct (decide _) as [->|Hne]; [done|]. apply found_package.
  destruct (first_rule_in (package_rules file_type (lower file_name) exports content)) as [Hg|Hin]; rewrite <- Hname in *.
  { rewrite Hg. by apply (bool_decide_unpack _); vm_compute. }
  assert (Forall (fun n => n = "xslt" \/ n ∈ package_names) (package_rules file_type (lower file_name) exports content).*2) as Hall.
  { cbv [package_rules fmap list_fmap fst snd]. repeat (apply Forall_cons_2; [by apply (bool_decide_unpack _); vm_compute|]). apply Forall_nil_2. }
  rewrite Forall_forall in Hall. by destruct (Hall _ Hin).
Qed.
End choice.

(** ** A guest for the witnesses *)

(** Every call of it succeeds; processes have the identifiers 5, 6, 7, 8. *)
Definition toy_winapi : winapi :=
  {| x_ok := fun _ _ => true; exists_path := fun _ _ => true; create_process := fun _ _ _ _ => Some (5, 6, 7, 8);
     open_process := fun _ _ => 6; open_thread := fun _ _ => 8; close_status := fun _ _ => 0; resume_status := fun _ _ => 1;
     terminate_status := fun _ _ => true; exit_code_of := fun _ _ => 259; image_name := fun _ _ => (0, 0, []);
     break_on_termination := fun _ _ => (0, 0); parent_of := fun _ _ => (0, Some 4); wow64 := fun _ _ => Some true;
     run_program := fun _ _ => Ok 0; can_write := fun _ _ => Ok tt; log_server := fun _ _ => Ok tt; upload := fun _ _ _ => Ok tt;
     open_event := fun _ _ => 9; create_event := fun _ _ => 10; kernel_analyze := fun _ _ => true; decode_utf16 := text;
     url_random := fun _ => (1, "a", "b", "c") |}.
Definition toy_files : guest_files :=
  {| getenv := fun _ => Some "C:\x"; expandvars := id; isfile := fun _ _ => true; iglob := fun _ p => [p]; rename_res := fun _ _ _ => Ok tt;
     copy_res := fun _ _ _ => Ok tt; move_res := fun _ _ _ => Ok tt; read4 := fun _ _ => Ok "MZ"; temp_file := fun _ => Ok "t";
     open_zip := fun _ _ => Ok [("a.exe", false)]; extract_zip := fun _ _ _ _ => Ok tt; has_rarfile := true; open_rar := fun _ _ => Ok ["a.exe"];
     extract_rar := fun _ _ _ _ => Ok tt; office_keys := fun _ => Ok ["15.0"]; set_registry := fun _ _ _ => Ok tt;
     service_call := fun _ _ => Ok 1; recursion_limit := 10 |}.
Definition toy_cfg : pkg_config :=
  {| pk_win := {| cwd := "C:\a"; python_dir := "C:\p"; host_ip := "10.0.0.1"; host_port := 2042; PIPE := "pipe"; root_path := "C:\r"; memory_path := "C:\m";
       SHUTDOWN_MUTEX := "s"; TERMINATE_EVENT := "t"; LOGSERVER_PREFIX := "l"; CAPEMON32_NAME := "m32"; CAPEMON64_NAME := "m64"; LOADER32_NAME := "l32";
       LOADER64_NAME := "l64"; startup_time := 0; os_64 := true; own_pid := 3 |}; pk_file_type := None; services_pid := 2 |}.
Definition is_resume (e : wevent) : bool := match e with EResume _ => true | _ => false end.
Lemma chosen_package_exists_witness : is_Some (find_package "exe" (package_table (H:=toy_winapi) (H0:=toy_files) toy_cfg)).
Proof.
  exact (chosen_package_exists (H:=toy_winapi) (H0:=toy_files) toy_cfg "PE32 executable (GUI) Intel 80386" "A.EXE" None (Ok []) "exe" eq_refl).
Defined.
