(* ===== verification/GuestConfig.v ===== *)
(** The configuration of an analysis in the guest: class Config of
    analyzer/windows/lib/core/config.py, on what it uses of configparser, against
    the file the host writes (Guest.v, add_config of lib/cuckoo/core/guest.py). *)
From S2P Require Import Prelude Struct Pretty ProcessLog Agent Guest.
Open Scope string_scope.
Open Scope list_scope.
Open Scope Z_scope.

(** ** configparser: reading *)

(** Options by section in order of the file; the value of an option is its lines,
    or [None] without a delimiter. *)
Abbreviation cp_options := (list (string * option (list string))).
Record reader := { rd_secs : list (string * cp_options); rd_sect : option string; rd_opt : option string; rd_indent : nat; rd_bad : bool }.
Definition new_reader : reader := {| rd_secs := []; rd_sect := None; rd_opt := None; rd_indent := 0; rd_bad := false |}.

Definition CR : ascii := "013"%char.
(** The lines of a text file, each line end read as a line feed. *)
Fixpoint unix_lines (l : bytes) : bytes :=
  match l with
  | [] => []
  | c :: l' =>
      if bool_decide (c = CR) then NL :: match l' with d :: l'' => if bool_decide (d = NL) then unix_lines l'' else unix_lines l' | [] => [] end
      else c :: unix_lines l'
  end.
Definition file_lines (l : bytes) : list bytes := split_byte NL (unix_lines l).

Definition update_section (f : cp_options -> cp_options) (r : reader) : reader :=
  match rd_sect r with
  | None => r
  | Some s => {| rd_secs := dict_set s (f (default [] (dict_lookup s (rd_secs r)))) (rd_secs r);
                 rd_sect := rd_sect r; rd_opt := rd_opt r; rd_indent := rd_indent r; rd_bad := rd_bad r |}
  end.
(** The option that is being read, in its section. *)
Definition current_value (r : reader) : option (string * option (list string)) :=
  match rd_sect r, rd_opt r with
  | Some s, Some o => if bool_decide (o = "") then None else (fun v => (o, v)) <$> dict_lookup o (default [] (dict_lookup s (rd_secs r)))
  | _, _ => None
  end.
Definition append_line (o : string) (lines : list string) (x : string) (r : reader) : reader := update_section (dict_set o (Some (lines ++ [x]))) r.

Definition is_comment (l : bytes) : bool := match l with c :: _ => bool_decide (c = "#"%char \/ c = ";"%char) | [] => false end.
(** [\[(?P<header>.+)\]] at the beginning. *)
Definition section_header (value : bytes) : option bytes :=
  match value with
  | c :: l =>
      if bool_decide (c = "["%char) then
        match find_byte "]"%char (reverse l) with
        | Some i => let h := take (length l - S i) l in if bool_decide (h <> []) then Some h else None
        | None => None
        end
      else None
  | [] => None
  end.
Definition is_delimiter (c : ascii) : bool := bool_decide (c = "="%char \/ c = COLON).
Fixpoint split_delimiter (l : bytes) : bytes * option bytes :=
  match l with
  | [] => ([], None)
  | c :: l' => if is_delimiter c then ([], Some l') else let '(a, b) := split_delimiter l' in (c :: a, b)
  end.
Definition rstrip_ws (l : bytes) : bytes := reverse (drop_ws (reverse l)).
Definition DEFAULT : string := "DEFAULT".
Definition enter_section (name : string) (indent : nat) (r : reader) : res reader :=
  match dict_lookup name (rd_secs r) with
  | Some _ => if bool_decide (name = DEFAULT) then Ok {| rd_secs := rd_secs r; rd_sect := Some name; rd_opt := None; rd_indent := indent; rd_bad := rd_bad r |}
              else Raise ExternalError
  | None => Ok {| rd_secs := rd_secs r ++ [(name, [])]; rd_sect := Some name; rd_opt := None; rd_indent := indent; rd_bad := rd_bad r |}
  end.
Definition read_option (s : string) (value : bytes) (indent : nat) (r : reader) : res reader :=
  let '(name, v) := split_delimiter value in
  let optname := lower (text (rstrip_ws name)) in
  if bool_decide (is_Some (dict_lookup optname (default [] (dict_lookup s (rd_secs r))))) then Raise ExternalError
  else
    let r := {| rd_secs := rd_secs r; rd_sect := rd_sect r; rd_opt := Some optname; rd_indent := indent;
                rd_bad := rd_bad r || bool_decide (optname = "") |} in
    Ok (update_section (dict_set optname ((fun x => [text (strip_ws x)]) <$> v)) r).
Definition read_line (r : reader) (line : bytes) : res reader :=
  let stripped := strip_ws line in
  if is_comment stripped then Ok r
  else if bool_decide (stripped = []) then
    Ok match current_value r with Some (o, Some lines) => append_line o lines "" r | _ => r end
  else
    let indent := (length line - length (drop_ws line))%nat in
    match current_value r with
    | Some (o, v) =>
        if (rd_indent r <? indent)%nat then
          match v with Some lines => Ok (append_line o lines (text stripped) r) | None => Raise AttributeError end
        else
          match section_header stripped, rd_sect r with
          | Some h, _ => enter_section (text h) indent r
          | None, Some s => read_option s stripped indent r
          | None, None => Raise ExternalError
          end
    | None =>
        match section_header stripped, rd_sect r with
        | Some h, _ => enter_section (text h) indent r
        | None, Some s => read_option s stripped indent r
        | None, None => Raise ExternalError
        end
    end.
Fixpoint read_lines (r : reader) (l : list bytes) : res reader :=
  match l with [] => Ok r | x :: l' => let! r := read_line r x in read_lines r l' end.

(** The values in the end, lines joined; a line without a name is an error. *)
Definition joined_value (v : option (list string)) : option string := (fun l => text (rstrip_ws (B (join (text [NL]) l)))) <$> v.
Definition read_config (data : bytes) : res (list (string * list (string * option string))) :=
  let! r := read_lines new_reader (file_lines data) in
  if rd_bad r then Raise ExternalError
  else Ok (map (fun s => (s.1, map (fun o => (o.1, joined_value o.2)) s.2)) (rd_secs r)).

(** ** configparser: values *)

(** [BasicInterpolation], of ten levels. *)
Fixpoint interpolate (depth : nat) (d : list (string * option string)) (rest : bytes) : res bytes :=
  match depth with
  | O => Raise ExternalError
  | S depth =>
      (fix go (fuel : nat) (rest : bytes) : res bytes :=
         match fuel with
         | O => Raise OutOfFuel
         | S fuel =>
             match find_byte "%"%char rest with
             | None => Ok rest
             | Some i =>
                 match drop (S i) rest with
                 | c :: l =>
                     if bool_decide (c = "%"%char) then let! x := go fuel l in Ok (take i rest ++ "%"%char :: x)
                     else if bool_decide (c = "("%char) then
                       match find_byte ")"%char l with
                       | Some (S j) =>
                           match drop (S (S j)) l with
                           | s :: l' =>
                               if bool_decide (s = "s"%char) then
                                 match dict_lookup (lower (text (take (S j) l))) d with
                                 | None => Raise ExternalError
                                 | Some None => Raise TypeError
                                 | Some (Some v) =>
                                     let! y := if bool_decide ("%"%char ∈ B v) then interpolate depth d (B v) else Ok (B v) in
                                     let! x := go fuel l' in Ok (take i rest ++ y ++ x)
                                 end
                               else Raise ExternalError
                           | [] => Raise ExternalError
                           end
                       | _ => Raise ExternalError
                       end
                     else Raise ExternalError
                 | [] => Raise ExternalError
                 end
             end
         end) (S (length rest)) rest
  end.
Definition cp_value (d : list (string * option string)) (v : option string) : res string :=
  match v with None => Ok "" | Some v => let! x := interpolate 10 d (B v) in Ok (text x) end.
Definition true_words : list string := ["1"; "yes"; "true"; "on"].
Definition false_words : list string := ["0"; "no"; "false"; "off"].

(** ** Config *)

(** An attribute of the object. *)
Inductive attr := ABool (b : bool) | AInt (z : Z) | AText (s : string).
Definition as_boolean (s : string) : option bool :=
  if bool_decide (lower s ∈ true_words) then Some true else if bool_decide (lower s ∈ false_words) then Some false else None.
Definition unquote (s : string) : string :=
  match B s with
  | c :: l => match reverse l with d :: m => if bool_decide (c = "'"%char /\ d = "'"%char) then text (reverse m) else s | [] => s end
  | [] => s
  end.
Definition classify (value : string) : attr :=
  match as_boolean value with
  | Some b => ABool b
  | None => match py_int (B value) with Some n => AInt n | None => AText value end
  end.
(** A value of [None] has no [lower], and no length. *)
Definition config_attr (d : list (string * option string)) (name : string) (v : option string) : res attr :=
  match v with
  | None => Raise (if bool_decide (name = "file_name") then TypeError else AttributeError)
  | Some _ =>
      let! value := cp_value d v in
      Ok (if bool_decide (name = "file_name") then AText (unquote value) else classify value)
  end.
Fixpoint all_values (d l : list (string * option string)) : res unit :=
  match l with [] => Ok tt | (_, v) :: l' => let! _ := cp_value d v in all_values d l' end.
Fixpoint set_attrs (d l : list (string * option string)) (c : list (string * attr)) : res (list (string * attr)) :=
  match l with [] => Ok c | (n, v) :: l' => let! a := config_attr d n v in set_attrs d l' (dict_set n a c) end.
Fixpoint config_sections (defaults : list (string * option string)) (l : list (string * list (string * option string))) (c : list (string * attr)) :
    res (list (string * attr)) :=
  match l with
  | [] => Ok c
  | (s, opts) :: l' =>
      if bool_decide (s = DEFAULT) then config_sections defaults l' c
      else
        let d := fold_left (fun d o => dict_set o.1 o.2 d) opts defaults in
        let! _ := all_values d d in
        let! c := set_attrs d d c in config_sections defaults l' c
  end.
Definition Config_init (data : bytes) : res (list (string * attr)) :=
  let! secs := read_config data in config_sections (default [] (dict_lookup DEFAULT secs)) secs [].
Definition get_options (c : list (string * attr)) : list (string * string) :=
  match dict_lookup "options" c with Some (AText s) => parse_options s | _ => [] end.

(** ** What the host writes arrives *)

(** A name of the options: small letters, digits and underscores. *)
Definition key_char (c : ascii) : bool :=
  let n := nat_of_ascii c in ((97 <=? n) && (n <=? 122) || (48 <=? n) && (n <=? 57) || (n =? 95))%nat.
Definition good_key (k : string) : Prop := B k <> [] /\ Forall (fun c => key_char c = true) (B k).
(** One line of text without white space around it. *)
Definition one_line (v : string) : Prop := NL ∉ B v /\ CR ∉ B v /\ strip_ws (B v) = B v.
Definition no_percent (v : string) : Prop := "%"%char ∉ B v.
Definition good_item (kv : string * option_value) : Prop := good_key kv.1 /\ one_line (show_option kv.2).

Lemma drop_ws_head c l : is_ws c = false -> drop_ws (c :: l) = c :: l.
Proof. cbn. by intros ->. Qed.
Lemma key_char_not c d : key_char c = true -> key_char d = false -> c <> d.
Proof. by intros H1 H2 ->; rewrite H1 in H2. Qed.
Lemma key_char_ws c : key_char c = true -> is_ws c = false.
Proof. intros H. destruct c as [[] [] [] [] [] [] [] []]; first [discriminate H|reflexivity]. Qed.
Lemma key_char_lower c : key_char c = true -> lower_ascii c = c.
Proof. intros H. destruct c as [[] [] [] [] [] [] [] []]; first [discriminate H|reflexivity]. Qed.
Lemma rstrip_snoc l c : is_ws c = false -> rstrip_ws (l ++ [c]) = l ++ [c].
Proof. intros Hc. unfold rstrip_ws. rewrite reverse_snoc, drop_ws_head by done. by rewrite reverse_cons, reverse_involutive. Qed.
Lemma rstrip_space l : rstrip_ws (l ++ [" "%char]) = rstrip_ws l.
Proof. unfold rstrip_ws. by rewrite reverse_snoc. Qed.
Lemma rstrip_app l m : rstrip_ws m <> [] -> rstrip_ws (l ++ m) = l ++ rstrip_ws m.
Proof.
  unfold rstrip_ws. rewrite reverse_app. generalize (reverse m) as k. induction k as [|c k IH]; cbn [app drop_ws]; [done|].
  destruct (is_ws c); [exact IH|]. intros _. rewrite reverse_cons, reverse_app, reverse_involutive, reverse_cons. by rewrite app_assoc.
Qed.
Lemma strip_is v : strip_ws v = v -> v = [] \/ drop_ws v = v /\ rstrip_ws v = v.
Proof.
  unfold strip_ws, rstrip_ws. intros E. destruct v as [|c v]; [by left|right].
  destruct (is_ws c) eqn:Ec.
  - exfalso. cbn [drop_ws] in E. rewrite Ec in E. apply (f_equal length) in E. rewrite length_reverse in E.
    assert (forall l, length (drop_ws l) <= length l)%nat as Hl by (induction l as [|d l IH]; cbn; [lia|destruct (is_ws d); cbn; lia]).
    pose proof (Hl (reverse (drop_ws v))) as H1. rewrite length_reverse in H1. pose proof (Hl v). cbn [length] in E. lia.
  - rewrite drop_ws_head in E by done. split; [by apply drop_ws_head|exact E].
Qed.
Lemma rstrip_key k : Forall (fun c => key_char c = true) k -> rstrip_ws k = k.
Proof.
  intros Hk. destruct k as [|c k] using rev_ind; [done|]. apply Forall_app in Hk as [_ Hc]. apply rstrip_snoc, key_char_ws. by inversion Hc.
Qed.
Lemma split_delimiter_key k l : Forall (fun c => key_char c = true) k -> split_delimiter (k ++ " "%char :: "="%char :: l) = (k ++ [" "%char], Some l).
Proof.
  induction 1 as [|c k Hc _ IH]; [done|]. cbn. assert (is_delimiter c = false) as ->; [|by rewrite IH].
  unfold is_delimiter. apply bool_decide_eq_false. intros [->| ->]; discriminate Hc.
Qed.

(** One line of the file, stripped. *)
Definition item_line (k v : string) : bytes := B k ++ " "%char :: "="%char :: " "%char :: B v.
Definition stripped_line (k v : string) : bytes := B k ++ " "%char :: "="%char :: (if bool_decide (B v = []) then [] else " "%char :: B v).
Lemma strip_item k v : good_key k -> strip_ws (B v) = B v -> strip_ws (item_line k v) = stripped_line k v.
Proof.
  intros [Hne Hk] Hv. unfold item_line, stripped_line. destruct (B k) as [|c k'] eqn:Ek; [done|]. apply Forall_cons in Hk as [Hc Hk].
  unfold strip_ws. cbn [app]. rewrite drop_ws_head by by apply key_char_ws. change (reverse (drop_ws (reverse ?l))) with (rstrip_ws l).
  destruct (strip_is (B v) Hv) as [-> | [_ Hr]].
  - cbn [app bool_decide]. rewrite bool_decide_eq_true_2 by done.
    replace (c :: k' ++ [" "%char; "="%char; " "%char]) with ((((c :: k') ++ [" "%char]) ++ ["="%char]) ++ [" "%char]) by by rewrite <- !app_assoc.
    rewrite rstrip_space, rstrip_snoc by done. by rewrite <- !app_assoc.
  - case_bool_decide as Hb.
    + rewrite Hb. replace (c :: k' ++ [" "%char; "="%char; " "%char]) with ((((c :: k') ++ [" "%char]) ++ ["="%char]) ++ [" "%char]) by by rewrite <- !app_assoc.
      rewrite rstrip_space, rstrip_snoc by done. by rewrite <- !app_assoc.
    + replace (c :: k' ++ " "%char :: "="%char :: " "%char :: B v) with ((c :: k' ++ [" "%char; "="%char; " "%char]) ++ B v) by (cbn; by rewrite <- app_assoc).
      rewrite rstrip_app by by rewrite Hr. rewrite Hr. cbn. by rewrite <- app_assoc.
Qed.

Definition read_state (done : cp_options) (opt : option string) : reader :=
  {| rd_secs := [("analysis", done)]; rd_sect := Some "analysis"; rd_opt := opt; rd_indent := 0; rd_bad := false |}.
Lemma key_head k l : good_key k -> exists c m, B k ++ l = c :: m /\ key_char c = true /\ drop_ws (B k ++ l) = B k ++ l.
Proof.
  intros [Hne Hk]. destruct (B k) as [|c k']; [done|]. apply Forall_cons in Hk as [Hc _]. exists c, (k' ++ l).
  split; [done|]. split; [done|]. apply drop_ws_head, key_char_ws, Hc.
Qed.
Lemma lower_key k : good_key k -> lower k = k.
Proof.
  intros [_ Hk]. unfold lower. rewrite <- (text_B k) at 2. f_equal. induction Hk as [|c l Hc _ IH]; [done|]. cbn. by rewrite IH, key_char_lower.
Qed.
Lemma dict_lookup_new {A} k (d : list (string * A)) : k ∉ d.*1 -> dict_lookup k d = None.
Proof.
  induction d as [|[k' x] d IH]; [done|]. cbn. intros [Hn Hd]%not_elem_of_cons. rewrite bool_decide_eq_false_2 by done. by apply IH.
Qed.
Lemma dict_set_new {A} k (v : A) d : k ∉ d.*1 -> dict_set k v d = d ++ [(k, v)].
Proof.
  induction d as [|[k' x] d IH]; [done|]. cbn. intros [Hn Hd]%not_elem_of_cons. rewrite bool_decide_eq_false_2 by done. by rewrite IH.
Qed.
Lemma read_item done opt k v : good_key k -> strip_ws (B v) = B v -> k ∉ done.*1 ->
  read_line (read_state done opt) (item_line k v) = Ok (read_state (done ++ [(k, Some [v])]) (Some k)).
Proof.
  intros Hk Hv Hnew. unfold read_line. rewrite (strip_item k v Hk Hv).
  destruct (key_head k (" "%char :: "="%char :: (if bool_decide (B v = []) then [] else " "%char :: B v)) Hk) as (c & m & E & Hc & _).
  fold (stripped_line k v) in E. assert (is_comment (stripped_line k v) = false) as ->.
  { rewrite E. cbn. apply bool_decide_eq_false. intros [->| ->]; discriminate Hc. }
  rewrite bool_decide_eq_false_2 by by rewrite E.
  assert (section_header (stripped_line k v) = None) as Hs.
  { rewrite E. cbn. rewrite bool_decide_eq_false_2; [done|]. intros ->. discriminate Hc. }
  assert ((length (item_line k v) - length (drop_ws (item_line k v)) = 0)%nat) as Hi.
  { unfold item_line. destruct (key_head k (" "%char :: "="%char :: " "%char :: B v) Hk) as (? & ? & _ & _ & ->). lia. }
  rewrite Hi, Hs. cbn [read_state rd_indent Nat.ltb Nat.leb rd_sect].
  assert (read_option "analysis" (stripped_line k v) 0 (read_state done opt) = Ok (read_state (done ++ [(k, Some [v])]) (Some k))) as ->.
  2: { by destruct (current_value _) as [[o l]|]. }
  unfold read_option, stripped_line. rewrite split_delimiter_key by apply Hk. rewrite rstrip_space, rstrip_key, text_B, lower_key by (done || apply Hk).
  cbn [read_state rd_secs dict_lookup]. rewrite (bool_decide_eq_true_2 ("analysis" = "analysis")%string) by done. cbn [from_option id].
  rewrite dict_lookup_new by done.
  rewrite bool_decide_eq_false_2 by by intros [].
  assert (bool_decide (k = "") = false) as ->.
  { apply bool_decide_eq_false. intros ->. by destruct Hk as [[] _]. }
  assert (text (strip_ws (if bool_decide (B v = []) then [] else " "%char :: B v)) = v) as Hval.
  { case_bool_decide as Hb; [rewrite <- (text_B v), Hb; done|]. rewrite <- (text_B v) at 2. f_equal. exact Hv. }
  cbn [fmap option_fmap option_map]. rewrite Hval. unfold update_section. cbn [read_state rd_sect rd_secs rd_bad dict_lookup dict_set].
  rewrite (bool_decide_eq_true_2 ("analysis" = "analysis")%string) by done. cbn [from_option id]. by rewrite dict_set_new.
Qed.
Lemma read_items l : forall done opt, NoDup (done.*1 ++ l.*1) -> Forall (fun kv => good_key kv.1 /\ strip_ws (B kv.2) = B kv.2) l ->
  exists opt', read_lines (read_state done opt) ((fun kv => item_line kv.1 kv.2) <$> l) =
    Ok (read_state (done ++ ((fun kv => (kv.1, Some [kv.2])) <$> l)) opt').
Proof.
  induction l as [|[k v] l IH]; intros done opt Hnd Hl; [exists opt; by rewrite app_nil_r|].
  apply Forall_cons in Hl as [[Hk Hv] Hl]. cbn [fmap list_fmap read_lines fst snd].
  assert (k ∉ done.*1) as Hnew by (intros Hin; apply NoDup_app in Hnd as (_ & Hx & _); apply (Hx k Hin); left).
  rewrite read_item by done. cbn [rbind].
  destruct (IH (done ++ [(k, Some [v])]) (Some k)) as [opt' E]; [|done|].
  - rewrite fmap_app, <- app_assoc. exact Hnd.
  - exists opt'. rewrite E. by rewrite <- app_assoc.
Qed.

(** The text of the file, line by line. *)
Definition shown_items (o : task_options) : list (string * string) := (fun kv => (kv.1, show_option kv.2)) <$> o_items o.
Lemma unix_lines_id l : CR ∉ l -> unix_lines l = l.
Proof.
  induction l as [|c l IH]; [done|]. intros [Hc Hl]%not_elem_of_cons. cbn. rewrite bool_decide_eq_false_2 by done. by rewrite IH.
Qed.
Lemma join_lines l : l <> [] -> Forall (fun s => NL ∉ B s) l -> split_byte NL (B (join newline l)) = B <$> l.
Proof.
  intros Hne Hl. induction Hl as [|s l Hs Hl IH]; [done|]. destruct l as [|s' l]; [cbn; by apply split_byte_single|].
  change (join newline (s :: s' :: l)) with (s +:+ newline +:+ join newline (s' :: l)). rewrite !B_app.
  change (B newline ++ ?x) with (NL :: x). rewrite split_byte_app, split_byte_single, IH by done. done.
Qed.
Lemma not_in_join c l : c <> NL -> Forall (fun s => c ∉ B s) l -> c ∉ B (join newline l).
Proof.
  intros Hc Hl. induction Hl as [|s l Hs Hl IH]; [by intros ?%elem_of_nil|]. destruct l as [|s' l]; [done|].
  change (join newline (s :: s' :: l)) with (s +:+ newline +:+ join newline (s' :: l)). rewrite !B_app, !elem_of_app.
  change (B newline) with [NL]. rewrite list_elem_of_singleton. tauto.
Qed.
Lemma key_no c k : key_char c = false -> good_key k -> c ∉ B k.
Proof. intros Hc [_ Hk] Hin. rewrite Forall_forall in Hk. apply Hk in Hin. congruence. Qed.
Lemma config_lines_read o : Forall good_item (o_items o) ->
  file_lines (B (config_text o)) = B "[analysis]" :: ((fun kv => item_line kv.1 kv.2) <$> shown_items o).
Proof.
  intros Hl. unfold file_lines, config_text.
  assert (forall c, c = NL \/ c = CR -> Forall (fun s => c ∉ B s) ("[analysis]" :: ((fun kv => kv.1 +:+ " = " +:+ show_option kv.2) <$> o_items o))) as Hno.
  { intros c Hc. assert (c ∉ B "[analysis]" /\ c ∉ B " = ") as [H1 H2].
    { destruct Hc as [->| ->]; split; apply (bool_decide_unpack _); by vm_compute. }
    apply Forall_cons. split; [done|]. apply Forall_fmap. eapply Forall_impl; [exact Hl|]. intros [k v] [Hk (Hv1 & Hv2 & _)]. cbn in *.
    rewrite !B_app, !elem_of_app. intros [Hx|[Hx|Hx]]; [|done|by destruct Hc as [->| ->]].
    revert Hx. apply key_no; [by destruct Hc as [->| ->]|done]. }
  rewrite unix_lines_id by (apply not_in_join; [done|apply Hno; by right]). rewrite join_lines by (done || (apply Hno; by left)).
  unfold shown_items. rewrite fmap_cons, <- !list_fmap_compose. f_equal. apply list_fmap_ext. intros _ [k v] _. cbn. by rewrite !B_app.
Qed.
Lemma config_read o : Forall good_item (o_items o) -> NoDup (o_items o).*1 ->
  read_config (B (config_text o)) = Ok [("analysis", (fun kv => (kv.1, Some kv.2)) <$> shown_items o)].
Proof.
  intros Hl Hnd. unfold read_config. rewrite config_lines_read by done.
  change (read_lines new_reader (B "[analysis]" :: ?l)) with (read_lines (read_state [] None) l).
  assert (Forall (fun kv => good_key kv.1 /\ strip_ws (B kv.2) = B kv.2) (shown_items o)) as Hs.
  { apply Forall_fmap. eapply Forall_impl; [exact Hl|]. by intros [k v] [? (? & ? & ?)]. }
  destruct (read_items (shown_items o) [] None) as [opt ->]; [|done|].
  - unfold shown_items. rewrite <- list_fmap_compose. exact Hnd.
  - cbn [rbind read_state rd_bad rd_secs map fst snd app]. do 3 f_equal. clear -Hs. induction Hs as [|[k v] l [_ Hv] Hs IH]; [done|].
    cbn [fmap list_fmap map fst snd] in *. rewrite IH. do 3 f_equal. unfold joined_value. cbn [fmap option_fmap option_map join]. f_equal.
    rewrite <- (text_B v) at 2. f_equal. destruct (strip_is _ Hv) as [->|[_ ->]]; done.
Qed.

Lemma interpolate_plain n d l : "%"%char ∉ l -> interpolate (S n) d l = Ok l.
Proof. intros Hl. cbn. by rewrite (proj2 (find_byte_None _ _) Hl). Qed.
Lemma plain_value d v : no_percent v -> cp_value d (Some v) = Ok v.
Proof. intros Hv. unfold cp_value. change 10%nat with (S 9). rewrite interpolate_plain by done. cbn. by rewrite text_B. Qed.
Lemma stored_all {A} (l : list (string * A)) : NoDup l.*1 -> fold_left (fun d o => dict_set o.1 o.2 d) l [] = l.
Proof.
  intros Hnd. change l with ([] ++ l) at 2. revert Hnd. rewrite <- (app_nil_l l.*1). change (@nil string) with (([] : list (string * A)).*1) at 1.
  generalize (@nil (string * A)) as done. induction l as [|[k v] l IH]; intros done Hnd; cbn; [by rewrite app_nil_r|].
  rewrite dict_set_new by (intros Hin; apply NoDup_app in Hnd as (_ & Hx & _); apply (Hx k Hin); left).
  rewrite IH, <- app_assoc; [done|]. rewrite fmap_app, <- app_assoc. exact Hnd.
Qed.
(** The attribute for a value. *)
Definition arrived (kv : string * string) : string * attr :=
  (kv.1, if bool_decide (kv.1 = "file_name") then AText (unquote kv.2) else classify kv.2).
Lemma values_fine d l : Forall (fun kv => no_percent kv.2) l -> all_values d ((fun kv => (kv.1, Some kv.2)) <$> l) = Ok tt.
Proof.
  induction 1 as [|[k v] l Hv _ IH]; [done|]. cbn [fmap list_fmap all_values fst snd]. rewrite plain_value by done. exact IH.
Qed.
Lemma attrs_set d l : Forall (fun kv => no_percent kv.2) l -> forall c, NoDup (c.*1 ++ l.*1) ->
  set_attrs d ((fun kv => (kv.1, Some kv.2)) <$> l) c = Ok (c ++ (arrived <$> l)).
Proof.
  induction 1 as [|[k v] l Hv _ IH]; intros c Hnd; [cbn; by rewrite app_nil_r|]. cbn [fmap list_fmap set_attrs fst snd]. unfold config_attr.
  rewrite plain_value by done. cbn [rbind]. rewrite dict_set_new by (intros Hin; apply NoDup_app in Hnd as (_ & Hx & _); apply (Hx k Hin); left).
  rewrite IH, <- app_assoc; [done|]. rewrite fmap_app, <- app_assoc. exact Hnd.
Qed.
Lemma one_section o : Forall good_item (o_items o) -> NoDup (o_items o).*1 ->
  Config_init (B (config_text o)) =
    (let d := (fun kv => (kv.1, Some kv.2)) <$> shown_items o in let! _ := all_values d d in set_attrs d d []).
Proof.
  intros Hl Hnd. unfold Config_init. rewrite config_read by done. cbn [rbind dict_lookup].
  rewrite (bool_decide_eq_false_2 (DEFAULT = "analysis")) by done. cbn [from_option config_sections].
  rewrite (bool_decide_eq_false_2 ("analysis" = DEFAULT)) by done.
  rewrite (stored_all ((fun kv => (kv.1, Some kv.2)) <$> shown_items o)) by (unfold shown_items; by rewrite <- !list_fmap_compose).
  destruct (all_values _ _); [|done]. cbn [rbind]. by destruct (set_attrs _ _ _).
Qed.
(** A character that no number has. *)
Definition not_numeric (c : ascii) : bool :=
  bool_decide (digit_val c = None) && negb (is_ws c) && bool_decide (c <> "_"%char) && bool_decide (c <> "-"%char) && bool_decide (c <> "+"%char).
Lemma no_int x s : not_numeric x = true -> x ∈ B s -> py_int (B s) = None.
Proof.
  unfold not_numeric. rewrite !andb_true_iff, negb_true_iff, !bool_decide_eq_true. intros ((((Hv & Hws) & Hu) & Hm) & Hp) Hin. unfold py_int.
  assert (forall a b l, x ∈ l -> int_digits a b l = None) as Hd.
  { intros a b l. revert a b. induction l as [|c l IH]; intros a b Hx; [by apply elem_of_nil in Hx|]. cbn.
    destruct (decide (c = x)) as [->|Hne]; [rewrite Hv; by rewrite (bool_decide_eq_false_2 (x = "_"%char)) by done|].
    apply elem_of_cons in Hx as [Hx|Hx]; [congruence|]. repeat case_match; try done; by apply IH. }
  assert (x ∈ strip_ws (B s)) as Hs.
  { unfold strip_ws. assert (forall l, x ∈ l -> x ∈ drop_ws l) as Hdrop.
    { induction l as [|c l IH]; intros Hx; [by apply elem_of_nil in Hx|]. cbn [drop_ws]. destruct (is_ws c) eqn:Ec; [|done].
      apply IH. apply elem_of_cons in Hx as [<-|Hx]; [congruence|done]. }
    apply elem_of_reverse, Hdrop, elem_of_reverse, Hdrop, Hin. }
  destruct (strip_ws (B s)) as [|c l]; [done|]. case_bool_decide as H1; [|case_bool_decide as H2].
  - subst c. apply elem_of_cons in Hs as [|Hs]; [done|]. by rewrite Hd.
  - subst c. apply elem_of_cons in Hs as [|Hs]; [done|]. by rewrite Hd.
  - by rewrite Hd.
Qed.
(** A value with a character that neither numbers nor booleans have. *)
Lemma text_with x s : not_numeric x = true -> lower_ascii x = x -> forallb (fun w => bool_decide (x ∉ B w)) (true_words ++ false_words) = true ->
  x ∈ B s -> classify s = AText s.
Proof.
  intros Hn Hl Hw Hin. unfold classify. rewrite (no_int x) by done. unfold as_boolean.
  assert (x ∈ B (lower s)) as Hlow.
  { unfold lower. rewrite B_text. apply list_elem_of_fmap. by exists x. }
  rewrite forallb_forall in Hw. rewrite !bool_decide_eq_false_2; [done|..]; intros Hx.
  all: assert (lower s ∈ true_words ++ false_words) as Hin' by (apply elem_of_app; auto); apply list_elem_of_In in Hin'; by specialize (Hw _ Hin'); apply bool_decide_eq_true in Hw.
Qed.
Lemma config_read_back o : Forall good_item (o_items o) -> NoDup (o_items o).*1 -> Forall (fun kv => no_percent kv.2) (shown_items o) ->
  Config_init (B (config_text o)) = Ok (arrived <$> shown_items o).
Proof.
  intros Hl Hnd Hp. rewrite one_section by done. cbv zeta. rewrite values_fine by done. cbn [rbind].
  rewrite attrs_set; [done..|]. unfold shown_items. by rewrite <- list_fmap_compose.
Qed.
Lemma attribute_of o k v : NoDup (o_items o).*1 -> (k, v) ∈ shown_items o -> dict_lookup k (arrived <$> shown_items o) = Some (arrived (k, v)).2.
Proof.
  intros Hnd. assert (NoDup (shown_items o).*1) as Hs by (unfold shown_items; by rewrite <- list_fmap_compose).
  clear Hnd. induction (shown_items o) as [|[k' v'] l IH]; [by intros ?%elem_of_nil|]. cbn in *.
  apply NoDup_cons in Hs as [Hk Hs]. intros [[= <- <-]|Hin]%elem_of_cons; [by rewrite bool_decide_eq_true_2|].
  rewrite bool_decide_eq_false_2; [by apply IH|]. intros <-. apply Hk. apply list_elem_of_fmap. by exists (k, v).
Qed.
Lemma options_arrive o s : NoDup (o_items o).*1 -> ("options", s) ∈ shown_items o -> "="%char ∈ B s ->
  get_options (arrived <$> shown_items o) = parse_options s.
Proof.
  intros Hnd Hin Heq. unfold get_options. rewrite (attribute_of o "options" s) by done. unfold arrived. cbn [fst snd].
  rewrite bool_decide_eq_false_2 by done. by rewrite (text_with "="%char).
Qed.

(** What the host writes into the configuration arrives in the guest: for
    names and values of one line without a percent sign, the attributes are the
    options in their order, read as booleans, numbers and texts; and the options
    of the task are the ones the host itself reads. *)
Theorem config_arrives o : Forall good_item (o_items o) -> NoDup (o_items o).*1 -> Forall (fun kv => no_percent kv.2) (shown_items o) ->
  Config_init (B (config_text o)) = Ok (arrived <$> shown_items o) /\
  forall s, ("options", s) ∈ shown_items o -> "="%char ∈ B s -> get_options (arrived <$> shown_items o) = parse_options s.
Proof. intros Hl Hnd Hp. split; [by apply config_read_back|]. intros s. by apply options_arrive. Qed.

(** A percent sign that begins no reference. *)
Definition stray_percent (v : string) : Prop := exists a l, B v = a ++ "%"%char :: l /\ "%"%char ∉ a /\
  match l with c :: _ => c <> "%"%char /\ c <> "("%char | [] => True end.
Lemma interpolate_stray n d a l : "%"%char ∉ a -> match l with c :: _ => c <> "%"%char /\ c <> "("%char | [] => True end ->
  interpolate (S n) d (a ++ "%"%char :: l) = Raise ExternalError.
Proof.
  intros Ha Hc. cbn [interpolate]. rewrite find_byte_app by done. replace (drop (S (length a)) (a ++ "%"%char :: l)) with l.
  - destruct l as [|c l]; [reflexivity|]. destruct Hc as [H1 H2].
    by rewrite (bool_decide_eq_false_2 _ H1), (bool_decide_eq_false_2 _ H2).
  - change (a ++ "%"%char :: l) with (a ++ ["%"%char] ++ l). rewrite app_assoc. rewrite drop_app_length'; [done|]. rewrite length_app. cbn. lia.
Qed.
Lemma stray_raises d v : stray_percent v -> cp_value d (Some v) = Raise ExternalError.
Proof.
  intros (a & l & E & Ha & Hc). unfold cp_value. rewrite E. change 10%nat with (S 9). by rewrite interpolate_stray.
Qed.
(** One value with a stray percent sign, such as the address of a page with
    an escaped space, and the guest cannot read its configuration: the analysis
    ends before it began. *)
Theorem percent_stops_guest o kv : Forall good_item (o_items o) -> NoDup (o_items o).*1 -> kv ∈ shown_items o -> stray_percent kv.2 ->
  exists e, Config_init (B (config_text o)) = Raise e.
Proof.
  intros Hl Hnd Hin Hs. rewrite one_section by done. cbv zeta.
  set (d := _ <$> shown_items o). enough (exists e, all_values d d = Raise e) as [e ->] by by exists e.
  unfold d at 2. generalize d. intros d'. induction (shown_items o) as [|[k v] l IH]; [by apply elem_of_nil in Hin|].
  cbn [fmap list_fmap all_values fst snd]. apply elem_of_cons in Hin as [->|Hin]; [rewrite stray_raises by done; by eexists|].
  destruct (cp_value d' (Some v)); [by apply IH|by eexists].
Qed.

(** ** Examples *)

Definition task_with (target : string) : task_options :=
  {| o_items := [("id", Shown "7"); ("category", Shown "url"); ("target", Shown target); ("options", Shown "free=yes,procdump=0");
                 ("enforce_timeout", Shown "False"); ("clock", Datetime 2022 1 2 3 4 5); ("file_name", Shown "'a.exe'")];
     o_timeout := 200; o_options := "free=yes,procdump=0"; o_category := "url"; o_target := target; o_file_name := "" |}.
#[local] Instance good_key_dec k : Decision (good_key k).
Proof. unfold good_key. exact _. Defined.
#[local] Instance good_item_dec kv : Decision (good_item kv).
Proof. unfold good_item, one_line. exact _. Defined.
Lemma config_arrives_witness :
  Config_init (B (config_text (task_with "http://a.b/c"))) =
    Ok [("id", AInt 7); ("category", AText "url"); ("target", AText "http://a.b/c"); ("options", AText "free=yes,procdump=0");
        ("enforce_timeout", ABool false); ("clock", AText "20220102T03:04:05"); ("file_name", AText "a.exe")].
Proof.
  apply (config_arrives (task_with "http://a.b/c")); by apply (bool_decide_unpack _); vm_compute.
Defined.
Lemma percent_stops_guest_witness : exists e, Config_init (B (config_text (task_with "http://a.b/c%20d"))) = Raise e.
Proof.
  apply (percent_stops_guest (task_with "http://a.b/c%20d") ("target", "http://a.b/c%20d")).
  - by apply (bool_decide_unpack _); vm_compute.
  - by apply (bool_decide_unpack _); vm_compute.
  - by right; right; left.
  - exists (B "http://a.b/c"), (B "20d"). split_and!; try done. by apply (bool_decide_unpack _); vm_compute.
Defined.
