(* ===== verification/Launch.v ===== *)
(** The way from the configuration to the running sample: prepare and the first
    half of run of analyzer/windows/analyzer.py, set_clock of
    lib/core/startup.py, and what the main program reports when it ends there. *)
From S2P Require Import Prelude Struct Pretty ProcessLog Quarantine Agent Guest Analyzer AnalyzerRun GuestConfig WinProcess PackageBase Packages.
Open Scope string_scope.
Open Scope list_scope.
Open Scope Z_scope.

(** ** Attributes of the configuration *)

Abbreviation conf := (list (string * attr)).
Definition conf_get (c : conf) (k : string) : res attr := of_option AttributeError (dict_lookup k c).
Definition attr_true (a : attr) : bool := match a with ABool b => b | AInt z => negb (z =? 0) | AText s => bool_decide (s <> "") end.
Definition attr_text (a : attr) : string := match a with ABool b => if b then "True" else "False" | AInt z => str_int z | AText s => s end.

Definition attr_is (s : string) (a : attr) : bool := match a with AText x => bool_decide (x = s) | _ => false end.

(** ** The clock *)

Record datetime := { dt_year : Z; dt_month : Z; dt_day : Z; dt_hour : Z; dt_minute : Z; dt_second : Z }.
Definition leap_year (y : Z) : bool := (y mod 4 =? 0) && (negb (y mod 100 =? 0) || (y mod 400 =? 0)).
Definition days_in_month (y m : Z) : Z :=
  if m =? 2 then (if leap_year y then 29 else 28) else if bool_decide (m ∈ [4; 6; 9; 11]) then 30 else 31.
Definition valid_date (d : datetime) : bool :=
  (1 <=? dt_year d) && (dt_year d <=? 9999) && (1 <=? dt_month d) && (dt_month d <=? 12) && (1 <=? dt_day d) &&
  (dt_day d <=? days_in_month (dt_year d) (dt_month d)) && (0 <=? dt_hour d) && (dt_hour d <=? 23) && (0 <=? dt_minute d) &&
  (dt_minute d <=? 59) && (0 <=? dt_second d) && (dt_second d <=? 59).
(** The ways a directive of [strptime] reads the beginning of a text, in the
    order of its regular expression: two digits, then one. *)
Definition two_digits (lo hi : Z) (l : bytes) : list (Z * bytes) :=
  match l with
  | a :: b :: l' =>
      match digit_val a, digit_val b with
      | Some x, Some y => if bool_decide (lo <= x * 10 + y <= hi) then [(x * 10 + y, l')] else []
      | _, _ => []
      end
  | _ => []
  end.
Definition one_digit (lo : Z) (l : bytes) : list (Z * bytes) :=
  match l with
  | a :: l' => match digit_val a with Some x => if bool_decide (lo <= x) then [(x, l')] else [] | None => [] end
  | [] => []
  end.
Definition four_digits (l : bytes) : list (Z * bytes) := '(h, l1) ← two_digits 0 99 l; '(t, l2) ← two_digits 0 99 l1; [(h * 100 + t, l2)].
Definition one_or_two (lo hi : Z) (l : bytes) : list (Z * bytes) := two_digits lo hi l ++ one_digit lo l.
(** A day may also have a space before it. *)
Definition day_field (l : bytes) : list (Z * bytes) :=
  one_or_two 1 31 l ++ match l with c :: l' => if bool_decide (c = " "%char) then one_digit 1 l' else [] | [] => [] end.
(** Letters are matched in any case. *)
Definition literal (c : ascii) (l : bytes) : list bytes :=
  match l with d :: l' => if bool_decide (lower_ascii d = lower_ascii c) then [l'] else [] | [] => [] end.
(** [datetime.strptime(clock, "%Y%m%dT%H:%M:%S")]: the first match has to be the
    whole text, and a date. *)
Definition clock_matches (l : bytes) : list (datetime * bytes) :=
  '(y, l) ← four_digits l; '(m, l) ← one_or_two 1 12 l; '(d, l) ← day_field l; l ← literal "T" l;
  '(h, l) ← one_or_two 0 23 l; l ← literal ":" l; '(mi, l) ← one_or_two 0 59 l; l ← literal ":" l; '(s, l) ← one_or_two 0 61 l;
  [({| dt_year := y; dt_month := m; dt_day := d; dt_hour := h; dt_minute := mi; dt_second := s |}, l)].
Definition strptime (l : bytes) : res datetime :=
  match clock_matches l with
  | (d, []) :: _ => if valid_date d then Ok d else Raise ValueError
  | _ => Raise ValueError
  end.
(** The time the system is set to. *)
Definition set_clock (clock : attr) : res datetime := match clock with AText s => strptime (B s) | _ => Raise TypeError end.

(** ** prepare *)

Record prepared := { pr_config : conf; pr_options : options; pr_target : string; pr_clock : datetime }.
(** The attributes are asked for in this order. *)
Definition prepare_config (temp : option string) (data : bytes) : res prepared :=
  let! c := Config_init data in
  let! clock := conf_get c "clock" in
  let! _ := conf_get c "timeout" in
  let! now := set_clock clock in
  let! _ := conf_get c "ip" in
  let! _ := conf_get c "port" in
  let! category := conf_get c "category" in
  let! target :=
    if attr_is "file" category then
      let! t := of_option KeyError temp in
      let! name := conf_get c "file_name" in Ok (win_path (t +:+ BS) [attr_text name])
    else let! t := conf_get c "target" in Ok (attr_text t) in
  Ok {| pr_config := c; pr_options := (fun o => (o.1, OText o.2)) <$> get_options c; pr_target := target; pr_clock := now |}.

(** ** run, up to the start of the package *)

(** The tools that were asked for; [None] are the usual ones. *)
Record tools := { MONITOR_DLL : option string; MONITOR_DLL_64 : option string; LOADER32 : option string; LOADER64 : option string }.
Definition option_text (k : string) (d : options) : option string := oval_text <$> opt_get k d.
Definition initial_tools (d : options) : tools :=
  {| MONITOR_DLL := option_text "dll" d; MONITOR_DLL_64 := option_text "dll_64" d; LOADER32 := None; LOADER64 := None |}.
Definition given_or (o : option string) (v : option string) : option string := match o with Some x => Some x | None => v end.
Definition set_tools (d : options) (t : tools) : tools :=
  {| MONITOR_DLL := given_or (option_text "dll" d) (MONITOR_DLL t); MONITOR_DLL_64 := given_or (option_text "dll_64" d) (MONITOR_DLL_64 t);
     LOADER32 := given_or (option_text "loader" d) (LOADER32 t); LOADER64 := given_or (option_text "loader_64" d) (LOADER64 t) |}.

(** What is left for the rest of [run]: the process that was started, whether it
    is watched, and which auxiliary modules run. *)
Record launched := { l_pid : option Z; l_pid_check : bool; l_aux : list bool }.

Section launch.
Context `{winapi} `{guest_files} (wc : win_cfg) (svc_pid : Z) (c : conf).
(** The content of a file; and what constructing and starting each auxiliary
    module does. *)
Context (read_target : wtrace -> string -> res bytes) (aux_modules : list (st winst unit)).

Definition package_config : pkg_config :=
  {| pk_win := wc; pk_file_type := match dict_lookup "file_type" c with Some (AText s) => Some s | _ => None end; services_pid := svc_pid |}.
(** Only the rules for libraries look at the exports; a value that is no text
    cannot be split. *)
Definition asks_exports (file_type file_name : string) : bool :=
  negb (str_contains "Nullsoft Installer" file_type) && str_contains "DLL" file_type && negb (ends_any [".cpl"; ".xll"] (lower file_name)).
Definition choose_for (target : string) : st winst (option string) := fun w =>
  (let! file_type := conf_get c "file_type" in
   let! file_name := conf_get c "file_name" in
   let! exports := conf_get c "exports" in
   if negb (attr_true file_type) then Ok None
   else match file_name with
        | AText n =>
            let! content := read_target (trace w) target in
            match file_type with
            | AText t =>
                match exports with
                | AText e => choose_package t n (Some e) (Ok content)
                | _ => if attr_true exports && asks_exports t n then Raise AttributeError else choose_package t n None (Ok content)
                end
            | _ => Raise TypeError
            end
        | _ => Raise AttributeError
        end, w).
Definition is_file_category : res bool := let! a := conf_get c "category" in Ok (attr_is "file" a).
Definition select_package (target : string) : st winst string :=
  let* package := slift (conf_get c "package") in
  if attr_true package then sret (attr_text package)
  else
    let* b := slift is_file_category in
    let* chosen := if b then choose_for target else sret (Some "ie") in
    match chosen with Some p => sret p | None => sraise CuckooError end.
(** Importing the module, and taking its class: without one of the name the
    import fails. *)
Definition import_package (name : string) : res package := of_option CuckooError (find_package name (package_table package_config)).

Definition copy_tool (dir : string) (given : option string) (usual name : string) : st winst unit :=
  shutil_copy (match given with Some x => win_path dir [x] | None => usual end) name.
Definition copy_tools (t : tools) : st winst unit :=
  do* copy_tool "dll" (MONITOR_DLL t) "dll\capemon.dll" (CAPEMON32_NAME wc) in
  do* copy_tool "dll" (MONITOR_DLL_64 t) "dll\capemon_x64.dll" (CAPEMON64_NAME wc) in
  do* copy_tool "bin" (LOADER32 t) "bin\loader.exe" (LOADER32_NAME wc) in
  copy_tool "bin" (LOADER64 t) "bin\loader_x64.exe" (LOADER64_NAME wc).
(** A module that raises is not enabled. *)
Fixpoint start_aux (l : list (st winst unit)) : st winst (list bool) :=
  match l with
  | [] => sret []
  | m :: l' =>
      let* ok := scatch (do* m in sret true) (fun _ => Some (sret false)) in
      let* oks := start_aux l' in sret (ok :: oks)
  end.
Definition STOP_WMI : list string := ["net"; "stop"; "winmgmt"; "/y"].
Definition CONFIG_WMI : list string := ["sc config winmgmt type= own"].
Definition START_WMI : list string := ["net start winmgmt"].
Definition restart_wmi : st winst unit :=
  do* PackageBase.call STOP_WMI in do* PackageBase.call CONFIG_WMI in do* PackageBase.call START_WMI in sret tt.
Definition start_package (p : package) (target : string) : st winst (option Z) :=
  scatch (pk_start p target) (fun _ => Some (sraise CuckooError)).

(** The package, and where its sample is then; the tools are copied. *)
Definition load_package (target : string) : st winst (package * string) :=
  let* w := sget in
  let t := initial_tools (w_options w) in
  let* name := select_package target in
  let* p := slift (import_package name) in
  do* smodify (with_options (pk_init p)) in
  let* b := slift is_file_category in
  let* target := if b then move_curdir target else sret target in
  let* w := sget in
  do* copy_tools (set_tools (w_options w) t) in sret (p, target).
Definition before_start (target : string) : st winst (package * string * list bool) :=
  let* r := load_package target in
  let* enabled := start_aux aux_modules in
  do* restart_wmi in sret (r, enabled).
Definition run_launch (target : string) : st winst launched :=
  let* r := before_start target in
  let* pid := start_package r.1.1 r.1.2 in
  let pid_check := match pid with Some n => negb (n =? 0) | None => false end in
  let* enforce_timeout := slift (conf_get c "enforce_timeout") in
  sret {| l_pid := if pid_check then pid else None; l_pid_check := pid_check && negb (attr_true enforce_timeout); l_aux := r.2 |}.
End launch.

(** How the main program sees the end. *)
Definition outcome_of (r : res bool) : run_outcome :=
  match r with Ok b => Returned b | Raise CuckooError => Cuckoo_error | Raise _ => Unexpected end.

(** ** Nothing runs before its monitor *)

Section order.
Context `{winapi} `{guest_files} (wc : win_cfg) (svc_pid : Z) (c : conf) (read_target : wtrace -> string -> res bytes) (aux_modules : list (st winst unit)).
Abbreviation cfg := (package_config wc svc_pid c).
Abbreviation load := (load_package wc svc_pid c read_target).
Abbreviation before := (before_start wc svc_pid c read_target aux_modules).
Abbreviation launch := (run_launch wc svc_pid c read_target aux_modules).
#[local] Instance grows_preorder P : PreOrder (grows P) := grows_pre P.

#[local] Instance still_preorder : PreOrder still := still_pre.
Hint Extern 1 (within still (ask _ _)) => apply still_ask; exact I : pkg.
Hint Extern 2 (within still _) => apply still_same; intros; split; reflexivity : pkg.

Lemma select_state target w : (select_package c read_target target w).2 = w.
Proof.
  unfold select_package, choose_for, slift, sbind, sret. destruct (conf_get c "package"); [|done]. destruct (attr_true _); [done|].
  destruct (is_file_category c) as [[]|]; [..|done]; [|done]. by destruct (rbind _ _) as [[]|].
Qed.
Lemma find_loaded name p : import_package wc svc_pid c name = Ok p -> (name, p) ∈ package_table cfg.
Proof. unfold import_package. destruct (find_package _ _) as [q|] eqn:Hf; [|done]. intros [= ->]. by apply find_package_in. Qed.
Lemma load_still target : within still (load target).
Proof.
  unfold load_package. apply within_bind; [exact _|pkg_tac|intros w0]. cbv zeta. apply within_bind; [exact _| |intros name].
  { apply still_same. intros w. by rewrite select_state. }
  destruct (import_package _ _ _ name) as [p|e] eqn:Hp; [|by intros w]. apply find_loaded in Hp.
  enough (forall q, q = p -> within still (do* smodify (with_options (pk_init q)) in
    let* b := slift (is_file_category c) in let* target := if b then move_curdir target else sret target in
    let* w := sget in do* copy_tools wc (set_tools (w_options w) (initial_tools (w_options w0))) in sret (q, target))) as Hrest.
  { intros w. exact (Hrest p eq_refl w). }
  intros q ->. apply within_bind; [exact _| |intros []].
  - intros w. split; [by exists []; rewrite app_nil_r|]. pose proof (all_inits_free cfg) as Hi. rewrite Forall_forall in Hi. apply (Hi _ Hp).
  - unfold move_curdir, shutil_move, copy_tools, copy_tool, shutil_copy. pkg_tac.
Qed.
Lemma wmi_still : within still restart_wmi.
Proof. unfold restart_wmi, PackageBase.call. pkg_tac. Qed.
Lemma aux_within (R : relation winst) `{!PreOrder R} l : Forall (within R) l -> within R (start_aux l).
Proof.
  induction 1 as [|m l Hm _ IH]; cbn [start_aux]; [by apply within_ret|]. apply within_bind; [done| |].
  - apply within_catch; [done| |intros e k [= <-]; by apply within_ret]. apply within_bind; [done..|]. intros _. by apply within_ret.
  - intros ok. apply within_bind; [done..|]. intros oks. by apply within_ret.
Qed.
Lemma before_within (R : relation winst) `{!PreOrder R} target : (forall w w', still w w' -> R w w') ->
  Forall (within R) aux_modules -> within R (before target).
Proof.
  intros HR Ha. unfold before_start. apply within_bind; [done|intros w; apply HR, load_still|intros r].
  apply within_bind; [done|by apply aux_within|]. intros oks. apply within_bind; [done|intros w; apply HR, wmi_still|intros _]. by apply within_ret.
Qed.

(** The copies that have succeeded. *)
Lemma copy_ok a b w w' : shutil_copy a b w = (Ok tt, w') -> copied (trace w') b /\ trace w `prefix_of` trace w'.
Proof.
  unfold shutil_copy, ask. intros [= Hr <-]. split; [|by eexists]. exists (trace w), a, []. by split.
Qed.
Lemma copy_tools_ok t w w' : copy_tools wc t w = (Ok tt, w') -> tools_copied cfg (trace w').
Proof.
  unfold copy_tools, copy_tool. intros ([] & w1 & [H1 P1]%copy_ok & E)%sbind_ok_inv.
  apply sbind_ok_inv in E as ([] & w2 & [H2 P2]%copy_ok & E). apply sbind_ok_inv in E as ([] & w3 & [H3 P3]%copy_ok & E).
  apply copy_ok in E as [H4 P4]. unfold tools_copied, tool_names. cbn.
  assert (trace w2 `prefix_of` trace w') by (by etrans). assert (trace w1 `prefix_of` trace w') by (by etrans).
  repeat apply Forall_cons_2; [..|apply Forall_nil_2]; (eapply copied_later; [|eassumption]); first [eassumption|reflexivity].
Qed.
Lemma load_tools target w r w' : load target w = (Ok r, w') -> tools_copied cfg (trace w').
Proof.
  unfold load_package. intros (w0 & w1 & _ & E)%sbind_ok_inv. cbv zeta in E.
  apply sbind_ok_inv in E as (name & w2 & _ & E). apply sbind_ok_inv in E as (p & w3 & _ & E). apply sbind_ok_inv in E as ([] & w4 & _ & E).
  apply sbind_ok_inv in E as (b & w5 & _ & E). apply sbind_ok_inv in E as (t & w6 & _ & E). apply sbind_ok_inv in E as (w7 & w8 & _ & E).
  apply sbind_ok_inv in E as ([] & w9 & Hc & E). apply copy_tools_ok in Hc. by injection E as _ <-.
Qed.
Lemma call_reached l w n w' : PackageBase.call l w = (Ok n, w') -> trace w' = trace w ++ [ERun l].
Proof. unfold PackageBase.call, ask. by intros [= _ <-]. Qed.
Lemma wmi_ok w w' : restart_wmi w = (Ok tt, w') -> trace w' = trace w ++ [ERun STOP_WMI; ERun CONFIG_WMI; ERun START_WMI].
Proof.
  unfold restart_wmi. intros (n1 & w1 & E1%call_reached & E)%sbind_ok_inv. apply sbind_ok_inv in E as (n2 & w2 & E2%call_reached & E).
  apply sbind_ok_inv in E as (n3 & w3 & E3%call_reached & E). injection E as <-. by rewrite E3, E2, E1, <- !app_assoc.
Qed.
(** A module of the analyzer only makes the history longer. *)
Definition only_grows (w w' : winst) : Prop := trace w `prefix_of` trace w'.
#[local] Instance only_grows_pre : PreOrder only_grows.
Proof. unfold only_grows. split; [intros w; done|intros w1 w2 w3; by etrans]. Qed.
Lemma before_ok target w r w' : Forall (within only_grows) aux_modules -> before target w = (Ok r, w') ->
  tools_copied cfg (trace w') /\ ERun STOP_WMI ∈ trace w' /\ ERun START_WMI ∈ trace w'.
Proof.
  intros Ha. unfold before_start. intros (x & w1 & Ht%load_tools & E)%sbind_ok_inv. apply sbind_ok_inv in E as (oks & w2 & E2 & E).
  apply sbind_ok_inv in E as ([] & w3 & E3%wmi_ok & E). injection E as _ <-.
  pose proof (aux_within only_grows aux_modules Ha w1) as Hg. rewrite E2 in Hg. cbn in Hg.
  split; [eapply tools_later; [|exact Ht]; rewrite E3; etrans; [exact Hg|by eexists]|]. rewrite E3. set_solver.
Qed.
Lemma quiet_create t path cmdline flags t1 t2 : Forall quiet t -> t <> t1 ++ ECreate path cmdline flags :: t2.
Proof. intros Hq ->. apply Forall_app in Hq as [_ Hq]. by apply Forall_cons in Hq as [? _]. Qed.

Context {Hlaws : guest_laws}.
Lemma load_package_adds target w r w' : load target w = (Ok r, w') -> within (adds cfg) (pk_start r.1 r.2).
Proof using Hlaws.
  unfold load_package. intros (w0 & w1 & _ & E)%sbind_ok_inv. cbv zeta in E.
  apply sbind_ok_inv in E as (name & w2 & _ & E). apply sbind_ok_inv in E as (p & w3 & Hp & E). apply sbind_ok_inv in E as ([] & w4 & _ & E).
  apply sbind_ok_inv in E as (b & w5 & _ & E). apply sbind_ok_inv in E as (t & w6 & _ & E). apply sbind_ok_inv in E as (w7 & w8 & _ & E).
  apply sbind_ok_inv in E as ([] & w9 & _ & E). injection E as <- _. unfold slift in Hp. injection Hp as Hp _. apply find_loaded in Hp.
  pose proof (all_packages_add cfg) as Hall. rewrite Forall_forall in Hall. exact (Hall _ Hp t).
Qed.
(** The history of a launch is that of its first part, or goes on with the
    package. *)
Lemma launch_history target w :
  (exists r w1, before target w = (Ok r, w1) /\ adds cfg w1 (launch target w).2) \/
  (exists e, before target w = (Raise e, (launch target w).2)).
Proof using Hlaws.
  destruct (before target w) as [[r|e] w1] eqn:Eb; [left; exists r, w1|right; exists e].
  2: { unfold run_launch, sbind at 1. by rewrite Eb. }
  split; [done|]. unfold run_launch. rewrite (sbind_ok _ _ _ _ _ Eb).
  assert (adds cfg w1 (pk_start r.1.1 r.1.2 w1).2) as Hk.
  { unfold before_start in Eb. apply sbind_ok_inv in Eb as (x & w2 & Hl%load_package_adds & E).
    apply sbind_ok_inv in E as (oks & w3 & _ & E). apply sbind_ok_inv in E as ([] & w4 & _ & E). injection E as <- _. cbn [fst]. by apply Hl. }
  unfold start_package, scatch, sbind. destruct (pk_start r.1.1 r.1.2 w1) as [[pid|e] w2]; [|done].
  unfold slift. by destruct (conf_get c "enforce_timeout").
Qed.

(** C34. From nothing, and whatever package runs: when a process is created, the
    monitors and loaders for both widths have been copied to the names under
    which the analyzer looks for them, and the management service was restarted.
    The auxiliary modules may do what they like, except create processes. *)
Theorem tools_before_process target w t1 path cmdline flags t2 : trace w = [] -> Forall (within (grows quiet)) aux_modules ->
  trace (launch target w).2 = t1 ++ ECreate path cmdline flags :: t2 ->
  tools_copied cfg t1 /\ ERun STOP_WMI ∈ t1 /\ ERun START_WMI ∈ t1.
Proof using Hlaws.
  intros Hw Ha E. destruct (before_within (grows quiet) target (fun _ _ H => proj1 H) Ha w) as (ext & Hext & Hq). rewrite Hw in Hext. cbn [app] in Hext.
  destruct (launch_history target w) as [(r & w1 & Eb & (l & Hl & _) & _)|[e Eb]]; rewrite Eb in Hext; cbn [snd] in Hext.
  2: { rewrite Hext in E. by apply quiet_create in E. }
  assert (Forall (within only_grows) aux_modules) as Hg.
  { eapply Forall_impl; [exact Ha|]. intros m Hm v. by eapply grows_prefix. }
  destruct (before_ok target w r w1 Hg Eb) as (H1 & H2 & H3). rewrite Hl, Hext in E. rewrite Hext in H1, H2, H3.
  apply app_eq_inv in E as [(k & -> & E)|(k & -> & E)].
  - destruct k as [|e k]; [rewrite app_nil_r in *; done|]. injection E as <- _.
    by destruct (quiet_create (t1 ++ ECreate path cmdline flags :: k) path cmdline flags t1 k Hq).
  - split; [eapply tools_later; [|exact H1]; by eexists|]. set_solver.
Qed.


(** C35. A package that does not exist ends the analysis before anything was
    done, and the agent is told that the wrong package was submitted. *)
Theorem unknown_package_reported target w name : (select_package c read_target target w).1 = Ok name ->
  find_package name (package_table cfg) = None ->
  (launch target w).1 = Raise CuckooError /\ trace (launch target w).2 = trace w /\
  posted (outcome_of (let! _ := (launch target w).1 in Ok true)) None =
    [[("status", "exception"); ("description", wrong_package)]; [("status", "exception"); ("description", wrong_package)]].
Proof using Type.
  intros Hs Hf. assert ((launch target w).1 = Raise CuckooError /\ trace (launch target w).2 = trace w) as [H1 H2].
  { pose proof (select_state target w) as Ht. unfold run_launch, before_start, load_package, import_package, sget, slift, sbind.
    destruct (select_package c read_target target w) as [[n|] w1]; [|done]. cbn in Hs, Ht. injection Hs as ->. rewrite Ht, Hf. done. }
  by rewrite H1, H2.
Qed.
End order.

(** ** The clock arrives *)

Definition first_is {A} (l : list A) (x : A) : Prop := exists r, l = x :: r.
Lemma first_bind {A C} (f : A -> list C) l x y : first_is l x -> first_is (f x) y -> first_is (l ≫= f) y.
Proof. intros [r ->] [r' Hf]. cbn. rewrite Hf. by eexists. Qed.
Lemma first_app {A} (l m : list A) x : first_is l x -> first_is (l ++ m) x.
Proof. intros [r ->]. by eexists. Qed.
Definition shows_two (n : Z) : bool :=
  match B (pad2 n) with
  | [a; b] => bool_decide (digit_val a = Some (n / 10)) && bool_decide (digit_val b = Some (n mod 10))
  | _ => false
  end.
Lemma pad2_shows n : 0 <= n <= 99 -> shows_two n = true.
Proof.
  intros Hn. assert (forallb shows_two (seqZ 0 100) = true) as H by by vm_compute.
  rewrite forallb_forall in H. apply H, list_elem_of_In, elem_of_seqZ. lia.
Qed.
Lemma year_shows y : 1000 <= y <= 9999 -> B (str_int y) = B (pad2 (y / 100)) ++ B (pad2 (y mod 100)).
Proof.
  intros Hy. assert (forallb (fun y => bool_decide (B (str_int y) = B (pad2 (y / 100)) ++ B (pad2 (y mod 100)))) (seqZ 1000 9000) = true) as H
    by by vm_compute.
  rewrite forallb_forall in H. eapply bool_decide_eq_true, H, list_elem_of_In, elem_of_seqZ. lia.
Qed.
Lemma two_read lo hi n l : 0 <= n <= 99 -> lo <= n <= hi -> two_digits lo hi (B (pad2 n) ++ l) = [(n, l)].
Proof.
  intros H1 H2. pose proof (pad2_shows n H1) as H. unfold shows_two in H. destruct (B (pad2 n)) as [|a [|b []]]; try done.
  apply andb_true_iff in H as [Ha%bool_decide_eq_true Hb%bool_decide_eq_true]. cbn. rewrite Ha, Hb.
  replace (n / 10 * 10 + n mod 10) with n by (pose proof (Z.div_mod n 10 ltac:(lia)); lia). by rewrite bool_decide_eq_true_2.
Qed.
Lemma field_read lo hi n l : 0 <= n <= 99 -> lo <= n <= hi -> first_is (one_or_two lo hi (B (pad2 n) ++ l)) (n, l).
Proof. intros H1 H2. unfold one_or_two. rewrite two_read by done. apply first_app. by eexists. Qed.
Lemma year_read y l : 1000 <= y <= 9999 -> first_is (four_digits (B (str_int y) ++ l)) (y, l).
Proof.
  intros Hy. unfold four_digits. rewrite year_shows, <- app_assoc by done.
  assert (10 <= y / 100 <= 99) by (split; [apply Z.div_le_lower_bound|apply Z.lt_succ_r, Z.div_lt_upper_bound]; lia).
  assert (0 <= y mod 100 <= 99) by (pose proof (Z.mod_pos_bound y 100 ltac:(lia)); lia).
  eapply first_bind; [rewrite two_read by lia; by eexists|]. cbv beta iota. eapply first_bind; [rewrite two_read by lia; by eexists|].
  cbv beta iota. replace (y / 100 * 100 + y mod 100) with y by (pose proof (Z.div_mod y 100 ltac:(lia)); lia). by eexists.
Qed.
Definition shown_date (d : datetime) : option_value :=
  Datetime (dt_year d) (dt_month d) (dt_day d) (dt_hour d) (dt_minute d) (dt_second d).
Lemma clock_read d : valid_date d = true -> 1000 <= dt_year d -> strptime (B (show_option (shown_date d))) = Ok d.
Proof.
  intros Hv Hy. pose proof Hv as Hb. unfold valid_date in Hb. rewrite !andb_true_iff, !Z.leb_le in Hb.
  assert (days_in_month (dt_year d) (dt_month d) <= 31) by (unfold days_in_month; repeat case_match; lia).
  unfold strptime. enough (first_is (clock_matches (B (show_option (shown_date d)))) (d, [])) as [r ->] by by rewrite Hv.
  unfold show_option, shown_date. rewrite !B_app. unfold clock_matches.
  eapply first_bind; [apply year_read; lia|]. cbv beta iota. eapply first_bind; [apply field_read; lia|]. cbv beta iota.
  eapply first_bind; [apply first_app, field_read; lia|]. cbv beta iota. eapply first_bind; [by eexists|].
  eapply first_bind; [apply field_read; lia|]. cbv beta iota. eapply first_bind; [by eexists|].
  eapply first_bind; [apply field_read; lia|]. cbv beta iota. eapply first_bind; [by eexists|].
  rewrite <- (app_nil_r (B (pad2 (dt_second d)))). eapply first_bind; [apply field_read; lia|]. cbv beta iota. destruct d; by eexists.
Qed.

Lemma shown_item o k v : (k, v) ∈ o_items o -> (k, show_option v) ∈ shown_items o.
Proof. intros Hin. unfold shown_items. apply list_elem_of_fmap. by exists (k, v). Qed.
Lemma conf_has o k : NoDup (o_items o).*1 -> k ∈ (o_items o).*1 -> exists a, conf_get (arrived <$> shown_items o) k = Ok a.
Proof.
  intros Hnd Hk. apply list_elem_of_fmap in Hk as ([k' v] & -> & Hin). unfold conf_get. cbn [fst].
  rewrite (attribute_of o k' (show_option v)) by (done || by apply shown_item). by eexists.
Qed.
Lemma clock_text d : exists s, show_option (shown_date d) = s /\ ":"%char ∈ B s.
Proof. eexists. split; [done|]. unfold show_option, shown_date. rewrite !B_app. set_solver. Qed.

(** A name that is nothing but a name: neither quoted nor part of a path. *)
Definition plain_name (l : bytes) : Prop := l <> [] /\ head l <> Some "'"%char /\ SLASH ∉ l /\ BACKSLASH ∉ l /\ COLON ∉ l.
Definition drive_path (l : bytes) : Prop := SLASH ∉ l /\ exists d r, l = d :: COLON :: BACKSLASH :: r.
Lemma norm_no_slash l : SLASH ∉ l -> norm_seps l = l.
Proof.
  induction l as [|c l IH]; [done|]. intros [Hc Hl]%not_elem_of_cons. unfold norm_seps, replace_byte in *. cbn. rewrite IH by done.
  by rewrite decide_False.
Qed.
Lemma plain_no_drive n : plain_name n -> splitdrive n = ([], n) /\ exists c l, n = c :: l /\ is_sep c = false.
Proof.
  intros (Hne & _ & Hs & Hb & Hc). unfold splitdrive. rewrite norm_no_slash by done. destruct n as [|c l]; [done|].
  apply not_elem_of_cons in Hs as [Hs _], Hb as [Hb _], Hc as [_ Hc]. split.
  - destruct l as [|b l]; [done|]. apply not_elem_of_cons in Hc as [Hc _].
    rewrite bool_decide_eq_false_2 by naive_solver. by rewrite bool_decide_eq_false_2.
  - exists c, l. split; [done|]. apply bool_decide_eq_false_2. naive_solver.
Qed.
Lemma drive_join t n : drive_path t -> plain_name n -> nt_join (t ++ [BACKSLASH]) n = t ++ BACKSLASH :: n.
Proof.
  intros (Ht & d & r & ->) Hn. destruct (plain_no_drive n Hn) as (Hd & c & l & -> & Hc). unfold nt_join. rewrite Hd.
  unfold splitdrive. rewrite norm_no_slash by set_solver. cbn [app]. rewrite bool_decide_eq_false_2 by (intros (_ & ? & _); discriminate).
  rewrite bool_decide_eq_true_2 by done. cbn [take drop]. rewrite Hc. rewrite bool_decide_eq_false_2 by by intros [? _].
  change (BACKSLASH :: r ++ [BACKSLASH]) with ((BACKSLASH :: r) ++ [BACKSLASH]).
  rewrite reverse_app. change (is_sep BACKSLASH) with true. cbn. rewrite bool_decide_eq_true_2 by done.
  change (is_sep BACKSLASH) with true. cbn. by rewrite <- app_assoc.
Qed.
Lemma stored_there temp name : drive_path (B temp) -> plain_name (B name) ->
  B (win_path (temp +:+ BS) [name]) = norm_seps (B (py_join temp name)).
Proof.
  intros Ht Hn. unfold win_path, py_join. rewrite !B_text, B_app. cbn [fold_left]. change (B BS) with [BACKSLASH].
  rewrite drive_join by done. unfold os_path_join. destruct Ht as [Ht (d & r & E)], Hn as (_ & _ & Hs & _).
  assert (has_prefix [SLASH] (B name) = false) as ->.
  { destruct (B name) as [|c l]; [done|]. apply not_elem_of_cons in Hs as [Hs _]. cbn. by rewrite bool_decide_eq_false_2. }
  destruct (reverse (B temp)) as [|c l] eqn:Er; [by apply (f_equal reverse) in Er; rewrite reverse_involutive, E in Er|].
  rewrite decide_False by (intros ->; apply Ht; apply elem_of_reverse; rewrite Er; left).
  pose proof (norm_no_slash _ Ht) as E1. pose proof (norm_no_slash _ Hs) as E2. unfold norm_seps, replace_byte in *.
  rewrite fmap_app, fmap_cons, E1, E2. done.
Qed.
Lemma unquoted s : head (B s) <> Some "'"%char -> unquote s = s.
Proof.
  unfold unquote. destruct (B s) as [|c l]; [done|]. cbn. intros Hc. destruct (reverse l); [done|]. by rewrite bool_decide_eq_false_2 by naive_solver.
Qed.
(** C36. From host to guest, for a file whose task has a date and options: when no
    value has a percent sign or more than one line, the analyzer in the guest finishes
    its preparation with the clock set to exactly that date, and with the options
    the host reads in the task itself. Its target is the name of the sample without
    quotes around it; for a plain name, and a path with a drive as
    the directory, that is where the manager asks the agent to store the sample. *)
Theorem prepared_as_asked o temp d opts :
  Forall good_item (o_items o) -> NoDup (o_items o).*1 -> Forall (fun kv => no_percent kv.2) (shown_items o) ->
  valid_date d = true -> 1000 <= dt_year d -> ("clock", shown_date d) ∈ o_items o ->
  ("category", Shown "file") ∈ o_items o -> ("file_name", Shown (o_file_name o)) ∈ o_items o -> ("options", Shown opts) ∈ o_items o ->
  Forall (fun k => k ∈ (o_items o).*1) ["timeout"; "ip"; "port"] -> "="%char ∈ B opts ->
  exists pr, prepare_config (Some temp) (B (config_text o)) = Ok pr /\ pr_clock pr = d /\
    pr_options pr = (fun o => (o.1, OText o.2)) <$> parse_options opts /\
    pr_target pr = win_path (temp +:+ BS) [unquote (o_file_name o)] /\
    (plain_name (B (o_file_name o)) -> drive_path (B temp) -> B (pr_target pr) = norm_seps (B (py_join temp (o_file_name o)))).
Proof.
  intros Hg Hnd Hp Hv Hy Hclock Hcat Hname Hopts Hks Heq. unfold prepare_config. rewrite config_read_back by done. cbn [rbind].
  rewrite (options_arrive o opts Hnd (shown_item o _ _ Hopts) Heq). decompose_Forall_hyps.
  assert (forall k v, (k, v) ∈ o_items o -> conf_get (arrived <$> shown_items o) k = Ok (arrived (k, show_option v)).2) as Hget.
  { intros k v Hin. unfold conf_get. rewrite (attribute_of o k (show_option v)); [done..|]. by apply shown_item. }
  rewrite (Hget _ _ Hclock). cbn [rbind].
  destruct (conf_has o "timeout") as [a1 ->]; [done..|]. destruct (conf_has o "ip") as [a2 ->]; [done..|].
  destruct (conf_has o "port") as [a3 ->]; [done..|]. rewrite (Hget _ _ Hcat), (Hget _ _ Hname).
  unfold arrived. cbn [fst snd]. rewrite (bool_decide_eq_false_2 ("clock" = "file_name")) by done.
  rewrite (bool_decide_eq_false_2 ("category" = "file_name")), (bool_decide_eq_true_2 ("file_name" = "file_name")) by done.
  destruct (clock_text d) as (s & Es & Hs). rewrite (text_with ":"%char) by (done || by rewrite Es).
  cbn [set_clock]. rewrite clock_read by done. cbn [rbind]. eexists. split; [reflexivity|].
  split_and!; [done..|]. intros Hn Ht. cbn [pr_target attr_text show_option]. rewrite unquoted by apply Hn. by apply stored_there.
Qed.

(** ** Examples *)

Definition file_task (name file_type : string) : task_options :=
  {| o_items := [("id", Shown "7"); ("ip", Shown "10.0.0.1"); ("port", Shown "2042"); ("category", Shown "file"); ("target", Shown "/tmp/a");
                 ("package", Shown ""); ("options", Shown "procdump=0,dll=x.dll"); ("enforce_timeout", Shown "False"); ("timeout", Shown "200");
                 ("clock", Datetime 2024 2 29 23 4 5); ("file_name", Shown name); ("file_type", Shown file_type);
                 ("exports", Shown "None")];
     o_timeout := 200; o_options := "procdump=0,dll=x.dll"; o_category := "file"; o_target := "/tmp/a"; o_file_name := name |}.
Definition file_conf (name file_type : string) : conf := arrived <$> shown_items (file_task name file_type).
Definition toy_launch (name file_type : string) : st winst launched :=
  run_launch (H:=toy_winapi) (H0:=toy_files) (pk_win toy_cfg) 2 (file_conf name file_type) (fun _ _ => Ok []) [emit (ESleep 1)] ("C:\T\" +:+ name).
Definition toy_new : winst :=
  {| trace := []; process_num := 0; LOGSERVER_POOL := []; ATTEMPTED_APC_INJECTS := []; ATTEMPTED_THREAD_INJECTS := []; w_options := [] |}.
Fixpoint split_create (t : wtrace) : option (wtrace * (string * string * Z) * wtrace) :=
  match t with
  | [] => None
  | ECreate p a f :: t' => Some ([], (p, a, f), t')
  | e :: t' => '(t1, x, t2) ← split_create t'; Some (e :: t1, x, t2)
  end.
Lemma split_create_eq t : forall t1 p a f t2, split_create t = Some (t1, (p, a, f), t2) -> t = t1 ++ ECreate p a f :: t2.
Proof.
  induction t as [|e t IH]; intros t1 p a f t2; [done|]. cbn.
  destruct e; try (destruct (split_create t) as [[[? [[? ?] ?]] ?]|] eqn:E; [|done]; intros [= <- <- <- <- <-]; cbn; f_equal; by apply IH).
  intros [= <- <- <- <- <-]. done.
Qed.
Lemma prepared_as_asked_witness : exists pr, prepare_config (Some "C:\T") (B (config_text (file_task "a.exe" "PE32 executable"))) = Ok pr /\
  pr_clock pr = {| dt_year := 2024; dt_month := 2; dt_day := 29; dt_hour := 23; dt_minute := 4; dt_second := 5 |} /\
  pr_options pr = [("procdump", OText "0"); ("dll", OText "x.dll")] /\ pr_target pr = "C:\T\a.exe" /\
  (plain_name (B "a.exe") -> drive_path (B "C:\T") -> B (pr_target pr) = norm_seps (B (py_join "C:\T" "a.exe"))).
Proof.
  apply (prepared_as_asked (file_task "a.exe" "PE32 executable") "C:\T"
    {| dt_year := 2024; dt_month := 2; dt_day := 29; dt_hour := 23; dt_minute := 4; dt_second := 5 |} "procdump=0,dll=x.dll").
  1-2,4-5: first [by apply (bool_decide_unpack _); vm_compute|done].
  all: first [by apply (bool_decide_unpack _); vm_compute|done|cbn; set_solver].
Defined.
(** A name in quotes: the agent is asked for one file, the analyzer looks for another. *)
Example quoted_name : option_map pr_target (match prepare_config (Some "C:\T") (B (config_text (file_task "'a'" "PE32 executable"))) with Ok p => Some p | _ => None end)
    = Some "C:\T\a" /\ py_join "C:\T" "'a'" = "C:\T/'a'".
Proof. split; by vm_compute. Qed.
Lemma unknown_package_reported_witness : (toy_launch "style.xsl" "XSL stylesheet text" toy_new).1 = Raise CuckooError.
Proof.
  unfold toy_launch.
  refine (proj1 (unknown_package_reported (H:=toy_winapi) (H0:=toy_files) (pk_win toy_cfg) 2 (file_conf "style.xsl" "XSL stylesheet text") (fun _ _ => Ok [])
    [emit (ESleep 1)] ("C:\T\" +:+ "style.xsl") toy_new "xslt" _ _)); by vm_compute.
Defined.
Lemma tools_before_process_witness :
  match split_create (trace (toy_launch "a.exe" "PE32 executable" toy_new).2) with
  | Some (t1, _, _) => ERun START_WMI ∈ t1
  | None => False
  end.
Proof.
  unfold toy_launch.
  destruct (split_create _) as [[[t1 [[p a] f]] t2]|] eqn:E; [|by vm_compute in E]. apply split_create_eq in E.
  refine (proj2 (proj2 (tools_before_process (H:=toy_winapi) (H0:=toy_files) (pk_win toy_cfg) 2 (file_conf "a.exe" "PE32 executable") (fun _ _ => Ok [])
    [emit (ESleep 1)] (Hlaws:=_) ("C:\T\" +:+ "a.exe") toy_new t1 p a f t2 eq_refl _ E))).
  - split. intros t p' a' f' pid hp tid th [= <- <- <- <-]. done.
  - repeat constructor. by apply grows_ask.
Defined.
