(* ===== verification/AutoProcess.v ===== *)
(** The loop that processes finished analyses, autoprocess of utils/process.py:
    the choice of a task from the queue (TaskQueue.v), the workers, which run at
    the same time, and the callback for each that ends. *)
From S2P Require Import Prelude Struct Pretty ProcessLog Database TaskQueue.
Open Scope string_scope.
Open Scope list_scope.
Open Scope Z_scope.

Record auto_cfg := {
  parallel : nat; maxcount : Z; failed_processing : bool; delete_bin_copy : bool; delete_original : bool; root : string }.

(** Where the loop is: at its top, going through the rows it was given, or over. *)
Inductive position := Top | Looking (rows : list (Z * Task)) | Ended.

(** The database, the two maps between futures and tasks, the number of tasks
    that were started and which, the next future, and the files there are. *)
Record auto := {
  a_db : Database; pending_future_map : gmap nat Z; pending_task_id_map : gmap Z nat; count : Z; begun : list Z; next_future : nat;
  a_files : gset string; a_pos : position }.
Definition new_auto (d : Database) (fs : gset string) : auto :=
  {| a_db := d; pending_future_map := ∅; pending_task_id_map := ∅; count := 0; begun := []; next_future := 0; a_files := fs; a_pos := Top |}.
Definition with_db (d : Database) (s : auto) : auto :=
  {| a_db := d; pending_future_map := pending_future_map s; pending_task_id_map := pending_task_id_map s; count := count s; begun := begun s;
     next_future := next_future s; a_files := a_files s; a_pos := a_pos s |}.
Definition with_pos (p : position) (s : auto) : auto :=
  {| a_db := a_db s; pending_future_map := pending_future_map s; pending_task_id_map := pending_task_id_map s; count := count s; begun := begun s;
     next_future := next_future s; a_files := a_files s; a_pos := p |}.
Definition with_files (f : gset string -> gset string) (s : auto) : auto :=
  {| a_db := a_db s; pending_future_map := pending_future_map s; pending_task_id_map := pending_task_id_map s; count := count s; begun := begun s;
     next_future := next_future s; a_files := f (a_files s); a_pos := a_pos s |}.

(** [completed_on] in ascending order; where rows without one come depends on
    the backend. *)
Definition by_completion (nulls_first : bool) (a b : Z * Task) : bool :=
  match t_completed_on a.2, t_completed_on b.2 with
  | Some x, Some y => x <=? y
  | None, None => true
  | None, Some _ => nulls_first
  | Some _, None => negb nulls_first
  end.

Section auto.
Context `{SqlBackend} (cfg : auto_cfg) (nulls_first : bool).

Definition wanted_status : task_status := if failed_processing cfg then TASK_FAILED_PROCESSING else TASK_COMPLETED.
Definition status_filter : task_filter :=
  {| f_status := Some wanted_status; f_not_status := None; f_category := None; f_sample_id := None; f_id_before := None; f_id_after := None;
     f_completed_after := None; f_added_before := None; f_options_like := None; f_tags_tasks_like := None; f_task_ids := []; f_hashes := false |}.
Definition find_tasks : st Database (list (Z * Task)) :=
  list_tasks status_filter (Some (by_completion nulls_first)) (Some (parallel cfg)) None.
Definition goes_on (s : auto) : bool := (count s <? maxcount cfg) || (maxcount cfg =? 0).
(** The copy of a sample; a sample that is not found has no digest. *)
Definition copy_path_of (id : Z) (t : Task) : st Database (option (string * string)) :=
  if bool_decide (t_category t = CUrl) then sret None
  else
    let* sample := match t_sample_id t with Some i => view_sample i | None => sret None end in
    match sample with
    | Some s => sret (Some (root cfg +:+ "/storage/binaries/" +:+ str_int id +:+ "/" +:+ s_sha256 s, root cfg +:+ "/storage/binaries/" +:+ s_sha256 s))
    | None => sraise AttributeError
    end.
(** A worker is given the task; the binary is deleted right away, if that is
    configured. *)
Definition schedule (id : Z) (origin : option string) (s : auto) : auto :=
  {| a_db := a_db s; pending_future_map := <[next_future s := id]> (pending_future_map s);
     pending_task_id_map := <[id := next_future s]> (pending_task_id_map s); count := count s + 1; begun := begun s ++ [id];
     next_future := S (next_future s);
     a_files := match origin with Some p => if delete_bin_copy cfg then a_files s ∖ {[p]} else a_files s | None => a_files s end; a_pos := Top |}.
(** One task of the rows. *)
Definition look_at (s : auto) : auto :=
  match a_pos s with
  | Looking [] => with_pos Top s
  | Looking ((id, t) :: rows) =>
      match pending_task_id_map s !! id with
      | Some _ => with_pos (Looking rows) s
      | None =>
          match copy_path_of id t (a_db s) with
          | (Ok paths, d) => schedule id (snd <$> paths) (with_db d s)
          | (Raise _, d) => with_pos Ended (with_db d s)
          end
      end
  | _ => s
  end.
(** The beginning of a round: the end, a pause when all workers are busy, or new
    rows. *)
Definition top_round (s : auto) : auto :=
  match a_pos s with
  | Top =>
      if negb (goes_on s) then with_pos Ended s
      else if (parallel cfg <=? size (pending_task_id_map s))%nat then s
      else match find_tasks (a_db s) with
           | (Ok rows, d) => with_pos (Looking rows) (with_db d s)
           | (Raise _, d) => with_pos Ended (with_db d s)
           end
  | _ => s
  end.
(** The worker's process has written the reports: the status, and with [auto]
    the files that may go. *)
Definition worker_reports (now id : Z) (target : string) (copy_path : option string) (s : auto) : auto :=
  let s := with_db (set_status now id TASK_REPORTED (a_db s)).2 s in
  with_files (fun fs =>
    let fs := if delete_original cfg then fs ∖ {[target]} else fs in
    match copy_path with Some p => if delete_bin_copy cfg then fs ∖ {[p]} else fs | None => fs end) s.
(** [processing_finished]. *)
Definition finished (now : Z) (f : nat) (ok : bool) (s : auto) : auto :=
  match pending_future_map s !! f with
  | None => s
  | Some id =>
      let d := if ok then a_db s else (set_status now id TASK_FAILED_PROCESSING (a_db s)).2 in
      {| a_db := d; pending_future_map := delete f (pending_future_map s); pending_task_id_map := delete id (pending_task_id_map s);
         count := count s; begun := begun s; next_future := next_future s; a_files := a_files s; a_pos := a_pos s |}
  end.

(** The loop, the workers, the callbacks and the rest of the system take turns.
    Free space and pauses only delay the loop. *)
Inductive auto_step : relation auto :=
| step_top s : auto_step s (top_round s)
| step_look s : auto_step s (look_at s)
| step_report s now f id target copy : pending_future_map s !! f = Some id -> auto_step s (worker_reports now id target copy s)
| step_finished s now f ok : is_Some (pending_future_map s !! f) -> auto_step s (finished now f ok s)
| step_others s d : auto_step s (with_db d s).
End auto.

(** ** One worker for a task, and no more workers than allowed *)

Section safety.
Context `{SqlBackend} (cfg : auto_cfg) (nulls_first : bool).

Record auto_ok (s : auto) : Prop := {
  maps_agree : forall f id, pending_future_map s !! f = Some id <-> pending_task_id_map s !! id = Some f;
  futures_old : forall f id, pending_future_map s !! f = Some id -> (f < next_future s)%nat;
  workers_bound : (size (pending_task_id_map s) <= parallel cfg)%nat;
  begun_counted : count s = zlen (begun s);
  begun_bound : maxcount cfg <> 0 -> count s <= Z.max 0 (maxcount cfg);
  looking_room : forall rows, a_pos s = Looking rows -> (size (pending_task_id_map s) < parallel cfg)%nat /\ goes_on cfg s = true }.
Lemma new_auto_ok d fs : auto_ok (new_auto d fs).
Proof. split; cbn; intros; rewrite ?map_size_empty, ?lookup_empty in *; try done; lia. Qed.
Lemma pos_ok p s : auto_ok s -> (forall rows, p = Looking rows -> (size (pending_task_id_map s) < parallel cfg)%nat /\ goes_on cfg s = true) ->
  auto_ok (with_pos p s).
Proof. intros [] Hp. by split. Qed.
Lemma db_ok d s : auto_ok s -> auto_ok (with_db d s).
Proof. intros []. by split. Qed.
Lemma schedule_ok id o s : auto_ok s -> (size (pending_task_id_map s) < parallel cfg)%nat -> goes_on cfg s = true -> pending_task_id_map s !! id = None ->
  auto_ok (schedule cfg id o s).
Proof.
  intros [Ha Hf Hw Hc Hm _] Hlt Hgo Hid. split; cbn.
  - intros f i. destruct (decide (f = next_future s)) as [->|Hne], (decide (i = id)) as [->|Hni].
    + rewrite !lookup_insert_eq. by split.
    + rewrite lookup_insert_eq, lookup_insert_ne by done. split; [congruence|]. intros Hi. apply Ha, Hf in Hi. lia.
    + rewrite lookup_insert_eq, lookup_insert_ne by done. split; [|congruence]. intros Hi. apply Ha in Hi. congruence.
    + rewrite !lookup_insert_ne by done. apply Ha.
  - intros f i. destruct (decide (f = next_future s)) as [->|Hne]; [lia|]. rewrite lookup_insert_ne by done. intros Hi%Hf. lia.
  - rewrite map_size_insert_None by done. lia.
  - unfold zlen in *. rewrite length_app. cbn. lia.
  - intros Hne. unfold goes_on in Hgo. apply orb_true_iff in Hgo as [Hgo%Z.ltb_lt|Hgo%Z.eqb_eq]; lia.
  - done.
Qed.
Lemma finished_ok now f ok s : auto_ok s -> auto_ok (finished now f ok s).
Proof.
  intros Hs. unfold finished. destruct (pending_future_map s !! f) as [id|] eqn:Hf; [|done]. destruct Hs as [Ha Ho Hw Hc Hm Hl].
  assert (size (delete id (pending_task_id_map s)) <= size (pending_task_id_map s))%nat as Hsz.
  { rewrite map_size_delete. case_match; [apply Nat.le_pred_l|done]. }
  split; cbn; [|by intros f' i [_ Hi]%lookup_delete_Some; eapply Ho|lia|done|done|].
  - intros f' i. rewrite !lookup_delete_Some, Ha. split; intros [Hne Hi]; (split; [|done]); intros <-; apply Hne; apply Ha in Hf; [|]; try congruence.
    apply Ha in Hi. apply Ha in Hf. congruence.
  - intros rows Hp. destruct (Hl rows Hp). split; [lia|done].
Qed.
Lemma look_ok s : auto_ok s -> auto_ok (look_at cfg s).
Proof.
  intros Hs. unfold look_at. destruct (a_pos s) as [|[|[id t] rows]|] eqn:Hp; [done|by apply pos_ok| |done].
  destruct (looking_room _ Hs _ Hp) as [Hlt Hgo]. destruct (pending_task_id_map s !! id) eqn:Hid; [by apply pos_ok|].
  destruct (copy_path_of cfg id t (a_db s)) as [[paths|e] d]; [by apply schedule_ok; [apply db_ok|..]|by apply pos_ok; [apply db_ok|]].
Qed.
Lemma top_ok s : auto_ok s -> auto_ok (top_round cfg nulls_first s).
Proof.
  intros Hs. unfold top_round. destruct (a_pos s); [|done..]. destruct (goes_on cfg s) eqn:Hgo; cbn [negb]; [|by apply pos_ok].
  destruct (Nat.leb_spec (parallel cfg) (size (pending_task_id_map s))); [done|].
  destruct (find_tasks cfg nulls_first (a_db s)) as [[rows|e] d]; apply pos_ok; try done; by apply db_ok.
Qed.

(** C37. However the loop, the workers, their callbacks and the rest of the
    system take turns: no task is with two workers at the same time, never are
    there more workers than allowed, and with a limit on the number of analyses
    no more than that many are begun. *)
Theorem autoprocess_invariant d fs s : rtc (auto_step cfg nulls_first) (new_auto d fs) s ->
  (forall f id, pending_future_map s !! f = Some id <-> pending_task_id_map s !! id = Some f) /\
  (size (pending_task_id_map s) <= parallel cfg)%nat /\ (0 < maxcount cfg -> zlen (begun s) <= maxcount cfg).
Proof.
  intros Hr. assert (auto_ok s) as Hs.
  { pose proof (new_auto_ok d fs) as H0. remember (new_auto d fs) as s0 eqn:E0. clear E0. induction Hr as [s|s1 s2 s3 Hst _ IH]; [done|]. apply IH.
    destruct Hst; [by apply top_ok|by apply look_ok|by destruct H0; split|by apply finished_ok|by apply db_ok]. }
  split_and!; [apply Hs..|]. intros Hm. rewrite <- (begun_counted _ Hs). pose proof (begun_bound _ Hs ltac:(lia)). lia.
Qed.
End safety.

(** ** The oldest task that waits *)

Section choice.
Context `{SqlBackend} (Hr : reliable) (cfg : auto_cfg) (nulls_first : bool).
Abbreviation before := (by_completion nulls_first).

Lemma completion_total : Total (holds2 before).
Proof.
  intros a b. unfold holds2, by_completion. destruct (t_completed_on a.2), (t_completed_on b.2), nulls_first; rewrite ?Z.leb_le; auto; lia.
Qed.
Lemma completion_trans : Transitive (holds2 before).
Proof.
  intros a b c. unfold holds2, by_completion. destruct (t_completed_on a.2), (t_completed_on b.2), (t_completed_on c.2), nulls_first;
    rewrite ?Z.leb_le; cbn; try done; lia.
Qed.
Definition waits (d : Database) (id : Z) (t : Task) : Prop := tasks d !! id = Some t /\ t_status t = wanted_status cfg.
Lemma matches_waits ss id t : task_matches (status_filter cfg) ss id t = bool_decide (t_status t = wanted_status cfg).
Proof. unfold task_matches, status_filter. cbn. by rewrite !andb_true_r. Qed.
(** The rows are the first ones of all that wait, in order. *)
Lemma find_tasks_spec d : exists rows, (find_tasks cfg nulls_first d).1 = Ok (take (parallel cfg) rows) /\ NoDup rows.*1 /\
  StronglySorted (holds2 before) rows /\ forall id t, (id, t) ∈ rows <-> waits d id t.
Proof using Hr.
  destruct (list_tasks_spec Hr (status_filter cfg) (Some before) (Some (parallel cfg)) None d completion_total completion_trans)
    as (rows & E & Hnd & Hs & Hin). exists rows.
  assert (forall id t, (id, t) ∈ rows <-> waits d id t) as Hw.
  { intros id t. rewrite Hin, matches_waits, bool_decide_eq_true. done. }
  split_and!; [exact E| |done|done]. apply NoDup_fmap_fst; [|done]. intros id t1 t2 [H1 _]%Hw [H2 _]%Hw. congruence.
Qed.
Lemma find_tasks_db d : (find_tasks cfg nulls_first d).2 = tick d.
Proof using Hr. unfold find_tasks, list_tasks. by erewrite try_sql_ok; [|by rewrite (query_fine Hr)]. Qed.
(** Going through the rows: what is passed over is with a worker. *)
Fixpoint choose (pending : gmap Z nat) (rows : list (Z * Task)) : option (Z * Task) :=
  match rows with [] => None | r :: rows => match pending !! r.1 with Some _ => choose pending rows | None => Some r end end.
Lemma choose_spec pending rows : match choose pending rows with
  | Some r => exists l1 l2, rows = l1 ++ r :: l2 /\ Forall (fun x => is_Some (pending !! x.1)) l1 /\ pending !! r.1 = None
  | None => Forall (fun x => is_Some (pending !! x.1)) rows end.
Proof.
  induction rows as [|r rows IH]; cbn; [done|]. destruct (pending !! r.1) eqn:E; [|exists [], rows; by repeat split].
  destruct (choose pending rows) as [x|]; [|by constructor]. destruct IH as (l1 & l2 & -> & Hf & Hx). exists (r :: l1), l2.
  split_and!; [done| |done]. by constructor.
Qed.
(** Pigeons: as many rows as there may be workers cannot all be with workers. *)
Lemma not_all_pending (pending : gmap Z nat) (rows : list (Z * Task)) : NoDup rows.*1 -> Forall (fun x => is_Some (pending !! x.1)) rows ->
  (length rows <= size pending)%nat.
Proof.
  intros Hnd Hall. rewrite <- (length_fmap fst). rewrite <- size_dom. rewrite <- (size_list_to_set (C:=gset Z)) by done.
  apply subseteq_size. intros id Hid. apply elem_of_list_to_set, list_elem_of_fmap in Hid as (x & -> & Hx). apply elem_of_dom.
  rewrite Forall_forall in Hall. by apply Hall.
Qed.
Lemma choose_oldest d pending id t : (size pending < parallel cfg)%nat -> waits d id t -> pending !! id = None ->
  exists rows r, (find_tasks cfg nulls_first d).1 = Ok rows /\ choose pending rows = Some r /\ waits d r.1 r.2 /\ pending !! r.1 = None /\
    before r (id, t) = true.
Proof using Hr.
  intros Hsz Hw Hp. destruct (find_tasks_spec d) as (rows & E & Hnd & Hs & Hin). exists (take (parallel cfg) rows).
  pose proof (choose_spec pending (take (parallel cfg) rows)) as Hc. apply Hin in Hw.
  destruct (choose pending (take (parallel cfg) rows)) as [r|].
  - destruct Hc as (l1 & l2 & Et & Hf & Hn). exists r. split_and!; [done..| |done|].
    + destruct r as [i u]. apply Hin. rewrite <- (take_drop (parallel cfg) rows), Et. apply elem_of_app. left. apply elem_of_app. right. left.
    + rewrite <- (take_drop (parallel cfg) rows), Et, <- app_assoc in Hs, Hw. cbn in Hs, Hw.
      apply elem_of_app in Hw as [Hw|Hw].
      { rewrite Forall_forall in Hf. apply Hf in Hw as [f Hw]. cbn in Hw. congruence. }
      apply elem_of_cons in Hw as [->|Hw].
      { pose proof (completion_total r r) as [Hx|Hx]; exact Hx. }
      apply StronglySorted_app_1_r in Hs. apply StronglySorted_inv in Hs as [_ Hs]. rewrite Forall_forall in Hs. exact (Hs _ Hw).
  - exfalso. assert (NoDup (take (parallel cfg) rows).*1) as Hnt by (rewrite <- (take_drop (parallel cfg) rows), fmap_app in Hnd; by apply NoDup_app in Hnd as [? _]).
    pose proof (not_all_pending _ _ Hnt Hc) as Hle. rewrite length_take in Hle.
    assert (length rows < parallel cfg)%nat as Hlen by lia. rewrite take_ge in Hc by lia.
    rewrite Forall_forall in Hc. apply Hc in Hw as [f Hf]. cbn in Hf. congruence.
Qed.
(** The copies can be named. *)
Definition has_sample (d : Database) (t : Task) : Prop := t_category t = CUrl \/ exists i, t_sample_id t = Some i /\ is_Some (samples d !! i).
Lemma copy_path_ok d id t : has_sample d t -> exists p, (copy_path_of cfg id t d).1 = Ok p.
Proof using Hr.
  intros Hs. unfold copy_path_of. destruct Hs as [->|(i & -> & x & Hx)]; [rewrite bool_decide_eq_true_2 by done; by eexists|].
  case_bool_decide; [by eexists|]. unfold view_sample, sbind. erewrite try_sql_ok; [|by rewrite (query_fine Hr)]. rewrite Hx. by eexists.
Qed.
Lemma look_chooses rows : forall s r, a_pos s = Looking rows -> choose (pending_task_id_map s) rows = Some r ->
  is_Some (let '(q, _) := copy_path_of cfg r.1 r.2 (a_db s) in match q with Ok p => Some p | _ => None end) ->
  exists k, let s' := Nat.iter k (look_at cfg) s in begun s' = begun s ++ [r.1] /\ is_Some (pending_task_id_map s' !! r.1) /\ a_pos s' = Top.
Proof using Type.
  induction rows as [|[id t] rows IH]; intros s r Hp Hc Hq; cbn in Hc; [done|].
  destruct (pending_task_id_map s !! id) eqn:Hid.
  - destruct (IH (with_pos (Looking rows) s) r eq_refl Hc Hq) as (k & Hk). exists (S k). cbv zeta.
    rewrite !Nat.iter_succ_r. replace (look_at cfg s) with (with_pos (Looking rows) s) by (unfold look_at; by rewrite Hp, Hid). exact Hk.
  - injection Hc as <-. cbn in Hq. exists 1%nat. cbn. unfold look_at. rewrite Hp, Hid.
    destruct (copy_path_of cfg id t (a_db s)) as [[p|e] d]; [|by destruct Hq]. cbn. rewrite lookup_insert_eq. by repeat split.
Qed.

(** C38. When a worker is free and the limit is not reached, a task that waits is
    begun in this very round, unless all are: the loop does not look at the same
    busy tasks for ever, although it asks for no more rows than there are
    workers. The one it begins was completed no later than any that waits. *)
Theorem oldest_waiting_begun s id t : a_pos s = Top -> goes_on cfg s = true -> (size (pending_task_id_map s) < parallel cfg)%nat ->
  (forall i u, waits (a_db s) i u -> has_sample (a_db s) u) -> waits (a_db s) id t -> pending_task_id_map s !! id = None ->
  exists r k, let s' := Nat.iter k (look_at cfg) (top_round cfg nulls_first s) in
    begun s' = begun s ++ [r.1] /\ is_Some (pending_task_id_map s' !! r.1) /\ pending_task_id_map s !! r.1 = None /\
    waits (a_db s) r.1 r.2 /\ before r (id, t) = true.
Proof using Hr.
  intros Hp Hgo Hsz Hsam Hw Hn. destruct (choose_oldest _ _ _ _ Hsz Hw Hn) as (rows & r & E & Hc & Hwr & Hnr & Hb). exists r.
  assert (top_round cfg nulls_first s = with_pos (Looking rows) (with_db (find_tasks cfg nulls_first (a_db s)).2 s)) as Et.
  { unfold top_round. rewrite Hp, Hgo. cbn [negb]. destruct (Nat.leb_spec (parallel cfg) (size (pending_task_id_map s))); [lia|].
    destruct (find_tasks _ _ _) as [q d]. cbn in E. by subst q. }
  destruct r as [i u]. cbn [fst snd] in *.
  destruct (look_chooses rows (with_pos (Looking rows) (with_db (find_tasks cfg nulls_first (a_db s)).2 s)) (i, u) eq_refl Hc) as (k & Hk).
  { cbn [fst snd a_db with_pos with_db]. assert (has_sample (find_tasks cfg nulls_first (a_db s)).2 u) as Hs.
    { rewrite find_tasks_db. by apply Hsam in Hwr. }
    destruct (copy_path_ok _ i u Hs) as [p Hq]. destruct (copy_path_of _ _ _ _). cbn in Hq. subst. by eexists. }
  exists k. rewrite Et. cbv zeta in Hk |- *. destruct Hk as (H1 & H2 & _). split_and!; done.
Qed.

(** ** A task that is processed twice *)

Lemma copy_path_db id t d : tasks (copy_path_of cfg id t d).2 = tasks d.
Proof using Type.
  unfold copy_path_of, view_sample, try_sql, scatch, query, sbind. case_bool_decide; [done|]. destruct (t_sample_id t); [|done].
  destruct (answer (ticks d)); cbn; [by destruct (samples d !! _)|done..].
Qed.
(** The status is read when the rows are fetched, and the map when a row is
    looked at: when the worker ends in between, its task is begun again, and its
    report is made a second time. *)
Theorem processed_twice s now id t rows f target copy : a_pos s = Looking ((id, t) :: rows) -> auto_ok cfg s ->
  pending_future_map s !! f = Some id -> is_Some (tasks (a_db s) !! id) -> has_sample (a_db s) t ->
  let s' := look_at cfg (finished now f true (worker_reports cfg now id target copy s)) in
  rtc (auto_step cfg nulls_first) s s' /\ begun s' = begun s ++ [id] /\ exists u, tasks (a_db s') !! id = Some u /\ t_status u = TASK_REPORTED.
Proof using Hr.
  intros Hp Hok Hf [t0 Ht0] Hs s'. split.
  { eapply rtc_l; [by eapply (step_report _ _ s now f id)|]. eapply rtc_l; [apply (step_finished _ _ _ now f true); by eexists|].
    eapply rtc_l; [apply step_look|]. apply rtc_refl. }
  set (d := (set_status now id TASK_REPORTED (a_db s)).2).
  assert (tasks d !! id = Some (apply_status now TASK_REPORTED t0) /\ samples d = samples (a_db s)) as [Hd Hsd].
  { unfold d, set_status, sbind. erewrite try_sql_ok; [|rewrite (query_fine Hr), Ht0; by rewrite (commit_fine Hr)].
    cbn. by rewrite lookup_alter_eq, Ht0. }
  assert (has_sample d t) as Hsam by (unfold has_sample; by rewrite Hsd). destruct (copy_path_ok d id t Hsam) as [p Hc].
  pose proof (copy_path_db id t d) as Hdb. unfold s', finished, worker_reports. cbn [pending_future_map with_files with_db]. rewrite Hf.
  unfold look_at. cbn [a_pos pending_task_id_map a_db with_files with_db]. rewrite Hp, lookup_delete_eq. fold d.
  destruct (copy_path_of cfg id t d) as [q d']. cbn in Hc, Hdb. subst q. cbn. split; [done|].
  eexists. split; [by rewrite Hdb|done].
Qed.

(** ** Tasks that fail again and again *)

(** In the mode for failed tasks, no task succeeds. *)
Inductive failing_step : relation auto :=
| fail_top s : failing_step s (top_round cfg nulls_first s)
| fail_look s : failing_step s (look_at cfg s)
| fail_finished s now f : failing_step s (finished now f false s).
Record starved (d : Database) (id : Z) (s : auto) : Prop := {
  same_tasks : tasks (a_db s) = tasks d;
  not_begun : id ∉ begun s;
  rows_wait : forall rows, a_pos s = Looking rows -> Forall (fun r => waits d r.1 r.2 /\ r.1 <> id) rows;
  pending_wait : forall f i, pending_future_map s !! f = Some i -> exists u, waits d i u }.
Lemma fail_again now i d d0 u : tasks d = tasks d0 -> waits d0 i u -> failed_processing cfg = true ->
  tasks (set_status now i TASK_FAILED_PROCESSING d).2 = tasks d0.
Proof using Hr.
  intros Hd [Hi Hst] Hf. unfold wanted_status in Hst. rewrite Hf in Hst. unfold set_status, sbind.
  erewrite try_sql_ok; [|rewrite (query_fine Hr), Hd, Hi; by rewrite (commit_fine Hr)]. cbn. rewrite Hd.
  apply map_eq. intros j. destruct (decide (j = i)) as [->|Hne]; [|by rewrite lookup_alter_ne].
  rewrite lookup_alter_eq, Hi. cbn. f_equal. unfold apply_status, with_run. destruct u; cbn in *. by subst.
Qed.
Lemma finished_starved d id now f s : failed_processing cfg = true -> starved d id s -> starved d id (finished now f false s).
Proof using Hr.
  intros Hf Hs. unfold finished. destruct (pending_future_map s !! f) as [i|] eqn:Hi; [|done]. destruct Hs as [Ht Hn Hrw Hpw].
  destruct (Hpw _ _ Hi) as [u Hu]. split; cbn; [by eapply fail_again|done|done|]. intros f' j [_ Hj]%lookup_delete_Some. by eapply Hpw.
Qed.
Lemma look_starved d id s : starved d id s -> starved d id (look_at cfg s).
Proof using Hr.
  intros Hs. unfold look_at. destruct (a_pos s) as [|[|[i u] rows]|] eqn:Hp; [done| | |done]; destruct Hs as [Ht Hn Hrw Hpw].
  { split; cbn; [done..|]. done. }
  specialize (Hrw _ Hp) as Hall. apply Forall_cons in Hall as [[Hw Hne] Hall]. cbn in Hw, Hne.
  destruct (pending_task_id_map s !! i); [split; cbn; try done; by intros rows' [= <-]|].
  pose proof (copy_path_db i u (a_db s)) as Hdb. destruct (copy_path_of cfg i u (a_db s)) as [[p|e] d']; cbn in Hdb; split; cbn; try done; try congruence.
  - intros [Hin|Hin%list_elem_of_singleton]%elem_of_app; [done|congruence].
  - intros f j. destruct (decide (f = next_future s)) as [->|Hnf]; [rewrite lookup_insert_eq; intros [= <-]; by exists u|].
    rewrite lookup_insert_ne by done. apply Hpw.
Qed.
(** Behind as many tasks as there are workers, none is reached. *)
Definition hopeless (d : Database) (id : Z) (t : Task) : Prop := waits d id t /\ exists L, length L = parallel cfg /\ NoDup L /\
  Forall (fun r => waits d r.1 r.2 /\ before (id, t) r = false) L.
Lemma rows_without d d' id t rows : tasks d' = tasks d -> hopeless d id t -> (find_tasks cfg nulls_first d').1 = Ok rows ->
  Forall (fun r => waits d r.1 r.2 /\ r.1 <> id) rows.
Proof using Hr.
  intros Ht (Hw & L & Hlen & HndL & HL) E. destruct (find_tasks_spec d') as (all & E' & Hnd & Hs & Hin). rewrite E in E'. injection E' as ->.
  assert (forall i u, (i, u) ∈ all <-> waits d i u) as Hin' by (intros i u; rewrite Hin; unfold waits; by rewrite Ht). clear Hin.
  apply Forall_forall. intros [i u] Hi. assert ((i, u) ∈ all) as Hall by (rewrite <- (take_drop (parallel cfg) all); apply elem_of_app; by left).
  split; [by apply Hin'|]. cbn. intros ->. assert (u = t) as -> by (apply Hin' in Hall as [H1 _]; destruct Hw as [H2 _]; congruence).
  apply list_elem_of_split in Hall as (l1 & l2 & ->).
  assert (L ⊆ l1) as Hsub.
  { intros [j v] Hx. rewrite Forall_forall in HL. destruct (HL _ Hx) as [Hwx Hbx]. cbn [fst snd] in Hwx. apply Hin' in Hwx.
    apply elem_of_app in Hwx as [?|[Heq|Hwx]%elem_of_cons]; [done| |].
    - injection Heq as -> ->. destruct (completion_total (id, t) (id, t)) as [Hq|Hq]; unfold holds2 in Hq; congruence.
    - apply StronglySorted_app_1_r in Hs. apply StronglySorted_inv in Hs as [_ Hs]. rewrite Forall_forall in Hs. specialize (Hs _ Hwx).
      unfold holds2 in Hs. congruence. }
  assert (parallel cfg <= length l1)%nat as Hle by (rewrite <- Hlen; by apply submseteq_length, NoDup_submseteq).
  rewrite take_app_le in Hi by done. assert ((id, t) ∈ l1) as Hl1 by (rewrite <- (take_drop (parallel cfg) l1); apply elem_of_app; by left).
  rewrite fmap_app, fmap_cons in Hnd. apply NoDup_app in Hnd as (_ & Hd & _). apply (Hd id); [apply list_elem_of_fmap; by exists (id, t)|by left].
Qed.

(** In the mode that processes failed tasks again, as many tasks as there
    are workers, if they keep failing, keep all later ones from being begun. *)
Theorem failing_tasks_starve d fs id t s : failed_processing cfg = true -> hopeless d id t -> rtc failing_step (new_auto d fs) s -> id ∉ begun s.
Proof using Hr.
  intros Hf Hh Hrt. apply not_begun with d. assert (starved d id (new_auto d fs)) as H0.
  { split; cbn; [done|by intros ?%elem_of_nil|done|]. intros f i. by rewrite lookup_empty. }
  remember (new_auto d fs) as s0 eqn:E0. clear E0. induction Hrt as [s|s1 s2 s3 Hst _ IH]; [done|]. apply IH. destruct Hst as [s|s|s now f].
  - unfold top_round. destruct (a_pos s) eqn:Hp; [|done..]. destruct (goes_on cfg s); cbn [negb]; [|destruct H0; by split].
    destruct (Nat.leb _ _); [done|]. pose proof (rows_without d (a_db s) id t) as Hrows. pose proof (find_tasks_db (a_db s)) as Hdb.
    destruct (find_tasks cfg nulls_first (a_db s)) as [[rows|e] d']; cbn in Hdb; subst d'; destruct H0 as [Ht Hn Hrw Hpw]; split; cbn; try done.
    intros rows' [= <-]. by apply Hrows.
  - by apply look_starved.
  - by apply finished_starved.
Qed.
End choice.

(** ** The end of the loop *)

Section ending.
Context `{SqlBackend} (cfg : auto_cfg) (nulls_first : bool).

(** One statement that fails while the sample of a task is looked up ends the
    loop, and nothing is begun afterwards, whatever happens. *)
Theorem failed_query_ends_loop s id t rows i s' : a_pos s = Looking ((id, t) :: rows) -> pending_task_id_map s !! id = None ->
  t_category t <> CUrl -> t_sample_id t = Some i -> answer (ticks (a_db s)) = Broken ->
  rtc (auto_step cfg nulls_first) (look_at cfg s) s' -> a_pos s' = Ended /\ begun s' = begun s.
Proof.
  intros Hp Hn Hc Hi Hb Hrt. assert (a_pos (look_at cfg s) = Ended /\ begun (look_at cfg s) = begun s) as [He Hbg].
  { unfold look_at. rewrite Hp, Hn. unfold copy_path_of. rewrite bool_decide_eq_false_2 by done. rewrite Hi.
    unfold view_sample, try_sql, scatch, query, sbind. rewrite Hb. by cbn. }
  rewrite <- Hbg. clear Hbg Hp. induction Hrt as [s1|s1 s2 s3 Hst _ IH]; [done|].
  assert (a_pos s2 = Ended /\ begun s2 = begun s1) as [E1 E2]; [|destruct (IH E1) as [? ->]; by rewrite E2].
  destruct Hst as [s1|s1|s1 now f j target copy _|s1 now f ok _|s1 d]; unfold top_round, look_at, worker_reports, finished; rewrite ?He; try done.
  by destruct (pending_future_map s1 !! f).
Qed.
End ending.

(** ** Examples *)

Definition finished_task (s : task_status) (at_ : Z) : Task := with_run s None (Some at_) (example_task 1 1 None None [] s).
Definition two_finished (s : task_status) : Database :=
  {| machines := ∅; tasks := {[ 1 := finished_task s 10; 2 := finished_task s 20 ]};
     samples := {[ 1 := {| s_md5 := ""; s_crc32 := ""; s_sha1 := ""; s_sha256 := "ab"; s_sha512 := ""; s_file_size := 1; s_file_type := ""; s_ssdeep := None;
                           s_parent := VNone; s_source_url := VNone |} ]}; guests := ∅; errors := ∅; ticks := 0 |}.
Definition auto_with (workers : nat) (failed : bool) : auto_cfg :=
  {| parallel := workers; maxcount := 0; failed_processing := failed; delete_bin_copy := true; delete_original := false; root := "/opt" |}.
Definition one_round (B : SqlBackend) (c : auto_cfg) (s : auto) : auto := look_at c (top_round c true s).
Lemma autoprocess_invariant_witness :
  let B := always_fine in let c := auto_with 1 false in (size (pending_task_id_map (one_round B c (new_auto (two_finished TASK_COMPLETED) ∅))) <= 1)%nat.
Proof.
  intros B c. refine (proj1 (proj2 (autoprocess_invariant c true (two_finished TASK_COMPLETED) ∅ _ _))).
  eapply rtc_l; [apply step_top|]. eapply rtc_l; [apply step_look|]. apply rtc_refl.
Defined.
Lemma oldest_waiting_begun_witness :
  let B := always_fine in let c := auto_with 1 false in let s := new_auto (two_finished TASK_COMPLETED) ∅ in
  exists r k, let s' := Nat.iter k (look_at c) (top_round c true s) in
    begun s' = begun s ++ [r.1] /\ is_Some (pending_task_id_map s' !! r.1) /\ pending_task_id_map s !! r.1 = None /\
    waits c (a_db s) r.1 r.2 /\ by_completion true r (2, finished_task TASK_COMPLETED 20) = true.
Proof.
  intros B c s. apply (oldest_waiting_begun always_fine_reliable c true s 2 (finished_task TASK_COMPLETED 20)); try done.
  - apply (bool_decide_unpack _); by vm_compute.
  - assert (map_Forall (fun _ u => t_sample_id u = Some 1) (tasks (two_finished TASK_COMPLETED))) as Hall by (apply (bool_decide_unpack _); by vm_compute).
    intros i u [Hi _]. right. exists 1. split; [exact (Hall i u Hi)|by eexists].
Defined.
Lemma processed_twice_witness :
  let B := always_fine in let c := auto_with 2 false in let s := top_round c true (one_round B c (new_auto (two_finished TASK_COMPLETED) ∅)) in
  exists s', rtc (auto_step c true) s s' /\ begun s' = [1; 1].
Proof.
  intros B c s.
  edestruct (processed_twice always_fine_reliable c true s 7 1 (finished_task TASK_COMPLETED 10) [(2, finished_task TASK_COMPLETED 20)] 0 "/tmp/a" None) as (Hrt & Hb & _).
  - by vm_compute.
  - apply top_ok, look_ok, top_ok, new_auto_ok.
  - by vm_compute.
  - apply (bool_decide_unpack _); by vm_compute.
  - right. exists 1. split; [done|]. apply (bool_decide_unpack _); by vm_compute.
  - eexists. split; [exact Hrt|exact Hb].
Defined.
Lemma failing_tasks_starve_witness :
  let B := always_fine in let c := auto_with 1 true in
  let s := one_round B c (finished 5 0 false (one_round B c (new_auto (two_finished TASK_FAILED_PROCESSING) ∅))) in 2 ∉ begun s.
Proof.
  intros B c s. apply (failing_tasks_starve always_fine_reliable c true (two_finished TASK_FAILED_PROCESSING) ∅ 2 (finished_task TASK_FAILED_PROCESSING 20) s).
  - done.
  - split; [by split|]. exists [(1, finished_task TASK_FAILED_PROCESSING 10)]. split_and!; [done|apply NoDup_singleton|by repeat constructor].
  - eapply rtc_l; [apply fail_top|]. eapply rtc_l; [apply fail_look|]. eapply rtc_l; [apply (fail_finished _ _ _ 5 0)|].
    eapply rtc_l; [apply fail_top|]. eapply rtc_l; [apply fail_look|]. apply rtc_refl.
Defined.
Lemma failed_query_ends_loop_witness :
  let B := simple_backend (fun n => if bool_decide (n = 1%nat) then Broken else Fine) in let c := auto_with 1 false in
  let s := top_round c true (new_auto (two_finished TASK_COMPLETED) ∅) in a_pos (look_at c s) = Ended.
Proof.
  intros B c s. refine (proj1 (failed_query_ends_loop c true s 1 (finished_task TASK_COMPLETED 10) [] 1 (look_at c s) _ _ _ _ _ _)); done.
Defined.
